(* ===== verification/_CoqProject ===== *)
-Q . S2P
Prelude.v
GoInt.v
GoString.v
GoFloat.v
Effects.v
PayModels.v
PayChain.v
PayStore.v
PayInvariant.v
PayStoreSpec.v
Consensus.v
Auth.v
ConsensusSpec.v
Localization.v
WalletService.v
WalletServiceSpec.v
PayResponder.v
PayResponderSpec.v
ChainGuard.v
GoText.v
Bus.v
Triples.v
TonWatcher.v
PayBot.v
PayBotSpec.v
Bank.v
PayKeyboards.v
License.v
LicenseSpec.v
PayClient.v
PayServerSpec.v
PayClientSpec.v
Revenue.v
RevenueSpec.v
Community.v
CommunitySpec.v
AdsModels.v
AdsStore.v
AdsRental.v
AdsCampaign.v
AdsBot.v
AdsSpec.v
AdsAccounts.v
AdsBotSpec.v
AdsPaySpec.v
AdsDemo.v
Threads.v
MemberCheck.v
MemberCheckSpec.v
MemberTruthSpec.v
MemberStore.v
MemberEvents.v
MemberBot.v
MemberIdleSpec.v
MemberDemo.v
Fraud.v
FraudEngine.v
FraudSpec.v
FraudRejoin.v
FraudDemo.v
Platform.v
Api.v
ApiFrame.v
ApiSpec.v
ApiDemo.v
AdmModels.v
AdmStore.v
AdmScheduler.v
AdmBot.v
AdmWindow.v
AdmFrame.v
AdmSpec.v
AdmSlots.v
AdmDemo.v
VpnStore.v
VpnAdapters.v
VpnBot.v
VpnFrame.v
VpnSpec.v
VpnDemo.v
