(* ===== verification/Prelude.v ===== *)
(** CreatorBot: a verification development for the Go services under src/.

    CreatorBot is a platform of Telegram bots and of the services behind them,
    which talk over a message bus (NATS) and keep their state in PostgreSQL,
    MongoDB, SQLite and Redis. Modelled are the services that handle money,
    licences, advertising, membership and trust. This file holds what they
    share: the order of the files below is the order of _CoqProject.

    ** Foundations

    - Prelude.v: automation ([zbool], [destruct_hyps]), sums over lists and maps,
      sorting.
    - GoInt.v: int64 and bigint arithmetic at their width, strconv. GoString.v
      and GoText.v: package strings, hex, Sscanf, float literals. GoFloat.v:
      float64 by the standard library's SpecFloat, with bounds on results
      whatever is rounded.
    - Effects.v: the monad [M D X] of the services, on tables [D] and whatever
      else the service keeps, [X]. Every statement, Redis call and query is one
      tick of an environment ([Env]) that decides whether it fails, what the
      clock says and which identifier is fresh, so a theorem over all
      environments holds for all failures. A transaction rolls back on an error
      and a failed statement aborts the one it is in, as in PostgreSQL.
      Triples.v: proof rules for what programs keep ([within]), for runs without
      failure ([runs]) and for results.
    - Bus.v: publishing, and the JSON payloads of events (field by field).
    - Threads.v: threads over one shared state, each command a step of its own
      (small steps [step]), with a program logic for all interleavings: a
      thread carries a ghost [G], [Inv] relates ghosts and state, [wp] is the
      precondition of a program, [good_reachable] the soundness theorem.

    ** botpay, the wallet (src/botpay/internal)

    - PayModels.v (store/models.go), PayChain.v (chain.go, ledger.go),
      PayStore.v (the repositories). PayInvariant.v: the money invariants in all
      reachable tables. PayStoreSpec.v: each method on every branch. Bank.v: a
      bank of accounts as specification, refined by the repository.
    - Consensus.v, ConsensusSpec.v (consensus/): four workers with databases of
      their own vote on each payment: quorum, replays, the verdict decided.
    - WalletService.v, WalletServiceSpec.v (wallet/wallet.go): deposits,
      payments, withdrawals through consensus and repository.
    - PayResponder.v, PayResponderSpec.v (payresponder/, shared/pkg/auth,
      shared-core/protocol): the request interface: who may call it, and that
      a retried payment is charged once.
    - ChainGuard.v (chainguard/), TonWatcher.v (ton/watcher.go): the periodic
      chain check and alarm; each transfer on the blockchain is handed on once.
    - Localization.v (i18n/), PayBot.v, PayBotSpec.v, PayKeyboards.v (tgbot/):
      conversations, callbacks and the owner's panel.

    ** Services that pay through botpay

    - PayClient.v (shared-core/natspayclient): the client, against the interface
      [PayPromise]; PayServerSpec.v discharges that interface for botpay,
      PayClientSpec.v proves the client against it, whatever the bus loses.
    - License.v, LicenseSpec.v (license-service).
    - Revenue.v, RevenueSpec.v (revenue-service): the shares of an earning.
    - Community.v, CommunitySpec.v (community-service).
    - AdsModels.v, AdsStore.v, AdsRental.v, AdsCampaign.v, AdsBot.v (ads-bot):
      the tables, the store, lock rentals, the campaign engine, the Telegram
      interface. AdsSpec.v: the life of a reward. AdsAccounts.v: what a rental
      bills. AdsBotSpec.v: what strangers cannot do. AdsPaySpec.v: ads-bot and
      botpay together. AdsDemo.v: concrete runs.

    ** Membership and trust

    - MemberCheck.v (member-bot/internal/worker, lock, memberresponder): jobs on
      a Redis stream, read by a pool of bots, as threads; [outcome] says what a
      Redis command answers, or that it failed before or after it took effect.
      MemberCheckSpec.v: at most one question to Telegram per job, and the fate
      of a job read by the wrong bot. MemberTruthSpec.v: answers are Telegram's.
    - MemberStore.v, MemberBot.v, MemberEvents.v (member-bot's store, tgbot,
      dispatcher, scheduler, events), MemberIdleSpec.v: what the service stores
      at all. MemberDemo.v: concrete runs.
    - Fraud.v, FraudEngine.v (fraud-engine): documents, scorers, listeners,
      recalculation. FraudSpec.v: range, coverage, strangers. FraudRejoin.v:
      the engine on member-bot's reports. FraudDemo.v: concrete documents.

    ** The platform

    - Auth.v (shared/pkg/auth): tokens and the encryption of bot tokens.
      Platform.v (shared-core/models, shared-core/store): users, servers,
      templates, instances, plans, subscriptions, promo codes, with the unique
      indexes and the locks of the store.
    - Api.v (apimanager/internal/handler, middleware, cmd/main.go): every
      endpoint that changes a table, moves money through botpay or commands a
      server, behind the middleware and the table of routes; the rate limiter
      and the sweep of servers. One request runs at a time, except that
      RedeemPromoCode locks its row. ApiFrame.v: which tables an endpoint may
      touch. ApiSpec.v: administrators only, the limits of a plan, the sale of a
      plan through botpay, promo codes, tokens, the login. ApiDemo.v: concrete
      requests.

    ** admanager-bot, the scheduler of advertisements

    - AdmModels.v (internal/models: documents, daily windows, typed schedules),
      AdmStore.v (internal/store), AdmScheduler.v (internal/scheduler), AdmBot.v
      (internal/tgbot; [adm_run] composes ticks, goroutines and updates as
      cmd/bot/main.go does). A goroutine of runJob starts in a tick and runs as
      one step at any later point, so jobs end in every order.
    - AdmWindow.v: the arithmetic of windows and slots, what can be typed.
      AdmFrame.v: every program is a sequence of primitive updates ([prim]), over
      which AdmSpec.v proves invariants ([under]): how often a job is started,
      what cancelling stops. AdmSlots.v: reservations: one open slot, plans that
      end at the window, what the window's end clears. AdmDemo.v: concrete runs.

    ** vpn-bot, the shop of VPN subscriptions

    - VpnStore.v (internal/models, internal/store, the unique index of
      cmd/bot/main.go), VpnAdapters.v (the wizard's state; the Marzban panel and
      the payment gateways of shared/pkg/adapters, internal/payment,
      internal/vpn), VpnBot.v (internal/tgbot, internal/scheduler; [vpn_run]
      composes updates and timers). Texts hold prices, so Sprintf("%.0f") and
      Sscanf("%f") are defined in VpnStore.v.
    - VpnFrame.v: every program is a sequence of primitive updates, over which
      an assertion is kept ([hold_run]). VpnSpec.v: wallets never go below zero,
      what strangers cannot do, each outcome of a purchase from the wallet, a
      reference of an online payment is honoured once, and where the index does
      not reach; approvals; notices. VpnDemo.v: concrete runs.

    ** How to read a definition

    A Go method is a definition of the same name (the few names that two files
    declare are told apart by the file); a struct is a record without the
    columns nobody reads; an error is a value of [error]; a method that returns
    a row with an error returns both, since some callers drop the error. Texts
    sent to users are short tags with the arguments of the Go text. Timestamps
    are nanoseconds.

    ** Bounds and fuel

    Loops that are not structural take a fuel that covers every run:
    [VerifyChain] one round more than there are ledger rows, as each round
    consumes one (proved enough in PayChain.v), [batchRecalcUsers] any fuel above
    the number of users (proved enough in FraudSpec.v), the slots of a day
    ([slots_from]) the 301 after which the code stops (schedule_view in
    AdmSlots.v), formatting an int64 64 digits.
    Polling loops (watcher, schedulers, bots) are sequences of their rounds.

    ** What is a parameter

    Cryptography ([Lib], [Crypto], [Jwt]), JSON of whole messages ([Json],
    [LicenseJson], [JsonMarshal]), uuid.Parse, numeric columns ([PgNumeric]),
    the conversion of a float that does not fit int64 ([F64Platform]; two
    instances; no fused multiply-add), replies of other services over HTTP or
    the bus ([FraudReplies]), Telegram's answers and how sort.Slice orders ties
    ([AdsAnswers], [MemberAnswers]), Telegram's side of admanager-bot
    ([AdmTelegram], [AdmDirectory]), the panel, the payment gateways and Telegram
    as vpn-bot sees them ([VpnAnswers]), the choice of a row without an order and the
    text forms of the API ([PgChoices], [JwtParser], [ApiFormats]), locale files
    ([Locales]). Laws used of them
    are classes of their own ([LibLaws], [CryptoLaws], [JsonLaws], [JwtLaws],
    [PgNumericLaws]) with instances where a theorem is applied. PostgreSQL,
    MongoDB and Redis are modelled by the statements the code issues: unique
    indexes, aborted transactions, columns that do not exist, conflicting
    MongoDB operators, streams with consumer groups, expiring keys.

    ** Not modelled

    Database sessions of one service are serial, except where a theorem is about
    two of them (RevenueSpec.v, LicenseSpec.v) and in MemberCheck.v. Logging,
    metrics, configuration and wiring of main functions are left out. A time
    zone is a fixed offset without daylight saving, AddDate(0, 0, n) is n days of
    86400 s, the bot of admanager-bot always reaches its owner and vpn-bot the
    sender of an update; rows that vpn-bot reads without an order come in the
    order of their creation. Of the other programs of the repository:
    uploader-bot and botmanager are Telegram front ends in front of stores;
    apimanager's endpoints that only list rows or forward to uploader-bot and
    the image registry, and the store methods only botmanager calls, have no
    rules beyond their queries. archive-bot, source-service, agentmanager,
    image-registry, webhook-gateway, log-collector and dbmigrate are input and
    output around third-party libraries. *)
From Stdlib Require Export ZArith Lia Bool Ascii String.
From stdpp Require Export base tactics list gmap strings sorting.
#[export] Set Default Goal Selector "!".
Open Scope Z_scope.

(** * Automation *)

Create HintDb botpay discriminated.

(** Splits conjunctions, existentials and boolean connectives in the context. *)
Ltac destruct_hyps :=
  repeat match goal with
  | H : _ /\ _ |- _ => destruct H
  | H : exists _, _ |- _ => destruct H
  | H : (_ && _)%bool = true |- _ => apply andb_prop in H
  | H : (_ || _)%bool = false |- _ => apply orb_false_elim in H
  end.

(** Turns the boolean integer tests of the code into propositions. *)
Ltac zbool :=
  repeat match goal with
  | H : (_ <=? _)%Z = true |- _ => apply Z.leb_le in H
  | H : (_ <=? _)%Z = false |- _ => apply Z.leb_gt in H
  | H : (_ <? _)%Z = true |- _ => apply Z.ltb_lt in H
  | H : (_ <? _)%Z = false |- _ => apply Z.ltb_ge in H
  | H : (_ >=? _)%Z = true |- _ => rewrite Z.geb_leb in H
  | H : (_ >=? _)%Z = false |- _ => rewrite Z.geb_leb in H
  | H : (_ >? _)%Z = true |- _ => rewrite Z.gtb_ltb in H
  | H : (_ >? _)%Z = false |- _ => rewrite Z.gtb_ltb in H
  | H : (_ =? _)%Z = true |- _ => apply Z.eqb_eq in H
  | H : (_ =? _)%Z = false |- _ => apply Z.eqb_neq in H
  | H : (_ =? _)%string = true |- _ => apply String.eqb_eq in H
  | H : (_ =? _)%string = false |- _ => apply String.eqb_neq in H
  | H : negb _ = true |- _ => apply negb_true_iff in H
  | H : negb _ = false |- _ => apply negb_false_iff in H
  | H : bool_decide _ = true |- _ => apply bool_decide_eq_true in H
  | H : bool_decide _ = false |- _ => apply bool_decide_eq_false in H
  end.

(** * Sums *)

Fixpoint sumZ {A} (f : A -> Z) (l : list A) : Z :=
  match l with
  | [] => 0
  | x :: l => f x + sumZ f l
  end.

Lemma sumZ_app {A} (f : A -> Z) l1 l2 : sumZ f (l1 ++ l2) = sumZ f l1 + sumZ f l2.
Proof. induction l1 as [|x l1 IH]; simpl; lia. Qed.

Lemma sumZ_perm {A} (f : A -> Z) l1 l2 : Permutation l1 l2 -> sumZ f l1 = sumZ f l2.
Proof. induction 1; simpl; lia. Qed.

Lemma sumZ_nonneg {A} (f : A -> Z) l : (forall x, x ∈ l -> 0 <= f x) -> 0 <= sumZ f l.
Proof.
  induction l as [|x l IH]; simpl; intros H; [lia|].
  pose proof (H x ltac:(set_solver)).
  assert (0 <= sumZ f l) by (apply IH; set_solver). lia.
Qed.

Lemma sumZ_ext {A} (f g : A -> Z) l : (forall x, x ∈ l -> f x = g x) -> sumZ f l = sumZ g l.
Proof.
  induction l as [|x l IH]; simpl; intros H; [done|].
  rewrite (H x), IH; [done|set_solver|set_solver].
Qed.

Lemma sumZ_zero {A} (f : A -> Z) l : (forall x, x ∈ l -> f x = 0) -> sumZ f l = 0.
Proof.
  induction l as [|x l IH]; simpl; intros H; [done|].
  rewrite (H x), IH; [done|set_solver|set_solver].
Qed.

(** Sum of [f] over the rows of a table keyed by id. *)
Definition map_sum `{Countable K} {A} (f : A -> Z) (m : gmap K A) : Z :=
  sumZ (fun kv => f kv.2) (map_to_list m).

Section map_sum.
Context `{Countable K} {A : Type}.
Implicit Types (m : gmap K A) (f : A -> Z).

Lemma map_sum_empty f : map_sum f (∅ : gmap K A) = 0.
Proof. unfold map_sum. by rewrite map_to_list_empty. Qed.

Lemma map_sum_insert_new f m k x :
  m !! k = None -> map_sum f (<[k:=x]> m) = f x + map_sum f m.
Proof.
  intros Hk. unfold map_sum.
  rewrite (sumZ_perm _ _ _ (map_to_list_insert m k x Hk)). done.
Qed.

Lemma map_sum_delete f m k x :
  m !! k = Some x -> map_sum f m = f x + map_sum f (delete k m).
Proof.
  intros Hk. rewrite <- (map_sum_insert_new f (delete k m) k x).
  - by rewrite insert_delete_eq, insert_id.
  - apply lookup_delete_eq.
Qed.

Lemma map_sum_insert f m k x y :
  m !! k = Some x -> map_sum f (<[k:=y]> m) = map_sum f m + (f y - f x).
Proof.
  intros Hk. rewrite (map_sum_delete f m k x Hk).
  rewrite <- (insert_delete_eq m k y).
  rewrite map_sum_insert_new; [lia|apply lookup_delete_eq].
Qed.

Lemma map_sum_ext f g m :
  (forall k x, m !! k = Some x -> f x = g x) -> map_sum f m = map_sum g m.
Proof.
  intros Hfg. unfold map_sum.
  assert (Hin : forall kv, kv ∈ map_to_list m -> f kv.2 = g kv.2).
  { intros [k x] Hkx. apply elem_of_map_to_list in Hkx. by apply (Hfg k). }
  induction (map_to_list m) as [|kv l IH]; simpl; [done|].
  rewrite (Hin kv) by set_solver. f_equal. apply IH. set_solver.
Qed.

Lemma map_sum_plus f g m : map_sum (fun x => f x + g x) m = map_sum f m + map_sum g m.
Proof. unfold map_sum. induction (map_to_list m); simpl; lia. Qed.

Lemma map_sum_scale c f m : map_sum (fun x => c * f x) m = c * map_sum f m.
Proof. unfold map_sum. induction (map_to_list m); simpl; lia. Qed.

Lemma map_sum_zero f m : (forall k x, m !! k = Some x -> f x = 0) -> map_sum f m = 0.
Proof.
  intros Hf. apply sumZ_zero. intros [k x] Hkx. apply elem_of_map_to_list in Hkx. by apply (Hf k).
Qed.

Lemma map_sum_nonneg f m :
  (forall k x, m !! k = Some x -> 0 <= f x) -> 0 <= map_sum f m.
Proof.
  intros Hf. apply sumZ_nonneg. intros [k x] Hkx.
  apply elem_of_map_to_list in Hkx. by apply (Hf k).
Qed.
End map_sum.

(** * Selecting one row: [ORDER BY key LIMIT 1] *)

(** The row of [l] satisfying [P] with the least [key] (the first one on a tie). *)
Fixpoint first_by {A} (key : A -> Z) (P : A -> bool) (l : list A) : option A :=
  match l with
  | [] => None
  | x :: l =>
      let rest := first_by key P l in
      if P x then
        match rest with
        | Some y => if key y <? key x then Some y else Some x
        | None => Some x
        end
      else rest
  end.

Lemma first_by_some {A} key P (l : list A) x :
  first_by key P l = Some x -> x ∈ l /\ P x = true.
Proof.
  induction l as [|y l IH]; simpl; [done|].
  destruct (P y) eqn:Py.
  - destruct (first_by key P l) as [z|] eqn:E.
    + destruct (key z <? key y); intros [= <-]; [|set_solver].
      destruct IH as [? ?]; [done|]. split; [set_solver|done].
    + intros [= <-]. set_solver.
  - intros H. destruct IH as [? ?]; [done|]. split; [set_solver|done].
Qed.

Lemma first_by_none {A} key P (l : list A) :
  first_by key P l = None <-> forall x, x ∈ l -> P x = false.
Proof.
  induction l as [|y l IH]; simpl.
  - split; [intros _ x Hx; set_solver|done].
  - destruct (P y) eqn:Py.
    + split; [|intros H; specialize (H y ltac:(set_solver)); congruence].
      destruct (first_by key P l); [destruct (_ <? _)|]; done.
    + rewrite IH. split; intros H x Hx; [|apply H; set_solver].
      apply elem_of_cons in Hx as [->|Hx]; [done|auto].
Qed.

Lemma first_by_min {A} key P (l : list A) x :
  first_by key P l = Some x -> forall y, y ∈ l -> P y = true -> key x <= key y.
Proof.
  revert x. induction l as [|z l IH]; simpl; intros x; [done|].
  intros Hx y Hy Py. apply elem_of_cons in Hy as [->|Hy].
  - rewrite Py in Hx. destruct (first_by key P l) as [w|].
    + destruct (key w <? key z) eqn:E; injection Hx as <-; zbool; lia.
    + injection Hx as <-. lia.
  - destruct (P z) eqn:Pz; [|eauto].
    destruct (first_by key P l) as [w|] eqn:E.
    + specialize (IH w eq_refl y Hy Py).
      destruct (key w <? key z) eqn:E2; injection Hx as <-; zbool; lia.
    + rewrite first_by_none in E. rewrite E in Py; done.
Qed.

(** A unique match is the one selected. *)
Lemma first_by_unique {A} key P (l : list A) x :
  x ∈ l -> P x = true -> (forall y, y ∈ l -> P y = true -> y = x) ->
  first_by key P l = Some x.
Proof.
  intros Hx Px Huniq. destruct (first_by key P l) as [y|] eqn:E.
  - apply first_by_some in E as [Hy Py]. f_equal. auto.
  - rewrite first_by_none in E. rewrite E in Px; done.
Qed.

#[export] Hint Rewrite @sumZ_app @map_sum_empty : botpay.
