(* ===== verification/GoInt.v ===== *)
(** Go's int64 arithmetic, PostgreSQL's bigint arithmetic, and the integer
    formatting and parsing of strconv that the services use. *)
From S2P Require Import Prelude.

(** * int64 *)

Definition int64_min : Z := -9223372036854775808.
Definition int64_max : Z := 9223372036854775807.

Definition in_int64 (z : Z) : Prop := int64_min <= z <= int64_max.
Definition in_int64b (z : Z) : bool := (int64_min <=? z) && (z <=? int64_max).

(** Two's-complement wrap-around of Go's int64 operations. *)
Definition wrap64 (z : Z) : Z := (z + 9223372036854775808) mod 18446744073709551616 - 9223372036854775808.

Definition i64_add (a b : Z) : Z := wrap64 (a + b).
Definition i64_sub (a b : Z) : Z := wrap64 (a - b).
Definition i64_mul (a b : Z) : Z := wrap64 (a * b).
Definition i64_neg (a : Z) : Z := wrap64 (- a).

(** A bigint expression evaluated by PostgreSQL: out of range is an error. *)
Definition sql_bigint (z : Z) : option Z := if in_int64b z then Some z else None.

Lemma in_int64b_spec z : in_int64b z = true <-> in_int64 z.
Proof. unfold in_int64b, in_int64. rewrite andb_true_iff, !Z.leb_le. done. Qed.

Lemma wrap64_id z : in_int64 z -> wrap64 z = z.
Proof.
  unfold in_int64, int64_min, int64_max, wrap64. intros H.
  rewrite Z.mod_small; lia.
Qed.

Lemma wrap64_range z : in_int64 (wrap64 z).
Proof.
  unfold in_int64, int64_min, int64_max, wrap64.
  pose proof (Z.mod_pos_bound (z + 9223372036854775808) 18446744073709551616). lia.
Qed.

Lemma wrap64_over z :
  int64_max < z <= int64_max + 18446744073709551616 ->
  wrap64 z = z - 18446744073709551616.
Proof.
  unfold int64_max, wrap64. intros H.
  replace (z + 9223372036854775808)
    with (z - 9223372036854775808 + 1 * 18446744073709551616) by lia.
  rewrite Z.mod_add by lia. rewrite Z.mod_small; lia.
Qed.

Lemma wrap64_sub x y : wrap64 (wrap64 x - y) = wrap64 (x - y).
Proof.
  unfold wrap64. f_equal.
  match goal with |- (?a - ?b - y + ?b) mod ?m = _ =>
    replace (a - b - y + b) with (a - y) by lia end.
  rewrite Zminus_mod_idemp_l. f_equal. lia.
Qed.

(** Wrapping never raises a value that is not below the least int64. *)
Lemma wrap64_le z : int64_min <= z -> wrap64 z <= z.
Proof.
  unfold int64_min, wrap64. intros Hz.
  pose proof (Z.mod_le (z + 9223372036854775808) 18446744073709551616). lia.
Qed.

Lemma sql_bigint_some z r : sql_bigint z = Some r <-> r = z /\ in_int64 z.
Proof.
  unfold sql_bigint. destruct (in_int64b z) eqn:E.
  - rewrite in_int64b_spec in E. naive_solver.
  - assert (~ in_int64 z) by (rewrite <- in_int64b_spec; congruence). naive_solver.
Qed.

Ltac i64 :=
  unfold i64_add, i64_sub, i64_mul, i64_neg, in_int64, int64_min, int64_max in *;
  rewrite ?wrap64_id by (unfold in_int64, int64_min, int64_max in *; lia).

(** * strconv.FormatInt *)

(** The digit characters of strconv: 0-9 then a-z. *)
Definition digit_char (d : Z) : ascii :=
  if d <? 10 then ascii_of_nat (Z.to_nat (48 + d)) else ascii_of_nat (Z.to_nat (87 + d)).

Definition digit_val (c : ascii) : option Z :=
  let n := Z.of_nat (nat_of_ascii c) in
  if (48 <=? n) && (n <=? 57) then Some (n - 48)
  else if (97 <=? n) && (n <=? 122) then Some (n - 87)
  else None.

Lemma digit_val_char d : 0 <= d < 36 -> digit_val (digit_char d) = Some d.
Proof.
  intros Hd.
  assert (Hall : forallb (fun n => match digit_val (digit_char (Z.of_nat n)) with
                                   | Some k => k =? Z.of_nat n | None => false end)
                         (List.seq 0 36) = true) by (vm_compute; reflexivity).
  rewrite forallb_forall in Hall.
  specialize (Hall (Z.to_nat d)). rewrite List.in_seq, Z2Nat.id in Hall by lia.
  specialize (Hall ltac:(lia)).
  destruct (digit_val (digit_char d)); [|done]. zbool. congruence.
Qed.

(** Digits of [n >= 0] in base [base], least significant digit consumed first,
    prepended to [acc]; 64 digits are enough for any uint64 in base >= 2. *)
Fixpoint format_digits (fuel : nat) (base n : Z) (acc : string) : string :=
  match fuel with
  | O => acc
  | S fuel =>
      let acc := String (digit_char (n mod base)) acc in
      if n / base =? 0 then acc else format_digits fuel base (n / base) acc
  end.

Definition FormatUint (base n : Z) : string := format_digits 64 base n "".

Definition FormatInt (base n : Z) : string :=
  if n <? 0 then String "-" (FormatUint base (- n)) else FormatUint base n.

(** * Reading digits back *)

Fixpoint parse_digits (base acc : Z) (s : string) : option Z :=
  match s with
  | EmptyString => Some acc
  | String c s =>
      match digit_val c with
      | Some d => if d <? base then parse_digits base (acc * base + d) s else None
      | None => None
      end
  end.

(** strconv.ParseInt(s, base, 64) for 2 <= base <= 36 on lower-case digits:
    an optional sign, at least one digit, and a value in range. *)
Definition ParseInt (base : Z) (s : string) : option Z :=
  let unsigned (u : string) :=
    match u with EmptyString => None | _ => parse_digits base 0 u end in
  let r :=
    match s with
    | EmptyString => None
    | String c rest =>
        if Ascii.eqb c "-" then Z.opp <$> unsigned rest
        else if Ascii.eqb c "+" then unsigned rest
        else unsigned s
    end in
  match r with
  | Some z => if in_int64b z then Some z else None
  | None => None
  end.

(** The value that ParseInt returns together with its error: 0 on a syntax
    error, the nearest int64 when the number is out of range. *)
Fixpoint scan_uint (base acc : Z) (s : string) : option Z :=
  match s with
  | EmptyString => Some acc
  | String c s =>
      match digit_val c with
      | Some d =>
          if d <? base
          then let acc := acc * base + d in
               if 18446744073709551615 <? acc then Some 18446744073709551615 else scan_uint base acc s
          else None
      | None => None
      end
  end.
Definition ParseInt_value (base : Z) (s : string) : Z :=
  let unsigned (u : string) :=
    match u with EmptyString => None | _ => scan_uint base 0 u end in
  let signed (neg : bool) (u : string) :=
    match unsigned u with
    | None => 0
    | Some un => if neg then Z.max (- un) int64_min else Z.min un int64_max
    end in
  match s with
  | EmptyString => 0
  | String c rest =>
      if Ascii.eqb c "-" then signed true rest
      else if Ascii.eqb c "+" then signed false rest
      else signed false s
  end.

Section format_parse.
Context (base : Z) (Hbase : 2 <= base <= 36).

Lemma parse_format_digits fuel n acc a :
  0 <= n < base ^ (Z.of_nat fuel) -> (0 < fuel)%nat ->
  exists k, parse_digits base a (format_digits fuel base n acc)
            = parse_digits base (a * base ^ k + n) acc /\ 0 < k.
Proof using Hbase.
  revert n acc a. induction fuel as [|fuel IH]; intros n acc a Hn Hf; [lia|].
  simpl. pose proof (Z.mod_pos_bound n base).
  pose proof (Z.div_mod n base ltac:(lia)).
  destruct (n / base =? 0) eqn:E; zbool.
  - exists 1. simpl. rewrite digit_val_char by lia.
    rewrite (proj2 (Z.ltb_lt _ _)) by lia. split; [|lia]. f_equal. lia.
  - assert (0 <= n / base) by (apply Z.div_pos; lia).
    rewrite Nat2Z.inj_succ, Z.pow_succ_r in Hn by lia.
    assert (n / base < base ^ Z.of_nat fuel) by (apply Z.div_lt_upper_bound; lia).
    assert (0 < fuel)%nat.
    { destruct fuel; [simpl in *; lia|lia]. }
    destruct (IH (n / base) (String (digit_char (n mod base)) acc) a) as (k & Hk & Hk0);
      [lia|done|].
    exists (k + 1). rewrite Hk. simpl. rewrite digit_val_char by lia.
    rewrite (proj2 (Z.ltb_lt _ _)) by lia. split; [|lia]. f_equal.
    rewrite Z.pow_add_r by lia. nia.
Qed.

Lemma format_digits_head fuel n acc :
  (0 < fuel)%nat ->
  0 <= n ->
  exists d rest, 0 <= d < 36 /\ format_digits fuel base n acc = String (digit_char d) rest.
Proof using Hbase.
  revert n acc. induction fuel as [|fuel IH]; intros n acc Hf Hn; [lia|].
  simpl. pose proof (Z.mod_pos_bound n base).
  destruct (n / base =? 0); [exists (n mod base), acc; split; [lia|done]|].
  destruct fuel as [|fuel]; [exists (n mod base), acc; split; [lia|done]|].
  apply IH; [lia|]. apply Z.div_pos; lia.
Qed.

Lemma pow64_ge : 18446744073709551616 <= base ^ 64.
Proof using Hbase.
  transitivity (2 ^ 64); [vm_compute; discriminate|].
  apply Z.pow_le_mono_l; lia.
Qed.

Lemma digit_char_not_sign d :
  0 <= d < 36 -> Ascii.eqb (digit_char d) "-" = false /\ Ascii.eqb (digit_char d) "+" = false.
Proof.
  intros Hd. pose proof (digit_val_char d Hd) as Hv.
  split; apply Ascii.eqb_neq; intros E; rewrite E in Hv; discriminate.
Qed.

(** Formatting then parsing an int64 gives it back. *)
Lemma ParseInt_FormatInt n : in_int64 n -> ParseInt base (FormatInt base n) = Some n.
Proof using Hbase.
  intros Hn. pose proof pow64_ge as Hp.
  assert (Habs : 0 <= Z.abs n < base ^ Z.of_nat 64)
    by (unfold in_int64, int64_min, int64_max in *; simpl Z.of_nat; lia).
  destruct (parse_format_digits 64 (Z.abs n) "" 0 Habs ltac:(lia)) as (k & Hk & _).
  destruct (format_digits_head 64 (Z.abs n) "" ltac:(lia) ltac:(lia)) as (d & rest & Hd & Hfd).
  unfold ParseInt, FormatInt, FormatUint.
  destruct (n <? 0) eqn:En; zbool.
  - rewrite Z.abs_neq in * by lia. simpl (Ascii.eqb _ _).
    rewrite Hfd. rewrite <- Hfd, Hk. cbn [parse_digits fmap option_fmap option_map].
    replace (- (0 * base ^ k + - n)) with n by lia.
    by rewrite (proj2 (in_int64b_spec n)).
  - rewrite Z.abs_eq in * by lia. rewrite Hfd.
    destruct (digit_char_not_sign d Hd) as [-> ->].
    rewrite <- Hfd, Hk. cbn [parse_digits].
    replace (0 * base ^ k + n) with n by lia.
    by rewrite (proj2 (in_int64b_spec n)).
Qed.

Lemma FormatInt_inj n m :
  in_int64 n -> in_int64 m -> FormatInt base n = FormatInt base m -> n = m.
Proof using Hbase.
  intros Hn Hm E. apply ParseInt_FormatInt in Hn, Hm. congruence.
Qed.
End format_parse.

(** Every character of a formatted integer is a digit or the sign. *)
Fixpoint all_chars (P : ascii -> bool) (s : string) : bool :=
  match s with EmptyString => true | String c s => P c && all_chars P s end.

Definition is_int_char (c : ascii) : bool :=
  Ascii.eqb c "-" || match digit_val c with Some _ => true | None => false end.

Lemma format_digits_chars fuel base n acc :
  2 <= base <= 36 -> 0 <= n -> all_chars is_int_char acc = true ->
  all_chars is_int_char (format_digits fuel base n acc) = true.
Proof.
  intros Hb. revert n acc. induction fuel as [|fuel IH]; intros n acc Hn Hacc; [done|].
  simpl. pose proof (Z.mod_pos_bound n base).
  assert (all_chars is_int_char (String (digit_char (n mod base)) acc) = true).
  { simpl. rewrite Hacc. unfold is_int_char. rewrite digit_val_char by lia.
    by rewrite orb_true_r. }
  destruct (n / base =? 0); [done|]. apply IH; [apply Z.div_pos; lia|done].
Qed.

Lemma FormatInt_chars base n :
  2 <= base <= 36 -> all_chars is_int_char (FormatInt base n) = true.
Proof.
  intros Hb. unfold FormatInt, FormatUint. destruct (n <? 0) eqn:E; zbool.
  - cbn [all_chars]. rewrite format_digits_chars; [done|done|lia|done].
  - apply format_digits_chars; [done|lia|done].
Qed.

#[export] Hint Resolve wrap64_range : botpay.
