(* ===== verification/GoString.v ===== *)
(** Go strings (byte sequences) and the functions of package strings and
    encoding/hex that the services call. *)
From S2P Require Import Prelude GoInt.

(** len(s) *)
Definition strlen (s : string) : Z := Z.of_nat (String.length s).

(** strings.HasPrefix(s, prefix) *)
Fixpoint HasPrefix (s prefix : string) {struct prefix} : bool :=
  match prefix, s with
  | EmptyString, _ => true
  | String p prefix, String c s => Ascii.eqb p c && HasPrefix s prefix
  | String _ _, EmptyString => false
  end.

Fixpoint drop_chars (n : nat) (s : string) : string :=
  match n, s with
  | S n, String _ s => drop_chars n s
  | _, _ => s
  end.

(** strings.TrimPrefix(s, prefix) *)
Definition TrimPrefix (s prefix : string) : string :=
  if HasPrefix s prefix then drop_chars (String.length prefix) s else s.

Fixpoint rev_append_string (s acc : string) : string :=
  match s with
  | EmptyString => acc
  | String c s => rev_append_string s (String c acc)
  end.
Definition rev_string (s : string) : string := rev_append_string s "".

Definition byte_of (c : ascii) : Z := Z.of_nat (nat_of_ascii c).

(** Length in bytes of the white-space character (unicode.IsSpace) encoded at
    the front of [s], 0 when there is none. *)
Definition space_len (s : string) : nat :=
  match s with
  | String c s1 =>
      let b := byte_of c in
      if ((9 <=? b) && (b <=? 13)) || (b =? 32) then 1%nat
      else match s1 with
      | String c1 s2 =>
          let b1 := byte_of c1 in
          if (b =? 194) && ((b1 =? 133) || (b1 =? 160)) then 2%nat
          else match s2 with
          | String c2 _ =>
              let b2 := byte_of c2 in
              if ((b =? 225) && (b1 =? 154) && (b2 =? 128))
                 || ((b =? 226) && (b1 =? 128) && (128 <=? b2) && (b2 <=? 138))
                 || ((b =? 226) && (b1 =? 128) && ((b2 =? 168) || (b2 =? 169) || (b2 =? 175)))
                 || ((b =? 226) && (b1 =? 129) && (b2 =? 159))
                 || ((b =? 227) && (b1 =? 128) && (b2 =? 128))
              then 3%nat else 0%nat
          | EmptyString => 0%nat
          end
      | EmptyString => 0%nat
      end
  | EmptyString => 0%nat
  end.

(** The same test at the back of a string, given reversed. *)
Definition space_len_rev (r : string) : nat :=
  match r with
  | EmptyString => 0%nat
  | String a EmptyString => if (space_len (String a "") =? 1)%nat then 1%nat else 0%nat
  | String a (String b r2) =>
      if (space_len (String a "") =? 1)%nat then 1%nat
      else if (space_len (String b (String a "")) =? 2)%nat then 2%nat
      else match r2 with
      | String c _ =>
          if (space_len (String c (String b (String a ""))) =? 3)%nat then 3%nat else 0%nat
      | EmptyString => 0%nat
      end
  end.

Fixpoint trim_with (len : string -> nat) (fuel : nat) (s : string) : string :=
  match fuel with
  | O => s
  | S fuel =>
      match len s with
      | O => s
      | n => trim_with len fuel (drop_chars n s)
      end
  end.

Definition TrimLeftSpace (s : string) : string := trim_with space_len (String.length s) s.
Definition TrimRightSpace (s : string) : string :=
  let r := rev_string s in rev_string (trim_with space_len_rev (String.length r) r).

(** strings.TrimSpace(s) *)
Definition TrimSpace (s : string) : string := TrimRightSpace (TrimLeftSpace s).

(** Lower-case hexadecimal of a byte sequence: hex.EncodeToString *)
Definition hex_digit (d : Z) : ascii :=
  if d <? 10 then ascii_of_nat (Z.to_nat (48 + d)) else ascii_of_nat (Z.to_nat (87 + d)).

Fixpoint HexEncode (s : string) : string :=
  match s with
  | EmptyString => ""
  | String c s =>
      String (hex_digit (byte_of c / 16)) (String (hex_digit (byte_of c mod 16)) (HexEncode s))
  end.

Definition hex_val (c : ascii) : option Z :=
  let n := byte_of c in
  if (48 <=? n) && (n <=? 57) then Some (n - 48)
  else if (97 <=? n) && (n <=? 102) then Some (n - 87)
  else if (65 <=? n) && (n <=? 70) then Some (n - 55)
  else None.

(** hex.DecodeString *)
Fixpoint HexDecode (s : string) : option string :=
  match s with
  | EmptyString => Some ""
  | String a (String b s) =>
      match hex_val a, hex_val b, HexDecode s with
      | Some x, Some y, Some r => Some (String (ascii_of_nat (Z.to_nat (16 * x + y))) r)
      | _, _, _ => None
      end
  | String _ EmptyString => None
  end.

(** strings.ToUpper on ASCII letters. *)
Definition upper_char (c : ascii) : ascii :=
  let n := byte_of c in
  if (97 <=? n) && (n <=? 122) then ascii_of_nat (Z.to_nat (n - 32)) else c.
Fixpoint ToUpper (s : string) : string :=
  match s with EmptyString => "" | String c s => String (upper_char c) (ToUpper s) end.

(** strings.ToLower on ASCII letters. *)
Definition lower_char (c : ascii) : ascii :=
  let n := byte_of c in
  if (65 <=? n) && (n <=? 90) then ascii_of_nat (Z.to_nat (n + 32)) else c.
Fixpoint ToLower (s : string) : string :=
  match s with EmptyString => "" | String c s => String (lower_char c) (ToLower s) end.

(** * Lemmas *)

#[local] Arguments String.append !_ _ / : simpl nomatch.

Lemma append_nil_r s : s +:+ "" = s.
Proof. induction s as [|c s IH]; simpl; [done|by rewrite IH]. Qed.

Lemma append_assoc s t u : (s +:+ t) +:+ u = s +:+ (t +:+ u).
Proof. induction s as [|c s IH]; simpl; [done|by rewrite IH]. Qed.

Lemma append_inj_l s t u : s +:+ t = s +:+ u -> t = u.
Proof. induction s as [|c s IH]; simpl; [done|]. intros [= H]. auto. Qed.

Lemma length_append s t : String.length (s +:+ t) = (String.length s + String.length t)%nat.
Proof. induction s as [|c s IH]; simpl; [done|by rewrite IH]. Qed.

Lemma append_inj s1 s2 t1 t2 :
  String.length s1 = String.length s2 -> s1 +:+ t1 = s2 +:+ t2 -> s1 = s2 /\ t1 = t2.
Proof.
  revert s2. induction s1 as [|c s1 IH]; intros [|d s2]; simpl; try done.
  intros [= Hl] [= -> Ht]. destruct (IH s2 Hl Ht) as [-> ->]. done.
Qed.

Lemma append_inj_r s t u : s +:+ u = t +:+ u -> s = t.
Proof.
  intros H. apply (append_inj s t u u); [|done].
  apply (f_equal String.length) in H. rewrite !length_append in H. lia.
Qed.

Lemma HasPrefix_app p s : HasPrefix (p +:+ s) p = true.
Proof. induction p as [|c p IH]; simpl; [done|]. by rewrite Ascii.eqb_refl. Qed.

Lemma HasPrefix_spec s p : HasPrefix s p = true <-> exists t, s = p +:+ t.
Proof.
  split; [|intros [t ->]; apply HasPrefix_app].
  revert s. induction p as [|c p IH]; intros s; simpl.
  - intros _. by exists s.
  - destruct s as [|d s]; [done|]. intros H. apply andb_prop in H as [Hc Hp].
    apply Ascii.eqb_eq in Hc as ->. destruct (IH s Hp) as [t ->]. by exists t.
Qed.

Lemma TrimPrefix_app p s : TrimPrefix (p +:+ s) p = s.
Proof.
  unfold TrimPrefix. rewrite HasPrefix_app. by induction p as [|c p IH].
Qed.

Fixpoint has_char (c : ascii) (s : string) : bool :=
  match s with EmptyString => false | String d s => Ascii.eqb c d || has_char c s end.

Lemma has_char_append c s t : has_char c (s +:+ t) = has_char c s || has_char c t.
Proof. induction s as [|d s IH]; simpl; [done|]. by rewrite IH, orb_assoc. Qed.

(** A decimal number has no other characters. *)
Lemma int_no_char c n : is_int_char c = false -> has_char c (FormatInt 10 n) = false.
Proof.
  intros Hc. assert (Hall : forall s, all_chars is_int_char s = true -> has_char c s = false).
  { induction s as [|d s IH]; [done|]. cbn [all_chars has_char]. intros Hs.
    apply andb_prop in Hs as [Hd Hs]. rewrite (IH Hs), orb_false_r. apply Ascii.eqb_neq. intros ->. congruence. }
  apply Hall, FormatInt_chars. lia.
Qed.

(** Splitting at the first separator is unambiguous. *)
Lemma sep_inj_first c s1 s2 t1 t2 :
  has_char c s1 = false -> has_char c s2 = false ->
  s1 +:+ String c t1 = s2 +:+ String c t2 -> s1 = s2 /\ t1 = t2.
Proof.
  revert s2. induction s1 as [|a s1 IH]; intros [|b s2]; simpl; intros H1 H2.
  - intros [= ->]. done.
  - intros [= <- _]. by rewrite Ascii.eqb_refl in H2.
  - intros [= -> _]. by rewrite Ascii.eqb_refl in H1.
  - apply orb_false_elim in H1 as [_ H1], H2 as [_ H2]. intros [= -> H].
    destruct (IH s2 H1 H2 H) as [-> ->]. done.
Qed.

Lemma append_split s1 s2 t1 t2 :
  s1 +:+ t1 = s2 +:+ t2 ->
  (exists u, s1 = s2 +:+ u /\ t2 = u +:+ t1) \/ (exists u, s2 = s1 +:+ u /\ t1 = u +:+ t2).
Proof.
  revert s2. induction s1 as [|a s1 IH]; intros s2 H.
  - right. exists s2. done.
  - destruct s2 as [|b s2].
    + left. exists (String a s1). done.
    + simpl in H. injection H as -> H. destruct (IH s2 H) as [(u & -> & ->)|(u & -> & ->)].
      * left. by exists u.
      * right. by exists u.
Qed.

(** Splitting at the last separator is unambiguous too. *)
Lemma sep_inj_last c s1 s2 t1 t2 :
  has_char c t1 = false -> has_char c t2 = false ->
  s1 +:+ String c t1 = s2 +:+ String c t2 -> s1 = s2 /\ t1 = t2.
Proof.
  intros H1 H2 H. destruct (append_split _ _ _ _ H) as [(u & Hu & Ht)|(u & Hu & Ht)].
  - destruct u as [|b u]; simpl in Ht.
    + injection Ht as ->. rewrite append_nil_r in Hu. done.
    + injection Ht as _ Ht. rewrite Ht, has_char_append in H2. simpl in H2.
      rewrite Ascii.eqb_refl, orb_true_l, orb_true_r in H2. done.
  - destruct u as [|b u]; simpl in Ht.
    + injection Ht as ->. rewrite append_nil_r in Hu. done.
    + injection Ht as _ Ht. rewrite Ht, has_char_append in H1. simpl in H1.
      rewrite Ascii.eqb_refl, orb_true_l, orb_true_r in H1. done.
Qed.

Lemma hex_val_digit d : 0 <= d < 16 -> hex_val (hex_digit d) = Some d.
Proof.
  intros Hd.
  assert (Hall : forallb (fun n => match hex_val (hex_digit (Z.of_nat n)) with
                                   | Some k => k =? Z.of_nat n | None => false end)
                         (List.seq 0 16) = true) by (vm_compute; reflexivity).
  rewrite forallb_forall in Hall.
  specialize (Hall (Z.to_nat d)). rewrite List.in_seq, Z2Nat.id in Hall by lia.
  specialize (Hall ltac:(lia)).
  destruct (hex_val (hex_digit d)); [|done]. zbool. congruence.
Qed.

Lemma byte_of_range c : 0 <= byte_of c < 256.
Proof. unfold byte_of. pose proof (nat_ascii_bounded c). lia. Qed.

(** Decoding undoes encoding. *)
Lemma HexDecode_HexEncode s : HexDecode (HexEncode s) = Some s.
Proof.
  induction s as [|c s IH]; [done|]. cbn [HexEncode HexDecode].
  pose proof (byte_of_range c).
  rewrite !hex_val_digit, IH.
  - f_equal. f_equal. rewrite <- Z.div_mod by lia. unfold byte_of.
    rewrite Nat2Z.id. apply ascii_nat_embedding.
  - apply Z.mod_pos_bound. lia.
  - split; [apply Z.div_pos; lia|apply Z.div_lt_upper_bound; lia].
Qed.

Lemma HexEncode_inj s t : HexEncode s = HexEncode t -> s = t.
Proof.
  intros H. apply (f_equal HexDecode) in H. rewrite !HexDecode_HexEncode in H. congruence.
Qed.

Lemma length_HexEncode s : String.length (HexEncode s) = (2 * String.length s)%nat.
Proof. induction s as [|c s IH]; simpl; [done|]. rewrite IH. lia. Qed.

(** Hexadecimal text holds none of the separators used in the payloads. *)
Lemma hex_no_bar s : has_char "|" (HexEncode s) = false.
Proof.
  induction s as [|c s IH]; [done|]. cbn [HexEncode has_char]. rewrite IH, orb_false_r.
  assert (Hd : forall d, 0 <= d < 16 -> Ascii.eqb "|" (hex_digit d) = false).
  { intros d Hd. apply Ascii.eqb_neq. intros Hc. pose proof (hex_val_digit d Hd) as Hv.
    rewrite <- Hc in Hv. discriminate. }
  pose proof (byte_of_range c).
  rewrite !Hd; [done|apply Z.mod_pos_bound; lia|].
  split; [apply Z.div_pos; lia|apply Z.div_lt_upper_bound; lia].
Qed.
