(* ===== verification/GoFloat.v ===== *)
(** Go's float64: IEEE 754 binary64 arithmetic, by the executable
    specification of Stdlib's SpecFloat (round to nearest, ties to even), and
    bounds on results. *)
From S2P Require Import Prelude GoInt.
From Stdlib Require Export SpecFloat.

Abbreviation float64 := spec_float.

Definition f64_of_int (z : Z) : float64 := binary_normalize 53 1024 z 0 false.
Definition f64_add : float64 -> float64 -> float64 := SFadd 53 1024.
Definition f64_sub : float64 -> float64 -> float64 := SFsub 53 1024.
Definition f64_mul : float64 -> float64 -> float64 := SFmul 53 1024.
Definition f64_div : float64 -> float64 -> float64 := SFdiv 53 1024.
Definition f64_neg : float64 -> float64 := SFopp.
Definition f64_lt (x y : float64) : bool := SFltb x y.
Definition f64_le (x y : float64) : bool := SFleb x y.
Definition f64_eq (x y : float64) : bool := SFeqb x y.
Definition f64_gt (x y : float64) : bool := SFltb y x.
Definition f64_ge (x y : float64) : bool := SFleb y x.

(** math.IsNaN, math.IsInf(x, 0) *)
Definition IsNaN (x : float64) : bool := match x with S754_nan => true | _ => false end.
Definition IsInf (x : float64) : bool := match x with S754_infinity _ => true | _ => false end.

(** The numbers Go represents: the well-formed binary64 values. *)
Definition f64_valid (x : float64) : Prop := valid_binary 53 1024 x = true.

(** The constant [num / den] of the source, for num, den below 2^53. *)
Definition f64_const (num den : Z) : float64 := f64_div (f64_of_int num) (f64_of_int den).

(** math.Min *)
Definition math_Min (x y : float64) : float64 :=
  match x, y with
  | S754_infinity true, _ | _, S754_infinity true => S754_infinity true
  | S754_nan, _ | _, S754_nan => S754_nan
  | S754_zero s, S754_zero _ => if s then x else y
  | _, _ => if f64_lt x y then x else y
  end.

(** time.Duration.Seconds() and Hours() *)
Definition Seconds (d : Z) : float64 :=
  f64_add (f64_of_int (Z.quot d 1000000000)) (f64_div (f64_of_int (Z.rem d 1000000000)) (f64_of_int 1000000000)).
Definition Hours (d : Z) : float64 :=
  f64_add (f64_of_int (Z.quot d 3600000000000))
          (f64_div (f64_of_int (Z.rem d 3600000000000)) (f64_of_int 3600000000000)).

(** Truncation toward zero of a finite number. *)
Definition f64_trunc (x : float64) : option Z :=
  match x with
  | S754_zero _ => Some 0
  | S754_finite s m e =>
      let a := if 0 <=? e then Zpos m * 2 ^ e else Zpos m / 2 ^ (- e) in
      Some (if s then - a else a)
  | _ => None
  end.

(** Go leaves int64(x) implementation-dependent when x does not fit: [out] is
    what the platform's conversion instruction gives there. *)
Class F64Platform := { f64_to_int_out : float64 -> Z;
                       f64_to_int_out_range : forall x, in_int64 (f64_to_int_out x) }.

(** amd64 (CVTTSD2SQ) gives the most negative integer. *)
Program Definition amd64 : F64Platform := {| f64_to_int_out := fun _ => int64_min |}.
Next Obligation. intros. unfold in_int64, int64_min, int64_max. lia. Qed.

(** arm64 (FCVTZS) saturates. *)
Program Definition arm64 : F64Platform :=
  {| f64_to_int_out := fun x =>
       match x with
       | S754_nan => 0
       | S754_infinity s | S754_finite s _ _ => if s then int64_min else int64_max
       | S754_zero _ => 0
       end |}.
Next Obligation. intros [[]|[]| |[] ? ?]; unfold in_int64, int64_min, int64_max; lia. Qed.

(** int64(x) *)
Definition int64_of_f64 `{F64Platform} (x : float64) : Z :=
  match f64_trunc x with
  | Some z => if in_int64b z then z else f64_to_int_out x
  | None => f64_to_int_out x
  end.

Lemma int64_of_f64_range `{F64Platform} x : in_int64 (int64_of_f64 x).
Proof.
  unfold int64_of_f64. destruct (f64_trunc x) as [z|]; [|apply f64_to_int_out_range].
  destruct (in_int64b z) eqn:E; [by apply in_int64b_spec|apply f64_to_int_out_range].
Qed.

(** * Rounding never crosses a representable integer bound *)

(** A shift record whose exact value is at most [K]. *)
Definition shr_bounded (K : Z) (r : shr_record) : Prop :=
  0 <= shr_m r <= K /\ ((shr_r r || shr_s r) = true -> shr_m r < K).

Lemma shr_1_bounded K r : shr_bounded (2 * K) r -> shr_bounded K (shr_1 r).
Proof.
  destruct r as [m r s]. intros [[Hm0 HmK] Hrs]. simpl in *.
  destruct m as [|[p|p|]|p]; unfold shr_bounded; simpl;
    destruct r, s; simpl in *; intuition (try discriminate; lia).
Qed.

Lemma pow2_xO n : 2 ^ Zpos n~0 = 2 ^ Zpos n * 2 ^ Zpos n.
Proof. rewrite <- Z.pow_add_r by lia. f_equal. lia. Qed.

Lemma pow2_xI n : 2 ^ Zpos n~1 = 2 * (2 ^ Zpos n * 2 ^ Zpos n).
Proof. rewrite <- Z.pow_add_r, <- Z.pow_succ_r by lia. f_equal. lia. Qed.

Lemma iter_shr_bounded n K r :
  shr_bounded (K * 2 ^ Zpos n) r -> shr_bounded K (iter_pos shr_1 n r).
Proof.
  revert K r. induction n as [n IH|n IH|]; intros K r H; simpl.
  - apply IH, IH, shr_1_bounded. rewrite pow2_xI in H.
    by replace (2 * (K * 2 ^ Zpos n * 2 ^ Zpos n))
      with (K * (2 * (2 ^ Zpos n * 2 ^ Zpos n))) by ring.
  - apply IH, IH. rewrite pow2_xO in H.
    by rewrite <- Z.mul_assoc.
  - apply shr_1_bounded. by replace (2 * K) with (K * 2 ^ 1) by ring.
Qed.

Lemma round_bounded K r :
  shr_bounded K r -> 0 <= round_nearest_even (shr_m r) (loc_of_shr_record r) <= K.
Proof.
  destruct r as [m [] []]; unfold shr_bounded; simpl; intros [? H];
    try specialize (H eq_refl); try lia.
  destruct (Z.even m); lia.
Qed.

Lemma digits2_pos_lower m : 2 ^ (Zpos (digits2_pos m) - 1) <= Zpos m.
Proof.
  induction m as [m IH|m IH|]; simpl digits2_pos; [| |done];
    rewrite Pos2Z.inj_succ, Z.sub_1_r, Z.pred_succ;
    replace (Zpos (digits2_pos m)) with (Z.succ (Zpos (digits2_pos m) - 1)) by lia;
    rewrite Z.pow_succ_r by lia; lia.
Qed.

Lemma digits2_pos_upper m : Zpos m < 2 ^ Zpos (digits2_pos m).
Proof.
  induction m as [m IH|m IH|]; simpl digits2_pos; [| |done];
    rewrite Pos2Z.inj_succ, Z.pow_succ_r by lia; lia.
Qed.

(** A mantissa bounded by B * 2^-e with B < 2^53 has at most 53 - e digits. *)
Lemma digits_bounded B m e :
  0 <= m -> e <= 0 -> m <= B * 2 ^ (- e) -> B < 2 ^ 53 ->
  fexp 53 1024 (Zdigits2 m + e) <= 0.
Proof.
  intros Hm He HmB HB. unfold fexp, emin.
  enough (Zdigits2 m + e <= 53) by lia.
  destruct m as [|m|m]; simpl; [lia| |lia].
  pose proof (digits2_pos_lower m) as Hl.
  assert (B * 2 ^ (- e) < 2 ^ 53 * 2 ^ (- e)) as Hlt.
  { apply Z.mul_lt_mono_pos_r; [apply Z.pow_pos_nonneg; lia|lia]. }
  rewrite <- Z.pow_add_r in Hlt by lia.
  assert (2 ^ (Zpos (digits2_pos m) - 1) < 2 ^ (53 + - e)) as Hpow by lia.
  apply Z.pow_lt_mono_r_iff in Hpow; lia.
Qed.

(** One normalisation step keeps the bound and a non-positive exponent. *)
Lemma shr_fexp_bounded B m e l :
  e <= 0 -> 0 <= B < 2 ^ 53 -> shr_bounded (B * 2 ^ (- e)) (shr_record_of_loc m l) ->
  exists r e', shr_fexp 53 1024 m e l = (r, e') /\ e' <= 0 /\ shr_bounded (B * 2 ^ (- e')) r.
Proof.
  intros He HB Hb. unfold shr_fexp.
  assert (Hm : 0 <= m <= B * 2 ^ (- e)).
  { destruct Hb as [Hb _]. destruct l as [|[]]; exact Hb. }
  pose proof (digits_bounded B m e ltac:(lia) He ltac:(lia) ltac:(lia)) as Hf.
  set (f := fexp 53 1024 (Zdigits2 m + e)) in *.
  unfold shr. destruct (f - e) as [|n|n] eqn:En.
  - eexists _, _. split; [done|]. done.
  - eexists _, _. split; [done|]. split; [lia|]. apply iter_shr_bounded.
    replace (B * 2 ^ (- (e + Zpos n)) * 2 ^ Zpos n) with (B * 2 ^ (- e)); [done|].
    rewrite <- Z.mul_assoc, <- Z.pow_add_r by lia. f_equal. f_equal. lia.
  - eexists _, _. split; [done|]. done.
Qed.

(** Rounding a non-negative exact value at most B gives a number whose integer
    part is between 0 and B. *)
Lemma binary_round_aux_bounded B m e l :
  e <= 0 -> 0 <= B < 2 ^ 53 -> shr_bounded (B * 2 ^ (- e)) (shr_record_of_loc m l) ->
  exists z, f64_trunc (binary_round_aux 53 1024 false m e l) = Some z /\ 0 <= z <= B.
Proof.
  intros He HB Hb. unfold binary_round_aux.
  destruct (shr_fexp_bounded B m e l He HB Hb) as (r & e' & -> & He' & Hr).
  apply round_bounded in Hr as Hround.
  destruct (shr_fexp_bounded B (round_nearest_even (shr_m r) (loc_of_shr_record r)) e' loc_Exact
              He' HB) as (r2 & e2 & -> & He2 & [Hr2 _]).
  { unfold shr_bounded. simpl. split; [lia|discriminate]. }
  destruct (shr_m r2) as [|p|p] eqn:Ep; [|rewrite (proj2 (Z.leb_le _ _)) by lia|lia].
  - exists 0. simpl. split; [done|lia].
  - unfold f64_trunc. eexists. split; [done|].
    destruct (0 <=? e2) eqn:E; zbool.
    + replace e2 with 0 in * by lia. lia.
    + split; [apply Z.div_pos; [lia|apply Z.pow_pos_nonneg; lia]|].
      apply Z.div_le_upper_bound; [apply Z.pow_pos_nonneg; lia|]. lia.
Qed.

Lemma valid_finite_digits s m e :
  f64_valid (S754_finite s m e) -> Zpos m < 2 ^ 53 /\ -1074 <= e.
Proof.
  unfold f64_valid. simpl. unfold bounded, canonical_mantissa, fexp, emin. intros H.
  apply andb_prop in H as [H _]. zbool.
  pose proof (digits2_pos_upper m). split; [|lia].
  assert (2 ^ Zpos (digits2_pos m) <= 2 ^ 53) by (apply Z.pow_le_mono_r; lia). lia.
Qed.

(** A valid finite number at most the normal number [m2 * 2^e2]. *)
Lemma f64_le_finite m e m2 e2 :
  f64_valid (S754_finite false m e) -> 2 ^ 52 <= Zpos m2 ->
  f64_le (S754_finite false m e) (S754_finite false m2 e2) = true ->
  e <= e2 /\ Zpos m <= Zpos m2 * 2 ^ (e2 - e).
Proof.
  intros Hv Hm2. apply valid_finite_digits in Hv as [Hm _].
  unfold f64_le, SFleb, SFcompare. destruct (Z.compare_spec e e2) as [->|Hlt|Hgt].
  - change (Pos.compare_cont Eq m m2) with (m ?= m2)%positive.
    intros H. rewrite Z.sub_diag. split; [lia|].
    destruct (Pos.compare_spec m m2); [lia|lia|done].
  - intros _. split; [lia|].
    assert (2 ^ 1 <= 2 ^ (e2 - e)) by (apply Z.pow_le_mono_r; lia).
    change (2 ^ 53) with (2 * 2 ^ 52) in Hm. change (2 ^ 1) with 2 in *. nia.
  - done.
Qed.

(** * Bounds: sums, products and quotients of bounded non-negative numbers stay
    bounded, whatever rounding does *)

(** * Non-negative results *)

(** Neither NaN nor negative, with a mantissa of at most 53 bits. *)
Definition fnonneg (x : float64) : Prop :=
  match x with
  | S754_zero false | S754_infinity false => True
  | S754_finite false m _ => Zpos m < 2 ^ 53
  | _ => False
  end.

(** Between 0 and [B], not above the precision of integers. *)
Definition fbound (B : Z) (x : float64) : Prop :=
  match x with
  | S754_zero false => 0 <= B
  | S754_finite false m e => Zpos m < 2 ^ 53 /\ e <= 0 /\ Zpos m <= B * 2 ^ (- e)
  | _ => False
  end.

Lemma fbound_nonneg B x : fbound B x -> fnonneg x.
Proof. destruct x as [[]|[]| |[] m e]; simpl; tauto. Qed.

Lemma fbound_weaken B C x : B <= C -> fbound B x -> fbound C x.
Proof.
  intros HBC. destruct x as [[]|[]| |[] m e]; simpl; try tauto; [lia|].
  intros (Hm & He & Hb). split_and!; [done|done|].
  assert (0 < 2 ^ (- e)) by (apply Z.pow_pos_nonneg; lia). nia.
Qed.

Lemma fbound_trunc B x : fbound B x -> exists z, f64_trunc x = Some z /\ 0 <= z <= B.
Proof.
  destruct x as [[]|[]| |[] m e]; simpl; try tauto.
  - intros H. exists 0. split; [done|lia].
  - intros (Hm & He & Hb). eexists. split; [done|]. destruct (0 <=? e) eqn:E; zbool.
    + replace e with 0 in * by lia. lia.
    + assert (0 < 2 ^ (- e)) by (apply Z.pow_pos_nonneg; lia).
      split; [by apply Z.div_pos|apply Z.div_le_upper_bound; [done|lia]].
Qed.

(** int(x) of a bounded number is bounded. *)
Lemma fbound_int64 `{F64Platform} B x : fbound B x -> B <= int64_max -> 0 <= int64_of_f64 x <= B.
Proof.
  intros Hx HB. apply fbound_trunc in Hx as (z & Hz & Hr). unfold int64_of_f64. rewrite Hz.
  rewrite (proj2 (in_int64b_spec z)); [done|]. unfold in_int64, int64_min, int64_max in *. lia.
Qed.

(** ** Shifting right *)

Lemma shr_1_floor r : 0 <= shr_m r -> 0 <= 2 * shr_m (shr_1 r) <= shr_m r.
Proof. destruct r as [[|[p|p|]|p] ? ?]; simpl; lia. Qed.

Lemma iter_shr_floor n r : 0 <= shr_m r -> 0 <= shr_m (iter_pos shr_1 n r) * 2 ^ Zpos n <= shr_m r.
Proof.
  revert r. induction n as [n IH|n IH|]; intros r H; simpl iter_pos.
  - pose proof (shr_1_floor r H). pose proof (IH (shr_1 r) ltac:(lia)).
    set (r1 := iter_pos shr_1 n (shr_1 r)) in *.
    assert (0 < 2 ^ Zpos n) by (apply Z.pow_pos_nonneg; lia).
    pose proof (IH r1 ltac:(nia)). rewrite pow2_xI. nia.
  - pose proof (IH r H). set (r1 := iter_pos shr_1 n r) in *.
    assert (0 < 2 ^ Zpos n) by (apply Z.pow_pos_nonneg; lia).
    pose proof (IH r1 ltac:(nia)). rewrite pow2_xO. nia.
  - pose proof (shr_1_floor r H). change (2 ^ 1) with 2. lia.
Qed.

Lemma shr_m_of_loc m l : shr_m (shr_record_of_loc m l) = m.
Proof. by destruct l as [|[]]. Qed.

(** Normalising leaves at most 53 bits and no negative mantissa. *)
Lemma shr_fexp_digits m e l r e' :
  0 <= m -> shr_fexp 53 1024 m e l = (r, e') -> 0 <= shr_m r < 2 ^ 53.
Proof.
  intros Hm. unfold shr_fexp.
  assert (Hd : m < 2 ^ Zdigits2 m) by (destruct m as [|m|m]; simpl; [lia|apply digits2_pos_upper|lia]).
  set (f := fexp 53 1024 (Zdigits2 m + e)).
  assert (Hf : Zdigits2 m + e - 53 <= f) by (unfold f, fexp; lia).
  assert (H0 : 0 <= Zdigits2 m) by (destruct m; simpl; lia).
  unfold shr. destruct (f - e) as [|n|n] eqn:En.
  - intros [= <- <-]. rewrite shr_m_of_loc. split; [done|]. eapply Z.lt_le_trans; [done|]. apply Z.pow_le_mono_r; lia.
  - intros [= <- <-]. pose proof (iter_shr_floor n (shr_record_of_loc m l) ltac:(by rewrite shr_m_of_loc)) as Hfl.
    rewrite shr_m_of_loc in Hfl. set (q := shr_m _) in *.
    assert (2 ^ Zdigits2 m <= 2 ^ (53 + Zpos n)) as Hp by (apply Z.pow_le_mono_r; lia).
    rewrite Z.pow_add_r in Hp by lia. assert (0 < 2 ^ Zpos n) by (apply Z.pow_pos_nonneg; lia). nia.
  - intros [= <- <-]. rewrite shr_m_of_loc. split; [done|]. eapply Z.lt_le_trans; [done|]. apply Z.pow_le_mono_r; lia.
Qed.

Lemma round_nonneg r : 0 <= shr_m r -> 0 <= round_nearest_even (shr_m r) (loc_of_shr_record r).
Proof. destruct r as [m [] []]; simpl; try lia. destruct (Z.even m); lia. Qed.

Lemma round_aux_nonneg m e l : 0 <= m -> fnonneg (binary_round_aux 53 1024 false m e l).
Proof.
  intros Hm. unfold binary_round_aux.
  destruct (shr_fexp 53 1024 m e l) as [r e1] eqn:E1. apply shr_fexp_digits in E1 as [H1 _]; [|done].
  destruct (shr_fexp 53 1024 (round_nearest_even _ _) e1 loc_Exact) as [r2 e2] eqn:E2.
  apply shr_fexp_digits in E2 as [H2 H3]; [|by apply round_nonneg].
  destruct (shr_m r2) as [|p|p]; [done| |lia]. by destruct (e2 <=? 1024 - 53).
Qed.

(** Rounding a non-negative exact value at most [B] stays at most [B]. *)
Lemma round_aux_fbound B m e l :
  e <= 0 -> 0 <= B < 2 ^ 53 -> shr_bounded (B * 2 ^ (- e)) (shr_record_of_loc m l) ->
  fbound B (binary_round_aux 53 1024 false m e l).
Proof.
  intros He HB Hb. pose proof (round_aux_nonneg m e l) as Hn.
  assert (0 <= m) as Hm by (destruct Hb as [Hb _]; rewrite shr_m_of_loc in Hb; lia). specialize (Hn Hm).
  unfold binary_round_aux in *.
  destruct (shr_fexp_bounded B m e l He HB Hb) as (r & e' & E1 & He' & Hr). rewrite E1 in *.
  apply round_bounded in Hr as Hround.
  destruct (shr_fexp_bounded B (round_nearest_even (shr_m r) (loc_of_shr_record r)) e' loc_Exact
              He' HB) as (r2 & e2 & E2 & He2 & [Hr2 _]).
  { unfold shr_bounded. simpl. split; [lia|discriminate]. }
  rewrite E2 in *. destruct (shr_m r2) as [|p|p] eqn:Ep; [simpl; lia| |lia].
  rewrite (proj2 (Z.leb_le _ _)) in * by lia. simpl in *. split_and!; [done|lia|lia].
Qed.

(** * Operations *)

Lemma iter_xO m d : Zpos (Pos.iter xO m d) = Zpos m * 2 ^ Zpos d.
Proof.
  induction d as [|d IH] using Pos.peano_ind; [simpl; lia|].
  rewrite Pos.iter_succ, Pos2Z.inj_xO, IH, Pos2Z.inj_succ, Z.pow_succ_r by lia. lia.
Qed.

Lemma shl_align_spec m e e' m' e'' : shl_align m e e' = (m', e'') ->
  e'' = Z.min e e' /\ Zpos m' = Zpos m * 2 ^ (e - e'').
Proof.
  unfold shl_align. destruct (e' - e) as [|d|d] eqn:Ed; intros [= <- <-].
  - split; [lia|]. rewrite Z.sub_diag. lia.
  - split; [lia|]. rewrite Z.sub_diag. lia.
  - split; [lia|]. rewrite iter_xO. f_equal. f_equal. lia.
Qed.

(** An exact positive value at most [B]. *)
Lemma binary_round_fbound B m e :
  e <= 0 -> 0 <= B < 2 ^ 53 -> Zpos m <= B * 2 ^ (- e) -> fbound B (binary_round 53 1024 false m e).
Proof.
  intros He HB Hm. unfold binary_round. destruct (shl_align _ _ _) as [mz ez] eqn:E.
  apply shl_align_spec in E as [Hez Hmz]. apply round_aux_fbound; [lia|done|].
  unfold shr_bounded. simpl. split; [|discriminate]. rewrite Hmz. split; [apply Z.mul_nonneg_nonneg; lia|].
  replace (2 ^ (- ez)) with (2 ^ (- e) * 2 ^ (e - ez)) by (rewrite <- Z.pow_add_r by lia; f_equal; lia).
  rewrite Z.mul_assoc. apply Z.mul_le_mono_nonneg_r; [|done]. apply Z.pow_nonneg. lia.
Qed.

Lemma of_int_fbound B z : 0 <= z <= B -> B < 2 ^ 53 -> fbound B (f64_of_int z).
Proof.
  intros Hz HB. destruct z as [|p|p]; [simpl; lia| |lia].
  unfold f64_of_int, binary_normalize. apply binary_round_fbound; lia.
Qed.

Lemma of_int_nonneg z : 0 <= z -> fnonneg (f64_of_int z).
Proof.
  intros Hz. destruct z as [|p|p]; [done| |lia]. unfold f64_of_int, binary_normalize, binary_round.
  destruct (shl_align _ _ _). by apply round_aux_nonneg.
Qed.

Lemma add_fbound A B x y : fbound A x -> fbound B y -> A + B < 2 ^ 53 -> 0 <= A -> 0 <= B -> fbound (A + B) (f64_add x y).
Proof.
  intros Hx Hy HAB HA HB. destruct x as [[]|[]| |[] m e], y as [[]|[]| |[] m2 e2]; try done.
  - simpl in *. lia.
  - by apply (fbound_weaken B); [lia|].
  - by apply (fbound_weaken A); [lia|].
  - destruct Hx as (_ & He & Hx), Hy as (_ & He2 & Hy). unfold f64_add, SFadd. cbv zeta.
    destruct (shl_align m e _) as [m1 e1] eqn:E1, (shl_align m2 e2 (Z.min e e2)) as [m3 e3] eqn:E3.
    apply shl_align_spec in E1 as [-> H1], E3 as [-> H3]. simpl fst. simpl cond_Zopp.
    rewrite <- Pos2Z.inj_add. apply binary_round_fbound; [lia|lia|]. rewrite Pos2Z.inj_add, H1, H3.
    set (k := Z.min e e2) in *. replace (Z.min e k) with k by lia. replace (Z.min e2 k) with k by lia.
    rewrite Z.mul_add_distr_r. apply Z.add_le_mono.
    + replace (2 ^ (- k)) with (2 ^ (- e) * 2 ^ (e - k)) by (rewrite <- Z.pow_add_r by lia; f_equal; lia).
      rewrite Z.mul_assoc. apply Z.mul_le_mono_nonneg_r; [apply Z.pow_nonneg; lia|done].
    + replace (2 ^ (- k)) with (2 ^ (- e2) * 2 ^ (e2 - k)) by (rewrite <- Z.pow_add_r by lia; f_equal; lia).
      rewrite Z.mul_assoc. apply Z.mul_le_mono_nonneg_r; [apply Z.pow_nonneg; lia|done].
Qed.

Lemma mul_fbound A B x y : fbound A x -> fbound B y -> A * B < 2 ^ 53 -> 0 <= A -> 0 <= B -> fbound (A * B) (f64_mul x y).
Proof.
  intros Hx Hy HAB HA HB. destruct x as [[]|[]| |[] m e], y as [[]|[]| |[] m2 e2]; try done; simpl in *; try nia.
  destruct Hx as (_ & He & Hx), Hy as (_ & He2 & Hy). unfold f64_mul, SFmul. simpl xorb.
  apply round_aux_fbound; [lia|nia|]. unfold shr_bounded. simpl. split; [|discriminate]. split; [lia|].
  rewrite Pos2Z.inj_mul. replace (- (e + e2)) with (- e + - e2) by lia. rewrite Z.pow_add_r by lia.
  assert (0 < 2 ^ (- e)) by (apply Z.pow_pos_nonneg; lia). assert (0 < 2 ^ (- e2)) by (apply Z.pow_pos_nonneg; lia).
  transitivity ((A * 2 ^ (- e)) * (B * 2 ^ (- e2))); [apply Z.mul_le_mono_nonneg; lia|lia].
Qed.

Lemma mul_nonneg x m e : fnonneg x -> fnonneg (f64_mul x (S754_finite false m e)).
Proof. destruct x as [[]|[]| |[] m1 e1]; try done. intros _. by apply round_aux_nonneg. Qed.

(** ** Quotients of integers *)

Lemma shr_bounded_exact K m : 0 <= m <= K -> shr_bounded K (shr_record_of_loc m loc_Exact).
Proof. unfold shr_bounded. simpl. split; [done|discriminate]. Qed.

Lemma shr_bounded_inexact K m c : 0 <= m < K -> shr_bounded K (shr_record_of_loc m (loc_Inexact c)).
Proof. unfold shr_bounded. destruct c; simpl; split; try lia; done. Qed.

Lemma new_location_cases n r : new_location n r = loc_Exact \/ (r <> 0 /\ exists c, new_location n r = loc_Inexact c).
Proof.
  unfold new_location, new_location_even, new_location_odd.
  destruct (Z.even n), (r =? 0) eqn:E; (try by left); right; apply Z.eqb_neq in E; split; eauto.
Qed.

(** A quotient of two positive numbers whose exact value is at most one. *)
Lemma div_fbound_1 m e m2 e2 :
  (e2 <= e -> Zpos m * 2 ^ (e - e2) <= Zpos m2) -> (e < e2 -> Zpos m <= Zpos m2 * 2 ^ (e2 - e)) ->
  fbound 1 (f64_div (S754_finite false m e) (S754_finite false m2 e2)).
Proof.
  intros Hge Hlt. unfold f64_div, SFdiv, SFdiv_core_binary. cbv zeta.
  set (d1 := Zdigits2 (Zpos m)). set (d2 := Zdigits2 (Zpos m2)).
  set (e' := Z.min _ _). set (s := e - e2 - e').
  assert (Hs : 0 <= s) by lia.
  assert (Hd : d1 + e <= d2 + e2 + 1).
  { pose proof (digits2_pos_lower m). pose proof (digits2_pos_upper m2). unfold d1, d2. simpl Zdigits2.
    set (a := Zpos (digits2_pos m)) in *. set (b := Zpos (digits2_pos m2)) in *. assert (0 < a /\ 0 < b) by lia.
    destruct (Z.le_gt_cases e2 e) as [He|He].
    - specialize (Hge He). assert (2 ^ (a - 1 + (e - e2)) < 2 ^ b); [|apply Z.pow_lt_mono_r_iff in H2; lia].
      rewrite Z.pow_add_r by lia. assert (0 < 2 ^ (e - e2)) by (apply Z.pow_pos_nonneg; lia). nia.
    - specialize (Hlt ltac:(lia)). assert (2 ^ (a - 1) < 2 ^ (b + (e2 - e))); [|apply Z.pow_lt_mono_r_iff in H2; lia].
      rewrite Z.pow_add_r by lia. assert (0 < 2 ^ (e2 - e)) by (apply Z.pow_pos_nonneg; lia). nia. }
  assert (He' : e' <= 0) by (unfold e', fexp, emin; lia).
  assert (Hm' : match s with Z.pos _ => Z.shiftl (Zpos m) s | 0 => Zpos m | Z.neg _ => 0 end = Zpos m * 2 ^ s).
  { destruct s as [|p|p] eqn:Es; [lia|apply Z.shiftl_mul_pow2; lia|lia]. }
  rewrite Hm'. clear Hm'. pose proof (Z_div_mod (Zpos m * 2 ^ s) (Zpos m2) eq_refl) as Hdm.
  destruct (Z.div_eucl _ _) as [q r]. destruct Hdm as [Hq Hr].
  assert (Hle : Zpos m * 2 ^ s <= Zpos m2 * 2 ^ (- e')).
  { destruct (Z.le_gt_cases e2 e) as [He|He].
    - specialize (Hge He). replace (- e') with (s - (e - e2)) by lia.
      assert (Hk : 0 <= s - (e - e2)) by lia. replace s with ((e - e2) + (s - (e - e2))) at 1 by lia.
      rewrite Z.pow_add_r by lia. assert (0 < 2 ^ (s - (e - e2))) by (apply Z.pow_pos_nonneg; lia). nia.
    - specialize (Hlt ltac:(lia)). replace (- e') with ((e2 - e) + s) by lia. rewrite Z.pow_add_r by lia.
      assert (0 < 2 ^ s) by (apply Z.pow_pos_nonneg; lia). nia. }
  assert (Hpos : 0 <= Zpos m * 2 ^ s) by (apply Z.mul_nonneg_nonneg; [lia|apply Z.pow_nonneg; lia]).
  apply round_aux_fbound; [done|lia|]. rewrite Z.mul_1_l. assert (0 <= q) by nia.
  destruct (new_location_cases (Zpos m2) r) as [->|[Hr0 [c ->]]];
    [apply shr_bounded_exact|apply shr_bounded_inexact]; nia.
Qed.

(** ** Integers below 2^53 are exact *)

Lemma digits2_pos_of m k : 0 <= k -> 2 ^ k <= Zpos m < 2 ^ (k + 1) -> Zpos (digits2_pos m) = k + 1.
Proof.
  intros Hk [Hl Hu]. pose proof (digits2_pos_lower m). pose proof (digits2_pos_upper m).
  set (d := Zpos (digits2_pos m)) in *. assert (0 < d) by lia.
  assert (2 ^ k < 2 ^ d) as Ha by lia. apply Z.pow_lt_mono_r_iff in Ha; [|lia..].
  assert (2 ^ (d - 1) < 2 ^ (k + 1)) as Hb by lia. apply Z.pow_lt_mono_r_iff in Hb; lia.
Qed.

Lemma shr_fexp_normal m e : 2 ^ 52 <= Zpos m < 2 ^ 53 -> -1074 <= e ->
  shr_fexp 53 1024 (Zpos m) e loc_Exact = ({| shr_m := Zpos m; shr_r := false; shr_s := false |}, e).
Proof.
  intros Hm He. unfold shr_fexp. simpl Zdigits2. rewrite (digits2_pos_of m 52) by lia.
  unfold fexp, emin. replace (_ - e) with 0 by lia. done.
Qed.

Lemma of_int_exact n : 0 < n < 2 ^ 53 ->
  exists m e, f64_of_int n = S754_finite false m e /\ e <= 0 /\ Zpos m = n * 2 ^ (- e).
Proof.
  intros Hn. destruct n as [|p|p]; [lia| |lia]. unfold f64_of_int, binary_normalize, binary_round.
  pose proof (digits2_pos_lower p) as Hl. pose proof (digits2_pos_upper p) as Hu. rewrite Z.add_0_r.
  set (d := Zpos (digits2_pos p)) in *. assert (Hd : 0 < d <= 53).
  { split; [lia|]. assert (2 ^ (d - 1) < 2 ^ 53) as H by lia. apply Z.pow_lt_mono_r_iff in H; lia. }
  assert (Hf : fexp 53 1024 d = d - 53) by (unfold fexp, emin; lia). rewrite Hf.
  destruct (shl_align _ _ _) as [mz ez] eqn:E. apply shl_align_spec in E as [Hez Hmz].
  assert (ez = d - 53) as -> by lia. clear Hez. replace (0 - (d - 53)) with (53 - d) in Hmz by lia.
  assert (Hr : 2 ^ 52 <= Zpos mz < 2 ^ 53).
  { rewrite Hmz. replace (2 ^ 52) with (2 ^ (d - 1) * 2 ^ (53 - d)) by (rewrite <- Z.pow_add_r by lia; f_equal; lia).
    replace (2 ^ 53) with (2 ^ d * 2 ^ (53 - d)) by (rewrite <- Z.pow_add_r by lia; f_equal; lia).
    assert (0 < 2 ^ (53 - d)) by (apply Z.pow_pos_nonneg; lia). nia. }
  exists mz, (d - 53). split; [|split; [lia|by replace (- (d - 53)) with (53 - d) by lia]].
  unfold binary_round_aux. rewrite shr_fexp_normal by lia. simpl round_nearest_even. rewrite shr_fexp_normal by lia.
  simpl. by rewrite (proj2 (Z.leb_le _ _)) by lia.
Qed.

(** A part of a whole. *)
Lemma ratio_fbound a b : 0 <= a <= b -> 0 < b < 2 ^ 53 -> fbound 1 (f64_div (f64_of_int a) (f64_of_int b)).
Proof.
  intros Ha Hb. destruct (of_int_exact b Hb) as (m2 & e2 & -> & He2 & Hm2).
  destruct (decide (a = 0)) as [->|]; [simpl; lia|].
  destruct (of_int_exact a) as (m & e & -> & He & Hm); [lia|]. apply div_fbound_1.
  - intros Hle. rewrite Hm, Hm2, <- Z.mul_assoc, <- Z.pow_add_r by lia. replace (- e + (e - e2)) with (- e2) by lia.
    apply Z.mul_le_mono_nonneg_r; [apply Z.pow_nonneg|]; lia.
  - intros Hlt. rewrite Hm, Hm2, <- Z.mul_assoc, <- Z.pow_add_r by lia. replace (- e2 + (e2 - e)) with (- e) by lia.
    apply Z.mul_le_mono_nonneg_r; [apply Z.pow_nonneg|]; lia.
Qed.

(** math.Min with a bound that is a normal number. *)
Lemma min_fbound B x m2 e2 : fnonneg x -> 2 ^ 52 <= Zpos m2 -> fbound B (S754_finite false m2 e2) ->
  fbound B (math_Min x (S754_finite false m2 e2)).
Proof.
  intros Hx Hm2 Hy. destruct x as [[]|[]| |[] m e]; try done; simpl math_Min.
  - destruct Hy as (H & He & Hb). change (0 <= B). assert (0 < 2 ^ (- e2)) by (apply Z.pow_pos_nonneg; lia). nia.
  - destruct (f64_lt _ _) eqn:E; [|done]. destruct Hy as (H & He & Hb). simpl in Hx. unfold f64_lt, SFltb, SFcompare in E.
    destruct (Z.compare_spec e e2) as [->|Hlt|Hgt]; [| |done].
    + change (Pos.compare_cont Eq m m2) with (m ?= m2)%positive in E.
      destruct (Pos.compare_spec m m2); [done| |done]. simpl. split_and!; [done|done|lia].
    + simpl. split_and!; [done|lia|]. replace (- e) with (- e2 + (e2 - e)) by lia. rewrite Z.pow_add_r by lia.
      assert (2 ^ 1 <= 2 ^ (e2 - e)) by (apply Z.pow_le_mono_r; lia).
      assert (0 < 2 ^ (- e2)) by (apply Z.pow_pos_nonneg; lia). change (2 ^ 1) with 2 in *. nia.
Qed.

Lemma min_both_fbound B x y : fbound B x -> fbound B y -> fbound B (math_Min x y).
Proof.
  intros Hx Hy. destruct x as [[]|[]| |[] m e], y as [[]|[]| |[] m2 e2]; try done; simpl math_Min;
    destruct (f64_lt _ _); done.
Qed.
