(* ===== verification/Effects.v ===== *)
(** Errors, results and the effect monad of the services: a database session
    with transactions, the clock, fresh identifiers and failing statements. *)
From S2P Require Import Prelude GoInt GoFloat.

(** * Errors *)

(** google/uuid's 128-bit value. *)
Abbreviation uuid := N.

Inductive fmtarg :=
| AInt (z : Z)
| AStr (s : string)
| AFloat (f : float64).

(** Go error values. A message is kept as its format and arguments. *)
Inductive error :=
| Errorf (format : string) (args : list fmtarg)            (* errors.New, fmt.Errorf without %w *)
| Wrapf (format : string) (args : list fmtarg) (e : error) (* fmt.Errorf with %w *)
| Sentinel (pkg name : string)                             (* a package-level error variable *)
| ErrRecordNotFound                                        (* gorm.ErrRecordNotFound *)
| ErrDuplicatedKey (index : string)                        (* unique index violation *)
| ErrOutOfRange                                            (* bigint out of range *)
| ErrTxAborted                                             (* statement in an aborted transaction *)
| ErrDriver (code : Z).                                    (* connection, timeout, any server failure *)

#[export] Instance fmtarg_eq_dec : EqDecision fmtarg.
Proof. unfold EqDecision, Decision. repeat decide equality. Defined.

#[export] Instance error_eq_dec : EqDecision error.
Proof. unfold EqDecision, Decision. repeat decide equality. Defined.

(** errors.Is(err, target): the target is on the chain of wrapped errors. *)
Fixpoint errors_Is (e target : error) : bool :=
  bool_decide (e = target) ||
  match e with Wrapf _ _ e => errors_Is e target | _ => false end.

Inductive result (A : Type) :=
| Ok (a : A)
| Err (e : error).
Arguments Ok {A} a.
Arguments Err {A} e.

(** * The environment *)

(** What the outside world answers at each effect: whether the statement
    fails, what the clock reads, which identifier is generated. [idx_tx_hash]
    says whether migration 004 (unique non-empty tx_hash) is applied. *)
Class Env := {
  env_fault : nat -> option Z;
  env_now : nat -> Z;
  env_uuid : nat -> uuid;
  env_random : nat -> string;
  idx_tx_hash : bool;
}.

(** An environment in which no statement fails from effect [n] on. *)
Definition quiet_from `{Env} (n : nat) : Prop := forall k, (n <= k)%nat -> env_fault k = None.

(** * The state and the monad *)

Inductive txstate := NoTx | InTx | Aborted.

(** [D] is the database of the service, [X] everything else it keeps. *)
Record st (D X : Type) := mkSt {
  tick : nat;        (* effects performed so far *)
  tx : txstate;      (* the session's transaction *)
  db : D;
  ext : X;
}.
Arguments mkSt {D X}.
Arguments tick {D X}.
Arguments tx {D X}.
Arguments db {D X}.
Arguments ext {D X}.

Definition M (D X A : Type) : Type := st D X -> result A * st D X.

Declare Scope eff_scope.
Delimit Scope eff_scope with eff.

Section monad.
Context {D X : Type} {ENV : Env}.

Definition ret {A} (a : A) : M D X A := fun s => (Ok a, s).
Definition throw {A} (e : error) : M D X A := fun s => (Err e, s).

Definition bind {A B} (m : M D X A) (k : A -> M D X B) : M D X B := fun s =>
  match m s with
  | (Ok a, s') => k a s'
  | (Err e, s') => (Err e, s')
  end.

(** The Go idiom [v, err := m] with both results in scope. *)
Definition try {A} (m : M D X A) : M D X (result A) := fun s =>
  let (r, s') := m s in (Ok r, s').

(** [if err != nil { return fmt.Errorf(format, err) }] *)
Definition wrap_err {A} (format : string) (m : M D X A) : M D X A := fun s =>
  match m s with
  | (Err e, s') => (Err (Wrapf format [] e), s')
  | r => r
  end.

Definition bump (s : st D X) : st D X := mkSt (S (tick s)) (tx s) (db s) (ext s).

(** time.Now() in Unix nanoseconds, uuid.New(), crypto/rand. *)
Definition now : M D X Z := fun s => (Ok (env_now (tick s)), bump s).
Definition uuid_New : M D X uuid := fun s => (Ok (env_uuid (tick s)), bump s).
Definition rand_bytes : M D X string := fun s => (Ok (env_random (tick s)), bump s).

Definition get_ext : M D X X := fun s => (Ok (ext s), s).
Definition put_ext (x : X) : M D X unit := fun s => (Ok tt, mkSt (tick s) (tx s) (db s) x).
Definition mod_ext (f : X -> X) : M D X unit := fun s =>
  (Ok tt, mkSt (tick s) (tx s) (db s) (f (ext s))).

(** A local variable of a method that a closure inside it assigns: it lives
    beside the service's state while [m] runs, and the method returns its last
    value together with the closure's own outcome. *)
Definition with_var {V A} (v : V) (m : st D (X * V) -> result A * st D (X * V))
  : M D X (V * result A) := fun s =>
  let (r, s') := m (mkSt (tick s) (tx s) (db s) (ext s, v)) in
  (Ok (snd (ext s'), r), mkSt (tick s') (tx s') (db s') (fst (ext s'))).

(** A program of a component run by one that keeps more state beside it. *)
Definition lift {Y A} (m : st D X -> result A * st D X)
    (s : st D (X * Y)) : result A * st D (X * Y) :=
  let (r, s') := m (mkSt (tick s) (tx s) (db s) (fst (ext s))) in
  (r, mkSt (tick s') (tx s') (db s') (ext s', snd (ext s))).

(** A failed statement aborts the open transaction; an empty result does not fail. *)
Definition after_error (e : error) (t : txstate) : txstate :=
  match e, t with
  | ErrRecordNotFound, t => t
  | _, InTx => Aborted
  | _, t => t
  end.

(** One SQL statement: [f] reads and updates the tables. *)
Definition stmt {A} (f : D -> result (A * D)) : M D X A := fun s =>
  match tx s with
  | Aborted => (Err ErrTxAborted, bump s)
  | t =>
      match env_fault (tick s) with
      | Some c => (Err (ErrDriver c), mkSt (S (tick s)) (after_error (ErrDriver c) t) (db s) (ext s))
      | None =>
          match f (db s) with
          | Ok (a, d) => (Ok a, mkSt (S (tick s)) t d (ext s))
          | Err e => (Err e, mkSt (S (tick s)) (after_error e t) (db s) (ext s))
          end
      end
  end.

(** SELECT ... LIMIT 1: [First]. *)
Definition first {A} (q : D -> option A) : M D X A :=
  stmt (fun d => match q d with Some a => Ok (a, d) | None => Err ErrRecordNotFound end).

(** SELECT: [Find], [Count], [Scan]. *)
Definition find {A} (q : D -> A) : M D X A := stmt (fun d => Ok (q d, d)).

(** INSERT or UPDATE. *)
Definition exec (f : D -> result D) : M D X unit :=
  stmt (fun d => match f d with Ok d => Ok (tt, d) | Err e => Err e end).

(** gorm's [db.Transaction(func(tx) error {...})]: the body's error, an
    aborted session or a failed COMMIT roll the tables back. *)
Definition transaction {A} (body : M D X A) : M D X A := fun s =>
  match env_fault (tick s) with
  | Some c => (Err (ErrDriver c), bump s)
  | None =>
      let (r, s1) := body (mkSt (S (tick s)) InTx (db s) (ext s)) in
      let rollback := mkSt (S (tick s1)) NoTx (db s) (ext s1) in
      match r with
      | Err e => (Err e, rollback)
      | Ok a =>
          match tx s1, env_fault (tick s1) with
          | Aborted, _ => (Err ErrTxAborted, rollback)
          | _, Some c => (Err (ErrDriver c), rollback)
          | _, None => (Ok a, mkSt (S (tick s1)) NoTx (db s1) (ext s1))
          end
      end
  end.
End monad.

(** A statement on a column the table does not have (SQLSTATE 42703). *)
Definition undefined_column {D X A} {ENV : Env} : M D X A := stmt (fun _ => Err (ErrDriver 42703)).

(** The stores hand back the variable's address together with the error: on a
    failure other than "not found" that is the zero row. *)
Definition row_and_error {D X A} {ENV : Env} (zero : A) (m : M D X A) : M D X (option A * option error) := fun s =>
  let (r, s') := m s in
  (Ok match r with
      | Ok a => (Some a, None)
      | Err ErrRecordNotFound => (None, None)
      | Err e => (Some zero, Some e)
      end, s').

(** Assigning the variable that [with_var] introduces. *)
Definition set_var {D X V} (v : V) : M D (X * V) unit := fun s =>
  (Ok tt, mkSt (tick s) (tx s) (db s) (fst (ext s), v)).

Notation "x <- m ;; k" := (bind m (fun x => k))
  (at level 100, m at next level, right associativity) : eff_scope.
Notation "' p <- m ;; k" := (bind m (fun x => match x with p => k end))
  (at level 100, p pattern, m at next level, right associativity) : eff_scope.
Notation "m ;; k" := (bind m (fun _ => k)) (at level 100, right associativity) : eff_scope.

(** * Inversion of executions *)

Section inversion.
Context {D X : Type} {ENV : Env}.
Implicit Types s : st D X.

Lemma bind_ok {A B} (m : M D X A) (k : A -> M D X B) s b s' :
  bind m k s = (Ok b, s') -> exists a s1, m s = (Ok a, s1) /\ k a s1 = (Ok b, s').
Proof. unfold bind. destruct (m s) as [[a|e] s1]; [eauto|congruence]. Qed.

(** Both ways a sequence can end. *)
Lemma bind_run {A B} (m : M D X A) (k : A -> M D X B) s r s' :
  bind m k s = (r, s') -> exists r1 s1, m s = (r1, s1) /\
    match r1 with Ok a => k a s1 = (r, s') | Err e => r = Err e /\ s' = s1 end.
Proof.
  unfold bind. destruct (m s) as [[a|e] s1]; [eauto|].
  intros [= <- <-]. exists (Err e), s1. done.
Qed.

Lemma try_run {A} (m : M D X A) s r s' :
  try m s = (r, s') -> exists r1, r = Ok r1 /\ m s = (r1, s').
Proof. unfold try. destruct (m s) as [r1 s1]. intros [= <- <-]. eauto. Qed.

Lemma wrap_err_ok {A} f (m : M D X A) s a s' :
  wrap_err f m s = (Ok a, s') -> m s = (Ok a, s').
Proof. unfold wrap_err. destruct (m s) as [[]]; congruence. Qed.

Lemma stmt_ok {A} (f : D -> result (A * D)) s a s' :
  stmt f s = (Ok a, s') ->
  exists d, f (db s) = Ok (a, d) /\ s' = mkSt (S (tick s)) (tx s) d (ext s) /\ tx s <> Aborted.
Proof.
  unfold stmt. destruct (tx s); [| |congruence];
    (destruct (env_fault (tick s)); [congruence|]);
    destruct (f (db s)) as [[a' d]|e]; try congruence;
    intros [= -> <-]; eexists; done.
Qed.

Lemma first_ok {A} (q : D -> option A) s a s' :
  first q s = (Ok a, s') ->
  q (db s) = Some a /\ s' = mkSt (S (tick s)) (tx s) (db s) (ext s) /\ tx s <> Aborted.
Proof.
  unfold first. intros Hr. apply stmt_ok in Hr as (d & Hq & -> & Htx).
  destruct (q (db s)); [|congruence]. injection Hq as <- <-. done.
Qed.

Lemma find_ok {A} (q : D -> A) s a s' :
  find q s = (Ok a, s') ->
  a = q (db s) /\ s' = mkSt (S (tick s)) (tx s) (db s) (ext s) /\ tx s <> Aborted.
Proof.
  unfold find. intros Hr. apply stmt_ok in Hr as (d & Hq & -> & Htx).
  injection Hq as <- <-. done.
Qed.

Lemma exec_ok (f : D -> result D) s a s' :
  exec f s = (Ok a, s') ->
  exists d, f (db s) = Ok d /\ s' = mkSt (S (tick s)) (tx s) d (ext s) /\ tx s <> Aborted.
Proof.
  unfold exec. intros Hr. apply stmt_ok in Hr as (d & Hq & -> & Htx).
  destruct (f (db s)) as [d'|]; [|congruence]. injection Hq as _ ->. by exists d.
Qed.

Lemma transaction_ok {A} (body : M D X A) s a s' :
  transaction body s = (Ok a, s') ->
  exists s1, body (mkSt (S (tick s)) InTx (db s) (ext s)) = (Ok a, s1) /\
             s' = mkSt (S (tick s1)) NoTx (db s1) (ext s1).
Proof.
  unfold transaction. destruct (env_fault (tick s)); [congruence|].
  destruct (body _) as [[a'|e] s1]; [|congruence].
  destruct (tx s1), (env_fault (tick s1)); try congruence;
    intros [= -> <-]; eexists; done.
Qed.

(** A transaction that reports an error leaves the tables as they were. *)
Lemma transaction_atomic {A} (body : M D X A) s e s' :
  transaction body s = (Err e, s') -> db s' = db s.
Proof.
  unfold transaction. destruct (env_fault (tick s)).
  - intros [= _ <-]. done.
  - destruct (body _) as [[a'|e'] s1]; [|intros [= _ <-]; done].
    destruct (tx s1), (env_fault (tick s1)); try congruence; intros [= _ <-]; done.
Qed.

Lemma stmt_err_db {A} (f : D -> result (A * D)) s e s' :
  stmt f s = (Err e, s') -> db s' = db s /\ ext s' = ext s.
Proof.
  unfold stmt, bump. destruct (tx s); try (destruct (env_fault (tick s)));
    try (destruct (f (db s)) as [[]|]); intros [=]; subst; done.
Qed.

(** Running statements when nothing fails. *)
Lemma stmt_quiet {A} (f : D -> result (A * D)) s :
  env_fault (tick s) = None -> tx s <> Aborted ->
  stmt f s = match f (db s) with
             | Ok (a, d) => (Ok a, mkSt (S (tick s)) (tx s) d (ext s))
             | Err e => (Err e, mkSt (S (tick s)) (after_error e (tx s)) (db s) (ext s))
             end.
Proof.
  intros Hf Ht. unfold stmt. rewrite Hf. by destruct (tx s).
Qed.

Lemma bind_intro {A B} (m : M D X A) (k : A -> M D X B) s a s1 R :
  m s = (Ok a, s1) -> k a s1 = R -> bind m k s = R.
Proof. unfold bind. by intros ->. Qed.

Lemma try_intro {A} (m : M D X A) s r s1 : m s = (r, s1) -> try m s = (Ok r, s1).
Proof. unfold try. by intros ->. Qed.

Lemma first_quiet {A} (q : D -> option A) s :
  env_fault (tick s) = None -> tx s <> Aborted ->
  first q s = (match q (db s) with Some a => Ok a | None => Err ErrRecordNotFound end, bump s).
Proof.
  intros Hf Ht. unfold first. rewrite stmt_quiet by done. destruct s. simpl.
  by destruct (q db0).
Qed.

Lemma first_some_quiet {A} (q : D -> option A) s a :
  env_fault (tick s) = None -> tx s <> Aborted -> q (db s) = Some a ->
  first q s = (Ok a, bump s).
Proof. intros Hf Ht Hq. rewrite first_quiet by done. by rewrite Hq. Qed.

Lemma exec_quiet (f : D -> result D) s d :
  env_fault (tick s) = None -> tx s <> Aborted -> f (db s) = Ok d ->
  exec f s = (Ok tt, mkSt (S (tick s)) (tx s) d (ext s)).
Proof. intros Hf Ht Hd. unfold exec. rewrite stmt_quiet by done. by rewrite Hd. Qed.

Lemma find_quiet {A} (q : D -> A) s :
  env_fault (tick s) = None -> tx s <> Aborted -> find q s = (Ok (q (db s)), bump s).
Proof. intros Hf Ht. unfold find. by rewrite stmt_quiet. Qed.

Lemma transaction_quiet {A} (body : M D X A) s a s1 :
  env_fault (tick s) = None ->
  body (mkSt (S (tick s)) InTx (db s) (ext s)) = (Ok a, s1) ->
  tx s1 = InTx -> env_fault (tick s1) = None ->
  transaction body s = (Ok a, mkSt (S (tick s1)) NoTx (db s1) (ext s1)).
Proof. intros Hf Hb Ht Hf1. unfold transaction. by rewrite Hf, Hb, Ht, Hf1. Qed.

Lemma quiet_S n : quiet_from n -> quiet_from (S n).
Proof. intros H k Hk. apply H. lia. Qed.

Lemma quiet_now n : quiet_from n -> env_fault n = None.
Proof. intros H. by apply H. Qed.
End inversion.

(** * Programs that only read *)

(** [reads m]: whatever happens, [m] leaves the tables as they are. *)
Definition reads {D X A} (m : M D X A) : Prop :=
  forall s r s', m s = (r, s') -> db s' = db s.

Section reads.
Context {D X : Type} {ENV : Env}.

Lemma reads_ret {A} (a : A) : reads (@ret D X A a).
Proof. by intros s r s' [= _ <-]. Qed.

Lemma reads_throw {A} e : reads (@throw D X A e).
Proof. by intros s r s' [= _ <-]. Qed.

Lemma reads_bind {A B} (m : M D X A) (k : A -> M D X B) :
  reads m -> (forall a, reads (k a)) -> reads (bind m k).
Proof.
  intros Hm Hk s r s' H. apply bind_run in H as (r1 & s1 & H1 & H). apply Hm in H1.
  destruct r1; [by rewrite (Hk _ _ _ _ H)|by destruct H as [_ ->]].
Qed.

Lemma reads_try {A} (m : M D X A) : reads m -> reads (try m).
Proof. intros Hm s r s' H. apply try_run in H as (r1 & _ & H). by apply Hm in H. Qed.

Lemma reads_wrap_err {A} f (m : M D X A) : reads m -> reads (wrap_err f m).
Proof.
  intros Hm s r s' H. unfold wrap_err in H. destruct (m s) as [[a|e] s1] eqn:E;
    injection H as _ <-; by apply Hm in E.
Qed.

Lemma reads_first {A} (q : D -> option A) : reads (@first D X _ A q).
Proof.
  intros s [a|e] s' H; [by apply first_ok in H as (_ & -> & _)|by apply stmt_err_db in H as [-> _]].
Qed.

Lemma reads_find {A} (q : D -> A) : reads (@find D X _ A q).
Proof.
  intros s [a|e] s' H; [by apply find_ok in H as (_ & -> & _)|by apply stmt_err_db in H as [-> _]].
Qed.

Lemma reads_now : reads (@now D X _).
Proof. by intros s r s' [= _ <-]. Qed.

Lemma reads_rand : reads (@rand_bytes D X _).
Proof. by intros s r s' [= _ <-]. Qed.

Lemma reads_uuid : reads (@uuid_New D X _).
Proof. by intros s r s' [= _ <-]. Qed.

Lemma reads_get_ext : reads (@get_ext D X).
Proof. by intros s r s' [= _ <-]. Qed.

Lemma reads_lift {Y A} (m : M D X A) : reads m -> reads (lift (Y := Y) m).
Proof.
  intros Hm s r s' H. unfold lift in H. destruct (m _) as [r1 s1] eqn:E.
  injection H as _ <-. by apply Hm in E.
Qed.

Lemma reads_mod_ext f : reads (@mod_ext D X f).
Proof. by intros s r s' [= _ <-]. Qed.
End reads.

#[export] Hint Resolve reads_ret reads_throw reads_bind reads_try reads_wrap_err reads_first
  reads_find reads_now reads_rand reads_uuid reads_get_ext reads_mod_ext : botpay.

(** Proves [reads] of a program, descending into its branches. *)
Ltac reads_tac :=
  repeat (intros; first
    [ assumption
    | apply reads_bind | apply reads_lift | apply reads_try | apply reads_wrap_err
    | solve [auto with botpay]
    | match goal with |- reads (match ?x with _ => _ end) => destruct x end
    | match goal with |- reads (let '_ := ?x in _) => destruct x end ]).

(** * Programs that leave a part of the service's state alone *)

Definition keeps {D X Y A} (f : X -> Y) (m : M D X A) : Prop :=
  forall s r s', m s = (r, s') -> f (ext s') = f (ext s).

Section keeps.
Context {D X Y : Type} {ENV : Env} (f : X -> Y).

Lemma keeps_ret {A} (a : A) : keeps f (@ret D X A a).
Proof. by intros s r s' [= _ <-]. Qed.

Lemma keeps_throw {A} e : keeps f (@throw D X A e).
Proof. by intros s r s' [= _ <-]. Qed.

Lemma keeps_bind {A B} (m : M D X A) (k : A -> M D X B) :
  keeps f m -> (forall a, keeps f (k a)) -> keeps f (bind m k).
Proof.
  intros Hm Hk s r s' H. apply bind_run in H as (r1 & s1 & H1 & H). apply Hm in H1.
  destruct r1; [by rewrite (Hk _ _ _ _ H)|by destruct H as [_ ->]].
Qed.

Lemma keeps_try {A} (m : M D X A) : keeps f m -> keeps f (try m).
Proof. intros Hm s r s' H. apply try_run in H as (r1 & _ & H). by apply Hm in H. Qed.

Lemma keeps_wrap_err {A} fmt (m : M D X A) : keeps f m -> keeps f (wrap_err fmt m).
Proof.
  intros Hm s r s' H. unfold wrap_err in H. destruct (m s) as [[a|e] s1] eqn:E;
    injection H as _ <-; by apply Hm in E.
Qed.

Lemma keeps_stmt {A} (q : D -> result (A * D)) : keeps f (@stmt D X _ A q).
Proof.
  intros s [a|e] s' H; [by apply stmt_ok in H as (? & _ & -> & _)|by apply stmt_err_db in H as [_ ->]].
Qed.

Lemma keeps_first {A} (q : D -> option A) : keeps f (@first D X _ A q).
Proof. apply keeps_stmt. Qed.

Lemma keeps_find {A} (q : D -> A) : keeps f (@find D X _ A q).
Proof. apply keeps_stmt. Qed.

Lemma keeps_exec q : keeps f (@exec D X _ q).
Proof. apply keeps_stmt. Qed.

Lemma keeps_now : keeps f (@now D X _).
Proof. by intros s r s' [= _ <-]. Qed.

Lemma keeps_rand : keeps f (@rand_bytes D X _).
Proof. by intros s r s' [= _ <-]. Qed.

Lemma keeps_uuid : keeps f (@uuid_New D X _).
Proof. by intros s r s' [= _ <-]. Qed.

Lemma keeps_get_ext : keeps f (@get_ext D X).
Proof. by intros s r s' [= _ <-]. Qed.

Lemma keeps_transaction {A} (m : M D X A) : keeps f m -> keeps f (transaction m).
Proof.
  intros Hm s r s' H. unfold transaction in H. destruct (env_fault _); [by injection H as _ <-|].
  destruct (m _) as [r1 s1] eqn:E. apply Hm in E. simpl in E.
  destruct r1; [|by injection H as _ <-].
  destruct (tx s1), (env_fault (tick s1)); by injection H as _ <-.
Qed.

Lemma keeps_with_var {V A} (v : V) (m : M D (X * V) A) :
  keeps (fun p => f (fst p)) m -> keeps f (with_var v m).
Proof.
  intros Hm s r s' H. unfold with_var in H. destruct (m _) as [r1 s1] eqn:E.
  injection H as _ <-. by apply Hm in E.
Qed.
End keeps.

Lemma keeps_set_var {D X V Y} (f : X -> Y) (v : V) : keeps (fun p => f (fst p)) (@set_var D X V v).
Proof. by intros s r s' [= _ <-]. Qed.

#[export] Hint Resolve keeps_ret keeps_throw keeps_first keeps_find keeps_exec keeps_now keeps_rand
  keeps_uuid keeps_get_ext keeps_set_var : botpay.

Ltac keeps_tac :=
  repeat (intros; first
    [ assumption
    | apply keeps_bind | apply keeps_try | apply keeps_wrap_err | apply keeps_transaction
    | solve [auto with botpay]
    | match goal with |- keeps _ (match ?x with _ => _ end) => destruct x end ]).

(** * Programs that relate the tables before and after *)

(** [moves R m]: however [m] ends, the tables it leaves are related to those it
    found. *)
Definition moves {D X A} (R : D -> D -> Prop) (m : M D X A) : Prop :=
  forall s r s', m s = (r, s') -> R (db s) (db s').

Section moves.
Context {D X : Type} {ENV : Env} (R : D -> D -> Prop) `{!PreOrder R}.

Lemma moves_reads {A} (m : M D X A) : reads m -> moves R m.
Proof. intros Hm s r s' H. by rewrite (Hm _ _ _ H). Qed.

Lemma moves_bind {A B} (m : M D X A) (k : A -> M D X B) :
  moves R m -> (forall a, moves R (k a)) -> moves R (bind m k).
Proof.
  intros Hm Hk s r s' H. apply bind_run in H as (r1 & s1 & H1 & H). apply Hm in H1.
  destruct r1 as [a|e]; [|by destruct H as [_ ->]]. apply Hk in H. by etransitivity.
Qed.

Lemma moves_try {A} (m : M D X A) : moves R m -> moves R (try m).
Proof. intros Hm s r s' H. apply try_run in H as (r1 & _ & H). by apply Hm in H. Qed.

Lemma moves_wrap_err {A} f (m : M D X A) : moves R m -> moves R (wrap_err f m).
Proof.
  intros Hm s r s' H. unfold wrap_err in H. destruct (m s) as [[a|e] s1] eqn:E;
    injection H as _ <-; by apply Hm in E.
Qed.

Lemma moves_exec f : (forall d d', f d = Ok d' -> R d d') -> moves R (@exec D X _ f).
Proof.
  intros Hf s [u|e] s' H; [apply exec_ok in H as (d & Hd & -> & _); by apply Hf|].
  by apply stmt_err_db in H as [-> _].
Qed.

Lemma moves_transaction {A} (m : M D X A) : moves R m -> moves R (transaction m).
Proof.
  intros Hm s [a|e] s' H; [|by rewrite (transaction_atomic _ _ _ _ H)].
  apply transaction_ok in H as (s1 & H & ->). by apply Hm in H.
Qed.

Lemma moves_with_var {V A} (v : V) (m : M D (X * V) A) :
  (forall s r s', m s = (r, s') -> R (db s) (db s')) -> moves R (with_var v m).
Proof.
  intros Hm s r s' H. unfold with_var in H. destruct (m _) as [r1 s1] eqn:E.
  injection H as _ <-. by apply Hm in E.
Qed.

Lemma moves_lift {Y A} (m : M D X A) : moves R m -> moves R (lift (Y := Y) m).
Proof.
  intros Hm s r s' H. unfold lift in H. destruct (m _) as [r1 s1] eqn:E.
  injection H as _ <-. by apply Hm in E.
Qed.

Lemma moves_if {A} (b : bool) (m1 m2 : M D X A) : moves R m1 -> moves R m2 -> moves R (if b then m1 else m2).
Proof. by destruct b. Qed.
End moves.

Create HintDb moves discriminated.

(** Proves [moves] of a program down to its statements. *)
Ltac moves_tac :=
  repeat (intros; first
    [ assumption
    | solve [auto with moves]
    | solve [apply moves_reads; [typeclasses eauto|auto 2 with botpay]]
    | apply moves_bind; [typeclasses eauto| |]
    | apply moves_try | apply moves_wrap_err | apply moves_transaction; [typeclasses eauto|]
    | apply moves_lift
    | match goal with |- moves _ (match ?x with _ => _ end) => destruct x end
    | match goal with |- moves _ (let '_ := ?x in _) => destruct x end ]).

(** Runs backwards through a successful execution, naming nothing. *)
Ltac run_inv :=
  repeat match goal with
  | H : bind _ _ _ = (Ok _, _) |- _ =>
      apply bind_ok in H; destruct H as (? & ? & ? & H)
  | H : wrap_err _ _ _ = (Ok _, _) |- _ => apply wrap_err_ok in H
  | H : transaction _ _ = (Ok _, _) |- _ =>
      apply transaction_ok in H; destruct H as (? & H & ->)
  | H : first _ _ = (Ok _, _) |- _ =>
      apply first_ok in H; destruct H as (? & -> & ?)
  | H : find _ _ = (Ok _, _) |- _ =>
      apply find_ok in H; destruct H as (-> & -> & ?)
  | H : exec _ _ = (Ok _, _) |- _ =>
      apply exec_ok in H; destruct H as (? & ? & -> & ?)
  | H : ret _ _ = (Ok _, _) |- _ => unfold ret in H; injection H as <- <-
  | H : throw _ _ = (Ok _, _) |- _ => discriminate H
  | H : (if ?c then throw _ else _) _ = (Ok _, _) |- _ =>
      let E := fresh "E" in destruct c eqn:E; [discriminate H|]
  | H : (if ?c then _ else throw _) _ = (Ok _, _) |- _ =>
      let E := fresh "E" in destruct c eqn:E; [|discriminate H]
  | H : now _ = (Ok _, _) |- _ => unfold now in H; injection H as <- <-
  | H : uuid_New _ = (Ok _, _) |- _ => unfold uuid_New in H; injection H as <- <-
  | H : rand_bytes _ = (Ok _, _) |- _ => unfold rand_bytes in H; injection H as <- <-
  | H : get_ext _ = (Ok _, _) |- _ => unfold get_ext in H; injection H as <- <-
  | H : put_ext _ _ = (Ok _, _) |- _ => unfold put_ext in H; injection H as <- <-
  | H : mod_ext _ _ = (Ok _, _) |- _ => unfold mod_ext in H; injection H as <- <-
  end; cbn [db ext tick tx bump] in *.

#[export] Hint Resolve transaction_atomic quiet_now quiet_S : botpay.

(** * A concrete environment for the examples *)

(** Nothing fails, the clock counts effects, identifiers are consecutive. *)
Definition calm_env : Env := {|
  env_fault := fun _ => None;
  env_now := fun n => Z.of_nat n;
  env_uuid := fun n => N.of_nat (1000 + n);
  env_random := fun n => String (ascii_of_nat n) "abc";
  idx_tx_hash := true;
|}.

Lemma calm_quiet n : @quiet_from calm_env n.
Proof. intros k _. reflexivity. Qed.

Definition init_st {D X} (d : D) (x : X) : st D X := mkSt 0 NoTx d x.
