(* ===== verification/PayModels.v ===== *)
(** botpay/internal/store/models.go: the rows of botpay's database, the tables,
    and the queries and updates the repository methods issue on them. *)
From S2P Require Import Prelude GoInt GoFloat GoString Effects.

(** * Rows *)

Record Wallet := {
  w_ID : uuid;
  w_TelegramID : Z;
  w_PayHandle : string;
  w_TONBalance : Z;      (* nano-TON *)
  w_Credit : Z;
  w_TONAddress : string;
  w_Frozen : Z;
  w_IsActive : bool;
  w_Lang : string;
}.

Definition BalanceTON (w : Wallet) : float64 := f64_div (f64_of_int (w_TONBalance w)) (f64_of_int 1000000000).
Definition CreditTON (w : Wallet) : float64 := f64_div (f64_of_int (w_Credit w)) (f64_of_int 1000000000).
Definition TotalTON (w : Wallet) : float64 := f64_add (BalanceTON w) (CreditTON w).

(** Go evaluates the sum in int64. *)
Definition HasEnough (w : Wallet) (amountNano : Z) : bool :=
  i64_sub (i64_add (w_TONBalance w) (w_Credit w)) (w_Frozen w) >=? amountNano.

Inductive TxType := TxDeposit | TxWithdraw | TxCreditAdd | TxPayment | TxRefund.
Inductive TxStatus := TxPending | TxConfirmed | TxFailed.

#[export] Instance TxType_eq_dec : EqDecision TxType.
Proof. solve_decision. Defined.
#[export] Instance TxStatus_eq_dec : EqDecision TxStatus.
Proof. solve_decision. Defined.

Record Transaction := {
  t_ID : uuid;
  t_CreatedAt : Z;
  t_WalletID : uuid;
  t_Type : TxType;
  t_Status : TxStatus;
  t_Amount : Z;
  t_Fee : Z;
  t_TxHash : string;
  t_FromAddress : string;
  t_ToAddress : string;
  t_ServiceID : string;
  t_Ref : string;
  t_Description : string;
  t_Metadata : string;
  t_ConfirmedAt : option Z;
}.

Inductive InvoiceStatus := InvoicePending | InvoicePaid | InvoiceExpired | InvoiceCancelled.
#[export] Instance InvoiceStatus_eq_dec : EqDecision InvoiceStatus.
Proof. solve_decision. Defined.

Record Invoice := {
  inv_ID : uuid;
  inv_WalletID : uuid;
  inv_Code : string;
  inv_Amount : Z;         (* 0: open invoice, any amount *)
  inv_ReceivedNano : Z;
  inv_Status : InvoiceStatus;
  inv_ServiceID : string;
  inv_Ref : string;
  inv_Metadata : string;
  inv_ExpiresAt : Z;
  inv_PaidAt : option Z;
  inv_TxHash : string;
}.

(** time.Now().After(i.ExpiresAt) at clock value [t]. *)
Definition IsExpired (t : Z) (i : Invoice) : bool := t >? inv_ExpiresAt i.

Inductive WithdrawStatus :=
  WithdrawPending | WithdrawApproved | WithdrawProcessing | WithdrawDone | WithdrawRejected.
#[export] Instance WithdrawStatus_eq_dec : EqDecision WithdrawStatus.
Proof. solve_decision. Defined.

Record WithdrawRequest := {
  wr_ID : uuid;
  wr_CreatedAt : Z;
  wr_WalletID : uuid;
  wr_ToAddress : string;
  wr_Amount : Z;
  wr_Fee : Z;
  wr_Status : WithdrawStatus;
  wr_TxHash : string;
  wr_Note : string;
  wr_AdminNote : string;
  wr_ProcessedAt : option Z;
}.

(** The entry type is a text column: any string can be in it. *)
Definition EntryType : Type := string.
Definition EntryDebit : EntryType := "debit".
Definition EntryCredit : EntryType := "credit".

Record LedgerEntry := {
  le_ID : uuid;
  le_CreatedAt : Z;
  le_TransactionID : uuid;
  le_WalletID : uuid;
  le_Type : EntryType;
  le_AmountNano : Z;
  le_BalanceAfter : Z;
  le_Seq : Z;
  le_PrevHash : string;
  le_Hash : string;
  le_Ref : string;
  le_Note : string;
}.

Record TransferPair := { tp_Debit : LedgerEntry; tp_Credit : LedgerEntry }.

(** * Tables *)

(** A table with updates is keyed by its primary key; transactions and ledger
    entries are only ever inserted and are kept in insertion order.
    [bot_instances] belongs to another service; botpay only reads it. *)
Record Tables := {
  wallets : gmap uuid Wallet;
  transactions : list Transaction;
  ledger_entries : list LedgerEntry;
  invoices : gmap uuid Invoice;
  withdraw_requests : gmap uuid WithdrawRequest;
  bot_instances : list (Z * string);  (* bot_id, status *)
}.

Definition set_wallets (f : gmap uuid Wallet -> gmap uuid Wallet) (d : Tables) : Tables :=
  {| wallets := f (wallets d); transactions := transactions d; ledger_entries := ledger_entries d;
     invoices := invoices d; withdraw_requests := withdraw_requests d; bot_instances := bot_instances d |}.
Definition set_transactions (f : list Transaction -> list Transaction) (d : Tables) : Tables :=
  {| wallets := wallets d; transactions := f (transactions d); ledger_entries := ledger_entries d;
     invoices := invoices d; withdraw_requests := withdraw_requests d; bot_instances := bot_instances d |}.
Definition set_ledger (f : list LedgerEntry -> list LedgerEntry) (d : Tables) : Tables :=
  {| wallets := wallets d; transactions := transactions d; ledger_entries := f (ledger_entries d);
     invoices := invoices d; withdraw_requests := withdraw_requests d; bot_instances := bot_instances d |}.
Definition set_invoices (f : gmap uuid Invoice -> gmap uuid Invoice) (d : Tables) : Tables :=
  {| wallets := wallets d; transactions := transactions d; ledger_entries := ledger_entries d;
     invoices := f (invoices d); withdraw_requests := withdraw_requests d; bot_instances := bot_instances d |}.
Definition set_withdraws (f : gmap uuid WithdrawRequest -> gmap uuid WithdrawRequest) (d : Tables) : Tables :=
  {| wallets := wallets d; transactions := transactions d; ledger_entries := ledger_entries d;
     invoices := invoices d; withdraw_requests := f (withdraw_requests d); bot_instances := bot_instances d |}.

Definition rows {A} (m : gmap uuid A) : list A := (map_to_list m).*2.

(** [First] orders by primary key. *)
Definition first_row {A} (id : A -> uuid) (P : A -> bool) (l : list A) : option A :=
  first_by (fun r => Z.of_N (id r)) P l.

(** Updating column values of one wallet. *)
Definition with_balances (w : Wallet) (ton credit frozen : Z) : Wallet :=
  {| w_ID := w_ID w; w_TelegramID := w_TelegramID w; w_PayHandle := w_PayHandle w;
     w_TONBalance := ton; w_Credit := credit; w_TONAddress := w_TONAddress w;
     w_Frozen := frozen; w_IsActive := w_IsActive w; w_Lang := w_Lang w |}.
Definition with_pay_handle (w : Wallet) (h : string) : Wallet :=
  {| w_ID := w_ID w; w_TelegramID := w_TelegramID w; w_PayHandle := h;
     w_TONBalance := w_TONBalance w; w_Credit := w_Credit w; w_TONAddress := w_TONAddress w;
     w_Frozen := w_Frozen w; w_IsActive := w_IsActive w; w_Lang := w_Lang w |}.
Definition with_lang (w : Wallet) (l : string) : Wallet :=
  {| w_ID := w_ID w; w_TelegramID := w_TelegramID w; w_PayHandle := w_PayHandle w;
     w_TONBalance := w_TONBalance w; w_Credit := w_Credit w; w_TONAddress := w_TONAddress w;
     w_Frozen := w_Frozen w; w_IsActive := w_IsActive w; w_Lang := l |}.

(** UPDATE wallets SET ton_balance = ton_balance + dton, credit = credit + dcredit,
    frozen = frozen + dfrozen WHERE id = id. Columns not assigned have delta 0.
    No row with that id: nothing happens, and it is not an error. *)
Definition add_balances (dton dcredit dfrozen : Z) (w : Wallet) : option Wallet :=
  match sql_bigint (w_TONBalance w + dton), sql_bigint (w_Credit w + dcredit),
        sql_bigint (w_Frozen w + dfrozen) with
  | Some t, Some c, Some f => Some (with_balances w t c f)
  | _, _, _ => None
  end.

Definition update_wallet (id : uuid) (f : Wallet -> option Wallet) (d : Tables) : result Tables :=
  match wallets d !! id with
  | None => Ok d
  | Some w =>
      match f w with
      | Some w' => Ok (set_wallets <[id := w']> d)
      | None => Err ErrOutOfRange
      end
  end.

(** INSERT INTO transactions, with migration 004's partial unique index when applied. *)
Definition insert_transaction (unique : bool) (t : Transaction) (d : Tables) : result Tables :=
  if unique && negb (t_TxHash t =? "")%string
     && existsb (fun u => (t_TxHash u =? t_TxHash t)%string) (transactions d)
  then Err (ErrDuplicatedKey "idx_transactions_tx_hash_nonempty")
  else Ok (set_transactions (fun l => l ++ [t]) d).

(** INSERT INTO ledger_entries: seq is unique. *)
Definition insert_ledger (e : LedgerEntry) (d : Tables) : result Tables :=
  if existsb (fun x => le_Seq x =? le_Seq e) (ledger_entries d)
  then Err (ErrDuplicatedKey "idx_ledger_entries_seq")
  else Ok (set_ledger (fun l => l ++ [e]) d).

(** INSERT INTO wallets: id, telegram_id and pay_handle are unique. *)
Definition insert_wallet (w : Wallet) (d : Tables) : result Tables :=
  if bool_decide (is_Some (wallets d !! w_ID w)) then Err (ErrDuplicatedKey "wallets_pkey")
  else if existsb (fun x => w_TelegramID x =? w_TelegramID w) (rows (wallets d))
  then Err (ErrDuplicatedKey "idx_wallets_telegram_id")
  else if existsb (fun x => (w_PayHandle x =? w_PayHandle w)%string) (rows (wallets d))
  then Err (ErrDuplicatedKey "idx_wallets_pay_handle")
  else Ok (set_wallets <[w_ID w := w]> d).

(** INSERT INTO invoices: id and code are unique. *)
Definition insert_invoice (i : Invoice) (d : Tables) : result Tables :=
  if bool_decide (is_Some (invoices d !! inv_ID i)) then Err (ErrDuplicatedKey "invoices_pkey")
  else if existsb (fun x => (inv_Code x =? inv_Code i)%string) (rows (invoices d))
  then Err (ErrDuplicatedKey "idx_invoices_code")
  else Ok (set_invoices <[inv_ID i := i]> d).

Definition insert_withdraw (r : WithdrawRequest) (d : Tables) : result Tables :=
  if bool_decide (is_Some (withdraw_requests d !! wr_ID r))
  then Err (ErrDuplicatedKey "withdraw_requests_pkey")
  else Ok (set_withdraws <[wr_ID r := r]> d).

(** * Lemmas *)

Lemma elem_of_rows {A} (m : gmap uuid A) x : x ∈ rows m <-> exists k, m !! k = Some x.
Proof.
  unfold rows. rewrite list_elem_of_fmap. split.
  - intros ([k y] & -> & Hk). apply elem_of_map_to_list in Hk. by exists k.
  - intros [k Hk]. exists (k, x). split; [done|]. by apply elem_of_map_to_list.
Qed.

Lemma first_row_some {A} (id : A -> uuid) P l x :
  first_row id P l = Some x -> x ∈ l /\ P x = true.
Proof. apply first_by_some. Qed.

Lemma first_row_none {A} (id : A -> uuid) P l :
  first_row id P l = None <-> forall x, x ∈ l -> P x = false.
Proof. apply first_by_none. Qed.

Lemma add_balances_some dt dc df w w' :
  add_balances dt dc df w = Some w' <->
  w' = with_balances w (w_TONBalance w + dt) (w_Credit w + dc) (w_Frozen w + df)
  /\ in_int64 (w_TONBalance w + dt) /\ in_int64 (w_Credit w + dc) /\ in_int64 (w_Frozen w + df).
Proof.
  unfold add_balances.
  destruct (sql_bigint (w_TONBalance w + dt)) as [t|] eqn:Et,
    (sql_bigint (w_Credit w + dc)) as [c|] eqn:Ec,
    (sql_bigint (w_Frozen w + df)) as [f|] eqn:Ef;
    rewrite ?sql_bigint_some in *; destruct_hyps; subst;
    (split; [intros [=]; subst; try done|intros (-> & Ht & Hc & Hf)]; try done);
    unfold sql_bigint in *;
    repeat match goal with
    | H : (if in_int64b ?z then _ else _) = None, K : in_int64 ?z |- _ =>
        rewrite (proj2 (in_int64b_spec z) K) in H
    end; done.
Qed.

(** HasEnough without overflow. *)
Lemma HasEnough_spec w a :
  in_int64 (w_TONBalance w + w_Credit w) ->
  in_int64 (w_TONBalance w + w_Credit w - w_Frozen w) ->
  HasEnough w a = true <-> a <= w_TONBalance w + w_Credit w - w_Frozen w.
Proof.
  intros H1 H2. unfold HasEnough, i64_sub, i64_add.
  rewrite (wrap64_id _ H1), (wrap64_id _ H2). rewrite Z.geb_leb, Z.leb_le. done.
Qed.

Lemma insert_transaction_ok u t d d' :
  insert_transaction u t d = Ok d' -> d' = set_transactions (fun l => l ++ [t]) d.
Proof. unfold insert_transaction. destruct (_ && _); congruence. Qed.

Lemma insert_ledger_ok e d d' :
  insert_ledger e d = Ok d' ->
  d' = set_ledger (fun l => l ++ [e]) d /\ Forall (fun x => le_Seq x <> le_Seq e) (ledger_entries d).
Proof.
  unfold insert_ledger. destruct (existsb _ _) eqn:E; [congruence|].
  intros [= <-]. split; [done|]. rewrite Forall_forall. intros x Hx Heq.
  assert (existsb (fun x => le_Seq x =? le_Seq e) (ledger_entries d) = true); [|congruence].
  apply existsb_exists. exists x. split; [by apply list_elem_of_In|]. rewrite Heq. apply Z.eqb_refl.
Qed.

(** * Concrete rows for the examples *)

Definition demo_wallet (id : uuid) (tg ton credit frozen : Z) : Wallet :=
  {| w_ID := id; w_TelegramID := tg; w_PayHandle := "u_" +:+ FormatInt 36 tg;
     w_TONBalance := ton; w_Credit := credit; w_TONAddress := "UQmaster";
     w_Frozen := frozen; w_IsActive := true; w_Lang := "" |}.

Definition empty_tables : Tables :=
  {| wallets := ∅; transactions := []; ledger_entries := []; invoices := ∅;
     withdraw_requests := ∅; bot_instances := [] |}.

(** Wallets 1 and 2 of users 1234567 and 7654321. *)
Definition demo_tables (ton1 credit1 ton2 credit2 : Z) : Tables :=
  set_wallets (fun _ => {[ 1%N := demo_wallet 1 1234567 ton1 credit1 0;
                           2%N := demo_wallet 2 7654321 ton2 credit2 0 ]}) empty_tables.
