(* ===== verification/PayChain.v ===== *)
(** botpay/internal/store/chain.go and ledger.go: the hash-chained double-entry
    ledger, its verification, and the operations that append to it. *)
From S2P Require Import Prelude GoInt GoFloat GoString Effects PayModels.

(** SHA-256 and the text form of a UUID (google/uuid) are parameters. *)
Class Lib := {
  sha256 : string -> string;
  uuid_String : uuid -> string;
}.

(** Documented behaviour of uuid.UUID.String: hexadecimal digits and dashes,
    one text per value. *)
Class LibLaws `{Lib} := {
  uuid_String_inj : forall a b, uuid_String a = uuid_String b -> a = b;
  uuid_String_no_bar : forall a, has_char "|" (uuid_String a) = false;
}.

(** Two different messages with the same digest. *)
Definition sha256_collision `{Lib} : Prop := exists x y, x <> y /\ sha256 x = sha256 y.

(** * Computing and linking blocks *)

Definition GenesisHash : string :=
  "0000000000000000000000000000000000000000000000000000000000000000".

Section chain.
  Context {X : Type} {ENV : Env} {LIB : Lib}.
  Implicit Types (e : LedgerEntry) (l : list LedgerEntry).

Definition hash_payload e : string :=
    FormatInt 10 (le_Seq e) +:+ String "|" (
    uuid_String (le_TransactionID e) +:+ String "|" (
    uuid_String (le_WalletID e) +:+ String "|" (
    le_Type e +:+ String "|" (
    FormatInt 10 (le_AmountNano e) +:+ String "|" (
    FormatInt 10 (le_BalanceAfter e) +:+ String "|" (
    le_PrevHash e)))))).

Definition ComputeHash e : string := HexEncode (sha256 (hash_payload e)).

Definition linkEntry e (prevSeq : Z) (prevHash : string) : LedgerEntry :=
    let e1 := {| le_ID := le_ID e; le_CreatedAt := le_CreatedAt e;
                 le_TransactionID := le_TransactionID e; le_WalletID := le_WalletID e;
                 le_Type := le_Type e; le_AmountNano := le_AmountNano e;
                 le_BalanceAfter := le_BalanceAfter e; le_Seq := i64_add prevSeq 1;
                 le_PrevHash := prevHash; le_Hash := le_Hash e;
                 le_Ref := le_Ref e; le_Note := le_Note e |} in
    {| le_ID := le_ID e1; le_CreatedAt := le_CreatedAt e1;
       le_TransactionID := le_TransactionID e1; le_WalletID := le_WalletID e1;
       le_Type := le_Type e1; le_AmountNano := le_AmountNano e1;
       le_BalanceAfter := le_BalanceAfter e1; le_Seq := le_Seq e1;
       le_PrevHash := le_PrevHash e1; le_Hash := ComputeHash e1;
       le_Ref := le_Ref e1; le_Note := le_Note e1 |}.

(** ORDER BY seq DESC LIMIT 1 *)
Definition chain_tip l : option LedgerEntry := first_by (fun e => - le_Seq e) (fun _ => true) l.

(** Any error, not only an empty table, is taken for an empty chain. *)
Definition lastChainEntryTx : M Tables X (Z * string) :=
    (r <- try (first (fun d => chain_tip (ledger_entries d))) ;;
     match r with
     | Err _ => ret (0, GenesisHash)
     | Ok last => ret (le_Seq last, le_Hash last)
     end)%eff.

(** The same outside a transaction. *)
Definition lastChainEntry : M Tables X (Z * string) :=
    (r <- try (first (fun d => chain_tip (ledger_entries d))) ;;
     match r with
     | Err _ => ret (0, GenesisHash)
     | Ok last => ret (le_Seq last, le_Hash last)
     end)%eff.

(** * Verification *)

Record ChainVerifyResult := {
    cv_Valid : bool;
    cv_TotalBlocks : Z;
    cv_BrokenAtSeq : Z;
    cv_Reason : error;   (* the message, kept with its arguments *)
  }.

Definition no_reason : error := Errorf "" [].

(** One batch of [VerifyChain]: the broken result, or the loop state after it. *)
Fixpoint verify_batch l (prevHash : string) (prevSeq total : Z)
    : ChainVerifyResult + (string * Z * Z) :=
    match l with
    | [] => inr (prevHash, prevSeq, total)
    | e :: l =>
        let total := total + 1 in
        let broken reason := inl {| cv_Valid := false; cv_TotalBlocks := total;
                                    cv_BrokenAtSeq := le_Seq e; cv_Reason := reason |} in
        if negb (le_Seq e =? i64_add prevSeq 1) then
          broken (Errorf "seq gap: expected %d, got %d" [AInt (i64_add prevSeq 1); AInt (le_Seq e)])
        else if negb (le_PrevHash e =? prevHash)%string then
          broken (Errorf "prev_hash mismatch — chain broken" [])
        else if negb (ComputeHash e =? le_Hash e)%string then
          broken (Errorf "hash mismatch — entry was tampered" [])
        else verify_batch l (le_Hash e) (le_Seq e) total
    end.

Definition batchSize : nat := 1000.

(** ORDER BY seq ASC *)
Definition seq_le (a b : LedgerEntry) : Prop := le_Seq a <= le_Seq b.
#[local] Instance seq_le_dec : RelDecision seq_le := fun a b => Z_le_dec (le_Seq a) (le_Seq b).
Definition by_seq l : list LedgerEntry := merge_sort seq_le l.

Definition model_fuel : error := Sentinel "model" "fuel".

Fixpoint VerifyChain_loop (fuel offset : nat) (prevHash : string) (prevSeq total : Z)
    : M Tables X ChainVerifyResult :=
    match fuel with
    | O => throw model_fuel
    | S fuel =>
        (batch <- wrap_err "verify chain: %w"
           (find (fun d => take batchSize (drop offset (by_seq (ledger_entries d))))) ;;
         match batch with
         | [] => ret {| cv_Valid := true; cv_TotalBlocks := total; cv_BrokenAtSeq := 0;
                        cv_Reason := no_reason |}
         | _ =>
             match verify_batch batch prevHash prevSeq total with
             | inl broken => ret broken
             | inr (prevHash, prevSeq, total) =>
                 VerifyChain_loop fuel (offset + length batch) prevHash prevSeq total
             end
         end)%eff
    end.

(** Each round consumes at least one row, so one more round than rows ends it. *)
Definition VerifyChain : M Tables X ChainVerifyResult := fun s =>
    VerifyChain_loop (S (length (ledger_entries (db s)))) 0 GenesisHash 0 0 s.

(** * Appending *)

Definition set_ton_balance (v : Z) (w : Wallet) : option Wallet :=
    Some (with_balances w v (w_Credit w) (w_Frozen w)).

Definition first_wallet (id : uuid) : M Tables X Wallet := first (fun d => wallets d !! id).

(** The composite literal of an entry before it is linked. *)
Definition new_entry (id : uuid) (t : Z) (txID walletID : uuid) (ty : EntryType)
      (amountNano balanceAfter : Z) (ref note : string) : LedgerEntry :=
    {| le_ID := id; le_CreatedAt := t; le_TransactionID := txID; le_WalletID := walletID;
       le_Type := ty; le_AmountNano := amountNano; le_BalanceAfter := balanceAfter;
       le_Seq := 0; le_PrevHash := ""; le_Hash := ""; le_Ref := ref; le_Note := note |}.

Definition RecordTransfer (fromWalletID toWalletID : uuid) (amountNano : Z) (txID : uuid)
      (ref note : string) : M Tables X TransferPair :=
    if amountNano <=? 0 then throw (Errorf "amount must be positive, got %d" [AInt amountNano])
    else if (fromWalletID =? toWalletID)%N then throw (Errorf "cannot transfer to same wallet" [])
    else
    transaction
      (fromWallet <- wrap_err "from wallet: %w" (first_wallet fromWalletID) ;;
       toWallet <- wrap_err "to wallet: %w" (first_wallet toWalletID) ;;
       if w_TONBalance fromWallet <? amountNano then
         throw (Errorf "insufficient balance: have %d, need %d"
                  [AInt (w_TONBalance fromWallet); AInt amountNano])
       else
       (t <- now ;;
        debitID <- uuid_New ;;
        creditID <- uuid_New ;;
        let debit := new_entry debitID t txID fromWalletID EntryDebit amountNano
                       (i64_sub (w_TONBalance fromWallet) amountNano) ref note in
        let credit := new_entry creditID t txID toWalletID EntryCredit amountNano
                       (i64_add (w_TONBalance toWallet) amountNano) ref note in
        ' (prevSeq, prevHash) <- lastChainEntryTx ;;
        let debit := linkEntry debit prevSeq prevHash in
        let credit := linkEntry credit (le_Seq debit) (le_Hash debit) in
        wrap_err "create debit: %w" (exec (insert_ledger debit)) ;;
        wrap_err "create credit: %w" (exec (insert_ledger credit)) ;;
        wrap_err "update from balance: %w" (exec (update_wallet fromWalletID
          (set_ton_balance (i64_sub (w_TONBalance fromWallet) amountNano)))) ;;
        wrap_err "update to balance: %w" (exec (update_wallet toWalletID
          (set_ton_balance (i64_add (w_TONBalance toWallet) amountNano)))) ;;
        ret {| tp_Debit := debit; tp_Credit := credit |}))%eff.

Definition RecordDeposit (walletID : uuid) (amountNano : Z) (txID : uuid)
      (txHash fromAddr : string) : M Tables X LedgerEntry :=
    transaction
      (w <- first_wallet walletID ;;
       id <- uuid_New ;;
       t <- now ;;
       let entry := new_entry id t txID walletID EntryCredit amountNano
                      (i64_add (w_TONBalance w) amountNano) txHash
                      ("deposit from " +:+ fromAddr) in
       ' (prevSeq, prevHash) <- lastChainEntryTx ;;
       let entry := linkEntry entry prevSeq prevHash in
       exec (insert_ledger entry) ;;
       exec (update_wallet walletID (set_ton_balance (i64_add (w_TONBalance w) amountNano))) ;;
       ret entry)%eff.

(** ORDER BY created_at DESC LIMIT n of one wallet's entries. *)
Definition created_ge (a b : LedgerEntry) : Prop := le_CreatedAt b <= le_CreatedAt a.
#[local] Instance created_ge_dec : RelDecision created_ge :=
    fun a b => Z_le_dec (le_CreatedAt b) (le_CreatedAt a).

Definition GetLedgerEntries (walletID : uuid) (limit : nat) : M Tables X (list LedgerEntry) :=
    find (fun d => take limit (merge_sort created_ge
                     (List.filter (fun e => (le_WalletID e =? walletID)%N) (ledger_entries d)))).

Definition sum_amount (walletID : uuid) (ty : EntryType) l : Z :=
    sumZ le_AmountNano
      (List.filter (fun e => (le_WalletID e =? walletID)%N && (le_Type e =? ty)%string) l).

(** The errors of the two SUM queries are not looked at: the sum stays 0. *)
Definition scan_sum (walletID : uuid) (ty : EntryType) : M Tables X Z :=
    (r <- try (find (fun d => sum_amount walletID ty (ledger_entries d))) ;;
     match r with
     | Ok z => ret (if in_int64b z then z else 0)   (* Scan into an int64 *)
     | Err _ => ret 0
     end)%eff.

Definition VerifyLedgerBalance (walletID : uuid) : M Tables X bool :=
    (wallet <- first_wallet walletID ;;
     creditSum <- scan_sum walletID EntryCredit ;;
     debitSum <- scan_sum walletID EntryDebit ;;
     let calculated := i64_sub creditSum debitSum in
     ret (calculated =? w_TONBalance wallet))%eff.

(** * The chain as an inductive specification *)

(** [chained prevSeq prevHash l]: [l] continues a chain whose tip is
    ([prevSeq], [prevHash]). *)
Inductive chained : Z -> string -> list LedgerEntry -> Prop :=
| chained_nil q h : chained q h []
| chained_cons q h e l :
    le_Seq e = i64_add q 1 -> le_PrevHash e = h -> le_Hash e = ComputeHash e ->
    chained (le_Seq e) (le_Hash e) l -> chained q h (e :: l).

#[local] Hint Constructors chained : botpay.

(** The tip reached after [l] from ([q], [h]). *)
Fixpoint tip_of (q : Z) (h : string) l : Z * string :=
  match l with
  | [] => (q, h)
  | e :: l => tip_of (le_Seq e) (le_Hash e) l
  end.

Lemma chained_cons_iff q h e l :
  chained q h (e :: l) <->
  le_Seq e = i64_add q 1 /\ le_PrevHash e = h /\ le_Hash e = ComputeHash e /\
  chained (le_Seq e) (le_Hash e) l.
Proof.
  split; [|intros (? & ? & ? & ?); by constructor].
  intros Hc. inversion Hc; subst. done.
Qed.

Lemma chained_app q h l1 l2 :
  chained q h (l1 ++ l2) <->
  chained q h l1 /\ chained (tip_of q h l1).1 (tip_of q h l1).2 l2.
Proof.
  revert q h. induction l1 as [|e l1 IH]; intros q h; simpl.
  - split; [intros ?; split; [constructor|done]|intros [_ ?]; done].
  - rewrite !chained_cons_iff, IH. tauto.
Qed.

Lemma linkEntry_chained e q h : chained q h [linkEntry e q h].
Proof. repeat constructor. Qed.

(** [verify_batch] decides the specification: it reports a broken block exactly
    when the rows do not continue the chain. *)
Lemma verify_batch_chained l h q n h' q' n' :
  verify_batch l h q n = inr (h', q', n') ->
  chained q h l /\ (q', h') = tip_of q h l /\ n' = n + Z.of_nat (length l).
Proof.
  revert h q n. induction l as [|e l IH]; intros h q n; simpl.
  - intros [= -> -> ->]. split; [constructor|]. split; [done|lia].
  - destruct (le_Seq e =? i64_add q 1) eqn:E1; simpl; [|done].
    destruct (le_PrevHash e =? h)%string eqn:E2; simpl; [|done].
    destruct (ComputeHash e =? le_Hash e)%string eqn:E3; simpl; [|done].
    zbool. intros Hv. apply IH in Hv as (Hc & Ht & Hn).
    split; [by constructor|]. split; [done|]. lia.
Qed.

Lemma chained_verify_batch l h q n :
  chained q h l ->
  verify_batch l h q n = inr ((tip_of q h l).2, (tip_of q h l).1, n + Z.of_nat (length l)).
Proof.
  intros Hc. revert n. induction Hc as [q h|q h e l Hs Hp Hh Hc IH]; intros n; simpl.
  - f_equal. f_equal. lia.
  - rewrite Hs, Z.eqb_refl, Hp, String.eqb_refl, Hh, String.eqb_refl. simpl.
    rewrite <- Hs, <- Hh, IH. f_equal. f_equal. lia.
Qed.

Lemma verify_batch_app l1 l2 h q n :
  verify_batch (l1 ++ l2) h q n =
  match verify_batch l1 h q n with
  | inl r => inl r
  | inr (h, q, n) => verify_batch l2 h q n
  end.
Proof.
  revert h q n. induction l1 as [|e l1 IH]; intros h q n; simpl; [done|].
  destruct (negb _); [done|]. destruct (negb _); [done|]. destruct (negb _); [done|]. apply IH.
Qed.

(** What the batched loop computes: one pass over all rows in seq order. *)
Definition verify_all l : ChainVerifyResult :=
  match verify_batch (by_seq l) GenesisHash 0 0 with
  | inl r => r
  | inr (_, _, n) =>
      {| cv_Valid := true; cv_TotalBlocks := n; cv_BrokenAtSeq := 0; cv_Reason := no_reason |}
  end.

Lemma length_by_seq l : length (by_seq l) = length l.
Proof. apply Permutation_length. unfold by_seq. apply merge_sort_Permutation. Qed.

Lemma VerifyChain_loop_quiet fuel offset h q n (s : st Tables X) :
  quiet_from (tick s) -> tx s <> Aborted ->
  (offset <= length (ledger_entries (db s)) < offset + fuel)%nat ->
  exists s', db s' = db s /\ ext s' = ext s /\
    VerifyChain_loop fuel offset h q n s =
    (Ok match verify_batch (drop offset (by_seq (ledger_entries (db s)))) h q n with
        | inl r => r
        | inr (_, _, n) =>
            {| cv_Valid := true; cv_TotalBlocks := n; cv_BrokenAtSeq := 0;
               cv_Reason := no_reason |}
        end, s').
Proof.
  revert offset h q n s. induction fuel as [|fuel IH]; intros offset h q n s Hq Htx Hfuel.
  - lia.
  - cbn [VerifyChain_loop]. unfold bind, wrap_err, find.
    rewrite stmt_quiet by (try done; apply Hq; lia).
    set (L := by_seq (ledger_entries (db s))).
    destruct (take batchSize (drop offset L)) as [|e batch] eqn:Eb.
    + assert (Hnil : drop offset L = []).
      { destruct (drop offset L) as [|x r]; [done|]. discriminate. }
      rewrite Hnil. eexists. split; [|split; [|reflexivity]]; done.
    + rewrite <- (take_drop batchSize (drop offset L)), Eb, verify_batch_app.
      destruct (verify_batch (e :: batch) h q n) as [r|[[h1 q1] n1]] eqn:Ev.
      * eexists. split; [|split; [|reflexivity]]; done.
      * set (s1 := mkSt _ _ _ _).
        assert (Hlen : (length (e :: batch) <= length L - offset)%nat).
        { rewrite <- Eb, length_take, length_drop. lia. }
        assert (HL : length L = length (ledger_entries (db s))) by apply length_by_seq.
        destruct (IH (offset + length (e :: batch))%nat h1 q1 n1 s1)
          as (s' & Hdb & Hext & ->); [intros k Hk; apply Hq; simpl in *; lia|done|simpl in *; lia|].
        exists s'. split; [done|]. split; [done|].
        rewrite drop_drop.
        assert (Hoff : drop (offset + length (e :: batch)) L = drop (offset + batchSize) L).
        { rewrite <- Eb, length_take, length_drop.
          destruct (decide (batchSize <= length L - offset)%nat).
          - f_equal. lia.
          - rewrite !drop_ge by lia. done. }
        change (by_seq (ledger_entries (db s1))) with L. rewrite Hoff. done.
Qed.

(** A ledger short of 2^63 rows: sequence numbers do not wrap. *)
Definition seq_room (q : Z) l : Prop := 0 <= q /\ q + Z.of_nat (length l) <= int64_max.

Lemma seq_room_cons q e l : seq_room q (e :: l) -> i64_add q 1 = q + 1 /\ seq_room (q + 1) l.
Proof.
  unfold seq_room. cbn [length]. intros H. unfold i64_add. rewrite wrap64_id.
  - split; [done|]. unfold int64_max in *. lia.
  - unfold in_int64, int64_min, int64_max in *. lia.
Qed.

Lemma chained_seq_bounds q h l :
  chained q h l -> seq_room q l ->
  (forall x, x ∈ l -> q < le_Seq x <= q + Z.of_nat (length l))
  /\ (tip_of q h l).1 = q + Z.of_nat (length l).
Proof.
  intros Hc. induction Hc as [q h|q h e l Hs Hp Hh Hc IH]; intros Hr.
  - split; [intros x Hx; set_solver|simpl; lia].
  - apply seq_room_cons in Hr as [Hw Hr]. rewrite Hs, Hw in *.
    destruct (IH Hr) as [Hb Ht]. simpl. rewrite Hs, Ht. split; [|lia].
    intros x Hx. apply elem_of_cons in Hx as [->|Hx]; [lia|].
    specialize (Hb x Hx). lia.
Qed.

Lemma chained_sorted q h l :
  chained q h l -> seq_room q l -> StronglySorted (fun a b => le_Seq a < le_Seq b) l.
Proof.
  intros Hc. induction Hc as [q h|q h e l Hs Hp Hh Hc IH]; intros Hr; [constructor|].
  apply seq_room_cons in Hr as [Hw Hr]. rewrite Hs, Hw in *.
  constructor; [by apply IH|]. apply Forall_forall. intros x Hx.
  apply chained_seq_bounds in Hc as [Hb _]; [|done]. specialize (Hb x Hx). lia.
Qed.

#[local] Instance seq_le_total : Total seq_le.
Proof. intros a b. unfold seq_le. lia. Qed.
#[local] Instance seq_le_trans : Transitive seq_le.
Proof. intros a b c. unfold seq_le. lia. Qed.

Lemma strict_sorted_distinct l x y :
  StronglySorted (fun a b => le_Seq a < le_Seq b) l -> x ∈ l -> y ∈ l ->
  le_Seq x = le_Seq y -> x = y.
Proof.
  induction 1 as [|z l Hl IH Hz]; intros Hx Hy E; [set_solver|].
  rewrite Forall_forall in Hz.
  apply elem_of_cons in Hx as [->|Hx]; apply elem_of_cons in Hy as [->|Hy]; [done| | |auto].
  - specialize (Hz y Hy). lia.
  - specialize (Hz x Hx). lia.
Qed.

(** The rows of a chain come out of the ORDER BY in insertion order. *)
Lemma by_seq_chained q h l : chained q h l -> seq_room q l -> by_seq l = l.
Proof.
  intros Hc Hr. pose proof (chained_sorted _ _ _ Hc Hr) as Hsort.
  apply (StronglySorted_unique_strong seq_le).
  - intros x y Hx Hy Hxy Hyx. apply (strict_sorted_distinct l); try done.
    + unfold by_seq in Hx. by rewrite merge_sort_Permutation in Hx.
    + unfold seq_le in *. lia.
  - apply (StronglySorted_merge_sort seq_le).
  - clear -Hsort. induction Hsort as [|x l Hl IH Hx]; constructor; [done|].
    eapply Forall_impl; [exact Hx|]. intros y. unfold seq_le. lia.
  - apply merge_sort_Permutation.
Qed.

Lemma chain_tip_chained q h l :
  chained q h l -> seq_room q l ->
  tip_of q h l = match chain_tip l with
                 | None => (q, h)
                 | Some e => (le_Seq e, le_Hash e)
                 end.
Proof.
  intros Hc Hr. pose proof (chained_sorted _ _ _ Hc Hr) as Hsort.
  destruct l as [|e l _] using rev_ind; [done|].
  assert (Htip : chain_tip (l ++ [e]) = Some e).
  { unfold chain_tip. destruct (first_by _ _ _) as [x|] eqn:E.
    - pose proof (first_by_min _ _ _ _ E e ltac:(set_solver) eq_refl) as Hmin.
      apply first_by_some in E as [Hx _]. f_equal.
      apply elem_of_app in Hx as [Hx|Hx]; [|set_solver].
      apply StronglySorted_app in Hsort as (Hlt & _ & _).
      specialize (Hlt x e Hx ltac:(set_solver)). cbv beta in *. exfalso. lia.
    - rewrite first_by_none in E. specialize (E e ltac:(set_solver)). done. }
  rewrite Htip. clear. revert q h. induction l as [|x l IH]; intros q h; [done|]. apply IH.
Qed.

(** * Appending operations *)

Definition tip_or_genesis l : Z * string :=
  match chain_tip l with None => (0, GenesisHash) | Some e => (le_Seq e, le_Hash e) end.

(** Inside a transaction that goes on to succeed, the tip read is the real one. *)
Lemma lastChainEntryTx_ok (s : st Tables X) q h s' :
  lastChainEntryTx s = (Ok (q, h), s') ->
  db s' = db s /\ ext s' = ext s /\
  (tx s = InTx -> tx s' <> Aborted ->
     q = (tip_or_genesis (ledger_entries (db s))).1 /\
     h = (tip_or_genesis (ledger_entries (db s))).2).
Proof.
  unfold tip_or_genesis, lastChainEntryTx, try, bind, first, stmt.
  destruct (tx s) eqn:Et; simpl.
  - destruct (env_fault (tick s)); [|destruct (chain_tip _)]; simpl; intros [= <- <- <-]; simpl; done.
  - destruct (env_fault (tick s)); [|destruct (chain_tip _)]; simpl; intros [= <- <- <-]; simpl; done.
  - intros [= <- <- <-]; done.
Qed.

#[local] Arguments linkEntry : simpl never.

(** What a successful RecordTransfer did. *)
Lemma RecordTransfer_run a b n id ref note (s s' : st Tables X) p :
  RecordTransfer a b n id ref note s = (Ok p, s') ->
  exists wa wb eid1 eid2 t, let q := (tip_or_genesis (ledger_entries (db s))).1 in
    let h := (tip_or_genesis (ledger_entries (db s))).2 in
    0 < n /\ a <> b /\ wallets (db s) !! a = Some wa /\ wallets (db s) !! b = Some wb /\
    n <= w_TONBalance wa /\
    tp_Debit p = linkEntry (new_entry eid1 t id a EntryDebit n
                              (i64_sub (w_TONBalance wa) n) ref note) q h /\
    tp_Credit p = linkEntry (new_entry eid2 t id b EntryCredit n
                              (i64_add (w_TONBalance wb) n) ref note)
                    (le_Seq (tp_Debit p)) (le_Hash (tp_Debit p)) /\
    db s' = set_wallets (fun m =>
              <[b := with_balances wb (i64_add (w_TONBalance wb) n) (w_Credit wb) (w_Frozen wb)]>
              (<[a := with_balances wa (i64_sub (w_TONBalance wa) n) (w_Credit wa) (w_Frozen wa)]> m))
            (set_ledger (fun l => l ++ [tp_Debit p; tp_Credit p]) (db s)) /\ ext s' = ext s.
Proof.
  unfold RecordTransfer. destruct (n <=? 0) eqn:En; [discriminate|].
  destruct (a =? b)%N eqn:Eab; [discriminate|].
  intros Hrun. unfold first_wallet in Hrun. run_inv.
  match goal with t : Z * string |- _ => destruct t as [q h] end. run_inv.
  match goal with Hl : lastChainEntryTx _ = _ |- _ =>
    apply lastChainEntryTx_ok in Hl as (Hdb & Hext & Htip) end.
  cbn [tx db ext] in *. specialize (Htip eq_refl ltac:(done)) as [-> ->].
  repeat match goal with Hi : insert_ledger _ _ = Ok _ |- _ =>
    apply insert_ledger_ok in Hi as [-> _] end.
  unfold update_wallet, set_ton_balance in *. simpl in *. rewrite Hdb in *.
  apply N.eqb_neq in Eab. zbool.
  match goal with Hw : wallets (db s) !! a = Some _, Hu : wallets (db s) !! b = Some _ |- _ =>
    rename Hw into Ha; rename Hu into Hb end.
  rewrite Ha in *. simplify_eq/=.
  rewrite lookup_insert_ne, Hb in * by done. simplify_eq/=.
  eexists _, _, _, _, _. cbv zeta.
  split_and!; try done; try lia.
  unfold set_wallets, set_ledger. simpl. by rewrite <- app_assoc.
Qed.

Lemma RecordDeposit_run a n id txh from (s s' : st Tables X) e :
  RecordDeposit a n id txh from s = (Ok e, s') ->
  exists w eid t,
    wallets (db s) !! a = Some w /\
    e = linkEntry (new_entry eid t id a EntryCredit n (i64_add (w_TONBalance w) n) txh
                     ("deposit from " +:+ from))
          (tip_or_genesis (ledger_entries (db s))).1
          (tip_or_genesis (ledger_entries (db s))).2 /\
    db s' = set_wallets
              <[a := with_balances w (i64_add (w_TONBalance w) n) (w_Credit w) (w_Frozen w)]>
              (set_ledger (fun l => l ++ [e]) (db s)) /\ ext s' = ext s.
Proof.
  unfold RecordDeposit, first_wallet. intros Hrun. run_inv.
  match goal with t : Z * string |- _ => destruct t as [q h] end. run_inv.
  match goal with Hl : lastChainEntryTx _ = _ |- _ =>
    apply lastChainEntryTx_ok in Hl as (Hdb & Hext & Htip) end.
  cbn [tx db ext] in *. specialize (Htip eq_refl ltac:(done)) as [-> ->].
  match goal with Hi : insert_ledger _ _ = Ok _ |- _ =>
    apply insert_ledger_ok in Hi as [-> _] end.
  unfold update_wallet, set_ton_balance in *. simpl in *. rewrite Hdb in *.
  match goal with Hw : wallets (db s) !! a = Some _ |- _ => rewrite Hw in * end.
  simplify_eq/=. eexists _, _, _. split_and!; done.
Qed.

Lemma fst_snd_tip l : chained 0 GenesisHash l -> seq_room 0 l ->
  chained (tip_of 0 GenesisHash l).1 (tip_of 0 GenesisHash l).2 [] /\
  tip_or_genesis l = tip_of 0 GenesisHash l.
Proof.
  intros Hc Hr. split; [constructor|]. unfold tip_or_genesis.
  by rewrite (chain_tip_chained _ _ _ Hc Hr).
Qed.

(** A chain stays one after appending blocks linked to its tip. *)
Lemma chained_snoc l e :
  chained 0 GenesisHash l -> seq_room 0 l ->
  chained 0 GenesisHash (l ++ [linkEntry e (tip_or_genesis l).1 (tip_or_genesis l).2]).
Proof.
  intros Hc Hr. apply chained_app. split; [done|].
  destruct (fst_snd_tip l Hc Hr) as [_ <-]. apply linkEntry_chained.
Qed.

Lemma chained_snoc2 l e1 e2 :
  chained 0 GenesisHash l -> seq_room 0 l ->
  let b1 := linkEntry e1 (tip_or_genesis l).1 (tip_or_genesis l).2 in
  chained 0 GenesisHash (l ++ [b1; linkEntry e2 (le_Seq b1) (le_Hash b1)]).
Proof.
  intros Hc Hr. simpl. apply chained_app. split; [done|].
  destruct (fst_snd_tip l Hc Hr) as [_ <-].
  apply (chained_app _ _ [_] [_]). split; [apply linkEntry_chained|]. apply linkEntry_chained.
Qed.

(** * Tamper evidence *)

(** The content of a block that its hash covers. *)
Definition hashed_fields e : Z * uuid * uuid * string * Z * Z * string :=
  (le_Seq e, le_TransactionID e, le_WalletID e, le_Type e, le_AmountNano e,
   le_BalanceAfter e, le_PrevHash e).

(** The integer columns are bigints. *)
Definition entry_in_range e : Prop :=
  in_int64 (le_Seq e) /\ in_int64 (le_AmountNano e) /\ in_int64 (le_BalanceAfter e).

Lemma int_no_bar n : has_char "|" (FormatInt 10 n) = false.
Proof. by apply int_no_char. Qed.

Lemma hash_payload_inj `{!LibLaws} e1 e2 :
  entry_in_range e1 -> entry_in_range e2 ->
  has_char "|" (le_PrevHash e1) = false -> has_char "|" (le_PrevHash e2) = false ->
  hash_payload e1 = hash_payload e2 -> hashed_fields e1 = hashed_fields e2.
Proof.
  intros (Hs1 & Ha1 & Hb1) (Hs2 & Ha2 & Hb2) Hp1 Hp2. unfold hash_payload. intros Heq.
  apply sep_inj_first in Heq as [Eseq Heq]; try apply int_no_bar.
  apply sep_inj_first in Heq as [Etx Heq]; try apply uuid_String_no_bar.
  apply sep_inj_first in Heq as [Ew Heq]; try apply uuid_String_no_bar.
  (* type | amount | balance | prev: the type is free text, so cut from the right *)
  assert (Hcut : forall T A B P, T +:+ String "|" (A +:+ String "|" (B +:+ String "|" P))
                 = ((T +:+ String "|" A) +:+ String "|" B) +:+ String "|" P).
  { intros T A B P. by rewrite !append_assoc. }
  rewrite !Hcut in Heq.
  apply sep_inj_last in Heq as [Heq Ep]; try done.
  apply sep_inj_last in Heq as [Heq Eb]; try apply int_no_bar.
  apply sep_inj_last in Heq as [Et Ea]; try apply int_no_bar.
  apply FormatInt_inj in Eseq, Ea, Eb; try done; try lia.
  apply uuid_String_inj in Etx, Ew. unfold hashed_fields. congruence.
Qed.

(** Every hash a chain from the genesis block refers to is hexadecimal text. *)
Lemma chained_tip_no_bar q h l :
  has_char "|" h = false -> chained q h l -> has_char "|" (tip_of q h l).2 = false.
Proof.
  intros Hh Hc. induction Hc as [q h|q h e l Hs Hp He Hc IH]; [done|].
  apply IH. rewrite He. apply hex_no_bar.
Qed.

Lemma tip_of_snoc q h l e : tip_of q h (l ++ [e]) = (le_Seq e, le_Hash e).
Proof. revert q h. induction l as [|x l IH]; intros q h; [done|]. apply IH. Qed.

Lemma chained_snoc_inv q h l e :
  has_char "|" h = false -> chained q h (l ++ [e]) ->
  chained q h l /\ le_PrevHash e = (tip_of q h l).2 /\ le_Hash e = ComputeHash e /\
  has_char "|" (le_PrevHash e) = false.
Proof.
  intros Hh Hc. apply chained_app in Hc as [Hc Hl].
  apply chained_cons_iff in Hl as (_ & Hp & He & _).
  split_and!; try done. rewrite Hp. by apply (chained_tip_no_bar _ _ _ Hh).
Qed.

(** Two chains ending in the same hash, read backwards. *)
Lemma chained_commits `{!LibLaws} q h l1 l2 :
  has_char "|" h = false ->
  chained q h l1 -> chained q h l2 -> length l1 = length l2 ->
  Forall entry_in_range l1 -> Forall entry_in_range l2 ->
  (tip_of q h l1).2 = (tip_of q h l2).2 ->
  map hashed_fields l1 = map hashed_fields l2 \/ sha256_collision.
Proof.
  intros Hh. revert l2.
  induction l1 as [|e1 l1 IH] using rev_ind; intros l2 Hc1 Hc2 Hlen Hr1 Hr2 Ht.
  - destruct l2; [by left|discriminate].
  - destruct l2 as [|e2 l2 _] using rev_ind; [rewrite length_app in Hlen; simpl in Hlen; lia|].
    rewrite !length_app in Hlen. simpl in Hlen.
    apply chained_snoc_inv in Hc1 as (Hc1 & Hp1 & Hh1 & Hb1); [|done].
    apply chained_snoc_inv in Hc2 as (Hc2 & Hp2 & Hh2 & Hb2); [|done].
    apply Forall_app in Hr1 as [Hr1 He1], Hr2 as [Hr2 He2].
    rewrite Forall_singleton in He1, He2.
    rewrite !tip_of_snoc in Ht. simpl in Ht. rewrite Hh1, Hh2 in Ht.
    apply HexEncode_inj in Ht.
    destruct (decide (hash_payload e1 = hash_payload e2)) as [Hpl|Hpl];
      [|right; by exists (hash_payload e1), (hash_payload e2)].
    apply hash_payload_inj in Hpl as Hf; try done.
    destruct (IH l2) as [Hm|Hm]; try done; try lia.
    + rewrite <- Hp1, <- Hp2. unfold hashed_fields in Hf. congruence.
    + left. rewrite !map_app, Hm. simpl. by rewrite Hf.
    + by right.
Qed.

(** * Sequences of appending operations *)

Inductive ledger_op :=
| OpTransfer (from to : uuid) (amountNano : Z) (txID : uuid) (ref note : string)
| OpDeposit (wallet : uuid) (amountNano : Z) (txID : uuid) (txHash fromAddr : string).

(** The tables after an operation, whatever it returns. *)
Definition run_ledger_op (o : ledger_op) (s : st Tables X) : st Tables X :=
  match o with
  | OpTransfer a b n id ref note => (RecordTransfer a b n id ref note s).2
  | OpDeposit a n id txh from => (RecordDeposit a n id txh from s).2
  end.

Definition run_ledger_ops (os : list ledger_op) (s : st Tables X) : st Tables X :=
  fold_left (fun s o => run_ledger_op o s) os s.

Lemma RecordTransfer_atomic a b n id ref note (s s' : st Tables X) er :
  RecordTransfer a b n id ref note s = (Err er, s') -> db s' = db s.
Proof.
  unfold RecordTransfer. destruct (n <=? 0); [intros [= _ <-]; done|].
  destruct (a =? b)%N; [intros [= _ <-]; done|]. apply transaction_atomic.
Qed.

Lemma run_ledger_op_chained o (s : st Tables X) :
  chained 0 GenesisHash (ledger_entries (db s)) ->
  seq_room 0 (ledger_entries (db s)) ->
  let l' := ledger_entries (db (run_ledger_op o s)) in
  chained 0 GenesisHash l' /\ (length l' <= length (ledger_entries (db s)) + 2)%nat.
Proof.
  intros Hc Hr. destruct o as [a b n id ref note|a n id txh from]; simpl.
  - destruct (RecordTransfer a b n id ref note s) as [[p|e] s'] eqn:E; simpl.
    + apply RecordTransfer_run in E as (wa & wb & i1 & i2 & t & _ & _ & _ & _ & _ & Hd & Hcr & Hdb & _).
      rewrite Hdb. simpl. rewrite length_app. split; [|simpl; lia].
      rewrite Hcr, Hd. by apply chained_snoc2.
    + apply RecordTransfer_atomic in E as ->. split; [done|lia].
  - destruct (RecordDeposit a n id txh from s) as [[p|e] s'] eqn:E; simpl.
    + apply RecordDeposit_run in E as (w & eid & t & _ & -> & Hdb & _).
      rewrite Hdb. simpl. rewrite length_app. split; [|simpl; lia]. by apply chained_snoc.
    + apply transaction_atomic in E as ->. split; [done|lia].
Qed.

Lemma run_ledger_ops_chained os (s : st Tables X) :
  chained 0 GenesisHash (ledger_entries (db s)) ->
  Z.of_nat (length (ledger_entries (db s))) + 2 * Z.of_nat (length os) <= int64_max ->
  let l' := ledger_entries (db (run_ledger_ops os s)) in
  chained 0 GenesisHash l' /\ seq_room 0 l'.
Proof.
  revert s. induction os as [|o os IH]; intros s Hc Hlen; simpl.
  - split; [done|]. unfold seq_room. simpl in Hlen. lia.
  - cbn [length] in Hlen.
    destruct (run_ledger_op_chained o s) as [Hc' Hl']; [done|unfold seq_room; lia|].
    apply IH; [done|]. lia.
Qed.

Lemma verify_batch_broken l h q n r :
  verify_batch l h q n = inl r ->
  exists good e rest, l = good ++ e :: rest /\ chained q h good /\ ~ chained q h (good ++ [e]) /\
    cv_Valid r = false /\ cv_BrokenAtSeq r = le_Seq e /\
    cv_TotalBlocks r = n + Z.of_nat (length good) + 1.
Proof.
  revert h q n. induction l as [|e l IH]; intros h q n; simpl; [done|].
  assert (Hhere : (le_Seq e <> i64_add q 1 \/ le_PrevHash e <> h \/ ComputeHash e <> le_Hash e) ->
                  ~ chained q h ([] ++ [e])).
  { intros Hbad Hc. apply chained_cons_iff in Hc as (? & ? & ? & _). intuition congruence. }
  destruct (le_Seq e =? i64_add q 1) eqn:E1; simpl;
    [destruct (le_PrevHash e =? h)%string eqn:E2; simpl;
      [destruct (ComputeHash e =? le_Hash e)%string eqn:E3; simpl|]|]; zbool;
    [|intros [= <-]; exists [], e, l; simpl; split_and!; try done; [constructor|tauto|lia]..].
  intros Hv. apply IH in Hv as (g & x & rest & -> & Hg & Hn & Hval & Hseq & Htot).
  exists (e :: g), x, rest. split_and!; try done.
  - by constructor.
  - simpl. rewrite chained_cons_iff. tauto.
  - rewrite Htot. simpl length. lia.
Qed.

(** The property of the rows that [VerifyChain] decides. *)
Lemma verify_all_valid l :
  cv_Valid (verify_all l) = true <-> chained 0 GenesisHash (by_seq l).
Proof.
  unfold verify_all. split.
  - destruct (verify_batch (by_seq l) GenesisHash 0 0) as [r|[[h q] n]] eqn:E.
    + apply verify_batch_broken in E as (? & ? & ? & _ & _ & _ & Hf & _). congruence.
    + intros _. by apply verify_batch_chained in E as [? _].
  - intros Hc. by rewrite (chained_verify_batch _ _ _ _ Hc).
Qed.

(** * Balances against the ledger *)

(** Credits minus debits of one wallet, and of the whole book. *)
Definition ledger_net (walletID : uuid) l : Z :=
  sum_amount walletID EntryCredit l - sum_amount walletID EntryDebit l.

Definition signed_amount e : Z :=
  if (le_Type e =? EntryCredit)%string then le_AmountNano e
  else if (le_Type e =? EntryDebit)%string then - le_AmountNano e else 0.

Definition book_net l : Z := sumZ signed_amount l.

(** Every wallet's TON balance is what its entries add up to. *)
Definition ledger_balanced (d : Tables) : Prop :=
  forall id w, wallets d !! id = Some w -> w_TONBalance w = ledger_net id (ledger_entries d).

Definition ton_in_range (d : Tables) : Prop :=
  forall id w, wallets d !! id = Some w -> in_int64 (w_TONBalance w).

Lemma ton_in_range_check d :
  forallb (fun w => in_int64b (w_TONBalance w)) (rows (wallets d)) = true -> ton_in_range d.
Proof.
  rewrite forallb_forall. intros Hall id w Hw. apply in_int64b_spec, Hall.
  apply list_elem_of_In, elem_of_rows. by exists id.
Qed.

Lemma sum_amount_app id ty l1 l2 :
  sum_amount id ty (l1 ++ l2) = sum_amount id ty l1 + sum_amount id ty l2.
Proof. unfold sum_amount. by rewrite List.filter_app, sumZ_app. Qed.

Lemma ledger_net_app id l1 l2 : ledger_net id (l1 ++ l2) = ledger_net id l1 + ledger_net id l2.
Proof. unfold ledger_net. rewrite !sum_amount_app. lia. Qed.

Lemma ledger_net_one id eid t txid w ty n ba ref note q h :
  ledger_net id [linkEntry (new_entry eid t txid w ty n ba ref note) q h] =
  if (w =? id)%N then signed_amount (new_entry eid t txid w ty n ba ref note) else 0.
Proof.
  unfold ledger_net, sum_amount, signed_amount. simpl. destruct (w =? id)%N; simpl; [|done].
  destruct (ty =? EntryCredit)%string eqn:E1; destruct (ty =? EntryDebit)%string eqn:E2;
    zbool; subst; simpl; try lia. discriminate.
Qed.

Lemma RecordTransfer_values a b n id ref note (s s' : st Tables X) p :
  RecordTransfer a b n id ref note s = (Ok p, s') ->
  ton_in_range (db s) ->
  (forall w, wallets (db s) !! b = Some w -> in_int64 (w_TONBalance w + n)) ->
  map_sum w_TONBalance (wallets (db s')) = map_sum w_TONBalance (wallets (db s)) /\
  book_net (ledger_entries (db s')) = book_net (ledger_entries (db s)) /\
  (ledger_balanced (db s) -> ledger_balanced (db s')).
Proof.
  intros Hrun Hrg Hb.
  apply RecordTransfer_run in Hrun
    as (wa & wb & i1 & i2 & t & Hn & Hab & Ha & Hwb & Hle & Hd & Hcr & Hdb & _).
  pose proof (Hrg _ _ Ha) as Hra. specialize (Hb wb Hwb).
  assert (Hsub : i64_sub (w_TONBalance wa) n = w_TONBalance wa - n) by (i64; lia).
  assert (Hadd : i64_add (w_TONBalance wb) n = w_TONBalance wb + n) by (by apply wrap64_id).
  rewrite Hsub, Hadd in *. rewrite Hdb. simpl. split_and!.
  - rewrite (map_sum_insert _ _ _ wb) by (by rewrite lookup_insert_ne).
    rewrite (map_sum_insert _ _ _ wa) by done. simpl. lia.
  - unfold book_net. rewrite sumZ_app. simpl. rewrite Hcr, Hd.
    unfold signed_amount. simpl. lia.
  - intros Hbal i w Hi. simpl in Hi. simpl.
    change [tp_Debit p; tp_Credit p] with ([tp_Debit p] ++ [tp_Credit p]).
    rewrite !ledger_net_app, Hcr, Hd, !ledger_net_one.
    destruct (decide (b = i)) as [<-|Hbi].
    + rewrite lookup_insert_eq in Hi. injection Hi as <-.
      rewrite N.eqb_refl, (proj2 (N.eqb_neq _ _)) by done.
      simpl. unfold signed_amount. simpl. rewrite (Hbal _ _ Hwb). lia.
    + rewrite lookup_insert_ne in Hi by done.
      rewrite (proj2 (N.eqb_neq b i)) by done.
      destruct (decide (a = i)) as [<-|Hai].
      * rewrite lookup_insert_eq in Hi. injection Hi as <-. rewrite N.eqb_refl.
        unfold signed_amount. simpl. rewrite (Hbal _ _ Ha). lia.
      * rewrite lookup_insert_ne in Hi by done. rewrite (proj2 (N.eqb_neq a i)) by done.
        rewrite (Hbal _ _ Hi). lia.
Qed.

Lemma scan_sum_quiet id ty (s : st Tables X) :
  env_fault (tick s) = None -> tx s <> Aborted ->
  in_int64 (sum_amount id ty (ledger_entries (db s))) ->
  scan_sum id ty s =
  (Ok (sum_amount id ty (ledger_entries (db s))), mkSt (S (tick s)) (tx s) (db s) (ext s)).
Proof.
  intros Hf Htx Hr. unfold scan_sum, bind, try, find. rewrite stmt_quiet by done.
  apply in_int64b_spec in Hr. by rewrite Hr.
Qed.

(** The specification, by computation. *)
Lemma chained_check l :
  match verify_batch l GenesisHash 0 0 with inr _ => true | inl _ => false end = true ->
  chained 0 GenesisHash l.
Proof.
  destruct (verify_batch l GenesisHash 0 0) as [r|[[h q] n]] eqn:E; [done|].
  intros _. by apply verify_batch_chained in E as [? _].
Qed.

Lemma VerifyChain_result (s : st Tables X) :
  quiet_from (tick s) -> tx s <> Aborted ->
  exists s', VerifyChain s = (Ok (verify_all (ledger_entries (db s))), s') /\
             db s' = db s /\ ext s' = ext s.
Proof.
  intros Hq Htx. unfold VerifyChain.
  destruct (VerifyChain_loop_quiet (S (length (ledger_entries (db s)))) 0 GenesisHash 0 0 s)
    as (s' & Hdb & Hext & ->); [done|done|lia|].
  exists s'. done.
Qed.

(** C5: VerifyChain always terminates: when no statement fails, the batched
    loop (1000 rows a round, OFFSET paging) returns, leaves the tables alone and
    its answer is that of a single pass over all rows in seq order. *)
Theorem VerifyChain_complete (s : st Tables X) :
  quiet_from (tick s) -> tx s <> Aborted ->
  exists s', VerifyChain s = (Ok (verify_all (ledger_entries (db s))), s') /\
             db s' = db s /\ ext s' = ext s.
Proof. apply VerifyChain_result. Qed.

(** The answer of VerifyChain is right: Valid exactly for an unbroken
    hash chain from the genesis block, and otherwise BrokenAtSeq is the first
    block that does not continue the chain and TotalBlocks its position. *)
Theorem VerifyChain_decides l :
  (cv_Valid (verify_all l) = true <-> chained 0 GenesisHash (by_seq l)) /\
  (cv_Valid (verify_all l) = false ->
   exists good e rest, by_seq l = good ++ e :: rest /\ chained 0 GenesisHash good /\
     ~ chained 0 GenesisHash (good ++ [e]) /\ cv_BrokenAtSeq (verify_all l) = le_Seq e /\
     cv_TotalBlocks (verify_all l) = Z.of_nat (length good) + 1).
Proof.
  split; [apply verify_all_valid|]. unfold verify_all.
  destruct (verify_batch (by_seq l) GenesisHash 0 0) as [r|[[h q] n]] eqn:E; [|done].
  intros _. apply verify_batch_broken in E as (g & e & rest & ? & ? & ? & _ & ? & ?).
  exists g, e, rest. split_and!; done.
Qed.

(** Whatever sequence of RecordTransfer and RecordDeposit runs, and
    whichever statements fail, a verified ledger still verifies. *)
Theorem ledger_ops_keep_chain os (s : st Tables X) :
  chained 0 GenesisHash (ledger_entries (db s)) ->
  Z.of_nat (length (ledger_entries (db s))) + 2 * Z.of_nat (length os) <= int64_max ->
  cv_Valid (verify_all (ledger_entries (db (run_ledger_ops os s)))) = true.
Proof.
  intros Hc Hlen. apply verify_all_valid.
  destruct (run_ledger_ops_chained os s Hc Hlen) as [Hc' Hr'].
  by rewrite (by_seq_chained _ _ _ Hc' Hr').
Qed.

(** C3: tampering is detected: if two ledgers with the same number of blocks
    and the same last hash both verify, they agree on every hashed field of every
    block, unless SHA-256 has a collision. The type column may hold any text. *)
Theorem ledger_tamper_evident `{!LibLaws} l1 l2 :
  cv_Valid (verify_all l1) = true -> cv_Valid (verify_all l2) = true ->
  length l1 = length l2 -> Forall entry_in_range l1 -> Forall entry_in_range l2 ->
  (tip_of 0 GenesisHash (by_seq l1)).2 = (tip_of 0 GenesisHash (by_seq l2)).2 ->
  map hashed_fields (by_seq l1) = map hashed_fields (by_seq l2) \/ sha256_collision.
Proof.
  rewrite !verify_all_valid. intros H1 H2 Hlen Hr1 Hr2 Ht.
  apply (chained_commits 0 GenesisHash); try done.
  - by rewrite !length_by_seq.
  - unfold by_seq. by rewrite merge_sort_Permutation.
  - unfold by_seq. by rewrite merge_sort_Permutation.
Qed.
(** A transfer through the ledger moves money and makes none: whatever it
    returns, the TON held by all wallets together and the net of the book stay
    the same, and every wallet's balance stays equal to the sum of its entries. *)
Theorem RecordTransfer_conserves a b n id ref note (s s' : st Tables X) r :
  RecordTransfer a b n id ref note s = (r, s') ->
  ton_in_range (db s) ->
  (forall w, wallets (db s) !! b = Some w -> in_int64 (w_TONBalance w + n)) ->
  map_sum w_TONBalance (wallets (db s')) = map_sum w_TONBalance (wallets (db s)) /\
  book_net (ledger_entries (db s')) = book_net (ledger_entries (db s)) /\
  (ledger_balanced (db s) -> ledger_balanced (db s')).
Proof.
  intros Hrun Hrg Hb. destruct r as [p|er].
  - by apply (RecordTransfer_values _ _ _ _ _ _ _ _ _ Hrun).
  - apply RecordTransfer_atomic in Hrun as ->. done.
Qed.

(** A ledger deposit writes a single credit entry: the net of the book
    rises by the amount (the entries do not sum to zero), and every wallet's
    balance stays equal to the sum of its entries. *)
Theorem RecordDeposit_one_sided a n id txh from (s s' : st Tables X) e :
  RecordDeposit a n id txh from s = (Ok e, s') ->
  (forall w, wallets (db s) !! a = Some w -> in_int64 (w_TONBalance w + n)) ->
  ledger_entries (db s') = ledger_entries (db s) ++ [e] /\
  book_net (ledger_entries (db s')) = book_net (ledger_entries (db s)) + n /\
  (ledger_balanced (db s) -> ledger_balanced (db s')).
Proof.
  intros Hrun Hb. apply RecordDeposit_run in Hrun as (w & eid & t & Hw & He & Hdb & _).
  assert (Hadd : i64_add (w_TONBalance w) n = w_TONBalance w + n) by (apply wrap64_id; auto).
  rewrite Hadd in *. rewrite Hdb. simpl. split_and!; [done| |].
  - unfold book_net. rewrite sumZ_app, He. simpl. unfold signed_amount. simpl. lia.
  - intros Hbal i w' Hi. simpl in *. rewrite ledger_net_app, He, ledger_net_one.
    destruct (decide (a = i)) as [<-|Hai].
    + rewrite lookup_insert_eq in Hi. injection Hi as <-. rewrite N.eqb_refl.
      unfold signed_amount. simpl. rewrite (Hbal _ _ Hw). lia.
    + rewrite lookup_insert_ne in Hi by done. rewrite (proj2 (N.eqb_neq a i)) by done.
      rewrite (Hbal _ _ Hi). lia.
Qed.

(** VerifyLedgerBalance answers whether the wallet's balance is the sum of
    its entries, when no query fails and the sums fit a bigint. *)
Theorem VerifyLedgerBalance_correct a (s : st Tables X) w :
  quiet_from (tick s) -> tx s <> Aborted -> wallets (db s) !! a = Some w ->
  in_int64 (sum_amount a EntryCredit (ledger_entries (db s))) ->
  in_int64 (sum_amount a EntryDebit (ledger_entries (db s))) ->
  in_int64 (ledger_net a (ledger_entries (db s))) ->
  exists s', VerifyLedgerBalance a s =
    (Ok (bool_decide (w_TONBalance w = ledger_net a (ledger_entries (db s)))), s').
Proof.
  intros Hq Htx Hw Hc Hd Hnet. unfold VerifyLedgerBalance, first_wallet, first, bind.
  rewrite stmt_quiet by (try done; apply Hq; lia). rewrite Hw.
  rewrite scan_sum_quiet by (simpl; try done; apply Hq; simpl; lia). cbn [db tx ext tick].
  rewrite scan_sum_quiet by (simpl; try done; apply Hq; simpl; lia). cbn [db tx ext tick].
  eexists. unfold ret, i64_sub. rewrite wrap64_id by done. do 2 f_equal.
  fold (ledger_net a (ledger_entries (db s))).
  destruct (Z.eqb_spec (ledger_net a (ledger_entries (db s))) (w_TONBalance w)).
  - by rewrite bool_decide_true.
  - rewrite bool_decide_false by congruence. done.
Qed.
End chain.

(** * Witnesses *)

(** A concrete library: an injective stand-in for SHA-256, binary text for UUIDs. *)
Fixpoint pos_text (p : positive) : string :=
  match p with
  | xH => "1"
  | xO p => String "0" (pos_text p)
  | xI p => String "1" (pos_text p)
  end.
Definition N_text (n : N) : string := match n with N0 => "0" | Npos p => String "x" (pos_text p) end.

Definition demo_lib : Lib := {| sha256 := fun s => s; uuid_String := N_text |}.

Lemma pos_text_nonempty p : pos_text p <> ""%string.
Proof. destruct p; discriminate. Qed.

Lemma pos_text_inj p q : pos_text p = pos_text q -> p = q.
Proof.
  revert q. induction p as [p IH|p IH|]; intros [q|q|]; simpl; intros [=]; try done;
    try (f_equal; by apply IH); exfalso; eapply pos_text_nonempty; eauto.
Qed.

Lemma pos_text_no_bar p : has_char "|" (pos_text p) = false.
Proof. induction p as [p IH|p IH|]; simpl; done. Qed.

Definition demo_laws : @LibLaws demo_lib.
Proof.
  constructor.
  - intros [|p] [|q]; simpl; intros [=]; [done|]. f_equal. by apply pos_text_inj.
  - intros [|p]; simpl; [done|]. apply pos_text_no_bar.
Defined.

(** Two empty wallets funded through the ledger. *)
Definition demo_ledger_st : st Tables unit := Eval vm_compute in
  @run_ledger_ops unit calm_env demo_lib
    [OpDeposit 1 5000 90 "tx1" "addr1"; OpDeposit 2 700 91 "tx2" "addr2"]
    (init_st (demo_tables 0 0 0 0) tt).

Lemma VerifyChain_complete_witness :
  exists s', @VerifyChain unit calm_env demo_lib demo_ledger_st =
             (Ok (@verify_all demo_lib (ledger_entries (db demo_ledger_st))), s') /\
             cv_Valid (@verify_all demo_lib (ledger_entries (db demo_ledger_st))) = true.
Proof.
  destruct (@VerifyChain_complete unit calm_env demo_lib demo_ledger_st) as (s' & H & _).
  - apply calm_quiet.
  - discriminate.
  - exists s'. split; [exact H|]. vm_compute. reflexivity.
Defined.

Lemma ledger_ops_keep_chain_witness :
  cv_Valid (@verify_all demo_lib (ledger_entries (db
    (@run_ledger_ops unit calm_env demo_lib
       [OpTransfer 1 2 300 92 "r" "n"; OpTransfer 1 2 9000 93 "r" "n"] demo_ledger_st)))) = true.
Proof.
  apply ledger_ops_keep_chain.
  - apply chained_check. vm_compute. reflexivity.
  - vm_compute. discriminate.
Defined.

Lemma ledger_tamper_evident_witness :
  let l := ledger_entries (db demo_ledger_st) in
  map hashed_fields (@by_seq l) = map hashed_fields (@by_seq l) \/ @sha256_collision demo_lib.
Proof.
  apply (@ledger_tamper_evident demo_lib demo_laws).
  - vm_compute. reflexivity.
  - vm_compute. reflexivity.
  - reflexivity.
  - repeat constructor; discriminate.
  - repeat constructor; discriminate.
  - reflexivity.
Defined.

Lemma RecordTransfer_conserves_witness :
  map_sum w_TONBalance (wallets (db
    (@RecordTransfer unit calm_env demo_lib 1 2 300 92 "r" "n" demo_ledger_st).2)) = 5700.
Proof.
  pose proof (@RecordTransfer_conserves unit calm_env demo_lib 1 2 300 92 "r" "n" demo_ledger_st _ _
                (surjective_pairing _)) as H.
  destruct H as [-> _].
  - apply ton_in_range_check. vm_compute. reflexivity.
  - intros w Hw. vm_compute in Hw. injection Hw as <-. vm_compute. split; discriminate.
  - vm_compute. reflexivity.
Defined.

Lemma RecordDeposit_one_sided_witness :
  exists e s', @RecordDeposit unit calm_env demo_lib 1 50 94 "tx3" "a" demo_ledger_st = (Ok e, s') /\
    book_net (ledger_entries (db s')) = book_net (ledger_entries (db demo_ledger_st)) + 50.
Proof.
  destruct (@RecordDeposit unit calm_env demo_lib 1 50 94 "tx3" "a" demo_ledger_st)
    as [[e|er] s'] eqn:E; [|exfalso; vm_compute in E; discriminate].
  exists e, s'. split; [reflexivity|].
  apply RecordDeposit_one_sided in E; [exact (proj1 (proj2 E))|].
  intros w Hw. vm_compute in Hw. injection Hw as <-. vm_compute. split; discriminate.
Defined.

Lemma VerifyLedgerBalance_correct_witness :
  exists s', @VerifyLedgerBalance unit calm_env 1 demo_ledger_st = (Ok true, s').
Proof.
  destruct (@VerifyLedgerBalance_correct unit calm_env 1 demo_ledger_st
              (with_balances (demo_wallet 1 1234567 0 0 0) 5000 0 0)) as [s' H].
  - apply calm_quiet.
  - discriminate.
  - vm_compute. reflexivity.
  - vm_compute. split; discriminate.
  - vm_compute. split; discriminate.
  - vm_compute. split; discriminate.
  - exists s'. rewrite H. vm_compute. reflexivity.
Defined.
