(* ===== verification/PayStore.v ===== *)
(** botpay/internal/store: wallet_repo.go, transfer.go, withdraw_repo.go,
    invoice_repo.go and store.go — every repository method on the tables. *)
From S2P Require Import Prelude GoInt GoFloat GoString Effects PayModels PayChain.

(** store.ErrInsufficientBalance *)
Definition store_ErrInsufficientBalance : error := Sentinel "store" "insufficient balance".

Definition PayHandle (telegramID : Z) : string := "u_" +:+ FormatInt 36 telegramID.

Section store.
Context {X : Type} {ENV : Env} {LIB : Lib}.

(** [First] with ErrRecordNotFound turned into a nil result. *)
Definition first_opt {A} (q : Tables -> option A) : M Tables X (option A) :=
  (r <- try (first q) ;;
   match r with
   | Ok a => ret (Some a)
   | Err ErrRecordNotFound => ret None
   | Err e => throw e
   end)%eff.

(** * Wallets *)

(** UPDATE wallets SET pay_handle: unique over the other rows. *)
Definition update_pay_handle (id : uuid) (h : string) (d : Tables) : result Tables :=
  if existsb (fun x => negb (w_ID x =? id)%N && (w_PayHandle x =? h)%string) (rows (wallets d))
  then Err (ErrDuplicatedKey "idx_wallets_pay_handle")
  else update_wallet id (fun w => Some (with_pay_handle w h)) d.

(** gorm leaves zero fields of a struct condition out of the WHERE clause, so
    telegramID = 0 selects among all wallets. *)
Definition GetOrCreateWallet (telegramID : Z) (tonAddress : string) : M Tables X Wallet :=
  (let handle := PayHandle telegramID in
   r <- try (first (fun d => first_row w_ID
               (fun w => (telegramID =? 0) || (w_TelegramID w =? telegramID)) (rows (wallets d)))) ;;
   w <- match r with
        | Ok w => ret w
        | Err ErrRecordNotFound =>
            id <- uuid_New ;;
            let w := {| w_ID := id; w_TelegramID := telegramID; w_PayHandle := handle;
                        w_TONBalance := 0; w_Credit := 0; w_TONAddress := tonAddress;
                        w_Frozen := 0; w_IsActive := true; w_Lang := "" |} in
            exec (insert_wallet w) ;; ret w
        | Err e => throw e
        end ;;
   if (w_PayHandle w =? "")%string then
     (r <- try (exec (update_pay_handle (w_ID w) handle)) ;;
      match r with
      | Ok _ => ret (with_pay_handle w handle)
      | Err _ => ret w
      end)
   else ret w)%eff.

Definition GetWalletByPayHandle (handle : string) : M Tables X (option Wallet) :=
  first_opt (fun d => first_row w_ID (fun w => (w_PayHandle w =? handle)%string) (rows (wallets d))).

(** UPDATE wallets SET lang WHERE telegram_id. *)
Definition SetWalletLang (telegramID : Z) (lang : string) : M Tables X unit :=
  exec (fun d => Ok (set_wallets (fun m =>
    (fun w => if w_TelegramID w =? telegramID then with_lang w lang else w) <$> m) d)).

Definition GetWallet (telegramID : Z) : M Tables X (option Wallet) :=
  first_opt (fun d => first_row w_ID (fun w => w_TelegramID w =? telegramID) (rows (wallets d))).

Definition GetWalletByID (id : uuid) : M Tables X (option Wallet) :=
  first_opt (fun d => wallets d !! id).

Definition GetWalletByAddress (address : string) : M Tables X (option Wallet) :=
  first_opt (fun d => first_row w_ID (fun w => (w_TONAddress w =? address)%string) (rows (wallets d))).

(** * Transactions *)

(** db.Create(tx): the database generates the id, gorm the creation time. *)
Definition create_transaction (mk : uuid -> Z -> Transaction) : M Tables X Transaction :=
  (id <- uuid_New ;;
   created <- now ;;
   exec (insert_transaction idx_tx_hash (mk id created)) ;;
   ret (mk id created))%eff.

(** A confirmed transaction row with the fields the methods fill in. *)
Definition confirmed_tx (walletID : uuid) (ty : TxType) (amount : Z)
    (txHash fromAddr serviceID ref desc : string) (confirmedAt : Z)
    (id : uuid) (created : Z) : Transaction :=
  {| t_ID := id; t_CreatedAt := created; t_WalletID := walletID; t_Type := ty;
     t_Status := TxConfirmed; t_Amount := amount; t_Fee := 0; t_TxHash := txHash;
     t_FromAddress := fromAddr; t_ToAddress := ""; t_ServiceID := serviceID; t_Ref := ref;
     t_Description := desc; t_Metadata := ""; t_ConfirmedAt := Some confirmedAt |}.

Definition find_by_hash (txHash : string) (d : Tables) : option Transaction :=
  first_row t_ID (fun t => (t_TxHash t =? txHash)%string) (transactions d).

(** Any failure of the lookup, not only a missing row, goes on to the credit. *)
Definition Deposit (walletID : uuid) (amountNano : Z) (txHash fromAddr desc : string)
  : M Tables X Transaction :=
  transaction
    (r <- try (first (find_by_hash txHash)) ;;
     match r with
     | Ok existing => ret existing
     | Err _ =>
         exec (update_wallet walletID (add_balances amountNano 0 0)) ;;
         t <- now ;;
         create_transaction
           (confirmed_tx walletID TxDeposit amountNano txHash fromAddr "" "" desc t)
     end)%eff.

Definition find_payment (walletID : uuid) (serviceID ref : string) (d : Tables) : option Transaction :=
  first_row t_ID (fun t => (t_WalletID t =? walletID)%N && (t_ServiceID t =? serviceID)%string
                           && (t_Ref t =? ref)%string && bool_decide (t_Type t = TxPayment))
    (transactions d).

(** Credit first, then TON: (creditUsed, tonUsed). *)
Definition split_payment (w : Wallet) (amountNano : Z) : Z * Z :=
  if w_Credit w >=? amountNano then (amountNano, 0)
  else (w_Credit w, i64_sub amountNano (w_Credit w)).

(** Only a positive part becomes a column update. *)
Definition pos_part (z : Z) : Z := if z >? 0 then z else 0.

Definition Deduct (walletID : uuid) (amountNano : Z) (serviceID ref desc : string)
  : M Tables X Transaction :=
  if amountNano <=? 0 then throw (Errorf "invalid amount: must be positive" [])
  else
  transaction
    (existing <- (if negb (ref =? "")%string then first_opt (find_payment walletID serviceID ref)
                  else ret None) ;;
     match existing with
     | Some existing => ret existing
     | None =>
         w <- first (fun d => wallets d !! walletID) ;;
         if negb (HasEnough w amountNano) then throw (Errorf "insufficient balance" [])
         else
         (let (creditUsed, tonUsed) := split_payment w amountNano in
          exec (update_wallet walletID
                  (add_balances (- pos_part tonUsed) (- pos_part creditUsed) 0)) ;;
          t <- now ;;
          h <- uuid_New ;;
          create_transaction
            (confirmed_tx walletID TxPayment (i64_neg amountNano) ("int-" +:+ uuid_String h) "" serviceID ref
               desc t))
     end)%eff.

Definition AddCredit (walletID : uuid) (amountNano : Z) (desc : string) : M Tables X unit :=
  if amountNano <=? 0 then throw (Errorf "invalid amount: must be positive" [])
  else
  transaction
    (exec (update_wallet walletID (add_balances 0 amountNano 0)) ;;
     t <- now ;;
     h <- uuid_New ;;
     create_transaction
       (confirmed_tx walletID TxCreditAdd amountNano ("int-" +:+ uuid_String h) "" "" "" desc t) ;;
     ret tt)%eff.

(** ORDER BY created_at DESC LIMIT n *)
Definition newest_first (a b : Transaction) : Prop := t_CreatedAt b <= t_CreatedAt a.
#[local] Instance newest_first_dec : RelDecision newest_first :=
  fun a b => Z_le_dec (t_CreatedAt b) (t_CreatedAt a).

Definition ListTransactions (walletID : uuid) (limit : nat) : M Tables X (list Transaction) :=
  find (fun d => take limit (merge_sort newest_first
                   (List.filter (fun t => (t_WalletID t =? walletID)%N) (transactions d)))).

(** * Statistics *)

Record Stats := {
  TotalWallets : Z;
  TotalDeposits : float64;
  TotalPayments : float64;
  PendingWithdraw : Z;
}.

(** A query whose error nobody looks at leaves the zero value. *)
Definition scan (q : Tables -> Z) : M Tables X Z :=
  (r <- try (find q) ;;
   match r with
   | Ok z => ret (if in_int64b z then z else 0)
   | Err _ => ret 0
   end)%eff.

Definition sum_txs (ty : TxType) (f : Z -> Z) (d : Tables) : Z :=
  sumZ (fun t => f (t_Amount t))
    (List.filter (fun t => bool_decide (t_Type t = ty) && bool_decide (t_Status t = TxConfirmed))
       (transactions d)).

Definition is_pending (r : WithdrawRequest) : bool := bool_decide (wr_Status r = WithdrawPending).

Definition GetStats : M Tables X Stats :=
  (wallets_n <- scan (fun d => Z.of_nat (length (rows (wallets d)))) ;;
   deposits <- scan (sum_txs TxDeposit id) ;;
   payments <- scan (sum_txs TxPayment Z.abs) ;;
   pending <- scan (fun d => Z.of_nat (length (List.filter is_pending (rows (withdraw_requests d))))) ;;
   ret {| TotalWallets := wallets_n;
          TotalDeposits := f64_div (f64_of_int deposits) (f64_of_int 1000000000);
          TotalPayments := f64_div (f64_of_int payments) (f64_of_int 1000000000);
          PendingWithdraw := pending |})%eff.

(** * Transfers *)

Definition Transfer (fromID toID : uuid) (amountNano : Z) (desc : string)
  : M Tables X (Transaction * Transaction) :=
  if amountNano <=? 0 then throw (Errorf "invalid amount: must be positive" [])
  else
  transaction
    (from <- wrap_err "from wallet: %w" (first (fun d => wallets d !! fromID)) ;;
     to <- wrap_err "to wallet: %w" (first (fun d => wallets d !! toID)) ;;
     if negb (HasEnough from amountNano) then throw (Errorf "insufficient balance" [])
     else
     (let (creditUsed, tonUsed) := split_payment from amountNano in
      exec (update_wallet fromID
              (add_balances (- pos_part tonUsed) (- pos_part creditUsed) 0)) ;;
      exec (update_wallet toID (add_balances (pos_part tonUsed) (pos_part creditUsed) 0)) ;;
      t <- now ;;
      h <- uuid_New ;;
      let internalID := "int-" +:+ uuid_String h in
      fromTx <- create_transaction
        (confirmed_tx fromID TxPayment (i64_neg amountNano) (internalID +:+ "-from") "" "" "" desc t) ;;
      toTx <- create_transaction
        (confirmed_tx toID TxDeposit amountNano (internalID +:+ "-to") "" "" "" desc t) ;;
      ret (fromTx, toTx)))%eff.

(** * Withdrawals *)

(** The int64 sum of amount and fee that is frozen and later deducted. *)
Definition wr_total (r : WithdrawRequest) : Z := i64_add (wr_Amount r) (wr_Fee r).

(** Create fills in the id, the creation time and the default status. *)
Definition CreateWithdraw (req : WithdrawRequest) : M Tables X WithdrawRequest :=
  (let total := wr_total req in
   transaction
     (w <- first (fun d => wallets d !! wr_WalletID req) ;;
      if negb (HasEnough w total) then throw store_ErrInsufficientBalance
      else
      (exec (update_wallet (wr_WalletID req) (add_balances 0 0 total)) ;;
       id <- uuid_New ;;
       created <- now ;;
       let req := {| wr_ID := id; wr_CreatedAt := created; wr_WalletID := wr_WalletID req;
                     wr_ToAddress := wr_ToAddress req; wr_Amount := wr_Amount req;
                     wr_Fee := wr_Fee req; wr_Status := WithdrawPending;
                     wr_TxHash := wr_TxHash req; wr_Note := wr_Note req;
                     wr_AdminNote := wr_AdminNote req; wr_ProcessedAt := wr_ProcessedAt req |} in
       exec (insert_withdraw req) ;;
       ret req)))%eff.

(** ORDER BY created_at ASC *)
Definition oldest_first (a b : WithdrawRequest) : Prop := wr_CreatedAt a <= wr_CreatedAt b.
#[local] Instance oldest_first_dec : RelDecision oldest_first :=
  fun a b => Z_le_dec (wr_CreatedAt a) (wr_CreatedAt b).

Definition ListPendingWithdrawals : M Tables X (list WithdrawRequest) :=
  find (fun d => merge_sort oldest_first (List.filter is_pending (rows (withdraw_requests d)))).

Definition finish_withdraw (r : WithdrawRequest) (status : WithdrawStatus) (txHash adminNote : string)
    (processedAt : Z) : WithdrawRequest :=
  {| wr_ID := wr_ID r; wr_CreatedAt := wr_CreatedAt r; wr_WalletID := wr_WalletID r;
     wr_ToAddress := wr_ToAddress r; wr_Amount := wr_Amount r; wr_Fee := wr_Fee r;
     wr_Status := status; wr_TxHash := txHash; wr_Note := wr_Note r;
     wr_AdminNote := adminNote; wr_ProcessedAt := Some processedAt |}.

Definition update_withdraw (id : uuid) (f : WithdrawRequest -> WithdrawRequest) (d : Tables)
  : result Tables := Ok (set_withdraws (alter f id) d).

(** Neither CompleteWithdraw nor RejectWithdraw looks at the request's status. *)
Definition CompleteWithdraw (id : uuid) (txHash : string) : M Tables X unit :=
  (now_ <- now ;;
   transaction
     (req <- first (fun d => withdraw_requests d !! id) ;;
      exec (update_wallet (wr_WalletID req) (add_balances (- wr_total req) 0 (- wr_total req))) ;;
      exec (update_withdraw id
        (fun r => finish_withdraw r WithdrawDone txHash (wr_AdminNote r) now_))))%eff.

Definition RejectWithdraw (id : uuid) (reason : string) : M Tables X unit :=
  transaction
    (req <- first (fun d => withdraw_requests d !! id) ;;
     exec (update_wallet (wr_WalletID req) (add_balances 0 0 (- wr_total req))) ;;
     now_ <- now ;;
     exec (update_withdraw id
       (fun r => finish_withdraw r WithdrawRejected (wr_TxHash r) reason now_)))%eff.

(** * Invoices *)

Definition CreateInvoice (inv : Invoice) : M Tables X Invoice :=
  (id <- uuid_New ;;
   let inv := {| inv_ID := id; inv_WalletID := inv_WalletID inv; inv_Code := inv_Code inv;
                 inv_Amount := inv_Amount inv; inv_ReceivedNano := inv_ReceivedNano inv;
                 inv_Status := inv_Status inv; inv_ServiceID := inv_ServiceID inv;
                 inv_Ref := inv_Ref inv; inv_Metadata := inv_Metadata inv;
                 inv_ExpiresAt := inv_ExpiresAt inv; inv_PaidAt := inv_PaidAt inv;
                 inv_TxHash := inv_TxHash inv |} in
   exec (insert_invoice inv) ;; ret inv)%eff.

Definition FindInvoiceByCode (code : string) : M Tables X (option Invoice) :=
  first_opt (fun d => first_row inv_ID (fun i => (inv_Code i =? code)%string) (rows (invoices d))).

Definition FindPendingInvoiceByCode (code : string) : M Tables X (option Invoice) :=
  first_opt (fun d => first_row inv_ID
    (fun i => (inv_Code i =? code)%string && bool_decide (inv_Status i = InvoicePending))
    (rows (invoices d))).

Definition with_receipt (i : Invoice) (received : Z) (paid : option (string * Z)) : Invoice :=
  {| inv_ID := inv_ID i; inv_WalletID := inv_WalletID i; inv_Code := inv_Code i;
     inv_Amount := inv_Amount i; inv_ReceivedNano := received;
     inv_Status := match paid with Some _ => InvoicePaid | None => inv_Status i end;
     inv_ServiceID := inv_ServiceID i; inv_Ref := inv_Ref i; inv_Metadata := inv_Metadata i;
     inv_ExpiresAt := inv_ExpiresAt i;
     inv_PaidAt := match paid with Some (_, t) => Some t | None => inv_PaidAt i end;
     inv_TxHash := match paid with Some (h, _) => h | None => inv_TxHash i end |}.

Definition update_invoice (id : uuid) (f : Invoice -> Invoice) (d : Tables) : result Tables :=
  Ok (set_invoices (alter f id) d).

(** [paid] is a variable of the method that the transaction's closure assigns:
    it keeps its value when the transaction fails afterwards. *)
Definition AddInvoiceReceipt (invoiceID : uuid) (amountNano : Z) (txHash : string)
  : M Tables X (bool * result unit) :=
  with_var false
    (transaction
      (inv <- first (fun d => invoices d !! invoiceID) ;;
       let newReceived := i64_add (inv_ReceivedNano inv) amountNano in
       if bool_decide (inv_Status inv = InvoicePending)
          && ((inv_Amount inv =? 0) || (newReceived >=? inv_Amount inv)) then
         (now_ <- now ;;
          set_var true ;;
          exec (update_invoice invoiceID (fun i => with_receipt i newReceived (Some (txHash, now_)))))
       else
         exec (update_invoice invoiceID (fun i => with_receipt i newReceived None)))%eff).

Definition ConfirmInvoice (invoiceID : uuid) (txHash : string) : M Tables X unit :=
  (t <- now ;;
   exec (update_invoice invoiceID
     (fun i => with_receipt i (inv_ReceivedNano i) (Some (txHash, t)))))%eff.

Definition expire_invoice (t : Z) (i : Invoice) : Invoice :=
  if bool_decide (inv_Status i = InvoicePending) && (inv_ExpiresAt i <? t) then
    {| inv_ID := inv_ID i; inv_WalletID := inv_WalletID i; inv_Code := inv_Code i;
       inv_Amount := inv_Amount i; inv_ReceivedNano := inv_ReceivedNano i;
       inv_Status := InvoiceExpired; inv_ServiceID := inv_ServiceID i; inv_Ref := inv_Ref i;
       inv_Metadata := inv_Metadata i; inv_ExpiresAt := inv_ExpiresAt i;
       inv_PaidAt := inv_PaidAt i; inv_TxHash := inv_TxHash i |}
  else i.

Definition ExpireOldInvoices : M Tables X unit :=
  (t <- now ;; exec (fun d => Ok (set_invoices (fmap (expire_invoice t)) d)))%eff.

(** * Bot instances *)

Definition ValidateBotInstance (serviceID : string) : M Tables X bool :=
  if negb (HasPrefix serviceID "bot_") then ret false
  else
  match ParseInt 10 (TrimPrefix serviceID "bot_") with
  | None => ret false
  | Some botID =>
      (count <- scan (fun d => Z.of_nat (length (List.filter
                  (fun r => (r.1 =? botID) && negb (r.2 =? "deleted")%string) (bot_instances d)))) ;;
       ret (count >? 0))%eff
  end.
End store.
