(* ===== verification/PayInvariant.v ===== *)
(** The money invariant of botpay's tables and its preservation by every
    repository method, each run as one serial step under arbitrary failures. *)
From S2P Require Import Prelude GoInt GoFloat GoString Effects PayModels PayChain PayStore.

(** * The invariant *)

(** Everything the history says wallet [id] received, net of what it spent. *)
Definition tx_total (d : Tables) (id : uuid) : Z :=
  sumZ (fun t => if (t_WalletID t =? id)%N then t_Amount t else 0) (transactions d).

Definition wr_part (st : WithdrawStatus) (id : uuid) (r : WithdrawRequest) : Z :=
  if (wr_WalletID r =? id)%N && bool_decide (wr_Status r = st) then wr_total r else 0.

Definition withdraw_total (st : WithdrawStatus) (d : Tables) (id : uuid) : Z :=
  map_sum (wr_part st id) (withdraw_requests d).

(** The balance the history justifies: deposits and credits, less payments,
    less the withdrawals that were sent. *)
Definition booked (d : Tables) (id : uuid) : Z :=
  tx_total d id - withdraw_total WithdrawDone d id.

Record wallet_ok (d : Tables) (id : uuid) (w : Wallet) : Prop := {
  ok_id : w_ID w = id;
  ok_ton : in_int64 (w_TONBalance w);
  ok_credit : 0 <= w_Credit w <= int64_max;
  ok_frozen : w_Frozen w = withdraw_total WithdrawPending d id;
  ok_covered : w_Frozen w <= w_TONBalance w + w_Credit w;
  ok_booked : w_TONBalance w + w_Credit w = booked d id;
}.

Record pay_inv (d : Tables) : Prop := {
  inv_wallets : forall id w, wallets d !! id = Some w -> wallet_ok d id w;
  inv_requests : forall id r, withdraw_requests d !! id = Some r -> wr_ID r = id /\ 0 < wr_total r;
  inv_tx_wallet : forall t, t ∈ transactions d -> is_Some (wallets d !! t_WalletID t);
  inv_wr_wallet : forall id r, withdraw_requests d !! id = Some r ->
    is_Some (wallets d !! wr_WalletID r);
}.

(** * How the sums move *)

Lemma tx_total_app d l id :
  tx_total (set_transactions (fun l0 => l0 ++ l) d) id =
  tx_total d id + sumZ (fun t => if (t_WalletID t =? id)%N then t_Amount t else 0) l.
Proof. unfold tx_total. simpl. by rewrite sumZ_app. Qed.

(** What the request stored under [k] counts for. *)
Definition old_part (st : WithdrawStatus) (j k : uuid) (d : Tables) : Z :=
  match withdraw_requests d !! k with Some r => wr_part st j r | None => 0 end.

Lemma withdraw_total_insert st d d' k r j :
  withdraw_requests d' = <[k := r]> (withdraw_requests d) ->
  withdraw_total st d' j = withdraw_total st d j + (wr_part st j r - old_part st j k d).
Proof.
  intros E. unfold withdraw_total, old_part. rewrite E.
  destruct (withdraw_requests d !! k) as [r0|] eqn:Hk.
  - by rewrite (map_sum_insert _ _ _ r0).
  - rewrite map_sum_insert_new by done. lia.
Qed.

Lemma withdraw_total_nonneg d id : pay_inv d -> 0 <= withdraw_total WithdrawPending d id.
Proof.
  intros I. apply map_sum_nonneg. intros k r Hr. apply (inv_requests d I) in Hr.
  unfold wr_part. destruct (_ && _); lia.
Qed.

(** The two outcomes of [update_wallet ... add_balances]. *)
Lemma update_add_ok id dt dc df d d' :
  update_wallet id (add_balances dt dc df) d = Ok d' ->
  (wallets d !! id = None /\ d' = d) \/
  exists w, wallets d !! id = Some w /\
    d' = set_wallets <[id := with_balances w (w_TONBalance w + dt) (w_Credit w + dc) (w_Frozen w + df)]> d /\
    in_int64 (w_TONBalance w + dt) /\ in_int64 (w_Credit w + dc) /\ in_int64 (w_Frozen w + df).
Proof.
  unfold update_wallet. destruct (wallets d !! id) as [w|]; [|intros [= <-]; by left].
  destruct (add_balances dt dc df w) as [w'|] eqn:E; [|done].
  intros [= <-]. right. exists w. apply add_balances_some in E as (-> & ? & ? & ?). done.
Qed.

Ltac use_update :=
  match goal with
  | H : update_wallet _ (add_balances _ _ _) _ = Ok _ |- _ =>
      apply update_add_ok in H; destruct H as [[? ->]|(?w & ? & -> & ? & ? & ?)]; simpl in *
  end.

(** A wallet that has enough: the wrapped comparison of the code still bounds
    the amount by the true free balance. *)
Lemma HasEnough_free w a :
  0 <= w_TONBalance w + w_Credit w - w_Frozen w -> HasEnough w a = true ->
  a <= w_TONBalance w + w_Credit w - w_Frozen w.
Proof.
  unfold HasEnough, i64_sub, i64_add. rewrite wrap64_sub. intros Hr Ha. zbool. zbool.
  pose proof (wrap64_le (w_TONBalance w + w_Credit w - w_Frozen w)).
  unfold int64_min in *. lia.
Qed.

(** * Preservation *)

Section preservation.
Context {X : Type} {ENV : Env} {LIB : Lib}.
Implicit Types s : st Tables X.

(** Appending transactions, replacing one wallet's balances. *)
Lemma pay_inv_wallet d id w dt dc df txs :
  pay_inv d -> wallets d !! id = Some w ->
  Forall (fun t => t_WalletID t = id) txs ->
  in_int64 (w_TONBalance w + dt) -> 0 <= w_Credit w + dc <= int64_max ->
  df = 0 -> w_Frozen w <= w_TONBalance w + dt + (w_Credit w + dc) ->
  dt + dc = sumZ t_Amount txs ->
  pay_inv (set_transactions (fun l => l ++ txs)
    (set_wallets <[id := with_balances w (w_TONBalance w + dt) (w_Credit w + dc) (w_Frozen w + df)]> d)).
Proof.
  intros I Hw Htxs Ht Hc -> Hf Hsum.
  assert (Hsums : forall j, sumZ (fun t => if (t_WalletID t =? j)%N then t_Amount t else 0) txs =
                            if decide (j = id) then dt + dc else 0).
  { intros j. rewrite Hsum. clear Hsum. induction Htxs as [|t l Ht' _ IH]; simpl; [by destruct (decide _)|].
    rewrite IH, Ht'. destruct (decide (j = id)) as [->|Hj].
    - rewrite N.eqb_refl. done.
    - destruct (N.eqb_spec id j); [congruence|lia]. }
  split; simpl.
  - intros j w' Hj. destruct (decide (j = id)) as [->|Hne].
    + rewrite lookup_insert_eq in Hj. injection Hj as <-.
      destruct (inv_wallets d I id w Hw) as [? ? ? Hfr ? Hb].
      specialize (Hsums id). rewrite decide_True in Hsums by done.
      split; simpl; rewrite ?Z.add_0_r; try done.
      unfold booked in *. rewrite tx_total_app, Hsums. unfold tx_total in *. simpl.
      change (withdraw_total WithdrawDone (set_transactions _ _) id) with (withdraw_total WithdrawDone d id).
      lia.
    + rewrite lookup_insert_ne in Hj by done.
      destruct (inv_wallets d I j w' Hj) as [? ? ? Hfr ? Hb].
      specialize (Hsums j). rewrite decide_False in Hsums by done.
      split; try done. unfold booked in *. rewrite tx_total_app, Hsums. unfold tx_total in *. simpl.
      change (withdraw_total WithdrawDone (set_transactions _ _) j) with (withdraw_total WithdrawDone d j).
      lia.
  - apply (inv_requests d I).
  - intros t Ht'. rewrite lookup_insert_is_Some. apply elem_of_app in Ht' as [Ht'|Ht'].
    + apply (inv_tx_wallet d I) in Ht'. destruct (decide (id = t_WalletID t)); [by left|by right].
    + rewrite Forall_forall in Htxs. left. symmetry. by apply Htxs.
  - intros j r Hr. apply (inv_wr_wallet d I) in Hr. rewrite lookup_insert_is_Some.
    destruct (decide (id = wr_WalletID r)); [by left|by right].
Qed.

(** A repository transaction that failed left the tables alone. *)
Lemma transaction_inv {A} (P : Tables -> Prop) (m : M Tables X A) s r s' :
  transaction m s = (r, s') -> P (db s) ->
  (forall a s1, r = Ok a -> m (mkSt (S (tick s)) InTx (db s) (ext s)) = (Ok a, s1) ->
     db s' = db s1 -> P (db s')) ->
  P (db s').
Proof.
  intros Hm HP Hok. destruct r as [a|e].
  - apply transaction_ok in Hm as (s1 & Hm & ->). by apply (Hok a s1).
  - by rewrite (transaction_atomic _ _ _ _ Hm).
Qed.

Lemma create_transaction_ok mk s t s' :
  create_transaction (X := X) mk s = (Ok t, s') ->
  db s' = set_transactions (fun l => l ++ [t]) (db s) /\ exists i c, t = mk i c.
Proof.
  unfold create_transaction. intros Hr. run_inv.
  match goal with H : insert_transaction _ _ _ = Ok _ |- _ => apply insert_transaction_ok in H; rewrite H end.
  split; [done|]. eauto.
Qed.

Lemma Deposit_inv id amt h f ds s r s' :
  Deposit id amt h f ds s = (r, s') ->
  0 < amt -> is_Some (wallets (db s) !! id) -> pay_inv (db s) -> pay_inv (db s').
Proof.
  intros Hr Ha [w Hw] I. eapply transaction_inv; [exact Hr|done|].
  intros t s1 -> Hm ->. clear Hr. run_inv. unfold try in H.
  destruct (first _ _) as [r1 s2] eqn:E in H. injection H as <- <-.
  assert (db s2 = db s) as Hdb.
  { destruct r1; [apply first_ok in E as (_ & -> & _)|apply stmt_err_db in E as [-> _]]; done. }
  destruct r1 as [t1|e].
  - injection Hm as _ <-. by rewrite Hdb.
  - run_inv. apply create_transaction_ok in Hm as [Hd (i & c & ->)]. rewrite Hd. simpl in *.
    rewrite Hdb in *. use_update; [congruence|].
    assert (w0 = w) as -> by congruence.
    destruct (inv_wallets _ I id w Hw).
    apply pay_inv_wallet; try done; simpl; try lia. by repeat constructor.
Qed.
(** The split of a positive payment: both parts are non-negative, they add up,
    and the credit part never exceeds the credit. *)
Lemma split_payment_spec w amt c t :
  split_payment w amt = (c, t) -> 0 < amt <= int64_max -> 0 <= w_Credit w <= int64_max ->
  pos_part c = c /\ pos_part t = t /\ c + t = amt /\ 0 <= c <= w_Credit w /\ 0 <= t
  /\ (t <> 0 -> c = w_Credit w).
Proof.
  unfold split_payment, pos_part, i64_sub. intros Hs Ha Hc.
  assert (Hsub : wrap64 (amt - w_Credit w) = amt - w_Credit w).
  { apply wrap64_id. unfold in_int64, int64_min, int64_max in *. lia. }
  rewrite Hsub in Hs.
  destruct (w_Credit w >=? amt) eqn:E; injection Hs as <- <-; zbool; zbool;
    destruct (_ >? 0) eqn:E1, (_ >? 0) eqn:E2 in |- *; zbool; zbool; lia.
Qed.

Lemma first_opt_ok {A} (q : Tables -> option A) s a s' :
  first_opt q s = (Ok a, s') -> a = q (db s) /\ db s' = db s.
Proof.
  unfold first_opt, try. intros Hr. apply bind_ok in Hr as (r & s1 & H1 & H2).
  destruct (first q s) as [r1 s2] eqn:E. injection H1 as <- <-.
  destruct r1 as [b|[]]; try done.
  - apply first_ok in E as (-> & -> & _). injection H2 as <- <-. done.
  - injection H2 as <- <-. split.
    + unfold first, stmt in E. destruct (tx s); try done;
        destruct (env_fault (tick s)); try done; destruct (q (db s)); done.
    + by apply stmt_err_db in E as [-> _].
Qed.

Lemma Deduct_inv id amt sv ref ds s r s' :
  Deduct id amt sv ref ds s = (r, s') -> amt <= int64_max -> pay_inv (db s) -> pay_inv (db s').
Proof.
  unfold Deduct. intros Hr Ha I. destruct (amt <=? 0) eqn:Ea; [injection Hr as _ <-; done|].
  eapply transaction_inv; [exact Hr|done|]. intros t s1 _ Hm ->. clear Hr.
  apply bind_ok in Hm as (ex & s2 & Hex & Hm).
  assert (db s2 = db s) as Hdb.
  { destruct (negb _); [by apply first_opt_ok in Hex as [_ ->]|injection Hex as _ <-; done]. }
  destruct ex as [t0|]; [injection Hm as _ <-; by rewrite Hdb|].
  run_inv. rewrite Hdb in *.
  destruct (split_payment _ amt) as [c u] eqn:Es.
  run_inv. apply create_transaction_ok in Hm as [Hd (i & k & ->)]. rewrite Hd. simpl in *.
  use_update; [congruence|].
  match goal with H1 : wallets _ !! id = Some ?a, H2 : wallets _ !! id = Some ?b |- _ =>
    assert (b = a) as -> by congruence; clear H2 end.
  match goal with H1 : wallets _ !! id = Some ?a |- _ => destruct (inv_wallets _ I id _ H1) end.
  zbool. destruct (split_payment_spec _ _ _ _ Es) as (Ec & Et & ? & ? & ? & _); [lia|done|].
  rewrite Ec, Et in *. 
  match goal with H : HasEnough _ _ = true |- _ => apply HasEnough_free in H; [|lia] end.
  apply pay_inv_wallet; try done; simpl; try lia; [by repeat constructor|].
  i64. lia.
Qed.

Lemma AddCredit_inv id amt ds s r s' :
  AddCredit id amt ds s = (r, s') -> is_Some (wallets (db s) !! id) ->
  pay_inv (db s) -> pay_inv (db s').
Proof.
  unfold AddCredit. intros Hr [w0 Hw0] I. destruct (amt <=? 0) eqn:Ea; [injection Hr as _ <-; done|].
  eapply transaction_inv; [exact Hr|done|]. intros t s1 _ Hm ->. clear Hr.
  run_inv. 
  match goal with H : create_transaction _ _ = _ |- _ =>
    apply create_transaction_ok in H as [Hd (i & k & ->)] end. rewrite Hd. simpl in *.
  use_update; [congruence|].
  match goal with H1 : wallets _ !! id = Some ?a |- _ => destruct (inv_wallets _ I id _ H1) end.
  zbool. apply pay_inv_wallet; try done; simpl; try lia; [by repeat constructor|].
  unfold in_int64 in *. lia.
Qed.

Lemma Transfer_inv id1 id2 amt ds s r s' :
  Transfer id1 id2 amt ds s = (r, s') -> amt <= int64_max -> pay_inv (db s) -> pay_inv (db s').
Proof.
  unfold Transfer. intros Hr Ha I. destruct (amt <=? 0) eqn:Ea; [injection Hr as _ <-; done|].
  eapply transaction_inv; [exact Hr|done|]. intros t s1 _ Hm ->. clear Hr.
  run_inv. destruct (split_payment _ amt) as [c u] eqn:Es. run_inv.
  do 2 match goal with H : create_transaction _ _ = (Ok _, ?s) |- context [db ?s] =>
    apply create_transaction_ok in H as [-> (? & ? & ->)] end. simpl in *.
  match goal with H : wallets (db s) !! id1 = Some ?a |- _ =>
    rename a into w1; rename H into Hw1; pose proof (inv_wallets _ I id1 _ Hw1) as Hok1 end.
  zbool. destruct (split_payment_spec _ _ _ _ Es) as (Ec & Et & ? & ? & ? & _);
    [lia|apply (ok_credit _ _ _ Hok1)|].
  rewrite Ec, Et in *.
  match goal with H : HasEnough _ _ = true |- _ =>
    apply HasEnough_free in H; [|pose proof (ok_covered _ _ _ Hok1); lia] end.
  match goal with H : update_wallet id1 _ _ = Ok _ |- _ =>
    apply update_add_ok in H; destruct H as [[? ->]|(w & Hw & -> & ? & ? & ?)]; simpl in *; [congruence|] end.
  assert (w = w1) as -> by congruence.
  match goal with |- pay_inv (set_transactions (fun l => l ++ [?b]) (set_transactions (fun l => l ++ [?a]) _)) =>
    set (t2 := b); set (t1 := a) end.
  set (D1 := set_transactions (fun l => l ++ [t1]) (set_wallets <[id1 := with_balances w1
    (w_TONBalance w1 + - u) (w_Credit w1 + - c) (w_Frozen w1 + 0)]> (db s))).
  assert (I1 : pay_inv D1).
  { destruct Hok1. apply pay_inv_wallet; try done; simpl; try lia; [by repeat constructor|i64; lia]. }
  use_update; [exfalso; simplify_map_eq; destruct (decide (id1 = id2)) as [->|]; simplify_map_eq|].
  change (pay_inv (set_transactions (fun l => l ++ [t2]) (set_wallets <[id2 := with_balances w
    (w_TONBalance w + u) (w_Credit w + c) (w_Frozen w + 0)]> D1))).
  destruct (inv_wallets _ I1 id2 w) as [? ? ? ? ? ?]; [done|].
  apply pay_inv_wallet; try done; simpl; try lia; [by repeat constructor|unfold in_int64 in *; lia].
Qed.

(** * Withdrawals *)

(** A step that changes one wallet's TON and frozen columns and stores one of
    its requests. *)
Lemma pay_inv_request d d' id w dt df k r :
  pay_inv d -> wallets d !! id = Some w ->
  wallets d' = <[id := with_balances w (w_TONBalance w + dt) (w_Credit w + 0) (w_Frozen w + df)]> (wallets d) ->
  transactions d' = transactions d ->
  withdraw_requests d' = <[k := r]> (withdraw_requests d) ->
  wr_ID r = k -> wr_WalletID r = id -> 0 < wr_total r ->
  (forall j, wr_part WithdrawPending j r =
             old_part WithdrawPending j k d + if decide (j = id) then df else 0) ->
  (forall j, wr_part WithdrawDone j r =
             old_part WithdrawDone j k d - if decide (j = id) then dt else 0) ->
  in_int64 (w_TONBalance w + dt) ->
  w_Frozen w + df <= w_TONBalance w + dt + w_Credit w ->
  pay_inv d'.
Proof.
  intros I Hw Ed Et Er Hid Hwid Hpos Hp Hd Ht Hf.
  assert (Hreq : forall k0 r0, withdraw_requests d' !! k0 = Some r0 ->
    wr_ID r0 = k0 /\ 0 < wr_total r0 /\ is_Some (wallets d !! wr_WalletID r0)).
  { intros k0 r0. rewrite Er, lookup_insert_Some. intros [[<- <-]|[_ H0]]; [subst; eauto|].
    pose proof (inv_wr_wallet d I _ _ H0). by apply (inv_requests d I) in H0 as []. }
  assert (Hkeep : forall j, is_Some (wallets d !! j) -> is_Some (wallets d' !! j)).
  { intros j Hj. rewrite Ed, lookup_insert_is_Some. destruct (decide (id = j)); [by left|by right]. }
  split.
  - intros j w' Hj. rewrite Ed in Hj. specialize (Hp j). specialize (Hd j).
    apply (withdraw_total_insert WithdrawPending d d' k r j) in Er as Ep.
    apply (withdraw_total_insert WithdrawDone d d' k r j) in Er as Eo.
    apply lookup_insert_Some in Hj as [[<- <-]|[Hne Hj]];
      [destruct (inv_wallets d I id w Hw) as [? ? ? ? ? Hb]; rewrite decide_True in Hp, Hd by done
      |destruct (inv_wallets d I j w' Hj) as [? ? ? ? ? Hb]; rewrite decide_False in Hp, Hd by done];
      unfold booked, tx_total in Hb;
      (split; simpl; rewrite ?Z.add_0_r; try done; [lia|unfold booked, tx_total; rewrite Et; lia]).
  - intros k0 r0 H0. by apply Hreq in H0 as (? & ? & _).
  - intros t Ht'. rewrite Et in Ht'. apply Hkeep, (inv_tx_wallet d I). done.
  - intros k0 r0 H0. apply Hreq in H0 as (_ & _ & ?). auto.
Qed.

Lemma wr_total_finish r status h note t : wr_total (finish_withdraw r status h note t) = wr_total r.
Proof. done. Qed.

(** Case analysis on which wallet and status a request counts for. *)
Ltac parts :=
  intros ?j; unfold old_part; simplify_map_eq; unfold wr_part; simpl;
  repeat match goal with
  | |- context [N.eqb ?a ?b] => destruct (N.eqb_spec a b); subst
  | |- context [decide (?a = ?b)] => destruct (decide (a = b)); subst
  | |- context [bool_decide (?a = ?b)] => destruct (bool_decide_reflect (a = b))
  end; simpl; rewrite ?wr_total_finish; try congruence; try lia.

Lemma CreateWithdraw_inv req s r s' :
  CreateWithdraw req s = (r, s') -> 0 < wr_total req -> pay_inv (db s) -> pay_inv (db s').
Proof.
  unfold CreateWithdraw. intros Hr Ha I.
  eapply transaction_inv; [exact Hr|done|]. intros t s1 _ Hm ->. clear Hr. run_inv.
  match goal with H : insert_withdraw ?q _ = Ok _ |- _ =>
    unfold insert_withdraw in H; set (rq := q) in *;
    destruct (bool_decide (is_Some _)) eqn:Hn in H; [done|]; injection H as <- end.
  zbool. apply eq_None_not_Some in Hn. subst. use_update; [congruence|]. 
  match goal with H1 : wallets _ !! _ = Some ?a, H2 : wallets _ !! _ = Some ?b |- _ =>
    assert (b = a) as -> by congruence; clear H2 end.
  match goal with H1 : wallets _ !! ?id = Some ?a |- _ => destruct (inv_wallets _ I id _ H1) end.
  match goal with H : HasEnough _ _ = true |- _ => apply HasEnough_free in H; [|lia] end.
  assert (wr_total rq = wr_total req) as Etot by done.
  eapply (pay_inv_request (db s)); try done; try lia; try parts.
Qed.

(** Both ways of finishing a pending request. *)
Lemma finish_inv d id w rid r status h note t dt :
  pay_inv d -> withdraw_requests d !! rid = Some r -> wr_Status r = WithdrawPending ->
  wallets d !! id = Some w -> wr_WalletID r = id ->
  (status = WithdrawDone /\ dt = - wr_total r \/ status = WithdrawRejected /\ dt = 0) ->
  in_int64 (w_TONBalance w + dt) ->
  pay_inv (set_withdraws (alter (fun r => finish_withdraw r status (h r) (note r) t) rid)
    (set_wallets <[id := with_balances w (w_TONBalance w + dt) (w_Credit w + 0)
                          (w_Frozen w + - wr_total r)]> d)).
Proof.
  intros I Hr Hp Hw Hid Hst Ht.
  destruct (inv_wallets d I id w Hw).
  destruct (inv_requests d I rid r Hr) as [Hrid Hpos].
  set (r' := finish_withdraw r status (h r) (note r) t).
  assert (Etot : wr_total r' = wr_total r) by done.
  eapply (pay_inv_request d _ id w dt (- wr_total r) rid r'); try done.
  - simpl. apply map_eq. intros j. destruct (decide (rid = j)) as [<-|Hj].
    + by rewrite lookup_alter_eq, lookup_insert_eq, Hr.
    + by rewrite lookup_alter_ne, lookup_insert_ne.
  - unfold r'. destruct Hst as [[-> ->]|[-> ->]]; parts.
  - unfold r'. destruct Hst as [[-> ->]|[-> ->]]; parts.
  - destruct Hst as [[-> ->]|[-> ->]]; lia.
Qed.

Definition pending (d : Tables) (id : uuid) : Prop :=
  exists r, withdraw_requests d !! id = Some r /\ wr_Status r = WithdrawPending.

Lemma CompleteWithdraw_inv id h s r s' :
  CompleteWithdraw id h s = (r, s') -> pending (db s) id -> pay_inv (db s) -> pay_inv (db s').
Proof.
  unfold CompleteWithdraw. intros Hr (q & Hq & Hp) I.
  apply (transaction_inv pay_inv _ _ _ _ Hr); [done|]. intros t s1 _ Hm ->. clear Hr. run_inv.
  assert (x = q) as -> by congruence.
  destruct (inv_wr_wallet _ I _ _ Hq) as [w Hw].
  unfold update_withdraw in *. simplify_eq. use_update; [congruence|].
  assert (w0 = w) as -> by congruence.
  eapply finish_inv; eauto.
Qed.

Lemma RejectWithdraw_inv id why s r s' :
  RejectWithdraw id why s = (r, s') -> pending (db s) id -> pay_inv (db s) -> pay_inv (db s').
Proof.
  unfold RejectWithdraw. intros Hr (q & Hq & Hp) I.
  eapply transaction_inv; [exact Hr|done|]. intros t s1 _ Hm ->. clear Hr. run_inv.
  assert (x = q) as -> by congruence.
  destruct (inv_wr_wallet _ I _ _ Hq) as [w Hw].
  unfold update_withdraw in *. simplify_eq. use_update; [congruence|].
  assert (w0 = w) as -> by congruence.
  apply (finish_inv (db s) (wr_WalletID q) w id q WithdrawRejected wr_TxHash (fun _ => why) _ 0);
    eauto.
Qed.

(** * Opening wallets *)

(** Two wallet tables that differ in columns no amount depends on. *)
Lemma pay_inv_cosmetic d m :
  pay_inv d ->
  (forall id, is_Some (m !! id) <-> is_Some (wallets d !! id)) ->
  (forall id w', m !! id = Some w' -> exists w, wallets d !! id = Some w /\ w_ID w' = w_ID w /\
     w_TONBalance w' = w_TONBalance w /\ w_Credit w' = w_Credit w /\ w_Frozen w' = w_Frozen w) ->
  pay_inv (set_wallets (fun _ => m) d).
Proof.
  intros I Hdom Hm. split; simpl.
  - intros id w' Hw'. apply Hm in Hw' as (w & Hw & E1 & E2 & E3 & E4).
    destruct (inv_wallets d I id w Hw). split; rewrite ?E1, ?E2, ?E3, ?E4; done.
  - apply (inv_requests d I).
  - intros t Ht. by apply Hdom, (inv_tx_wallet d I).
  - intros id r Hr. by apply Hdom, (inv_wr_wallet d I id).
Qed.

(** No history mentions an identifier that has no wallet. *)
Lemma no_history d id : pay_inv d -> wallets d !! id = None ->
  booked d id = 0 /\ withdraw_total WithdrawPending d id = 0.
Proof.
  intros I Hn.
  assert (Hw : forall st, withdraw_total st d id = 0).
  { intros st. apply map_sum_zero. intros k r Hr. unfold wr_part.
    destruct (N.eqb_spec (wr_WalletID r) id) as [<-|]; [|done].
    apply (inv_wr_wallet d I) in Hr as [? ?]. congruence. }
  unfold booked. rewrite !Hw. split; [|done].
  unfold tx_total. rewrite sumZ_zero; [done|].
  intros t Ht. destruct (N.eqb_spec (t_WalletID t) id) as [<-|]; [|done].
  apply (inv_tx_wallet d I) in Ht as [? ?]. congruence.
Qed.

Lemma insert_wallet_inv w d d' :
  insert_wallet w d = Ok d' -> w_TONBalance w = 0 -> w_Credit w = 0 -> w_Frozen w = 0 ->
  pay_inv d -> pay_inv d'.
Proof.
  unfold insert_wallet. intros Hi Et Ec Ef I.
  destruct (bool_decide _) eqn:Hn in Hi; [done|]. zbool. apply eq_None_not_Some in Hn.
  destruct (existsb _ _); [done|]. destruct (existsb _ _); [done|]. injection Hi as <-.
  destruct (no_history d (w_ID w) I Hn) as [Hb Hp].
  assert (Hkeep : forall j, is_Some (wallets d !! j) -> is_Some (<[w_ID w := w]> (wallets d) !! j)).
  { intros j Hj. rewrite lookup_insert_is_Some. destruct (decide (w_ID w = j)); [by left|by right]. }
  split; simpl.
  - intros id w'. rewrite lookup_insert_Some. intros [[<- <-]|[_ Hw']].
    + split; rewrite ?Et, ?Ec, ?Ef; try done; lia.
    + by destruct (inv_wallets d I id w' Hw').
  - apply (inv_requests d I).
  - intros t Ht. by apply Hkeep, (inv_tx_wallet d I).
  - intros id r Hr. by apply Hkeep, (inv_wr_wallet d I id).
Qed.

Lemma update_pay_handle_inv id h d d' :
  update_pay_handle id h d = Ok d' -> pay_inv d -> pay_inv d'.
Proof.
  unfold update_pay_handle, update_wallet. destruct (existsb _ _); [done|].
  destruct (wallets d !! id) as [w|] eqn:Hw; intros [= <-]; [|done].
  intros I. apply (pay_inv_cosmetic d (<[id := with_pay_handle w h]> (wallets d)) I).
  - intros j. rewrite lookup_insert_is_Some. destruct (decide (id = j)) as [<-|]; [|naive_solver].
    split; [by eauto|by left].
  - intros j w'. rewrite lookup_insert_Some. intros [[<- <-]|[_ Hj]]; eauto 10.
Qed.

(** A statement either fails, and changes nothing, or its update was applied. *)
Lemma exec_inv (P : Tables -> Prop) f s r s' :
  exec (X := X) f s = (r, s') -> P (db s) -> (forall d, f (db s) = Ok d -> P d) -> P (db s').
Proof.
  intros Hr HP Hf. destruct r as [[]|e].
  - apply exec_ok in Hr as (d & Hd & -> & _). by apply Hf.
  - by apply stmt_err_db in Hr as [-> _].
Qed.

Lemma first_db {A} (q : Tables -> option A) s r s' : first (X := X) q s = (r, s') -> db s' = db s.
Proof.
  intros Hr. destruct r; [by apply first_ok in Hr as (_ & -> & _)|by apply stmt_err_db in Hr as [-> _]].
Qed.

Lemma GetOrCreateWallet_inv tg addr s r s' :
  GetOrCreateWallet tg addr s = (r, s') -> pay_inv (db s) -> pay_inv (db s').
Proof.
  unfold GetOrCreateWallet. intros Hr I.
  apply bind_run in Hr as (r1 & s1 & E1 & Hr). apply try_run in E1 as (q & -> & E1).
  apply first_db in E1. rewrite <- E1 in I. clear E1.
  apply bind_run in Hr as (r2 & s2 & E2 & Hr).
  assert (I2 : pay_inv (db s2)).
  { destruct q as [w|[]]; try (injection E2 as _ <-; exact I).
    apply bind_run in E2 as (r3 & s3 & E3 & E2). injection E3 as <- <-.
    apply bind_run in E2 as (r4 & s4 & E4 & E2).
    apply (exec_inv pay_inv) in E4; [|done|by intros d Hd; apply (insert_wallet_inv _ _ _ Hd)].
    destruct r4; [by injection E2 as _ <-|by destruct E2 as [_ ->]]. }
  destruct r2 as [w|e]; [|by destruct Hr as [_ ->]].
  destruct (_ =? "")%string; [|by injection Hr as _ <-].
  apply bind_run in Hr as (r3 & s3 & E3 & Hr). apply try_run in E3 as (q3 & -> & E3).
  apply (exec_inv pay_inv) in E3; [|done|by intros d Hd; apply (update_pay_handle_inv _ _ _ _ Hd)].
  destruct q3; injection Hr as _ <-; done.
Qed.

(** Tables that agree on wallets, transactions and requests. *)
Lemma pay_inv_same d d' :
  wallets d' = wallets d -> transactions d' = transactions d ->
  withdraw_requests d' = withdraw_requests d -> pay_inv d -> pay_inv d'.
Proof.
  destruct d, d'; simpl. intros -> -> -> I. split; simpl.
  - intros id w Hw. by destruct (inv_wallets _ I id w Hw).
  - apply (inv_requests _ I).
  - apply (inv_tx_wallet _ I).
  - apply (inv_wr_wallet _ I).
Qed.

Lemma SetWalletLang_inv tg l s r s' :
  SetWalletLang tg l s = (r, s') -> pay_inv (db s) -> pay_inv (db s').
Proof.
  unfold SetWalletLang. intros Hr I. apply (exec_inv pay_inv _ _ _ _ Hr I). intros d [= <-].
  apply pay_inv_cosmetic; [done| |].
  - intros id. rewrite lookup_fmap, fmap_is_Some. done.
  - intros id w'. rewrite lookup_fmap_Some. intros (w & <- & Hw). exists w.
    destruct (_ =? _); done.
Qed.

Lemma CreateInvoice_inv i s r s' :
  CreateInvoice i s = (r, s') -> pay_inv (db s) -> pay_inv (db s').
Proof.
  unfold CreateInvoice. intros Hr I. apply bind_run in Hr as (r1 & s1 & E1 & Hr).
  injection E1 as <- <-. apply bind_run in Hr as (r1 & s1 & E1 & Hr).
  assert (I1 : pay_inv (db s1)).
  { apply (exec_inv pay_inv) in E1; [done|done|]. unfold insert_invoice. intros d.
    destruct (bool_decide _); [done|]. destruct (existsb _ _); [done|].
    intros [= <-]. eapply pay_inv_same; [..|exact I]; done. }
  destruct r1; [by injection Hr as _ <-|by destruct Hr as [_ ->]].
Qed.

Lemma ExpireOldInvoices_inv s r s' :
  ExpireOldInvoices s = (r, s') -> pay_inv (db s) -> pay_inv (db s').
Proof.
  unfold ExpireOldInvoices. intros Hr I. apply bind_run in Hr as (r1 & s1 & E1 & Hr).
  injection E1 as <- <-. apply (exec_inv pay_inv _ _ _ _ Hr I). intros d [= <-].
  eapply pay_inv_same; [..|exact I]; done.
Qed.

Lemma ConfirmInvoice_inv id h s r s' :
  ConfirmInvoice id h s = (r, s') -> pay_inv (db s) -> pay_inv (db s').
Proof.
  unfold ConfirmInvoice. intros Hr I. apply bind_run in Hr as (r1 & s1 & E1 & Hr).
  injection E1 as <- <-. apply (exec_inv pay_inv _ _ _ _ Hr I). intros d [= <-].
  eapply pay_inv_same; [..|exact I]; done.
Qed.
End preservation.

Lemma AddInvoiceReceipt_inv {X} `{Env} `{Lib} id a h (s : st Tables X) r s' :
  AddInvoiceReceipt id a h s = (r, s') -> pay_inv (db s) -> pay_inv (db s').
Proof.
  unfold AddInvoiceReceipt, with_var. intros Hr I.
  destruct (transaction _ _) as [r1 s1] eqn:E in Hr. injection Hr as _ <-. simpl.
  apply (transaction_inv pay_inv _ _ _ _ E I). intros u s2 _ Hm ->.
  apply bind_ok in Hm as (i & s3 & E1 & Hm). apply first_ok in E1 as (_ & -> & _).
  destruct (_ && _) in Hm.
  - apply bind_ok in Hm as (t & s4 & E2 & Hm). injection E2 as <- <-.
    apply bind_ok in Hm as (t & s4 & E2 & Hm). injection E2 as <- <-.
    apply exec_ok in Hm as (d & [= <-] & -> & _). eapply pay_inv_same; [..|exact I]; done.
  - apply exec_ok in Hm as (d & [= <-] & -> & _). eapply pay_inv_same; [..|exact I]; done.
Qed.

(** * Reachable tables *)

(** One call of a repository method, whatever fails during it. The premises
    are what the callers establish: amounts are positive int64 values, wallets
    were looked up before, and a request is finished while it is pending. *)
Inductive pay_step {X} `{Env} `{Lib} : st Tables X -> st Tables X -> Prop :=
| step_wallet tg addr s r s' :
    GetOrCreateWallet tg addr s = (r, s') -> pay_step s s'
| step_lang tg l s r s' :
    SetWalletLang tg l s = (r, s') -> pay_step s s'
| step_deposit id amt h f ds s r s' :
    0 < amt -> is_Some (wallets (db s) !! id) ->
    Deposit id amt h f ds s = (r, s') -> pay_step s s'
| step_deduct id amt sv ref ds s r s' :
    amt <= int64_max -> Deduct id amt sv ref ds s = (r, s') -> pay_step s s'
| step_credit id amt ds s r s' :
    is_Some (wallets (db s) !! id) -> AddCredit id amt ds s = (r, s') -> pay_step s s'
| step_transfer id1 id2 amt ds s r s' :
    amt <= int64_max -> Transfer id1 id2 amt ds s = (r, s') -> pay_step s s'
| step_withdraw req s r s' :
    0 < wr_total req -> CreateWithdraw req s = (r, s') -> pay_step s s'
| step_complete id h s r s' :
    pending (db s) id -> CompleteWithdraw id h s = (r, s') -> pay_step s s'
| step_reject id why s r s' :
    pending (db s) id -> RejectWithdraw id why s = (r, s') -> pay_step s s'
| step_invoice i s r s' :
    CreateInvoice i s = (r, s') -> pay_step s s'
| step_receipt id a h s r s' :
    AddInvoiceReceipt id a h s = (r, s') -> pay_step s s'
| step_confirm id h s r s' :
    ConfirmInvoice id h s = (r, s') -> pay_step s s'
| step_expire s r s' :
    ExpireOldInvoices s = (r, s') -> pay_step s s'.

Section reachability.
Context {X : Type} {ENV : Env} {LIB : Lib}.
Implicit Types s : st Tables X.

Lemma pay_step_inv s s' : pay_step s s' -> pay_inv (db s) -> pay_inv (db s').
Proof.
  destruct 1; intros I;
    eauto using GetOrCreateWallet_inv, SetWalletLang_inv, Deposit_inv, Deduct_inv, AddCredit_inv,
      Transfer_inv, CreateWithdraw_inv, CompleteWithdraw_inv, RejectWithdraw_inv, CreateInvoice_inv,
      AddInvoiceReceipt_inv, ConfirmInvoice_inv, ExpireOldInvoices_inv.
Qed.

Lemma pay_inv_empty : pay_inv empty_tables.
Proof. split; simpl; [intros ? ? []%lookup_empty_Some..| |]; set_solver. Qed.

Lemma reachable_inv x s : rtc pay_step (init_st empty_tables x) s -> pay_inv (db s).
Proof.
  intros Hs. remember (init_st empty_tables x) as s0 eqn:E.
  assert (I : pay_inv (db s0)) by (subst; apply pay_inv_empty). clear E.
  induction Hs; eauto using pay_step_inv.
Qed.


(** Each item counts once, for the wallet it names. *)
Lemma sum_by_owner {A} (owner : A -> uuid) (amount : A -> Z) (m : gmap uuid Wallet) l :
  (forall t, t ∈ l -> is_Some (m !! owner t)) ->
  (forall id w, m !! id = Some w -> w_ID w = id) ->
  map_sum (fun w => sumZ (fun t => if (owner t =? w_ID w)%N then amount t else 0) l) m
  = sumZ amount l.
Proof.
  intros Hl Hid. induction l as [|t l IH]; simpl; [by apply map_sum_zero|].
  rewrite map_sum_plus, IH by (intros; apply Hl; set_solver).
  f_equal. destruct (Hl t) as [w Hw]; [set_solver|].
  rewrite (map_sum_delete _ _ _ _ Hw). pose proof (Hid _ _ Hw) as E. rewrite E, N.eqb_refl.
  rewrite map_sum_zero; [lia|]. intros k w' Hk. apply lookup_delete_Some in Hk as [Hne Hk].
  rewrite (Hid _ _ Hk). destruct (N.eqb_spec (owner t) k); [congruence|done].
Qed.

(** What was sent to the chain. *)
Definition sent (r : WithdrawRequest) : Z :=
  if bool_decide (wr_Status r = WithdrawDone) then wr_total r else 0.

End reachability.

(** * Examples *)

Definition demo_request (id : uuid) (amount fee : Z) : WithdrawRequest :=
  {| wr_ID := 0; wr_CreatedAt := 0; wr_WalletID := id; wr_ToAddress := "UQuser";
     wr_Amount := amount; wr_Fee := fee; wr_Status := WithdrawPending; wr_TxHash := "";
     wr_Note := ""; wr_AdminNote := ""; wr_ProcessedAt := None |}.

Section demo.
#[local] Existing Instance calm_env.
#[local] Existing Instance demo_lib.

Abbreviation St := (st Tables unit).

(** Two users, a deposit, a payment, a transfer, a withdrawal that was sent and
    one that is pending. *)
Definition demo_0 : St := init_st empty_tables tt.
Definition demo_1 : St := Eval vm_compute in snd (GetOrCreateWallet 1234567 "UQmaster" demo_0).
Definition demo_2 : St := Eval vm_compute in snd (GetOrCreateWallet 7654321 "UQmaster" demo_1).
Definition demo_3 : St := Eval vm_compute in snd (Deposit 1001 5000 "h1" "UQa" "" demo_2).
Definition demo_4 : St := Eval vm_compute in snd (Deduct 1001 700 "bot_1" "ref" "" demo_3).
Definition demo_5 : St := Eval vm_compute in snd (Transfer 1001 1004 1000 "gift" demo_4).
Definition demo_6 : St := Eval vm_compute in snd (CreateWithdraw (demo_request 1001 2000 100) demo_5).
Definition demo_7 : St := Eval vm_compute in
  snd (CompleteWithdraw 1041 "chain-tx" demo_6).
Definition demo_8 : St := Eval vm_compute in snd (CreateWithdraw (demo_request 1004 400 100) demo_7).

Lemma demo_reachable_3 : rtc pay_step demo_0 demo_3.
Proof.
  eapply rtc_l; [eapply (step_wallet 1234567 "UQmaster"); vm_compute; reflexivity|].
  eapply rtc_l; [eapply (step_wallet 7654321 "UQmaster"); vm_compute; reflexivity|].
  eapply rtc_l; [eapply (step_deposit 1001 5000 "h1" "UQa" "");
    [lia|eexists; vm_compute; reflexivity|vm_compute; reflexivity]|].
  apply rtc_refl.
Qed.

Lemma demo_reachable : rtc pay_step demo_0 demo_8.
Proof.
  etrans; [exact demo_reachable_3|].
  eapply rtc_l; [eapply (step_deduct 1001 700 "bot_1" "ref" ""); [done|vm_compute; reflexivity]|].
  eapply rtc_l; [eapply (step_transfer 1001 1004 1000 "gift"); [done|vm_compute; reflexivity]|].
  eapply rtc_l; [eapply (step_withdraw (demo_request 1001 2000 100)); [done|vm_compute; reflexivity]|].
  eapply rtc_l; [eapply (step_complete 1041 "chain-tx");
    [eexists; vm_compute; split; reflexivity|vm_compute; reflexivity]|].
  eapply rtc_l; [eapply (step_withdraw (demo_request 1004 400 100)); [done|vm_compute; reflexivity]|].
  apply rtc_refl.
Qed.


End demo.
