(* ===== verification/PayStoreSpec.v ===== *)
(** What each repository method of botpay promises its callers: functional
    behaviour on every branch, idempotence, and what it does not check. *)
From S2P Require Import Prelude GoInt GoFloat GoString Effects PayModels PayChain PayStore PayInvariant.

Section spec.
Context {X : Type} {ENV : Env} {LIB : Lib}.
Implicit Types s : st Tables X.

(** * Deduct *)

(** The tables after a new payment [t]. *)
Definition debited (d : Tables) (w : Wallet) (c u : Z) (t : Transaction) : Tables :=
  set_transactions (fun l => l ++ [t])
    (set_wallets <[t_WalletID t := with_balances w (w_TONBalance w - u) (w_Credit w - c) (w_Frozen w)]> d).

Definition is_payment (id : uuid) (amt : Z) (sv ref : string) (t : Transaction) : Prop :=
  t_WalletID t = id /\ t_Type t = TxPayment /\ t_Status t = TxConfirmed /\ t_Amount t = - amt /\
  t_ServiceID t = sv /\ t_Ref t = ref.

Lemma Deduct_cases id amt sv ref ds s r s' :
  Deduct id amt sv ref ds s = (r, s') -> amt <= int64_max ->
  (forall w, wallets (db s) !! id = Some w -> 0 <= w_Credit w <= int64_max) ->
  match r with
  | Err _ => db s' = db s
  | Ok t => 0 < amt /\
      ((ref <> ""%string /\ find_payment id sv ref (db s) = Some t /\ db s' = db s) \/
       ((ref = ""%string \/ find_payment id sv ref (db s) = None) /\
        exists w c u, wallets (db s) !! id = Some w /\ HasEnough w amt = true /\
          c = Z.min (w_Credit w) amt /\ u = amt - c /\
          is_payment id amt sv ref t /\ db s' = debited (db s) w c u t))
  end.
Proof.
  unfold Deduct. intros Hr Ha Hc. destruct (amt <=? 0) eqn:Ea; [injection Hr as <- <-; done|].
  destruct r as [t|e]; [|by apply transaction_atomic in Hr]. split; [by zbool|].
  apply transaction_ok in Hr as (s1 & Hm & ->). simpl.
  apply bind_ok in Hm as (ex & s2 & Hex & Hm).
  assert (Hx : db s2 = db s /\ match ex with
      | Some t => ref <> ""%string /\ find_payment id sv ref (db s) = Some t
      | None => ref = ""%string \/ find_payment id sv ref (db s) = None end).
  { destruct (ref =? "")%string eqn:Er; simpl in Hex.
    - injection Hex as <- <-. zbool. by split; [|left].
    - apply first_opt_ok in Hex as [-> ->]. simpl. zbool. split; [done|].
      destruct (find_payment _ _ _ _); [done|by right]. }
  destruct Hx as [Hdb Hx]. destruct ex as [t0|].
  { injection Hm as <- <-. left. destruct Hx. by rewrite Hdb. }
  right. split; [done|]. run_inv. rewrite Hdb in *.
  destruct (split_payment _ amt) as [c u] eqn:Es. run_inv.
  apply create_transaction_ok in Hm as [Hd (i & k & ->)]. rewrite Hd. simpl in *.
  use_update; [congruence|].
  match goal with H1 : wallets _ !! id = Some ?a, H2 : wallets _ !! id = Some ?b |- _ =>
    assert (b = a) as -> by congruence; clear H2; rename a into w0; rename H1 into Hw0 end.
  zbool. destruct (split_payment_spec _ _ _ _ Es) as (Ec & Et & ? & ? & ? & ?); [lia|by apply Hc|].
  rewrite Ec, Et in *. exists w0, c, u.
  split; [done|]. split; [done|]. split; [destruct (decide (u = 0)); lia|]. split; [lia|].
  split; [unfold is_payment; simpl; i64; done|].
  unfold debited. simpl. do 2 f_equal. rewrite <- !Z.add_opp_r, Z.add_0_r. done.
Qed.

(** C4: Whatever fails, Deduct does one of three things. It reports an error
    and no table changed; or a payment with the same wallet, service and
    non-empty ref exists, which it returns without charging again; or the
    wallet has enough, the amount is taken from the credit first and the TON
    balance for the rest, and exactly one payment of that amount is recorded. *)
Theorem Deduct_outcomes id amt sv ref ds s r s' :
  Deduct id amt sv ref ds s = (r, s') -> amt <= int64_max ->
  (forall w, wallets (db s) !! id = Some w -> 0 <= w_Credit w <= int64_max) ->
  match r with
  | Err _ => db s' = db s
  | Ok t => 0 < amt /\
      ((ref <> ""%string /\ find_payment id sv ref (db s) = Some t /\ db s' = db s) \/
       ((ref = ""%string \/ find_payment id sv ref (db s) = None) /\
        exists w c u, wallets (db s) !! id = Some w /\ HasEnough w amt = true /\
          c = Z.min (w_Credit w) amt /\ u = amt - c /\
          is_payment id amt sv ref t /\ db s' = debited (db s) w c u t))
  end.
Proof. apply Deduct_cases. Qed.

(** Generated identifiers are new: no recorded transaction carries them. *)
Definition fresh_hashes s : Prop :=
  forall k t, (tick s <= k)%nat -> t ∈ transactions (db s) ->
    t_TxHash t <> ("int-" +:+ uuid_String (env_uuid k))%string.

Lemma insert_transaction_fresh u t d :
  (forall t', t' ∈ transactions d -> t_TxHash t' <> t_TxHash t) ->
  insert_transaction u t d = Ok (set_transactions (fun l => l ++ [t]) d).
Proof.
  intros Hf. unfold insert_transaction.
  destruct (existsb _ (transactions d)) eqn:E; [|by rewrite andb_false_r].
  apply existsb_exists in E as (t' & Hin & Heq). apply list_elem_of_In in Hin.
  apply String.eqb_eq in Heq. by apply Hf in Hin.
Qed.

(** Deduct does charge when it should: with no failing statement, a wallet
    with enough free balance and no earlier payment under the same ref, it
    returns a new payment. *)
Theorem Deduct_succeeds id amt sv ref ds s w :
  quiet_from (tick s) -> pay_inv (db s) -> fresh_hashes s ->
  wallets (db s) !! id = Some w -> in_int64 (w_TONBalance w + w_Credit w) ->
  0 < amt <= w_TONBalance w + w_Credit w - w_Frozen w -> amt <= int64_max ->
  (ref = ""%string \/ find_payment id sv ref (db s) = None) ->
  exists t s', Deduct id amt sv ref ds s = (Ok t, s') /\ is_payment id amt sv ref t.
Proof.
  intros Hq I Hfr Hw Hsum Ha Hmax Hnew.
  destruct (inv_wallets _ I id w Hw). pose proof (withdraw_total_nonneg _ id I).
  assert (Hen : HasEnough w amt = true).
  { apply HasEnough_spec; [done|unfold in_int64, int64_min, int64_max in *; lia|lia]. }
  destruct (split_payment w amt) as [c u] eqn:Es.
  destruct (split_payment_spec _ _ _ _ Es) as (Ec & Et & ? & ? & ? & ?); [lia|done|].
  assert (Hadd : add_balances (- u) (- c) 0 w =
    Some (with_balances w (w_TONBalance w + - u) (w_Credit w + - c) (w_Frozen w + 0))).
  { apply add_balances_some. split; [done|]. unfold in_int64, int64_min, int64_max in *.
    destruct (decide (u = 0)); lia. }
  unfold Deduct. rewrite (proj2 (Z.leb_gt amt 0)) by lia.
  assert (Hpre : forall s1, tick s1 = S (tick s) -> tx s1 = InTx -> db s1 = db s ->
    exists s2, (if negb (ref =? "")%string then first_opt (find_payment id sv ref) else ret None) s1
      = (Ok None, s2) /\ (tick s1 <= tick s2)%nat /\ tx s2 = InTx /\ db s2 = db s).
  { intros s1 E1 E2 E3. destruct Hnew as [->|Hnew]; [by eexists|].
    destruct (negb _); [|by eexists]. exists (bump s1). split; [|simpl; auto].
    eapply bind_intro; [apply try_intro, first_quiet; [rewrite E1; auto with botpay|by rewrite E2]|].
    by rewrite E3, Hnew. }
  destruct (Hpre (mkSt (S (tick s)) InTx (db s) (ext s))) as (s2 & Hs2 & Ht2 & Etx & Edb); [done..|].
  simpl in Ht2. assert (Hq2 : quiet_from (tick s2)) by (intros k Hk; apply Hq; lia).
  set (t := confirmed_tx id TxPayment (i64_neg amt) ("int-" +:+ uuid_String (env_uuid (S (S (S (tick s2))))))
    "" sv ref ds (env_now (S (S (tick s2)))) (env_uuid (S (S (S (S (tick s2))))))
    (env_now (S (S (S (S (S (tick s2)))))))).
  exists t. eexists. split; [|unfold is_payment, t; simpl; i64; done].
  eapply transaction_quiet; [auto with botpay|..].
  - eapply bind_intro; [exact Hs2|]. cbv beta iota.
    eapply bind_intro; [apply first_some_quiet; [auto with botpay|by rewrite Etx|by rewrite Edb]|].
    rewrite Hen, Es, Ec, Et. simpl.
    eapply bind_intro; [apply exec_quiet; simpl; [auto with botpay|by rewrite Etx|]|].
    { rewrite Edb. unfold update_wallet. by rewrite Hw, Hadd. }
    eapply bind_intro; [reflexivity|]. eapply bind_intro; [reflexivity|].
    eapply bind_intro; [reflexivity|]. eapply bind_intro; [reflexivity|].
    eapply bind_intro; [apply exec_quiet; simpl; [auto 50 with botpay|by rewrite Etx|]|reflexivity].
    apply insert_transaction_fresh. simpl. intros t' Hin. apply Hfr; [lia|done].
  - simpl. done.
  - simpl. auto 50 with botpay.
Qed.

(** Any payment that matches makes the lookup succeed. *)
Lemma find_payment_some id amt sv ref t d :
  t ∈ transactions d -> is_payment id amt sv ref t -> is_Some (find_payment id sv ref d).
Proof.
  intros Ht (E1 & E2 & _ & _ & E5 & E6). destruct (find_payment id sv ref d) eqn:E; [done|].
  unfold find_payment in E. rewrite first_row_none in E. specialize (E t Ht). simpl in E.
  rewrite E1, E2, E5, E6, N.eqb_refl, !String.eqb_refl, bool_decide_true in E; done.
Qed.

(** Retrying is safe: once Deduct has returned a transaction for a wallet,
    a service and a non-empty ref, any later call with the same three changes
    no table, whatever amount it carries and whatever fails, as long as the
    recorded transactions are still there. *)
Theorem Deduct_retry_free id amt sv ref ds s t s' amt2 ds2 s2 r2 s2' :
  Deduct id amt sv ref ds s = (Ok t, s') -> amt <= int64_max -> ref <> ""%string ->
  (forall w, wallets (db s) !! id = Some w -> 0 <= w_Credit w <= int64_max) ->
  (forall u, u ∈ transactions (db s') -> u ∈ transactions (db s2)) ->
  Deduct id amt2 sv ref ds2 s2 = (r2, s2') ->
  db s2' = db s2.
Proof.
  intros H1 Ha Hne Hc Hkeep H2.
  apply Deduct_cases in H1 as (_ & H1); [|done..].
  assert (Hfind : is_Some (find_payment id sv ref (db s2))).
  { assert (Hin : exists u, u ∈ transactions (db s') /\ t_WalletID u = id /\ t_ServiceID u = sv /\
      t_Ref u = ref /\ t_Type u = TxPayment).
    { destruct H1 as [(_ & Hf & ->)|(_ & w & c & u & _ & _ & _ & _ & (? & ? & _ & _ & ? & ?) & ->)].
      - apply first_row_some in Hf as [Hin Hp]. destruct_hyps. zbool.
        match goal with H : (_ =? _)%N = true |- _ => apply N.eqb_eq in H end. by exists t.
      - exists t. split; [|done]. unfold debited. simpl. set_solver. }
    destruct Hin as (u & Hin & E1 & E2 & E3 & E4).
    destruct (find_payment id sv ref (db s2)) eqn:E; [done|].
    unfold find_payment in E. rewrite first_row_none in E. specialize (E u (Hkeep u Hin)). simpl in E.
    by rewrite E1, E2, E3, N.eqb_refl, !String.eqb_refl, bool_decide_true in E. }
  destruct Hfind as [t0 Hf]. destruct r2 as [t2|e2].
  - unfold Deduct in H2. destruct (amt2 <=? 0); [done|].
    apply transaction_ok in H2 as (s1 & Hm & ->). simpl.
    apply bind_ok in Hm as (ex & s3 & Hex & Hm).
    destruct (ref =? "")%string eqn:Er; [by zbool|]. simpl in Hex.
    apply first_opt_ok in Hex as [-> Hd]. simpl in *. rewrite Hf in Hm. by injection Hm as _ <-.
  - unfold Deduct in H2. destruct (amt2 <=? 0); [by injection H2 as _ <-|].
    by apply transaction_atomic in H2.
Qed.

(** * Deposit *)

(** A chain transaction is credited at most once: when a recorded
    transaction already carries the hash, Deposit changes no table, whatever
    wallet and amount it is called with and whatever statement fails. *)
Theorem Deposit_credits_once id amt h f ds s r s' :
  Deposit id amt h f ds s = (r, s') ->
  (exists t, t ∈ transactions (db s) /\ t_TxHash t = h) ->
  db s' = db s.
Proof.
  unfold Deposit. intros Hr (t & Ht & Hh). destruct r as [u|e]; [|by apply transaction_atomic in Hr].
  apply transaction_ok in Hr as (s1 & Hm & ->). simpl.
  apply bind_ok in Hm as (r1 & s2 & E & Hm). apply try_run in E as (q & [= ->] & E).
  destruct q as [t0|e].
  - apply first_ok in E as (_ & -> & _). by injection Hm as _ <-.
  - exfalso. apply bind_ok in Hm as (? & ? & Hx & _). apply exec_ok in Hx as (_ & _ & _ & Htx).
    destruct (find_by_hash h (db s)) eqn:Ef.
    + unfold first, stmt in E. simpl in E. destruct (env_fault (S (tick s))).
      * injection E as <- <-. done.
      * by rewrite Ef in E.
    + unfold find_by_hash in Ef. rewrite first_row_none in Ef. specialize (Ef t Ht). simpl in Ef.
      by rewrite Hh, String.eqb_refl in Ef.
Qed.

(** * Transfer *)

Lemma update_add_sums id dt dc d d' w :
  update_wallet id (add_balances dt dc 0) d = Ok d' -> wallets d !! id = Some w ->
  map_sum w_TONBalance (wallets d') = map_sum w_TONBalance (wallets d) + dt /\
  map_sum w_Credit (wallets d') = map_sum w_Credit (wallets d) + dc /\
  map_sum w_Frozen (wallets d') = map_sum w_Frozen (wallets d) /\
  (forall j, is_Some (wallets d' !! j) <-> is_Some (wallets d !! j)).
Proof.
  intros Hu Hw. apply update_add_ok in Hu as [[? _]|(w' & Hw' & -> & _)]; [congruence|]. simpl.
  rewrite !(map_sum_insert _ _ _ _ _ Hw'). simpl. repeat split; try lia.
  - rewrite lookup_insert_is_Some. intros [<-|[_ H]]; [by exists w'|done].
  - intros H. rewrite lookup_insert_is_Some. destruct (decide (id = j)); [by left|by right].
Qed.

Lemma update_wallet_transactions id f d d' :
  update_wallet id f d = Ok d' -> transactions d' = transactions d.
Proof.
  unfold update_wallet. destruct (wallets d !! id) as [w|]; [|by intros [= <-]].
  destruct (f w); [|done]. by intros [= <-].
Qed.

(** A transfer moves money and never changes its kind: whatever happens,
    the TON of all wallets, the credit of all wallets and the frozen part of
    all wallets stay the same; on success the two recorded transactions cancel. *)
Theorem Transfer_keeps_kinds id1 id2 amt ds s r s' :
  Transfer id1 id2 amt ds s = (r, s') -> amt <= int64_max ->
  map_sum w_TONBalance (wallets (db s')) = map_sum w_TONBalance (wallets (db s)) /\
  map_sum w_Credit (wallets (db s')) = map_sum w_Credit (wallets (db s)) /\
  map_sum w_Frozen (wallets (db s')) = map_sum w_Frozen (wallets (db s)) /\
  match r with
  | Err _ => db s' = db s
  | Ok (t1, t2) => t_WalletID t1 = id1 /\ t_WalletID t2 = id2 /\ t_Amount t1 = - amt /\
      t_Amount t2 = amt /\ transactions (db s') = transactions (db s) ++ [t1; t2]
  end.
Proof.
  unfold Transfer. intros Hr Ha. destruct (amt <=? 0) eqn:Ea; [by injection Hr as <- <-|].
  destruct r as [[t1 t2]|e]; [|apply transaction_atomic in Hr; by rewrite Hr].
  apply transaction_ok in Hr as (s1 & Hm & ->). simpl. run_inv.
  destruct (split_payment _ amt) as [c u] eqn:Es. run_inv. simplify_eq.
  do 2 match goal with H : create_transaction _ _ = (Ok _, ?s) |- context [db ?s] =>
    apply create_transaction_ok in H as [-> (? & ? & ->)] end. simpl in *. zbool.
  match goal with H1 : update_wallet id1 _ _ = Ok ?d, H2 : update_wallet id2 _ ?d = Ok _ |- _ =>
    pose proof (update_wallet_transactions _ _ _ _ H1) as T1;
    pose proof (update_wallet_transactions _ _ _ _ H2) as T2;
    eapply update_add_sums in H1 as (E1 & E2 & E3 & Hdom); [|eassumption];
    match goal with K : wallets (db s) !! id2 = Some ?w |- _ =>
      destruct (proj2 (Hdom id2) (mk_is_Some _ _ K)) as [w2 Hw2] end;
    eapply update_add_sums in H2 as (F1 & F2 & F3 & _); [|eassumption] end.
  rewrite T2, T1, <- app_assoc. repeat split; try lia. i64. lia.
Qed.

(** * Withdrawals *)

(** Completing does not look at the request's status: completing any
    stored request, also one that was already sent or rejected, takes its total
    from the wallet's TON and frozen columns again. *)
Theorem CompleteWithdraw_any_status id h s q w :
  quiet_from (tick s) -> withdraw_requests (db s) !! id = Some q ->
  wallets (db s) !! wr_WalletID q = Some w ->
  in_int64 (w_TONBalance w - wr_total q) -> in_int64 (w_Frozen w - wr_total q) ->
  in_int64 (w_Credit w) ->
  exists s', CompleteWithdraw id h s = (Ok tt, s') /\
    wallets (db s') = <[wr_WalletID q := with_balances w (w_TONBalance w - wr_total q) (w_Credit w)
                          (w_Frozen w - wr_total q)]> (wallets (db s)) /\
    exists q', withdraw_requests (db s') !! id = Some q' /\ wr_Status q' = WithdrawDone /\
      wr_total q' = wr_total q /\ wr_WalletID q' = wr_WalletID q.
Proof.
  intros Hq Hr Hw Ht Hf Hc. unfold CompleteWithdraw. eexists. split.
  - eapply bind_intro; [reflexivity|]. eapply transaction_quiet; simpl; [auto 50 with botpay|..].
    + eapply bind_intro; [apply first_some_quiet; simpl; [auto 50 with botpay|done|exact Hr]|].
      eapply bind_intro; [apply exec_quiet; simpl; [auto 50 with botpay|done|]|].
      { unfold update_wallet. rewrite Hw.
        rewrite (proj2 (add_balances_some (- wr_total q) 0 (- wr_total q) w
          (with_balances w (w_TONBalance w - wr_total q) (w_Credit w) (w_Frozen w - wr_total q)))); [done|].
        rewrite !Z.add_opp_r, Z.add_0_r. done. }
      apply exec_quiet; simpl; [auto 50 with botpay|done|reflexivity].
    + done.
    + simpl. auto 50 with botpay.
  - simpl. split; [done|]. exists (finish_withdraw q WithdrawDone h (wr_AdminNote q) (env_now (tick s))).
    by rewrite lookup_alter_eq, Hr.
Qed.

(** * Invoices *)

(** The invoice after a receipt that was committed. *)
Definition received (i : Invoice) (amt : Z) : Z := i64_add (inv_ReceivedNano i) amt.
Definition settles (i : Invoice) (amt : Z) : bool :=
  bool_decide (inv_Status i = InvoicePending) && ((inv_Amount i =? 0) || (received i amt >=? inv_Amount i)).

(** AddInvoiceReceipt, whatever fails. When it reports no error, the
    receipt was added to exactly this invoice, and the answer is true precisely
    when the invoice was pending and is open or now fully received; the row
    then is paid. When it reports an error, nothing changed, yet the answer can
    be true only if the invoice would have been settled. *)
Theorem AddInvoiceReceipt_outcomes id amt h s v r s' :
  AddInvoiceReceipt id amt h s = (Ok (v, r), s') ->
  match r with
  | Ok _ => exists i i', invoices (db s) !! id = Some i /\
      invoices (db s') = <[id := i']> (invoices (db s)) /\ v = settles i amt /\
      inv_ReceivedNano i' = received i amt /\ inv_Amount i' = inv_Amount i /\
      inv_WalletID i' = inv_WalletID i /\
      inv_Status i' = (if v then InvoicePaid else inv_Status i) /\
      inv_TxHash i' = (if v then h else inv_TxHash i)
  | Err _ => db s' = db s /\
      (v = true -> exists i, invoices (db s) !! id = Some i /\ settles i amt = true)
  end.
Proof.
  unfold AddInvoiceReceipt, with_var. intros Hr.
  destruct (transaction _ _) as [r1 s1] eqn:E in Hr. injection Hr as <- <- <-. simpl.
  assert (Hrow : forall i f, invoices (db s) !! id = Some i -> alter f id (invoices (db s)) =
      <[id := f i]> (invoices (db s))).
  { intros i f Hi. apply map_eq. intros j. destruct (decide (id = j)) as [<-|Hj].
    - by rewrite lookup_alter_eq, lookup_insert_eq, Hi.
    - by rewrite lookup_alter_ne, lookup_insert_ne. }
  destruct r1 as [[]|e].
  - apply transaction_ok in E as (s2 & Hm & ->). simpl.
    apply bind_ok in Hm as (i & s3 & E1 & Hm). apply first_ok in E1 as (Hi & -> & _). simpl in Hi.
    change (bool_decide _ && _) with (settles i amt) in Hm. destruct (settles i amt) eqn:Es.
    + apply bind_ok in Hm as (t & s4 & E2 & Hm). injection E2 as <- <-.
      apply bind_ok in Hm as (u & s4 & E2 & Hm). injection E2 as <- <-.
      apply exec_ok in Hm as (d & [= <-] & -> & _). simpl.
      exists i. eexists. rewrite (Hrow i) by done. done.
    + apply exec_ok in Hm as (d & [= <-] & -> & _). simpl.
      exists i. eexists. rewrite (Hrow i) by done. done.
  - split; [by apply transaction_atomic in E|]. revert E. unfold transaction. simpl.
    destruct (env_fault (tick s)); [by intros [= _ <-]|].
    unfold bind at 1. destruct (first _ _) as [[i|e1] s3] eqn:E1.
    + apply first_ok in E1 as (Hi & -> & _). simpl in *.
      change (bool_decide _ && _) with (settles i amt). destruct (settles i amt) eqn:Es; [by eauto|].
      unfold exec, stmt. simpl. destruct (env_fault _); [by intros [= _ <-]|]. simpl.
      destruct (env_fault _); by intros [= _ <-].
    + apply stmt_err_db in E1 as [_ E1]. intros [= _ <-]. simpl. by rewrite E1.
Qed.
End spec.

(** Deposit comments identify users: two telegram ids have the same pay
    handle only when they are the same id. *)
Theorem PayHandle_injective a b :
  in_int64 a -> in_int64 b -> PayHandle a = PayHandle b <-> a = b.
Proof.
  intros Ha Hb. split; [|by intros ->]. unfold PayHandle. intros [= H].
  by apply (FormatInt_inj 36) in H.
Qed.

Lemma PayHandle_injective_witness : PayHandle 1234567 <> PayHandle (-1234567).
Proof.
  intros E. apply PayHandle_injective in E; [discriminate|..]; vm_compute; split; discriminate.
Defined.

(** * Examples *)

Section demo.
#[local] Existing Instance calm_env.
#[local] Existing Instance demo_lib.

(** One credited wallet without any TON, and what a withdrawal does to it. *)
Definition credit_0 : st Tables unit := init_st (demo_tables 0 1000 0 0) tt.
Definition credit_1 : st Tables unit := snd (CreateWithdraw (demo_request 1 900 100) credit_0).
Definition credit_2 : st Tables unit := snd (CompleteWithdraw 1003 "chain-tx" credit_1).

(** Credit can be withdrawn as TON: a wallet with 1000 credit and no TON
    gets a withdrawal of 900 plus fee 100 accepted, and completing it leaves
    the TON balance at minus 1000 with the credit still there. *)
Theorem credit_withdrawn_as_TON :
  fst (CompleteWithdraw 1003 "chain-tx" credit_1) = Ok tt /\
  exists w, wallets (db credit_2) !! 1%N = Some w /\
    w_TONBalance w = -1000 /\ w_Credit w = 1000 /\ w_Frozen w = 0.
Proof. split; [vm_compute; reflexivity|]. eexists. vm_compute. repeat split. Qed.

Lemma demo_credit_range w id : wallets (db demo_3) !! id = Some w -> 0 <= w_Credit w <= int64_max.
Proof.
  intros Hw. destruct (inv_wallets _ (reachable_inv tt demo_3 demo_reachable_3) id w Hw). done.
Qed.

Lemma demo_payment : exists t, Deduct 1001 700 "bot_1" "ref" "" demo_3 = (Ok t, demo_4).
Proof. eexists. vm_compute. reflexivity. Qed.

Lemma Deduct_outcomes_witness :
  exists t w, wallets (db demo_3) !! 1001%N = Some w /\ db demo_4 = debited (db demo_3) w 0 700 t.
Proof.
  destruct demo_payment as [t E].
  pose proof (Deduct_outcomes _ _ _ _ _ _ _ _ E ltac:(done) (fun w => demo_credit_range w 1001%N)) as H.
  destruct H as (_ & [(_ & Hf & _)|(_ & w & c & u & Hw & _ & -> & -> & _ & Hd)]).
  - vm_compute in Hf. discriminate Hf.
  - exists t, w. split; [exact Hw|]. rewrite Hd.
    assert (w_Credit w = 0) as -> by (vm_compute in Hw; injection Hw as <-; reflexivity). reflexivity.
Defined.

Lemma Deduct_retry_free_witness :
  db (snd (Deduct 1001 999 "bot_1" "ref" "again" demo_4)) = db demo_4.
Proof.
  destruct demo_payment as [t E1].
  destruct (Deduct 1001 999 "bot_1" "ref" "again" demo_4) as [r2 s2] eqn:E2.
  eapply (Deduct_retry_free 1001 700 "bot_1" "ref" "" demo_3 t demo_4 999 "again" demo_4 r2 s2 E1).
  - done.
  - done.
  - intros w. apply demo_credit_range.
  - auto.
  - exact E2.
Defined.

Lemma Deduct_succeeds_witness :
  exists t s', Deduct 1001 700 "bot_1" "ref" "" demo_3 = (Ok t, s') /\
    is_payment 1001 700 "bot_1" "ref" t.
Proof.
  eapply Deduct_succeeds.
  - apply calm_quiet.
  - apply (reachable_inv tt demo_3). apply demo_reachable_3.
  - intros k t _ Ht. vm_compute in Ht. apply list_elem_of_singleton in Ht as ->. discriminate.
  - vm_compute. reflexivity.
  - vm_compute. split; discriminate.
  - vm_compute. split; [reflexivity|discriminate].
  - vm_compute. discriminate.
  - right. vm_compute. reflexivity.
Defined.

Lemma Deposit_credits_once_witness :
  db (snd (Deposit 1004 999999 "h1" "UQb" "replayed" demo_3)) = db demo_3.
Proof.
  eapply Deposit_credits_once; [apply surjective_pairing|].
  eexists. split; [left|reflexivity].
Defined.

Lemma Transfer_keeps_kinds_witness :
  map_sum w_TONBalance (wallets (db demo_5)) = 4300.
Proof.
  replace demo_5 with (snd (Transfer 1001 1004 1000 "gift" demo_4)) by (vm_compute; reflexivity).
  rewrite (proj1 (Transfer_keeps_kinds 1001 1004 1000 "gift" demo_4 _ _ (surjective_pairing _) ltac:(done))).
  vm_compute. reflexivity.
Defined.

(** Completing the same request twice drives the frozen column below zero. *)
Lemma CompleteWithdraw_any_status_witness :
  exists s' w, CompleteWithdraw 1041 "again" demo_7 = (Ok tt, s') /\
    wallets (db s') !! 1001%N = Some w /\ w_TONBalance w = -900 /\ w_Frozen w = -2100.
Proof.
  destruct (withdraw_requests (db demo_7) !! 1041%N) as [q|] eqn:Eq; [|vm_compute in Eq; done].
  destruct (wallets (db demo_7) !! 1001%N) as [w|] eqn:Ew; [|vm_compute in Ew; done].
  pose proof Eq as Eq'. pose proof Ew as Ew'.
  vm_compute in Eq', Ew'. injection Eq' as <-. injection Ew' as <-.
  edestruct (CompleteWithdraw_any_status 1041 "again" demo_7) as (s' & H & Hw & _).
  - apply calm_quiet.
  - exact Eq.
  - exact Ew.
  - vm_compute. split; discriminate.
  - vm_compute. split; discriminate.
  - vm_compute. split; discriminate.
  - exists s'. eexists. split; [exact H|]. rewrite Hw. vm_compute. repeat split.
Defined.

Definition demo_invoice (amount : Z) : Invoice :=
  {| inv_ID := 0; inv_WalletID := 1001; inv_Code := "inv_ab12"; inv_Amount := amount;
     inv_ReceivedNano := 0; inv_Status := InvoicePending; inv_ServiceID := ""; inv_Ref := "";
     inv_Metadata := ""; inv_ExpiresAt := 10; inv_PaidAt := None; inv_TxHash := "" |}.
Definition demo_inv_st : st Tables unit := Eval vm_compute in snd (CreateInvoice (demo_invoice 1000) demo_2).

Lemma AddInvoiceReceipt_outcomes_witness :
  exists i', invoices (db (snd (AddInvoiceReceipt 1006 1000 "h7" demo_inv_st))) !! 1006%N = Some i' /\
    inv_Status i' = InvoicePaid /\ inv_TxHash i' = "h7"%string.
Proof.
  destruct (AddInvoiceReceipt 1006 1000 "h7" demo_inv_st) as [[[v r]|e] s'] eqn:E; [|vm_compute in E; done].
  pose proof (AddInvoiceReceipt_outcomes 1006 1000 "h7" demo_inv_st v r s' E) as H.
  destruct r as [u|e]; [|vm_compute in E; done].
  destruct H as (i & i' & Hi & Hd & Hv & _ & _ & _ & Hst & Hh). exists i'.
  assert (v = true) as -> by (rewrite Hv; vm_compute in Hi; injection Hi as <-; vm_compute; reflexivity).
  simpl. rewrite Hd, lookup_insert_eq. done.
Defined.
End demo.
