(* ===== verification/Consensus.v ===== *)
(** botpay/internal/consensus: the four workers with their local databases
    (workers.go, local_db.go), the vote-collecting engine (worker.go) and the
    guard in front of the wallet service (guard.go). *)
From S2P Require Import Prelude GoInt GoFloat GoString Effects PayModels PayChain.

(** * Data *)

(** A zero time.Time is [None]; other instants are Unix nanoseconds. *)
Record Tx := {
  tx_ID : string;
  tx_FromWallet : string;
  tx_ToService : string;
  tx_AmountNano : Z;
  tx_Description : string;
  tx_Timestamp : option Z;
  tx_Metadata : list (string * string);
}.

Record VoteResult := {
  v_WorkerID : string;
  v_Algorithm : string;
  v_Approved : bool;
  v_Signature : string;
  v_Reason : string;
  v_Timestamp : Z;
}.

Record ConsensusResult := {
  cr_TxID : string;
  cr_Approved : bool;
  cr_Votes : list VoteResult;
  cr_YesCount : Z;
  cr_NoCount : Z;
  cr_Threshold : Z;
  cr_Duration : Z;
}.

Record Config := { cfg_Threshold : Z; cfg_Timeout : Z }.

Record WorkerStats := {
  TotalVerified : Z;
  TotalApproved : Z;
  TotalRejected : Z;
  LastVerifiedAt : option Z;
}.

(** UnixNano of the zero time is outside int64; Go documents the result as
    undefined, and the engine never signs it. *)
Definition UnixNano (t : option Z) : Z := default 0 t.

Definition TxPayload (tx : Tx) : string :=
  tx_ID tx +:+ "|" +:+ tx_FromWallet tx +:+ "|" +:+ tx_ToService tx +:+ "|" +:+
  FormatInt 10 (tx_AmountNano tx) +:+ "|" +:+ FormatInt 10 (UnixNano (tx_Timestamp tx)).

(** * The local database of a worker *)

(** Times are stored as RFC 3339 text with nanoseconds, which loses nothing. *)
Record TxRow := {
  r_id : string;
  r_tx_id : string;
  r_worker_id : string;
  r_algorithm : string;
  r_approved : Z;
  r_signature : string;
  r_payload : string;
  r_reason : string;
  r_created_at : Z;
}.

Record KeyRow := { k_id : string; k_worker_id : string; k_algorithm : string; k_public_key : string;
                   k_created_at : Z }.

Record LocalTables := { tx_records : list TxRow; worker_keys : list KeyRow }.

Definition boolToInt (b : bool) : Z := if b then 1 else 0.

Definition strings_before_dash (s : string) : string :=
  if strlen s >? 16 then substring 0 16 s else s.

(** INSERT OR IGNORE INTO tx_records: a duplicate primary key inserts nothing. *)
Definition insert_or_ignore (r : TxRow) (d : LocalTables) : LocalTables :=
  if existsb (fun x => (r_id x =? r_id r)%string) (tx_records d) then d
  else {| tx_records := tx_records d ++ [r]; worker_keys := worker_keys d |}.

Definition tx_row (id txID : string) (vote : VoteResult) (payload : string) : TxRow :=
  {| r_id := id; r_tx_id := txID; r_worker_id := v_WorkerID vote; r_algorithm := v_Algorithm vote;
     r_approved := boolToInt (v_Approved vote); r_signature := v_Signature vote;
     r_payload := payload; r_reason := v_Reason vote; r_created_at := v_Timestamp vote |}.

(** INSERT OR REPLACE: rows with the same id or the same worker_id go away. *)
Definition put_key (workerID algo pubKey : string) (t : Z) (d : LocalTables) : LocalTables :=
  {| tx_records := tx_records d;
     worker_keys := List.filter (fun k => negb ((k_id k =? workerID +:+ "-key")%string
                                               || (k_worker_id k =? workerID)%string)) (worker_keys d)
       ++ [{| k_id := workerID +:+ "-key"; k_worker_id := workerID; k_algorithm := algo;
              k_public_key := pubKey; k_created_at := t |}] |}.

(** The record FindByTxID returns. *)
Record TxRecord := {
  tr_TxID : string; tr_WorkerID : string; tr_Algorithm : string; tr_Approved : bool;
  tr_Signature : string; tr_Reason : string; tr_CreatedAt : Z;
}.

Section local_db.
Context {X : Type} {ENV : Env}.

Definition SaveTxRecord (txID : string) (vote : VoteResult) (payload : string) : M LocalTables X unit :=
  exec (fun d => Ok (insert_or_ignore (tx_row (v_WorkerID vote +:+ "-" +:+ txID) txID vote payload) d)).

(** Slicing a worker id shorter than four bytes panics. *)
Definition SaveRecord (vote : VoteResult) (payload : string) : M LocalTables X unit :=
  if strlen (v_WorkerID vote) <? 4 then throw (Sentinel "runtime" "slice bounds out of range")
  else
  (t <- now ;;
   let id := v_WorkerID vote +:+ "-" +:+ substring 0 4 (v_WorkerID vote) +:+ FormatInt 10 t in
   exec (fun d => Ok (insert_or_ignore (tx_row id (strings_before_dash (v_Signature vote)) vote payload) d)))%eff.

Definition FindByTxID (txID : string) : M LocalTables X (list TxRecord) :=
  find (fun d => map (fun r => {| tr_TxID := r_tx_id r; tr_WorkerID := r_worker_id r;
                                  tr_Algorithm := r_algorithm r; tr_Approved := r_approved r =? 1;
                                  tr_Signature := r_signature r; tr_Reason := r_reason r;
                                  tr_CreatedAt := r_created_at r |})
                     (List.filter (fun r => (r_tx_id r =? txID)%string) (tx_records d))).

Definition seen_rows (txID workerID : string) (d : LocalTables) : list TxRow :=
  List.filter (fun r => (r_tx_id r =? txID)%string && (r_worker_id r =? workerID)%string) (tx_records d).

Definition HasSeen (workerID txID : string) : M LocalTables X bool :=
  if (txID =? "")%string then ret false
  else (count <- find (fun d => Z.of_nat (length (seen_rows txID workerID d))) ;; ret (count >? 0))%eff.

Definition SavePublicKey (workerID algo pubKey : string) : M LocalTables X unit :=
  (t <- now ;; exec (fun d => Ok (put_key workerID algo pubKey t d)))%eff.

(** SUM over no rows is NULL, which Scan into an int64 reports as an error. *)
Definition LocalStats (workerID : string) : M LocalTables X (Z * Z * Z) :=
  (rs <- find (fun d => List.filter (fun r => (r_worker_id r =? workerID)%string) (tx_records d)) ;;
   match rs with
   | [] => throw (Errorf "converting NULL to int64 is unsupported" [])
   | _ => ret (Z.of_nat (length rs),
               sumZ (fun r => if r_approved r =? 1 then 1 else 0) rs,
               sumZ (fun r => if r_approved r =? 0 then 1 else 0) rs)
   end)%eff.
End local_db.

(** * The workers *)

(** crypto/hmac, crypto/sha512, crypto/ed25519, crypto/aes, crypto/cipher and
    encoding/base64 on byte strings; [duration_String] is time.Duration.String. *)
Class Crypto := {
  hmac_sha256 : string -> string -> string;
  sha512 : string -> string;
  ed25519_Sign : string -> string -> string;
  ed25519_Verify : string -> string -> string -> bool;
  aes_NewCipher : string -> bool;
  cipher_NewGCM : string -> bool;
  gcm_Seal : string -> string -> string -> string;
  gcm_Open : string -> string -> string -> option string;
  base64_EncodeToString : string -> string;
  base64_DecodeString : string -> string;
  duration_String : Z -> string;
}.

(** Documented behaviour: a 32-byte AES key is accepted, opening what was
    sealed gives the plaintext back, and base64 decodes what it encoded. *)
Class CryptoLaws `{Crypto} := {
  aes_key_32 : forall k, String.length k = 32%nat -> aes_NewCipher k = true /\ cipher_NewGCM k = true;
  gcm_round : forall k n p, gcm_Open k n (gcm_Seal k n p) = Some p;
  base64_round : forall s, base64_DecodeString (base64_EncodeToString s) = s;
}.

(** The first [n] bytes of what the random source delivers. *)
Fixpoint fit (n : nat) (s : string) : string :=
  match n, s with
  | O, _ => EmptyString
  | S n, EmptyString => String "000"%char (fit n EmptyString)
  | S n, String c s => String c (fit n s)
  end.

Definition rand_Read {D X} `{Env} (n : nat) : M D X string := fun s =>
  match env_fault (tick s) with
  | Some c => (Err (ErrDriver c), bump s)
  | None => (Ok (fit n (env_random (tick s))), bump s)
  end.

Inductive WorkerKind := HMACWorker | Ed25519Worker | AESWorker | MerkleWorker.

Definition ID (k : WorkerKind) : string :=
  match k with
  | HMACWorker => "worker-hmac"
  | Ed25519Worker => "worker-ed25519"
  | AESWorker => "worker-aes256"
  | MerkleWorker => "worker-merkle"
  end.

Definition Algorithm (k : WorkerKind) : string :=
  match k with
  | HMACWorker => "HMAC-SHA256"
  | Ed25519Worker => "Ed25519"
  | AESWorker => "AES-256-GCM"
  | MerkleWorker => "SHA512-Merkle"
  end.

(** What a worker keeps in memory: its key, and the Merkle worker's last hash. *)
Record WorkerMem := { w_key : string; w_lastHash : string }.

Definition maxSafeAmount : Z := 1000000 * 1000000000.
Definition gcm_NonceSize : nat := 12.

Section worker.
Context {ENV : Env} {LIB : Lib} {CRYPTO : Crypto}.
Abbreviation WM := (M LocalTables WorkerMem).

(** A query whose error is dropped. *)
Definition seen_before (k : WorkerKind) (tx : Tx) : WM bool :=
  (r <- try (HasSeen (ID k) (tx_ID tx)) ;; ret (match r with Ok b => b | Err _ => false end))%eff.

Definition reject (k : WorkerKind) (txID reason payload : string) : WM VoteResult :=
  (t <- now ;;
   let vote := {| v_WorkerID := ID k; v_Algorithm := Algorithm k; v_Approved := false;
                  v_Signature := "rejected"; v_Reason := reason; v_Timestamp := t |} in
   try (SaveTxRecord txID vote payload) ;;
   ret vote)%eff.

Definition approve (k : WorkerKind) (txID sig payload : string) : WM VoteResult :=
  (t <- now ;;
   let vote := {| v_WorkerID := ID k; v_Algorithm := Algorithm k; v_Approved := true;
                  v_Signature := sig; v_Reason := ""; v_Timestamp := t |} in
   try (SaveTxRecord txID vote payload) ;;
   ret vote)%eff.

Definition five_minutes : Z := 300000000000.
Definition thirty_seconds : Z := 30000000000.

(** time.Since: the difference of two instants. *)
Definition HMACWorker_Verify (tx : Tx) : WM VoteResult :=
  (let payload := TxPayload tx in
   let reject := reject HMACWorker in
   seen <- seen_before HMACWorker tx ;;
   if seen then reject (tx_ID tx) "replay attack detected" payload
   else if tx_AmountNano tx <=? 0 then reject (tx_ID tx) "invalid amount" payload
   else if tx_AmountNano tx >? 100000 * 1000000000 then
     reject (tx_ID tx) "amount exceeds maximum limit" payload
   else
   (t <- now ;;
    let age := t - UnixNano (tx_Timestamp tx) in
    if (age >? five_minutes) || (age <? - thirty_seconds) then
      reject (tx_ID tx) ("timestamp out of range: " +:+ duration_String age) payload
    else
    (mem <- get_ext ;;
     approve HMACWorker (tx_ID tx) (HexEncode (hmac_sha256 (w_key mem) payload)) payload)))%eff.

(** An ed25519 private key is the 32-byte seed followed by the public key. *)
Definition ed25519_Public (priv : string) : string := substring 32 32 priv.

Definition Ed25519Worker_Verify (tx : Tx) : WM VoteResult :=
  (let payload := TxPayload tx in
   let reject := reject Ed25519Worker in
   seen <- seen_before Ed25519Worker tx ;;
   if seen then reject (tx_ID tx) "replay attack" payload
   else if strlen (tx_FromWallet tx) <? 10 then reject (tx_ID tx) "invalid wallet address" payload
   else if tx_AmountNano tx <=? 0 then reject (tx_ID tx) "non-positive amount" payload
   else
   (mem <- get_ext ;;
    let hash := sha256 payload in
    let sig := ed25519_Sign (w_key mem) hash in
    if negb (ed25519_Verify (ed25519_Public (w_key mem)) hash sig) then
      reject (tx_ID tx) "self-verification failed" payload
    else approve Ed25519Worker (tx_ID tx) (HexEncode sig) payload))%eff.

Definition string_drop (n : nat) (s : string) : string := substring n (String.length s - n) s.

Definition AESWorker_Verify (tx : Tx) : WM VoteResult :=
  (let payload := TxPayload tx in
   let reject := reject AESWorker in
   seen <- seen_before AESWorker tx ;;
   if seen then reject (tx_ID tx) "replay attack" payload
   else if (tx_ToService tx =? "")%string then reject (tx_ID tx) "missing service target" payload
   else
   (mem <- get_ext ;;
    if negb (aes_NewCipher (w_key mem)) then reject (tx_ID tx) "cipher init failed" payload
    else if negb (cipher_NewGCM (w_key mem)) then reject (tx_ID tx) "gcm init failed" payload
    else
    (n <- try (rand_Read gcm_NonceSize) ;;
     match n with
     | Err _ => reject (tx_ID tx) "nonce generation failed" payload
     | Ok nonce =>
         let encrypted := nonce +:+ gcm_Seal (w_key mem) nonce payload in
         let token := base64_EncodeToString encrypted in
         let decoded := base64_DecodeString token in
         if strlen decoded <? Z.of_nat gcm_NonceSize then
           reject (tx_ID tx) "integrity check failed" payload
         else
         match gcm_Open (w_key mem) (substring 0 gcm_NonceSize decoded) (string_drop gcm_NonceSize decoded) with
         | Some decrypted =>
             if negb (decrypted =? payload)%string then
               reject (tx_ID tx) "integrity check failed" payload
             else approve AESWorker (tx_ID tx) (HexEncode (substring 0 16 (sha256 encrypted))) payload
         | None => reject (tx_ID tx) "integrity check failed" payload
         end
     end)))%eff.

Definition MerkleWorker_Verify (tx : Tx) : WM VoteResult :=
  (let payload := TxPayload tx in
   let reject := reject MerkleWorker in
   seen <- seen_before MerkleWorker tx ;;
   if seen then reject (tx_ID tx) "replay attack" payload
   else if (tx_AmountNano tx <=? 0) || (tx_AmountNano tx >? maxSafeAmount) then
     reject (tx_ID tx) "amount out of safe range" payload
   else
   (mem <- get_ext ;;
    let hash512 := sha512 payload in
    let chainHash := sha512 (w_lastHash mem +:+ hash512) in
    let merkleLeaf := sha256 (tx_ID tx +:+ chainHash) in
    put_ext {| w_key := w_key mem; w_lastHash := chainHash |} ;;
    approve MerkleWorker (tx_ID tx) (HexEncode merkleLeaf) payload))%eff.

Definition Worker_Verify (k : WorkerKind) : Tx -> WM VoteResult :=
  match k with
  | HMACWorker => HMACWorker_Verify
  | Ed25519Worker => Ed25519Worker_Verify
  | AESWorker => AESWorker_Verify
  | MerkleWorker => MerkleWorker_Verify
  end.
End worker.

(** * Keys and construction *)

(** The worker directory: its files, and its SQLite databases by path. *)
Record Disk := { files : gmap string string; dbs : gmap string LocalTables }.

Definition path_Join (dir name : string) : string := dir +:+ "/" +:+ name.

Section setup.
Context {X : Type} {ENV : Env}.

(** Only a stat that reports "does not exist" makes a new key. *)
Definition loadOrGenKey (path : string) (size : nat) : M Disk X string :=
  (stat <- try (find (fun fs => bool_decide (is_Some (files fs !! path)))) ;;
   match stat with
   | Ok false =>
       key <- wrap_err "generate key: %w" (rand_Read size) ;;
       wrap_err "save key: %w"
         (exec (fun fs => Ok {| files := <[path := HexEncode key]> (files fs); dbs := dbs fs |})) ;;
       ret key
   | _ =>
       data <- wrap_err "read key: %w" (first (fun fs => files fs !! path)) ;;
       match HexDecode data with
       | None => throw (Wrapf "decode key: %w" [] (Errorf "encoding/hex: invalid string" []))
       | Some key =>
           if negb (String.length key =? size)%nat then
             throw (Errorf "key size mismatch: got %d want %d" [AInt (strlen key); AInt (Z.of_nat size)])
           else ret key
       end
   end)%eff.

(** OpenLocalDB: opening runs the migration, which creates missing tables. *)
Definition OpenLocalDB (path : string) : M Disk X unit :=
  exec (fun fs => Ok (match dbs fs !! path with
                      | Some _ => fs
                      | None => {| files := files fs;
                                   dbs := <[path := {| tx_records := []; worker_keys := [] |}]> (dbs fs) |}
                      end)).

Definition key_size (k : WorkerKind) : option nat :=
  match k with
  | HMACWorker => Some 32%nat
  | Ed25519Worker => Some 64%nat
  | AESWorker => Some 32%nat
  | MerkleWorker => None
  end.

(** The public text each constructor stores beside its algorithm. *)
Definition public_text (k : WorkerKind) (key : string) : string :=
  match k with
  | HMACWorker => HexEncode (substring 0 16 key) +:+ "..."
  | Ed25519Worker => HexEncode (ed25519_Public key)
  | AESWorker => "symmetric-key-hidden"
  | MerkleWorker => "chain-integrity"
  end.

(** NewHMACWorker, NewEd25519Worker, NewAESWorker and NewMerkleWorker: open the
    database, get the key, store the public text (an error there is dropped). *)
Definition NewWorker (k : WorkerKind) (dbDir : string) : M Disk X WorkerMem :=
  (let db_path := path_Join dbDir (ID k +:+ ".db") in
   OpenLocalDB db_path ;;
   key <- match key_size k with
          | Some n => loadOrGenKey (path_Join dbDir (ID k +:+ ".key")) n
          | None => ret ""%string
          end ;;
   t <- now ;;
   try (exec (fun fs => Ok {| files := files fs;
     dbs := alter (put_key (ID k) (Algorithm k) (public_text k key) t) db_path (dbs fs) |})) ;;
   ret {| w_key := key; w_lastHash := match k with MerkleWorker => fit 64 "" | _ => "" end |})%eff.
End setup.

(** * The engine *)

(** A worker runs on its own goroutine with its own database, clock and
    failures: its environment and state are its own. *)
Record Worker := { wk_kind : WorkerKind; wk_env : Env; wk_st : st LocalTables WorkerMem }.

Record Engine := {
  e_cfg : Config;
  e_workers : list Worker;
  e_stats : gmap string WorkerStats;
}.

Definition five_seconds : Z := 5000000000.

Definition NewEngine (cfg : Config) : Engine :=
  {| e_cfg := {| cfg_Threshold := if cfg_Threshold cfg =? 0 then 3 else cfg_Threshold cfg;
                 cfg_Timeout := if cfg_Timeout cfg =? 0 then five_seconds else cfg_Timeout cfg |};
     e_workers := [];
     e_stats := ∅ |}.

Definition zero_stats : WorkerStats :=
  {| TotalVerified := 0; TotalApproved := 0; TotalRejected := 0; LastVerifiedAt := None |}.

Definition AddWorker (w : Worker) (e : Engine) : Engine :=
  {| e_cfg := e_cfg e; e_workers := e_workers e ++ [w];
     e_stats := <[ID (wk_kind w) := zero_stats]> (e_stats e) |}.

Section setup_workers.
Context {ENV : Env} (envs : WorkerKind -> Env).

(** A worker starts from what its database file holds. *)
Definition start_worker (k : WorkerKind) (dbDir : string) (mem : WorkerMem) (fs : Disk) : Worker :=
  {| wk_kind := k; wk_env := envs k;
     wk_st := init_st (default {| tx_records := []; worker_keys := [] |}
                         (dbs fs !! path_Join dbDir (ID k +:+ ".db"))) mem |}.

Fixpoint setup_loop (ks : list WorkerKind) (dbDir : string) : M Disk Engine unit :=
  match ks with
  | [] => ret tt
  | k :: ks =>
      (r <- try (NewWorker k dbDir) ;;
       match r with
       | Err e => throw (Wrapf "init worker %s: %w" [AStr (Algorithm k)] e)
       | Ok mem => (fun s => mod_ext (AddWorker (start_worker k dbDir mem (db s))) s) ;;
                   setup_loop ks dbDir
       end)%eff
  end.

Definition SetupWorkers (dbDir : string) : M Disk Engine unit :=
  (wrap_err "create db dir: %w" (exec (fun fs => Ok fs)) ;;
   setup_loop [HMACWorker; Ed25519Worker; AESWorker; MerkleWorker] dbDir)%eff.
End setup_workers.

Section engine.
Context {ENV : Env} {LIB : Lib} {CRYPTO : Crypto}.
Abbreviation EM := (M unit Engine).

Definition genTxID : EM string :=
  (b <- rand_bytes ;; ret ("TX-" +:+ HexEncode (fit 8 b)))%eff.

(** One goroutine: the worker's vote, and the worker afterwards. *)
Definition run_worker (tx : Tx) (w : Worker) : VoteResult * Worker :=
  match @Worker_Verify (wk_env w) LIB CRYPTO (wk_kind w) tx (wk_st w) with
  | (Ok v, s) => (v, {| wk_kind := wk_kind w; wk_env := wk_env w; wk_st := s |})
  | (Err _, s) =>
      ({| v_WorkerID := ""; v_Algorithm := ""; v_Approved := false; v_Signature := "";
          v_Reason := ""; v_Timestamp := 0 |},
       {| wk_kind := wk_kind w; wk_env := wk_env w; wk_st := s |})
  end.

Definition count_vote (v : VoteResult) (t : Z) (s : WorkerStats) : WorkerStats :=
  {| TotalVerified := i64_add (TotalVerified s) 1;
     TotalApproved := if v_Approved v then i64_add (TotalApproved s) 1 else TotalApproved s;
     TotalRejected := if v_Approved v then TotalRejected s else i64_add (TotalRejected s) 1;
     LastVerifiedAt := Some t |}.

Definition with_stats (f : gmap string WorkerStats -> gmap string WorkerStats) (e : Engine) : Engine :=
  {| e_cfg := e_cfg e; e_workers := e_workers e; e_stats := f (e_stats e) |}.

Definition set_workers (ws : list Worker) (e : Engine) : Engine :=
  {| e_cfg := e_cfg e; e_workers := ws; e_stats := e_stats e |}.

(** The receive loop. The scheduler decides each iteration: the vote of worker
    [k] arrives, or the timeout fires first. *)
Fixpoint collect (votes : list VoteResult) (order : list (option nat))
    (allVotes : list VoteResult) (yes no : Z) : EM (list VoteResult * Z * Z) :=
  match order with
  | [] => ret (allVotes, yes, no)
  | o :: order =>
      match (o ≫= fun k => votes !! k) with
      | Some vote =>
          (e <- get_ext ;;
           match e_stats e !! v_WorkerID vote with
           | Some _ => t <- now ;; mod_ext (with_stats (alter (count_vote vote t) (v_WorkerID vote)))
           | None => ret tt
           end ;;
           if v_Approved vote then collect votes order (allVotes ++ [vote]) (yes + 1) no
           else collect votes order (allVotes ++ [vote]) yes (no + 1))%eff
      | None => collect votes order allVotes yes (no + 1)
      end
  end.

(** A schedule of one call: as many iterations as workers, each worker's vote
    received at most once. *)
Definition valid_order (n : nat) (order : list (option nat)) : Prop :=
  length order = n /\ NoDup (omap id order) /\ Forall (fun k => (k < n)%nat) (omap id order).

(** Every goroutine is started; those whose vote is not received still run. *)
Definition Engine_Verify (order : list (option nat)) (tx : Tx) : EM ConsensusResult :=
  (id <- (if (tx_ID tx =? "")%string then genTxID else ret (tx_ID tx)) ;;
   ts <- match tx_Timestamp tx with Some t => ret t | None => now end ;;
   let tx := {| tx_ID := id; tx_FromWallet := tx_FromWallet tx; tx_ToService := tx_ToService tx;
                tx_AmountNano := tx_AmountNano tx; tx_Description := tx_Description tx;
                tx_Timestamp := Some ts; tx_Metadata := tx_Metadata tx |} in
   start <- now ;;
   e <- get_ext ;;
   match e_workers e with
   | [] => ret {| cr_TxID := id; cr_Approved := false; cr_Votes := []; cr_YesCount := 0;
                  cr_NoCount := 0; cr_Threshold := 0; cr_Duration := 0 |}
   | ws =>
       let runs := map (run_worker tx) ws in
       mod_ext (set_workers (map snd runs)) ;;
       ' (allVotes, yes, no) <- collect (map fst runs) order [] 0 0 ;;
       let threshold := cfg_Threshold (e_cfg e) in
       t <- now ;;
       ret {| cr_TxID := id; cr_Approved := yes >=? threshold; cr_Votes := allVotes;
              cr_YesCount := yes; cr_NoCount := no; cr_Threshold := threshold;
              cr_Duration := t - start |}
   end)%eff.

Definition Engine_Stats (e : Engine) : gmap string WorkerStats := e_stats e.
Definition WorkerCount (e : Engine) : Z := Z.of_nat (length (e_workers e)).

(** * The guard *)

Definition safePrefix (s : string) (n : Z) : string :=
  if strlen s <=? n then s else substring 0 (Z.to_nat n) s.

Fixpoint joinStrs_loop (i : Z) (ss : list string) (sep result : string) : string :=
  match ss with
  | [] => result
  | s :: ss => joinStrs_loop (i + 1) ss sep ((if i >? 0 then result +:+ sep else result) +:+ s)
  end.
Definition joinStrs (ss : list string) (sep : string) : string := joinStrs_loop 0 ss sep "".

Definition collectReasons (result : ConsensusResult) : string :=
  let reasons := map (fun v => v_WorkerID v +:+ ": " +:+ v_Reason v)
    (List.filter (fun v => negb (v_Approved v) && negb (v_Reason v =? "")%string) (cr_Votes result)) in
  match reasons with [] => "unknown" | _ => joinStrs reasons "; " end.

Definition CheckDeduct (order : list (option nat)) (fromWallet : string) (telegramID amountNano : Z)
    (serviceID ref : string) : EM unit :=
  (t <- now ;;
   result <- Engine_Verify order
     {| tx_ID := ""; tx_FromWallet := "tg-" +:+ FormatInt 10 telegramID; tx_ToService := serviceID;
        tx_AmountNano := amountNano; tx_Description := ref; tx_Timestamp := Some t;
        tx_Metadata := [("wallet", fromWallet); ("service_id", serviceID); ("ref", ref)] |} ;;
   if negb (cr_Approved result) then
     throw (Errorf "transaction rejected by consensus (%d/%d votes): %s"
              [AInt (cr_YesCount result); AInt (cr_Threshold result); AStr (collectReasons result)])
   else ret tt)%eff.

Definition CheckDeposit (order : list (option nat)) (toWallet : string) (telegramID amountNano : Z)
    (txHash : string) : EM unit :=
  if (txHash =? "")%string then ret tt
  else
  (t <- now ;;
   result <- Engine_Verify order
     {| tx_ID := "deposit-" +:+ txHash; tx_FromWallet := txHash;
        tx_ToService := "wallet-tg-" +:+ FormatInt 10 telegramID;
        tx_AmountNano := amountNano; tx_Description := "blockchain_deposit"; tx_Timestamp := Some t;
        tx_Metadata := [("tx_hash", txHash); ("to_wallet", toWallet)] |} ;;
   if negb (cr_Approved result) then
     throw (Errorf "deposit rejected by consensus: %s" [AStr (collectReasons result)])
   else ret tt)%eff.

Definition CheckWithdraw (order : list (option nat)) (fromWallet : string) (telegramID amountNano : Z)
    (toAddress : string) : EM unit :=
  (t <- now ;;
   result <- Engine_Verify order
     {| tx_ID := ""; tx_FromWallet := "tg-" +:+ FormatInt 10 telegramID +:+ "-withdraw";
        tx_ToService := toAddress; tx_AmountNano := amountNano; tx_Description := "withdrawal";
        tx_Timestamp := Some t;
        tx_Metadata := [("to_address", toAddress); ("type", "withdrawal")] |} ;;
   if negb (cr_Approved result) then
     throw (Errorf "withdrawal rejected by consensus (%d/%d)"
              [AInt (cr_YesCount result); AInt (cr_Threshold result)])
   else if cr_NoCount result >? 0 then
     throw (Errorf "withdrawal requires unanimous consensus, %d votes against"
              [AInt (cr_NoCount result)])
   else ret tt)%eff.
End engine.
