(* ===== verification/Auth.v ===== *)
(** shared/pkg/auth: the tokens of golang-jwt and the encryption of stored bot
    tokens, for every service that uses them. *)
From S2P Require Import Prelude GoInt GoFloat GoString Effects Consensus.

(** golang-jwt: the HS256 token of the claims uid, role, exp and iat (seconds). *)
Class Jwt := { SignedString : string -> string -> string -> Z -> Z -> result string }.

(** golang-jwt: the claims uid and role of a token signed by HMAC under the
    secret and not expired at the time. *)
Class JwtParser := { ParseWithClaims : string -> string -> Z -> option (string * string) }.

(** Documented behaviour: a signed token parses under its secret, to its claims,
    until its expiry. *)
Class JwtLaws `{Jwt} `{JwtParser} := {
  jwt_round : forall secret uid role exp iat token now,
    SignedString secret uid role exp iat = Ok token -> now / 1000000000 < exp ->
    ParseWithClaims token secret now = Some (uid, role);
}.

Section auth.
Context {D X : Type} {ENV : Env}.

Definition signToken `{Jwt} (userID role secret : string) (ttl : Z) : M D X string :=
  (n1 <- now ;;
   n2 <- now ;;
   match SignedString secret userID role ((n1 + ttl) / 1000000000) (n2 / 1000000000) with
   | Ok t => ret t
   | Err e => throw e
   end)%eff.

Definition parseClaims `{JwtParser} (tokenStr secret : string) : M D X (string * string) :=
  (n <- now ;;
   match ParseWithClaims tokenStr secret n with
   | Some claims => ret claims
   | None => throw (Errorf "invalid token" [])
   end)%eff.

Context {CRYPTO : Crypto}.

(** The cipher of a key given in hexadecimal. *)
Definition gcm_key (keyHex : string) : M D X string :=
  match HexDecode keyHex with
  | None => throw (Sentinel "hex" "InvalidByteError")
  | Some key =>
      if negb (aes_NewCipher key) then throw (Sentinel "aes" "KeySizeError")
      else if negb (cipher_NewGCM key) then throw (Sentinel "cipher" "NewGCM")
      else ret key
  end.

Definition Encrypt (plaintext keyHex : string) : M D X string :=
  (key <- gcm_key keyHex ;;
   nonce <- rand_Read 12 ;; ret (HexEncode (nonce +:+ gcm_Seal key nonce plaintext)))%eff.

(** The text is decoded before the cipher is made: both only fail or not. *)
Definition Decrypt (cipherHex keyHex : string) : M D X string :=
  match HexDecode keyHex, HexDecode cipherHex with
  | Some _, Some data =>
      (key <- gcm_key keyHex ;;
       if strlen data <? 12 then throw (Errorf "ciphertext too short" [])
       else match gcm_Open key (substring 0 12 data) (substring 12 (String.length data - 12) data) with
            | Some plain => ret plain
            | None => throw (Errorf "cipher: message authentication failed" [])
            end)%eff
  | _, _ => throw (Sentinel "hex" "InvalidByteError")
  end.
End auth.
