(* ===== verification/ConsensusSpec.v ===== *)
(** What the consensus layer guarantees: the verdict of each worker, quorum,
    replay protection and keys that survive a restart. *)
From S2P Require Import Prelude GoInt GoFloat GoString Effects PayModels PayChain Consensus.

(** * The verdict of one worker *)

Section verdict.
Context {ENV : Env} {LIB : Lib} {CRYPTO : Crypto}.
Implicit Types s : st LocalTables WorkerMem.

Definition seen_in (k : WorkerKind) (txID : string) (d : LocalTables) : bool :=
  negb (txID =? "")%string && (Z.of_nat (length (seen_rows txID (ID k) d)) >? 0).

(** The clock reading of the HMAC worker comes right after its lookup. *)
Definition clock_after_lookup (t : Tx) s : Z :=
  env_now (if (tx_ID t =? "")%string then tick s else S (tick s)).

(** The rule of each worker as one condition. *)
Definition accepts (k : WorkerKind) (t : Tx) s : bool :=
  negb (seen_in k (tx_ID t) (db s)) &&
  match k with
  | HMACWorker =>
      let age := clock_after_lookup t s - UnixNano (tx_Timestamp t) in
      (0 <? tx_AmountNano t) && (tx_AmountNano t <=? 100000 * 1000000000)
      && (age <=? five_minutes) && (- thirty_seconds <=? age)
  | Ed25519Worker =>
      let h := sha256 (TxPayload t) in
      (10 <=? strlen (tx_FromWallet t)) && (0 <? tx_AmountNano t)
      && ed25519_Verify (ed25519_Public (w_key (ext s))) h (ed25519_Sign (w_key (ext s)) h)
  | AESWorker => negb (tx_ToService t =? "")%string
  | MerkleWorker => (0 <? tx_AmountNano t) && (tx_AmountNano t <=? maxSafeAmount)
  end.

(** A worker finished: its vote, its vote's record, nothing else changed. *)
Definition voted (k : WorkerKind) (t : Tx) s (b : bool) (r : result VoteResult * st LocalTables WorkerMem) : Prop :=
  exists v sig, r.1 = Ok v /\ v_Approved v = b /\ v_WorkerID v = ID k /\
    db r.2 = insert_or_ignore (tx_row (ID k +:+ "-" +:+ tx_ID t) (tx_ID t) sig (TxPayload t)) (db s) /\
    v_WorkerID sig = ID k /\ (tick s <= tick r.2)%nat /\ tx r.2 = NoTx /\ w_key (ext r.2) = w_key (ext s).

Lemma save_vote k t v s0 s :
  quiet_from (tick s) -> tx s = NoTx -> v_WorkerID v = ID k ->
  db s = db s0 -> (tick s0 <= tick s)%nat -> w_key (ext s) = w_key (ext s0) ->
  voted k t s0 (v_Approved v)
    (bind (try (SaveTxRecord (tx_ID t) v (TxPayload t))) (fun _ => ret v) s).
Proof.
  intros Hq Ht Hid Hdb Hle Hkey. unfold voted. exists v, v.
  erewrite bind_intro; [|eapply try_intro, exec_quiet; [auto with botpay|by rewrite Ht|reflexivity]|reflexivity].
  simpl. rewrite Hid, Hdb. repeat split; auto; lia.
Qed.

Lemma reject_voted k t reason s0 s :
  quiet_from (tick s) -> tx s = NoTx -> db s = db s0 -> (tick s0 <= tick s)%nat ->
  w_key (ext s) = w_key (ext s0) ->
  voted k t s0 false (reject k (tx_ID t) reason (TxPayload t) s).
Proof.
  intros Hq Ht Hdb Hle Hkey. unfold reject. erewrite bind_intro; [|reflexivity|reflexivity].
  apply (save_vote k t (Build_VoteResult (ID k) (Algorithm k) false "rejected" reason _)); simpl; auto with botpay.
Qed.

Lemma approve_voted k t sig s0 s :
  quiet_from (tick s) -> tx s = NoTx -> db s = db s0 -> (tick s0 <= tick s)%nat ->
  w_key (ext s) = w_key (ext s0) ->
  voted k t s0 true (approve k (tx_ID t) sig (TxPayload t) s).
Proof.
  intros Hq Ht Hdb Hle Hkey. unfold approve. erewrite bind_intro; [|reflexivity|reflexivity].
  apply (save_vote k t (Build_VoteResult (ID k) (Algorithm k) true sig "" _)); simpl; auto with botpay.
Qed.

Lemma seen_before_quiet k t s :
  quiet_from (tick s) -> tx s = NoTx ->
  exists s1, seen_before k t s = (Ok (seen_in k (tx_ID t) (db s)), s1) /\
    db s1 = db s /\ ext s1 = ext s /\ tx s1 = NoTx /\
    tick s1 = (if (tx_ID t =? "")%string then tick s else S (tick s)) /\
    quiet_from (tick s1) /\ (tick s <= tick s1)%nat.
Proof.
  intros Hq Ht. unfold seen_before, HasSeen, seen_in. destruct (tx_ID t =? "")%string; [by exists s|].
  exists (bump s). split; [|simpl; auto 10 with botpay].
  eapply bind_intro; [eapply try_intro; eapply bind_intro; [apply find_quiet; [auto with botpay|by rewrite Ht]|reflexivity]|done].
Qed.

Lemma substring_all b : substring 0 (String.length b) b = b.
Proof. induction b as [|c b IH]; [done|]. simpl. by rewrite IH. Qed.

Lemma string_take_app a b : substring 0 (String.length a) (a +:+ b) = a.
Proof.
  induction a as [|c a IH]; [by destruct b|].
  change (String c (substring 0 (String.length a) (a +:+ b)) = String c a). by rewrite IH.
Qed.

Lemma string_drop_app a b : string_drop (String.length a) (a +:+ b) = b.
Proof.
  unfold string_drop. rewrite length_append.
  replace (String.length a + String.length b - String.length a)%nat with (String.length b) by lia.
  induction a as [|c a IH]; [apply substring_all|exact IH].
Qed.

Lemma length_fit n u : String.length (fit n u) = n.
Proof. revert u. induction n as [|n IH]; intros [|c u]; simpl; auto. Qed.

(** Starts a worker: after the lookup, a seen id is rejected. *)
Ltac start_verify :=
  match goal with |- context [seen_before ?k ?t] =>
    destruct (seen_before_quiet k t _ ltac:(eassumption) ltac:(eassumption))
      as (s1 & E1 & Edb & Eext & Etx & Etick & Hq1 & Hle) end;
  erewrite bind_intro; [|eassumption|reflexivity].

Ltac decide_verdict :=
  first [eapply reject_voted | eapply approve_voted]; simpl;
  first [assumption | congruence | lia | auto with botpay].

Lemma HMAC_verdict t s :
  quiet_from (tick s) -> tx s = NoTx ->
  voted HMACWorker t s (accepts HMACWorker t s) (HMACWorker_Verify t s).
Proof.
  intros Hq Ht. unfold HMACWorker_Verify, accepts. start_verify.
  destruct (seen_in _ _ _); [decide_verdict|].
  rewrite (Z.leb_antisym 0), Z.gtb_ltb, (Z.leb_antisym _ (tx_AmountNano t)).
  destruct (0 <? tx_AmountNano t) eqn:E2; simpl; [|decide_verdict].
  destruct (100000 * 1000000000 <? tx_AmountNano t); simpl; [decide_verdict|].
  erewrite bind_intro; [|reflexivity|reflexivity].
  unfold clock_after_lookup. rewrite <- Etick.
  set (age := _ - _). rewrite Z.gtb_ltb, (Z.leb_antisym five_minutes age), (Z.leb_antisym age).
  destruct (five_minutes <? age); simpl; [decide_verdict|].
  destruct (age <? - thirty_seconds); simpl; [decide_verdict|].
  erewrite bind_intro; [|reflexivity|reflexivity]. decide_verdict.
Qed.

Lemma Ed25519_verdict t s :
  quiet_from (tick s) -> tx s = NoTx ->
  voted Ed25519Worker t s (accepts Ed25519Worker t s) (Ed25519Worker_Verify t s).
Proof.
  intros Hq Ht. unfold Ed25519Worker_Verify, accepts. start_verify.
  destruct (seen_in _ _ _); [decide_verdict|].
  rewrite (Z.leb_antisym 0), (Z.leb_antisym _ 10).
  destruct (strlen _ <? 10); simpl; [decide_verdict|].
  destruct (0 <? tx_AmountNano t); simpl; [|decide_verdict].
  erewrite bind_intro; [|reflexivity|reflexivity]. rewrite Eext.
  destruct (ed25519_Verify _ _ _); simpl; decide_verdict.
Qed.

Lemma Merkle_verdict t s :
  quiet_from (tick s) -> tx s = NoTx ->
  voted MerkleWorker t s (accepts MerkleWorker t s) (MerkleWorker_Verify t s).
Proof.
  intros Hq Ht. unfold MerkleWorker_Verify, accepts. start_verify.
  destruct (seen_in _ _ _); [decide_verdict|].
  rewrite (Z.leb_antisym 0), Z.gtb_ltb, (Z.leb_antisym _ (tx_AmountNano t)).
  destruct (0 <? tx_AmountNano t); simpl; [|decide_verdict].
  destruct (maxSafeAmount <? tx_AmountNano t); simpl; [decide_verdict|].
  do 2 (erewrite bind_intro; [|reflexivity|reflexivity]). decide_verdict.
Qed.

Lemma AES_verdict {LAWS : CryptoLaws} t s :
  quiet_from (tick s) -> tx s = NoTx -> String.length (w_key (ext s)) = 32%nat ->
  voted AESWorker t s (accepts AESWorker t s) (AESWorker_Verify t s).
Proof.
  intros Hq Ht Hkey. unfold AESWorker_Verify, accepts. start_verify.
  destruct (seen_in _ _ _); [decide_verdict|].
  destruct (tx_ToService t =? "")%string; simpl; [decide_verdict|].
  erewrite bind_intro; [|reflexivity|reflexivity]. rewrite Eext.
  destruct (aes_key_32 _ Hkey) as [-> ->]. simpl.
  erewrite bind_intro; [|apply try_intro; unfold rand_Read; rewrite (quiet_now _ Hq1); reflexivity|reflexivity].
  cbv beta iota zeta. set (nonce := fit _ _).
  assert (Hn : String.length nonce = gcm_NonceSize) by apply length_fit.
  rewrite base64_round, <- Hn, string_take_app, string_drop_app, gcm_round, String.eqb_refl. cbn [negb].
  assert (Hlen : (strlen (nonce +:+ gcm_Seal (w_key (ext s)) nonce (TxPayload t)) <?
                  Z.of_nat (String.length nonce)) = false).
  { apply Z.ltb_ge. unfold strlen. rewrite length_append. lia. }
  rewrite Hlen. decide_verdict.
Qed.

(** What the verdict of worker [k] depends on besides quiet statements. *)
Definition key_ok (k : WorkerKind) (key : string) : Prop :=
  match k with AESWorker => String.length key = 32%nat | _ => True end.

Lemma Worker_verdict {LAWS : CryptoLaws} k t s :
  quiet_from (tick s) -> tx s = NoTx -> key_ok k (w_key (ext s)) ->
  voted k t s (accepts k t s) (Worker_Verify k t s).
Proof.
  destruct k; simpl; auto using HMAC_verdict, Ed25519_verdict, AES_verdict, Merkle_verdict.
Qed.
End verdict.

(** * Counting votes *)

Definition yes_votes (vs : list VoteResult) : Z := sumZ (fun v => if v_Approved v then 1 else 0) vs.

(** The votes a schedule lets through. *)
Definition arrived (votes : list VoteResult) (order : list (option nat)) : list VoteResult :=
  omap (fun o => o ≫= fun k => votes !! k) order.

Lemma length_arrived votes order : (length (arrived votes order) <= length order)%nat.
Proof.
  unfold arrived, omap. induction order as [|o order IH]; simpl; [lia|].
  destruct (o ≫= _); simpl; lia.
Qed.

Section engine.
Context {ENV : Env} {LIB : Lib} {CRYPTO : Crypto}.
Implicit Types s : st unit Engine.

Lemma same_counts {A S} (vs : A) (a b c d : Z) (s : S) :
  a = c -> b = d -> (Ok (vs, a, b), s) = (Ok (vs, c, d), s).
Proof. by intros -> ->. Qed.

(** The receive loop never fails, and keeps workers and configuration. *)
Lemma collect_spec votes order vs y n s :
  exists s', collect votes order vs y n s =
    (Ok (vs ++ arrived votes order, y + yes_votes (arrived votes order),
         n + (Z.of_nat (length order) - yes_votes (arrived votes order))), s') /\
    e_workers (ext s') = e_workers (ext s) /\ e_cfg (ext s') = e_cfg (ext s).
Proof.
  unfold arrived, yes_votes. revert vs y n s.
  induction order as [|o order IH]; intros vs y n s; cbn [collect omap list_omap length sumZ].
  { exists s. split; [|done]. unfold ret. rewrite app_nil_r, Z.add_0_r, Z.sub_0_r, Z.add_0_r. done. }
  destruct (o ≫= fun k => votes !! k) as [v|] eqn:Eo; simpl.
  2: { destruct (IH vs y (n + 1) s) as (s' & -> & Hs'). exists s'. split; [|done]. apply same_counts; lia. }
  assert (Hst : exists s1, match e_stats (ext s) !! v_WorkerID v with
      | Some _ => bind now (fun t => mod_ext (with_stats (alter (count_vote v t) (v_WorkerID v))))
      | None => ret tt end s = (Ok tt, s1) /\ e_workers (ext s1) = e_workers (ext s)
      /\ e_cfg (ext s1) = e_cfg (ext s)).
  { destruct (_ !! _); eexists; split; [reflexivity|done|reflexivity|done]. }
  destruct Hst as (s1 & Hst & Ew & Ec).
  destruct (v_Approved v) eqn:Ev.
  - destruct (IH (vs ++ [v]) (y + 1) n s1) as (s' & E & Hw & Hc). exists s'.
    split; [|split; congruence].
    eapply bind_intro; [reflexivity|]. eapply bind_intro; [exact Hst|].
    rewrite E, <- app_assoc. simpl. apply same_counts; lia.
  - destruct (IH (vs ++ [v]) y (n + 1) s1) as (s' & E & Hw & Hc). exists s'.
    split; [|split; congruence].
    eapply bind_intro; [reflexivity|]. eapply bind_intro; [exact Hst|].
    rewrite E, <- app_assoc. simpl. apply same_counts; lia.
Qed.

(** The transaction the workers get: id and timestamp filled in. *)
Definition filled (t t' : Tx) : Prop :=
  tx_FromWallet t' = tx_FromWallet t /\ tx_ToService t' = tx_ToService t /\
  tx_AmountNano t' = tx_AmountNano t /\
  (tx_ID t <> ""%string -> tx_ID t' = tx_ID t) /\
  (forall ts, tx_Timestamp t = Some ts -> tx_Timestamp t' = Some ts).

(** One call of the engine, in terms of the workers' runs. *)
Lemma Engine_Verify_run order t s :
  exists t' res s', Engine_Verify order t s = (Ok res, s') /\ filled t t' /\ cr_TxID res = tx_ID t' /\
    e_cfg (ext s') = e_cfg (ext s) /\
    e_workers (ext s') = map (fun w => snd (run_worker t' w)) (e_workers (ext s)) /\
    let got := arrived (map (fun w => fst (run_worker t' w)) (e_workers (ext s))) order in
    match e_workers (ext s) with
    | [] => cr_Approved res = false
    | _ => cr_Votes res = got /\ cr_YesCount res = yes_votes got /\
           cr_NoCount res = Z.of_nat (length order) - yes_votes got /\
           cr_Threshold res = cfg_Threshold (e_cfg (ext s)) /\
           cr_Approved res = (yes_votes got >=? cfg_Threshold (e_cfg (ext s)))
    end.
Proof.
  unfold Engine_Verify.
  assert (Hid : exists id s1, (if (tx_ID t =? "")%string then genTxID else ret (tx_ID t)) s = (Ok id, s1) /\
    ext s1 = ext s /\ (tx_ID t <> ""%string -> id = tx_ID t)).
  { destruct (String.eqb_spec (tx_ID t) ""); eexists _, _; (split; [reflexivity|done]). }
  destruct Hid as (id & s1 & E1 & Ex1 & Hid).
  assert (Hts : exists ts s2, match tx_Timestamp t with Some t => ret t | None => now end s1 = (Ok ts, s2) /\
    ext s2 = ext s /\ (forall ts', tx_Timestamp t = Some ts' -> ts = ts')).
  { destruct (tx_Timestamp t); eexists _, _; (split; [reflexivity|split; [done|by intros ? [= ->]]]) ||
      (split; [reflexivity|split; done]). }
  destruct Hts as (ts & s2 & E2 & Ex2 & Hts).
  set (t' := {| tx_ID := id; tx_FromWallet := tx_FromWallet t; tx_ToService := tx_ToService t;
                tx_AmountNano := tx_AmountNano t; tx_Description := tx_Description t;
                tx_Timestamp := Some ts; tx_Metadata := tx_Metadata t |}).
  exists t'. erewrite bind_intro; [|exact E1|reflexivity]. erewrite bind_intro; [|exact E2|reflexivity].
  cbv zeta. fold t'. erewrite bind_intro; [|reflexivity|reflexivity].
  erewrite bind_intro; [|reflexivity|reflexivity]. cbn [ext bump]. rewrite Ex2.
  assert (Hf : filled t t').
  { do 3 (split; [done|]). split; [exact Hid|]. intros ts' H. simpl. f_equal. by apply Hts. }
  destruct (e_workers (ext s)) as [|w ws] eqn:Ew.
  { eexists _, _. split; [reflexivity|]. simpl. rewrite Ex2, Ew. done. }
  erewrite bind_intro; [|reflexivity|reflexivity].
  match goal with |- context [collect ?v ?o ?a ?y ?n] =>
    match goal with |- context [bind (collect v o a y n) _ ?s3] =>
      destruct (collect_spec v o a y n s3) as (s4 & E4 & Ew4 & Ec4) end end.
  erewrite bind_intro; [|exact E4|reflexivity]. cbv beta iota zeta.
  erewrite bind_intro; [|reflexivity|reflexivity].
  eexists _, _. split; [reflexivity|]. simpl. rewrite Ew4, Ec4. simpl. rewrite Ex2, !map_map. done.
Qed.

(** ** Quorum *)

(** Worker [k] of [ws] votes yes on [t]. *)
Definition votes_yes (ws : list Worker) (t : Tx) (k : nat) : Prop :=
  exists w, ws !! k = Some w /\ v_Approved (fst (run_worker t w)) = true.

(** The yes votes received come from that many different workers. *)
Lemma yes_votes_workers ws t order :
  NoDup (omap id order) ->
  exists ks, NoDup ks /\ Forall (votes_yes ws t) ks /\ ks ⊆ omap id order /\
    yes_votes (arrived (map (fun w => fst (run_worker t w)) ws) order) = Z.of_nat (length ks).
Proof.
  induction order as [|[k|] order IH]; cbn [omap list_omap id]; intros Hnd.
  - by exists [].
  - inversion Hnd as [|? ? Hk Hnd' E]; subst. destruct (IH Hnd') as (ks & H1 & H2 & H3 & H4).
    unfold arrived, yes_votes in *. cbn [omap list_omap]. simpl.
    rewrite list_lookup_fmap. destruct (ws !! k) as [w|] eqn:Ew; simpl.
    + destruct (v_Approved (run_worker t w).1) eqn:Ev.
      * exists (k :: ks). split; [constructor; [by intros ?%H3|done]|].
        split; [constructor; [by exists w|done]|]. split; [set_solver|]. rewrite H4. simpl. lia.
      * exists ks. rewrite H4. repeat split; try done; set_solver.
    + exists ks. rewrite H4. repeat split; try done; set_solver.
  - destruct (IH Hnd) as (ks & ?). exists ks. done.
Qed.

Lemma yes_votes_bound vs : 0 <= yes_votes vs <= Z.of_nat (length vs).
Proof. unfold yes_votes. induction vs as [|v vs IH]; simpl; [lia|]. destruct (v_Approved v); lia. Qed.


(** ** Replay protection *)

(** Each row of a worker's database is a record that worker made. *)
Definition rows_ok (k : WorkerKind) (d : LocalTables) : Prop :=
  Forall (fun r => r_worker_id r = ID k /\ r_id r = (ID k +:+ "-" +:+ r_tx_id r)%string) (tx_records d).

(** A worker whose statements do not fail from now on. *)
Record worker_ready (w : Worker) : Prop := {
  wr_quiet : @quiet_from (wk_env w) (tick (wk_st w));
  wr_notx : tx (wk_st w) = NoTx;
  wr_key : key_ok (wk_kind w) (w_key (ext (wk_st w)));
  wr_rows : rows_ok (wk_kind w) (db (wk_st w));
}.

Definition worker_seen (txID : string) (w : Worker) : bool :=
  seen_in (wk_kind w) txID (db (wk_st w)).

Lemma seen_in_spec k txID d :
  seen_in k txID d = true <->
  txID <> ""%string /\ exists r, r ∈ tx_records d /\ r_tx_id r = txID /\ r_worker_id r = ID k.
Proof.
  unfold seen_in, seen_rows. rewrite andb_true_iff, negb_true_iff, String.eqb_neq, Z.gtb_lt.
  split; intros [Hne H]; (split; [done|]).
  - destruct (List.filter _ _) as [|r l] eqn:E; [simpl in H; lia|].
    assert (Hr : In r (List.filter (fun r => (r_tx_id r =? txID)%string && (r_worker_id r =? ID k)%string)
                         (tx_records d))) by (rewrite E; by left).
    apply filter_In in Hr as [Hr Hb]. destruct_hyps. zbool. exists r. by rewrite list_elem_of_In.
  - destruct H as (r & Hr & <- & Hw).
    assert (Hin : In r (List.filter (fun r' => (r_tx_id r' =? r_tx_id r)%string && (r_worker_id r' =? ID k)%string)
                         (tx_records d))).
    { apply filter_In. rewrite Hw, !String.eqb_refl. by rewrite <- list_elem_of_In. }
    destruct (List.filter _ _); [done|]. simpl. lia.
Qed.

(** Recording a vote: earlier ids stay seen, and the id itself becomes seen. *)
Lemma insert_or_ignore_seen k txID v p d :
  rows_ok k d -> v_WorkerID v = ID k -> txID <> ""%string ->
  let d' := insert_or_ignore (tx_row (ID k +:+ "-" +:+ txID) txID v p) d in
  rows_ok k d' /\ seen_in k txID d' = true /\ (forall i, seen_in k i d = true -> seen_in k i d' = true).
Proof.
  intros Hok Hv Hne. unfold insert_or_ignore. simpl. destruct (existsb _ _) eqn:E.
  - split; [done|]. split; [|done]. apply existsb_exists in E as (r & Hr & Heq).
    apply String.eqb_eq in Heq. rewrite <- list_elem_of_In in Hr.
    unfold rows_ok in Hok. rewrite Forall_forall in Hok. destruct (Hok r Hr) as [Hw Hi].
    apply seen_in_spec. split; [done|]. exists r. repeat split; try done.
    rewrite Hi in Heq. by apply append_inj_l in Heq; apply append_inj_l in Heq.
  - unfold rows_ok. simpl. rewrite Forall_app. repeat split; try done.
    + by repeat constructor.
    + apply seen_in_spec. split; [done|]. eexists. simpl.
      split; [apply elem_of_app; right; by apply list_elem_of_singleton|done].
    + intros i Hi. apply seen_in_spec in Hi as (Hi & r & Hr & ?). apply seen_in_spec.
      split; [done|]. exists r. simpl. set_solver.
Qed.

(** A ready worker follows its rule, stays ready, forgets no id and remembers
    this one. *)
Lemma run_worker_ready {LAWS : CryptoLaws} t w :
  worker_ready w ->
  v_Approved (fst (run_worker t w)) = @accepts (wk_env w) LIB CRYPTO (wk_kind w) t (wk_st w) /\
  wk_kind (snd (run_worker t w)) = wk_kind w /\
  (tx_ID t <> ""%string -> worker_ready (snd (run_worker t w)) /\
     worker_seen (tx_ID t) (snd (run_worker t w)) = true) /\
  (forall i, tx_ID t <> ""%string -> worker_seen i w = true -> worker_seen i (snd (run_worker t w)) = true).
Proof.
  intros [Hq Ht Hk Hr].
  destruct (@Worker_verdict (wk_env w) LIB CRYPTO _ (wk_kind w) t (wk_st w) Hq Ht Hk)
    as (v & sig & Er & Ev & _ & Edb & Esig & Hle & Ht' & Hkey').
  unfold run_worker, worker_seen. destruct (Worker_Verify _ _ _) as [r s']. simpl in *. subst r. simpl.
  split; [done|]. split; [done|].
  split.
  - intros Hne. pose proof (insert_or_ignore_seen (wk_kind w) (tx_ID t) sig (TxPayload t) (db (wk_st w)) Hr Esig Hne)
      as (H1 & H2 & _). rewrite <- Edb in *. split; [|done]. split; simpl; try done.
    + intros k Hk'. apply Hq. lia.
    + by rewrite Hkey'.
  - intros i Hne. pose proof (insert_or_ignore_seen (wk_kind w) (tx_ID t) sig (TxPayload t) (db (wk_st w)) Hr Esig Hne)
      as (_ & _ & H3). rewrite <- Edb in H3. auto.
Qed.

(** A worker that has seen the id says no. *)
Lemma seen_rejects {LAWS : CryptoLaws} t w :
  worker_ready w -> worker_seen (tx_ID t) w = true -> v_Approved (fst (run_worker t w)) = false.
Proof.
  intros Hw Hs. rewrite (proj1 (run_worker_ready t w Hw)). unfold accepts, worker_seen in *. by rewrite Hs.
Qed.

(** Later verifications, in order. *)
Fixpoint verify_calls (calls : list (list (option nat) * Tx)) : M unit Engine unit :=
  match calls with
  | [] => ret tt
  | (order, t) :: calls => (Engine_Verify order t ;; verify_calls calls)%eff
  end.

Definition all_ready s : Prop := Forall worker_ready (e_workers (ext s)).
Definition all_seen (i : string) s : Prop := Forall (fun w => worker_seen i w = true) (e_workers (ext s)).

Lemma filled_id_nonempty t t' : filled t t' -> tx_ID t <> ""%string -> tx_ID t' = tx_ID t.
Proof. intros (_ & _ & _ & H & _). exact H. Qed.

(** Every transaction the engine hands out has an id: "TX-..." when it had none. *)
Lemma Engine_Verify_seen {LAWS : CryptoLaws} order t s r s' :
  Engine_Verify order t s = (r, s') -> tx_ID t <> ""%string -> all_ready s ->
  all_ready s' /\ all_seen (tx_ID t) s' /\ (forall i, all_seen i s -> all_seen i s') /\
  e_cfg (ext s') = e_cfg (ext s) /\ length (e_workers (ext s')) = length (e_workers (ext s)).
Proof.
  intros E Hne Hr. destruct (Engine_Verify_run order t s) as (t' & res & s1 & E1 & Hf & _ & Ec & Ew & _).
  rewrite E in E1. injection E1 as -> <-. apply filled_id_nonempty in Hf; [|done].
  unfold all_ready, all_seen in *. rewrite Ew, !Forall_fmap. split; [|split; [|split; [|split]]].
  - eapply Forall_impl; [exact Hr|]. intros w Hw. simpl.
    apply (run_worker_ready t' w Hw). by rewrite Hf.
  - eapply Forall_impl; [exact Hr|]. intros w Hw. simpl. rewrite <- Hf.
    destruct (run_worker_ready t' w Hw) as (_ & _ & Hs & _). apply Hs. by rewrite Hf.
  - intros i Hi. apply Forall_fmap, Forall_forall. intros w Hw. simpl.
    rewrite Forall_forall in Hr, Hi.
    apply (run_worker_ready t' w (Hr w Hw)); [by rewrite Hf|by apply Hi].
  - done.
  - by rewrite length_map.
Qed.

(** Once every worker has seen an id, no schedule gets it approved. *)
Lemma seen_not_approved {LAWS : CryptoLaws} order t s :
  all_ready s -> all_seen (tx_ID t) s -> tx_ID t <> ""%string -> 1 <= cfg_Threshold (e_cfg (ext s)) ->
  exists res s', Engine_Verify order t s = (Ok res, s') /\ cr_Approved res = false.
Proof.
  intros Hr Hs Hne Hthr. destruct (Engine_Verify_run order t s) as (t' & res & s' & E & Hf & _ & _ & _ & H).
  exists res, s'. split; [done|]. apply filled_id_nonempty in Hf; [|done].
  assert (Hno : yes_votes (arrived (map (fun w => (run_worker t' w).1) (e_workers (ext s))) order) = 0).
  { apply sumZ_zero. intros v Hv. unfold arrived in Hv. apply list_elem_of_omap in Hv as (o & _ & Ho).
    destruct o as [k|]; [|done]. simpl in Ho.
    apply list_lookup_fmap_Some in Ho as (w & -> & Ek). apply list_elem_of_lookup_2 in Ek.
    unfold all_ready, all_seen in *. rewrite Forall_forall in Hr, Hs.
    rewrite seen_rejects; [done|by apply Hr|]. rewrite Hf. by apply Hs. }
  destruct (e_workers (ext s)) as [|w ws]; [done|].
  destruct H as (_ & _ & _ & _ & ->). rewrite Hno, Z.geb_leb. apply Z.leb_gt. lia.
Qed.


(** ** Full attendance *)

(** Every worker's vote arrives before the timeout. *)
Definition full_order (n : nat) (order : list (option nat)) : Prop :=
  valid_order n order /\ Forall is_Some order.

Lemma omap_lookup_cons {A} (x : A) l (ks : list nat) :
  omap (fun k => (x :: l) !! k) (S <$> ks) = omap (fun k => l !! k) ks.
Proof. induction ks as [|k ks IH]; [done|]. simpl. destruct (l !! k); simpl; [f_equal|]; exact IH. Qed.

Lemma omap_lookup_seq {A} (l : list A) : omap (fun k => l !! k) (seq 0 (length l)) = l.
Proof.
  induction l as [|x l IH]; [done|].
  change (x :: omap (fun k => (x :: l) !! k) (seq 1 (length l)) = x :: l). f_equal.
  by rewrite <- fmap_S_seq, omap_lookup_cons.
Qed.

Lemma full_order_perm n order : full_order n order -> omap id order ≡ₚ seq 0 n.
Proof.
  intros [(Hlen & Hnd & Hlt) Hall].
  assert (Hl : length (omap id order) = n).
  { rewrite <- Hlen. clear Hlen Hnd Hlt. induction Hall as [|o order [k ->] _ IH]; [done|].
    cbn [omap list_omap id length]. by rewrite IH. }
  apply submseteq_length_Permutation; [|by rewrite Hl, length_seq].
  apply NoDup_submseteq; [done|]. intros k Hk. rewrite Forall_forall in Hlt.
  apply elem_of_seq. specialize (Hlt k Hk). lia.
Qed.

Lemma arrived_full votes order :
  full_order (length votes) order -> yes_votes (arrived votes order) = yes_votes votes.
Proof.
  intros Hf. apply sumZ_perm. unfold arrived.
  assert (E : omap (fun o => o ≫= fun k => votes !! k) order = omap (fun k => votes !! k) (omap id order)).
  { clear Hf. induction order as [|[k|] order IH]; cbn [omap list_omap id]; simpl; [done| |done].
    by rewrite IH. }
  rewrite E, (full_order_perm _ _ Hf), omap_lookup_seq. done.
Qed.

Lemma accepts_filled w t t' ts :
  filled t t' -> tx_ID t <> ""%string -> tx_Timestamp t = Some ts ->
  @accepts (wk_env w) LIB CRYPTO (wk_kind w) t' (wk_st w) = @accepts (wk_env w) LIB CRYPTO (wk_kind w) t (wk_st w).
Proof.
  intros (Ef & Et & Ea & Ei & Es) Hne Hts. apply Ei in Hne. apply Es in Hts as Hts'. clear Ei Es.
  unfold accepts, clock_after_lookup, TxPayload. by rewrite Hne, Hts, Hts', Ef, Et, Ea.
Qed.

Definition accepting (t : Tx) (w : Worker) : bool := @accepts (wk_env w) LIB CRYPTO (wk_kind w) t (wk_st w).

(** The number of workers whose rule accepts decides. *)
Lemma Engine_Verify_full {LAWS : CryptoLaws} order t ts s :
  all_ready s -> full_order (length (e_workers (ext s))) order -> e_workers (ext s) <> [] ->
  tx_ID t <> ""%string -> tx_Timestamp t = Some ts ->
  exists res s', Engine_Verify order t s = (Ok res, s') /\
    cr_Approved res = (sumZ (fun w => if accepting t w then 1 else 0) (e_workers (ext s))
                         >=? cfg_Threshold (e_cfg (ext s))).
Proof.
  intros Hr Hf Hne Hid Hts.
  destruct (Engine_Verify_run order t s) as (t' & res & s' & E & Hfill & _ & _ & _ & H).
  exists res, s'. split; [done|].
  assert (Hy : yes_votes (arrived (map (fun w => (run_worker t' w).1) (e_workers (ext s))) order)
               = sumZ (fun w => if accepting t w then 1 else 0) (e_workers (ext s))).
  { rewrite arrived_full by (by rewrite length_map). unfold yes_votes. clear H E Hf Hne.
    unfold all_ready in Hr. induction Hr as [|w ws Hw _ IH]; [done|].
    simpl. rewrite IH, (proj1 (run_worker_ready t' w Hw)).
    by rewrite (accepts_filled w t t' ts Hfill Hid Hts). }
  destruct (e_workers (ext s)) as [|w ws]; [done|].
  destruct H as (_ & _ & _ & _ & ->). by rewrite Hy.
Qed.

(** ** Deposits *)

Definition deposit_tx (toWallet : string) (telegramID amountNano : Z) (txHash : string) (ts : Z) : Tx :=
  {| tx_ID := "deposit-" +:+ txHash; tx_FromWallet := txHash;
     tx_ToService := "wallet-tg-" +:+ FormatInt 10 telegramID;
     tx_AmountNano := amountNano; tx_Description := "blockchain_deposit"; tx_Timestamp := Some ts;
     tx_Metadata := [("tx_hash", txHash); ("to_wallet", toWallet)] |}.

(** The Ed25519 worker verifies the signature it just made. *)
Definition self_verifies (key : string) (t : Tx) : bool :=
  ed25519_Verify (ed25519_Public key) (sha256 (TxPayload t)) (ed25519_Sign key (sha256 (TxPayload t))).

Definition in_clock (now_ ts : Z) : Prop := - thirty_seconds <= now_ - ts <= five_minutes.


(** ** Withdrawals *)

(** CheckWithdraw is unanimous: it accepts only when every worker voted
    yes on a transaction of that amount. *)
Theorem CheckWithdraw_unanimous order from tg amt addr s s' :
  CheckWithdraw order from tg amt addr s = (Ok tt, s') ->
  valid_order (length (e_workers (ext s))) order ->
  exists t', tx_AmountNano t' = amt /\
    exists ks, NoDup ks /\ length ks = length (e_workers (ext s)) /\
      Forall (votes_yes (e_workers (ext s)) t') ks /\ e_workers (ext s) <> [].
Proof.
  intros E (Hlen & Hnd & _). unfold CheckWithdraw in E. apply bind_ok in E as (ts & s1 & E1 & E).
  injection E1 as <- <-. apply bind_ok in E as (res & s2 & E2 & E).
  match type of E2 with Engine_Verify _ ?t _ = _ => destruct (Engine_Verify_run order t (bump s))
    as (t' & res' & s3 & E3 & (_ & _ & Ha & _) & _ & _ & _ & H) end.
  rewrite E2 in E3. injection E3 as -> <-. exists t'. split; [exact Ha|].
  cbn [ext bump] in H.
  destruct (yes_votes_workers (e_workers (ext s)) t' order Hnd) as (ks & H1 & H2 & _ & H4).
  exists ks. destruct (cr_Approved res') eqn:Ea; [|done]. simpl in E.
  destruct (cr_NoCount res' >? 0) eqn:En; [done|]. zbool. zbool.
  destruct (e_workers (ext s)) as [|w ws]; [congruence|].
  destruct H as (_ & _ & Hno & _ & _). rewrite Hno, Hlen in En.
  repeat split; try done.
  assert (Z.of_nat (length ks) <= Z.of_nat (length (w :: ws))); [|lia].
  rewrite <- H4. pose proof (yes_votes_bound (arrived (map (fun w => (run_worker t' w).1) (w :: ws)) order)).
  pose proof (length_arrived (map (fun w => (run_worker t' w).1) (w :: ws)) order). lia.
Qed.

End engine.

(** * Keys *)

(** A worker's key survives a restart: after loadOrGenKey succeeded for a
    path and a size, loading it again while nothing fails gives the same key,
    of that size. *)
Theorem loadOrGenKey_stable {X} {ENV : Env} path size (s : st Disk X) key s' :
  loadOrGenKey path size s = (Ok key, s') -> tx s = NoTx -> quiet_from (tick s') ->
  String.length key = size /\
  exists s'', loadOrGenKey path size s' = (Ok key, s'') /\ db s'' = db s'.
Proof.
  intros E Ht Hq.
  assert (H : String.length key = size /\ tx s' = NoTx /\
    exists data, files (db s') !! path = Some data /\ HexDecode data = Some key).
  { unfold loadOrGenKey in E. apply bind_ok in E as (stat & s1 & E1 & E). apply try_run in E1 as (q & [= ->] & E1).
    assert (Ht1 : tx s1 = NoTx /\ db s1 = db s).
    { destruct q; [by apply find_ok in E1 as (_ & -> & _)|].
      unfold find, stmt in E1. rewrite Ht in E1. destruct (env_fault (tick s)); [|done].
      by injection E1 as _ <-. }
    destruct Ht1 as [Ht1 Hd1].
    assert (Hload : forall data s2, files (db s1) !! path = Some data -> s2 = mkSt (S (tick s1)) (tx s1) (db s1) (ext s1) ->
      match HexDecode data with
      | None => throw (Wrapf "decode key: %w" [] (Errorf "encoding/hex: invalid string" []))
      | Some key =>
          if negb (String.length key =? size)%nat then
            throw (Errorf "key size mismatch: got %d want %d" [AInt (strlen key); AInt (Z.of_nat size)])
          else ret key
      end s2 = (Ok key, s') ->
      String.length key = size /\ tx s' = NoTx /\
      exists data, files (db s') !! path = Some data /\ HexDecode data = Some key).
    { intros data s2 Hdata -> E2. destruct (HexDecode data) as [k|] eqn:Ek; [|done].
      destruct (Nat.eqb_spec (String.length k) size); [|done]. injection E2 as <- <-. simpl. eauto. }
    destruct q as [[]|].
    1, 3: apply bind_ok in E as (data & s2 & E2 & E); apply wrap_err_ok, first_ok in E2 as (Hd & E2 & _);
      by apply (Hload data s2).
    apply bind_ok in E as (k & s2 & E2 & E). apply wrap_err_ok in E2. unfold rand_Read in E2.
    destruct (env_fault (tick s1)); [done|]. injection E2 as <- <-.
    apply bind_ok in E as (u & s3 & E3 & E). apply wrap_err_ok, exec_ok in E3 as (d & [= <-] & -> & _).
    injection E as <- <-. rewrite length_fit. split; [done|]. split; [done|]. simpl.
    eexists. rewrite lookup_insert_eq. split; [done|]. apply HexDecode_HexEncode. }
  destruct H as (Hl & Ht' & data & Hd & Hk). split; [done|].
  unfold loadOrGenKey. eexists. split.
  - eapply bind_intro; [apply try_intro, find_quiet; [auto with botpay|by rewrite Ht']|].
    cbv beta; rewrite bool_decide_true by eauto.
    eapply bind_intro; [unfold wrap_err; rewrite (first_some_quiet _ _ data);
      [reflexivity|simpl; auto with botpay|simpl; by rewrite Ht'|done]|].
    rewrite Hk, Hl, Nat.eqb_refl. reflexivity.
  - done.
Qed.

(** * Examples *)

(** Concrete stand-ins for the cryptographic library that satisfy its laws; a
    key of 64 equal bytes verifies its own signatures, others do not. *)
Definition demo_crypto : Crypto := {|
  hmac_sha256 := fun k m => m;
  sha512 := fun m => m;
  ed25519_Sign := fun k m => k +:+ m;
  ed25519_Verify := fun p m sig => (sig =? p +:+ p +:+ m)%string;
  aes_NewCipher := fun k => (String.length k =? 32)%nat;
  cipher_NewGCM := fun k => (String.length k =? 32)%nat;
  gcm_Seal := fun k n p => p;
  gcm_Open := fun k n c => Some c;
  base64_EncodeToString := fun s => s;
  base64_DecodeString := fun s => s;
  duration_String := fun d => FormatInt 10 d;
|}.

Definition demo_crypto_laws : @CryptoLaws demo_crypto.
Proof. constructor; simpl; [intros k ->; done|done|done]. Defined.

Section demo.
#[local] Existing Instance calm_env.
#[local] Existing Instance demo_lib.
#[local] Existing Instance demo_crypto.
#[local] Existing Instance demo_crypto_laws.

Definition repeat_byte (n : nat) : string := fit n "".

Definition demo_worker (k : WorkerKind) : Worker :=
  {| wk_kind := k; wk_env := calm_env;
     wk_st := init_st {| tx_records := []; worker_keys := [] |}
                {| w_key := repeat_byte (if k is Ed25519Worker then 64 else 32); w_lastHash := fit 64 "" |} |}.

Definition demo_engine : st unit Engine :=
  init_st tt (fold_left (fun e k => AddWorker (demo_worker k) e)
    [HMACWorker; Ed25519Worker; AESWorker; MerkleWorker]
    (NewEngine {| cfg_Threshold := 3; cfg_Timeout := 0 |})).

Definition demo_order : list (option nat) := [Some 2; Some 0; Some 3; Some 1]%nat.
Definition late_order : list (option nat) := [Some 2; None; Some 3; Some 1]%nat.

Definition demo_tx (id : string) (amt : Z) : Tx :=
  {| tx_ID := id; tx_FromWallet := "0123456789"; tx_ToService := "bot_1"; tx_AmountNano := amt;
     tx_Description := ""; tx_Timestamp := Some 1; tx_Metadata := [] |}.

Lemma demo_ready : all_ready demo_engine.
Proof. repeat constructor; try apply calm_quiet. Qed.

Lemma demo_orders : valid_order 4 demo_order /\ valid_order 4 late_order.
Proof.
  split; (split; [done|split; [|repeat constructor]]).
  - apply (bool_decide_unpack _). vm_compute. done.
  - apply (bool_decide_unpack _). vm_compute. done.
Qed.


Definition after_one : st unit Engine := snd (Engine_Verify demo_order (demo_tx "a" 500) demo_engine).



Lemma CheckWithdraw_unanimous_witness :
  exists ks : list nat, NoDup ks /\ length ks = 4%nat.
Proof.
  destruct (CheckWithdraw demo_order "UQmaster" 123456 500 "UQuser" demo_engine) as [[[]|e] s'] eqn:E;
    [|vm_compute in E; discriminate E].
  destruct (CheckWithdraw_unanimous _ _ _ _ _ _ _ E) as (t' & _ & ks & Hnd & Hlen & _).
  - apply demo_orders.
  - exists ks. split; [exact Hnd|exact Hlen].
Defined.

Definition empty_disk : st Disk unit := init_st {| files := ∅; dbs := ∅ |} tt.

Lemma loadOrGenKey_stable_witness :
  exists key s', loadOrGenKey "/data/worker-hmac.key" 32 empty_disk = (Ok key, s') /\
    String.length key = 32%nat.
Proof.
  destruct (loadOrGenKey "/data/worker-hmac.key" 32 empty_disk) as [[key|e] s'] eqn:E;
    [|vm_compute in E; discriminate E].
  exists key, s'. split; [reflexivity|].
  eapply (loadOrGenKey_stable "/data/worker-hmac.key" 32 empty_disk key s' E); [reflexivity|apply calm_quiet].
Defined.
End demo.
