(* ===== verification/Localization.v ===== *)
(** botpay/internal/i18n: languages and message templates. The JSON locale
    files are data: [bundles] is what they decode to. *)
From S2P Require Import Prelude GoInt GoFloat GoString Effects.

Inductive Lang := FA | EN.

#[export] Instance Lang_eq_dec : EqDecision Lang.
Proof. solve_decision. Defined.

Definition lang_code (l : Lang) : string := match l with FA => "fa" | EN => "en" end.
Definition supported : list Lang := [FA; EN].

Class Locales := { bundles : Lang -> string -> option string; DefaultLang : Lang }.

(** [strings.ToLower] acts on ASCII letters here: a code that Parse accepts is
    made of "fa", "en" and a dash, and no other letter maps to one of those
    except the Kelvin sign and the dotted I, which neither code contains. *)
Definition Parse (code : string) : option Lang :=
  let code := ToLower (TrimSpace code) in
  List.find (fun l => (code =? lang_code l)%string || HasPrefix code (lang_code l +:+ "-")) supported.

Definition Normalize `{Locales} (code : string) : Lang :=
  match Parse code with Some l => l | None => DefaultLang end.

(** A text: a template as it is, or fmt.Sprintf of a template. *)
Inductive Text :=
| Plain (s : string)
| Sprintf (tpl : string) (args : list fmtarg).

Definition T `{Locales} (lang : Lang) (key : string) (args : list fmtarg) : Text :=
  match (match bundles lang key with Some t => Some t | None => bundles DefaultLang key end) with
  | None => Plain key
  | Some tpl => match args with [] => Plain tpl | _ => Sprintf tpl args end
  end.

(** The keys this development refers to. *)
Definition KErrGeneric := "err.generic".
Definition KCancelled := "common.cancelled".
Definition KBtnWallet := "btn.wallet".
Definition KBtnDeposit := "btn.deposit".
Definition KBtnWithdraw := "btn.withdraw".
Definition KBtnTransfer := "btn.transfer".
Definition KBtnHistory := "btn.history".
Definition KBtnHelp := "btn.help".
Definition KBtnLanguage := "btn.language".
Definition KBtnCancel := "btn.cancel".
Definition KStart := "start.body".
Definition KWallet := "wallet.body".
Definition KWalletFrozen := "wallet.frozen_line".
Definition KDepositErr := "deposit.error".
Definition KDepositBody := "deposit.body".
Definition KWithdrawInsufficient := "withdraw.insufficient".
Definition KWithdrawAskAddr := "withdraw.ask_addr".
Definition KWithdrawBadAddr := "withdraw.bad_addr".
Definition KWithdrawAskAmount := "withdraw.ask_amount".
Definition KWithdrawBadAmount := "withdraw.bad_amount".
Definition KWithdrawSubmitted := "withdraw.submitted".
Definition KWithdrawError := "withdraw.error".
Definition KTransferInsufficient := "transfer.insufficient".
Definition KTransferAskID := "transfer.ask_id".
Definition KTransferBadID := "transfer.bad_id".
Definition KTransferNoRecipient := "transfer.no_recipient".
Definition KTransferAskAmount := "transfer.ask_amount".
Definition KTransferBadAmount := "transfer.bad_amount".
Definition KTransferDone := "transfer.done".
Definition KTransferReceived := "transfer.received".
Definition KTransferError := "transfer.error".
Definition KDepositConfirmed := "deposit.confirmed".
Definition KAdminBadID := "admin.bad_id".
Definition KAdminBadParam := "admin.bad_param".
Definition KAdminWalletNotFound := "admin.wallet_not_found".
Definition KAdminError := "admin.error".
Definition KAdminApproved := "admin.approved".
Definition KAdminRejected := "admin.rejected".
Definition KAdminCreditAdded := "admin.credit_added".
Definition KAdminApproveUsage := "admin.approve_usage".
Definition KAdminRejectUsage := "admin.reject_usage".
Definition KAdminAddCreditUsage := "admin.addcredit_usage".
Definition KAdminAskTxHash := "admin.ask_txhash".
Definition KAdminAskReason := "admin.ask_reason".
Definition KAdminAskCreditUserID := "admin.ask_credit_userid".
Definition KAdminAskCreditAmount := "admin.ask_credit_amount".
Definition KHistoryEmpty := "history.empty".
Definition KHistoryTitle := "history.title".
Definition KHistoryLine := "history.line".
Definition KTxDeposit := "tx.deposit".
Definition KTxWithdraw := "tx.withdraw".
Definition KTxCreditAdd := "tx.credit_add".
Definition KTxPayment := "tx.payment".
Definition KTxRefund := "tx.refund".
Definition KHelp := "help.body".
Definition KCheckPending := "check.pending".
Definition KCheckUnconfirmed := "check.unconfirmed".
Definition KCheckConfirmed := "check.confirmed".
Definition KLanguageAsk := "language.ask".
Definition KLanguageChanged := "language.changed".
Definition KAdminNoWithdraws := "admin.no_withdraws".
Definition KAdminWithdrawsTitle := "admin.withdraws_title".
Definition KAdminStats := "admin.stats".
Definition KAdminWithdrawItem := "admin.withdraw_item".
