(* ===== verification/WalletService.v ===== *)
(** botpay/internal/wallet/wallet.go: the wallet service between the callers
    (blockchain watcher, request/reply responder, Telegram bot) and the
    repository, guarded by the consensus layer. *)
From S2P Require Import Prelude GoInt GoFloat GoString Effects PayModels PayChain PayStore Consensus Localization.

(** wallet.ErrInsufficientBalance *)
Definition ErrInsufficientBalance : error := Sentinel "wallet" "insufficient balance".

Definition SubjectDeposit : string := "botpay.deposit".
Definition SubjectPaid : string := "botpay.paid".
Definition SubjectInvoice (code : string) : string := "botpay.invoice." +:+ code.

Definition MinWithdrawNano : Z := 100000000.
Definition NetworkFeeNano : Z := 10000000.

(** ton.DepositEvent *)
Record DepositEvent := {
  ev_TelegramID : Z;
  ev_WalletID : string;
  ev_AmountNano : Z;
  ev_AmountTON : float64;
  ev_TxHash : string;
  ev_FromAddr : string;
  ev_InvoiceCode : string;
}.

(** A message on the bus: subject, and payload fields under their JSON names. *)
Record Publication := { pub_subject : string; pub_payload : list (string * fmtarg) }.

(** A message to a Telegram user. *)
Record Notice := { n_to : Z; n_text : Text }.

(** What the service keeps besides the database. *)
Record WS := {
  ws_guard : option Engine;
  ws_nats : bool;                  (* nc <> nil *)
  ws_notify : bool;                (* notify <> nil *)
  ws_outbox : list Publication;
  ws_sent : list Notice;
  ws_masterAddr : string;
}.

Definition with_guard_state (g : option Engine) (x : WS) : WS :=
  {| ws_guard := g; ws_nats := ws_nats x; ws_notify := ws_notify x; ws_outbox := ws_outbox x;
     ws_sent := ws_sent x; ws_masterAddr := ws_masterAddr x |}.
Definition add_publication (p : Publication) (x : WS) : WS :=
  {| ws_guard := ws_guard x; ws_nats := ws_nats x; ws_notify := ws_notify x;
     ws_outbox := ws_outbox x ++ [p]; ws_sent := ws_sent x; ws_masterAddr := ws_masterAddr x |}.
Definition add_notice (n : Notice) (x : WS) : WS :=
  {| ws_guard := ws_guard x; ws_nats := ws_nats x; ws_notify := ws_notify x;
     ws_outbox := ws_outbox x; ws_sent := ws_sent x ++ [n]; ws_masterAddr := ws_masterAddr x |}.

(** The layout every TON address must have: 48 bytes starting with UQ or EQ. *)
Definition IsValidTONAddress (addr : string) : bool :=
  let addr := TrimSpace addr in
  if negb (strlen addr =? 48) then false
  else HasPrefix addr "UQ" || HasPrefix addr "EQ".

Definition f64_1e9 : float64 := f64_of_int 1000000000.
Definition NanoToTON (nano : Z) : float64 := f64_div (f64_of_int nano) f64_1e9.
Definition TONToNano `{F64Platform} (ton : float64) : Z := int64_of_f64 (f64_mul ton f64_1e9).

Section service.
Context {ENV : Env} {LIB : Lib} {CRYPTO : Crypto} {LOC : Locales}.
Abbreviation SM := (M Tables WS).

(** The guard works on its engine; clock readings go on in the same order. *)
Definition guarded (check : M unit Engine unit) : SM unit := fun s =>
  match ws_guard (ext s) with
  | None => (Ok tt, s)
  | Some g =>
      let (r, s') := check (mkSt (tick s) NoTx tt g) in
      (r, mkSt (tick s') (tx s) (db s) (with_guard_state (Some (ext s')) (ext s)))
  end.

(** A failing publish is logged and forgotten. *)
Definition publish (subject : string) (payload : list (string * fmtarg)) : SM unit := fun s =>
  if negb (ws_nats (ext s)) then (Ok tt, s)
  else match env_fault (tick s) with
       | Some _ => (Ok tt, bump s)
       | None => (Ok tt, mkSt (S (tick s)) (tx s) (db s)
                   (add_publication {| pub_subject := subject; pub_payload := payload |} (ext s)))
       end.

Definition SendHTML (telegramID : Z) (html : Text) : SM unit := fun s =>
  match env_fault (tick s) with
  | Some c => (Err (ErrDriver c), bump s)
  | None => (Ok tt, mkSt (S (tick s)) (tx s) (db s)
              (add_notice {| n_to := telegramID; n_text := html |} (ext s)))
  end.

Definition GetOrCreate (telegramID : Z) : SM Wallet :=
  (x <- get_ext ;; GetOrCreateWallet telegramID (ws_masterAddr x))%eff.

Definition genInvoiceCode : SM string :=
  (b <- rand_bytes ;; ret ("PAY-" +:+ ToUpper (HexEncode (fit 4 b))))%eff.

Definition thirty_minutes : Z := 1800000000000.

Definition CreateDepositInvoice (telegramID amountNano : Z) (serviceID ref : string) : SM Invoice :=
  (w <- GetOrCreate telegramID ;;
   code <- genInvoiceCode ;;
   t <- now ;;
   CreateInvoice {| inv_ID := 0; inv_WalletID := w_ID w; inv_Code := code; inv_Amount := amountNano;
                    inv_ReceivedNano := 0; inv_Status := InvoicePending; inv_ServiceID := serviceID;
                    inv_Ref := ref; inv_Metadata := ""; inv_ExpiresAt := t + thirty_minutes;
                    inv_PaidAt := None; inv_TxHash := "" |})%eff.

Definition uuid_text (id : uuid) : fmtarg := AStr (uuid_String id).

(** The wallet a deposit belongs to: that of the pending invoice named by the
    comment, or else the wallet whose pay handle the comment is. *)
Definition deposit_target (event : DepositEvent) : SM (option Wallet * option Invoice) :=
  (inv <- (if negb (ev_InvoiceCode event =? "")%string
           then FindPendingInvoiceByCode (ev_InvoiceCode event) else ret None) ;;
   match inv with
   | Some i =>
       w <- try (GetWalletByID (inv_WalletID i)) ;;
       match w with
       | Ok (Some w) => ret (Some w, inv)
       | _ => throw (Errorf "wallet not found for invoice" [])
       end
   | None =>
       if negb (ev_InvoiceCode event =? "")%string then
         (w <- GetWalletByPayHandle (ev_InvoiceCode event) ;; ret (w, None))
       else ret (None, None)
   end)%eff.

(** After the wallet was credited: the invoice's receipt and the events. *)
Definition after_deposit (event : DepositEvent) (w : Wallet) (inv : option Invoice) : SM unit :=
  (match inv with
   | Some i =>
       ' (paid, _) <- AddInvoiceReceipt (inv_ID i) (ev_AmountNano event) (ev_TxHash event) ;;
       if (paid : bool) then
         publish (SubjectInvoice (inv_Code i))
           [("invoice_id", uuid_text (inv_ID i)); ("code", AStr (inv_Code i)); ("ref", AStr (inv_Ref i));
            ("service_id", AStr (inv_ServiceID i)); ("amount_nano", AInt (ev_AmountNano event));
            ("wallet_id", uuid_text (w_ID w)); ("tx_hash", AStr (ev_TxHash event))]
       else ret tt
   | None => ret tt
   end ;;
   publish SubjectDeposit
     ([("telegram_id", AInt 0); ("wallet_id", uuid_text (w_ID w));
       ("amount_nano", AInt (ev_AmountNano event)); ("amount_ton", AFloat (ev_AmountTON event));
       ("tx_hash", AStr (ev_TxHash event)); ("from_addr", AStr "")]
      ++ if (ev_InvoiceCode event =? "")%string then []
         else [("invoice_code", AStr (ev_InvoiceCode event))]) ;;
   publish "wallet.deposit"
     [("telegram_id", AInt (w_TelegramID w)); ("wallet_id", uuid_text (w_ID w));
      ("amount_nano", AInt (ev_AmountNano event)); ("amount_ton", AFloat (ev_AmountTON event));
      ("tx_hash", AStr (ev_TxHash event)); ("invoice_code", AStr (ev_InvoiceCode event))] ;;
   x <- get_ext ;;
   if ws_notify x then
     (updated <- try (GetWalletByID (w_ID w)) ;;
      (* a failed lookup hands back the zero wallet *)
      let newBalance := match updated with
                        | Ok (Some u) => TotalTON u
                        | Ok None => ev_AmountTON event
                        | Err _ => f64_of_int 0
                        end in
      try (SendHTML (w_TelegramID w)
             (T (Normalize (w_Lang w)) KDepositConfirmed [AFloat (ev_AmountTON event); AFloat newBalance])) ;;
      ret tt)
   else ret tt)%eff.

Definition HandleDeposit (order : list (option nat)) (event : DepositEvent) : SM unit :=
  (' (w, inv) <- deposit_target event ;;
   match w with
   | None => ret tt
   | Some w =>
       guarded (CheckDeposit order (w_TONAddress w) (w_TelegramID w) (ev_AmountNano event) (ev_TxHash event)) ;;
       wrap_err "deposit to wallet: %w"
         (Deposit (w_ID w) (ev_AmountNano event) (ev_TxHash event) (ev_FromAddr event) "") ;;
       after_deposit event w inv
   end)%eff.

Definition Pay (order : list (option nat)) (telegramID amountNano : Z) (serviceID ref desc : string)
  : SM Transaction :=
  (w <- GetWallet telegramID ;;
   match w with
   | None => throw (Errorf "wallet not found" [])
   | Some w =>
       if negb (HasEnough w amountNano) then
         throw (Wrapf "%w: have %.4f TON, need %.4f TON"
                  [AFloat (TotalTON w); AFloat (NanoToTON amountNano)] ErrInsufficientBalance)
       else
       (wrap_err "consensus: %w"
          (guarded (CheckDeduct order (w_TONAddress w) telegramID amountNano serviceID ref)) ;;
        tx <- Deduct (w_ID w) amountNano serviceID ref desc ;;
        publish SubjectPaid
          [("wallet_id", uuid_text (w_ID w)); ("service_id", AStr serviceID); ("ref", AStr ref);
           ("amount_ton", AFloat (NanoToTON amountNano)); ("tx_id", uuid_text (t_ID tx))] ;;
        ret tx)
   end)%eff.

Definition RequestWithdraw (telegramID : Z) (toAddress : string) (amountNano : Z) (note : string)
  : SM WithdrawRequest :=
  if negb (IsValidTONAddress toAddress) then throw (Errorf "invalid TON address" [])
  else if amountNano <? MinWithdrawNano then
    throw (Errorf "minimum withdrawal is %.1f TON" [AFloat (NanoToTON MinWithdrawNano)])
  else
  (let totalNeeded := i64_add amountNano NetworkFeeNano in
   w <- try (GetWallet telegramID) ;;
   match w with
   | Ok (Some w) =>
       if negb (HasEnough w totalNeeded) then
         throw (Wrapf "%w (including %.4f TON fee)" [AFloat (NanoToTON NetworkFeeNano)]
                  ErrInsufficientBalance)
       else
       (r <- try (CreateWithdraw
                    {| wr_ID := 0; wr_CreatedAt := 0; wr_WalletID := w_ID w; wr_ToAddress := toAddress;
                       wr_Amount := amountNano; wr_Fee := NetworkFeeNano; wr_Status := WithdrawPending;
                       wr_TxHash := ""; wr_Note := note; wr_AdminNote := ""; wr_ProcessedAt := None |}) ;;
        match r with
        | Ok req => ret req
        | Err e =>
            if errors_Is e store_ErrInsufficientBalance then
              throw (Wrapf "%w (race condition — insufficient balance at write time)" []
                       ErrInsufficientBalance)
            else throw e
        end)
   | _ => throw (Errorf "wallet not found" [])
   end)%eff.

Definition DepositInstructions (telegramID amountNano : Z) (serviceID ref : string)
  : SM (string * string) :=
  (inv <- CreateDepositInvoice telegramID amountNano serviceID ref ;;
   x <- get_ext ;;
   ret (inv_Code inv,
        "ton://transfer/" +:+ ws_masterAddr x +:+ "?amount=" +:+ FormatInt 10 amountNano
        +:+ "&text=" +:+ inv_Code inv))%eff.

Definition Service_Transfer (fromTelegramID toTelegramID amountNano : Z) (desc : string) : SM unit :=
  if fromTelegramID =? toTelegramID then throw (Errorf "cannot transfer to yourself" [])
  else
  (fromWallet <- try (GetWallet fromTelegramID) ;;
   match fromWallet with
   | Ok (Some fromWallet) =>
       (toWallet <- try (GetWallet toTelegramID) ;;
        match toWallet with
        | Ok (Some toWallet) =>
            if negb (HasEnough fromWallet amountNano) then throw ErrInsufficientBalance
            else
            (wrap_err "transfer: %w" (Transfer (w_ID fromWallet) (w_ID toWallet) amountNano desc) ;;
             x <- get_ext ;;
             if ws_notify x then
               (try (SendHTML toTelegramID
                       (T (Normalize (w_Lang toWallet)) KTransferReceived
                          [AFloat (NanoToTON amountNano); AInt fromTelegramID])) ;;
                ret tt)
             else ret tt)
        | _ => throw (Errorf "recipient wallet not found" [])
        end)
   | _ => throw (Errorf "sender wallet not found" [])
   end)%eff.
End service.
