(* ===== verification/WalletServiceSpec.v ===== *)
(** What the wallet service guarantees to the watcher, the responder and the
    bot: each deposit and payment counts once, and what consensus adds. *)
From S2P Require Import Prelude GoInt GoFloat GoString Effects PayModels PayChain PayStore PayInvariant PayStoreSpec Consensus ConsensusSpec Localization WalletService.

Section spec.
Context {ENV : Env} {LIB : Lib} {CRYPTO : Crypto} {LOC : Locales}.
Implicit Types s : st Tables WS.

(** * Calls that only read *)

Lemma reads_first_opt {X A} (q : Tables -> option A) : reads (@first_opt X _ A q).
Proof. unfold first_opt. reads_tac. Qed.
#[local] Hint Resolve reads_first_opt : botpay.

Lemma reads_guarded m : reads (guarded m).
Proof.
  intros s r s' H. unfold guarded in H. destruct (ws_guard (ext s)); [|by injection H as _ <-].
  destruct (m _) as [r1 s1]. by injection H as _ <-.
Qed.

Lemma reads_publish sub p : reads (publish sub p).
Proof.
  intros s r s' H. unfold publish in H. destruct (negb _); [by injection H as _ <-|].
  destruct (env_fault _); by injection H as _ <-.
Qed.

Lemma reads_SendHTML t x : reads (SendHTML t x).
Proof. intros s r s' H. unfold SendHTML in H. destruct (env_fault _); by injection H as _ <-. Qed.
#[local] Hint Resolve reads_guarded reads_publish reads_SendHTML : botpay.

Lemma reads_deposit_target ev : reads (deposit_target ev).
Proof.
  unfold deposit_target, FindPendingInvoiceByCode, GetWalletByID, GetWalletByPayHandle. reads_tac.
Qed.

(** * Deposits *)

(** Everything but invoices is the same. *)
Definition same_money (d d' : Tables) : Prop :=
  wallets d' = wallets d /\ transactions d' = transactions d /\
  withdraw_requests d' = withdraw_requests d.

#[export] Instance same_money_refl : Reflexive same_money.
Proof. by intros d. Qed.
#[export] Instance same_money_trans : Transitive same_money.
Proof. intros a b c (? & ? & ?) (? & ? & ?). repeat split; congruence. Qed.

Lemma first_opt_ext {A} (q : Tables -> option A) s r s' :
  first_opt q s = (r, s') -> ext s' = ext s.
Proof.
  unfold first_opt. intros H. apply bind_run in H as (r1 & s1 & H1 & H).
  apply try_run in H1 as (q1 & -> & H1).
  assert (ext s1 = ext s) as <-.
  { destruct q1; [by apply first_ok in H1 as (_ & -> & _)|by apply stmt_err_db in H1 as [_ ->]]. }
  destruct q1 as [|[]]; by injection H as _ <-.
Qed.

Lemma publish_ok sub p s : exists s', publish sub p s = (Ok tt, s') /\ db s' = db s.
Proof. unfold publish. destruct (negb _); [by eexists|]. destruct (env_fault _); by eexists. Qed.

Lemma AddInvoiceReceipt_money id amt h s :
  exists v r s', AddInvoiceReceipt (X := WS) id amt h s = (Ok (v, r), s') /\ same_money (db s) (db s').
Proof.
  unfold AddInvoiceReceipt, with_var. destruct (transaction _ _) as [r1 s1] eqn:E.
  eexists _, _, _. split; [reflexivity|]. simpl.
  assert (H : same_money (db s) (db s1)); [|done].
  apply (transaction_inv (fun d => same_money (db s) d) _ _ _ _ E); [done|].
  intros u s2 _ Hm ->. apply bind_ok in Hm as (i & s3 & E1 & Hm). apply first_ok in E1 as (_ & -> & _).
  destruct (_ && _) in Hm.
  - apply bind_ok in Hm as (t & s4 & E2 & Hm). injection E2 as <- <-.
    apply bind_ok in Hm as (t & s4 & E2 & Hm). injection E2 as <- <-.
    by apply exec_ok in Hm as (d & [= <-] & -> & _).
  - by apply exec_ok in Hm as (d & [= <-] & -> & _).
Qed.

(** Everything after the credit only touches invoices, and always succeeds. *)
Lemma after_deposit_ok ev w inv s :
  exists s', after_deposit ev w inv s = (Ok tt, s') /\ same_money (db s) (db s').
Proof.
  unfold after_deposit.
  assert (H1 : exists s1, match inv with
    | Some i => bind (AddInvoiceReceipt (inv_ID i) (ev_AmountNano ev) (ev_TxHash ev)) (fun p => match p with
        | (paid, _) => if (paid : bool) then
            publish (SubjectInvoice (inv_Code i))
           [("invoice_id", uuid_text (inv_ID i)); ("code", AStr (inv_Code i)); ("ref", AStr (inv_Ref i));
            ("service_id", AStr (inv_ServiceID i)); ("amount_nano", AInt (ev_AmountNano ev));
            ("wallet_id", uuid_text (w_ID w)); ("tx_hash", AStr (ev_TxHash ev))] else ret tt end)
    | None => ret tt end s = (Ok tt, s1) /\ same_money (db s) (db s1)).
  { destruct inv as [i|]; [|by eexists].
    destruct (AddInvoiceReceipt_money (inv_ID i) (ev_AmountNano ev) (ev_TxHash ev) s)
      as (v & r & s1 & E & Hm).
    erewrite bind_intro; [|exact E|reflexivity]. destruct v; [|by eexists].
    match goal with |- context [publish ?a ?b s1] => destruct (publish_ok a b s1) as (s2 & E2 & Hd) end.
    eexists. split; [exact E2|]. by rewrite Hd. }
  destruct H1 as (s1 & E1 & Hm). erewrite bind_intro; [|exact E1|reflexivity].
  match goal with |- context [bind (publish ?a ?b)] => destruct (publish_ok a b s1) as (s2 & E2 & Hd2) end.
  erewrite bind_intro; [|exact E2|reflexivity].
  match goal with |- context [bind (publish ?a ?b)] => destruct (publish_ok a b s2) as (s3 & E3 & Hd3) end.
  erewrite bind_intro; [|exact E3|reflexivity].
  erewrite bind_intro; [|reflexivity|reflexivity].
  rewrite <- Hd2, <- Hd3 in Hm. destruct (ws_notify _); [|by eexists].
  destruct (GetWalletByID (w_ID w) s3) as [r4 s4] eqn:E4.
  erewrite bind_intro; [|by apply try_intro|reflexivity].
  apply reads_first_opt in E4.
  match goal with |- context [SendHTML ?a ?b] => destruct (SendHTML a b s4) as [r5 s5] eqn:E5 end.
  eexists. split; [by eapply bind_intro; [apply try_intro; exact E5|]|].
  apply reads_SendHTML in E5. by rewrite E5, E4.
Qed.

(** The wallet a deposit comment designates. *)
Definition designates (code : string) (d : Tables) (w : Wallet) : Prop :=
  code <> ""%string /\
  ((exists i, i ∈ rows (invoices d) /\ inv_Code i = code /\ inv_Status i = InvoicePending /\
      wallets d !! inv_WalletID i = Some w) \/
   (w ∈ rows (wallets d) /\ w_PayHandle w = code)).

Lemma deposit_target_ok ev s ow oi s1 :
  deposit_target ev s = (Ok (ow, oi), s1) ->
  db s1 = db s /\ ext s1 = ext s /\
  match ow with Some w => designates (ev_InvoiceCode ev) (db s) w | None => True end.
Proof.
  intros H. split; [by apply reads_deposit_target in H|]. unfold deposit_target in H.
  apply bind_ok in H as (inv & s2 & H1 & H).
  destruct (ev_InvoiceCode ev =? "")%string eqn:Ec; simpl in H1.
  { injection H1 as <- <-. simpl in H. by injection H as <- <- <-. }
  zbool. unfold FindPendingInvoiceByCode in H1. pose proof (first_opt_ext _ _ _ _ H1) as Ex.
  apply first_opt_ok in H1 as [Hinv Hd]. destruct inv as [i|].
  - symmetry in Hinv. apply first_row_some in Hinv as [Hin Hp]. destruct_hyps. zbool.
    apply bind_ok in H as (w & s3 & H2 & H). apply try_run in H2 as (q & [= ->] & H2).
    destruct q as [[w|]|]; try done. injection H as <- <- <-.
    pose proof (first_opt_ext _ _ _ _ H2) as Ex2. apply first_opt_ok in H2 as [Hw _].
    split; [congruence|]. split; [done|]. left. exists i. repeat split; [done|done|done|by rewrite <- Hd].
  - simpl in H. apply bind_ok in H as (w & s3 & H2 & H). injection H as <- <- <-.
    pose proof (first_opt_ext _ _ _ _ H2) as Ex2. apply first_opt_ok in H2 as [Hw _].
    split; [congruence|]. destruct w as [w|]; [|done]. split; [done|]. right.
    symmetry in Hw. apply first_row_some in Hw as [Hin Hp]. zbool. by rewrite <- Hd.
Qed.

(** The tables after crediting a new deposit [t]. *)
Definition credited (d : Tables) (w : Wallet) (t : Transaction) : Tables :=
  set_transactions (fun l => l ++ [t])
    (set_wallets <[w_ID w := with_balances w (w_TONBalance w + t_Amount t) (w_Credit w) (w_Frozen w)]> d).

Lemma Deposit_ok id amt h f ds s t s' w :
  Deposit id amt h f ds s = (Ok t, s') -> wallets (db s) !! id = Some w -> w_ID w = id ->
  db s' = db s \/
  (find_by_hash h (db s) = None /\ t_WalletID t = id /\ t_Type t = TxDeposit /\ t_Amount t = amt /\
   t_TxHash t = h /\ db s' = credited (db s) w t).
Proof.
  unfold Deposit. intros Hr Hw Hid. apply transaction_ok in Hr as (s1 & Hm & ->). simpl.
  apply bind_ok in Hm as (r1 & s2 & E & Hm). apply try_run in E as (q & [= ->] & E).
  destruct q as [t0|e].
  - apply first_ok in E as (_ & -> & _). injection Hm as _ <-. by left.
  - right. apply bind_ok in Hm as (? & s3 & Hx & Hm). apply exec_ok in Hx as (d & Hd & -> & Htx).
    assert (Hf : find_by_hash h (db s) = None /\ db s2 = db s).
    { unfold first, stmt in E. simpl in E. destruct (env_fault (S (tick s))).
      - injection E as <- <-. done.
      - destruct (find_by_hash h (db s)); [done|]. injection E as _ <-. done. }
    destruct Hf as [Hf Hd2]. rewrite Hd2 in Hd.
    apply bind_ok in Hm as (t1 & s4 & E1 & Hm). injection E1 as <- <-.
    apply create_transaction_ok in Hm as [Hd' (i & k & ->)]. simpl in Hd'. rewrite Hd'. simpl.
    use_update; [congruence|]. assert (w0 = w) as -> by congruence.
    unfold credited. simpl. rewrite Hid, !Z.add_0_r. done.
Qed.

Lemma HandleDeposit_cases order ev s r s' :
  HandleDeposit order ev s = (r, s') -> pay_inv (db s) ->
  match r with
  | Err _ => db s' = db s
  | Ok _ => same_money (db s) (db s') \/
      exists w t, designates (ev_InvoiceCode ev) (db s) w /\
        find_by_hash (ev_TxHash ev) (db s) = None /\
        t_WalletID t = w_ID w /\ t_Type t = TxDeposit /\ t_Amount t = ev_AmountNano ev /\
        t_TxHash t = ev_TxHash ev /\
        same_money (credited (db s) w t) (db s') /\
        forall g, ws_guard (ext s) = Some g -> exists n,
          fst (CheckDeposit order (w_TONAddress w) (w_TelegramID w) (ev_AmountNano ev) (ev_TxHash ev)
                 (mkSt n NoTx tt g)) = Ok tt
  end.
Proof.
  intros H I. unfold HandleDeposit in H. apply bind_run in H as (r1 & s1 & H1 & H).
  destruct r1 as [[ow oi]|e]; [|destruct H as [-> ->]; by apply reads_deposit_target in H1].
  apply deposit_target_ok in H1 as (Hd1 & Hx1 & Hw).
  destruct ow as [w|]; [|injection H as <- <-; left; by rewrite Hd1].
  apply bind_run in H as (r2 & s2 & H2 & H). pose proof (reads_guarded _ _ _ _ H2) as Hd2.
  destruct r2 as [[]|e]; [|destruct H as [-> ->]; congruence].
  apply bind_run in H as (r3 & s3 & H3 & H). unfold wrap_err in H3.
  destruct (Deposit _ _ _ _ _ s2) as [r4 s4] eqn:E4.
  assert (Hww : wallets (db s2) !! w_ID w = Some w).
  { rewrite Hd2, Hd1. destruct Hw as [_ [(i & _ & _ & _ & Hi)|[Hi _]]].
    - by rewrite (ok_id _ _ _ (inv_wallets _ I _ _ Hi)).
    - apply elem_of_rows in Hi as [k Hk]. by rewrite (ok_id _ _ _ (inv_wallets _ I _ _ Hk)). }
  destruct r4 as [t|e]; injection H3 as <- <-.
  2: { destruct H as [-> ->]. apply transaction_atomic in E4. congruence. }
  destruct (after_deposit_ok ev w oi s4) as (s5 & E5 & Hm). rewrite H in E5. injection E5 as -> ->.
  apply (Deposit_ok _ _ _ _ _ _ _ _ w) in E4; [|done|done].
  rewrite Hd2, Hd1 in E4. destruct E4 as [E4|(Hf & E1 & E2 & E3 & E6 & E4)].
  - left. by rewrite E4 in Hm.
  - right. exists w, t. rewrite E4 in Hm. do 7 (split; [done|]).
    intros g Hg. unfold guarded in H2. rewrite Hx1, Hg in H2.
    destruct (CheckDeposit _ _ _ _ _ _) as [r6 s6] eqn:E6' in H2. injection H2 as -> _.
    exists (tick s1). by rewrite E6'.
Qed.

(** C9: Handling a deposit, whatever fails and however the votes are scheduled:
    an error leaves every table alone; otherwise either no balance, transaction
    or withdrawal changed, or exactly this amount was added to the one wallet
    the comment designates and recorded under this hash, which was not recorded
    before and which the consensus engine approved. *)
Theorem HandleDeposit_outcomes order ev s r s' :
  HandleDeposit order ev s = (r, s') -> pay_inv (db s) ->
  match r with
  | Err _ => db s' = db s
  | Ok _ => same_money (db s) (db s') \/
      exists w t, designates (ev_InvoiceCode ev) (db s) w /\
        find_by_hash (ev_TxHash ev) (db s) = None /\
        t_WalletID t = w_ID w /\ t_Type t = TxDeposit /\ t_Amount t = ev_AmountNano ev /\
        t_TxHash t = ev_TxHash ev /\
        same_money (credited (db s) w t) (db s') /\
        forall g, ws_guard (ext s) = Some g -> exists n,
          fst (CheckDeposit order (w_TONAddress w) (w_TelegramID w) (ev_AmountNano ev) (ev_TxHash ev)
                 (mkSt n NoTx tt g)) = Ok tt
  end.
Proof. apply HandleDeposit_cases. Qed.

(** ** One attempt per hash *)

(** The workers have voted on this deposit before, whatever the verdict. *)
Definition attempted (h : string) (x : WS) : Prop :=
  exists g, ws_guard x = Some g /\ Forall worker_ready (e_workers g) /\
    Forall (fun w => worker_seen ("deposit-" +:+ h) w = true) (e_workers g) /\
    1 <= cfg_Threshold (e_cfg g).

Definition guard_ready (x : WS) : Prop :=
  exists g, ws_guard x = Some g /\ Forall worker_ready (e_workers g) /\ 1 <= cfg_Threshold (e_cfg g).

Lemma deposit_id_nonempty h : ("deposit-" +:+ h)%string <> ""%string.
Proof. discriminate. Qed.

(** Asking about a deposit leaves its mark; asking again is refused. *)
Lemma CheckDeposit_marks {LAWS : CryptoLaws} order a tg amt h (e e' : st unit Engine) r :
  CheckDeposit order a tg amt h e = (r, e') -> h <> ""%string -> all_ready e ->
  all_ready e' /\ all_seen ("deposit-" +:+ h) e' /\ e_cfg (ext e') = e_cfg (ext e) /\
  (all_seen ("deposit-" +:+ h) e -> 1 <= cfg_Threshold (e_cfg (ext e)) -> r <> Ok tt).
Proof.
  intros H Hne Hr. unfold CheckDeposit in H. rewrite (proj2 (String.eqb_neq h "") Hne) in H.
  apply bind_run in H as (r1 & s1 & H1 & H). injection H1 as <- <-.
  apply bind_run in H as (r2 & s2 & H2 & H).
  match type of H2 with Engine_Verify _ ?t _ = _ => set (t0 := t) in * end.
  pose proof (Engine_Verify_seen _ _ _ _ _ H2 (deposit_id_nonempty h) Hr) as (A & B & _ & C & _).
  assert (Hs : e' = s2).
  { destruct r2 as [res|]; [|by destruct H as [_ ->]]. destruct (negb _); by injection H as _ <-. }
  rewrite Hs. repeat split; try done. intros Hseen Hthr.
  destruct (seen_not_approved order t0 (bump e)) as (res & s3 & E & Hno); try done.
  rewrite H2 in E. injection E as -> _. rewrite Hno in H. simpl in H. by injection H as <- _.
Qed.

Lemma keeps_first_opt {Y A} (f : WS -> Y) (q : Tables -> option A) : keeps f (first_opt q).
Proof. intros s r s' H. by rewrite (first_opt_ext _ _ _ _ H). Qed.
#[local] Hint Resolve keeps_first_opt : botpay.

Lemma keeps_publish sub p : keeps ws_guard (publish sub p).
Proof.
  intros s r s' H. unfold publish in H. destruct (negb _); [by injection H as _ <-|].
  destruct (env_fault _); by injection H as _ <-.
Qed.

Lemma keeps_SendHTML t x : keeps ws_guard (SendHTML t x).
Proof. intros s r s' H. unfold SendHTML in H. destruct (env_fault _); by injection H as _ <-. Qed.
#[local] Hint Resolve keeps_publish keeps_SendHTML : botpay.

Lemma keeps_Deposit id a h fr ds : keeps ws_guard (Deposit id a h fr ds).
Proof. unfold Deposit, create_transaction. keeps_tac. Qed.

Lemma keeps_AddInvoiceReceipt id a h : keeps ws_guard (AddInvoiceReceipt id a h).
Proof.
  unfold AddInvoiceReceipt. apply keeps_with_var. keeps_tac.
Qed.
#[local] Hint Resolve keeps_Deposit keeps_AddInvoiceReceipt : botpay.

Lemma keeps_after_deposit ev w inv : keeps ws_guard (after_deposit ev w inv).
Proof. unfold after_deposit, GetWalletByID. keeps_tac. Qed.

(** A first attempt marks the hash, also when crediting then failed. *)
Lemma HandleDeposit_attempts {LAWS : CryptoLaws} order ev s r s' w oi s1 :
  HandleDeposit order ev s = (r, s') -> deposit_target ev s = (Ok (Some w, oi), s1) ->
  ev_TxHash ev <> ""%string -> guard_ready (ext s) -> attempted (ev_TxHash ev) (ext s').
Proof.
  intros H Ht Hne (g & Hg & Hr & Hthr). unfold HandleDeposit in H.
  apply bind_run in H as (r1 & s2 & H1 & H). rewrite Ht in H1. injection H1 as <- <-.
  apply deposit_target_ok in Ht as (_ & Hx & _).
  apply bind_run in H as (r2 & s3 & H2 & H). unfold guarded in H2. rewrite Hx, Hg in H2.
  destruct (CheckDeposit _ _ _ _ _ _) as [r3 e'] eqn:E in H2. injection H2 as <- <-.
  destruct (CheckDeposit_marks _ _ _ _ _ _ _ _ E Hne Hr) as (Ha & Hs & Hc & _).
  assert (Hend : ws_guard (ext s') = Some (ext e')).
  { destruct r3 as [[]|err]; [|by destruct H as [_ ->]].
    match type of H with ?m ?s0 = _ => assert (K : keeps ws_guard m) end.
    { keeps_tac; apply keeps_after_deposit. }
    apply K in H. by rewrite H. }
  exists (ext e'). repeat split; try done. by rewrite Hc.
Qed.

(** Deposits handled one after the other, each under its own schedule. *)
Fixpoint handle_all (evs : list (list (option nat) * DepositEvent)) : M Tables WS unit :=
  match evs with
  | [] => ret tt
  | (order, ev) :: evs => (try (HandleDeposit order ev) ;; handle_all evs)%eff
  end.

Lemma attempted_step {LAWS : CryptoLaws} h order ev s r s' :
  HandleDeposit order ev s = (r, s') -> attempted h (ext s) -> attempted h (ext s').
Proof.
  intros H (g & Hg & Hr & Hs & Hthr). unfold HandleDeposit in H.
  apply bind_run in H as (r1 & s1 & H1 & H). destruct r1 as [[ow oi]|e].
  2: { destruct H as [-> ->]. exists g. assert (K : keeps ws_guard (deposit_target ev)).
       { unfold deposit_target, FindPendingInvoiceByCode, GetWalletByID, GetWalletByPayHandle. keeps_tac. }
       by rewrite (K _ _ _ H1). }
  apply deposit_target_ok in H1 as (_ & Hx & _).
  destruct ow as [w|]; [|injection H as _ <-; exists g; by rewrite Hx].
  apply bind_run in H as (r2 & s3 & H2 & H). unfold guarded in H2. rewrite Hx, Hg in H2.
  destruct (CheckDeposit _ _ _ _ _ _) as [r3 e'] eqn:E in H2. injection H2 as <- <-.
  assert (Hend : ws_guard (ext s') = Some (ext e')).
  { destruct r3 as [[]|err]; [|by destruct H as [_ ->]].
    match type of H with ?m ?s0 = _ => assert (K : keeps ws_guard m) end.
    { keeps_tac; apply keeps_after_deposit. }
    apply K in H. by rewrite H. }
  exists (ext e'). split; [done|].
  set (e0 := mkSt (tick s1) NoTx tt g) in E.
  unfold CheckDeposit in E. destruct (ev_TxHash ev =? "")%string; [by injection E as _ <-|].
  apply bind_run in E as (r4 & s4 & H4 & E). injection H4 as <- <-.
  apply bind_run in E as (r5 & s5 & H5 & E).
  pose proof (Engine_Verify_seen _ _ (bump e0) _ _ H5 (deposit_id_nonempty _) Hr) as (A & _ & B & C & _).
  assert (e' = s5) as ->.
  { destruct r5 as [res|]; [|by destruct E as [_ ->]]. destruct (negb _); by injection E as _ <-. }
  split; [exact A|]. split; [by apply B|]. by rewrite C.
Qed.

(** The guard gives a deposit one attempt. Once a deposit that designates a
    wallet has been handled, no later handling of the same hash changes any
    table, after any number of other deposits, whatever fails in the database
    and whatever the schedules are. So it is never credited twice; but when the
    first attempt was approved and the database then failed, it is never
    credited at all. *)
Theorem deposit_attempted_once {LAWS : CryptoLaws} order ev s r s1 w oi st1 evs r2 s2 order2 ev2 r3 s3 :
  HandleDeposit order ev s = (r, s1) -> deposit_target ev s = (Ok (Some w, oi), st1) ->
  ev_TxHash ev <> ""%string -> guard_ready (ext s) ->
  handle_all evs s1 = (r2, s2) ->
  ev_TxHash ev2 = ev_TxHash ev ->
  HandleDeposit order2 ev2 s2 = (r3, s3) ->
  db s3 = db s2.
Proof.
  intros H1 Ht Hne Hg H2 Hh H3.
  assert (Ha : attempted (ev_TxHash ev) (ext s2)).
  { pose proof (HandleDeposit_attempts _ _ _ _ _ _ _ _ H1 Ht Hne Hg) as Ha. clear H1 Ht Hg H3.
    revert s1 Ha H2. induction evs as [|[o e] evs IH]; intros s1 Ha H2; simpl in H2.
    - by injection H2 as _ <-.
    - apply bind_run in H2 as (r4 & s4 & H4 & H2). apply try_run in H4 as (r5 & -> & H4).
      apply (IH s4); [|done]. by apply (attempted_step _ _ _ _ _ _ H4). }
  destruct Ha as (g & Hg' & Hr & Hs & Hthr). unfold HandleDeposit in H3.
  apply bind_run in H3 as (r4 & s4 & H4 & H3). pose proof (reads_deposit_target _ _ _ _ H4) as Hd.
  destruct r4 as [[ow oi2]|e]; [|by destruct H3 as [_ ->]].
  apply deposit_target_ok in H4 as (_ & Hx & _).
  destruct ow as [w2|]; [|by injection H3 as _ <-].
  apply bind_run in H3 as (r5 & s5 & H5 & H3). pose proof (reads_guarded _ _ _ _ H5) as Hd5.
  unfold guarded in H5. rewrite Hx, Hg' in H5.
  destruct (CheckDeposit _ _ _ _ _ _) as [r6 e'] eqn:E in H5. injection H5 as <- <-.
  rewrite Hh in E.
  destruct (CheckDeposit_marks _ _ _ _ _ _ _ _ E Hne Hr) as (_ & _ & _ & Hno).
  destruct r6 as [[]|err]; [by destruct (Hno Hs Hthr)|].
  destruct H3 as [_ ->]. simpl in *. congruence.
Qed.

(** * Payments *)

Lemma reads_GetWallet tg : reads (GetWallet (X := WS) tg).
Proof. unfold GetWallet. reads_tac. Qed.

Lemma GetWallet_ok tg s w s' :
  GetWallet tg s = (Ok w, s') ->
  db s' = db s /\ ext s' = ext s /\
  match w with Some w => w ∈ rows (wallets (db s)) /\ w_TelegramID w = tg | None => True end.
Proof.
  unfold GetWallet. intros H. pose proof (first_opt_ext _ _ _ _ H). apply first_opt_ok in H as [E Hd].
  split; [done|]. split; [done|]. destruct w as [w|]; [|done]. symmetry in E.
  apply first_row_some in E as [? ?]. zbool. done.
Qed.

(** In consistent tables a row is stored under its own id. *)
Lemma row_lookup d w : pay_inv d -> w ∈ rows (wallets d) -> wallets d !! w_ID w = Some w.
Proof.
  intros I Hw. apply elem_of_rows in Hw as [k Hk].
  by rewrite (ok_id _ _ _ (inv_wallets _ I _ _ Hk)).
Qed.

Lemma Pay_cases order tg amt sv ref ds s r s' :
  Pay order tg amt sv ref ds s = (r, s') -> pay_inv (db s) -> amt <= int64_max ->
  match r with
  | Err e => db s' = db s
  | Ok t => exists w, w ∈ rows (wallets (db s)) /\ w_TelegramID w = tg /\ HasEnough w amt = true /\ 0 < amt /\
      (forall g, ws_guard (ext s) = Some g -> exists n,
         fst (CheckDeduct order (w_TONAddress w) tg amt sv ref (mkSt n NoTx tt g)) = Ok tt) /\
      ((find_payment (w_ID w) sv ref (db s) = Some t /\ db s' = db s) \/
       ((ref = ""%string \/ find_payment (w_ID w) sv ref (db s) = None) /\
        is_payment (w_ID w) amt sv ref t /\
        db s' = debited (db s) w (Z.min (w_Credit w) amt) (amt - Z.min (w_Credit w) amt) t))
  end /\
  (forall w, w ∈ rows (wallets (db s)) -> w_TelegramID w = tg -> HasEnough w amt = false ->
     (forall w', w' ∈ rows (wallets (db s)) -> w_TelegramID w' = tg -> w' = w) ->
     quiet_from (tick s) -> tx s = NoTx ->
     exists e, r = Err e /\ errors_Is e ErrInsufficientBalance = true).
Proof.
  intros H I Ha. split.
  - unfold Pay in H. apply bind_run in H as (r1 & s1 & H1 & H). destruct r1 as [ow|e].
    2: { destruct H as [-> ->]. by apply reads_GetWallet in H1. }
    apply GetWallet_ok in H1 as (Hd1 & Hx1 & Hw).
    destruct ow as [w|]; [|by injection H as <- <-]. destruct Hw as [Hw Htg].
    destruct (HasEnough w amt) eqn:Hen; simpl in H; [|by injection H as <- <-].
    apply bind_run in H as (r2 & s2 & H2 & H).
    assert (Hd2 : db s2 = db s1) by (apply reads_wrap_err in H2; [done|apply reads_guarded]).
    destruct r2 as [[]|e]; [|destruct H as [-> ->]; congruence].
    apply wrap_err_ok in H2. apply bind_run in H as (r3 & s3 & H3 & H).
    pose proof (row_lookup _ _ I Hw) as Hlk.
    apply Deduct_cases in H3; [|done|].
    2: { rewrite Hd2, Hd1. intros w' Hw'. by destruct (inv_wallets _ I _ _ Hw'). }
    rewrite Hd2, Hd1 in H3.
    destruct r3 as [t|e]; [|destruct H as [-> ->]; done].
    apply bind_run in H as (r4 & s4 & H4 & H). pose proof (reads_publish _ _ _ _ _ H4) as Hd4.
    destruct r4 as [u|e]; [|destruct H as [-> ->]; exfalso;
      match type of H4 with publish ?a ?b ?c = _ => destruct (publish_ok a b c) as (? & E & _) end; congruence].
    injection H as <- <-. destruct H3 as (Hpos & H3).
    exists w. do 4 (split; [done|]). split.
    { intros g Hg. unfold guarded in H2. rewrite Hx1, Hg in H2.
      destruct (CheckDeduct _ _ _ _ _ _ _) as [r6 s6] eqn:E6 in H2. injection H2 as -> _.
      exists (tick s1). by rewrite E6. }
    rewrite Hd4. destruct H3 as [(_ & Hf & Hd)|(Hn & w' & c & u' & Hw' & _ & -> & -> & Hp & Hd)]; [by left|].
    right. assert (w' = w) as -> by congruence. done.
  - intros w Hw Htg Hen Huniq Hq Ht. unfold Pay in H.
    assert (Hf : first_row w_ID (fun w => w_TelegramID w =? tg) (rows (wallets (db s))) = Some w).
    { apply first_by_unique; [done|by apply Z.eqb_eq|]. intros w' Hw' E. apply Z.eqb_eq in E. auto. }
    erewrite bind_intro in H; [|unfold GetWallet, first_opt; eapply bind_intro;
      [apply try_intro, first_quiet; [auto with botpay|by rewrite Ht]|cbv beta; rewrite Hf; reflexivity]|reflexivity].
    rewrite Hen in H. simpl in H. injection H as <- _. eexists. split; [done|]. reflexivity.
Qed.

(** Paying, whatever fails: an error changes no table, and a wallet that
    does not have enough is reported as ErrInsufficientBalance; success means
    the user's wallet has enough, consensus agreed when there is a guard, and
    Deduct charged the wallet once for this service and ref. *)
Theorem Pay_outcomes order tg amt sv ref ds s r s' :
  Pay order tg amt sv ref ds s = (r, s') -> pay_inv (db s) -> amt <= int64_max ->
  match r with
  | Err e => db s' = db s
  | Ok t => exists w, w ∈ rows (wallets (db s)) /\ w_TelegramID w = tg /\ HasEnough w amt = true /\ 0 < amt /\
      (forall g, ws_guard (ext s) = Some g -> exists n,
         fst (CheckDeduct order (w_TONAddress w) tg amt sv ref (mkSt n NoTx tt g)) = Ok tt) /\
      ((find_payment (w_ID w) sv ref (db s) = Some t /\ db s' = db s) \/
       ((ref = ""%string \/ find_payment (w_ID w) sv ref (db s) = None) /\
        is_payment (w_ID w) amt sv ref t /\
        db s' = debited (db s) w (Z.min (w_Credit w) amt) (amt - Z.min (w_Credit w) amt) t))
  end /\
  (forall w, w ∈ rows (wallets (db s)) -> w_TelegramID w = tg -> HasEnough w amt = false ->
     (forall w', w' ∈ rows (wallets (db s)) -> w_TelegramID w' = tg -> w' = w) ->
     quiet_from (tick s) -> tx s = NoTx ->
     exists e, r = Err e /\ errors_Is e ErrInsufficientBalance = true).
Proof. apply Pay_cases. Qed.

(** * Withdrawal requests *)

(** A withdrawal request that is accepted and whose amount plus fee does
    not overflow names a well-formed address, is at least the minimum, was
    covered by the free balance, is stored as pending, and reserves exactly
    amount plus fee; when it is refused no table changes. *)
Theorem RequestWithdraw_reserves tg addr amt note s r s' :
  RequestWithdraw tg addr amt note s = (r, s') -> pay_inv (db s) -> amt + NetworkFeeNano <= int64_max ->
  match r with
  | Err _ => db s' = db s
  | Ok req => IsValidTONAddress addr = true /\ MinWithdrawNano <= amt /\
      wr_Amount req = amt /\ wr_Fee req = NetworkFeeNano /\ wr_ToAddress req = addr /\
      wr_Status req = WithdrawPending /\
      exists w, wallets (db s) !! wr_WalletID req = Some w /\ w_TelegramID w = tg /\
        amt + NetworkFeeNano <= w_TONBalance w + w_Credit w - w_Frozen w /\
        wallets (db s') = <[wr_WalletID req := with_balances w (w_TONBalance w) (w_Credit w)
                              (w_Frozen w + (amt + NetworkFeeNano))]> (wallets (db s)) /\
        withdraw_requests (db s') = <[wr_ID req := req]> (withdraw_requests (db s)) /\
        withdraw_requests (db s) !! wr_ID req = None
  end.
Proof.
  intros H I Ho. unfold RequestWithdraw in H.
  destruct (IsValidTONAddress addr) eqn:Ev; simpl in H; [|by injection H as <- <-].
  destruct (amt <? MinWithdrawNano) eqn:Em; [by injection H as <- <-|]. zbool.
  apply bind_run in H as (r1 & s1 & H1 & H). apply try_run in H1 as (q & -> & H1).
  pose proof (reads_GetWallet _ _ _ _ H1) as Hd1.
  destruct q as [[w|]|]; [|by injection H as <- <-..].
  apply GetWallet_ok in H1 as (_ & _ & Hw & Htg). pose proof (row_lookup _ _ I Hw) as Hlk.
  destruct (HasEnough w _) eqn:Hen in H; simpl in H; [|by injection H as <- <-].
  apply bind_run in H as (r2 & s2 & H2 & H). apply try_run in H2 as (q & -> & H2).
  assert (Htot : i64_add amt NetworkFeeNano = amt + NetworkFeeNano)
    by (unfold MinWithdrawNano, NetworkFeeNano in *; i64; lia).
  destruct q as [req|e].
  2: { assert (Hd2 : db s2 = db s1) by (by apply transaction_atomic in H2).
       destruct (errors_Is _ _); injection H as <- <-; congruence. }
  injection H as <- <-.
  unfold CreateWithdraw in H2. apply transaction_ok in H2 as (s3 & Hm & ->). run_inv.
  match goal with K : insert_withdraw ?q _ = Ok _ |- _ =>
    unfold insert_withdraw in K; destruct (bool_decide (is_Some _)) eqn:Hn in K; [done|];
    injection K as K end.
  zbool. apply eq_None_not_Some in Hn. use_update; [congruence|].
  unfold wr_total in *. simpl in *. rewrite Htot in *. rewrite Hd1 in *.
  match goal with K1 : wallets (db s) !! w_ID w = Some ?a |- _ => assert (a = w) as -> by congruence end.
  repeat match goal with K : wallets (db s) !! w_ID w = Some ?a |- _ => 
    tryif constr_eq a w then fail else (assert (a = w) as -> by congruence) end.
  destruct (inv_wallets _ I _ _ Hlk).
  match goal with K : HasEnough _ _ = true |- _ => apply HasEnough_free in K; [|lia] end.
  subst. simpl in *. rewrite !Z.add_0_r in *.
  do 6 (split; [done|]). exists w. do 3 (split; [done|]). repeat split; try done; lia.
Qed.
End spec.

(** * Examples *)

Section demo.
#[local] Existing Instance demo_lib.
#[local] Existing Instance demo_crypto.
#[local] Existing Instance demo_crypto_laws.

Definition demo_locales : Locales := {| bundles := fun _ _ => None; DefaultLang := FA |}.
#[local] Existing Instance demo_locales.

Definition demo_ws : WS :=
  {| ws_guard := Some (ext demo_engine); ws_nats := true; ws_notify := true; ws_outbox := [];
     ws_sent := []; ws_masterAddr := "UQmaster" |}.

Definition demo_service (d : Tables) : st Tables WS := mkSt 100 NoTx d demo_ws.

Definition demo_event (amt : Z) (hash code : string) : DepositEvent :=
  {| ev_TelegramID := 0; ev_WalletID := ""; ev_AmountNano := amt; ev_AmountTON := NanoToTON amt;
     ev_TxHash := hash; ev_FromAddr := "UQsender"; ev_InvoiceCode := code |}.

(** One statement fails, at effect [k]. *)
Definition flaky_env (k : nat) : Env := {|
  env_fault := fun n => if (n =? k)%nat then Some 57 else None;
  env_now := fun n => Z.of_nat n;
  env_uuid := fun n => N.of_nat (1000 + n);
  env_random := fun n => String (ascii_of_nat n) "abc";
  idx_tx_hash := true;
|}.

Definition demo_addr : string := "UQAbcdefghijklmnopqrstuvwxyz0123456789ABCDEFGHIJ".

Lemma demo_inv : pay_inv (db demo_3).
Proof. apply (reachable_inv (ENV := calm_env) tt demo_3 demo_reachable_3). Qed.

Definition demo_deposit : DepositEvent := demo_event 300 "hash-0123456789" "u_qglj".

Definition demo_handled : st Tables WS := Eval vm_compute in
  snd (@HandleDeposit calm_env _ _ _ demo_order demo_deposit (demo_service (db demo_3))).

Lemma demo_handles :
  @HandleDeposit calm_env _ _ _ demo_order demo_deposit (demo_service (db demo_3)) = (Ok tt, demo_handled).
Proof. vm_compute. reflexivity. Qed.

Lemma HandleDeposit_outcomes_witness :
  exists w t, designates "u_qglj" (db demo_3) w /\ t_Amount t = 300 /\
    wallets (db demo_handled) = wallets (credited (db demo_3) w t).
Proof.
  destruct (HandleDeposit_outcomes _ _ _ _ _ demo_handles demo_inv)
    as [(_ & Ht & _)|(w & t & Hd & _ & _ & _ & Ha & _ & (Hw & _) & _)].
  - exfalso. apply (f_equal length) in Ht. vm_compute in Ht. discriminate Ht.
  - exists w, t. split; [exact Hd|]. split; [exact Ha|exact Hw].
Defined.

(** The first statement of the credit fails after the workers approved; the
    watcher's next attempt is refused, and the wallet never gets the money. *)
Definition lost_1 : st Tables WS := Eval vm_compute in
  snd (@HandleDeposit (flaky_env 109) _ _ _ demo_order demo_deposit (demo_service (db demo_3))).

Lemma lost_1_eq :
  @HandleDeposit (flaky_env 109) _ _ _ demo_order demo_deposit (demo_service (db demo_3)) =
  (Err (Wrapf "deposit to wallet: %w" [] (ErrDriver 57)), lost_1).
Proof. vm_compute. reflexivity. Qed.

Lemma lost_target : exists w oi st1,
  @deposit_target (flaky_env 109) demo_deposit (demo_service (db demo_3)) = (Ok (Some w, oi), st1).
Proof. do 3 eexists. vm_compute. reflexivity. Qed.

Definition lost_2 : st Tables WS := Eval vm_compute in
  snd (@HandleDeposit (flaky_env 109) _ _ _ demo_order demo_deposit lost_1).

Lemma lost_2_eq : exists r,
  @HandleDeposit (flaky_env 109) _ _ _ demo_order demo_deposit lost_1 = (r, lost_2).
Proof. eexists. vm_compute. reflexivity. Qed.

Lemma deposit_attempted_once_witness : db lost_2 = db demo_3.
Proof.
  destruct lost_target as (w & oi & st1 & Ht). destruct lost_2_eq as [r E2].
  rewrite (deposit_attempted_once demo_order demo_deposit _ _ lost_1 w oi st1 [] (Ok tt) lost_1
    demo_order demo_deposit r lost_2 lost_1_eq Ht ltac:(discriminate)); try reflexivity; try exact E2.
  exists (ext demo_engine). split; [reflexivity|]. split; [apply demo_ready|]. vm_compute. discriminate.
Defined.

Definition paid_1 : st Tables WS := Eval vm_compute in
  snd (@Pay calm_env _ _ demo_order 1234567 700 "bot_1" "ref" "plan" (demo_service (db demo_3))).

Lemma demo_pays : exists t,
  @Pay calm_env _ _ demo_order 1234567 700 "bot_1" "ref" "plan" (demo_service (db demo_3)) = (Ok t, paid_1).
Proof. eexists. vm_compute. reflexivity. Qed.

Lemma Pay_outcomes_witness : exists w t, w_TelegramID w = 1234567 /\
  (find_payment (w_ID w) "bot_1" "ref" (db demo_3) = Some t \/ is_payment (w_ID w) 700 "bot_1" "ref" t).
Proof.
  destruct demo_pays as [t E].
  destruct (Pay_outcomes _ _ _ _ _ _ _ _ _ E demo_inv ltac:(done)) as [(w & _ & Htg & _ & _ & _ & H) _].
  exists w, t. split; [exact Htg|]. destruct H as [[Hf _]|(_ & Hp & _)]; [left; exact Hf|right; exact Hp].
Defined.

Definition rich_tables : Tables := Eval vm_compute in
  db (snd (@Deposit unit calm_env 1001 900000000 "h9" "UQa" "" demo_3)).

Lemma rich_inv : pay_inv rich_tables.
Proof.
  destruct (@Deposit unit calm_env 1001 900000000 "h9" "UQa" "" demo_3) as [r s'] eqn:E.
  assert (Es : rich_tables = db s').
  { assert (K := f_equal (fun p => db (snd p)) E). cbn [snd] in K. rewrite <- K. vm_compute. reflexivity. }
  rewrite Es. eapply (Deposit_inv (ENV := calm_env) _ _ _ _ _ _ _ _ E); [done| |apply demo_inv].
  eexists. vm_compute. reflexivity.
Qed.

Definition requested : st Tables WS := Eval vm_compute in
  snd (@RequestWithdraw calm_env 1234567 demo_addr 100000000 "" (demo_service rich_tables)).

Lemma demo_requests : exists q,
  @RequestWithdraw calm_env 1234567 demo_addr 100000000 "" (demo_service rich_tables) = (Ok q, requested).
Proof. eexists. vm_compute. reflexivity. Qed.

Lemma RequestWithdraw_reserves_witness : exists q w, wr_Status q = WithdrawPending /\
  wallets (db requested) = <[wr_WalletID q := with_balances w (w_TONBalance w) (w_Credit w)
    (w_Frozen w + 110000000)]> (wallets rich_tables).
Proof.
  destruct demo_requests as [q E].
  destruct (RequestWithdraw_reserves _ _ _ _ _ _ _ E rich_inv ltac:(vm_compute; discriminate))
    as (_ & _ & _ & _ & _ & Hst & w & _ & _ & _ & Hw & _).
  exists q, w. split; [exact Hst|exact Hw].
Defined.

(** What a user with no money at all can do. *)
Definition poor_0 : st Tables WS := demo_service (demo_tables 0 0 0 0).
Definition poor_1 : result WithdrawRequest * st Tables WS :=
  @RequestWithdraw calm_env 1234567 demo_addr (@TONToNano amd64 (f64_const 922337203685 100)) "" poor_0.
Definition poor_2 : result Transaction * st Tables WS :=
  @Pay calm_env _ _ demo_order 1234567 50000000000000 "bot_1" "ref" "plan" (snd poor_1).

(** The fee addition in RequestWithdraw overflows int64: from an empty
    wallet, asking to withdraw 9223372036.85 TON is accepted, leaves a hugely
    negative frozen amount, and a payment of 50000 TON then goes through and
    leaves the TON balance at minus 50000 TON. *)
Theorem withdraw_overflow_unlocks :
  match fst poor_1 with Ok q => wr_total q <? 0 | Err _ => false end = true /\
  match fst poor_2 with Ok t => t_Amount t =? -50000000000000 | Err _ => false end = true /\
  match wallets (db (snd poor_2)) !! 1%N with
  | Some w => (w_TONBalance w =? -50000000000000) && (w_Credit w =? 0) && (w_Frozen w <? 0)
  | None => false
  end = true.
Proof. repeat split; vm_compute; reflexivity. Qed.
End demo.
