(* ===== verification/PayResponder.v ===== *)
(** botpay/internal/payresponder/responder.go with the messages of
    shared-core/protocol and the service keys of shared/pkg/auth: the
    request/reply interface every other service pays through. *)
From S2P Require Import Prelude GoInt GoFloat GoString Effects PayModels PayChain PayStore Consensus Localization WalletService.

(** * Messages (shared-core/protocol) *)

Record PayRequest := { ServiceID : string; ServiceKey : string; TelegramID : Z }.

(** What the Error field of a response is made from. *)
Inductive ErrorText :=
| NoError
| Msg (text : string)
| ErrorOf (e : error).  (* err.Error() *)

Record BalanceResponse := {
  br_TelegramID : Z; br_TONBalance : float64; br_Credit : float64; br_Total : float64;
  br_Frozen : float64; br_TONAddress : string; br_Error : ErrorText;
}.

Record InvoiceRequest := { ir_Pay : PayRequest; ir_AmountTON : float64; ir_Ref : string }.
Record InvoiceResponse := {
  irs_Code : string; irs_MasterAddress : string; irs_AmountTON : float64; irs_ExpiresAt : Z;
  irs_Error : ErrorText;
}.

Inductive InvoiceStatusText := StPending | StPaid | StPartial | StExpired | StNotFound.
Record InvoiceStatusRequest := { isr_Pay : PayRequest; isr_Code : string }.
Record InvoiceStatusResponse := {
  isp_Status : InvoiceStatusText; isp_AmountTON : float64; isp_PaidTON : float64;
  isp_ExpiresAt : Z; isp_Error : ErrorText;
}.

Record AuthorizeResponse := { ar_Authorized : bool; ar_Error : ErrorText }.

Record DeductRequest := {
  dr_Pay : PayRequest; dr_AmountTON : float64; dr_Reason : string; dr_Ref : string;
  dr_Metadata : string; dr_IdempotencyKey : string;
}.

Inductive ErrorCode := ErrCodeNone | ErrCodeUnauthorized | ErrCodeInsufficientBalance | ErrCodeInternal.
Definition error_code (c : ErrorCode) : Z :=
  match c with
  | ErrCodeNone => 0 | ErrCodeUnauthorized => 1 | ErrCodeInsufficientBalance => 2 | ErrCodeInternal => 3
  end.

Record DeductResponse := {
  drs_Success : bool; drs_NewBalance : float64; drs_Error : ErrorText; drs_Code : ErrorCode;
}.

Record TransferRequest := {
  tr_Pay : PayRequest; tr_ToTelegramID : Z; tr_AmountTON : float64; tr_Desc : string;
}.

Definition SubjWalletUpdated : string := "wallet.updated".
Definition PayCompletedSubject (serviceID : string) : string := "pay.completed." +:+ serviceID.

(** encoding/json on the request types; [None] is an error. *)
Class Json := {
  unmarshal_PayRequest : string -> option PayRequest;
  unmarshal_InvoiceRequest : string -> option InvoiceRequest;
  unmarshal_InvoiceStatusRequest : string -> option InvoiceStatusRequest;
  unmarshal_DeductRequest : string -> option DeductRequest;
  unmarshal_TransferRequest : string -> option TransferRequest;
}.

(** * Service keys (shared/pkg/auth) *)

Definition ComputeServiceKey `{Crypto} (masterSecret serviceID : string) : string :=
  HexEncode (hmac_sha256 masterSecret serviceID).

Definition ValidateServiceKey `{Crypto} (masterSecret serviceID presentedKey : string) : bool :=
  if (masterSecret =? "")%string || (presentedKey =? "")%string then false
  else (ComputeServiceKey masterSecret serviceID =? presentedKey)%string.

(** * The responder *)

(** 1_000_000 TON *)
Definition maxTON : float64 := f64_of_int 1000000.

Definition validAmount (ton : float64) : bool :=
  if IsNaN ton || IsInf ton then false
  else if f64_le ton (f64_of_int 0) then false
  else f64_le ton maxTON.

(** The balance cache: entries by key; a marshalled response is kept as the
    response. *)
Record Cache := { c_enabled : bool; c_entries : gmap string BalanceResponse }.

Section responder.
Context {ENV : Env} {LIB : Lib} {CRYPTO : Crypto} {LOC : Locales} {JSON : Json} {FP : F64Platform}.
Context (serviceHMACSecret : string).
Abbreviation RM := (M Tables (WS * Cache)).

(** Set's error is dropped. *)
Definition cache_Set (key : string) (v : BalanceResponse) : RM unit := fun s =>
  match env_fault (tick s) with
  | Some _ => (Ok tt, bump s)
  | None => (Ok tt, mkSt (S (tick s)) (tx s) (db s)
      (fst (ext s), {| c_enabled := c_enabled (snd (ext s));
                       c_entries := <[key := v]> (c_entries (snd (ext s))) |}))
  end.

Definition balance_response (telegramID : Z) (w : Wallet) : BalanceResponse :=
  {| br_TelegramID := telegramID; br_TONBalance := NanoToTON (w_TONBalance w);
     br_Credit := NanoToTON (w_Credit w);
     br_Total := NanoToTON (i64_add (w_TONBalance w) (w_Credit w));
     br_Frozen := NanoToTON (w_Frozen w); br_TONAddress := w_TONAddress w; br_Error := NoError |}.

Definition balance_error (e : ErrorText) : BalanceResponse :=
  {| br_TelegramID := 0; br_TONBalance := S754_zero false; br_Credit := S754_zero false;
     br_Total := S754_zero false; br_Frozen := S754_zero false; br_TONAddress := ""; br_Error := e |}.

Definition writeBalanceCache (w : Wallet) : RM unit :=
  (x <- get_ext ;;
   if negb (c_enabled (snd x)) then ret tt
   else cache_Set ("wallet:" +:+ FormatInt 10 (w_TelegramID w)) (balance_response (w_TelegramID w) w))%eff.

Definition publishPayCompleted (req : DeductRequest) (txID : string) : RM unit :=
  lift (publish (PayCompletedSubject (ServiceID (dr_Pay req)))
    [("service_id", AStr (ServiceID (dr_Pay req))); ("telegram_id", AInt (TelegramID (dr_Pay req)));
     ("amount_ton", AFloat (dr_AmountTON req)); ("reason", AStr (dr_Reason req));
     ("ref", AStr (dr_Ref req)); ("metadata", AStr (dr_Metadata req)); ("tx_id", AStr txID);
     ("success", AInt 1)]).

Definition publishWalletUpdated (telegramID : Z) (reason : string) : RM unit :=
  lift (publish SubjWalletUpdated [("telegram_id", AInt telegramID); ("reason", AStr reason)]).

Definition authorize (serviceID serviceKey : string) : RM bool :=
  if (serviceHMACSecret =? "")%string then ret false
  else if negb (ValidateServiceKey serviceHMACSecret serviceID serviceKey) then ret false
  else if HasPrefix serviceID "bot_" then lift (ValidateBotInstance serviceID)
  else ret true.

Definition handleBalance (data : string) : RM BalanceResponse :=
  match unmarshal_PayRequest data with
  | None => ret (balance_error (Msg "bad request"))
  | Some req =>
      (ok <- authorize (ServiceID req) (ServiceKey req) ;;
       if negb (ok : bool) then ret (balance_error (Msg "unauthorized"))
       else
       (w <- try (lift (GetOrCreate (TelegramID req))) ;;
        match w with
        | Err e => ret (balance_error (ErrorOf e))
        | Ok w => ret (balance_response (TelegramID req) w)
        end))%eff
  end.

Definition invoice_error (e : ErrorText) : InvoiceResponse :=
  {| irs_Code := ""; irs_MasterAddress := ""; irs_AmountTON := S754_zero false; irs_ExpiresAt := 0;
     irs_Error := e |}.

(** time.Time.Unix *)
Definition Unix (t : Z) : Z := t / 1000000000.

Definition handleCreateInvoice (data : string) : RM InvoiceResponse :=
  match unmarshal_InvoiceRequest data with
  | None => ret (invoice_error (Msg "bad request"))
  | Some req =>
      (ok <- authorize (ServiceID (ir_Pay req)) (ServiceKey (ir_Pay req)) ;;
       if negb (ok : bool) then ret (invoice_error (Msg "unauthorized"))
       else if negb (validAmount (ir_AmountTON req)) then ret (invoice_error (Msg "invalid amount"))
       else
       (let nano := TONToNano (ir_AmountTON req) in
        inv <- try (lift (CreateDepositInvoice (TelegramID (ir_Pay req)) nano
                            (ServiceID (ir_Pay req)) (ir_Ref req))) ;;
        match inv with
        | Err e => ret (invoice_error (ErrorOf e))
        | Ok inv =>
            x <- get_ext ;;
            ret {| irs_Code := inv_Code inv; irs_MasterAddress := ws_masterAddr (fst x);
                   irs_AmountTON := ir_AmountTON req; irs_ExpiresAt := Unix (inv_ExpiresAt inv);
                   irs_Error := NoError |}
        end))%eff
  end.

Definition status_error (e : ErrorText) : InvoiceStatusResponse :=
  {| isp_Status := StNotFound; isp_AmountTON := S754_zero false; isp_PaidTON := S754_zero false;
     isp_ExpiresAt := 0; isp_Error := e |}.

(** The status shown for an invoice at time [t]. *)
Definition invoice_status (inv : Invoice) (t : Z) : InvoiceStatusText :=
  if bool_decide (inv_Status inv = InvoicePaid) then StPaid
  else if bool_decide (inv_Status inv = InvoiceExpired)
          || (bool_decide (inv_Status inv = InvoicePending) && (inv_ExpiresAt inv <? t)) then StExpired
  else if (inv_ReceivedNano inv >? 0) && (inv_Amount inv >? 0)
          && (inv_ReceivedNano inv <? inv_Amount inv) then StPartial
  else StPending.

Definition handleInvoiceStatus (data : string) : RM InvoiceStatusResponse :=
  match unmarshal_InvoiceStatusRequest data with
  | None => ret (status_error (Msg "bad request"))
  | Some req =>
      (ok <- authorize (ServiceID (isr_Pay req)) (ServiceKey (isr_Pay req)) ;;
       if negb (ok : bool) then ret (status_error (Msg "unauthorized"))
       else
       (inv <- try (lift (FindInvoiceByCode (isr_Code req))) ;;
        match inv with
        | Err e => ret (status_error (ErrorOf e))
        | Ok None => ret (status_error NoError)
        | Ok (Some inv) =>
            t <- now ;;
            ret {| isp_Status := invoice_status inv t; isp_AmountTON := NanoToTON (inv_Amount inv);
                   isp_PaidTON := NanoToTON (inv_ReceivedNano inv);
                   isp_ExpiresAt := Unix (inv_ExpiresAt inv); isp_Error := NoError |}
        end))%eff
  end.

Definition handleAuthorize (data : string) : RM AuthorizeResponse :=
  match unmarshal_PayRequest data with
  | None => ret {| ar_Authorized := false; ar_Error := Msg "bad request" |}
  | Some req =>
      (ok <- authorize (ServiceID req) (ServiceKey req) ;;
       if negb (ok : bool) then ret {| ar_Authorized := false; ar_Error := Msg "unauthorized" |}
       else
       (w <- try (lift (GetOrCreate (TelegramID req))) ;;
        match w with
        | Err e => ret {| ar_Authorized := false; ar_Error := ErrorOf e |}
        | Ok _ => ret {| ar_Authorized := true; ar_Error := NoError |}
        end))%eff
  end.

Definition deduct_error (e : ErrorText) (c : ErrorCode) : DeductResponse :=
  {| drs_Success := false; drs_NewBalance := S754_zero false; drs_Error := e; drs_Code := c |}.

(** The reference a payment is recorded under. *)
Definition effective_ref (req : DeductRequest) : string :=
  let ref := dr_Ref req in
  let ref := if (ref =? "")%string then dr_IdempotencyKey req else ref in
  if (ref =? "")%string then dr_Reason req else ref.

(** When the wallet cannot be read again the zero wallet is reported and cached. *)
Definition zero_wallet : Wallet :=
  {| w_ID := 0; w_TelegramID := 0; w_PayHandle := ""; w_TONBalance := 0; w_Credit := 0;
     w_TONAddress := ""; w_Frozen := 0; w_IsActive := false; w_Lang := "" |}.

Definition new_balance (telegramID : Z) : RM float64 :=
  (r <- try (lift (GetOrCreate telegramID)) ;;
   let w := match r with Ok w => w | Err _ => zero_wallet end in
   writeBalanceCache w ;;
   ret (NanoToTON (i64_add (w_TONBalance w) (w_Credit w))))%eff.

Definition handleDeduct (order : list (option nat)) (data : string) : RM DeductResponse :=
  match unmarshal_DeductRequest data with
  | None => ret (deduct_error (Msg "bad request") ErrCodeNone)
  | Some req =>
      (ok <- authorize (ServiceID (dr_Pay req)) (ServiceKey (dr_Pay req)) ;;
       if negb (ok : bool) then ret (deduct_error (Msg "unauthorized") ErrCodeUnauthorized)
       else if negb (validAmount (dr_AmountTON req)) then
         ret (deduct_error (Msg "invalid amount") ErrCodeInternal)
       else
       (let nano := TONToNano (dr_AmountTON req) in
        tx <- try (lift (Pay order (TelegramID (dr_Pay req)) nano (ServiceID (dr_Pay req))
                           (effective_ref req) (dr_Reason req))) ;;
        match tx with
        | Err e =>
            ret (deduct_error (ErrorOf e)
                   (if errors_Is e ErrInsufficientBalance then ErrCodeInsufficientBalance
                    else ErrCodeInternal))
        | Ok t =>
            newBal <- new_balance (TelegramID (dr_Pay req)) ;;
            publishWalletUpdated (TelegramID (dr_Pay req)) "payment" ;;
            publishPayCompleted req (uuid_String (t_ID t)) ;;
            ret {| drs_Success := true; drs_NewBalance := newBal; drs_Error := NoError;
                   drs_Code := ErrCodeNone |}
        end))%eff
  end.

Definition handleCredit (data : string) : RM DeductResponse :=
  match unmarshal_DeductRequest data with
  | None => ret (deduct_error (Msg "bad request") ErrCodeNone)
  | Some req =>
      (ok <- authorize (ServiceID (dr_Pay req)) (ServiceKey (dr_Pay req)) ;;
       if negb (ok : bool) then ret (deduct_error (Msg "unauthorized") ErrCodeNone)
       else if negb (validAmount (dr_AmountTON req)) then
         ret (deduct_error (Msg "invalid amount") ErrCodeNone)
       else
       (w <- try (lift (GetOrCreate (TelegramID (dr_Pay req)))) ;;
        match w with
        | Err e => ret (deduct_error (ErrorOf e) ErrCodeNone)
        | Ok w =>
            r <- try (lift (AddCredit (w_ID w) (TONToNano (dr_AmountTON req)) (dr_Reason req))) ;;
            match r with
            | Err e => ret (deduct_error (ErrorOf e) ErrCodeNone)
            | Ok _ =>
                newBal <- new_balance (TelegramID (dr_Pay req)) ;;
                publishWalletUpdated (TelegramID (dr_Pay req)) "refund" ;;
                ret {| drs_Success := true; drs_NewBalance := newBal; drs_Error := NoError;
                       drs_Code := ErrCodeNone |}
            end
        end))%eff
  end.

Definition handleTransfer (data : string) : RM ErrorText :=
  match unmarshal_TransferRequest data with
  | None => ret (Msg "bad request")
  | Some req =>
      (ok <- authorize (ServiceID (tr_Pay req)) (ServiceKey (tr_Pay req)) ;;
       if negb (ok : bool) then ret (Msg "unauthorized")
       else if negb (validAmount (tr_AmountTON req)) then ret (Msg "invalid amount")
       else
       (r <- try (lift (Service_Transfer (TelegramID (tr_Pay req)) (tr_ToTelegramID req)
                          (TONToNano (tr_AmountTON req)) (tr_Desc req))) ;;
        match r with
        | Err e => ret (ErrorOf e)
        | Ok _ =>
            publishWalletUpdated (TelegramID (tr_Pay req)) "transfer" ;;
            publishWalletUpdated (tr_ToTelegramID req) "transfer" ;;
            ret NoError  (* {"success": true} *)
        end))%eff
  end.
End responder.
