(* ===== verification/PayResponderSpec.v ===== *)
(** What the request/reply interface guarantees: who may call it, which amounts
    it lets through, and that a retried payment is charged once. *)
From S2P Require Import Prelude GoInt GoFloat GoString Effects PayModels PayChain PayStore PayInvariant PayStoreSpec Consensus ConsensusSpec Localization WalletService WalletServiceSpec PayResponder.

(** * Amounts *)

(** An amount that passes validAmount converts to between 0 and 10^15
    nano-TON, the same on every platform: the conversion neither overflows nor
    depends on what the processor does out of range. *)
Theorem validAmount_bounds x :
  f64_valid x -> validAmount x = true ->
  exists z, 0 <= z <= 1000000 * 1000000000 /\ forall P : F64Platform, @TONToNano P x = z.
Proof.
  intros Hv Ha. unfold validAmount in Ha.
  assert (Hz : exists z, f64_trunc (f64_mul x f64_1e9) = Some z /\ 0 <= z <= 1000000 * 1000000000).
  { destruct x as [b|b| |b m e]; try discriminate; try by destruct b.
    destruct b; [discriminate|]. simpl IsNaN in Ha. simpl IsInf in Ha. cbn [orb] in Ha.
    destruct (f64_le (S754_finite false m e) (f64_of_int 0)); [done|].
    change maxTON with (S754_finite false 8589934592000000 (-33)) in Ha.
    apply (f64_le_finite m e 8589934592000000 (-33) Hv ltac:(lia)) in Ha as [He Hm].
    change f64_1e9 with (S754_finite false 8388608000000000 (-23)).
    unfold f64_mul, SFmul. cbn [xorb]. apply binary_round_aux_bounded; [lia|lia|].
    unfold shr_bounded. simpl shr_m. split; [|done]. split; [done|].
    replace (- (e + -23)) with ((-33 - e) + 33 + 23) by lia.
    rewrite !Z.pow_add_r by lia. rewrite Pos2Z.inj_mul. 
    set (p := 2 ^ (-33 - e)) in *.
    apply Z.le_trans with (Z.pos 8589934592000000 * p * Z.pos 8388608000000000);
      [apply Z.mul_le_mono_nonneg_r; lia|]. lia. }
  destruct Hz as (z & Ht & Hz). exists z. split; [done|]. intros P. unfold TONToNano, int64_of_f64.
  rewrite Ht. rewrite (proj2 (in_int64b_spec z)); [done|]. unfold in_int64, int64_min, int64_max. lia.
Qed.

Lemma validAmount_bounds_witness :
  exists z, 0 <= z <= 1000000 * 1000000000 /\ @TONToNano amd64 (f64_const 5 2) = z /\ z = 2500000000.
Proof.
  destruct (validAmount_bounds (f64_const 5 2)) as (z & Hz & HP); [vm_compute; reflexivity..|].
  exists z. split; [exact Hz|]. split; [apply HP|]. rewrite <- (HP amd64). vm_compute. reflexivity.
Defined.

Section spec.
Context {ENV : Env} {LIB : Lib} {CRYPTO : Crypto} {LOC : Locales} {JSON : Json} {FP : F64Platform}.
Context (secret : string).
Implicit Types s : st Tables (WS * Cache).

(** * Authorization *)

Lemma authorize_refuses id key s :
  ValidateServiceKey secret id key = false -> authorize secret id key s = (Ok false, s).
Proof. intros H. unfold authorize. rewrite H. by destruct (secret =? "")%string. Qed.

Lemma ValidateServiceKey_spec id key :
  ValidateServiceKey secret id key = true <->
  secret <> ""%string /\ key <> ""%string /\ key = ComputeServiceKey secret id.
Proof.
  unfold ValidateServiceKey.
  destruct (String.eqb_spec secret ""), (String.eqb_spec key ""); simpl;
    try (split; [discriminate|intros (? & ? & ?); contradiction]).
  rewrite String.eqb_eq. naive_solver.
Qed.


(** An active instance of bot [id]. *)
Definition active_bot (id : string) (d : Tables) : Prop :=
  exists botID st, ParseInt 10 (TrimPrefix id "bot_") = Some botID /\
    (botID, st) ∈ bot_instances d /\ st <> "deleted"%string.

Lemma count_pos {A} (P : A -> bool) l :
  (Z.of_nat (length (List.filter P l)) >? 0) = true <-> exists x, x ∈ l /\ P x = true.
Proof.
  rewrite Z.gtb_lt. split.
  - destruct (List.filter P l) as [|x k] eqn:E; [simpl; lia|]. intros _.
    assert (Hx : In x (List.filter P l)) by (rewrite E; by left).
    apply filter_In in Hx. exists x. by rewrite list_elem_of_In.
  - intros (x & Hx & Px). assert (Hin : In x (List.filter P l)).
    { apply filter_In. by rewrite <- list_elem_of_In. }
    destruct (List.filter P l); [done|simpl; lia].
Qed.

(** With working statements, authorize accepts exactly the requests whose
    key is the HMAC of the service name under the configured secret and, for a
    customer bot, whose bot number has an instance that is not "deleted"; an
    instance in any other state, also a stopped one, is accepted. *)
Theorem authorize_decides id key s :
  quiet_from (tick s) -> tx s = NoTx -> Z.of_nat (length (bot_instances (db s))) <= int64_max ->
  fst (authorize secret id key s) = Ok true <->
  secret <> ""%string /\ key <> ""%string /\ key = ComputeServiceKey secret id /\
  (HasPrefix id "bot_" = true -> active_bot id (db s)).
Proof.
  intros Hq Ht Hn. unfold authorize.
  destruct (String.eqb_spec secret "") as [E|Hs]; [simpl; split; [discriminate|by intros [? _]]|].
  destruct (ValidateServiceKey secret id key) eqn:Ev; cbn [negb].
  2: { split; [discriminate|]. intros (H1 & H2 & H3 & _).
       rewrite (proj2 (ValidateServiceKey_spec id key)) in Ev by done. discriminate. }
  apply ValidateServiceKey_spec in Ev as (_ & Hk & Ek).
  destruct (HasPrefix id "bot_") eqn:Ep; [|split; [intros _; repeat split; done|intros _; reflexivity]].
  unfold lift, ValidateBotInstance. rewrite Ep. cbn [negb]. unfold active_bot.
  destruct (ParseInt 10 (TrimPrefix id "bot_")) as [b|] eqn:Eb.
  2: { simpl. split; [discriminate|]. intros (_ & _ & _ & H). destruct (H eq_refl) as (? & ? & ? & _). done. }
  set (q := fun d => _) in *.
  assert (Hrun : scan q (mkSt (tick s) (tx s) (db s) (fst (ext s))) =
                 (Ok (q (db s)), bump (mkSt (tick s) (tx s) (db s) (fst (ext s))))).
  { unfold scan. eapply bind_intro; [apply try_intro, find_quiet; [by apply quiet_now|by rewrite Ht]|].
    unfold ret. rewrite (proj2 (in_int64b_spec _)); [done|].
    unfold in_int64, int64_min, q. simpl.
    pose proof (filter_length_le
      (fun r : Z * string => (r.1 =? b) && negb (r.2 =? "deleted")%string) (bot_instances (db s))). lia. }
  unfold bind. rewrite Hrun. unfold q, ret. cbn [fst].
  transitivity (exists x, x ∈ bot_instances (db s) /\ (x.1 =? b) && negb (x.2 =? "deleted")%string = true).
  { rewrite <- count_pos. split; [by intros [= ->]|by intros ->]. }
  split.
  - intros ([i st] & Hx & Hc). destruct_hyps. zbool. simpl in *. subst. repeat split; try done.
    intros _. eauto 10.
  - intros (_ & _ & _ & H). destruct (H eq_refl) as (b' & st & [= <-] & Hx & Hne). exists (b, st).
    split; [done|]. simpl. rewrite Z.eqb_refl. simpl. apply negb_true_iff. by apply String.eqb_neq.
Qed.

(** * Payments *)

Lemma reads_authorize id key : reads (authorize secret id key).
Proof.
  unfold authorize, ValidateBotInstance, scan. reads_tac.
Qed.

(** Everything a wallet lookup can do: it never touches a transaction. *)
Definition kept (d d' : Tables) : Prop :=
  transactions d' = transactions d /\ withdraw_requests d' = withdraw_requests d /\
  (pay_inv d -> pay_inv d').

#[local] Instance kept_refl : Reflexive kept.
Proof. done. Qed.

Lemma insert_wallet_kept w d d0 d' :
  w_TONBalance w = 0 -> w_Credit w = 0 -> w_Frozen w = 0 ->
  insert_wallet w d = Ok d' -> kept d0 d -> kept d0 d'.
Proof.
  intros Et Ec Ef Hd (K1 & K2 & K3). pose proof (insert_wallet_inv _ _ _ Hd Et Ec Ef) as Hi.
  unfold insert_wallet in Hd. destruct (bool_decide _) in Hd; [done|].
  do 2 (destruct (existsb _ _) in Hd; [done|]). injection Hd as <-. split; [done|]. split; [done|]. auto.
Qed.

Lemma update_pay_handle_kept id h d d0 d' : update_pay_handle id h d = Ok d' -> kept d0 d -> kept d0 d'.
Proof.
  intros Hd (K1 & K2 & K3). pose proof (update_pay_handle_inv _ _ _ _ Hd) as Hi.
  unfold update_pay_handle, update_wallet in Hd. destruct (existsb _ _) in Hd; [done|].
  destruct (wallets d !! id); injection Hd as <-; (split; [done|]; split; [done|]; auto).
Qed.

Lemma GetOrCreateWallet_kept {X} tg addr (a b : st Tables X) r :
  GetOrCreateWallet tg addr a = (r, b) -> kept (db a) (db b).
Proof.
  intros H. unfold GetOrCreateWallet in H.
  apply bind_run in H as (r1 & s1 & E1 & H). apply try_run in E1 as (q & -> & E1).
  apply first_db in E1. rewrite <- E1. clear E1.
  apply bind_run in H as (r2 & s2 & E2 & H). assert (K : kept (db s1) (db s2)).
  { destruct q as [w|[]]; try (injection E2 as _ <-; reflexivity).
    apply bind_run in E2 as (r3 & s3 & E3 & E2). injection E3 as <- <-.
    apply bind_run in E2 as (r4 & s4 & E4 & E2).
    apply (exec_inv (kept (db s1))) in E4; [|reflexivity|intros d Hd; by eapply insert_wallet_kept; [..|exact Hd|]].
    destruct r4; [by injection E2 as _ <-|by destruct E2 as [_ ->]]. }
  destruct r2 as [w|e]; [|by destruct H as [_ ->]].
  destruct (_ =? "")%string; [|by injection H as _ <-].
  apply bind_run in H as (r3 & s3 & E3 & H). apply try_run in E3 as (q3 & -> & E3).
  apply (exec_inv (kept (db s1))) in E3; [|done|intros d Hd; by eapply update_pay_handle_kept; [exact Hd|]].
  destruct q3; by injection H as _ <-.
Qed.

Lemma new_balance_kept tg s : exists v s', new_balance tg s = (Ok v, s') /\ kept (db s) (db s').
Proof.
  unfold new_balance.
  destruct (lift (GetOrCreate tg) s) as [r1 s1] eqn:E1.
  assert (Hk : kept (db s) (db s1)).
  { unfold lift in E1. destruct (GetOrCreate tg _) as [r2 s2] eqn:E2. injection E1 as _ <-.
    unfold GetOrCreate in E2. apply bind_run in E2 as (r3 & s3 & E3 & E2). injection E3 as <- <-.
    by apply GetOrCreateWallet_kept in E2. }
  set (w := match r1 with Ok w => w | Err _ => zero_wallet end).
  assert (Hc : exists s2, writeBalanceCache w s1 = (Ok tt, s2) /\ db s2 = db s1).
  { unfold writeBalanceCache, bind, get_ext. destruct (negb _); [by exists s1|].
    unfold cache_Set. destruct (env_fault _); by eexists. }
  destruct Hc as (s2 & E2 & Hd). do 2 eexists. split.
  - eapply bind_intro; [by apply try_intro|]. cbv zeta. fold w.
    eapply bind_intro; [exact E2|reflexivity].
  - by rewrite Hd.
Qed.

Lemma lift_publish_ok sub p s : exists s', lift (publish sub p) s = (Ok tt, s') /\ db s' = db s.
Proof.
  unfold lift. destruct (publish_ok sub p (mkSt (tick s) (tx s) (db s) (fst (ext s)))) as (s1 & -> & Hd).
  by eexists.
Qed.

Lemma Pay_error_keeps order tg amt sv ref ds (a b : st Tables WS) e :
  Pay order tg amt sv ref ds a = (Err e, b) -> db b = db a.
Proof.
  unfold Pay. intros H. apply bind_run in H as (r1 & s1 & H1 & H).
  pose proof (reads_GetWallet _ _ _ _ H1) as Hd1.
  destruct r1 as [[w|]|e1]; [|by injection H as _ <-|by destruct H as [_ ->]].
  destruct (negb _); [by injection H as _ <-|].
  apply bind_run in H as (r2 & s2 & H2 & H).
  assert (Hd2 : db s2 = db s1) by (eapply reads_wrap_err in H2; [done|apply reads_guarded]).
  destruct r2; [|destruct H as [_ ->]; congruence].
  apply bind_run in H as (r3 & s3 & H3 & H).
  destruct r3 as [t|e3].
  - apply bind_run in H as (r4 & s4 & H4 & H).
    edestruct publish_ok as (? & E & _). rewrite E in H4. by injection H4 as <- <-.
  - destruct H as [_ ->]. transitivity (db s2); [|congruence].
    unfold Deduct in H3. destruct (_ <=? 0); [by injection H3 as _ <-|by apply transaction_atomic in H3].
Qed.

Lemma Pay_inv order tg amt sv ref ds (a b : st Tables WS) r :
  Pay order tg amt sv ref ds a = (r, b) -> amt <= int64_max -> pay_inv (db a) -> pay_inv (db b).
Proof.
  intros H Ha I. destruct r as [t|e]; [|by rewrite (Pay_error_keeps _ _ _ _ _ _ _ _ _ H)].
  unfold Pay in H. apply bind_ok in H as (w & s1 & H1 & H).
  pose proof (reads_GetWallet _ _ _ _ H1) as Hd1. destruct w as [w|]; [|discriminate].
  destruct (negb _); [discriminate|]. apply bind_ok in H as (u & s2 & H2 & H).
  assert (Hd2 : db s2 = db s1) by (eapply reads_wrap_err in H2; [done|apply reads_guarded]).
  apply bind_ok in H as (t' & s3 & H3 & H). apply Deduct_inv in H3; [|done|by rewrite Hd2, Hd1].
  apply bind_ok in H as (u' & s4 & H4 & [= _ <-]). by rewrite (reads_publish _ _ _ _ _ H4).
Qed.

Lemma authorize_answers id key s : exists b, fst (authorize secret id key s) = Ok b.
Proof.
  unfold authorize, ret. destruct (_ =? "")%string; [by eexists|]. destruct (negb _); [by eexists|].
  destruct (HasPrefix id "bot_") eqn:Ep; [|by eexists].
  unfold lift, ValidateBotInstance. rewrite Ep. cbn [negb].
  destruct (ParseInt _ _); [|by eexists]. unfold scan, bind, try, ret.
  destruct (find _ _) as [[?|?] ?]; by eexists.
Qed.

(** How a payment request ends: the amount never leaves [Pay]'s hands. *)
Lemma handleDeduct_run order data s : exists rs s', handleDeduct secret order data s = (Ok rs, s') /\
  ((drs_Success rs = false /\ db s' = db s) \/
   exists req t (s1 s2 : st Tables WS), unmarshal_DeductRequest data = Some req /\ drs_Success rs = true /\
     ValidateServiceKey secret (ServiceID (dr_Pay req)) (ServiceKey (dr_Pay req)) = true /\
     validAmount (dr_AmountTON req) = true /\ db s1 = db s /\
     Pay order (TelegramID (dr_Pay req)) (TONToNano (dr_AmountTON req)) (ServiceID (dr_Pay req))
       (effective_ref req) (dr_Reason req) s1 = (Ok t, s2) /\ kept (db s2) (db s')).
Proof.
  unfold handleDeduct. destruct (unmarshal_DeductRequest data) as [req|] eqn:Ed; [|by do 2 eexists; eauto].
  destruct (authorize secret (ServiceID (dr_Pay req)) (ServiceKey (dr_Pay req)) s) as [ra sa] eqn:Ea. pose proof (reads_authorize _ _ _ _ _ Ea) as Hda.
  destruct (authorize_answers (ServiceID (dr_Pay req)) (ServiceKey (dr_Pay req)) s) as [b Hb].
  rewrite Ea in Hb. simpl in Hb. subst ra.
  unfold bind at 1. rewrite Ea.
  destruct b; simpl; [|do 2 eexists; split; [reflexivity|by left]].
  assert (Hk : ValidateServiceKey secret (ServiceID (dr_Pay req)) (ServiceKey (dr_Pay req)) = true).
  { destruct (ValidateServiceKey secret (ServiceID (dr_Pay req)) _) eqn:E; [done|]. by rewrite authorize_refuses in Ea. }
  destruct (validAmount _) eqn:Ev; simpl; [|do 2 eexists; split; [reflexivity|by left]].
  set (sp := mkSt (tick sa) (tx sa) (db sa) (fst (ext sa))).
  destruct (Pay order (TelegramID (dr_Pay req)) (TONToNano (dr_AmountTON req)) (ServiceID (dr_Pay req))
      (effective_ref req) (dr_Reason req) sp) as [rp s2] eqn:Ep.
  destruct rp as [t|e].
  2: { do 2 eexists. split.
       - eapply bind_intro; [apply try_intro; unfold lift; fold sp; rewrite Ep; reflexivity|reflexivity].
       - left. split; [done|]. simpl. pose proof (Pay_error_keeps _ _ _ _ _ _ _ _ _ Ep). simpl in *. congruence. }
  set (s3 := mkSt (tick s2) (tx s2) (db s2) (ext s2, snd (ext sa))).
  destruct (new_balance_kept (TelegramID (dr_Pay req)) s3) as (v & s4 & E4 & Hk4).
  destruct (lift_publish_ok SubjWalletUpdated [("telegram_id", AInt (TelegramID (dr_Pay req)));
    ("reason", AStr "payment")] s4) as (s5 & E5 & Hd5).
  edestruct lift_publish_ok as (s6 & E6 & Hd6).
  do 2 eexists. split.
  - eapply bind_intro; [apply try_intro; unfold lift; fold sp; rewrite Ep; reflexivity|].
    eapply bind_intro; [exact E4|]. eapply bind_intro; [exact E5|]. eapply bind_intro; [exact E6|reflexivity].
  - right. exists req, t, sp, s2. rewrite Hd6, Hd5. done.
Qed.

(** A payment request always gets an answer. An answer that reports no
    success left every table as it was. An answer that reports success was
    given to an authenticated request for a valid amount, and the user's wallet
    was charged exactly that many nano-TON, once, under the request's effective
    reference; or that service and reference had been paid already and no
    transaction was added. *)
Theorem handleDeduct_outcomes order data s r s' :
  handleDeduct secret order data s = (r, s') -> pay_inv (db s) ->
  exists rs, r = Ok rs /\
  if drs_Success rs then
    exists req w t, unmarshal_DeductRequest data = Some req /\
      ValidateServiceKey secret (ServiceID (dr_Pay req)) (ServiceKey (dr_Pay req)) = true /\
      validAmount (dr_AmountTON req) = true /\
      wallets (db s) !! w_ID w = Some w /\ w_TelegramID w = TelegramID (dr_Pay req) /\
      HasEnough w (TONToNano (dr_AmountTON req)) = true /\ 0 < TONToNano (dr_AmountTON req) /\
      withdraw_requests (db s') = withdraw_requests (db s) /\
      ((find_payment (w_ID w) (ServiceID (dr_Pay req)) (effective_ref req) (db s) = Some t /\
        transactions (db s') = transactions (db s)) \/
       ((effective_ref req = ""%string \/
         find_payment (w_ID w) (ServiceID (dr_Pay req)) (effective_ref req) (db s) = None) /\
        is_payment (w_ID w) (TONToNano (dr_AmountTON req)) (ServiceID (dr_Pay req)) (effective_ref req) t /\
        transactions (db s') = transactions (db s) ++ [t]))
  else db s' = db s.
Proof.
  intros H I. destruct (handleDeduct_run order data s) as (rs & s0 & E & Hrun).
  rewrite E in H. injection H as <- <-. exists rs. split; [done|].
  destruct Hrun as [[-> ?]|(req & t & s1 & s2 & Ed & -> & Hk & Hv & Hd1 & Hp & (K1 & K2 & _))]; [done|].
  apply Pay_cases in Hp as [(w & Hw & Htg & He & Hpos & _ & Hout) _];
    [|by rewrite Hd1|by apply int64_of_f64_range].
  rewrite Hd1 in *. exists req, w, t. do 3 (split; [done|]).
  split; [by apply row_lookup|]. do 3 (split; [done|]).
  rewrite K1, K2. destruct Hout as [[Hf ->]|(Hn & Hpay & ->)]; (split; [done|]); [left|right]; done.
Qed.

Lemma handleDeduct_inv order data s r s' :
  handleDeduct secret order data s = (r, s') -> pay_inv (db s) -> pay_inv (db s').
Proof.
  intros H I. destruct (handleDeduct_run order data s) as (rs & s0 & E & Hrun).
  rewrite E in H. injection H as _ <-.
  destruct Hrun as [[_ ->]|(req & t & s1 & s2 & _ & _ & _ & _ & Hd & Hp & _ & _ & K)]; [done|].
  apply K. apply (Pay_inv _ _ _ _ _ _ _ _ _ Hp); [by apply int64_of_f64_range|by rewrite Hd].
Qed.

(** The balances a set of tables shows. *)
Definition same_balances (d d' : Tables) : Prop :=
  forall id w w', wallets d !! id = Some w -> wallets d' !! id = Some w' ->
    w_TONBalance w' + w_Credit w' = w_TONBalance w + w_Credit w /\ w_Frozen w' = w_Frozen w.

Lemma kept_balances d d' : kept d d' -> pay_inv d -> same_balances d d'.
Proof.
  intros (Ht & Hw & Hi) I id w w' H H'. specialize (Hi I).
  destruct (inv_wallets _ I _ _ H), (inv_wallets _ Hi _ _ H').
  unfold booked, tx_total, withdraw_total in *. rewrite Ht, Hw in *. split; congruence.
Qed.

(** The request interface is idempotent: when the user's wallet already
    carries a payment under the request's service and effective reference (its
    ref, or else its idempotency key, or else its reason), the request charges
    nobody, whatever amount it names, however it is answered and whatever
    fails. *)
Theorem handleDeduct_idempotent order data s req u r s' :
  unmarshal_DeductRequest data = Some req -> effective_ref req <> ""%string ->
  u ∈ transactions (db s) -> t_Type u = TxPayment -> t_ServiceID u = ServiceID (dr_Pay req) ->
  t_Ref u = effective_ref req ->
  (forall w, w ∈ rows (wallets (db s)) -> w_TelegramID w = TelegramID (dr_Pay req) -> w_ID w = t_WalletID u) ->
  pay_inv (db s) ->
  handleDeduct secret order data s = (r, s') ->
  transactions (db s') = transactions (db s) /\ same_balances (db s) (db s').
Proof.
  intros Hreq Hne Hu Hty Hsv Href Hw I H. apply and_comm.
  destruct (handleDeduct_run order data s) as (rs & s0 & E & Hrun).
  rewrite E in H. injection H as <- <-.
  assert (K : kept (db s) (db s0)).
  { destruct Hrun as [[_ Hd]|(req' & t & s1 & s2 & Ed & _ & _ & _ & Hd1 & Hp & K)]; [by rewrite Hd|].
    rewrite Hreq in Ed. injection Ed as <-.
    apply Pay_cases in Hp as [(w & Hin & Htg & _ & _ & _ & Hout) _];
      [|by rewrite Hd1|by apply int64_of_f64_range].
    rewrite Hd1 in *. destruct Hout as [[_ Hd]|([Hn|Hn] & _)]; [by rewrite Hd in K|done|].
    exfalso. unfold find_payment in Hn. rewrite first_row_none in Hn. specialize (Hn u Hu). simpl in Hn.
    rewrite (Hw _ Hin Htg), Hsv, Href, Hty, N.eqb_refl, !String.eqb_refl, bool_decide_true in Hn; done. }
  split; [by apply kept_balances|by destruct K].
Qed.
End spec.

(** * Examples *)

Section demo.
#[local] Existing Instance calm_env.
#[local] Existing Instance demo_lib.
#[local] Existing Instance demo_crypto.
#[local] Existing Instance demo_locales.

Definition demo_pay_request (service : string) : PayRequest :=
  {| ServiceID := service; ServiceKey := HexEncode service; TelegramID := 1234567 |}.

(** A decoder for the examples: the text is the request's reference; an empty
    text does not decode. *)
Definition demo_json : Json := {|
  unmarshal_PayRequest := fun s => if (s =? "")%string then None else Some (demo_pay_request s);
  unmarshal_InvoiceRequest := fun _ => None;
  unmarshal_InvoiceStatusRequest := fun _ => None;
  unmarshal_DeductRequest := fun s =>
    if (s =? "")%string then None
    else Some {| dr_Pay := demo_pay_request "shop"; dr_AmountTON := f64_const 7 10000000; dr_Reason := "plan";
                 dr_Ref := s; dr_Metadata := ""; dr_IdempotencyKey := "" |};
  unmarshal_TransferRequest := fun _ => None;
|}.
#[local] Existing Instance demo_json.
#[local] Existing Instance amd64.

Definition demo_bus (d : Tables) : st Tables (WS * Cache) :=
  mkSt 100 NoTx d (demo_ws, {| c_enabled := true; c_entries := ∅ |}).

Definition deducted_1 : st Tables (WS * Cache) := Eval vm_compute in
  snd (handleDeduct "secret" demo_order "order-1" (demo_bus (db demo_3))).
Definition deducted_2 : st Tables (WS * Cache) := Eval vm_compute in
  snd (handleDeduct "secret" late_order "order-1" deducted_1).

Lemma demo_deducts : exists rs,
  handleDeduct "secret" demo_order "order-1" (demo_bus (db demo_3)) = (Ok rs, deducted_1) /\ drs_Success rs = true.
Proof. eexists. split; [vm_compute; reflexivity|reflexivity]. Qed.
Lemma demo_deducts_again : exists rs,
  handleDeduct "secret" late_order "order-1" deducted_1 = (Ok rs, deducted_2) /\ drs_Success rs = true.
Proof. eexists. split; [vm_compute; reflexivity|reflexivity]. Qed.

Lemma handleDeduct_outcomes_witness :
  exists t, transactions (db deducted_1) = transactions (db demo_3) ++ [t] /\ t_Amount t = -700.
Proof.
  destruct demo_deducts as (rs & E & Hs).
  destruct (handleDeduct_outcomes "secret" demo_order "order-1" _ _ _ E demo_inv) as (rs' & Er & H).
  injection Er as <-. rewrite Hs in H. destruct H as (req & w & t & Ed & _ & _ & _ & _ & _ & _ & _ & H).
  injection Ed as <-. destruct H as [[_ H]|(_ & (_ & _ & _ & Ha & _) & H)].
  - exfalso. apply (f_equal (@length _)) in H. discriminate H.
  - exists t. split; [exact H|]. rewrite Ha. vm_compute. reflexivity.
Defined.

Lemma handleDeduct_idempotent_witness :
  transactions (db deducted_2) = transactions (db deducted_1) /\ same_balances (db deducted_1) (db deducted_2).
Proof.
  destruct demo_deducts as (rs & E1 & _). destruct demo_deducts_again as (rs2 & E2 & _).
  assert (I1 : pay_inv (db deducted_1)).
  { exact (handleDeduct_inv "secret" demo_order _ _ _ _ E1 demo_inv). }
  assert (Hw : Forall (fun w => w_TelegramID w = 1234567 -> w_ID w = 1001%N) (rows (wallets (db deducted_1)))).
  { repeat constructor; vm_compute; congruence. }
  rewrite Forall_forall in Hw.
  let l := eval vm_compute in (transactions (db deducted_1)) in
  lazymatch l with [_; ?t] =>
    eapply (handleDeduct_idempotent "secret" late_order "order-1" deducted_1 _ t)
  end;
    [reflexivity|vm_compute; discriminate| |reflexivity..|exact Hw|exact I1|exact E2].
  apply list_elem_of_further, list_elem_of_here.
Defined.


Definition with_instances (l : list (Z * string)) (d : Tables) : Tables :=
  {| wallets := wallets d; transactions := transactions d; ledger_entries := ledger_entries d;
     invoices := invoices d; withdraw_requests := withdraw_requests d; bot_instances := l |}.

(** A stopped instance still authorizes its bot, a deleted one does not. *)
Definition demo_stopped : st Tables (WS * Cache) := demo_bus (with_instances [(7, "stopped")] (db demo_3)).
Definition demo_deleted : st Tables (WS * Cache) := demo_bus (with_instances [(7, "deleted")] (db demo_3)).

Lemma authorize_decides_witness :
  fst (authorize "secret" "bot_7" (HexEncode "bot_7") demo_stopped) = Ok true /\
  fst (authorize "secret" "bot_7" (HexEncode "bot_7") demo_deleted) <> Ok true.
Proof.
  split.
  - apply authorize_decides; [apply calm_quiet|reflexivity|vm_compute; discriminate|].
    repeat split; try discriminate. intros _. exists 7, "stopped".
    split; [reflexivity|]. split; [apply list_elem_of_here|discriminate].
  - intros H. apply authorize_decides in H; [|apply calm_quiet|reflexivity|vm_compute; discriminate].
    destruct H as (_ & _ & _ & H). destruct (H eq_refl) as (b & st & Eb & Hin & Hne).
    apply list_elem_of_singleton in Hin. injection Hin as _ ->. by apply Hne.
Defined.
End demo.
