(* ===== verification/ChainGuard.v ===== *)
(** botpay/internal/chainguard/guard.go: the periodic check of the hash chain
    and the alarm it raises. *)
From S2P Require Import Prelude GoInt GoString Effects PayModels PayChain.

Definition SubjChainTampered : string := "pay.chain.tampered".

(** [ta_DetectedAt] is the instant; the code formats it as RFC 3339. *)
Record TamperAlert := {
  ta_BrokenAtSeq : Z; ta_Reason : error; ta_TotalBlocks : Z; ta_DetectedAt : Z;
}.

(** The message to the owner: its two variable parts. *)
Record AdminWarning := { aw_Block : string; aw_Reason : error }.

(** The guard, with what it has sent. *)
Record GuardState := {
  g_nc : bool;            (* nc <> nil *)
  g_notify : bool;        (* notify <> nil *)
  g_ownerID : Z;
  g_interval : Z;
  g_healthy : bool;
  g_alerts : list TamperAlert;
  g_warnings : list (Z * AdminWarning);
}.

Definition New (ownerID : Z) (nc notify : bool) : GuardState :=
  {| g_nc := nc; g_notify := notify; g_ownerID := ownerID; g_interval := 30000000000;
     g_healthy := true; g_alerts := []; g_warnings := [] |}.

Definition SetInterval (d : Z) (g : GuardState) : GuardState :=
  if d >? 0 then {| g_nc := g_nc g; g_notify := g_notify g; g_ownerID := g_ownerID g; g_interval := d;
                    g_healthy := g_healthy g; g_alerts := g_alerts g; g_warnings := g_warnings g |}
  else g.

Definition Healthy (g : GuardState) : bool := g_healthy g.

Definition set_healthy (b : bool) (g : GuardState) : GuardState :=
  {| g_nc := g_nc g; g_notify := g_notify g; g_ownerID := g_ownerID g; g_interval := g_interval g;
     g_healthy := b; g_alerts := g_alerts g; g_warnings := g_warnings g |}.
Definition add_alert (a : TamperAlert) (g : GuardState) : GuardState :=
  {| g_nc := g_nc g; g_notify := g_notify g; g_ownerID := g_ownerID g; g_interval := g_interval g;
     g_healthy := g_healthy g; g_alerts := g_alerts g ++ [a]; g_warnings := g_warnings g |}.
Definition add_warning (id : Z) (w : AdminWarning) (g : GuardState) : GuardState :=
  {| g_nc := g_nc g; g_notify := g_notify g; g_ownerID := g_ownerID g; g_interval := g_interval g;
     g_healthy := g_healthy g; g_alerts := g_alerts g; g_warnings := g_warnings g ++ [(id, w)] |}.

(** The loop that fills the 20-byte buffer from its end: [room] bytes are free,
    [acc] is what lies behind them; writing without room is an index panic. *)
Fixpoint itoa_loop (room : nat) (n : Z) (acc : string) : option (nat * string) :=
  if n >? 0 then
    match room with
    | O => None
    | S room => itoa_loop room (n / 10) (String (ascii_of_nat (Z.to_nat (48 + n mod 10))) acc)
    end
  else Some (room, acc).

(** [None] is a panic. *)
Definition itoa (n : Z) : option string :=
  if n =? 0 then Some "0"
  else
    let neg := n <? 0 in
    let n := if neg then i64_neg n else n in
    match itoa_loop 20 n "" with
    | None => None
    | Some (room, s) =>
        if neg then match room with O => None | S _ => Some (String "-" s) end else Some s
    end.

Section guard.
Context {ENV : Env} {LIB : Lib}.
Abbreviation GM := (M Tables GuardState).

(** A failing publish is dropped. *)
Definition publish_alert (a : TamperAlert) : GM unit := fun s =>
  match env_fault (tick s) with
  | Some _ => (Ok tt, bump s)
  | None => (Ok tt, mkSt (S (tick s)) (tx s) (db s) (add_alert a (ext s)))
  end.

Definition index_panic : error := Sentinel "runtime" "index out of range".

(** checkOnce from the point where the ledger has been read. *)
Definition report (res : ChainVerifyResult) : GM unit :=
  (if cv_Valid res then mod_ext (set_healthy true)
   else
   (mod_ext (set_healthy false) ;;
    g <- get_ext ;;
    (if g_nc g then
       (t <- now ;;
        publish_alert {| ta_BrokenAtSeq := cv_BrokenAtSeq res; ta_Reason := cv_Reason res;
                         ta_TotalBlocks := cv_TotalBlocks res; ta_DetectedAt := t |})
     else ret tt) ;;
    if g_notify g && negb (g_ownerID g =? 0) then
      match itoa (cv_BrokenAtSeq res) with
      | None => throw index_panic
      | Some block =>
          mod_ext (add_warning (g_ownerID g) {| aw_Block := block; aw_Reason := cv_Reason res |})
      end
    else ret tt))%eff.

Definition checkOnce : GM unit :=
  (res <- try VerifyChain ;;
   match res with Err _ => ret tt | Ok res => report res end)%eff.

(** What Start has done after its first check and [n] ticks. *)
Fixpoint Start (n : nat) : GM unit :=
  match n with O => checkOnce | S n => (Start n ;; checkOnce)%eff end.
End guard.

(** * The decimal text *)

Lemma digit_char_small d : 0 <= d < 10 -> ascii_of_nat (Z.to_nat (48 + d)) = digit_char d.
Proof. intros Hd. unfold digit_char. by rewrite (proj2 (Z.ltb_lt _ _)) by lia. Qed.

Lemma itoa_loop_format k : forall room fuel n acc,
  0 < n < 10 ^ Z.of_nat k -> (k <= room)%nat -> (k <= fuel)%nat ->
  exists r, (room - k <= r)%nat /\ itoa_loop room n acc = Some (r, format_digits fuel 10 n acc).
Proof.
  induction k as [|k IH]; intros room fuel n acc Hn Hr Hf; [simpl in *; lia|].
  destruct room as [|room]; [lia|]. destruct fuel as [|fuel]; [lia|].
  cbn [itoa_loop format_digits]. rewrite (proj2 (Z.gtb_lt _ _)) by lia.
  rewrite digit_char_small by (apply Z.mod_pos_bound; lia).
  destruct (Z.eqb_spec (n / 10) 0) as [E|E].
  - exists room. split; [lia|]. rewrite E. by destruct room.
  - rewrite Nat2Z.inj_succ, Z.pow_succ_r in Hn by lia.
    destruct (IH room fuel (n / 10) (String (digit_char (n mod 10)) acc)) as (r & Hle & ->); [|lia|lia|].
    + pose proof (Z.div_pos n 10). split; [lia|]. apply Z.div_lt_upper_bound; lia.
    + exists r. split; [lia|done].
Qed.

(** The hand-written conversion never runs out of its buffer; it is the decimal
    text of every int64 but the smallest, whose text is a bare sign. *)
Lemma itoa_decimal n : in_int64 n ->
  itoa n = Some (if n =? int64_min then "-" else FormatInt 10 n).
Proof.
  intros Hn. unfold itoa. destruct (Z.eqb_spec n 0) as [->|Hz]; [reflexivity|].
  destruct (Z.eqb_spec n int64_min) as [->|Hm]; [reflexivity|].
  unfold FormatInt, FormatUint. destruct (n <? 0) eqn:En; zbool.
  - assert (Hneg : i64_neg n = - n) by (apply wrap64_id; unfold in_int64, int64_min, int64_max in *; lia).
    rewrite Hneg. destruct (itoa_loop_format 19 20 64 (- n) "") as (r & Hr & ->);
      [unfold in_int64, int64_min, int64_max in *; simpl; lia|lia|lia|].
    destruct r; [lia|done].
  - destruct (itoa_loop_format 19 20 64 n "") as (r & Hr & ->);
      [unfold in_int64, int64_min, int64_max in *; simpl; lia|lia|lia|]. done.
Qed.

(** * What a check does *)

Section spec.
Context {ENV : Env} {LIB : Lib}.
Implicit Types s : st Tables GuardState.

Definition broken_alert (l : list LedgerEntry) (t : Z) : TamperAlert :=
  {| ta_BrokenAtSeq := cv_BrokenAtSeq (verify_all l); ta_Reason := cv_Reason (verify_all l);
     ta_TotalBlocks := cv_TotalBlocks (verify_all l); ta_DetectedAt := t |}.

Definition broken_warning (l : list LedgerEntry) : AdminWarning :=
  {| aw_Block := if cv_BrokenAtSeq (verify_all l) =? int64_min then "-"
                 else FormatInt 10 (cv_BrokenAtSeq (verify_all l));
     aw_Reason := cv_Reason (verify_all l) |}.

Lemma broken_seq_range l : Forall (fun e => in_int64 (le_Seq e)) l -> in_int64 (cv_BrokenAtSeq (verify_all l)).
Proof.
  intros Hl. unfold verify_all.
  destruct (verify_batch _ _ _ _) as [r|[[h q] n]] eqn:Eb; [|done].
  apply verify_batch_broken in Eb as (g & e & rest & Hg & _ & _ & _ & -> & _).
  rewrite Forall_forall in Hl. apply Hl.
  assert (Hin : e ∈ by_seq l) by (rewrite Hg; set_solver).
  unfold by_seq in Hin. by rewrite merge_sort_Permutation in Hin.
Qed.

(** An answer of the batched loop, whatever fails, is that of a single pass. *)
Lemma VerifyChain_loop_ok fuel offset h q n s r s' :
  VerifyChain_loop fuel offset h q n s = (Ok r, s') ->
  r = match verify_batch (drop offset (by_seq (ledger_entries (db s)))) h q n with
      | inl r => r
      | inr (_, _, n) => {| cv_Valid := true; cv_TotalBlocks := n; cv_BrokenAtSeq := 0; cv_Reason := no_reason |}
      end.
Proof.
  revert offset h q n s. induction fuel as [|fuel IH]; intros offset h q n s H; [done|].
  cbn [VerifyChain_loop] in H. apply bind_ok in H as (batch & s1 & H1 & H).
  apply wrap_err_ok, find_ok in H1 as (Eb & -> & _).
  set (L := by_seq (ledger_entries (db s))) in *.
  destruct batch as [|e batch].
  - injection H as <- _. destruct (drop offset L); [done|discriminate].
  - rewrite <- (take_drop batchSize (drop offset L)), <- Eb, verify_batch_app.
    destruct (verify_batch (e :: batch) h q n) as [r1|[[h1 q1] n1]]; [by injection H as <- _|].
    apply IH in H. cbn [db] in H. fold L in H. rewrite H, drop_drop.
    assert (Hoff : drop (offset + length (e :: batch)) L = drop (offset + batchSize) L); [|by rewrite Hoff].
    rewrite Eb, length_take, length_drop.
    destruct (decide (batchSize <= length L - offset)%nat); [f_equal; lia|by rewrite !drop_ge by lia].
Qed.

Lemma reads_VerifyChain_loop fuel offset h q n :
  reads (VerifyChain_loop (X := GuardState) fuel offset h q n) /\
  keeps id (VerifyChain_loop (X := GuardState) fuel offset h q n).
Proof.
  revert offset h q n. induction fuel as [|fuel IH]; intros offset h q n; [split; [apply reads_throw|apply keeps_throw]|].
  cbn [VerifyChain_loop]. split.
  - apply reads_bind; [reads_tac|]. intros [|e l]; [reads_tac|].
    destruct (verify_batch _ _ _ _) as [|[[??]?]]; [reads_tac|apply IH].
  - apply keeps_bind; [keeps_tac|]. intros [|e l]; [keeps_tac|].
    destruct (verify_batch _ _ _ _) as [|[[??]?]]; [keeps_tac|apply IH].
Qed.

(** What one check may do to the guard, given the ledger. *)
Definition reported (l : list LedgerEntry) (g g' : GuardState) : Prop :=
  g_healthy g' = cv_Valid (verify_all l) /\
  (exists alerts, g_alerts g' = g_alerts g ++ alerts /\ (length alerts <= 1)%nat /\
     Forall (fun a => cv_Valid (verify_all l) = false /\ a = broken_alert l (ta_DetectedAt a)) alerts) /\
  g_warnings g' = g_warnings g ++
    (if negb (cv_Valid (verify_all l)) && g_notify g && negb (g_ownerID g =? 0)
     then [(g_ownerID g, broken_warning l)] else []).

Lemma VerifyChain_ticks fuel offset h q n s r s' :
  VerifyChain_loop fuel offset h q n s = (r, s') -> (tick s <= tick s')%nat.
Proof.
  revert offset h q n s. induction fuel as [|fuel IH]; intros offset h q n s H; [by injection H as _ <-|].
  cbn [VerifyChain_loop] in H. apply bind_run in H as (r1 & s1 & H1 & H).
  assert (Ht : (tick s <= tick s1)%nat).
  { unfold wrap_err, find, stmt, bump in H1.
    destruct (tx s); try destruct (env_fault (tick s)); injection H1 as _ <-; simpl; lia. }
  destruct r1 as [[|e l]|e]; [by injection H as _ <-| |by destruct H as [_ ->]].
  destruct (verify_batch _ _ _ _) as [|[[??]?]]; [by injection H as _ <-|].
  apply IH in H. lia.
Qed.

Lemma VerifyChain_quiet_tick s : quiet_from (tick s) -> tx s = NoTx ->
  exists s', VerifyChain s = (Ok (verify_all (ledger_entries (db s))), s') /\ quiet_from (tick s').
Proof.
  intros Hq Ht. destruct (VerifyChain_result s Hq ltac:(by rewrite Ht)) as (s' & E & _).
  exists s'. split; [done|]. intros k Hk. apply Hq. pose proof (VerifyChain_ticks _ _ _ _ _ _ _ _ E). lia.
Qed.

(** The part of a check after the ledger was read. *)
Lemma report_step l s : Forall (fun e => in_int64 (le_Seq e)) l -> exists s',
  report (verify_all l) s = (Ok tt, s') /\ db s' = db s /\ reported l (ext s) (ext s') /\
  (env_fault (tick s) = None -> env_fault (S (tick s)) = None -> length (g_alerts (ext s')) = (length (g_alerts (ext s)) +
     if negb (cv_Valid (verify_all l)) && g_nc (ext s) then 1 else 0)%nat).
Proof.
  intros Hl. pose proof (broken_seq_range l Hl) as Hs. unfold report. rewrite (itoa_decimal _ Hs).
  unfold reported, broken_warning. destruct (cv_Valid (verify_all l)) eqn:Ev; simpl.
  - eexists. split; [reflexivity|]. simpl. split; [done|]. rewrite app_nil_r. split; [|by rewrite Nat.add_0_r].
    split; [done|]. split; [|done]. exists []. rewrite app_nil_r. split; [done|]. split; [simpl; lia|done].
  - unfold bind, mod_ext, get_ext, now, publish_alert, ret, throw, bump. simpl.
    destruct (g_nc (ext s)) eqn:Enc, (g_notify (ext s) && negb (g_ownerID (ext s) =? 0)) eqn:En;
      simpl; rewrite ?En; try (destruct (env_fault (S (tick s))) eqn:Ef); simpl; rewrite ?En;
      simpl; (eexists; split; [reflexivity|]); simpl; rewrite ?app_nil_r, ?length_app; simpl;
      (split; [done|]); (split; [|intros; (done || lia)]); (split; [done|]); (split; [|done]);
      first [exists []; rewrite app_nil_r; split; [done|]; split; [simpl; lia|done]
            |eexists; split; [reflexivity|]; split; [simpl; lia|repeat constructor; done]].
Qed.

(** A check of the chain, whatever statement or publish fails, never
    panics and never changes a table. Either the ledger could not be read and
    the guard is as before, or Healthy becomes the verdict on the ledger, and
    exactly for a broken ledger the owner gets one warning, and the bus at most
    one alert, which name its first broken block; when nothing fails, the second
    case holds and a broken ledger is alerted on the bus exactly once. *)
Theorem checkOnce_alarms s r s' :
  checkOnce s = (r, s') -> Forall (fun e => in_int64 (le_Seq e)) (ledger_entries (db s)) ->
  r = Ok tt /\ db s' = db s /\
  (ext s' = ext s \/ reported (ledger_entries (db s)) (ext s) (ext s')) /\
  (quiet_from (tick s) -> tx s = NoTx ->
   reported (ledger_entries (db s)) (ext s) (ext s') /\
   length (g_alerts (ext s')) = (length (g_alerts (ext s)) +
     if negb (cv_Valid (verify_all (ledger_entries (db s)))) && g_nc (ext s) then 1 else 0)%nat).
Proof.
  intros H Hl. unfold checkOnce in H. apply bind_run in H as (r1 & s1 & H1 & H).
  apply try_run in H1 as (res & -> & H1).
  destruct (reads_VerifyChain_loop (S (length (ledger_entries (db s)))) 0 GenesisHash 0 0) as [Hr Hk].
  pose proof (Hr _ _ _ H1) as Hd. pose proof (Hk _ _ _ H1 : ext s1 = ext s) as Hx. clear Hr Hk.
  assert (Hq : quiet_from (tick s) -> tx s = NoTx -> is_Some (match res with Ok r => Some r | Err _ => None end) /\
    quiet_from (tick s1)).
  { intros Hq Ht. pose proof (VerifyChain_quiet_tick s Hq Ht) as [s2 [E2 Hq2]].
    rewrite H1 in E2. injection E2 as -> ->. split; done. }
  destruct res as [res|e].
  2: { injection H as <- <-. rewrite Hd, Hx. do 2 (split; [done|]). split; [by left|].
       intros Hq1 Ht. destruct (Hq Hq1 Ht) as [[? ?] _]. done. }
  apply VerifyChain_loop_ok in H1. rewrite drop_0 in H1. change (res = verify_all (ledger_entries (db s))) in H1.
  subst res. destruct (report_step (ledger_entries (db s)) s1 Hl) as (s2 & E2 & Hd2 & Hrep & Halert).
  rewrite E2 in H. injection H as <- <-. rewrite Hd2, Hd. rewrite Hx in Hrep, Halert.
  do 2 (split; [done|]). split; [by right|]. intros Hq1 Ht. split; [done|].
  destruct (Hq Hq1 Ht) as [_ Hq2]. apply Halert; apply Hq2; lia.
Qed.
End spec.

(** * Examples *)

(** Someone lowers the amount of the second block behind the service's back. *)
Definition tamper (d : Tables) : Tables :=
  {| wallets := wallets d; transactions := transactions d;
     ledger_entries := alter (fun e =>
       {| le_ID := le_ID e; le_CreatedAt := le_CreatedAt e; le_TransactionID := le_TransactionID e;
          le_WalletID := le_WalletID e; le_Type := le_Type e; le_AmountNano := 1;
          le_BalanceAfter := le_BalanceAfter e; le_Ref := le_Ref e; le_Note := le_Note e;
          le_Seq := le_Seq e; le_PrevHash := le_PrevHash e; le_Hash := le_Hash e |}) 1%nat (ledger_entries d);
     invoices := invoices d; withdraw_requests := withdraw_requests d; bot_instances := bot_instances d |}.

Definition demo_tampered : st Tables GuardState :=
  init_st (tamper (db demo_ledger_st)) (New 42 true true).

Definition demo_checked : st Tables GuardState := Eval vm_compute in
  snd (@checkOnce calm_env demo_lib demo_tampered).

Lemma demo_checks : @checkOnce calm_env demo_lib demo_tampered = (Ok tt, demo_checked).
Proof. vm_compute. reflexivity. Qed.

Lemma checkOnce_alarms_witness :
  g_healthy (ext demo_checked) = false /\ length (g_alerts (ext demo_checked)) = 1%nat /\
  map (fun p => (fst p, aw_Block (snd p))) (g_warnings (ext demo_checked)) = [(42, "2"%string)].
Proof.
  destruct (checkOnce_alarms _ _ _ demo_checks) as (_ & _ & _ & H).
  { repeat constructor; vm_compute; discriminate. }
  destruct (H (calm_quiet 0) eq_refl) as [(Hh & _ & Hw) Hn].
  split; [rewrite Hh; vm_compute; reflexivity|]. split; [rewrite Hn; vm_compute; reflexivity|].
  rewrite Hw. vm_compute. reflexivity.
Defined.
