(* ===== verification/GoText.v ===== *)
(** Scanning text the way package strconv, fmt and strings do: floating-point
    literals, the %d verb of Sscanf, splitting at separators and spaces. *)
From S2P Require Import Prelude GoInt GoFloat GoString.

Definition is_digit (c : ascii) : bool := let n := byte_of c in (48 <=? n) && (n <=? 57).
Definition digit_of (c : ascii) : Z := byte_of c - 48.

(** * strconv.ParseFloat *)

(** commonPrefixLenIgnoreCase *)
Fixpoint common_prefix (s word : string) : nat :=
  match s, word with
  | String c s, String d word => if Ascii.eqb (lower_char c) d then S (common_prefix s word) else O
  | _, _ => O
  end.

(** Infinities and NaN, with the number of bytes consumed. *)
Definition special (s : string) : option (float64 * nat) :=
  let inf_after (neg : bool) (nsign : nat) (s : string) :=
    let n := common_prefix s "infinity" in
    let n := if (3 <? n)%nat && (n <? 8)%nat then 3%nat else n in
    if (n =? 3)%nat || (n =? 8)%nat then Some (S754_infinity neg, (nsign + n)%nat) else None in
  match s with
  | EmptyString => None
  | String c rest =>
      if Ascii.eqb c "+" then inf_after false 1%nat rest
      else if Ascii.eqb c "-" then inf_after true 1%nat rest
      else if Ascii.eqb (lower_char c) "i" then inf_after false 0%nat s
      else if Ascii.eqb (lower_char c) "n" then
        if (common_prefix s "nan" =? 3)%nat then Some (S754_nan, 3%nat) else None
      else None
  end.

(** The previous character while underscores are checked. *)
Inductive prev_char := PBegin | PDigit | PUnderscore | POther.

Fixpoint underscores_ok (hex : bool) (i : prev_char) (s : string) : bool :=
  match s with
  | EmptyString => match i with PUnderscore => false | _ => true end
  | String c s =>
      let l := byte_of (lower_char c) in
      if is_digit c || (hex && (97 <=? l) && (l <=? 102)) then underscores_ok hex PDigit s
      else if Ascii.eqb c "_" then
        match i with PDigit => underscores_ok hex PUnderscore s | _ => false end
      else match i with PUnderscore => false | _ => underscores_ok hex POther s end
  end.

Definition skip_sign (s : string) : bool * string :=
  match s with
  | String c rest =>
      if Ascii.eqb c "-" then (true, rest) else if Ascii.eqb c "+" then (false, rest) else (false, s)
  | EmptyString => (false, s)
  end.

Definition underscoreOK (s : string) : bool :=
  let (_, s) := skip_sign s in
  match s with
  | String z (String p rest) =>
      let p := lower_char p in
      if Ascii.eqb z "0" && (Ascii.eqb p "b" || Ascii.eqb p "o" || Ascii.eqb p "x")
      then underscores_ok (Ascii.eqb p "x") PDigit rest
      else underscores_ok false PBegin s
  | _ => underscores_ok false PBegin s
  end.

(** The digits of a literal: their value, how many follow the point. *)
Record mantissa := { mt_value : Z; mt_frac : Z; mt_digits : bool; mt_dot : bool; mt_underscore : bool }.

Fixpoint scan_mantissa (hex : bool) (m : mantissa) (s : string) : mantissa * string :=
  match s with
  | EmptyString => (m, s)
  | String c rest =>
      let l := byte_of (lower_char c) in
      let base := if hex then 16 else 10 in
      let digit d := {| mt_value := mt_value m * base + d;
                        mt_frac := if mt_dot m then mt_frac m + 1 else mt_frac m;
                        mt_digits := true; mt_dot := mt_dot m; mt_underscore := mt_underscore m |} in
      if Ascii.eqb c "_" then
        scan_mantissa hex {| mt_value := mt_value m; mt_frac := mt_frac m; mt_digits := mt_digits m;
                             mt_dot := mt_dot m; mt_underscore := true |} rest
      else if Ascii.eqb c "." then
        if mt_dot m then (m, s)
        else scan_mantissa hex {| mt_value := mt_value m; mt_frac := mt_frac m; mt_digits := mt_digits m;
                                  mt_dot := true; mt_underscore := mt_underscore m |} rest
      else if is_digit c then scan_mantissa hex (digit (digit_of c)) rest
      else if hex && (97 <=? l) && (l <=? 102) then scan_mantissa hex (digit (l - 87)) rest
      else (m, s)
  end.

(** Exponent digits; the value stops growing once it reaches 10000. *)
Fixpoint scan_exponent (e : Z) (under : bool) (s : string) : Z * bool * string :=
  match s with
  | String c rest =>
      if is_digit c then scan_exponent (if e <? 10000 then e * 10 + digit_of c else e) under rest
      else if Ascii.eqb c "_" then scan_exponent e true rest
      else (e, under, s)
  | EmptyString => (e, under, s)
  end.

(** The float64 nearest to num/den, ties to even. *)
Definition f64_of_ratio (neg : bool) (num : Z) (den : positive) : float64 :=
  match num with
  | Zpos p =>
      let '(q, e, l) := SFdiv_core_binary 53 1024 (Zpos p) 0 (Zpos den) 0 in
      binary_round_aux 53 1024 neg q e l
  | _ => S754_zero neg
  end.

(** value * radix^exp *)
Definition f64_scaled (neg : bool) (value radix exp : Z) : float64 :=
  if exp <? 0 then f64_of_ratio neg value (Z.to_pos (radix ^ (- exp)))
  else f64_of_ratio neg (value * radix ^ exp) 1.

(** The literal [s] as a number; it must be consumed entirely. *)
Definition read_float (s : string) : option float64 :=
  let (neg, body) := skip_sign s in
  let '(hex, body) := match body with
    | String z (String x (String d rest)) =>
        if Ascii.eqb z "0" && Ascii.eqb (lower_char x) "x" then (true, String d rest) else (false, body)
    | _ => (false, body)
    end in
  let '(m, rest) := scan_mantissa hex {| mt_value := 0; mt_frac := 0; mt_digits := false; mt_dot := false;
                                         mt_underscore := false |} body in
  if negb (mt_digits m) then None
  else
    let finish (e : Z) (under : bool) (rest : string) :=
      if negb (rest =? "")%string then None
      else if under && negb (underscoreOK s) then None
      else if hex then Some (f64_scaled neg (mt_value m) 2 (e - 4 * mt_frac m))
      else Some (f64_scaled neg (mt_value m) 10 (e - mt_frac m)) in
    match rest with
    | String c rest1 =>
        if Ascii.eqb (lower_char c) (if hex then "p" else "e")%char then
          let (eneg, digits) := skip_sign rest1 in
          match digits with
          | String d _ =>
              if is_digit d then
                let '(e, under, rest2) := scan_exponent 0 (mt_underscore m) digits in
                finish (if eneg then - e else e) under rest2
              else None
          | EmptyString => None
          end
        else None
    | EmptyString => if hex then None else finish 0 (mt_underscore m) rest
    end.

(** strconv.ParseFloat(s, 64); [None] is an error, also for a value out of
    range. *)
Definition ParseFloat (s : string) : option float64 :=
  match special s with
  | Some (f, n) => if (n =? String.length s)%nat then Some f else None
  | None =>
      match read_float s with
      | Some f => if IsInf f then None else Some f
      | None => None
      end
  end.

Example ParseFloat_examples :
  map ParseFloat ["2.5"; "1e3"; "0x1p-1"; "1_0"; "1__0"; ".5"; "5."; "1e999"; "nan"; "-Inf"; ""; "1 "; "0.1"]%string =
  [Some (f64_const 5 2); Some (f64_of_int 1000); Some (f64_const 1 2); Some (f64_of_int 10); None;
   Some (f64_const 1 2); Some (f64_of_int 5); None; Some S754_nan; Some (S754_infinity true); None; None;
   Some (f64_const 1 10)].
Proof. vm_compute. reflexivity. Qed.

(** * fmt.Sscanf(s, "%d", &n) into an int64 *)

Fixpoint take_digits (s : string) : string :=
  match s with
  | String c rest => if is_digit c then String c (take_digits rest) else ""
  | EmptyString => ""
  end.

(** Spaces in front of the number are skipped, a newline among them is an error. *)
Fixpoint skip_scan_space (fuel : nat) (s : string) : option string :=
  match fuel with
  | O => Some s
  | S fuel =>
      match s with
      | String c _ =>
          if (byte_of c =? 10) then None
          else match space_len s with O => Some s | n => skip_scan_space fuel (drop_chars n s) end
      | EmptyString => Some s
      end
  end.

(** [None]: an error. *)
Definition Sscanf_int (s : string) : option Z :=
  match skip_scan_space (String.length s) s with
  | None => None
  | Some s =>
      let (neg, digits) := skip_sign s in
      match parse_digits 10 0 (take_digits digits) with
      | Some z =>
          if (take_digits digits =? "")%string then None
          else let z := if neg then - z else z in if in_int64b z then Some z else None
      | None => None
      end
  end.

(** On an error the variable keeps its zero. *)
Definition Sscanf_d (s : string) : Z := default 0 (Sscanf_int s).

Example Sscanf_examples :
  map Sscanf_d ["1500000000"; "12abc"; " 7"; "-3"; "9223372036854775808"; "x"; ""; "1e9"]%string =
  [1500000000; 12; 7; -3; 0; 0; 0; 1].
Proof. vm_compute. reflexivity. Qed.

(** * Splitting *)

(** strings.Split(s, c) for a one-byte separator: never empty. *)
Fixpoint Split (c : ascii) (s : string) : list string :=
  match s with
  | EmptyString => [""%string]
  | String d rest =>
      if Ascii.eqb d c then ""%string :: Split c rest
      else match Split c rest with
           | w :: ws => String d w :: ws
           | [] => [String d ""]
           end
  end.

(** strings.Cut(s, c) *)
Fixpoint Cut (c : ascii) (s : string) : option (string * string) :=
  match s with
  | EmptyString => None
  | String d rest =>
      if Ascii.eqb d c then Some (""%string, rest)
      else (fun p => (String d (fst p), snd p)) <$> Cut c rest
  end.

(** strings.Fields: maximal runs of non-space characters. [word] is the run
    being read, reversed; a space character has up to three bytes. *)
Fixpoint fields (fuel : nat) (word : string) (s : string) : list string :=
  let flush := if (word =? "")%string then [] else [rev_string word] in
  match fuel with
  | O => flush
  | S fuel =>
      match s with
      | EmptyString => flush
      | String c rest =>
          match space_len s with
          | O => fields fuel (String c word) rest
          | n => flush ++ fields fuel "" (drop_chars n s)
          end
      end
  end.
Definition Fields (s : string) : list string := fields (S (String.length s)) "" s.

(** strings.Join(l, sep) *)
Fixpoint Join (sep : string) (l : list string) : string :=
  match l with [] => "" | [w] => w | w :: l => w +:+ sep +:+ Join sep l end.

Example splitting_examples :
  Split ":" "wd:approve:42" = ["wd"; "approve"; "42"]%string /\ Split ":" "" = [""%string] /\
  Cut " " "id the reason" = Some ("id", "the reason")%string /\
  Fields "  7   2.5 gift for you " = ["7"; "2.5"; "gift"; "for"; "you"]%string.
Proof. vm_compute. done. Qed.

Lemma Split_nonempty c s : Split c s <> [].
Proof. destruct s; simpl; [done|]. destruct (Ascii.eqb _ _); [done|]. by destruct (Split c s). Qed.

(** * Runes *)

(** Bytes of the UTF-8 character at the front of [s]; [O] when the front is not
    valid UTF-8 (one byte is then read as U+FFFD). *)
Definition rune_bytes (s : string) : nat :=
  let cont n lo hi := (* continuation byte [n] is within [lo, hi] *)
    match String.get n s with Some c => (lo <=? byte_of c) && (byte_of c <=? hi) | None => false end in
  match s with
  | EmptyString => O
  | String c _ =>
      let b := byte_of c in
      if b <? 128 then 1%nat
      else if (194 <=? b) && (b <=? 223) then if cont 1%nat 128 191 then 2%nat else O
      else if (224 <=? b) && (b <=? 239) then
        if cont 1%nat (if b =? 224 then 160 else 128) (if b =? 237 then 159 else 191) && cont 2%nat 128 191
        then 3%nat else O
      else if (240 <=? b) && (b <=? 244) then
        if cont 1%nat (if b =? 240 then 144 else 128) (if b =? 244 then 143 else 191)
           && cont 2%nat 128 191 && cont 3%nat 128 191
        then 4%nat else O
      else O
  end.

(** U+FFFD *)
Definition rune_error : string :=
  String (ascii_of_nat 239) (String (ascii_of_nat 191) (String (ascii_of_nat 189) "")).

(** []rune(s), each rune as the bytes it is encoded in again. *)
Fixpoint runes (fuel : nat) (s : string) : list string :=
  match fuel, s with
  | S fuel, String _ rest =>
      match rune_bytes s with
      | O => rune_error :: runes fuel rest
      | n => substring 0 n s :: runes fuel (drop_chars n s)
      end
  | _, _ => []
  end.
Definition Runes (s : string) : list string := runes (String.length s) s.

Example runes_example : Runes "aé€" = ["a"; "é"; "€"]%string /\ Runes (String (ascii_of_nat 255) "b") = [rune_error; "b"%string].
Proof. vm_compute. done. Qed.
