(* ===== verification/Bus.v ===== *)
(** Events on the bus: what shared/pkg/adapters/nats publishes, how
    encoding/json carries the fields a subscriber reads, and the interface of a
    service that publishes. *)
From S2P Require Import Prelude GoInt GoFloat Effects.

(** uuid.Parse of package google/uuid. *)
Class UuidParser := { uuid_Parse : string -> option uuid }.

(** * Messages *)

(** A published [map[string]any]: its subject, and its fields with their values. *)
Record Event := { ev_Subject : string; ev_Fields : list (string * fmtarg) }.

(** json.Marshal fails on NaN and the infinities. *)
Definition json_value (v : fmtarg) : bool := match v with AFloat f => negb (IsNaN f || IsInf f) | _ => true end.
Definition json_ok (m : Event) : bool := forallb (fun kv => json_value kv.2) (ev_Fields m).

Fixpoint field (k : string) (l : list (string * fmtarg)) : option fmtarg :=
  match l with
  | [] => None
  | (k', v) :: l => if (k' =? k)%string then Some v else field k l
  end.

(** json.Unmarshal of one field into a struct member: an absent key leaves the
    zero value, a value of another JSON type makes Unmarshal fail ([None]). *)
Definition field_string (k : string) (m : Event) : option string :=
  match field k (ev_Fields m) with
  | None => Some ""%string
  | Some (AStr s) => Some s
  | Some _ => None
  end.

(** The decimal text of an integral float below 1e21 has no point or exponent. *)
Definition float_int (f : float64) : option Z :=
  match f64_trunc f with
  | Some z => if f64_eq (f64_of_int z) f && in_int64b z then Some z else None
  | None => None
  end.

Definition field_int64 (k : string) (m : Event) : option Z :=
  match field k (ev_Fields m) with
  | None => Some 0
  | Some (AInt z) => if in_int64b z then Some z else None
  | Some (AFloat f) => float_int f
  | Some (AStr _) => None
  end.

Definition field_float64 (k : string) (m : Event) : option float64 :=
  match field k (ev_Fields m) with
  | None => Some (f64_of_int 0)
  | Some (AInt z) => Some (f64_of_int z)
  | Some (AFloat f) => if json_value (AFloat f) then Some f else None
  | Some (AStr _) => None
  end.

(** * Publishing *)

(** The part of a service's state that records what it has published. *)
Class Outbox (X : Type) := {
  outbox : X -> list Event;
  post : Event -> X -> X;
  outbox_post : forall m x, outbox (post m x) = outbox x ++ [m];
}.

#[export] Instance outbox_fst {X Y} `{Outbox X} : Outbox (X * Y).
Proof.
  refine {| outbox := fun p => outbox (fst p); post := fun m p => (post m (fst p), snd p) |}.
  intros. apply outbox_post.
Defined.

Section publish.
Context {D X : Type} {ENV : Env} `{Outbox X}.

(** nats.Client.PublishCore: fire and forget. *)
Definition PublishCore (subject : string) (payload : list (string * fmtarg)) : M D X unit := fun s =>
  let m := {| ev_Subject := subject; ev_Fields := payload |} in
  if negb (json_ok m) then (Err (Errorf "json: unsupported value" []), s)
  else match env_fault (tick s) with
  | Some c => (Err (ErrDriver c), bump s)
  | None => (Ok tt, mkSt (S (tick s)) (tx s) (db s) (post m (ext s)))
  end.

(** The callers that drop the error. *)
Definition publish_quiet (subject : string) (payload : list (string * fmtarg)) : M D X unit :=
  (try (PublishCore subject payload) ;; ret tt)%eff.

Lemma PublishCore_db subject payload s r s' :
  PublishCore subject payload s = (r, s') -> db s' = db s /\ tx s' = tx s.
Proof.
  unfold PublishCore, bump. destruct (negb _); [by intros [= _ <-]|].
  destruct (env_fault _); by intros [= _ <-].
Qed.

Lemma reads_PublishCore subject payload : reads (PublishCore subject payload).
Proof. intros s r s' Hr. by apply PublishCore_db in Hr as [-> _]. Qed.

Lemma reads_publish_quiet subject payload : reads (publish_quiet subject payload).
Proof. apply reads_bind; [apply reads_try, reads_PublishCore|intros; apply reads_ret]. Qed.

(** What a publishing program adds to the outbox. *)
Definition posts (P : Event -> Prop) {A} (m : M D X A) : Prop :=
  forall s r s', m s = (r, s') -> exists l, outbox (ext s') = outbox (ext s) ++ l /\ Forall P l.

Lemma posts_nothing P {A} (m : M D X A) : keeps outbox m -> posts P m.
Proof. intros Hm s r s' Hr. apply Hm in Hr. exists []. by rewrite Hr, app_nil_r. Qed.

Lemma posts_bind P {A B} (m : M D X A) (k : A -> M D X B) :
  posts P m -> (forall a, posts P (k a)) -> posts P (bind m k).
Proof.
  intros Hm Hk s r s' Hr. apply bind_run in Hr as (r1 & s1 & H1 & Hr).
  apply Hm in H1 as (l1 & E1 & F1). destruct r1 as [a|e].
  - apply Hk in Hr as (l2 & E2 & F2). exists (l1 ++ l2). rewrite E2, E1, app_assoc. split; [done|by apply Forall_app].
  - destruct Hr as [_ ->]. eauto.
Qed.

Lemma posts_try P {A} (m : M D X A) : posts P m -> posts P (try m).
Proof. intros Hm s r s' Hr. apply try_run in Hr as (r1 & _ & Hr). by apply Hm in Hr. Qed.

Lemma posts_publish (P : Event -> Prop) subject payload :
  P {| ev_Subject := subject; ev_Fields := payload |} -> posts P (PublishCore subject payload).
Proof.
  intros HP s r s' Hr. unfold PublishCore, bump in Hr. destruct (negb _).
  { injection Hr as _ <-. exists []. by rewrite app_nil_r. }
  destruct (env_fault _); injection Hr as _ <-; simpl.
  - exists []. by rewrite app_nil_r.
  - rewrite outbox_post. eauto.
Qed.

Lemma posts_publish_quiet (P : Event -> Prop) subject payload :
  P {| ev_Subject := subject; ev_Fields := payload |} -> posts P (publish_quiet subject payload).
Proof.
  intros HP. apply posts_bind; [by apply posts_try, posts_publish|].
  intros. apply posts_nothing, keeps_ret.
Qed.
End publish.

#[export] Hint Resolve reads_PublishCore reads_publish_quiet : botpay.

(** Proves [posts] down to the publications, which it leaves as goals. *)
Ltac posts_tac :=
  repeat (intros; first
    [ assumption
    | apply posts_bind | apply posts_try
    | apply posts_publish_quiet | apply posts_publish
    | solve [apply posts_nothing; auto with botpay]
    | match goal with |- posts _ (match ?x with _ => _ end) => destruct x eqn:? end ]).
