(* ===== verification/Triples.v ===== *)
(** Assertions on a service's tables and state that its programs keep, with a
    postcondition on the value they return: the proof rules of the statements. *)
From S2P Require Import Prelude GoInt GoFloat Effects Bus.

(** [within I Q m]: run where [I] holds, [m] leaves a state where [I] holds,
    and a value it returns satisfies [Q]. *)
Definition within {D X A} (I : D -> X -> Prop) (Q : A -> Prop) (m : M D X A) : Prop :=
  forall s r s', I (db s) (ext s) -> m s = (r, s') ->
    I (db s') (ext s') /\ match r with Ok a => Q a | Err _ => True end.

Definition anything {A} : A -> Prop := fun _ => True.

(** What [try] hands on. *)
Definition on_ok {A} (Q : A -> Prop) (r : result A) : Prop := match r with Ok a => Q a | Err _ => True end.

Section within.
Context {D X : Type} {ENV : Env} (I : D -> X -> Prop).

Lemma within_weaken {A} (P Q : A -> Prop) (m : M D X A) :
  within I P m -> (forall a, P a -> Q a) -> within I Q m.
Proof. intros Hm HPQ s r s' Hi Hr. destruct (Hm s r s' Hi Hr) as [? ?]. split; [done|]. destruct r; auto. Qed.

Lemma within_anything {A} (P : A -> Prop) (m : M D X A) : within I P m -> within I anything m.
Proof. intros Hm. by eapply within_weaken. Qed.

Lemma within_ret {A} (Q : A -> Prop) a : Q a -> within I Q (ret a).
Proof. by intros HQ s r s' Hi [= <- <-]. Qed.

Lemma within_throw {A} (Q : A -> Prop) e : within I Q (throw e).
Proof. by intros s r s' Hi [= <- <-]. Qed.

Lemma within_bind {A B} (P : A -> Prop) (Q : B -> Prop) (m : M D X A) (k : A -> M D X B) :
  within I P m -> (forall a, P a -> within I Q (k a)) -> within I Q (bind m k).
Proof.
  intros Hm Hk s r s' Hi Hr. apply bind_run in Hr as (r1 & s1 & H1 & Hr).
  destruct (Hm _ _ _ Hi H1) as [Hi1 HP]. destruct r1 as [a|e].
  - by apply (Hk a HP _ _ _ Hi1 Hr).
  - by destruct Hr as [-> ->].
Qed.

Lemma within_try {A} (Q : A -> Prop) (m : M D X A) : within I Q m -> within I (on_ok Q) (try m).
Proof.
  intros Hm s r s' Hi Hr. apply try_run in Hr as (r1 & -> & Hr). destruct (Hm _ _ _ Hi Hr). by destruct r1.
Qed.

Lemma within_wrap_err {A} (Q : A -> Prop) f (m : M D X A) : within I Q m -> within I Q (wrap_err f m).
Proof.
  intros Hm s r s' Hi Hr. unfold wrap_err in Hr. destruct (m s) as [[a|e] s1] eqn:E;
    destruct (Hm _ _ _ Hi E); by injection Hr as <- <-.
Qed.

(** One statement that may change the tables. *)
Lemma within_stmt {A} (Q : A -> Prop) (f : D -> result (A * D)) :
  (forall d x a d', I d x -> f d = Ok (a, d') -> I d' x /\ Q a) -> within I Q (stmt f).
Proof.
  intros Hf s [a|e] s' Hi Hr.
  - apply stmt_ok in Hr as (d & Hd & -> & _). simpl. by eapply Hf.
  - apply stmt_err_db in Hr as [-> ->]. done.
Qed.

Lemma within_exec (f : D -> result D) :
  (forall d x d', I d x -> f d = Ok d' -> I d' x) -> within I anything (exec f).
Proof.
  intros Hf. apply within_stmt. intros d x u d' Hi Hd. split; [|done].
  destruct (f d) as [d1|] eqn:E; [|done]. injection Hd as <- <-. by eapply Hf.
Qed.

Lemma within_first {A} (q : D -> option A) :
  within I (fun a => exists d x, I d x /\ q d = Some a) (first q).
Proof.
  apply within_stmt. intros d x a d' Hi Hd. destruct (q d) eqn:E; [|done]. injection Hd as <- <-. eauto.
Qed.

Lemma within_find {A} (q : D -> A) : within I (fun a => exists d x, I d x /\ a = q d) (find q).
Proof. apply within_stmt. intros d x a d' Hi [= <- <-]. eauto. Qed.

Lemma within_now : within I anything now.
Proof. by intros s r s' Hi [= <- <-]. Qed.

Lemma within_uuid : within I anything uuid_New.
Proof. by intros s r s' Hi [= <- <-]. Qed.

Lemma within_get_ext : within I (fun x => exists d, I d x) get_ext.
Proof. intros s r s' Hi [= <- <-]. eauto. Qed.

Lemma within_mod_ext f : (forall d x, I d x -> I d (f x)) -> within I anything (mod_ext f).
Proof. intros Hf s r s' Hi [= <- <-]. simpl. split; [auto|done]. Qed.

(** The body of a transaction that touches only the tables. *)
Lemma within_transaction {A} (Q : A -> Prop) (m : M D X A) :
  keeps (fun x => x) m -> within I Q m -> within I Q (transaction m).
Proof.
  intros Hk Hm s r s' Hi Hr. unfold transaction in Hr. destruct (env_fault _); [by injection Hr as <- <-|].
  destruct (m _) as [r1 s1] eqn:E. pose proof (Hk _ _ _ E) as Hx. simpl in Hx.
  destruct (Hm (mkSt (S (tick s)) InTx (db s) (ext s)) _ _ Hi E) as [Hi1 HQ]. rewrite Hx in Hi1.
  destruct r1 as [a|e]; [|injection Hr as <- <-; simpl; by rewrite Hx].
  destruct (tx s1), (env_fault (tick s1)); injection Hr as <- <-; simpl; rewrite Hx; by split.
Qed.

Context `{Outbox X}.

Lemma within_publish subject payload :
  (forall d x, I d x -> I d (post {| ev_Subject := subject; ev_Fields := payload |} x)) ->
  within I anything (PublishCore subject payload).
Proof.
  intros Hp s r s' Hi Hr. unfold PublishCore, bump in Hr. destruct (negb _); [by injection Hr as <- <-|].
  destruct (env_fault _); injection Hr as <- <-; simpl; (split; [auto|done]).
Qed.

Lemma within_publish_quiet subject payload :
  (forall d x, I d x -> I d (post {| ev_Subject := subject; ev_Fields := payload |} x)) ->
  within I anything (publish_quiet subject payload).
Proof.
  intros Hp. eapply within_bind; [by apply within_try, within_publish|]. intros. by apply within_ret.
Qed.
End within.

(** A program that keeps two assertions keeps both. *)
Lemma within_and {D X A} {ENV : Env} (I J : D -> X -> Prop) (P Q : A -> Prop) (m : M D X A) :
  within I P m -> within J Q m -> within (fun d x => I d x /\ J d x) (fun a => P a /\ Q a) m.
Proof.
  intros Hi Hj s r s' [HI HJ] Hr. destruct (Hi _ _ _ HI Hr), (Hj _ _ _ HJ Hr). by destruct r.
Qed.

(** The tables related to those at the start, in the style of [moves]. *)
Lemma within_moves {D X A} {ENV : Env} (R : D -> D -> Prop) (m : M D X A) :
  (forall d0, within (fun d _ => R d0 d) anything m) -> Reflexive R -> moves R m.
Proof. intros Hm HR s r s' Hr. by apply (Hm (db s) s r s'). Qed.

Create HintDb within discriminated.
#[export] Hint Resolve within_throw within_now within_uuid : within.

(** Descends into a program; statements and publications stay as goals when no
    hint of the database [within] proves them. *)
Ltac within_step :=
  match goal with
  | |- within _ _ (bind _ _) => eapply within_bind; [|intros ? ?]
  | |- within _ _ (try _) => eapply within_try
  | |- within _ _ (wrap_err _ _) => eapply within_wrap_err
  | |- within _ _ (throw _) => apply within_throw
  | |- within _ _ (ret _) => apply within_ret; try done
  | |- within _ _ now => apply within_now
  | |- within _ _ uuid_New => apply within_uuid
  | |- within _ _ get_ext => apply within_get_ext
  | |- within _ _ (first _) => apply within_first
  | |- within _ _ (find _) => apply within_find
  | |- within _ _ (exec _) => apply within_exec
  | |- within _ _ (match ?x with _ => _ end) => destruct x eqn:?
  end.
Ltac within_tac := repeat (first [solve [eauto 3 with within] | within_step]).

(** * Programs that never fail *)

Definition sure {D X A} (m : M D X A) : Prop := forall s, exists a s', m s = (Ok a, s').

Section sure.
Context {D X : Type} {ENV : Env}.

Lemma sure_ret {A} (a : A) : sure (@ret D X A a).
Proof. intros s. by eexists _, _. Qed.

Lemma sure_bind {A B} (m : M D X A) (k : A -> M D X B) : sure m -> (forall a, sure (k a)) -> sure (bind m k).
Proof. intros Hm Hk s. destruct (Hm s) as (a & s1 & E). destruct (Hk a s1) as (b & s2 & E2). exists b, s2. by eapply bind_intro. Qed.

Lemma sure_try {A} (m : M D X A) : sure (try m).
Proof. intros s. unfold try. destruct (m s). by eexists _, _. Qed.

Lemma sure_now : sure (@now D X _).
Proof. intros s. by eexists _, _. Qed.

Lemma sure_uuid : sure (@uuid_New D X _).
Proof. intros s. by eexists _, _. Qed.

Lemma sure_get_ext : sure (@get_ext D X).
Proof. intros s. by eexists _, _. Qed.

Lemma sure_row {A} (zero : A) (m : M D X A) : sure (row_and_error zero m).
Proof. intros s. unfold row_and_error. destruct (m s). by eexists _, _. Qed.

Lemma sure_publish_quiet `{Outbox X} subject payload : sure (publish_quiet (D := D) subject payload).
Proof. apply sure_bind; [apply sure_try|intros; apply sure_ret]. Qed.

(** What [row_and_error] hands on: the row, nothing, or the zero row. *)
Lemma within_first_row {A} (I : D -> X -> Prop) (zero : A) (q : D -> option A) :
  within I (fun p => match p with
                     | (Some a, None) => exists d x, I d x /\ q d = Some a
                     | (None, None) => True
                     | (Some a, Some _) => a = zero
                     | (None, Some _) => False end) (row_and_error zero (first q)).
Proof.
  intros s r s' Hi Hr. unfold row_and_error in Hr. destruct (first q s) as [r1 s1] eqn:E.
  destruct (within_first I q s r1 s1 Hi E) as [Hi1 HQ]. injection Hr as <- <-. split; [done|].
  destruct r1 as [a|e]; [done|]. by destruct e.
Qed.
End sure.

#[export] Hint Resolve sure_ret sure_try sure_now sure_uuid sure_get_ext sure_row sure_publish_quiet : sure.
Ltac sure_tac :=
  repeat (intros; first
    [ solve [auto with sure]
    | apply sure_bind
    | match goal with |- sure (match ?x with _ => _ end) => destruct x end ]).

(** * Runs in which nothing fails *)

Section runs.
Context {D X : Type} {ENV : Env}.

(** No statement fails, and [clock] holds of whatever the clock reads. *)
Class Quiet (clock : Z -> Prop) := { quiet_fault : forall k, env_fault k = None; quiet_clock : forall k, clock (env_now k) }.
Context {clock : Z -> Prop} {QUIET : Quiet clock}.

(** Started outside a transaction on the tables [d] and the state [x], [m]
    succeeds and ends in [post]. *)
Definition runs {A} (m : M D X A) (d : D) (x : X) (post : A -> D -> X -> Prop) : Prop :=
  forall t, exists a t' d' x', m (mkSt t NoTx d x) = (Ok a, mkSt t' NoTx d' x') /\ post a d' x'.

Lemma runs_weaken {A} (m : M D X A) d x (P Q : A -> D -> X -> Prop) :
  runs m d x P -> (forall a d' x', P a d' x' -> Q a d' x') -> runs m d x Q.
Proof. intros Hm HPQ t. destruct (Hm t) as (a & t' & d' & x' & E & HP). exists a, t', d', x'. auto. Qed.

Lemma runs_ret {A} (a : A) d x post : post a d x -> runs (ret a) d x post.
Proof. intros HP t. by exists a, t, d, x. Qed.

Lemma runs_bind {A B} (m : M D X A) (k : A -> M D X B) d x post :
  runs m d x (fun a d' x' => runs (k a) d' x' post) -> runs (bind m k) d x post.
Proof.
  intros Hm t. destruct (Hm t) as (a & t1 & d1 & x1 & E & Hk). destruct (Hk t1) as (b & t2 & d2 & x2 & E2 & HP).
  exists b, t2, d2, x2. split; [by eapply bind_intro|done].
Qed.

Lemma runs_try {A} (m : M D X A) d x post :
  runs m d x (fun a d' x' => post (Ok a) d' x') -> runs (try m) d x post.
Proof.
  intros Hm t. destruct (Hm t) as (a & t' & d' & x' & E & HP). exists (Ok a), t', d', x'. split; [by apply try_intro|done].
Qed.

Lemma runs_now d x post : (forall n, clock n -> post n d x) -> runs now d x post.
Proof. intros HP t. eexists _, _, d, x. split; [done|]. apply HP, quiet_clock. Qed.

Lemma runs_stmt {A} (f : D -> result (A * D)) d x a d' post :
  f d = Ok (a, d') -> post a d' x -> runs (stmt f) d x post.
Proof.
  intros Hf HP t. exists a, (S t), d', x. split; [|done]. rewrite stmt_quiet by (apply quiet_fault || done). simpl. by rewrite Hf.
Qed.

Lemma runs_find {A} (q : D -> A) d x post : post (q d) d x -> runs (find q) d x post.
Proof. intros HP. by eapply runs_stmt. Qed.

Lemma runs_exec (f : D -> result D) d x d' post : f d = Ok d' -> post tt d' x -> runs (exec f) d x post.
Proof. intros Hf HP. eapply runs_stmt; [|done]. by rewrite Hf. Qed.

Lemma runs_try_first {A} (q : D -> option A) d x post :
  post (match q d with Some a => Ok a | None => Err ErrRecordNotFound end) d x -> runs (try (first q)) d x post.
Proof.
  intros HP t. exists (match q d with Some a => Ok a | None => Err ErrRecordNotFound end), (S t), d, x.
  split; [|done]. apply try_intro. by rewrite first_quiet by (apply quiet_fault || done).
Qed.

Lemma runs_row {A} (zero : A) (q : D -> option A) d x post :
  post (q d, None) d x -> runs (row_and_error zero (first q)) d x post.
Proof.
  intros HP t. exists (q d, None), (S t), d, x. split; [|done]. unfold row_and_error.
  rewrite first_quiet by (apply quiet_fault || done). simpl. by destruct (q d).
Qed.

Lemma runs_publish_quiet `{Outbox X} subject payload d x (Q : unit -> D -> X -> Prop) :
  (json_ok {| ev_Subject := subject; ev_Fields := payload |} = false -> Q tt d x) ->
  (json_ok {| ev_Subject := subject; ev_Fields := payload |} = true ->
   Q tt d (post {| ev_Subject := subject; ev_Fields := payload |} x)) ->
  runs (publish_quiet subject payload) d x Q.
Proof.
  intros H0 H1 t. unfold publish_quiet, PublishCore, bind, try. destruct (json_ok _); simpl.
  - rewrite quiet_fault. eexists _, _, _, _. split; [done|]. by apply H1.
  - eexists _, _, _, _. split; [done|]. by apply H0.
Qed.
End runs.

(** Descends into a program that reads and branches. *)
Ltac runs_step :=
  match goal with
  | |- runs (bind _ _) _ _ _ => apply runs_bind
  | |- runs (try (first _)) _ _ _ => apply runs_try_first
  | |- runs (try _) _ _ _ => apply runs_try
  | |- runs (ret _) _ _ _ => apply runs_ret
  | |- runs now _ _ _ => apply runs_now; intros ? ?
  | |- runs (find _) _ _ _ => apply runs_find
  | |- runs (row_and_error _ (first _)) _ _ _ => apply runs_row
  | |- runs (match ?x with _ => _ end) _ _ _ => destruct x eqn:?
  end; cbv beta.
