(* ===== verification/TonWatcher.v ===== *)
(** botpay/internal/ton/watcher.go: polls the chain for incoming transfers and
    hands each to the deposit handler, with the deposit handler of the wallet
    service plugged in as main.go does. *)
From S2P Require Import Prelude GoInt GoFloat GoString GoText Effects PayModels PayChain PayStore.
From S2P Require Import PayInvariant PayStoreSpec Consensus ConsensusSpec Localization WalletService WalletServiceSpec.

(** * Data *)

Record WatcherConfig := { wc_MasterAddress : string; wc_APIKey : string; wc_Network : string; wc_PollInterval : Z }.

(** New: an interval of zero means fifteen seconds. *)
Definition New (cfg : WatcherConfig) : WatcherConfig :=
  if wc_PollInterval cfg =? 0 then
    {| wc_MasterAddress := wc_MasterAddress cfg; wc_APIKey := wc_APIKey cfg; wc_Network := wc_Network cfg;
       wc_PollInterval := 15000000000 |}
  else cfg.

Record tonTx := { tt_Hash : string; tt_Source : string; tt_Value : string; tt_Message : string }.

(** What comes back over HTTP: a transport error, a body that is not the
    expected JSON, or the decoded object. *)
Inductive ApiReply :=
| Unreachable (e : error)
| Undecodable (e : error)
| Decoded (ok : bool) (result : list tonTx) (message : string).

Definition request_url (cfg : WatcherConfig) : string :=
  let base := if (wc_Network cfg =? "testnet")%string then "https://testnet.toncenter.com/api/v2"
              else "https://toncenter.com/api/v2" in
  let url := base +:+ "/getTransactions?address=" +:+ wc_MasterAddress cfg +:+ "&limit=20&archival=true" in
  if (wc_APIKey cfg =? "")%string then url else url +:+ "&api_key=" +:+ wc_APIKey cfg.

Definition fetchTransactions (reply : ApiReply) : result (list tonTx) :=
  match reply with
  | Unreachable e => Err (Wrapf "toncenter: %w" [] e)
  | Undecodable e => Err (Wrapf "decode: %w" [] e)
  | Decoded false _ message => Err (Errorf "toncenter: %s" [AStr message])
  | Decoded true txs _ => Ok txs
  end.

(** * Polling *)

Section watcher.
Context {D X : Type} (handler : DepositEvent -> M D X unit).
Abbreviation WM := (M D (X * gset string)).

(** Only incoming transfers that carry a value. *)
Definition incoming (t : tonTx) : bool :=
  negb ((tt_Source t =? "")%string || (tt_Value t =? "0")%string || (tt_Value t =? "")%string).

Definition event_of (t : tonTx) : DepositEvent :=
  let amountNano := Sscanf_d (tt_Value t) in
  {| ev_TelegramID := 0; ev_WalletID := ""; ev_AmountNano := amountNano;
     ev_AmountTON := f64_div (f64_of_int amountNano) f64_1e9; ev_TxHash := tt_Hash t;
     ev_FromAddr := tt_Source t; ev_InvoiceCode := tt_Message t |}.

(** One round of the loop over the transactions; the handler's error is logged. *)
Definition poll_tx (t : tonTx) : WM unit :=
  if negb (incoming t) then ret tt
  else
  (x <- get_ext ;;
   if bool_decide (tt_Hash t ∈ snd x) then ret tt
   else
   (mod_ext (fun x => (fst x, {[tt_Hash t]} ∪ snd x)) ;;
    if Sscanf_d (tt_Value t) <=? 0 then ret tt
    else (try (lift (handler (event_of t))) ;; ret tt)))%eff.

Fixpoint poll_loop (txs : list tonTx) : WM unit :=
  match txs with [] => ret tt | t :: txs => (poll_tx t ;; poll_loop txs)%eff end.

Definition poll (reply : ApiReply) : WM unit :=
  match fetchTransactions reply with
  | Err _ => ret tt
  | Ok txs => poll_loop txs
  end.

(** What Run has done after the given answers. *)
Fixpoint Run (replies : list ApiReply) : WM unit :=
  match replies with [] => ret tt | r :: replies => (poll r ;; Run replies)%eff end.
End watcher.

(** * What is handled *)

Section events.
Implicit Types (seen : gset string) (txs : list tonTx).

(** The events a list of transactions gives rise to, and the hashes known
    afterwards. *)
Fixpoint new_events seen txs : list DepositEvent :=
  match txs with
  | [] => []
  | t :: txs =>
      if negb (incoming t) || bool_decide (tt_Hash t ∈ seen) then new_events seen txs
      else (if Sscanf_d (tt_Value t) <=? 0 then [] else [event_of t])
           ++ new_events ({[tt_Hash t]} ∪ seen) txs
  end.

Definition seen_after seen txs : gset string := seen ∪ list_to_set (map tt_Hash (List.filter incoming txs)).

(** Everything the answers delivered. *)
Definition arrived (replies : list ApiReply) : list tonTx :=
  concat (map (fun r => match fetchTransactions r with Ok txs => txs | Err _ => [] end) replies).

Lemma new_events_app seen txs1 txs2 :
  new_events seen (txs1 ++ txs2) = new_events seen txs1 ++ new_events (seen_after seen txs1) txs2.
Proof.
  revert seen. induction txs1 as [|t l IH]; intros seen.
  - unfold seen_after. simpl. by rewrite (right_id_L ∅ (∪)).
  - unfold seen_after in *. cbn [new_events app List.filter].
    destruct (incoming t) eqn:Ei; cbn [negb orb map list_to_set]; [|apply IH].
    case_bool_decide as Hs; rewrite IH; [|rewrite app_assoc]; f_equal; f_equal; set_solver.
Qed.

(** The first incoming transfer with a given hash. *)
Definition first_with (h : string) txs : option tonTx :=
  List.find (fun t => incoming t && (tt_Hash t =? h)%string) txs.

Lemma new_events_spec seen txs :
  NoDup (map ev_TxHash (new_events seen txs)) /\
  forall ev, ev ∈ new_events seen txs <->
    ev_TxHash ev ∉ seen /\ exists t, first_with (ev_TxHash ev) txs = Some t /\ ev = event_of t /\ 0 < ev_AmountNano ev.
Proof.
  revert seen. induction txs as [|t l IH]; intros seen.
  - split; [constructor|]. intros ev. split; [set_solver|]. intros (_ & t & Ht & _). discriminate.
  - cbn [new_events]. unfold first_with in *. cbn [List.find].
    destruct (incoming t) eqn:Ei; cbn [negb orb andb]; [|exact (IH seen)].
    case_bool_decide as Hs.
    { destruct (IH seen) as [Hn He]. split; [done|]. intros ev. rewrite He.
      destruct (String.eqb_spec (tt_Hash t) (ev_TxHash ev)) as [E|E]; [|done].
      split; intros [Hns _]; by rewrite <- E in Hns. }
    destruct (IH ({[tt_Hash t]} ∪ seen)) as [Hn He].
    assert (Hnew : forall ev, ev ∈ new_events ({[tt_Hash t]} ∪ seen) l -> ev_TxHash ev <> tt_Hash t).
    { intros ev Hev E. apply He in Hev as [Hns _]. set_solver. }
    split.
    + rewrite map_app. destruct (Z.leb_spec (Sscanf_d (tt_Value t)) 0) as [Hz|Hz]; [done|].
      simpl. constructor; [|done]. intros Hin. apply list_elem_of_fmap in Hin as (ev & E & Hev).
      by apply (Hnew ev Hev).
    + intros ev. rewrite elem_of_app, He.
      destruct (String.eqb_spec (tt_Hash t) (ev_TxHash ev)) as [E|E].
      * split.
        -- intros [Hev|[Hns _]]; [|set_solver].
           destruct (Z.leb_spec (Sscanf_d (tt_Value t)) 0); [set_solver|].
           apply list_elem_of_singleton in Hev as ->. split; [done|]. by exists t.
        -- intros (_ & t' & [= <-] & -> & Hpos). left. simpl in Hpos.
           destruct (Z.leb_spec (Sscanf_d (tt_Value t)) 0); [lia|set_solver].
      * split.
        -- intros [Hev|[Hns Ht]]; [|split; [set_solver|done]].
           destruct (Sscanf_d (tt_Value t) <=? 0); [set_solver|].
           apply list_elem_of_singleton in Hev as ->. done.
        -- intros [Hns Ht]. right. split; [set_solver|done].
Qed.

End events.

Section spec.
Context {D X : Type} {ENV : Env} (handler : DepositEvent -> M D X unit).
Implicit Types (seen : gset string) (txs : list tonTx).

(** The handler run on each event, its errors ignored. *)
Fixpoint handle_all (evs : list DepositEvent) (s : st D X) : st D X :=
  match evs with [] => s | ev :: evs => handle_all evs (snd (handler ev s)) end.

Definition with_seen seen (s : st D X) : st D (X * gset string) :=
  mkSt (tick s) (tx s) (db s) (ext s, seen).

Lemma handle_all_app l1 l2 s : handle_all (l1 ++ l2) s = handle_all l2 (handle_all l1 s).
Proof. revert s. induction l1 as [|e l1 IH]; intros s; simpl; [done|apply IH]. Qed.

Lemma poll_tx_run t seen s :
  poll_tx handler t (with_seen seen s) =
  (Ok tt, with_seen (seen_after seen [t]) (handle_all (new_events seen [t]) s)).
Proof.
  unfold poll_tx, seen_after. cbn [new_events List.filter].
  destruct (incoming t); cbn [negb orb map list_to_set].
  2: { unfold ret. by rewrite (right_id_L ∅ (∪)). }
  unfold bind, get_ext. cbn [ext with_seen snd]. case_bool_decide as Hs.
  - unfold ret. cbn [handle_all]. do 2 f_equal. set_solver.
  - assert (E : seen ∪ ({[tt_Hash t]} ∪ ∅) = {[tt_Hash t]} ∪ seen) by set_solver. cbn [list_to_set foldr fmap list_fmap] in *.
    unfold mod_ext, try, lift, ret. cbn [ext with_seen fst snd tick tx db]. rewrite E.
    destruct (Sscanf_d (tt_Value t) <=? 0); cbn [app handle_all]; [done|].
    destruct s as [k q d x]. cbn. destruct (handler (event_of t) (mkSt k q d x)) as [r s1]. reflexivity.
Qed.

Lemma poll_loop_run txs seen s :
  poll_loop handler txs (with_seen seen s) = (Ok tt, with_seen (seen_after seen txs) (handle_all (new_events seen txs) s)).
Proof.
  revert seen s. induction txs as [|t l IH]; intros seen s.
  - unfold seen_after. simpl. by rewrite (right_id_L ∅ (∪)).
  - cbn [poll_loop]. unfold bind. rewrite poll_tx_run, IH.
    change (t :: l) with ([t] ++ l). rewrite new_events_app, handle_all_app. do 2 f_equal.
    unfold seen_after. rewrite List.filter_app, map_app, list_to_set_app_L. set_solver.
Qed.

Lemma Run_run replies seen s :
  Run handler replies (with_seen seen s) =
  (Ok tt, with_seen (seen_after seen (arrived replies)) (handle_all (new_events seen (arrived replies)) s)).
Proof.
  revert seen s. induction replies as [|r l IH]; intros seen s.
  - unfold seen_after. simpl. by rewrite (right_id_L ∅ (∪)).
  - cbn [Run]. unfold arrived, poll in *. cbn [map concat]. unfold bind.
    destruct (fetchTransactions r) as [txs|e]; [|apply IH].
    rewrite poll_loop_run, IH, new_events_app, handle_all_app. do 2 f_equal.
    unfold seen_after. rewrite List.filter_app, map_app, list_to_set_app_L. set_solver.
Qed.

(** However the API answers over any number of polls, the watcher never
    stops, and exactly these events are handed to the handler, in order of
    arrival: one for each hash not known before whose first incoming transfer
    has a positive amount. No hash is ever handed over twice; nothing that was
    handed over is tried again, whether the handler failed or not. *)
Theorem Run_handles_once replies seen s :
  let evs := new_events seen (arrived replies) in
  Run handler replies (with_seen seen s) =
    (Ok tt, with_seen (seen_after seen (arrived replies)) (handle_all evs s)) /\
  NoDup (map ev_TxHash evs) /\
  (forall ev, ev ∈ evs <->
     ev_TxHash ev ∉ seen /\
     exists t, first_with (ev_TxHash ev) (arrived replies) = Some t /\ ev = event_of t /\ 0 < ev_AmountNano ev) /\
  new_events (seen_after seen (arrived replies)) (arrived replies) = [].
Proof.
  intros evs. destruct (new_events_spec seen (arrived replies)) as [Hn He].
  split; [apply Run_run|]. split; [done|]. split; [done|].
  clear evs. destruct (new_events (seen_after seen (arrived replies)) (arrived replies)) as [|ev l] eqn:E; [done|]. exfalso.
  destruct (new_events_spec (seen_after seen (arrived replies)) (arrived replies)) as [_ H].
  rewrite E in H. destruct (proj1 (H ev) (list_elem_of_here _ _)) as (Hns & t & Ht & -> & _).
  apply find_some in Ht as [Hin Hi]. apply andb_prop in Hi as [Hi _].
  apply Hns. unfold seen_after. apply elem_of_union_r, elem_of_list_to_set.
  apply list_elem_of_fmap. exists t. split; [done|]. apply list_elem_of_In. by apply List.filter_In.
Qed.
End spec.

(** * With the wallet service *)

Section wallet.
Context {ENV : Env} {LIB : Lib} {CRYPTO : Crypto} {LOC : Locales}.
Implicit Types s : st Tables WS.

Lemma HandleDeposit_inv order ev s r s' :
  HandleDeposit order ev s = (r, s') -> 0 < ev_AmountNano ev -> pay_inv (db s) -> pay_inv (db s').
Proof.
  intros H Hpos I. unfold HandleDeposit in H. apply bind_run in H as (r1 & s1 & H1 & H).
  pose proof (reads_deposit_target _ _ _ _ H1) as Hd1.
  destruct r1 as [[ow oi]|e]; [|destruct H as [_ ->]; by rewrite Hd1].
  apply deposit_target_ok in H1 as (_ & _ & Hw).
  destruct ow as [w|]; [|injection H as _ <-; by rewrite Hd1].
  apply bind_run in H as (r2 & s2 & H2 & H). pose proof (reads_guarded _ _ _ _ H2) as Hd2.
  destruct r2 as [[]|e]; [|destruct H as [_ ->]; by rewrite Hd2, Hd1].
  apply bind_run in H as (r3 & s3 & H3 & H).
  assert (I3 : pay_inv (db s3)).
  { unfold wrap_err in H3. destruct (Deposit _ _ _ _ _ s2) as [r4 s4] eqn:E4.
    assert (s3 = s4) as -> by (destruct r4; by injection H3).
    apply (Deposit_inv _ _ _ _ _ _ _ _ E4 Hpos); [|by rewrite Hd2, Hd1].
    rewrite Hd2, Hd1. destruct Hw as [_ [(i & _ & _ & _ & Hi)|[Hi _]]].
    - by rewrite (ok_id _ _ _ (inv_wallets _ I _ _ Hi)).
    - by rewrite (row_lookup _ _ I Hi). }
  destruct r3 as [t|e]; [|by destruct H as [_ ->]].
  destruct (after_deposit_ok ev w oi s3) as (s5 & E5 & Ha & Hb & Hc). rewrite H in E5. injection E5 as _ ->.
  by apply (pay_inv_same (db s3)).
Qed.

(** The transactions recorded under a chain hash. *)
Definition recorded (h : string) (d : Tables) : list Transaction :=
  List.filter (fun t => (t_TxHash t =? h)%string) (transactions d).

Definition credit_inv (h : string) s : Prop := pay_inv (db s) /\ (length (recorded h (db s)) <= 1)%nat.

Lemma HandleDeposit_credit_inv h order ev s r s' :
  HandleDeposit order ev s = (r, s') -> 0 < ev_AmountNano ev -> credit_inv h s -> credit_inv h s'.
Proof.
  intros H Hpos [I Hn]. split; [by apply (HandleDeposit_inv _ _ _ _ _ H)|].
  apply HandleDeposit_cases in H; [|done]. unfold recorded in *.
  destruct r as [u|e]; [|by rewrite H]. destruct H as [(_ & -> & _)|H]; [done|].
  destruct H as (w & t & _ & Hf & _ & _ & _ & Hh & (_ & -> & _) & _).
  unfold credited. simpl. rewrite List.filter_app, length_app. simpl.
  destruct (String.eqb_spec (t_TxHash t) h) as [E|E]; [|simpl; lia].
  unfold find_by_hash in Hf. rewrite first_row_none in Hf.
  assert (Hnil : List.filter (fun t => (t_TxHash t =? h)%string) (transactions (db s)) = []).
  { destruct (List.filter _ _) as [|t0 l] eqn:El; [done|].
    assert (Hin : In t0 (t0 :: l)) by by left. rewrite <- El in Hin. apply List.filter_In in Hin as [Hin Ht0].
    apply list_elem_of_In in Hin. specialize (Hf _ Hin). simpl in Hf. rewrite <- Hh, E in Hf. congruence. }
  rewrite Hnil. simpl. lia.
Qed.

(** The vote schedule may be different each time. *)
Context (order_of : DepositEvent -> list (option nat)).
Definition deposit_handler (ev : DepositEvent) : M Tables WS unit := HandleDeposit (order_of ev) ev.

(** A running watcher polls, or the process restarts and forgets the hashes. *)
Inductive watch_step : st Tables (WS * gset string) -> st Tables (WS * gset string) -> Prop :=
| watch_poll reply a b : poll deposit_handler reply a = (Ok tt, b) -> watch_step a b
| watch_restart a : watch_step a (mkSt (tick a) NoTx (db a) (fst (ext a), ∅)).

Lemma handle_all_credit_inv h evs s :
  Forall (fun ev => 0 < ev_AmountNano ev) evs -> credit_inv h s -> credit_inv h (handle_all deposit_handler evs s).
Proof.
  intros He. revert s. induction He as [|ev evs Hev _ IH]; intros s I; simpl; [done|].
  apply IH. destruct (deposit_handler ev s) as [r s1] eqn:E. by apply (HandleDeposit_credit_inv _ _ _ _ _ _ E).
Qed.

Lemma new_events_positive seen txs : Forall (fun ev => 0 < ev_AmountNano ev) (new_events seen txs).
Proof.
  apply Forall_forall. intros ev Hev. by apply (proj2 (new_events_spec seen txs)) in Hev as (_ & t & _ & _ & ?).
Qed.

(** The state as the wallet service sees it. *)
Definition inner (a : st Tables (WS * gset string)) : st Tables WS :=
  mkSt (tick a) (tx a) (db a) (fst (ext a)).

(** C14: From the chain to the books, each transfer counts once: however the API
    answers, however often the watcher polls and is restarted, whatever
    statements fail and votes are late, the tables keep their invariant and at
    most one transaction is recorded under any chain hash. *)
Theorem watcher_credits_once h a b :
  rtc watch_step a b -> pay_inv (db a) -> (length (recorded h (db a)) <= 1)%nat ->
  pay_inv (db b) /\ (length (recorded h (db b)) <= 1)%nat.
Proof.
  intros Hr I Hn. change (credit_inv h (inner b)). assert (I0 : credit_inv h (inner a)) by done. clear I Hn.
  induction Hr as [|a a1 b Hstep _ IH]; [done|]. apply IH. clear IH.
  destruct Hstep as [reply a a1 Hp|a]; [|done].
  unfold poll in Hp. destruct (fetchTransactions reply) as [txs|e]; [|by injection Hp as <-].
  destruct a as [k q d [x seen]].
  change (poll_loop deposit_handler txs (with_seen seen (inner (mkSt k q d (x, seen)))) = (Ok tt, a1)) in Hp.
  rewrite poll_loop_run in Hp. injection Hp as <-.
  pose proof (handle_all_credit_inv h _ _ (new_events_positive seen txs) I0) as I1.
  by destruct (handle_all _ _ _).
Qed.
End wallet.

(** * Examples *)

Section demo.
#[local] Existing Instance calm_env.
#[local] Existing Instance demo_lib.
#[local] Existing Instance demo_crypto.
#[local] Existing Instance demo_locales.

Definition demo_tx (hash value : string) : tonTx :=
  {| tt_Hash := hash; tt_Source := "UQsender"; tt_Value := value; tt_Message := "u_qglj" |}.

(** The same transfer twice in one answer, an outgoing one, one without value,
    then an outage, then everything again with a new transfer in front. *)
Definition demo_replies : list ApiReply :=
  [Decoded true [demo_tx "hash-A-0123" "300"; demo_tx "hash-A-0123" "300";
                 {| tt_Hash := "hash-B-0123"; tt_Source := ""; tt_Value := "7"; tt_Message := "" |};
                 demo_tx "hash-C-0123" "0"] "";
   Decoded false [] "LITE_SERVER_UNKNOWN";
   Decoded true [demo_tx "hash-D-0123" "200"; demo_tx "hash-A-0123" "300"] ""].

Definition demo_handler : DepositEvent -> M Tables WS unit := deposit_handler (fun _ => demo_order).

Lemma Run_handles_once_witness :
  Run demo_handler demo_replies (with_seen ∅ (demo_service (db demo_3))) =
    (Ok tt, with_seen {["hash-A-0123"; "hash-D-0123"]}
       (handle_all demo_handler [event_of (demo_tx "hash-A-0123" "300"); event_of (demo_tx "hash-D-0123" "200")]
          (demo_service (db demo_3)))).
Proof.
  destruct (Run_handles_once demo_handler demo_replies ∅ (demo_service (db demo_3))) as [H _].
  rewrite H. f_equal.
Defined.

(** One poll, a crash, and a poll that sees the first transfer again. *)
Definition watched_0 : st Tables (WS * gset string) := with_seen ∅ (demo_service (db demo_3)).
Definition watched_1 : st Tables (WS * gset string) := Eval vm_compute in
  snd (poll demo_handler (Decoded true [demo_tx "hash-A-0123" "300"] "") watched_0).
Definition watched_2 : st Tables (WS * gset string) :=
  mkSt (tick watched_1) NoTx (db watched_1) (fst (ext watched_1), ∅).
Definition watched_3 : st Tables (WS * gset string) := Eval vm_compute in
  snd (poll demo_handler (Decoded true [demo_tx "hash-A-0123" "300"] "") watched_2).

Lemma demo_polls :
  poll demo_handler (Decoded true [demo_tx "hash-A-0123" "300"] "") watched_0 = (Ok tt, watched_1) /\
  poll demo_handler (Decoded true [demo_tx "hash-A-0123" "300"] "") watched_2 = (Ok tt, watched_3).
Proof. split; vm_compute; reflexivity. Qed.

Lemma watcher_credits_once_witness :
  length (transactions (db watched_3)) = 2%nat /\ (length (recorded "hash-A-0123" (db watched_3)) <= 1)%nat.
Proof.
  destruct demo_polls as [H1 H3]. split; [vm_compute; reflexivity|].
  refine (proj2 (watcher_credits_once (fun _ => demo_order) "hash-A-0123" watched_0 watched_3 _ demo_inv _)).
  - eapply rtc_l; [exact (watch_poll _ _ _ _ H1)|]. eapply rtc_l; [apply watch_restart|].
    eapply rtc_l; [exact (watch_poll _ _ _ _ H3)|]. apply rtc_refl.
  - vm_compute. lia.
Defined.
End demo.
