(* ===== verification/PayBot.v ===== *)
(** botpay/internal/tgbot: the Telegram interface of the wallet — multi-step
    conversations, menu, callbacks and the owner's panel. *)
From S2P Require Import Prelude GoInt GoFloat GoString GoText Bus Effects PayModels PayChain PayStore.
From S2P Require Import Consensus Localization WalletService.

(** * Conversations (state.go) *)

Inductive convKind := kindNone | kindWithdraw | kindTransfer | kindAdminApprove | kindAdminReject | kindAdminCredit.

Record convState := { kind : convKind; step : string; addr : string; toID : Z; arg : string }.

Definition conv (k : convKind) (step arg : string) : convState :=
  {| kind := k; step := step; addr := ""; toID := 0; arg := arg |}.
Definition at_amount (st : convState) (addr : string) (toID : Z) : convState :=
  {| kind := kind st; step := "amount"; addr := addr; toID := toID; arg := arg st |}.

(** * What the user sees *)

(** A composed message: translated texts, a translated frame around err.Error()
    or around another text, and concatenation. Instants stand for their formatted form. *)
Inductive Message :=
| MText (t : Text)
| MError (lang : Lang) (key : string) (e : error)
| MFrame (lang : Lang) (key : string) (before : list fmtarg) (t : Text) (after : list fmtarg)
| MConcat (l : list Message).

(** Keyboards, by what they are made from (keyboards.go). *)
Inductive Keyboard :=
| NoKeyboard
| kbMain (lang : Lang)
| kbCancelOnly (lang : Lang)
| kbLanguage
| kbDeposit (lang : Lang) (payURL code : string)
| kbAdminMenu (lang : Lang)
| kbWithdrawList (lang : Lang) (ids : list uuid).

Inductive Answer :=
| Send (m : Message) (kb : Keyboard)
| Edit (m : Message) (kb : Keyboard)
| Respond (m : option Message).

Record BotState := { b_states : gmap Z convState; b_answers : list (Z * Answer) }.

Definition set_states (f : gmap Z convState -> gmap Z convState) (b : BotState) : BotState :=
  {| b_states := f (b_states b); b_answers := b_answers b |}.
Definition add_answer (to : Z) (a : Answer) (b : BotState) : BotState :=
  {| b_states := b_states b; b_answers := b_answers b ++ [(to, a)] |}.

(** An update: its sender (updates from users always have one), the text of a
    message, the payload of a command, the data of a callback. *)
Record Update := {
  Sender : Z; FirstName : string; LanguageCode : string; MsgText : string; Payload : string; CallbackData : string;
}.

Definition text_string (t : Text) : string := match t with Plain s | Sprintf s _ => s end.

(** txMeta: icon and label of a transaction type. *)
Definition txMeta (t : TxType) : string * string :=
  match t with
  | TxDeposit => ("📥", KTxDeposit)
  | TxWithdraw => ("📤", KTxWithdraw)
  | TxCreditAdd => ("🎁", KTxCreditAdd)
  | TxPayment => ("💸", KTxPayment)
  | TxRefund => ("↩️", KTxRefund)
  end%string.

Definition truncate (s : string) (n : nat) : string :=
  let r := Runes s in
  if (length r <=? n)%nat then s else Join "" (take n r) +:+ "...".

Section bot.
Context {ENV : Env} {LIB : Lib} {CRYPTO : Crypto} {LOC : Locales} {FP : F64Platform} {UUID : UuidParser}.
Context (ownerID : Z) (defaultLang : Lang).
Abbreviation BM := (M Tables (WS * BotState)).

(** isCancel *)
Definition isCancel (text : string) : bool :=
  (text =? "/cancel")%string ||
  existsb (fun l => (text =? text_string (T l KBtnCancel []))%string) supported.

(** An answer goes out over the network. *)
Definition answer (to : Z) (a : Answer) : BM unit := fun s =>
  match env_fault (tick s) with
  | Some c => (Err (ErrDriver c), bump s)
  | None => (Ok tt, mkSt (S (tick s)) (tx s) (db s) (fst (ext s), add_answer to a (snd (ext s))))
  end.

Definition say (c : Update) (lang : Lang) (key : string) (args : list fmtarg) (kb : Keyboard) : BM unit :=
  answer (Sender c) (Send (MText (T lang key args)) kb).
Definition say_error (c : Update) (lang : Lang) (key : string) (e : error) (kb : Keyboard) : BM unit :=
  answer (Sender c) (Send (MError lang key e) kb).

Definition states_get (id : Z) : BM (option convState) :=
  (x <- get_ext ;; ret (b_states (snd x) !! id))%eff.
Definition states_set (id : Z) (st : convState) : BM unit :=
  mod_ext (fun x => (fst x, set_states <[id := st]> (snd x))).
Definition states_del (id : Z) : BM unit :=
  mod_ext (fun x => (fst x, set_states (delete id) (snd x))).

(** * bot.go *)

Definition isAdmin (c : Update) : bool := Sender c =? ownerID.

Definition langOf (c : Update) : BM Lang :=
  (w <- try (lift (GetWallet (Sender c))) ;;
   let guess := if (LanguageCode c =? "")%string then defaultLang
                else match Parse (LanguageCode c) with Some l => l | None => defaultLang end in
   match w with
   | Ok (Some w) => if (w_Lang w =? "")%string then ret guess else ret (Normalize (w_Lang w))
   | _ => ret guess
   end)%eff.

Definition own_wallet (c : Update) : BM (result Wallet) := try (lift (GetOrCreate (Sender c))).

(** * handlers_user.go *)

Definition feeTON : float64 := NanoToTON NetworkFeeNano.
Definition minTON : float64 := NanoToTON MinWithdrawNano.

Definition onStart (c : Update) : BM unit :=
  (lang <- langOf c ;;
   w <- own_wallet c ;;
   match w with
   | Err _ => say c lang KErrGeneric [] NoKeyboard
   | Ok w => say c lang KStart [AStr (FirstName c); AFloat (BalanceTON w); AFloat (CreditTON w); AFloat (TotalTON w)]
               (kbMain lang)
   end)%eff.

Definition onWallet (c : Update) : BM unit :=
  (lang <- langOf c ;;
   w <- own_wallet c ;;
   match w with
   | Err _ => say c lang KErrGeneric [] (kbMain lang)
   | Ok w =>
       let frozen := if w_Frozen w >? 0 then T lang KWalletFrozen [AFloat (NanoToTON (w_Frozen w))] else Plain "" in
       answer (Sender c) (Send (MFrame lang KWallet
         [AFloat (BalanceTON w); AFloat (CreditTON w); AFloat (TotalTON w)] frozen
         [AStr (w_TONAddress w); AStr (w_PayHandle w)]) (kbMain lang))
   end)%eff.

Definition onDeposit (c : Update) : BM unit :=
  (lang <- langOf c ;;
   r <- try (lift (DepositInstructions (Sender c) 0 "manual" "direct")) ;;
   match r with
   | Err _ => say c lang KDepositErr [] (kbMain lang)
   | Ok (code, payURL) => say c lang KDepositBody [AStr code] (kbDeposit lang payURL code)
   end)%eff.

Definition onWithdraw (c : Update) : BM unit :=
  (lang <- langOf c ;;
   w <- own_wallet c ;;
   match w with
   | Err _ => say c lang KErrGeneric [] (kbMain lang)
   | Ok w =>
       if f64_lt (TotalTON w) (f64_add minTON feeTON) then
         say c lang KWithdrawInsufficient [AFloat minTON; AFloat feeTON] (kbMain lang)
       else
       (states_set (Sender c) (conv kindWithdraw "addr" "") ;;
        say c lang KWithdrawAskAddr [AFloat (TotalTON w); AFloat feeTON] (kbCancelOnly lang))
   end)%eff.

(** One line of the history. *)
Definition history_line (lang : Lang) (t : Transaction) : Message :=
  let (icon, labelKey) := txMeta (t_Type t) in
  let amt := NanoToTON (t_Amount t) in
  let negative := f64_lt amt (f64_of_int 0) in
  let desc := if (t_Description t =? "")%string then text_string (T lang labelKey []) else t_Description t in
  MText (T lang KHistoryLine
    [AStr icon; AStr (if negative then "" else "+"); AFloat (if negative then SFopp amt else amt);
     AStr (if bool_decide (t_Status t = TxPending) then " ⏳" else ""); AInt (t_CreatedAt t);
     AStr (truncate desc 25)]).

Definition onHistory (c : Update) : BM unit :=
  (lang <- langOf c ;;
   w <- own_wallet c ;;
   match w with
   | Err _ => say c lang KErrGeneric [] (kbMain lang)
   | Ok w =>
       txs <- try (lift (ListTransactions (w_ID w) 15)) ;;
       match txs with
       | Ok ((_ :: _) as txs) =>
           answer (Sender c) (Send (MConcat (MText (T lang KHistoryTitle []) ::
             concat (map (fun t => [MText (Plain (String (ascii_of_nat 10) "")); history_line lang t]) txs))) (kbMain lang))
       | _ => say c lang KHistoryEmpty [] (kbMain lang)
       end
   end)%eff.

Definition onHelp (c : Update) : BM unit :=
  (lang <- langOf c ;; say c lang KHelp [] (kbMain lang))%eff.

Definition onTransfer (c : Update) : BM unit :=
  (lang <- langOf c ;;
   w <- own_wallet c ;;
   match w with
   | Err _ => say c lang KErrGeneric [] (kbMain lang)
   | Ok w =>
       if f64_le (TotalTON w) (f64_of_int 0) then say c lang KTransferInsufficient [] (kbMain lang)
       else
       (states_set (Sender c) (conv kindTransfer "to_id" "") ;;
        say c lang KTransferAskID [] (kbCancelOnly lang))
   end)%eff.

(** * lang.go *)

Definition onLanguage (c : Update) : BM unit :=
  (lang <- langOf c ;; say c lang KLanguageAsk [] kbLanguage)%eff.

Definition respond (c : Update) (lang : Lang) (key : string) : BM unit :=
  answer (Sender c) (Respond (Some (MText (T lang key [])))).

Definition onSetLang (c : Update) (code : string) : BM unit :=
  match Parse code with
  | None => ret tt
  | Some lang =>
      (w <- own_wallet c ;;
       match w with
       | Err _ => respond c lang KErrGeneric
       | Ok w =>
           r <- try (lift (SetWalletLang (Sender c) (lang_code lang))) ;;
           match r with
           | Err _ => respond c lang KErrGeneric
           | Ok _ =>
               try (answer (Sender c) (Edit (MText (T lang KLanguageChanged [])) NoKeyboard)) ;;
               say c lang KStart [AStr (FirstName c); AFloat (BalanceTON w); AFloat (CreditTON w); AFloat (TotalTON w)]
                 (kbMain lang)
           end
       end)%eff
  end.

(** * handlers_conv.go *)

Definition string_tail (n : nat) (s : string) : string := drop_chars (String.length s - n) s.

(** The address shown is cut to its first six and last four bytes; a valid one
    has 48. *)
Definition handleWithdrawState (c : Update) (lang : Lang) (st : convState) (text : string) : BM unit :=
  let uid := Sender c in
  if isCancel text then (states_del uid ;; say c lang KCancelled [] (kbMain lang))%eff
  else if (step st =? "addr")%string then
    if negb (IsValidTONAddress text) then say c lang KWithdrawBadAddr [] (kbCancelOnly lang)
    else
    (states_set uid (at_amount st text (toID st)) ;;
     w <- own_wallet c ;;
     match w with
     | Err _ => states_del uid ;; say c lang KErrGeneric [] (kbMain lang)
     | Ok w =>
         let maxAmount := f64_sub (TotalTON w) feeTON in
         say c lang KWithdrawAskAmount
           [AStr (substring 0 6 text); AStr (string_tail 4 text); AFloat maxAmount; AFloat feeTON] (kbCancelOnly lang)
     end)%eff
  else if (step st =? "amount")%string then
    match ParseFloat text with
    | None => say c lang KWithdrawBadAmount [] (kbCancelOnly lang)
    | Some amt =>
        if f64_le amt (f64_of_int 0) then say c lang KWithdrawBadAmount [] (kbCancelOnly lang)
        else
        (states_del uid ;;
         req <- try (lift (RequestWithdraw uid (addr st) (TONToNano amt) "")) ;;
         match req with
         | Err e => say_error c lang KWithdrawError e (kbMain lang)
         | Ok req =>
             say c lang KWithdrawSubmitted
               [AFloat amt; AFloat feeTON; AStr (wr_ToAddress req); AStr (uuid_String (wr_ID req))] (kbMain lang)
         end)%eff
    end
  else ret tt.

Definition handleTransferState (c : Update) (lang : Lang) (st : convState) (text : string) : BM unit :=
  let uid := Sender c in
  if isCancel text then (states_del uid ;; say c lang KCancelled [] (kbMain lang))%eff
  else if (step st =? "to_id")%string then
    match ParseInt 10 (TrimSpace text) with
    | None => say c lang KTransferBadID [] (kbCancelOnly lang)
    | Some toID =>
        if (toID <=? 0) || (toID =? uid) then say c lang KTransferBadID [] (kbCancelOnly lang)
        else
        (toWallet <- try (lift (GetWallet toID)) ;;
         match toWallet with
         | Ok (Some _) =>
             states_set uid (at_amount st (addr st) toID) ;;
             fromWallet <- own_wallet c ;;
             match fromWallet with
             | Err _ => states_del uid ;; say c lang KErrGeneric [] (kbMain lang)
             | Ok w => say c lang KTransferAskAmount [AInt toID; AFloat (TotalTON w)] (kbCancelOnly lang)
             end
         | _ => say c lang KTransferNoRecipient [] (kbCancelOnly lang)
         end)%eff
    end
  else if (step st =? "amount")%string then
    match ParseFloat (TrimSpace text) with
    | None => say c lang KTransferBadAmount [] (kbCancelOnly lang)
    | Some amt =>
        if f64_le amt (f64_of_int 0) then say c lang KTransferBadAmount [] (kbCancelOnly lang)
        else
        (states_del uid ;;
         r <- try (lift (Service_Transfer uid (toID st) (TONToNano amt) "")) ;;
         match r with
         | Err e => say_error c lang KTransferError e (kbMain lang)
         | Ok _ => say c lang KTransferDone [AFloat amt; AInt (toID st)] (kbMain lang)
         end)%eff
    end
  else ret tt.

(** * handlers_admin.go: conversations *)

Definition handleAdminApprove (c : Update) (lang : Lang) (st : convState) (text : string) : BM unit :=
  let uid := Sender c in
  if isCancel text then (states_del uid ;; say c lang KCancelled [] (kbMain lang))%eff
  else match uuid_Parse (arg st) with
  | None => (states_del uid ;; say c lang KAdminBadID [] (kbMain lang))%eff
  | Some withdrawID =>
      (states_del uid ;;
       r <- try (lift (CompleteWithdraw withdrawID (TrimSpace text))) ;;
       match r with
       | Err e => say_error c lang KAdminError e (kbMain lang)
       | Ok _ => say c lang KAdminApproved [AStr (arg st)] (kbMain lang)
       end)%eff
  end.

Definition handleAdminReject (c : Update) (lang : Lang) (st : convState) (text : string) : BM unit :=
  let uid := Sender c in
  if isCancel text then (states_del uid ;; say c lang KCancelled [] (kbMain lang))%eff
  else match uuid_Parse (arg st) with
  | None => (states_del uid ;; say c lang KAdminBadID [] (kbMain lang))%eff
  | Some withdrawID =>
      (states_del uid ;;
       r <- try (lift (RejectWithdraw withdrawID (TrimSpace text))) ;;
       match r with
       | Err e => say_error c lang KAdminError e (kbMain lang)
       | Ok _ => say c lang KAdminRejected [AStr (arg st)] (kbMain lang)
       end)%eff
  end.

(** Crediting, shared by the conversation and the /addcredit command. *)
Definition add_credit (c : Update) (lang : Lang) (toID : Z) (amt : float64) (desc : string) (kb : Keyboard) : BM unit :=
  (w <- try (lift (GetOrCreate toID)) ;;
   match w with
   | Err _ => say c lang KAdminWalletNotFound [] kb
   | Ok w =>
       r <- try (lift (AddCredit (w_ID w) (TONToNano amt) desc)) ;;
       match r with
       | Err e => say_error c lang KAdminError e kb
       | Ok _ => say c lang KAdminCreditAdded [AFloat amt; AInt toID] kb
       end
   end)%eff.

Definition handleAdminCredit (c : Update) (lang : Lang) (st : convState) (text : string) : BM unit :=
  let uid := Sender c in
  if isCancel text then (states_del uid ;; say c lang KCancelled [] (kbMain lang))%eff
  else if (step st =? "user_id")%string then
    match ParseInt 10 (TrimSpace text) with
    | None => say c lang KAdminBadParam [] (kbCancelOnly lang)
    | Some toID =>
        if toID =? 0 then say c lang KAdminBadParam [] (kbCancelOnly lang)
        else (states_set uid (at_amount st (addr st) toID) ;;
              say c lang KAdminAskCreditAmount [AInt toID] (kbCancelOnly lang))%eff
    end
  else if (step st =? "amount")%string then
    match ParseFloat (TrimSpace text) with
    | None => say c lang KAdminBadParam [] (kbCancelOnly lang)
    | Some amt =>
        if f64_le amt (f64_of_int 0) then say c lang KAdminBadParam [] (kbCancelOnly lang)
        else (states_del uid ;; add_credit c lang (toID st) amt "" (kbMain lang))%eff
    end
  else ret tt.

(** onText: conversations first, then the buttons of the menu. *)
Definition onText (c : Update) : BM unit :=
  let text := TrimSpace (MsgText c) in
  let is_button lang key := (text =? text_string (T lang key []))%string in
  let menu lang :=
    if is_button lang KBtnWallet then onWallet c
    else if is_button lang KBtnDeposit then onDeposit c
    else if is_button lang KBtnWithdraw then onWithdraw c
    else if is_button lang KBtnTransfer then onTransfer c
    else if is_button lang KBtnHistory then onHistory c
    else if is_button lang KBtnHelp then onHelp c
    else if is_button lang KBtnLanguage then onLanguage c
    else ret tt in
  (lang <- langOf c ;;
   st <- states_get (Sender c) ;;
   match st with
   | None => menu lang
   | Some st =>
       match kind st with
       | kindWithdraw => handleWithdrawState c lang st text
       | kindTransfer => handleTransferState c lang st text
       | kindAdminApprove => handleAdminApprove c lang st text
       | kindAdminReject => handleAdminReject c lang st text
       | kindAdminCredit => handleAdminCredit c lang st text
       | kindNone => menu lang
       end
   end)%eff.

(** * handlers_admin.go: panel and commands *)

Definition zero_stats : Stats :=
  {| TotalWallets := 0; TotalDeposits := S754_zero false; TotalPayments := S754_zero false; PendingWithdraw := 0 |}.

(** Both queries' errors are dropped. *)
Definition adminStatsText (lang : Lang) : BM Message :=
  (stats <- try (lift GetStats) ;;
   pending <- try (lift ListPendingWithdrawals) ;;
   let stats := match stats with Ok s => s | Err _ => zero_stats end in
   let pending := match pending with Ok l => l | Err _ => [] end in
   ret (MText (T lang KAdminStats
     [AInt (TotalWallets stats); AFloat (TotalDeposits stats); AFloat (TotalPayments stats);
      AInt (Z.of_nat (length pending))])))%eff.

Definition onAdmin (c : Update) : BM unit :=
  if negb (isAdmin c) then ret tt
  else
  (lang <- langOf c ;;
   m <- adminStatsText lang ;;
   answer (Sender c) (Send m (kbAdminMenu lang)))%eff.

Definition onAdminHome (c : Update) : BM unit :=
  (lang <- langOf c ;;
   m <- adminStatsText lang ;;
   answer (Sender c) (Edit m (kbAdminMenu lang)))%eff.

Definition adminWithdrawText (lang : Lang) (r : WithdrawRequest) : Message :=
  MText (T lang KAdminWithdrawItem
    [AStr (uuid_String (wr_ID r)); AFloat (NanoToTON (wr_Amount r)); AFloat (NanoToTON (wr_Fee r));
     AStr (wr_ToAddress r); AInt (wr_CreatedAt r)]).

Definition withdraw_list_text (lang : Lang) (reqs : list WithdrawRequest) : Message :=
  let newline := MText (Plain (String (ascii_of_nat 10) "")) in
  MConcat (MText (T lang KAdminWithdrawsTitle [AInt (Z.of_nat (length reqs))]) ::
           concat (map (fun r => [newline; adminWithdrawText lang r; newline]) reqs)).

Definition pending_or_none : BM (list WithdrawRequest) :=
  (r <- try (lift ListPendingWithdrawals) ;;
   ret (match r with Ok l => l | Err _ => [] end))%eff.

Definition onAdminWithdrawsList (c : Update) : BM unit :=
  (lang <- langOf c ;;
   reqs <- pending_or_none ;;
   match reqs with
   | [] => answer (Sender c) (Edit (MText (T lang KAdminNoWithdraws [])) (kbAdminMenu lang))
   | _ => answer (Sender c) (Edit (withdraw_list_text lang reqs) (kbWithdrawList lang (map wr_ID reqs)))
   end)%eff.

Definition onAdminCreditStart (c : Update) : BM unit :=
  (lang <- langOf c ;;
   states_set (Sender c) (conv kindAdminCredit "user_id" "") ;;
   say c lang KAdminAskCreditUserID [] (kbCancelOnly lang))%eff.

Definition onAdminApproveStart (c : Update) (id : string) : BM unit :=
  (lang <- langOf c ;;
   match uuid_Parse id with
   | None => respond c lang KAdminBadID
   | Some _ =>
       states_set (Sender c) (conv kindAdminApprove "" id) ;;
       say c lang KAdminAskTxHash [AStr id] (kbCancelOnly lang)
   end)%eff.

Definition onAdminRejectStart (c : Update) (id : string) : BM unit :=
  (lang <- langOf c ;;
   match uuid_Parse id with
   | None => respond c lang KAdminBadID
   | Some _ =>
       states_set (Sender c) (conv kindAdminReject "" id) ;;
       say c lang KAdminAskReason [AStr id] (kbCancelOnly lang)
   end)%eff.

Definition onAdminWithdraws (c : Update) : BM unit :=
  if negb (isAdmin c) then ret tt
  else
  (lang <- langOf c ;;
   reqs <- pending_or_none ;;
   match reqs with
   | [] => say c lang KAdminNoWithdraws [] NoKeyboard
   | _ => answer (Sender c) (Send (withdraw_list_text lang reqs) (kbWithdrawList lang (map wr_ID reqs)))
   end)%eff.

Definition onApproveWithdraw (c : Update) : BM unit :=
  if negb (isAdmin c) then ret tt
  else
  (lang <- langOf c ;;
   match Fields (Payload c) with
   | id :: txhash :: _ =>
       match uuid_Parse id with
       | None => say c lang KAdminBadID [] NoKeyboard
       | Some withdrawID =>
           r <- try (lift (CompleteWithdraw withdrawID txhash)) ;;
           match r with
           | Err e => say_error c lang KAdminError e NoKeyboard
           | Ok _ => say c lang KAdminApproved [AStr id] NoKeyboard
           end
       end
   | _ => say c lang KAdminApproveUsage [] NoKeyboard
   end)%eff.

Definition onRejectWithdraw (c : Update) : BM unit :=
  if negb (isAdmin c) then ret tt
  else
  (lang <- langOf c ;;
   match Cut " " (TrimSpace (Payload c)) with
   | Some (idStr, reason) =>
       if (idStr =? "")%string then say c lang KAdminRejectUsage [] NoKeyboard
       else match uuid_Parse idStr with
       | None => say c lang KAdminBadID [] NoKeyboard
       | Some withdrawID =>
           r <- try (lift (RejectWithdraw withdrawID (TrimSpace reason))) ;;
           match r with
           | Err e => say_error c lang KAdminError e NoKeyboard
           | Ok _ => say c lang KAdminRejected [AStr idStr] NoKeyboard
           end
       end
   | None => say c lang KAdminRejectUsage [] NoKeyboard
   end)%eff.

Definition onAddCredit (c : Update) : BM unit :=
  if negb (isAdmin c) then ret tt
  else
  (lang <- langOf c ;;
   match Fields (Payload c) with
   | p0 :: p1 :: rest =>
       match ParseInt 10 p0, ParseFloat p1 with
       | Some telegramID, Some amt =>
           if (telegramID =? 0) || f64_le amt (f64_of_int 0) then say c lang KAdminBadParam [] NoKeyboard
           else add_credit c lang telegramID amt (Join " " rest) NoKeyboard
       | _, _ => say c lang KAdminBadParam [] NoKeyboard
       end
   | _ => say c lang KAdminAddCreditUsage [] NoKeyboard
   end)%eff.

(** * callbacks.go *)

Definition onCheckDeposit (c : Update) (code : string) : BM unit :=
  (lang <- langOf c ;;
   if (code =? "")%string then ret tt
   else
   (inv <- try (lift (FindInvoiceByCode code)) ;;
    match inv with
    | Ok (Some inv) =>
        if bool_decide (inv_Status inv = InvoicePaid) then
          (w <- own_wallet c ;;
           let newBalance := match w with Ok w => TotalTON w | Err _ => NanoToTON (inv_Amount inv) end in
           answer (Sender c) (Edit (MText (T lang KCheckConfirmed
             [AFloat (NanoToTON (inv_Amount inv)); AFloat newBalance])) NoKeyboard))
        else answer (Sender c) (Edit (MText (T lang KCheckUnconfirmed [])) NoKeyboard)
    | _ => answer (Sender c) (Edit (MText (T lang KCheckPending [])) NoKeyboard)
    end))%eff.

Definition onAdminCallback (c : Update) (sub : string) : BM unit :=
  if negb (isAdmin c) then ret tt
  else if (sub =? "stats")%string || (sub =? "menu")%string then onAdminHome c
  else if (sub =? "withdraws")%string then onAdminWithdrawsList c
  else if (sub =? "credit")%string then onAdminCreditStart c
  else ret tt.

Definition onWithdrawCallback (c : Update) (op : string) (parts : list string) : BM unit :=
  if negb (isAdmin c) then ret tt
  else match parts !! 2%nat with
  | None => ret tt
  | Some id =>
      if (op =? "approve")%string then onAdminApproveStart c id
      else if (op =? "reject")%string then onAdminRejectStart c id
      else ret tt
  end.

(** The deferred c.Respond() runs after the handler, whatever it returned. *)
Definition onCallback (c : Update) : BM unit :=
  let parts := Split ":" (TrimPrefix (CallbackData c) (String (ascii_of_nat 12) "")) in
  let action := match parts with p :: _ => p | [] => ""%string end in
  let arg := match parts with _ :: p :: _ => p | _ => ""%string end in
  (r <- try (if (action =? "check_deposit")%string then onCheckDeposit c arg
             else if (action =? "set_lang")%string then onSetLang c arg
             else if (action =? "adm")%string then onAdminCallback c arg
             else if (action =? "wd")%string then onWithdrawCallback c arg parts
             else ret tt) ;;
   try (answer (Sender c) (Respond None)) ;;
   match r with Ok _ => ret tt | Err e => throw e end)%eff.

(** * Register: which handler an update goes to *)

Inductive Endpoint :=
| CmdStart | CmdWallet | CmdDeposit | CmdWithdraw | CmdHistory | CmdHelp | CmdLanguage
| CmdAdmin | CmdAddCredit | CmdWithdraws | CmdApprove | CmdReject | OnText | OnCallback.

Definition handle (e : Endpoint) (c : Update) : BM unit :=
  match e with
  | CmdStart => onStart c
  | CmdWallet => onWallet c
  | CmdDeposit => onDeposit c
  | CmdWithdraw => onWithdraw c
  | CmdHistory => onHistory c
  | CmdHelp => onHelp c
  | CmdLanguage => onLanguage c
  | CmdAdmin => onAdmin c
  | CmdAddCredit => onAddCredit c
  | CmdWithdraws => onAdminWithdraws c
  | CmdApprove => onApproveWithdraw c
  | CmdReject => onRejectWithdraw c
  | OnText => onText c
  | OnCallback => onCallback c
  end.
End bot.
