(* ===== verification/PayBotSpec.v ===== *)
(** What the Telegram interface guarantees: its conversations stay well formed,
    only the owner decides about withdrawals and credits, and a conversation
    moves money at most once. *)
From S2P Require Import Prelude GoInt GoFloat GoString GoText Bus Effects PayModels PayChain PayStore.
From S2P Require Import PayInvariant PayStoreSpec Consensus ConsensusSpec Localization WalletService WalletServiceSpec PayBot.

(** * What each service call may do to the tables *)

(** Requests that exist stay as they are and nobody is granted credit. *)
Definition books_kept (d d' : Tables) : Prop :=
  (forall id q, withdraw_requests d !! id = Some q -> withdraw_requests d' !! id = Some q) /\
  List.filter (fun t => bool_decide (t_Type t = TxCreditAdd)) (transactions d') =
  List.filter (fun t => bool_decide (t_Type t = TxCreditAdd)) (transactions d).

#[export] Instance books_kept_preorder : PreOrder books_kept.
Proof.
  split; [by split|]. intros a b c [H1 H2] [H3 H4]. split; [auto|congruence].
Qed.

Lemma books_kept_same d d' :
  withdraw_requests d' = withdraw_requests d -> transactions d' = transactions d -> books_kept d d'.
Proof. intros E1 E2. split; [by rewrite E1|by rewrite E2]. Qed.

Section calls.
Context {X : Type} {ENV : Env} {LIB : Lib}.
Abbreviation kept m := (moves books_kept (X := X) m).

Lemma insert_wallet_books w : moves books_kept (exec (X := X) (insert_wallet w)).
Proof.
  apply moves_exec; [typeclasses eauto|]. intros d d' H. unfold insert_wallet in H.
  destruct (bool_decide _) in H; [done|]. do 2 (destruct (existsb _ _) in H; [done|]).
  injection H as <-. by apply books_kept_same.
Qed.

Lemma update_wallet_books id f : moves books_kept (exec (X := X) (update_wallet id f)).
Proof.
  apply moves_exec; [typeclasses eauto|]. intros d d' H. unfold update_wallet in H.
  destruct (wallets d !! id) as [w|]; [destruct (f w)|]; try done; injection H as <-; by apply books_kept_same.
Qed.

Lemma update_pay_handle_books id h : moves books_kept (exec (X := X) (update_pay_handle id h)).
Proof.
  apply moves_exec; [typeclasses eauto|]. intros d d' H. unfold update_pay_handle in H.
  destruct (existsb _ _) in H; [done|]. unfold update_wallet in H.
  destruct (wallets d !! id) as [w|]; injection H as <-; by apply books_kept_same.
Qed.

Lemma create_transaction_books mk :
  (forall i c, t_Type (mk i c) <> TxCreditAdd) -> moves books_kept (create_transaction (X := X) mk).
Proof.
  intros Hmk. unfold create_transaction.
  apply moves_bind; [typeclasses eauto|apply moves_reads; [typeclasses eauto|auto with botpay]|intros i].
  apply moves_bind; [typeclasses eauto|apply moves_reads; [typeclasses eauto|auto with botpay]|intros c].
  apply moves_bind; [typeclasses eauto| |intros; apply moves_reads; [typeclasses eauto|auto with botpay]].
  apply moves_exec; [typeclasses eauto|]. intros d d' H. unfold insert_transaction in H.
  destruct (_ && _) in H; [done|]. injection H as <-. split; [done|]. simpl.
  rewrite List.filter_app. simpl. rewrite bool_decide_false by auto. by rewrite app_nil_r.
Qed.

Lemma insert_withdraw_books r : moves books_kept (exec (X := X) (insert_withdraw r)).
Proof.
  apply moves_exec; [typeclasses eauto|]. intros d d' H. unfold insert_withdraw in H.
  case_bool_decide as Hn; [done|]. injection H as <-. split; [|done]. intros id q Hq. simpl.
  rewrite lookup_insert_ne; [done|]. intros <-. apply Hn. by eexists.
Qed.

Lemma insert_invoice_books i : moves books_kept (exec (X := X) (insert_invoice i)).
Proof.
  apply moves_exec; [typeclasses eauto|]. intros d d' H. unfold insert_invoice in H.
  destruct (bool_decide _) in H; [done|]. destruct (existsb _ _) in H; [done|].
  injection H as <-. by apply books_kept_same.
Qed.
End calls.

#[export] Hint Resolve insert_wallet_books update_wallet_books update_pay_handle_books insert_withdraw_books
  insert_invoice_books : moves.
#[export] Hint Extern 1 (moves books_kept (create_transaction _)) =>
  apply create_transaction_books; intros; discriminate : moves.
#[export] Hint Resolve reads_first_opt reads_GetWallet reads_SendHTML reads_publish : botpay.

Section services.
Context {ENV : Env} {LIB : Lib} {CRYPTO : Crypto} {LOC : Locales}.

Lemma GetOrCreate_books tg : moves books_kept (GetOrCreate tg).
Proof. unfold GetOrCreate, GetOrCreateWallet. moves_tac. Qed.

Lemma SetWalletLang_books tg l : moves books_kept (SetWalletLang (X := WS) tg l).
Proof.
  unfold SetWalletLang. apply moves_exec; [typeclasses eauto|]. intros d d' [= <-]. by apply books_kept_same.
Qed.

Lemma RequestWithdraw_books tg a n note : moves books_kept (RequestWithdraw tg a n note).
Proof. unfold RequestWithdraw, CreateWithdraw, GetWallet, first_opt. moves_tac. Qed.

Lemma Transfer_books f t n ds : moves books_kept (Transfer (X := WS) f t n ds).
Proof. unfold Transfer. moves_tac. Qed.

Lemma Service_Transfer_books f t n ds : moves books_kept (Service_Transfer f t n ds).
Proof. unfold Service_Transfer. pose proof Transfer_books. moves_tac. Qed.

Lemma DepositInstructions_books tg n sv ref : moves books_kept (DepositInstructions tg n sv ref).
Proof.
  unfold DepositInstructions, CreateDepositInvoice, genInvoiceCode, CreateInvoice.
  pose proof GetOrCreate_books. moves_tac.
Qed.
End services.
#[export] Hint Resolve GetOrCreate_books SetWalletLang_books RequestWithdraw_books Service_Transfer_books
  DepositInstructions_books : moves.

Section bot.
Context {ENV : Env} {LIB : Lib} {CRYPTO : Crypto} {LOC : Locales} {FP : F64Platform} {UUID : UuidParser}.
Context (ownerID : Z) (defaultLang : Lang).
Implicit Types s : st Tables (WS * BotState).

(** * Conversations stay well formed *)

(** What a stored conversation looks like. *)
Definition chat_ok (uid : Z) (st : convState) : Prop :=
  match kind st with
  | kindNone => False
  | kindWithdraw => step st = "addr"%string \/ (step st = "amount"%string /\ IsValidTONAddress (addr st) = true)
  | kindTransfer => step st = "to_id"%string \/ (step st = "amount"%string /\ 0 < toID st /\ toID st <> uid)
  | kindAdminApprove | kindAdminReject => uid = ownerID /\ is_Some (uuid_Parse (arg st))
  | kindAdminCredit =>
      uid = ownerID /\ (step st = "user_id"%string \/ (step st = "amount"%string /\ toID st <> 0))
  end.

Definition chats (s : st Tables (WS * BotState)) : gmap Z convState := b_states (snd (ext s)).
Definition chats_wf (m : gmap Z convState) : Prop := forall uid st, m !! uid = Some st -> chat_ok uid st.

(** Programs that keep every conversation well formed. *)
Definition wf_keeps {A} (m : M Tables (WS * BotState) A) : Prop :=
  forall s r s', m s = (r, s') -> chats_wf (chats s) -> chats_wf (chats s').

Lemma wf_bind {A B} (m : M _ _ A) (k : A -> M _ _ B) :
  wf_keeps m -> (forall a, wf_keeps (k a)) -> wf_keeps (bind m k).
Proof.
  intros Hm Hk s r s' H Hw. apply bind_run in H as (r1 & s1 & H1 & H). specialize (Hm _ _ _ H1 Hw).
  destruct r1; [exact (Hk _ _ _ _ H Hm)|by destruct H as [_ ->]].
Qed.

Lemma wf_try {A} (m : M _ _ A) : wf_keeps m -> wf_keeps (try m).
Proof. intros Hm s r s' H. apply try_run in H as (r1 & _ & H). exact (Hm _ _ _ H). Qed.

Lemma wf_same {A} (m : M _ _ A) : keeps (fun x => b_states (snd x)) m -> wf_keeps m.
Proof. intros Hm s r s' H. unfold chats. by rewrite (Hm _ _ _ H). Qed.

Lemma keeps_lift_bot {A} (m : M Tables WS A) : keeps (fun x : WS * BotState => b_states (snd x)) (lift m).
Proof.
  intros s r s' H. unfold lift in H. destruct (m _) as [r1 s1]. by injection H as _ <-.
Qed.

Lemma keeps_answer to a : keeps (fun x : WS * BotState => b_states (snd x)) (answer to a).
Proof. intros s r s' H. unfold answer in H. destruct (env_fault _); by injection H as _ <-. Qed.

Lemma wf_set id st : chat_ok id st -> wf_keeps (states_set id st).
Proof.
  intros Hok s r s' [= _ <-] Hw uid st'. unfold chats. simpl. rewrite lookup_insert_Some.
  intros [[<- <-]|[_ H]]; [done|by apply Hw].
Qed.

Lemma wf_del id : wf_keeps (states_del id).
Proof.
  intros s r s' [= _ <-] Hw uid st'. unfold chats. simpl. rewrite lookup_delete_Some.
  intros [_ H]. by apply Hw.
Qed.
End bot.

#[export] Hint Resolve keeps_lift_bot keeps_answer : botpay.

Ltac wf_tac :=
  repeat (intros; first
    [ assumption
    | solve [auto with wf]
    | solve [apply wf_same; auto with botpay]
    | apply wf_bind | apply wf_try | apply wf_del
    | match goal with |- wf_keeps _ (match ?x with _ => _ end) => destruct x eqn:? end
    | match goal with |- wf_keeps _ (let '_ := ?x in _) => destruct x eqn:? end ]).

Create HintDb wf discriminated.

Section bot2.
Context {ENV : Env} {LIB : Lib} {CRYPTO : Crypto} {LOC : Locales} {FP : F64Platform} {UUID : UuidParser}.
Context (ownerID : Z) (defaultLang : Lang).
Implicit Types s : st Tables (WS * BotState).
Abbreviation wf := (wf_keeps ownerID).

Lemma keeps_langOf c : keeps (fun x : WS * BotState => b_states (snd x)) (langOf defaultLang c).
Proof. unfold langOf. keeps_tac. Qed.
Lemma keeps_own_wallet c : keeps (fun x : WS * BotState => b_states (snd x)) (own_wallet c).
Proof. unfold own_wallet. keeps_tac. Qed.
Lemma keeps_add_credit c lang id amt ds kb :
  keeps (fun x : WS * BotState => b_states (snd x)) (add_credit c lang id amt ds kb).
Proof. unfold add_credit, say, say_error. keeps_tac. Qed.
Lemma keeps_adminStatsText lang : keeps (fun x : WS * BotState => b_states (snd x)) (adminStatsText lang).
Proof. unfold adminStatsText. keeps_tac. Qed.
Lemma keeps_pending : keeps (fun x : WS * BotState => b_states (snd x)) pending_or_none.
Proof. unfold pending_or_none. keeps_tac. Qed.
#[local] Hint Resolve keeps_langOf keeps_own_wallet keeps_add_credit keeps_adminStatsText keeps_pending : botpay.
#[local] Hint Unfold say say_error respond : botpay.

Lemma wf_onWithdraw c : wf (onWithdraw defaultLang c).
Proof. unfold onWithdraw, say. wf_tac. apply wf_set. by left. Qed.

Lemma wf_onTransfer c : wf (onTransfer defaultLang c).
Proof. unfold onTransfer, say. wf_tac. apply wf_set. by left. Qed.

Lemma wf_menu c :
  wf (onStart defaultLang c) /\ wf (onWallet defaultLang c) /\ wf (onDeposit defaultLang c) /\
  wf (onHistory defaultLang c) /\ wf (onHelp defaultLang c) /\ wf (onLanguage defaultLang c).
Proof.
  unfold onStart, onWallet, onDeposit, onHistory, onHelp, onLanguage, say.
  repeat match goal with |- _ /\ _ => split end; wf_tac.
Qed.

Lemma wf_onSetLang c code : wf (onSetLang c code).
Proof. unfold onSetLang, say, respond. wf_tac. Qed.

Lemma wf_onCheckDeposit c code : wf (onCheckDeposit defaultLang c code).
Proof. unfold onCheckDeposit. wf_tac. Qed.

Lemma at_amount_kind st a i : kind (at_amount st a i) = kind st /\ step (at_amount st a i) = "amount"%string /\
  addr (at_amount st a i) = a /\ toID (at_amount st a i) = i /\ arg (at_amount st a i) = arg st.
Proof. done. Qed.

Lemma wf_handleWithdrawState c lang st text : kind st = kindWithdraw -> wf (handleWithdrawState c lang st text).
Proof.
  intros Hk. unfold handleWithdrawState, say, say_error. wf_tac. apply wf_set.
  unfold chat_ok. simpl. rewrite Hk. right. split; [done|]. by zbool.
Qed.

Lemma wf_handleTransferState c lang st text : kind st = kindTransfer -> wf (handleTransferState c lang st text).
Proof.
  intros Hk. unfold handleTransferState, say, say_error. wf_tac. apply wf_set.
  unfold chat_ok. simpl. rewrite Hk. right. split; [done|]. zbool. lia.
Qed.

Lemma wf_handleAdminApprove c lang st text : wf (handleAdminApprove c lang st text).
Proof. unfold handleAdminApprove, say, say_error. wf_tac. Qed.

Lemma wf_handleAdminReject c lang st text : wf (handleAdminReject c lang st text).
Proof. unfold handleAdminReject, say, say_error. wf_tac. Qed.

Lemma wf_handleAdminCredit c lang st text :
  kind st = kindAdminCredit -> Sender c = ownerID -> wf (handleAdminCredit c lang st text).
Proof.
  intros Hk Ho. unfold handleAdminCredit, say, say_error. wf_tac. apply wf_set.
  unfold chat_ok. simpl. rewrite Hk. split; [done|]. right. split; [done|]. zbool. lia.
Qed.

Lemma wf_onAdminCallback c sub : wf (onAdminCallback ownerID defaultLang c sub).
Proof.
  unfold onAdminCallback, onAdminHome, onAdminWithdrawsList, onAdminCreditStart, isAdmin, say.
  wf_tac. apply wf_set. unfold chat_ok. simpl. zbool. split; [done|by left].
Qed.

Lemma wf_onWithdrawCallback c op parts : wf (onWithdrawCallback ownerID defaultLang c op parts).
Proof.
  unfold onWithdrawCallback, onAdminApproveStart, onAdminRejectStart, isAdmin, say, respond.
  wf_tac; apply wf_set; unfold chat_ok; simpl; zbool; (split; [done|by eexists]).
Qed.

Lemma reads_langOf c : reads (langOf defaultLang c).
Proof. unfold langOf. reads_tac. Qed.

Lemma langOf_chats c s l s1 : langOf defaultLang c s = (l, s1) -> chats s1 = chats s.
Proof. intros H. by apply keeps_langOf in H. Qed.

Lemma wf_onCallback c : wf (onCallback ownerID defaultLang c).
Proof.
  unfold onCallback. pose proof wf_onCheckDeposit. pose proof wf_onSetLang.
  pose proof wf_onAdminCallback. pose proof wf_onWithdrawCallback. wf_tac.
Qed.

(** What a text outside a conversation can start. *)
Definition menu : list (Update -> M Tables (WS * BotState) unit) :=
  [onWallet defaultLang; onDeposit defaultLang; onWithdraw defaultLang; onTransfer defaultLang;
   onHistory defaultLang; onHelp defaultLang; onLanguage defaultLang; fun _ => ret tt].

Lemma menu_all (P : (Update -> M Tables (WS * BotState) unit) -> Prop) :
  Forall P menu -> forall m, In m menu -> P m.
Proof. intros H m Hm. rewrite Forall_forall in H. apply H. by apply list_elem_of_In. Qed.

(** What onText does, by the conversation the sender is in. *)
Lemma onText_run c s r s' : onText defaultLang c s = (r, s') -> chats_wf ownerID (chats s) ->
  exists rl s1, langOf defaultLang c s = (rl, s1) /\ chats s1 = chats s /\ db s1 = db s /\
  match rl with
  | Err e => r = Err e /\ s' = s1
  | Ok lang =>
      match chats s !! Sender c with
      | None => exists m, In m menu /\ m c s1 = (r, s')
      | Some st =>
          chat_ok ownerID (Sender c) st /\
          match kind st with
          | kindNone => False
          | kindWithdraw => handleWithdrawState c lang st (TrimSpace (MsgText c)) s1 = (r, s')
          | kindTransfer => handleTransferState c lang st (TrimSpace (MsgText c)) s1 = (r, s')
          | kindAdminApprove => handleAdminApprove c lang st (TrimSpace (MsgText c)) s1 = (r, s')
          | kindAdminReject => handleAdminReject c lang st (TrimSpace (MsgText c)) s1 = (r, s')
          | kindAdminCredit => handleAdminCredit c lang st (TrimSpace (MsgText c)) s1 = (r, s')
          end
      end
  end.
Proof.
  intros H Hw. unfold onText in H. apply bind_run in H as (rl & s1 & H1 & H).
  exists rl, s1. split; [done|]. pose proof (langOf_chats _ _ _ _ H1) as Hc. split; [done|].
  split; [by apply reads_langOf in H1|].
  destruct rl as [lang|e]; [|done]. apply bind_run in H as (st & s2 & H2 & H).
  unfold states_get in H2. injection H2 as <- <-.
  change (b_states (snd (ext s1))) with (chats s1) in H. rewrite Hc in H.
  destruct (chats s !! Sender c) as [st|] eqn:El.
  - pose proof (Hw _ _ El) as Hok. split; [done|]. unfold chat_ok in Hok. by destruct (kind st).
  - repeat match type of H with (if ?b then _ else _) _ = _ => destruct b end;
      let use m := (exists m; split; [unfold menu; simpl; tauto|exact H]) in
      first [use (onWallet defaultLang) | use (onDeposit defaultLang) | use (onWithdraw defaultLang)
            | use (onTransfer defaultLang) | use (onHistory defaultLang) | use (onHelp defaultLang)
            | use (onLanguage defaultLang) | use (fun _ : Update => ret (D := Tables) (X := WS * BotState) tt)].
Qed.

#[export] Instance Endpoint_eq_dec : EqDecision Endpoint.
Proof. solve_decision. Defined.

(** C13: Whatever update arrives and however it ends, every stored conversation
    stays well formed: its step is one its handler knows, the address it carries
    passed the address check, the recipient is a positive id other than the
    sender, and conversations that decide about withdrawals or grant credit
    exist only for the owner. *)
Theorem conversations_well_formed e c s r s' :
  handle ownerID defaultLang e c s = (r, s') ->
  chats_wf ownerID (chats s) -> chats_wf ownerID (chats s').
Proof.
  intros H Hw. destruct (wf_menu c) as (W1 & W2 & W3 & W4 & W5 & W6).
  assert (Hwf : e <> OnText -> wf (handle ownerID defaultLang e c)).
  { intros He. destruct e; try done; cbn [handle]; auto using wf_onWithdraw, wf_onTransfer, wf_onCallback.
    all: unfold onAdmin, onAddCredit, onAdminWithdraws, onApproveWithdraw, onRejectWithdraw, say, say_error; wf_tac. }
  destruct (decide (e = OnText)) as [->|He]; [|by apply (Hwf He _ _ _ H)].
  apply onText_run in H as (rl & s1 & _ & Hc & _ & H); [|done]. rewrite <- Hc in Hw.
  destruct rl as [lang|e]; [|by destruct H as [_ ->]].
  destruct (chats s !! Sender c) as [st|].
  - destruct H as [Hok H]. unfold chat_ok in Hok. destruct (kind st) eqn:Hk; [done| | | | |].
    + exact (wf_handleWithdrawState _ _ _ _ Hk _ _ _ H Hw).
    + exact (wf_handleTransferState _ _ _ _ Hk _ _ _ H Hw).
    + exact (wf_handleAdminApprove _ _ _ _ _ _ _ H Hw).
    + exact (wf_handleAdminReject _ _ _ _ _ _ _ H Hw).
    + destruct Hok as [Ho _]. exact (wf_handleAdminCredit _ _ _ _ Hk Ho _ _ _ H Hw).
  - destruct H as (m & Hm & H). refine (menu_all (fun m => wf (m c)) _ m Hm _ _ _ H Hw).
    pose proof (wf_onWithdraw c). pose proof (wf_onTransfer c). repeat constructor; try done.
    apply wf_same. auto with botpay.
Qed.

(** * Who decides *)

Lemma reads_answer to a : reads (answer to a).
Proof. intros s r s' H. unfold answer in H. destruct (env_fault _); by injection H as _ <-. Qed.
Lemma reads_states_get id : reads (states_get id).
Proof. unfold states_get. reads_tac. Qed.
Lemma reads_states_set id st : reads (states_set id st).
Proof. unfold states_set. reads_tac. Qed.
Lemma reads_states_del id : reads (states_del id).
Proof. unfold states_del. reads_tac. Qed.
Lemma reads_adminStatsText lang : reads (adminStatsText lang).
Proof. unfold adminStatsText, GetStats, scan, ListPendingWithdrawals. reads_tac. Qed.
Lemma reads_lift_queries : reads (lift (Y := BotState) (X := WS) ListPendingWithdrawals) /\
  (forall id n, reads (lift (Y := BotState) (X := WS) (ListTransactions id n))) /\
  (forall code, reads (lift (Y := BotState) (X := WS) (FindInvoiceByCode code))) /\
  (forall tg, reads (lift (Y := BotState) (X := WS) (GetWallet tg))).
Proof.
  unfold ListPendingWithdrawals, ListTransactions, FindInvoiceByCode, GetWallet, first_opt.
  repeat split; intros; reads_tac.
Qed.
Lemma own_wallet_books c : moves books_kept (own_wallet c).
Proof. unfold own_wallet. moves_tac. Qed.
#[local] Hint Resolve reads_answer reads_states_get reads_states_set reads_states_del reads_langOf
  reads_adminStatsText : botpay.
#[local] Hint Resolve own_wallet_books : moves.

Ltac bot_moves :=
  destruct reads_lift_queries as (? & ? & ? & ?); unfold say, say_error, respond; moves_tac.

Lemma menu_books c : Forall (fun m => moves books_kept (m c)) menu.
Proof.
  unfold menu. repeat first [apply Forall_nil_2 | apply Forall_cons_2];
    unfold onWallet, onDeposit, onWithdraw, onTransfer, onHistory, onHelp, onLanguage; bot_moves.
Qed.

Lemma onStart_books c : moves books_kept (onStart defaultLang c).
Proof. unfold onStart. bot_moves. Qed.

Lemma handleWithdrawState_books c lang st text : moves books_kept (handleWithdrawState c lang st text).
Proof. unfold handleWithdrawState. bot_moves. Qed.

Lemma handleTransferState_books c lang st text : moves books_kept (handleTransferState c lang st text).
Proof. unfold handleTransferState. bot_moves. Qed.

Lemma onCallback_books c : isAdmin ownerID c = false -> moves books_kept (onCallback ownerID defaultLang c).
Proof.
  intros Hna. unfold onCallback, onCheckDeposit, onSetLang, onAdminCallback, onWithdrawCallback.
  rewrite Hna. cbn [negb]. bot_moves.
Qed.

(** Only the owner decides: an update of anyone else, whatever it is and
    however it ends, leaves every existing withdrawal request exactly as it was
    and grants no credit to anyone. *)
Theorem only_owner_decides e c s r s' :
  handle ownerID defaultLang e c s = (r, s') -> Sender c <> ownerID -> chats_wf ownerID (chats s) ->
  (forall id q, withdraw_requests (db s) !! id = Some q -> withdraw_requests (db s') !! id = Some q) /\
  List.filter (fun t => bool_decide (t_Type t = TxCreditAdd)) (transactions (db s')) =
  List.filter (fun t => bool_decide (t_Type t = TxCreditAdd)) (transactions (db s)).
Proof.
  intros H Ho Hw. change (books_kept (db s) (db s')).
  assert (Hna : isAdmin ownerID c = false) by (unfold isAdmin; apply Z.eqb_neq; lia).
  destruct (decide (e = OnText)) as [->|He].
  - apply onText_run in H as (rl & s1 & _ & _ & <- & H); [|done].
    destruct rl as [lang|e]; [|by destruct H as [_ ->]].
    destruct (chats s !! Sender c) as [st|].
    + destruct H as [Hok H]. unfold chat_ok in Hok. destruct (kind st); try (by destruct Hok).
      * exact (handleWithdrawState_books _ _ _ _ _ _ _ H).
      * exact (handleTransferState_books _ _ _ _ _ _ _ H).
    + destruct H as (m & Hm & H). exact (menu_all _ (menu_books c) m Hm _ _ _ H).
  - revert H. cut (moves books_kept (handle ownerID defaultLang e c)); [intros K H; exact (K _ _ _ H)|].
    pose proof (menu_books c) as Hm. unfold menu in Hm.
    repeat match goal with K : Forall _ (_ :: _) |- _ => apply Forall_cons in K as [? K] end.
    cbv beta in *. destruct e; try done; cbn [handle]; auto using onStart_books, onCallback_books;
      unfold onAdmin, onAddCredit, onAdminWithdraws, onApproveWithdraw, onRejectWithdraw; rewrite Hna;
      (apply moves_reads; [typeclasses eauto|apply reads_ret]).
Qed.

(** * A conversation moves money once *)

(** No transaction and no withdrawal request is new or changed. *)
Definition no_money (d d' : Tables) : Prop :=
  withdraw_requests d' = withdraw_requests d /\ transactions d' = transactions d.

#[local] Instance no_money_preorder : PreOrder no_money.
Proof. split; [by split|]. intros a b d [? ?] [? ?]. split; congruence. Qed.

Lemma own_wallet_no_money c : moves no_money (own_wallet c).
Proof.
  unfold own_wallet, GetOrCreate, GetOrCreateWallet. moves_tac; (apply moves_exec; [typeclasses eauto|]).
  - intros d d' H. unfold insert_wallet in H. destruct (bool_decide _) in H; [done|].
    do 2 (destruct (existsb _ _) in H; [done|]). by injection H as <-.
  - intros d d' H. unfold update_pay_handle, update_wallet in H. destruct (existsb _ _) in H; [done|].
    destruct (wallets d !! _) as [w|] in H; by injection H as <-.
Qed.

Lemma after_del {A} uid (k : unit -> M Tables (WS * BotState) A) s r s' :
  bind (states_del uid) k s = (r, s') -> keeps (fun x => b_states (snd x)) (k tt) ->
  chats s' = delete uid (chats s).
Proof.
  intros H Hk. apply bind_run in H as (r1 & s1 & H1 & H). injection H1 as <- <-.
  by rewrite (Hk _ _ _ H : chats s' = _).
Qed.

(** Either no money moved, or the sender's conversation is over; nobody else's
    conversation is touched. *)
Definition moves_once (uid : Z) (s s' : st Tables (WS * BotState)) : Prop :=
  (no_money (db s) (db s') \/ chats s' !! uid = None) /\
  (forall v, v <> uid -> chats s' !! v = chats s !! v).

Lemma once_over uid s s' : chats s' = delete uid (chats s) -> moves_once uid s s'.
Proof.
  intros E. unfold moves_once. rewrite E. split; [right; apply lookup_delete_eq|].
  intros v Hv. by rewrite lookup_delete_ne.
Qed.

Lemma once_quiet {A} uid (m : M Tables (WS * BotState) A) s r s' :
  m s = (r, s') -> moves no_money m -> keeps (fun x => b_states (snd x)) m -> moves_once uid s s'.
Proof.
  intros H Hm Hk. split; [left; exact (Hm _ _ _ H)|]. intros v _. by rewrite (Hk _ _ _ H : chats s' = _).
Qed.

(** One more step of a conversation: remembered, then only talk. *)
Lemma once_step {A} uid st (k : unit -> M Tables (WS * BotState) A) s r s' :
  bind (states_set uid st) k s = (r, s') -> moves no_money (k tt) ->
  (forall a b q, k tt a = (q, b) -> forall v, v <> uid -> chats b !! v = chats a !! v) -> moves_once uid s s'.
Proof.
  intros H Hm Hk. apply bind_run in H as (r1 & s1 & H1 & H). injection H1 as <- <-. split.
  - left. exact (Hm _ _ _ H).
  - intros v Hv. rewrite (Hk _ _ _ H v Hv). unfold chats. simpl. by rewrite lookup_insert_ne.
Qed.

(** Programs that touch no conversation but [uid]'s. *)
Definition others_kept {A} (uid : Z) (m : M Tables (WS * BotState) A) : Prop :=
  forall a b q, m a = (q, b) -> forall v, v <> uid -> chats b !! v = chats a !! v.

Lemma others_bind {A B} uid (m : M _ _ A) (k : A -> M _ _ B) :
  others_kept uid m -> (forall x, others_kept uid (k x)) -> others_kept uid (bind m k).
Proof.
  intros Hm Hk a b q H v Hv. apply bind_run in H as (r1 & s1 & H1 & H).
  rewrite <- (Hm _ _ _ H1 v Hv). destruct r1; [exact (Hk _ _ _ _ H v Hv)|by destruct H as [_ ->]].
Qed.
Lemma others_same {A} uid (m : M _ _ A) : keeps (fun x => b_states (snd x)) m -> others_kept uid m.
Proof. intros Hm a b q H v _. by rewrite (Hm _ _ _ H : chats b = _). Qed.
Lemma others_del uid : others_kept uid (states_del uid).
Proof. intros a b q [= _ <-] v Hv. unfold chats. simpl. by rewrite lookup_delete_ne. Qed.

#[local] Hint Resolve own_wallet_no_money : moves.

Lemma asked c (f : Wallet -> M Tables (WS * BotState) unit) (g : M Tables (WS * BotState) unit) :
  (forall w, reads (f w) /\ keeps (fun x => b_states (snd x)) (f w)) ->
  reads g /\ keeps (fun x => b_states (snd x)) g ->
  let k := (w <- own_wallet c ;;
            match w with Err _ => states_del (Sender c) ;; g | Ok w => f w end)%eff in
  moves no_money k /\ others_kept (Sender c) k.
Proof.
  intros Hf [Hg1 Hg2] k. split.
  - apply moves_bind; [typeclasses eauto|auto with moves|]. intros [w|e]; apply moves_reads; try typeclasses eauto.
    + apply Hf.
    + apply reads_bind; [auto with botpay|done].
  - apply others_bind; [apply others_same; auto with botpay|]. intros [w|e].
    + apply others_same, Hf.
    + apply others_bind; [apply others_del|]. intros _. by apply others_same.
Qed.

Lemma once_say c lang key args kb s r s' : say c lang key args kb s = (r, s') -> moves_once (Sender c) s s'.
Proof.
  intros H. eapply once_quiet; [exact H| |unfold say; auto with botpay].
  apply moves_reads; [typeclasses eauto|unfold say; auto with botpay].
Qed.

Lemma once_ret uid s r s' : ret (X := WS * BotState) tt s = (r, s') -> moves_once uid s s'.
Proof.
  intros H. eapply once_quiet; [exact H| |auto with botpay].
  apply moves_reads; [typeclasses eauto|auto with botpay].
Qed.

(** Ends the branches that only talk, and those that end the conversation first. *)
Ltac once_tac H :=
  repeat match type of H with
  | (match ?x with _ => _ end) _ = _ => destruct x eqn:?
  end;
  try solve [ exact (once_say _ _ _ _ _ _ _ _ H) | exact (once_ret _ _ _ _ H)
            | apply once_over, (after_del _ _ _ _ _ H); first [solve [auto with botpay] | unfold say, say_error; keeps_tac] ].

Lemma once_withdraw c lang st text s r s' :
  handleWithdrawState c lang st text s = (r, s') -> moves_once (Sender c) s s'.
Proof.
  intros H. unfold handleWithdrawState in H. once_tac H.
  destruct (asked c (fun w => say c lang KWithdrawAskAmount
     [AStr (substring 0 6 text); AStr (string_tail 4 text); AFloat (f64_sub (TotalTON w) feeTON); AFloat feeTON]
     (kbCancelOnly lang)) (say c lang KErrGeneric [] (kbMain lang))) as [K1 K2];
    [intros; unfold say; auto with botpay..|].
  exact (once_step _ _ _ _ _ _ H K1 K2).
Qed.

Lemma once_transfer c lang st text s r s' :
  handleTransferState c lang st text s = (r, s') -> moves_once (Sender c) s s'.
Proof.
  intros H. unfold handleTransferState in H. once_tac H.
  apply bind_run in H as (r1 & s1 & H1 & H). destruct reads_lift_queries as (_ & _ & _ & Hq).
  pose proof (reads_try _ (Hq _) _ _ _ H1) as Hd.
  assert (Hc : chats s1 = chats s).
  { apply (keeps_try (fun x : WS * BotState => b_states (snd x))) in H1; [done|apply keeps_lift_bot]. }
  assert (Hon : moves_once (Sender c) s1 s'); [|unfold moves_once in *; by rewrite <- Hd, <- Hc].
  destruct r1 as [q|e]; [|destruct H as [_ ->]; split; [by left|done]]. once_tac H.
  match goal with K : ParseInt _ _ = Some ?i |- _ => destruct (asked c (fun w => say c lang KTransferAskAmount
     [AInt i; AFloat (TotalTON w)] (kbCancelOnly lang)) (say c lang KErrGeneric [] (kbMain lang))) as [K1 K2] end;
    [intros; unfold say; auto with botpay..|].
  exact (once_step _ _ _ _ _ _ H K1 K2).
Qed.

Lemma once_admin c lang st text s r s' :
  handleAdminApprove c lang st text s = (r, s') \/ handleAdminReject c lang st text s = (r, s') \/
  handleAdminCredit c lang st text s = (r, s') -> moves_once (Sender c) s s'.
Proof.
  unfold handleAdminApprove, handleAdminReject, handleAdminCredit. intros [H|[H|H]]; once_tac H.
  refine (once_step _ _ _ _ _ _ H _ _).
  - apply moves_reads; [typeclasses eauto|unfold say; auto with botpay].
  - apply others_same. unfold say. auto with botpay.
Qed.


(** * Every text gets its answer *)

Section calm.
Context (Hcalm : forall k, env_fault k = None).

Definition answers (s : st Tables (WS * BotState)) : list (Z * Answer) := b_answers (snd (ext s)).

(** Programs that return without an answer, and programs that give one. *)
Definition silent {A} (m : M Tables (WS * BotState) A) : Prop :=
  forall s, exists v s', m s = (Ok v, s') /\ answers s' = answers s.
Definition answered (to : Z) (m : M Tables (WS * BotState) unit) : Prop :=
  forall s, exists s' a, m s = (Ok tt, s') /\ answers s' = answers s ++ [(to, a)].

Lemma silent_bind {A} to (m : M _ _ A) k : silent m -> (forall v, answered to (k v)) -> answered to (bind m k).
Proof.
  intros Hm Hk s. destruct (Hm s) as (v & s1 & E1 & H1). destruct (Hk v s1) as (s' & a & E2 & H2).
  exists s', a. split; [by rewrite (bind_intro _ _ _ _ _ _ E1 E2)|congruence].
Qed.

Lemma silent_bind2 {A B} (m : M _ _ A) (k : A -> M _ _ B) :
  silent m -> (forall v, silent (k v)) -> silent (bind m k).
Proof.
  intros Hm Hk s. destruct (Hm s) as (v & s1 & E1 & H1). destruct (Hk v s1) as (w & s' & E2 & H2).
  exists w, s'. split; [by rewrite (bind_intro _ _ _ _ _ _ E1 E2)|congruence].
Qed.

Lemma silent_ret {A} (v : A) : silent (ret v).
Proof. intros s. by exists v, s. Qed.

Lemma silent_try_lift {A} (m : M Tables WS A) : silent (try (lift m)).
Proof.
  intros s. unfold try, lift. destruct (m _) as [r s1]. by eexists _, _.
Qed.

Lemma silent_set id st : silent (states_set id st).
Proof. intros s. by eexists _, _. Qed.
Lemma silent_del id : silent (states_del id).
Proof. intros s. by eexists _, _. Qed.

Lemma answered_answer to a : answered to (answer to a).
Proof. intros s. unfold answer. rewrite Hcalm. by eexists _, a. Qed.

Lemma silent_langOf c : silent (langOf defaultLang c).
Proof.
  unfold langOf. apply silent_bind2; [apply silent_try_lift|]. intros [[w|]|e]; cbv zeta; [destruct (_ =? "")%string|..];
    apply silent_ret.
Qed.

Ltac answered_tac :=
  repeat (intros; first
    [ apply answered_answer
    | apply silent_bind; [first [apply silent_try_lift | apply silent_set | apply silent_del]|]
    | match goal with |- answered _ (match ?x with _ => _ end) => destruct x eqn:? end ]).

(** When nothing fails, a text in a conversation is answered with exactly
    one message, to its sender: no input, however malformed, leaves the user
    without a reply, gets two, or stops the bot. *)
Theorem conversation_answers c s st :
  chats_wf ownerID (chats s) -> chats s !! Sender c = Some st ->
  exists s' a, onText defaultLang c s = (Ok tt, s') /\ answers s' = answers s ++ [(Sender c, a)].
Proof.
  intros Hw Hst. destruct (onText defaultLang c s) as [r s'] eqn:E.
  destruct (silent_langOf c s) as (lang & s1 & E1 & H1).
  apply onText_run in E as (rl & s2 & E2 & _ & _ & E); [|done]. rewrite E1 in E2. injection E2 as <- <-.
  rewrite Hst in E. destruct E as [Hok E].
  cut (answered (Sender c) (match kind st with
    | kindNone => ret tt
    | kindWithdraw => handleWithdrawState c lang st (TrimSpace (MsgText c))
    | kindTransfer => handleTransferState c lang st (TrimSpace (MsgText c))
    | kindAdminApprove => handleAdminApprove c lang st (TrimSpace (MsgText c))
    | kindAdminReject => handleAdminReject c lang st (TrimSpace (MsgText c))
    | kindAdminCredit => handleAdminCredit c lang st (TrimSpace (MsgText c)) end)).
  { intros K. destruct (K s1) as (s3 & a & E3 & H3). exists s3, a.
    split; [destruct (kind st); [done|congruence..]|congruence]. }
  unfold chat_ok in Hok. destruct (kind st); [done|..];
    unfold handleWithdrawState, handleTransferState, handleAdminApprove, handleAdminReject, handleAdminCredit,
      add_credit, say, say_error, own_wallet.
  - destruct Hok as [->|[-> _]]; cbn [String.eqb Ascii.eqb Bool.eqb]; answered_tac.
  - destruct Hok as [->|[-> _]]; cbn [String.eqb Ascii.eqb Bool.eqb]; answered_tac.
  - destruct Hok as [_ [i ->]]. answered_tac.
  - destruct Hok as [_ [i ->]]. answered_tac.
  - destruct Hok as [_ [->|[-> _]]]; cbn [String.eqb Ascii.eqb Bool.eqb]; answered_tac.
Qed.
End calm.
End bot2.

(** * Examples *)

Section demo.
#[local] Existing Instance calm_env.
#[local] Existing Instance demo_lib.
#[local] Existing Instance demo_crypto.
#[local] Existing Instance demo_locales.
#[local] Existing Instance amd64.

(** Decimal numbers as request ids. *)
Definition demo_uuids : UuidParser := {| uuid_Parse := fun s => Z.to_N <$> ParseInt 10 s |}.
#[local] Existing Instance demo_uuids.

Abbreviation Bot := (st Tables (WS * BotState)).

(** The owner is user 42. *)
Definition act (e : Endpoint) (c : Update) (s : Bot) : Bot := snd (handle 42 FA e c s).

Definition from (uid : Z) (text : string) : Update :=
  {| Sender := uid; FirstName := "U"; LanguageCode := "en"; MsgText := text; Payload := text; CallbackData := text |}.

Definition demo_bot (d : Tables) : Bot :=
  mkSt 100 NoTx d (demo_ws, {| b_states := ∅; b_answers := [] |}).

(** A user with 0.5 TON asks to withdraw and names an address. *)
Definition bot_0 : Bot := demo_bot (demo_tables 500000000 0 0 0).
Definition bot_1 : Bot := Eval vm_compute in act CmdWithdraw (from 1234567 "") bot_0.
Definition bot_2 : Bot := Eval vm_compute in act OnText (from 1234567 (demo_addr +:+ " ")) bot_1.
(** ... and an amount. *)
Definition bot_3 : Bot := Eval vm_compute in act OnText (from 1234567 "0.25") bot_2.
(** Somebody who is not the owner tries to approve it. *)
Definition bot_4 : Bot := Eval vm_compute in act CmdApprove (from 7654321 "1111 hash") bot_3.

Definition chats_wfb (m : gmap Z convState) : bool :=
  forallb (fun p => match kind (snd p) with
    | kindWithdraw => (step (snd p) =? "addr")%string ||
        ((step (snd p) =? "amount")%string && IsValidTONAddress (addr (snd p)))
    | _ => false end) (map_to_list m).

Lemma chats_wfb_ok m : chats_wfb m = true -> chats_wf 42 m.
Proof.
  unfold chats_wfb. rewrite forallb_forall. intros H uid st Hst.
  specialize (H (uid, st) ltac:(apply list_elem_of_In; by apply elem_of_map_to_list)). simpl in H.
  unfold chat_ok. destruct (kind st); try done.
  apply orb_prop in H as [H|H]; [left; by apply String.eqb_eq|right].
  apply andb_prop in H as [H1 H2]. split; [by apply String.eqb_eq|done].
Qed.

Lemma demo_acts :
  (exists r, handle 42 FA CmdWithdraw (from 1234567 "") bot_0 = (r, bot_1)) /\
  (exists r, handle 42 FA OnText (from 1234567 (demo_addr +:+ " ")) bot_1 = (r, bot_2)) /\
  (exists r, onText FA (from 1234567 "0.25") bot_2 = (r, bot_3)) /\
  (exists r, handle 42 FA CmdApprove (from 7654321 "1111 hash") bot_3 = (r, bot_4)).
Proof. repeat split; eexists; vm_compute; reflexivity. Qed.

Lemma demo_wf : chats_wf 42 (chats bot_1) /\ chats_wf 42 (chats bot_2) /\ chats_wf 42 (chats bot_3).
Proof. repeat split; apply chats_wfb_ok; vm_compute; reflexivity. Qed.

Lemma conversations_well_formed_witness : exists st,
  chats bot_2 !! 1234567 = Some st /\ chat_ok 42 1234567 st /\ step st = "amount"%string.
Proof.
  destruct demo_acts as (_ & [r E] & _ & _).
  pose proof (conversations_well_formed _ _ _ _ _ _ _ E (proj1 demo_wf)) as Hw.
  eexists. split; [reflexivity|]. split; [apply Hw; reflexivity|reflexivity].
Defined.

Lemma only_owner_decides_witness : exists id q,
  withdraw_requests (db bot_3) !! id = Some q /\ withdraw_requests (db bot_4) !! id = Some q /\
  wr_Status q = WithdrawPending.
Proof.
  destruct demo_acts as (_ & _ & _ & [r E]). destruct demo_wf as (_ & _ & Hw).
  destruct (only_owner_decides _ _ _ _ _ _ _ E ltac:(discriminate) Hw) as [H _].
  assert (Hq : exists id q, withdraw_requests (db bot_3) !! id = Some q /\ wr_Status q = WithdrawPending).
  { destruct (map_to_list (withdraw_requests (db bot_3))) as [|[id q] l] eqn:El; [discriminate|].
    exists id, q. split; [|vm_compute in El; by injection El as <- <- _].
    apply elem_of_map_to_list. rewrite El. apply list_elem_of_here. }
  destruct Hq as (id & q & Hq & Hs). exists id, q. split; [exact Hq|]. split; [exact (H _ _ Hq)|exact Hs].
Defined.


(** Not a number is not at most zero: the amount "nan" passes the check and is
    refused only by the service. *)
Lemma conversation_answers_witness : exists s' a,
  onText FA (from 1234567 "nan") bot_2 = (Ok tt, s') /\ answers s' = answers bot_2 ++ [(1234567, a)] /\
  db s' = db bot_2.
Proof.
  destruct demo_wf as (_ & Hw & _).
  destruct (conversation_answers (ENV := calm_env) 42 FA (fun _ => eq_refl) (from 1234567 "nan") bot_2 _ Hw eq_refl)
    as (s' & a & E & Ha).
  exists s', a. split; [exact E|]. split; [exact Ha|]. vm_compute in E. injection E as <-. reflexivity.
Defined.

(** Withdrawing more than there is: begin while having 0.5 TON, spend almost
    all of it elsewhere, then name the amount. *)
Definition spent : Bot := Eval vm_compute in
  snd (lift (Y := BotState) (Pay demo_order 1234567 499000000 "bot_1" "ref" "plan") bot_2).
Definition looted : Bot :=
  act OnText (from 1234567 "50000") (act OnText (from 1234567 "7654321") (act OnText (from 1234567 "btn.transfer")
    (act OnText (from 1234567 "9223372036.85") spent))).

(** The overflow is within reach of any user: after the withdrawal of
    9223372036.85 TON was accepted in the chat with 0.001 TON left, the same
    user transfers 50000 TON that nobody ever deposited to another wallet. *)
Theorem chat_withdraw_overflow :
  match wallets (db looted) !! 1%N, wallets (db looted) !! 2%N with
  | Some w1, Some w2 => (w_TONBalance w1 <? 0) && (w_TONBalance w2 =? 50000 * 1000000000)
  | _, _ => false
  end = true.
Proof. vm_compute. reflexivity. Qed.
End demo.
