(* ===== verification/Bank.v ===== *)
(** What the botpay repository is for, without its tables: a bank whose
    accounts have money, part of it held for withdrawals. The repository's
    methods implement the bank's operations. *)
From S2P Require Import Prelude GoInt GoString GoFloat Effects PayModels PayChain PayStore.
From S2P Require Import PayInvariant PayStoreSpec Consensus ConsensusSpec Localization WalletService WalletServiceSpec.

(** * The bank *)

Record Account := { money : Z; held : Z }.

Definition free (a : Account) : Z := money a - held a.

Inductive BankOp :=
| Open (id : uuid)
| Receive (id : uuid) (n : Z)          (* money comes in *)
| Charge (id : uuid) (n : Z)           (* a payment out of the free money *)
| Move (a b : uuid) (n : Z)            (* between two customers *)
| Hold (id : uuid) (n : Z)             (* a withdrawal is requested *)
| Settle (id : uuid) (n : Z)           (* it was sent *)
| Release (id : uuid) (n : Z).         (* it was rejected *)

Abbreviation Accounts := (gmap uuid Account).

(** Change one account when it exists and the condition holds. *)
Definition on_account (id : uuid) (ok : Account -> bool) (dm dh : Z) (m : Accounts) : option Accounts :=
  match m !! id with
  | Some a => if ok a then Some (<[id := {| money := money a + dm; held := held a + dh |}]> m) else None
  | None => None
  end.

Definition bank_apply (op : BankOp) (m : Accounts) : option Accounts :=
  match op with
  | Open id => match m !! id with Some _ => None | None => Some (<[id := {| money := 0; held := 0 |}]> m) end
  | Receive id n => on_account id (fun _ => 0 <? n) n 0 m
  | Charge id n => on_account id (fun a => (0 <? n) && (n <=? free a)) (- n) 0 m
  | Move a b n =>
      match on_account a (fun x => (0 <? n) && (n <=? free x)) (- n) 0 m with
      | Some m => on_account b (fun _ => true) n 0 m
      | None => None
      end
  | Hold id n => on_account id (fun a => (0 <? n) && (n <=? free a)) 0 n m
  | Settle id n => on_account id (fun a => (0 <? n) && (n <=? held a)) (- n) (- n) m
  | Release id n => on_account id (fun a => (0 <? n) && (n <=? held a)) 0 (- n) m
  end.

(** Nobody owes: what is held is covered. *)
Definition solvent (m : Accounts) : Prop := map_Forall (fun _ a => 0 <= held a <= money a) m.

Lemma on_account_solvent id ok dm dh m m' :
  on_account id ok dm dh m = Some m' -> solvent m ->
  (forall a, ok a = true -> 0 <= held a <= money a -> 0 <= held a + dh <= money a + dm) -> solvent m'.
Proof.
  unfold on_account. destruct (m !! id) as [a|] eqn:Ha; [|done]. destruct (ok a) eqn:Ho; [|done].
  intros [= <-] Hs Hok. apply map_Forall_insert_2; [|done]. apply Hok; [done|]. exact (Hs _ _ Ha).
Qed.

(** The bank never lets anyone spend what is not free. *)
Lemma bank_solvent op m m' : bank_apply op m = Some m' -> solvent m -> solvent m'.
Proof.
  unfold free. destruct op as [id|id n|id n|a b n|id n|id n|id n]; cbn [bank_apply]; intros H Hs.
  - destruct (m !! id); [done|]. injection H as <-. by apply map_Forall_insert_2.
  - apply (on_account_solvent _ _ _ _ _ _ H Hs). intros x Hx ?. zbool. lia.
  - apply (on_account_solvent _ _ _ _ _ _ H Hs). unfold free. intros x Hx ?. zbool. lia.
  - destruct (on_account a _ _ _ _) as [m1|] eqn:E; [|done].
    assert (0 < n).
    { unfold on_account in E. destruct (m !! a) as [x|]; [|done]. destruct (_ && _) eqn:Ec in E; [|done]. zbool. lia. }
    assert (Hs1 : solvent m1). { apply (on_account_solvent _ _ _ _ _ _ E Hs). unfold free. intros x Hx ?. zbool. lia. }
    apply (on_account_solvent _ _ _ _ _ _ H Hs1). intros x _ ?. lia.
  - apply (on_account_solvent _ _ _ _ _ _ H Hs). unfold free. intros x Hx ?. zbool. lia.
  - apply (on_account_solvent _ _ _ _ _ _ H Hs). intros x Hx ?. zbool. lia.
  - apply (on_account_solvent _ _ _ _ _ _ H Hs). intros x Hx ?. zbool. lia.
Qed.

(** * The tables as a bank *)

Definition account (w : Wallet) : Account := {| money := w_TONBalance w + w_Credit w; held := w_Frozen w |}.
Definition abs (d : Tables) : Accounts := account <$> wallets d.

Lemma abs_same d d' : wallets d' = wallets d -> abs d' = abs d.
Proof. unfold abs. by intros ->. Qed.

Lemma abs_transactions f d : abs (set_transactions f d) = abs d.
Proof. done. Qed.
Lemma abs_withdraws f d : abs (set_withdraws f d) = abs d.
Proof. done. Qed.

Lemma abs_insert d id w : account <$> <[id := w]> (wallets d) = <[id := account w]> (abs d).
Proof. apply fmap_insert. Qed.

Lemma abs_lookup d id w : wallets d !! id = Some w -> abs d !! id = Some (account w).
Proof. intros H. unfold abs. by rewrite lookup_fmap, H. Qed.

Lemma on_account_abs d id w ok dm dh dt dc :
  wallets d !! id = Some w -> ok (account w) = true -> dt + dc = dm ->
  on_account id ok dm dh (abs d) =
  Some (abs (set_wallets <[id := with_balances w (w_TONBalance w + dt) (w_Credit w + dc) (w_Frozen w + dh)]> d)).
Proof.
  intros Hw Hok <-. unfold on_account. rewrite (abs_lookup _ _ _ Hw), Hok. f_equal.
  unfold abs. simpl. rewrite fmap_insert. f_equal. unfold account. simpl. f_equal. lia.
Qed.

(** * Calls and the operations they stand for *)

Inductive Call :=
| CallGetOrCreate (tg : Z) (addr : string)
| CallDeposit (id : uuid) (amt : Z) (hash from desc : string)
| CallAddCredit (id : uuid) (amt : Z) (desc : string)
| CallDeduct (id : uuid) (amt : Z) (service ref desc : string)
| CallTransfer (a b : uuid) (amt : Z) (desc : string)
| CallCreateWithdraw (req : WithdrawRequest)
| CallComplete (id : uuid) (hash : string)
| CallReject (id : uuid) (why : string).

(** What the callers establish before a call. *)
Definition called_well (c : Call) (d : Tables) : Prop :=
  match c with
  | CallGetOrCreate _ _ => True
  | CallDeposit id amt _ _ _ => 0 < amt /\ is_Some (wallets d !! id)
  | CallAddCredit id _ _ => is_Some (wallets d !! id)
  | CallDeduct _ amt _ _ _ | CallTransfer _ _ amt _ => amt <= int64_max
  | CallCreateWithdraw req => 0 < wr_total req
  | CallComplete id _ | CallReject id _ => pending d id
  end.

(** Calls that a record in the tables shows to have happened before. *)
Definition repeated (c : Call) (d : Tables) : bool :=
  match c with
  | CallGetOrCreate tg _ => existsb (fun w => (tg =? 0) || (w_TelegramID w =? tg)) (rows (wallets d))
  | CallDeposit _ _ hash _ _ => match find_by_hash hash d with Some _ => true | None => false end
  | CallDeduct id _ service ref _ =>
      negb (ref =? "")%string && match find_payment id service ref d with Some _ => true | None => false end
  | _ => false
  end.

Section refinement.
Context {X : Type} {ENV : Env} {LIB : Lib}.
Implicit Types s : st Tables X.

(** The call, answering the account it opened where it opens one. *)
Definition perform (c : Call) : M Tables X (option uuid) :=
  (match c with
   | CallGetOrCreate tg addr => w <- GetOrCreateWallet tg addr ;; ret (Some (w_ID w))
   | CallDeposit id amt hash from desc => Deposit id amt hash from desc ;; ret None
   | CallAddCredit id amt desc => AddCredit id amt desc ;; ret None
   | CallDeduct id amt service ref desc => Deduct id amt service ref desc ;; ret None
   | CallTransfer a b amt desc => Transfer a b amt desc ;; ret None
   | CallCreateWithdraw req => CreateWithdraw req ;; ret None
   | CallComplete id hash => CompleteWithdraw id hash ;; ret None
   | CallReject id why => RejectWithdraw id why ;; ret None
   end)%eff.

Definition operation (c : Call) (d : Tables) (opened : option uuid) : option BankOp :=
  match c with
  | CallGetOrCreate _ _ => Open <$> opened
  | CallDeposit id amt _ _ _ | CallAddCredit id amt _ => Some (Receive id amt)
  | CallDeduct id amt _ _ _ => Some (Charge id amt)
  | CallTransfer a b amt _ => Some (Move a b amt)
  | CallCreateWithdraw req => Some (Hold (wr_WalletID req) (wr_total req))
  | CallComplete id _ => (fun r => Settle (wr_WalletID r) (wr_total r)) <$> withdraw_requests d !! id
  | CallReject id _ => (fun r => Release (wr_WalletID r) (wr_total r)) <$> withdraw_requests d !! id
  end.

Lemma account_solvent d id w : pay_inv d -> wallets d !! id = Some w ->
  free (account w) = w_TONBalance w + w_Credit w - w_Frozen w /\ 0 <= free (account w).
Proof. intros I Hw. destruct (inv_wallets _ I _ _ Hw). unfold free, account. simpl. lia. Qed.

Lemma enough_is_free d id w amt : pay_inv d -> wallets d !! id = Some w -> HasEnough w amt = true ->
  amt <= free (account w).
Proof. intros I Hw He. destruct (account_solvent _ _ _ I Hw) as [-> ?]. apply HasEnough_free; [lia|done]. Qed.

Lemma Deposit_refines id amt h f ds s r s' :
  Deposit id amt h f ds s = (r, s') -> pay_inv (db s) -> 0 < amt -> is_Some (wallets (db s) !! id) ->
  match r with
  | Err _ => abs (db s') = abs (db s)
  | Ok _ => if repeated (CallDeposit id amt h f ds) (db s) then abs (db s') = abs (db s)
            else bank_apply (Receive id amt) (abs (db s)) = Some (abs (db s'))
  end.
Proof.
  intros H I Ha [w Hw]. unfold Deposit in H. destruct r as [t|e]; [|by rewrite (transaction_atomic _ _ _ _ H)].
  apply transaction_ok in H as (s1 & Hm & ->). simpl in *.
  apply bind_ok in Hm as (r1 & s2 & E & Hm). apply try_run in E as (q & [= ->] & E).
  destruct q as [t0|e].
  - apply first_ok in E as (E & -> & _). simpl in E. rewrite E. by injection Hm as _ <-.
  - apply bind_ok in Hm as (? & s3 & Hx & Hm). apply exec_ok in Hx as (d & Hd & -> & Htx).
    assert (Hf : find_by_hash h (db s) = None /\ db s2 = db s).
    { unfold first, stmt in E. simpl in E. destruct (env_fault (S (tick s))).
      - by injection E as <- <-.
      - destruct (find_by_hash h (db s)); [done|]. by injection E as _ <-. }
    destruct Hf as [-> Hd2]. rewrite Hd2 in Hd.
    apply bind_ok in Hm as (t1 & s4 & E1 & Hm). injection E1 as <- <-.
    apply create_transaction_ok in Hm as [Hd' _]. simpl in Hd'. rewrite Hd', abs_transactions.
    use_update; [congruence|].
    apply (on_account_abs _ _ w0); [done| |lia]. by apply Z.ltb_lt.
Qed.

Lemma AddCredit_refines id amt ds s r s' :
  AddCredit id amt ds s = (r, s') -> is_Some (wallets (db s) !! id) ->
  match r with
  | Err _ => abs (db s') = abs (db s)
  | Ok _ => bank_apply (Receive id amt) (abs (db s)) = Some (abs (db s'))
  end.
Proof.
  intros H [w Hw]. unfold AddCredit in H. destruct (amt <=? 0) eqn:Ea; [by injection H as <- <-|].
  destruct r as [t|e]; [|by rewrite (transaction_atomic _ _ _ _ H)].
  apply transaction_ok in H as (s1 & Hm & ->). run_inv.
  match goal with H : create_transaction _ _ = _ |- _ => apply create_transaction_ok in H as [Hd _] end.
  rewrite Hd, abs_transactions. simpl in *. use_update; [congruence|].
  zbool. apply (on_account_abs _ _ w0); [done|by apply Z.ltb_lt|lia].
Qed.

Lemma Deduct_refines id amt sv ref ds s r s' :
  Deduct id amt sv ref ds s = (r, s') -> pay_inv (db s) -> amt <= int64_max ->
  match r with
  | Err _ => abs (db s') = abs (db s)
  | Ok _ => if repeated (CallDeduct id amt sv ref ds) (db s) then abs (db s') = abs (db s)
            else bank_apply (Charge id amt) (abs (db s)) = Some (abs (db s'))
  end.
Proof.
  intros H I Ha. apply Deduct_cases in H; [|done|].
  2: { intros w Hw. by destruct (inv_wallets _ I _ _ Hw). }
  destruct r as [t|e]; [|by rewrite H]. destruct H as [Hpos [(Hne & Hf & ->)|(Hn & w & c & u & Hw & He & -> & -> & (E1 & _) & ->)]].
  - simpl. rewrite Hf. apply String.eqb_neq in Hne. by rewrite Hne.
  - assert (Hrep : repeated (CallDeduct id amt sv ref ds) (db s) = false).
    { simpl. destruct Hn as [->| ->]; [done|]. by rewrite andb_false_r. }
    rewrite Hrep. pose proof (enough_is_free _ _ _ _ I Hw He). unfold debited. rewrite E1.
    rewrite abs_transactions. cbn [bank_apply].
    rewrite (on_account_abs _ _ w _ _ _ (- (amt - w_Credit w `min` amt)) (- (w_Credit w `min` amt)));
      [|done|apply andb_true_intro; split; [apply Z.ltb_lt|apply Z.leb_le]; lia|lia].
    by rewrite Z.add_0_r, !Z.add_opp_r.
Qed.

Lemma Transfer_refines a b amt ds s r s' :
  Transfer a b amt ds s = (r, s') -> pay_inv (db s) -> amt <= int64_max ->
  match r with
  | Err _ => abs (db s') = abs (db s)
  | Ok _ => bank_apply (Move a b amt) (abs (db s)) = Some (abs (db s'))
  end.
Proof.
  unfold Transfer. intros H I Ha. destruct (amt <=? 0) eqn:Ea; [by injection H as <- <-|].
  destruct r as [t|e]; [|by rewrite (transaction_atomic _ _ _ _ H)].
  apply transaction_ok in H as (s1 & Hm & ->). run_inv. destruct (split_payment _ amt) as [c u] eqn:Es. run_inv.
  do 2 match goal with H : create_transaction _ _ = (Ok _, ?s) |- context [db ?s] =>
    apply create_transaction_ok in H as [-> _] end. simpl in *.
  match goal with H : wallets (db s) !! a = Some ?x |- _ => rename x into w1; rename H into Hw1 end.
  zbool. match goal with H : HasEnough _ _ = true |- _ => pose proof (enough_is_free _ _ _ _ I Hw1 H) end.
  destruct (split_payment_spec _ _ _ _ Es) as (Ec & Et & ? & ? & ? & _);
    [zbool; lia|apply (ok_credit _ _ _ (inv_wallets _ I _ _ Hw1))|]. rewrite Ec, Et in *.
  match goal with H : update_wallet a _ _ = Ok _ |- _ =>
    apply update_add_ok in H; destruct H as [[? ->]|(w & Hw & -> & _)]; simpl in *; [congruence|] end.
  assert (w = w1) as -> by congruence. clear Hw.
  rewrite (on_account_abs _ _ w1 _ _ _ (- u) (- c));
    [|done|apply andb_true_intro; split; [apply Z.ltb_lt|apply Z.leb_le]; lia|lia].
  use_update; [exfalso; simplify_map_eq; destruct (decide (a = b)) as [->|]; simplify_map_eq|].
  match goal with K : _ !! b = Some ?w |- _ => rewrite (on_account_abs _ b w _ _ _ u c); [|exact K|done|lia] end.
  done.
Qed.

Lemma CreateWithdraw_refines req s r s' :
  CreateWithdraw req s = (r, s') -> pay_inv (db s) -> 0 < wr_total req ->
  match r with
  | Err _ => abs (db s') = abs (db s)
  | Ok _ => bank_apply (Hold (wr_WalletID req) (wr_total req)) (abs (db s)) = Some (abs (db s'))
  end.
Proof.
  unfold CreateWithdraw. intros H I Ha. destruct r as [t|e]; [|by rewrite (transaction_atomic _ _ _ _ H)].
  apply transaction_ok in H as (s1 & Hm & ->). run_inv.
  match goal with H : insert_withdraw ?q _ = Ok _ |- _ =>
    unfold insert_withdraw in H; destruct (bool_decide (is_Some _)) eqn:Hn in H; [done|]; injection H as <- end.
  zbool. use_update; [congruence|].
  match goal with H : HasEnough ?x _ = true, K : wallets (db s) !! _ = Some ?x |- _ =>
    pose proof (enough_is_free _ _ _ _ I K H); rewrite abs_withdraws end.
  simplify_eq. apply on_account_abs; [done| |done].
  apply andb_true_intro; split; [apply Z.ltb_lt|apply Z.leb_le]; done.
Qed.

(** A pending request is covered by what its wallet holds. *)
Lemma pending_held d id r w : pay_inv d -> withdraw_requests d !! id = Some r -> wr_Status r = WithdrawPending ->
  wallets d !! wr_WalletID r = Some w -> 0 < wr_total r <= held (account w).
Proof.
  intros I Hr Hp Hw. destruct (inv_requests _ I _ _ Hr) as [_ Hpos]. split; [done|].
  simpl. rewrite (ok_frozen _ _ _ (inv_wallets _ I _ _ Hw)). unfold withdraw_total.
  rewrite (map_sum_delete _ _ _ _ Hr). unfold wr_part at 1. rewrite Hp, N.eqb_refl. simpl.
  assert (0 <= map_sum (wr_part WithdrawPending (wr_WalletID r)) (delete id (withdraw_requests d))); [|lia].
  apply map_sum_nonneg. intros k q Hq. apply lookup_delete_Some in Hq as [_ Hq].
  apply (inv_requests _ I) in Hq as [_ ?]. unfold wr_part. destruct (_ && _); lia.
Qed.

Lemma finish_refines id q w f dt (op : BankOp) d' s :
  pay_inv (db s) -> withdraw_requests (db s) !! id = Some q -> wr_Status q = WithdrawPending ->
  update_wallet (wr_WalletID q) (add_balances dt 0 (- wr_total q)) (db s) = Ok d' ->
  wallets (db s) !! wr_WalletID q = Some w ->
  (op = Settle (wr_WalletID q) (wr_total q) /\ dt = - wr_total q \/
   op = Release (wr_WalletID q) (wr_total q) /\ dt = 0) ->
  bank_apply op (abs (db s)) = Some (abs (set_withdraws f d')).
Proof.
  intros I Hq Hp Hu Hw Hop. destruct (pending_held _ _ _ _ I Hq Hp Hw).
  use_update; [congruence|]. assert (w0 = w) as -> by congruence.
  rewrite abs_withdraws.
  destruct Hop as [[-> ->]|[-> ->]]; cbn [bank_apply]; (apply on_account_abs; [done| |lia]);
    (apply andb_true_intro; split; [apply Z.ltb_lt|apply Z.leb_le]; simpl in *; lia).
Qed.

Lemma Complete_refines id h s r s' :
  CompleteWithdraw id h s = (r, s') -> pay_inv (db s) -> pending (db s) id ->
  match r with
  | Err _ => abs (db s') = abs (db s)
  | Ok _ => exists q, withdraw_requests (db s) !! id = Some q /\
      bank_apply (Settle (wr_WalletID q) (wr_total q)) (abs (db s)) = Some (abs (db s'))
  end.
Proof.
  unfold CompleteWithdraw. intros H I (q & Hq & Hp). apply bind_run in H as (r0 & s0 & H0 & H).
  injection H0 as <- <-. destruct r as [t|e]; [|by rewrite (transaction_atomic _ _ _ _ H)].
  apply transaction_ok in H as (s1 & Hm & ->). run_inv. assert (x = q) as -> by congruence.
  destruct (inv_wr_wallet _ I _ _ Hq) as [w Hw]. exists q. split; [done|].
  unfold update_withdraw in *. simplify_eq. eapply finish_refines; eauto.
Qed.

Lemma Reject_refines id why s r s' :
  RejectWithdraw id why s = (r, s') -> pay_inv (db s) -> pending (db s) id ->
  match r with
  | Err _ => abs (db s') = abs (db s)
  | Ok _ => exists q, withdraw_requests (db s) !! id = Some q /\
      bank_apply (Release (wr_WalletID q) (wr_total q)) (abs (db s)) = Some (abs (db s'))
  end.
Proof.
  unfold RejectWithdraw. intros H I (q & Hq & Hp).
  destruct r as [t|e]; [|by rewrite (transaction_atomic _ _ _ _ H)].
  apply transaction_ok in H as (s1 & Hm & ->). run_inv. assert (x = q) as -> by congruence.
  destruct (inv_wr_wallet _ I _ _ Hq) as [w Hw]. exists q. split; [done|].
  unfold update_withdraw in *. simplify_eq. eapply finish_refines; eauto.
Qed.

Lemma exec_handle_abs id h s r s' : exec (X := X) (update_pay_handle id h) s = (r, s') -> abs (db s') = abs (db s).
Proof.
  intros H. destruct r as [u|e]; [|by apply stmt_err_db in H as [-> _]].
  apply exec_ok in H as (d & Hd & -> & _). unfold update_pay_handle, update_wallet in Hd.
  destruct (existsb _ _) in Hd; [done|]. simpl.
  destruct (wallets (db s) !! id) as [w|] eqn:Hw; injection Hd as <-; [|done].
  unfold abs. simpl. rewrite fmap_insert. apply insert_id. by rewrite lookup_fmap, Hw.
Qed.

Lemma GetOrCreate_refines tg addr s r s' :
  GetOrCreateWallet tg addr s = (r, s') ->
  match r with
  | Err _ => abs (db s') = abs (db s)
  | Ok w => if repeated (CallGetOrCreate tg addr) (db s) then abs (db s') = abs (db s)
            else bank_apply (Open (w_ID w)) (abs (db s)) = Some (abs (db s'))
  end.
Proof.
  intros H. unfold GetOrCreateWallet in H.
  apply bind_run in H as (r1 & s1 & E1 & H). apply try_run in E1 as (q & -> & E1).
  pose proof (first_db _ _ _ _ E1) as Hd1.
  apply bind_run in H as (r2 & s2 & E2 & H).
  (* the handle update changes no account *)
  assert (Hlast : match r2 with
    | Err _ => r = Err match r2 with Err e => e | Ok _ => model_fuel end /\ s' = s2
    | Ok w => abs (db s') = abs (db s2) /\ exists w', r = Ok w' /\ w_ID w' = w_ID w end).
  { destruct r2 as [w|e]; [|done]. destruct (_ =? "")%string; [|injection H as <- <-; eauto].
    apply bind_run in H as (r3 & s3 & E3 & H). apply try_run in E3 as (q3 & -> & E3).
    apply exec_handle_abs in E3. destruct q3; injection H as <- <-; eauto. }
  destruct q as [w|e].
  - injection E2 as <- <-. destruct Hlast as (Ha & w' & -> & _).
    apply first_ok in E1 as (E1 & _). apply first_row_some in E1 as [Hin Hp].
    assert (Hr : repeated (CallGetOrCreate tg addr) (db s) = true).
    { simpl. apply existsb_exists. exists w. by rewrite <- list_elem_of_In. }
    by rewrite Hr, Ha, Hd1.
  - destruct e; try (injection E2 as <- <-; destruct Hlast as [-> ->]; by rewrite Hd1).
    apply bind_run in E2 as (r3 & s3 & E3 & E2). injection E3 as <- <-.
    apply bind_run in E2 as (r4 & s4 & E4 & E2). destruct r4 as [u|e].
    2: { destruct E2 as [-> ->]. destruct Hlast as [-> ->]. apply stmt_err_db in E4 as [-> _]. simpl. by rewrite Hd1. }
    injection E2 as <- <-. destruct Hlast as (Ha & w' & -> & Hid).
    apply exec_ok in E4 as (d & Hd & -> & _). rewrite Hid, Ha. clear Ha Hid. simpl in *. rewrite Hd1 in Hd.
    unfold insert_wallet in Hd. simpl in Hd.
    destruct (bool_decide _) eqn:Hn in Hd; [done|]. apply bool_decide_eq_false, eq_None_not_Some in Hn.
    do 2 (destruct (existsb _ _) in Hd; [done|]). injection Hd as <-.
    assert (Hr : repeated (CallGetOrCreate tg addr) (db s) = false).
    { simpl. apply not_true_iff_false. rewrite existsb_exists. intros (w & Hin & Hp).
      apply list_elem_of_In in Hin. unfold first, stmt in E1.
      destruct (tx s); try done; (destruct (env_fault (tick s)); [done|]);
        (destruct (first_row _ _ _) as [w0|] eqn:Ef in E1; [done|]);
        rewrite first_row_none in Ef; specialize (Ef w Hin); simpl in Ef; congruence. }
    simpl in Hr. rewrite Hr. unfold abs at 1. rewrite lookup_fmap, Hn. simpl. f_equal.
    unfold abs. simpl. rewrite fmap_insert. done.
Qed.

End refinement.

(** * Examples *)

Section demo.
#[local] Existing Instance calm_env.
#[local] Existing Instance demo_lib.

(** User 1234567 requests a withdrawal of 2000 and a fee of 100. *)
Lemma demo_holds : exists o, perform (CallCreateWithdraw (demo_request 1001 2000 100)) demo_5 = (Ok o, demo_6).
Proof. eexists. vm_compute. reflexivity. Qed.

Lemma demo_5_inv : pay_inv (db demo_5).
Proof.
  apply (reachable_inv (X := unit) (ENV := calm_env) tt). etransitivity; [exact demo_reachable_3|].
  eapply rtc_l; [eapply (step_deduct 1001 700 "bot_1" "ref" "" demo_3 _ demo_4);
    [vm_compute; discriminate|vm_compute; reflexivity]|].
  eapply rtc_l; [eapply (step_transfer 1001 1004 1000 "gift" demo_4 _ demo_5);
    [vm_compute; discriminate|vm_compute; reflexivity]|]. apply rtc_refl.
Qed.

End demo.
