(* ===== verification/PayKeyboards.v ===== *)
(** botpay/internal/tgbot/keyboards.go: the buttons of every keyboard, and that
    the callback router understands each of them. *)
From S2P Require Import Prelude GoInt GoFloat GoString GoText Bus Effects PayModels PayChain PayStore.
From S2P Require Import Consensus ConsensusSpec Localization WalletService WalletServiceSpec PayBot.

(** A button of telebot: a text that the user sends, a link, or callback data. *)
Inductive Button :=
| BText (label : Text)
| BURL (label : Text) (url : string)
| BData (label : Text) (unique : string).

Definition KBtnOpenWallet := "btn.open_wallet".
Definition KBtnCheckDeposit := "btn.check_deposit".
Definition KBtnAdminWithdraws := "btn.admin_withdraws".
Definition KBtnAdminCredit := "btn.admin_credit".
Definition KBtnAdminRefresh := "btn.admin_refresh".
Definition KBtnAdminBack := "btn.admin_back".

Definition native_name (l : Lang) : string :=
  match l with FA => "🇮🇷 فارسی" | EN => "🇬🇧 English" end%string.

(** What telebot puts on the wire for a data button: a form feed and its unique name. *)
Definition wire_data (unique : string) : string := String (ascii_of_nat 12) unique.

Section layouts.
Context {ENV : Env} {LIB : Lib} {CRYPTO : Crypto} {LOC : Locales} {FP : F64Platform} {UUID : UuidParser}.
Context (ownerID : Z) (defaultLang : Lang).
Abbreviation BM := (M Tables (WS * BotState)).

Definition label (lang : Lang) (key : string) : Text := T lang key [].

Definition withdraw_row (id : uuid) : list Button :=
  let id := uuid_String id in
  let short := if 6 <? strlen id then substring 0 6 id else id in
  [BData (Plain ("✅ " +:+ short)) ("wd:approve:" +:+ id);
   BData (Plain ("🚫 " +:+ short)) ("wd:reject:" +:+ id)].

(** The rows of each keyboard, as keyboards.go builds them. *)
Definition layout (kb : Keyboard) : list (list Button) :=
  match kb with
  | NoKeyboard => []
  | kbMain lang =>
      [[BText (label lang KBtnWallet)];
       [BText (label lang KBtnDeposit); BText (label lang KBtnWithdraw)];
       [BText (label lang KBtnTransfer); BText (label lang KBtnHistory)];
       [BText (label lang KBtnHelp); BText (label lang KBtnLanguage)]]
  | kbCancelOnly lang => [[BText (label lang KBtnCancel)]]
  | kbLanguage => map (fun l => [BData (Plain (native_name l)) ("set_lang:" +:+ lang_code l)]) supported
  | kbDeposit lang payURL code =>
      [[BURL (label lang KBtnOpenWallet) payURL];
       [BData (label lang KBtnCheckDeposit) ("check_deposit:" +:+ code)]]
  | kbAdminMenu lang =>
      [[BData (label lang KBtnAdminWithdraws) "adm:withdraws"];
       [BData (label lang KBtnAdminCredit) "adm:credit"; BData (label lang KBtnAdminRefresh) "adm:stats"]]
  | kbWithdrawList lang ids =>
      map withdraw_row ids ++ [[BData (label lang KBtnAdminBack) "adm:menu"]]
  end.

(** * What the buttons are for *)

Inductive Action :=
| CheckDepositOf (code : string) | ChooseLang (l : Lang)
| Panel | WithdrawList | StartCredit | StartApprove (id : uuid) | StartReject (id : uuid).

Definition act (c : Update) (a : Action) : BM unit :=
  match a with
  | CheckDepositOf code => onCheckDeposit defaultLang c code
  | ChooseLang l => onSetLang c (lang_code l)
  | Panel => onAdminHome defaultLang c
  | WithdrawList => onAdminWithdrawsList defaultLang c
  | StartCredit => onAdminCreditStart defaultLang c
  | StartApprove id => onAdminApproveStart defaultLang c (uuid_String id)
  | StartReject id => onAdminRejectStart defaultLang c (uuid_String id)
  end.

Definition owners_only (a : Action) : bool :=
  match a with CheckDepositOf _ | ChooseLang _ => false | _ => true end.

(** The action of each data button, in the layout's order. *)
Definition purpose (kb : Keyboard) : list Action :=
  match kb with
  | NoKeyboard | kbMain _ | kbCancelOnly _ => []
  | kbLanguage => map ChooseLang supported
  | kbDeposit _ _ code => [CheckDepositOf code]
  | kbAdminMenu _ => [WithdrawList; StartCredit; Panel]
  | kbWithdrawList _ ids => concat (map (fun id => [StartApprove id; StartReject id]) ids) ++ [Panel]
  end.

Definition data_of (b : Button) : list string := match b with BData _ u => [u] | _ => [] end.
Definition data_buttons (kb : Keyboard) : list string := concat (map data_of (concat (layout kb))).

(** A text the callback format can carry as one field. *)
Definition one_field (s : string) : Prop := Split ":" s = [s].

(** Pressing a button runs its action, then ends the query; the owner's
    actions do nothing for anybody else. *)
Definition performs (unique : string) (a : Action) : Prop :=
  forall c s, CallbackData c = wire_data unique ->
  onCallback ownerID defaultLang c s =
  (r <- try (if owners_only a && negb (isAdmin ownerID c) then ret tt else act c a) ;;
   try (answer (Sender c) (Respond None)) ;;
   match r with Ok _ => ret tt | Err e => throw e end)%eff s.


Lemma performs_of unique parts a :
  Split ":" unique = parts ->
  (forall c, (let action := match parts with p :: _ => p | [] => ""%string end in
    let arg := match parts with _ :: p :: _ => p | _ => ""%string end in
    if (action =? "check_deposit")%string then onCheckDeposit defaultLang c arg
    else if (action =? "set_lang")%string then onSetLang c arg
    else if (action =? "adm")%string then onAdminCallback ownerID defaultLang c arg
    else if (action =? "wd")%string then onWithdrawCallback ownerID defaultLang c arg parts
    else ret tt) = (if owners_only a && negb (isAdmin ownerID c) then ret tt else act c a)) ->
  performs unique a.
Proof.
  intros Hp H c s Hc. unfold onCallback. rewrite Hc.
  replace (TrimPrefix (wire_data unique) _) with unique; [by rewrite Hp, H|].
  symmetry. apply (TrimPrefix_app (String (ascii_of_nat 12) "")).
Qed.

Lemma split_field p s : Split ":" p = [p] -> Split ":" (p +:+ String ":" s) = p :: Split ":" s.
Proof.
  induction p as [|d p IH]; [done|]. simpl.
  destruct (Ascii.eqb d ":"); [done|]. destruct (Split ":" p) as [|w ws] eqn:E; [by destruct (Split_nonempty ":" p)|].
  intros [= -> ->]. simpl. by rewrite IH.
Qed.

Lemma split_two p s : one_field p -> one_field s -> Split ":" (p +:+ String ":" s) = [p; s].
Proof. intros Hp Hs. by rewrite split_field, Hs. Qed.

Lemma split_three p q s :
  one_field p -> one_field q -> one_field s -> Split ":" (p +:+ String ":" (q +:+ String ":" s)) = [p; q; s].
Proof. intros Hp Hq Hs. by rewrite split_field, split_two. Qed.

Lemma performs_code code : one_field code -> performs ("check_deposit:" +:+ code) (CheckDepositOf code).
Proof. intros H. eapply performs_of; [by apply (split_two "check_deposit")|done]. Qed.

Lemma performs_withdraw id :
  one_field (uuid_String id) ->
  performs ("wd:approve:" +:+ uuid_String id) (StartApprove id) /\
  performs ("wd:reject:" +:+ uuid_String id) (StartReject id).
Proof.
  intros H. split; (eapply performs_of; [by first [apply (split_three "wd" "approve")|apply (split_three "wd" "reject")]|]);
    intros c; cbn; unfold onWithdrawCallback; by destruct (isAdmin ownerID c).
Qed.

Lemma performs_panel unique sub a :
  Split ":" unique = ["adm"; sub]%string -> owners_only a = true ->
  (forall c, isAdmin ownerID c = true -> onAdminCallback ownerID defaultLang c sub = act c a) ->
  performs unique a.
Proof.
  intros Hs Ho H. eapply performs_of; [exact Hs|]. intros c. cbn. rewrite Ho. cbn.
  destruct (isAdmin ownerID c) eqn:E; cbn; [auto|]. unfold onAdminCallback. by rewrite E.
Qed.

Lemma data_buttons_withdraws lang ids :
  data_buttons (kbWithdrawList lang ids) =
  concat (map (fun id => ["wd:approve:" +:+ uuid_String id; "wd:reject:" +:+ uuid_String id]) ids) ++ ["adm:menu"].
Proof.
  unfold data_buttons. cbn [layout]. rewrite concat_app, map_app, concat_app. f_equal.
  induction ids as [|id ids IH]; [done|]. simpl. do 2 f_equal. exact IH.
Qed.

(** Every data button of every keyboard is understood: pressing it runs
    exactly the action it stands for (only the owner's press, for the panel)
    and then ends the callback query, for any invoice code and request
    identifier without a colon. *)
Theorem buttons_reach_handlers kb :
  match kb with
  | kbDeposit _ _ code => one_field code
  | kbWithdrawList _ ids => Forall (fun id => one_field (uuid_String id)) ids
  | _ => True
  end ->
  Forall2 performs (data_buttons kb) (purpose kb).
Proof.
  assert (Hp : forall l sub a, Split ":" l = ["adm"; sub]%string -> owners_only a = true ->
    (forall c, isAdmin ownerID c = true -> onAdminCallback ownerID defaultLang c sub = act c a) ->
    performs l a) by exact performs_panel.
  assert (Ha : forall c, isAdmin ownerID c = true -> onAdminCallback ownerID defaultLang c =
    fun sub => if (sub =? "stats")%string || (sub =? "menu")%string then onAdminHome defaultLang c
      else if (sub =? "withdraws")%string then onAdminWithdrawsList defaultLang c
      else if (sub =? "credit")%string then onAdminCreditStart defaultLang c else ret tt).
  { intros c E. unfold onAdminCallback. by rewrite E. }
  destruct kb; intros H; try (by constructor).
  - change (Forall2 performs ["set_lang:fa"; "set_lang:en"]%string [ChooseLang FA; ChooseLang EN]).
    repeat constructor; (eapply performs_of; [reflexivity|done]).
  - change (Forall2 performs ["check_deposit:" +:+ code] [CheckDepositOf code]).
    constructor; [by apply performs_code|constructor].
  - change (Forall2 performs ["adm:withdraws"; "adm:credit"; "adm:stats"]%string [WithdrawList; StartCredit; Panel]).
    constructor; [|constructor; [|constructor; [|constructor]]];
      (eapply Hp; [reflexivity|reflexivity|intros c E; by rewrite Ha]).
  - rewrite data_buttons_withdraws. cbn [purpose]. apply Forall2_app.
    + induction H as [|id ids Hid _ IH]; [constructor|]. destruct (performs_withdraw id Hid).
      simpl. constructor; [done|constructor; [done|exact IH]].
    + constructor; [|constructor]. eapply Hp; [reflexivity|reflexivity|intros c E; by rewrite Ha].
Qed.
End layouts.

(** * Example: two pending requests *)

Section demo.
#[local] Existing Instance calm_env.
#[local] Existing Instance demo_lib.
#[local] Existing Instance demo_crypto.
#[local] Existing Instance demo_locales.
#[local] Existing Instance amd64.

(** Decimal numbers as request ids. *)
Definition button_uuids : UuidParser := {| uuid_Parse := fun s => Z.to_N <$> ParseInt 10 s |}.
#[local] Existing Instance button_uuids.

Lemma buttons_reach_handlers_witness :
  performs 7 FA ("wd:approve:" +:+ uuid_String 42) (StartApprove 42) /\
  performs 7 FA ("wd:reject:" +:+ uuid_String 1001) (StartReject 1001) /\
  performs 7 FA "adm:menu" Panel.
Proof.
  assert (H : Forall (fun id => one_field (uuid_String id)) [42%N; 1001%N]).
  { constructor; [reflexivity|constructor; [reflexivity|constructor]]. }
  pose proof (buttons_reach_handlers 7 FA (kbWithdrawList EN [42%N; 1001%N]) H) as F.
  pose proof (Forall2_lookup_lr _ _ _ 0 _ _ F eq_refl eq_refl) as H1.
  pose proof (Forall2_lookup_lr _ _ _ 3 _ _ F eq_refl eq_refl) as H2.
  pose proof (Forall2_lookup_lr _ _ _ 4 _ _ F eq_refl eq_refl) as H3.
  split; [exact H1|split; [exact H2|exact H3]].
Defined.
End demo.
