(* ===== verification/License.v ===== *)
(** license-service: the licence of every bot instance — issuing, check-ins
    with detection of clones, revocation — and its request interface. *)
From S2P Require Import Prelude GoInt GoFloat GoString Effects PayModels PayChain Consensus Auth PayResponder.

(** * Rows (internal/store/models.go) *)

Record License := {
  l_ID : uuid; l_BotID : Z; l_InstanceID : string; l_OwnerID : string; l_PlanID : string;
  l_TokenHash : string; l_KnownServerID : string; l_Status : string; l_RevokedReason : string;
  l_ExpiresAt : option Z;       (* time.Unix(sec, 0) *)
  l_LastCheckinAt : option Z;   (* Unix nanoseconds *)
  l_LastServerSeen : string; l_CloneFlagCount : Z;
}.

(** The licenses table; bot_id has a unique index. *)
Abbreviation Licenses := (gmap uuid License).

(** t.After(time.Unix(sec, 0)) for a clock reading [n] in Unix nanoseconds:
    package time compares the seconds since year 1 in int64. *)
Definition unixToInternal : Z := 62135596800.
Definition After (n sec : Z) : bool :=
  let t := i64_add (n / 1000000000) unixToInternal in
  let u := i64_add sec unixToInternal in
  (u <? t) || ((t =? u) && (0 <? n mod 1000000000)).

Definition LicenseActive : string := "active".
Definition LicenseRevoked : string := "revoked".
Definition LicenseExpired : string := "expired".

(** * Messages (shared-core/protocol) *)

Record LicenseIssueRequest := {
  li_ServiceID : string; li_ServiceKey : string; li_BotID : Z; li_InstanceID : string;
  li_OwnerID : string; li_ServerID : string; li_PlanID : string; li_ExpiresAt : Z;
}.
Record LicenseIssueResponse := { lir_Success : bool; lir_Token : string; lir_Error : ErrorText }.
Record LicenseVerifyRequest := { lv_BotID : Z; lv_Token : string; lv_ServerID : string }.
Record LicenseVerifyResponse := {
  lvr_Valid : bool; lvr_Status : string; lvr_CloneWarning : bool; lvr_Error : ErrorText;
}.
Record LicenseRevokeRequest := { lr_ServiceID : string; lr_ServiceKey : string; lr_BotID : Z; lr_Reason : string }.
Record LicenseRevokeResponse := { lrr_Success : bool; lrr_Error : ErrorText }.
Record LicenseCloneDetectedEvent := {
  lc_BotID : Z; lc_InstanceID : string; lc_KnownServerID : string; lc_UnexpectedServer : string; lc_DetectedAt : Z;
}.

Class LicenseJson := {
  unmarshal_Issue : string -> option LicenseIssueRequest;
  unmarshal_Verify : string -> option LicenseVerifyRequest;
  unmarshal_Revoke : string -> option LicenseRevokeRequest;
}.

(** * The service *)

Record LicenseService := {
  ls_signingSecret : string; ls_tokenTTL : Z; ls_nc : bool; ls_events : list LicenseCloneDetectedEvent;
}.

Definition New (signingSecret : string) (tokenTTL : Z) (nc : bool) : LicenseService :=
  {| ls_signingSecret := signingSecret;
     ls_tokenTTL := if tokenTTL <=? 0 then 3600000000000 * 24 * 365 * 10 else tokenTTL;
     ls_nc := nc; ls_events := [] |}.

Section license.
Context {ENV : Env} {LIB : Lib} {CRYPTO : Crypto} {JWT : Jwt} {JSON : LicenseJson}.
Abbreviation LM := (M Licenses LicenseService).

(** ** internal/store/store.go *)

(** INSERT INTO licenses: id and bot_id are unique. *)
Definition insert_license (l : License) (d : Licenses) : result Licenses :=
  if bool_decide (is_Some (d !! l_ID l)) then Err (ErrDuplicatedKey "licenses_pkey")
  else if existsb (fun x => l_BotID x =? l_BotID l) (rows d) then Err (ErrDuplicatedKey "idx_licenses_bot_id")
  else Ok (<[l_ID l := l]> d).

(** gorm's Save writes every column of the row with this id, or inserts it. *)
Definition save_license (l : License) (d : Licenses) : result Licenses :=
  if existsb (fun x => (l_BotID x =? l_BotID l) && negb (l_ID x =? l_ID l)%N) (rows d)
  then Err (ErrDuplicatedKey "idx_licenses_bot_id")
  else Ok (<[l_ID l := l]> d).

Definition set_revoked (reason : string) (l : License) : License :=
  {| l_ID := l_ID l; l_BotID := l_BotID l; l_InstanceID := l_InstanceID l; l_OwnerID := l_OwnerID l;
     l_PlanID := l_PlanID l; l_TokenHash := l_TokenHash l; l_KnownServerID := l_KnownServerID l;
     l_Status := LicenseRevoked; l_RevokedReason := reason; l_ExpiresAt := l_ExpiresAt l;
     l_LastCheckinAt := l_LastCheckinAt l; l_LastServerSeen := l_LastServerSeen l;
     l_CloneFlagCount := l_CloneFlagCount l |}.

Definition Create (l : License) : LM unit := exec (insert_license l).
Definition Save (l : License) : LM unit := exec (save_license l).

Definition find_bot (botID : Z) (d : Licenses) : option License :=
  first_row l_ID (fun l => l_BotID l =? botID) (rows d).

Definition FindByBotID (botID : Z) : LM (option License) :=
  (r <- try (first (find_bot botID)) ;;
   match r with
   | Ok l => ret (Some l)
   | Err ErrRecordNotFound => ret None
   | Err e => throw e
   end)%eff.

Definition Store_Revoke (botID : Z) (reason : string) : LM unit :=
  exec (fun d => Ok ((fun l => if l_BotID l =? botID then set_revoked reason l else l) <$> d)).

(** ** internal/licensing/service.go *)

Definition hashToken (token : string) : string := HexEncode (sha256 token).

Definition reissued (l : License) (req : LicenseIssueRequest) (token : string) (expiresAt : option Z) : License :=
  {| l_ID := l_ID l; l_BotID := l_BotID l; l_InstanceID := li_InstanceID req; l_OwnerID := li_OwnerID req;
     l_PlanID := li_PlanID req; l_TokenHash := hashToken token; l_KnownServerID := li_ServerID req;
     l_Status := LicenseActive; l_RevokedReason := ""; l_ExpiresAt := expiresAt;
     l_LastCheckinAt := l_LastCheckinAt l; l_LastServerSeen := l_LastServerSeen l; l_CloneFlagCount := 0 |}.

Definition fresh_license (id : uuid) (req : LicenseIssueRequest) (token : string) (expiresAt : option Z) : License :=
  {| l_ID := id; l_BotID := li_BotID req; l_InstanceID := li_InstanceID req; l_OwnerID := li_OwnerID req;
     l_PlanID := li_PlanID req; l_TokenHash := hashToken token; l_KnownServerID := li_ServerID req;
     l_Status := LicenseActive; l_RevokedReason := ""; l_ExpiresAt := expiresAt;
     l_LastCheckinAt := None; l_LastServerSeen := ""; l_CloneFlagCount := 0 |}.

Definition Issue (req : LicenseIssueRequest) : LM string :=
  (x <- get_ext ;;
   token <- wrap_err "sign license token: %w"
     (signToken ("bot_" +:+ FormatInt 10 (li_BotID req)) "license" (ls_signingSecret x) (ls_tokenTTL x)) ;;
   existing <- FindByBotID (li_BotID req) ;;
   let expiresAt := if 0 <? li_ExpiresAt req then Some (li_ExpiresAt req) else None in
   match existing with
   | Some l => (Save (reissued l req token expiresAt) ;; ret token)
   | None => (id <- uuid_New ;; Create (fresh_license id req token expiresAt) ;; ret token)
   end)%eff.

(** License.IsActive reads the clock only when it needs it. *)
Definition IsActive (l : License) : LM bool :=
  if negb (l_Status l =? LicenseActive)%string then ret false
  else match l_ExpiresAt l with
  | None => ret true
  | Some t => (n <- now ;; ret (negb (After n t)))%eff
  end.

(** The row after a check-in at [n] from [server]. *)
Definition checked_in (l : License) (n : Z) (server : string) (clone : bool) : License :=
  {| l_ID := l_ID l; l_BotID := l_BotID l; l_InstanceID := l_InstanceID l; l_OwnerID := l_OwnerID l;
     l_PlanID := l_PlanID l; l_TokenHash := l_TokenHash l; l_KnownServerID := l_KnownServerID l;
     l_Status := l_Status l; l_RevokedReason := l_RevokedReason l; l_ExpiresAt := l_ExpiresAt l;
     l_LastCheckinAt := Some n; l_LastServerSeen := server;
     l_CloneFlagCount := if clone then i64_add (l_CloneFlagCount l) 1 else l_CloneFlagCount l |}.

Definition is_clone (l : License) (server : string) : bool :=
  negb (l_KnownServerID l =? "")%string && negb (server =? "")%string && negb (l_KnownServerID l =? server)%string.

Definition add_event (e : LicenseCloneDetectedEvent) (x : LicenseService) : LicenseService :=
  {| ls_signingSecret := ls_signingSecret x; ls_tokenTTL := ls_tokenTTL x; ls_nc := ls_nc x;
     ls_events := ls_events x ++ [e] |}.

(** PublishCore, when there is a connection; its error is dropped. *)
Definition publish_clone (e : LicenseCloneDetectedEvent) : LM unit := fun s =>
  if negb (ls_nc (ext s)) then (Ok tt, s)
  else match env_fault (tick s) with
  | Some _ => (Ok tt, bump s)
  | None => (Ok tt, mkSt (S (tick s)) (tx s) (db s) (add_event e (ext s)))
  end.

(** What Verify answers: valid, status, clone warning, error. *)
Abbreviation Verdict := (bool * string * bool * option error)%type.

(** Verify once the row has been read. *)
Definition Verify_found (req : LicenseVerifyRequest) (found : option License) : LM Verdict :=
  match found with
  | None => ret (false, LicenseExpired, false, Some (Errorf "license not found" []))
  | Some l =>
      if negb (hashToken (lv_Token req) =? l_TokenHash l)%string
      then ret (false, l_Status l, false, Some (Errorf "token mismatch" []))
      else
      (n <- now ;;
       let clone := is_clone l (lv_ServerID req) in
       let l' := checked_in l n (lv_ServerID req) clone in
       (if clone then publish_clone
          {| lc_BotID := lv_BotID req; lc_InstanceID := l_InstanceID l; lc_KnownServerID := l_KnownServerID l;
             lc_UnexpectedServer := lv_ServerID req; lc_DetectedAt := n / 1000000000 |}
        else ret tt) ;;
       try (Save l') ;;
       valid <- IsActive l' ;;
       let status := match l_ExpiresAt l with
         | Some t => if After n t then LicenseExpired else l_Status l
         | None => l_Status l
         end in
       ret (valid, status, clone, None))%eff
  end.

Definition Verify (req : LicenseVerifyRequest) : LM Verdict :=
  (r <- try (FindByBotID (lv_BotID req)) ;;
   match r with
   | Err e => ret (false, ""%string, false, Some e)
   | Ok found => Verify_found req found
   end)%eff.

Definition Revoke (botID : Z) (reason : string) : LM unit := Store_Revoke botID reason.

(** ** internal/responder/responder.go *)

Context (serviceHMACSecret : string).

Definition authorizeService (serviceID serviceKey : string) : bool :=
  if (serviceHMACSecret =? "")%string then false
  else if (serviceID =? "agentmanager")%string || (serviceID =? "botmanager")%string
  then ValidateServiceKey serviceHMACSecret serviceID serviceKey
  else false.

Definition issue_refused (e : ErrorText) : LicenseIssueResponse :=
  {| lir_Success := false; lir_Token := ""; lir_Error := e |}.

Definition handleIssue (data : string) : LM LicenseIssueResponse :=
  match unmarshal_Issue data with
  | None => ret (issue_refused (Msg "bad request"))
  | Some req =>
      if negb (authorizeService (li_ServiceID req) (li_ServiceKey req)) then ret (issue_refused (Msg "unauthorized"))
      else if li_BotID req =? 0 then ret (issue_refused (Msg "bot_id required"))
      else
      (r <- try (Issue req) ;;
       match r with
       | Ok token => ret {| lir_Success := true; lir_Token := token; lir_Error := NoError |}
       | Err e => ret (issue_refused (ErrorOf e))
       end)%eff
  end.

Definition verify_refused (e : ErrorText) : LicenseVerifyResponse :=
  {| lvr_Valid := false; lvr_Status := ""; lvr_CloneWarning := false; lvr_Error := e |}.

Definition handleVerify (data : string) : LM LicenseVerifyResponse :=
  match unmarshal_Verify data with
  | None => ret (verify_refused (Msg "bad request"))
  | Some req =>
      if (lv_BotID req =? 0) || (lv_Token req =? "")%string then ret (verify_refused (Msg "bot_id and token required"))
      else
      ('(valid, status, clone, err) <- Verify req ;;
       ret (match err with
            | Some e => verify_refused (ErrorOf e)
            | None => {| lvr_Valid := valid; lvr_Status := status; lvr_CloneWarning := clone; lvr_Error := NoError |}
            end))%eff
  end.

Definition handleRevoke (data : string) : LM LicenseRevokeResponse :=
  match unmarshal_Revoke data with
  | None => ret {| lrr_Success := false; lrr_Error := Msg "bad request" |}
  | Some req =>
      if negb (authorizeService (lr_ServiceID req) (lr_ServiceKey req))
      then ret {| lrr_Success := false; lrr_Error := Msg "unauthorized" |}
      else
      (r <- try (Revoke (lr_BotID req) (lr_Reason req)) ;;
       ret (match r with
            | Ok _ => {| lrr_Success := true; lrr_Error := NoError |}
            | Err e => {| lrr_Success := false; lrr_Error := ErrorOf e |}
            end))%eff
  end.
End license.
