(* ===== verification/LicenseSpec.v ===== *)
(** Correctness of license-service: one licence per bot, what an issued token
    is worth, what a revocation achieves and how a concurrent check-in undoes it. *)
From S2P Require Import Prelude GoInt GoFloat GoString Effects PayModels PayChain Consensus Auth ConsensusSpec PayResponder License.

(** * The table *)

Record lic_ok (d : Licenses) : Prop := {
  lic_key : forall k l, d !! k = Some l -> l_ID l = k;
  lic_bot : forall k1 k2 l1 l2, d !! k1 = Some l1 -> d !! k2 = Some l2 -> l_BotID l1 = l_BotID l2 -> k1 = k2;
}.

Lemma lic_ok_empty : lic_ok ∅.
Proof. split; intros *; rewrite lookup_empty; done. Qed.

Lemma lic_ok_put d l :
  (forall k x, d !! k = Some x -> l_BotID x = l_BotID l -> k = l_ID l) -> lic_ok d -> lic_ok (<[l_ID l := l]> d).
Proof.
  intros Hu [Hk Hb]. split.
  - intros k x [[<- <-]|[_ H]]%lookup_insert_Some; [done|eauto].
  - intros k1 k2 x1 x2 [[<- <-]|[N1 H1]]%lookup_insert_Some [[<- <-]|[N2 H2]]%lookup_insert_Some E; eauto.
    symmetry; eauto.
Qed.

Lemma insert_license_ok l d d' :
  insert_license l d = Ok d' -> d !! l_ID l = None /\ d' = <[l_ID l := l]> d /\
  forall k x, d !! k = Some x -> l_BotID x <> l_BotID l.
Proof.
  unfold insert_license. destruct (bool_decide _) eqn:Ek; [done|]. destruct (existsb _ _) eqn:Eb; [done|].
  intros [= <-]. apply bool_decide_eq_false, eq_None_not_Some in Ek. split_and!; [done..|].
  intros k x Hx E. apply not_true_iff_false in Eb. apply Eb, existsb_exists. exists x.
  split; [apply list_elem_of_In, elem_of_rows; eauto|by apply Z.eqb_eq].
Qed.

Lemma save_license_ok l d d' :
  save_license l d = Ok d' -> lic_ok d -> d' = <[l_ID l := l]> d /\
  forall k x, d !! k = Some x -> l_BotID x = l_BotID l -> k = l_ID l.
Proof.
  unfold save_license. destruct (existsb _ _) eqn:Eb; [done|]. intros [= <-] I. split; [done|].
  intros k x Hx E. destruct (decide (k = l_ID l)) as [->|Hn]; [done|].
  exfalso. apply not_true_iff_false in Eb. apply Eb, existsb_exists. exists x.
  split; [apply list_elem_of_In, elem_of_rows; eauto|]. rewrite E, Z.eqb_refl. cbn.
  rewrite (lic_key _ I _ _ Hx). by destruct (N.eqb_spec k (l_ID l)).
Qed.

Lemma save_license_accepts l l0 d :
  lic_ok d -> d !! l_ID l = Some l0 -> l_BotID l = l_BotID l0 -> save_license l d = Ok (<[l_ID l := l]> d).
Proof.
  intros I H0 E. unfold save_license. destruct (existsb _ _) eqn:Eb; [|done].
  apply existsb_exists in Eb as (x & Hx & Hb). apply list_elem_of_In, elem_of_rows in Hx as [k Hx].
  destruct_hyps. zbool. assert (k = l_ID l) by (eapply lic_bot; eauto; congruence).
  rewrite (lic_key _ I _ _ Hx) in *. by destruct (N.eqb_spec k (l_ID l)).
Qed.

Lemma find_bot_some b d l : lic_ok d -> find_bot b d = Some l <-> d !! l_ID l = Some l /\ l_BotID l = b.
Proof.
  intros I. unfold find_bot. split.
  - intros H. apply first_row_some in H as [Hin Hp]. apply elem_of_rows in Hin as [k Hk]. zbool.
    split; [|done]. by rewrite (lic_key _ I _ _ Hk).
  - intros [Hk Hb]. destruct (first_row _ _ _) as [x|] eqn:E.
    + apply first_row_some in E as [Hin Hp]. apply elem_of_rows in Hin as [k Hx]. zbool.
      assert (k = l_ID l) as -> by (eapply lic_bot; eauto; congruence). congruence.
    + rewrite first_row_none in E. specialize (E l ltac:(apply elem_of_rows; eauto)). zbool. congruence.
Qed.

Definition revoke_bot (b : Z) (reason : string) (d : Licenses) : Licenses :=
  (fun l => if l_BotID l =? b then set_revoked reason l else l) <$> d.

Lemma lic_ok_revoke b reason d : lic_ok d -> lic_ok (revoke_bot b reason d).
Proof.
  intros [Hk Hb]. unfold revoke_bot. split.
  - intros k l (x & <- & Hx)%lookup_fmap_Some. destruct (_ =? _); simpl; eauto.
  - intros k1 k2 l1 l2 (x & <- & Hx)%lookup_fmap_Some (y & <- & Hy)%lookup_fmap_Some E.
    apply (Hb _ _ _ _ Hx Hy). by destruct (l_BotID x =? b), (l_BotID y =? b).
Qed.

Section spec.
Context {ENV : Env} {LIB : Lib} {CRYPTO : Crypto} {JWT : Jwt} {JSON : LicenseJson}.
Context (serviceHMACSecret : string).
Abbreviation LSt := (st Licenses LicenseService).
Implicit Types s : LSt.

(** * What the operations do to the table *)

Lemma reads_FindByBotID b : reads (X := LicenseService) (FindByBotID b).
Proof. unfold FindByBotID. reads_tac. Qed.

Lemma FindByBotID_ok b s r s' :
  FindByBotID b s = (Ok r, s') -> r = find_bot b (db s) /\ db s' = db s /\ tx s' = tx s.
Proof.
  unfold FindByBotID. intros H. apply bind_ok in H as (q & s1 & E & H). apply try_run in E as (q' & [= ->] & E).
  destruct q' as [l|e].
  - apply first_ok in E as (E & -> & _). injection H as <- <-. done.
  - destruct e; try done. injection H as <- <-. unfold first, stmt in E.
    destruct (tx s) eqn:Et; try done; (destruct (env_fault _); [done|]);
      (destruct (find_bot b (db s)) eqn:Ef; [done|]); injection E as <-; done.
Qed.

Lemma signToken_reads a b c d : reads (D := Licenses) (X := LicenseService) (signToken a b c d).
Proof. unfold signToken. reads_tac. Qed.

Lemma publish_clone_reads e : reads (publish_clone e).
Proof.
  intros s r s'. unfold publish_clone. destruct (negb _); [by intros [= _ <-]|].
  destruct (env_fault _); by intros [= _ <-].
Qed.

Lemma IsActive_reads l : reads (X := LicenseService) (IsActive l).
Proof. unfold IsActive. destruct (negb _); [apply reads_ret|]. destruct (l_ExpiresAt l); reads_tac. Qed.

Lemma IsActive_status l s v s' : IsActive l s = (Ok v, s') -> v = true -> l_Status l = LicenseActive.
Proof.
  unfold IsActive. destruct (negb _) eqn:E; [by intros [= <- _]|]. intros _ _. by zbool.
Qed.

(** A check-in writes back the row it read, with the check-in noted. *)
Lemma Verify_found_db req l s r s' :
  Verify_found req (Some l) s = (r, s') ->
  db s' = db s \/ exists n c, save_license (checked_in l n (lv_ServerID req) c) (db s) = Ok (db s').
Proof.
  unfold Verify_found. destruct (negb _); [intros [= _ <-]; by left|]. intros H.
  apply bind_run in H as (r1 & s1 & E1 & H). injection E1 as <- <-.
  apply bind_run in H as (r2 & s2 & E2 & H).
  assert (D2 : db s2 = db s).
  { destruct (is_clone _ _); [by apply publish_clone_reads in E2|by injection E2 as _ <-]. }
  destruct r2 as [u|e]; [|destruct H as [_ ->]; by left].
  apply bind_run in H as (r3 & s3 & E3 & H). apply try_run in E3 as (q & -> & E3).
  assert (D4 : db s' = db s3).
  { apply bind_run in H as (r4 & s4 & E4 & H). apply IsActive_reads in E4.
    destruct r4; [by injection H as _ <-|by destruct H as [_ ->]]. }
  rewrite D4. destruct q as [v|e]; [|apply stmt_err_db in E3 as [-> _]; by left].
  apply exec_ok in E3 as (d & Hd & -> & _). right. rewrite D2 in Hd. eauto.
Qed.

Lemma Verify_found_valid req f s v st c e s' :
  Verify_found req f s = (Ok (v, st, c, e), s') -> v = true ->
  exists l, f = Some l /\ l_Status l = LicenseActive /\ hashToken (lv_Token req) = l_TokenHash l.
Proof.
  destruct f as [l|]; simpl; [|by intros [= <-]]. destruct (negb _) eqn:Et; [by intros [= <-]|]. zbool.
  intros H Hv. do 3 (apply bind_ok in H as (? & ? & ? & H)). apply bind_ok in H as (v' & s4 & E & H).
  injection H as -> _. exists l. split_and!; try done. by apply IsActive_status in E.
Qed.

Lemma Verify_run req s r s' :
  Verify req s = (r, s') ->
  db s' = db s \/ exists l s1, FindByBotID (lv_BotID req) s = (Ok (Some l), s1) /\ Verify_found req (Some l) s1 = (r, s').
Proof.
  unfold Verify. intros H. apply bind_run in H as (r1 & s1 & E & H). apply try_run in E as (q & -> & E).
  pose proof (reads_FindByBotID _ _ _ _ E) as D. destruct q as [f|e].
  - destruct f as [l|]; [right; eauto|]. injection H as _ <-. by left.
  - injection H as _ <-. by left.
Qed.

Lemma checked_in_same l n sv c : l_ID (checked_in l n sv c) = l_ID l /\ l_BotID (checked_in l n sv c) = l_BotID l.
Proof. done. Qed.

(** Any check-in leaves the table as it is but for the row of its bot, whose
    owner, token and status stay. *)
Lemma Verify_table req s r s' :
  Verify req s = (r, s') -> lic_ok (db s) ->
  db s' = db s \/ exists l n c, find_bot (lv_BotID req) (db s) = Some l /\
    db s' = <[l_ID l := checked_in l n (lv_ServerID req) c]> (db s).
Proof.
  intros H I. apply Verify_run in H as [->|(l & s1 & E & H)]; [by left|].
  apply FindByBotID_ok in E as (E & D & _). apply Verify_found_db in H as [->|(n & c & H)]; [by left|].
  right. exists l, n, c. split; [done|]. rewrite D in H. by apply save_license_ok in H as [-> _].
Qed.

Lemma Issue_table req s r s' :
  Issue req s = (r, s') -> lic_ok (db s) ->
  db s' = db s \/ exists l, db s' = <[l_ID l := l]> (db s) /\ l_BotID l = li_BotID req /\
    (forall k x, db s !! k = Some x -> l_BotID x = l_BotID l -> k = l_ID l).
Proof.
  unfold Issue. intros H I.
  apply bind_run in H as (r0 & s0 & E0 & H). injection E0 as <- <-.
  apply bind_run in H as (r1 & s1 & E1 & H).
  apply (reads_wrap_err _ _ (signToken_reads _ _ _ _)) in E1. rewrite <- E1 in *.
  destruct r1 as [t|e]; [|destruct H as [_ ->]; by left].
  apply bind_run in H as (r2 & s2 & E2 & H). destruct r2 as [f|e].
  2: { destruct H as [_ ->]. apply reads_FindByBotID in E2. by left. }
  apply FindByBotID_ok in E2 as (Ef & D & _). rewrite <- D in *.
  destruct f as [l|].
  - symmetry in Ef. apply find_bot_some in Ef as [Hk Hb]; [|done].
    apply bind_run in H as (r3 & s3 & E3 & H). destruct r3 as [u|e].
    + injection H as _ <-. apply exec_ok in E3 as (d & Hd & -> & _). apply save_license_ok in Hd as [-> Hu]; [|done].
      right. eexists. by split_and!.
    + destruct H as [_ ->]. apply stmt_err_db in E3 as [-> _]. by left.
  - apply bind_run in H as (r3 & s3 & E3 & H). injection E3 as <- <-.
    apply bind_run in H as (r4 & s4 & E4 & H). destruct r4 as [u|e].
    + injection H as _ <-. apply exec_ok in E4 as (d & Hd & -> & _). apply insert_license_ok in Hd as (Hn & -> & Hu).
      right. eexists. split_and!; [reflexivity|done|]. intros k x Hx E. by apply Hu in Hx.
    + destruct H as [_ ->]. apply stmt_err_db in E4 as [-> _]. by left.
Qed.

Lemma Revoke_table b reason s r s' :
  Revoke b reason s = (r, s') -> match r with Ok _ => db s' = revoke_bot b reason (db s) | Err _ => db s' = db s end.
Proof.
  unfold Revoke, Store_Revoke. intros H. destruct r as [u|e]; [|by apply stmt_err_db in H as [-> _]].
  apply exec_ok in H as (d & [= <-] & -> & _). done.
Qed.

(** * Reachable tables *)

Inductive license_step s : LSt -> Prop :=
| step_issue data r s' : handleIssue serviceHMACSecret data s = (r, s') -> license_step s s'
| step_verify data r s' : handleVerify data s = (r, s') -> license_step s s'
| step_revoke data r s' : handleRevoke serviceHMACSecret data s = (r, s') -> license_step s s'.

(** The table changes by at most one issue, check-in or revocation, and only an
    authenticated request issues or revokes. *)
Lemma step_table s s' :
  license_step s s' ->
  db s' = db s \/
  (exists req r s0, db s0 = db s /\ li_BotID req <> 0 /\ Issue req s0 = (r, s')) \/
  (exists req r s0, db s0 = db s /\ Verify req s0 = (r, s')) \/
  (exists b reason r s0, db s0 = db s /\ Revoke b reason s0 = (r, s')).
Proof.
  intros [data r s1 H|data r s1 H|data r s1 H].
  - unfold handleIssue in H. destruct (unmarshal_Issue data) as [req|]; [|injection H as _ <-; by left].
    destruct (negb _); [injection H as _ <-; by left|]. destruct (_ =? 0) eqn:E0; [injection H as _ <-; by left|].
    zbool. apply bind_run in H as (r1 & s2 & E & H). apply try_run in E as (q & -> & E).
    right; left. destruct q; injection H as _ <-; exists req; eauto.
  - unfold handleVerify in H. destruct (unmarshal_Verify data) as [req|]; [|injection H as _ <-; by left].
    destruct (_ || _); [injection H as _ <-; by left|].
    apply bind_run in H as (r1 & s2 & E & H). right; right; left. exists req.
    destruct r1 as [[[[]]]|]; [injection H as _ <-|destruct H as [_ ->]]; eauto.
  - unfold handleRevoke in H. destruct (unmarshal_Revoke data) as [req|]; [|injection H as _ <-; by left].
    destruct (negb _); [injection H as _ <-; by left|].
    apply bind_run in H as (r1 & s2 & E & H). apply try_run in E as (q & -> & E).
    right; right; right. injection H as _ <-. eauto 6.
Qed.

Lemma step_lic_ok s s' : license_step s s' -> lic_ok (db s) -> lic_ok (db s').
Proof.
  intros H I. apply step_table in H as [->|[(req & r & s0 & D & _ & H)|[(req & r & s0 & D & H)|(b & why & r & s0 & D & H)]]];
    [done|rewrite <- D in I..].
  - apply Issue_table in H as [->|(l & -> & _ & Hu)]; auto. by apply lic_ok_put.
  - apply Verify_table in H as [->|(l & n & c & Hl & ->)]; auto. apply find_bot_some in Hl as [Hl _]; [|done].
    apply (lic_ok_put _ (checked_in l n _ c)); [|done]. intros k x Hx E. by apply (lic_bot _ I _ _ _ _ Hx Hl).
  - apply Revoke_table in H. destruct r; rewrite H; [by apply lic_ok_revoke|done].
Qed.

(** No license of the bot is active. *)
Definition out_of_service (b : Z) (d : Licenses) : Prop :=
  lic_ok d /\ forall k l, d !! k = Some l -> l_BotID l = b -> l_Status l <> LicenseActive.

Lemma Verify_out b req s r s' :
  Verify req s = (r, s') -> out_of_service b (db s) -> forall k l, db s' !! k = Some l -> l_BotID l = b -> l_Status l <> LicenseActive.
Proof.
  intros H [I O]. apply Verify_table in H as [->|(l0 & n & c & Hl & ->)]; [done| |done].
  apply find_bot_some in Hl as [Hl Hb]; [|done].
  intros k l [[<- <-]|[_ Hk]]%lookup_insert_Some E; [|eauto]. simpl in *. eauto.
Qed.

(** Requests other than issuing for the bot. *)
Inductive keeps_out (b : Z) s : LSt -> Prop :=
| ko_issue data r s' :
    (forall req, unmarshal_Issue data = Some req -> li_BotID req <> b) ->
    handleIssue serviceHMACSecret data s = (r, s') -> keeps_out b s s'
| ko_verify data r s' : handleVerify data s = (r, s') -> keeps_out b s s'
| ko_revoke data r s' : handleRevoke serviceHMACSecret data s = (r, s') -> keeps_out b s s'.

Lemma Issue_out b req s r s' :
  Issue req s = (r, s') -> li_BotID req <> b -> out_of_service b (db s) -> out_of_service b (db s').
Proof.
  intros H Hb [I O]. apply Issue_table in H as [->|(l & -> & El & Hu)]; [done| |done].
  split; [by apply lic_ok_put|]. intros k x [[<- <-]|[_ Hx]]%lookup_insert_Some E; [congruence|eauto].
Qed.

Lemma Revoke_out b b' why s r s' : Revoke b' why s = (r, s') -> out_of_service b (db s) -> out_of_service b (db s').
Proof.
  intros H [I O]. apply Revoke_table in H. destruct r; rewrite H; [|done].
  split; [by apply lic_ok_revoke|]. unfold revoke_bot. intros k x (y & <- & Hy)%lookup_fmap_Some E.
  destruct (_ =? _); simpl in *; [discriminate|eauto].
Qed.

Lemma keeps_out_step b s s' : keeps_out b s s' -> out_of_service b (db s) -> out_of_service b (db s').
Proof.
  intros H O. assert (Hst : license_step s s') by (destruct H; econstructor; eauto).
  pose proof (step_lic_ok _ _ Hst (proj1 O)) as I. destruct H as [data r s1 Hn H|data r s1 H|data r s1 H].
  - unfold handleIssue in H. destruct (unmarshal_Issue data) as [req|] eqn:Er; [|by injection H as _ <-].
    destruct (negb _); [by injection H as _ <-|]. destruct (_ =? 0); [by injection H as _ <-|].
    apply bind_run in H as (r1 & s2 & E & H). apply try_run in E as (q & -> & E).
    apply Issue_out with (b := b) in E; [|by apply Hn|done]. by destruct q; injection H as _ <-.
  - split; [done|]. unfold handleVerify in H. destruct (unmarshal_Verify data) as [req|]; [|injection H as _ <-; apply O].
    destruct (_ || _); [injection H as _ <-; apply O|].
    apply bind_run in H as (r1 & s2 & E & H). eapply Verify_out; [|exact O].
    destruct r1 as [[[[]]]|]; [injection H as _ <-|destruct H as [_ ->]]; exact E.
  - unfold handleRevoke in H. destruct (unmarshal_Revoke data) as [req|]; [|by injection H as _ <-].
    destruct (negb _); [by injection H as _ <-|].
    apply bind_run in H as (r1 & s2 & E & H). apply try_run in E as (q & -> & E).
    injection H as _ <-. by eapply Revoke_out.
Qed.

(** C15: After a successful revocation no check-in of the bot is answered as
    valid, whatever requests are served in between, one at a time, until
    somebody issues a license for that bot again. *)
Theorem revoked_stays_revoked b why s s1 s2 req v st c e s3 :
  lic_ok (db s) -> Revoke b why s = (Ok tt, s1) -> rtc (keeps_out b) s1 s2 ->
  lv_BotID req = b -> Verify req s2 = (Ok (v, st, c, e), s3) -> v = false.
Proof.
  intros I H Hs Hb Hv.
  assert (O : out_of_service b (db s1)).
  { apply Revoke_table in H. simpl in H. rewrite H. split; [by apply lic_ok_revoke|].
    intros k l (x & <- & Hx)%lookup_fmap_Some E. destruct (_ =? b) eqn:Eb; [done|]. zbool. simpl in *. congruence. }
  clear H. induction Hs as [s1|s1 s2' s2 Hk _ IH]; [|eauto using keeps_out_step].
  destruct v; [|done]. exfalso. destruct O as [O1 O2]. unfold Verify in Hv.
  apply bind_ok in Hv as (q & s4 & E & H). apply try_run in E as (q' & [= ->] & E). destruct q' as [f|er]; [|done].
  apply FindByBotID_ok in E as (-> & D & _).
  destruct (Verify_found_valid _ _ _ _ _ _ _ _ H eq_refl) as (l & Hf & Ha & _).
  apply find_bot_some in Hf as [Hk Hbl]; [|done]. rewrite Hb in Hbl. by apply (O2 _ _ Hk Hbl).
Qed.

(** A check-in whose token matches an active license without an end, when no
    statement fails. *)
Lemma Verify_found_quiet req l l0 s :
  lic_ok (db s) -> db s !! l_ID l = Some l0 -> l_BotID l = l_BotID l0 -> tx s = NoTx -> quiet_from (tick s) ->
  l_Status l = LicenseActive -> l_ExpiresAt l = None -> hashToken (lv_Token req) = l_TokenHash l ->
  exists n s', Verify_found req (Some l) s = (Ok (true, LicenseActive, is_clone l (lv_ServerID req), None), s') /\
    db s' = <[l_ID l := checked_in l n (lv_ServerID req) (is_clone l (lv_ServerID req))]> (db s) /\
    tx s' = NoTx /\ quiet_from (tick s').
Proof.
  intros I H0 Hb Ht Hq Ha He Hh. unfold Verify_found. rewrite (proj2 (String.eqb_eq _ _) Hh). cbn [negb].
  set (c := is_clone l _). set (n := env_now (tick s)). exists n.
  assert (Hpub : exists s2, (if c then publish_clone
      {| lc_BotID := lv_BotID req; lc_InstanceID := l_InstanceID l; lc_KnownServerID := l_KnownServerID l;
         lc_UnexpectedServer := lv_ServerID req; lc_DetectedAt := n / 1000000000 |} else ret tt) (bump s) = (Ok tt, s2) /\
      db s2 = db s /\ tx s2 = NoTx /\ (tick s <= tick s2)%nat).
  { destruct c; [|exists (bump s); simpl; auto]. unfold publish_clone. simpl.
    destruct (negb _); [exists (bump s); simpl; auto|]. rewrite (Hq (S (tick s))) by lia. eexists. split; [reflexivity|].
    simpl. auto. }
  destruct Hpub as (s2 & E2 & D2 & T2 & Hle).
  assert (Hsv : Save (checked_in l n (lv_ServerID req) c) s2 =
    (Ok tt, mkSt (S (tick s2)) (tx s2) (<[l_ID l := checked_in l n (lv_ServerID req) c]> (db s)) (ext s2))).
  { apply exec_quiet; [apply Hq; lia|congruence|]. rewrite D2. by apply (save_license_accepts (checked_in l n (lv_ServerID req) c) l0). }
  assert (Hact : IsActive (checked_in l n (lv_ServerID req) c) = @ret Licenses LicenseService _ true).
  { unfold IsActive. cbn [checked_in l_Status l_ExpiresAt]. by rewrite Ha, He. }
  eexists. split.
  - unfold bind at 1, now. fold n. unfold bind at 1. rewrite E2. unfold bind at 1, try. rewrite Hsv.
    rewrite Hact. unfold bind, ret. rewrite He, Ha. reflexivity.
  - split_and!; try done. intros k Hk. simpl in Hk. apply Hq. lia.
Qed.

Lemma FindByBotID_quiet b s :
  tx s = NoTx -> quiet_from (tick s) -> FindByBotID b s = (Ok (find_bot b (db s)), bump s).
Proof.
  intros Ht Hq. unfold FindByBotID. erewrite bind_intro; [reflexivity| |].
  - apply try_intro. rewrite first_quiet; [reflexivity|by apply Hq|congruence].
  - by destruct (find_bot b (db s)).
Qed.

Lemma revoke_bot_lookup b why d l :
  d !! l_ID l = Some l -> l_BotID l = b -> revoke_bot b why d !! l_ID l = Some (set_revoked why l).
Proof. intros H E. unfold revoke_bot. rewrite lookup_fmap, H. simpl. by rewrite E, Z.eqb_refl. Qed.

(** A check-in that read the row before a revocation and writes it back
    after it undoes the revocation: the whole row is saved, so the license is
    active again and the check-in, and every later one, is answered as valid. *)
Theorem verify_undoes_revoke b why req l s s1 s2 r s3 :
  lic_ok (db s) -> tx s = NoTx -> lv_BotID req = b ->
  FindByBotID b s = (Ok (Some l), s1) -> l_Status l = LicenseActive -> l_ExpiresAt l = None ->
  hashToken (lv_Token req) = l_TokenHash l ->
  Revoke b why s1 = (Ok tt, s2) -> quiet_from (tick s2) ->
  Verify_found req (Some l) s2 = (r, s3) ->
  l_Status <$> find_bot b (db s2) = Some LicenseRevoked /\
  l_Status <$> find_bot b (db s3) = Some LicenseActive /\
  (exists c, r = Ok (true, LicenseActive, c, None)) /\
  forall s4 v st c e s5, db s4 = db s3 -> quiet_from (tick s4) -> tx s4 = NoTx ->
    Verify req s4 = (Ok (v, st, c, e), s5) -> v = true.
Proof.
  intros I Ht Hreq Hf Ha He Hh Hr Hq Hv.
  apply FindByBotID_ok in Hf as (Hf & D1 & T1). symmetry in Hf. apply find_bot_some in Hf as [Hk Hb]; [|done].
  assert (T2 : tx s2 = NoTx).
  { unfold Revoke, Store_Revoke in Hr. apply exec_ok in Hr as (? & _ & -> & _). simpl. congruence. }
  apply Revoke_table in Hr. rewrite D1 in Hr. pose proof (lic_ok_revoke b why _ I) as I2. rewrite <- Hr in I2.
  pose proof (revoke_bot_lookup b why _ _ Hk Hb) as Hk2. rewrite <- Hr in Hk2.
  destruct (Verify_found_quiet req l (set_revoked why l) s2) as (n & s3' & E & D3 & T3 & Q3); try done.
  rewrite E in Hv. injection Hv as <- <-. set (l' := checked_in l n _ _) in *.
  assert (I3 : lic_ok (db s3')).
  { rewrite D3. apply (lic_ok_put _ l'); [|done]. intros k x Hx Ex. by apply (lic_bot _ I2 _ _ _ _ Hx Hk2). }
  assert (Hf3 : find_bot b (db s3') = Some l').
  { apply find_bot_some; [done|]. split; [|done]. rewrite D3. apply lookup_insert_eq. }
  split_and!.
  - rewrite (proj2 (find_bot_some b _ (set_revoked why l) I2)); done.
  - rewrite Hf3. simpl. by rewrite Ha.
  - eauto.
  - intros s4 v st c e s5 D4 Q4 T4 H4. unfold Verify in H4. rewrite Hreq in H4.
    apply bind_ok in H4 as (q & s6 & E6 & H4). unfold try in E6. rewrite FindByBotID_quiet in E6 by done.
    injection E6 as <- <-. rewrite D4, Hf3 in H4.
    destruct (Verify_found_quiet req l' l' (bump s4)) as (n' & s7 & E7 & _); simpl; try done.
    + by rewrite D4.
    + rewrite D4, D3. apply lookup_insert_eq.
    + intros k Hk'. simpl in Hk'. apply Q4. lia.
    + rewrite E7 in H4. by injection H4 as <-.
Qed.

(** * What an issued token is worth *)

Lemma Issue_ok req s token s' :
  Issue req s = (Ok token, s') -> lic_ok (db s) ->
  lic_ok (db s') /\ tx s' = tx s /\ exists l, find_bot (li_BotID req) (db s') = Some l /\
    l_BotID l = li_BotID req /\ l_TokenHash l = hashToken token /\ l_Status l = LicenseActive /\ l_KnownServerID l = li_ServerID req /\
    l_ExpiresAt l = (if 0 <? li_ExpiresAt req then Some (li_ExpiresAt req) else None).
Proof.
  intros H I. assert (I' : lic_ok (db s')).
  { destruct (Issue_table _ _ _ _ H I) as [->|(l & -> & _ & Hu)]; [done|by apply lic_ok_put]. }
  split; [done|]. unfold Issue in H.
  apply bind_ok in H as (x & s0 & E0 & H). injection E0 as <- <-.
  apply bind_ok in H as (t & s1 & E1 & H).
  assert (D1 : db s1 = db s /\ tx s1 = tx s).
  { split; [by apply (reads_wrap_err _ _ (signToken_reads _ _ _ _)) in E1|]. apply wrap_err_ok in E1.
    unfold signToken in E1. do 2 (apply bind_ok in E1 as (? & ? & Hn & E1); injection Hn as <- <-).
    destruct (SignedString _ _ _ _ _); [by injection E1 as <- <-|done]. }
  destruct D1 as [D1 T1]. clear E1.
  apply bind_ok in H as (f & s2 & E2 & H). apply FindByBotID_ok in E2 as (Ef & D2 & T2). rewrite D1 in *.
  destruct f as [l|].
  - symmetry in Ef. apply find_bot_some in Ef as [Hk Hb]; [|done].
    apply bind_ok in H as (u & s3 & E3 & H). injection H as -> <-. apply exec_ok in E3 as (d & Hd & -> & _).
    rewrite D2 in Hd. apply save_license_ok in Hd as [-> _]; [|done]. simpl in *. split; [congruence|].
    eexists. split; [apply find_bot_some; [done|]; split; [apply lookup_insert_eq|done]|]. done.
  - apply bind_ok in H as (id & s3 & E3 & H). injection E3 as <- <-.
    apply bind_ok in H as (u & s4 & E4 & H). injection H as -> <-. apply exec_ok in E4 as (d & Hd & -> & _).
    apply insert_license_ok in Hd as (_ & -> & _). simpl in *. split; [congruence|].
    eexists. split; [apply find_bot_some; [done|]; split; [apply lookup_insert_eq|done]|]. done.
Qed.


(** * Who may issue and revoke *)

Definition has_service_key (id key : string) : Prop :=
  serviceHMACSecret <> ""%string /\ (id = "agentmanager"%string \/ id = "botmanager"%string) /\
  key = ComputeServiceKey serviceHMACSecret id.

Lemma authorizeService_spec id key : authorizeService serviceHMACSecret id key = true -> has_service_key id key.
Proof.
  unfold authorizeService, has_service_key. destruct (_ =? "")%string eqn:Es; [done|].
  destruct (_ || _) eqn:Eid; [|done]. unfold ValidateServiceKey.
  match goal with |- (if ?c then _ else _) = _ -> _ => destruct c; [done|] end. intros H. zbool.
  split_and!; try done. apply orb_prop in Eid as [E|E]; zbool; auto.
Qed.

(** A license is issued or revoked only for the two central services with
    the key derived from the secret: any other request is refused and leaves
    the table alone. *)
Theorem licences_need_service_key data s :
  (forall r s', handleIssue serviceHMACSecret data s = (Ok r, s') -> lir_Success r = true \/ db s' <> db s ->
    exists req, unmarshal_Issue data = Some req /\ has_service_key (li_ServiceID req) (li_ServiceKey req)) /\
  (forall r s', handleRevoke serviceHMACSecret data s = (Ok r, s') -> lrr_Success r = true \/ db s' <> db s ->
    exists req, unmarshal_Revoke data = Some req /\ has_service_key (lr_ServiceID req) (lr_ServiceKey req)).
Proof.
  split; intros r s' H Hs; [unfold handleIssue in H; destruct (unmarshal_Issue data) as [req|]
                           |unfold handleRevoke in H; destruct (unmarshal_Revoke data) as [req|]];
    try (injection H as <- <-; by destruct Hs);
    (exists req; split; [done|]; apply authorizeService_spec);
    (destruct (authorizeService _ _ _); [done|]; injection H as <- <-; by destruct Hs).
Qed.
End spec.

(** * Example: bot 7 is licensed on server A *)

Section demo.
#[local] Existing Instance calm_env.
#[local] Existing Instance demo_lib.
#[local] Existing Instance demo_crypto.

Definition demo_jwt : Jwt :=
  {| SignedString := fun secret uid role exp iat => Ok (secret +:+ "." +:+ uid +:+ "." +:+ FormatInt 10 exp) |}.
#[local] Existing Instance demo_jwt.

Definition demo_issue : LicenseIssueRequest :=
  {| li_ServiceID := "botmanager"; li_ServiceKey := ComputeServiceKey "hmac" "botmanager"; li_BotID := 7;
     li_InstanceID := "bot_7"; li_OwnerID := "owner"; li_ServerID := "A"; li_PlanID := "plan"; li_ExpiresAt := 0 |}.

Definition demo_token : string := Eval vm_compute in
  match SignedString "key" "bot_7" "license" 3600 0 with Ok t => t | Err _ => "" end.

Definition demo_verify (server : string) : LicenseVerifyRequest :=
  {| lv_BotID := 7; lv_Token := demo_token; lv_ServerID := server |}.

Definition demo_json : LicenseJson := {|
  unmarshal_Issue := fun s => if (s =? "issue")%string then Some demo_issue else None;
  unmarshal_Verify := fun s => if (s =? "verify")%string then Some (demo_verify "B") else None;
  unmarshal_Revoke := fun s => if (s =? "revoke")%string
    then Some {| lr_ServiceID := "botmanager"; lr_ServiceKey := ""; lr_BotID := 7; lr_Reason := "end" |} else None;
|}.
#[local] Existing Instance demo_json.

Definition lic_0 : st Licenses LicenseService := init_st ∅ (New "key" 3600000000000 true).
Definition lic_1 : st Licenses LicenseService := Eval vm_compute in snd (Issue demo_issue lic_0).
Definition lic_2 : st Licenses LicenseService := Eval vm_compute in snd (Revoke 7 "end" lic_1).
Definition lic_3 : st Licenses LicenseService := Eval vm_compute in snd (handleVerify "verify" lic_2).
Definition lic_found : option License := Eval vm_compute in find_bot 7 (db lic_1).

Lemma lic_1_ok : Issue demo_issue lic_0 = (Ok demo_token, lic_1).
Proof. vm_compute. reflexivity. Qed.

Lemma lic_1_inv : lic_ok (db lic_1).
Proof. exact (proj1 (Issue_ok _ _ _ _ lic_1_ok lic_ok_empty)). Qed.


Lemma revoked_stays_revoked_witness : exists st c s, Verify (demo_verify "A") lic_3 = (Ok (false, st, c, None), s).
Proof.
  destruct (Verify (demo_verify "A") lic_3) as [[[[[v st] c] e]|e] s3] eqn:E; [|exfalso; vm_compute in E; discriminate E].
  assert (Hr : Revoke 7 "end" lic_1 = (Ok tt, lic_2)) by (vm_compute; reflexivity).
  assert (Hs : keeps_out "hmac" 7 lic_2 lic_3).
  { destruct (handleVerify "verify" lic_2) as [r s] eqn:Ev. apply (ko_verify _ _ _ "verify" r).
    vm_compute in Ev |- *. injection Ev as <- _. reflexivity. }
  pose proof (revoked_stays_revoked "hmac" 7 "end" lic_1 lic_2 lic_3 (demo_verify "A") v st c e s3
    lic_1_inv Hr (rtc_once _ _ Hs) eq_refl E) as ->.
  assert (e = None) as -> by (vm_compute in E; injection E as <- <- <- <-; reflexivity). eauto.
Defined.

Lemma verify_undoes_revoke_witness :
  exists l s1 s2 s3 c, FindByBotID 7 lic_1 = (Ok (Some l), s1) /\ Revoke 7 "end" s1 = (Ok tt, s2) /\
    Verify_found (demo_verify "A") (Some l) s2 = (Ok (true, LicenseActive, c, None), s3) /\
    l_Status <$> find_bot 7 (db s2) = Some LicenseRevoked /\
    l_Status <$> find_bot 7 (db s3) = Some LicenseActive.
Proof.
  destruct (FindByBotID 7 lic_1) as [[[l|]|e] s1] eqn:Ef; [|exfalso; vm_compute in Ef; discriminate Ef..].
  destruct (Revoke 7 "end" s1) as [[[]|e] s2] eqn:Er.
  2: { exfalso. vm_compute in Ef. injection Ef as <- <-. vm_compute in Er. discriminate Er. }
  destruct (Verify_found (demo_verify "A") (Some l) s2) as [r s3] eqn:Ev.
  assert (Hl : l_Status l = LicenseActive /\ l_ExpiresAt l = None /\ hashToken (lv_Token (demo_verify "A")) = l_TokenHash l).
  { vm_compute in Ef. injection Ef as <- <-. split_and!; vm_compute; reflexivity. }
  destruct Hl as (Ha & He & Hh).
  destruct (verify_undoes_revoke 7 "end" (demo_verify "A") l lic_1 s1 s2 r s3 lic_1_inv eq_refl eq_refl Ef Ha He Hh Er
    (calm_quiet _) Ev) as (H1 & H2 & (c & Hr) & _).
  exists l, s1, s2, s3, c. subst r. split_and!; done.
Defined.

Lemma licences_need_service_key_witness :
  has_service_key "hmac" (li_ServiceID demo_issue) (li_ServiceKey demo_issue).
Proof.
  destruct (handleIssue "hmac" "issue" lic_0) as [[r|e] s'] eqn:E; [|exfalso; vm_compute in E; discriminate E].
  destruct (proj1 (licences_need_service_key "hmac" "issue" lic_0) r s' E) as (req & [= <-] & H); [|exact H].
  left. vm_compute in E. injection E as <- _. reflexivity.
Defined.
End demo.
