(* ===== verification/PayClient.v ===== *)
(** shared-core/natspayclient: the client every service pays through, the
    request/reply exchange of shared/pkg/adapters/nats, and the interface that
    botpay offers to it. *)
From S2P Require Import Prelude GoInt GoFloat GoString Effects WalletService PayResponder.

(** * The interface *)

(** The subjects botpay answers on. [B] is the whole state of the server. *)
Class PayServer (B : Type) := {
  srv_balance : string -> B -> result BalanceResponse * B;
  srv_authorize : string -> B -> result AuthorizeResponse * B;
  srv_create_invoice : string -> B -> result InvoiceResponse * B;
  srv_invoice_status : string -> B -> result InvoiceStatusResponse * B;
  srv_deduct : string -> B -> result DeductResponse * B;
  srv_credit : string -> B -> result DeductResponse * B;
}.

(** A payment as the server remembers it. *)
Record Payment := { p_account : uuid; p_service : string; p_ref : string; p_amount : Z }.

Definition under (id : uuid) (sv ref : string) (p : Payment) : bool :=
  (p_account p =? id)%N && (p_service p =? sv)%string && (p_ref p =? ref)%string.

Section promise.
Context {B : Type} (paid : B -> list Payment) (funds : B -> uuid -> Z).

Definition unchanged (b b' : B) : Prop := paid b' = paid b /\ forall id, funds b' id = funds b id.

(** One new payment, under a reference that had none. *)
Definition charged (b b' : B) (id : uuid) (sv ref : string) (amt : Z) : Prop :=
  (ref = ""%string \/ Forall (fun p => under id sv ref p = false) (paid b)) /\
  paid b' = paid b ++ [{| p_account := id; p_service := sv; p_ref := ref; p_amount := amt |}] /\
  forall j, funds b' j = funds b j - (if (j =? id)%N then amt else 0).

Definition credited (b b' : B) (id : uuid) (amt : Z) : Prop :=
  paid b' = paid b /\ forall j, funds b' j = funds b j + (if (j =? id)%N then amt else 0).
End promise.

(** What the server promises: it always answers; a refusal changes nothing; a
    successful deduction was either paid before under its reference or is
    charged now; a successful credit is added. *)
Class PayPromise (B : Type) `{PS : PayServer B} `{JSON : Json} `{FP : F64Platform} := {
  srv_ok : B -> Prop;
  account : B -> Z -> option uuid;
  paid : B -> list Payment;
  funds : B -> uuid -> Z;
  promise_deduct : forall data b r b', srv_deduct data b = (r, b') -> srv_ok b -> srv_ok b' /\
    (forall u id, account b u = Some id -> account b' u = Some id) /\
    exists rs, r = Ok rs /\
    if drs_Success rs then drs_Error rs = NoError /\
      exists req id, unmarshal_DeductRequest data = Some req /\ account b' (TelegramID (dr_Pay req)) = Some id /\
        let sv := ServiceID (dr_Pay req) in let ref := effective_ref req in
        (Exists (fun p => under id sv ref p = true) (paid b) /\ unchanged paid funds b b') \/
        charged paid funds b b' id sv ref (TONToNano (dr_AmountTON req))
    else drs_Error rs <> NoError /\ unchanged paid funds b b';
  promise_credit : forall data b r b', srv_credit data b = (r, b') -> srv_ok b -> srv_ok b' /\
    (forall u id, account b u = Some id -> account b' u = Some id) /\
    exists rs, r = Ok rs /\
    if drs_Success rs then drs_Error rs = NoError /\
      exists req id, unmarshal_DeductRequest data = Some req /\
        (TelegramID (dr_Pay req) <> 0 -> account b' (TelegramID (dr_Pay req)) = Some id) /\
        credited paid funds b b' id (TONToNano (dr_AmountTON req))
    else drs_Error rs <> NoError /\ unchanged paid funds b b';
}.

(** json.Marshal of the requests ([None] is its error: a NaN or infinite amount). *)
Class JsonMarshal := {
  marshal_PayRequest : PayRequest -> option string;
  marshal_InvoiceRequest : InvoiceRequest -> option string;
  marshal_InvoiceStatusRequest : InvoiceStatusRequest -> option string;
  marshal_DeductRequest : DeductRequest -> option string;
}.

(** Documented behaviour of encoding/json on valid UTF-8 text: what is encoded
    decodes to the same request. *)
Class JsonLaws `{Json} `{JsonMarshal} := {
  deduct_round : forall req data, marshal_DeductRequest req = Some data -> unmarshal_DeductRequest data = Some req;
}.

(** * The client *)

Record ClientConfig := { cc_ServiceID : string; cc_ServiceKey : string }.

Record BalanceResp := {
  bal_TelegramID : Z; bal_TONBalance : float64; bal_Credit : float64; bal_Total : float64;
  bal_Frozen : float64; bal_TONAddress : string;
}.
Record ClientInvoice := { ci_Code : string; ci_MasterAddress : string; ci_AmountTON : float64; ci_ExpiresAt : Z }.
Record InvoiceStatusResult := {
  is_Status : InvoiceStatusText; is_AmountTON : float64; is_PaidTON : float64; is_ExpiresAt : Z;
}.

Definition ErrInsufficientBalance : error := Sentinel "natspayclient" "insufficient balance".
Definition IsInsufficientBalance (e : error) : bool := bool_decide (e = ErrInsufficientBalance).

(** The client's Redis entries of decoded balances, and the server behind the bus. *)
Record Remote (B : Type) := mkRemote { rm_server : B; rm_cache : option (gmap string BalanceResp) }.
Arguments mkRemote {B}.
Arguments rm_server {B}.
Arguments rm_cache {B}.

Section client.
Context {D X B : Type} {ENV : Env} {PS : PayServer B} {MARSHAL : JsonMarshal} (cfg : ClientConfig).
Abbreviation CM := (M D (X * Remote B)).

(** ** The exchange: QueueRespond on one side, Request on the other *)

(** A responder's own error is sent as an object with only the field error. *)
Definition reply {R} (on_error : error -> R) (r : result R) : R :=
  match r with Ok a => a | Err e => on_error e end.

(** The request may fail to reach the server, and the reply may fail to come
    back after the server has acted. *)
Definition Request {R} (subject : string) (payload : option string)
    (serve : string -> B -> result R * B) (on_error : error -> R) : CM R := fun s =>
  match payload with
  | None => (Err (Errorf "nats request: marshal: unsupported value" []), s)
  | Some data =>
      match env_fault (tick s) with
      | Some c => (Err (Wrapf "nats request %q: %w" [AStr subject] (ErrDriver c)), bump s)
      | None =>
          let (r, b) := serve data (rm_server (snd (ext s))) in
          let s' := mkSt (S (S (tick s))) (tx s) (db s) (fst (ext s), mkRemote b (rm_cache (snd (ext s)))) in
          match env_fault (S (tick s)) with
          | Some c => (Err (Wrapf "nats request %q: %w" [AStr subject] (ErrDriver c)), s')
          | None => (Ok (reply on_error r), s')
          end
      end
  end.

(** ** The cache; a failed or expired entry is a miss, other errors are dropped *)

Definition cacheKey (tgID : Z) : string := "wallet:" +:+ FormatInt 10 tgID.

Definition cache_Get (key : string) : CM (option BalanceResp) := fun s =>
  match rm_cache (snd (ext s)) with
  | None => (Ok None, s)
  | Some m => (Ok (match env_fault (tick s) with Some _ => None | None => m !! key end), bump s)
  end.

Definition cache_update (f : gmap string BalanceResp -> gmap string BalanceResp) : CM unit := fun s =>
  match rm_cache (snd (ext s)), env_fault (tick s) with
  | None, _ => (Ok tt, s)
  | Some _, Some _ => (Ok tt, bump s)
  | Some m, None =>
      (Ok tt, mkSt (S (tick s)) (tx s) (db s) (fst (ext s), mkRemote (rm_server (snd (ext s))) (Some (f m))))
  end.

(** resp.Error is the text that [ErrorText] stands for. *)
Definition pay_error (e : ErrorText) : error :=
  match e with
  | NoError => Errorf "pay: %s" [AStr ""]
  | Msg t => Errorf "pay: %s" [AStr t]
  | ErrorOf e => Wrapf "pay: %s" [] e
  end.

Definition base (tgID : Z) : PayRequest :=
  {| ServiceID := cc_ServiceID cfg; ServiceKey := cc_ServiceKey cfg; TelegramID := tgID |}.

(** ** Operations *)

Definition Balance (telegramID : Z) : CM BalanceResp :=
  (hit <- cache_Get (cacheKey telegramID) ;;
   match hit with
   | Some b => ret b
   | None =>
       resp <- Request "pay.balance" (marshal_PayRequest (base telegramID)) srv_balance
                 (fun e => balance_error (ErrorOf e)) ;;
       match br_Error resp with
       | NoError =>
           let b := {| bal_TelegramID := br_TelegramID resp; bal_TONBalance := br_TONBalance resp;
                       bal_Credit := br_Credit resp; bal_Total := br_Total resp; bal_Frozen := br_Frozen resp;
                       bal_TONAddress := br_TONAddress resp |} in
           (cache_update <[cacheKey telegramID := b]> ;; ret b)
       | e => throw (pay_error e)
       end
   end)%eff.

Definition Authorize (telegramID : Z) : CM bool :=
  (resp <- Request "pay.authorize" (marshal_PayRequest (base telegramID)) srv_authorize
             (fun e => {| ar_Authorized := false; ar_Error := ErrorOf e |}) ;;
   match ar_Error resp with NoError => ret (ar_Authorized resp) | e => throw (pay_error e) end)%eff.

Definition CreateInvoice (telegramID : Z) (amountTON : float64) (ref : string) : CM ClientInvoice :=
  (resp <- Request "pay.invoice.create"
             (marshal_InvoiceRequest {| ir_Pay := base telegramID; ir_AmountTON := amountTON; ir_Ref := ref |})
             srv_create_invoice (fun e => invoice_error (ErrorOf e)) ;;
   match irs_Error resp with
   | NoError => ret {| ci_Code := irs_Code resp; ci_MasterAddress := irs_MasterAddress resp;
                       ci_AmountTON := irs_AmountTON resp; ci_ExpiresAt := irs_ExpiresAt resp |}
   | e => throw (pay_error e)
   end)%eff.

Definition InvoiceStatus (telegramID : Z) (code : string) : CM InvoiceStatusResult :=
  (resp <- Request "pay.invoice.status"
             (marshal_InvoiceStatusRequest {| isr_Pay := base telegramID; isr_Code := code |})
             srv_invoice_status (fun e => status_error (ErrorOf e)) ;;
   match isp_Error resp with
   | NoError => ret {| is_Status := isp_Status resp; is_AmountTON := isp_AmountTON resp;
                       is_PaidTON := isp_PaidTON resp; is_ExpiresAt := isp_ExpiresAt resp |}
   | e => throw (pay_error e)
   end)%eff.

Definition deduct_request (telegramID : Z) (amountTON : float64) (reason idempotencyKey ref metadata : string)
  : DeductRequest :=
  {| dr_Pay := base telegramID; dr_AmountTON := amountTON; dr_Reason := reason; dr_Ref := ref;
     dr_Metadata := metadata; dr_IdempotencyKey := idempotencyKey |}.

Definition DeductWithMeta (telegramID : Z) (amountTON : float64) (reason idempotencyKey ref metadata : string)
  : CM float64 :=
  (resp <- Request "pay.deduct"
             (marshal_DeductRequest (deduct_request telegramID amountTON reason idempotencyKey ref metadata))
             srv_deduct (fun e => deduct_error (ErrorOf e) ErrCodeNone) ;;
   match drs_Error resp with
   | NoError => (cache_update (delete (cacheKey telegramID)) ;; ret (drs_NewBalance resp))
   | e => match drs_Code resp with
          | ErrCodeInsufficientBalance => throw ErrInsufficientBalance
          | _ => throw (pay_error e)
          end
   end)%eff.

Definition Deduct (telegramID : Z) (amountTON : float64) (reason idempotencyKey : string) : CM float64 :=
  DeductWithMeta telegramID amountTON reason idempotencyKey "" "".

(** %q of a plan id, which is a UUID, only adds the quotes. *)
Definition quote : string := String (ascii_of_nat 34) "".
Definition plan_meta (planID : string) : string :=
  "{" +:+ quote +:+ "plan_id" +:+ quote +:+ ":" +:+ quote +:+ planID +:+ quote +:+ "}".

Definition DeductForService (telegramID : Z) (amountTON : float64) (planID : string) : CM string :=
  let reason := "plan:" +:+ planID in
  (DeductWithMeta telegramID amountTON reason reason planID (plan_meta planID) ;; ret reason)%eff.

Definition Credit (telegramID : Z) (amountTON : float64) (ref metadata : string) : CM unit :=
  (resp <- Request "pay.credit"
             (marshal_DeductRequest
                {| dr_Pay := base telegramID; dr_AmountTON := amountTON; dr_Reason := ref; dr_Ref := ref;
                   dr_Metadata := metadata; dr_IdempotencyKey := "" |})
             srv_credit (fun e => deduct_error (ErrorOf e) ErrCodeNone) ;;
   match drs_Error resp with
   | NoError => cache_update (delete (cacheKey telegramID))
   | e => throw (pay_error e)
   end)%eff.

Definition RefundService (telegramID : Z) (amountTON : float64) (ref : string) : CM unit :=
  Credit telegramID amountTON ("refund:" +:+ ref) "".
End client.
