(* ===== verification/PayServerSpec.v ===== *)
(** botpay keeps the promise of the payment interface: its request handlers,
    behind the bus, implement what the clients rely on. *)
From S2P Require Import Prelude GoInt GoFloat GoString Effects PayModels PayChain PayStore PayInvariant PayStoreSpec.
From S2P Require Import Consensus Localization WalletService WalletServiceSpec PayResponder PayResponderSpec PayClient.

(** * Users keep their wallets *)

Definition tg_unique (d : Tables) : Prop :=
  forall k1 k2 w1 w2, wallets d !! k1 = Some w1 -> wallets d !! k2 = Some w2 ->
    w_TelegramID w1 = w_TelegramID w2 -> k1 = k2.

(** Distinct entries of a list whose images are distinct. *)
Lemma NoDup_image {A C} (f : A -> C) (l : list A) x y :
  NoDup (map f l) -> x ∈ l -> y ∈ l -> f x = f y -> x = y.
Proof.
  induction l as [|z l IH]; [set_solver|]. simpl. rewrite NoDup_cons. intros [Hn Hd].
  assert (Hf : forall v, v ∈ l -> f v <> f z).
  { intros v Hv E. apply Hn. rewrite <- E. apply list_elem_of_In, in_map. by apply list_elem_of_In. }
  intros [->|Hx]%elem_of_cons [->|Hy]%elem_of_cons E; auto; [by destruct (Hf y)|by destruct (Hf x)].
Qed.

Lemma tg_unique_check d : NoDup (map (fun kv => w_TelegramID kv.2) (map_to_list (wallets d))) -> tg_unique d.
Proof.
  intros H k1 k2 w1 w2 H1%elem_of_map_to_list H2%elem_of_map_to_list E.
  by pose proof (NoDup_image _ _ _ _ H H1 H2 E) as [= ? ?].
Qed.

Definition grows (d d' : Tables) : Prop :=
  (tg_unique d -> tg_unique d') /\
  forall id w, wallets d !! id = Some w -> exists w', wallets d' !! id = Some w' /\ w_TelegramID w' = w_TelegramID w.

#[export] Instance grows_preorder : PreOrder grows.
Proof.
  split.
  - intros d. split; eauto.
  - intros d1 d2 d3 [U1 G1] [U2 G2]. split; [auto|]. intros id w H.
    destruct (G1 _ _ H) as (w2 & H2 & E2). destruct (G2 _ _ H2) as (w3 & H3 & E3). exists w3. split; congruence.
Qed.

Lemma grows_same d d' : wallets d' = wallets d -> grows d d'.
Proof. intros E. unfold grows, tg_unique. rewrite E. eauto. Qed.

Lemma grows_put d d' id w w' :
  wallets d !! id = Some w -> w_TelegramID w' = w_TelegramID w -> wallets d' = <[id := w']> (wallets d) -> grows d d'.
Proof.
  intros Hw Et E. split.
  - intros U k1 k2 w1 w2. rewrite E.
    intros [[<- <-]|[_ H1]]%lookup_insert_Some [[<- <-]|[_ H2]]%lookup_insert_Some Ew; eauto; eapply U; eauto; congruence.
  - intros j v Hj. rewrite E. destruct (decide (j = id)) as [->|Hn].
    + exists w'. rewrite lookup_insert_eq. split; [done|]. congruence.
    + exists v. by rewrite lookup_insert_ne.
Qed.

Section grows.
Context {X : Type} {ENV : Env} {LIB : Lib}.

Lemma insert_wallet_grows w : moves grows (exec (X := X) (insert_wallet w)).
Proof.
  apply moves_exec; [typeclasses eauto|]. intros d d' H. unfold insert_wallet in H.
  destruct (bool_decide _) eqn:Hk in H; [done|]. destruct (existsb _ _) eqn:Ht in H; [done|].
  destruct (existsb _ _) in H; [done|]. injection H as <-. apply bool_decide_eq_false, eq_None_not_Some in Hk.
  assert (Hf : forall k v, wallets d !! k = Some v -> w_TelegramID v <> w_TelegramID w).
  { intros k v Hv E. apply not_true_iff_false in Ht. apply Ht, existsb_exists. exists v.
    split; [apply list_elem_of_In, elem_of_rows; eauto|by apply Z.eqb_eq]. }
  unfold grows, tg_unique. simpl. split.
  - intros U k1 k2 w1 w2 [[<- <-]|[_ H1]]%lookup_insert_Some [[<- <-]|[_ H2]]%lookup_insert_Some E; eauto.
    + by destruct (Hf _ _ H2).
    + by destruct (Hf _ _ H1).
  - intros id v Hv. exists v. rewrite lookup_insert_ne; [done|]. intros <-. congruence.
Qed.

Lemma add_balances_grows id a b c : moves grows (exec (X := X) (update_wallet id (add_balances a b c))).
Proof.
  apply moves_exec; [typeclasses eauto|]. intros d d' H. unfold update_wallet in H.
  destruct (wallets d !! id) as [w|] eqn:Hw; [|injection H as <-; reflexivity].
  destruct (add_balances a b c w) as [w'|] eqn:E; [|done]. injection H as <-.
  apply add_balances_some in E as [-> _]. eapply grows_put; [exact Hw| |reflexivity]; done.
Qed.

Lemma update_pay_handle_grows id h : moves grows (exec (X := X) (update_pay_handle id h)).
Proof.
  apply moves_exec; [typeclasses eauto|]. intros d d' H. unfold update_pay_handle in H.
  destruct (existsb _ _) in H; [done|]. unfold update_wallet in H.
  destruct (wallets d !! id) as [w|] eqn:Hw; injection H as <-; [|reflexivity]. eapply grows_put; [exact Hw| |reflexivity]; done.
Qed.

Lemma insert_transaction_grows u t : moves grows (exec (X := X) (insert_transaction u t)).
Proof.
  apply moves_exec; [typeclasses eauto|]. intros d d' H. unfold insert_transaction in H.
  destruct (_ && _) in H; [done|]. injection H as <-. by apply grows_same.
Qed.
End grows.

#[export] Hint Resolve insert_wallet_grows add_balances_grows update_pay_handle_grows insert_transaction_grows : moves.
#[export] Hint Resolve reads_first_opt reads_GetWallet reads_SendHTML reads_publish reads_guarded : botpay.

Section server.
Context {ENV : Env} {LIB : Lib} {CRYPTO : Crypto} {LOC : Locales} {JSON : Json} {FP : F64Platform}.
Context (secret : string) (orders : nat -> list (option nat)).

(** * The server *)

Abbreviation Botpay := (st Tables (WS * Cache)).

(** [orders] gives the order in which the workers' votes arrive. *)
#[export] Instance botpay_server : PayServer Botpay := {|
  srv_balance := handleBalance secret;
  srv_authorize := handleAuthorize secret;
  srv_create_invoice := handleCreateInvoice secret;
  srv_invoice_status := handleInvoiceStatus secret;
  srv_deduct := fun data b => handleDeduct secret (orders (tick b)) data b;
  srv_credit := handleCredit secret;
|}.

Lemma reads_writeBalanceCache w : reads (writeBalanceCache w).
Proof.
  unfold writeBalanceCache. apply reads_bind; [apply reads_get_ext|]. intros x. destruct (negb _); [apply reads_ret|].
  intros s r s' H. unfold cache_Set in H. destruct (env_fault _); by injection H as _ <-.
Qed.

Lemma GetOrCreate_grows tg : moves grows (GetOrCreate tg).
Proof. unfold GetOrCreate, GetOrCreateWallet. moves_tac. Qed.

Lemma Pay_grows order tg amt sv ref ds : moves grows (Pay order tg amt sv ref ds).
Proof.
  unfold Pay, PayStore.Deduct, create_transaction. moves_tac.
Qed.

#[local] Hint Resolve reads_writeBalanceCache reads_authorize : botpay.
#[local] Hint Resolve GetOrCreate_grows Pay_grows : moves.

Lemma lift_publish_reads sub p : reads (lift (Y := Cache) (publish sub p)).
Proof. apply reads_lift, reads_publish. Qed.
#[local] Hint Resolve lift_publish_reads : botpay.

Lemma AddCredit_grows id amt ds : moves grows (AddCredit (X := WS) id amt ds).
Proof. unfold AddCredit, create_transaction. moves_tac. Qed.

Lemma new_balance_grows tg : moves grows (new_balance tg).
Proof. unfold new_balance. moves_tac. Qed.
#[local] Hint Resolve AddCredit_grows new_balance_grows : moves.

Lemma handleDeduct_grows order data : moves grows (handleDeduct secret order data).
Proof. unfold handleDeduct, publishWalletUpdated, publishPayCompleted. moves_tac. Qed.

Lemma handleCredit_grows data : moves grows (handleCredit secret data).
Proof. unfold handleCredit, publishWalletUpdated. moves_tac. Qed.

(** * What the clients see of the tables *)

Definition botpay_ok (b : Botpay) : Prop := pay_inv (db b) /\ tg_unique (db b).

Definition botpay_account (b : Botpay) (u : Z) : option uuid :=
  w_ID <$> first_row w_ID (fun w => w_TelegramID w =? u) (rows (wallets (db b))).

Definition payment_of (t : Transaction) : Payment :=
  {| p_account := t_WalletID t; p_service := t_ServiceID t; p_ref := t_Ref t; p_amount := - t_Amount t |}.
Definition is_payment_row (t : Transaction) : bool := bool_decide (t_Type t = TxPayment).
Definition payments (d : Tables) : list Payment := map payment_of (List.filter is_payment_row (transactions d)).

Lemma account_spec b u id :
  botpay_ok b -> botpay_account b u = Some id <-> exists w, wallets (db b) !! id = Some w /\ w_TelegramID w = u.
Proof.
  intros [I U]. unfold botpay_account. split.
  - intros (w & Hw & ->)%fmap_Some. apply first_row_some in Hw as [Hw Ht]. zbool.
    exists w. split; [by apply row_lookup|done].
  - intros (w & Hw & Ht). destruct (first_row _ _ _) as [v|] eqn:E.
    + apply first_row_some in E as [Hv Ev]. zbool. apply row_lookup in Hv; [|done].
      simpl. f_equal. apply (U _ _ _ _ Hv Hw). congruence.
    + rewrite first_row_none in E. specialize (E w ltac:(apply elem_of_rows; eauto)). zbool. congruence.
Qed.

Lemma account_grows b b' u id :
  botpay_ok b -> botpay_ok b' -> grows (db b) (db b') -> botpay_account b u = Some id -> botpay_account b' u = Some id.
Proof.
  intros O O' [_ G] H. apply account_spec in H as (w & Hw & <-); [|done].
  apply account_spec; [done|]. destruct (G _ _ Hw) as (w' & Hw' & E). eauto.
Qed.

Lemma kept_unchanged d d' :
  kept d d' -> payments d' = payments d /\ forall id, booked d' id = booked d id.
Proof.
  intros (E1 & E2 & _). unfold payments, booked, tx_total, withdraw_total. rewrite E1, E2. done.
Qed.

Lemma booked_append d t id :
  booked (set_transactions (fun l => l ++ [t]) d) id = booked d id + (if (t_WalletID t =? id)%N then t_Amount t else 0).
Proof. unfold booked, withdraw_total. rewrite tx_total_app. simpl. lia. Qed.

Lemma payments_append d t :
  payments (set_transactions (fun l => l ++ [t]) d) = payments d ++ (if is_payment_row t then [payment_of t] else []).
Proof. unfold payments. simpl. rewrite List.filter_app, map_app. f_equal. simpl. by destruct (is_payment_row t). Qed.

Lemma find_payment_under d id sv ref :
  match find_payment id sv ref d with
  | Some _ => Exists (fun p => under id sv ref p = true) (payments d)
  | None => Forall (fun p => under id sv ref p = false) (payments d)
  end.
Proof.
  unfold find_payment, payments. destruct (first_row _ _ _) as [t|] eqn:E.
  - apply first_row_some in E as [Hin Ht]. apply Exists_exists. exists (payment_of t). split.
    + apply list_elem_of_In, in_map, filter_In. destruct_hyps. by rewrite <- list_elem_of_In.
    + unfold under, payment_of. simpl. destruct_hyps. by repeat (apply andb_true_intro; split).
  - rewrite first_row_none in E. apply Forall_forall. intros p Hp. apply list_elem_of_In, in_map_iff in Hp as (t & <- & Ht).
    apply filter_In in Ht as [Ht Hp]. rewrite <- list_elem_of_In in Ht. specialize (E _ Ht). simpl in E.
    unfold is_payment_row in Hp. rewrite Hp, andb_true_r in E. exact E.
Qed.

(** * Deduct *)

Lemma deduct_promise order data (b : Botpay) r b' :
  handleDeduct secret order data b = (r, b') -> botpay_ok b -> botpay_ok b' /\
  (forall u id, botpay_account b u = Some id -> botpay_account b' u = Some id) /\
  exists rs, r = Ok rs /\
  if drs_Success rs then drs_Error rs = NoError /\
    exists req id, unmarshal_DeductRequest data = Some req /\ botpay_account b' (TelegramID (dr_Pay req)) = Some id /\
      let sv := ServiceID (dr_Pay req) in let ref := effective_ref req in
      (Exists (fun p => under id sv ref p = true) (payments (db b)) /\
       unchanged (fun b => payments (db b)) (fun b => booked (db b)) b b') \/
      charged (fun b => payments (db b)) (fun b => booked (db b)) b b' id sv ref (TONToNano (dr_AmountTON req))
  else drs_Error rs <> NoError /\ unchanged (fun b => payments (db b)) (fun b => booked (db b)) b b'.
Proof.
  intros H [I U]. pose proof (handleDeduct_grows order data _ _ _ H) as G.
  assert (O' : botpay_ok b') by (split; [by apply (handleDeduct_inv secret order data _ _ _ H)|by apply G]).
  split; [done|]. split; [intros u id; by apply account_grows|].
  assert (Herr : forall rs, r = Ok rs -> if drs_Success rs then drs_Error rs = NoError else drs_Error rs <> NoError).
  { revert H. clear. intros H rs ->. unfold handleDeduct in H.
    destruct (unmarshal_DeductRequest data) as [req|]; [|by injection H as <- _].
    apply bind_ok in H as (ok & s1 & _ & H). destruct (negb _); [by injection H as <- _|].
    destruct (negb _); [by injection H as <- _|]. apply bind_ok in H as (t & s2 & _ & H).
    destruct t as [t|e]; [|by injection H as <- _].
    do 3 (apply bind_ok in H as (? & ? & _ & H)). by injection H as <- _. }
  destruct (handleDeduct_run secret order data b) as (rs & b1 & E & Hrun). rewrite E in H. injection H as <- <-.
  exists rs. split; [done|]. specialize (Herr rs eq_refl).
  destruct Hrun as [[Hs Hd]|(req & t & s1 & s2 & Ed & Hs & _ & _ & Hd1 & Hp & K)]; rewrite Hs in *.
  - split; [done|]. unfold unchanged. by rewrite Hd.
  - split; [done|]. apply Pay_cases in Hp as [(w & Hin & Htg & _ & _ & _ & Hout) _];
      [|by rewrite Hd1|by apply int64_of_f64_range].
    rewrite Hd1 in *. exists req, (w_ID w). split; [done|]. split.
    { destruct (proj2 G _ _ (row_lookup _ _ I Hin)) as (w' & Hw' & Ew').
      apply account_spec; [done|]. exists w'. split; [done|congruence]. }
    destruct (kept_unchanged _ _ K) as [K1 K2]. simpl.
    pose proof (find_payment_under (db b) (w_ID w) (ServiceID (dr_Pay req)) (effective_ref req)) as Hf.
    destruct Hout as [[Hf' Hd]|(Hn & (Ew & Ety & Est & Ea & Esv & Er) & Hd)]; rewrite Hd in *.
    + left. rewrite Hf' in Hf. split; [done|]. split; [done|exact K2].
    + right. unfold charged. split; [destruct Hn as [Hn|Hn]; [by left|right; by rewrite Hn in Hf]|].
      unfold debited in *. rewrite payments_append in K1. unfold is_payment_row, payment_of in K1.
      rewrite Ety, Ew, Ea, Esv, Er, Z.opp_involutive in K1. split; [exact K1|].
      intros j. rewrite K2, booked_append, Ew, Ea, N.eqb_sym. unfold booked at 1. simpl.
      change (booked (db b) j) with (tx_total (db b) j - withdraw_total WithdrawDone (db b) j).
      destruct (_ =? _)%N; unfold tx_total, withdraw_total; simpl; lia.
Qed.

(** * Credit *)

Lemma GetOrCreate_found tg (a : st Tables WS) w b :
  GetOrCreate tg a = (Ok w, b) -> pay_inv (db a) ->
  pay_inv (db b) /\ kept (db a) (db b) /\
  exists w', wallets (db b) !! w_ID w = Some w' /\ (tg <> 0 -> w_TelegramID w' = tg).
Proof.
  intros H I. unfold GetOrCreate in H. apply bind_ok in H as (x & a1 & H1 & H). injection H1 as <- <-.
  pose proof (GetOrCreateWallet_inv _ _ _ _ _ H I) as I'. pose proof (GetOrCreateWallet_kept _ _ _ _ _ H) as K.
  split; [done|]. split; [done|]. unfold GetOrCreateWallet in H.
  apply bind_ok in H as (q & s1 & E1 & H). apply try_run in E1 as (q' & [= ->] & E1). pose proof (first_db _ _ _ _ E1) as D1.
  apply bind_ok in H as (w1 & s2 & E2 & H).
  assert (H2 : exists w', wallets (db s2) !! w_ID w1 = Some w' /\ (tg <> 0 -> w_TelegramID w' = tg)).
  { destruct q' as [w0|[]]; try done.
    - injection E2 as <- <-. apply first_ok in E1 as (E1 & -> & _). apply first_row_some in E1 as [Hin Ht].
      exists w0. split; [by apply row_lookup|]. intros Hn. apply orb_prop in Ht as [Ht|Ht]; zbool; congruence.
    - apply bind_ok in E2 as (id & s3 & E3 & E2). injection E3 as <- <-.
      apply bind_ok in E2 as (u & s4 & E4 & E2). injection E2 as <- <-. apply exec_ok in E4 as (d & Hd & -> & _).
      unfold insert_wallet in Hd. destruct (bool_decide _) in Hd; [done|].
      do 2 (destruct (existsb _ _) in Hd; [done|]). injection Hd as <-. simpl. eexists.
      split; [apply lookup_insert_eq|done]. }
  destruct H2 as (w' & Hw' & Ht).
  destruct (_ =? "")%string; [|injection H as <- <-; eauto].
  apply bind_ok in H as (q3 & s3 & E3 & H). apply try_run in E3 as (q4 & [= ->] & E3).
  apply update_pay_handle_grows in E3. destruct E3 as [_ G]. destruct (G _ _ Hw') as (w3 & Hw3 & Et).
  exists w3. destruct q4; injection H as <- <-; (split; [done|intros; rewrite Et; auto]).
Qed.

Lemma AddCredit_ok id amt ds (a : st Tables WS) b :
  AddCredit id amt ds a = (Ok tt, b) -> is_Some (wallets (db a) !! id) ->
  exists t d, db b = set_transactions (fun l => l ++ [t]) d /\ transactions d = transactions (db a) /\
    withdraw_requests d = withdraw_requests (db a) /\ t_WalletID t = id /\ t_Type t = TxCreditAdd /\ t_Amount t = amt.
Proof.
  unfold AddCredit. intros H [w Hw]. destruct (amt <=? 0); [done|].
  apply transaction_ok in H as (s1 & Hm & ->). run_inv.
  match goal with H : create_transaction _ _ = _ |- _ => apply create_transaction_ok in H as (Hd & i & c & ->) end.
  injection Hm as <-. rewrite Hd. simpl in *. use_update; [congruence|]. do 2 eexists. split; [reflexivity|]. done.
Qed.

Lemma authorize_runs id key (b : Botpay) :
  exists ok s1, authorize secret id key b = (Ok ok, s1) /\ db s1 = db b.
Proof.
  destruct (authorize_answers secret id key b) as [ok Hok]. destruct (authorize secret id key b) as [r s1] eqn:E.
  simpl in Hok. subst r. exists ok, s1. split; [done|]. by apply reads_authorize in E.
Qed.

Lemma credit_promise data (b : Botpay) r b' :
  handleCredit secret data b = (r, b') -> botpay_ok b -> botpay_ok b' /\
  (forall u id, botpay_account b u = Some id -> botpay_account b' u = Some id) /\
  exists rs, r = Ok rs /\
  if drs_Success rs then drs_Error rs = NoError /\
    exists req id, unmarshal_DeductRequest data = Some req /\
      (TelegramID (dr_Pay req) <> 0 -> botpay_account b' (TelegramID (dr_Pay req)) = Some id) /\
      credited (fun b => payments (db b)) (fun b => booked (db b)) b b' id (TONToNano (dr_AmountTON req))
  else drs_Error rs <> NoError /\ unchanged (fun b => payments (db b)) (fun b => booked (db b)) b b'.
Proof.
  intros H [I U]. pose proof (handleCredit_grows data _ _ _ H) as G.
  assert (Hcut : pay_inv (db b') /\ exists rs, r = Ok rs /\
    if drs_Success rs then drs_Error rs = NoError /\
      exists req id, unmarshal_DeductRequest data = Some req /\
        (TelegramID (dr_Pay req) <> 0 -> exists w, wallets (db b') !! id = Some w /\ w_TelegramID w = TelegramID (dr_Pay req)) /\
        credited (fun b => payments (db b)) (fun b => booked (db b)) b b' id (TONToNano (dr_AmountTON req))
    else drs_Error rs <> NoError /\ unchanged (fun b => payments (db b)) (fun b => booked (db b)) b b').
  2: { destruct Hcut as [I' (rs & -> & Hrs)].
       assert (O' : botpay_ok b') by (split; [done|by apply G]).
       split; [done|]. split; [intros u id; by apply account_grows|]. exists rs. split; [done|].
       destruct (drs_Success rs); [|done]. destruct Hrs as (E & req & id & Ed & Hacc & Hc). split; [done|].
       exists req, id. split; [done|]. split; [|done]. intros Hn. apply account_spec; auto. }
  assert (Hsame : forall (T : DeductResponse -> Prop) e c, (r, b') = (Ok (deduct_error e c), b') -> e <> NoError -> kept (db b) (db b') ->
    pay_inv (db b') /\ exists rs, r = Ok rs /\
    if drs_Success rs then T rs else drs_Error rs <> NoError /\ unchanged (fun b => payments (db b)) (fun b => booked (db b)) b b').
  { intros T e c [= ->] He K. split; [by apply K|]. eexists. split; [reflexivity|]. simpl. split; [done|].
    by destruct (kept_unchanged _ _ K). }
  unfold handleCredit in H. destruct (unmarshal_DeductRequest data) as [req|] eqn:Ed.
  2: { injection H as <- <-. by eapply (Hsame (fun _ => _)). }
  destruct (authorize_runs (ServiceID (dr_Pay req)) (ServiceKey (dr_Pay req)) b) as (ok & s1 & E1 & D1).
  unfold bind at 1 in H. rewrite E1 in H.
  destruct (negb ok); [injection H as <- <-; eapply (Hsame (fun _ => _)); try done; by rewrite D1|].
  destruct (negb _); [injection H as <- <-; eapply (Hsame (fun _ => _)); try done; by rewrite D1|].
  apply bind_run in H as (r2 & s2 & E2 & H). apply try_run in E2 as (q2 & -> & E2).
  unfold lift in E2. destruct (GetOrCreate _ _) as [q3 s3] eqn:E3. injection E2 as <- <-.
  destruct q3 as [w|e].
  2: { injection H as <- <-. eapply (Hsame (fun _ => _)); try done. simpl. unfold GetOrCreate in E3.
       apply bind_run in E3 as (? & ? & E0 & E3). injection E0 as <- <-. apply GetOrCreateWallet_kept in E3.
       simpl in E3. by rewrite <- D1. }
  apply GetOrCreate_found in E3 as (I3 & K3 & w' & Hw' & Ht); [|simpl; by rewrite D1]. simpl in K3, I3. rewrite D1 in K3.
  apply bind_run in H as (r4 & s4 & E4 & H). apply try_run in E4 as (q4 & -> & E4).
  unfold lift in E4. destruct (AddCredit _ _ _ _) as [q5 s5] eqn:E5. injection E4 as <- <-.
  pose proof (AddCredit_inv _ _ _ _ _ _ E5 (mk_is_Some _ _ Hw') I3) as I5.
  destruct q5 as [[]|e].
  2: { injection H as <- <-. eapply (Hsame (fun _ => _)); try done. simpl. unfold AddCredit in E5.
       assert (D5 : db s5 = db s3); [|by rewrite D5].
       destruct (_ <=? 0); [by injection E5 as _ <-|]. by apply transaction_atomic in E5. }
  pose proof (AddCredit_grows _ _ _ _ _ _ E5) as GA. apply AddCredit_ok in E5 as (t & d & D5 & Et & Ewr & Ew & Ety & Ea); [|done]. simpl in *.
  destruct (new_balance_kept (TelegramID (dr_Pay req)) (mkSt (tick s5) (tx s5) (db s5) (ext s5, snd (ext s1))))
    as (v & s6 & E6 & K6). simpl in K6.
  destruct (lift_publish_ok SubjWalletUpdated [("telegram_id", AInt (TelegramID (dr_Pay req)));
    ("reason", AStr "refund")] s6) as (s7 & E7 & D7).
  unfold bind at 1 in H. simpl in H. rewrite E6 in H. unfold bind at 1, publishWalletUpdated in H. rewrite E7 in H.
  injection H as <- <-. rewrite D7. split; [by apply K6|]. eexists. split; [reflexivity|]. simpl. split; [done|].
  exists req, (w_ID w). split; [done|].
  assert (G5 : grows (db s3) (db s7)).
  { rewrite D7. etransitivity; [exact GA|]. by apply (new_balance_grows _ _ _ _ E6). }
  split.
  - intros Hn. destruct (proj2 G5 _ _ Hw') as (w2 & Hw2 & E2'). exists w2. rewrite <- D7, E2'. auto.
  - destruct (kept_unchanged _ _ K3) as [P3 F3]. destruct (kept_unchanged _ _ K6) as [P6 F6].
    rewrite <- D7, D5 in *. unfold credited. split.
    + rewrite P6, payments_append. unfold is_payment_row at 1. rewrite Ety. cbn. rewrite app_nil_r.
      unfold payments in *. by rewrite Et, P3.
    + intros j. rewrite F6, booked_append, Ew, Ea, N.eqb_sym. f_equal.
      rewrite <- F3. unfold booked, tx_total, withdraw_total. by rewrite Et, Ewr.
Qed.

#[export] Instance botpay_promise : PayPromise Botpay := {|
  srv_ok := botpay_ok;
  account := botpay_account;
  paid := fun b => payments (db b);
  funds := fun b => booked (db b);
  promise_deduct := fun data b => deduct_promise (orders (tick b)) data b;
  promise_credit := credit_promise;
|}.
End server.
