(* ===== verification/PayClientSpec.v ===== *)
(** Correctness of natspayclient, against the promise of the payment interface
    and whatever the bus loses: a payment under one key is made at most once,
    and what its fixed key for a plan means for renewals and refunds. *)
From S2P Require Import Prelude GoInt GoFloat GoString Effects PayModels PayChain PayStore PayInvariant PayStoreSpec.
From S2P Require Import Consensus ConsensusSpec Localization WalletService WalletServiceSpec.
From S2P Require Import PayResponder PayResponderSpec PayClient PayServerSpec.

Section spec.
Context {D X B : Type} {ENV : Env} {JSON : Json} {FP : F64Platform} {MARSHAL : JsonMarshal} {LAWS : JsonLaws}.
Context {PS : PayServer B} {PP : PayPromise B} (cfg : ClientConfig).
Abbreviation CSt := (st D (X * Remote B)).
Implicit Types s : CSt.

Definition server s : B := rm_server (snd (ext s)).

(** * One exchange *)

(** Either the server saw nothing and the caller gets an error, or the server
    handled the request, and a reply that arrives is the server's. *)
Lemma Request_run {R} subject payload (serve : string -> B -> result R * B) on_error s r s' :
  Request subject payload serve on_error s = (r, s') ->
  db s' = db s /\ fst (ext s') = fst (ext s) /\
  ((server s' = server s /\ exists e, r = Err e) \/
   exists data q, payload = Some data /\ serve data (server s) = (q, server s') /\
     forall a, r = Ok a -> a = reply on_error q).
Proof.
  unfold Request. destruct payload as [data|]; [|intros [= <- <-]; split_and!; eauto].
  destruct (env_fault (tick s)); [intros [= <- <-]; split_and!; eauto|].
  destruct (serve data _) as [q b] eqn:E. fold (server s) in E.
  destruct (env_fault (S (tick s))); intros [= <- <-]; split_and!; try done; right; exists data, q; split_and!; try done;
    by intros a [= <-].
Qed.

Lemma cache_update_server f s r s' :
  cache_update f s = (r, s') -> r = Ok tt /\ server s' = server s /\ db s' = db s /\ fst (ext s') = fst (ext s).
Proof.
  unfold cache_update. destruct (rm_cache _), (env_fault (tick s)); by intros [= <- <-].
Qed.

(** * A deduction *)

Definition deduct_outcome (b b' : B) (tg : Z) (sv ref : string) (amt : Z) (success : bool) : Prop :=
  (unchanged paid funds b b' /\
   (success = true -> exists id, account b' tg = Some id /\ Exists (fun p => under id sv ref p = true) (paid b))) \/
  (exists id, account b' tg = Some id /\ charged paid funds b b' id sv ref amt).

Definition succeeded {A} (r : result A) : bool := match r with Ok _ => true | Err _ => false end.

Lemma DeductWithMeta_run tg amt reason idem ref meta s r s' :
  DeductWithMeta cfg tg amt reason idem ref meta s = (r, s') -> srv_ok (server s) ->
  db s' = db s /\ fst (ext s') = fst (ext s) /\ srv_ok (server s') /\
  (forall u id, account (server s) u = Some id -> account (server s') u = Some id) /\
  deduct_outcome (server s) (server s') tg (cc_ServiceID cfg)
    (effective_ref (deduct_request cfg tg amt reason idem ref meta)) (TONToNano amt) (succeeded r).
Proof.
  intros H O. unfold DeductWithMeta in H. set (req := deduct_request cfg tg amt reason idem ref meta) in *.
  apply bind_run in H as (r1 & s1 & E1 & H). apply Request_run in E1 as (D1 & X1 & E1).
  assert (Hend : db s' = db s1 /\ fst (ext s') = fst (ext s1) /\ server s' = server s1 /\
    (succeeded r = true -> exists rs, r1 = Ok rs /\ drs_Error rs = NoError)).
  { destruct r1 as [rs|e]; [|by destruct H as [-> ->]].
    destruct (drs_Error rs) eqn:Ee.
    - apply bind_run in H as (r2 & s2 & E2 & H). apply cache_update_server in E2 as (-> & S2 & D2 & X2).
      injection H as <- <-. rewrite D2, X2, S2. eauto 10.
    - destruct (drs_Code rs); by injection H as <- <-.
    - destruct (drs_Code rs); by injection H as <- <-. }
  destruct Hend as (D2 & X2 & S2 & Hr). rewrite D2, X2, S2, D1, X1. split; [done|]. split; [done|].
  destruct E1 as [[-> (e & ->)]|(data & q & Em & Es & Ha)].
  { split; [done|]. split; [done|]. left. split; [done|]. intros Hs. by destruct (Hr Hs) as (? & ? & _). }
  destruct (promise_deduct _ _ _ _ Es O) as (O' & G & rs & -> & Hrs). split; [done|]. split; [done|].
  destruct (drs_Success rs).
  - destruct Hrs as (_ & req' & id & Ed & Hacc & Hout). apply deduct_round in Em.
    assert (req' = req) as -> by congruence. simpl in Hacc, Hout.
    destruct Hout as [[Hex Hu]|Hc]; [left|right; eauto]. eauto.
  - destruct Hrs as [Hne Hu]. left. split; [done|]. intros Hs. destruct (Hr Hs) as (rs' & -> & E').
    specialize (Ha _ eq_refl). simpl in Ha. congruence.
Qed.

(** * A credit *)

Lemma Credit_run tg amt ref meta s r s' :
  Credit cfg tg amt ref meta s = (r, s') -> srv_ok (server s) ->
  db s' = db s /\ fst (ext s') = fst (ext s) /\ srv_ok (server s') /\
  (forall u id, account (server s) u = Some id -> account (server s') u = Some id) /\
  ((unchanged paid funds (server s) (server s') /\ succeeded r = false) \/
   exists id, (tg <> 0 -> account (server s') tg = Some id) /\
     credited paid funds (server s) (server s') id (TONToNano amt)).
Proof.
  intros H O. unfold Credit in H.
  apply bind_run in H as (r1 & s1 & E1 & H). apply Request_run in E1 as (D1 & X1 & E1).
  assert (Hend : db s' = db s1 /\ fst (ext s') = fst (ext s1) /\ server s' = server s1 /\
    (succeeded r = true -> exists rs, r1 = Ok rs /\ drs_Error rs = NoError)).
  { destruct r1 as [rs|e]; [|by destruct H as [-> ->]].
    destruct (drs_Error rs) eqn:Ee; [|by injection H as <- <-..].
    apply cache_update_server in H as (-> & S2 & D2 & X2). rewrite D2, X2, S2. eauto 10. }
  destruct Hend as (D2 & X2 & S2 & Hr). rewrite D2, X2, S2, D1, X1. split; [done|]. split; [done|].
  destruct E1 as [[-> (e & ->)]|(data & q & Em & Es & Ha)].
  { split; [done|]. split; [done|]. left. split; [done|].
    destruct (succeeded r); [|done]. by destruct (Hr eq_refl) as (? & ? & _). }
  destruct (promise_credit _ _ _ _ Es O) as (O' & G & rs & -> & Hrs). split; [done|]. split; [done|].
  destruct (drs_Success rs).
  - destruct Hrs as (_ & req' & id & Ed & Hacc & Hout). apply deduct_round in Em. right. exists id.
    rewrite Ed in Em. injection Em as ->. done.
  - destruct Hrs as [Hne Hu]. left. split; [done|]. destruct (succeeded r); [|done].
    destruct (Hr eq_refl) as (rs' & -> & E'). specialize (Ha _ eq_refl). simpl in Ha. congruence.
Qed.

(** * At most once *)

Definition times (id : uuid) (sv ref : string) (b : B) : nat := length (List.filter (under id sv ref) (paid b)).

Definition paid_once (b : B) : Prop := forall id sv ref, ref <> ""%string -> (times id sv ref b <= 1)%nat.

Lemma under_self id sv ref amt :
  under id sv ref {| p_account := id; p_service := sv; p_ref := ref; p_amount := amt |} = true.
Proof. unfold under. simpl. by rewrite N.eqb_refl, !String.eqb_refl. Qed.

Lemma under_spec id sv ref p : under id sv ref p = true <-> p_account p = id /\ p_service p = sv /\ p_ref p = ref.
Proof. unfold under. rewrite !andb_true_iff, N.eqb_eq, !String.eqb_eq. tauto. Qed.

Lemma times_none id sv ref b : Forall (fun p => under id sv ref p = false) (paid b) -> times id sv ref b = O.
Proof. unfold times. induction 1 as [|p l Hp _ IH]; [done|]. simpl. by rewrite Hp. Qed.

Lemma times_some id sv ref b : Exists (fun p => under id sv ref p = true) (paid b) -> (1 <= times id sv ref b)%nat.
Proof.
  unfold times. induction 1 as [p l Hp|p l _ IH]; simpl; [rewrite Hp; simpl; lia|]. destruct (under _ _ _ p); simpl; lia.
Qed.

Lemma charged_times b b' id sv ref amt :
  charged paid funds b b' id sv ref amt ->
  forall i v r, times i v r b' = (times i v r b + if under i v r {| p_account := id; p_service := sv; p_ref := ref; p_amount := amt |} then 1 else 0)%nat.
Proof.
  intros (_ & E & _) i v r. unfold times. rewrite E, List.filter_app, length_app. simpl. by destruct (under _ _ _ _).
Qed.

Lemma charged_once b b' id sv ref amt : charged paid funds b b' id sv ref amt -> paid_once b -> paid_once b'.
Proof.
  intros Hc P i v r Hr. rewrite (charged_times _ _ _ _ _ _ Hc). specialize (P i v r Hr).
  destruct (under i v r _) eqn:E; [|lia]. apply under_spec in E as (<- & <- & <-). simpl in *.
  destruct Hc as [[Hn|Hn] _]; [done|]. rewrite (times_none _ _ _ _ Hn). lia.
Qed.

Lemma unchanged_once b b' : unchanged paid funds b b' -> paid_once b -> paid_once b'.
Proof. intros [E _] P i v r Hr. unfold times. rewrite E. by apply P. Qed.

(** What happens on the bus: a deduction through this client, or any request
    that anybody else has the server handle. *)
Inductive traffic s : CSt -> Prop :=
| tr_mine tg amt reason idem ref meta r s' :
    DeductWithMeta cfg tg amt reason idem ref meta s = (r, s') -> traffic s s'
| tr_deduct data q s' : srv_deduct data (server s) = (q, server s') -> traffic s s'
| tr_credit data q s' : srv_credit data (server s) = (q, server s') -> traffic s s'.

Lemma traffic_step s s' : traffic s s' -> srv_ok (server s) -> paid_once (server s) ->
  srv_ok (server s') /\ paid_once (server s').
Proof.
  intros [tg amt reason idem ref meta r s1 H|data q s1 H|data q s1 H] O P.
  - apply DeductWithMeta_run in H as (_ & _ & O' & _ & [[Hu _]|(id & _ & Hc)]); [| |done]; (split; [done|]);
      eauto using unchanged_once, charged_once.
  - destruct (promise_deduct _ _ _ _ H O) as (O' & _ & rs & _ & Hrs). split; [done|].
    destruct (drs_Success rs); [|destruct Hrs; eauto using unchanged_once].
    destruct Hrs as (_ & req & id & _ & _ & [[_ Hu]|Hc]); eauto using unchanged_once, charged_once.
  - destruct (promise_credit _ _ _ _ H O) as (O' & _ & rs & _ & Hrs). split; [done|].
    destruct (drs_Success rs); [|destruct Hrs; eauto using unchanged_once].
    destruct Hrs as (_ & req & id & _ & _ & (E & _)). intros i v r Hr. unfold times. rewrite E. by apply P.
Qed.

(** C17: However often services retry, whatever the bus loses (a request that
    never arrives, a reply that never comes back after the charge) and whatever
    the database does: no service is ever paid twice by one user under one
    non-empty reference; and a deduction that reports success is recorded
    exactly once under its reference. *)
Theorem retries_pay_once s s' tg amt reason idem ref meta v s'' :
  rtc traffic s s' -> srv_ok (server s) -> paid_once (server s) ->
  DeductWithMeta cfg tg amt reason idem ref meta s' = (Ok v, s'') ->
  paid_once (server s') /\ paid_once (server s'') /\
  let key := effective_ref (deduct_request cfg tg amt reason idem ref meta) in
  (key <> ""%string -> exists id, account (server s'') tg = Some id /\ times id (cc_ServiceID cfg) key (server s'') = 1%nat).
Proof.
  intros Hs O P H.
  assert (OP : srv_ok (server s') /\ paid_once (server s')).
  { induction Hs as [|s0 s1 s2 Ht _ IH]; [done|]. destruct (traffic_step _ _ Ht O P). by apply IH. }
  destruct OP as [O' P']. assert (P'' : paid_once (server s'')).
  { apply (traffic_step s' s''); [by eapply tr_mine|done|done]. }
  split; [done|]. split; [done|]. intros key Hkey.
  apply DeductWithMeta_run in H as (_ & _ & _ & _ & [[Hu Hs']|(id & Ha & Hc)]); [| |done].
  - destruct (Hs' eq_refl) as (id & Ha & Hex). exists id. split; [done|]. fold key in Hex.
    apply times_some in Hex. specialize (P'' id (cc_ServiceID cfg) key Hkey).
    unfold times in *. rewrite (proj1 Hu) in *. lia.
  - exists id. split; [done|]. fold key in Hc. specialize (P'' id (cc_ServiceID cfg) key Hkey).
    rewrite (charged_times _ _ _ _ _ _ Hc), under_self in *. lia.
Qed.

(** * Plans *)

Lemma DeductForService_run tg amt plan s c s' :
  DeductForService cfg tg amt plan s = (Ok c, s') -> srv_ok (server s) -> plan <> ""%string ->
  c = "plan:" +:+ plan /\ srv_ok (server s') /\
  (forall u id, account (server s) u = Some id -> account (server s') u = Some id) /\
  exists id, account (server s') tg = Some id /\
    ((unchanged paid funds (server s) (server s') /\
      Exists (fun p => under id (cc_ServiceID cfg) plan p = true) (paid (server s))) \/
     charged paid funds (server s) (server s') id (cc_ServiceID cfg) plan (TONToNano amt)).
Proof.
  unfold DeductForService. intros H O Hp. apply bind_ok in H as (v & s1 & H & Hc). injection Hc as <- <-.
  apply DeductWithMeta_run in H as (_ & _ & O' & G & Hout); [|done]. split; [done|]. split; [done|]. split; [done|].
  assert (Ek : effective_ref (deduct_request cfg tg amt ("plan:" +:+ plan) ("plan:" +:+ plan) plan (plan_meta plan)) = plan).
  { unfold effective_ref. simpl. apply String.eqb_neq in Hp. by rewrite Hp, Hp. }
  rewrite Ek in Hout. destruct Hout as [[Hu Hs]|(id & Ha & Hc)]; [|eauto].
  destruct (Hs eq_refl) as (id & Ha & Hex). eauto.
Qed.

(** The key of a plan purchase is the plan alone. Buying a plan again, for a
    renewal or after the first purchase was refunded because provisioning
    failed, succeeds without charging; refunding that purchase too then adds its
    price to the wallet: every further round of a failing provisioning mints the
    price of the plan. *)
Theorem second_purchase_is_free tg amt plan c1 c2 s0 s1 s2 s3 s4 :
  srv_ok (server s0) -> tg <> 0 -> plan <> ""%string ->
  DeductForService cfg tg amt plan s0 = (Ok c1, s1) -> RefundService cfg tg amt c1 s1 = (Ok tt, s2) ->
  DeductForService cfg tg amt plan s2 = (Ok c2, s3) -> RefundService cfg tg amt c2 s3 = (Ok tt, s4) ->
  exists id, account (server s1) tg = Some id /\
    funds (server s2) id = funds (server s1) id + TONToNano amt /\
    funds (server s3) id = funds (server s2) id /\
    funds (server s4) id = funds (server s2) id + TONToNano amt.
Proof.
  intros O0 Htg Hp H1 H2 H3 H4.
  apply DeductForService_run in H1 as (_ & O1 & _ & id & A1 & Hout1); [|done..].
  assert (K1 : Exists (fun p => under id (cc_ServiceID cfg) plan p = true) (paid (server s1))).
  { destruct Hout1 as [[[-> _] Hex]|(_ & -> & _)]; [done|]. apply Exists_app. right. left. apply under_self. }
  apply Credit_run in H2 as (_ & _ & O2 & G2 & [[_ Hf]|(id2 & A2 & P2 & F2)]); [done| |done].
  assert (id2 = id) as -> by (specialize (A2 Htg); rewrite (G2 _ _ A1) in A2; congruence).
  apply DeductForService_run in H3 as (_ & O3 & G3 & id3 & A3 & Hout3); [|done..].
  assert (id3 = id) as -> by (rewrite (G3 _ _ (A2 Htg)) in A3; congruence).
  assert (F3 : forall j, funds (server s3) j = funds (server s2) j).
  { destruct Hout3 as [[[_ F] _]|([Hn|Hn] & _)]; [done|done|]. rewrite P2 in Hn. exfalso.
    apply Exists_exists in K1 as (p & Hin & Hu). rewrite Forall_forall in Hn. rewrite Hn in Hu; done. }
  apply Credit_run in H4 as (_ & _ & O4 & G4 & [[_ Hf]|(id4 & A4 & P4 & F4)]); [done| |done].
  assert (id4 = id) as -> by (specialize (A4 Htg); rewrite (G4 _ _ A3) in A4; congruence).
  exists id. split; [done|]. rewrite F4, F3, F2, N.eqb_refl. lia.
Qed.
End spec.

(** The client never writes a table of its caller. *)
Section pay_reads.
Context {D X B : Type} {ENV : Env} {PS : PayServer B} {MARSHAL : JsonMarshal} (cfg : ClientConfig).

Lemma reads_Request {A} subject payload (serve : string -> B -> result A * B) on_error :
  reads (Request (D := D) (X := X) subject payload serve on_error).
Proof. intros s r s' H. by apply Request_run in H as (-> & _). Qed.
Lemma reads_cache_update f : reads (cache_update (D := D) (X := X) (B := B) f).
Proof. intros s r s' H. by apply cache_update_server in H as (_ & _ & -> & _). Qed.
Lemma reads_DeductWithMeta tg amt reason idem ref meta :
  reads (DeductWithMeta (D := D) (X := X) cfg tg amt reason idem ref meta).
Proof.
  unfold DeductWithMeta. apply reads_bind; [apply reads_Request|]. intros rs. destruct (drs_Error rs).
  - apply reads_bind; [apply reads_cache_update|]. intros; apply reads_ret.
  - destruct (drs_Code rs); apply reads_throw.
  - destruct (drs_Code rs); apply reads_throw.
Qed.
Lemma reads_Credit tg amt ref meta : reads (Credit (D := D) (X := X) cfg tg amt ref meta).
Proof.
  unfold Credit. apply reads_bind; [apply reads_Request|]. intros rs.
  destruct (drs_Error rs); [apply reads_cache_update|apply reads_throw..].
Qed.
End pay_reads.
#[export] Hint Resolve reads_DeductWithMeta reads_Credit : botpay.

(** * Example: botpay behind the bus, and a plan bought by user 1234567 *)

Section demo.
#[local] Existing Instance calm_env.
#[local] Existing Instance demo_lib.
#[local] Existing Instance demo_crypto.
#[local] Existing Instance demo_locales.
#[local] Existing Instance amd64.

#[local] Instance spec_float_eq_dec : EqDecision SpecFloat.spec_float.
Proof. solve_decision. Defined.
#[local] Instance pay_request_eq_dec : EqDecision PayRequest.
Proof. solve_decision. Defined.
#[local] Instance deduct_request_eq_dec : EqDecision DeductRequest.
Proof. solve_decision. Defined.

Definition shop : ClientConfig := {| cc_ServiceID := "shop"; cc_ServiceKey := HexEncode "shop" |}.
Definition price : float64 := f64_const 7 10000000.

Definition buy_request : DeductRequest :=
  deduct_request shop 1234567 price "plan:gold" "plan:gold" "gold" (plan_meta "gold").
Definition refund_request : DeductRequest :=
  deduct_request shop 1234567 price "refund:plan:gold" "" "refund:plan:gold" "".

(** An encoding for the two requests of the example. *)
Definition shop_marshal : JsonMarshal := {|
  marshal_PayRequest := fun _ => None;
  marshal_InvoiceRequest := fun _ => None;
  marshal_InvoiceStatusRequest := fun _ => None;
  marshal_DeductRequest := fun r =>
    if bool_decide (r = buy_request) then Some "buy"%string
    else if bool_decide (r = refund_request) then Some "refund"%string else None;
|}.
Definition shop_json : Json := {|
  unmarshal_PayRequest := fun _ => None;
  unmarshal_InvoiceRequest := fun _ => None;
  unmarshal_InvoiceStatusRequest := fun _ => None;
  unmarshal_DeductRequest := fun s =>
    if (s =? "buy")%string then Some buy_request else if (s =? "refund")%string then Some refund_request else None;
  unmarshal_TransferRequest := fun _ => None;
|}.
#[local] Existing Instance shop_marshal.
#[local] Existing Instance shop_json.

Lemma shop_laws : JsonLaws.
Proof.
  split. intros req data. simpl. repeat case_bool_decide; intros [= <-]; by subst.
Qed.
#[local] Existing Instance shop_laws.

Abbreviation Shop := (st unit (unit * Remote (st Tables (WS * Cache)))).

#[local] Instance shop_server : PayServer (st Tables (WS * Cache)) := botpay_server "secret" (fun _ => demo_order).
#[local] Instance shop_promise : PayPromise (st Tables (WS * Cache)) := botpay_promise "secret" (fun _ => demo_order).

Definition shop_0 : Shop := init_st tt (tt, mkRemote (demo_bus (db demo_3)) None).
Definition shop_1 : Shop := Eval vm_compute in snd (DeductForService shop 1234567 price "gold" shop_0).
Definition shop_2 : Shop := Eval vm_compute in snd (RefundService shop 1234567 price "plan:gold" shop_1).
Definition shop_3 : Shop := Eval vm_compute in snd (DeductForService shop 1234567 price "gold" shop_2).
Definition shop_4 : Shop := Eval vm_compute in snd (RefundService shop 1234567 price "plan:gold" shop_3).

Lemma shop_runs :
  DeductForService shop 1234567 price "gold" shop_0 = (Ok "plan:gold"%string, shop_1) /\
  RefundService shop 1234567 price "plan:gold" shop_1 = (Ok tt, shop_2) /\
  DeductForService shop 1234567 price "gold" shop_2 = (Ok "plan:gold"%string, shop_3) /\
  RefundService shop 1234567 price "plan:gold" shop_3 = (Ok tt, shop_4).
Proof. split_and!; vm_compute; reflexivity. Qed.

Lemma shop_ok : srv_ok (server shop_0).
Proof.
  split; [exact demo_inv|]. apply tg_unique_check. vm_compute.
  repeat (constructor; [intros H; repeat (apply elem_of_cons in H as [H|H]; [discriminate H|]); by apply elem_of_nil in H|]).
  constructor.
Qed.

Lemma second_purchase_is_free_witness :
  exists id, account (server shop_1) 1234567 = Some id /\
    funds (server shop_4) id = funds (server shop_2) id + 700.
Proof.
  destruct shop_runs as (E1 & E2 & E3 & E4).
  destruct (second_purchase_is_free shop 1234567 price "gold" "plan:gold" "plan:gold" shop_0 shop_1 shop_2 shop_3 shop_4
    shop_ok ltac:(discriminate) ltac:(discriminate) E1 E2 E3 E4) as (id & Ha & _ & _ & H).
  exists id. split; [exact Ha|exact H].
Defined.

Lemma retries_pay_once_witness :
  exists id, account (server shop_1) 1234567 = Some id /\ times id "shop" "gold" (server shop_1) = 1%nat.
Proof.
  assert (E : exists v, DeductWithMeta shop 1234567 price "plan:gold" "plan:gold" "gold" (plan_meta "gold") shop_0 = (Ok v, shop_1)).
  { destruct shop_runs as (E1 & _). unfold DeductForService in E1. apply bind_ok in E1 as (v & s1 & E & [= <-]). eauto. }
  destruct E as [v E].
  assert (P : paid_once (server shop_0)) by (intros id sv ref _; vm_compute; lia).
  destruct (retries_pay_once shop shop_0 shop_0 1234567 price "plan:gold" "plan:gold" "gold" (plan_meta "gold") v shop_1
    (rtc_refl _ _) shop_ok P E) as (_ & _ & H).
  apply H. discriminate.
Defined.
End demo.
