(* ===== verification/Revenue.v ===== *)
(** revenue-service: earnings, the rules that split them, and the engine that
    pays the shares through botpay. *)
From S2P Require Import Prelude GoInt GoFloat GoString Effects PayModels WalletService PayResponder PayClient Bus.

(** * internal/store/models.go *)

(** RevenueType is an open string type. *)
Definition RevSubscription : string := "subscription".
Definition RevLockIncome : string := "lock_income".
Definition RevLockRental : string := "lock_rental".
Definition RevAdIncome : string := "ad_income".
Definition RevReward : string := "reward".

Record RevenueRule := {
  rr_ID : uuid; rr_Type : string; rr_OwnerPercent : float64; rr_PlatformPercent : float64;
  rr_IsActive : bool; rr_Description : string;
}.

Inductive EarningStatus := EarningPending | EarningProcessing | EarningDone | EarningFailed.
#[export] Instance EarningStatus_eq_dec : EqDecision EarningStatus.
Proof. solve_decision. Defined.

Record Earning := {
  e_ID : uuid; e_CreatedAt : Z; e_Type : string; e_TotalNano : Z; e_OwnerTelegramID : Z; e_BotID : string;
  e_RefID : string; e_Description : string; e_Status : EarningStatus; e_OwnerNano : Z; e_PlatformNano : Z;
  e_OwnerTxID : string; e_PlatformTxID : string; e_ProcessedAt : option Z; e_Error : ErrorText;
}.

Record PlatformWallet := { pw_ID : uuid; pw_TelegramID : Z; pw_Label : string; pw_IsDefault : bool }.

Record RevTables := {
  rules : gmap uuid RevenueRule; earnings : gmap uuid Earning; platform_wallets : gmap uuid PlatformWallet;
}.

Definition set_rules (f : gmap uuid RevenueRule -> gmap uuid RevenueRule) (d : RevTables) : RevTables :=
  {| rules := f (rules d); earnings := earnings d; platform_wallets := platform_wallets d |}.
Definition set_earnings (f : gmap uuid Earning -> gmap uuid Earning) (d : RevTables) : RevTables :=
  {| rules := rules d; earnings := f (earnings d); platform_wallets := platform_wallets d |}.
Definition set_pwallets (f : gmap uuid PlatformWallet -> gmap uuid PlatformWallet) (d : RevTables) : RevTables :=
  {| rules := rules d; earnings := earnings d; platform_wallets := f (platform_wallets d) |}.

Definition with_status (e : Earning) (s : EarningStatus) : Earning :=
  {| e_ID := e_ID e; e_CreatedAt := e_CreatedAt e; e_Type := e_Type e; e_TotalNano := e_TotalNano e;
     e_OwnerTelegramID := e_OwnerTelegramID e; e_BotID := e_BotID e; e_RefID := e_RefID e;
     e_Description := e_Description e; e_Status := s; e_OwnerNano := e_OwnerNano e;
     e_PlatformNano := e_PlatformNano e; e_OwnerTxID := e_OwnerTxID e; e_PlatformTxID := e_PlatformTxID e;
     e_ProcessedAt := e_ProcessedAt e; e_Error := e_Error e |}.

Definition percent (z : Z) : float64 := f64_of_int z.

Definition default_rule (ty : string) (owner platform : Z) (desc : string) : RevenueRule :=
  {| rr_ID := 0; rr_Type := ty; rr_OwnerPercent := percent owner; rr_PlatformPercent := percent platform;
     rr_IsActive := true; rr_Description := desc |}.

(** IsActive is left to its database default, true. *)
Definition DefaultRules : list RevenueRule :=
  [default_rule RevSubscription 0 100 "خرید پلن — همه به پلتفرم";
   default_rule RevLockIncome 70 30 "درآمد lock — 70% به صاحب";
   default_rule RevLockRental 70 30 "اجاره lock — 70% به مالک";
   default_rule RevAdIncome 70 30 "درآمد تبلیغ — 70% به کانال";
   default_rule RevReward 100 0 "جایزه — همه به کاربر"].

(** * internal/store/store.go *)

Section store.
Context {X : Type} {ENV : Env}.
Abbreviation EM := (M RevTables X).

(** A row or nil, with the error. *)
Definition first_or_nil {A} (q : RevTables -> option A) : EM (option A) :=
  (r <- try (first q) ;;
   match r with
   | Ok a => ret (Some a)
   | Err ErrRecordNotFound => ret None
   | Err e => throw e
   end)%eff.

Definition rule_for (t : string) (d : RevTables) : option RevenueRule :=
  first_row rr_ID (fun r => (rr_Type r =? t)%string && rr_IsActive r) (rows (rules d)).

Definition GetRule (t : string) : EM (option RevenueRule) := first_or_nil (rule_for t).

Definition with_rule_id (r : RevenueRule) (id : uuid) : RevenueRule :=
  {| rr_ID := id; rr_Type := rr_Type r; rr_OwnerPercent := rr_OwnerPercent r;
     rr_PlatformPercent := rr_PlatformPercent r; rr_IsActive := rr_IsActive r; rr_Description := rr_Description r |}.

(** The type is unique. A false IsActive of a new row takes the default. *)
Definition insert_rule (r : RevenueRule) (d : RevTables) : result RevTables :=
  if bool_decide (is_Some (rules d !! rr_ID r)) then Err (ErrDuplicatedKey "revenue_rules_pkey")
  else if existsb (fun x => (rr_Type x =? rr_Type r)%string) (rows (rules d))
  then Err (ErrDuplicatedKey "idx_revenue_rules_type")
  else Ok (set_rules <[rr_ID r :=
    {| rr_ID := rr_ID r; rr_Type := rr_Type r; rr_OwnerPercent := rr_OwnerPercent r;
       rr_PlatformPercent := rr_PlatformPercent r; rr_IsActive := true; rr_Description := rr_Description r |}]> d).

Definition save_rule (r : RevenueRule) (d : RevTables) : result RevTables :=
  if existsb (fun x => (rr_Type x =? rr_Type r)%string && negb (rr_ID x =? rr_ID r)%N) (rows (rules d))
  then Err (ErrDuplicatedKey "idx_revenue_rules_type")
  else match rules d !! rr_ID r with
  | Some _ => Ok (set_rules <[rr_ID r := r]> d)
  | None => insert_rule r d
  end.

(** Save inserts a rule without an id under a fresh one. *)
Definition UpsertRule (r : RevenueRule) : EM unit :=
  if (rr_ID r =? 0)%N then (id <- uuid_New ;; exec (insert_rule (with_rule_id r id)))%eff
  else exec (save_rule r).

Definition ListRules : EM (list RevenueRule) := find (fun d => rows (rules d)).

(** An error of the lookup other than "not found" is ignored. *)
Fixpoint seed_loop (l : list RevenueRule) : EM unit :=
  match l with
  | [] => ret tt
  | r :: l =>
      (q <- try (first (fun d => first_row rr_ID (fun x => (rr_Type x =? rr_Type r)%string) (rows (rules d)))) ;;
       (match q with
        | Err ErrRecordNotFound => (id <- uuid_New ;; exec (insert_rule (with_rule_id r id)))
        | _ => ret tt
        end) ;;
       seed_loop l)%eff
  end.
Definition SeedDefaultRules : EM unit := seed_loop DefaultRules.

Definition CreateEarning (e : Earning) : EM unit :=
  exec (fun d => if bool_decide (is_Some (earnings d !! e_ID e)) then Err (ErrDuplicatedKey "earnings_pkey")
                 else Ok (set_earnings <[e_ID e := e]> d)).

Definition GetEarning (id : uuid) : EM (option Earning) := first_or_nil (fun d => earnings d !! id).

Definition FindEarningByRefID (refID : string) : EM (option Earning) :=
  if (refID =? "")%string then ret None
  else first_or_nil (fun d => first_row e_ID (fun e => (e_RefID e =? refID)%string) (rows (earnings d))).

Definition oldest_created (a b : Earning) : Prop := e_CreatedAt a <= e_CreatedAt b.
#[local] Instance oldest_created_dec : RelDecision oldest_created :=
  fun a b => Z_le_dec (e_CreatedAt a) (e_CreatedAt b).

Definition is_pending_earning (e : Earning) : bool := bool_decide (e_Status e = EarningPending).
Definition pending_list (limit : nat) (d : RevTables) : list Earning :=
  take limit (merge_sort oldest_created (List.filter is_pending_earning (rows (earnings d)))).
Definition ListPendingEarnings (limit : nat) : EM (list Earning) := find (pending_list limit).

(** UPDATE earnings SET ... WHERE id and, for MarkProcessing, status is pending. *)
Definition MarkProcessing (id : uuid) : EM unit :=
  exec (fun d => Ok (set_earnings
    (alter (fun e => if is_pending_earning e then with_status e EarningProcessing else e) id) d)).

Definition done_earning (ownerTxID platformTxID : string) (ownerNano platformNano now : Z) (e : Earning) : Earning :=
  {| e_ID := e_ID e; e_CreatedAt := e_CreatedAt e; e_Type := e_Type e; e_TotalNano := e_TotalNano e;
     e_OwnerTelegramID := e_OwnerTelegramID e; e_BotID := e_BotID e; e_RefID := e_RefID e;
     e_Description := e_Description e; e_Status := EarningDone; e_OwnerNano := ownerNano;
     e_PlatformNano := platformNano; e_OwnerTxID := ownerTxID; e_PlatformTxID := platformTxID;
     e_ProcessedAt := Some now; e_Error := e_Error e |}.

Definition MarkDone (id : uuid) (ownerTxID platformTxID : string) (ownerNano platformNano : Z) : EM unit :=
  (n <- now ;;
   exec (fun d => Ok (set_earnings (alter (done_earning ownerTxID platformTxID ownerNano platformNano n) id) d)))%eff.

Definition failed_earning (errMsg : ErrorText) (now : Z) (e : Earning) : Earning :=
  {| e_ID := e_ID e; e_CreatedAt := e_CreatedAt e; e_Type := e_Type e; e_TotalNano := e_TotalNano e;
     e_OwnerTelegramID := e_OwnerTelegramID e; e_BotID := e_BotID e; e_RefID := e_RefID e;
     e_Description := e_Description e; e_Status := EarningFailed; e_OwnerNano := e_OwnerNano e;
     e_PlatformNano := e_PlatformNano e; e_OwnerTxID := e_OwnerTxID e; e_PlatformTxID := e_PlatformTxID e;
     e_ProcessedAt := Some now; e_Error := errMsg |}.

Definition MarkFailed (id : uuid) (errMsg : ErrorText) : EM unit :=
  (n <- now ;;
   exec (fun d => Ok (set_earnings (alter (failed_earning errMsg n) id) d)))%eff.

(** On a failing query the zero wallet comes back together with the error. *)
Definition no_wallet : PlatformWallet := {| pw_ID := 0; pw_TelegramID := 0; pw_Label := ""; pw_IsDefault := false |}.
Definition GetPlatformWallet : EM (option PlatformWallet * option error) :=
  (r <- try (first (fun d => first_row pw_ID pw_IsDefault (rows (platform_wallets d)))) ;;
   ret (match r with
        | Ok w => (Some w, None)
        | Err ErrRecordNotFound => (None, None)
        | Err e => (Some no_wallet, Some e)
        end))%eff.

Definition default_wallet (w : PlatformWallet) (b : bool) : PlatformWallet :=
  {| pw_ID := pw_ID w; pw_TelegramID := pw_TelegramID w; pw_Label := pw_Label w; pw_IsDefault := b |}.

Definition insert_pwallet (w : PlatformWallet) (d : RevTables) : result RevTables :=
  if bool_decide (is_Some (platform_wallets d !! pw_ID w)) then Err (ErrDuplicatedKey "platform_wallets_pkey")
  else if existsb (fun x => pw_TelegramID x =? pw_TelegramID w) (rows (platform_wallets d))
  then Err (ErrDuplicatedKey "idx_platform_wallets_telegram_id")
  else Ok (set_pwallets <[pw_ID w := w]> d).

Definition save_pwallet (w : PlatformWallet) (d : RevTables) : result RevTables :=
  if existsb (fun x => (pw_TelegramID x =? pw_TelegramID w) && negb (pw_ID x =? pw_ID w)%N) (rows (platform_wallets d))
  then Err (ErrDuplicatedKey "idx_platform_wallets_telegram_id")
  else Ok (set_pwallets <[pw_ID w := w]> d).

(** After a lookup that failed otherwise than with "not found", [w] is still the
    zero value: a row with telegram id 0 is saved under a fresh id. *)
Definition SetPlatformWallet (telegramID : Z) (label : string) : EM unit :=
  (try (exec (fun d => Ok (set_pwallets
     (fmap (fun w => if pw_IsDefault w then default_wallet w false else w)) d))) ;;
   r <- try (first (fun d => first_row pw_ID (fun w => pw_TelegramID w =? telegramID) (rows (platform_wallets d)))) ;;
   match r with
   | Err ErrRecordNotFound =>
       (id <- uuid_New ;;
        exec (insert_pwallet {| pw_ID := id; pw_TelegramID := telegramID; pw_Label := label; pw_IsDefault := true |}))
   | Err _ =>
       (id <- uuid_New ;;
        exec (insert_pwallet {| pw_ID := id; pw_TelegramID := 0; pw_Label := label; pw_IsDefault := true |}))
   | Ok w =>
       exec (save_pwallet {| pw_ID := pw_ID w; pw_TelegramID := pw_TelegramID w; pw_Label := label; pw_IsDefault := true |})
   end)%eff.

Record EarningStats := { es_TotalEarnings : Z; es_TotalOwnerNano : Z; es_PlatformNano : Z; es_PendingCount : Z }.

Definition count_status (st : EarningStatus) (d : RevTables) : Z :=
  Z.of_nat (length (List.filter (fun e => bool_decide (e_Status e = st)) (rows (earnings d)))).
Definition sum_done (f : Earning -> Z) (d : RevTables) : Z :=
  sumZ (fun e => if bool_decide (e_Status e = EarningDone) then f e else 0) (rows (earnings d)).

(** Every query's error is dropped: its figure then stays zero. *)
Definition figure (q : RevTables -> Z) : EM Z :=
  (r <- try (find q) ;; ret (match r with Ok z => z | Err _ => 0 end))%eff.
Definition GetStats : EM EarningStats :=
  (total <- figure (count_status EarningDone) ;;
   pending <- figure (count_status EarningPending) ;;
   sums <- try (find (fun d => (sum_done e_OwnerNano d, sum_done e_PlatformNano d))) ;;
   let '(o, p) := match sums with Ok x => x | Err _ => (0, 0) end in
   ret {| es_TotalEarnings := total; es_TotalOwnerNano := o; es_PlatformNano := p; es_PendingCount := pending |})%eff.
End store.

(** * internal/engine/engine.go *)

(** What the engine keeps, with the pools it published for community-service. *)
Record PoolMessage := { pm_CommunityID : string; pm_PoolNano : Z; pm_RefID : uuid }.
Record RevEngine := { re_platformTelegramID : Z; re_pools : list PoolMessage }.

Section engine.
Context {B : Type} {ENV : Env} {PS : PayServer B} {MARSHAL : JsonMarshal} {FP : F64Platform} (cfg : ClientConfig).
Abbreviation EM := (M RevTables (RevEngine * Remote B)).

Definition revenue_meta : string :=
  "{" +:+ quote +:+ "src" +:+ quote +:+ ":" +:+ quote +:+ "revenue-service" +:+ quote +:+ "}".

(** natspayAdapter.AddCredit *)
Definition AddCredit (telegramID : Z) (amountTON : float64) (desc : string) : EM string :=
  (Credit cfg telegramID amountTON desc revenue_meta ;; ret ""%string)%eff.

(** int64(float64(total) * percent / 100) *)
Definition owner_share (total : Z) (pct : float64) : Z :=
  int64_of_f64 (f64_div (f64_mul (f64_of_int total) pct) (f64_of_int 100)).

Definition pay_owner (e : Earning) (ownerNano : Z) : EM string :=
  if (0 <? ownerNano) && negb (e_OwnerTelegramID e =? 0) then
    (r <- try (AddCredit (e_OwnerTelegramID e) (NanoToTON ownerNano)
                ("درآمد " +:+ e_Type e +:+ " — " +:+ e_Description e)) ;;
     match r with
     | Ok txID => ret txID
     | Err err => (try (MarkFailed (e_ID e) (ErrorOf (Wrapf "owner payment failed: %s" [] err))) ;;
                   throw (Wrapf "owner payment: %w" [] err))
     end)%eff
  else ret ""%string.

(** A failed platform payment is only logged. *)
Definition pay_platform (e : Earning) (platformNano : Z) : EM string :=
  if 0 <? platformNano then
    (w <- GetPlatformWallet ;;
     match fst w with
     | None => ret ""%string
     | Some w =>
         (r <- try (AddCredit (pw_TelegramID w) (NanoToTON platformNano) ("platform commission — " +:+ e_Type e)) ;;
          ret (match r with Ok txID => txID | Err _ => ""%string end))
     end)%eff
  else ret ""%string.

Definition ProcessEarning (e : Earning) : EM unit :=
  if e_TotalNano e <=? 0 then
    (try (MarkFailed (e_ID e) (Msg "invalid total_nano: must be > 0")) ;;
     throw (Errorf "invalid total_nano: %d (must be > 0)" [AInt (e_TotalNano e)]))%eff
  else
  (rule <- wrap_err "get rule: %w" (GetRule (e_Type e)) ;;
   match rule with
   | None => throw (Errorf "no rule for type: %s" [AStr (e_Type e)])
   | Some rule =>
       (let ownerNano := owner_share (e_TotalNano e) (rr_OwnerPercent rule) in
        let platformNano := i64_sub (e_TotalNano e) ownerNano in
        try (MarkProcessing (e_ID e)) ;;
        ownerTxID <- pay_owner e ownerNano ;;
        platformTxID <- pay_platform e platformNano ;;
        MarkDone (e_ID e) ownerTxID platformTxID ownerNano platformNano)
   end)%eff.

Fixpoint process_all (l : list Earning) : EM unit :=
  match l with
  | [] => ret tt
  | e :: l => (try (ProcessEarning e) ;; process_all l)%eff
  end.

Definition processBatch : EM unit :=
  (r <- try (ListPendingEarnings 50) ;;
   match r with Err _ => ret tt | Ok l => process_all l end)%eff.

(** What RunWorker has done after its first batch and [n] ticks. *)
Fixpoint RunWorker (n : nat) : EM unit :=
  match n with O => processBatch | S n => (processBatch ;; RunWorker n)%eff end.

Definition new_earning (id : uuid) (created : Z) (revType : string) (owner total : Z) (botID refID desc : string) : Earning :=
  {| e_ID := id; e_CreatedAt := created; e_Type := revType; e_TotalNano := total; e_OwnerTelegramID := owner;
     e_BotID := botID; e_RefID := refID; e_Description := desc; e_Status := EarningPending; e_OwnerNano := 0;
     e_PlatformNano := 0; e_OwnerTxID := ""; e_PlatformTxID := ""; e_ProcessedAt := None; e_Error := NoError |}.

Definition CreateAndProcess (revType : string) (owner total : Z) (botID refID desc : string) : EM unit :=
  if total <=? 0 then throw (Errorf "invalid total_nano: %d (must be > 0)" [AInt total])
  else
  (existing <- (if (refID =? "")%string then ret None
                else wrap_err "check existing earning: %w" (FindEarningByRefID refID)) ;;
   match existing with
   | Some _ => ret tt
   | None =>
       (id <- uuid_New ;;
        created <- now ;;
        let e := new_earning id created revType owner total botID refID desc in
        wrap_err "create earning: %w" (CreateEarning e) ;;
        ProcessEarning e)
   end)%eff.

Definition publish_pool (m : PoolMessage) : EM unit := fun s =>
  match env_fault (tick s) with
  | Some _ => (Ok tt, bump s)
  | None => (Ok tt, mkSt (S (tick s)) (tx s) (db s)
      ({| re_platformTelegramID := re_platformTelegramID (fst (ext s)); re_pools := re_pools (fst (ext s)) ++ [m] |},
       snd (ext s)))
  end.

Definition group_split (total : Z) : Z * Z * Z :=
  let owner := Z.quot (i64_mul total 50) 100 in
  let pool := Z.quot (i64_mul total 40) 100 in
  (owner, pool, i64_sub (i64_sub total owner) pool).

Definition ProcessGroupRevenue (e : Earning) : EM unit :=
  let '(ownerNano, memberPoolNano, platformNano) := group_split (e_TotalNano e) in
  ((if (0 <? ownerNano) && negb (e_OwnerTelegramID e =? 0)
    then (try (AddCredit (e_OwnerTelegramID e) (NanoToTON ownerNano) "درآمد گروه — سهم owner") ;; ret tt) else ret tt) ;;
   (if 0 <? memberPoolNano
    then publish_pool {| pm_CommunityID := e_BotID e; pm_PoolNano := memberPoolNano; pm_RefID := e_ID e |} else ret tt) ;;
   x <- get_ext ;;
   (if (0 <? platformNano) && negb (re_platformTelegramID (fst x) =? 0)
    then (try (AddCredit (re_platformTelegramID (fst x)) (NanoToTON platformNano) "کمیسیون پلتفرم") ;; ret tt) else ret tt) ;;
   MarkDone (e_ID e) "" "" 0 0)%eff.

Definition Engine_SetPlatformWallet (telegramID : Z) : EM unit :=
  mod_ext (fun x => ({| re_platformTelegramID := telegramID; re_pools := re_pools (fst x) |}, snd x)).

(** * internal/api/api.go *)

Record EarningEvent := {
  ee_Type : string; ee_OwnerTelegramID : Z; ee_TotalNano : Z; ee_BotID : string; ee_RefID : string; ee_Description : string;
}.

(** The HTTP answer: 200, or a status code with a message. *)
Inductive HttpAnswer := HttpOk | HttpFail (code : Z) (msg : ErrorText).

(** authMiddleware: [None] lets the request through, with whether it is the admin's. *)
Definition authMiddleware (adminKey key : string) : HttpAnswer + bool :=
  if (key =? "")%string then inl (HttpFail 401 (Msg "missing api key")) else inr (key =? adminKey)%string.

(** A handler behind the middleware and its own admin check. *)
Definition admin_only (adminKey key : string) (h : EM HttpAnswer) : EM HttpAnswer :=
  match authMiddleware adminKey key with
  | inl a => ret a
  | inr false => ret (HttpFail 403 (Msg "admin only"))
  | inr true => h
  end.

(** The NATS listener of earning.created; an error is logged. *)
Definition on_earning_created (msg : option EarningEvent) : EM unit :=
  match msg with
  | None => ret tt
  | Some m => (try (CreateAndProcess (ee_Type m) (ee_OwnerTelegramID m) (ee_TotalNano m) (ee_BotID m) (ee_RefID m)
                      (ee_Description m)) ;; ret tt)%eff
  end.

(** gin's "required" refuses zero values. *)
Definition createEarning (adminKey key : string) (body : option EarningEvent) : EM HttpAnswer :=
  admin_only adminKey key
  (match body with
   | None => ret (HttpFail 400 (Msg "bad request"))
   | Some m =>
       if (ee_Type m =? "")%string || (ee_OwnerTelegramID m =? 0) || (ee_TotalNano m =? 0)
       then ret (HttpFail 400 (Msg "bad request"))
       else
       (r <- try (CreateAndProcess (ee_Type m) (ee_OwnerTelegramID m) (ee_TotalNano m) (ee_BotID m) (ee_RefID m)
                    (ee_Description m)) ;;
        ret (match r with Ok _ => HttpOk | Err e => HttpFail 500 (ErrorOf e) end))
   end)%eff.

Definition updateRule (adminKey key : string) (body : option RevenueRule) : EM HttpAnswer :=
  admin_only adminKey key
  (match body with
   | None => ret (HttpFail 400 (Msg "bad request"))
   | Some rule =>
       if negb (f64_eq (f64_add (rr_OwnerPercent rule) (rr_PlatformPercent rule)) (f64_of_int 100))
       then ret (HttpFail 400 (Msg "owner_percent + platform_percent must equal 100"))
       else
       (r <- try (UpsertRule rule) ;;
        ret (match r with Ok _ => HttpOk | Err e => HttpFail 500 (ErrorOf e) end))
   end)%eff.

Definition setPlatformWallet (adminKey key : string) (body : option (Z * string)) : EM HttpAnswer :=
  admin_only adminKey key
  (match body with
   | None => ret (HttpFail 400 (Msg "bad request"))
   | Some (telegramID, label) =>
       if telegramID =? 0 then ret (HttpFail 400 (Msg "bad request"))
       else
       (r <- try (SetPlatformWallet telegramID label) ;;
        ret (match r with Ok _ => HttpOk | Err e => HttpFail 500 (ErrorOf e) end))
   end)%eff.
End engine.

(** The listener's json.Unmarshal of an event of the bus. *)
Definition decode_earning (m : Event) : option EarningEvent :=
  match field_string "type" m, field_int64 "owner_telegram_id" m, field_int64 "total_nano" m,
        field_string "bot_id" m, field_string "ref_id" m, field_string "description" m with
  | Some ty, Some owner, Some total, Some bot, Some ref, Some desc =>
      Some {| ee_Type := ty; ee_OwnerTelegramID := owner; ee_TotalNano := total; ee_BotID := bot; ee_RefID := ref;
              ee_Description := desc |}
  | _, _, _, _, _, _ => None
  end.
