(* ===== verification/RevenueSpec.v ===== *)
(** Correctness of revenue-service: what processing an earning pays and books,
    one earning per reference, the split of group revenue, and what a failing
    query or a second worker does to the money. *)
From S2P Require Import Prelude GoInt GoFloat GoString Effects PayModels PayChain PayStore PayInvariant PayStoreSpec.
From S2P Require Import Consensus ConsensusSpec Localization WalletService WalletServiceSpec.
From S2P Require Import PayResponder PayResponderSpec PayClient PayServerSpec PayClientSpec Revenue.

Section spec.
Context {B : Type} {ENV : Env} {JSON : Json} {FP : F64Platform} {MARSHAL : JsonMarshal} {LAWS : JsonLaws}.
Context {PS : PayServer B} {PP : PayPromise B} (cfg : ClientConfig).
Abbreviation RSt := (st RevTables (RevEngine * Remote B)).
Implicit Types s : RSt.

(** * Statements leave the server alone *)

Definition server_kept {A} (m : M RevTables (RevEngine * Remote B) A) : Prop :=
  keeps (fun x => rm_server (snd x)) m.

Lemma kept_server {A} (m : M RevTables (RevEngine * Remote B) A) s r s' :
  server_kept m -> m s = (r, s') -> server s' = server s.
Proof. intros H E. exact (H _ _ _ E). Qed.

Lemma MarkFailed_server id e : server_kept (MarkFailed id e).
Proof. unfold server_kept, MarkFailed. keeps_tac. Qed.
Lemma MarkProcessing_server id : server_kept (MarkProcessing id).
Proof. apply keeps_exec. Qed.
Lemma MarkDone_server id a b c d : server_kept (MarkDone id a b c d).
Proof. unfold server_kept, MarkDone. keeps_tac. Qed.
Lemma GetPlatformWallet_server : server_kept GetPlatformWallet.
Proof. unfold server_kept, GetPlatformWallet. keeps_tac. Qed.
Lemma GetRule_server t : server_kept (wrap_err "get rule: %w" (GetRule t)).
Proof. unfold server_kept, GetRule, first_or_nil. keeps_tac. Qed.

Lemma try_ok {A} (m : M RevTables (RevEngine * Remote B) A) s r s' :
  try m s = (r, s') -> exists q, r = Ok q /\ m s = (q, s').
Proof. apply try_run. Qed.

(** * One payout *)

(** The server's funds grew by [amt] on one account, which is the user's own
    (a user id of 0 names nobody). *)
Definition payout (b b' : B) (tg amt : Z) : Prop :=
  srv_ok b' /\ paid b' = paid b /\
  exists id, (tg <> 0 -> amt <> 0 -> account b' tg = Some id) /\
    forall j, funds b' j = funds b j + (if (j =? id)%N then amt else 0).

Lemma payout_none b tg : srv_ok b -> payout b b tg 0.
Proof. intros O. split; [done|]. split; [done|]. exists 0%N. split; [done|]. intros j. destruct (_ =? _)%N; lia. Qed.

Lemma AddCredit_run tg amt desc s r s' :
  AddCredit cfg tg amt desc s = (r, s') -> srv_ok (server s) ->
  db s' = db s /\ exists a, (a = 0 \/ a = TONToNano amt) /\ (succeeded r = true -> a = TONToNano amt) /\
    payout (server s) (server s') tg a.
Proof.
  unfold AddCredit. intros H O. apply bind_run in H as (r1 & s1 & H & Hr).
  apply Credit_run in H as (D & _ & O' & _ & Hout); [|done].
  assert (Hr' : s' = s1 /\ succeeded r = succeeded r1).
  { destruct r1; [by injection Hr as <- <-|by destruct Hr as [-> ->]]. }
  destruct Hr' as [-> ->]. split; [done|]. destruct Hout as [[[E1 E2] Hf]|(id & Ha & E1 & E2)].
  - exists 0. split; [by left|]. split; [by rewrite Hf|]. split; [done|]. split; [done|]. exists 0%N.
    split; [done|]. intros j. rewrite E2. destruct (_ =? _)%N; lia.
  - exists (TONToNano amt). split; [by right|]. split; [done|]. split; [done|]. split; [done|]. exists id.
    split; [auto|done].
Qed.

(** What a share of [nano] becomes on the wire and back. *)
Definition wired (nano : Z) : Z := TONToNano (NanoToTON nano).

Lemma pay_owner_run e n s r s' :
  pay_owner cfg e n s = (r, s') -> srv_ok (server s) ->
  exists a, (a = 0 \/ a = wired n) /\ payout (server s) (server s') (e_OwnerTelegramID e) a /\
    (succeeded r = true -> db s' = db s /\ (0 < n -> e_OwnerTelegramID e <> 0 -> a = wired n)).
Proof.
  unfold pay_owner. intros H O. destruct (_ && _) eqn:Ec.
  2: { injection H as <- <-. exists 0. split; [by left|]. split; [by apply payout_none|]. intros _. split; [done|].
       intros Hn Ho. exfalso. apply Z.ltb_lt in Hn. apply Z.eqb_neq in Ho. rewrite Hn, Ho in Ec. done. }
  apply bind_run in H as (r1 & s1 & H & Hr). apply try_ok in H as (q & -> & H).
  apply AddCredit_run in H as (D & a & Ha & Hs & Hp); [|done]. exists a. split; [exact Ha|].
  destruct q as [t|err].
  - injection Hr as <- <-. split; [done|]. intros _. split; [done|]. intros _ _. by apply Hs.
  - apply bind_run in Hr as (r2 & s2 & H2 & Hr). apply try_ok in H2 as (q2 & -> & H2).
    injection Hr as <- <-. rewrite (kept_server _ _ _ _ (MarkFailed_server _ _) H2). split; [done|]. by intros.
Qed.

Lemma pay_platform_run e n s r s' :
  pay_platform cfg e n s = (r, s') -> srv_ok (server s) ->
  db s' = db s /\ succeeded r = true /\ exists tg a, (a = 0 \/ a = wired n) /\ payout (server s) (server s') tg a.
Proof.
  unfold pay_platform. intros H O. destruct (0 <? n).
  2: { injection H as <- <-. split; [done|]. split; [done|]. exists 0, 0. split; [by left|by apply payout_none]. }
  apply bind_run in H as (r1 & s1 & H & Hr).
  assert (Hw : (exists w, r1 = Ok w) /\ db s1 = db s).
  { split.
    - unfold GetPlatformWallet, bind, try, ret in H. destruct (first _ s). injection H as <- _. eauto.
    - assert (Hrd : reads (X := RevEngine * Remote B) GetPlatformWallet) by (unfold GetPlatformWallet; reads_tac).
      by apply Hrd in H. }
  destruct Hw as [[w ->] D1]. pose proof (kept_server _ _ _ _ GetPlatformWallet_server H) as S1.
  destruct (fst w) as [pw|].
  - apply bind_run in Hr as (r2 & s2 & H2 & Hr). apply try_ok in H2 as (q & -> & H2). injection Hr as <- <-.
    apply AddCredit_run in H2 as (D2 & a & Ha & _ & Hp); [|by rewrite S1]. rewrite S1 in Hp.
    split; [congruence|]. split; [done|]. exists (pw_TelegramID pw), a. done.
  - injection Hr as <- <-. rewrite S1. split; [done|]. split; [done|]. exists 0, 0. split; [by left|by apply payout_none].
Qed.

Definition row_done (e : Earning) (own plat : Z) (d d' : RevTables) : Prop :=
  exists n o p, earnings d' = alter (done_earning o p own plat n) (e_ID e) (earnings d).

Lemma reads_GetRule t : reads (X := RevEngine * Remote B) (wrap_err "get rule: %w" (GetRule t)).
Proof. unfold GetRule, first_or_nil. reads_tac. Qed.

Lemma GetRule_ok t s r s' :
  wrap_err "get rule: %w" (GetRule t) s = (Ok r, s') -> db s' = db s /\ server s' = server s /\
  (forall rule, r = Some rule -> rule_for t (db s) = Some rule).
Proof.
  intros H. split; [by apply reads_GetRule in H|]. split; [by apply kept_server in H; [|apply GetRule_server]|].
  apply wrap_err_ok in H. unfold GetRule, first_or_nil in H. intros rule ->.
  apply bind_ok in H as (q & s1 & E & H). apply try_run in E as (q' & [= ->] & E). destruct q' as [r|[]]; try done.
  injection H as -> _. by apply first_ok in E as (E & _).
Qed.

Definition marked (id : uuid) (d : RevTables) : RevTables :=
  set_earnings (alter (fun e => if is_pending_earning e then with_status e EarningProcessing else e) id) d.

Lemma try_mark_db id s r s' :
  try (MarkProcessing id) s = (r, s') -> exists q, r = Ok q /\ (db s' = db s \/ db s' = marked id (db s)) /\ server s' = server s.
Proof.
  intros H. apply try_ok in H as (q & -> & H). pose proof (kept_server _ _ _ _ (MarkProcessing_server _) H) as S1.
  exists q. split; [done|]. split; [|done]. destruct q as [u|e].
  - apply exec_ok in H as (d & [= <-] & -> & _). by right.
  - apply stmt_err_db in H as [-> _]. by left.
Qed.

Lemma MarkDone_ok id o p own plat s s' :
  MarkDone id o p own plat s = (Ok tt, s') -> exists n, db s' = set_earnings (alter (done_earning o p own plat n) id) (db s).
Proof.
  unfold MarkDone. intros H. apply bind_ok in H as (n & s1 & E & H). injection E as <- <-.
  apply exec_ok in H as (d & [= <-] & -> & _). eauto.
Qed.

Lemma shares_add_up total own : in_int64 total -> i64_add own (i64_sub total own) = total.
Proof.
  intros H. unfold i64_add, i64_sub. 
  replace (own + wrap64 (total - own)) with (wrap64 (total - own) - - own) by lia.
  rewrite wrap64_sub. replace (total - own - - own) with total by lia.
  by apply wrap64_id.
Qed.


(** * One earning per reference *)

Record rev_ok (d : RevTables) : Prop := {
  rev_key : forall k e, earnings d !! k = Some e -> e_ID e = k;
  rev_ref : forall k1 k2 e1 e2, earnings d !! k1 = Some e1 -> earnings d !! k2 = Some e2 ->
    e_RefID e1 <> ""%string -> e_RefID e1 = e_RefID e2 -> k1 = k2;
}.

(** The same earnings, but for what processing writes on them. *)
Definition shape (d : RevTables) : gmap uuid (uuid * string) := (fun e => (e_ID e, e_RefID e)) <$> earnings d.
Definition same_shape (d d' : RevTables) : Prop := shape d' = shape d.

#[local] Instance same_shape_preorder : PreOrder same_shape.
Proof. split; [done|]. intros d1 d2 d3 H1 H2. unfold same_shape in *. congruence. Qed.

Lemma same_shape_ok d d' : same_shape d d' -> rev_ok d -> rev_ok d'.
Proof.
  unfold same_shape, shape. intros H [Hk Hr].
  assert (L : forall k e, earnings d' !! k = Some e -> exists e0, earnings d !! k = Some e0 /\ e_ID e0 = e_ID e /\ e_RefID e0 = e_RefID e).
  { intros k e He. assert (E : ((fun e => (e_ID e, e_RefID e)) <$> earnings d) !! k = Some (e_ID e, e_RefID e)).
    { rewrite <- H, lookup_fmap, He. done. }
    apply lookup_fmap_Some in E as (e0 & [= E1 E2] & He0). eauto. }
  split.
  - intros k e He. destruct (L _ _ He) as (e0 & He0 & E1 & _). rewrite <- E1. eauto.
  - intros k1 k2 e1 e2 H1 H2 Hn E. destruct (L _ _ H1) as (f1 & F1 & _ & R1), (L _ _ H2) as (f2 & F2 & _ & R2).
    apply (Hr _ _ _ _ F1 F2); congruence.
Qed.

Lemma alter_shape f id d :
  (forall e, e_ID (f e) = e_ID e /\ e_RefID (f e) = e_RefID e) -> same_shape d (set_earnings (alter f id) d).
Proof.
  intros Hf. unfold same_shape, shape. simpl. apply map_eq. intros k. rewrite !lookup_fmap.
  destruct (decide (k = id)) as [->|Hn]; [rewrite lookup_alter_eq|by rewrite lookup_alter_ne].
  destruct (earnings d !! id) as [e|]; [|done]. simpl. destruct (Hf e) as [-> ->]. done.
Qed.

Abbreviation same m := (moves (X := RevEngine * Remote B) same_shape m).

Lemma MarkProcessing_same id : same (MarkProcessing id).
Proof.
  apply moves_exec; [typeclasses eauto|]. intros d d' [= <-]. apply alter_shape. intros e. by destruct (is_pending_earning e).
Qed.
Lemma MarkDone_same id a b c p : same (MarkDone id a b c p).
Proof.
  unfold MarkDone. apply moves_bind; [typeclasses eauto|apply moves_reads; [typeclasses eauto|apply reads_now]|intros n].
  apply moves_exec; [typeclasses eauto|]. intros d d' [= <-]. by apply alter_shape.
Qed.
Lemma MarkFailed_same id e : same (MarkFailed id e).
Proof.
  unfold MarkFailed. apply moves_bind; [typeclasses eauto|apply moves_reads; [typeclasses eauto|apply reads_now]|intros n].
  apply moves_exec; [typeclasses eauto|]. intros d d' [= <-]. by apply alter_shape.
Qed.

Lemma reads_AddCredit tg amt desc : reads (AddCredit cfg tg amt desc).
Proof. unfold AddCredit. apply reads_bind; [apply reads_Credit|intros; apply reads_ret]. Qed.
Lemma reads_GetPlatformWallet : reads (X := RevEngine * Remote B) GetPlatformWallet.
Proof. unfold GetPlatformWallet. reads_tac. Qed.
#[local] Hint Resolve reads_AddCredit reads_GetPlatformWallet reads_GetRule : botpay.
#[local] Hint Resolve MarkProcessing_same MarkDone_same MarkFailed_same : moves.

Lemma ProcessEarning_same e : same (ProcessEarning cfg e).
Proof. unfold ProcessEarning, pay_owner, pay_platform. moves_tac. Qed.

Lemma processBatch_same : same (processBatch cfg).
Proof.
  unfold processBatch. apply moves_bind; [typeclasses eauto|apply moves_reads; [typeclasses eauto|]|].
  - apply reads_try, reads_find.
  - intros [l|e]; [|apply moves_reads; [typeclasses eauto|apply reads_ret]].
    induction l as [|e l IH]; [apply moves_reads; [typeclasses eauto|apply reads_ret]|].
    apply moves_bind; [typeclasses eauto|apply moves_try, ProcessEarning_same|done].
Qed.

Lemma RunWorker_same n : same (RunWorker cfg n).
Proof.
  induction n as [|n IH]; [apply processBatch_same|]. apply moves_bind; [typeclasses eauto|apply processBatch_same|done].
Qed.

Lemma ProcessGroupRevenue_same e : same (ProcessGroupRevenue cfg e).
Proof.
  unfold ProcessGroupRevenue. destruct (group_split _) as [[o m] p].
  assert (Hpool : forall x, reads (publish_pool (B := B) x)).
  { intros x s r s' H. unfold publish_pool in H. destruct (env_fault _); by injection H as _ <-. }
  moves_tac. all: try (apply moves_reads; [typeclasses eauto|auto with botpay]).
Qed.

Lemma find_ref_none ref d :
  first_row e_ID (fun e => (e_RefID e =? ref)%string) (rows (earnings d)) = None ->
  forall k e, earnings d !! k = Some e -> e_RefID e <> ref.
Proof.
  intros H k e He Er. rewrite first_row_none in H. specialize (H e ltac:(apply elem_of_rows; eauto)). zbool. done.
Qed.

Definition find_ref (ref : string) : M RevTables (RevEngine * Remote B) (option Earning) :=
  if (ref =? "")%string then ret None else wrap_err "check existing earning: %w" (FindEarningByRefID ref).

Lemma find_ref_ok ref s r s' :
  find_ref ref s = (Ok r, s') -> db s' = db s /\ server s' = server s /\
  (ref = ""%string \/ r = first_row e_ID (fun e => (e_RefID e =? ref)%string) (rows (earnings (db s)))).
Proof.
  unfold find_ref. destruct (_ =? "")%string eqn:E0; [injection 1 as <- <-; zbool; auto|]. intros H.
  assert (Hr : reads (X := RevEngine * Remote B) (FindEarningByRefID ref)).
  { unfold FindEarningByRefID, first_or_nil. rewrite E0. reads_tac. }
  assert (Hs : server_kept (FindEarningByRefID ref)).
  { unfold server_kept, FindEarningByRefID, first_or_nil. rewrite E0. keeps_tac. }
  apply wrap_err_ok in H. split; [by apply Hr in H|]. split; [by apply (kept_server _ _ _ _ Hs) in H|]. right.
  unfold FindEarningByRefID, first_or_nil in H. rewrite E0 in H.
  apply bind_ok in H as (q & s1 & E & H). apply try_run in E as (q' & [= ->] & E). destruct q' as [e|er].
  - injection H as <- _. by apply first_ok in E as (-> & _).
  - destruct er; try done. injection H as <- _. unfold first, stmt in E.
    destruct (tx s); try done; (destruct (env_fault _); [done|]);
      destruct (first_row _ _ _) eqn:Ef in E; try done; by rewrite Ef.
Qed.

Lemma CreateAndProcess_ok t o n b ref ds s r s' :
  CreateAndProcess cfg t o n b ref ds s = (r, s') -> rev_ok (db s) -> rev_ok (db s').
Proof.
  unfold CreateAndProcess. intros H I. destruct (n <=? 0); [by injection H as _ <-|]. fold (find_ref ref) in H.
  apply bind_run in H as (r1 & s1 & H1 & H). destruct r1 as [ex|e].
  2: { destruct H as [_ ->]. assert (Hr : reads (find_ref ref)).
       { unfold find_ref, FindEarningByRefID, first_or_nil. reads_tac. }
       by rewrite (Hr _ _ _ H1). }
  apply find_ref_ok in H1 as (D1 & _ & Hex). destruct ex as [ex|]; [injection H as _ <-; congruence|].
  do 2 (apply bind_run in H as (? & ? & E & H); injection E as <- <-).
  apply bind_run in H as (r2 & s2 & H2 & H).
  assert (I2 : rev_ok (db s2)).
  { unfold wrap_err in H2. destruct (CreateEarning _ _) as [q s3] eqn:E. assert (s3 = s2) as -> by (by destruct q; injection H2).
    destruct q as [u|er]; [|by apply stmt_err_db in E as [-> _]; simpl; rewrite D1].
    apply exec_ok in E as (d & Hd & -> & _). simpl in *. rewrite D1 in Hd.
    destruct (bool_decide _) eqn:Hk in Hd; [done|]. injection Hd as <-. apply bool_decide_eq_false, eq_None_not_Some in Hk.
    assert (Hf : forall k e, earnings (db s) !! k = Some e -> ref = ""%string \/ e_RefID e <> ref).
    { intros k e He. destruct Hex as [->|Hex]; [by left|]. right. by apply (find_ref_none _ _ (eq_sym Hex) k). }
    simpl in *. split; simpl.
    - intros k e [[<- <-]|[_ He]]%lookup_insert_Some; [done|by apply (rev_key _ I)].
    - intros k1 k2 e1 e2 [[<- <-]|[N1 H1]]%lookup_insert_Some [[<- <-]|[N2 H2']]%lookup_insert_Some Hn E; simpl in *; auto.
      + destruct (Hf _ _ H2'); congruence.
      + destruct (Hf _ _ H1); congruence.
      + by apply (rev_ref _ I _ _ _ _ H1 H2'). }
  destruct r2 as [u|er]; [|by destruct H as [_ ->]]. apply ProcessEarning_same in H. by apply (same_shape_ok _ _ H).
Qed.

(** What the service does to its tables; the tables of rules and wallets may change too. *)
Inductive rev_step s : RSt -> Prop :=
| rs_event t o n b ref ds r s' : CreateAndProcess cfg t o n b ref ds s = (r, s') -> rev_step s s'
| rs_worker n r s' : RunWorker cfg n s = (r, s') -> rev_step s s'
| rs_group e r s' : ProcessGroupRevenue cfg e s = (r, s') -> rev_step s s'
| rs_admin s' : earnings (db s') = earnings (db s) -> rev_step s s'.

Lemma rev_step_ok s s' : rev_step s s' -> rev_ok (db s) -> rev_ok (db s').
Proof.
  intros [t o n b ref ds r s1 H|n r s1 H|e r s1 H|s1 H] I.
  - by eapply CreateAndProcess_ok.
  - apply RunWorker_same in H. by apply (same_shape_ok _ _ H).
  - apply ProcessGroupRevenue_same in H. by apply (same_shape_ok _ _ H).
  - destruct I as [Hk Hr]. split; rewrite H; eauto.
Qed.

(** Served one at a time, events, worker rounds and administration never
    record two earnings under one non-empty reference; and an event whose
    reference is recorded already changes no table and moves no money, whatever
    fails. *)
Theorem one_earning_per_reference s s' t o n b ref ds r s'' k e :
  rtc rev_step s s' -> rev_ok (db s) ->
  earnings (db s') !! k = Some e -> e_RefID e = ref -> ref <> ""%string ->
  CreateAndProcess cfg t o n b ref ds s' = (r, s'') ->
  (forall k' e', earnings (db s') !! k' = Some e' -> e_RefID e' = ref -> k' = k) /\
  db s'' = db s' /\ server s'' = server s'.
Proof.
  intros Hs I He Er Hne H.
  assert (I' : rev_ok (db s')) by (induction Hs; eauto using rev_step_ok). split.
  { intros k' e' He' Er'. apply (rev_ref _ I' _ _ _ _ He' He); congruence. }
  unfold CreateAndProcess in H. destruct (n <=? 0); [by injection H as _ <-|]. fold (find_ref ref) in H.
  apply bind_run in H as (r1 & s1 & H1 & H). destruct r1 as [ex|er].
  - apply find_ref_ok in H1 as (D1 & S1 & [Hex|Hex]); [done|]. destruct ex as [ex|]; [by injection H as _ <-|].
    exfalso. by apply (find_ref_none _ _ (eq_sym Hex) _ _ He).
  - destruct H as [_ ->].
    assert (Hr : reads (find_ref ref)) by (unfold find_ref, FindEarningByRefID, first_or_nil; reads_tac).
    assert (Hk : server_kept (find_ref ref)) by (unfold server_kept, find_ref, FindEarningByRefID, first_or_nil; keeps_tac).
    split; [by apply Hr in H1|by apply (kept_server _ _ _ _ Hk) in H1].
Qed.
End spec.

(** * Group revenue *)

(** Up to a fiftieth of the int64 range the group split loses nothing: the
    three shares are not negative and add up to the total, the owner gets half
    and the members four tenths rounded down, the platform the rest. Just above
    that bound the product overflows and the owner's share is negative, which
    hands the platform more than the total. *)
Theorem group_split_bounds total :
  (0 <= total <= Z.div int64_max 50 ->
   group_split total = (total / 2, 2 * total / 5, total - total / 2 - 2 * total / 5) /\
   total / 10 <= total - total / 2 - 2 * total / 5) /\
  (let big := Z.div int64_max 50 + 1 in let '(o, m, p) := group_split big in o < 0 /\ big < p).
Proof.
  split; [|vm_compute; done]. intros Ht. change (int64_max / 50) with 184467440737095516 in Ht. unfold group_split, i64_mul, i64_sub.
  assert (H50 : in_int64 (total * 50)) by (unfold in_int64, int64_min, int64_max in *; lia).
  assert (H40 : in_int64 (total * 40)) by (unfold in_int64, int64_min, int64_max in *; lia).
  rewrite !wrap64_id by done. rewrite !Z.quot_div_nonneg by lia.
  replace (total * 50 / 100) with (total / 2) by (rewrite <- (Z.div_mul_cancel_r total 2 50) by lia; f_equal; lia).
  replace (total * 40 / 100) with (2 * total / 5)
    by (rewrite <- (Z.div_mul_cancel_r (2 * total) 5 20) by lia; f_equal; lia).
  assert (Hb : 0 <= total / 2 <= total /\ 0 <= 2 * total / 5 <= total /\ 0 <= total - total / 2 - 2 * total / 5 <= total
    /\ total / 10 <= total - total / 2 - 2 * total / 5).
  { clear -Ht. Z.to_euclidean_division_equations. lia. }
  assert (Hr : forall z, 0 <= z <= total -> wrap64 z = z).
  { intros z Hz. apply wrap64_id. unfold in_int64, int64_min, int64_max in *. lia. }
  rewrite (Hr (total - total / 2)), Hr by lia. split; [done|lia].
Qed.

(** * Examples: revenue-service in front of botpay *)

Section demo.
#[local] Existing Instance demo_lib.
#[local] Existing Instance demo_crypto.
#[local] Existing Instance demo_locales.
#[local] Existing Instance amd64.

#[local] Instance spec_float_eq_dec : EqDecision SpecFloat.spec_float.
Proof. solve_decision. Defined.
#[local] Instance pay_request_eq_dec : EqDecision PayRequest.
Proof. solve_decision. Defined.
#[local] Instance deduct_request_eq_dec : EqDecision DeductRequest.
Proof. solve_decision. Defined.

Definition rev_cfg : ClientConfig := {| cc_ServiceID := "revenue-service"; cc_ServiceKey := HexEncode "revenue-service" |}.

Definition credit_request (tg : Z) (amt : float64) (ref : string) : DeductRequest :=
  {| dr_Pay := base rev_cfg tg; dr_AmountTON := amt; dr_Reason := ref; dr_Ref := ref;
     dr_Metadata := revenue_meta; dr_IdempotencyKey := "" |}.

(** An earning of 1 TON: a subscription goes to the platform, an ad share to user 1234567. *)
Definition sub_earning : Earning := new_earning 1 0 RevSubscription 1234567 1000000000 "bot_1" "sub-1" "plan".
Definition ad_earning : Earning := new_earning 2 0 RevAdIncome 1234567 1000000000 "bot_1" "ad-1" "ad".

Definition to_nobody : DeductRequest := credit_request 0 (NanoToTON 1000000000) "platform commission — subscription".
Definition to_owner : DeductRequest := credit_request 1234567 (NanoToTON 700000000) "درآمد ad_income — ad".

Definition rev_marshal : JsonMarshal := {|
  marshal_PayRequest := fun _ => None;
  marshal_InvoiceRequest := fun _ => None;
  marshal_InvoiceStatusRequest := fun _ => None;
  marshal_DeductRequest := fun r =>
    if bool_decide (r = to_nobody) then Some "nobody"%string
    else if bool_decide (r = to_owner) then Some "owner"%string else None;
|}.
Definition rev_json : Json := {|
  unmarshal_PayRequest := fun _ => None;
  unmarshal_InvoiceRequest := fun _ => None;
  unmarshal_InvoiceStatusRequest := fun _ => None;
  unmarshal_DeductRequest := fun s =>
    if (s =? "nobody")%string then Some to_nobody else if (s =? "owner")%string then Some to_owner else None;
  unmarshal_TransferRequest := fun _ => None;
|}.
#[local] Existing Instance rev_marshal.
#[local] Existing Instance rev_json.

Lemma rev_laws : JsonLaws.
Proof. split. intros req data. simpl. repeat case_bool_decide; intros [= <-]; by subst. Qed.
#[local] Existing Instance rev_laws.

(** Only statement [n] fails, if any. *)
Definition fails_at (n : option nat) : Env := {|
  env_fault := fun k => if bool_decide (Some k = n) then Some 1 else None;
  env_now := fun n => Z.of_nat n;
  env_uuid := fun n => N.of_nat (2000 + n);
  env_random := fun n => String (ascii_of_nat n) "abc";
  idx_tx_hash := true;
|}.

Abbreviation BotpayState := (st Tables (WS * Cache)).
Abbreviation RevState := (st RevTables (RevEngine * Remote BotpayState)).
Abbreviation behind E := (botpay_server (ENV := E) "secret" (fun _ => demo_order)).

(** The platform's wallet is that of user 42. *)
Definition rev_tables : RevTables :=
  {| rules := {[ 7%N := with_rule_id (default_rule RevSubscription 0 100 "") 7;
                 8%N := with_rule_id (default_rule RevAdIncome 70 30 "") 8 ]};
     earnings := {[ 1%N := sub_earning; 2%N := ad_earning ]};
     platform_wallets := {[ 9%N := {| pw_ID := 9; pw_TelegramID := 42; pw_Label := "p"; pw_IsDefault := true |} ]} |}.

Definition rev_0 : RevState :=
  init_st rev_tables ({| re_platformTelegramID := 42; re_pools := [] |}, mkRemote (demo_bus (db demo_3)) None).

(** The subscription processed while the query for the platform's wallet fails. *)
Definition rev_lost : result unit * RevState := Eval vm_compute in
  ProcessEarning (ENV := fails_at (Some 2%nat)) (PS := behind (fails_at (Some 2%nat))) rev_cfg sub_earning rev_0.

(** When the query for the platform's wallet fails, the commission goes to a
    stranger: the zero row that comes back names user 0, whom botpay takes for
    its first wallet, here that of user 1234567, who is credited the whole TON
    of a subscription while the earning is booked as done. *)
Theorem commission_to_stranger :
  ProcessEarning (ENV := fails_at (Some 2%nat)) (PS := behind (fails_at (Some 2%nat))) rev_cfg sub_earning rev_0
    = (Ok tt, snd rev_lost) /\
  w_TelegramID <$> wallets (db (server rev_0)) !! 1001%N = Some 1234567 /\
  booked (db (server (snd rev_lost))) 1001 = booked (db (server rev_0)) 1001 + 1000000000 /\
  e_Status <$> earnings (db (snd rev_lost)) !! 1%N = Some EarningDone.
Proof. split_and!; vm_compute; reflexivity. Qed.

#[local] Existing Instance calm_env.

(** Two replicas list the pending earnings; the second processes its list after
    the first is through. *)
Definition race_1 : RevState := Eval vm_compute in
  snd (ProcessEarning (ENV := calm_env) (PS := behind calm_env) rev_cfg ad_earning rev_0).
Definition race_2 : RevState := Eval vm_compute in
  snd (process_all (ENV := calm_env) (PS := behind calm_env) rev_cfg [ad_earning] race_1).

(** Two workers pay one earning twice: an earning that another replica lists
    before it is marked is paid to its owner again after the first has finished,
    because nothing looks at the row's status (MarkProcessing reports no
    conflict) and a credit has no idempotency key. *)
Theorem racing_workers_pay_twice :
  ad_earning ∈ pending_list 50 (db rev_0) /\
  e_Status <$> earnings (db race_1) !! 2%N = Some EarningDone /\
  process_all (ENV := calm_env) (PS := behind calm_env) rev_cfg [ad_earning] race_1 = (Ok tt, race_2) /\
  booked (db (server race_2)) 1001 = booked (db (server rev_0)) 1001 + 2 * 700000000.
Proof.
  split_and!; try (vm_compute; reflexivity). apply list_elem_of_In. vm_compute. first [by left|right; by left].
Qed.

#[local] Instance calm_server : PayServer BotpayState := behind calm_env.
#[local] Instance calm_promise : PayPromise BotpayState := botpay_promise (ENV := calm_env) "secret" (fun _ => demo_order).

Lemma rev_server_ok : srv_ok (server rev_0).
Proof.
  split; [exact demo_inv|]. apply tg_unique_check. vm_compute.
  repeat (constructor; [intros H; repeat (apply elem_of_cons in H as [H|H]; [discriminate H|]); by apply elem_of_nil in H|]).
  constructor.
Qed.

Lemma race_1_run : ProcessEarning rev_cfg ad_earning rev_0 = (Ok tt, race_1).
Proof. vm_compute. reflexivity. Qed.


Lemma rev_0_ok : rev_ok (db rev_0).
Proof.
  assert (H : forall k e, earnings (db rev_0) !! k = Some e -> (k = 1%N /\ e = sub_earning) \/ (k = 2%N /\ e = ad_earning)).
  { intros k e. simpl. intros [[<- <-]|[_ H]]%lookup_insert_Some; [by left|]. apply lookup_singleton_Some in H as [<- <-]. by right. }
  split.
  - intros k e He. by destruct (H _ _ He) as [[-> ->]|[-> ->]].
  - intros k1 k2 e1 e2 H1 H2 _. by destruct (H _ _ H1) as [[-> ->]|[-> ->]], (H _ _ H2) as [[-> ->]|[-> ->]].
Qed.

(** The event of the ad arrives again. *)
Lemma one_earning_per_reference_witness :
  exists r s, CreateAndProcess rev_cfg RevAdIncome 1234567 500 "bot_1" "ad-1" "again" rev_0 = (r, s) /\
    db s = db rev_0 /\ server s = server rev_0.
Proof.
  destruct (CreateAndProcess rev_cfg RevAdIncome 1234567 500 "bot_1" "ad-1" "again" rev_0) as [r s] eqn:E.
  destruct (one_earning_per_reference rev_cfg rev_0 rev_0 _ _ _ _ _ _ r s 2%N ad_earning (rtc_refl _ _) rev_0_ok
    ltac:(vm_compute; reflexivity) ltac:(reflexivity) ltac:(discriminate) E) as (_ & H1 & H2).
  exists r, s. split; [reflexivity|split; [exact H1|exact H2]].
Defined.

Lemma group_split_bounds_witness : group_split 1000000007 = (500000003, 400000002, 100000002).
Proof. exact (proj1 (proj1 (group_split_bounds 1000000007) ltac:(split; [discriminate|vm_compute; discriminate]))). Defined.
End demo.
