(* ===== verification/Community.v ===== *)
(** community-service: groups and channels, the members a campaign brings them,
    and the distribution of campaign revenue. *)
From S2P Require Import Prelude GoInt GoFloat GoString Effects PayModels PayChain Bus.

(** * internal/store/models.go *)

(** CommunityType and CommunityStatus are open string types. *)
Definition CommunityGroup : string := "group".
Definition CommunityChannel : string := "channel".
Definition CommunityPending : string := "pending".
Definition CommunityActive : string := "active".
Definition CommunitySuspended : string := "suspended".
Definition CommunityRejected : string := "rejected".

Record Community := {
  c_ID : uuid; c_DeletedAt : option Z; c_OwnerID : uuid; c_TelegramID : Z; c_Type : string; c_Name : string;
  c_Username : string; c_Status : string; c_InviteLink : string; c_InviteHash : string;
  c_OwnerPercent : float64; c_MembersPercent : float64; c_PlatformPercent : float64;
  c_MemberCount : Z; c_QualityScore : Z; c_ValidationWindowSec : Z; c_VerifiedAt : option Z;
}.

Definition f64_0 : float64 := f64_of_int 0.

Definition RevenuePercentages (c : Community) : float64 * float64 * float64 :=
  if f64_gt (c_OwnerPercent c) f64_0 then (c_OwnerPercent c, c_MembersPercent c, c_PlatformPercent c)
  else if (c_Type c =? CommunityGroup)%string then (f64_of_int 50, f64_of_int 40, f64_of_int 10)
  else if (c_Type c =? CommunityChannel)%string then (f64_of_int 90, f64_of_int 0, f64_of_int 10)
  else (f64_of_int 80, f64_of_int 0, f64_of_int 20).

Record CampaignParticipant := {
  p_ID : uuid; p_CampaignID : uuid; p_CommunityID : uuid; p_TelegramID : Z; p_JoinedAt : Z;
  p_ValidatedAt : option Z; p_LeftAt : option Z; p_Status : string; p_RevenueEarned : float64;
}.

Definition Participant_IsValid (p : CampaignParticipant) : bool := (p_Status p =? "validated")%string.

Record CommunityRevenue := {
  cr_ID : uuid; cr_CommunityID : uuid; cr_CampaignID : uuid; cr_TotalAmount : float64;
  cr_OwnerAmount : float64; cr_MembersAmount : float64; cr_PlatformAmount : float64;
  cr_ValidJoins : Z; cr_Status : string; cr_DistributedAt : option Z;
}.

Record CommunityDistribution := {
  cd_ID : uuid; cd_RevenueID : uuid; cd_CommunityID : uuid; cd_TelegramID : Z; cd_Amount : float64;
  cd_ActivityScore : Z; cd_TxID : string; cd_Status : string;
}.

Definition DefaultValidationWindow : Z := 86400.

Record CommTables := {
  communities : gmap uuid Community; participants : gmap uuid CampaignParticipant;
  revenues : gmap uuid CommunityRevenue; distributions : gmap uuid CommunityDistribution;
}.

Definition set_communities (f : gmap uuid Community -> gmap uuid Community) (d : CommTables) : CommTables :=
  {| communities := f (communities d); participants := participants d; revenues := revenues d;
     distributions := distributions d |}.
Definition set_participants (f : gmap uuid CampaignParticipant -> gmap uuid CampaignParticipant) (d : CommTables)
  : CommTables :=
  {| communities := communities d; participants := f (participants d); revenues := revenues d;
     distributions := distributions d |}.
Definition set_revenues (f : gmap uuid CommunityRevenue -> gmap uuid CommunityRevenue) (d : CommTables) : CommTables :=
  {| communities := communities d; participants := participants d; revenues := f (revenues d);
     distributions := distributions d |}.
Definition set_distributions (f : gmap uuid CommunityDistribution -> gmap uuid CommunityDistribution) (d : CommTables)
  : CommTables :=
  {| communities := communities d; participants := participants d; revenues := revenues d;
     distributions := f (distributions d) |}.

(** ** What the service keeps beside its tables *)

(** A document of the MongoDB collection community_activity. *)
Record MemberActivity := {
  ma_TelegramID : Z; ma_CommunityID : Z; ma_Messages : Z; ma_Replies : Z; ma_Reactions : Z;
  ma_ActiveDays : Z; ma_ActivityScore : Z; ma_UpdatedAt : Z;
}.

(** A goroutine of HandleJoin that waits until [tm_Due] to publish. *)
Record Timer := { tm_Due : Z; tm_Participant : uuid; tm_Community : uuid; tm_Campaign : string }.

(** [cw_mongo] is nil unless a database was handed to store.New. *)
Record CommWorld := {
  cw_mongo : option (list MemberActivity); cw_timers : list Timer; cw_sent : list Event;
}.

Definition set_mongo (f : list MemberActivity -> list MemberActivity) (w : CommWorld) : CommWorld :=
  {| cw_mongo := f <$> cw_mongo w; cw_timers := cw_timers w; cw_sent := cw_sent w |}.
Definition set_timers (f : list Timer -> list Timer) (w : CommWorld) : CommWorld :=
  {| cw_mongo := cw_mongo w; cw_timers := f (cw_timers w); cw_sent := cw_sent w |}.

#[export] Instance comm_outbox : Outbox CommWorld.
Proof.
  refine {| outbox := cw_sent;
            post := fun m w => {| cw_mongo := cw_mongo w; cw_timers := cw_timers w; cw_sent := cw_sent w ++ [m] |} |}.
  done.
Defined.

(** * internal/store/store.go *)

Section store.
Context {ENV : Env}.
Abbreviation CM := (M CommTables CommWorld).

Definition zero_community : Community := {|
  c_ID := 0; c_DeletedAt := None; c_OwnerID := 0; c_TelegramID := 0; c_Type := ""; c_Name := ""; c_Username := "";
  c_Status := ""; c_InviteLink := ""; c_InviteHash := ""; c_OwnerPercent := f64_0; c_MembersPercent := f64_0;
  c_PlatformPercent := f64_0; c_MemberCount := 0; c_QualityScore := 0; c_ValidationWindowSec := 0;
  c_VerifiedAt := None |}.

Definition zero_participant : CampaignParticipant := {|
  p_ID := 0; p_CampaignID := 0; p_CommunityID := 0; p_TelegramID := 0; p_JoinedAt := 0; p_ValidatedAt := None;
  p_LeftAt := None; p_Status := ""; p_RevenueEarned := f64_0 |}.

Definition zero_revenue : CommunityRevenue := {|
  cr_ID := 0; cr_CommunityID := 0; cr_CampaignID := 0; cr_TotalAmount := f64_0; cr_OwnerAmount := f64_0;
  cr_MembersAmount := f64_0; cr_PlatformAmount := f64_0; cr_ValidJoins := 0; cr_Status := "";
  cr_DistributedAt := None |}.

(** gorm adds deleted_at IS NULL to the queries on a model with DeletedAt. *)
Definition live (c : Community) : bool := match c_DeletedAt c with None => true | Some _ => false end.
Definition select_community (P : Community -> bool) (d : CommTables) : option Community :=
  first_row c_ID (fun c => live c && P c) (rows (communities d)).

(** CREATE: empty columns with a default take it; telegram_id, invite_link and
    invite_hash are unique. *)
Definition or_default (s d : string) : string := if (s =? "")%string then d else s.
Definition int_or_default (z d : Z) : Z := if z =? 0 then d else z.
Definition with_defaults (id : uuid) (c : Community) : Community := {|
  c_ID := id; c_DeletedAt := c_DeletedAt c; c_OwnerID := c_OwnerID c; c_TelegramID := c_TelegramID c;
  c_Type := c_Type c; c_Name := c_Name c; c_Username := c_Username c;
  c_Status := or_default (c_Status c) CommunityPending; c_InviteLink := c_InviteLink c;
  c_InviteHash := c_InviteHash c; c_OwnerPercent := c_OwnerPercent c; c_MembersPercent := c_MembersPercent c;
  c_PlatformPercent := c_PlatformPercent c; c_MemberCount := c_MemberCount c;
  c_QualityScore := int_or_default (c_QualityScore c) 50;
  c_ValidationWindowSec := int_or_default (c_ValidationWindowSec c) 86400; c_VerifiedAt := c_VerifiedAt c |}.

Definition insert_community (c : Community) (d : CommTables) : result CommTables :=
  let taken P := existsb P (rows (communities d)) in
  if bool_decide (is_Some (communities d !! c_ID c)) then Err (ErrDuplicatedKey "communities_pkey")
  else if taken (fun x => c_TelegramID x =? c_TelegramID c) then Err (ErrDuplicatedKey "idx_communities_telegram_id")
  else if taken (fun x => (c_InviteLink x =? c_InviteLink c)%string)
  then Err (ErrDuplicatedKey "idx_communities_invite_link")
  else if taken (fun x => (c_InviteHash x =? c_InviteHash c)%string)
  then Err (ErrDuplicatedKey "idx_communities_invite_hash")
  else Ok (set_communities <[c_ID c := c]> d).

Definition CreateCommunity (c : Community) : CM Community :=
  (id <- uuid_New ;;
   let c := with_defaults id c in
   exec (insert_community c) ;; ret c)%eff.

(** The models have the columns telegram_id and owner_id; chat_id and
    owner_telegram_id exist in no table that AutoMigrate creates. *)
Definition FindCommunityByChatID (telegramID : Z) : CM (option Community * option error) :=
  row_and_error zero_community undefined_column.

Definition FindCommunityByInviteHash (hash : string) : CM (option Community * option error) :=
  row_and_error zero_community
    (first (select_community (fun c => (c_InviteHash c =? hash)%string && (c_Status c =? "active")%string))).

Definition FindCommunityByID (id : uuid) : CM (option Community * option error) :=
  row_and_error zero_community (first (select_community (fun c => (c_ID c =? id)%N))).

(** UPDATE communities SET ... WHERE id = ? AND deleted_at IS NULL *)
Definition update_community (id : uuid) (f : Community -> Community) : CM unit :=
  exec (fun d => Ok (set_communities (alter (fun c => if live c then f c else c) id) d)).

Definition with_state (status : string) (verified : option Z) (score window count : Z) (c : Community) : Community := {|
  c_ID := c_ID c; c_DeletedAt := c_DeletedAt c; c_OwnerID := c_OwnerID c; c_TelegramID := c_TelegramID c;
  c_Type := c_Type c; c_Name := c_Name c; c_Username := c_Username c; c_Status := status;
  c_InviteLink := c_InviteLink c; c_InviteHash := c_InviteHash c; c_OwnerPercent := c_OwnerPercent c;
  c_MembersPercent := c_MembersPercent c; c_PlatformPercent := c_PlatformPercent c; c_MemberCount := count;
  c_QualityScore := score; c_ValidationWindowSec := window; c_VerifiedAt := verified |}.

Definition ActivateCommunity (id : uuid) : CM unit :=
  (n <- now ;;
   update_community id (fun c =>
     with_state CommunityActive (Some n) (c_QualityScore c) (c_ValidationWindowSec c) (c_MemberCount c) c))%eff.

Definition ListCommunities (ownerID : uuid) : CM (list Community) :=
  find (fun d => List.filter (fun c => live c && (c_OwnerID c =? ownerID)%N) (rows (communities d))).

Definition UpdateQualityScore (id : uuid) (score : Z) : CM unit :=
  update_community id (fun c =>
    with_state (c_Status c) (c_VerifiedAt c) score (c_ValidationWindowSec c) (c_MemberCount c) c).

Definition UpdateCommunityScore (chatID score : Z) : CM unit := undefined_column.

Definition UpdateCommunityStatus (id : uuid) (status : string) : CM unit :=
  update_community id (fun c =>
    with_state status (c_VerifiedAt c) (c_QualityScore c) (c_ValidationWindowSec c) (c_MemberCount c) c).

Definition ListCommunitiesByOwner (ownerID : Z) : CM (list Community) := undefined_column.

Definition ListPendingCommunities : CM (list Community) :=
  find (fun d => List.filter (fun c => live c && (c_Status c =? CommunityPending)%string) (rows (communities d))).

Definition UpdateValidationWindow (id : uuid) (windowSec : Z) : CM unit :=
  update_community id (fun c =>
    with_state (c_Status c) (c_VerifiedAt c) (c_QualityScore c) windowSec (c_MemberCount c) c).

Definition count_members (f : Z -> Z) (id : uuid) : CM unit :=
  update_community id (fun c =>
    with_state (c_Status c) (c_VerifiedAt c) (c_QualityScore c) (c_ValidationWindowSec c) (f (c_MemberCount c)) c).
Definition DecrementMemberCount (id : uuid) : CM unit := count_members (fun n => Z.max (n - 1) 0) id.
Definition IncrementMemberCount (id : uuid) : CM unit := count_members (fun n => n + 1) id.

(** ** Participants *)

Definition insert_participant (p : CampaignParticipant) (d : CommTables) : result CommTables :=
  if bool_decide (is_Some (participants d !! p_ID p)) then Err (ErrDuplicatedKey "campaign_participants_pkey")
  else if existsb (fun x => (p_CampaignID x =? p_CampaignID p)%N && (p_TelegramID x =? p_TelegramID p))
            (rows (participants d)) then Err (ErrDuplicatedKey "idx_camp_user")
  else Ok (set_participants <[p_ID p := p]> d).
Definition RecordParticipant (p : CampaignParticipant) : CM unit := exec (insert_participant p).

Definition FindParticipant (campaignID : uuid) (telegramID : Z) : CM (option CampaignParticipant * option error) :=
  row_and_error zero_participant (first (fun d =>
    first_row p_ID (fun p => (p_CampaignID p =? campaignID)%N && (p_TelegramID p =? telegramID)) (rows (participants d)))).

Definition participant_state (status : string) (validated left : option Z) (p : CampaignParticipant) : CampaignParticipant :=
  {| p_ID := p_ID p; p_CampaignID := p_CampaignID p; p_CommunityID := p_CommunityID p; p_TelegramID := p_TelegramID p;
     p_JoinedAt := p_JoinedAt p; p_ValidatedAt := validated; p_LeftAt := left; p_Status := status;
     p_RevenueEarned := p_RevenueEarned p |}.

Definition ValidateParticipant (id : uuid) : CM unit :=
  (n <- now ;;
   exec (fun d => Ok (set_participants
     (alter (fun p => participant_state "validated" (Some n) (p_LeftAt p) p) id) d)))%eff.
Definition InvalidateParticipant (id : uuid) : CM unit :=
  (n <- now ;;
   exec (fun d => Ok (set_participants
     (alter (fun p => participant_state "left" (p_ValidatedAt p) (Some n) p) id) d)))%eff.

Definition FindPendingValidations (before : Z) : CM (list CampaignParticipant) :=
  find (fun d => List.filter (fun p => (p_Status p =? "pending")%string && (p_JoinedAt p <=? before))
                   (rows (participants d))).

(** ** Revenue *)

Definition insert_revenue (r : CommunityRevenue) (d : CommTables) : result CommTables :=
  if bool_decide (is_Some (revenues d !! cr_ID r)) then Err (ErrDuplicatedKey "community_revenues_pkey")
  else Ok (set_revenues <[cr_ID r := r]> d).
Definition CreateRevenue (r : CommunityRevenue) : CM unit := exec (insert_revenue r).

Definition FindRevenue (id : uuid) : CM (option CommunityRevenue * option error) :=
  row_and_error zero_revenue (first (fun d => revenues d !! id)).

Definition FindRevenueByCampaignCommunity (campaignID communityID : uuid) : CM (option CommunityRevenue * option error) :=
  row_and_error zero_revenue (first (fun d =>
    first_row cr_ID (fun r => (cr_CampaignID r =? campaignID)%N && (cr_CommunityID r =? communityID)%N)
      (rows (revenues d)))).

Definition distributed (n : Z) (r : CommunityRevenue) : CommunityRevenue :=
  {| cr_ID := cr_ID r; cr_CommunityID := cr_CommunityID r; cr_CampaignID := cr_CampaignID r;
     cr_TotalAmount := cr_TotalAmount r; cr_OwnerAmount := cr_OwnerAmount r; cr_MembersAmount := cr_MembersAmount r;
     cr_PlatformAmount := cr_PlatformAmount r; cr_ValidJoins := cr_ValidJoins r; cr_Status := "distributed";
     cr_DistributedAt := Some n |}.
Definition MarkRevenueDistributed (id : uuid) : CM unit :=
  (n <- now ;; exec (fun d => Ok (set_revenues (alter (distributed n) id) d)))%eff.

Definition CreateDistribution (x : CommunityDistribution) : CM unit :=
  exec (fun d => if bool_decide (is_Some (distributions d !! cd_ID x))
                 then Err (ErrDuplicatedKey "community_distributions_pkey")
                 else Ok (set_distributions <[cd_ID x := x]> d)).

(** ** Activity *)

(** The upsert of one document: $inc of the counters, $set of the time. *)
Fixpoint bump_activity (telegramID communityID msgs replies reactions n : Z) (l : list MemberActivity)
  : list MemberActivity :=
  match l with
  | [] => [{| ma_TelegramID := telegramID; ma_CommunityID := communityID; ma_Messages := msgs; ma_Replies := replies;
              ma_Reactions := reactions; ma_ActiveDays := 0; ma_ActivityScore := 0; ma_UpdatedAt := n |}]
  | m :: l =>
      if (ma_TelegramID m =? telegramID) && (ma_CommunityID m =? communityID)
      then {| ma_TelegramID := telegramID; ma_CommunityID := communityID; ma_Messages := ma_Messages m + msgs;
              ma_Replies := ma_Replies m + replies; ma_Reactions := ma_Reactions m + reactions;
              ma_ActiveDays := ma_ActiveDays m; ma_ActivityScore := ma_ActivityScore m; ma_UpdatedAt := n |} :: l
      else m :: bump_activity telegramID communityID msgs replies reactions n l
  end.

(** One MongoDB command; without a database the functions return at once. *)
Definition mongo_command {A} (none : A) (f : list MemberActivity -> A * list MemberActivity) : CM A := fun s =>
  match cw_mongo (ext s) with
  | None => (Ok none, s)
  | Some l =>
      match env_fault (tick s) with
      | Some c => (Err (ErrDriver c), bump s)
      | None => (Ok (fst (f l)), mkSt (S (tick s)) (tx s) (db s) (set_mongo (fun _ => snd (f l)) (ext s)))
      end
  end.

Definition UpdateMemberActivity (telegramID communityID msgs replies reactions : Z) : CM unit :=
  (w <- get_ext ;;
   match cw_mongo w with
   | None => ret tt
   | Some _ =>
       (n <- now ;;
        mongo_command tt (fun l => (tt, bump_activity telegramID communityID msgs replies reactions n l)))
   end)%eff.

Definition better_score (a b : MemberActivity) : Prop := ma_ActivityScore b <= ma_ActivityScore a.
#[local] Instance better_score_dec : RelDecision better_score :=
  fun a b => Z_le_dec (ma_ActivityScore b) (ma_ActivityScore a).

Definition active_members (communityID since : Z) (l : list MemberActivity) : list MemberActivity :=
  merge_sort better_score
    (List.filter (fun m => (ma_CommunityID m =? communityID) && (since <=? ma_UpdatedAt m)) l).
Definition GetActiveMembers (communityID since : Z) : CM (list MemberActivity) :=
  mongo_command [] (fun l => (active_members communityID since l, l)).

(** min(x, cap) with Go's wrapping multiplications. *)
Definition CalcActivityScore (m : MemberActivity) : Z :=
  let score := i64_add 0 (Z.min (i64_mul (ma_Messages m) 2) 40) in
  let score := i64_add score (Z.min (i64_mul (ma_Replies m) 3) 30) in
  let score := i64_add score (Z.min (ma_Reactions m) 15) in
  let score := i64_add score (Z.min (i64_mul (ma_ActiveDays m) 5) 15) in
  if 100 <? score then 100 else score.
End store.

(** * internal/engine/engine.go *)

Section engine.
Context {ENV : Env} {LIB : Lib} {FP : F64Platform} {UUID : UuidParser}.
Abbreviation CM := (M CommTables CommWorld).

(** Sixteen bytes of the digest in hexadecimal. *)
Definition generateHash (telegramID : Z) (ownerID : uuid) : CM string :=
  (n <- now ;;
   ret (substring 0 32 (HexEncode (sha256 (FormatInt 10 telegramID +:+ ":" +:+ uuid_String ownerID +:+ ":"
                                             +:+ FormatInt 10 n)))))%eff.

Definition RegisterCommunity (ownerID : uuid) (telegramID : Z) (commType name username : string) : CM Community :=
  (existing <- FindCommunityByChatID telegramID ;;
   match fst existing with
   | Some _ => throw (Errorf "community already registered" [])
   | None =>
       (hash <- generateHash telegramID ownerID ;;
        CreateCommunity
          {| c_ID := 0; c_DeletedAt := None; c_OwnerID := ownerID; c_TelegramID := telegramID; c_Type := commType;
             c_Name := name; c_Username := username; c_Status := CommunityPending;
             c_InviteLink := "https://t.me/+" +:+ substring 0 16 hash; c_InviteHash := hash;
             c_OwnerPercent := f64_0; c_MembersPercent := f64_0; c_PlatformPercent := f64_0; c_MemberCount := 0;
             c_QualityScore := 0; c_ValidationWindowSec := DefaultValidationWindow; c_VerifiedAt := None |})
   end)%eff.

Definition validate_check (participant community : uuid) (campaign : string) : list (string * fmtarg) :=
  [("participant_id", AStr (uuid_String participant)); ("community_id", AStr (uuid_String community));
   ("campaign_id", AStr campaign)]%string.

(** time.Duration(seconds) * time.Second *)
Definition seconds (n : Z) : Z := i64_mul n 1000000000.

(** The goroutine is started as a timer of the service's state. *)
Definition HandleJoin (telegramID : Z) (communityID : uuid) (campaignID : string) : CM unit :=
  (found <- FindCommunityByID communityID ;;
   match fst found with
   | None => ret tt
   | Some community =>
       if negb (c_Status community =? CommunityActive)%string then ret tt
       else match uuid_Parse campaignID with
       | None => ret tt
       | Some campID =>
           (existing <- FindParticipant campID telegramID ;;
            match fst existing with
            | Some _ => ret tt
            | None =>
                (joined <- now ;;
                 id <- uuid_New ;;
                 RecordParticipant
                   {| p_ID := id; p_CampaignID := campID; p_CommunityID := communityID; p_TelegramID := telegramID;
                      p_JoinedAt := joined; p_ValidatedAt := None; p_LeftAt := None; p_Status := "pending";
                      p_RevenueEarned := f64_0 |} ;;
                 try (IncrementMemberCount communityID) ;;
                 n <- now ;;
                 mod_ext (set_timers (fun l => l ++
                   [{| tm_Due := n + seconds (c_ValidationWindowSec community); tm_Participant := id;
                       tm_Community := communityID; tm_Campaign := campaignID |}])))
            end)
       end
   end)%eff.

(** The goroutines whose time has come publish. *)
Fixpoint publish_timers (l : list Timer) : CM unit :=
  match l with
  | [] => ret tt
  | t :: l => (publish_quiet "membership.validate_check"
                 (validate_check (tm_Participant t) (tm_Community t) (tm_Campaign t)) ;; publish_timers l)%eff
  end.
Definition fire_timers : CM unit :=
  (n <- now ;;
   w <- get_ext ;;
   let due t := tm_Due t <=? n in
   mod_ext (set_timers (List.filter (fun t => negb (due t)))) ;;
   publish_timers (List.filter due (cw_timers w)))%eff.

Definition ConfirmValidation (participantID : string) (isValid : bool) : CM unit :=
  match uuid_Parse participantID with
  | None => throw (Errorf "invalid UUID" [])
  | Some id =>
      if negb isValid then InvalidateParticipant id
      else
      (try (ValidateParticipant id) ;;
       n <- now ;;
       publish_quiet "membership.validated"
         [("participant_id", AStr participantID); ("validated_at", AInt (n / 1000000000))])%eff
  end.

Definition revenueMultiplier (score : Z) : float64 :=
  if 80 <=? score then f64_const 1 1
  else if 50 <=? score then f64_const 8 10
  else if 30 <=? score then f64_const 5 10
  else f64_0.

(** [rev.TotalAmount * (pct / 100) * multiplier] *)
Definition amount_of (rev : CommunityRevenue) (pct multiplier : float64) : float64 :=
  f64_mul (f64_mul (cr_TotalAmount rev) (f64_div pct (f64_of_int 100))) multiplier.

Definition member_earning (rev : CommunityRevenue) (id : Z) (share : float64) : list (string * fmtarg) :=
  [("type", AStr "member_reward"); ("owner_telegram_id", AInt id);
   ("total_nano", AInt (int64_of_f64 (f64_mul share (f64_of_int 1000000000))));
   ("ref_id", AStr (uuid_String (cr_ID rev) +:+ "_m_" +:+ FormatInt 10 id));
   ("description", AStr "سهم اعضا از درآمد کمپین")]%string.

Definition scored_members (l : list MemberActivity) : list (Z * Z) :=
  List.filter (fun p => 0 <? snd p) (map (fun m => (ma_TelegramID m, CalcActivityScore m)) l).

Definition member_share (pool : float64) (totalScore s : Z) : float64 :=
  f64_mul (f64_div (f64_of_int s) (f64_of_int totalScore)) pool.

Fixpoint reward_loop (rev : CommunityRevenue) (community : Community) (pool : float64) (totalScore : Z)
    (l : list (Z * Z)) : CM unit :=
  match l with
  | [] => ret tt
  | (id, s) :: l =>
      let share := member_share pool totalScore s in
      ((if f64_lt share (f64_const 1 10000) then ret tt
        else
        (publish_quiet "earning.created" (member_earning rev id share) ;;
         i <- uuid_New ;;
         try (CreateDistribution
           {| cd_ID := i; cd_RevenueID := cr_ID rev; cd_CommunityID := c_ID community; cd_TelegramID := id;
              cd_Amount := share; cd_ActivityScore := s; cd_TxID := ""; cd_Status := "paid" |}) ;;
         ret tt)) ;;
       reward_loop rev community pool totalScore l)%eff
  end.

(** AddDate(0, 0, -30) in the UTC the containers run in. *)
Definition distributeMemberRewards (rev : CommunityRevenue) (community : Community) (pool : float64) : CM unit :=
  (n <- now ;;
   r <- try (GetActiveMembers (c_TelegramID community) (n - 30 * 86400 * 1000000000)) ;;
   let members := match r with Ok l => l | Err _ => [] end in
   let list := scored_members members in
   let totalScore := sumZ snd list in
   if totalScore =? 0 then ret tt
   else reward_loop rev community pool totalScore list)%eff.

Definition owner_earning (rev : CommunityRevenue) (amount : float64) : list (string * fmtarg) :=
  [("type", AStr "ad_income"); ("community_id", AStr (uuid_String (cr_CommunityID rev)));
   ("amount_ton", AFloat amount); ("description", AStr "درآمد کمپین")]%string.
Definition platform_earning (amount : float64) : list (string * fmtarg) :=
  [("type", AStr "commission"); ("amount_ton", AFloat amount)]%string.

Definition DistributeRevenue (revenueID : uuid) : CM unit :=
  (r <- FindRevenue revenueID ;;
   match fst r with
   | None => throw (Errorf "revenue not found" [])
   | Some rev =>
       if negb (cr_Status rev =? "pending")%string then ret tt
       else
       (c <- FindCommunityByID (cr_CommunityID rev) ;;
        match fst c with
        | None => throw (Errorf "community not found" [])
        | Some community =>
            let multiplier := revenueMultiplier (c_QualityScore community) in
            let '(ownerPct, membersPct, platformPct) := RevenuePercentages community in
            let ownerAmt := amount_of rev ownerPct multiplier in
            let membersAmt := amount_of rev membersPct multiplier in
            let platformAmt := amount_of rev platformPct multiplier in
            ((if f64_gt ownerAmt f64_0 then publish_quiet "earning.created" (owner_earning rev ownerAmt) else ret tt) ;;
             (if f64_gt membersAmt f64_0 && (c_Type community =? CommunityGroup)%string
              then distributeMemberRewards rev community membersAmt else ret tt) ;;
             (if f64_gt platformAmt f64_0 then publish_quiet "earning.created" (platform_earning platformAmt)
              else ret tt) ;;
             try (MarkRevenueDistributed revenueID) ;;
             publish_quiet "community.revenue.distributed"
               [("revenue_id", AStr (uuid_String revenueID)); ("community_id", AStr (uuid_String (cr_CommunityID rev)));
                ("owner_amount", AFloat ownerAmt); ("members_amount", AFloat membersAmt);
                ("platform_amount", AFloat platformAmt)])
        end)
   end)%eff.

Definition ResolveInviteLink (hash : string) : CM (option Community * option error) := FindCommunityByInviteHash hash.

Fixpoint publish_pending (l : list CampaignParticipant) : CM unit :=
  match l with
  | [] => ret tt
  | p :: l => (publish_quiet "membership.validate_check"
                 (validate_check (p_ID p) (p_CommunityID p) (uuid_String (p_CampaignID p))) ;; publish_pending l)%eff
  end.
Definition validation_tick : CM unit :=
  (n <- now ;;
   r <- try (FindPendingValidations (n - seconds DefaultValidationWindow)) ;;
   publish_pending (match r with Ok l => l | Err _ => [] end))%eff.

(** What RunValidationWorker has done after [n] ticks. *)
Fixpoint RunValidationWorker (n : nat) : CM unit :=
  match n with O => ret tt | S n => (validation_tick ;; RunValidationWorker n)%eff end.

Definition HandleLeave (telegramID chatID : Z) : CM unit :=
  (r <- FindCommunityByChatID chatID ;;
   match r with
   | (Some comm, None) => (try (DecrementMemberCount (c_ID comm)) ;; ret tt)
   | _ => ret tt
   end)%eff.

(** * internal/engine/nats_handler.go: the listeners main.go registers; [None] is a
    payload that does not decode *)

Definition on_membership_joined (event : option (Z * Z * string)) : CM unit :=
  match event with
  | None => ret tt
  | Some (telegramID, chatID, campaignID) =>
      (r <- FindCommunityByChatID chatID ;;
       match fst r with
       | None => ret tt
       | Some comm =>
           let campID := if (campaignID =? "")%string then 0%N else default 0%N (uuid_Parse campaignID) in
           let campStr := if (campID =? 0)%N then ""%string else uuid_String campID in
           (try (HandleJoin telegramID (c_ID comm) campStr) ;; ret tt)
       end)%eff
  end.

Definition on_membership_left (event : option (Z * Z)) : CM unit :=
  match event with
  | None => ret tt
  | Some (telegramID, chatID) =>
      (r <- FindCommunityByChatID chatID ;;
       match fst r with
       | None => ret tt
       | Some comm => HandleLeave telegramID (c_TelegramID comm)
       end)%eff
  end.

Definition on_activity_updated (event : option (Z * Z * (Z * Z * Z))) : CM unit :=
  match event with
  | None => ret tt
  | Some (telegramID, chatID, (messages, replies, reactions)) =>
      (r <- FindCommunityByChatID chatID ;;
       match fst r with
       | None => ret tt
       | Some comm =>
           if negb (c_Type comm =? CommunityGroup)%string then ret tt
           else (try (UpdateMemberActivity telegramID chatID messages replies reactions) ;; ret tt)
       end)%eff
  end.

Record RevenueGenerated := { rg_CommunityID : string; rg_CampaignID : string; rg_RevenueTON : float64; rg_ValidJoins : Z }.

(** The struct of the listener, read from an event of the bus. *)
Definition decode_revenue_generated (m : Event) : option RevenueGenerated :=
  match field_string "community_id" m, field_string "campaign_id" m, field_float64 "revenue_ton" m,
        field_int64 "valid_joins" m with
  | Some community, Some campaign, Some ton, Some joins =>
      Some {| rg_CommunityID := community; rg_CampaignID := campaign; rg_RevenueTON := ton; rg_ValidJoins := joins |}
  | _, _, _, _ => None
  end.

(** The community id may be a uuid or a chat id. *)
Definition named_community (id : string) : CM (option Community) :=
  match uuid_Parse id with
  | Some commID => (r <- FindCommunityByID commID ;; ret (fst r))%eff
  | None =>
      match ParseInt 10 id with
      | Some chatID => (r <- FindCommunityByChatID chatID ;; ret (fst r))%eff
      | None => ret None
      end
  end.

Definition new_revenue (id community campaign : uuid) (event : RevenueGenerated) : CommunityRevenue :=
  {| cr_ID := id; cr_CommunityID := community; cr_CampaignID := campaign; cr_TotalAmount := rg_RevenueTON event;
     cr_OwnerAmount := f64_0; cr_MembersAmount := f64_0; cr_PlatformAmount := f64_0;
     cr_ValidJoins := rg_ValidJoins event; cr_Status := "pending"; cr_DistributedAt := None |}.

Definition on_campaign_revenue (event : option RevenueGenerated) : CM unit :=
  match event with
  | None => ret tt
  | Some e =>
      if f64_le (rg_RevenueTON e) f64_0 || IsNaN (rg_RevenueTON e) || IsInf (rg_RevenueTON e) || (rg_ValidJoins e <? 0)
      then ret tt
      else
      (comm <- named_community (rg_CommunityID e) ;;
       match comm, uuid_Parse (rg_CampaignID e) with
       | Some comm, Some campUUID =>
           (existing <- FindRevenueByCampaignCommunity campUUID (c_ID comm) ;;
            match existing with
            | (Some _, None) => ret tt
            | _ =>
                (id <- uuid_New ;;
                 created <- try (CreateRevenue (new_revenue id (c_ID comm) campUUID e)) ;;
                 match created with
                 | Err _ => ret tt
                 | Ok _ => (try (DistributeRevenue id) ;; ret tt)
                 end)
            end)
       | _, _ => ret tt
       end)%eff
  end.

Definition on_score_updated (event : option (Z * Z)) : CM unit :=
  match event with
  | None => ret tt
  | Some (chatID, score) => (try (UpdateCommunityScore chatID score) ;; ret tt)%eff
  end.
End engine.

(** * internal/api/api.go *)

(** The answer of a handler: its status code, and what the body carries. *)
Inductive ApiBody := NoBody | WithID (id : uuid) | WithCommunity (c : Community) | WithList (l : list Community)
  | WithSplit (c : Community) (owner members platform : Z).
Record ApiReply := { code : Z; body : ApiBody }.
Definition answer_with (n : Z) (b : ApiBody) : ApiReply := {| code := n; body := b |}.

Record RegisterRequest := {
  rq_OwnerTelegramID : Z; rq_ChatID : Z; rq_Type : string; rq_Name : string; rq_Username : string; rq_InviteLink : string;
}.

Section api.
Context {ENV : Env} {LIB : Lib} {FP : F64Platform} {UUID : UuidParser} (adminKey : string).
Abbreviation CM := (M CommTables CommWorld).

(** binding:"required" refuses zero values. *)
Definition register_bound (r : RegisterRequest) : bool :=
  negb (rq_OwnerTelegramID r =? 0) && negb (rq_ChatID r =? 0) && negb (rq_Type r =? "")%string
  && negb (rq_Name r =? "")%string.

Definition registerCommunity (req : option RegisterRequest) : CM ApiReply :=
  match req with
  | None => ret (answer_with 400 NoBody)
  | Some req =>
      if negb (register_bound req) then ret (answer_with 400 NoBody)
      else
      (existing <- FindCommunityByChatID (rq_ChatID req) ;;
       match fst existing with
       | Some c => ret (answer_with 409 (WithID (c_ID c)))
       | None =>
           (r <- try (CreateCommunity
              {| c_ID := 0; c_DeletedAt := None; c_OwnerID := 0; c_TelegramID := rq_ChatID req; c_Type := rq_Type req;
                 c_Name := rq_Name req; c_Username := rq_Username req; c_Status := CommunityPending;
                 c_InviteLink := rq_InviteLink req; c_InviteHash := ""; c_OwnerPercent := f64_0;
                 c_MembersPercent := f64_0; c_PlatformPercent := f64_0; c_MemberCount := 0; c_QualityScore := 50;
                 c_ValidationWindowSec := 0; c_VerifiedAt := None |}) ;;
            ret (match r with Ok c => answer_with 201 (WithCommunity c) | Err _ => answer_with 500 NoBody end))
       end)%eff
  end.

Definition getCommunity (id : string) : CM ApiReply :=
  match uuid_Parse id with
  | None => ret (answer_with 400 NoBody)
  | Some id =>
      (r <- FindCommunityByID id ;;
       ret (match fst r with
            | None => answer_with 404 NoBody
            | Some c => if (c_Type c =? CommunityGroup)%string then answer_with 200 (WithSplit c 50 40 10)
                        else answer_with 200 (WithSplit c 90 0 10)
            end))%eff
  end.

(** The errors of ParseInt and uuid.Parse are dropped: 0 and uuid.Nil remain.
    An out-of-range number parses to the nearest bound, which no query uses. *)
Definition getCommunityByChatID (chatID : string) : CM ApiReply :=
  (r <- FindCommunityByChatID (ParseInt_value 10 chatID) ;;
   ret (match fst r with None => answer_with 404 NoBody | Some c => answer_with 200 (WithCommunity c) end))%eff.

Definition parsed_or_nil (id : string) : uuid := default 0%N (uuid_Parse id).

Definition setValidationWindow (id : string) (hours : option Z) : CM ApiReply :=
  match hours with
  | None => ret (answer_with 400 NoBody)
  | Some hours => (try (UpdateValidationWindow (parsed_or_nil id) (i64_mul hours 3600)) ;; ret (answer_with 200 NoBody))%eff
  end.

Definition listOwnerCommunities (telegramID : string) : CM ApiReply :=
  (r <- try (ListCommunitiesByOwner (ParseInt_value 10 telegramID)) ;;
   ret (answer_with 200 (WithList (match r with Ok l => l | Err _ => [] end))))%eff.

(** authMiddleware before the handlers under /admin. *)
Definition Community_authMiddleware (key : string) (h : CM ApiReply) : CM ApiReply :=
  if negb (key =? adminKey)%string then ret (answer_with 401 NoBody) else h.

Definition listPendingCommunities : CM ApiReply :=
  (r <- try ListPendingCommunities ;;
   ret (answer_with 200 (WithList (match r with Ok l => l | Err _ => [] end))))%eff.

Definition approveCommunity (id : string) : CM ApiReply :=
  (try (UpdateCommunityStatus (parsed_or_nil id) CommunityActive) ;; ret (answer_with 200 NoBody))%eff.
Definition rejectCommunity (id : string) : CM ApiReply :=
  (try (UpdateCommunityStatus (parsed_or_nil id) CommunityRejected) ;; ret (answer_with 200 NoBody))%eff.

(** The id of the community is handed over as the id of a revenue; the
    goroutine is run to its end here. *)
Definition triggerDistribute (communityID : option string) : CM ApiReply :=
  match communityID with
  | None => ret (answer_with 400 NoBody)
  | Some id => (try (DistributeRevenue (parsed_or_nil id)) ;; ret (answer_with 200 NoBody))%eff
  end.

(** ** The listeners of api.Handler.RegisterNATSListeners *)

Definition api_membership_joined (event : option (Z * string * string * string)) : CM unit :=
  match event with
  | None => ret tt
  | Some (telegramID, communityID, campaignID, inviteHash) =>
      (id <- (match uuid_Parse communityID with
              | Some id => ret id
              | None =>
                  if (inviteHash =? "")%string then ret 0%N
                  else (r <- ResolveInviteLink inviteHash ;;
                        ret (match fst r with Some c => c_ID c | None => 0%N end))
              end) ;;
       if (id =? 0)%N then ret tt else (try (HandleJoin telegramID id campaignID) ;; ret tt))%eff
  end.

Definition api_validate_response (event : option (string * bool)) : CM unit :=
  match event with
  | None => ret tt
  | Some (participantID, isValid) => (try (ConfirmValidation participantID isValid) ;; ret tt)%eff
  end.

Definition api_activity_updated (event : option (Z * Z * (Z * Z * Z))) : CM unit :=
  match event with
  | None => ret tt
  | Some (telegramID, communityID, (messages, replies, reactions)) =>
      (try (UpdateMemberActivity telegramID communityID messages replies reactions) ;; ret tt)%eff
  end.

Definition api_revenue_generated (event : option string) : CM unit :=
  match event with
  | None => ret tt
  | Some revenueID => (try (DistributeRevenue (parsed_or_nil revenueID)) ;; ret tt)%eff
  end.
End api.
