(* ===== verification/CommunitySpec.v ===== *)
(** community-service: what its operations can ever achieve, and what becomes of
    the revenue events it publishes once revenue-service receives them. *)
From S2P Require Import Prelude GoInt GoFloat GoString Effects PayModels PayChain Bus Triples Community.
From S2P Require Import PayStore PayInvariant Consensus ConsensusSpec Localization WalletService WalletServiceSpec.
From S2P Require Import PayResponder PayClient PayServerSpec Revenue RevenueSpec.

(** * A service that starts with empty tables *)

Section inert.
Context {ENV : Env} {LIB : Lib} {FP : F64Platform} {UUID : UuidParser} (adminKey : string).
Abbreviation CM := (M CommTables CommWorld).

(** Everything that reaches the service: its HTTP endpoints, its listeners, the
    goroutines of HandleJoin and the ticks of the validation worker. *)
Inductive comm_op :=
| ORegister (req : option RegisterRequest)
| OEngineRegister (owner : uuid) (telegramID : Z) (commType name username : string)
| OGet (id : string)
| OSetWindow (id : string) (hours : option Z)
| OApprove (key id : string)
| OReject (key id : string)
| OTrigger (key : string) (community : option string)
| OJoined (e : option (Z * Z * string))
| OLeft (e : option (Z * Z))
| OActivity (e : option (Z * Z * (Z * Z * Z)))
| OCampaignRevenue (e : option RevenueGenerated)
| OScore (e : option (Z * Z))
| OTimers
| OTick.

Definition silent (m : CM unit) : CM (option ApiReply) := (m ;; ret None)%eff.
Definition replying (m : CM ApiReply) : CM (option ApiReply) := (r <- m ;; ret (Some r))%eff.

Definition perform (o : comm_op) : CM (option ApiReply) :=
  match o with
  | ORegister req => replying (registerCommunity req)
  | OEngineRegister owner id ty name user => (c <- RegisterCommunity owner id ty name user ;;
      ret (Some (answer_with 201 (WithCommunity c))))%eff
  | OGet id => replying (getCommunity id)
  | OSetWindow id hours => replying (setValidationWindow id hours)
  | OApprove key id => replying (Community_authMiddleware adminKey key (approveCommunity id))
  | OReject key id => replying (Community_authMiddleware adminKey key (rejectCommunity id))
  | OTrigger key c => replying (Community_authMiddleware adminKey key (triggerDistribute c))
  | OJoined e => silent (on_membership_joined e)
  | OLeft e => silent (on_membership_left e)
  | OActivity e => silent (on_activity_updated e)
  | OCampaignRevenue e => silent (on_campaign_revenue e)
  | OScore e => silent (on_score_updated e)
  | OTimers => silent fire_timers
  | OTick => silent validation_tick
  end.

(** The operations are served one after another; an error ends only its own. *)
Fixpoint serve (l : list comm_op) : CM (list (option ApiReply)) :=
  match l with
  | [] => ret []
  | o :: l => (r <- try (perform o) ;; rs <- serve l ;;
               ret (match r with Ok a => a | Err _ => None end :: rs))%eff
  end.

Definition pays (m : Event) : bool := (ev_Subject m =? "earning.created")%string.

(** Nobody is registered, nobody has joined, nobody was paid. *)
Definition barren (d : CommTables) (w : CommWorld) : Prop :=
  communities d = ∅ /\ participants d = ∅ /\ distributions d = ∅ /\ cw_timers w = [] /\
  Forall (fun m => pays m = false) (cw_sent w).

(** ** Lookups *)

Lemma undefined_column_fails {A} s :
  exists e, e <> ErrRecordNotFound /\ exists s', (undefined_column : CM A) s = (Err e, s') /\ db s' = db s /\ ext s' = ext s.
Proof.
  unfold undefined_column, stmt, bump.
  destruct (tx s); [destruct (env_fault (tick s))|destruct (env_fault (tick s))|];
    (eexists; split; [|eexists; split; [reflexivity|done]]); done.
Qed.

(** The lookup by chat id hands back the zero community and an error, always. *)
Lemma chat_lookup id s :
  exists e s', FindCommunityByChatID id s = (Ok (Some zero_community, Some e), s') /\ db s' = db s /\ ext s' = ext s.
Proof.
  destruct (@undefined_column_fails Community s) as (e & He & s' & Hs & Hd & Hx).
  exists e, s'. split; [|done]. unfold FindCommunityByChatID, row_and_error. rewrite Hs. by destruct e.
Qed.

Lemma chat_lookup_within (I : CommTables -> CommWorld -> Prop) id :
  within I (fun r => exists e, r = (Some zero_community, Some e)) (FindCommunityByChatID id).
Proof.
  intros s r s' Hi Hr. destruct (chat_lookup id s) as (e & s1 & Hs & Hd & Hx). rewrite Hs in Hr.
  injection Hr as <- <-. rewrite Hd, Hx. eauto.
Qed.

Lemma row_and_error_within {A} (I : CommTables -> CommWorld -> Prop) (P : A -> Prop) zero (m : CM A) :
  within I P m -> within I (fun r => match fst r with Some a => P a \/ a = zero | None => True end) (row_and_error zero m).
Proof.
  intros Hm s r s' Hi Hr. unfold row_and_error in Hr. destruct (m s) as [r1 s1] eqn:E.
  injection Hr as <- <-. destruct (Hm _ _ _ Hi E) as [Hi1 HP]. destruct r1 as [a|[]]; simpl; auto.
Qed.

Lemma select_none P d : communities d = ∅ -> select_community P d = None.
Proof. intros Hd. unfold select_community, rows. by rewrite Hd, map_to_list_empty. Qed.

Lemma no_community (I : CommTables -> CommWorld -> Prop) P :
  (forall d w, I d w -> communities d = ∅) ->
  within I (fun r => fst r = None \/ fst r = Some zero_community) (row_and_error zero_community (first (select_community P))).
Proof.
  intros HI. eapply within_weaken; [apply row_and_error_within, within_first|].
  intros [[c|] e]; simpl; [|auto]. intros [(d & w & Hi & Hc)| ->]; [|auto].
  rewrite select_none in Hc by eauto. done.
Qed.

(** ** Arithmetic: nothing times zero is positive *)

Lemma mul_zero_not_positive x : f64_gt (f64_mul x f64_0) f64_0 = false.
Proof. destruct x as [[]|[]| |[] m e]; reflexivity. Qed.

Lemma zero_community_pays_nothing rev pct :
  f64_gt (amount_of rev pct (revenueMultiplier (c_QualityScore zero_community))) f64_0 = false.
Proof. apply mul_zero_not_positive. Qed.

(** ** The operations keep the service barren *)

Lemma barren_empty d w : barren d w -> communities d = ∅.
Proof. by intros []. Qed.

Lemma barren_publish subject payload :
  (subject =? "earning.created")%string = false -> within barren anything (publish_quiet subject payload).
Proof.
  intros Hs. apply within_publish_quiet. intros d w (Hc & Hp & Hd & Ht & Hsent). do 4 (split; [done|]). simpl.
  apply Forall_app. split; [done|]. by apply Forall_singleton.
Qed.

(** Updates of rows that are not there. *)
Lemma barren_update id f : within barren anything (update_community id f).
Proof.
  apply within_exec. intros d w d' (Hc & Hp & Hd & Ht & Hs) [= <-].
  split; [|done]. simpl. rewrite Hc. apply map_eq. intros i. by rewrite lookup_alter, lookup_empty; destruct (decide _).
Qed.

(** Statements on the revenue table alone. *)
Lemma barren_revenue_exec f :
  (forall d d', f d = Ok d' -> exists g, d' = set_revenues g d) -> within barren anything (exec f).
Proof. intros Hf. apply within_exec. intros d w d' Hi Hd. by apply Hf in Hd as [g ->]. Qed.

Lemma barren_CreateRevenue r : within barren anything (CreateRevenue r).
Proof.
  apply barren_revenue_exec. intros d d' Hd. unfold insert_revenue in Hd.
  destruct (bool_decide _); [done|]. injection Hd as <-. eauto.
Qed.

Lemma barren_MarkRevenueDistributed id : within barren anything (MarkRevenueDistributed id).
Proof.
  eapply within_bind; [apply within_now|]. intros n _. apply barren_revenue_exec. intros d d' [= <-]. eauto.
Qed.

Lemma barren_FindCommunityByID id :
  within barren (fun r => fst r = None \/ fst r = Some zero_community) (FindCommunityByID id).
Proof. apply no_community, barren_empty. Qed.

Hint Resolve barren_publish barren_update barren_CreateRevenue barren_MarkRevenueDistributed : within.

Lemma barren_DistributeRevenue id : within barren anything (DistributeRevenue id).
Proof.
  eapply within_bind; [eapply within_anything, row_and_error_within, within_first|]. intros r _.
  destruct (fst r) as [rev|]; [|apply within_throw]. destruct (negb _); [by apply within_ret|].
  eapply within_bind; [apply barren_FindCommunityByID|]. intros c [-> | ->]; [apply within_throw|].
  destruct (RevenuePercentages zero_community) as [[o m] p]. cbv zeta.
  rewrite !zero_community_pays_nothing.
  do 3 (eapply within_bind; [by apply (within_ret _ anything)|intros _ _]).
  eapply within_bind; [by apply within_try, barren_MarkRevenueDistributed|intros _ _].
  by apply barren_publish.
Qed.

Lemma barren_HandleJoin user id campaign : within barren anything (HandleJoin user id campaign).
Proof.
  eapply within_bind; [apply barren_FindCommunityByID|]. intros c [-> | ->]; by apply within_ret.
Qed.

Lemma barren_named id : within barren (fun c => c = None \/ c = Some zero_community) (named_community id).
Proof.
  unfold named_community. destruct (uuid_Parse id).
  - eapply within_bind; [apply barren_FindCommunityByID|]. intros r Hr. by apply within_ret.
  - destruct (ParseInt 10 id); [|apply within_ret; auto].
    eapply within_bind; [apply chat_lookup_within|]. intros r [e ->]. apply within_ret. auto.
Qed.

Lemma barren_on_campaign_revenue e : within barren anything (on_campaign_revenue e).
Proof.
  unfold on_campaign_revenue. destruct e as [e|]; [|by apply within_ret]. destruct (_ || _ || _ || _); [by apply within_ret|].
  eapply within_bind; [apply barren_named|]. intros comm _.
  destruct comm as [c|], (uuid_Parse (rg_CampaignID e)) as [camp|]; try by apply within_ret.
  eapply within_bind; [eapply within_anything, row_and_error_within, within_first|]. intros existing _.
  assert (within barren anything
    (id <- uuid_New ;; created <- try (CreateRevenue (new_revenue id (c_ID c) camp e)) ;;
     match created with Err _ => ret tt | Ok _ => (try (DistributeRevenue id) ;; ret tt) end)%eff) as Hnew.
  { within_tac. by apply barren_DistributeRevenue. }
  destruct existing as [[x|] [y|]]; try done. by apply within_ret.
Qed.

Lemma barren_publish_pending l : within barren anything (publish_pending l).
Proof. induction l as [|p l IH]; simpl; [by apply within_ret|]. eapply within_bind; [by apply barren_publish|done]. Qed.

Lemma barren_publish_timers l : within barren anything (publish_timers l).
Proof. induction l as [|p l IH]; simpl; [by apply within_ret|]. eapply within_bind; [by apply barren_publish|done]. Qed.

Lemma barren_fire_timers : within barren anything fire_timers.
Proof.
  eapply within_bind; [apply within_now|intros n _]. eapply within_bind; [apply within_get_ext|intros w _].
  eapply within_bind; [|intros _ _; apply barren_publish_timers].
  apply within_mod_ext. intros d x (Hc & Hp & Hd & Ht & Hs). do 3 (split; [done|]). simpl. by rewrite Ht.
Qed.

Lemma barren_mongo {A} (none : A) f : within barren anything (mongo_command none f).
Proof.
  intros s r s' Hi Hr. unfold mongo_command, bump in Hr. destruct (cw_mongo _); [|by injection Hr as <- <-].
  destruct (env_fault _); injection Hr as <- <-; by split.
Qed.

Lemma barren_on_activity_updated e : within barren anything (on_activity_updated e).
Proof.
  destruct e as [[[user chat] [[a b] c]]|]; [|by apply within_ret].
  eapply within_bind; [apply chat_lookup_within|]. by intros r [err ->]; apply within_ret.
Qed.

(** A registration never succeeds. *)
Definition not_created (r : option ApiReply) : Prop := forall a, r = Some a -> code a <> 201.

Lemma refused_register req : within barren (fun a => code a <> 201) (registerCommunity req).
Proof.
  unfold registerCommunity. destruct req as [req|]; [|by apply within_ret].
  destruct (negb _); [by apply within_ret|].
  eapply within_bind; [apply chat_lookup_within|]. by intros r [e ->]; apply within_ret.
Qed.

Lemma barren_silent m : within barren anything m -> within barren not_created (silent m).
Proof. intros Hm. eapply within_bind; [done|]. by intros; apply within_ret. Qed.

Lemma barren_replying m : within barren (fun a => code a <> 201) m -> within barren not_created (replying m).
Proof. intros Hm. eapply within_bind; [done|]. intros a Ha. apply within_ret. by intros ? [= <-]. Qed.

Lemma barren_admin key m :
  within barren (fun a => code a <> 201) m -> within barren (fun a => code a <> 201) (Community_authMiddleware adminKey key m).
Proof. intros Hm. unfold Community_authMiddleware. destruct (negb _); [by apply within_ret|done]. Qed.

Lemma barren_then_200 (m : CM unit) :
  within barren anything m -> within barren (fun a => code a <> 201) (try m ;; ret (answer_with 200 NoBody))%eff.
Proof. intros Hm. eapply within_bind; [by apply within_try|]. by intros; apply within_ret. Qed.

Lemma barren_perform o : within barren not_created (perform o).
Proof.
  destruct o; simpl; try (apply barren_silent); try (apply barren_replying); try apply barren_admin.
  - apply refused_register.
  - eapply (within_bind _ (fun _ : Community => False)); [|done].
    unfold RegisterCommunity. eapply within_bind; [apply chat_lookup_within|]. intros r [e ->]. apply within_throw.
  - unfold getCommunity. destruct (uuid_Parse id); [|by apply within_ret].
    eapply within_bind; [apply barren_FindCommunityByID|]. by intros r [-> | ->]; apply within_ret.
  - unfold setValidationWindow. destruct hours; [|by apply within_ret]. apply barren_then_200, barren_update.
  - apply barren_then_200, barren_update.
  - apply barren_then_200, barren_update.
  - unfold triggerDistribute. destruct community; [|by apply within_ret]. apply barren_then_200, barren_DistributeRevenue.
  - destruct e as [[[user chat] camp]|]; [|by apply within_ret].
    eapply within_bind; [apply chat_lookup_within|]. intros r [err ->].
    eapply within_bind; [apply within_try, barren_HandleJoin|]. by intros; apply within_ret.
  - destruct e as [[user chat]|]; [|by apply within_ret].
    eapply within_bind; [apply chat_lookup_within|]. intros r [err ->].
    eapply within_bind; [apply chat_lookup_within|]. by intros r' [err' ->]; apply within_ret.
  - apply barren_on_activity_updated.
  - apply barren_on_campaign_revenue.
  - destruct e as [[chat score]|]; [|by apply within_ret].
    eapply (within_bind _ anything); [|by intros; apply within_ret].
    by eapply within_anything, (within_try _ anything), within_stmt.
  - apply barren_fire_timers.
  - eapply within_bind; [apply within_now|intros n _].
    eapply within_bind; [eapply within_try, within_find|]. intros; apply barren_publish_pending.
Qed.

Lemma barren_serve l : within barren (fun rs => Forall not_created rs) (serve l).
Proof.
  induction l as [|o l IH]; simpl; [by apply within_ret|].
  eapply within_bind; [apply within_try, barren_perform|]. intros r Hr.
  eapply within_bind; [apply IH|]. intros rs Hrs. apply within_ret. constructor; [|done].
  destruct r; [done|]. by intros ? [=].
Qed.

(** Community-service can do nothing: its lookups by chat use a column
    that no table has, so every registration, over HTTP or by the engine, is
    refused as a duplicate. Starting without communities, participants,
    distributions and timers, any sequence of requests, events and worker
    ticks, whatever the environment does, leaves it so, answers no request with
    201, and never publishes an earning. *)
Theorem community_service_barren (ops : list comm_op) s r s' :
  barren (db s) (ext s) -> serve ops s = (r, s') ->
  barren (db s') (ext s') /\ forall rs, r = Ok rs -> Forall not_created rs.
Proof. intros Hb Hr. destruct (barren_serve ops s r s' Hb Hr) as [Hb' HQ]. split; [done|]. by intros rs ->. Qed.
End inert.

(** * What becomes of the published earnings *)

Section delivery.
Context {B : Type} {ENV : Env} {PS : PayServer B} {MARSHAL : JsonMarshal} {FP : F64Platform} (cfg : ClientConfig).
Abbreviation RM := (M RevTables (RevEngine * Remote B)).

(** The bus hands the earnings among [l] to revenue-service, in order. *)
Fixpoint deliver (l : list Event) : RM unit :=
  match l with
  | [] => ret tt
  | m :: l => ((if pays m then on_earning_created cfg (decode_earning m) else ret tt) ;; deliver l)%eff
  end.

(** An earning that revenue-service cannot pay under the rules [R]. *)
Definition unpayable (R : gmap uuid RevenueRule) (e : EarningEvent) : Prop :=
  ee_TotalNano e <= 0 \/ forall r, r ∈ rows R -> rr_IsActive r = true -> rr_Type r <> ee_Type e.

Definition untouched (R : gmap uuid RevenueRule) (x0 : RevEngine * Remote B) (d : RevTables) (x : RevEngine * Remote B)
  : Prop := rules d = R /\ x = x0.

Lemma untouched_exec R x0 f :
  (forall d d', f d = Ok d' -> rules d' = rules d) -> within (untouched R x0) anything (exec f).
Proof. intros Hf. apply within_exec. intros d x d' [<- ->] Hd. split; [by apply Hf|done]. Qed.

Lemma untouched_first_or_nil {A} R x0 (q : RevTables -> option A) (P : A -> Prop) :
  (forall d a, rules d = R -> q d = Some a -> P a) ->
  within (untouched R x0) (fun r => match r with Some a => P a | None => True end) (first_or_nil q).
Proof.
  intros Hq. eapply within_bind; [eapply within_try, within_first|]. intros [a|[]] Ha; simpl in Ha;
    try apply within_throw; apply within_ret; try done.
  destruct Ha as (d & x & [HR _] & Ha). by eapply Hq.
Qed.

Lemma untouched_MarkFailed R x0 id msg : within (untouched R x0) anything (MarkFailed id msg).
Proof. eapply within_bind; [apply within_now|]. intros n _. apply untouched_exec. by intros d d' [= <-]. Qed.

Lemma untouched_ProcessEarning R x0 e :
  e_TotalNano e <= 0 \/ (forall r, r ∈ rows R -> rr_IsActive r = true -> rr_Type r <> e_Type e) ->
  within (untouched R x0) anything (ProcessEarning cfg e).
Proof.
  intros Hu. unfold ProcessEarning. destruct (e_TotalNano e <=? 0) eqn:E.
  { eapply within_bind; [apply within_try, untouched_MarkFailed|]. intros; apply within_throw. }
  zbool. destruct Hu as [|Hu]; [lia|].
  eapply within_bind; [eapply within_wrap_err, (untouched_first_or_nil _ _ _ (fun _ => False))|].
  - intros d r HR Hr. unfold rule_for, first_row in Hr. apply first_by_some in Hr as [Hin Hr].
    destruct_hyps. zbool. rewrite HR in Hin. by eapply Hu.
  - intros [r|]; [done|]. intros _. apply within_throw.
Qed.

Lemma untouched_event R x0 e : unpayable R e -> within (untouched R x0) anything (on_earning_created cfg (Some e)).
Proof.
  intros Hu. eapply (within_bind _ (on_ok anything)); [|by intros; apply within_ret]. apply within_try.
  unfold CreateAndProcess. destruct (ee_TotalNano e <=? 0) eqn:E; [apply within_throw|].
  eapply within_bind.
  { instantiate (1 := anything). destruct (_ =? "")%string; [by apply within_ret|]. apply within_wrap_err.
    unfold FindEarningByRefID. destruct (_ =? "")%string; [by apply within_ret|].
    by eapply within_anything, (untouched_first_or_nil _ _ _ (fun _ => True)). }
  intros [x|] _; [by apply within_ret|].
  do 2 (eapply within_bind; [auto with within|intros ? _]).
  eapply within_bind; [apply within_wrap_err, untouched_exec|].
  - intros d d' Hd. destruct (bool_decide _); [done|]. by injection Hd as <-.
  - intros _ _. by apply untouched_ProcessEarning.
Qed.

Lemma untouched_deliver R x0 l :
  Forall (fun m => pays m = true -> forall e, decode_earning m = Some e -> unpayable R e) l ->
  within (untouched R x0) anything (deliver l).
Proof.
  induction 1 as [|m l Hm _ IH]; simpl; [by apply within_ret|].
  eapply (within_bind _ anything); [|by intros]. destruct (pays m) eqn:Hp; [|by apply within_ret].
  destruct (decode_earning m) as [e|] eqn:E; [|by apply within_ret]. apply untouched_event. by apply Hm.
Qed.
End delivery.

Section distribution.
Context {ENV : Env} {LIB : Lib} {FP : F64Platform} {UUID : UuidParser}.

(** The earnings that community-service publishes: without an amount in nano,
    or member rewards. *)
Definition vain (m : Event) : Prop :=
  pays m = true -> forall e, decode_earning m = Some e -> ee_TotalNano e = 0 \/ ee_Type e = "member_reward"%string.

Lemma vain_owner rev a : vain {| ev_Subject := "earning.created"; ev_Fields := owner_earning rev a |}.
Proof. intros _ e [= <-]. by left. Qed.

Lemma vain_platform a : vain {| ev_Subject := "earning.created"; ev_Fields := platform_earning a |}.
Proof. intros _ e [= <-]. by left. Qed.

Lemma vain_member rev id share : vain {| ev_Subject := "earning.created"; ev_Fields := member_earning rev id share |}.
Proof.
  intros _ e He. right. unfold decode_earning, field_string, field_int64 in He. simpl in He.
  destruct (in_int64b id); [|done]. destruct (in_int64b (int64_of_f64 _)); [|done]. by injection He as <-.
Qed.

Lemma keeps_mongo {A} (none : A) f : keeps outbox (mongo_command none f).
Proof.
  intros s r s' Hr. unfold mongo_command, bump in Hr. destruct (cw_mongo _); [|by injection Hr as _ <-].
  destruct (env_fault _); by injection Hr as _ <-.
Qed.

Lemma keeps_row_and_error {A} zero (q : CommTables -> option A) : keeps outbox (row_and_error zero (first q)).
Proof.
  intros s r s' Hr. unfold row_and_error in Hr. destruct (first q s) as [r1 s1] eqn:E. injection Hr as _ <-.
  by apply (keeps_first outbox) in E.
Qed.

Lemma keeps_community_statements :
  (forall id, keeps outbox (MarkRevenueDistributed id)) /\ (forall x, keeps outbox (CreateDistribution x)).
Proof. split; intros; unfold MarkRevenueDistributed, CreateDistribution; keeps_tac. Qed.

Lemma posts_reward_loop rev c pool total l : posts vain (reward_loop rev c pool total l).
Proof.
  induction l as [|[id s] l IH]; simpl; [apply posts_nothing, keeps_ret|]. cbv zeta.
  apply posts_bind; [|done]. destruct (f64_lt _ _); [apply posts_nothing, keeps_ret|].
  apply posts_bind; [apply posts_publish_quiet, vain_member|]. intros _.
  apply posts_nothing. keeps_tac. apply keeps_community_statements.
Qed.

Lemma posts_DistributeRevenue id : posts vain (DistributeRevenue id).
Proof.
  apply posts_bind; [apply posts_nothing, keeps_row_and_error|]. intros r.
  destruct (fst r) as [rev|]; [|apply posts_nothing, keeps_throw]. destruct (negb _); [apply posts_nothing, keeps_ret|].
  apply posts_bind; [apply posts_nothing, keeps_row_and_error|]. intros c.
  destruct (fst c) as [community|]; [|apply posts_nothing, keeps_throw].
  destruct (RevenuePercentages community) as [[o m] p]. cbv zeta.
  apply posts_bind; [destruct (f64_gt _ _); [apply posts_publish_quiet, vain_owner|apply posts_nothing, keeps_ret]|intros _].
  apply posts_bind; [|intros _].
  { destruct (_ && _); [|apply posts_nothing, keeps_ret]. unfold distributeMemberRewards.
    apply posts_bind; [apply posts_nothing, keeps_now|intros n].
    apply posts_bind; [apply posts_nothing, keeps_try, keeps_mongo|intros l]. cbv zeta.
    destruct (_ =? 0); [apply posts_nothing, keeps_ret|apply posts_reward_loop]. }
  apply posts_bind; [destruct (f64_gt _ _); [apply posts_publish_quiet, vain_platform|apply posts_nothing, keeps_ret]|intros _].
  apply posts_bind; [apply posts_nothing, keeps_try, keeps_community_statements|intros _].
  by apply posts_publish_quiet.
Qed.

(** The revenue of a campaign never reaches anybody: whatever
    DistributeRevenue publishes, once the bus has handed it to revenue-service,
    has moved no money in botpay and left the engine as it was, as long as no
    active rule is for member rewards (the default rules have none). The shares
    of the owner and the platform are refused because they carry their amount
    under a name that revenue-service does not read. *)
Theorem distribution_pays_nobody {B} {PS : PayServer B} {MARSHAL : JsonMarshal} (cfg : ClientConfig) id s r s' :
  DistributeRevenue id s = (r, s') ->
  exists published, outbox (ext s') = outbox (ext s) ++ published /\
    forall (t : st RevTables (RevEngine * Remote B)) r' t',
      (forall rule, rule ∈ rows (rules (db t)) -> rr_IsActive rule = true -> rr_Type rule <> "member_reward"%string) ->
      deliver cfg published t = (r', t') -> ext t' = ext t /\ rules (db t') = rules (db t).
Proof.
  intros Hr. apply posts_DistributeRevenue in Hr as (l & Hl & Hvain). exists l. split; [done|].
  intros t r' t' Hrules Ht.
  assert (within (untouched (rules (db t)) (ext t)) anything (deliver cfg l)) as Hd.
  { apply untouched_deliver. eapply Forall_impl; [apply Hvain|]. intros m Hm Hp e He.
    destruct (Hm Hp e He) as [Ht0|Hty]; [left; lia|right; by rewrite Hty]. }
  by destruct (Hd t r' t' (conj eq_refl eq_refl) Ht) as [[? ?] _].
Qed.
End distribution.

(** * A failing query *)

Section failing.
Context {ENV : Env} {LIB : Lib} {FP : F64Platform} {UUID : UuidParser}.

Lemma first_faulty {D X A} (q : D -> option A) (s : st D X) c :
  env_fault (tick s) = Some c -> tx s = NoTx -> first q s = (Err (ErrDriver c), bump s).
Proof. intros Hf Ht. unfold first, stmt. rewrite Ht, Hf. unfold bump. by rewrite Ht. Qed.

(** A settled revenue is left alone. *)
Lemma DistributeRevenue_settled id s r s' rev :
  revenues (db s) !! id = Some rev -> cr_Status rev <> "pending"%string ->
  DistributeRevenue id s = (r, s') -> db s' = db s /\ ext s' = ext s.
Proof.
  intros Hrev Hst Hr. unfold DistributeRevenue, FindRevenue, row_and_error in Hr.
  apply bind_run in Hr as (r1 & s1 & Hf & Hr). destruct (first _ s) as [r2 s0] eqn:Ht. destruct r2 as [a|e].
  - apply first_ok in Ht as (Ha & -> & _). rewrite Hrev in Ha. injection Ha as <-.
    injection Hf as <- <-. simpl in Hr. rewrite (proj2 (String.eqb_neq _ _) Hst) in Hr. by injection Hr as _ <-.
  - apply stmt_err_db in Ht as [Hd Hx]. rewrite <- Hd, <- Hx.
    destruct e; injection Hf as <- <-; simpl in Hr; by injection Hr as _ <-.
Qed.

(** A failing query for the community burns the revenue: DistributeRevenue
    takes the zero row for the community, publishes no earning, marks the
    revenue as distributed and reports success; no later call pays it either. *)
Theorem failed_lookup_burns_revenue id s rev c :
  revenues (db s) !! id = Some rev -> cr_Status rev = "pending"%string -> tx s = NoTx ->
  env_fault (tick s) = None -> env_fault (S (tick s)) = Some c -> quiet_from (S (S (tick s))) ->
  exists s' n, DistributeRevenue id s = (Ok tt, s') /\
    revenues (db s') = alter (distributed n) id (revenues (db s)) /\ distributions (db s') = distributions (db s) /\
    (exists l, outbox (ext s') = outbox (ext s) ++ l /\ Forall (fun m => pays m = false) l) /\
    forall s1 r s2, db s1 = db s' -> DistributeRevenue id s1 = (r, s2) -> db s2 = db s1 /\ ext s2 = ext s1.
Proof.
  intros Hrev Hst Htx H0 H1 Hq. destruct s as [k t d x]. simpl in *. subst t.
  set (d' := set_revenues (alter (distributed (env_now (S (S k)))) id) d).
  assert (Hm : MarkRevenueDistributed id (mkSt (S (S k)) NoTx d x) = (Ok tt, mkSt (S (S (S (S k)))) NoTx d' x)).
  { unfold MarkRevenueDistributed, bind, now. rewrite (exec_quiet _ _ d'); [done|apply Hq; simpl; lia|done|done]. }
  assert (Hp : exists fields, DistributeRevenue id (mkSt k NoTx d x)
    = publish_quiet "community.revenue.distributed" fields (mkSt (S (S (S (S k)))) NoTx d' x)).
  { destruct (RevenuePercentages zero_community) as [[o m] p] eqn:Ep. eexists. unfold DistributeRevenue.
    eapply bind_intro.
    { unfold FindRevenue, row_and_error. rewrite first_quiet by done. simpl. rewrite Hrev. reflexivity. }
    simpl. rewrite Hst. simpl. eapply bind_intro.
    { unfold FindCommunityByID, row_and_error. by rewrite (first_faulty _ _ c). }
    cbn [fst]. rewrite Ep. cbv zeta. rewrite !zero_community_pays_nothing. cbn [andb].
    do 3 (eapply bind_intro; [reflexivity|]).
    eapply bind_intro; [apply try_intro, Hm|]. reflexivity. }
  assert (Hrun : exists s', DistributeRevenue id (mkSt k NoTx d x) = (Ok tt, s') /\ db s' = d' /\
    exists l, outbox (ext s') = outbox x ++ l /\ Forall (fun m => pays m = false) l).
  { destruct Hp as [fields ->]. destruct (publish_quiet _ _ _) as [r s'] eqn:Ep.
    assert (r = Ok tt) as ->.
    { unfold publish_quiet, bind, try in Ep. destruct (PublishCore _ _ _); by injection Ep. }
    exists s'. split; [done|]. split; [by apply reads_publish_quiet in Ep|].
    by refine (posts_publish_quiet (fun m => pays m = false) _ _ _ _ _ _ Ep). }
  destruct Hrun as (s' & Hrun & Hd & Hl). exists s', (env_now (S (S k))). rewrite Hd.
  do 4 (split; [done|]). intros s1 r s2 Hs1 Hr.
  apply (DistributeRevenue_settled id s1 r s2 (distributed (env_now (S (S k))) rev)); [|done|done].
  rewrite Hs1. simpl. by rewrite lookup_alter, decide_True, Hrev by done.
Qed.

(** The activity score of a member whose counters stay below 2^60 is
    the sum of four capped terms, between 0 and 100; with larger counters a
    term wraps around and the score of the busiest member turns negative, which
    drops him from the distribution. *)
Theorem activity_score_bounds m :
  0 <= ma_Messages m < 2 ^ 60 -> 0 <= ma_Replies m < 2 ^ 60 -> 0 <= ma_Reactions m < 2 ^ 60 ->
  0 <= ma_ActiveDays m < 2 ^ 60 ->
  CalcActivityScore m = Z.min (2 * ma_Messages m) 40 + Z.min (3 * ma_Replies m) 30 + Z.min (ma_Reactions m) 15
    + Z.min (5 * ma_ActiveDays m) 15 /\
  0 <= CalcActivityScore m <= 100 /\
  forall k, k = 2 ^ 62 ->
    CalcActivityScore {| ma_TelegramID := ma_TelegramID m; ma_CommunityID := ma_CommunityID m; ma_Messages := k;
      ma_Replies := ma_Replies m; ma_Reactions := ma_Reactions m; ma_ActiveDays := ma_ActiveDays m;
      ma_ActivityScore := ma_ActivityScore m; ma_UpdatedAt := ma_UpdatedAt m |} < 0.
Proof.
  intros H1 H2 H3 H4.
  assert (forall n c, 0 <= n < 2 ^ 60 -> 0 <= c <= 5 -> i64_mul n c = c * n) as Hmul.
  { intros n c Hn Hc. unfold i64_mul. rewrite wrap64_id; [lia|]. unfold in_int64, int64_min, int64_max. nia. }
  assert (forall a b, 0 <= a <= 200 -> 0 <= b <= 200 -> i64_add a b = a + b) as Hadd.
  { intros a b Ha Hb. apply wrap64_id. unfold in_int64, int64_min, int64_max. lia. }
  assert (forall a b c d, 0 <= a <= 50 -> 0 <= b <= 50 -> 0 <= c <= 50 -> 0 <= d <= 50 ->
    i64_add (i64_add (i64_add (i64_add 0 a) b) c) d = a + b + c + d) as Hsum.
  { intros a b c d Ha Hb Hc Hd. rewrite (Hadd 0 a), (Hadd (0 + a) b), (Hadd (0 + a + b) c), (Hadd (0 + a + b + c) d); lia. }
  unfold CalcActivityScore. simpl ma_Messages. simpl ma_Replies. simpl ma_Reactions. simpl ma_ActiveDays.
  rewrite !Hmul by lia. rewrite !Hsum by lia. split; [destruct (100 <? _) eqn:E; zbool; lia|].
  split; [destruct (100 <? _) eqn:E; zbool; lia|]. intros k ->.
  assert (i64_mul (2 ^ 62) 2 = - 2 ^ 63) as -> by reflexivity.
  assert (forall a, 0 <= a <= 100 -> i64_add (- 2 ^ 63) a = - 2 ^ 63 + a) as Hneg.
  { intros a Ha. apply wrap64_id. unfold in_int64, int64_min, int64_max. lia. }
  assert (i64_add 0 (Z.min (- 2 ^ 63) 40) = - 2 ^ 63) as -> by reflexivity.
  rewrite Hneg by lia.
  assert (forall a b, 0 <= a <= 100 -> 0 <= b <= 100 -> i64_add (- 2 ^ 63 + a) b = - 2 ^ 63 + (a + b)) as Hneg2.
  { intros a b Ha Hb. unfold i64_add. rewrite wrap64_id; [lia|]. unfold in_int64, int64_min, int64_max. lia. }
  rewrite !Hneg2 by lia. destruct (100 <? _) eqn:E; zbool; lia.
Qed.
End failing.

(** * Examples *)

Section demo.
#[local] Existing Instance demo_lib.
#[local] Existing Instance demo_crypto.
#[local] Existing Instance demo_locales.
#[local] Existing Instance rev_json.
#[local] Existing Instance amd64.
#[local] Existing Instance rev_marshal.

#[local] Instance comm_uuids : UuidParser := {| uuid_Parse := fun s => Z.to_N <$> ParseInt 10 s |}.

Definition empty_comm : CommTables :=
  {| communities := ∅; participants := ∅; revenues := ∅; distributions := ∅ |}.
Definition fresh_world : CommWorld := {| cw_mongo := None; cw_timers := []; cw_sent := [] |}.

(** A registration over HTTP, a member's join and a campaign's revenue. *)
Definition demo_ops : list comm_op :=
  [ORegister (Some {| rq_OwnerTelegramID := 7; rq_ChatID := -100; rq_Type := "group"; rq_Name := "g"; rq_Username := "";
                      rq_InviteLink := "" |});
   OEngineRegister 5 (-100) "group" "g" "";
   OJoined (Some (7, -100, "12"%string));
   OCampaignRevenue (Some {| rg_CommunityID := "-100"; rg_CampaignID := "12"; rg_RevenueTON := f64_of_int 3;
                             rg_ValidJoins := 1 |}); OTick].

Lemma community_service_barren_witness :
  barren empty_comm fresh_world /\
  forall rs, fst (serve (ENV := calm_env) "key" demo_ops (init_st empty_comm fresh_world)) = Ok rs -> Forall not_created rs.
Proof.
  assert (barren empty_comm fresh_world) as Hb by (split_and!; [reflexivity..|constructor]).
  split; [exact Hb|]. intros rs Hrs.
  refine (proj2 (community_service_barren (ENV := calm_env) "key" demo_ops (init_st empty_comm fresh_world) _ _ Hb
    (surjective_pairing _)) rs Hrs).
Defined.

(** An active group with one busy member and 10 TON of a campaign's revenue. *)
Definition demo_group : Community := {|
  c_ID := 3; c_DeletedAt := None; c_OwnerID := 5; c_TelegramID := -100; c_Type := "group"; c_Name := "g";
  c_Username := ""; c_Status := "active"; c_InviteLink := "l"; c_InviteHash := "h"; c_OwnerPercent := f64_0;
  c_MembersPercent := f64_0; c_PlatformPercent := f64_0; c_MemberCount := 1; c_QualityScore := 90;
  c_ValidationWindowSec := 86400; c_VerifiedAt := None |}.
Definition demo_revenue : CommunityRevenue := new_revenue 4 3 12
  {| rg_CommunityID := "3"; rg_CampaignID := "12"; rg_RevenueTON := f64_of_int 10; rg_ValidJoins := 1 |}.
Definition demo_member : MemberActivity := {|
  ma_TelegramID := 7; ma_CommunityID := -100; ma_Messages := 12; ma_Replies := 4; ma_Reactions := 2; ma_ActiveDays := 1;
  ma_ActivityScore := 0; ma_UpdatedAt := 0 |}.
Definition demo_community : st CommTables CommWorld :=
  init_st {| communities := {[ 3%N := demo_group ]}; participants := ∅; revenues := {[ 4%N := demo_revenue ]};
             distributions := ∅ |}
          {| cw_mongo := Some [demo_member]; cw_timers := []; cw_sent := [] |}.

(** It publishes three earnings and a report, none of which moves any money. *)
Lemma distribution_pays_nobody_witness :
  length (outbox (ext (snd (DistributeRevenue (ENV := calm_env) 4 demo_community)))) = 4%nat /\
  exists published, outbox (ext (snd (DistributeRevenue (ENV := calm_env) 4 demo_community))) = published /\
    ext (snd (deliver (ENV := calm_env) (PS := botpay_server (ENV := calm_env) "secret" (fun _ => demo_order))
                rev_cfg published rev_0)) = ext rev_0.
Proof.
  split; [vm_compute; reflexivity|].
  destruct (distribution_pays_nobody (ENV := calm_env)
    (PS := botpay_server (ENV := calm_env) "secret" (fun _ => demo_order)) rev_cfg 4 demo_community _ _
    (surjective_pairing _)) as (l & Hl & H).
  exists l. split; [exact Hl|]. refine (proj1 (H rev_0 _ _ _ (surjective_pairing _))).
  intros rule Hin _. vm_compute in Hin.
  repeat (apply elem_of_cons in Hin as [->|Hin]; [discriminate|]). by apply elem_of_nil in Hin.
Defined.

Lemma failed_lookup_burns_revenue_witness :
  exists s' n, DistributeRevenue (ENV := fails_at (Some 1%nat)) 4 demo_community = (Ok tt, s') /\
    revenues (db s') = alter (distributed n) 4%N (revenues (db demo_community)).
Proof.
  destruct (failed_lookup_burns_revenue (ENV := fails_at (Some 1%nat)) 4 demo_community demo_revenue 1
    eq_refl eq_refl eq_refl eq_refl eq_refl) as (s' & n & H1 & H2 & _).
  - intros k Hk. simpl in *. rewrite bool_decide_eq_false_2; [reflexivity|]. intros [= ->]. lia.
  - exists s', n. split; [exact H1|exact H2].
Defined.

Lemma activity_score_bounds_witness : CalcActivityScore demo_member = 24 + 12 + 2 + 5.
Proof. refine (proj1 (activity_score_bounds demo_member _ _ _ _)); simpl; lia. Defined.
End demo.
