(* ===== verification/AdsModels.v ===== *)
(** ads-bot: the tables of its advertising campaigns and lock rentals, PostgreSQL's
    numeric columns, and the state of the Telegram bot. *)
From S2P Require Import Prelude GoInt GoFloat GoString Effects PayModels Bus.
From Stdlib Require Export QArith.
Open Scope Z_scope.

(** * PostgreSQL's numeric *)

(** gorm stores a float64 in a numeric column: an exact decimal, or a special value. *)
Inductive numeric := Num (q : Q) | NumNaN | NumInf (negative : bool).

Definition num_neg (x : numeric) : numeric :=
  match x with Num q => Num (- q) | NumNaN => NumNaN | NumInf b => NumInf (negb b) end.
Definition num_add (x y : numeric) : numeric :=
  match x, y with
  | Num p, Num q => Num (p + q)
  | NumNaN, _ | _, NumNaN => NumNaN
  | NumInf a, NumInf b => if Bool.eqb a b then NumInf a else NumNaN
  | NumInf a, Num _ | Num _, NumInf a => NumInf a
  end.
Definition num_sub (x y : numeric) : numeric := num_add x (num_neg y).
(** NaN is the greatest value and equals itself. *)
Definition num_le (x y : numeric) : bool :=
  match x, y with
  | _, NumNaN => true
  | NumNaN, _ => false
  | Num p, Num q => Qle_bool p q
  | NumInf true, _ | _, NumInf false => true
  | NumInf false, Num _ | Num _, NumInf true | NumInf false, NumInf true => false
  end.
Definition num_eq (x y : numeric) : Prop :=
  match x, y with Num p, Num q => (p == q)%Q | _, _ => x = y end.

(** The driver's conversions; a finite float64 is written as its shortest
    decimal, which reads back as a number that is written the same way. *)
Class PgNumeric := { decimal : float64 -> Q; nearest : Q -> float64 }.
Class PgNumericLaws `{PgNumeric} := {
  decimal_back : forall x, f64_trunc x <> None ->
    f64_trunc (nearest (decimal x)) <> None /\ decimal (nearest (decimal x)) = decimal x;
}.

Section conversions.
Context `{PgNumeric}.
Definition to_numeric (x : float64) : numeric :=
  match x with
  | S754_nan => NumNaN
  | S754_infinity s => NumInf s
  | _ => Num (decimal x)
  end.
Definition of_numeric (x : numeric) : float64 :=
  match x with Num q => nearest q | NumNaN => S754_nan | NumInf s => S754_infinity s end.

(** A value that a float64 wrote is rewritten unchanged. *)
Definition stored (v : numeric) : Prop := to_numeric (of_numeric v) = v.

Lemma to_numeric_finite x : f64_trunc x <> None -> to_numeric x = Num (decimal x).
Proof. by destruct x. Qed.

Lemma stored_to_numeric `{!PgNumericLaws} x : stored (to_numeric x).
Proof.
  unfold stored. destruct x as [s|s| |s m e]; try done; simpl.
  - destruct (decimal_back (S754_zero s)) as [Hf E]; [done|]. by rewrite to_numeric_finite, E.
  - destruct (decimal_back (S754_finite s m e)) as [Hf E]; [done|]. by rewrite to_numeric_finite, E.
Qed.
End conversions.

(** * internal/store/models.go: campaigns *)

Inductive ChannelStatus := ChannelPending | ChannelVerified | ChannelRejected | ChannelSuspended.
Inductive CampaignStatus :=
  CampaignDraft | CampaignPending | CampaignActive | CampaignPaused | CampaignDone | CampaignRejected.
#[export] Instance ChannelStatus_eq_dec : EqDecision ChannelStatus.
Proof. solve_decision. Defined.
#[export] Instance CampaignStatus_eq_dec : EqDecision CampaignStatus.
Proof. solve_decision. Defined.

Record ChannelCategory := { cat_ID : uuid; cat_Name : string; cat_Label : string; cat_CPJMultiplier : numeric; cat_IsActive : bool }.

Record AdConfig := {
  ac_ID : uuid; ac_BaseCPJ : numeric; ac_MinChannelScore : Z; ac_MaxFakePercent : numeric;
  ac_PlatformCommission : numeric; ac_IsActive : bool;
}.

Record Publisher := {
  pub_ID : uuid; pub_TelegramID : Z; pub_Username : string; pub_FirstName : string; pub_Balance : numeric;
  pub_IsBlocked : bool;
}.

Record AdChannel := {
  ch_ID : uuid; ch_OwnerID : uuid; ch_CategoryID : option uuid; ch_ChannelID : Z; ch_ChannelName : string;
  ch_ChannelUsername : string;
  ch_MemberCount : Z; ch_Status : ChannelStatus; ch_IsActive : bool; ch_Score : Z; ch_FakePercent : numeric;
  ch_RealMembers : Z; ch_EffectiveCPJ : numeric; ch_LastAnalyzedAt : option Z;
  ch_TotalImpressions : Z; ch_TotalEarned : numeric;
}.

Record MemberAnalysis := {
  man_ID : uuid; man_ChannelID : Z; man_TelegramID : Z; man_HasUsername : bool; man_HasProfilePhoto : bool;
  man_IsBot : bool; man_RealScore : Z; man_IsFake : bool; man_AnalyzedAt : Z;
}.

Record Campaign := {
  ca_ID : uuid; ca_CreatedAt : Z; ca_PublisherID : uuid; ca_Name : string; ca_Status : CampaignStatus;
  ca_TargetCategoryID : option uuid; ca_MinChannelScore : option Z;
  ca_MediaFileID : string; ca_MediaType : string; ca_Caption : string; ca_ButtonText : string; ca_ButtonURL : string;
  ca_Budget : numeric; ca_Spent : numeric; ca_CPJ : numeric; ca_TotalJoins : Z; ca_RealJoins : Z; ca_TargetCount : Z;
  ca_StartAt : option Z; ca_EndAt : option Z; ca_ReviewNote : string; ca_ReviewedAt : option Z; ca_ReviewerID : Z;
}.

Record Impression := { im_ID : uuid; im_CampaignID : uuid; im_ChannelID : Z; im_MessageID : Z;
  im_TotalJoins : Z; im_RealJoins : Z; im_FakeJoins : Z; im_Cost : numeric }.

(** * internal/store/models.go: lock rentals *)

Inductive LockRentalStatus := RentalPendingReview | RentalActive | RentalPaused | RentalRejected | RentalDone.
#[export] Instance LockRentalStatus_eq_dec : EqDecision LockRentalStatus.
Proof. solve_decision. Defined.

Record LockRentalCampaign := {
  lr_ID : uuid; lr_CreatedAt : Z; lr_BuyerTelegramID : Z; lr_TargetChannelID : Z; lr_TargetChannelUsername : string;
  lr_Status : LockRentalStatus; lr_ReviewNote : string; lr_ReviewedAt : option Z; lr_ReviewerID : Z;
  lr_RewardPerJoinTON : numeric; lr_Budget : numeric; lr_Spent : numeric; lr_FreeBotOwnerRewardPercent : numeric;
  lr_TotalJoins : Z; lr_RealJoins : Z; lr_StartAt : option Z; lr_EndAt : option Z;
}.

Record FreeBotSlot := {
  sl_ID : uuid; sl_BotInstanceID : uuid; sl_BotID : Z; sl_RentalID : option uuid; sl_AssignedOwnerTelegramID : Z;
  sl_IsChannelAdminConfirmed : bool;
}.
Definition IsFree (s : FreeBotSlot) : bool := match sl_RentalID s with None => true | Some _ => false end.
Definition IsRented (s : FreeBotSlot) : bool := negb (IsFree s).

Inductive JoinRewardStatus := RewardPending | RewardSettled | RewardReversed.
#[export] Instance JoinRewardStatus_eq_dec : EqDecision JoinRewardStatus.
Proof. solve_decision. Defined.

Record RentalJoinReward := {
  jr_ID : uuid; jr_RentalID : uuid; jr_TelegramID : Z; jr_AmountTON : numeric; jr_Status : JoinRewardStatus;
  jr_SettleAt : Z; jr_SettledAt : option Z;
}.

Record FreeBotOwnerReward := {
  or_ID : uuid; or_RentalID : uuid; or_SlotID : uuid; or_OwnerTelegramID : Z; or_AmountTON : numeric;
  or_Status : JoinRewardStatus; or_SettleAt : Z; or_SettledAt : option Z;
}.

(** The service's tables, and the bot_instances and users of botmanager that it
    reads: the telegram id of the owner of an instance. *)
Record AdsTables := {
  publishers : gmap uuid Publisher; channels : gmap uuid AdChannel; categories : gmap uuid ChannelCategory;
  configs : gmap uuid AdConfig; analyses : gmap uuid MemberAnalysis; campaigns : gmap uuid Campaign;
  impressions : gmap uuid Impression; rentals : gmap uuid LockRentalCampaign; slots : gmap uuid FreeBotSlot;
  join_rewards : gmap uuid RentalJoinReward; owner_rewards : gmap uuid FreeBotOwnerReward;
  instance_owners : gmap uuid Z;
}.

(** * The bot *)

(** Steps and data of a conversation, kept in Redis for twenty minutes. *)
Inductive wizard_step :=
| stepIdle | stepCampName | stepCampMedia | stepCampCaption | stepCampButton | stepCampURL | stepCampBudget
| stepCampCPJ | stepChannelFwd | stepChannelCPJ | stepAdminBroadcast | stepRejectNote | stepRentChannel
| stepRentBudget | stepRentReward.
#[export] Instance wizard_step_eq_dec : EqDecision wizard_step.
Proof. solve_decision. Defined.

Record wizardState := { Step : wizard_step; Data : gmap string string }.
Definition idle : wizardState := {| Step := stepIdle; Data := ∅ |}.
Definition data (st : wizardState) (k : string) : string := default ""%string (Data st !! k).

(** What the bot sends: a message to a chat, or an edit of the message whose
    button was pressed. Texts are named by the place that writes them. *)
Inductive Outgoing := Message (chat : Z) (text : string) (args : list fmtarg)
  | Edit (chat : Z) (text : string) (args : list fmtarg).

Record AdsWorld := {
  aw_states : gmap Z (wizardState * Z);  (* with the time of expiry *)
  aw_out : list Outgoing;
  aw_sent : list Event;
}.

#[export] Instance ads_outbox : Outbox AdsWorld.
Proof.
  refine {| outbox := aw_sent;
            post := fun m w => {| aw_states := aw_states w; aw_out := aw_out w; aw_sent := aw_sent w ++ [m] |} |}.
  done.
Defined.

Definition set_wizards (f : gmap Z (wizardState * Z) -> gmap Z (wizardState * Z)) (w : AdsWorld) : AdsWorld :=
  {| aw_states := f (aw_states w); aw_out := aw_out w; aw_sent := aw_sent w |}.
Definition add_out (o : Outgoing) (w : AdsWorld) : AdsWorld :=
  {| aw_states := aw_states w; aw_out := aw_out w ++ [o]; aw_sent := aw_sent w |}.

(** What Telegram answers: the chat behind an id or a name, the message id of
    the message sent at an effect. *)
Class AdsTelegram := {
  chat_by_id : Z -> option (Z * string);
  chat_by_username : string -> option (Z * string);
  message_id : nat -> Z;
}.
