(* ===== verification/AdsStore.v ===== *)
(** ads-bot/internal/store/store.go: the statements on publishers, campaigns,
    channels, and on lock rentals with their slots and rewards. *)
From S2P Require Import Prelude GoInt GoFloat GoString Effects PayModels Bus AdsModels.

Definition set_publishers (f : gmap uuid Publisher -> gmap uuid Publisher) (d : AdsTables) : AdsTables :=
  {| publishers := f (publishers d); channels := channels d; categories := categories d; configs := configs d;
     analyses := analyses d; campaigns := campaigns d; impressions := impressions d; rentals := rentals d; slots
     := slots d; join_rewards := join_rewards d; owner_rewards := owner_rewards d; instance_owners :=
     instance_owners d |}.
Definition set_channels (f : gmap uuid AdChannel -> gmap uuid AdChannel) (d : AdsTables) : AdsTables :=
  {| publishers := publishers d; channels := f (channels d); categories := categories d; configs := configs d;
     analyses := analyses d; campaigns := campaigns d; impressions := impressions d; rentals := rentals d; slots
     := slots d; join_rewards := join_rewards d; owner_rewards := owner_rewards d; instance_owners :=
     instance_owners d |}.
Definition set_categories (f : gmap uuid ChannelCategory -> gmap uuid ChannelCategory) (d : AdsTables) : AdsTables :=
  {| publishers := publishers d; channels := channels d; categories := f (categories d); configs := configs d;
     analyses := analyses d; campaigns := campaigns d; impressions := impressions d; rentals := rentals d; slots
     := slots d; join_rewards := join_rewards d; owner_rewards := owner_rewards d; instance_owners :=
     instance_owners d |}.
Definition set_configs (f : gmap uuid AdConfig -> gmap uuid AdConfig) (d : AdsTables) : AdsTables :=
  {| publishers := publishers d; channels := channels d; categories := categories d; configs := f (configs d);
     analyses := analyses d; campaigns := campaigns d; impressions := impressions d; rentals := rentals d; slots
     := slots d; join_rewards := join_rewards d; owner_rewards := owner_rewards d; instance_owners :=
     instance_owners d |}.
Definition set_analyses (f : gmap uuid MemberAnalysis -> gmap uuid MemberAnalysis) (d : AdsTables) : AdsTables :=
  {| publishers := publishers d; channels := channels d; categories := categories d; configs := configs d;
     analyses := f (analyses d); campaigns := campaigns d; impressions := impressions d; rentals := rentals d;
     slots := slots d; join_rewards := join_rewards d; owner_rewards := owner_rewards d; instance_owners :=
     instance_owners d |}.
Definition set_campaigns (f : gmap uuid Campaign -> gmap uuid Campaign) (d : AdsTables) : AdsTables :=
  {| publishers := publishers d; channels := channels d; categories := categories d; configs := configs d;
     analyses := analyses d; campaigns := f (campaigns d); impressions := impressions d; rentals := rentals d;
     slots := slots d; join_rewards := join_rewards d; owner_rewards := owner_rewards d; instance_owners :=
     instance_owners d |}.
Definition set_impressions (f : gmap uuid Impression -> gmap uuid Impression) (d : AdsTables) : AdsTables :=
  {| publishers := publishers d; channels := channels d; categories := categories d; configs := configs d;
     analyses := analyses d; campaigns := campaigns d; impressions := f (impressions d); rentals := rentals d;
     slots := slots d; join_rewards := join_rewards d; owner_rewards := owner_rewards d; instance_owners :=
     instance_owners d |}.
Definition set_rentals (f : gmap uuid LockRentalCampaign -> gmap uuid LockRentalCampaign) (d : AdsTables) : AdsTables :=
  {| publishers := publishers d; channels := channels d; categories := categories d; configs := configs d;
     analyses := analyses d; campaigns := campaigns d; impressions := impressions d; rentals := f (rentals d);
     slots := slots d; join_rewards := join_rewards d; owner_rewards := owner_rewards d; instance_owners :=
     instance_owners d |}.
Definition set_slots (f : gmap uuid FreeBotSlot -> gmap uuid FreeBotSlot) (d : AdsTables) : AdsTables :=
  {| publishers := publishers d; channels := channels d; categories := categories d; configs := configs d;
     analyses := analyses d; campaigns := campaigns d; impressions := impressions d; rentals := rentals d; slots
     := f (slots d); join_rewards := join_rewards d; owner_rewards := owner_rewards d; instance_owners :=
     instance_owners d |}.
Definition set_join_rewards (f : gmap uuid RentalJoinReward -> gmap uuid RentalJoinReward) (d : AdsTables) : AdsTables :=
  {| publishers := publishers d; channels := channels d; categories := categories d; configs := configs d;
     analyses := analyses d; campaigns := campaigns d; impressions := impressions d; rentals := rentals d; slots
     := slots d; join_rewards := f (join_rewards d); owner_rewards := owner_rewards d; instance_owners :=
     instance_owners d |}.
Definition set_owner_rewards (f : gmap uuid FreeBotOwnerReward -> gmap uuid FreeBotOwnerReward) (d : AdsTables) : AdsTables :=
  {| publishers := publishers d; channels := channels d; categories := categories d; configs := configs d;
     analyses := analyses d; campaigns := campaigns d; impressions := impressions d; rentals := rentals d; slots
     := slots d; join_rewards := join_rewards d; owner_rewards := f (owner_rewards d); instance_owners :=
     instance_owners d |}.

Section store.
Context {ENV : Env} {PG : PgNumeric} {X : Type}.
Abbreviation AM := (M AdsTables X).

Definition num_0 : numeric := Num 0.

(** ** Publishers *)

Definition zero_publisher : Publisher := {| pub_ID := 0; pub_TelegramID := 0; pub_Username := ""; pub_FirstName := "";
  pub_Balance := num_0; pub_IsBlocked := false |}.
Definition publisher_by (P : Publisher -> bool) (d : AdsTables) : option Publisher :=
  first_row pub_ID P (rows (publishers d)).

Definition insert_publisher (p : Publisher) (d : AdsTables) : result AdsTables :=
  if bool_decide (is_Some (publishers d !! pub_ID p)) then Err (ErrDuplicatedKey "publishers_pkey")
  else if existsb (fun x => pub_TelegramID x =? pub_TelegramID p) (rows (publishers d))
  then Err (ErrDuplicatedKey "idx_publishers_telegram_id")
  else Ok (set_publishers <[pub_ID p := p]> d).

Definition named_publisher (p : Publisher) (username firstName : string) : Publisher :=
  {| pub_ID := pub_ID p; pub_TelegramID := pub_TelegramID p;
     pub_Username := if (username =? "")%string then pub_Username p else username;
     pub_FirstName := if (firstName =? "")%string then pub_FirstName p else firstName;
     pub_Balance := pub_Balance p; pub_IsBlocked := pub_IsBlocked p |}.

(** FirstOrCreate with Assign: empty names are left out of the update. *)
Definition UpsertPublisher (telegramID : Z) (username firstName : string) : AM Publisher :=
  (r <- try (first (publisher_by (fun p => (telegramID =? 0) || (pub_TelegramID p =? telegramID)))) ;;
   match r with
   | Ok p =>
       let p' := named_publisher p username firstName in
       (if (username =? "")%string && (firstName =? "")%string then ret tt
        else exec (fun d => Ok (set_publishers (alter (fun x => named_publisher x username firstName) (pub_ID p)) d))) ;;
       ret p'
   | Err ErrRecordNotFound =>
       (id <- uuid_New ;;
        let p := {| pub_ID := id; pub_TelegramID := telegramID; pub_Username := username; pub_FirstName := firstName;
                    pub_Balance := num_0; pub_IsBlocked := false |} in
        exec (insert_publisher p) ;; ret p)
   | Err e => throw e
   end)%eff.

Definition FindPublisher (telegramID : Z) : AM (option Publisher * option error) :=
  row_and_error zero_publisher (first (publisher_by (fun p => pub_TelegramID p =? telegramID))).
Definition FindPublisherByID (id : uuid) : AM (option Publisher * option error) :=
  row_and_error zero_publisher (first (publisher_by (fun p => (pub_ID p =? id)%N))).

Definition add_balance (delta : float64) (p : Publisher) : Publisher :=
  {| pub_ID := pub_ID p; pub_TelegramID := pub_TelegramID p; pub_Username := pub_Username p;
     pub_FirstName := pub_FirstName p; pub_Balance := num_add (pub_Balance p) (to_numeric delta);
     pub_IsBlocked := pub_IsBlocked p |}.
Definition UpdateBalance (id : uuid) (delta : float64) : AM unit :=
  exec (fun d => Ok (set_publishers (alter (add_balance delta) id) d)).

Definition ListPublishers : AM (list Publisher) := find (fun d => rows (publishers d)).

(** ** Campaigns *)

Definition campaign_by (P : Campaign -> bool) (d : AdsTables) : option Campaign := first_row ca_ID P (rows (campaigns d)).

Definition zero_campaign : Campaign := {|
  ca_ID := 0; ca_CreatedAt := 0; ca_PublisherID := 0; ca_Name := ""; ca_Status := CampaignDraft;
  ca_TargetCategoryID := None; ca_MinChannelScore := None; ca_MediaFileID := "";
  ca_MediaType := ""; ca_Caption := ""; ca_ButtonText := ""; ca_ButtonURL := ""; ca_Budget := num_0; ca_Spent := num_0;
  ca_CPJ := num_0; ca_TotalJoins := 0; ca_RealJoins := 0; ca_TargetCount := 0; ca_StartAt := None; ca_EndAt := None;
  ca_ReviewNote := ""; ca_ReviewedAt := None; ca_ReviewerID := 0 |}.

Definition Budget (c : Campaign) : float64 := of_numeric (ca_Budget c).
Definition Spent (c : Campaign) : float64 := of_numeric (ca_Spent c).
Definition CPJ (c : Campaign) : float64 := of_numeric (ca_CPJ c).
Definition RemainingBudget (c : Campaign) : float64 := f64_sub (Budget c) (Spent c).

Definition insert_campaign (c : Campaign) (d : AdsTables) : result AdsTables :=
  if bool_decide (is_Some (campaigns d !! ca_ID c)) then Err (ErrDuplicatedKey "campaigns_pkey")
  else Ok (set_campaigns <[ca_ID c := c]> d).
Definition CreateCampaign (c : Campaign) : AM unit := exec (insert_campaign c).

Definition FindCampaign (id : uuid) : AM (option Campaign * option error) :=
  row_and_error zero_campaign (first (campaign_by (fun c => (ca_ID c =? id)%N))).

(** Save writes every column of the struct, whose numbers went through float64. *)
Definition resaved (c : Campaign) : Campaign := {|
  ca_ID := ca_ID c; ca_CreatedAt := ca_CreatedAt c; ca_PublisherID := ca_PublisherID c; ca_Name := ca_Name c;
  ca_Status := ca_Status c; ca_TargetCategoryID := ca_TargetCategoryID c; ca_MinChannelScore := ca_MinChannelScore c;
  ca_MediaFileID := ca_MediaFileID c; ca_MediaType := ca_MediaType c;
  ca_Caption := ca_Caption c; ca_ButtonText := ca_ButtonText c; ca_ButtonURL := ca_ButtonURL c;
  ca_Budget := to_numeric (Budget c); ca_Spent := to_numeric (Spent c); ca_CPJ := to_numeric (CPJ c);
  ca_TotalJoins := ca_TotalJoins c; ca_RealJoins := ca_RealJoins c; ca_TargetCount := ca_TargetCount c;
  ca_StartAt := ca_StartAt c; ca_EndAt := ca_EndAt c; ca_ReviewNote := ca_ReviewNote c;
  ca_ReviewedAt := ca_ReviewedAt c; ca_ReviewerID := ca_ReviewerID c |}.
Definition with_id (id : uuid) (c : Campaign) : Campaign := {|
  ca_ID := id; ca_CreatedAt := ca_CreatedAt c; ca_PublisherID := ca_PublisherID c; ca_Name := ca_Name c;
  ca_Status := ca_Status c; ca_TargetCategoryID := ca_TargetCategoryID c; ca_MinChannelScore := ca_MinChannelScore c;
  ca_MediaFileID := ca_MediaFileID c; ca_MediaType := ca_MediaType c;
  ca_Caption := ca_Caption c; ca_ButtonText := ca_ButtonText c; ca_ButtonURL := ca_ButtonURL c;
  ca_Budget := ca_Budget c; ca_Spent := ca_Spent c; ca_CPJ := ca_CPJ c; ca_TotalJoins := ca_TotalJoins c;
  ca_RealJoins := ca_RealJoins c; ca_TargetCount := ca_TargetCount c; ca_StartAt := ca_StartAt c; ca_EndAt := ca_EndAt c;
  ca_ReviewNote := ca_ReviewNote c; ca_ReviewedAt := ca_ReviewedAt c; ca_ReviewerID := ca_ReviewerID c |}.
(** A struct without an id (the zero row of a failed query) is inserted. *)
Definition UpdateCampaign (c : Campaign) : AM unit :=
  if (ca_ID c =? 0)%N then (id <- uuid_New ;; exec (insert_campaign (with_id id (resaved c))))%eff
  else exec (fun d => Ok (set_campaigns <[ca_ID c := resaved c]> d)).

Definition newest_campaign (a b : Campaign) : Prop := ca_CreatedAt b <= ca_CreatedAt a.
#[local] Instance newest_campaign_dec : RelDecision newest_campaign :=
  fun a b => Z_le_dec (ca_CreatedAt b) (ca_CreatedAt a).
Definition oldest_campaign (a b : Campaign) : Prop := ca_CreatedAt a <= ca_CreatedAt b.
#[local] Instance oldest_campaign_dec : RelDecision oldest_campaign :=
  fun a b => Z_le_dec (ca_CreatedAt a) (ca_CreatedAt b).
Definition dearest_campaign (a b : Campaign) : Prop := num_le (ca_CPJ b) (ca_CPJ a) = true.
#[local] Instance dearest_campaign_dec : RelDecision dearest_campaign :=
  fun a b => bool_eq_dec (num_le (ca_CPJ b) (ca_CPJ a)) true.

Definition FindCampaignsByPublisher (publisherID : uuid) : AM (list Campaign) :=
  find (fun d => merge_sort newest_campaign
    (List.filter (fun c => (ca_PublisherID c =? publisherID)%N) (rows (campaigns d)))).
Definition FindPendingCampaigns : AM (list Campaign) :=
  find (fun d => merge_sort oldest_campaign
    (List.filter (fun c => bool_decide (ca_Status c = CampaignPending)) (rows (campaigns d)))).
Definition FindActiveCampaigns : AM (list Campaign) :=
  (n <- now ;;
   find (fun d => merge_sort dearest_campaign (List.filter
     (fun c => bool_decide (ca_Status c = CampaignActive) && match ca_EndAt c with None => true | Some e => n <? e end)
     (rows (campaigns d)))))%eff.

Definition reviewed (st : CampaignStatus) (note : string) (reviewer n : Z) (c : Campaign) : Campaign := {|
  ca_ID := ca_ID c; ca_CreatedAt := ca_CreatedAt c; ca_PublisherID := ca_PublisherID c; ca_Name := ca_Name c;
  ca_Status := st; ca_TargetCategoryID := ca_TargetCategoryID c; ca_MinChannelScore := ca_MinChannelScore c;
  ca_MediaFileID := ca_MediaFileID c; ca_MediaType := ca_MediaType c; ca_Caption := ca_Caption c;
  ca_ButtonText := ca_ButtonText c; ca_ButtonURL := ca_ButtonURL c; ca_Budget := ca_Budget c; ca_Spent := ca_Spent c;
  ca_CPJ := ca_CPJ c; ca_TotalJoins := ca_TotalJoins c; ca_RealJoins := ca_RealJoins c;
  ca_TargetCount := ca_TargetCount c; ca_StartAt := ca_StartAt c; ca_EndAt := ca_EndAt c; ca_ReviewNote := note;
  ca_ReviewedAt := Some n; ca_ReviewerID := reviewer |}.
Definition ApproveCampaign (id : uuid) (reviewer : Z) : AM unit :=
  (n <- now ;;
   exec (fun d => Ok (set_campaigns
     (alter (fun c => reviewed CampaignActive (ca_ReviewNote c) reviewer n c) id) d)))%eff.
Definition RejectCampaign (id : uuid) (reviewer : Z) (note : string) : AM unit :=
  (n <- now ;; exec (fun d => Ok (set_campaigns (alter (reviewed CampaignRejected note reviewer n) id) d)))%eff.

(** The table has total_joins and real_joins, but no join_count. *)
Definition AddJoinCount (id : uuid) (joins : Z) (cost : float64) : AM unit := undefined_column.

(** ** Channels and impressions *)

Definition zero_channel : AdChannel := {| ch_ID := 0; ch_OwnerID := 0; ch_CategoryID := None; ch_ChannelID := 0;
  ch_ChannelName := ""; ch_ChannelUsername := ""; ch_MemberCount := 0; ch_Status := ChannelPending; ch_IsActive := false; ch_Score := 0;
  ch_FakePercent := num_0; ch_RealMembers := 0; ch_EffectiveCPJ := num_0; ch_LastAnalyzedAt := None;
  ch_TotalImpressions := 0; ch_TotalEarned := num_0 |}.

Definition insert_channel (c : AdChannel) (d : AdsTables) : result AdsTables :=
  if bool_decide (is_Some (channels d !! ch_ID c)) then Err (ErrDuplicatedKey "ad_channels_pkey")
  else if existsb (fun x => ch_ChannelID x =? ch_ChannelID c) (rows (channels d))
  then Err (ErrDuplicatedKey "idx_ad_channels_channel_id")
  else Ok (set_channels <[ch_ID c := c]> d).
Definition CreateChannel (c : AdChannel) : AM unit := exec (insert_channel c).
Definition FindChannelByTelegramID (channelID : Z) : AM (option AdChannel * option error) :=
  row_and_error zero_channel
    (first (fun d => first_row ch_ID (fun c => ch_ChannelID c =? channelID) (rows (channels d)))).

(** is_verified and cpj_rate are no columns of ad_channels (status and effective_cpj are). *)
Definition ListActiveChannels (minCPJ : float64) : AM (list AdChannel) := undefined_column.
Definition VerifyChannel (id : uuid) : AM unit := undefined_column.
Definition ListUnverifiedChannels : AM (list AdChannel) := undefined_column.

Definition ListChannelsByOwner (ownerID : uuid) : AM (list AdChannel) :=
  find (fun d => List.filter (fun c => (ch_OwnerID c =? ownerID)%N) (rows (channels d))).

Definition inactive_channel (c : AdChannel) : AdChannel := {|
  ch_ID := ch_ID c; ch_OwnerID := ch_OwnerID c; ch_CategoryID := ch_CategoryID c; ch_ChannelID := ch_ChannelID c;
  ch_ChannelName := ch_ChannelName c; ch_ChannelUsername := ch_ChannelUsername c; ch_MemberCount := ch_MemberCount c; ch_Status := ch_Status c;
  ch_IsActive := false; ch_Score := ch_Score c; ch_FakePercent := ch_FakePercent c; ch_RealMembers := ch_RealMembers c;
  ch_EffectiveCPJ := ch_EffectiveCPJ c; ch_LastAnalyzedAt := ch_LastAnalyzedAt c;
  ch_TotalImpressions := ch_TotalImpressions c; ch_TotalEarned := ch_TotalEarned c |}.
Definition DeactivateChannel (id : uuid) : AM unit := exec (fun d => Ok (set_channels (alter inactive_channel id) d)).

Definition CreateImpression (i : Impression) : AM unit :=
  exec (fun d => if bool_decide (is_Some (impressions d !! im_ID i)) then Err (ErrDuplicatedKey "impressions_pkey")
                 else Ok (set_impressions <[im_ID i := i]> d)).

(** ** Statistics: the error of each query is dropped, its figure stays zero *)

Record AdsStats := { TotalCampaigns : Z; ActiveCampaigns : Z; TotalChannels : Z; TotalSpent : float64; TotalJoins : Z }.
Definition figure_or_0 (m : AM Z) : AM Z := (r <- try m ;; ret (match r with Ok z => z | Err _ => 0 end))%eff.
Definition Ads_GetStats : AM AdsStats :=
  (total <- figure_or_0 (find (fun d => Z.of_nat (size (campaigns d)))) ;;
   active <- figure_or_0 (find (fun d =>
     Z.of_nat (length (List.filter (fun c => bool_decide (ca_Status c = CampaignActive)) (rows (campaigns d)))))) ;;
   verified <- figure_or_0 undefined_column ;;
   sums <- try (undefined_column : AM (float64 * Z)) ;;
   let '(spent, joins) := match sums with Ok p => p | Err _ => (f64_of_int 0, 0) end in
   ret {| TotalCampaigns := total; ActiveCampaigns := active; TotalChannels := verified; TotalSpent := spent;
          TotalJoins := joins |})%eff.
End store.

(** * Lock rentals *)

Section rental_store.
Context {ENV : Env} {PG : PgNumeric} {X : Type}.
Abbreviation AM := (M AdsTables X).

Definition zero_rental : LockRentalCampaign := {|
  lr_ID := 0; lr_CreatedAt := 0; lr_BuyerTelegramID := 0; lr_TargetChannelID := 0; lr_TargetChannelUsername := "";
  lr_Status := RentalPendingReview; lr_ReviewNote := ""; lr_ReviewedAt := None; lr_ReviewerID := 0;
  lr_RewardPerJoinTON := num_0; lr_Budget := num_0; lr_Spent := num_0; lr_FreeBotOwnerRewardPercent := num_0;
  lr_TotalJoins := 0; lr_RealJoins := 0; lr_StartAt := None; lr_EndAt := None |}.

Definition lr_RemainingBudget (r : LockRentalCampaign) : float64 :=
  f64_sub (of_numeric (lr_Budget r)) (of_numeric (lr_Spent r)).

(** The current time is read only when there is an end to compare it with. *)
Definition lr_IsActive (r : LockRentalCampaign) : AM bool :=
  if negb (bool_decide (lr_Status r = RentalActive)) then ret false
  else if f64_le (lr_RemainingBudget r) (f64_of_int 0) then ret false
  else match lr_EndAt r with
       | Some e => (n <- now ;; ret (negb (e <? n)))%eff
       | None => ret true
       end.

Definition CreateLockRental (r : LockRentalCampaign) : AM unit :=
  exec (fun d => if bool_decide (is_Some (rentals d !! lr_ID r)) then Err (ErrDuplicatedKey "lock_rental_campaigns_pkey")
                 else Ok (set_rentals <[lr_ID r := r]> d)).

Definition FindLockRental (id : uuid) : AM (option LockRentalCampaign * option error) :=
  row_and_error zero_rental (first (fun d => rentals d !! id)).

Definition FindActiveRentalByChannel (channelID : Z) : AM (option LockRentalCampaign * option error) :=
  row_and_error zero_rental (first (fun d =>
    first_row lr_ID (fun r => (lr_TargetChannelID r =? channelID) && bool_decide (lr_Status r = RentalActive))
      (rows (rentals d)))).

(** UPDATE lock_rental_campaigns SET status, review columns, period, counters *)
Definition rental_with (st : LockRentalStatus) (note : string) (at_ : option Z) (reviewer : Z) (start end_ : option Z)
    (r : LockRentalCampaign) : LockRentalCampaign := {|
  lr_ID := lr_ID r; lr_CreatedAt := lr_CreatedAt r; lr_BuyerTelegramID := lr_BuyerTelegramID r;
  lr_TargetChannelID := lr_TargetChannelID r; lr_TargetChannelUsername := lr_TargetChannelUsername r; lr_Status := st;
  lr_ReviewNote := note; lr_ReviewedAt := at_; lr_ReviewerID := reviewer;
  lr_RewardPerJoinTON := lr_RewardPerJoinTON r; lr_Budget := lr_Budget r; lr_Spent := lr_Spent r;
  lr_FreeBotOwnerRewardPercent := lr_FreeBotOwnerRewardPercent r; lr_TotalJoins := lr_TotalJoins r;
  lr_RealJoins := lr_RealJoins r; lr_StartAt := start; lr_EndAt := end_ |}.
Definition rental_spending (joins : Z) (f : numeric -> numeric) (r : LockRentalCampaign) : LockRentalCampaign := {|
  lr_ID := lr_ID r; lr_CreatedAt := lr_CreatedAt r; lr_BuyerTelegramID := lr_BuyerTelegramID r;
  lr_TargetChannelID := lr_TargetChannelID r; lr_TargetChannelUsername := lr_TargetChannelUsername r;
  lr_Status := lr_Status r; lr_ReviewNote := lr_ReviewNote r; lr_ReviewedAt := lr_ReviewedAt r;
  lr_ReviewerID := lr_ReviewerID r; lr_RewardPerJoinTON := lr_RewardPerJoinTON r; lr_Budget := lr_Budget r;
  lr_Spent := f (lr_Spent r); lr_FreeBotOwnerRewardPercent := lr_FreeBotOwnerRewardPercent r;
  lr_TotalJoins := lr_TotalJoins r + joins; lr_RealJoins := lr_RealJoins r + joins; lr_StartAt := lr_StartAt r;
  lr_EndAt := lr_EndAt r |}.

Definition update_rental (id : uuid) (f : LockRentalCampaign -> LockRentalCampaign) : AM unit :=
  exec (fun d => Ok (set_rentals (alter f id) d)).

Definition DefaultRentalDuration : Z := 30 * 24 * 3600 * 1000000000.
Definition ApproveLockRental (id : uuid) (reviewer : Z) : AM unit :=
  (n <- now ;;
   update_rental id (fun r =>
     rental_with RentalActive (lr_ReviewNote r) (Some n) reviewer (Some n) (Some (n + DefaultRentalDuration)) r))%eff.
Definition RejectLockRental (id : uuid) (reviewer : Z) (note : string) : AM unit :=
  (n <- now ;;
   update_rental id (fun r => rental_with RentalRejected note (Some n) reviewer (lr_StartAt r) (lr_EndAt r) r))%eff.

Definition AddRentalJoinCount (id : uuid) (joins : Z) (cost : float64) : AM unit :=
  update_rental id (rental_spending joins (fun s => num_add s (to_numeric cost))).
Definition IncrementRentalSpentOnly (id : uuid) (cost : float64) : AM unit :=
  update_rental id (rental_spending 0 (fun s => num_add s (to_numeric cost))).

Definition rental_finished (n : Z) (r : LockRentalCampaign) : bool :=
  bool_decide (lr_Status r = RentalActive) &&
  (num_le (lr_Budget r) (lr_Spent r) || match lr_EndAt r with Some e => e <=? n | None => false end).
Definition done_rental (r : LockRentalCampaign) : LockRentalCampaign :=
  rental_with RentalDone (lr_ReviewNote r) (lr_ReviewedAt r) (lr_ReviewerID r) (lr_StartAt r) (lr_EndAt r) r.
(** One conditional UPDATE; whether it changed the row is the result. *)
Definition MarkRentalDoneIfFinished (id : uuid) : AM bool :=
  (n <- now ;;
   stmt (fun d => match rentals d !! id with
     | Some r => if rental_finished n r then Ok (true, set_rentals <[id := done_rental r]> d) else Ok (false, d)
     | None => Ok (false, d)
     end))%eff.

Definition oldest_rental (a b : LockRentalCampaign) : Prop := lr_CreatedAt a <= lr_CreatedAt b.
#[local] Instance oldest_rental_dec : RelDecision oldest_rental :=
  fun a b => Z_le_dec (lr_CreatedAt a) (lr_CreatedAt b).
Definition FindPendingLockRentals : AM (list LockRentalCampaign) :=
  find (fun d => merge_sort oldest_rental
    (List.filter (fun r => bool_decide (lr_Status r = RentalPendingReview)) (rows (rentals d)))).
Definition FindExpiredActiveRentals : AM (list LockRentalCampaign) :=
  (n <- now ;;
   find (fun d => List.filter (fun r => bool_decide (lr_Status r = RentalActive)
     && match lr_EndAt r with Some e => e <=? n | None => false end) (rows (rentals d))))%eff.

(** ** Rewards of joining users *)

Definition RewardSettlementDelay : Z := 24 * 3600 * 1000000000.

(** ON CONFLICT DO NOTHING on the key and on the pair (rental, user). *)
Definition insert_reward (w : RentalJoinReward) (d : AdsTables) : result (bool * AdsTables) :=
  if bool_decide (is_Some (join_rewards d !! jr_ID w)) ||
     existsb (fun x => (jr_RentalID x =? jr_RentalID w)%N && (jr_TelegramID x =? jr_TelegramID w)) (rows (join_rewards d))
  then Ok (false, d)
  else Ok (true, set_join_rewards <[jr_ID w := w]> d).
Definition TryRecordJoinReward (rentalID : uuid) (telegramID : Z) (amount : float64) : AM bool :=
  (id <- uuid_New ;;
   n <- now ;;
   stmt (insert_reward {| jr_ID := id; jr_RentalID := rentalID; jr_TelegramID := telegramID;
     jr_AmountTON := to_numeric amount; jr_Status := RewardPending; jr_SettleAt := n + RewardSettlementDelay;
     jr_SettledAt := None |}))%eff.

Definition reward_due (n : Z) (w : RentalJoinReward) : bool :=
  bool_decide (jr_Status w = RewardPending) && (jr_SettleAt w <=? n).
Definition FindDueRewards (limit : nat) : AM (list RentalJoinReward) :=
  (n <- now ;; find (fun d => take limit (List.filter (reward_due n) (rows (join_rewards d)))))%eff.

Definition reward_with (st : JoinRewardStatus) (settled : option Z) (w : RentalJoinReward) : RentalJoinReward :=
  {| jr_ID := jr_ID w; jr_RentalID := jr_RentalID w; jr_TelegramID := jr_TelegramID w; jr_AmountTON := jr_AmountTON w;
     jr_Status := st; jr_SettleAt := jr_SettleAt w; jr_SettledAt := settled |}.
Definition if_pending (f : RentalJoinReward -> RentalJoinReward) (w : RentalJoinReward) : RentalJoinReward :=
  if bool_decide (jr_Status w = RewardPending) then f w else w.
Definition SettleReward (id : uuid) : AM unit :=
  (n <- now ;;
   exec (fun d => Ok (set_join_rewards (alter (if_pending (reward_with RewardSettled (Some n))) id) d)))%eff.

Definition ReverseReward (id rentalID : uuid) (amount : float64) : AM unit :=
  transaction
    (changed <- stmt (fun d => match join_rewards d !! id with
       | Some w => if bool_decide (jr_Status w = RewardPending)
                   then Ok (true, set_join_rewards <[id := reward_with RewardReversed (jr_SettledAt w) w]> d)
                   else Ok (false, d)
       | None => Ok (false, d)
       end) ;;
     if negb (changed : bool) then ret tt
     else update_rental rentalID (rental_spending 0 (fun s => num_sub s (to_numeric amount))))%eff.

Fixpoint reverse_all (l : list RentalJoinReward) : AM unit :=
  match l with
  | [] => ret tt
  | w :: l => (ReverseReward (jr_ID w) (jr_RentalID w) (of_numeric (jr_AmountTON w)) ;; reverse_all l)%eff
  end.
Definition rewards_of_user (channelID telegramID : Z) (d : AdsTables) : list RentalJoinReward :=
  List.filter (fun w => match rentals d !! jr_RentalID w with
      | Some r => (lr_TargetChannelID r =? channelID) && (jr_TelegramID w =? telegramID)
                  && bool_decide (jr_Status w = RewardPending)
      | None => false
      end) (rows (join_rewards d)).
Definition ReversePendingRewardByUser (channelID telegramID : Z) : AM unit :=
  (l <- find (rewards_of_user channelID telegramID) ;; reverse_all l)%eff.

(** ** Rewards of the owners of free bots *)

Definition insert_owner_reward (w : FreeBotOwnerReward) (d : AdsTables) : result (bool * AdsTables) :=
  if bool_decide (is_Some (owner_rewards d !! or_ID w)) ||
     existsb (fun x => (or_RentalID x =? or_RentalID w)%N && (or_SlotID x =? or_SlotID w)%N) (rows (owner_rewards d))
  then Ok (false, d)
  else Ok (true, set_owner_rewards <[or_ID w := w]> d).
Definition TryRecordOwnerReward (rentalID slotID : uuid) (owner : Z) (amount : float64) : AM bool :=
  (id <- uuid_New ;;
   n <- now ;;
   stmt (insert_owner_reward {| or_ID := id; or_RentalID := rentalID; or_SlotID := slotID; or_OwnerTelegramID := owner;
     or_AmountTON := to_numeric amount; or_Status := RewardPending; or_SettleAt := n + RewardSettlementDelay;
     or_SettledAt := None |}))%eff.

Definition owner_reward_due (n : Z) (w : FreeBotOwnerReward) : bool :=
  bool_decide (or_Status w = RewardPending) && (or_SettleAt w <=? n).
Definition FindDueOwnerRewards (limit : nat) : AM (list FreeBotOwnerReward) :=
  (n <- now ;; find (fun d => take limit (List.filter (owner_reward_due n) (rows (owner_rewards d)))))%eff.

Definition settled_owner_reward (n : Z) (w : FreeBotOwnerReward) : FreeBotOwnerReward :=
  if bool_decide (or_Status w = RewardPending)
  then {| or_ID := or_ID w; or_RentalID := or_RentalID w; or_SlotID := or_SlotID w;
          or_OwnerTelegramID := or_OwnerTelegramID w; or_AmountTON := or_AmountTON w; or_Status := RewardSettled;
          or_SettleAt := or_SettleAt w; or_SettledAt := Some n |}
  else w.
Definition SettleOwnerReward (id : uuid) : AM unit :=
  (n <- now ;; exec (fun d => Ok (set_owner_rewards (alter (settled_owner_reward n) id) d)))%eff.

(** ** Free bots *)

(** ON CONFLICT (bot_id) DO NOTHING; the other unique columns still conflict. *)
Definition UpsertFreeBotSlot (s : FreeBotSlot) : AM unit :=
  exec (fun d =>
    if bool_decide (is_Some (slots d !! sl_ID s)) then Err (ErrDuplicatedKey "free_bot_slots_pkey")
    else if existsb (fun x => sl_BotID x =? sl_BotID s) (rows (slots d)) then Ok d
    else if existsb (fun x => (sl_BotInstanceID x =? sl_BotInstanceID s)%N) (rows (slots d))
    then Err (ErrDuplicatedKey "idx_free_bot_slots_bot_instance_id")
    else Ok (set_slots <[sl_ID s := s]> d)).

Definition zero_slot : FreeBotSlot := {| sl_ID := 0; sl_BotInstanceID := 0; sl_BotID := 0; sl_RentalID := None;
  sl_AssignedOwnerTelegramID := 0; sl_IsChannelAdminConfirmed := false |}.
Definition FindFreeBotSlotByBotID (botID : Z) : AM (option FreeBotSlot * option error) :=
  row_and_error zero_slot (first (fun d => first_row sl_ID (fun s => sl_BotID s =? botID) (rows (slots d)))).

Definition ListFreeSlots (limit : nat) : AM (list FreeBotSlot) :=
  find (fun d => let l := List.filter IsFree (rows (slots d)) in if (0 <? limit)%nat then take limit l else l).
Definition ListSlotsByRental (rentalID : uuid) : AM (list FreeBotSlot) :=
  find (fun d => List.filter (fun s => bool_decide (sl_RentalID s = Some rentalID)) (rows (slots d))).

Definition slot_for (rental : option uuid) (owner : Z) (confirmed : bool) (s : FreeBotSlot) : FreeBotSlot :=
  {| sl_ID := sl_ID s; sl_BotInstanceID := sl_BotInstanceID s; sl_BotID := sl_BotID s; sl_RentalID := rental;
     sl_AssignedOwnerTelegramID := owner; sl_IsChannelAdminConfirmed := confirmed |}.

Fixpoint save_slots (l : list FreeBotSlot) : AM unit :=
  match l with
  | [] => ret tt
  | s :: l => (exec (fun d => Ok (set_slots <[sl_ID s := s]> d)) ;; save_slots l)%eff
  end.
End rental_store.

Section rental_slots.
Context {ENV : Env} {PG : PgNumeric} {X : Type}.
Abbreviation AM := (M AdsTables X).

(** The closure assigns [assigned] before the COMMIT, whose failure leaves it set. *)
Definition AssignSlotsToRental (rentalID : uuid) (buyer : Z) (count : nat) : AM (list FreeBotSlot * option error) :=
  (' (assigned, r) <- with_var [] (transaction
     (free <- find (fun d => take count (List.filter IsFree (rows (slots d)))) ;;
      let assigned := map (slot_for (Some rentalID) buyer false) free in
      save_slots assigned ;;
      set_var assigned)) ;;
   ret (assigned, match r with Ok _ => None | Err e => Some e end))%eff.

Definition ReleaseSlot (id : uuid) : AM unit :=
  exec (fun d => Ok (set_slots (alter (slot_for None 0 false) id) d)).
Definition ConfirmChannelAdmin (id : uuid) : AM unit :=
  exec (fun d => Ok (set_slots
    (alter (fun s => slot_for (sl_RentalID s) (sl_AssignedOwnerTelegramID s) true s) id) d)).

(** Joins botmanager's tables; without a row, or without those tables, an error. *)
Definition ResolveSlotOwnerTelegramID (instance : uuid) : AM Z := first (fun d => instance_owners d !! instance).
End rental_slots.
