(* ===== verification/AdsRental.v ===== *)
(** ads-bot/internal/tgbot: the wizard's state, and lockrental.go: renting a
    channel lock, from the request to the settlement of the rewards. *)
From S2P Require Import Prelude GoInt GoFloat GoString GoText Effects PayModels PayChain WalletService PayResponder PayClient.
From S2P Require Import Bus AdsModels AdsStore.

Section wizard.
Context {ENV : Env} {R : Type}.
Abbreviation AM := (M AdsTables (AdsWorld * R)).

(** c.Send and bot.Send; c.Edit. Their errors are dropped or only logged. *)
Definition send (chat : Z) (text : string) (args : list fmtarg) : AM unit :=
  mod_ext (fun x => (add_out (Message chat text args) (fst x), snd x)).
Definition edit (chat : Z) (text : string) (args : list fmtarg) : AM unit :=
  mod_ext (fun x => (add_out (Edit chat text args) (fst x), snd x)).

Definition stateTTL : Z := 20 * 60 * 1000000000.

(** A failing Redis, a missing and an expired entry all give the idle state. *)
Definition getState (uid : Z) : AM wizardState := fun s =>
  (Ok match env_fault (tick s), aw_states (fst (ext s)) !! uid with
      | None, Some (st, expires) => if env_now (tick s) <? expires then st else idle
      | _, _ => idle
      end, bump s).
Definition setState (uid : Z) (st : wizardState) : AM unit := fun s =>
  match env_fault (tick s) with
  | Some _ => (Ok tt, bump s)
  | None => (Ok tt, mkSt (S (tick s)) (tx s) (db s)
      (set_wizards <[uid := (st, env_now (tick s) + stateTTL)]> (fst (ext s)), snd (ext s)))
  end.
Definition setStep (uid : Z) (step : wizard_step) (kv : list (string * string)) : AM unit :=
  (s <- getState uid ;;
   setState uid {| Step := step; Data := foldl (fun m p => <[fst p := snd p]> m) (Data s) kv |})%eff.
Definition clearState (uid : Z) : AM unit := fun s =>
  match env_fault (tick s) with
  | Some _ => (Ok tt, bump s)
  | None => (Ok tt, mkSt (S (tick s)) (tx s) (db s) (set_wizards (delete uid) (fst (ext s)), snd (ext s)))
  end.
End wizard.

Section rental.
Context {B : Type} {ENV : Env} {PS : PayServer B} {MARSHAL : JsonMarshal} {PG : PgNumeric} {FP : F64Platform}.
Context {UUID : UuidParser} {LIB : Lib} {TG : AdsTelegram} (cfg : ClientConfig) (ownerID : Z).
Abbreviation AM := (M AdsTables (AdsWorld * Remote B)).

Definition defaultSlotsPerRental : nat := 3.
Definition positive (x : option float64) : option float64 :=
  match x with Some f => if f64_le f (f64_of_int 0) then None else Some f | None => None end.

(** ** The request *)

Definition onRentLock (uid : Z) : AM unit := (setStep uid stepRentChannel [] ;; send uid "rent:channel?" [])%eff.

Definition resolveChannel (input : string) : option (Z * string) :=
  match ParseInt 10 input with
  | Some id => chat_by_id id
  | None => chat_by_username ("@" +:+ TrimPrefix input "@")
  end.

Definition handleRentChannel (uid : Z) (st : wizardState) (text : string) : AM unit :=
  let text := TrimSpace text in
  if (text =? "")%string then send uid "rent:bad channel" []
  else match resolveChannel text with
  | None => send uid "rent:no such channel" []
  | Some (chatID, username) =>
      (setStep uid stepRentBudget [("channel_id", FormatInt 10 chatID); ("channel_username", username)] ;;
       send uid "rent:budget?" [])%eff
  end%string.

(** A NaN is not below zero and passes. *)
Definition handleRentBudget (uid : Z) (st : wizardState) (text : string) : AM unit :=
  match positive (ParseFloat (TrimSpace text)) with
  | None => send uid "rent:bad number" []
  | Some _ =>
      (setStep uid stepRentReward
         [("channel_id", data st "channel_id"); ("channel_username", data st "channel_username"); ("budget", text)] ;;
       send uid "rent:reward?" [])%eff
  end%string.

Definition new_rental (id : uuid) (created buyer channel : Z) (username : string) (reward budget : float64)
  : LockRentalCampaign := {|
  lr_ID := id; lr_CreatedAt := created; lr_BuyerTelegramID := buyer; lr_TargetChannelID := channel;
  lr_TargetChannelUsername := username; lr_Status := RentalPendingReview; lr_ReviewNote := ""; lr_ReviewedAt := None;
  lr_ReviewerID := 0; lr_RewardPerJoinTON := to_numeric reward; lr_Budget := to_numeric budget; lr_Spent := num_0;
  lr_FreeBotOwnerRewardPercent := to_numeric (f64_of_int 5); lr_TotalJoins := 0; lr_RealJoins := 0;
  lr_StartAt := None; lr_EndAt := None |}.

Definition notifyAdminRental (r : LockRentalCampaign) : AM unit :=
  if ownerID =? 0 then ret tt
  else send ownerID "rent:review" [AInt (lr_BuyerTelegramID r); AStr (lr_TargetChannelUsername r);
         AFloat (of_numeric (lr_Budget r)); AFloat (of_numeric (lr_RewardPerJoinTON r)); AStr (uuid_String (lr_ID r))].

(** A budget that no longer parses is 0 (a value out of range: infinite). *)
Definition handleRentReward (uid : Z) (st : wizardState) (text : string) : AM unit :=
  match positive (ParseFloat (TrimSpace text)) with
  | None => send uid "rent:bad number" []
  | Some reward =>
      (let budget := default (f64_of_int 0) (ParseFloat (data st "budget")) in
       let channelID := ParseInt_value 10 (data st "channel_id") in
       clearState uid ;;
       id <- uuid_New ;;
       created <- now ;;
       let rental := new_rental id created uid channelID (data st "channel_username") reward budget in
       r <- try (CreateLockRental rental) ;;
       match r with
       | Err _ => send uid "rent:error" []
       | Ok _ => (notifyAdminRental rental ;;
                  send uid "rent:submitted" [AStr (lr_TargetChannelUsername rental); AFloat budget; AFloat reward])
       end)%eff
  end%string.

(** ** Approval *)

Definition rental_meta (r : LockRentalCampaign) : string :=
  "{" +:+ quote +:+ "type" +:+ quote +:+ ":" +:+ quote +:+ "lock_rental" +:+ quote +:+ "," +:+ quote +:+ "rental_id"
    +:+ quote +:+ ":" +:+ quote +:+ uuid_String (lr_ID r) +:+ quote +:+ "," +:+ quote +:+ "channel" +:+ quote +:+ ":"
    +:+ quote +:+ lr_TargetChannelUsername r +:+ quote +:+ "}".

(** The owners of the slots get their part of the pool, reserved for a day. *)
Fixpoint reserve_owners (rentalID : uuid) (perOwner : float64) (l : list FreeBotSlot) : AM unit :=
  match l with
  | [] => ret tt
  | slot :: l =>
      (owner <- try (ResolveSlotOwnerTelegramID (sl_BotInstanceID slot)) ;;
       (match owner with
        | Err _ => ret tt
        | Ok owner =>
            if owner =? 0 then ret tt
            else
            (r <- try (TryRecordOwnerReward rentalID (sl_ID slot) owner perOwner) ;;
             match r with
             | Ok true => send owner "rent:owner reward reserved" [AFloat perOwner; AInt 24]
             | _ => ret tt
             end)
        end) ;;
       reserve_owners rentalID perOwner l)%eff
  end.

Definition payFreeBotOwners (rental : LockRentalCampaign) (l : list FreeBotSlot) : AM unit :=
  let percent := of_numeric (lr_FreeBotOwnerRewardPercent rental) in
  match l with
  | [] => ret tt
  | _ =>
      if f64_le percent (f64_of_int 0) then ret tt
      else
      let totalPool := f64_div (f64_mul (of_numeric (lr_Budget rental)) percent) (f64_of_int 100) in
      let perOwner := f64_div totalPool (f64_of_int (Z.of_nat (length l))) in
      if f64_le perOwner (f64_of_int 0) then ret tt
      else (try (IncrementRentalSpentOnly (lr_ID rental) totalPool) ;; reserve_owners (lr_ID rental) perOwner l)%eff
  end.

Definition approveLockRental (uid : Z) (idStr : string) : AM unit :=
  match uuid_Parse idStr with
  | None => edit uid "rent:bad id" []
  | Some id =>
      (r <- FindLockRental id ;;
       match r with
       | (Some rental, None) =>
           if negb (bool_decide (lr_Status rental = RentalPendingReview)) then edit uid "rent:already reviewed" []
           else
           (let ref := uuid_String (lr_ID rental) in
            paid <- try (DeductWithMeta cfg (lr_BuyerTelegramID rental) (of_numeric (lr_Budget rental))
                           ("lock_rental:" +:+ ref) ref ref (rental_meta rental)) ;;
            match paid with
            | Err e => edit uid (if IsInsufficientBalance e then "rent:buyer lacks funds" else "rent:deduct failed") []
            | Ok _ =>
                (a <- try (ApproveLockRental id uid) ;;
                 match a with
                 | Err _ => edit uid "rent:approve failed" []
                 | Ok _ =>
                     (' (assigned, _) <- AssignSlotsToRental id (lr_BuyerTelegramID rental) defaultSlotsPerRental ;;
                      payFreeBotOwners rental assigned ;;
                      send (lr_BuyerTelegramID rental) "rent:approved"
                        [AInt (Z.of_nat (length assigned)); AStr (lr_TargetChannelUsername rental)] ;;
                      edit uid "rent:approved" [AInt (Z.of_nat (length assigned))])
                 end)
            end)
       | _ => edit uid "rent:not found" []
       end)%eff
  end%string.

Definition rejectLockRental (uid : Z) (idStr : string) : AM unit :=
  match uuid_Parse idStr with
  | None => edit uid "rent:bad id" []
  | Some id =>
      (r <- try (RejectLockRental id uid "رد شده توسط ادمین") ;;
       match r with
       | Err _ => edit uid "rent:error" []
       | Ok _ =>
           (found <- FindLockRental id ;;
            (match fst found with
             | Some rental => send (lr_BuyerTelegramID rental) "rent:rejected" []
             | None => ret tt
             end) ;;
            edit uid "rent:rejected" [])
       end)%eff
  end%string.

(** ** The end of a rental *)

Fixpoint release_slots (l : list FreeBotSlot) : AM unit :=
  match l with
  | [] => ret tt
  | slot :: l =>
      (owner <- try (ResolveSlotOwnerTelegramID (sl_BotInstanceID slot)) ;;
       (match owner with
        | Err _ => ret tt
        | Ok owner =>
            if owner =? 0 then ret tt
            else (send owner "rent:slot free" [] ;; try (ReleaseSlot (sl_ID slot)) ;; ret tt)
        end) ;;
       release_slots l)%eff
  end.

Definition checkCampaignCompletion (rentalID : uuid) : AM unit :=
  (r <- try (MarkRentalDoneIfFinished rentalID) ;;
   match r with
   | Ok true =>
       (found <- FindLockRental rentalID ;;
        match found with
        | (Some rental, None) =>
            (send (lr_BuyerTelegramID rental) "rent:finished"
               [AStr (lr_TargetChannelUsername rental); AFloat (of_numeric (lr_Spent rental));
                AFloat (of_numeric (lr_Budget rental)); AInt (lr_RealJoins rental)] ;;
             l <- try (ListSlotsByRental rentalID) ;;
             match l with Err _ => ret tt | Ok l => release_slots l end)
        | _ => ret tt
        end)
   | _ => ret tt
   end)%eff.

(** ** Joins and fraud *)

Definition HandleMembershipJoined (telegramID channelID : Z) : AM unit :=
  (found <- FindActiveRentalByChannel channelID ;;
   match found with
   | (Some rental, None) =>
       (active <- lr_IsActive rental ;;
        if negb (active : bool) then ret tt
        else
        (let reward := of_numeric (lr_RewardPerJoinTON rental) in
         first_ <- try (TryRecordJoinReward (lr_ID rental) telegramID reward) ;;
         match first_ with
         | Ok true =>
             (try (AddRentalJoinCount (lr_ID rental) 1 reward) ;;
              send telegramID "rent:reward reserved" [AFloat reward; AInt 24] ;;
              checkCampaignCompletion (lr_ID rental))
         | _ => ret tt
         end))
   | _ => ret tt
   end)%eff.

Definition HandleFraudDetected (telegramID channelID : Z) : AM unit :=
  (try (ReversePendingRewardByUser channelID telegramID) ;; ret tt)%eff.

(** ** Settlement *)

Definition reward_meta (kind name : string) (rental other : uuid) : string :=
  "{" +:+ quote +:+ "type" +:+ quote +:+ ":" +:+ quote +:+ kind +:+ quote +:+ "," +:+ quote +:+ "rental_id" +:+ quote
    +:+ ":" +:+ quote +:+ uuid_String rental +:+ quote +:+ "," +:+ quote +:+ name +:+ quote +:+ ":" +:+ quote
    +:+ uuid_String other +:+ quote +:+ "}".

Definition settle_reward (w : RentalJoinReward) : AM unit :=
  let amount := of_numeric (jr_AmountTON w) in
  (paid <- try (Credit cfg (jr_TelegramID w) amount
                  ("join_reward:" +:+ uuid_String (jr_RentalID w) +:+ ":" +:+ uuid_String (jr_ID w))
                  (reward_meta "join_reward_settlement" "reward_id" (jr_RentalID w) (jr_ID w))) ;;
   match paid with
   | Err _ => ret tt
   | Ok _ =>
       (r <- try (SettleReward (jr_ID w)) ;;
        match r with Err _ => ret tt | Ok _ => send (jr_TelegramID w) "rent:reward paid" [AFloat amount] end)
   end)%eff.
Fixpoint settle_rewards (l : list RentalJoinReward) : AM unit :=
  match l with [] => ret tt | w :: l => (settle_reward w ;; settle_rewards l)%eff end.
Definition settleDueRewards : AM unit :=
  (due <- try (FindDueRewards 200) ;; match due with Err _ => ret tt | Ok l => settle_rewards l end)%eff.

Definition settle_owner_reward (w : FreeBotOwnerReward) : AM unit :=
  let amount := of_numeric (or_AmountTON w) in
  (paid <- try (Credit cfg (or_OwnerTelegramID w) amount
                  ("freebot_reward:" +:+ uuid_String (or_RentalID w) +:+ ":" +:+ uuid_String (or_SlotID w))
                  (reward_meta "freebot_owner_reward_settlement" "slot_id" (or_RentalID w) (or_SlotID w))) ;;
   match paid with
   | Err _ => ret tt
   | Ok _ =>
       (r <- try (SettleOwnerReward (or_ID w)) ;;
        match r with Err _ => ret tt | Ok _ => send (or_OwnerTelegramID w) "rent:owner reward paid" [AFloat amount] end)
   end)%eff.
Fixpoint settle_owner_rewards (l : list FreeBotOwnerReward) : AM unit :=
  match l with [] => ret tt | w :: l => (settle_owner_reward w ;; settle_owner_rewards l)%eff end.
Definition settleDueOwnerRewards : AM unit :=
  (due <- try (FindDueOwnerRewards 200) ;; match due with Err _ => ret tt | Ok l => settle_owner_rewards l end)%eff.

Fixpoint complete_all (l : list LockRentalCampaign) : AM unit :=
  match l with [] => ret tt | r :: l => (checkCampaignCompletion (lr_ID r) ;; complete_all l)%eff end.
Definition checkExpiredRentals : AM unit :=
  (expired <- try FindExpiredActiveRentals ;; match expired with Err _ => ret tt | Ok l => complete_all l end)%eff.

Definition settlement_round : AM unit := (settleDueRewards ;; settleDueOwnerRewards ;; checkExpiredRentals)%eff.
(** What RunSettlementScheduler has done after its first round and [n] ticks. *)
Fixpoint RunSettlementScheduler (n : nat) : AM unit :=
  match n with O => settlement_round | S n => (settlement_round ;; RunSettlementScheduler n)%eff end.

(** ** The sub-bot reports itself an administrator *)

Definition ConfirmChannelAdminByBotID (botID : Z) : AM unit :=
  (found <- FindFreeBotSlotByBotID botID ;;
   match found with
   | (Some slot, None) =>
       if IsFree slot then throw (Errorf "bot_id=%d is not assigned to any rental" [AInt botID])
       else ConfirmChannelAdmin (sl_ID slot)
   | _ => throw (Errorf "slot not found for bot_id=%d" [AInt botID])
   end)%eff.

(** cmd/main.go: the listener of new free bots ([None]: a payload that does not decode). *)
Definition on_free_bot_created (event : option (string * Z)) : AM unit :=
  match event with
  | None => ret tt
  | Some (instanceID, botID) =>
      match uuid_Parse instanceID with
      | None => ret tt
      | Some inst =>
          (id <- uuid_New ;;
           try (UpsertFreeBotSlot {| sl_ID := id; sl_BotInstanceID := inst; sl_BotID := botID; sl_RentalID := None;
                  sl_AssignedOwnerTelegramID := 0; sl_IsChannelAdminConfirmed := false |}) ;; ret tt)%eff
      end
  end.
End rental.
