(* ===== verification/AdsCampaign.v ===== *)
(** ads-bot: fraudclient, engine.go with its analyzer, and the conversations and
    buttons of campaign.go, channel.go, admin.go and handler.go. *)
From S2P Require Import Prelude GoInt GoFloat GoString GoText Effects PayModels PayChain WalletService PayResponder PayClient.
From S2P Require Import Bus AdsModels AdsStore AdsRental.

(** * shared/pkg/fraudclient *)

Record UserScore := { us_TelegramID : Z; us_Score : Z; us_Label : string; us_Known : bool }.
Definition IsFake (u : UserScore) : bool := us_Score u <? 30.
Definition IsSuspicious (u : UserScore) : bool := us_Score u <? 60.
Definition TrustMultiplier (u : UserScore) : float64 := f64_div (f64_of_int (us_Score u)) (f64_of_int 100).

(** The reply of fraud-engine to a request, if one arrives and decodes. *)
Class FraudReplies := { user_score_reply : nat -> Z -> option UserScore }.

(** * The engine *)

Section engine.
Context {ENV : Env} {R : Type} {PG : PgNumeric} {FP : F64Platform} {LIB : Lib} {TG : AdsTelegram} {FRAUD : FraudReplies}.
Abbreviation AM := (M AdsTables (AdsWorld * R)).

(** Without an answer a neutral score stands in. *)
Definition GetUserScore (telegramID : Z) : AM UserScore := fun s =>
  (Ok match env_fault (tick s), user_score_reply (tick s) telegramID with
      | None, Some score => score
      | _, _ => {| us_TelegramID := telegramID; us_Score := 60; us_Label := "normal"; us_Known := false |}
      end, bump s).

Definition IsExpired (c : Campaign) : AM bool :=
  match ca_EndAt c with Some e => (n <- now ;; ret (e <? n))%eff | None => ret false end.

(** A campaign struct with only its id and status set: Save writes zeros
    into every other column. *)
Definition blank_campaign (id : uuid) (st : CampaignStatus) : Campaign := {|
  ca_ID := id; ca_CreatedAt := 0; ca_PublisherID := 0; ca_Name := ""; ca_Status := st; ca_TargetCategoryID := None;
  ca_MinChannelScore := None; ca_MediaFileID := ""; ca_MediaType := ""; ca_Caption := ""; ca_ButtonText := "";
  ca_ButtonURL := ""; ca_Budget := num_0; ca_Spent := num_0; ca_CPJ := num_0; ca_TotalJoins := 0; ca_RealJoins := 0;
  ca_TargetCount := 0; ca_StartAt := None; ca_EndAt := None; ca_ReviewNote := ""; ca_ReviewedAt := None;
  ca_ReviewerID := 0 |}.

(** TelegramBroadcaster.SendToChannel: photo, video or text. *)
Definition SendToChannel (channelID : Z) (c : Campaign) : AM Z := fun s =>
  match env_fault (tick s) with
  | Some e => (Err (ErrDriver e), bump s)
  | None =>
      let kind := if (ca_MediaType c =? "photo")%string then "ad:photo"
                  else if (ca_MediaType c =? "video")%string then "ad:video" else "ad:text" in
      (Ok (message_id (tick s)), mkSt (S (tick s)) (tx s) (db s)
        (add_out (Message channelID kind [AStr (ca_MediaFileID c); AStr (ca_Caption c); AStr (ca_ButtonText c);
                                          AStr (ca_ButtonURL c)]) (fst (ext s)), snd (ext s)))
  end%string.

(** [remaining] is read once and never lowered. *)
Fixpoint broadcast (c : Campaign) (l : list AdChannel) : AM unit :=
  match l with
  | [] => ret tt
  | ch :: l =>
      (r <- try (SendToChannel (ch_ChannelID ch) c) ;;
       (match r with
        | Err _ => ret tt
        | Ok msgID =>
            (id <- uuid_New ;;
             try (CreateImpression {| im_ID := id; im_CampaignID := ca_ID c; im_ChannelID := ch_ChannelID ch;
                    im_MessageID := msgID; im_TotalJoins := 0; im_RealJoins := 0; im_FakeJoins := 0;
                    im_Cost := num_0 |}) ;; ret tt)
        end) ;;
       broadcast c l)%eff
  end.

Definition DistributeCampaign (c : Campaign) : AM unit :=
  if negb (bool_decide (ca_Status c = CampaignActive)) then throw (Errorf "campaign not active" [])
  else
  (expired <- IsExpired c ;;
   if expired : bool then (try (UpdateCampaign (blank_campaign (ca_ID c) CampaignDone)) ;; ret tt)
   else
   (l <- try (ListActiveChannels (CPJ c)) ;;
    match l with
    | Err _ | Ok [] => ret tt
    | Ok l =>
        if f64_le (RemainingBudget c) (f64_of_int 0)
        then (try (UpdateCampaign (blank_campaign (ca_ID c) CampaignDone)) ;; ret tt)
        else broadcast c l
    end))%eff.

Definition join_revenue (campaignID : uuid) (channel : Z) (cost : float64) : list (string * fmtarg) :=
  [("campaign_id", AStr (uuid_String campaignID)); ("community_id", AInt channel); ("revenue_ton", AFloat cost);
   ("valid_joins", AInt 1)]%string.
(** The description's percentage is left as its argument. *)
Definition join_earning (campaignID : uuid) (channel : Z) (cost : float64) : list (string * fmtarg) :=
  [("type", AStr "ad_income"); ("owner_telegram_id", AInt channel);
   ("total_nano", AInt (int64_of_f64 (f64_mul cost (f64_of_int 1000000000)))); ("bot_id", AStr "ads-bot");
   ("ref_id", AStr (uuid_String campaignID)); ("description", AStr "درآمد تبلیغ — trust:%.0f%%")]%string.

Definition RecordJoin (campaignID : uuid) (channel user : Z) : AM unit :=
  (r <- FindCampaign campaignID ;;
   match r with
   | (Some campaign, None) =>
       (score <- (if 0 <? user then (s <- GetUserScore user ;; ret (Some s)) else ret None) ;;
        if match score with Some s => IsFake s | None => false end then ret tt
        else
        (let trust := match score with Some s => TrustMultiplier s | None => f64_of_int 1 end in
         let effective := f64_mul (CPJ campaign) trust in
         let cost := if f64_gt effective (RemainingBudget campaign) then RemainingBudget campaign else effective in
         try (AddJoinCount campaignID 1 cost) ;;
         publish_quiet "campaign.revenue.generated" (join_revenue campaignID channel cost) ;;
         publish_quiet "earning.created" (join_earning campaignID channel cost)))
   | _ => throw (Errorf "campaign not found" [])
   end)%eff.

Fixpoint distribute_all (l : list Campaign) : AM unit :=
  match l with [] => ret tt | c :: l => (try (DistributeCampaign c) ;; distribute_all l)%eff end.
Definition runBatch : AM unit :=
  (r <- try FindActiveCampaigns ;; match r with Err _ => ret tt | Ok l => distribute_all l end)%eff.
Fixpoint RunScheduler (n : nat) : AM unit :=
  match n with O => ret tt | S n => (runBatch ;; RunScheduler n)%eff end.

(** ** analyzer.go *)

Definition clamp (v lo hi : Z) : Z := if v <? lo then lo else if hi <? v then hi else v.

Definition f64_max (x y : float64) : float64 := if f64_lt x y then y else x.
Definition f64_min (x y : float64) : float64 := if f64_lt y x then y else x.
Definition estimateFakePercent (memberCount : Z) (hasUsername : bool) : float64 :=
  let base := if hasUsername then f64_of_int 15 else f64_of_int 35 in
  let base := if memberCount <? 500 then f64_add base (f64_of_int 10)
              else if 100000 <? memberCount then f64_max (f64_sub base (f64_of_int 10)) (f64_of_int 5) else base in
  f64_min base (f64_of_int 80).

(** What Telegram tells about the channel: its size if known, and which of user
    name, description and linked chat it has. *)
Record ChatInfo := { ci_Members : option Z; ci_HasUsername : bool; ci_HasDescription : bool; ci_HasLinkedChat : bool }.
Record ChannelAnalysisResult := {
  cha_ChannelID : Z; cha_MemberCount : Z; cha_Score : Z; cha_FakePercent : float64; cha_RealMembers : Z }.

Definition AnalyzeChannel (ch : AdChannel) (info : ChatInfo) : ChannelAnalysisResult :=
  let memberCount := default (ch_MemberCount ch) (ci_Members info) in
  let score := 50 in
  let score := if memberCount <? 100 then score - 20 else if memberCount <? 1000 then score + 0
    else if memberCount <? 10000 then score + 10 else if memberCount <? 100000 then score + 20 else score + 25 in
  let score := if ci_HasUsername info then score + 10 else score in
  let score := if ci_HasDescription info then score + 5 else score in
  let score := if ci_HasLinkedChat info then score + 10 else score in
  let fakePercent := estimateFakePercent memberCount (ci_HasUsername info) in
  {| cha_ChannelID := ch_ChannelID ch; cha_MemberCount := memberCount; cha_Score := clamp score 0 100;
     cha_FakePercent := fakePercent;
     cha_RealMembers := int64_of_f64 (f64_mul (f64_of_int memberCount)
       (f64_sub (f64_of_int 1) (f64_div fakePercent (f64_of_int 100)))) |}.

Definition ComputeEffectiveCPJ (baseCPJ categoryMultiplier fakePercent : float64) (score : Z) : float64 :=
  let fakeRatio := f64_div fakePercent (f64_of_int 100) in
  let scoreFactor := f64_add (f64_const 1 2) (f64_mul (f64_div (f64_of_int score) (f64_of_int 100)) (f64_const 1 2)) in
  f64_mul (f64_mul (f64_mul baseCPJ categoryMultiplier) (f64_sub (f64_of_int 1) fakeRatio)) scoreFactor.
End engine.
