(* ===== verification/AdsBot.v ===== *)
(** ads-bot/internal/tgbot: the conversations, menus and buttons of campaign.go,
    channel.go, admin.go, keyboards.go and handler.go. *)
From S2P Require Import Prelude GoInt GoFloat GoString GoText Effects PayModels PayChain WalletService PayResponder PayClient.
From S2P Require Import Bus AdsModels AdsStore AdsRental AdsCampaign.

(** * keyboards.go: the labels, which come back as texts *)

Definition btnNewCampaign : string := "➕ کمپین جدید".
Definition btnMyCampaigns : string := "📊 کمپین‌های من".
Definition btnMyChannels : string := "📢 کانال‌های من".
Definition btnAddChannel : string := "➕ افزودن کانال".
Definition btnBalance : string := "💰 موجودی".
Definition btnHelp : string := "❓ راهنما".
Definition btnCancel : string := "❌ انصراف".
Definition btnBack : string := "🔙 بازگشت".
Definition btnSkip : string := "⏭ رد کردن".

Definition statusLabel (s : CampaignStatus) : string :=
  match s with
  | CampaignDraft => "📝 پیش‌نویس"
  | CampaignPending => "⏳ منتظر تأیید"
  | CampaignActive => "🟢 فعال"
  | CampaignPaused => "⏸ متوقف"
  | CampaignDone => "✅ تمام"
  | CampaignRejected => "❌ رد شده"
  end%string.

Definition fmtCampaign `{PgNumeric} `{Lib} (c : Campaign) : list fmtarg :=
  [AStr (statusLabel (ca_Status c)); AStr (ca_Name c); AFloat (Budget c); AFloat (Spent c); AInt (ca_TotalJoins c);
   AFloat (CPJ c); AStr (uuid_String (ca_ID c))].

(** * Updates *)

Inductive Photo_or_Video := Photo (file_id : string) | Video (file_id : string).

(** The chat a message was forwarded from. *)
Record OriginalChat := { oc_ID : Z; oc_IsChannel : bool; oc_Title : string }.

(** What Telegram delivers: a message of a user (commands are messages), a
    photo or video of a user, a post in a channel, whose sender is normally
    absent, and a pressed button. *)
Inductive AdsUpdate :=
| UpText (uid : Z) (username firstName text : string)
| UpMedia (uid : Z) (media : Photo_or_Video)
| UpChannelPost (sender : option Z) (orig : option OriginalChat)
| UpCallback (uid : Z) (callback_data : string).

(** Telegram's answers on a channel: whether the bot administers it and how many
    members it has ([bot.Len], 0 on an error); uuid.Parse's value when it fails. *)
Class AdsAnswers := {
  bot_is_admin : Z -> bool;
  member_count : Z -> Z;
  uuid_of_bad : string -> uuid;
}.

Section bot.
Context {B : Type} {ENV : Env} {PS : PayServer B} {MARSHAL : JsonMarshal} {PG : PgNumeric} {FP : F64Platform}.
Context {UUID : UuidParser} {LIB : Lib} {TG : AdsTelegram} {ANS : AdsAnswers} (cfg : ClientConfig) (ownerID : Z).
Abbreviation AM := (M AdsTables (AdsWorld * Remote B)).

Definition Ads_isAdmin (uid : Z) : bool := uid =? ownerID.

(** [id, _ := uuid.Parse(s)] *)
Definition parse_quietly (s : string) : uuid := default (uuid_of_bad s) (uuid_Parse s).

Definition pick (st : wizardState) (keys : list string) : list (string * string) := map (fun k => (k, data st k)) keys.

(** * campaign.go: a new campaign *)

Definition onNewCampaign (uid : Z) : AM unit := (setStep uid stepCampName [] ;; send uid "camp:name?" [])%eff.

Definition handleCampName (uid : Z) (st : wizardState) (text : string) : AM unit :=
  if strlen text <? 2 then send uid "camp:name too short" []
  else (setStep uid stepCampMedia [("name"%string, text)] ;; send uid "camp:media?" [])%eff.

Definition handleCampaignMedia (uid : Z) (st : wizardState) (media : Photo_or_Video) : AM unit :=
  let '(file, kind) := match media with Photo f => (f, "photo") | Video f => (f, "video") end%string in
  (setStep uid stepCampCaption (pick st ["name"] ++ [("file_id", file); ("media_type", kind)]) ;;
   send uid "camp:caption?" [])%eff%string.

Definition handleCampCaption (uid : Z) (st : wizardState) (text : string) : AM unit :=
  let caption := if (text =? btnSkip)%string then ""%string else text in
  (setStep uid stepCampButton (pick st ["name"; "file_id"; "media_type"] ++ [("caption", caption)]) ;;
   send uid "camp:button?" [])%eff%string.

Definition handleCampButton (uid : Z) (st : wizardState) (text : string) : AM unit :=
  (if negb (text =? btnSkip)
   then (setStep uid stepCampURL (pick st ["name"; "file_id"; "media_type"; "caption"] ++ [("btn_text", text)]) ;;
         send uid "camp:url?" [])%eff
   else (setStep uid stepCampBudget (pick st ["name"; "file_id"; "media_type"; "caption"]) ;;
         send uid "camp:budget?" [])%eff)%string.

Definition handleCampURL (uid : Z) (st : wizardState) (text : string) : AM unit :=
  (if negb (HasPrefix text "http") then send uid "camp:bad url" []
   else (setStep uid stepCampBudget
           (pick st ["name"; "file_id"; "media_type"; "caption"; "btn_text"] ++ [("btn_url", text)]) ;;
         send uid "camp:budget?" [])%eff)%string.

(** Only a publisher who exists and has less is refused. *)
Definition handleCampBudget (uid : Z) (st : wizardState) (text : string) : AM unit :=
  match positive (ParseFloat (TrimSpace text)) with
  | None => send uid "camp:bad amount" []
  | Some budget =>
      (r <- FindPublisher uid ;;
       let short := match fst r with Some p => f64_lt (of_numeric (pub_Balance p)) budget | None => false end in
       if short then
         send uid "camp:low balance" [AFloat (of_numeric (default num_0 (pub_Balance <$> fst r))); AFloat budget]
       else
       (setStep uid stepCampCPJ
          (pick st ["name"; "file_id"; "media_type"; "caption"; "btn_text"; "btn_url"] ++ [("budget", text)]) ;;
        send uid "camp:cpj?" []))%eff
  end%string.

Definition new_campaign (id : uuid) (created : Z) (pub : uuid) (st : wizardState) (budget cpj : float64) : Campaign := {|
  ca_ID := id; ca_CreatedAt := created; ca_PublisherID := pub; ca_Name := data st "name"; ca_Status := CampaignPending;
  ca_TargetCategoryID := None; ca_MinChannelScore := None; ca_MediaFileID := data st "file_id";
  ca_MediaType := data st "media_type"; ca_Caption := data st "caption"; ca_ButtonText := data st "btn_text";
  ca_ButtonURL := data st "btn_url"; ca_Budget := to_numeric budget; ca_Spent := num_0; ca_CPJ := to_numeric cpj;
  ca_TotalJoins := 0; ca_RealJoins := 0; ca_TargetCount := int64_of_f64 (f64_div budget cpj); ca_StartAt := None;
  ca_EndAt := None; ca_ReviewNote := ""; ca_ReviewedAt := None; ca_ReviewerID := 0 |}.

Definition notifyAdmin (c : Campaign) : AM unit :=
  if ownerID =? 0 then ret tt
  else send ownerID "camp:review"
         [AStr (ca_Name c); AFloat (Budget c); AFloat (CPJ c); AStr (uuid_String (ca_ID c))].

Definition handleCampCPJ (uid : Z) (st : wizardState) (text : string) : AM unit :=
  (clearState uid ;;
   match positive (ParseFloat (TrimSpace text)) with
   | None => send uid "camp:bad value" []
   | Some cpj =>
       (let budget := default (f64_of_int 0) (ParseFloat (data st "budget")) in
        r <- FindPublisher uid ;;
        match fst r with
        | None => send uid "error" []
        | Some pub =>
            (id <- uuid_New ;;
             created <- now ;;
             let camp := new_campaign id created (pub_ID pub) st budget cpj in
             r <- try (CreateCampaign camp) ;;
             match r with
             | Err _ => send uid "camp:create failed" []
             | Ok _ =>
                 (try (UpdateBalance (pub_ID pub) (f64_neg budget)) ;;
                  notifyAdmin camp ;;
                  send uid "camp:submitted" [AStr (ca_Name camp); AFloat budget; AFloat cpj; AInt (ca_TargetCount camp)])
             end)
        end)
   end)%eff%string.

(** * campaign.go: the owner's buttons *)

Fixpoint send_campaigns (uid : Z) (l : list Campaign) : AM unit :=
  match l with [] => ret tt | c :: l => (send uid "camp:row" (fmtCampaign c) ;; send_campaigns uid l)%eff end.

Definition onMyCampaigns (uid : Z) : AM unit :=
  (r <- FindPublisher uid ;;
   match fst r with
   | None => send uid "press /start" []
   | Some pub =>
       (l <- try (FindCampaignsByPublisher (pub_ID pub)) ;;
        match l with Err _ | Ok [] => send uid "camp:none" [] | Ok l => send_campaigns uid l end)
   end)%eff.

Definition with_status (st : CampaignStatus) (c : Campaign) : Campaign := {|
  ca_ID := ca_ID c; ca_CreatedAt := ca_CreatedAt c; ca_PublisherID := ca_PublisherID c; ca_Name := ca_Name c;
  ca_Status := st; ca_TargetCategoryID := ca_TargetCategoryID c; ca_MinChannelScore := ca_MinChannelScore c;
  ca_MediaFileID := ca_MediaFileID c; ca_MediaType := ca_MediaType c; ca_Caption := ca_Caption c;
  ca_ButtonText := ca_ButtonText c; ca_ButtonURL := ca_ButtonURL c; ca_Budget := ca_Budget c; ca_Spent := ca_Spent c;
  ca_CPJ := ca_CPJ c; ca_TotalJoins := ca_TotalJoins c; ca_RealJoins := ca_RealJoins c;
  ca_TargetCount := ca_TargetCount c; ca_StartAt := ca_StartAt c; ca_EndAt := ca_EndAt c;
  ca_ReviewNote := ca_ReviewNote c; ca_ReviewedAt := ca_ReviewedAt c; ca_ReviewerID := ca_ReviewerID c |}.

(** The button of an own campaign: finds it and checks its publisher. *)
Definition owned_campaign (uid : Z) (idStr : string) (k : Campaign -> AM unit) : AM unit :=
  (r <- FindCampaign (parse_quietly idStr) ;;
   match fst r with
   | None => edit uid "camp:not found" []
   | Some camp =>
       (p <- FindPublisher uid ;;
        match fst p with
        | None => edit uid "camp:not yours" []
        | Some pub => if (ca_PublisherID camp =? pub_ID pub)%N then k camp else edit uid "camp:not yours" []
        end)
   end)%eff.

Definition pauseCampaign (uid : Z) (idStr : string) : AM unit :=
  owned_campaign uid idStr (fun camp =>
    let camp := with_status (if bool_decide (ca_Status camp = CampaignActive) then CampaignPaused else CampaignActive) camp in
    (try (UpdateCampaign camp) ;; edit uid "camp:row" (fmtCampaign camp))%eff).

Definition deleteCampaign (uid : Z) (idStr : string) : AM unit :=
  owned_campaign uid idStr (fun camp =>
    (try (UpdateBalance (ca_PublisherID camp) (RemainingBudget camp)) ;;
     try (UpdateCampaign (with_status CampaignDone camp)) ;;
     edit uid "camp:deleted" [])%eff).

(** * channel.go *)

Definition onAddChannel (uid : Z) : AM unit := (setStep uid stepChannelFwd [] ;; send uid "channel:forward?" [])%eff.

Definition handleChannelForward (uid : Z) (st : wizardState) (orig : option OriginalChat) : AM unit :=
  match orig with
  | None => send uid "channel:not forwarded" []
  | Some ch =>
      if negb (oc_IsChannel ch) then send uid "channel:not a channel" []
      else
      (r <- FindChannelByTelegramID (oc_ID ch) ;;
       match fst r with
       | Some existing => send uid "channel:exists" [AStr (uuid_String (ch_ID existing))]
       | None =>
           if negb (bot_is_admin (oc_ID ch)) then send uid "channel:bot not admin" []
           else
           (let members := Z.max 0 (member_count (oc_ID ch)) in
            setStep uid stepChannelCPJ [("channel_id", FormatInt 10 (oc_ID ch)); ("channel_name", oc_Title ch);
                                        ("member_count", FormatInt 10 members)] ;;
            send uid "channel:cpj?" [AStr (oc_Title ch); AInt members])
       end)%eff
  end%string.

Definition new_channel (id pub : uuid) (st : wizardState) (cpj : float64) : AdChannel := {|
  ch_ID := id; ch_OwnerID := pub; ch_CategoryID := None; ch_ChannelID := ParseInt_value 10 (data st "channel_id");
  ch_ChannelName := data st "channel_name"; ch_ChannelUsername := "";
  ch_MemberCount := ParseInt_value 10 (data st "member_count"); ch_Status := ChannelPending; ch_IsActive := true;
  ch_Score := 0; ch_FakePercent := num_0; ch_RealMembers := 0; ch_EffectiveCPJ := to_numeric cpj;
  ch_LastAnalyzedAt := None; ch_TotalImpressions := 0; ch_TotalEarned := num_0 |}.

Definition not_negative (x : option float64) : option float64 :=
  match x with Some f => if f64_lt f (f64_of_int 0) then None else Some f | None => None end.

Definition handleChannelCPJ (uid : Z) (st : wizardState) (text : string) : AM unit :=
  (clearState uid ;;
   match not_negative (ParseFloat (TrimSpace text)) with
   | None => send uid "channel:bad value" []
   | Some cpj =>
       (r <- FindPublisher uid ;;
        match fst r with
        | None => send uid "error" []
        | Some pub =>
            (id <- uuid_New ;;
             let ch := new_channel id (pub_ID pub) st cpj in
             let about := [AStr (ch_ChannelName ch); AInt (ch_MemberCount ch); AFloat cpj] in
             r <- try (CreateChannel ch) ;;
             match r with
             | Err _ => send uid "channel:create failed" []
             | Ok _ =>
                 ((if ownerID =? 0 then ret tt
                   else send ownerID "channel:review" (about ++ [AInt uid; AStr (uuid_String id)])) ;;
                  send uid "channel:submitted" about)
             end)
        end)
   end)%eff.

Definition onMyChannels (uid : Z) : AM unit :=
  (r <- FindPublisher uid ;;
   match fst r with
   | None => send uid "press /start" []
   | Some pub =>
       (l <- try (ListChannelsByOwner (pub_ID pub)) ;;
        match l with
        | Err _ | Ok [] => send uid "channel:none" []
        | Ok l => send uid "channel:list" (AInt (Z.of_nat (length l)) :: flat_map (fun ch =>
            [AInt (Z.b2z (ch_IsActive ch)); AStr (ch_ChannelName ch);
             AInt (Z.b2z (bool_decide (ch_Status ch = ChannelVerified))); AInt (ch_MemberCount ch);
             AFloat (of_numeric (ch_EffectiveCPJ ch)); AStr (uuid_String (ch_ID ch))]) l)
        end)
   end)%eff.

(** * admin.go *)

Definition onAdmin (uid : Z) : AM unit := if Ads_isAdmin uid then send uid "admin:panel" [] else ret tt.

Definition adminStats (uid : Z) : AM unit :=
  (stats <- Ads_GetStats ;;
   l <- try ListPublishers ;;
   send uid "admin:stats" [AInt (match l with Ok l => Z.of_nat (length l) | Err _ => 0 end); AInt (TotalCampaigns stats);
     AInt (ActiveCampaigns stats); AInt (TotalChannels stats); AFloat (TotalSpent stats); AInt (TotalJoins stats)])%eff.

Fixpoint send_pending (uid : Z) (l : list Campaign) : AM unit :=
  match l with
  | [] => ret tt
  | c :: l =>
      (send uid "admin:review" [AStr (ca_Name c); AFloat (Budget c); AFloat (CPJ c); AStr (uuid_String (ca_ID c))] ;;
       (if negb (ca_MediaFileID c =? "")%string && ((ca_MediaType c =? "photo") || (ca_MediaType c =? "video"))%string
        then send uid "admin:preview" [AStr (ca_MediaFileID c)] else ret tt) ;;
       send_pending uid l)%eff
  end.
Definition adminPending (uid : Z) : AM unit :=
  (l <- try FindPendingCampaigns ;;
   match l with Err _ | Ok [] => send uid "admin:none pending" [] | Ok l => send_pending uid l end)%eff.

Fixpoint send_channels (uid : Z) (l : list AdChannel) : AM unit :=
  match l with
  | [] => ret tt
  | ch :: l =>
      (send uid "admin:channel" [AStr (ch_ChannelName ch); AInt (ch_MemberCount ch); AFloat (of_numeric (ch_EffectiveCPJ ch));
         AStr (uuid_String (ch_ID ch))] ;; send_channels uid l)%eff
  end.
Definition adminChannels (uid : Z) : AM unit :=
  (l <- try ListUnverifiedChannels ;;
   match l with Err _ | Ok [] => send uid "admin:none unverified" [] | Ok l => send_channels uid l end)%eff.

Definition handleAdminText (uid : Z) (text : string) : AM unit :=
  (if text =? "📊 آمار" then adminStats uid
   else if text =? "⏳ در انتظار تأیید" then adminPending uid
   else if text =? "📢 کانال‌ها" then adminChannels uid
   else if text =? "📣 broadcast" then (setStep uid stepAdminBroadcast [] ;; send uid "admin:broadcast?" [])%eff
   else ret tt)%string.

Definition notifyPublisher (c : Campaign) (text : string) (args : list fmtarg) : AM unit :=
  (r <- FindPublisherByID (ca_PublisherID c) ;;
   match fst r with None => ret tt | Some pub => send (pub_TelegramID pub) text args end)%eff.

(** The distribution runs in a goroutine of its own; here it comes first. *)
Definition approveCampaign (uid : Z) (idStr : string) : AM unit :=
  let id := parse_quietly idStr in
  (r <- try (ApproveCampaign id uid) ;;
   match r with
   | Err _ => edit uid "error" []
   | Ok _ =>
       (r <- FindCampaign id ;;
        (match fst r with
         | None => ret tt
         | Some camp => (try (DistributeCampaign camp) ;; notifyPublisher camp "camp:approved" [AStr (ca_Name camp)])%eff
         end) ;;
        edit uid "admin:approved" [AStr idStr])
   end)%eff.

Definition startReject (uid : Z) (idStr : string) : AM unit :=
  (setStep uid stepRejectNote [("camp_id"%string, idStr)] ;; edit uid "admin:reason?" [])%eff.

(** The refund goes to the publisher of the sender, who is the administrator. *)
Definition doReject (uid : Z) (st : wizardState) (note : string) : AM unit :=
  let id := parse_quietly (data st "camp_id") in
  (clearState uid ;;
   r <- try (RejectCampaign id uid note) ;;
   match r with
   | Err _ => send uid "error" []
   | Ok _ =>
       (r <- FindCampaign id ;;
        (match fst r with
         | None => ret tt
         | Some camp =>
             (p <- FindPublisher uid ;;
              (match fst p with
               | None => ret tt
               | Some pub => (try (UpdateBalance (pub_ID pub) (Budget camp)) ;; ret tt)%eff
               end) ;;
              notifyPublisher camp "camp:rejected" [AStr (ca_Name camp); AStr note])%eff
         end) ;;
        send uid "admin:rejected" [AStr (data st "camp_id")])
   end)%eff.

Definition verifyChannel (uid : Z) (idStr : string) : AM unit :=
  (r <- try (VerifyChannel (parse_quietly idStr)) ;;
   match r with Err _ => edit uid "error" [] | Ok _ => edit uid "admin:channel verified" [AStr idStr] end)%eff.

Definition rejectChannel (uid : Z) (idStr : string) : AM unit :=
  (try (DeactivateChannel (parse_quietly idStr)) ;; edit uid "admin:channel rejected" [AStr idStr])%eff.

(** bot.Send with its error looked at. *)
Definition send_counted (chat : Z) (text : string) (args : list fmtarg) : AM bool := fun s =>
  match env_fault (tick s) with
  | Some _ => (Ok false, bump s)
  | None => (Ok true, mkSt (S (tick s)) (tx s) (db s) (add_out (Message chat text args) (fst (ext s)), snd (ext s)))
  end.
Fixpoint broadcast_to (text : string) (l : list Publisher) (sent failed : Z) : AM (Z * Z) :=
  match l with
  | [] => ret (sent, failed)
  | p :: l =>
      if pub_IsBlocked p then broadcast_to text l sent failed
      else (ok <- send_counted (pub_TelegramID p) "broadcast" [AStr text] ;;
            if ok : bool then broadcast_to text l (sent + 1) failed else broadcast_to text l sent (failed + 1))%eff
  end.
Definition doBroadcast (uid : Z) (text : string) : AM unit :=
  (clearState uid ;;
   l <- try ListPublishers ;;
   ' (sent, failed) <- broadcast_to text (match l with Ok l => l | Err _ => [] end) 0 0 ;;
   send uid "admin:broadcast done" [AInt sent; AInt failed])%eff.

(** * handler.go *)

(** The publisher that comes with an error has balance 0. *)
Definition onStart (uid : Z) (username firstName : string) : AM unit :=
  (r <- try (UpsertPublisher uid username firstName) ;;
   if Ads_isAdmin uid then send uid "admin:panel" []
   else send uid "start" [AStr firstName;
          AFloat (match r with Ok p => of_numeric (pub_Balance p) | Err _ => f64_of_int 0 end)])%eff.

Definition onHelp (uid : Z) : AM unit := send uid "help" [].
Definition onCancel (uid : Z) : AM unit := (clearState uid ;; send uid "cancelled" [])%eff.

Definition onBalance (uid : Z) : AM unit :=
  (r <- FindPublisher uid ;;
   send uid "balance" [AFloat (match fst r with Some p => of_numeric (pub_Balance p) | None => f64_of_int 0 end)])%eff.

Definition is_exit (text : string) : bool := (text =? btnCancel)%string || (text =? btnBack)%string.

Definition handleStep (uid : Z) (st : wizardState) (text : string) : AM unit :=
  if is_exit text then onCancel uid
  else match Step st with
  | stepCampName => handleCampName uid st text
  | stepCampCaption => handleCampCaption uid st text
  | stepCampButton => handleCampButton uid st text
  | stepCampURL => handleCampURL uid st text
  | stepCampBudget => handleCampBudget uid st text
  | stepCampCPJ => handleCampCPJ uid st text
  | stepChannelCPJ => handleChannelCPJ uid st text
  | stepAdminBroadcast => doBroadcast uid text
  | stepRejectNote => doReject uid st text
  | stepRentChannel => handleRentChannel uid st text
  | stepRentBudget => handleRentBudget uid st text
  | stepRentReward => handleRentReward ownerID uid st text
  | stepIdle | stepCampMedia | stepChannelFwd => ret tt
  end.

Definition Ads_onText (uid : Z) (text : string) : AM unit :=
  let text := TrimSpace text in
  (st <- getState uid ;;
   if negb (bool_decide (Step st = stepIdle)) then handleStep uid st text
   else if (text =? btnNewCampaign)%string then onNewCampaign uid
   else if (text =? btnMyCampaigns)%string then onMyCampaigns uid
   else if (text =? btnMyChannels)%string then onMyChannels uid
   else if (text =? btnAddChannel)%string then onAddChannel uid
   else if (text =? btnBalance)%string then onBalance uid
   else if (text =? btnHelp)%string then onHelp uid
   else if is_exit text then onCancel uid
   else if Ads_isAdmin uid then handleAdminText uid text
   else ret tt)%eff.

Definition onMedia (uid : Z) (media : Photo_or_Video) : AM unit :=
  (st <- getState uid ;;
   if bool_decide (Step st = stepCampMedia) then handleCampaignMedia uid st media else ret tt)%eff.

(** Without a sender the handler dereferences nil; telebot recovers. *)
Definition onChannelPost (sender : option Z) (orig : option OriginalChat) : AM unit :=
  match sender with
  | None => throw (Sentinel "runtime" "nil pointer dereference")
  | Some uid =>
      (st <- getState uid ;;
       if bool_decide (Step st = stepChannelFwd) then handleChannelForward uid st orig else ret tt)%eff
  end.

(** strings.SplitN(data, ":", 2) *)
Definition admin_only (uid : Z) (m : AM unit) : AM unit := if Ads_isAdmin uid then m else edit uid "admin only" [].
Definition Ads_onCallback (uid : Z) (callback_data : string) : AM unit :=
  let callback_data := match callback_data with
    | String c rest => if Ascii.eqb c "012" then rest else callback_data | EmptyString => callback_data end in
  match Cut ":" callback_data with
  | Some (action, arg) =>
      if action =? "approve" then admin_only uid (approveCampaign uid arg)
      else if action =? "reject" then admin_only uid (startReject uid arg)
      else if action =? "camp_pause" then pauseCampaign uid arg
      else if action =? "camp_del" then deleteCampaign uid arg
      else if action =? "verify_ch" then admin_only uid (verifyChannel uid arg)
      else if action =? "reject_ch" then admin_only uid (rejectChannel uid arg)
      else if action =? "rent_approve" then admin_only uid (approveLockRental cfg uid arg)
      else if action =? "rent_reject" then admin_only uid (rejectLockRental uid arg)
      else if action =? "cancel" then (clearState uid ;; edit uid "cancelled" [])%eff
      else ret tt
  | None => if callback_data =? "cancel" then (clearState uid ;; edit uid "cancelled" [])%eff else ret tt
  end%string.

(** Register: the commands of telebot, then the kinds of update. *)
Definition Ads_handle (u : AdsUpdate) : AM unit :=
  match u with
  | UpText uid username firstName text =>
      if text =? "/start" then onStart uid username firstName
      else if text =? "/help" then onHelp uid
      else if text =? "/newcampaign" then onNewCampaign uid
      else if text =? "/campaigns" then onMyCampaigns uid
      else if text =? "/channels" then onMyChannels uid
      else if text =? "/addchannel" then onAddChannel uid
      else if text =? "/balance" then onBalance uid
      else if text =? "/rentlock" then onRentLock uid
      else if text =? "/admin" then onAdmin uid
      else if text =? "/cancel" then onCancel uid
      else Ads_onText uid text
  | UpMedia uid media => onMedia uid media
  | UpChannelPost sender orig => onChannelPost sender orig
  | UpCallback uid callback_data => Ads_onCallback uid callback_data
  end%string.

(** * cmd/main.go: what reaches the service *)

(** Updates of Telegram, messages of the bus ([None]: a payload that does not
    decode) and the ticks of the two schedulers. *)
Inductive AdsEvent :=
| Telegram (u : AdsUpdate)
| MembershipJoined (ev : option (Z * Z))
| FraudDetected (ev : option (Z * Z))
| FreeBotCreated (ev : option (string * Z))
| ConfirmAdmin (req : option Z)
| DistributionTick
| SettlementTick.

Definition ads_event (e : AdsEvent) : AM unit :=
  match e with
  | Telegram u => Ads_handle u
  | MembershipJoined (Some (user, channel)) => HandleMembershipJoined user channel
  | FraudDetected (Some (user, channel)) => HandleFraudDetected user channel
  | FreeBotCreated ev => on_free_bot_created ev
  | ConfirmAdmin (Some botID) => ConfirmChannelAdminByBotID botID
  | DistributionTick => runBatch
  | SettlementTick => settlement_round cfg
  | MembershipJoined None | FraudDetected None | ConfirmAdmin None => ret tt
  end.

(** One event after the other; an error of one is logged and forgotten. *)
Fixpoint ads_serve (l : list AdsEvent) : AM unit :=
  match l with [] => ret tt | e :: l => (try (ads_event e) ;; ads_serve l)%eff end.
End bot.
