(* ===== verification/AdsSpec.v ===== *)
(** Correctness of lock rentals: the life of a reward, what a rental reserves,
    and who may change what. *)
From S2P Require Import Prelude GoInt GoFloat GoString GoText Effects PayModels PayChain WalletService PayResponder PayClient.
From S2P Require Import PayClientSpec Bus Triples AdsModels AdsStore AdsRental AdsCampaign AdsBot.

(** * The life of rentals and rewards *)

Definition same_terms (r r' : LockRentalCampaign) : Prop :=
  lr_ID r' = lr_ID r /\ lr_BuyerTelegramID r' = lr_BuyerTelegramID r /\ lr_TargetChannelID r' = lr_TargetChannelID r /\
  lr_RewardPerJoinTON r' = lr_RewardPerJoinTON r /\ lr_Budget r' = lr_Budget r /\
  lr_FreeBotOwnerRewardPercent r' = lr_FreeBotOwnerRewardPercent r.

(** A pending reward may be settled or reversed, and nothing else ever happens to it. *)
Definition reward_later (w w' : RentalJoinReward) : Prop :=
  w' = w \/ jr_Status w = RewardPending /\ exists st at_, st <> RewardPending /\ w' = reward_with st at_ w.
Definition owner_reward_later (w w' : FreeBotOwnerReward) : Prop :=
  w' = w \/ or_Status w = RewardPending /\ exists n, w' = settled_owner_reward n w.

(** Every old row is still there, further along its life. *)
Definition later {V} (R : V -> V -> Prop) (m m' : gmap uuid V) : Prop :=
  forall i w, m !! i = Some w -> exists w', m' !! i = Some w' /\ R w w'.

#[export] Instance later_preorder {V} (R : V -> V -> Prop) : PreOrder R -> PreOrder (later R).
Proof.
  intros HR. split; [intros m i w Hi; exists w; by split|].
  intros m1 m2 m3 H1 H2 i w Hi. destruct (H1 i w Hi) as (w2 & Hw & ?). destruct (H2 i w2 Hw) as (w3 & ? & ?).
  exists w3. split; [done|by etransitivity].
Qed.

Lemma later_insert {V} (R : V -> V -> Prop) `{!PreOrder R} m i w : m !! i = None -> later R m (<[i := w]> m).
Proof. intros Hi j v Hj. exists v. rewrite lookup_insert_ne by congruence. done. Qed.

Lemma later_alter {V} (R : V -> V -> Prop) `{!PreOrder R} m i f : (forall w, R w (f w)) -> later R m (alter f i m).
Proof.
  intros Hf j w Hj. destruct (decide (i = j)) as [->|Hn].
  - exists (f w). by rewrite lookup_alter_eq, Hj.
  - exists w. by rewrite lookup_alter_ne, Hj.
Qed.

Lemma alter_insert_row {V} (m : gmap uuid V) i v f : m !! i = Some v -> <[i := f v]> m = alter f i m.
Proof.
  intros E. apply map_eq. intros j. destruct (decide (i = j)) as [->|Hj].
  - by rewrite lookup_alter_eq, lookup_insert_eq, E.
  - by rewrite lookup_alter_ne, lookup_insert_ne.
Qed.

#[export] Instance same_terms_preorder : PreOrder same_terms.
Proof. split; unfold same_terms; [done|]. intros a b c; destruct 1 as (?&?&?&?&?&?), 1 as (?&?&?&?&?&?); split_and!; congruence. Qed.

#[export] Instance reward_later_preorder : PreOrder reward_later.
Proof.
  split; [by left|]. intros a b c [->|(Ha & st & n & Hst & ->)] [->|(Hb & st' & n' & Hst' & ->)]; try by left.
  - right. eauto.
  - right. eauto 6.
Qed.

#[export] Instance owner_reward_later_preorder : PreOrder owner_reward_later.
Proof.
  split; [by left|]. intros a b c [->|(Ha & n & ->)] [->|(Hb & n' & ->)]; try by left.
  1-2: right; eauto.
  unfold settled_owner_reward in Hb. by rewrite (bool_decide_eq_true_2 _ Ha) in Hb.
Qed.

(** Rows sit under their own id, and one user has one reward per rental. *)
Definition rewards_distinct (d : AdsTables) : Prop :=
  (forall i w, join_rewards d !! i = Some w -> jr_ID w = i) /\
  (forall i j w v, join_rewards d !! i = Some w -> join_rewards d !! j = Some v ->
    jr_RentalID w = jr_RentalID v -> jr_TelegramID w = jr_TelegramID v -> i = j).

Record progress (d d' : AdsTables) : Prop := {
  rentals_later : later same_terms (rentals d) (rentals d');
  rewards_later : later reward_later (join_rewards d) (join_rewards d');
  owner_rewards_later : later owner_reward_later (owner_rewards d) (owner_rewards d');
  distinct_later : rewards_distinct d -> rewards_distinct d';
}.

#[export] Instance progress_preorder : PreOrder progress.
Proof.
  split.
  - intros d. split; try done; reflexivity.
  - intros d1 d2 d3 [A1 A2 A3 A4] [B1 B2 B3 B4]. split; [by etransitivity..|]. auto.
Qed.

(** Statements on the other tables. *)
Lemma progress_untouched d d' :
  rentals d' = rentals d -> join_rewards d' = join_rewards d -> owner_rewards d' = owner_rewards d -> progress d d'.
Proof.
  intros E1 E2 E3. split; [rewrite E1|rewrite E2|rewrite E3|unfold rewards_distinct; by rewrite E2]; reflexivity.
Qed.

Section progress.
Context {ENV : Env} {PG : PgNumeric}.

Lemma progress_rental id f d : (forall r, same_terms r (f r)) -> progress d (set_rentals (alter f id) d).
Proof. intros Hf. split; simpl; try reflexivity; [by apply later_alter; [typeclasses eauto|]|done]. Qed.

Lemma progress_rewards m d :
  later reward_later (join_rewards d) m -> (rewards_distinct d -> rewards_distinct (set_join_rewards (fun _ => m) d)) ->
  progress d (set_join_rewards (fun _ => m) d).
Proof. intros H1 H2. split; simpl; [reflexivity|done|reflexivity|done]. Qed.

Lemma reward_later_with w st at_ : jr_Status w = RewardPending -> st <> RewardPending -> reward_later w (reward_with st at_ w).
Proof. intros. right. eauto. Qed.

(** Changing a reward in place keeps the keys. *)
Lemma distinct_alter f i d :
  (forall w, jr_ID (f w) = jr_ID w /\ jr_RentalID (f w) = jr_RentalID w /\ jr_TelegramID (f w) = jr_TelegramID w) ->
  rewards_distinct d -> rewards_distinct (set_join_rewards (alter f i) d).
Proof.
  intros Hf [K U]. assert (Hl : forall k w, alter f i (join_rewards d) !! k = Some w ->
    exists w0, join_rewards d !! k = Some w0 /\ jr_ID w = jr_ID w0 /\ jr_RentalID w = jr_RentalID w0 /\ jr_TelegramID w = jr_TelegramID w0).
  { intros k w. destruct (decide (i = k)) as [->|Hn].
    - rewrite lookup_alter_eq. intros (w0 & Hw & ->)%fmap_Some. exists w0. split; [done|apply Hf].
    - rewrite lookup_alter_ne by done. eauto. }
  split; simpl.
  - intros k w (w0 & Hw & -> & _)%Hl. by apply K.
  - intros k j w v (w0 & Hw & _ & -> & ->)%Hl (v0 & Hv & _ & -> & ->)%Hl. by eapply U.
Qed.

Lemma progress_reward_alter f i d :
  (forall w, reward_later w (f w)) -> progress d (set_join_rewards (alter f i) d).
Proof.
  intros Hf. split; simpl; [reflexivity| |reflexivity|].
  - apply later_alter; [typeclasses eauto|done].
  - apply distinct_alter. intros w. by destruct (Hf w) as [->|(_ & st & n & _ & ->)].
Qed.

Lemma rows_lookup {V} (m : gmap uuid V) i v : m !! i = Some v -> v ∈ rows m.
Proof. intros H. unfold rows. apply list_elem_of_fmap. exists (i, v). split; [done|]. by apply elem_of_map_to_list. Qed.

Lemma progress_insert_reward w d b d' : insert_reward w d = Ok (b, d') -> progress d d'.
Proof.
  unfold insert_reward. destruct (_ || _) eqn:E; intros [= <- <-]; [reflexivity|].
  apply orb_false_elim in E as [E1 E2]. zbool. apply eq_None_not_Some in E1.
  assert (Hfree : forall i v, join_rewards d !! i = Some v -> jr_RentalID v = jr_RentalID w -> jr_TelegramID v = jr_TelegramID w -> False).
  { intros i v Hv Hr Ht. apply Bool.not_true_iff_false in E2. apply E2, existsb_exists. exists v. split.
    - apply list_elem_of_In. by eapply rows_lookup.
    - rewrite Hr, Ht, N.eqb_refl, Z.eqb_refl. done. }
  split; simpl; [reflexivity|by apply later_insert; [typeclasses eauto|]|reflexivity|].
  intros [K U]. split; simpl.
  - intros i v. destruct (decide (jr_ID w = i)) as [<-|Hn]; [by rewrite lookup_insert_eq; intros [= <-]|].
    rewrite lookup_insert_ne by done. apply K.
  - intros i j v u. destruct (decide (jr_ID w = i)) as [<-|Hi], (decide (jr_ID w = j)) as [<-|Hj]; try done;
      rewrite ?lookup_insert_eq, ?lookup_insert_ne by done; try intros [= <-]; try (intros Hv [= <-]); try (by eapply U).
    + intros Hu Hr Ht. exfalso. by eapply Hfree.
    + intros Hr Ht. exfalso. by eapply Hfree.
Qed.
End progress.

(** * The statements of the store *)

Lemma reads_row_and_error {D X A} {ENV : Env} (zero : A) (m : M D X A) : reads m -> reads (row_and_error zero m).
Proof.
  intros Hm s r s' H. unfold row_and_error in H. destruct (m s) as [r1 s1] eqn:E. injection H as <- <-. by apply Hm in E.
Qed.
Lemma reads_undefined {D X A} {ENV : Env} : reads (undefined_column : M D X A).
Proof.
  intros s r s' H. unfold undefined_column in H. destruct r; [|by apply stmt_err_db in H as [-> _]].
  by apply stmt_ok in H as (d & [=] & _).
Qed.
Lemma reads_set_var {D X V} (v : V) : reads (@set_var D X V v).
Proof. by intros s r s' [= <- <-]. Qed.
#[export] Hint Resolve reads_row_and_error reads_undefined reads_set_var : botpay.

(** A relation on the tables that does not look past rentals and rewards. *)
Class OnlyRentals (R : AdsTables -> AdsTables -> Prop) := {
  only_preorder : PreOrder R;
  only_rentals : forall d d', rentals d' = rentals d -> join_rewards d' = join_rewards d ->
    owner_rewards d' = owner_rewards d -> R d d';
}.
#[export] Existing Instance only_preorder.
#[export] Hint Extern 0 (OnlyRentals _) => typeclasses eauto : moves.

#[export] Instance progress_only : OnlyRentals progress.
Proof. split; [typeclasses eauto|apply progress_untouched]. Qed.

(** A statement on other tables; a program made of such statements. *)
Ltac other_table :=
  intros; apply moves_exec; [typeclasses eauto|];
  let H := fresh in intros ? ? H; repeat case_match; simplify_eq/=; by apply only_rentals.
Ltac others_tac := moves_tac; try other_table.

Section others.
Context {ENV : Env} {PG : PgNumeric} {X : Type} (R : AdsTables -> AdsTables -> Prop) `{!OnlyRentals R}.
Abbreviation other m := (moves (X := X) R m).

Lemma other_UpsertPublisher t u f : other (UpsertPublisher t u f).
Proof. unfold UpsertPublisher, insert_publisher. others_tac. Qed.
Lemma other_UpdateBalance id x : other (UpdateBalance id x).
Proof. unfold UpdateBalance. others_tac. Qed.
Lemma other_CreateCampaign c : other (CreateCampaign c).
Proof. unfold CreateCampaign, insert_campaign. others_tac. Qed.
Lemma other_UpdateCampaign c : other (UpdateCampaign c).
Proof. unfold UpdateCampaign, insert_campaign. others_tac. Qed.
Lemma other_ApproveCampaign id u : other (ApproveCampaign id u).
Proof. unfold ApproveCampaign. others_tac. Qed.
Lemma other_RejectCampaign id u n : other (RejectCampaign id u n).
Proof. unfold RejectCampaign. others_tac. Qed.
Lemma other_CreateChannel c : other (CreateChannel c).
Proof. unfold CreateChannel, insert_channel. others_tac. Qed.
Lemma other_DeactivateChannel id : other (DeactivateChannel id).
Proof. unfold DeactivateChannel. others_tac. Qed.
Lemma other_CreateImpression i : other (CreateImpression i).
Proof. unfold CreateImpression. others_tac. Qed.
Lemma other_UpsertFreeBotSlot x : other (UpsertFreeBotSlot x).
Proof. unfold UpsertFreeBotSlot. others_tac. Qed.
Lemma other_ReleaseSlot id : other (ReleaseSlot id).
Proof. unfold ReleaseSlot. others_tac. Qed.
Lemma other_ConfirmChannelAdmin id : other (ConfirmChannelAdmin id).
Proof. unfold ConfirmChannelAdmin. others_tac. Qed.
Lemma other_save_slots l : other (save_slots l).
Proof. induction l; simpl; others_tac. Qed.
End others.
#[export] Hint Resolve other_UpsertPublisher other_UpdateBalance other_CreateCampaign other_UpdateCampaign
  other_ApproveCampaign other_RejectCampaign other_CreateChannel other_DeactivateChannel other_CreateImpression
  other_UpsertFreeBotSlot other_ReleaseSlot other_ConfirmChannelAdmin other_save_slots : moves.

(** * The statements on rentals and rewards *)

Section store.
Context {ENV : Env} {PG : PgNumeric} {X : Type}.
Abbreviation safe m := (moves (X := X) progress m).

Lemma progress_CreateLockRental r : safe (CreateLockRental r).
Proof.
  apply moves_exec; [typeclasses eauto|]. intros d d'. case_bool_decide as E; intros [= <-]. apply eq_None_not_Some in E.
  split; simpl; try reflexivity; [by apply later_insert; [typeclasses eauto|]|done].
Qed.
Lemma progress_update_rental id f : (forall r, same_terms r (f r)) -> safe (update_rental id f).
Proof. intros Hf. apply moves_exec; [typeclasses eauto|]. intros d d' [= <-]. by apply progress_rental. Qed.
Lemma progress_ApproveLockRental id u : safe (ApproveLockRental id u).
Proof. unfold ApproveLockRental. moves_tac. intros. by apply progress_update_rental. Qed.
Lemma progress_RejectLockRental id u n : safe (RejectLockRental id u n).
Proof. unfold RejectLockRental. moves_tac. intros. by apply progress_update_rental. Qed.
Lemma progress_AddRentalJoinCount id j c : safe (AddRentalJoinCount id j c).
Proof. by apply progress_update_rental. Qed.
Lemma progress_IncrementRentalSpentOnly id c : safe (IncrementRentalSpentOnly id c).
Proof. by apply progress_update_rental. Qed.

(** A statement with a result. *)
Lemma moves_stmt {A} (R : AdsTables -> AdsTables -> Prop) `{!PreOrder R} (f : AdsTables -> result (A * AdsTables)) :
  (forall d a d', f d = Ok (a, d') -> R d d') -> moves R (stmt (X := X) f).
Proof.
  intros Hf s [a|e] s' H; [|by apply stmt_err_db in H as [-> _]].
  apply stmt_ok in H as (d & Hd & -> & _). by eapply Hf.
Qed.

Lemma progress_MarkRentalDoneIfFinished id : safe (MarkRentalDoneIfFinished id).
Proof.
  unfold MarkRentalDoneIfFinished. moves_tac. intros. apply moves_stmt; [typeclasses eauto|]. intros d b d'.
  destruct (rentals d !! id) as [r|] eqn:E; [destruct (rental_finished _ r)|]; intros [= <- <-]; try reflexivity.
  replace (set_rentals <[id := done_rental r]> d) with (set_rentals (alter done_rental id) d); [by apply progress_rental|].
  unfold set_rentals. by rewrite (alter_insert_row _ _ r).
Qed.

Lemma progress_TryRecordJoinReward id u x : safe (TryRecordJoinReward id u x).
Proof.
  unfold TryRecordJoinReward. moves_tac. intros. apply moves_stmt; [typeclasses eauto|]. intros d b d'. apply progress_insert_reward.
Qed.

Lemma progress_SettleReward id : safe (SettleReward id).
Proof.
  unfold SettleReward. moves_tac. intros. apply moves_exec; [typeclasses eauto|]. intros d d' [= <-].
  apply progress_reward_alter. intros w. unfold if_pending. case_bool_decide; [by apply reward_later_with|by left].
Qed.

Lemma progress_ReverseReward id rental x : safe (ReverseReward id rental x).
Proof.
  unfold ReverseReward. moves_tac; intros; [|by apply progress_update_rental].
  apply moves_stmt; [typeclasses eauto|]. intros d b d'. destruct (join_rewards d !! id) as [w|] eqn:E; [|by intros [= <- <-]].
  case_bool_decide as Ep; intros [= <- <-]; [|reflexivity].
  set (f := if_pending (fun w => reward_with RewardReversed (jr_SettledAt w) w)).
  replace (set_join_rewards _ d) with (set_join_rewards (alter f id) d).
  - apply progress_reward_alter. intros v. unfold f, if_pending. case_bool_decide; [by apply reward_later_with|by left].
  - unfold set_join_rewards. rewrite <- (alter_insert_row _ _ w) by done. unfold f, if_pending.
    by rewrite bool_decide_eq_true_2.
Qed.

#[local] Hint Resolve progress_ReverseReward : moves.
Lemma progress_reverse_all l : safe (reverse_all l).
Proof. induction l; simpl; moves_tac. Qed.

Lemma progress_TryRecordOwnerReward rental slot u x : safe (TryRecordOwnerReward rental slot u x).
Proof.
  unfold TryRecordOwnerReward, insert_owner_reward. moves_tac. intros. apply moves_stmt; [typeclasses eauto|]. intros d b d'.
  destruct (_ || _) eqn:E; intros [= <- <-]; [reflexivity|]. apply orb_false_elim in E as [E _]. zbool.
  apply eq_None_not_Some in E. split; simpl; try reflexivity; [by apply later_insert; [typeclasses eauto|]|done].
Qed.
Lemma progress_SettleOwnerReward id : safe (SettleOwnerReward id).
Proof.
  unfold SettleOwnerReward. moves_tac. intros. apply moves_exec; [typeclasses eauto|]. intros d d' [= <-].
  split; simpl; try reflexivity; [|done]. apply later_alter; [typeclasses eauto|]. intros w.
  destruct (decide (or_Status w = RewardPending)); [right; eauto|left].
  unfold settled_owner_reward. by rewrite bool_decide_eq_false_2.
Qed.
End store.
#[export] Hint Resolve progress_CreateLockRental progress_ApproveLockRental progress_RejectLockRental
  progress_AddRentalJoinCount progress_IncrementRentalSpentOnly progress_MarkRentalDoneIfFinished
  progress_TryRecordJoinReward progress_SettleReward progress_ReverseReward progress_reverse_all
  progress_TryRecordOwnerReward progress_SettleOwnerReward : moves.

(** * The bot's own effects *)

Section bot_reads.
Context {ENV : Env} {TG : AdsTelegram} {Y : Type}.

Lemma reads_send c t a : reads (send (R := Y) c t a).
Proof. apply reads_mod_ext. Qed.
Lemma reads_edit c t a : reads (edit (R := Y) c t a).
Proof. apply reads_mod_ext. Qed.
Lemma reads_getState u : reads (getState (R := Y) u).
Proof. by intros s r s' [= <- <-]. Qed.
Lemma reads_setState u st : reads (setState (R := Y) u st).
Proof. intros s r s'. unfold setState, bump. destruct (env_fault _); by intros [= <- <-]. Qed.
Lemma reads_clearState u : reads (clearState (R := Y) u).
Proof. intros s r s'. unfold clearState, bump. destruct (env_fault _); by intros [= <- <-]. Qed.
Lemma reads_SendToChannel ch c : reads (SendToChannel (R := Y) ch c).
Proof. intros s r s'. unfold SendToChannel, bump. destruct (env_fault _); by intros [= <- <-]. Qed.
End bot_reads.
#[export] Hint Resolve reads_send reads_edit reads_getState reads_setState reads_clearState reads_SendToChannel : botpay.

(** * The handlers *)

Section handlers.
Context {B : Type} {ENV : Env} {PS : PayServer B} {MARSHAL : JsonMarshal} {PG : PgNumeric} {FP : F64Platform}.
Context {UUID : UuidParser} {LIB : Lib} {TG : AdsTelegram} {ANS : AdsAnswers} (cfg : ClientConfig) (ownerID : Z).

(** Those that never touch a rental or a reward. *)
Section others.
Context (R : AdsTables -> AdsTables -> Prop) `{!OnlyRentals R}.
Abbreviation other m := (moves (X := AdsWorld * Remote B) R m).

Lemma other_setStep u st kv : other (setStep u st kv).
Proof. unfold setStep. moves_tac. Qed.
#[local] Hint Resolve other_setStep : moves.

Lemma other_handleCampName u st text : other (handleCampName u st text).
Proof. unfold handleCampName. moves_tac. Qed.
#[local] Hint Resolve other_handleCampName : moves.
Lemma other_handleCampaignMedia u st media : other (handleCampaignMedia u st media).
Proof. unfold handleCampaignMedia. moves_tac. Qed.
#[local] Hint Resolve other_handleCampaignMedia : moves.
Lemma other_handleCampCaption u st text : other (handleCampCaption u st text).
Proof. unfold handleCampCaption. moves_tac. Qed.
#[local] Hint Resolve other_handleCampCaption : moves.
Lemma other_handleCampButton u st text : other (handleCampButton u st text).
Proof. unfold handleCampButton. moves_tac. Qed.
#[local] Hint Resolve other_handleCampButton : moves.
Lemma other_handleCampURL u st text : other (handleCampURL u st text).
Proof. unfold handleCampURL. moves_tac. Qed.
#[local] Hint Resolve other_handleCampURL : moves.
Lemma other_handleCampBudget u st text : other (handleCampBudget u st text).
Proof. unfold handleCampBudget, FindPublisher. moves_tac. Qed.
#[local] Hint Resolve other_handleCampBudget : moves.
Lemma other_handleCampCPJ u st text : other (handleCampCPJ ownerID u st text).
Proof. unfold handleCampCPJ, FindPublisher, notifyAdmin. moves_tac. Qed.
#[local] Hint Resolve other_handleCampCPJ : moves.
Lemma other_send_campaigns u l : other (send_campaigns u l).
Proof. induction l; simpl; moves_tac. Qed.
#[local] Hint Resolve other_send_campaigns : moves.
Lemma other_onMyCampaigns u : other (onMyCampaigns u).
Proof. unfold onMyCampaigns, FindPublisher, FindCampaignsByPublisher. moves_tac. Qed.
#[local] Hint Resolve other_onMyCampaigns : moves.
Lemma other_pauseCampaign u idStr : other (pauseCampaign u idStr).
Proof. unfold pauseCampaign, owned_campaign, FindCampaign, FindPublisher. moves_tac. Qed.
#[local] Hint Resolve other_pauseCampaign : moves.
Lemma other_deleteCampaign u idStr : other (deleteCampaign u idStr).
Proof. unfold deleteCampaign, owned_campaign, FindCampaign, FindPublisher. moves_tac. Qed.
#[local] Hint Resolve other_deleteCampaign : moves.
Lemma other_handleChannelForward u st orig : other (handleChannelForward u st orig).
Proof. unfold handleChannelForward, FindChannelByTelegramID. moves_tac. Qed.
#[local] Hint Resolve other_handleChannelForward : moves.
Lemma other_handleChannelCPJ u st text : other (handleChannelCPJ ownerID u st text).
Proof. unfold handleChannelCPJ, FindPublisher. moves_tac. Qed.
#[local] Hint Resolve other_handleChannelCPJ : moves.
Lemma other_onMyChannels u : other (onMyChannels u).
Proof. unfold onMyChannels, FindPublisher, ListChannelsByOwner. moves_tac. Qed.
#[local] Hint Resolve other_onMyChannels : moves.
Lemma other_adminStats u : other (adminStats u).
Proof. unfold adminStats, Ads_GetStats, figure_or_0, ListPublishers. moves_tac. Qed.
#[local] Hint Resolve other_adminStats : moves.
Lemma other_send_pending u l : other (send_pending u l).
Proof. induction l; simpl; moves_tac. Qed.
#[local] Hint Resolve other_send_pending : moves.
Lemma other_adminPending u : other (adminPending u).
Proof. unfold adminPending, FindPendingCampaigns. moves_tac. Qed.
#[local] Hint Resolve other_adminPending : moves.
Lemma other_send_channels u l : other (send_channels u l).
Proof. induction l; simpl; moves_tac. Qed.
#[local] Hint Resolve other_send_channels : moves.
Lemma other_adminChannels u : other (adminChannels u).
Proof. unfold adminChannels, ListUnverifiedChannels. moves_tac. Qed.
#[local] Hint Resolve other_adminChannels : moves.
Lemma other_handleAdminText u text : other (handleAdminText u text).
Proof. unfold handleAdminText. moves_tac. Qed.
#[local] Hint Resolve other_handleAdminText : moves.
Lemma other_broadcast c l : other (broadcast c l).
Proof. induction l; simpl; moves_tac. Qed.
#[local] Hint Resolve other_broadcast : moves.
Lemma other_DistributeCampaign c : other (DistributeCampaign c).
Proof. unfold DistributeCampaign, IsExpired, ListActiveChannels. moves_tac. Qed.
#[local] Hint Resolve other_DistributeCampaign : moves.
Lemma other_notifyPublisher c text args : other (notifyPublisher c text args).
Proof. unfold notifyPublisher, FindPublisherByID. moves_tac. Qed.
#[local] Hint Resolve other_notifyPublisher : moves.
Lemma other_approveCampaign u idStr : other (approveCampaign u idStr).
Proof. unfold approveCampaign, FindCampaign. moves_tac. Qed.
#[local] Hint Resolve other_approveCampaign : moves.
Lemma other_doReject u st note : other (doReject u st note).
Proof. unfold doReject, FindCampaign, FindPublisher. moves_tac. Qed.
#[local] Hint Resolve other_doReject : moves.
Lemma other_verifyChannel u idStr : other (verifyChannel u idStr).
Proof. unfold verifyChannel, VerifyChannel. moves_tac. Qed.
#[local] Hint Resolve other_verifyChannel : moves.
Lemma other_rejectChannel u idStr : other (rejectChannel u idStr).
Proof. unfold rejectChannel. moves_tac. Qed.
#[local] Hint Resolve other_rejectChannel : moves.
Lemma reads_send_counted c t a : reads (send_counted (B := B) c t a).
Proof. intros s r s'. unfold send_counted, bump. destruct (env_fault _); by intros [= <- <-]. Qed.
#[local] Hint Resolve reads_send_counted : botpay.
Lemma other_broadcast_to t l n k : other (broadcast_to t l n k).
Proof. revert n k. induction l; simpl; moves_tac. Qed.
#[local] Hint Resolve other_broadcast_to : moves.
Lemma other_doBroadcast u text : other (doBroadcast u text).
Proof. unfold doBroadcast, ListPublishers. moves_tac. Qed.
#[local] Hint Resolve other_doBroadcast : moves.
Lemma other_onStart u name first : other (onStart ownerID u name first).
Proof. unfold onStart. moves_tac. Qed.
#[local] Hint Resolve other_onStart : moves.
Lemma other_onBalance u : other (onBalance u).
Proof. unfold onBalance, FindPublisher. moves_tac. Qed.
#[local] Hint Resolve other_onBalance : moves.
Lemma other_handleRentChannel u st text : other (handleRentChannel u st text).
Proof. unfold handleRentChannel. moves_tac. Qed.
#[local] Hint Resolve other_handleRentChannel : moves.
Lemma other_handleRentBudget u st text : other (handleRentBudget u st text).
Proof. unfold handleRentBudget. moves_tac. Qed.
#[local] Hint Resolve other_handleRentBudget : moves.
Lemma other_distribute_all l : other (distribute_all l).
Proof. induction l; simpl; moves_tac. Qed.
#[local] Hint Resolve other_distribute_all : moves.
Lemma other_runBatch : other (runBatch).
Proof. unfold runBatch, FindActiveCampaigns. moves_tac. Qed.
#[local] Hint Resolve other_runBatch : moves.

(** What the handlers of rentals must do for the whole service to do it. *)
Class RentalHandlers := {
  rental_reward : forall u st text, other (handleRentReward ownerID u st text);
  rental_approve : forall u idStr, other (approveLockRental cfg u idStr);
  rental_reject : forall u idStr, other (rejectLockRental u idStr);
  rental_joined : forall user ch, other (HandleMembershipJoined user ch);
  rental_fraud : forall user ch, other (HandleFraudDetected user ch);
  rental_settle : other (settlement_round cfg);
}.
Context `{!RentalHandlers}.
#[local] Hint Resolve rental_reward rental_approve rental_reject rental_joined rental_fraud rental_settle : moves.

Lemma handlers_onCancel u : other (onCancel u).
Proof. unfold onCancel. moves_tac. Qed.
#[local] Hint Resolve handlers_onCancel : moves.
Lemma handlers_handleStep u st text : other (handleStep ownerID u st text).
Proof. unfold handleStep. moves_tac. Qed.
#[local] Hint Resolve handlers_handleStep : moves.
Lemma handlers_onText u text : other (Ads_onText ownerID u text).
Proof. unfold Ads_onText, onNewCampaign, onAddChannel, onHelp. moves_tac. Qed.
#[local] Hint Resolve handlers_onText : moves.
Lemma handlers_onCallback u data : other (Ads_onCallback cfg ownerID u data).
Proof. unfold Ads_onCallback, admin_only, startReject. moves_tac. Qed.
#[local] Hint Resolve handlers_onCallback : moves.
Lemma handlers_handle u : other (Ads_handle cfg ownerID u).
Proof.
  unfold Ads_handle, onMedia, onChannelPost, onRentLock, onNewCampaign, onAddChannel, onHelp, onAdmin. moves_tac.
Qed.
#[local] Hint Resolve handlers_handle : moves.
Lemma handlers_event e : other (ads_event cfg ownerID e).
Proof.
  unfold ads_event, on_free_bot_created, ConfirmChannelAdminByBotID, FindFreeBotSlotByBotID. moves_tac.
Qed.
#[local] Hint Resolve handlers_event : moves.
Lemma handlers_serve l : other (ads_serve cfg ownerID l).
Proof. induction l; simpl; moves_tac. Qed.
End others.
End handlers.

(** * Rentals and rewards only move forward *)

Section forward.
Context {B : Type} {ENV : Env} {PS : PayServer B} {MARSHAL : JsonMarshal} {PG : PgNumeric} {FP : F64Platform}.
Context {UUID : UuidParser} {LIB : Lib} {TG : AdsTelegram} {ANS : AdsAnswers} (cfg : ClientConfig) (ownerID : Z).
Abbreviation safe m := (moves (X := AdsWorld * Remote B) progress m).

Lemma other_AssignSlotsToRental (R : AdsTables -> AdsTables -> Prop) `{!OnlyRentals R} id buyer n :
  moves (X := AdsWorld * Remote B) R (AssignSlotsToRental id buyer n).
Proof.
  unfold AssignSlotsToRental. apply moves_bind; [typeclasses eauto| |intros [v [|]]; moves_tac].
  apply moves_with_var. match goal with |- forall s r s', ?m s = _ -> _ => change (moves R m) end.
  moves_tac.
Qed.
#[local] Hint Resolve other_AssignSlotsToRental : moves.

Lemma progress_reserve_owners id per l : safe (reserve_owners id per l).
Proof. induction l; simpl; unfold ResolveSlotOwnerTelegramID; moves_tac. Qed.
#[local] Hint Resolve progress_reserve_owners : moves.
Lemma progress_payFreeBotOwners r l : safe (payFreeBotOwners r l).
Proof. unfold payFreeBotOwners. moves_tac. Qed.
#[local] Hint Resolve progress_payFreeBotOwners : moves.

Lemma other_release_slots (R : AdsTables -> AdsTables -> Prop) `{!OnlyRentals R} l :
  moves (X := AdsWorld * Remote B) R (release_slots l).
Proof. induction l; simpl; unfold ResolveSlotOwnerTelegramID; moves_tac. Qed.
#[local] Hint Resolve other_release_slots : moves.
Lemma progress_checkCampaignCompletion id : safe (checkCampaignCompletion id).
Proof. unfold checkCampaignCompletion, FindLockRental, ListSlotsByRental. moves_tac. Qed.
#[local] Hint Resolve progress_checkCampaignCompletion : moves.

Lemma progress_settle_rewards l : safe (settle_rewards cfg l).
Proof. induction l; simpl; unfold settle_reward; moves_tac. Qed.
Lemma progress_settle_owner_rewards l : safe (settle_owner_rewards cfg l).
Proof. induction l; simpl; unfold settle_owner_reward; moves_tac. Qed.
Lemma progress_complete_all l : safe (complete_all l).
Proof. induction l; simpl; moves_tac. Qed.
#[local] Hint Resolve progress_settle_rewards progress_settle_owner_rewards progress_complete_all : moves.

#[local] Instance progress_handlers : RentalHandlers (B := B) cfg ownerID progress.
Proof.
  split; intros.
  - unfold handleRentReward, notifyAdminRental. moves_tac.
  - unfold approveLockRental, FindLockRental. moves_tac.
  - unfold rejectLockRental, FindLockRental. moves_tac.
  - unfold HandleMembershipJoined, FindActiveRentalByChannel, lr_IsActive. moves_tac.
  - unfold HandleFraudDetected, ReversePendingRewardByUser. moves_tac.
  - unfold settlement_round, settleDueRewards, settleDueOwnerRewards, checkExpiredRentals, FindDueRewards,
      FindDueOwnerRewards, FindExpiredActiveRentals. moves_tac.
Qed.

(** C19: Through any sequence of updates, joins, fraud reports and settlements,
    whatever statement, message or payment fails: no rental ever changes its
    buyer, channel, budget, reward or percentage; a user has at most one reward
    per rental; and a reward keeps its user and amount for ever, leaves the
    pending state at most once, and is final when settled or reversed. *)
Theorem rewards_final l s r s' :
  ads_serve (B := B) cfg ownerID l s = (r, s') ->
  (rewards_distinct (db s) -> rewards_distinct (db s')) /\
  (forall id w, join_rewards (db s) !! id = Some w -> exists w', join_rewards (db s') !! id = Some w' /\
    jr_RentalID w' = jr_RentalID w /\ jr_TelegramID w' = jr_TelegramID w /\ jr_AmountTON w' = jr_AmountTON w /\
    jr_SettleAt w' = jr_SettleAt w /\ (jr_Status w <> RewardPending -> w' = w)) /\
  (forall id w, owner_rewards (db s) !! id = Some w -> exists w', owner_rewards (db s') !! id = Some w' /\
    or_OwnerTelegramID w' = or_OwnerTelegramID w /\ or_AmountTON w' = or_AmountTON w /\
    (or_Status w <> RewardPending -> w' = w)) /\
  (forall id q, rentals (db s) !! id = Some q -> exists q', rentals (db s') !! id = Some q' /\ same_terms q q').
Proof.
  intros H. destruct (handlers_serve cfg ownerID progress l _ _ _ H) as [H1 H2 H3 H4]. split_and!; [done| | |done].
  - intros id w Hw. destruct (H2 id w Hw) as (w' & Hw' & Hl). exists w'. split; [done|].
    destruct Hl as [->|(Hp & st & n & _ & ->)]; [done|]. by split_and!.
  - intros id w Hw. destruct (H3 id w Hw) as (w' & Hw' & Hl). exists w'. split; [done|].
    destruct Hl as [->|(Hp & n & ->)]; [done|]. unfold settled_owner_reward.
    rewrite bool_decide_eq_true_2 by done. by split_and!.
Qed.
End forward.
