(* ===== verification/AdsAccounts.v ===== *)
(** What a lock rental bills its buyer for: the rewards that were not reversed
    and the pool of the free bots' owners, never more. *)
From S2P Require Import Prelude GoInt GoFloat GoString GoText Effects PayModels PayChain WalletService PayResponder PayClient.
From S2P Require Import PayClientSpec Bus AdsModels AdsStore AdsRental AdsCampaign AdsBot AdsSpec.

(** * Sums over a table *)

Lemma map_sum_alter {V} (f : V -> Z) (g : V -> V) (m : gmap uuid V) i :
  (forall v, f (g v) = f v) -> map_sum f (alter g i m) = map_sum f m.
Proof.
  intros Hg. destruct (m !! i) as [v|] eqn:E.
  - rewrite <- (alter_insert_row _ _ v) by done. rewrite (map_sum_insert _ _ _ v) by done. rewrite Hg. lia.
  - rewrite alter_id; [done|]. intros v Hv. congruence.
Qed.

(** * The account of a rental *)

(** The rewards of a rental that were not reversed. *)
Definition standing (id : uuid) (w : RentalJoinReward) : Z :=
  if bool_decide (jr_RentalID w = id) && negb (bool_decide (jr_Status w = RewardReversed)) then 1 else 0.
Definition outstanding (id : uuid) (d : AdsTables) : Z := map_sum (standing id) (join_rewards d).

Section accounts.
Context {PG : PgNumeric}.

(** The owners' pool, as payFreeBotOwners computes it. *)
Definition owner_pool (r : LockRentalCampaign) : numeric :=
  to_numeric (f64_div (f64_mul (of_numeric (lr_Budget r)) (of_numeric (lr_FreeBotOwnerRewardPercent r))) (f64_of_int 100)).

(** [spent <= pool + reward * outstanding], for finite terms that are not negative. *)
Definition within_bill (pool : LockRentalCampaign -> Q) (d : AdsTables) (id : uuid) (r : LockRentalCampaign) : Prop :=
  forall q p, lr_RewardPerJoinTON r = Num q -> (0 <= q)%Q -> owner_pool r = Num p -> (0 <= p)%Q ->
  exists spent, lr_Spent r = Num spent /\ (spent <= pool r + q * inject_Z (outstanding id d))%Q.

Definition pool_of (r : LockRentalCampaign) : Q :=
  match lr_Status r, owner_pool r with
  | RentalPendingReview, _ => 0
  | _, Num p => p
  | _, _ => 0
  end.

Record billed (d : AdsTables) : Prop := {
  bill_kept : forall id r, rentals d !! id = Some r -> within_bill pool_of d id r;
  bill_stored : forall id r, rentals d !! id = Some r -> stored (lr_RewardPerJoinTON r) /\ lr_ID r = id;
  bill_rewards : forall i w, join_rewards d !! i = Some w -> jr_ID w = i /\
    exists r, rentals d !! jr_RentalID w = Some r /\ jr_AmountTON w = lr_RewardPerJoinTON r;
}.

Lemma standing_nonneg id w : 0 <= standing id w.
Proof. unfold standing. destruct (_ && _); lia. Qed.

Lemma outstanding_nonneg id d : 0 <= outstanding id d.
Proof. apply map_sum_nonneg. intros. apply standing_nonneg. Qed.

(** The relation: whatever keeps the account. *)
Definition keeps_bill (d d' : AdsTables) : Prop := billed d -> billed d'.

(** Rentals and rewards stay as they are. *)
Definition same_rentals (d d' : AdsTables) : Prop := rentals d' = rentals d /\ join_rewards d' = join_rewards d.
#[export] Instance same_rentals_only : OnlyRentals same_rentals.
Proof.
  split; [split; unfold same_rentals; [done|]|done].
  intros a b c [E1 E2] [E3 E4]. by rewrite E3, E4.
Qed.

Lemma keeps_bill_same d d' : same_rentals d d' -> keeps_bill d d'.
Proof.
  intros [E1 E2] [K S W].
  split; unfold within_bill, outstanding in *; rewrite ?E1, ?E2; [exact K|exact S|exact W].
Qed.

#[export] Instance keeps_bill_only : OnlyRentals keeps_bill.
Proof.
  split; [split; [by intros d H|by intros a b c H1 H2 H; auto]|].
  intros d d' E1 E2 _. by apply keeps_bill_same.
Qed.

(** An update of a rental that leaves its terms, its bill and whether it was
    approved as they were, or approves it. *)
Definition same_bill (f : LockRentalCampaign -> LockRentalCampaign) : Prop :=
  forall r, same_terms r (f r) /\ lr_Spent (f r) = lr_Spent r /\
    (lr_Status (f r) = RentalPendingReview -> lr_Status r = RentalPendingReview).

Lemma same_terms_pool r r' : same_terms r r' -> owner_pool r' = owner_pool r.
Proof. intros (_ & _ & _ & _ & E1 & E2). unfold owner_pool. by rewrite E1, E2. Qed.

Lemma pool_grows r r' p : same_terms r r' -> owner_pool r = Num p -> (0 <= p)%Q ->
  (lr_Status r' = RentalPendingReview -> lr_Status r = RentalPendingReview) -> (pool_of r <= pool_of r')%Q.
Proof.
  intros Ht Hp H0 Hs. unfold pool_of. rewrite (same_terms_pool _ _ Ht), Hp.
  destruct (lr_Status r) eqn:E1, (lr_Status r') eqn:E2; try (by apply Qle_refl); try done; by specialize (Hs eq_refl).
Qed.

(** The account after one rental [id] was changed by [f], from what it says there. *)
Lemma billed_alter f id d :
  (forall r, same_terms r (f r)) ->
  (forall j r, j <> id -> rentals d !! j = Some r -> within_bill pool_of d j r) ->
  (forall j r, rentals d !! j = Some r -> stored (lr_RewardPerJoinTON r) /\ lr_ID r = j) ->
  (forall i w, join_rewards d !! i = Some w -> jr_ID w = i /\
    exists r, rentals d !! jr_RentalID w = Some r /\ jr_AmountTON w = lr_RewardPerJoinTON r) ->
  (forall r, rentals d !! id = Some r -> within_bill pool_of d id (f r)) -> billed (set_rentals (alter f id) d).
Proof.
  intros Hf K S W Hid. split; simpl.
  - intros j r. destruct (decide (id = j)) as [->|Hj].
    + rewrite lookup_alter_eq. intros (r0 & Hr & ->)%fmap_Some. by apply Hid.
    + rewrite lookup_alter_ne by done. by apply K.
  - intros j r. destruct (decide (id = j)) as [->|Hj]; [|rewrite lookup_alter_ne by done; apply S].
    rewrite lookup_alter_eq. intros (r0 & Hr & ->)%fmap_Some. destruct (Hf r0) as (-> & _ & _ & -> & _). by apply S.
  - intros i w Hw. destruct (W i w Hw) as (Hi & r & Hr & Ha). split; [done|].
    destruct (decide (id = jr_RentalID w)) as [->|Hj]; [|exists r; by rewrite lookup_alter_ne].
    exists (f r). rewrite lookup_alter_eq, Hr. split; [done|]. destruct (Hf r) as (_ & _ & _ & -> & _). done.
Qed.

Lemma within_bill_same f r id d :
  same_bill f -> within_bill pool_of d id r -> within_bill pool_of d id (f r).
Proof.
  intros Hf K q p Hq H0 Hp Hp0. destruct (Hf r) as (Ht & Hs & Hst). rewrite Hs.
  rewrite (same_terms_pool _ _ Ht) in Hp. destruct (Ht) as (_ & _ & _ & Er & _). rewrite Er in Hq.
  destruct (K q p Hq H0 Hp Hp0) as (sp & Esp & Hle). exists sp. split; [done|].
  eapply Qle_trans; [exact Hle|]. apply Qplus_le_compat; [|apply Qle_refl]. by eapply pool_grows.
Qed.

Lemma billed_same f id d : same_bill f -> billed d -> billed (set_rentals (alter f id) d).
Proof.
  intros Hf [K S W]. apply billed_alter; [apply Hf|auto..]. intros r Hr. apply within_bill_same; auto.
Qed.
End accounts.

(** * The statements *)

Section statements.
Context {ENV : Env} {PG : PgNumeric} {LAWS : PgNumericLaws} {X : Type}.
Abbreviation fair m := (moves (X := X) keeps_bill m).

Lemma bill_update_rental id f : same_bill f -> fair (update_rental id f).
Proof.
  intros Hf. apply moves_exec; [typeclasses eauto|]. intros d d' [= <-] Hd. by apply billed_same.
Qed.
Lemma bill_ApproveLockRental id u : fair (ApproveLockRental id u).
Proof. unfold ApproveLockRental. moves_tac. intros. by apply bill_update_rental. Qed.
Lemma bill_RejectLockRental id u n : fair (RejectLockRental id u n).
Proof. unfold RejectLockRental. moves_tac. intros. by apply bill_update_rental. Qed.

Lemma bill_MarkRentalDoneIfFinished id : fair (MarkRentalDoneIfFinished id).
Proof.
  unfold MarkRentalDoneIfFinished. moves_tac. intros n. apply moves_stmt; [typeclasses eauto|]. intros d b d' H Hd.
  destruct (rentals d !! id) as [r|] eqn:E; [destruct (rental_finished _ r)|]; injection H as <- <-; try done.
  replace (set_rentals <[id := done_rental r]> d) with (set_rentals (alter done_rental id) d).
  2: { unfold set_rentals. by rewrite (alter_insert_row _ _ r). }
  by apply billed_same.
Qed.

Lemma bill_CreateLockRental id created buyer channel username reward budget :
  fair (CreateLockRental (new_rental id created buyer channel username reward budget)).
Proof.
  apply moves_exec; [typeclasses eauto|]. intros d d'. case_bool_decide as E; intros [= <-] [K S W].
  simpl in E. apply eq_None_not_Some in E. split; simpl.
  - intros j r. destruct (decide (id = j)) as [<-|Hj]; [|rewrite lookup_insert_ne by done; apply K].
    rewrite lookup_insert_eq. intros [= <-] q p Hq H0 Hp Hp0. exists 0%Q. split; [done|].
    unfold pool_of. simpl. rewrite Qplus_0_l. apply Qmult_le_0_compat; [done|].
    change 0%Q with (inject_Z 0). rewrite <- Zle_Qle. apply outstanding_nonneg.
  - intros j r. destruct (decide (id = j)) as [<-|Hj]; [|rewrite lookup_insert_ne by done; apply S].
    rewrite lookup_insert_eq. intros [= <-]. split; [apply stored_to_numeric|done].
  - intros i w Hw. destruct (W i w Hw) as (Hi & r & Hr & Ha). split; [done|]. exists r. split; [|done].
    rewrite lookup_insert_ne; [done|]. congruence.
Qed.

(** A reward changed in place without being reversed. *)
Lemma bill_SettleReward id : fair (SettleReward id).
Proof.
  unfold SettleReward. moves_tac. intros n. apply moves_exec; [typeclasses eauto|]. intros d d' [= <-] [K S W].
  set (f := if_pending (reward_with RewardSettled (Some n))).
  assert (Hf : forall w, jr_ID (f w) = jr_ID w /\ jr_RentalID (f w) = jr_RentalID w /\ jr_AmountTON (f w) = jr_AmountTON w
    /\ forall j, standing j (f w) = standing j w).
  { intros w. unfold f, if_pending. case_bool_decide as E; [|done]. split_and!; try done.
    intros j. unfold standing. simpl. by rewrite E. }
  split; simpl; [|done|].
  - intros j r Hr. unfold within_bill, outstanding. simpl. rewrite map_sum_alter; [by apply K|]. intros w. apply Hf.
  - intros i w. destruct (decide (id = i)) as [->|Hi]; [|rewrite lookup_alter_ne by done; apply W].
    rewrite lookup_alter_eq. intros (w0 & Hw & ->)%fmap_Some. destruct (Hf w0) as (-> & -> & -> & _). by apply W.
Qed.

Lemma bill_owner_rewards f d : keeps_bill d (set_owner_rewards f d).
Proof. by intros [K S W]. Qed.
Lemma bill_TryRecordOwnerReward rental slot u x : fair (TryRecordOwnerReward rental slot u x).
Proof.
  unfold TryRecordOwnerReward, insert_owner_reward. moves_tac. intros. apply moves_stmt; [typeclasses eauto|].
  intros d b d'. destruct (_ || _); intros [= <- <-]; [done|]. apply bill_owner_rewards.
Qed.
Lemma bill_SettleOwnerReward id : fair (SettleOwnerReward id).
Proof.
  unfold SettleOwnerReward. moves_tac. intros. apply moves_exec; [typeclasses eauto|]. intros d d' [= <-].
  apply bill_owner_rewards.
Qed.
End statements.
#[export] Hint Resolve bill_ApproveLockRental bill_RejectLockRental bill_MarkRentalDoneIfFinished
  bill_CreateLockRental bill_SettleReward bill_TryRecordOwnerReward bill_SettleOwnerReward : moves.

(** * Joining and reversing *)

Section joins.
Context {ENV : Env} {PG : PgNumeric} {LAWS : PgNumericLaws} {X : Type}.

(** The outstanding rewards after a row changed. *)
Lemma outstanding_insert id w d i :
  outstanding id (set_join_rewards <[i := w]> d) =
  outstanding id d + standing id w - match join_rewards d !! i with Some v => standing id v | None => 0 end.
Proof.
  unfold outstanding. simpl. destruct (join_rewards d !! i) as [v|] eqn:E.
  - rewrite (map_sum_insert _ _ _ v) by done. lia.
  - rewrite map_sum_insert_new by done. lia.
Qed.

Lemma within_bill_outstanding d d' id r : outstanding id d <= outstanding id d' ->
  within_bill pool_of d id r -> within_bill pool_of d' id r.
Proof.
  intros Ho K q p Hq H0 Hp Hp0. destruct (K q p Hq H0 Hp Hp0) as (sp & -> & Hle). exists sp. split; [done|].
  eapply Qle_trans; [exact Hle|]. apply Qplus_le_compat; [apply Qle_refl|].
  rewrite !(Qmult_comm q). apply Qmult_le_compat_r; [|done]. by rewrite <- Zle_Qle.
Qed.

(** Spending [n] rewards more when [n] more are outstanding. *)
Lemma within_bill_spend d d' id r n joins f :
  outstanding id d' = outstanding id d + n ->
  (forall s q, lr_RewardPerJoinTON r = Num q -> exists s', f (Num s) = Num s' /\ (s' == s + q * inject_Z n)%Q) ->
  within_bill pool_of d id r -> within_bill pool_of d' id (rental_spending joins f r).
Proof.
  intros Ho Hx K q p Hq H0 Hp Hp0. destruct (K q p Hq H0 Hp Hp0) as (sp & Esp & Hle).
  destruct (Hx sp q Hq) as (s' & Ef & Es). exists s'. simpl. rewrite Esp. split; [done|].
  change (pool_of (rental_spending joins f r)) with (pool_of r). rewrite Es, Ho, inject_Z_plus, Qmult_plus_distr_r, Qplus_assoc.
  by apply Qplus_le_compat; [|apply Qle_refl].
Qed.

Lemma bill_rental_spending joins f id d d' n :
  billed d -> rentals d' = rentals d ->
  (forall i w, join_rewards d' !! i = Some w -> jr_ID w = i /\
    exists r, rentals d !! jr_RentalID w = Some r /\ jr_AmountTON w = lr_RewardPerJoinTON r) ->
  outstanding id d' = outstanding id d + n -> (forall j, j <> id -> outstanding j d' = outstanding j d) ->
  (forall r s q, rentals d !! id = Some r -> lr_RewardPerJoinTON r = Num q ->
     exists s', f (Num s) = Num s' /\ (s' == s + q * inject_Z n)%Q) ->
  billed (set_rentals (alter (rental_spending joins f) id) d').
Proof.
  intros [K S W] Er W' Ho Hj Hf. apply billed_alter; rewrite ?Er; try done.
  - intros j r Hn Hr. eapply within_bill_outstanding; [|by apply K]. rewrite (Hj j Hn). lia.
  - intros r Hr. eapply within_bill_spend; [exact Ho| |by apply K]. intros s q. by apply Hf.
Qed.

(** One reversal, of a reward read before. *)
Definition listed (d : AdsTables) (w : RentalJoinReward) : Prop :=
  exists v, join_rewards d !! jr_ID w = Some v /\ jr_RentalID v = jr_RentalID w /\ jr_AmountTON v = jr_AmountTON w.

Lemma listed_progress d d' w : progress d d' -> listed d w -> listed d' w.
Proof.
  intros [_ Hl _ _] (v & Hv & Er & Ea). destruct (Hl _ _ Hv) as (v' & Hv' & [->|(_ & st & n & _ & ->)]);
    (eexists; split; [exact Hv'|]; done).
Qed.

Lemma ReverseReward_run id rental x (s : st AdsTables X) r s' :
  ReverseReward id rental x s = (r, s') -> db s' = db s \/
  exists w, join_rewards (db s) !! id = Some w /\ jr_Status w = RewardPending /\
    db s' = set_rentals (alter (rental_spending 0 (fun s => num_sub s (to_numeric x))) rental)
              (set_join_rewards <[id := reward_with RewardReversed (jr_SettledAt w) w]> (db s)).
Proof.
  unfold ReverseReward. intros H. destruct r as [u|e]; [|left; by eapply transaction_atomic].
  apply transaction_ok in H as (s1 & H & ->). simpl. apply bind_ok in H as (b & s2 & Hs & H).
  apply stmt_ok in Hs as (d & Hd & -> & _). simpl in Hd, H.
  destruct (join_rewards (db s) !! id) as [w|] eqn:E.
  2: { injection Hd as <- <-. injection H as _ <-. by left. }
  case_bool_decide as Ep; injection Hd as <- <-; simpl in H.
  - apply exec_ok in H as (d & [= <-] & -> & _). right. exists w. done.
  - injection H as _ <-. by left.
Qed.

Lemma bill_reversed id w d : billed d -> join_rewards d !! id = Some w -> jr_Status w = RewardPending ->
  billed (set_rentals (alter (rental_spending 0 (fun s => num_sub s (jr_AmountTON w))) (jr_RentalID w))
            (set_join_rewards <[id := reward_with RewardReversed (jr_SettledAt w) w]> d)).
Proof.
  intros Hd Hw Hp. destruct (bill_rewards d Hd id w Hw) as (Hi & r0 & Hr0 & Ha).
  apply (bill_rental_spending _ _ _ d _ (-1)); [done|done|..].
  - intros i v. simpl. destruct (decide (id = i)) as [<-|Hn].
    + rewrite lookup_insert_eq. intros [= <-]. simpl. eauto.
    + rewrite lookup_insert_ne by done. apply Hd.
  - rewrite outstanding_insert, Hw. unfold standing. simpl. rewrite Hp, bool_decide_eq_true_2 by done. simpl. lia.
  - intros j Hj. rewrite outstanding_insert, Hw. unfold standing. simpl. rewrite bool_decide_eq_false_2 by congruence.
    simpl. lia.
  - intros r sp q Hr Hq. rewrite Ha. replace r0 with r by congruence. rewrite Hq. simpl. eexists. split; [done|].
    change (inject_Z (-1)) with (- (1))%Q. ring.
Qed.

Lemma bill_reverse_all l (s : st AdsTables X) r s' :
  reverse_all l s = (r, s') -> billed (db s) -> Forall (listed (db s)) l -> billed (db s').
Proof.
  revert s. induction l as [|w l IH]; intros s H Hd Hl; [by injection H as <- <-|].
  apply Forall_cons in Hl as [Hw Hl]. simpl in H. apply bind_run in H as (r1 & s1 & H1 & H).
  assert (Hd1 : billed (db s1)).
  { apply ReverseReward_run in H1 as [->|(v & Hv & Hp & ->)]; [done|]. destruct Hw as (v' & Hv' & Er & Ea).
    replace v' with v in * by congruence. destruct (bill_rewards _ Hd _ _ Hv) as (_ & r0 & Hr0 & Ha).
    rewrite <- Er, <- Ea. replace (to_numeric (of_numeric (jr_AmountTON v))) with (jr_AmountTON v); [by apply bill_reversed|].
    symmetry. rewrite Ha. by apply (bill_stored _ Hd _ _ Hr0). }
  apply progress_ReverseReward in H1. destruct r1; [|by destruct H as [_ ->]].
  apply (IH _ H Hd1). eapply Forall_impl; [exact Hl|]. intros. by eapply listed_progress.
Qed.

(** Recording a reward, then counting it, each of which may fail. *)
Lemma bill_insert_reward w d b d' r0 :
  insert_reward w d = Ok (b, d') -> billed d -> rentals d !! jr_RentalID w = Some r0 ->
  jr_AmountTON w = lr_RewardPerJoinTON r0 -> jr_Status w = RewardPending ->
  rentals d' = rentals d /\ billed d' /\
  if b then (forall i v, join_rewards d' !! i = Some v -> jr_ID v = i /\
              exists r, rentals d !! jr_RentalID v = Some r /\ jr_AmountTON v = lr_RewardPerJoinTON r) /\
            outstanding (jr_RentalID w) d' = outstanding (jr_RentalID w) d + 1 /\
            forall j, j <> jr_RentalID w -> outstanding j d' = outstanding j d
  else d' = d.
Proof.
  unfold insert_reward. intros H Hd Hr Ha Hp. destruct (_ || _) eqn:E; injection H as <- <-; [done|].
  apply orb_false_elim in E as [E _]. zbool. apply eq_None_not_Some in E. split; [done|].
  assert (W : forall i v, <[jr_ID w:=w]> (join_rewards d) !! i = Some v -> jr_ID v = i /\
    exists r, rentals d !! jr_RentalID v = Some r /\ jr_AmountTON v = lr_RewardPerJoinTON r).
  { intros i v. destruct (decide (jr_ID w = i)) as [<-|Hn]; [rewrite lookup_insert_eq; intros [= <-]; eauto|].
    rewrite lookup_insert_ne by done. apply Hd. }
  assert (Ho : forall j, outstanding j (set_join_rewards <[jr_ID w:=w]> d) = outstanding j d + standing j w).
  { intros j. rewrite outstanding_insert, E. lia. }
  split; [|split; [exact W|split; [|intros j Hj]]].
  - destruct Hd as [K S _]. split; [|done|exact W]. intros j r Hr'. eapply within_bill_outstanding; [|by apply K].
    rewrite Ho. pose proof (standing_nonneg j w). lia.
  - rewrite Ho. unfold standing. by rewrite bool_decide_eq_true_2, Hp.
  - rewrite Ho. unfold standing. rewrite bool_decide_eq_false_2 by congruence. simpl. lia.
Qed.
End joins.

(** * The handlers *)

Section handlers.
Context {B : Type} {ENV : Env} {PS : PayServer B} {MARSHAL : JsonMarshal} {PG : PgNumeric} {LAWS : PgNumericLaws}.
Context {FP : F64Platform} {UUID : UuidParser} {LIB : Lib} {TG : AdsTelegram} {ANS : AdsAnswers}.
Context (cfg : ClientConfig) (ownerID : Z).
Implicit Types s : st AdsTables (AdsWorld * Remote B).
Abbreviation fair m := (moves (X := AdsWorld * Remote B) keeps_bill m).

#[local] Hint Resolve other_AssignSlotsToRental other_release_slots : moves.

Lemma bill_checkCampaignCompletion id : fair (checkCampaignCompletion id).
Proof. unfold checkCampaignCompletion, FindLockRental, ListSlotsByRental. moves_tac. Qed.
#[local] Hint Resolve bill_checkCampaignCompletion : moves.

Lemma find_row_run {V} (zero : V) q s r s' :
  row_and_error zero (first q) s = (r, s') -> db s' = db s /\ forall v, r = Ok (Some v, None) -> q (db s) = Some v.
Proof.
  intros H. unfold row_and_error in H. destruct (first q s) as [r1 s1] eqn:E. injection H as <- <-.
  split; [by apply reads_first in E|]. intros v [= Hv]. destruct r1 as [a|e]; [|by destruct e].
  injection Hv as ->. by apply first_ok in E as (E & _).
Qed.

(** The reward and its count, for a rental that stands in the table. *)
Lemma bill_counted id r0 x joins s0 s b s' :
  AddRentalJoinCount id joins x s = (b, s') -> billed (db s0) -> rentals (db s0) !! id = Some r0 ->
  to_numeric x = lr_RewardPerJoinTON r0 -> rentals (db s) = rentals (db s0) ->
  (forall i v, join_rewards (db s) !! i = Some v -> jr_ID v = i /\
    exists r, rentals (db s0) !! jr_RentalID v = Some r /\ jr_AmountTON v = lr_RewardPerJoinTON r) ->
  outstanding id (db s) = outstanding id (db s0) + 1 ->
  (forall j, j <> id -> outstanding j (db s) = outstanding j (db s0)) -> billed (db s) -> billed (db s').
Proof.
  intros H Hd Hr Hx Er W Ho Hj Hb. unfold AddRentalJoinCount, update_rental in H.
  destruct b as [u|e]; [|by apply stmt_err_db in H as [-> _]].
  apply exec_ok in H as (d & [= <-] & -> & _). simpl. apply (bill_rental_spending _ _ _ (db s0) _ 1); try done.
  intros r sp q Hr' Hq. rewrite Hx. replace r0 with r by congruence. rewrite Hq. simpl. eexists. split; [done|].
  change (inject_Z 1) with 1%Q. ring.
Qed.

Lemma bill_record_and_count id r0 user (k : result unit -> M AdsTables (AdsWorld * Remote B) unit) s r s' :
  (forall v, fair (k v)) -> billed (db s) -> rentals (db s) !! id = Some r0 ->
  (first_ <- try (TryRecordJoinReward id user (of_numeric (lr_RewardPerJoinTON r0))) ;;
   match first_ with
   | Ok true => (v <- try (AddRentalJoinCount id 1 (of_numeric (lr_RewardPerJoinTON r0))) ;; k v)%eff
   | _ => ret tt
   end)%eff s = (r, s') -> billed (db s').
Proof.
  intros Hk Hd Hr H. destruct (bill_stored _ Hd _ _ Hr) as [Hst _]. apply bind_run in H as (r1 & s1 & H1 & H).
  apply try_run in H1 as (r2 & -> & H1). unfold TryRecordJoinReward in H1.
  apply bind_run in H1 as (q1 & t1 & E1 & H1). unfold uuid_New in E1. injection E1 as <- <-.
  apply bind_run in H1 as (q2 & t2 & E2 & H1). unfold now in E2. injection E2 as <- <-.
  destruct r2 as [b|e]; [|apply stmt_err_db in H1 as [E _]; injection H as _ <-; by rewrite E].
  apply stmt_ok in H1 as (d & H1 & -> & _). simpl in H1.
  eapply bill_insert_reward in H1 as (Er & Hb & Hc); [|done|exact Hr|exact Hst|done]. simpl in Hc.
  destruct b; [|injection H as _ <-; exact Hb]. destruct Hc as (W & Ho & Hj).
  apply bind_run in H as (r3 & s3 & H3 & H). apply try_run in H3 as (r4 & -> & H3).
  apply (Hk _ _ _ _ H). eapply (bill_counted id r0 _ _ s); [exact H3|done..].
Qed.

Lemma bill_joined user ch : fair (HandleMembershipJoined user ch).
Proof.
  intros s r s' H Hd. unfold HandleMembershipJoined, FindActiveRentalByChannel in H.
  apply bind_run in H as (r1 & s1 & H1 & H). apply find_row_run in H1 as [D1 F1].
  destruct r1 as [[[rental|] [e|]]|e]; try (destruct H as [_ ->]; by rewrite D1); try (injection H as _ <-; by rewrite D1).
  specialize (F1 rental eq_refl). apply first_row_some in F1 as [Hin _].
  apply list_elem_of_fmap in Hin as ([id r0] & [= ->] & Hin). apply elem_of_map_to_list in Hin.
  destruct (bill_stored _ Hd _ _ Hin) as [Hst <-].
  apply bind_run in H as (r2 & s2 & H2 & H). assert (D2 : db s2 = db s1).
  { assert (Hr : reads (X := AdsWorld * Remote B) (lr_IsActive r0)) by (unfold lr_IsActive; reads_tac). by apply Hr in H2. }
  rewrite D1 in D2. destruct r2 as [[]|e]; [|injection H as _ <-; by rewrite D2|destruct H as [_ ->]; by rewrite D2].
  rewrite <- D2 in Hd, Hin. eapply bill_record_and_count; [|exact Hd|exact Hin|exact H]. intros v. moves_tac.
Qed.

Lemma elem_of_rows_lookup {V} (m : gmap uuid V) v : v ∈ rows m -> exists i, m !! i = Some v.
Proof.
  intros Hin. apply list_elem_of_fmap in Hin as ([i w] & [= ->] & Hin). apply elem_of_map_to_list in Hin. eauto.
Qed.

Lemma bill_fraud user ch : fair (HandleFraudDetected user ch).
Proof.
  intros s r s' H Hd. unfold HandleFraudDetected in H. apply bind_run in H as (r1 & s1 & H1 & H).
  assert (Hs : db s' = db s1) by (destruct r1; [by injection H as _ <-|by destruct H as [_ ->]]). rewrite Hs.
  apply try_run in H1 as (r2 & -> & H1). unfold ReversePendingRewardByUser in H1.
  apply bind_run in H1 as (r3 & s3 & H3 & H1). destruct r3 as [l|e].
  2: { destruct H1 as [_ ->]. apply reads_find in H3. by rewrite H3. }
  apply find_ok in H3 as (-> & -> & _). eapply bill_reverse_all; [exact H1|done|]. simpl.
  apply Forall_forall. intros w Hw. apply list_elem_of_In, filter_In in Hw as [Hw _]. apply list_elem_of_In in Hw.
  apply elem_of_rows_lookup in Hw as (i & Hi). destruct (bill_rewards _ Hd _ _ Hi) as [<- _]. by exists w.
Qed.

(** After the approval: nothing of the pool is billed yet. *)
Definition unbilled (id : uuid) (rental : LockRentalCampaign) (d : AdsTables) : Prop :=
  billed d /\ exists r, rentals d !! id = Some r /\ same_terms rental r /\ lr_Status r <> RentalPendingReview /\
    within_bill (fun _ => 0%Q) d id r.

Lemma unbilled_same id rental d d' : same_rentals d d' -> unbilled id rental d -> unbilled id rental d'.
Proof.
  intros [E1 E2] [Hd (r & Hr & Ht & Hs & Hw)]. split; [by apply (keeps_bill_same d)|].
  exists r. unfold within_bill, outstanding in *. rewrite E1, E2. done.
Qed.

Lemma same_reserve_owners id per l : moves (X := AdsWorld * Remote B) same_rentals (reserve_owners id per l).
Proof.
  induction l; simpl; unfold ResolveSlotOwnerTelegramID, TryRecordOwnerReward, insert_owner_reward; moves_tac.
  intros. apply moves_stmt; [typeclasses eauto|]. intros d b d'. by destruct (_ || _); intros [= <- <-].
Qed.

Lemma bill_payFreeBotOwners rental l s r s' :
  payFreeBotOwners rental l s = (r, s') -> unbilled (lr_ID rental) rental (db s) -> billed (db s').
Proof.
  unfold payFreeBotOwners. intros H Hd. pose proof (proj1 Hd) as Hb. destruct l as [|slot l]; [by injection H as _ <-|].
  destruct (f64_le _ _); [by injection H as _ <-|]. destruct (f64_le _ _); [by injection H as _ <-|].
  apply bind_run in H as (r1 & s1 & H1 & H). apply try_run in H1 as (r2 & -> & H1).
  apply same_reserve_owners in H. apply (keeps_bill_same _ _ H). clear H.
  destruct r2 as [u|e]; [|by apply stmt_err_db in H1 as [-> _]].
  apply exec_ok in H1 as (d & [= <-] & -> & _). simpl. destruct Hd as [_ (r0 & Hr0 & Ht & Hs & Hw)]. destruct Hb as [K S W].
  apply billed_alter; [done|by auto|done|done|]. intros r1 Hr1. replace r1 with r0 in * by congruence. clear r1 Hr1.
  intros q p Hq H0 Hp Hp0. change (owner_pool (rental_spending _ _ r0)) with (owner_pool r0) in Hp.
  destruct (Hw q p Hq H0 Hp Hp0) as (sp & Esp & Hle). rewrite (same_terms_pool _ _ Ht) in Hp.
  exists (sp + p)%Q. split.
  - change (num_add (lr_Spent r0) (owner_pool rental) = Num (sp + p)). by rewrite Esp, Hp.
  - unfold pool_of. change (owner_pool (rental_spending _ _ r0)) with (owner_pool r0).
    rewrite (same_terms_pool _ _ Ht), Hp. simpl. rewrite Qplus_0_l in Hle.
    destruct (lr_Status r0); [done|..]; rewrite Qplus_comm; apply Qplus_le_compat; try done; apply Qle_refl.
Qed.

Lemma bill_approved id u rental s x s' : rentals (db s) !! id = Some rental -> lr_Status rental = RentalPendingReview ->
  billed (db s) -> ApproveLockRental id u s = (x, s') -> billed (db s') /\ (x = Ok tt -> unbilled id rental (db s')).
Proof.
  intros Hr Hp Hd H. unfold ApproveLockRental, update_rental in H. apply bind_run in H as (r1 & s1 & H1 & H).
  unfold now in H1. injection H1 as <- <-. destruct x as [[]|e]; [|by apply stmt_err_db in H as [-> _]].
  apply exec_ok in H as (d & [= <-] & -> & _). simpl.
  assert (Hb : billed (set_rentals (alter (fun r => rental_with RentalActive (lr_ReviewNote r) (Some (env_now (tick s))) u
      (Some (env_now (tick s))) (Some (env_now (tick s) + DefaultRentalDuration)) r) id) (db s))) by (by apply billed_same).
  split; [done|]. intros _. split; [done|]. simpl. eexists. rewrite lookup_alter_eq, Hr. split; [done|].
  split; [done|]. split; [done|]. intros q p Hq H0 Ho Hp0. destruct (bill_kept _ Hd _ _ Hr q p) as (sp & Esp & Hle); try done.
  exists sp. split; [done|]. unfold pool_of in Hle. by rewrite Hp in Hle.
Qed.

(** What follows a successful charge. *)
Lemma bill_after_charge id u rental ref s r s' :
  rentals (db s) !! id = Some rental -> lr_Status rental = RentalPendingReview -> billed (db s) ->
  (a <- try (ApproveLockRental id u) ;;
   match a with
   | Err _ => edit u "rent:approve failed" []
   | Ok _ =>
       (' (assigned, _) <- AssignSlotsToRental id (lr_BuyerTelegramID rental) defaultSlotsPerRental ;;
        payFreeBotOwners rental assigned ;; ref assigned)
   end)%eff s = (r, s') -> (forall l, fair (ref l)) -> billed (db s').
Proof.
  intros Hr Hp Hd H Hk. destruct (bill_stored _ Hd _ _ Hr) as [_ Ei].
  apply bind_run in H as (r1 & s1 & H1 & H). apply try_run in H1 as (r2 & -> & H1).
  eapply bill_approved in H1 as [Hb Hu]; [|done..]. destruct r2 as [[]|e].
  2: { apply reads_edit in H. by rewrite H. }
  specialize (Hu eq_refl). apply bind_run in H as (r3 & s3 & H3 & H).
  apply (other_AssignSlotsToRental (B := B) same_rentals) in H3. pose proof (unbilled_same _ _ _ _ H3 Hu) as Hu3.
  destruct r3 as [[l e]|e]; [|by destruct H as [_ ->]; destruct Hu3].
  apply bind_run in H as (r4 & s4 & H4 & H). apply bill_payFreeBotOwners in H4; [|by rewrite Ei].
  destruct r4; [by apply (Hk l _ _ _ H)|by destruct H as [_ ->]].
Qed.

Lemma bill_approve u idStr : fair (approveLockRental cfg u idStr).
Proof.
  intros s r s' H Hd. unfold approveLockRental, FindLockRental in H.
  destruct (uuid_Parse idStr) as [id|]; [|apply reads_edit in H; by rewrite H].
  apply bind_run in H as (r1 & s1 & H1 & H). apply find_row_run in H1 as [D1 F1].
  destruct r1 as [[[rental|] [e|]]|e]; try (apply reads_edit in H; by rewrite H, D1); [|by destruct H as [_ ->]; rewrite D1].
  specialize (F1 rental eq_refl). simpl in F1. destruct (bool_decide _) eqn:Ep; simpl in H; [|apply reads_edit in H; by rewrite H, D1].
  zbool. apply bind_run in H as (r2 & s2 & H2 & H). apply try_run in H2 as (r3 & -> & H2).
  apply reads_DeductWithMeta in H2. rewrite D1 in H2. rewrite <- H2 in Hd, F1.
  destruct r3 as [x|e]; [|apply reads_edit in H; by rewrite H].
  eapply (bill_after_charge id u rental (fun l => _)); [exact F1|exact Ep|exact Hd|exact H|]. intros l. moves_tac.
Qed.

Lemma bill_settle_rewards l : fair (settle_rewards cfg l).
Proof. induction l; simpl; unfold settle_reward; moves_tac. Qed.
Lemma bill_settle_owner_rewards l : fair (settle_owner_rewards cfg l).
Proof. induction l; simpl; unfold settle_owner_reward; moves_tac. Qed.
Lemma bill_complete_all l : fair (complete_all l).
Proof. induction l; simpl; moves_tac. Qed.
#[local] Hint Resolve bill_settle_rewards bill_settle_owner_rewards bill_complete_all bill_joined bill_fraud bill_approve : moves.

#[local] Instance bill_handlers : RentalHandlers (B := B) cfg ownerID keeps_bill.
Proof.
  split; intros; try solve [auto with moves].
  - unfold handleRentReward, notifyAdminRental. moves_tac.
  - unfold rejectLockRental, FindLockRental. moves_tac.
  - unfold settlement_round, settleDueRewards, settleDueOwnerRewards, checkExpiredRentals, FindDueRewards,
      FindDueOwnerRewards, FindExpiredActiveRentals. moves_tac.
Qed.

(** C20: Whatever joins, fraud reports, approvals and settlements arrive and
    whatever fails, a rental never bills its buyer for more than its rewards that
    were not reversed and, once it was approved, the pool of the bots' owners. *)
Theorem rental_bill l s r s' id q reward pool :
  ads_serve (B := B) cfg ownerID l s = (r, s') -> billed (db s) -> rentals (db s') !! id = Some q ->
  lr_RewardPerJoinTON q = Num reward -> (0 <= reward)%Q -> owner_pool q = Num pool -> (0 <= pool)%Q ->
  exists spent, lr_Spent q = Num spent /\
    (spent <= (if bool_decide (lr_Status q = RentalPendingReview) then 0 else pool) + reward * inject_Z (outstanding id (db s')))%Q.
Proof.
  intros H Hd Hq Hr H0 Hp Hp0. assert (Hb : billed (db s')) by by apply (handlers_serve cfg ownerID keeps_bill l _ _ _ H).
  destruct (bill_kept _ Hb _ _ Hq _ _ Hr H0 Hp Hp0) as (sp & Es & Hle). exists sp. split; [done|].
  unfold pool_of in Hle. rewrite Hp in Hle. case_bool_decide as E; [by rewrite E in Hle|]. by destruct (lr_Status q).
Qed.
End handlers.
