(* ===== verification/AdsBotSpec.v ===== *)
(** Correctness of the ads-bot's conversations and buttons: what the updates of
    a user who is not the owner can touch, and what no update ever reaches. *)
From S2P Require Import Prelude GoInt GoFloat GoString GoText Effects PayModels PayChain WalletService PayResponder PayClient.
From S2P Require Import PayClientSpec Bus Triples AdsModels AdsStore AdsRental AdsCampaign AdsBot AdsSpec AdsAccounts.

Section users.
Context {B : Type} {ENV : Env} {PS : PayServer B} {MARSHAL : JsonMarshal} {PG : PgNumeric} {FP : F64Platform}.
Context {UUID : UuidParser} {LIB : Lib} {TG : AdsTelegram} {ANS : AdsAnswers} (cfg : ClientConfig) (ownerID u : Z).
Hypothesis user : u <> ownerID.
Hypothesis user_id : u <> 0.
(** uuid.New never gives the nil value. *)
Hypothesis uuid_nonzero : forall k, env_uuid k <> 0%N.

Definition keyed (d : AdsTables) : Prop :=
  (forall i p, publishers d !! i = Some p -> pub_ID p = i /\ i <> 0%N) /\
  (forall i c, campaigns d !! i = Some c -> ca_ID c = i).

(** The tables as this user may have left them, from [d0] on: rows of rentals,
    channels, publishers and campaigns of others stand as they were, and a new
    rental is this user's and waits for its review. *)
Record left_by (d0 d : AdsTables) : Prop := {
  lb_keyed : keyed d;
  lb_rewards : join_rewards d = join_rewards d0 /\ owner_rewards d = owner_rewards d0 /\ slots d = slots d0;
  lb_rentals : forall i r, rentals d0 !! i = Some r -> rentals d !! i = Some r;
  lb_new_rentals : forall i r, rentals d !! i = Some r ->
    rentals d0 !! i = Some r \/ lr_Status r = RentalPendingReview /\ lr_BuyerTelegramID r = u;
  lb_channels : forall i c, channels d0 !! i = Some c -> channels d !! i = Some c;
  lb_publishers : forall i p, publishers d0 !! i = Some p -> pub_TelegramID p = u \/ publishers d !! i = Some p;
  lb_campaigns : forall i c p, campaigns d0 !! i = Some c -> publishers d0 !! ca_PublisherID c = Some p ->
    pub_TelegramID p <> u -> campaigns d !! i = Some c;
}.

(** Conversations that a user may be in: never the administrator's. *)
Definition user_step (st : wizardState) : Prop := Step st <> stepRejectNote /\ Step st <> stepAdminBroadcast.
Definition user_chats (x : AdsWorld) : Prop :=
  forall v st e, aw_states x !! v = Some (st, e) -> v <> ownerID -> user_step st.

Context (d0 : AdsTables) (rem : Remote B).
Definition tame (d : AdsTables) (x : AdsWorld * Remote B) : Prop :=
  left_by d0 d /\ user_chats (fst x) /\ snd x = rem.
Abbreviation calm m := (within tame anything m).

(** ** The bot's effects *)

Lemma calm_send c t a : calm (send c t a).
Proof. apply within_mod_ext. by intros d x. Qed.
Lemma calm_edit c t a : calm (edit c t a).
Proof. apply within_mod_ext. by intros d x. Qed.

Lemma calm_getState : within tame user_step (getState u).
Proof.
  intros s r s' Hi H. unfold getState in H. injection H as <- <-. split; [done|]. simpl.
  assert (Hidle : user_step idle) by (split; discriminate). destruct Hi as (_ & Hc & _).
  destruct (env_fault _); [done|]. destruct (aw_states _ !! u) as [[st e]|] eqn:E; [|done].
  destruct (_ <? _); [|done]. by apply (Hc u st e E).
Qed.

Lemma calm_setState st : user_step st -> calm (setState u st).
Proof.
  intros Hst s r s' (Hl & Hc & Hr) H. unfold setState in H.
  destruct (env_fault _); injection H as <- <-; (split; [|done]); [done|]. split; [done|]. split; [|done].
  intros v st' e. simpl. destruct (decide (u = v)) as [<-|Hn].
  - by rewrite lookup_insert_eq; intros [= <- <-].
  - rewrite lookup_insert_ne by done. apply Hc.
Qed.
Lemma calm_clearState : calm (clearState u).
Proof.
  intros s r s' (Hl & Hc & Hr) H. unfold clearState in H.
  destruct (env_fault _); injection H as <- <-; (split; [|done]); [done|]. split; [done|]. split; [|done].
  intros v st' e. simpl. intros [_ Hv]%lookup_delete_Some. by apply (Hc v st' e).
Qed.
Lemma calm_setStep step kv : step <> stepRejectNote -> step <> stepAdminBroadcast -> calm (setStep u step kv).
Proof.
  intros H1 H2. eapply within_bind; [apply calm_getState|]. intros st _. by apply calm_setState.
Qed.
#[local] Hint Resolve calm_send calm_edit calm_clearState : within.
#[local] Hint Extern 1 (within _ _ (setStep _ _ _)) => apply calm_setStep; discriminate : within.

(** ** The statements *)

(** A publisher this user was given: none, or only ever this user's. *)
Definition mine (p : Publisher) : Prop :=
  pub_ID p = 0%N \/ forall q, publishers d0 !! pub_ID p = Some q -> pub_TelegramID q = u.
(** A campaign that was read: none, or as it was in [d0] if it is another's. *)
Definition seen (c : Campaign) : Prop :=
  ca_ID c = 0%N \/ forall c0 q, campaigns d0 !! ca_ID c = Some c0 -> publishers d0 !! ca_PublisherID c0 = Some q ->
    pub_TelegramID q <> u -> c0 = c.

Lemma mine_row d p i : left_by d0 d -> publishers d !! i = Some p -> pub_TelegramID p = u -> mine p.
Proof.
  intros Hl Hp Ht. right. destruct (proj1 (lb_keyed _ _ Hl) _ _ Hp) as [-> _]. intros q Hq.
  destruct (lb_publishers _ _ Hl _ _ Hq) as [|E]; [done|]. congruence.
Qed.

Definition found_mine (r : option Publisher * option error) : Prop := forall p, fst r = Some p -> mine p.
Lemma within_row {A} (Q : A -> Prop) zero (m : M AdsTables (AdsWorld * Remote B) A) :
  Q zero -> within tame Q m -> within tame (fun r => forall a, fst r = Some a -> Q a) (row_and_error zero m).
Proof.
  intros Hz Hm s r s' Hi H. unfold row_and_error in H. destruct (m s) as [r1 s1] eqn:E. injection H as <- <-.
  destruct (Hm _ _ _ Hi E) as [Hi1 HQ]. split; [done|]. destruct r1 as [a|e]; [by intros ? [= <-]|].
  by destruct e; intros a [= <-].
Qed.

Lemma calm_FindPublisher : within tame found_mine (FindPublisher u).
Proof.
  apply within_row; [by left|]. eapply within_weaken; [apply within_first|].
  intros p (d & x & (Hl & _) & Hp). apply first_row_some in Hp as [Hin Ht]. zbool.
  apply elem_of_rows_lookup in Hin as (i & Hi). by eapply mine_row.
Qed.

Lemma calm_FindCampaign id : within tame (fun r => forall c, fst r = Some c -> seen c) (FindCampaign id).
Proof.
  apply within_row; [by left|]. eapply within_weaken; [apply within_first|].
  intros c (d & x & (Hl & _) & Hc). apply first_row_some in Hc as [Hin _].
  apply elem_of_rows_lookup in Hin as (i & Hi). right. destruct (lb_keyed _ _ Hl) as [_ Hk]. rewrite (Hk _ _ Hi).
  intros c0 q H0 Hq Hn. pose proof (lb_campaigns _ _ Hl _ _ _ H0 Hq Hn). congruence.
Qed.

Lemma calm_alter_publisher p f : mine p -> (forall q, pub_ID (f q) = pub_ID q) ->
  calm (exec (fun d => Ok (set_publishers (alter f (pub_ID p)) d))).
Proof.
  intros Hm Hf. apply within_exec. intros d z d' (Hl & Hx) [= <-]. split; [|done].
  destruct Hl as [[K1 K2] R N L C P G]. split; try done.
  - split; [|done]. intros i q. simpl. destruct (decide (pub_ID p = i)) as [<-|Hn]; [|rewrite lookup_alter_ne by done; apply K1].
    rewrite lookup_alter_eq. intros (q0 & Hq & ->)%fmap_Some. rewrite Hf. by apply K1.
  - intros i q Hq. simpl. destruct (decide (pub_ID p = i)) as [<-|Hn]; [|rewrite lookup_alter_ne by done; by apply P].
    left. destruct Hm as [E|Hm]; [|by apply Hm]. destruct (P _ _ Hq) as [|Hd]; [done|]. by destruct (K1 _ _ Hd).
Qed.
Lemma calm_UpdateBalance p x : mine p -> calm (UpdateBalance (pub_ID p) x).
Proof. intros Hm. by apply calm_alter_publisher. Qed.

Lemma calm_insert_campaign c : calm (exec (insert_campaign c)).
Proof.
  apply within_exec. intros d y d' (Hl & Hx) H. split; [|done]. unfold insert_campaign in H.
  case_bool_decide as E; [done|]. injection H as <-. apply eq_None_not_Some in E.
  destruct Hl as [[K1 K2] R N L C P G]. split; try done.
  - split; [done|]. intros i c0. simpl. destruct (decide (ca_ID c = i)) as [<-|Hn].
    + by rewrite lookup_insert_eq; intros [= <-].
    + rewrite lookup_insert_ne by done. apply K2.
  - intros i c0 q H0 Hq Hn. simpl. rewrite lookup_insert_ne; [by eapply G|].
    intros <-. rewrite (G _ _ _ H0 Hq Hn) in E. done.
Qed.

Lemma calm_UpdateCampaign c p : seen c -> mine p -> ca_PublisherID c = pub_ID p -> forall st, calm (UpdateCampaign (with_status st c)).
Proof.
  intros Hs Hm Hp st. unfold UpdateCampaign. destruct (ca_ID _ =? 0)%N eqn:E0.
  { eapply within_bind; [apply within_uuid|]. intros id _. apply calm_insert_campaign. }
  apply within_exec. intros d y d' (Hl & Hx) [= <-]. split; [|done]. apply N.eqb_neq in E0. simpl in E0.
  destruct Hl as [[K1 K2] R N L C P G]. split; try done.
  - split; [done|]. intros i c0. simpl. destruct (decide (ca_ID c = i)) as [<-|Hn].
    + by rewrite lookup_insert_eq; intros [= <-].
    + rewrite lookup_insert_ne by done. apply K2.
  - intros i c0 q H0 Hq Hn. simpl. rewrite lookup_insert_ne; [by eapply G|]. intros <-.
    destruct Hs as [|Hs]; [done|]. pose proof (Hs _ _ H0 Hq Hn) as ->. rewrite Hp in Hq.
    destruct Hm as [Ez|Hm]; [|by apply Hn, Hm]. rewrite Ez in Hq.
    destruct (P _ _ Hq) as [|Hd]; [done|]. by destruct (K1 _ _ Hd).
Qed.

Lemma calm_CreateLockRental r : lr_Status r = RentalPendingReview -> lr_BuyerTelegramID r = u -> calm (CreateLockRental r).
Proof.
  intros H1 H2. apply within_exec. intros d y d' (Hl & Hx) H. split; [|done].
  case_bool_decide as E; [done|]. injection H as <-. apply eq_None_not_Some in E.
  destruct Hl as [K R N L C P G]. split; try done; simpl.
  - intros i q Hq. rewrite lookup_insert_ne; [by apply N|]. intros <-. rewrite (N _ _ Hq) in E. done.
  - intros i q. destruct (decide (lr_ID r = i)) as [<-|Hn].
    + rewrite lookup_insert_eq. intros [= <-]. by right.
    + rewrite lookup_insert_ne by done. apply L.
Qed.

Lemma calm_CreateChannel c : calm (CreateChannel c).
Proof.
  apply within_exec. intros d y d' (Hl & Hx) H. split; [|done]. unfold insert_channel in H.
  case_bool_decide as E; [done|]. destruct (existsb _ _); [done|]. injection H as <-. apply eq_None_not_Some in E.
  destruct Hl as [K R N L C P G]. split; try done; simpl.
  intros i q Hq. rewrite lookup_insert_ne; [by apply C|]. intros <-. rewrite (C _ _ Hq) in E. done.
Qed.

Lemma fresh_uuid : within tame (fun id => id <> 0%N) uuid_New.
Proof. by intros s r s' Hi [= <- <-]. Qed.

Lemma calm_insert_publisher p : pub_ID p <> 0%N -> calm (exec (insert_publisher p)).
Proof.
  intros H0. apply within_exec. intros d y d' (Hl & Hx) H. split; [|done].
  unfold insert_publisher in H. case_bool_decide as E; [done|]. destruct (existsb _ _); [done|]. injection H as <-.
  apply eq_None_not_Some in E. destruct Hl as [[K1 K2] R N L C P G]. split; try done; simpl in *.
  - split; [|done]. intros i q. simpl. destruct (decide (pub_ID p = i)) as [<-|Hn].
    + rewrite lookup_insert_eq. by intros [= <-].
    + rewrite lookup_insert_ne by done. apply K1.
  - intros i q Hq. destruct (P _ _ Hq) as [|Hd]; [by left|right]. rewrite lookup_insert_ne; [done|].
    intros <-. rewrite Hd in E. done.
Qed.

Lemma calm_UpsertPublisher name first : calm (UpsertPublisher u name first).
Proof.
  unfold UpsertPublisher. eapply within_bind; [apply within_try, within_first|]. intros [p|e] Hp.
  - assert (Hm : mine p).
    { destruct Hp as (d & x & (Hl & _) & Hp). apply first_row_some in Hp as [Hin Ht].
      apply Z.eqb_neq in user_id. rewrite user_id in Ht. simpl in Ht. zbool.
      apply elem_of_rows_lookup in Hin as (i & Hi). by eapply mine_row. }
    apply (within_bind _ anything); [|intros; by apply within_ret].
    destruct (_ && _); [by apply within_ret|]. by apply calm_alter_publisher.
  - destruct e; try apply within_throw. eapply within_bind; [apply fresh_uuid|]. intros id Hid.
    apply (within_bind _ anything); [by apply calm_insert_publisher|]. intros. by apply within_ret.
Qed.

(** ** The handlers *)

#[local] Hint Resolve calm_UpdateBalance calm_UpdateCampaign calm_CreateChannel calm_UpsertPublisher calm_insert_campaign : within.
Ltac calm_tac := within_tac; try done.

Lemma calm_owned idStr k : (forall c p, seen c -> mine p -> ca_PublisherID c = pub_ID p -> calm (k c)) -> calm (owned_campaign u idStr k).
Proof.
  intros Hk. unfold owned_campaign. eapply within_bind; [apply calm_FindCampaign|]. intros r Hr.
  destruct (fst r) as [c|] eqn:Ec; [|apply calm_edit].
  eapply within_bind; [apply calm_FindPublisher|]. intros q Hq. destruct (fst q) as [p|] eqn:Ep; [|apply calm_edit].
  destruct (ca_PublisherID c =? pub_ID p)%N eqn:E; [|apply calm_edit]. apply N.eqb_eq in E.
  eapply (Hk c p); [by apply Hr|by apply Hq|done].
Qed.
Lemma calm_pauseCampaign idStr : calm (pauseCampaign u idStr).
Proof.
  apply calm_owned. intros c p Hs Hm Hp. apply (within_bind _ anything); [|intros; apply calm_edit].
  eapply within_anything, within_try. by eapply calm_UpdateCampaign.
Qed.
Lemma calm_deleteCampaign idStr : calm (deleteCampaign u idStr).
Proof.
  apply calm_owned. intros c p Hs Hm Hp. rewrite Hp.
  apply (within_bind _ anything); [by eapply within_anything, within_try, calm_UpdateBalance|intros _ _].
  apply (within_bind _ anything); [|intros; apply calm_edit].
  eapply within_anything, within_try. by eapply calm_UpdateCampaign.
Qed.

#[local] Hint Resolve calm_FindPublisher calm_pauseCampaign calm_deleteCampaign : within.
#[local] Hint Extern 1 (mine ?p) =>
  match goal with H : found_mine ?r, E : fst ?r = Some p |- _ => exact (H p E) end : within.

Lemma calm_campaign_steps st text media :
  calm (handleCampName u st text) /\ calm (handleCampaignMedia u st media) /\ calm (handleCampCaption u st text) /\
  calm (handleCampButton u st text) /\ calm (handleCampURL u st text).
Proof.
  unfold handleCampName, handleCampaignMedia, handleCampCaption, handleCampButton, handleCampURL. split_and!; calm_tac.
Qed.
Lemma calm_handleCampBudget st text : calm (handleCampBudget u st text).
Proof. unfold handleCampBudget. calm_tac. Qed.
Lemma calm_handleCampCPJ st text : calm (handleCampCPJ ownerID u st text).
Proof. unfold handleCampCPJ, notifyAdmin, CreateCampaign. calm_tac. Qed.
Lemma calm_handleChannelCPJ st text : calm (handleChannelCPJ ownerID u st text).
Proof. unfold handleChannelCPJ. calm_tac. Qed.
Lemma calm_handleChannelForward st orig : calm (handleChannelForward u st orig).
Proof.
  unfold handleChannelForward. destruct orig as [ch|]; [|calm_tac]. destruct (negb _); [calm_tac|].
  apply (within_bind _ anything); [|intros r _; calm_tac].
  eapply within_anything. unfold FindChannelByTelegramID. apply (within_row (fun _ => True)); [done|].
  by eapply within_weaken; [apply within_first|].
Qed.
Lemma calm_send_campaigns l : calm (send_campaigns u l).
Proof. induction l; simpl; calm_tac. Qed.
#[local] Hint Resolve calm_send_campaigns : within.
Lemma calm_menus : calm (onMyCampaigns u) /\ calm (onMyChannels u) /\ calm (onBalance u).
Proof. unfold onMyCampaigns, onMyChannels, onBalance, FindCampaignsByPublisher, ListChannelsByOwner. split_and!; calm_tac. Qed.
Lemma calm_onStart name first : calm (onStart ownerID u name first).
Proof. unfold onStart. calm_tac. Qed.
Lemma calm_handleRentReward st text : calm (handleRentReward ownerID u st text).
Proof. unfold handleRentReward, notifyAdminRental. calm_tac; by apply calm_CreateLockRental. Qed.
Lemma calm_rent_steps st text : calm (handleRentChannel u st text) /\ calm (handleRentBudget u st text).
Proof. unfold handleRentChannel, handleRentBudget. split_and!; calm_tac. Qed.

Lemma calm_handleStep st text : user_step st -> calm (handleStep ownerID u st text).
Proof.
  intros [H1 H2]. pose proof (calm_campaign_steps st text (Photo "")) as (A1 & A2 & A3 & A4 & A5).
  pose proof (calm_rent_steps st text) as [R1 R2]. unfold handleStep, onCancel. destruct (is_exit text); [calm_tac|].
  destruct (Step st) eqn:E; try done; try by apply within_ret.
  - apply calm_handleCampBudget.
  - apply calm_handleCampCPJ.
  - apply calm_handleChannelCPJ.
  - apply calm_handleRentReward.
Qed.
Lemma calm_onText text : calm (Ads_onText ownerID u text).
Proof.
  pose proof calm_menus as (M1 & M2 & M3). unfold Ads_onText, onNewCampaign, onAddChannel, onHelp, onCancel, Ads_isAdmin.
  rewrite (proj2 (Z.eqb_neq _ _) user). eapply within_bind; [apply calm_getState|]. intros st Hst.
  destruct (negb _); [by apply calm_handleStep|]. calm_tac.
Qed.
Lemma calm_onCallback data : calm (Ads_onCallback cfg ownerID u data).
Proof. unfold Ads_onCallback, admin_only, Ads_isAdmin. rewrite (proj2 (Z.eqb_neq _ _) user). calm_tac. Qed.

Definition sender (up : AdsUpdate) : option Z :=
  match up with UpText v _ _ _ | UpMedia v _ | UpCallback v _ => Some v | UpChannelPost v _ => v end.

Lemma calm_handle up : sender up = Some u -> calm (Ads_handle cfg ownerID up).
Proof.
  pose proof calm_menus as (M1 & M2 & M3). destruct up as [v name first text|v media|[v|] orig|v data]; intros [= ->]; simpl.
  - pose proof (calm_onText text). pose proof (calm_onStart name first).
    unfold onNewCampaign, onAddChannel, onRentLock, onHelp, onCancel, onAdmin, Ads_isAdmin.
    rewrite (proj2 (Z.eqb_neq _ _) user). calm_tac.
  - unfold onMedia. eapply within_bind; [apply calm_getState|]. intros st _.
    destruct (bool_decide _); [apply (calm_campaign_steps st "" media)|by apply within_ret].
  - unfold onChannelPost. eapply within_bind; [apply calm_getState|]. intros st _.
    destruct (bool_decide _); [apply calm_handleChannelForward|by apply within_ret].
  - apply calm_onCallback.
Qed.
End users.

Lemma left_by_refl u d : keyed d -> left_by u d d.
Proof. intros K. split; try done; auto. Qed.

Section safety.
Context {B : Type} {ENV : Env} {PS : PayServer B} {MARSHAL : JsonMarshal} {PG : PgNumeric} {FP : F64Platform}.
Context {UUID : UuidParser} {LIB : Lib} {TG : AdsTelegram} {ANS : AdsAnswers} (cfg : ClientConfig) (ownerID : Z).
Hypothesis uuid_nonzero : forall k, env_uuid k <> 0%N.

(** Only the owner reviews. Whatever a user who is not the owner sends or
    presses, in whatever conversation, and whatever fails meanwhile: no existing
    rental, reward, free bot or channel changes, nothing is paid or charged, the
    balance and campaigns of every other publisher stay, a new rental is this
    user's own and waits for review, and no such user ever comes to a
    conversation of the administrator's. *)
Theorem strangers_cannot_review u up s r s' :
  u <> ownerID -> u <> 0 -> sender up = Some u -> keyed (db s) -> user_chats ownerID (fst (ext s)) ->
  Ads_handle (B := B) cfg ownerID up s = (r, s') ->
  left_by u (db s) (db s') /\ user_chats ownerID (fst (ext s')) /\ snd (ext s') = snd (ext s).
Proof.
  intros Hu H0 Hs K C H.
  by destruct (calm_handle cfg ownerID u Hu H0 uuid_nonzero (db s) (snd (ext s)) up Hs s r s'
    (conj (left_by_refl u _ K) (conj C eq_refl)) H) as [? _].
Qed.
End safety.

(** * Deleting a campaign *)

Section deletion.
Context {B : Type} {ENV : Env} {PS : PayServer B} {MARSHAL : JsonMarshal} {PG : PgNumeric} {FP : F64Platform}.
Context {UUID : UuidParser} {LIB : Lib} {TG : AdsTelegram} {ANS : AdsAnswers} (cfg : ClientConfig) (ownerID : Z).
Hypothesis quiet : forall k, env_fault k = None.
Implicit Types s : st AdsTables (AdsWorld * Remote B).

(** Campaign [c] of publisher [p], who is alone with its Telegram id. *)
Record owns (d : AdsTables) (c : Campaign) (p : Publisher) : Prop := {
  ow_keyed : keyed d;
  ow_campaign : campaigns d !! ca_ID c = Some c;
  ow_publisher : publishers d !! pub_ID p = Some p;
  ow_alone : forall i q, publishers d !! i = Some q -> pub_TelegramID q = pub_TelegramID p -> i = pub_ID p;
  ow_owner : ca_PublisherID c = pub_ID p;
  ow_id : ca_ID c <> 0%N;
  ow_stored : stored (ca_Budget c) /\ stored (ca_Spent c);
}.

(** The only row that satisfies the condition is the one found. *)
Lemma first_row_only {V} (key : V -> uuid) (P : V -> bool) (m : gmap uuid V) i v :
  m !! i = Some v -> P v = true -> (forall j w, m !! j = Some w -> P w = true -> j = i) ->
  first_row key P (rows m) = Some v.
Proof.
  intros Hv HP Hu. destruct (first_row key P (rows m)) as [w|] eqn:E.
  - apply first_row_some in E as [Hin Hw]. apply elem_of_rows_lookup in Hin as (j & Hj).
    specialize (Hu j w Hj Hw) as ->. congruence.
  - exfalso. eapply first_row_none in E; [|eapply rows_lookup, Hv]. congruence.
Qed.

Lemma found_quiet {V} (zero v : V) q s : tx s = NoTx -> q (db s) = Some v ->
  row_and_error zero (first q) s = (Ok (Some v, None), bump s).
Proof. intros Ht Hq. unfold row_and_error. rewrite (first_some_quiet _ _ v); [done|apply quiet|congruence|done]. Qed.

Lemma owns_campaign d c p : owns d c p -> campaign_by (fun x => (ca_ID x =? ca_ID c)%N) d = Some c.
Proof.
  intros O. apply (first_row_only _ _ _ (ca_ID c)); [apply O|by apply N.eqb_refl|].
  intros j w Hj E. apply N.eqb_eq in E. rewrite <- (proj2 (ow_keyed _ _ _ O) _ _ Hj). done.
Qed.
Lemma owns_publisher d c p : owns d c p -> publisher_by (fun x => pub_TelegramID x =? pub_TelegramID p) d = Some p.
Proof.
  intros O. apply (first_row_only _ _ _ (pub_ID p)); [apply O|apply Z.eqb_refl|].
  intros j w Hj E. zbool. by apply (ow_alone _ _ _ O _ _ Hj).
Qed.

(** The campaign and its publisher after the button. *)
Definition ended (c : Campaign) : Campaign := resaved (with_status CampaignDone c).
Definition refunded (c : Campaign) (p : Publisher) : Publisher := add_balance (RemainingBudget c) p.

Lemma owns_again d c p : owns d c p ->
  owns (set_campaigns <[ca_ID c := ended c]> (set_publishers (alter (add_balance (RemainingBudget c)) (pub_ID p)) d))
    (ended c) (refunded c p) /\ RemainingBudget (ended c) = RemainingBudget c.
Proof.
  intros O. destruct (O) as [[K1 K2] Hc Hp Hu Ho Hi [S1 S2]].
  assert (E : ca_Budget (ended c) = ca_Budget c /\ ca_Spent (ended c) = ca_Spent c) by (split; [exact S1|exact S2]).
  split; [|by unfold RemainingBudget, Budget, Spent; destruct E as [-> ->]].
  split; simpl; try done.
  - split; simpl.
    + intros i q. destruct (decide (pub_ID p = i)) as [<-|Hn]; [|rewrite lookup_alter_ne by done; apply K1].
      rewrite lookup_alter_eq, Hp. intros [= <-]. simpl. split; [done|]. by destruct (K1 _ _ Hp).
    + intros i x. destruct (decide (ca_ID c = i)) as [<-|Hn]; [by rewrite lookup_insert_eq; intros [= <-]|].
      rewrite lookup_insert_ne by done. apply K2.
  - by rewrite lookup_insert_eq.
  - by rewrite lookup_alter_eq, Hp.
  - intros i q. destruct (decide (pub_ID p = i)) as [<-|Hn]; [done|]. rewrite lookup_alter_ne by done. apply Hu.
  - change (stored (ca_Budget (ended c)) /\ stored (ca_Spent (ended c))). by destruct E as [-> ->].
Qed.

Definition press_delete (u : Z) (idStr : string) : M AdsTables (AdsWorld * Remote B) unit :=
  Ads_handle cfg ownerID (UpCallback u ("camp_del:" +:+ idStr)).

Lemma press_once s idStr c p : tx s = NoTx -> parse_quietly idStr = ca_ID c -> owns (db s) c p ->
  exists s', press_delete (pub_TelegramID p) idStr s = (Ok tt, s') /\ tx s' = NoTx /\
    db s' = set_campaigns <[ca_ID c := ended c]> (set_publishers (alter (add_balance (RemainingBudget c)) (pub_ID p)) (db s)).
Proof.
  intros Ht Hid O. change (press_delete (pub_TelegramID p) idStr) with (deleteCampaign (B := B) (pub_TelegramID p) idStr).
  eexists. unfold deleteCampaign, owned_campaign, FindCampaign, FindPublisher. rewrite Hid. split.
  - eapply bind_intro; [apply (found_quiet _ c); [done|by eapply owns_campaign]|]. simpl.
    eapply bind_intro; [apply (found_quiet _ p); [done|by eapply owns_publisher]|]. simpl.
    rewrite (ow_owner _ _ _ O), N.eqb_refl.
    eapply bind_intro; [eapply try_intro, exec_quiet; [apply quiet|simpl; congruence|done]|].
    unfold UpdateCampaign. simpl ca_ID. rewrite (proj2 (N.eqb_neq _ _) (ow_id _ _ _ O)).
    eapply bind_intro; [eapply try_intro, exec_quiet; [apply quiet|simpl; congruence|done]|]. done.
  - simpl. done.
Qed.

Fixpoint presses (n : nat) (u : Z) (idStr : string) : M AdsTables (AdsWorld * Remote B) unit :=
  match n with O => ret tt | S n => (press_delete u idStr ;; presses n u idStr)%eff end.

(** The delete button of a campaign adds its unspent budget to the balance
    of its publisher each time it is pressed: the status is never looked at, so
    [n] presses on one campaign refund it [n] times. *)
Theorem deleting_refunds_again n s idStr c p : tx s = NoTx -> parse_quietly idStr = ca_ID c -> owns (db s) c p ->
  exists s' p', presses n (pub_TelegramID p) idStr s = (Ok tt, s') /\ publishers (db s') !! pub_ID p = Some p' /\
    pub_Balance p' = Nat.iter n (fun b => num_add b (to_numeric (RemainingBudget c))) (pub_Balance p).
Proof.
  revert s c p. induction n as [|n IH]; intros s c p Ht Hid O.
  - exists s, p. split; [done|]. split; [apply O|done].
  - destruct (press_once s idStr c p Ht Hid O) as (s1 & E1 & T1 & D1). destruct (owns_again _ _ _ O) as [O1 R1].
    rewrite <- D1 in O1. destruct (IH s1 (ended c) (refunded c p) T1 Hid O1) as (s2 & p2 & E2 & P2 & B2).
    exists s2, p2. split; [by eapply bind_intro|]. split; [done|]. rewrite B2, R1. by rewrite Nat.iter_succ_r.
Qed.
End deletion.
