(* ===== verification/AdsPaySpec.v ===== *)
(** The ads-bot and botpay: approving a rental charges its buyer at most once,
    and concrete runs of both services together. *)
From S2P Require Import Prelude GoInt GoFloat GoString GoText Effects PayModels PayChain PayStore WalletService PayResponder PayClient.
From S2P Require Import PayServerSpec PayClientSpec Bus AdsModels AdsStore AdsRental AdsCampaign AdsBot AdsSpec AdsAccounts AdsBotSpec.

(** Statuses stay, except that rental [id] may become active. *)
Definition approves (id : uuid) (d d' : AdsTables) : Prop :=
  forall j q, rentals d !! j = Some q -> exists q', rentals d' !! j = Some q' /\
    lr_BuyerTelegramID q' = lr_BuyerTelegramID q /\ lr_Budget q' = lr_Budget q /\
    (lr_Status q' = lr_Status q \/ j = id /\ lr_Status q' = RentalActive).

#[export] Instance approves_only id : OnlyRentals (approves id).
Proof.
  split; [split|].
  - intros d j q Hq. exists q. split_and!; auto.
  - intros a b c H1 H2 j q Hq. destruct (H1 j q Hq) as (q1 & Hq1 & E1 & E2 & E3).
    destruct (H2 j q1 Hq1) as (q2 & Hq2 & F1 & F2 & F3). exists q2. split; [done|]. split; [congruence|].
    split; [congruence|]. destruct F3 as [F3|F3]; [|by right]. rewrite F3. destruct E3 as [E3|[-> E3]]; [by left|by right].
  - intros d d' E _ _ j q Hq. exists q. rewrite E. split_and!; auto.
Qed.

Section approval.
Context {B : Type} {ENV : Env} {JSON : Json} {FP : F64Platform} {MARSHAL : JsonMarshal} {LAWS : JsonLaws}.
Context {PS : PayServer B} {PP : PayPromise B} {PG : PgNumeric}.
Context {UUID : UuidParser} {LIB : Lib} {TG : AdsTelegram} (cfg : ClientConfig).
Abbreviation AM := (M AdsTables (AdsWorld * Remote B)).
Implicit Types s : st AdsTables (AdsWorld * Remote B).

Definition srv (x : AdsWorld * Remote B) : B := rm_server (snd x).

Lemma keeps_send c t a : keeps srv (send (R := Remote B) c t a).
Proof. by intros s r s' [= _ <-]. Qed.
Lemma keeps_edit c t a : keeps srv (edit (R := Remote B) c t a).
Proof. by intros s r s' [= _ <-]. Qed.
#[local] Hint Resolve keeps_send keeps_edit keeps_stmt : botpay.

Lemma keeps_reserve_owners id per l : keeps srv (reserve_owners id per l : AM unit).
Proof.
  induction l; simpl; unfold ResolveSlotOwnerTelegramID, TryRecordOwnerReward; keeps_tac.
Qed.
#[local] Hint Resolve keeps_reserve_owners : botpay.
Lemma keeps_AssignSlots id buyer n : keeps srv (AssignSlotsToRental id buyer n : AM _).
Proof.
  unfold AssignSlotsToRental. apply keeps_bind; [|intros [v [|]]; keeps_tac]. apply keeps_with_var, keeps_transaction.
  assert (Hl : forall l, keeps (fun p : (AdsWorld * Remote B) * list FreeBotSlot => srv (fst p)) (save_slots l)).
  { induction l; simpl; keeps_tac. }
  keeps_tac.
Qed.
#[local] Hint Resolve keeps_AssignSlots : botpay.

(** [keeps_tac] with the lemmas first, so that it does not unfold what they are about. *)
Ltac keeps_known :=
  repeat (intros; first
    [ solve [auto with botpay]
    | apply keeps_bind | apply keeps_try
    | match goal with |- keeps _ (match ?x with _ => _ end) => destruct x end ]).

(** Everything after the charge. *)
Definition after_charge (id : uuid) (u : Z) (rental : LockRentalCampaign) : AM unit :=
  (a <- try (ApproveLockRental id u) ;;
   match a with
   | Err _ => edit u "rent:approve failed" []
   | Ok _ =>
       (' (assigned, _) <- AssignSlotsToRental id (lr_BuyerTelegramID rental) defaultSlotsPerRental ;;
        payFreeBotOwners rental assigned ;;
        send (lr_BuyerTelegramID rental) "rent:approved"
          [AInt (Z.of_nat (length assigned)); AStr (lr_TargetChannelUsername rental)] ;;
        edit u "rent:approved" [AInt (Z.of_nat (length assigned))])
   end)%eff.

Lemma keeps_after_charge id u rental : keeps srv (after_charge id u rental).
Proof.
  unfold after_charge, ApproveLockRental, update_rental, payFreeBotOwners, IncrementRentalSpentOnly, update_rental.
  keeps_known.
Qed.

Lemma approves_update id f : (forall r, lr_BuyerTelegramID (f r) = lr_BuyerTelegramID r /\ lr_Budget (f r) = lr_Budget r /\
    (lr_Status (f r) = lr_Status r \/ lr_Status (f r) = RentalActive)) -> moves (approves id) (update_rental id f : AM unit).
Proof.
  intros Hf. apply moves_exec; [typeclasses eauto|]. intros d d' [= <-] j q Hq. simpl.
  destruct (decide (id = j)) as [->|Hj].
  - exists (f q). rewrite lookup_alter_eq, Hq. split; [done|]. destruct (Hf q) as (-> & -> & [ -> | -> ]); split_and!; auto.
  - exists q. rewrite lookup_alter_ne by done. split_and!; auto.
Qed.
Lemma approves_reserve_owners id id' per l : moves (approves id) (reserve_owners id' per l : AM unit).
Proof.
  intros s r s' H. apply same_reserve_owners in H as [E _]. intros j q Hq. exists q. rewrite E. split_and!; auto.
Qed.
#[local] Hint Resolve other_AssignSlotsToRental approves_reserve_owners : moves.
Lemma approves_after_charge id u rental : lr_ID rental = id -> moves (approves id) (after_charge id u rental).
Proof.
  intros Hid. unfold after_charge, ApproveLockRental, payFreeBotOwners, IncrementRentalSpentOnly. rewrite Hid.
  assert (A1 : forall n, moves (approves id) (update_rental id (fun r =>
    rental_with RentalActive (lr_ReviewNote r) (Some n) u (Some n) (Some (n + DefaultRentalDuration)) r) : AM unit)).
  { intros n. apply approves_update. intros r. split_and!; auto. }
  assert (A2 : forall j g, moves (approves id) (update_rental id (rental_spending j g) : AM unit)).
  { intros j g. apply approves_update. intros r. split_and!; auto. }
  moves_tac.
Qed.

(** The charge, under the rental's id. *)
Lemma charge_key rental : uuid_String (lr_ID rental) <> ""%string ->
  effective_ref (deduct_request cfg (lr_BuyerTelegramID rental) (of_numeric (lr_Budget rental))
    ("lock_rental:" +:+ uuid_String (lr_ID rental)) (uuid_String (lr_ID rental)) (uuid_String (lr_ID rental))
    (rental_meta rental)) = uuid_String (lr_ID rental).
Proof. intros Hn. unfold effective_ref. simpl. by rewrite !(proj2 (String.eqb_neq _ _) Hn). Qed.

Definition charge (rental : LockRentalCampaign) : AM float64 :=
  DeductWithMeta cfg (lr_BuyerTelegramID rental) (of_numeric (lr_Budget rental))
    ("lock_rental:" +:+ uuid_String (lr_ID rental)) (uuid_String (lr_ID rental)) (uuid_String (lr_ID rental))
    (rental_meta rental).

(** A run either touches nothing, or reaches the charge of a waiting rental. *)
Lemma approve_run u idStr id s r s' : uuid_Parse idStr = Some id -> approveLockRental cfg u idStr s = (r, s') ->
  (db s' = db s /\ server s' = server s) \/
  exists rental s1 r1 s2, rentals (db s) !! id = Some rental /\ lr_Status rental = RentalPendingReview /\
    db s1 = db s /\ server s1 = server s /\ charge rental s1 = (r1, s2) /\
    match r1 with Ok _ => after_charge id u rental s2 = (r, s') | Err _ => db s' = db s2 /\ server s' = server s2 end.
Proof.
  intros Hid H. unfold approveLockRental, FindLockRental in H. rewrite Hid in H.
  assert (Hedit : forall t a s1 r1 s2, edit (R := Remote B) u t a s1 = (r1, s2) -> db s2 = db s1 /\ server s2 = server s1)
    by by intros t a s1 r1 s2 [= _ <-].
  apply bind_run in H as (r1 & s1 & H1 & H). assert (X1 : ext s1 = ext s).
  { unfold row_and_error in H1. destruct (first _ s) as [r0 s0] eqn:E. injection H1 as _ <-.
    by apply (keeps_first (fun x => x)) in E. }
  apply find_row_run in H1 as [D1 F1]. assert (S1 : server s1 = server s) by (unfold server; by rewrite X1).
  destruct r1 as [[[rental|] [e|]]|e]; try (apply Hedit in H as [-> ->]; rewrite D1, S1; by left); [|by destruct H as [_ ->]; left].
  specialize (F1 rental eq_refl). simpl in F1.
  destruct (bool_decide _) eqn:Ep; simpl in H; [|apply Hedit in H as [-> ->]; rewrite D1, S1; by left]. zbool.
  apply bind_run in H as (r2 & s2 & H2 & H). apply try_run in H2 as (r3 & -> & H2).
  right. exists rental, s1, r3, s2. split; [done|]. split; [done|]. split; [done|]. split; [done|]. split; [done|].
  destruct r3; [exact H|by apply Hedit in H].
Qed.

(** C21: Approving a rental, by the owner, again and again and whatever fails on
    the way: botpay never has two payments of one user under one reference; a
    rental turns active only if it was waiting for review and its buyer has paid,
    exactly once, under its id; nobody's money moves except that of the buyer of
    a waiting rental, by its budget, who had not paid for it before. *)
Theorem approval_charges_once u idStr id s r s' :
  uuid_Parse idStr = Some id -> uuid_String id <> ""%string -> (forall i q, rentals (db s) !! i = Some q -> lr_ID q = i) ->
  srv_ok (server s) -> paid_once (server s) -> approveLockRental cfg u idStr s = (r, s') ->
  srv_ok (server s') /\ paid_once (server s') /\
  (forall j q, rentals (db s) !! j = Some q -> exists q', rentals (db s') !! j = Some q' /\
     (lr_Status q' = lr_Status q \/
      j = id /\ lr_Status q = RentalPendingReview /\ lr_Status q' = RentalActive /\
      exists acc, account (server s') (lr_BuyerTelegramID q) = Some acc /\
        times acc (cc_ServiceID cfg) (uuid_String id) (server s') = 1%nat)) /\
  (forall acc, funds (server s') acc = funds (server s) acc \/
     exists q, rentals (db s) !! id = Some q /\ lr_Status q = RentalPendingReview /\
       account (server s') (lr_BuyerTelegramID q) = Some acc /\
       times acc (cc_ServiceID cfg) (uuid_String id) (server s) = 0%nat /\
       funds (server s') acc = funds (server s) acc - TONToNano (of_numeric (lr_Budget q))).
Proof.
  intros Hid Hn Hb O P H.
  apply (approve_run _ _ id) in H as [[-> ->]|(rental & s1 & r1 & s2 & Hq & Hp & D1 & S1 & Hc & H)]; [|clear Hid|done].
  { split; [done|]. split; [done|]. split; [|by left]. intros j q Hq. exists q. split; [done|by left]. }
  pose proof (Hb _ _ Hq) as Ei. rewrite <- S1 in *.
  pose proof (charge_key rental) as Hkey. rewrite Ei in Hkey. specialize (Hkey Hn).
  apply DeductWithMeta_run in Hc as (D2 & _ & O2 & _ & Hout); [|done]. rewrite Ei, Hkey in Hout. rewrite D1 in D2.
  assert (P2 : paid_once (server s2)).
  { destruct Hout as [[Hu _]|(acc & _ & Hc)]; eauto using unchanged_once, charged_once. }
  assert (S2 : server s' = server s2).
  { destruct r1; [by apply keeps_after_charge in H|by destruct H]. }
  rewrite S2. split; [done|]. split; [done|]. split.
  - intros j q Hj. destruct r1 as [v|e]; [|destruct H as [-> _]; rewrite D2; exists q; split; [done|by left]].
    apply (approves_after_charge id u rental Ei) in H. rewrite D2 in H. destruct (H j q Hj) as (q' & Hq' & _ & _ & Hst).
    exists q'. split; [done|]. destruct Hst as [Hst|[-> Hst]]; [by left|right]. replace q with rental in * by congruence.
    split; [done|]. split; [done|]. split; [done|].
    assert (Hpaid : exists acc, account (server s2) (lr_BuyerTelegramID rental) = Some acc /\
      (1 <= times acc (cc_ServiceID cfg) (uuid_String id) (server s2))%nat).
    { destruct Hout as [[[Eu _] Hs]|(acc & Ha & Hc)].
      - destruct (Hs eq_refl) as (acc & Ha & Hex). exists acc. split; [done|]. unfold times. rewrite Eu. by apply times_some.
      - exists acc. split; [done|]. rewrite (charged_times _ _ _ _ _ _ Hc), under_self. lia. }
    destruct Hpaid as (acc & Ha & Ht). exists acc. split; [done|]. specialize (P2 acc (cc_ServiceID cfg) _ Hn). lia.
  - intros acc. destruct Hout as [[[_ Ef] _]|(a & Ha & Hc)]; [left; apply Ef|].
    destruct (Hc) as ([Hne|Hno] & _ & Ef); [done|]. rewrite Ef. destruct (acc =? a)%N eqn:E; [|left; lia].
    apply N.eqb_eq in E as ->. right. exists rental. split_and!; try done. by apply times_none.
Qed.
End approval.

(** * A join, when nothing fails *)

Section join.
Context {B : Type} {ENV : Env} {PG : PgNumeric} {LAWS : PgNumericLaws}.
Hypothesis quiet : forall k, env_fault k = None.
Implicit Types s : st AdsTables (AdsWorld * Remote B).

Lemma ends_bind {A C} (m : M AdsTables (AdsWorld * Remote B) A) (k : A -> M AdsTables (AdsWorld * Remote B) C) s a s1 c P :
  m s = (Ok a, s1) -> (exists s', k a s1 = (Ok c, s') /\ P s') -> exists s', bind m k s = (Ok c, s') /\ P s'.
Proof. intros E (s' & Hk & HP). exists s'. split; [by eapply bind_intro|done]. Qed.

(** Statements that change nothing of rentals and rewards, and do not fail. *)
Definition harmless (m : M AdsTables (AdsWorld * Remote B) unit) : Prop :=
  forall s, exists s', m s = (Ok tt, s') /\ same_rentals (db s) (db s').

Lemma harmless_release l : harmless (release_slots l).
Proof.
  intros s. pose proof (other_release_slots (B := B) same_rentals l s) as Hm.
  assert (Ht : forall s, exists s', release_slots (B := B) l s = (Ok tt, s')).
  { clear. induction l as [|x l IH]; intros s; [by eexists|]. simpl. unfold bind at 1, try.
    destruct (ResolveSlotOwnerTelegramID _ s) as [[o|e] s1]; simpl; [|unfold bind, ret; apply IH].
    destruct (o =? 0); [unfold bind, ret; apply IH|].
    unfold bind, ret, send, mod_ext, try. destruct (ReleaseSlot _ _) as [[] s2]; apply IH. }
  destruct (Ht s) as [s' E]. exists s'. split; [done|]. by apply (Hm _ _ E).
Qed.

(** The check after a join marks the rental done exactly when its budget is spent or its time is over. *)
Lemma check_quiet id q s : tx s = NoTx -> rentals (db s) !! id = Some q -> lr_Status q = RentalActive ->
  exists s', checkCampaignCompletion id s = (Ok tt, s') /\ join_rewards (db s') = join_rewards (db s) /\
    rentals (db s') !! id = Some (if rental_finished (env_now (tick s)) q then done_rental q else q).
Proof.
  intros Ht Hq Ha. unfold checkCampaignCompletion, MarkRentalDoneIfFinished, FindLockRental.
  set (fin := rental_finished (env_now (tick s)) q).
  assert (E : (n <- now ;; stmt (fun d => match rentals d !! id with
       | Some r => if rental_finished n r then Ok (true, set_rentals <[id := done_rental r]> d) else Ok (false, d)
       | None => Ok (false, d) end))%eff s =
    (Ok fin, mkSt (S (S (tick s))) NoTx (if fin then set_rentals <[id := done_rental q]> (db s) else db s) (ext s))).
  { eapply bind_intro; [done|]. rewrite stmt_quiet by (simpl; (apply quiet || congruence)). simpl. rewrite Hq.
    fold fin. destruct fin; simpl; by rewrite Ht. }
  destruct fin eqn:Ef.
  - eapply ends_bind; [apply try_intro, E|]. simpl.
    eapply ends_bind; [apply (found_quiet quiet _ (done_rental q)); [done|]; simpl; apply lookup_insert_eq|]. simpl.
    eapply ends_bind; [done|]. eapply ends_bind; [apply try_intro, find_quiet; [apply quiet|done]|]. simpl.
    destruct (harmless_release (List.filter (fun x => bool_decide (sl_RentalID x = Some id)) (rows (slots (db s))))
      (mkSt (S (S (S (S (tick s))))) NoTx (set_rentals <[id := done_rental q]> (db s))
        (add_out (Message (lr_BuyerTelegramID q) "rent:finished" [AStr (lr_TargetChannelUsername q);
           AFloat (of_numeric (lr_Spent q)); AFloat (of_numeric (lr_Budget q)); AInt (lr_RealJoins q)]) (fst (ext s)), snd (ext s))))
      as (s' & Er & E1 & E2).
    exists s'. split; [exact Er|]. split; [exact E2|]. rewrite E1. simpl. apply lookup_insert_eq.
  - eapply ends_bind; [apply try_intro, E|]. simpl. eexists. split; [done|]. done.
Qed.

(** The rental has money left and its period is not over at time [n]. *)
Definition open_for_joins (n : Z) (q : LockRentalCampaign) : Prop :=
  lr_Status q = RentalActive /\ f64_le (lr_RemainingBudget q) (f64_of_int 0) = false /\
  forall e, lr_EndAt q = Some e -> n <= e.

Lemma active_quiet q s : open_for_joins (env_now (tick s)) q -> exists k, lr_IsActive q s = (Ok true, mkSt k (tx s) (db s) (ext s)).
Proof.
  intros (Ha & Hm & He). unfold lr_IsActive. rewrite bool_decide_eq_true_2 by done. cbn [negb]. rewrite Hm.
  destruct (lr_EndAt q) as [e|]; [|exists (tick s); by destruct s].
  exists (S (tick s)). unfold bind, now, bump, ret. specialize (He e eq_refl).
  by rewrite (proj2 (Z.ltb_ge _ _) He).
Qed.

Definition active_rental (channel : Z) (d : AdsTables) : option LockRentalCampaign :=
  first_row lr_ID (fun r => (lr_TargetChannelID r =? channel) && bool_decide (lr_Status r = RentalActive)) (rows (rentals d)).

Definition counted (q : LockRentalCampaign) : LockRentalCampaign :=
  rental_spending 1 (fun x => num_add x (lr_RewardPerJoinTON q)) q.

(** The first join of a user to the channel of an open rental, when nothing
    fails, reserves one reward for the user, payable a day later, and bills the
    rental for the whole of it, however little of the budget is left; the rental
    is done exactly when that, or the time, ends it. *)
Theorem join_reserves_whole_reward user channel q s :
  tx s = NoTx -> active_rental channel (db s) = Some q -> rentals (db s) !! lr_ID q = Some q ->
  open_for_joins (env_now (S (tick s))) q ->
  stored (lr_RewardPerJoinTON q) -> (forall k, join_rewards (db s) !! env_uuid k = None) ->
  (forall i w, join_rewards (db s) !! i = Some w -> jr_RentalID w = lr_ID q -> jr_TelegramID w <> user) ->
  exists s' w k, HandleMembershipJoined (B := B) user channel s = (Ok tt, s') /\
    join_rewards (db s') = <[jr_ID w := w]> (join_rewards (db s)) /\
    jr_RentalID w = lr_ID q /\ jr_TelegramID w = user /\ jr_AmountTON w = lr_RewardPerJoinTON q /\
    jr_Status w = RewardPending /\ jr_SettleAt w = env_now k + RewardSettlementDelay /\
    exists n, rentals (db s') !! lr_ID q = Some (if rental_finished n (counted q) then done_rental (counted q) else counted q).
Proof.
  intros Ht Ha Hq Ho Hst Hf Hno. unfold HandleMembershipJoined, FindActiveRentalByChannel.
  set (k0 := S (tick s)). destruct (active_quiet q (bump s) Ho) as (k1 & E1).
  set (w := {| jr_ID := env_uuid k1; jr_RentalID := lr_ID q; jr_TelegramID := user;
     jr_AmountTON := lr_RewardPerJoinTON q; jr_Status := RewardPending;
     jr_SettleAt := env_now (S k1) + RewardSettlementDelay; jr_SettledAt := None |}).
  set (d1 := set_join_rewards <[jr_ID w := w]> (db s)).
  assert (Hins : insert_reward w (db s) = Ok (true, d1)).
  { unfold insert_reward. rewrite bool_decide_eq_false_2 by (simpl; rewrite Hf; by intros [? ?]).
    simpl. destruct (existsb _ _) eqn:E; [|done]. exfalso. apply existsb_exists in E as (v & Hin & E). simpl in E.
    apply andb_prop in E as [E2 E3]. apply N.eqb_eq in E2. zbool. apply list_elem_of_In, elem_of_rows_lookup in Hin as (i & Hi).
    by apply (Hno i v). }
  cut (exists s', HandleMembershipJoined (B := B) user channel s = (Ok tt, s') /\ join_rewards (db s') = join_rewards d1 /\
    exists n, rentals (db s') !! lr_ID q = Some (if rental_finished n (counted q) then done_rental (counted q) else counted q)).
  { intros (s' & E & J & n & R). exists s', w, (S k1). split_and!; try done. by exists n. }
  unfold HandleMembershipJoined, FindActiveRentalByChannel.
  eapply ends_bind; [apply (found_quiet quiet _ q); [done|exact Ha]|]. simpl.
  eapply ends_bind; [exact E1|]. simpl.
  eapply ends_bind.
  { apply try_intro. unfold TryRecordJoinReward. eapply bind_intro; [done|]. eapply bind_intro; [done|]. simpl. rewrite Hst.
    rewrite stmt_quiet by (simpl; (apply quiet || congruence)). simpl. fold w. rewrite Hins. done. }
  simpl. eapply ends_bind; [apply try_intro, exec_quiet; [apply quiet|simpl; congruence|done]|].
  eapply ends_bind; [done|]. rewrite Hst.
  edestruct check_quiet as (s' & E & J & R); [| | |exists s'; split; [exact E|]; split; [exact J|eexists; exact R]].
  - done.
  - simpl. rewrite lookup_alter_eq, Hq. done.
  - simpl. apply Ho.
Qed.
End join.
