(* ===== verification/AdsDemo.v ===== *)
(** A concrete world of the ads-bot, with botpay behind the bus: instances of the
    parameters, and runs of both services together. *)
From S2P Require Import Prelude GoInt GoFloat GoString GoText Effects PayModels PayChain PayStore PayInvariant PayStoreSpec.
From S2P Require Import Consensus ConsensusSpec Localization WalletService WalletServiceSpec PayResponder PayResponderSpec.
From S2P Require Import PayClient PayServerSpec PayClientSpec Bus AdsModels AdsStore AdsRental AdsCampaign AdsBot.
From S2P Require Import AdsSpec AdsAccounts AdsBotSpec AdsPaySpec.

(** The clock counts effects, and leaps over the day of settlement at effect 31. *)
Definition leap_env : Env := {|
  env_fault := fun _ => None;
  env_now := fun n => if (n <? 31)%nat then Z.of_nat n else Z.of_nat n + 2 * 24 * 3600 * 1000000000;
  env_uuid := fun n => N.of_nat (1000 + n);
  env_random := fun n => String (ascii_of_nat n) "abc";
  idx_tx_hash := true;
|}.
#[export] Existing Instance leap_env.
Lemma leap_quiet : forall k, env_fault k = None.
Proof. reflexivity. Qed.
#[export] Existing Instance demo_lib.
#[export] Existing Instance demo_crypto.
#[export] Existing Instance demo_locales.
#[export] Existing Instance amd64.

(** The numbers of the examples, whose exact value is the decimal that is written;
    other finite numbers do not occur in them and stand for zero. *)
Definition f_budget : float64 := f64_const 7 10000000.
Definition f_reward : float64 := f64_const 1 10000.
Definition f_pool : float64 := f64_div (f64_mul f_budget (f64_of_int 5)) (f64_of_int 100).
Definition exact (x : float64) : Q :=
  match x with
  | S754_finite s m e =>
      let n := if s then Zneg m else Zpos m in
      if 0 <=? e then inject_Z (n * 2 ^ e) else n # Z.to_pos (2 ^ (- e))
  | _ => 0
  end.
Definition demo_numbers : list (float64 * Q) :=
  Eval vm_compute in map (fun x => (x, exact x)) [f64_of_int 0; f_budget; f64_neg f_budget; f_reward; f_pool; f64_of_int 5;
    f64_of_int 2; f64_of_int 7; f64_of_int 12; f64_of_int 17].
#[export] Instance f64_eq_dec : EqDecision float64.
Proof. solve_decision. Defined.
Definition demo_pg : PgNumeric := {|
  decimal := fun x => match List.find (fun p => bool_decide (p.1 = x)) demo_numbers with Some p => p.2 | None => 0%Q end;
  nearest := fun q => match List.find (fun p => Qeq_bool p.2 q) demo_numbers with Some p => p.1 | None => f64_of_int 0 end;
|}.
#[export] Existing Instance demo_pg.

Definition reads_back (q : Q) : bool :=
  let q' := decimal (nearest q) in
  match f64_trunc (nearest q) with Some _ => (Qnum q' =? Qnum q) && (Qden q' =? Qden q)%positive | None => false end.

Lemma reads_back_ok q : reads_back q = true -> f64_trunc (nearest q) <> None /\ decimal (nearest q) = q.
Proof.
  unfold reads_back. destruct (f64_trunc _); [|done]. intros [H1 H2]%andb_prop. zbool. apply Pos.eqb_eq in H2.
  split; [done|]. destruct (decimal _), q. simpl in *. by subst.
Qed.

Lemma demo_pg_laws : PgNumericLaws.
Proof.
  split. intros x _. apply reads_back_ok.
  assert (H : forallb reads_back (0%Q :: map snd demo_numbers) = true) by (vm_compute; reflexivity).
  rewrite forallb_forall in H. apply H. unfold decimal, demo_pg at 1.
  match goal with |- context [List.find ?f ?l] => destruct (List.find f l) as [p|] eqn:E end; [|by left].
  apply find_some in E as [Hin _]. right. by apply in_map.
Qed.
#[export] Existing Instance demo_pg_laws.

Definition ids : list uuid := map (fun n => N.of_nat (1000 + n)) (seq 0 80).
#[export] Instance demo_parse : UuidParser := {| uuid_Parse := fun s => List.find (fun id => (uuid_String id =? s)%string) ids |}.
#[export] Instance demo_telegram : AdsTelegram := {|
  chat_by_id := fun _ => None;
  chat_by_username := fun s => if (s =? "@garden")%string then Some (-1007, "garden"%string) else None;
  message_id := fun n => Z.of_nat n;
|}.
#[export] Instance demo_answers : AdsAnswers := {| bot_is_admin := fun _ => true; member_count := fun _ => 120; uuid_of_bad := fun _ => 0%N |}.

(** An encoding for requests of the example, by position. *)
#[export] Instance pay_req_eq_dec : EqDecision PayRequest.
Proof. solve_decision. Defined.
#[export] Instance deduct_req_eq_dec : EqDecision DeductRequest.
Proof. solve_decision. Defined.
Definition ads : ClientConfig := {| cc_ServiceID := "ads-bot"; cc_ServiceKey := HexEncode "ads-bot" |}.
Definition owner : Z := 99.

Definition say (u : Z) (t : string) : AdsEvent := Telegram (UpText u "ann" "Ann" t).
Definition press (u : Z) (data : string) : AdsEvent := Telegram (UpCallback u data).

Definition rental_id : uuid := 1010%N.
Definition reward_id : uuid := 1023%N.
Definition friend : Z := 7654321.

(** What the rental is charged with, and what its reward is paid with. *)
Definition rental_ref : string := uuid_String rental_id.
Definition charge_request : DeductRequest :=
  deduct_request ads 1234567 f_budget ("lock_rental:" +:+ rental_ref) rental_ref rental_ref
    (rental_meta (new_rental rental_id 0 1234567 (-1007) "garden" f_reward f_budget)).
Definition reward_ref : string := "join_reward:" +:+ rental_ref +:+ ":" +:+ uuid_String reward_id.
Definition reward_request : DeductRequest := {|
  dr_Pay := base ads friend; dr_AmountTON := f_reward; dr_Reason := reward_ref; dr_Ref := reward_ref;
  dr_Metadata := reward_meta "join_reward_settlement" "reward_id" rental_id reward_id; dr_IdempotencyKey := "" |}.

#[export] Instance ads_marshal : JsonMarshal := {|
  marshal_PayRequest := fun _ => None;
  marshal_InvoiceRequest := fun _ => None;
  marshal_InvoiceStatusRequest := fun _ => None;
  marshal_DeductRequest := fun r =>
    if bool_decide (r = charge_request) then Some "charge"%string
    else if bool_decide (r = reward_request) then Some "reward"%string else None;
|}.
#[export] Instance ads_json : Json := {|
  unmarshal_PayRequest := fun _ => None;
  unmarshal_InvoiceRequest := fun _ => None;
  unmarshal_InvoiceStatusRequest := fun _ => None;
  unmarshal_DeductRequest := fun s =>
    if (s =? "charge")%string then Some charge_request else if (s =? "reward")%string then Some reward_request else None;
  unmarshal_TransferRequest := fun _ => None;
|}.
Lemma ads_json_laws : JsonLaws.
Proof. split. intros req data. simpl. repeat case_bool_decide; intros [= <-]; by subst. Qed.
#[export] Existing Instance ads_json_laws.

Definition Botpay : Type := st Tables (WS * Cache).
#[export] Instance ads_server : PayServer Botpay := botpay_server "secret" (fun _ => demo_order).
#[export] Instance ads_promise : PayPromise Botpay := botpay_promise "secret" (fun _ => demo_order).

Abbreviation World := (st AdsTables (AdsWorld * Remote Botpay)).
Definition no_tables : AdsTables := {| publishers := ∅; channels := ∅; categories := ∅; configs := ∅; analyses := ∅;
  campaigns := ∅; impressions := ∅; rentals := ∅; slots := ∅; join_rewards := ∅; owner_rewards := ∅; instance_owners := ∅ |}.
Definition ads_0 : World := init_st no_tables ({| aw_states := ∅; aw_out := []; aw_sent := [] |}, mkRemote (demo_bus (db demo_3)) None).

Definition run (l : list AdsEvent) (s : World) : World := snd (ads_serve ads owner l s).
Definition ads_1 : World := Eval vm_compute in
  run [say 1234567 "/rentlock"; say 1234567 "@garden"; say 1234567 "0.0000007"; say 1234567 "0.0001"] ads_0.
Definition ads_2 : World := Eval vm_compute in run [press owner ("rent_approve:" +:+ rental_ref)] ads_1.
Definition ads_3 : World := Eval vm_compute in run [MembershipJoined (Some (friend, -1007))] ads_2.
Definition ads_4 : World := Eval vm_compute in run [SettlementTick] ads_3.

(** 700 nano are taken from the buyer, 100000 are paid to a friend for one join. *)
Lemma rental_mints_money :
  map (fun s => (funds (server s) 1001%N, funds (server s) 1004%N)) [ads_1; ads_2; ads_3; ads_4] =
  [(5000, 0); (4300, 0); (4300, 0); (4300, 100000)].
Proof. vm_compute. reflexivity. Qed.

(** * The theorems at work *)

Lemma join_reserves_whole_reward_witness : exists s' w k q,
  HandleMembershipJoined friend (-1007) ads_2 = (Ok tt, s') /\ active_rental (-1007) (db ads_2) = Some q /\
  lr_Budget q = to_numeric f_budget /\ jr_AmountTON w = to_numeric f_reward /\
  jr_SettleAt w = env_now k + RewardSettlementDelay.
Proof.
  destruct (active_rental (-1007) (db ads_2)) as [q|] eqn:E; [|vm_compute in E; discriminate E].
  assert (Eq : lr_Budget q = to_numeric f_budget /\ lr_RewardPerJoinTON q = to_numeric f_reward /\ lr_EndAt q = Some 2592000000000016
    /\ rentals (db ads_2) !! lr_ID q = Some q /\ lr_Status q = RentalActive /\ f64_le (lr_RemainingBudget q) (f64_of_int 0) = false).
  { vm_compute in E. injection E as <-. vm_compute. split_and!; reflexivity. }
  destruct Eq as (E1 & E2 & E3 & E4 & E5 & E6).
  destruct (join_reserves_whole_reward (B := Botpay) leap_quiet friend (-1007) q ads_2) as (s' & w & k & R).
  - reflexivity.
  - exact E.
  - exact E4.
  - split; [exact E5|]. split; [exact E6|]. intros e He. rewrite E3 in He. injection He as <-. vm_compute. discriminate.
  - rewrite E2. apply stored_to_numeric.
  - intros k. reflexivity.
  - intros i w Hw. discriminate Hw.
  - destruct R as (R1 & _ & _ & _ & R2 & _ & R3 & _). exists s', w, k, q. rewrite <- E2. auto.
Defined.

Lemma rewards_final_witness : exists id w, join_rewards (db ads_4) !! id = Some w /\ jr_Status w = RewardSettled /\
  join_rewards (db (run [FraudDetected (Some (friend, -1007)); SettlementTick] ads_4)) !! id = Some w.
Proof.
  destruct (first_row jr_ID (fun _ => true) (rows (join_rewards (db ads_4)))) as [w|] eqn:Ew; [|vm_compute in Ew; discriminate Ew].
  assert (Eq : join_rewards (db ads_4) !! jr_ID w = Some w /\ jr_Status w = RewardSettled)
    by (vm_compute in Ew; injection Ew as <-; vm_compute; split; reflexivity).
  destruct Eq as [Hw Hs]. exists (jr_ID w), w. split; [exact Hw|]. split; [exact Hs|].
  destruct (ads_serve ads owner [FraudDetected (Some (friend, -1007)); SettlementTick] ads_4) as [r s'] eqn:E.
  assert (Es : run [FraudDetected (Some (friend, -1007)); SettlementTick] ads_4 = s') by (unfold run; by rewrite E).
  rewrite Es. destruct (rewards_final ads owner _ _ _ _ E) as (_ & H & _).
  destruct (H _ w Hw) as (w' & Hw' & _ & _ & _ & _ & Hfin). rewrite Hw'. f_equal. apply Hfin. rewrite Hs. discriminate.
Defined.

Lemma ads_0_billed : billed (db ads_0).
Proof. split; simpl; intros; set_solver. Qed.

Definition all_events : list AdsEvent :=
  [say 1234567 "/rentlock"; say 1234567 "@garden"; say 1234567 "0.0000007"; say 1234567 "0.0001";
   press owner ("rent_approve:" +:+ rental_ref); MembershipJoined (Some (friend, -1007)); SettlementTick].
Lemma all_events_run : ads_serve ads owner all_events ads_0 = (Ok tt, ads_4).
Proof. vm_compute. reflexivity. Qed.

Lemma rental_bill_witness : exists q spent, rentals (db ads_4) !! rental_id = Some q /\ lr_Spent q = Num spent /\
  (spent <= decimal f_pool + decimal f_reward * 1)%Q.
Proof.
  destruct (rentals (db ads_4) !! rental_id) as [q|] eqn:E; [|vm_compute in E; discriminate E].
  assert (Eq : lr_RewardPerJoinTON q = Num (decimal f_reward) /\ owner_pool q = Num (decimal f_pool)
    /\ lr_Status q = RentalDone /\ outstanding rental_id (db ads_4) = 1).
  { vm_compute in E. injection E as <-. vm_compute. split_and!; reflexivity. }
  destruct Eq as (E1 & E2 & E3 & E4).
  destruct (rental_bill ads owner _ _ _ _ rental_id q (decimal f_reward) (decimal f_pool) all_events_run ads_0_billed E E1) as (spent & Es & Hle).
  - vm_compute. discriminate.
  - exact E2.
  - vm_compute. discriminate.
  - exists q, spent. rewrite E3, E4 in Hle. split; [done|]. split; [done|]. exact Hle.
Defined.

Lemma ads_1_keyed : keyed (db ads_1).
Proof. split; intros i x Hx; discriminate Hx. Qed.

(** The buyer presses the owner's approve button. *)
Lemma strangers_cannot_review_witness : exists q,
  rentals (db (snd (Ads_handle ads owner (UpCallback 1234567 ("rent_approve:" +:+ rental_ref)) ads_1))) !! rental_id = Some q /\
  lr_Status q = RentalPendingReview.
Proof.
  destruct (Ads_handle ads owner (UpCallback 1234567 ("rent_approve:" +:+ rental_ref)) ads_1) as [r s'] eqn:E.
  simpl snd. destruct (rentals (db ads_1) !! rental_id) as [q|] eqn:Eq; [|vm_compute in Eq; discriminate Eq].
  assert (Hu : forall k, env_uuid k <> 0%N) by (intros k; simpl; lia).
  assert (Hc : user_chats owner (fst (ext ads_1))) by (intros v st e Hv; discriminate Hv).
  destruct (strangers_cannot_review ads owner Hu 1234567 (UpCallback 1234567 ("rent_approve:" +:+ rental_ref)) ads_1 r s' ltac:(discriminate) ltac:(discriminate) eq_refl
    ads_1_keyed Hc E) as ([_ _ L _ _ _ _] & _ & _).
  exists q. split; [by apply L|]. vm_compute in Eq. by injection Eq as <-.
Defined.

Lemma approval_runs : approveLockRental ads owner rental_ref ads_1 = (Ok tt, ads_2).
Proof. vm_compute. reflexivity. Qed.
Lemma ads_1_ids : forall i p, rentals (db ads_1) !! i = Some p -> lr_ID p = i.
Proof.
  assert (H : forall x, x ∈ map_to_list (rentals (db ads_1)) -> lr_ID x.2 = x.1).
  { apply Forall_forall. vm_compute. repeat constructor. }
  intros i p Hp. apply elem_of_map_to_list in Hp. apply (H _ Hp).
Qed.

Lemma rental_ref_parses : uuid_Parse rental_ref = Some rental_id.
Proof. reflexivity. Qed.
Lemma rental_ref_some : uuid_String rental_id <> ""%string.
Proof. discriminate. Qed.

Lemma ads_ok : srv_ok (server ads_1).
Proof.
  change (server ads_1) with (demo_bus (db demo_3)). split; [exact demo_inv|]. apply tg_unique_check. vm_compute.
  repeat (constructor; [intros H; repeat (apply elem_of_cons in H as [H|H]; [discriminate H|]); by apply elem_of_nil in H|]).
  constructor.
Qed.

Definition status_at (s : World) : option (LockRentalStatus * Z) :=
  q ← rentals (db s) !! rental_id; Some (lr_Status q, lr_BuyerTelegramID q).

Lemma approval_charges_once_witness : exists acc,
  account (server ads_2) 1234567 = Some acc /\ times acc "ads-bot" rental_ref (server ads_2) = 1%nat.
Proof.
  assert (Hp : paid_once (server ads_1)) by (intros id sv ref _; vm_compute; lia).
  assert (S1 : status_at ads_1 = Some (RentalPendingReview, 1234567)) by (vm_compute; reflexivity).
  assert (S2 : status_at ads_2 = Some (RentalActive, 1234567)) by (vm_compute; reflexivity).
  unfold status_at in S1, S2. destruct (rentals (db ads_1) !! rental_id) as [q|] eqn:Eq; [|discriminate S1].
  injection S1 as E1 E2.
  destruct (approval_charges_once ads owner rental_ref rental_id ads_1 (Ok tt) ads_2 rental_ref_parses rental_ref_some ads_1_ids
    ads_ok Hp approval_runs) as (_ & _ & H & _).
  destruct (H rental_id q Eq) as (q' & Hq' & Hst). rewrite Hq' in S2. injection S2 as E3 _.
  destruct Hst as [Hst|(_ & _ & _ & acc & Ha & Ht)]; [congruence|].
  exists acc. rewrite E2 in Ha. split; [exact Ha|exact Ht].
Defined.

(** * A campaign without money *)

(** The balance is only checked for a publisher who exists: one who presses
    /start between the budget and the price passes without any. *)
Definition camp_1 : World := Eval vm_compute in
  run [say 1234567 "/newcampaign"; say 1234567 "Flowers"; Telegram (UpMedia 1234567 (Photo "f1"));
       say 1234567 "Come and see"; say 1234567 btnSkip; say 1234567 "0.0000007"; say 1234567 "/start";
       say 1234567 "0.0000007"] ads_0.

Definition campaign_of (s : World) : Campaign := match rows (campaigns (db s)) with c :: _ => c | [] => zero_campaign end.
Definition publisher_of (s : World) : Publisher := match rows (publishers (db s)) with p :: _ => p | [] => zero_publisher end.

Lemma camp_owns : owns (db camp_1) (campaign_of camp_1) (publisher_of camp_1).
Proof.
  assert (Hp : forall i p, publishers (db camp_1) !! i = Some p -> p = publisher_of camp_1 /\ i = pub_ID p).
  { intros i p H. apply elem_of_map_to_list in H. revert i p H.
    assert (H : forall x, x ∈ map_to_list (publishers (db camp_1)) -> x.2 = publisher_of camp_1 /\ x.1 = pub_ID x.2).
    { apply Forall_forall. vm_compute. repeat constructor. }
    intros i p Hin. apply (H (i, p) Hin). }
  assert (Hc : forall i c, campaigns (db camp_1) !! i = Some c -> ca_ID c = i).
  { intros i c H. apply elem_of_map_to_list in H. revert i c H.
    assert (H : forall x, x ∈ map_to_list (campaigns (db camp_1)) -> ca_ID x.2 = x.1).
    { apply Forall_forall. vm_compute. repeat constructor. }
    intros i c Hin. apply (H (i, c) Hin). }
  split.
  - split; [|done]. intros i p H. destruct (Hp i p H) as [-> ->]. split; [done|]. vm_compute. discriminate.
  - vm_compute. reflexivity.
  - vm_compute. reflexivity.
  - intros i q H _. by destruct (Hp i q H) as [-> ->].
  - vm_compute. reflexivity.
  - vm_compute. discriminate.
  - split; vm_compute; reflexivity.
Qed.

(** Nothing was ever paid in, and two presses leave the whole budget as balance. *)
Lemma deleting_refunds_again_witness : exists s' p' q,
  presses ads owner 2 1234567 (uuid_String (ca_ID (campaign_of camp_1))) camp_1 = (Ok tt, s') /\
  publishers (db s') !! pub_ID (publisher_of camp_1) = Some p' /\
  pub_Balance p' = Num q /\ (q == decimal f_budget)%Q.
Proof.
  destruct (deleting_refunds_again (B := Botpay) ads owner leap_quiet 2 camp_1 (uuid_String (ca_ID (campaign_of camp_1)))
    (campaign_of camp_1) (publisher_of camp_1)) as (s' & p' & E & Hp & Hb).
  - reflexivity.
  - vm_compute. reflexivity.
  - exact camp_owns.
  - assert (Hq : exists q, Nat.iter 2 (fun b => num_add b (to_numeric (RemainingBudget (campaign_of camp_1))))
      (pub_Balance (publisher_of camp_1)) = Num q /\ (q == decimal f_budget)%Q)
      by (eexists; split; vm_compute; reflexivity).
    destruct Hq as (q & Eq & Hq). exists s', p', q. rewrite Hb. split; [exact E|]. split; [exact Hp|]. by split.
Defined.
