(* ===== verification/Threads.v ===== *)
(** Programs that run concurrently: threads over a shared state, of which each
    command is one step of its own, and a program logic for them. *)
From S2P Require Import Prelude.

(** A program that issues commands [E]; [E R] is answered by an [R]. *)
Inductive prog (E : Type -> Type) (A : Type) : Type :=
| Ret (a : A)
| Do {R : Type} (c : E R) (k : R -> prog E A).
Arguments Ret {E A} a.
Arguments Do {E A R} c k.

Fixpoint pbind {E A B} (p : prog E A) (f : A -> prog E B) : prog E B :=
  match p with Ret a => f a | Do c k => Do c (fun r => pbind (k r) f) end.
Definition call {E R} (c : E R) : prog E R := Do c Ret.

Declare Scope prog_scope.
Delimit Scope prog_scope with prog.
Notation "x <- p ;; q" := (pbind p (fun x => q))
  (at level 100, p at next level, right associativity) : prog_scope.
Notation "p ;; q" := (pbind p (fun _ => q)) (at level 100, right associativity) : prog_scope.

Section threads.
Context {E : Type -> Type} {S K A : Type}.
(** The answers of a command with the state after it. *)
Context (outcome : forall R, E R -> S -> R -> S -> Prop).
(** The kinds of threads that start over when they end, the threads that may
    appear, and what changes by itself. *)
Context (restart : K -> option (prog E A)) (spawn : S -> K -> prog E A -> Prop) (drift : S -> S -> Prop).

Record pool := { shared : S; threads : list (K * prog E A) }.

Inductive step : pool -> pool -> Prop :=
| step_do w i k R (c : E R) cont r s :
    threads w !! i = Some (k, Do c cont) -> outcome R c (shared w) r s ->
    step w {| shared := s; threads := <[i := (k, cont r)]> (threads w) |}
| step_restart w i k a p :
    threads w !! i = Some (k, Ret a) -> restart k = Some p ->
    step w {| shared := shared w; threads := <[i := (k, p)]> (threads w) |}
| step_spawn w k p :
    spawn (shared w) k p -> step w {| shared := shared w; threads := threads w ++ [(k, p)] |}
| step_drift w s :
    drift (shared w) s -> step w {| shared := s; threads := threads w |}.

(** * A program logic

    Each thread owns a ghost value; [Inv] ties the ghosts to the shared state.
    Facts about the state are kept by [grows]. Before a command a thread shows
    [pre]; from its answer it learns [ans], and its ghost becomes [upd]. *)

Class Logic (G : Type) := {
  grows : S -> S -> Prop;
  pre : forall R, S -> G -> E R -> Prop;
  ans : forall R, S -> E R -> R -> Prop;
  upd : forall R, G -> E R -> R -> G;
  Inv : S -> list G -> Prop;
  over : K -> S -> G -> A -> Prop;
}.
Context {G : Type} {LOGIC : Logic G}.

Fixpoint wp {B} (Q : S -> G -> B -> Prop) (p : prog E B) (s : S) (g : G) : Prop :=
  match p with
  | Ret b => Q s g b
  | Do c k => pre _ s g c /\ forall s' r, grows s s' -> ans _ s' c r -> wp Q (k r) s' (upd _ g c r)
  end.

Lemma wp_bind `{!PreOrder grows} {B C} (Q1 : S -> G -> B -> Prop) (Q2 : S -> G -> C -> Prop) (p : prog E B) (f : B -> prog E C) s g :
  wp Q1 p s g -> (forall s' g' b, grows s s' -> Q1 s' g' b -> wp Q2 (f b) s' g') -> wp Q2 (pbind p f) s g.
Proof.
  revert s g. induction p as [b|R c k IH]; simpl; intros s g Hp Hf; [by apply Hf|].
  destruct Hp as [Hp Hk]. split; [done|]. intros s' r Hs Hr. apply IH; [by apply Hk|].
  intros s2 g2 b H2 Hb. apply Hf; [by etransitivity|done].
Qed.

Class LogicLaws := {
  grows_order :: PreOrder grows;
  pre_grows : forall R s s' g (c : E R), grows s s' -> pre R s g c -> pre R s' g c;
  over_grows : forall k s s' g a, grows s s' -> over k s g a -> over k s' g a;
  do_law : forall R (c : E R) s r s' gs i g,
    Inv s gs -> gs !! i = Some g -> pre R s g c -> outcome R c s r s' ->
    Inv s' (<[i := upd R g c r]> gs) /\ ans R s' c r /\ grows s s';
  restart_law : forall k p s gs i g a,
    Inv s gs -> gs !! i = Some g -> over k s g a -> restart k = Some p ->
    exists g', Inv s (<[i := g']> gs) /\ wp (over k) p s g';
  spawn_law : forall k p s gs,
    Inv s gs -> spawn s k p -> exists g, Inv s (gs ++ [g]) /\ wp (over k) p s g;
  drift_law : forall s s' gs, Inv s gs -> drift s s' -> Inv s' gs /\ grows s s';
}.
Context {LAWS : LogicLaws}.

Lemma wp_grows {B} (Q : S -> G -> B -> Prop) p s s' g :
  (forall s s' g b, grows s s' -> Q s g b -> Q s' g b) -> grows s s' -> wp Q p s g -> wp Q p s' g.
Proof.
  intros HQ Hs. destruct p as [b|R c k]; simpl; [by apply HQ|]. intros [Hp Hk]. split; [by eapply pre_grows|].
  intros s2 r H2 Hr. apply Hk; [by etransitivity|done].
Qed.

(** Every thread keeps to its part. *)
Definition good (w : pool) : Prop :=
  exists gs, Inv (shared w) gs /\ Forall2 (fun t g => wp (over t.1) t.2 (shared w) g) (threads w) gs.

Lemma parts_grow s s' (ts : list (K * prog E A)) gs :
  grows s s' -> Forall2 (fun t g => wp (over t.1) t.2 s g) ts gs -> Forall2 (fun t g => wp (over t.1) t.2 s' g) ts gs.
Proof.
  intros Hs H. eapply Forall2_impl; [exact H|]. intros [k p] g Hw. eapply wp_grows; [|done|exact Hw].
  intros. by eapply over_grows.
Qed.

Lemma good_step w w' : good w -> step w w' -> good w'.
Proof.
  intros (gs & HI & Ht) Hstep. destruct Hstep as [w i k R c cont r s Hi Ho|w i k a p Hi Hr|w k p Hs|w s Hd].
  - destruct (Forall2_lookup_l _ _ _ _ _ Ht Hi) as (g & Hg & Hp & Hk). cbn [fst snd] in Hp, Hk.
    destruct (do_law _ _ _ _ _ _ _ _ HI Hg Hp Ho) as (HI' & Ha & Hs). eexists. split; [exact HI'|].
    cbn [shared threads]. apply Forall2_insert; [by eapply parts_grow|]. by apply Hk.
  - destruct (Forall2_lookup_l _ _ _ _ _ Ht Hi) as (g & Hg & Ha). cbn [fst snd wp] in Ha.
    destruct (restart_law _ _ _ _ _ _ _ HI Hg Ha Hr) as (g' & HI' & Hw). eexists. split; [exact HI'|].
    by apply Forall2_insert.
  - destruct (spawn_law _ _ _ _ HI Hs) as (g & HI' & Hw). eexists. split; [exact HI'|].
    apply Forall2_app; [done|by constructor].
  - destruct (drift_law _ _ _ HI Hd) as [HI' Hs]. eexists. split; [exact HI'|]. by eapply parts_grow.
Qed.

Lemma good_reachable w w' : good w -> rtc step w w' -> good w'.
Proof. intros Hg H. induction H as [|w w1 w2 H1 _ IH]; [done|]. apply IH. by eapply good_step. Qed.
End threads.
