(* ===== verification/MemberCheck.v ===== *)
(** member-bot's membership checks: the Redis stream of check jobs, the pool of
    bots that answer them (internal/worker), the reclaimer, the Redis sets of
    internal/dispatcher and the callers of internal/lock and
    internal/memberresponder. *)
From S2P Require Import Prelude GoInt GoFloat GoString Effects Threads.

(** * The data *)

Record CheckJob := {
  JobID : string; ChannelID : Z; UserID : Z; ReplyKey : string; EnqueuedAt : Z;
}.
Record CheckResult := {
  res_JobID : string; res_IsMember : bool; res_BotID : string; res_ReplyKey : string; res_Err : string;
}.

(** A stream message: [None] when it has no payload or one that is not JSON. *)
Record StreamMessage := { msg_ID : nat; msg_Job : option CheckJob }.

(** What Telegram's getChatMember answered, or that there was no answer. *)
Inductive TelegramAnswer :=
| NoAnswer (e : string)
| Refused (description : string)
| Status (status : string).

Definition ClaimTTL : Z := 5 * 1000000000.
Definition checkTimeout : Z := 8 * 1000000000.
Definition resultCacheTTL : Z := 72 * 3600 * 1000000000.
Definition negativeCacheTTL : Z := 15 * 60 * 1000000000.

Definition BotChannelKey (botID : string) : string := "memberbot:bot_channels:" +:+ botID.
Definition claimKey (jobID : string) : string := "memberbot:claim:" +:+ jobID.
Definition replyKey (jobID : string) : string := "memberbot:reply:" +:+ jobID.
Definition resultCacheKey (channelID userID : Z) : string :=
  "memberbot:result:" +:+ FormatInt 10 channelID +:+ ":" +:+ FormatInt 10 userID.

(** * internal/worker/ratelimit.go *)

Record rateLimiter := { tokens : float64; capacity : float64; refillPS : float64; lastTick : Z }.

Definition newRateLimiter (perSecond now : Z) : rateLimiter :=
  let cap := f64_of_int perSecond in {| tokens := cap; capacity := cap; refillPS := cap; lastTick := now |}.

Definition Allow (r : rateLimiter) (now : Z) : bool * rateLimiter :=
  let t := f64_add (tokens r) (f64_mul (Seconds (now - lastTick r)) (refillPS r)) in
  let t := if f64_gt t (capacity r) then capacity r else t in
  if f64_lt t (f64_of_int 1)
  then (false, {| tokens := t; capacity := capacity r; refillPS := refillPS r; lastTick := now |})
  else (true, {| tokens := f64_sub t (f64_of_int 1); capacity := capacity r; refillPS := refillPS r; lastTick := now |}).

(** * The shared state *)

(** Redis, the bots' limiters, the clock, and for the record the identifiers
    that were generated, the jobs that were sent and the questions put to
    Telegram. *)
Record Shared := {
  values : gmap string (string * Z);          (* with the time they expire *)
  sets : gmap string (gset Z);
  lists : gmap string (list CheckResult);
  stream : list (option CheckJob);
  delivered : nat;                            (* the group's last id *)
  pending : gmap nat string;                  (* the group's PEL: message and consumer *)
  limiters : gmap string rateLimiter;
  clock : Z;
  issued : list string;
  enqueued : list CheckJob;
  asked : list (string * CheckJob * TelegramAnswer);
}.

Definition set_values f s := {| values := f (values s); sets := sets s; lists := lists s; stream := stream s;
  delivered := delivered s; pending := pending s; limiters := limiters s; clock := clock s; issued := issued s;
  enqueued := enqueued s; asked := asked s |}.
Definition set_sets f s := {| values := values s; sets := f (sets s); lists := lists s; stream := stream s;
  delivered := delivered s; pending := pending s; limiters := limiters s; clock := clock s; issued := issued s;
  enqueued := enqueued s; asked := asked s |}.
Definition set_lists f s := {| values := values s; sets := sets s; lists := f (lists s); stream := stream s;
  delivered := delivered s; pending := pending s; limiters := limiters s; clock := clock s; issued := issued s;
  enqueued := enqueued s; asked := asked s |}.
Definition set_pending f s := {| values := values s; sets := sets s; lists := lists s; stream := stream s;
  delivered := delivered s; pending := f (pending s); limiters := limiters s; clock := clock s; issued := issued s;
  enqueued := enqueued s; asked := asked s |}.
Definition set_limiters f s := {| values := values s; sets := sets s; lists := lists s; stream := stream s;
  delivered := delivered s; pending := pending s; limiters := f (limiters s); clock := clock s; issued := issued s;
  enqueued := enqueued s; asked := asked s |}.
Definition set_clock f s := {| values := values s; sets := sets s; lists := lists s; stream := stream s;
  delivered := delivered s; pending := pending s; limiters := limiters s; clock := f (clock s); issued := issued s;
  enqueued := enqueued s; asked := asked s |}.
Definition add_issued u s := {| values := values s; sets := sets s; lists := lists s; stream := stream s;
  delivered := delivered s; pending := pending s; limiters := limiters s; clock := clock s; issued := u :: issued s;
  enqueued := enqueued s; asked := asked s |}.
Definition add_job j s := {| values := values s; sets := sets s; lists := lists s; stream := stream s ++ [Some j];
  delivered := delivered s; pending := pending s; limiters := limiters s; clock := clock s; issued := issued s;
  enqueued := j :: enqueued s; asked := asked s |}.
Definition add_asked q s := {| values := values s; sets := sets s; lists := lists s; stream := stream s;
  delivered := delivered s; pending := pending s; limiters := limiters s; clock := clock s; issued := issued s;
  enqueued := enqueued s; asked := q :: asked s |}.
Definition deliver n f s := {| values := values s; sets := sets s; lists := lists s; stream := stream s;
  delivered := n; pending := f (pending s); limiters := limiters s; clock := clock s; issued := issued s;
  enqueued := enqueued s; asked := asked s |}.

(** * The commands *)

Inductive cmd : Type -> Type :=
| Get (key : string) : cmd (result string)
| Set_ (key value : string) (ttl : Z) : cmd (result unit)
| Del (key : string) : cmd (result unit)
| Exists_ (key : string) : cmd (result bool)
| SetNX (key value : string) (ttl : Z) : cmd (result bool)
| BLPop (timeout : Z) (key : string) : cmd (result CheckResult)
| LPush (key : string) (v : CheckResult) : cmd (result unit)
| SAdd (key : string) (members : list Z) : cmd (result unit)
| SIsMember (key : string) (member : Z) : cmd (result bool)
| XAdd (job : CheckJob) : cmd (result unit)
| XReadGroup (consumer : string) (count : nat) : cmd (result (list StreamMessage))
| XAck (id : nat) : cmd (result unit)
| Now : cmd Z
| NewUUID : cmd string
| Limit (botID : string) : cmd bool                                  (* w.limiter.Allow() *)
| GetChatMember (botID : string) (job : CheckJob) : cmd TelegramAnswer.

Definition alive (s : Shared) (key : string) : option string :=
  match values s !! key with
  | Some (v, expires) => if clock s <? expires then Some v else None
  | None => None
  end.

Definition next_messages (consumer : string) (count : nat) (s : Shared) : list StreamMessage :=
  imap (fun i j => {| msg_ID := delivered s + i; msg_Job := j |}) (take count (drop (delivered s) (stream s))).
Definition take_messages (consumer : string) (count : nat) (s : Shared) : Shared :=
  let l := next_messages consumer count s in
  deliver (delivered s + length l) (fun p => foldr (fun m p => <[msg_ID m := consumer]> p) p l) s.

(** What a command answers and does; [None]: it waits. *)
Definition run {R} (c : cmd R) (s : Shared) : option (R * Shared) :=
  match c in cmd R return option (R * Shared) with
  | Get key => Some (match alive s key with Some v => Ok v | None => Err (Sentinel "redis" "Nil") end, s)
  | Set_ key value ttl => Some (Ok tt, set_values <[key := (value, clock s + ttl)]> s)
  | Del key => Some (Ok tt, set_sets (delete key) (set_lists (delete key) (set_values (delete key) s)))
  | Exists_ key => Some (Ok (bool_decide (is_Some (alive s key))), s)
  | SetNX key value ttl =>
      match alive s key with
      | Some _ => Some (Ok false, s)
      | None => Some (Ok true, set_values <[key := (value, clock s + ttl)]> s)
      end
  | BLPop _ key =>
      match lists s !! key with
      | Some (v :: l) => Some (Ok v, set_lists <[key := l]> s)
      | _ => None
      end
  | LPush key v => Some (Ok tt, set_lists (partial_alter (fun l => Some (v :: default [] l)) key) s)
  | SAdd key l => Some (Ok tt, set_sets (partial_alter (fun x => Some (list_to_set l ∪ default ∅ x)) key) s)
  | SIsMember key m => Some (Ok (bool_decide (m ∈ default ∅ (sets s !! key))), s)
  | XAdd job => Some (Ok tt, add_job job s)
  | XReadGroup consumer count =>
      match next_messages consumer count s with
      | [] => None
      | l => Some (Ok l, take_messages consumer count s)
      end
  | XAck id => Some (Ok tt, set_pending (delete id) s)
  | Now => Some (clock s, s)
  | Limit botID =>
      match limiters s !! botID with
      | Some r => let '(ok, r) := Allow r (clock s) in Some (ok, set_limiters <[botID := r]> s)
      | None => None
      end
  | NewUUID | GetChatMember _ _ => None
  end.

(** The answer of a command that timed out or whose connection failed. *)
Definition failed {R} (c : cmd R) (e : error) : option R :=
  match c in cmd R return option R with
  | Get _ => Some (Err e) | Set_ _ _ _ => Some (Err e) | Del _ => Some (Err e) | Exists_ _ => Some (Err e)
  | SetNX _ _ _ => Some (Err e) | BLPop _ _ => Some (Err e) | LPush _ _ => Some (Err e) | SAdd _ _ => Some (Err e)
  | SIsMember _ _ => Some (Err e) | XAdd _ => Some (Err e) | XReadGroup _ _ => Some (Err e) | XAck _ => Some (Err e)
  | Now | NewUUID | Limit _ | GetChatMember _ _ => None
  end.

(** One step of a command: it runs, it fails before or after it ran, a new
    identifier is none of those before, and Telegram answers what it likes. *)
Definition outcome (R : Type) (c : cmd R) (s : Shared) (r : R) (s' : Shared) : Prop :=
  run c s = Some (r, s') \/
  (exists e, failed c e = Some r /\ (s' = s \/ exists r0, run c s = Some (r0, s'))) \/
  match c in cmd R return R -> Prop with
  | NewUUID => fun u => u ∉ issued s /\ s' = add_issued u s
  | GetChatMember bot job => fun a => s' = add_asked (bot, job, a) s
  | _ => fun _ => False
  end r.

(** * internal/worker/telegram.go *)

(** (result, error text) of HTTPChecker.IsMember; no error is the empty text. *)
Definition member_of (a : TelegramAnswer) : bool * string :=
  match a with
  | NoAnswer e => (false, e)
  | Refused description => (false, "telegram: " +:+ description)
  | Status status => ((status =? "member") || (status =? "administrator") || (status =? "creator"), "")
  end%string.

(** * internal/worker/job.go *)

Definition Enqueue (job : CheckJob) : prog cmd (result unit) := call (XAdd job).
Definition TryClaim (jobID botID : string) : prog cmd (result bool) := call (SetNX (claimKey jobID) botID ClaimTTL).
Definition WriteResult (r : CheckResult) : prog cmd (result unit) :=
  (e <- call (LPush (res_ReplyKey r) r) ;;
   match e with
   | Err e => Ret (Err e)
   | Ok _ => call (Set_ (res_ReplyKey r +:+ "_ttl") "1" (30 * 1000000000))
   end)%prog.
Definition WaitResult (key : string) (timeout : Z) : prog cmd (result CheckResult) := call (BLPop timeout key).

(** * internal/worker/pool.go *)

(** What the threads return. *)
Inductive answer :=
| Nothing
| Checked (r : result (bool * bool)).   (* isMember and cached *)

Definition ack (id : nat) : prog cmd unit := (call (XAck id) ;; Ret tt)%prog.

Definition result_of (botID : string) (job : CheckJob) (a : TelegramAnswer) : CheckResult :=
  {| res_JobID := JobID job; res_IsMember := fst (member_of a); res_BotID := botID; res_ReplyKey := ReplyKey job;
     res_Err := snd (member_of a) |}.

Definition handle (botID : string) (m : StreamMessage) : prog cmd unit :=
  match msg_Job m with
  | None => ack (msg_ID m)
  | Some job =>
      (isMember <- call (SIsMember (BotChannelKey botID) (ChannelID job)) ;;
       match isMember with
       | Ok true =>
           (allowed <- call (Limit botID) ;;
            if negb allowed then Ret tt
            else
            (claimed <- TryClaim (JobID job) botID ;;
             match claimed with
             | Ok true =>
                 (a <- call (GetChatMember botID job) ;;
                  WriteResult (result_of botID job a) ;;
                  ack (msg_ID m))
             | _ => ack (msg_ID m)
             end))
       | _ => Ret tt
       end)%prog
  end.

Fixpoint handle_all (botID : string) (l : list StreamMessage) : prog cmd unit :=
  match l with [] => Ret tt | m :: l => (handle botID m ;; handle_all botID l)%prog end.

(** What a bot does with what it has read. *)
Definition handle_read (botID : string) (r : result (list StreamMessage)) : prog cmd answer :=
  match r with
  | Err _ => Ret Nothing
  | Ok l => (handle_all botID l ;; Ret Nothing)%prog
  end.

(** One round of BotWorker.Run. *)
Definition Run (botID : string) : prog cmd answer :=
  (r <- call (XReadGroup botID 1) ;; handle_read botID r)%prog.

(** * internal/worker/reclaimer.go *)

Definition reclaim_one (m : StreamMessage) : prog cmd unit :=
  match msg_Job m with
  | None => ack (msg_ID m)
  | Some job =>
      (e <- call (Exists_ ("memberbot:claim:" +:+ JobID job)) ;;
       match e with
       | Ok true => ack (msg_ID m)
       | _ => (e <- Enqueue job ;; match e with Ok _ => ack (msg_ID m) | Err _ => Ret tt end)
       end)%prog
  end.
Fixpoint reclaim_all (l : list StreamMessage) : prog cmd unit :=
  match l with [] => Ret tt | m :: l => (reclaim_one m ;; reclaim_all l)%prog end.
Definition reclaim : prog cmd answer :=
  (r <- call (XReadGroup "reclaimer" 50) ;;
   match r with
   | Err _ => Ret Nothing
   | Ok l => (reclaim_all l ;; Ret Nothing)
   end)%prog.

(** * internal/dispatcher/dispatcher.go *)

Definition syncBotMembership (botID : string) (memberships : list Z) : prog cmd answer :=
  (call (Del (BotChannelKey botID)) ;;
   match memberships with
   | [] => Ret Nothing
   | _ =>
       (e <- call (SAdd (BotChannelKey botID) memberships) ;;
        match e with
        | Err _ => Ret Nothing
        | Ok _ => (call (Set_ (BotChannelKey botID +:+ "_ttl") "1" (10 * 60 * 1000000000)) ;; Ret Nothing)
        end)
   end)%prog.

(** * internal/lock/server.go *)

Definition CheckMembership (channelID userID : Z) : prog cmd (result (bool * bool)) :=
  let cacheKey := resultCacheKey channelID userID in
  let ask : prog cmd (result (bool * bool)) :=
    (jobID <- call NewUUID ;;
     n <- call Now ;;
     let job := {| JobID := jobID; ChannelID := channelID; UserID := userID; ReplyKey := replyKey jobID;
                   EnqueuedAt := n |} in
     e <- Enqueue job ;;
     match e with
     | Err e => Ret (Err (Wrapf "enqueue failed: %w" [] e))
     | Ok _ =>
         (r <- WaitResult (replyKey jobID) checkTimeout ;;
          match r with
          | Err e => Ret (Err (Wrapf "check timed out: %w" [] e))
          | Ok r =>
              if negb (res_Err r =? "")%string then Ret (Err (Errorf "%s" [AStr (res_Err r)]))
              else
              (call (if res_IsMember r then Set_ cacheKey "1" resultCacheTTL else Set_ cacheKey "0" negativeCacheTTL) ;;
               Ret (Ok (res_IsMember r, false)))
          end)
     end)%prog in
  (v <- call (Get cacheKey) ;;
   match v with
   | Ok v => if (v =? "")%string then ask else Ret (Ok ((v =? "1")%string, true))
   | Err _ => ask
   end)%prog.

(** POST /check: None is a request that is no JSON object; the answer is the
    status with its member and cached. *)
Definition Lock_handleCheck (req : option (Z * Z)) : prog cmd (Z * option (bool * bool)) :=
  match req with
  | None => Ret (400, None)
  | Some (userID, channelID) =>
      if (userID =? 0) || (channelID =? 0) then Ret (400, None)
      else
      (r <- CheckMembership channelID userID ;;
       match r with Err _ => Ret (504, None) | Ok a => Ret (200, Some a) end)%prog
  end.

Definition Lock_authMiddleware (apiKey got : string) (h : prog cmd (Z * option (bool * bool))) :
  prog cmd (Z * option (bool * bool)) :=
  if negb (got =? apiKey)%string then Ret (401, None) else h.

(** * internal/memberresponder/responder.go *)

Record MemberCheckResponse := { mc_IsMember : bool; mc_Cached : bool; mc_Error : option error }.

Definition Member_handleCheck (req : option (Z * Z)) : prog cmd MemberCheckResponse :=
  match req with
  | None => Ret {| mc_IsMember := false; mc_Cached := false; mc_Error := Some (Errorf "bad request" []) |}
  | Some (channelID, userID) =>
      if (channelID =? 0) || (userID =? 0)
      then Ret {| mc_IsMember := false; mc_Cached := false; mc_Error := Some (Errorf "channel_id and user_id required" []) |}
      else
      (r <- CheckMembership channelID userID ;;
       match r with
       | Err e => Ret {| mc_IsMember := false; mc_Cached := false; mc_Error := Some e |}
       | Ok (b, cached) => Ret {| mc_IsMember := b; mc_Cached := cached; mc_Error := None |}
       end)%prog
  end.

(** * The service: bots, reclaimer, synchronisation and callers at once *)

Definition NewBotWorker (ratePerSec now : Z) : rateLimiter :=
  newRateLimiter (if ratePerSec <=? 0 then 20 else ratePerSec) now.

Inductive kind :=
| Bot (id : string)
| Reclaimer
| Sync
| Caller (channelID userID : Z).

(** Run loops and so does the reclaimer. *)
Definition again (k : kind) : option (prog cmd answer) :=
  match k with Bot id => Some (Run id) | Reclaimer => Some reclaim | Sync | Caller _ _ => None end.

Definition caller (channelID userID : Z) : prog cmd answer :=
  (r <- CheckMembership channelID userID ;; Ret (Checked r))%prog.

Section service.
(** The channels that the database may assign to a bot. *)
Context (assigned : string -> list Z -> Prop).

Inductive appears : Shared -> kind -> prog cmd answer -> Prop :=
| bot_starts s id : is_Some (limiters s !! id) -> appears s (Bot id) (Run id)
| reclaimer_starts s : appears s Reclaimer reclaim
| sync_starts s id l : assigned id l -> appears s Sync (syncBotMembership id l)
| caller_asks s channelID userID : in_int64 channelID -> in_int64 userID -> appears s (Caller channelID userID) (caller channelID userID).

Inductive passes : Shared -> Shared -> Prop :=
| time_passes s d : 0 <= d -> passes s (set_clock (Z.add d) s)
| bot_registered s id rate :
    limiters s !! id = None -> passes s (set_limiters <[id := NewBotWorker rate (clock s)]> s).

Definition empty_shared : Shared := {|
  values := ∅; sets := ∅; lists := ∅; stream := []; delivered := 0; pending := ∅; limiters := ∅; clock := 0; issued := [];
  enqueued := []; asked := [] |}.
Definition no_threads : pool (E := cmd) (K := kind) (A := answer) := {| shared := empty_shared; threads := [] |}.

Definition check_step : relation (pool (E := cmd) (K := kind) (A := answer)) := step outcome again appears passes.
Definition reachable (w : pool (E := cmd) (K := kind) (A := answer)) : Prop := rtc check_step no_threads w.
End service.
