(* ===== verification/MemberCheckSpec.v ===== *)
(** Correctness of member-bot's membership checks under every interleaving. *)
From S2P Require Import Prelude GoInt GoFloat GoString Effects Threads MemberCheck.

(** * One question per job

    For one job identifier [J]: a thread's ghost counts the copies of the job it
    may still act on, and the answers it may still write. *)

Section tokens.
Context (assigned : string -> list Z -> Prop) (J : string).

Definition is_J (j : CheckJob) : nat := if (JobID j =? J)%string then 1 else 0.
Definition copies (l : list (option CheckJob)) : nat := sum_list_with (fun j => match j with Some j => is_J j | None => 0%nat end) l.
Definition undelivered (s : Shared) : nat := copies (drop (delivered s) (stream s)).
Definition questions (s : Shared) : nat := sum_list_with (fun q => is_J q.1.2) (asked s).
Definition replies (s : Shared) : nat := length (default [] (lists s !! replyKey J)).
Definition known (s : Shared) : bool := bool_decide (J ∈ issued s).

(** A job names the list its answer is awaited on. *)
Definition well_formed (j : CheckJob) : Prop := ReplyKey j = replyKey (JobID j).
Definition read_well (m : StreamMessage) : Prop := forall j, msg_Job m = Some j -> well_formed j.
Definition stream_well (s : Shared) : Prop := forall j, Some j ∈ stream s -> well_formed j.

Definition token_pre R (s : Shared) (g : nat * nat) (c : cmd R) : Prop :=
  match c with
  | GetChatMember _ job => (is_J job <= g.1)%nat
  | XAdd job => (is_J job <= g.1)%nat /\ well_formed job
  | LPush key _ => key = replyKey J -> (1 <= g.2)%nat
  | _ => True
  end.

Definition token_ans R (s : Shared) (c : cmd R) : R -> Prop :=
  match c in cmd R return R -> Prop with
  | XReadGroup _ _ => fun r => match r with Ok l => Forall read_well l | Err _ => True end
  | _ => fun _ => True
  end.

Definition token_upd R (g : nat * nat) (c : cmd R) : R -> nat * nat :=
  match c in cmd R return R -> nat * nat with
  | GetChatMember _ job => fun _ => (g.1 - is_J job, g.2 + is_J job)%nat
  | XAdd job => fun _ => (g.1 - is_J job, g.2)%nat
  | LPush key _ => fun _ => if (key =? replyKey J)%string then (g.1, g.2 - 1)%nat else g
  | XReadGroup _ _ => fun r => match r with Ok l => (g.1 + copies (map msg_Job l), g.2)%nat | Err _ => g end
  | NewUUID => fun u => if (u =? J)%string then (g.1 + 1, g.2)%nat else g
  | _ => fun _ => g
  end.

(** [n] is 0 once nothing can be done for [J] any more. *)
Definition token_Inv (n : nat) (s : Shared) (gs : list (nat * nat)) : Prop :=
  (sum_list_with fst gs + undelivered s + questions s <= if known s then n else 0)%nat /\
  (sum_list_with snd gs + replies s <= questions s)%nat /\ (n = 0%nat -> known s = true) /\ stream_well s.

Instance token_logic (n : nat) : Logic (E := cmd) (S := Shared) (K := kind) (A := answer) (nat * nat) := {|
  grows := fun _ _ => True; pre := token_pre; ans := token_ans; upd := token_upd; Inv := token_Inv n;
  over := fun _ _ _ _ => True |}.

Lemma sum_insert {X} (f : X -> nat) l i x y :
  l !! i = Some x -> (sum_list_with f (<[i := y]> l) + f x = sum_list_with f l + f y)%nat.
Proof.
  revert i. induction l as [|z l IH]; intros [|i]; simpl; try done; [intros [= ->]; lia|].
  intros Hi. specialize (IH i Hi). lia.
Qed.

Lemma copies_app l1 l2 : copies (l1 ++ l2) = (copies l1 + copies l2)%nat.
Proof. apply sum_list_with_app. Qed.

Lemma next_messages_jobs consumer count s : map msg_Job (next_messages consumer count s) = take count (drop (delivered s) (stream s)).
Proof.
  unfold next_messages. change (@map ?A ?B) with (@fmap list _ A B). rewrite fmap_imap. unfold compose. simpl.
  rewrite (imap_const id). apply list_fmap_id.
Qed.

Lemma undelivered_take consumer count s :
  (undelivered (take_messages consumer count s) + copies (map msg_Job (next_messages consumer count s)) = undelivered s)%nat.
Proof.
  unfold undelivered, take_messages. cbn [delivered stream deliver]. rewrite next_messages_jobs, Nat.add_comm.
  assert (Hl : length (next_messages consumer count s) = length (take count (drop (delivered s) (stream s))))
    by (rewrite <- (next_messages_jobs consumer); by rewrite length_map).
  rewrite Hl, <- drop_drop, <- copies_app. f_equal. rewrite length_take.
  generalize (drop (delivered s) (stream s)) as l. intros l.
  destruct (Nat.le_gt_cases count (length l)); [rewrite Nat.min_l by done; apply take_drop|].
  rewrite Nat.min_r, take_ge, drop_ge, app_nil_r by lia. done.
Qed.

(** ** The commands keep the counts *)

(** A command that does not deal with jobs or answers. *)
Definition plain R (c : cmd R) : bool :=
  match c with XAdd _ | XReadGroup _ _ | LPush _ _ | NewUUID | GetChatMember _ _ => false | _ => true end.

Lemma run_plain R (c : cmd R) s r s' : plain R c = true -> run c s = Some (r, s') ->
  undelivered s' = undelivered s /\ questions s' = questions s /\ (replies s' <= replies s)%nat /\ known s' = known s /\
  stream s' = stream s.
Proof.
  intros Hc Hr. unfold replies. destruct c; try done; cbn [run] in Hr; repeat case_match; simplify_eq/=; try done.
  - do 2 (split; [done|]). split; [|done]. rewrite lookup_delete. case_decide; simpl; lia.
  - do 2 (split; [done|]). split; [|done]. rewrite lookup_insert. case_decide as Hk; [|done].
    rewrite <- Hk, H. simpl. lia.
Qed.

Lemma token_run n R (c : cmd R) s r r' s' gs i g :
  (match c with XReadGroup _ _ => r' = r \/ token_upd R g c r' = g | _ => True end) ->
  token_Inv n s gs -> gs !! i = Some g -> token_pre R s g c -> run c s = Some (r, s') ->
  token_Inv n s' (<[i := token_upd R g c r']> gs).
Proof.
  intros Hr' (H1 & H2 & H3 & H4) Hi Hp Hr.
  pose proof (sum_insert fst gs i g (token_upd R g c r') Hi) as F. pose proof (sum_insert snd gs i g (token_upd R g c r') Hi) as G.
  unfold token_Inv. destruct (plain R c) eqn:Hc.
  { destruct (run_plain R c s r s' Hc Hr) as (-> & -> & Hl & -> & Es). assert (token_upd R g c r' = g) as Eg by (by destruct c).
    rewrite Eg in *. unfold stream_well. rewrite Es. split; [lia|]. split; [lia|done]. }
  destruct c; try done; cbn [run token_upd token_pre] in *.
  - injection Hr as <- <-. unfold replies in *. cbn [set_lists lists]. rewrite lookup_partial_alter.
    change (undelivered (set_lists _ s)) with (undelivered s). change (questions (set_lists _ s)) with (questions s).
    change (known (set_lists _ s)) with (known s).
    destruct (key =? replyKey J)%string eqn:E; zbool.
    + specialize (Hp E). subst key. rewrite decide_True by done. cbn [fst snd default] in *. simpl length. split; [lia|]. split; [lia|done].
    + rewrite decide_False by done. split; [lia|]. split; [lia|done].
  - injection Hr as <- <-. destruct Hp as [Hp Hw]. cbn [fst snd] in *.
    assert (undelivered (add_job job s) <= undelivered s + is_J job)%nat.
    { unfold undelivered. cbn [add_job stream delivered]. rewrite skipn_app, copies_app.
      destruct (delivered s - length (stream s))%nat; simpl; [unfold copies; simpl; lia|].
      rewrite drop_nil. unfold copies. simpl. lia. }
    change (questions (add_job job s)) with (questions s). change (replies (add_job job s)) with (replies s).
    change (known (add_job job s)) with (known s). split; [lia|]. split; [lia|]. split; [done|].
    intros j. cbn [add_job stream]. rewrite elem_of_app, list_elem_of_singleton. by intros [Hj|[= ->]]; [apply H4|].
  - destruct (next_messages consumer count s) as [|m l] eqn:E; [done|]. injection Hr as <- <-.
    pose proof (undelivered_take consumer count s) as U. rewrite E in U.
    change (questions (take_messages consumer count s)) with (questions s).
    change (replies (take_messages consumer count s)) with (replies s).
    change (known (take_messages consumer count s)) with (known s).
    destruct Hr' as [-> | Eg]; [|rewrite Eg in *]; cbn [fst snd] in *; (split; [lia|]; split; [lia|done]).
Qed.

Lemma token_failed n R (c : cmd R) s e r gs i g :
  token_Inv n s gs -> gs !! i = Some g -> failed c e = Some r -> token_Inv n s (<[i := token_upd R g c r]> gs).
Proof.
  intros (H1 & H2 & H3 & H4) Hi Hr.
  pose proof (sum_insert fst gs i g (token_upd R g c r) Hi) as F. pose proof (sum_insert snd gs i g (token_upd R g c r) Hi) as G.
  assert (fst (token_upd R g c r) <= fst g /\ snd (token_upd R g c r) <= snd g)%nat as [Hf Hs].
  { destruct c; cbn [failed token_upd] in *; simplify_eq/=; try lia. case_match; simpl; lia. }
  unfold token_Inv. split; [lia|]. split; [lia|done].
Qed.

Lemma failed_weak R (c : cmd R) e r g : failed c e = Some r ->
  match c with XReadGroup _ _ => forall r0, r = r0 \/ token_upd R g c r = g | _ => True end.
Proof. destruct c; try done. intros [= <-] r0. by right. Qed.

Lemma token_do n R (c : cmd R) s r s' gs i g :
  token_Inv n s gs -> gs !! i = Some g -> token_pre R s g c -> outcome R c s r s' ->
  token_Inv n s' (<[i := token_upd R g c r]> gs).
Proof.
  intros HI Hi Hp [Hr|[(e & Hf & [-> | [r0 Hr]])|Hs]].
  - apply (token_run n R c s r r); try done. destruct c; auto.
  - by apply (token_failed n R c s e).
  - apply (token_run n R c s r0 r); try done. pose proof (failed_weak R c e r g Hf) as Hw. destruct c; auto.
  - destruct HI as (H1 & H2 & H3 & H4).
    pose proof (sum_insert fst gs i g (token_upd R g c r) Hi) as F. pose proof (sum_insert snd gs i g (token_upd R g c r) Hi) as G.
    unfold token_Inv. destruct c; try done.
    + destruct Hs as [Hn ->]. cbn [token_upd token_pre] in *.
      change (undelivered (add_issued r s)) with (undelivered s). change (questions (add_issued r s)) with (questions s).
      change (replies (add_issued r s)) with (replies s).
      destruct (r =? J)%string eqn:E; zbool; cbn [fst snd] in *.
      * subst r. assert (known s = false) as Ek by (by apply bool_decide_eq_false). rewrite Ek in *.
        assert (known (add_issued J s) = true) as -> by (apply bool_decide_eq_true; simpl; set_solver).
        destruct n as [|n]; [by specialize (H3 eq_refl)|]. split; [lia|]. split; [lia|done].
      * assert (known (add_issued r s) = known s) as ->; [|split; [lia|]; split; [lia|done]].
        apply bool_decide_ext. simpl. set_solver.
    + subst s'. cbn [token_upd token_pre fst snd] in *.
      change (undelivered (add_asked _ s)) with (undelivered s). change (replies (add_asked _ s)) with (replies s).
      change (known (add_asked _ s)) with (known s).
      assert (questions (add_asked (botID, job, r) s) = is_J job + questions s)%nat as -> by reflexivity.
      split; [lia|]. split; [lia|done].
Qed.
(** ** The threads keep to their ghosts *)

Section threads.
Context (n : nat).
#[local] Existing Instance token_logic.
Instance always_order : PreOrder (grows (Logic := token_logic n)).
Proof. by split. Qed.
Abbreviation token_wp := (wp (LOGIC := token_logic n)).

(** A thread that may act on [k] copies of the job acts on no more. *)
Definition spends (k : nat) (g : nat * nat) {A} : Shared -> nat * nat -> A -> Prop := fun _ g' _ => (fst g <= fst g' + k)%nat.

(** Descends over a command without obligation. *)
Ltac next := split; [exact I|]; intros ? ? _ _; cbn [upd token_logic token_upd].

Lemma wp_ack id k g0 s g : spends k g0 s g tt -> token_wp (spends k g0) (ack id) s g.
Proof. intros Hk. next. exact Hk. Qed.

Lemma wp_handle bot m s g : read_well m -> (copies [msg_Job m] <= fst g)%nat -> token_wp (spends (copies [msg_Job m]) g) (handle bot m) s g.
Proof.
  intros Hw Hg. unfold handle, read_well in *. assert (Hdone : forall s, spends (copies [msg_Job m]) g s g tt) by (intros ?; unfold spends; lia).
  destruct (msg_Job m) as [job|]; [|apply wp_ack, Hdone]. next.
  destruct r as [[]|]; [|apply Hdone..]. next. destruct r; [|apply Hdone]. next.
  destruct r as [[]|]; [|apply wp_ack, Hdone..].
  assert (is_J job <= fst g)%nat as Hj by (unfold copies in Hg; simpl in Hg; lia).
  split; [exact Hj|]. intros s3 a _ _. cbn [token_upd pbind call WriteResult]. split.
  { cbn [pre upd token_logic token_pre token_upd result_of res_ReplyKey snd]. rewrite (Hw job eq_refl). intros Hk%append_inj_l.
    unfold is_J. rewrite (proj2 (String.eqb_eq _ _) Hk). lia. }
  intros s4 r4 _ _. set (g4 := upd _ _ _ _).
  assert (Hg4 : fst g4 = (fst g - is_J job)%nat) by (subst g4; cbn [upd token_logic token_upd]; by case_match).
  assert (Hend : forall s, spends (copies [Some job]) g s g4 tt) by (intros ?; unfold spends, copies; simpl; lia).
  destruct r4; [next|]; apply wp_ack, Hend.
Qed.
Lemma copies_cons j l : copies (j :: l) = (copies [j] + copies l)%nat.
Proof. unfold copies. simpl. lia. Qed.

(** A round over messages, of which each takes at most its own copies. *)
Lemma wp_each (one : StreamMessage -> prog cmd unit) (all : list StreamMessage -> prog cmd unit) :
  all [] = Ret tt -> (forall m l, all (m :: l) = (one m ;; all l)%prog) ->
  (forall m s g, read_well m -> (copies [msg_Job m] <= fst g)%nat -> token_wp (spends (copies [msg_Job m]) g) (one m) s g) ->
  forall l s g, Forall read_well l -> (copies (map msg_Job l) <= fst g)%nat -> token_wp (fun _ _ _ => True) (all l) s g.
Proof.
  intros Hnil Hcons Hone. induction l as [|m l IH]; intros s g Hw Hg; [by rewrite Hnil|].
  apply Forall_cons in Hw as [Hm Hw]. rewrite Hcons. simpl map in Hg. rewrite copies_cons in Hg.
  eapply wp_bind; [apply Hone; [done|lia]|]. intros s' g' [] _ Hs. apply IH; [done|]. unfold spends in Hs. lia.
Qed.

Lemma wp_handle_all bot l s g :
  Forall read_well l -> (copies (map msg_Job l) <= fst g)%nat -> token_wp (fun _ _ _ => True) (handle_all bot l) s g.
Proof. apply (wp_each (handle bot)); [done|done|]. intros. by apply wp_handle. Qed.

Lemma wp_reclaim_one m s g : read_well m -> (copies [msg_Job m] <= fst g)%nat -> token_wp (spends (copies [msg_Job m]) g) (reclaim_one m) s g.
Proof.
  intros Hw Hg. unfold reclaim_one, read_well in *. assert (Hdone : forall s, spends (copies [msg_Job m]) g s g tt) by (intros ?; unfold spends; lia).
  destruct (msg_Job m) as [job|]; [|apply wp_ack, Hdone]. next.
  assert (is_J job <= fst g)%nat as Hj by (unfold copies in Hg; simpl in Hg; lia).
  assert (Hsent : token_wp (spends (copies [Some job]) g)
    (e <- Enqueue job ;; match e with Ok _ => ack (msg_ID m) | Err _ => Ret tt end)%prog s' g).
  { split; [split; [exact Hj|by apply Hw]|]. intros s2 e _ _. cbn [upd token_logic token_upd].
    assert (Hend : forall s, spends (copies [Some job]) g s (fst g - is_J job, snd g)%nat tt)
      by (intros ?; unfold spends, copies; simpl; lia).
    destruct e; [apply wp_ack|]; apply Hend. }
  destruct r as [[]|]; [apply wp_ack, Hdone|exact Hsent..].
Qed.

Lemma wp_reclaim_all l s g :
  Forall read_well l -> (copies (map msg_Job l) <= fst g)%nat -> token_wp (fun _ _ _ => True) (reclaim_all l) s g.
Proof. apply (wp_each reclaim_one); [done|done|]. intros. by apply wp_reclaim_one. Qed.

Lemma wp_then {A B} (p : prog cmd A) (b : B) s g :
  token_wp (fun _ _ _ => True) p s g -> token_wp (fun _ _ _ => True) (p ;; Ret b)%prog s g.
Proof. intros Hp. eapply wp_bind; [exact Hp|done]. Qed.

Lemma wp_handle_read bot r s g : token_ans _ s (XReadGroup bot 1) r ->
  token_wp (fun _ _ _ => True) (handle_read bot r) s (token_upd _ g (XReadGroup bot 1) r).
Proof. intros Hr. destruct r as [l|]; [|done]. apply wp_then, wp_handle_all; [done|]. cbn [token_upd fst]. lia. Qed.

Lemma wp_Run bot s g : token_wp (fun _ _ _ => True) (Run bot) s g.
Proof. split; [done|]. intros s' r _ Hr. by apply wp_handle_read. Qed.

Lemma wp_reclaim s g : token_wp (fun _ _ _ => True) reclaim s g.
Proof.
  split; [done|]. intros s' r _ Hr. destruct r as [l|]; [|done]. apply wp_then, wp_reclaim_all; [done|]. cbn [upd token_logic token_upd fst]. lia.
Qed.

Lemma wp_sync bot l s g : token_wp (fun _ _ _ => True) (syncBotMembership bot l) s g.
Proof.
  unfold syncBotMembership. next. destruct l; [done|]. split; [done|]. intros s2 e _ _. destruct e; [|done]. by next.
Qed.

Lemma wp_caller channelID userID s g : token_wp (fun _ _ _ => True) (caller channelID userID) s g.
Proof.
  unfold caller, CheckMembership. set (ask := (jobID <- call NewUUID ;; _)%prog).
  assert (Hask : forall s, token_wp (fun _ _ _ => True) (r <- ask ;; Ret (Checked r))%prog s g).
  { intros s0. split; [done|]. intros s1 jobID _ _. split; [done|]. intros s2 n2 _ _. split.
    - cbn [upd pre token_logic token_upd token_pre]. unfold is_J. cbn [JobID]. split; [|done].
      destruct (jobID =? J)%string; simpl; lia.
    - intros s3 e _ _. destruct e; [|exact I]. split; [exact I|]. intros s4 r _ _. destruct r as [r|]; [|exact I].
      simpl. destruct (negb _); [exact I|]. destruct (res_IsMember r); (split; [exact I|]); intros; exact I. }
  split; [done|]. intros s' v _ _. destruct v as [v|]; [|apply Hask]. simpl. destruct (v =? "")%string; [apply Hask|exact I].
Qed.

Lemma token_mono m s gs gs' : token_Inv m s gs ->
  (sum_list_with fst gs' <= sum_list_with fst gs)%nat -> (sum_list_with snd gs' <= sum_list_with snd gs)%nat -> token_Inv m s gs'.
Proof. intros (H1 & H2 & H3 & H4) Hf Hs. split; [lia|]. split; [lia|done]. Qed.

Lemma token_read R (c : cmd R) s r s' : stream_well s -> outcome R c s r s' -> token_ans R s' c r.
Proof.
  intros Hs Ho. destruct c; try exact I. destruct r as [l|]; [|exact I].
  destruct Ho as [Hr|[(e & He & _)|[]]]; [|done]. cbn [run] in Hr.
  destruct (next_messages consumer count s) as [|m0 l0] eqn:E; [done|]. injection Hr as <- _. rewrite <- E.
  apply Forall_forall. intros m Hm j Hj. apply Hs. rewrite <- (take_drop (delivered s) (stream s)), elem_of_app. right.
  rewrite <- (take_drop count (drop (delivered s) (stream s))), elem_of_app. left.
  rewrite <- (next_messages_jobs consumer), <- Hj. apply list_elem_of_fmap. eauto.
Qed.

#[export] Instance token_laws :
  LogicLaws (LOGIC := token_logic n) outcome again (appears assigned) passes.
Proof.
  split.
  - apply always_order.
  - intros R s s' g c _ Hp. by destruct c.
  - done.
  - intros R c s r s' gs i g HI Hi Hp Ho. split; [exact (token_do n R c s r s' gs i g HI Hi Hp Ho)|]. split; [|done].
    apply (token_read R c s); [apply HI|exact Ho].
  - intros k p s gs i g a HI Hi _ Hk. exists (0, 0)%nat. split.
    + pose proof (sum_insert fst gs i g (0, 0)%nat Hi). pose proof (sum_insert snd gs i g (0, 0)%nat Hi).
      apply (token_mono _ _ gs); [done|simpl in *; lia..].
    + destruct k; cbn [again] in Hk; [injection Hk as <-; apply wp_Run|injection Hk as <-; apply wp_reclaim|done..].
  - intros k p s gs HI Hs. exists (0, 0)%nat. split.
    + apply (token_mono _ _ gs); [done|rewrite sum_list_with_app; simpl; lia..].
    + destruct Hs; [apply wp_Run|apply wp_reclaim|apply wp_sync|apply wp_caller].
  - intros s s' gs HI Hd. split; [|done]. by destruct Hd.
Qed.
End threads.
End tokens.

(** ** At most one question, and jobs that are lost *)

Section once.
Context (assigned : string -> list Z -> Prop).

Lemma tokens_good J w : reachable assigned w -> good (LOGIC := token_logic J 1) w.
Proof.
  intros Hw. eapply (good_reachable outcome again (appears assigned) passes); [|exact Hw].
  exists []. split; [|constructor]. split; [apply Nat.le_0_l|].
  split; [unfold replies; cbn [shared no_threads empty_shared lists]; by rewrite lookup_empty|]. split; [done|]. intros j Hj. by apply elem_of_nil in Hj.
Qed.

Definition asked_ids (s : Shared) : list string := map (fun q => JobID q.1.2) (asked s).

Lemma counted {X} J (f : X -> CheckJob) l x : x ∈ l -> JobID (f x) = J -> (1 <= sum_list_with (fun x => is_J J (f x)) l)%nat.
Proof. intros Hin HJ. induction Hin as [x l|x y l Hin IH]; simpl; [unfold is_J at 1; rewrite HJ, String.eqb_refl|specialize (IH HJ)]; lia. Qed.

Lemma counted_once {X} (f : X -> CheckJob) l :
  (forall J, (sum_list_with (fun x => is_J J (f x)) l <= 1)%nat) -> NoDup (map (fun x => JobID (f x)) l).
Proof.
  induction l as [|x l IH]; intros H; simpl; constructor.
  - intros Hin. apply list_elem_of_fmap in Hin as (y & Hy & Hin). specialize (H (JobID (f x))). simpl in H.
    unfold is_J at 1 in H. rewrite String.eqb_refl in H. pose proof (counted (JobID (f x)) f l y Hin (eq_sym Hy)). lia.
  - apply IH. intros J. specialize (H J). simpl in H. lia.
Qed.


Lemma sum_ge {X} (f : X -> nat) l i x : l !! i = Some x -> (f x <= sum_list_with f l)%nat.
Proof. revert i. induction l as [|y l IH]; intros [|i]; simpl; try done; [intros [= ->]; lia|]. intros Hi. specialize (IH i Hi). lia. Qed.

(** A bot that has read a job holds the only copy. *)
Lemma reader_holds J bot m job s g : msg_Job m = Some job -> JobID job = J ->
  wp (LOGIC := token_logic J 1) (fun _ _ _ => True) (handle_read bot (Ok [m])) s g -> (1 <= fst g)%nat.
Proof.
  intros Hm HJ Hw. unfold handle_read, handle_all, handle in Hw. rewrite Hm in Hw.
  destruct Hw as [_ Hw]. destruct (Hw s (Ok true) I I) as [_ Hw2]. destruct (Hw2 s true I I) as [_ Hw3].
  destruct (Hw3 s (Ok true) I I) as [Hp _]. cbn in Hp. unfold is_J in Hp.
  rewrite HJ, String.eqb_refl in Hp. lia.
Qed.

(** The first thing it asks is whether the bot is in the channel; if not, that is all. *)
Lemma reader_asks bot m job : msg_Job m = Some job ->
  exists k, handle_read bot (Ok [m]) = Do (SIsMember (BotChannelKey bot) (ChannelID job)) k /\ k (Ok false) = Ret Nothing.
Proof. intros Hm. unfold handle_read, handle_all, handle. rewrite Hm. by eexists. Qed.

End once.
