(* ===== verification/MemberTruthSpec.v ===== *)
(** member-bot's answers are Telegram's. *)
From S2P Require Import Prelude GoInt GoFloat GoString Effects Threads MemberCheck MemberCheckSpec.

(** * Keys *)

Lemma resultCacheKey_inj c1 u1 c2 u2 : in_int64 c1 -> in_int64 u1 -> in_int64 c2 -> in_int64 u2 ->
  resultCacheKey c1 u1 = resultCacheKey c2 u2 -> c1 = c2 /\ u1 = u2.
Proof.
  intros H1 H2 H3 H4 E. apply append_inj_l in E. simpl in E.
  apply sep_inj_first in E as [E1 E2]; [|by apply int_no_char..].
  split; [by apply (FormatInt_inj 10)|]. apply (FormatInt_inj 10); done.
Qed.

(** * The facts that threads rely on *)

Section truth.
Context (assigned : string -> list Z -> Prop).

(** Telegram was asked about this user in this channel, and said so. *)
Definition telegram_said (s : Shared) (channelID userID : Z) (b : bool) : Prop :=
  exists bot job a, (bot, job, a) ∈ asked s /\ ChannelID job = channelID /\ UserID job = userID /\ member_of a = (b, ""%string).

Definition answers (s : Shared) (key : string) (v : CheckResult) : Prop :=
  exists bot job a, (bot, job, a) ∈ asked s /\ job ∈ enqueued s /\ key = replyKey (JobID job) /\ v = result_of bot job a.

Definition cached (s : Shared) (key value : string) : Prop :=
  forall channelID userID, in_int64 channelID -> in_int64 userID -> key = resultCacheKey channelID userID ->
  telegram_said s channelID userID (value =? "1")%string.

Definition no_result_key (key : string) : Prop := forall channelID userID, key <> resultCacheKey channelID userID.

Definition truth_pre R (s : Shared) (g : option string) (c : cmd R) : Prop :=
  match c with
  | XAdd job => well_formed job /\ (g = Some (JobID job) \/ job ∈ enqueued s)
  | LPush key v => answers s key v
  | Set_ key value _ => cached s key value
  | SetNX key _ _ => no_result_key key
  | GetChatMember _ job => job ∈ enqueued s
  | _ => True
  end.

Definition truth_ans R (s : Shared) (c : cmd R) : R -> Prop :=
  match c in cmd R return R -> Prop with
  | Get key => fun r => match r with Ok v => cached s key v | Err _ => True end
  | BLPop _ key => fun r => match r with
      | Ok v => forall job, job ∈ enqueued s -> key = replyKey (JobID job) -> exists bot a, (bot, job, a) ∈ asked s /\ v = result_of bot job a
      | Err _ => True end
  | XAdd job => fun r => match r with Ok _ => job ∈ enqueued s | Err _ => True end
  | XReadGroup _ _ => fun r => match r with
      | Ok l => Forall (fun m => forall job, msg_Job m = Some job -> job ∈ enqueued s /\ well_formed job) l
      | Err _ => True end
  | GetChatMember bot job => fun a => (bot, job, a) ∈ asked s
  | _ => fun _ => True
  end.

(** A caller owns the identifier it has drawn until it has sent its job. *)
Definition truth_upd R (g : option string) (c : cmd R) : R -> option string :=
  match c in cmd R return R -> option string with
  | NewUUID => fun u => Some u
  | XAdd _ => fun _ => None
  | _ => fun _ => g
  end.

Definition truth_over (k : kind) (s : Shared) (g : option string) (a : answer) : Prop :=
  match k, a with Caller channelID userID, Checked (Ok (b, _)) => telegram_said s channelID userID b | _, _ => True end.

Definition truth_grows (s s' : Shared) : Prop := enqueued s ⊆ enqueued s' /\ asked s ⊆ asked s'.

Record truth_Inv (s : Shared) (gs : list (option string)) : Prop := {
  stream_enqueued : forall j, Some j ∈ stream s -> j ∈ enqueued s;
  jobs_issued : forall j, j ∈ enqueued s -> well_formed j /\ JobID j ∈ issued s;
  jobs_unique : forall a b, a ∈ enqueued s -> b ∈ enqueued s -> JobID a = JobID b -> a = b;
  lists_true : forall key v, v ∈ default [] (lists s !! key) -> answers s key v;
  values_true : forall key v e, values s !! key = Some (v, e) -> cached s key v;
  owned_fresh : forall i u, gs !! i = Some (Some u) -> u ∈ issued s /\ forall j, j ∈ enqueued s -> JobID j <> u;
  owned_once : forall i j u, gs !! i = Some (Some u) -> gs !! j = Some (Some u) -> i = j;
}.

#[local] Instance truth_logic : Logic (E := cmd) (S := Shared) (K := kind) (A := answer) (option string) := {|
  grows := truth_grows; pre := truth_pre; ans := truth_ans; upd := truth_upd; Inv := truth_Inv; over := truth_over |}.

#[local] Instance truth_order : PreOrder truth_grows.
Proof. split; [by split|]. intros s1 s2 s3 [A1 B1] [A2 B2]. split; by etransitivity. Qed.

Lemma said_grows s s' c u b : truth_grows s s' -> telegram_said s c u b -> telegram_said s' c u b.
Proof. intros [_ Ha] (bot & job & a & H & R). exists bot, job, a. split; [by apply Ha|done]. Qed.
Lemma answers_grow s s' key v : truth_grows s s' -> answers s key v -> answers s' key v.
Proof. intros [He Ha] (bot & job & a & H1 & H2 & R). exists bot, job, a. split; [by apply Ha|]. split; [by apply He|done]. Qed.
Lemma cached_grows s s' key v : truth_grows s s' -> cached s key v -> cached s' key v.
Proof. intros Hs Hc c u H1 H2 E. eapply said_grows; [exact Hs|by apply Hc]. Qed.
Hint Resolve said_grows answers_grow cached_grows : truth.
(** ** Commands that send no job *)

(** Lists only lose elements or gain true answers, values only true results. *)
Lemma truth_frame s s' gs :
  truth_Inv s gs -> enqueued s' = enqueued s -> issued s' = issued s -> asked s' = asked s -> stream s' = stream s ->
  (forall key v, v ∈ default [] (lists s' !! key) -> answers s key v) ->
  (forall key v e, values s' !! key = Some (v, e) -> cached s key v) -> truth_Inv s' gs.
Proof.
  intros HI He Hi Ha Hs Hl Hv.
  assert (Hg : truth_grows s s') by (split; by rewrite ?He, ?Ha).
  split; rewrite ?He, ?Hi, ?Hs; try apply HI; eauto with truth.
Qed.

Lemma run_true R (c : cmd R) s g r s' gs :
  plain R c = true \/ (exists key v, match c with LPush k w => key = k /\ v = w | _ => False end) ->
  truth_Inv s gs -> truth_pre R s g c -> run c s = Some (r, s') -> truth_Inv s' gs.
Proof.
  intros Hc HI Hp Hr. pose proof (lists_true _ _ HI) as HL. pose proof (values_true _ _ HI) as HV.
  assert (Hdel : forall k key v, v ∈ default [] (delete k (lists s) !! key) -> answers s key v).
  { intros k key v. rewrite lookup_delete. case_decide; [by intros ?%elem_of_nil|apply HL]. }
  assert (Hset : forall k v e key w e', cached s k v -> <[k := (v, e)]> (values s) !! key = Some (w, e') -> cached s key w).
  { intros k v e key w e' Hk. rewrite lookup_insert. case_decide as E; [|apply HV]. by intros [= <- <-]; subst. }
  destruct c; try (by destruct Hc as [?|(? & ? & [])]); cbn [run truth_pre] in *; repeat case_match; simplify_eq; try done;
    (eapply truth_frame; [exact HI|reflexivity..| |]); cbn [lists values set_values set_sets set_lists set_pending set_limiters];
    try done; eauto.
  - intros k v e. rewrite lookup_delete. case_decide; [done|apply HV].
  - intros k v e Hk. eapply Hset; [|exact Hk]. intros c u _ _ E. by apply Hp in E.
  - intros k v Hk. rewrite lookup_insert in Hk. case_decide as E; [|by apply HL]. simpl in Hk.
    apply HL. subst k. rewrite H. by right.
  - intros k w Hk. rewrite lookup_partial_alter in Hk. case_decide as E; [|by apply HL]. subst k. simpl in Hk.
    apply elem_of_cons in Hk as [->|Hk]; [done|by apply HL].
Qed.
(** ** The other commands *)

Lemma release s gs i g g' : g' = g \/ g' = None -> gs !! i = Some g -> truth_Inv s gs -> truth_Inv s (<[i := g']> gs).
Proof.
  intros Hg Hi HI. destruct HI as [H1 H2 H3 H4 H5 H6 H7].
  assert (Hsub : forall j u, <[i := g']> gs !! j = Some (Some u) -> gs !! j = Some (Some u)).
  { intros j u Hj. apply list_lookup_insert_Some in Hj as [(<- & E & _)|[_ Hj]]; [|done].
    destruct Hg as [->| ->]; [by rewrite <- E|done]. }
  split; try done; [intros j u Hj; by apply (H6 j), Hsub|intros j k u Hj Hk; by apply (H7 j k u); apply Hsub].
Qed.

Lemma send_true s gs i g job : truth_Inv s gs -> gs !! i = Some g -> truth_pre _ s g (XAdd job) ->
  truth_Inv (add_job job s) (<[i := None]> gs).
Proof.
  intros HI Hi [Hw Hnew]. assert (Hg : truth_grows s (add_job job s)) by (split; simpl; set_solver).
  assert (Hold : job ∈ enqueued s \/ (JobID job ∈ issued s /\ forall j, j ∈ enqueued s -> JobID j <> JobID job)).
  { destruct Hnew as [-> |?]; [|by left]. right. by apply (owned_fresh _ _ HI i). }
  pose proof (release s gs i g None (or_intror eq_refl) Hi HI) as HI'. destruct HI as [H1 H2 H3 H4 H5 H6 H7]. destruct HI' as [_ _ _ _ _ H6' H7'].
  split; cbn [add_job enqueued issued stream lists values asked].
  - intros j [Hj|Hj]%elem_of_app; [right; by apply H1|]. apply list_elem_of_singleton in Hj as [= ->]. by left.
  - intros j. rewrite elem_of_cons. intros [->|Hj]; [|by apply H2]. split; [done|]. destruct Hold as [Ho|[Ho _]]; [by apply H2|done].
  - intros a b. rewrite !elem_of_cons. destruct Hold as [Ho|[_ Ho]].
    + intros [->|Ha] [->|Hb]; by apply H3.
    + intros [->|Ha] [->|Hb] E; try done; [by destruct (Ho b Hb)|by destruct (Ho a Ha)|by apply H3].
  - intros key v Hv. eapply answers_grow; [exact Hg|by apply H4].
  - intros key v e Hv. eapply cached_grows; [exact Hg|by eapply H5].
  - intros j u Hj. destruct (H6' j u Hj) as [Hu Hn]. split; [done|]. intros k. rewrite elem_of_cons. intros [->|Hk]; [|by apply Hn].
    destruct Hnew as [-> |Ho]; [|by apply Hn]. intros <-.
    apply list_lookup_insert_Some in Hj as [(_ & ? & _)|[Hij Hj]]; [done|]. by apply Hij, (H7 i j (JobID job)).
  - done.
Qed.

Lemma draw_true s gs i g u : truth_Inv s gs -> gs !! i = Some g -> u ∉ issued s -> truth_Inv (add_issued u s) (<[i := Some u]> gs).
Proof.
  intros [H1 H2 H3 H4 H5 H6 H7] Hi Hu.
  assert (Hno : forall j, j ∈ enqueued s -> JobID j <> u) by (intros j Hj <-; by apply Hu, H2).
  split; try done; cbn [add_issued enqueued issued].
  - intros j Hj. destruct (H2 j Hj). split; [done|set_solver].
  - intros j v Hj. apply list_lookup_insert_Some in Hj as [(_ & [= <-] & _)|[_ Hj]]; [split; [set_solver|done]|].
    destruct (H6 j v Hj). split; [set_solver|done].
  - assert (Hold : forall j, gs !! j <> Some (Some u)) by (intros j Hj; by destruct (H6 j u Hj)).
    intros j k v Hj Hk. apply list_lookup_insert_Some in Hj as [(<- & [= <-] & _)|[Hj0 Hj]];
      apply list_lookup_insert_Some in Hk as [(<- & E & _)|[Hk0 Hk]]; try done; [by destruct (Hold k)| |by apply (H7 j k v)].
    injection E as <-. by destruct (Hold j).
Qed.

Lemma ask_true s gs q : truth_Inv s gs -> truth_Inv (add_asked q s) gs.
Proof.
  intros [H1 H2 H3 H4 H5 H6 H7]. assert (Hg : truth_grows s (add_asked q s)) by (split; simpl; set_solver).
  split; try done; eauto with truth.
Qed.

Lemma read_true consumer count s gs : truth_Inv s gs -> truth_Inv (take_messages consumer count s) gs.
Proof. intros HI. eapply truth_frame; [exact HI|reflexivity..|apply (lists_true _ _ HI)|apply (values_true _ _ HI)]. Qed.

Lemma failed_upd R (c : cmd R) e r g : failed c e = Some r -> truth_upd R g c r = g \/ truth_upd R g c r = None.
Proof. destruct c; try done; auto. Qed.

(** Every command keeps the invariant when it runs, whichever answer arrives. *)
Lemma run_keeps R (c : cmd R) s g r s' gs i g' :
  truth_Inv s gs -> gs !! i = Some g -> truth_pre R s g c -> run c s = Some (r, s') ->
  (match c with XAdd _ => g' = None | _ => g' = g end) -> truth_Inv s' (<[i := g']> gs).
Proof.
  intros HI Hi Hp Hr Hg. destruct (plain R c) eqn:Hc.
  { assert (g' = g) as -> by (by destruct c). rewrite list_insert_id by done. eapply run_true; eauto. }
  destruct c; try done.
  - subst g'. rewrite list_insert_id by done. eapply (run_true _ (LPush key v)); [right; eauto|done|exact Hp|exact Hr].
  - subst g'. cbn [run] in Hr. injection Hr as <- <-. by eapply send_true.
  - subst g'. cbn [run] in Hr. rewrite list_insert_id by done. destruct (next_messages _ _ _); [done|]. injection Hr as <- <-.
    by apply read_true.
Qed.

Lemma run_grows R (c : cmd R) s r s' : run c s = Some (r, s') -> truth_grows s s'.
Proof. intros Hr. destruct c; cbn [run] in Hr; repeat case_match; simplify_eq; split; simpl; set_solver. Qed.

Lemma outcome_grows R (c : cmd R) s r s' : outcome R c s r s' -> truth_grows s s'.
Proof.
  intros [Hr|[(e & _ & [-> | [r0 Hr]])|H]]; [by eapply run_grows|done|by eapply run_grows|].
  destruct c; try done; [destruct H as [_ ->]|subst s']; split; simpl; set_solver.
Qed.

Lemma next_in consumer count s m j : m ∈ next_messages consumer count s -> msg_Job m = Some j -> Some j ∈ stream s.
Proof.
  intros Hm Hj. rewrite <- (take_drop (delivered s) (stream s)), elem_of_app. right.
  rewrite <- (take_drop count (drop (delivered s) (stream s))), elem_of_app. left.
  rewrite <- (next_messages_jobs consumer), <- Hj. apply list_elem_of_fmap. eauto.
Qed.

Lemma answers_true R (c : cmd R) s r s' gs :
  truth_Inv s gs -> outcome R c s r s' -> truth_ans R s' c r.
Proof.
  intros HI [Hr|[(e & Hf & _)|H]]; [|by destruct c; try done; injection Hf as <-|by destruct c; try done; subst s'; left].
  pose proof (run_grows _ _ _ _ _ Hr) as Hg. destruct c; try done; cbn [run] in Hr.
  - injection Hr as <- <-. unfold alive. destruct (values s !! key) as [[v e]|] eqn:E; [|done].
    destruct (clock s <? e); [|done]. by apply (values_true _ _ HI key v e).
  - destruct (lists s !! key) as [[|v l]|] eqn:E; try done. injection Hr as <- <-. intros job Hj ->.
    destruct (lists_true _ _ HI (replyKey (JobID job)) v) as (bot & job' & a & Ha & Hj' & Ek & ->); [rewrite E; by left|].
    apply append_inj_l in Ek. assert (job' = job) as -> by (by apply (jobs_unique _ _ HI)). eauto.
  - injection Hr as <- <-. by left.
  - destruct (next_messages consumer count s) as [|m0 l0] eqn:E; [done|]. injection Hr as <- <-. rewrite <- E.
    apply Forall_forall. intros m Hm j Hj. assert (j ∈ enqueued s) as He by (by eapply (stream_enqueued _ _ HI), next_in).
    split; [exact He|by apply (jobs_issued _ _ HI)].
Qed.

Lemma truth_do R (c : cmd R) s r s' gs i g : truth_Inv s gs -> gs !! i = Some g -> truth_pre R s g c -> outcome R c s r s' ->
  truth_Inv s' (<[i := truth_upd R g c r]> gs).
Proof.
  intros HI Hi Hp [Hr|[(e & Hf & [-> | [r0 Hr]])|H]].
  - eapply run_keeps; [exact HI|exact Hi|exact Hp|exact Hr|]. by destruct c.
  - eapply release; [by eapply failed_upd|exact Hi|exact HI].
  - eapply run_keeps; [exact HI|exact Hi|exact Hp|exact Hr|]. by destruct c.
  - destruct c; try done; cbn [truth_upd].
    + destruct H as [Hu ->]. by eapply draw_true.
    + subst s'. rewrite list_insert_id by done. by apply ask_true.
Qed.
(** ** The threads *)

Abbreviation truth_wp := (wp (LOGIC := truth_logic)).
Definition fine {A} : Shared -> option string -> A -> Prop := fun _ _ _ => True.
Definition known_job (s : Shared) (m : StreamMessage) : Prop := forall job, msg_Job m = Some job -> job ∈ enqueued s /\ well_formed job.

Lemma known_grows s s' m : truth_grows s s' -> known_job s m -> known_job s' m.
Proof. intros [He _] Hm job Hj. destruct (Hm job Hj). split; [by apply He|done]. Qed.

Lemma vacuous s key v : no_result_key key -> cached s key v.
Proof. intros Hn c u _ _ E. by apply Hn in E. Qed.
Lemma claim_no_result id : no_result_key (claimKey id).
Proof. intros c u. discriminate. Qed.
Lemma reply_no_result id : no_result_key (replyKey id +:+ "_ttl").
Proof. intros c u. discriminate. Qed.
Lemma channels_no_result id : no_result_key (BotChannelKey id +:+ "_ttl").
Proof. intros c u. discriminate. Qed.

Ltac run_command := split; [exact I|]; intros ? ? ? ?.

Lemma true_ack id s g : truth_wp fine (ack id) s g.
Proof. by split. Qed.

Lemma true_handle bot m s g : known_job s m -> truth_wp fine (handle bot m) s g.
Proof.
  intros Hm. unfold handle. destruct (msg_Job m) as [job|] eqn:Ej; [|apply true_ack].
  split; [exact I|]. intros s1 r1 G1 _. destruct r1 as [[]|]; [|exact I..].
  split; [exact I|]. intros s2 r2 G2 _. destruct r2; [|exact I].
  split; [apply claim_no_result|]. intros s3 r3 G3 _. destruct r3 as [[]|]; [|apply true_ack..].
  assert (Hk : known_job s3 m) by (by do 3 (eapply known_grows; [eassumption|])).
  destruct (Hk job Ej) as [He Hw]. split; [exact He|]. intros s4 a G4 Ha. split.
  { exists bot, job, a. split; [exact Ha|]. split; [by apply G4|]. by split. }
  intros s5 e G5 _. destruct e; [|apply true_ack]. split; [|intros; apply true_ack].
  apply vacuous. cbn [res_ReplyKey result_of]. rewrite Hw. apply reply_no_result.
Qed.

Lemma true_each (one : StreamMessage -> prog cmd unit) (all : list StreamMessage -> prog cmd unit) :
  all [] = Ret tt -> (forall m l, all (m :: l) = (one m ;; all l)%prog) ->
  (forall m s g, known_job s m -> truth_wp fine (one m) s g) ->
  forall l s g, Forall (known_job s) l -> truth_wp fine (all l) s g.
Proof.
  intros Hnil Hcons Hone. induction l as [|m l IH]; intros s g Hl; [by rewrite Hnil|]. apply Forall_cons in Hl as [Hm Hl].
  rewrite Hcons. eapply wp_bind; [by apply Hone|]. intros s' g' [] Hg _. apply IH.
  eapply Forall_impl; [exact Hl|]. intros m'. by apply known_grows.
Qed.

Lemma true_reclaim_one m s g : known_job s m -> truth_wp fine (reclaim_one m) s g.
Proof.
  intros Hm. unfold reclaim_one. destruct (msg_Job m) as [job|] eqn:Ej; [|apply true_ack].
  split; [exact I|]. intros s1 r1 G1 _. destruct (known_grows _ _ _ G1 Hm job Ej) as [He Hw].
  assert (Hsend : truth_wp fine (e <- Enqueue job ;; match e with Ok _ => ack (msg_ID m) | Err _ => Ret tt end)%prog s1 g).
  { split; [split; [done|by right]|]. intros s2 e _ _. destruct e; [apply true_ack|exact I]. }
  destruct r1 as [[]|]; [apply true_ack|exact Hsend..].
Qed.

Lemma true_then {A B} (Q : Shared -> option string -> B -> Prop) (p : prog cmd A) (b : B) s g :
  (forall s' g', Q s' g' b) -> truth_wp fine p s g -> truth_wp Q (p ;; Ret b)%prog s g.
Proof. intros HQ Hp. eapply wp_bind; [exact Hp|]. intros. apply HQ. Qed.

Lemma true_Run bot s g : truth_wp (truth_over (Bot bot)) (Run bot) s g.
Proof.
  split; [exact I|]. intros s1 r G Hr. destruct r as [l|]; [|exact I]. apply true_then; [done|].
  apply (true_each (handle bot)); [done|done|apply true_handle|exact Hr].
Qed.
Lemma true_reclaim s g : truth_wp (truth_over Reclaimer) reclaim s g.
Proof.
  split; [exact I|]. intros s1 r G Hr. destruct r as [l|]; [|exact I]. apply true_then; [done|].
  apply (true_each reclaim_one); [done|done|apply true_reclaim_one|exact Hr].
Qed.
Lemma true_sync bot l s g : truth_wp (truth_over Sync) (syncBotMembership bot l) s g.
Proof.
  split; [exact I|]. intros s1 r G _. destruct l; [exact I|]. split; [exact I|]. intros s2 e G2 _.
  destruct e; [|exact I]. split; [apply vacuous, channels_no_result|]. intros. exact I.
Qed.

Lemma true_result s channelID userID bot job a (v : string) :
  (bot, job, a) ∈ asked s -> ChannelID job = channelID -> UserID job = userID -> snd (member_of a) = ""%string ->
  in_int64 channelID -> in_int64 userID -> fst (member_of a) = (v =? "1")%string -> cached s (resultCacheKey channelID userID) v.
Proof.
  intros Ha Hc Hu He H1 H2 Hv c u H3 H4 E. apply resultCacheKey_inj in E as [<- <-]; try done.
  exists bot, job, a. split; [done|]. split; [done|]. split; [done|]. rewrite <- Hv, <- He. by destruct (member_of a).
Qed.

Lemma true_caller channelID userID s g : in_int64 channelID -> in_int64 userID ->
  truth_wp (truth_over (Caller channelID userID)) (caller channelID userID) s g.
Proof.
  intros Hc Hu. unfold caller, CheckMembership. set (ask := (jobID <- call NewUUID ;; _)%prog).
  assert (Hask : forall s, truth_wp (truth_over (Caller channelID userID)) (r <- ask ;; Ret (Checked r))%prog s g).
  { intros s0. split; [exact I|]. intros s1 jobID G1 _. split; [exact I|]. intros s2 n G2 _.
    set (job := {| JobID := jobID; ChannelID := channelID; UserID := userID; ReplyKey := replyKey jobID; EnqueuedAt := n |}).
    split; [split; [done|by left]|]. intros s3 e G3 He. destruct e; [|exact I].
    split; [exact I|]. intros s4 r G4 Hr. destruct r as [r|]; [|exact I]. simpl.
    destruct (negb (res_Err r =? "")%string) eqn:E; [exact I|]. zbool.
    destruct (Hr job) as (bot & said & Ha & Er); [by apply G4|done|].
    assert (Hsaid : forall s, truth_grows s4 s -> truth_over (Caller channelID userID) s None (Checked (Ok (res_IsMember r, false)))).
    { intros s5 G5. apply (said_grows s4 s5 _ _ _ G5). exists bot, job, said. split; [done|]. split; [done|]. split; [done|].
      subst r. simpl in *. rewrite <- E. by destruct (member_of said). }
    subst r. simpl in E. destruct (fst (member_of said)) eqn:Em; simpl; rewrite Em; simpl.
    all: (split; [eapply true_result; eauto|]); intros s5 e5 G5 _; simpl in Hsaid; rewrite Em in Hsaid; by apply Hsaid. }
  split; [exact I|]. intros s1 v G1 Hv. destruct v as [v|]; [|apply Hask]. simpl.
  destruct (v =? "")%string; [apply Hask|]. by apply Hv.
Qed.

#[local] Instance truth_laws : LogicLaws (LOGIC := truth_logic) outcome again (appears assigned) passes.
Proof.
  split.
  - apply truth_order.
  - intros R s s' g c G Hp. destruct c; try done; cbn [pre truth_logic truth_pre] in *; eauto with truth.
    + destruct Hp as [Hw [Hg|Hj]]; (split; [done|]); [by left|right; by apply G].
    + by apply G.
  - intros k s s' g a G Ho. destruct k, a as [|[[]|]]; try done. by eapply said_grows.
  - intros R c s r s' gs i g HI Hi Hp Ho. split; [by eapply truth_do|]. split; [by eapply answers_true|by eapply outcome_grows].
  - intros k p s gs i g a HI Hi _ Hk. exists None. split; [eapply release; [by right|exact Hi|exact HI]|].
    destruct k; cbn [again] in Hk; [injection Hk as <-; apply true_Run|injection Hk as <-; apply true_reclaim|done..].
  - intros k p s gs HI Hs. exists None. split.
    + destruct HI as [H1 H2 H3 H4 H5 H6 H7].
      assert (Hsub : forall j u, (gs ++ [None]) !! j = Some (Some u) -> gs !! j = Some (Some u)).
      { intros j u Hj. apply lookup_app_Some in Hj as [Hj|[_ Hj]]; [done|]. by apply list_lookup_singleton_Some in Hj as [_ ?]. }
      split; try done; [intros j u Hj; by apply (H6 j), Hsub|intros j j' u Hj Hk; by apply (H7 j j' u); apply Hsub].
    + destruct Hs; [apply true_Run|apply true_reclaim|apply true_sync|by apply true_caller].
  - intros s s' gs HI Hd. split; [|by destruct Hd].
    destruct Hd; (eapply truth_frame; [exact HI|reflexivity..|apply (lists_true _ _ HI)|apply (values_true _ _ HI)]).
Qed.

Lemma answers_telegram w i channelID userID isMember fromCache :
  reachable assigned w -> threads w !! i = Some (Caller channelID userID, Ret (Checked (Ok (isMember, fromCache)))) ->
  telegram_said (shared w) channelID userID isMember.
Proof.
  intros Hw Hi. assert (good (LOGIC := truth_logic) w) as (gs & _ & Ht).
  { eapply (good_reachable outcome again (appears assigned) passes); [|exact Hw]. exists []. split; [|constructor].
    split; cbn; try done; try (intros ? ?%elem_of_nil; done); [intros ? ? ?%elem_of_nil; done|].
    intros key v. rewrite lookup_empty. by intros ?%elem_of_nil. }
  by destruct (Forall2_lookup_l _ _ _ _ _ Ht Hi) as (g & _ & Hq).
Qed.

(** C24: Whatever the interleaving and the failures, a caller that is told
    whether a user is in a channel is told what Telegram answered a bot about
    that user in that channel; and a member is one Telegram calls member,
    administrator or creator. *)
Theorem answers_are_telegrams w i channelID userID isMember fromCache :
  reachable assigned w -> threads w !! i = Some (Caller channelID userID, Ret (Checked (Ok (isMember, fromCache)))) ->
  exists bot job a, (bot, job, a) ∈ asked (shared w) /\ ChannelID job = channelID /\ UserID job = userID /\
    member_of a = (isMember, ""%string) /\
    (isMember = true -> a = Status "member" \/ a = Status "administrator" \/ a = Status "creator").
Proof.
  intros Hw Hi. destruct (answers_telegram w i channelID userID isMember fromCache Hw Hi) as (bot & job & a & Ha & Hc & Hu & Hm).
  exists bot, job, a. split_and!; try done. intros ->. destruct a as [| |status]; [done..|]. simpl in Hm. injection Hm as Hm.
  apply orb_true_iff in Hm as [Hm|Hm]; [apply orb_true_iff in Hm as [Hm|Hm]|]; apply String.eqb_eq in Hm; subst; auto.
Qed.
End truth.

(** * Bots without channels *)

Section idle.
Context (assigned : string -> list Z -> Prop).
Context (nothing : forall id l, assigned id l -> l = []).

Definition idle_pre R (s : Shared) (g : unit) (c : cmd R) : Prop :=
  match c with SAdd _ l => l = [] | GetChatMember _ _ => False | _ => True end.
Definition idle_ans R (s : Shared) (c : cmd R) : R -> Prop :=
  match c in cmd R return R -> Prop with SIsMember _ _ => fun r => r <> Ok true | _ => fun _ => True end.
Definition idle_Inv (s : Shared) (gs : list unit) : Prop := (forall key, default ∅ (sets s !! key) = ∅) /\ asked s = [].

#[local] Instance idle_logic : Logic (E := cmd) (S := Shared) (K := kind) (A := answer) unit := {|
  grows := fun _ _ => True; pre := idle_pre; ans := idle_ans; upd := fun _ _ _ _ => (); Inv := idle_Inv;
  over := fun _ _ _ _ => True |}.
#[local] Instance idle_order : PreOrder (grows (Logic := idle_logic)).
Proof. by split. Qed.
Abbreviation idle_wp := (wp (LOGIC := idle_logic) (fun _ _ _ => True)).

Lemma idle_run R (c : cmd R) s r s' : idle_Inv s [] -> idle_pre R s () c -> run c s = Some (r, s') -> idle_Inv s' [].
Proof.
  intros [Hs Ha] Hp Hr. destruct c; cbn [run idle_pre] in *; repeat case_match; simplify_eq; (split; [|done]);
    cbn [sets set_sets set_values set_lists set_pending set_limiters]; intros k; try apply Hs.
  - rewrite lookup_delete. case_decide; [done|apply Hs].
  - rewrite lookup_partial_alter. case_decide; [|apply Hs]. subst. simpl. rewrite Hs. set_solver.
Qed.

Lemma idle_handle bot m s : idle_wp (handle bot m) s ().
Proof.
  unfold handle. destruct (msg_Job m) as [job|]; [|by split]. split; [exact I|]. intros s1 r _ Hr. destruct r as [[]|]; [done|exact I..].
Qed.
Lemma idle_handle_all bot l s : idle_wp (handle_all bot l) s ().
Proof. revert s. induction l as [|m l IH]; intros s; [exact I|]. eapply wp_bind; [apply idle_handle|]. intros ? [] ? _ _. apply IH. Qed.
Lemma idle_then {A B} (p : prog cmd A) (b : B) s : idle_wp p s () -> idle_wp (p ;; Ret b)%prog s ().
Proof. intros Hp. eapply wp_bind; [exact Hp|done]. Qed.
Lemma idle_Run bot s : idle_wp (Run bot) s ().
Proof. split; [exact I|]. intros s1 r _ _. destruct r as [l|]; [|exact I]. apply idle_then, idle_handle_all. Qed.

Lemma idle_reclaim_all l s : idle_wp (reclaim_all l) s ().
Proof.
  revert s. induction l as [|m l IH]; intros s; [exact I|]. apply (wp_bind (fun _ _ _ => True)); [|intros ? [] ? _ _; apply IH].
  unfold reclaim_one. destruct (msg_Job m); [|by split]. split; [exact I|]. intros s1 r _ _.
  destruct r as [[]|]; [by split|..]; (split; [exact I|]; intros s2 e2 _ _; destruct e2; [by split|exact I]).
Qed.
Lemma idle_reclaim s : idle_wp reclaim s ().
Proof. split; [exact I|]. intros s1 r _ _. destruct r as [l|]; [|exact I]. apply idle_then, idle_reclaim_all. Qed.

Lemma idle_sync bot l s : l = [] -> idle_wp (syncBotMembership bot l) s ().
Proof. intros ->. by split. Qed.

Lemma idle_caller channelID userID s : idle_wp (caller channelID userID) s ().
Proof.
  unfold caller, CheckMembership. set (ask := (jobID <- call NewUUID ;; _)%prog).
  assert (Hask : forall s, idle_wp (r <- ask ;; Ret (Checked r))%prog s ()).
  { intros s0. do 2 (split; [exact I|]; intros ? ? _ _). split; [exact I|]. intros s3 sent _ _. destruct sent; [|exact I].
    split; [exact I|]. intros s4 res _ _. destruct res as [res|]; [|exact I]. simpl. destruct (negb _); [exact I|].
    destruct (res_IsMember res); (split; [exact I|]; intros; exact I). }
  split; [exact I|]. intros s1 v _ _. destruct v as [v|]; [|apply Hask]. simpl. destruct (v =? "")%string; [apply Hask|exact I].
Qed.

#[local] Instance idle_laws : LogicLaws (LOGIC := idle_logic) outcome again (appears assigned) passes.
Proof.
  split.
  - apply idle_order.
  - intros R s s' g c _ Hp. by destruct c.
  - done.
  - intros R c s r s' gs i [] HI _ Hp Ho. assert (Hk : forall r s', run c s = Some (r, s') -> idle_Inv s' []).
    { intros r1 s1 H1. exact (idle_run R c s r1 s1 HI Hp H1). }
    destruct Ho as [Hr|[(e & Hf & Hs)|H]].
    + split; [by eapply Hk|]. split; [|done]. destruct c; try done. cbn [run] in Hr. injection Hr as <- <-.
      cbn. destruct HI as [-> _]. rewrite bool_decide_eq_false_2 by set_solver. done.
    + split; [destruct Hs as [-> |[r0 Hr]]; [done|by eapply Hk]|]. split; [|done]. destruct c; try done. by injection Hf as <-.
    + destruct c; try done. by destruct H as [_ ->].
  - intros k p s gs i g a HI Hi _ Hk. exists (). split; [done|].
    destruct k; cbn [again] in Hk; [injection Hk as <-; apply idle_Run|injection Hk as <-; apply idle_reclaim|done..].
  - intros k p s gs HI Hs. exists (). split; [done|].
    destruct Hs; [apply idle_Run|apply idle_reclaim|by eapply idle_sync, nothing|apply idle_caller].
  - intros s s' gs HI Hd. split; [|done]. by destruct Hd.
Qed.

Lemma nobody_asked w : reachable assigned w -> asked (shared w) = [].
Proof.
  intros Hw. assert (good (LOGIC := idle_logic) w) as (gs & [_ Ha] & _); [|done].
  eapply (good_reachable outcome again (appears assigned) passes); [|exact Hw]. exists []. split; [|constructor].
  split; [|done]. intros key. cbn. by rewrite lookup_empty.
Qed.
End idle.
