(* ===== verification/MemberStore.v ===== *)
(** member-bot: the tables of internal/models and the statements of
    internal/store. *)
From S2P Require Import Prelude GoInt GoFloat GoString GoText Effects PayModels Bus AdsModels.

(** * internal/models/models.go *)

Record Owner := {
  ow_ID : uuid; ow_DeletedAt : option Z; ow_CreatedAt : Z; ow_TelegramID : Z; ow_Username : string;
  ow_FirstName : string; ow_Balance : numeric; ow_IsBlocked : bool;
}.

Inductive LockStatus := LockActive | LockExpired.
#[export] Instance LockStatus_eq_dec : EqDecision LockStatus.
Proof. solve_decision. Defined.

Record Lock := {
  lk_ID : uuid; lk_DeletedAt : option Z; lk_CreatedAt : Z; lk_OwnerID : uuid; lk_ChannelID : Z; lk_ChannelTitle : string;
  lk_MaxMembers : Z; lk_CurrentCount : Z; lk_DurationDay : Z; lk_PricePerDay : numeric; lk_Status : LockStatus;
  lk_ExpiresAt : Z;
}.

Record CheckBot := {
  cb_ID : uuid; cb_DeletedAt : option Z; cb_Token : string; cb_Username : string; cb_IsActive : bool; cb_RateLimit : Z;
}.
Record BotChannelMembership := { bm_JoinedAt : option Z; bm_LastVerified : Z }.

Record Payment := {
  mp_ID : uuid; mp_DeletedAt : option Z; mp_OwnerID : uuid; mp_LockID : uuid; mp_Amount : numeric; mp_TxHash : string;
  mp_Status : string;
}.

(** BotIDFromToken *)
Definition BotIDFromToken (token : string) : option Z :=
  match Cut ":" token with
  | Some (id, _) => ParseInt 10 id
  | None => None
  end.

(** The tables; memberships by bot and channel. *)
Record MemberTables := {
  owners : gmap uuid Owner; locks : gmap uuid Lock; check_bots : gmap uuid CheckBot;
  memberships : gmap (uuid * Z) BotChannelMembership; payments : gmap uuid Payment;
}.
Definition set_owners f d := {| owners := f (owners d); locks := locks d; check_bots := check_bots d;
  memberships := memberships d; payments := payments d |}.
Definition set_locks f d := {| owners := owners d; locks := f (locks d); check_bots := check_bots d;
  memberships := memberships d; payments := payments d |}.
Definition set_bots f d := {| owners := owners d; locks := locks d; check_bots := f (check_bots d);
  memberships := memberships d; payments := payments d |}.
Definition set_bot_channels f d := {| owners := owners d; locks := locks d; check_bots := check_bots d;
  memberships := f (memberships d); payments := payments d |}.
Definition set_payments f d := {| owners := owners d; locks := locks d; check_bots := check_bots d;
  memberships := memberships d; payments := f (payments d) |}.

(** * The state beside the tables: conversations, messages sent, events published *)

Inductive step_name := stepIdle | stepLockChannel | stepLockDuration | stepLockPrice | stepAddBot | stepAdminBroadcast.
#[export] Instance step_name_eq_dec : EqDecision step_name.
Proof. solve_decision. Defined.
Record memberState := { Step : step_name; Data : gmap string string }.
Definition idle : memberState := {| Step := stepIdle; Data := ∅ |}.

Record MemberWorld := {
  mw_states : gmap Z (memberState * Z);  (* with the time of expiry *)
  mw_out : list Outgoing;
  mw_sent : list Event;
}.
#[export] Instance member_outbox : Outbox MemberWorld.
Proof.
  refine {| outbox := mw_sent;
            post := fun m w => {| mw_states := mw_states w; mw_out := mw_out w; mw_sent := mw_sent w ++ [m] |} |}.
  done.
Defined.

(** * internal/store/store.go *)

Section store.
Context {ENV : Env} {PG : PgNumeric}.
Abbreviation MM := (M MemberTables MemberWorld).

(** Every query on a model with DeletedAt passes over deleted rows. *)
Definition undeleted {A} (deleted : A -> option Z) (x : A) : bool := match deleted x with None => true | Some _ => false end.

Definition zero_owner : Owner := {| ow_ID := 0; ow_DeletedAt := None; ow_CreatedAt := 0; ow_TelegramID := 0; ow_Username := "";
  ow_FirstName := ""; ow_Balance := Num 0; ow_IsBlocked := false |}.
Definition zero_lock : Lock := {| lk_ID := 0; lk_DeletedAt := None; lk_CreatedAt := 0; lk_OwnerID := 0; lk_ChannelID := 0;
  lk_ChannelTitle := ""; lk_MaxMembers := 0; lk_CurrentCount := 0; lk_DurationDay := 0; lk_PricePerDay := Num 0;
  lk_Status := LockExpired; lk_ExpiresAt := 0 |}.

Definition select_owner (P : Owner -> bool) (d : MemberTables) : option Owner :=
  first_row ow_ID (fun o => undeleted ow_DeletedAt o && P o) (rows (owners d)).
Definition select_lock (P : Lock -> bool) (d : MemberTables) : option Lock :=
  first_row lk_ID (fun l => undeleted lk_DeletedAt l && P l) (rows (locks d)).

Definition FindOwnerByID (id : uuid) : MM (option Owner * option error) :=
  row_and_error zero_owner (first (select_owner (fun o => (ow_ID o =? id)%N))).
Definition FindOwnerByTelegramID (id : Z) : MM (option Owner * option error) :=
  row_and_error zero_owner (first (select_owner (fun o => ow_TelegramID o =? id))).

(** The unique index on telegram_id covers deleted rows too. *)
Definition CreateOwner (o : Owner) : MM unit :=
  exec (fun d => if existsb (fun x => ow_TelegramID x =? ow_TelegramID o) (rows (owners d)) then Err (ErrDuplicatedKey "telegram_id")
                 else Ok (set_owners <[ow_ID o := o]> d)).

Definition FindLockByChannelID (channelID : Z) : MM (option Lock * option error) :=
  row_and_error zero_lock (first (select_lock (fun l => (lk_ChannelID l =? channelID) && bool_decide (lk_Status l = LockActive)))).
Definition FindLockByID (lockID : uuid) : MM (option Lock * option error) :=
  row_and_error zero_lock (first (select_lock (fun l => (lk_ID l =? lockID)%N))).

(** So does the one on channel_id. *)
Definition CreateLock (l : Lock) : MM unit :=
  exec (fun d => if existsb (fun x => lk_ChannelID x =? lk_ChannelID l) (rows (locks d)) then Err (ErrDuplicatedKey "channel_id")
                 else Ok (set_locks <[lk_ID l := l]> d)).

Definition with_lock (status : LockStatus) (deleted : option Z) (l : Lock) : Lock := {|
  lk_ID := lk_ID l; lk_DeletedAt := deleted; lk_CreatedAt := lk_CreatedAt l; lk_OwnerID := lk_OwnerID l;
  lk_ChannelID := lk_ChannelID l; lk_ChannelTitle := lk_ChannelTitle l; lk_MaxMembers := lk_MaxMembers l;
  lk_CurrentCount := lk_CurrentCount l; lk_DurationDay := lk_DurationDay l; lk_PricePerDay := lk_PricePerDay l;
  lk_Status := status; lk_ExpiresAt := lk_ExpiresAt l |}.
Definition update_lock (id : uuid) (f : Lock -> Lock) : MM unit :=
  exec (fun d => Ok (set_locks (alter (fun l => if undeleted lk_DeletedAt l then f l else l) id) d)).

Definition ExpireLock (lockID : uuid) : MM unit := update_lock lockID (fun l => with_lock LockExpired (lk_DeletedAt l) l).
Definition DeleteLock (lockID : uuid) : MM unit :=
  (n <- now ;; update_lock lockID (fun l => with_lock (lk_Status l) (Some n) l))%eff.

Definition is_full (l : Lock) : bool := (0 <? lk_MaxMembers l) && (lk_MaxMembers l <=? lk_CurrentCount l).
Definition FindExpiredLocks : MM (list Lock) :=
  (n <- now ;;
   find (fun d => List.filter (fun l => undeleted lk_DeletedAt l && bool_decide (lk_Status l = LockActive)
                                        && ((lk_ExpiresAt l <? n) || is_full l)) (rows (locks d))))%eff.

(** The channels of a bot's memberships, which Preload fetches with it. *)
Definition channels_of (id : uuid) (d : MemberTables) : list Z :=
  omap (fun p => if (p.1.1 =? id)%N then Some p.1.2 else None) (map_to_list (memberships d)).
Definition FindActiveBots : MM (list (CheckBot * list Z)) :=
  find (fun d => map (fun b => (b, channels_of (cb_ID b) d))
    (List.filter (fun b => undeleted cb_DeletedAt b && cb_IsActive b) (rows (check_bots d)))).

Definition CreateCheckBot (b : CheckBot) : MM unit := exec (fun d => Ok (set_bots <[cb_ID b := b]> d)).

(** Assign with a zero time leaves the column. *)
Definition AddBotMembership (botID : uuid) (channelID : Z) : MM unit :=
  (n <- now ;;
   exec (fun d => Ok (set_bot_channels (partial_alter (fun m => Some
     {| bm_JoinedAt := match m with Some m => bm_JoinedAt m | None => None end; bm_LastVerified := n |}) (botID, channelID)) d)))%eff.

Definition newest_lock (a b : Lock) : Prop := lk_CreatedAt b <= lk_CreatedAt a.
#[local] Instance newest_lock_dec : RelDecision newest_lock := fun a b => Z_le_dec (lk_CreatedAt b) (lk_CreatedAt a).
Definition newest_owner (a b : Owner) : Prop := ow_CreatedAt b <= ow_CreatedAt a.
#[local] Instance newest_owner_dec : RelDecision newest_owner := fun a b => Z_le_dec (ow_CreatedAt b) (ow_CreatedAt a).

Definition FindLocksByOwnerID (ownerID : uuid) : MM (list Lock) :=
  find (fun d => merge_sort newest_lock
    (List.filter (fun l => undeleted lk_DeletedAt l && (lk_OwnerID l =? ownerID)%N) (rows (locks d)))).
Definition ListOwners : MM (list Owner) :=
  find (fun d => merge_sort newest_owner (List.filter (undeleted ow_DeletedAt) (rows (owners d)))).
Definition ListAllLocks : MM (list Lock) :=
  find (fun d => merge_sort newest_lock (List.filter (undeleted lk_DeletedAt) (rows (locks d)))).

Definition confirmed (p : Payment) : Payment := {|
  mp_ID := mp_ID p; mp_DeletedAt := mp_DeletedAt p; mp_OwnerID := mp_OwnerID p; mp_LockID := mp_LockID p;
  mp_Amount := mp_Amount p; mp_TxHash := mp_TxHash p; mp_Status := "confirmed" |}.
Definition ApprovePayment (payID : uuid) : MM unit :=
  exec (fun d => Ok (set_payments (alter (fun p => if undeleted mp_DeletedAt p then confirmed p else p) payID) d)).

Definition ClearBotMemberships : MM unit := exec (fun d => Ok (set_bot_channels (fun _ => ∅) d)).

Definition with_bot (active : bool) (deleted : option Z) (b : CheckBot) : CheckBot := {|
  cb_ID := cb_ID b; cb_DeletedAt := deleted; cb_Token := cb_Token b; cb_Username := cb_Username b; cb_IsActive := active;
  cb_RateLimit := cb_RateLimit b |}.
Definition update_bot (id : uuid) (f : CheckBot -> CheckBot) : MM unit :=
  exec (fun d => Ok (set_bots (alter (fun b => if undeleted cb_DeletedAt b then f b else b) id) d)).
Definition DeactivateBotByID (id : uuid) : MM unit := update_bot id (fun b => with_bot false (cb_DeletedAt b) b).
Definition DeleteBotByID (id : uuid) : MM unit :=
  (n <- now ;; update_bot id (fun b => with_bot (cb_IsActive b) (Some n) b))%eff.
End store.
