(* ===== verification/MemberEvents.v ===== *)
(** member-bot: internal/events, what it tells the bus about joins, leaves and
    activity, through shared/pkg/fraudclient. *)
From S2P Require Import Prelude GoInt GoFloat GoString Effects Bus.

(** * shared/pkg/fraudclient/client.go *)

Section fraudclient.
Context {D X : Type} {ENV : Env} `{Outbox X}.

Definition ReportJoin (telegramID communityID : Z) (source campaignID : string) : M D X unit :=
  publish_quiet "fraud.event.join"
    [("telegram_id", AInt telegramID); ("community_id", AInt communityID); ("source", AStr source);
     ("campaign_id", AStr campaignID)]%string.

Definition ReportLeave (telegramID communityID : Z) : M D X unit :=
  publish_quiet "fraud.event.leave" [("telegram_id", AInt telegramID); ("community_id", AInt communityID)]%string.

Definition ReportActivity (telegramID communityID messages replies reactions : Z) : M D X unit :=
  publish_quiet "fraud.event.activity"
    [("telegram_id", AInt telegramID); ("community_id", AInt communityID); ("messages", AInt messages);
     ("replies", AInt replies); ("reactions", AInt reactions)]%string.
End fraudclient.

(** * internal/events/publisher.go *)

(** telebot's MemberStatus. *)
Definition role_outside (r : string) : bool := ((r =? "left") || (r =? "kicked"))%string.
Definition role_inside (r : string) : bool :=
  ((r =? "member") || (r =? "administrator") || (r =? "creator") || (r =? "restricted"))%string.

Record ChatMemberUpdate := {
  cm_User : Z; cm_Chat : Z; cm_Username : string; cm_Old : string; cm_New : string;
  cm_InviteLink : option string;
}.

(** url[strings.LastIndex(url, sep)+len(sep):], when [sep] occurs. *)
Fixpoint after_last (sep s : string) : option string :=
  match s with
  | EmptyString => None
  | String _ s' =>
      match after_last sep s' with
      | Some r => Some r
      | None => if HasPrefix s sep then Some (drop_chars (String.length sep) s) else None
      end
  end.

Definition extractInviteHash (url : string) : string :=
  match after_last "/+" url with
  | Some h => h
  | None => match after_last "/joinchat/" url with Some h => h | None => "" end
  end.

Section publisher.
Context {D X : Type} {ENV : Env} `{Outbox X}.
(** p.fraud is set. *)
Context (fraud : bool).

Definition publishJoin (telegramID chatID : Z) (username source inviteHash : string) : M D X unit :=
  (n <- now ;;
   publish_quiet "membership.joined"
     [("telegram_id", AInt telegramID); ("community_id", AInt chatID); ("source", AStr source);
      ("invite_hash", AStr inviteHash); ("joined_at", AInt (n / 1000000000)); ("username", AStr username)]%string ;;
   if fraud then ReportJoin telegramID chatID source inviteHash else ret tt)%eff.

Definition publishLeave (telegramID chatID : Z) : M D X unit :=
  (n <- now ;;
   publish_quiet "membership.left"
     [("telegram_id", AInt telegramID); ("community_id", AInt chatID); ("left_at", AInt (n / 1000000000))]%string ;;
   if fraud then ReportLeave telegramID chatID else ret tt)%eff.

Definition PublishActivity (telegramID chatID messages replies reactions : Z) : M D X unit :=
  (publish_quiet "community.activity.updated"
     [("telegram_id", AInt telegramID); ("community_id", AInt chatID); ("messages", AInt messages);
      ("replies", AInt replies); ("reactions", AInt reactions)]%string ;;
   if fraud then ReportActivity telegramID chatID messages replies reactions else ret tt)%eff.

Definition onChatMember (u : option ChatMemberUpdate) : M D X unit :=
  match u with
  | None => ret tt
  | Some u =>
      let wasOutside := role_outside (cm_Old u) || (cm_Old u =? "")%string in
      let isInside := role_inside (cm_New u) in
      if wasOutside && isInside then
        match cm_InviteLink u with
        | Some link =>
            if (link =? "")%string then publishJoin (cm_User u) (cm_Chat u) (cm_Username u) "organic" ""
            else publishJoin (cm_User u) (cm_Chat u) (cm_Username u) "invite_link" (extractInviteHash link)
        | None => publishJoin (cm_User u) (cm_Chat u) (cm_Username u) "organic" ""
        end
      else if role_inside (cm_Old u) && role_outside (cm_New u) then publishLeave (cm_User u) (cm_Chat u)
      else ret tt
  end.

(** The users that a service message says have joined: id and username. *)
Fixpoint onUserJoined (chatID : Z) (joined : list (Z * string)) : M D X unit :=
  match joined with
  | [] => ret tt
  | (user, username) :: l => (publishJoin user chatID username "organic" "" ;; onUserJoined chatID l)%eff
  end.

Definition onUserLeft (chatID : Z) (left : option Z) : M D X unit :=
  match left with None => ret tt | Some user => publishLeave user chatID end.

(** What Telegram sends about members. *)
Inductive member_update :=
| ChatMember (u : option ChatMemberUpdate)
| UsersJoined (chatID : Z) (joined : list (Z * string))
| UserLeft (chatID : Z) (left : option Z).

Definition member_event (u : member_update) : M D X unit :=
  match u with
  | ChatMember u => onChatMember u
  | UsersJoined chat l => onUserJoined chat l
  | UserLeft chat u => onUserLeft chat u
  end.

Fixpoint member_events (l : list member_update) : M D X unit :=
  match l with [] => ret tt | u :: l => (member_event u ;; member_events l)%eff end.
End publisher.

Example hash_of_link : extractInviteHash "https://t.me/+AbC/joinchat/+De" = "De".
Proof. reflexivity. Qed.
Example hash_of_joinchat : extractInviteHash "https://t.me/joinchat/AbC" = "AbC".
Proof. reflexivity. Qed.
