(* ===== verification/MemberBot.v ===== *)
(** member-bot: the Telegram interface of internal/tgbot, the balancer of
    internal/dispatcher, the scheduler and what reaches the service. *)
From S2P Require Import Prelude GoInt GoFloat GoString GoText Effects PayModels PayChain Consensus Auth Bus AdsModels MemberStore MemberEvents.

(** * internal/tgbot/keyboards.go *)

Definition btnMyLocks : string := "🔒 قفل‌های من".
Definition btnNewLock : string := "➕ قفل جدید".
Definition btnMyBots : string := "🤖 check bot ها".
Definition btnAddBot : string := "➕ افزودن bot".
Definition btnBalance : string := "💰 موجودی".
Definition btnHelp : string := "❓ راهنما".
Definition btnCancel : string := "❌ انصراف".
Definition btnBack : string := "🔙 بازگشت".

(** The chat a message was forwarded from: its id and title. *)
Record Forwarded := { fo_Sender : bool; fo_Chat : option (Z * string) }.

(** What Telegram delivers. *)
Inductive MemberUpdate :=
| UpText (uid : Z) (text : string)
| UpGroupText (chatID : Z) (sender : option (Z * bool)) (isReply : bool)   (* the sender's id and whether it is a bot *)
| UpChannelPost (sender : option Z) (msg : Forwarded)
| UpCallback (uid : Z) (callback_data : string)
| UpMember (u : member_update).

(** uuid.Parse's value when it fails; sort.Slice on bots with their loads, which
    leaves open how ties are ordered. *)
Class MemberAnswers := {
  uuid_of_bad : string -> uuid;
  by_load : list (uuid * Z) -> list (uuid * Z);
}.

Section bot.
Context {ENV : Env} {PG : PgNumeric} {UUID : UuidParser} {LIB : Lib} {CRYPTO : Crypto} {ANS : MemberAnswers}.
Context (ownerID : Z) (encryptKey : string) (has_activity has_fraud : bool).
Abbreviation MM := (M MemberTables MemberWorld).

(** * Conversation states: internal/tgbot/state.go *)

Definition set_states f w := {| mw_states := f (mw_states w); mw_out := mw_out w; mw_sent := mw_sent w |}.
Definition add_out o w := {| mw_states := mw_states w; mw_out := mw_out w ++ [o]; mw_sent := mw_sent w |}.
Definition send (chat : Z) (text : string) (args : list fmtarg) : MM unit := mod_ext (add_out (Message chat text args)).
Definition edit (chat : Z) (text : string) (args : list fmtarg) : MM unit := mod_ext (add_out (Edit chat text args)).

Definition stateTTL : Z := 15 * 60 * 1000000000.

(** A failing Redis, a missing and an expired entry all give the idle state. *)
Definition getState (uid : Z) : MM memberState := fun s =>
  (Ok match env_fault (tick s), mw_states (ext s) !! uid with
      | None, Some (st, expires) => if env_now (tick s) <? expires then st else idle
      | _, _ => idle
      end, bump s).
Definition setState (uid : Z) (st : memberState) : MM unit := fun s =>
  match env_fault (tick s) with
  | Some _ => (Ok tt, bump s)
  | None => (Ok tt, mkSt (S (tick s)) (tx s) (db s) (set_states <[uid := (st, env_now (tick s) + stateTTL)]> (ext s)))
  end.
Definition setStep (uid : Z) (st : step_name) (kv : list (string * string)) : MM unit :=
  (s <- getState uid ;;
   setState uid {| Step := st; Data := foldl (fun m p => <[fst p := snd p]> m) (Data s) kv |})%eff.
Definition clearState (uid : Z) : MM unit := fun s =>
  match env_fault (tick s) with
  | Some _ => (Ok tt, bump s)
  | None => (Ok tt, mkSt (S (tick s)) (tx s) (db s) (set_states (delete uid) (ext s)))
  end.
Definition data (st : memberState) (k : string) : string := default ""%string (Data st !! k).

Definition isAdmin (uid : Z) : bool := uid =? ownerID.

Definition fmtLock (l : Lock) : list fmtarg :=
  [AInt (if bool_decide (lk_Status l = LockExpired) then 1 else 0); AStr (lk_ChannelTitle l); AInt (lk_ChannelID l);
   AInt (lk_CurrentCount l); AFloat (of_numeric (lk_PricePerDay l))].

(** * internal/tgbot/owner.go *)

Fixpoint send_locks (uid : Z) (l : list Lock) : MM unit :=
  match l with
  | [] => ret tt
  | x :: l => (send uid "lock" (fmtLock x ++ [AStr (uuid_String (lk_ID x))]) ;; send_locks uid l)%eff
  end.
Definition onMyLocks (uid : Z) : MM unit :=
  (o <- FindOwnerByTelegramID uid ;;
   match fst o with
   | None => send uid "start first" []
   | Some owner =>
       (l <- try (FindLocksByOwnerID (ow_ID owner)) ;;
        match l with
        | Err _ | Ok [] => send uid "no locks" []
        | Ok l => send_locks uid l
        end)
   end)%eff.

Definition onNewLock (uid : Z) : MM unit := (setStep uid stepLockChannel [] ;; send uid "lock:channel?" [])%eff.

Definition handleChannelForward (uid : Z) (st : memberState) (msg : Forwarded) : MM unit :=
  match fo_Chat msg with
  | None => send uid (if fo_Sender msg then "lock:no channel" else "lock:forward")%string []
  | Some (channelID, channelTitle) =>
      (existing <- FindLockByChannelID channelID ;;
       match fst existing with
       | Some l => send uid "lock:exists" [AStr (uuid_String (lk_ID l))]
       | None =>
           (setStep uid stepLockDuration
              [("channel_id", FormatInt 10 channelID); ("channel_title", channelTitle)]%string ;;
            send uid "lock:days?" [AStr channelTitle; AInt channelID])
       end)%eff
  end.

Definition handleLockDuration (uid : Z) (st : memberState) (text : string) : MM unit :=
  match ParseInt 10 (TrimSpace text) with
  | Some days =>
      if (days <=? 0) || (365 <? days) then send uid "lock:bad days" []
      else
      (setStep uid stepLockPrice
         [("channel_id", data st "channel_id"); ("channel_title", data st "channel_title");
          ("duration_day", FormatInt 10 days)]%string ;;
       send uid "lock:price?" [AInt days])%eff
  | None => send uid "lock:bad days" []
  end.

Definition handleLockPrice (uid : Z) (st : memberState) (text : string) : MM unit :=
  (clearState uid ;;
   match ParseFloat (TrimSpace text) with
   | None => send uid "lock:bad price" []
   | Some price =>
       if f64_lt price (f64_of_int 0) then send uid "lock:bad price" []
       else
       (o <- FindOwnerByTelegramID uid ;;
        match fst o with
        | None => send uid "error" []
        | Some owner =>
            (let channelID := ParseInt_value 10 (data st "channel_id") in
             let days := ParseInt_value 10 (data st "duration_day") in
             n <- now ;;
             id <- uuid_New ;;
             created <- now ;;
             let lock := {| lk_ID := id; lk_DeletedAt := None; lk_CreatedAt := created; lk_OwnerID := ow_ID owner;
               lk_ChannelID := channelID; lk_ChannelTitle := data st "channel_title"; lk_MaxMembers := 0;
               lk_CurrentCount := 0; lk_DurationDay := days; lk_PricePerDay := to_numeric price; lk_Status := LockActive;
               lk_ExpiresAt := n + days * (86400 * 1000000000) |} in
             e <- try (CreateLock lock) ;;
             match e with
             | Err _ => send uid "lock:failed" []
             | Ok _ => send uid "lock:created" [AStr (lk_ChannelTitle lock); AInt days; AFloat price; AStr (uuid_String id)]
             end)
        end)
   end)%eff.

Definition canManageLock (uid : Z) (lockID : uuid) : MM bool :=
  (if isAdmin uid then ret true
   else
   (l <- FindLockByID lockID ;;
    match l with
    | (_, Some e) => throw e
    | (None, None) => ret false
    | (Some lock, None) =>
        (o <- FindOwnerByTelegramID uid ;;
         match o with
         | (_, Some e) => throw e
         | (None, None) => ret false
         | (Some owner, None) => ret (lk_OwnerID lock =? ow_ID owner)%N
         end)
    end))%eff.

Definition managed (uid : Z) (lockIDStr : string) (act : uuid -> MM unit) (done : string) : MM unit :=
  match uuid_Parse lockIDStr with
  | None => edit uid "bad id" []
  | Some lockID =>
      (ok <- try (canManageLock uid lockID) ;;
       match ok with
       | Ok true => (try (act lockID) ;; edit uid done [])
       | _ => edit uid "not allowed" []
       end)%eff
  end.
Definition pauseLock (uid : Z) (lockIDStr : string) : MM unit := managed uid lockIDStr ExpireLock "lock paused".
Definition deleteLock (uid : Z) (lockIDStr : string) : MM unit := managed uid lockIDStr DeleteLock "lock deleted".

Definition onMyBots (uid : Z) : MM unit :=
  (r <- try FindActiveBots ;;
   match r with
   | Err _ => send uid "error" []
   | Ok [] => send uid "no bots" []
   | Ok bots => send uid "bots" (AInt (Z.of_nat (length bots)) ::
       concat (map (fun b => [AStr (cb_Username b.1); AInt (Z.of_nat (length b.2)); AInt (cb_RateLimit b.1)]) bots))
   end)%eff.

Definition onAddBot (uid : Z) : MM unit := (setStep uid stepAddBot [] ;; send uid "bot:token?" [])%eff.

Definition handleBotToken (uid : Z) (st : memberState) (text : string) : MM unit :=
  (clearState uid ;;
   let token := TrimSpace text in
   if (strlen token <? 40) || negb (has_char ":" token) then send uid "bot:bad token" []
   else
   match BotIDFromToken token with
   | None => send uid "bot:bad format" []
   | Some botID =>
       (enc <- try (Encrypt token encryptKey) ;;
        match enc with
        | Err _ => send uid "bot:encryption" []
        | Ok encToken =>
            (id <- uuid_New ;;
             e <- try (CreateCheckBot {| cb_ID := id; cb_DeletedAt := None; cb_Token := encToken;
                        cb_Username := "bot_" +:+ FormatInt 10 botID; cb_IsActive := true; cb_RateLimit := 20 |}) ;;
             match e with
             | Err _ => send uid "bot:failed" []
             | Ok _ => send uid "bot:added" [AStr (uuid_String id)]
             end)
        end)
   end)%eff.

Definition onBalance (uid : Z) : MM unit :=
  (o <- FindOwnerByTelegramID uid ;;
   match fst o with
   | None => send uid "start first" []
   | Some owner => send uid "balance" [AFloat (of_numeric (ow_Balance owner))]
   end)%eff.

(** Nothing calls it. *)
Definition createOwner (uid : Z) (username firstName : string) : MM Owner :=
  (id <- uuid_New ;; n <- now ;;
   let o := {| ow_ID := id; ow_DeletedAt := None; ow_CreatedAt := n; ow_TelegramID := uid; ow_Username := username;
               ow_FirstName := firstName; ow_Balance := Num 0; ow_IsBlocked := false |} in
   CreateOwner o ;; ret o)%eff.

(** * internal/tgbot/admin.go *)

Definition listed {A} (r : result (list A)) : list A := match r with Ok l => l | Err _ => [] end.

Definition onAdmin (uid : Z) : MM unit := if isAdmin uid then send uid "admin" [] else ret tt.

Definition adminStats (uid : Z) : MM unit :=
  (os <- try ListOwners ;; ls <- try ListAllLocks ;; bs <- try FindActiveBots ;;
   let active := length (List.filter (fun l => bool_decide (lk_Status l = LockActive)) (listed ls)) in
   send uid "stats" [AInt (Z.of_nat (length (listed os))); AInt (Z.of_nat active); AInt (Z.of_nat (length (listed ls)));
                     AInt (Z.of_nat (length (listed bs)))])%eff.

Definition adminOwners (uid : Z) : MM unit :=
  (os <- try ListOwners ;;
   match listed os with
   | [] => send uid "no owners" []
   | l => send uid "owners" (AInt (Z.of_nat (length l)) :: concat (map (fun o =>
       [AInt (ow_TelegramID o); AStr (ow_Username o); AStr (if ow_IsBlocked o then " 🚫" else "");
        AFloat (of_numeric (ow_Balance o))]) l))
   end)%eff.

Definition adminLocks (uid : Z) : MM unit :=
  (ls <- try ListAllLocks ;;
   match listed ls with
   | [] => send uid "no locks at all" []
   | l => send uid "locks" (AInt (Z.of_nat (length l)) :: concat (map fmtLock l))
   end)%eff.

Definition approvePayment (uid : Z) (payIDStr : string) : MM unit :=
  if negb (isAdmin uid) then edit uid "not allowed" []
  else
  (e <- try (ApprovePayment (default (uuid_of_bad payIDStr) (uuid_Parse payIDStr))) ;;
   match e with Err _ => edit uid "error" [] | Ok _ => edit uid "payment approved" [AStr payIDStr] end)%eff.

Fixpoint broadcast_to (text : string) (sent : Z) (l : list Owner) : MM Z :=
  match l with
  | [] => ret sent
  | o :: l => if ow_IsBlocked o then broadcast_to text sent l
              else (send (ow_TelegramID o) text [] ;; broadcast_to text (sent + 1) l)%eff
  end.
Definition doBroadcast (uid : Z) (text : string) : MM unit :=
  (clearState uid ;;
   os <- try ListOwners ;;
   sent <- broadcast_to text 0 (listed os) ;;
   send uid "broadcast done" [AInt sent; AInt 0])%eff.

Definition handleAdminText (uid : Z) (text : string) : MM unit :=
  if (text =? "📊 آمار")%string then adminStats uid
  else if (text =? "👥 مالکان")%string then adminOwners uid
  else if (text =? "🔒 همه قفل‌ها")%string then adminLocks uid
  else if (text =? "📣 broadcast")%string then (setStep uid stepAdminBroadcast [] ;; send uid "broadcast:text?" [])%eff
  else ret tt.

(** * internal/tgbot/handler.go *)

Definition onDeprecatedRedirect (uid : Z) : MM unit := if isAdmin uid then ret tt else send uid "moved to ads-bot" [].
Definition onStart (uid : Z) : MM unit := if isAdmin uid then send uid "admin" [] else send uid "infrastructure" [].
Definition onHelp (uid : Z) : MM unit := send uid "help" [].
Definition onCancel (uid : Z) : MM unit := (clearState uid ;; send uid "cancelled" [])%eff.

Definition is_exit (text : string) : bool := (text =? btnCancel)%string || (text =? btnBack)%string.

Definition handleStep (uid : Z) (st : memberState) (text : string) : MM unit :=
  if is_exit text then onCancel uid
  else match Step st with
  | stepLockDuration => handleLockDuration uid st text
  | stepLockPrice => handleLockPrice uid st text
  | stepAddBot => handleBotToken uid st text
  | stepAdminBroadcast => doBroadcast uid text
  | stepIdle | stepLockChannel => ret tt
  end.

(** A text in a group only counts as activity. *)
Definition onGroupText (chatID : Z) (sender : option (Z * bool)) (isReply : bool) : MM unit :=
  match sender with
  | Some (uid, false) => if has_activity then PublishActivity has_fraud uid chatID 1 (if isReply then 1 else 0) 0 else ret tt
  | _ => ret tt
  end.

Definition onText (uid : Z) (text : string) : MM unit :=
  let text := TrimSpace text in
  (st <- getState uid ;;
   if negb (bool_decide (Step st = stepIdle)) then handleStep uid st text
   else if existsb (String.eqb text) [btnMyLocks; btnNewLock; btnMyBots; btnAddBot; btnBalance] then
     if negb (isAdmin uid) then send uid "moved to ads-bot" []
     else if (text =? btnMyLocks)%string then onMyLocks uid
     else if (text =? btnNewLock)%string then onNewLock uid
     else if (text =? btnMyBots)%string then onMyBots uid
     else if (text =? btnAddBot)%string then onAddBot uid
     else onBalance uid
   else if (text =? btnHelp)%string then onHelp uid
   else if is_exit text then onCancel uid
   else if isAdmin uid then handleAdminText uid text
   else ret tt)%eff.

(** A channel's post has no sender as a rule; then the handler dereferences nil. *)
Definition onChannelPost (sender : option Z) (msg : Forwarded) : MM unit :=
  match sender with
  | None => throw (Sentinel "runtime" "nil pointer dereference")
  | Some uid =>
      (st <- getState uid ;;
       if bool_decide (Step st = stepLockChannel) then handleChannelForward uid st msg else ret tt)%eff
  end.

Definition onCallback (uid : Z) (callback_data : string) : MM unit :=
  let callback_data := match callback_data with
    | String c rest => if Ascii.eqb c "012" then rest else callback_data | EmptyString => callback_data end in
  match Cut ":" callback_data with
  | Some (action, arg) =>
      if action =? "lock_pause" then pauseLock uid arg
      else if action =? "lock_delete" then deleteLock uid arg
      else if action =? "approve_pay" then approvePayment uid arg
      else if action =? "cancel" then (clearState uid ;; edit uid "cancelled" [])%eff
      else ret tt
  | None => if callback_data =? "cancel" then (clearState uid ;; edit uid "cancelled" [])%eff else ret tt
  end%string.

(** Register: the commands, then the kinds of update. *)
Definition Member_handle (u : MemberUpdate) : MM unit :=
  match u with
  | UpText uid text =>
      if text =? "/start" then onStart uid
      else if text =? "/help" then onHelp uid
      else if text =? "/admin" then onAdmin uid
      else if text =? "/cancel" then onCancel uid
      else if existsb (String.eqb text) ["/mylocks"; "/newlock"; "/mybots"; "/addbot"; "/balance"] then onDeprecatedRedirect uid
      else onText uid text
  | UpGroupText chat sender reply => onGroupText chat sender reply
  | UpChannelPost sender msg => onChannelPost sender msg
  | UpCallback uid callback_data => onCallback uid callback_data
  | UpMember u => member_event has_fraud u
  end%string.

(** * internal/dispatcher/balancer.go *)

Definition minBotsPerChannel : nat := 2.

Definition selectLeastLoaded (bots : list uuid) (loads : gmap uuid Z) (n : nat) : list uuid :=
  let ranked := by_load (map (fun b => (b, default 0 (loads !! b))) bots) in
  map fst (take (Nat.min n (length ranked)) ranked).

Fixpoint add_bots (channelID : Z) (selected : list uuid) (loads : gmap uuid Z) : MM (gmap uuid Z) :=
  match selected with
  | [] => ret loads
  | b :: l =>
      (e <- try (AddBotMembership b channelID) ;;
       add_bots channelID l (match e with Ok _ => <[b := default 0 (loads !! b) + 1]> loads | Err _ => loads end))%eff
  end.
Fixpoint assign_locks (bots : list uuid) (redundancy : nat) (l : list Lock) (loads : gmap uuid Z) : MM unit :=
  match l with
  | [] => ret tt
  | x :: l =>
      if bool_decide (lk_Status x = LockActive)
      then (loads <- add_bots (lk_ChannelID x) (selectLeastLoaded bots loads redundancy) loads ;;
            assign_locks bots redundancy l loads)%eff
      else assign_locks bots redundancy l loads
  end.

Definition Assign : MM unit :=
  (bots <- FindActiveBots ;;
   match bots with
   | [] => ret tt
   | _ =>
       (ls <- ListAllLocks ;;
        let ids := map (fun b => cb_ID b.1) bots in
        let loads := list_to_map (map (fun b => (cb_ID b.1, Z.of_nat (length b.2))) bots) in
        assign_locks ids (Nat.min minBotsPerChannel (length bots)) ls loads)
   end)%eff.

Definition Rebalance : MM unit := (ClearBotMemberships ;; Assign)%eff.
Definition OnBotDown (downBotID : uuid) : MM unit := (try (DeactivateBotByID downBotID) ;; Rebalance)%eff.

(** [heartbeat]: whether Redis has the bot's key. *)
Fixpoint check_bots_alive (heartbeat : uuid -> bool) (l : list (CheckBot * list Z)) : MM unit :=
  match l with
  | [] => ret tt
  | b :: l => ((if heartbeat (cb_ID b.1) then ret tt else (try (OnBotDown (cb_ID b.1)) ;; ret tt)) ;;
               check_bots_alive heartbeat l)%eff
  end.
Definition HealthCheck (heartbeat : uuid -> bool) : MM unit := (bots <- FindActiveBots ;; check_bots_alive heartbeat bots)%eff.

Definition ScaleUp (encryptedToken : string) : MM unit :=
  (id <- uuid_New ;;
   CreateCheckBot {| cb_ID := id; cb_DeletedAt := None; cb_Token := encryptedToken; cb_Username := ""; cb_IsActive := true;
                     cb_RateLimit := 20 |} ;;
   Rebalance)%eff.
Definition ScaleDown (botID : uuid) : MM unit := (OnBotDown botID ;; DeleteBotByID botID)%eff.

(** * internal/scheduler/scheduler.go *)

Definition expireReason (l : Lock) : list fmtarg :=
  if is_full l then [AStr "full"; AInt (lk_CurrentCount l); AInt (lk_MaxMembers l)] else [AStr "over"; AInt (lk_ExpiresAt l)].

Fixpoint expire_each (l : list Lock) : MM unit :=
  match l with
  | [] => ret tt
  | x :: l =>
      (e <- try (ExpireLock (lk_ID x)) ;;
       (match e with
        | Err _ => ret tt
        | Ok _ =>
            (o <- FindOwnerByID (lk_OwnerID x) ;;
             match o with
             | (Some owner, None) => send (ow_TelegramID owner) "lock expired" (AStr (lk_ChannelTitle x) :: expireReason x)
             | _ => ret tt
             end)
        end) ;;
       expire_each l)
  end%eff.
Definition expireLocks : MM unit :=
  (r <- try FindExpiredLocks ;; match r with Err _ => ret tt | Ok l => expire_each l end)%eff.

(** * Everything that reaches the service *)

Inductive member_op :=
| MemberTelegram (u : MemberUpdate)
| MinuteTick
| Started
| BotDown (id : uuid)
| HeartbeatCheck (heartbeat : uuid -> bool)
| NewBot (encryptedToken : string)
| RemoveBot (id : uuid).

Definition member_perform (o : member_op) : MM unit :=
  match o with
  | MemberTelegram u => Member_handle u
  | MinuteTick => expireLocks
  | Started => Assign
  | BotDown id => OnBotDown id
  | HeartbeatCheck heartbeat => HealthCheck heartbeat
  | NewBot token => ScaleUp token
  | RemoveBot id => ScaleDown id
  end.

Fixpoint member_serve (l : list member_op) : MM unit :=
  match l with [] => ret tt | o :: l => (try (member_perform o) ;; member_serve l)%eff end.
End bot.
