(* ===== verification/MemberIdleSpec.v ===== *)
(** member-bot as a whole: what its Telegram interface, its balancer and its
    scheduler store, and what that means for the membership checks. *)
From S2P Require Import Prelude GoInt GoFloat GoString GoText Effects PayModels PayChain Consensus Auth Bus Triples AdsModels.
From S2P Require Import Threads MemberCheck MemberCheckSpec MemberTruthSpec MemberStore MemberEvents MemberBot.

Section idle_tables.
Context {ENV : Env} {clock : Z -> Prop} {QUIET : Quiet clock}.
Abbreviation MM := (M MemberTables MemberWorld).

(** Nobody owns anything. *)
Definition bare (d : MemberTables) : Prop := owners d = ∅ /\ locks d = ∅ /\ memberships d = ∅.

(** From bare tables [m] ends, also with an error, on bare tables. *)
Definition stays {A} (Q : A -> Prop) (m : MM A) : Prop := forall t d x, bare d ->
  exists r t' d' x', m (mkSt t NoTx d x) = (r, mkSt t' NoTx d' x') /\ bare d' /\ on_ok Q r.

Lemma stays_weaken {A} (P Q : A -> Prop) m : stays P m -> (forall a, P a -> Q a) -> stays Q m.
Proof.
  intros Hm HPQ t d x Hd. destruct (Hm t d x Hd) as (r & t' & d' & x' & E & Hd' & Hr).
  exists r, t', d', x'. split; [done|]. split; [done|]. destruct r; [by apply HPQ|done].
Qed.
Lemma stays_ret {A} (Q : A -> Prop) a : Q a -> stays Q (ret a).
Proof. intros HQ t d x Hd. by exists (Ok a), t, d, x. Qed.
Lemma stays_throw {A} (Q : A -> Prop) e : stays Q (throw e).
Proof. intros t d x Hd. by exists (Err e), t, d, x. Qed.
Lemma stays_bind {A B} (P : A -> Prop) (Q : B -> Prop) (m : MM A) (k : A -> MM B) :
  stays P m -> (forall a, P a -> stays Q (k a)) -> stays Q (bind m k).
Proof.
  intros Hm Hk t d x Hd. destruct (Hm t d x Hd) as (r & t1 & d1 & x1 & E & Hd1 & Hr). unfold bind. rewrite E.
  destruct r as [a|e]; [by apply Hk|]. by exists (Err e), t1, d1, x1.
Qed.
Lemma stays_try {A} (m : MM A) : stays anything m -> stays anything (try m).
Proof.
  intros Hm t d x Hd. destruct (Hm t d x Hd) as (r & t1 & d1 & x1 & E & Hd1 & _). unfold try. rewrite E. by exists (Ok r), t1, d1, x1.
Qed.
Lemma stays_now : stays anything (now : MM _).
Proof. intros t d x Hd. by eexists _, _, d, x. Qed.
Lemma stays_uuid : stays anything (uuid_New : MM _).
Proof. intros t d x Hd. by eexists _, _, d, x. Qed.
Lemma stays_rand n : stays anything (rand_Read n : MM _).
Proof. intros t d x Hd. unfold rand_Read, bump. cbn [tick]. destruct (env_fault t); by eexists _, _, d, x. Qed.
Lemma stays_mod_ext f : stays anything (mod_ext f : MM _).
Proof. intros t d x Hd. by eexists _, _, d, _. Qed.

(** A statement succeeds or is refused, and does not fail. *)
Lemma stays_find {A} (q : MemberTables -> A) : stays (fun a => exists d, bare d /\ a = q d) (find q).
Proof.
  intros t d x Hd. exists (Ok (q d)), (S t), d, x. split; [|split; [done|by exists d]].
  by rewrite find_quiet by (apply quiet_fault || done).
Qed.
Lemma stays_exec f : (forall d d', bare d -> f d = Ok d' -> bare d') -> stays anything (exec f).
Proof.
  intros Hf t d x Hd. unfold exec. rewrite stmt_quiet by (apply quiet_fault || done). simpl.
  destruct (f d) as [d'|e] eqn:E; simpl; [|exists (Err e), (S t), d, x; split; [by destruct e|done]]. eexists _, _, d', x. split; [done|]. split; [by eapply Hf|done].
Qed.
Lemma stays_row {A} (zero : A) (q : MemberTables -> option A) :
  (forall d, bare d -> q d = None) -> stays (fun p => p = (None, None)) (row_and_error zero (first q)).
Proof.
  intros Hq t d x Hd. exists (Ok (None, None)), (S t), d, x. split; [|done]. unfold row_and_error.
  rewrite first_quiet by (apply quiet_fault || done). simpl. by rewrite (Hq d Hd).
Qed.
Lemma stays_publish subject payload : stays anything (publish_quiet subject payload : MM _).
Proof.
  intros t d x Hd. unfold publish_quiet, PublishCore, bind, try, bump. destruct (json_ok _); simpl; [|by eexists _, _, d, x].
  rewrite quiet_fault. by eexists _, _, d, _.
Qed.
End idle_tables.

Section idle_service.
Context {ENV : Env} {clock : Z -> Prop} {QUIET : Quiet clock}.
Context {PG : PgNumeric} {UUID : UuidParser} {LIB : Lib} {CRYPTO : Crypto} {ANS : MemberAnswers}.
Context (ownerID : Z) (encryptKey : string) (has_activity has_fraud : bool).
Abbreviation MM := (M MemberTables MemberWorld).

(** ** The statements *)

Lemma no_owner P d : bare d -> select_owner P d = None.
Proof. intros (Ho & _). unfold select_owner, rows. by rewrite Ho, map_to_list_empty. Qed.
Lemma no_lock P d : bare d -> select_lock P d = None.
Proof. intros (_ & Hl & _). unfold select_lock, rows. by rewrite Hl, map_to_list_empty. Qed.

Lemma stays_FindOwnerByTelegramID id : stays (fun p => p = (None, None)) (FindOwnerByTelegramID id).
Proof. apply stays_row. intros d. apply no_owner. Qed.
Lemma stays_FindOwnerByID id : stays (fun p => p = (None, None)) (FindOwnerByID id).
Proof. apply stays_row. intros d. apply no_owner. Qed.
Lemma stays_FindLockByChannelID id : stays (fun p => p = (None, None)) (FindLockByChannelID id).
Proof. apply stays_row. intros d. apply no_lock. Qed.
Lemma stays_FindLockByID id : stays (fun p => p = (None, None)) (FindLockByID id).
Proof. apply stays_row. intros d. apply no_lock. Qed.

Lemma stays_ListAllLocks : stays (fun l => l = []) ListAllLocks.
Proof.
  eapply stays_weaken; [apply stays_find|]. intros l (d & (_ & Hl & _) & ->). unfold rows. by rewrite Hl, map_to_list_empty.
Qed.
Lemma stays_FindExpiredLocks : stays (fun l => l = []) FindExpiredLocks.
Proof.
  eapply stays_bind; [apply stays_now|]. intros n _. eapply stays_weaken; [apply stays_find|].
  intros l (d & (_ & Hl & _) & ->). unfold rows. by rewrite Hl, map_to_list_empty.
Qed.
Lemma stays_any_find {A} (q : MemberTables -> A) : stays anything (find q).
Proof. eapply stays_weaken; [apply stays_find|done]. Qed.

Lemma stays_lock_update id f : stays anything (update_lock id f).
Proof.
  apply stays_exec. intros d d' (Ho & Hl & Hm) [= <-]. split; [done|]. split; [|done]. simpl. rewrite Hl.
  apply map_eq. intros j. by rewrite lookup_alter, lookup_empty; destruct (decide _).
Qed.
Lemma stays_bots f : stays anything (exec (fun d => Ok (set_bots f d))).
Proof. apply stays_exec. by intros d d' Hd [= <-]. Qed.
Lemma stays_payments f : stays anything (exec (fun d => Ok (set_payments f d))).
Proof. apply stays_exec. by intros d d' Hd [= <-]. Qed.
Lemma stays_ClearBotMemberships : stays anything ClearBotMemberships.
Proof. apply stays_exec. by intros d d' (Ho & Hl & _) [= <-]. Qed.

Lemma stays_getState uid : stays anything (getState uid).
Proof. intros t d x Hd. by eexists _, _, d, x. Qed.
Lemma stays_setState uid st : stays anything (setState uid st).
Proof. intros t d x Hd. unfold setState, bump. simpl. rewrite quiet_fault. by eexists _, _, d, _. Qed.
Lemma stays_clearState uid : stays anything (clearState uid).
Proof. intros t d x Hd. unfold clearState, bump. simpl. rewrite quiet_fault. by eexists _, _, d, _. Qed.
Lemma stays_send chat text args : stays anything (send chat text args).
Proof. apply stays_mod_ext. Qed.
Lemma stays_edit chat text args : stays anything (edit chat text args).
Proof. apply stays_mod_ext. Qed.
Lemma stays_setStep uid st kv : stays anything (setStep uid st kv).
Proof. eapply stays_bind; [apply stays_getState|]. intros. apply stays_setState. Qed.

Create HintDb stays discriminated.
Hint Resolve stays_any_find stays_lock_update stays_bots stays_payments stays_ClearBotMemberships stays_getState stays_setState
  stays_clearState stays_send stays_edit stays_setStep stays_now stays_uuid stays_rand stays_publish stays_throw : stays.

(** Descends into a handler; lookups of owners and locks find none. *)
Ltac stays_tac :=
  repeat first
    [ solve [eauto 2 with stays] | apply stays_ret; done | apply stays_try
    | eapply (stays_bind (fun p => p = (None, None)));
        [first [apply stays_FindOwnerByTelegramID | apply stays_FindOwnerByID | apply stays_FindLockByChannelID | apply stays_FindLockByID]
        |intros ? ->; cbn [fst]]
    | eapply (stays_bind anything); [|intros ? _]
    | progress cbv beta iota zeta | progress case_match ].

(** ** The handlers *)

Lemma stays_expire_each l : stays anything (expire_each l).
Proof. induction l as [|x l IH]; simpl; [by apply stays_ret|]. unfold ExpireLock. stays_tac. Qed.
Lemma stays_expireLocks : stays anything expireLocks.
Proof. eapply stays_bind; [apply stays_try; eapply stays_weaken; [apply stays_FindExpiredLocks|done]|]. intros r _. destruct r; [apply stays_expire_each|by apply stays_ret]. Qed.

Lemma stays_send_locks uid l : stays anything (send_locks uid l).
Proof. induction l as [|x l IH]; simpl; stays_tac. Qed.
Lemma stays_broadcast_to text n l : stays anything (broadcast_to text n l).
Proof. revert n. induction l as [|o l IH]; intros n; simpl; stays_tac; apply IH. Qed.
Hint Resolve stays_send_locks stays_broadcast_to : stays.

Lemma stays_FindActiveBots : stays anything FindActiveBots.
Proof. apply stays_any_find. Qed.
Lemma stays_any_locks : stays anything ListAllLocks.
Proof. apply stays_any_find. Qed.
Hint Resolve stays_FindActiveBots stays_any_locks : stays.

Lemma stays_managed uid s act text : (forall id, stays anything (act id)) -> stays anything (managed ownerID uid s act text).
Proof. intros Ha. unfold managed, canManageLock. stays_tac. Qed.
Lemma stays_pause_delete uid s : stays anything (pauseLock ownerID uid s) /\ stays anything (deleteLock ownerID uid s).
Proof. split; apply stays_managed; intros id; unfold ExpireLock, DeleteLock; stays_tac. Qed.

Lemma stays_handleBotToken uid st text : stays anything (handleBotToken encryptKey uid st text).
Proof. unfold handleBotToken, Encrypt, gcm_key, CreateCheckBot. stays_tac. Qed.
Lemma stays_handleLockPrice uid st text : stays anything (handleLockPrice uid st text).
Proof. unfold handleLockPrice. stays_tac. Qed.
Lemma stays_handleLockDuration uid st text : stays anything (handleLockDuration uid st text).
Proof. unfold handleLockDuration. stays_tac. Qed.
Lemma stays_handleChannelForward uid st msg : stays anything (handleChannelForward uid st msg).
Proof. unfold handleChannelForward. stays_tac. Qed.
Lemma stays_doBroadcast uid text : stays anything (doBroadcast uid text).
Proof. unfold doBroadcast, ListOwners. stays_tac. Qed.
Hint Resolve stays_handleBotToken stays_handleLockPrice stays_handleLockDuration stays_handleChannelForward stays_doBroadcast : stays.

Lemma stays_menus uid text : stays anything (onMyLocks uid) /\ stays anything (onNewLock uid) /\ stays anything (onMyBots uid) /\
  stays anything (onAddBot uid) /\ stays anything (onBalance uid) /\ stays anything (handleAdminText uid text) /\
  stays anything (approvePayment ownerID uid text) /\ stays anything (onCancel uid) /\ stays anything (onHelp uid).
Proof.
  unfold onMyLocks, onNewLock, onMyBots, onAddBot, onBalance, handleAdminText, adminStats, adminOwners, adminLocks, approvePayment,
    onCancel, onHelp, ListOwners, ApprovePayment. split_and!; stays_tac.
Qed.

Lemma stays_onText uid text : stays anything (onText ownerID encryptKey uid text).
Proof.
  unfold onText, handleStep. destruct (stays_menus uid (TrimSpace text)) as (? & ? & ? & ? & ? & ? & ? & ? & ?). stays_tac; assumption.
Qed.

Hint Resolve stays_onText : stays.

Lemma stays_publishJoin u c name source hash : stays anything (publishJoin has_fraud u c name source hash : MM _).
Proof. unfold publishJoin, ReportJoin. stays_tac. Qed.
Lemma stays_publishLeave u c : stays anything (publishLeave has_fraud u c : MM _).
Proof. unfold publishLeave, ReportLeave. stays_tac. Qed.
Lemma stays_PublishActivity u c a b e : stays anything (PublishActivity has_fraud u c a b e : MM _).
Proof. unfold PublishActivity, ReportActivity. stays_tac. Qed.
Hint Resolve stays_publishJoin stays_publishLeave stays_PublishActivity : stays.

Lemma stays_member_event u : stays anything (member_event has_fraud u : MM _).
Proof.
  destruct u as [u|chat l|chat u]; simpl; [unfold onChatMember; stays_tac| |unfold onUserLeft; stays_tac].
  induction l as [|[user name] l IH]; simpl; stays_tac.
Qed.

Lemma stays_onCallback uid s : stays anything (onCallback ownerID uid s).
Proof.
  unfold onCallback. cbv zeta. match goal with |- context [Cut ":" ?e] => generalize e end. intros d.
  destruct (Cut ":" d) as [[action arg]|]; [|stays_tac]. destruct (stays_menus uid arg) as (? & ? & ? & ? & ? & ? & ? & ? & ?).
  destruct (stays_pause_delete uid arg). stays_tac; assumption.
Qed.

Lemma stays_handle u : stays anything (Member_handle ownerID encryptKey has_activity has_fraud u).
Proof.
  destruct u; unfold Member_handle; [|unfold onGroupText; stays_tac|unfold onChannelPost; stays_tac|apply stays_onCallback|apply stays_member_event].
  unfold onStart, onAdmin, onDeprecatedRedirect. destruct (stays_menus uid text) as (? & ? & ? & ? & ? & ? & ? & ? & ?).
  stays_tac; assumption.
Qed.

(** ** The balancer has nothing to assign *)

Lemma stays_Assign : stays anything Assign.
Proof.
  unfold Assign. eapply stays_bind; [apply stays_FindActiveBots|]. intros bots _. destruct bots; [by apply stays_ret|].
  eapply stays_bind; [apply stays_ListAllLocks|]. intros ls ->. by apply stays_ret.
Qed.
Lemma stays_Rebalance : stays anything Rebalance.
Proof. eapply stays_bind; [apply stays_ClearBotMemberships|]. intros. apply stays_Assign. Qed.
Lemma stays_OnBotDown id : stays anything (OnBotDown id).
Proof. eapply stays_bind; [apply stays_try, stays_bots|]. intros. apply stays_Rebalance. Qed.
Lemma stays_HealthCheck heartbeat : stays anything (HealthCheck heartbeat).
Proof.
  eapply stays_bind; [apply stays_FindActiveBots|]. intros bots _. induction bots as [|b l IH]; simpl; [by apply stays_ret|].
  eapply (stays_bind anything); [|done]. destruct (heartbeat _); [by apply stays_ret|].
  eapply stays_bind; [apply stays_try, stays_OnBotDown|]. intros. by apply stays_ret.
Qed.
Lemma stays_ScaleUp token : stays anything (ScaleUp token).
Proof.
  eapply stays_bind; [apply stays_uuid|]. intros id _. eapply stays_bind; [apply stays_bots|]. intros. apply stays_Rebalance.
Qed.
Lemma stays_ScaleDown id : stays anything (ScaleDown id).
Proof.
  eapply stays_bind; [apply stays_OnBotDown|]. intros _ _. eapply stays_bind; [apply stays_now|]. intros. apply stays_bots.
Qed.

Lemma stays_serve l : stays anything (member_serve ownerID encryptKey has_activity has_fraud l).
Proof.
  induction l as [|o l IH]; simpl; [by apply stays_ret|]. eapply stays_bind; [|intros _ _; exact IH]. apply stays_try.
  destruct o; simpl; [apply stays_handle|apply stays_expireLocks|apply stays_Assign|apply stays_OnBotDown|apply stays_HealthCheck
    |apply stays_ScaleUp|apply stays_ScaleDown].
Qed.

(** ** The service *)

(** The channels that the database assigns to a bot after some operations. *)
Definition bare_state (d : MemberTables) (x : MemberWorld) : st MemberTables MemberWorld := mkSt 0 NoTx d x.
Definition assigned_by (s0 : st MemberTables MemberWorld) (id : string) (l : list Z) : Prop :=
  exists ops r s b, member_serve ownerID encryptKey has_activity has_fraud ops s0 = (r, s) /\
    id = uuid_String b /\ l = channels_of b (db s).

(** Nothing creates an owner, and without one no lock: started on empty
    tables, and as long as no statement fails, member-bot's Telegram interface,
    balancer and scheduler leave owners, locks and assignments empty, so that
    no bot is in any channel and no membership check ever succeeds. *)
Theorem no_check_succeeds s0 : tx s0 = NoTx -> bare (db s0) ->
  (forall ops, exists r s, member_serve ownerID encryptKey has_activity has_fraud ops s0 = (r, s) /\ bare (db s)) /\
  forall w, reachable (assigned_by s0) w -> asked (shared w) = [] /\
    forall i channelID userID a, threads w !! i <> Some (Caller channelID userID, Ret (Checked (Ok a))).
Proof.
  intros Ht Hd. destruct s0 as [t ? d x]. simpl in *. subst.
  assert (Hserve : forall ops, exists r s, member_serve ownerID encryptKey has_activity has_fraud ops (mkSt t NoTx d x) = (r, s) /\ bare (db s)).
  { intros ops. destruct (stays_serve ops t d x Hd) as (r & t' & d' & x' & E & Hd' & _). by exists r, (mkSt t' NoTx d' x'). }
  split; [done|]. intros w Hw.
  assert (Ha : asked (shared w) = []).
  { apply (nobody_asked (assigned_by (mkSt t NoTx d x))); [|done]. intros id l (ops & r & s & b & E & _ & ->).
    destruct (Hserve ops) as (r' & s' & E' & _ & _ & Hm). rewrite E' in E. injection E as <- <-.
    unfold channels_of. by rewrite Hm, map_to_list_empty. }
  split; [done|]. intros i channelID userID [b cached] Hi.
  destruct (answers_telegram _ w i channelID userID b cached Hw Hi) as (bot & job & a & Hin & _). rewrite Ha in Hin.
  by apply elem_of_nil in Hin.
Qed.
End idle_service.
