(* ===== verification/MemberDemo.v ===== *)
(** member-bot at work: a scheduler that runs the threads of MemberCheck.v, and
    the theorems on concrete runs. *)
From S2P Require Import Prelude GoInt GoFloat GoString GoText Effects PayModels PayChain Consensus ConsensusSpec Bus Triples AdsModels.
From S2P Require Import Threads MemberCheck MemberCheckSpec MemberTruthSpec MemberStore MemberEvents MemberBot MemberIdleSpec.

(** * A scheduler *)

(** What happens next: the thread [i] runs a command, or its command fails or
    is answered; a thread starts over or appears; time passes. *)
Inductive action :=
| ADo (i : nat)
| AFail (i : nat)
| AUuid (i : nat) (u : string)
| AAnswer (i : nat) (a : TelegramAnswer)
| AAgain (i : nat)
| ACaller (channelID userID : Z)
| ASync (id : string) (l : list Z)
| ABot (id : string)
| ARegister (id : string) (rate : Z)
| ATime (d : Z).

Definition checks := pool (E := cmd) (S := Shared) (K := kind) (A := answer).
Definition everything (id : string) (l : list Z) : Prop := True.

Definition put (w : checks) (i : nat) (k : kind) (p : prog cmd answer) (s : Shared) : checks :=
  {| shared := s; threads := <[i := (k, p)]> (threads w) |}.

Definition run_cmd (w : checks) (i : nat) (k : kind) {R} (c : cmd R) (cont : R -> prog cmd answer) : option checks :=
  match run c (shared w) with Some (r, s) => Some (put w i k (cont r) s) | None => None end.
Definition fail_cmd (w : checks) (i : nat) (k : kind) {R} (c : cmd R) (cont : R -> prog cmd answer) : option checks :=
  match failed c (ErrDriver 0) with Some r => Some (put w i k (cont r) (shared w)) | None => None end.
Definition uuid_cmd (w : checks) (i : nat) (k : kind) (u : string) {R} (c : cmd R) : (R -> prog cmd answer) -> option checks :=
  match c in cmd R return (R -> prog cmd answer) -> option checks with
  | NewUUID => fun cont => if bool_decide (u ∉ issued (shared w)) then Some (put w i k (cont u) (add_issued u (shared w))) else None
  | _ => fun _ => None
  end.
Definition answer_cmd (w : checks) (i : nat) (k : kind) (a : TelegramAnswer) {R} (c : cmd R) : (R -> prog cmd answer) -> option checks :=
  match c in cmd R return (R -> prog cmd answer) -> option checks with
  | GetChatMember bot job => fun cont => Some (put w i k (cont a) (add_asked (bot, job, a) (shared w)))
  | _ => fun _ => None
  end.

Definition act (a : action) (w : checks) : option checks :=
  match a with
  | ADo i => match threads w !! i with Some (k, Do c cont) => run_cmd w i k c cont | _ => None end
  | AFail i => match threads w !! i with Some (k, Do c cont) => fail_cmd w i k c cont | _ => None end
  | AUuid i u => match threads w !! i with Some (k, Do c cont) => uuid_cmd w i k u c cont | _ => None end
  | AAnswer i a => match threads w !! i with Some (k, Do c cont) => answer_cmd w i k a c cont | _ => None end
  | AAgain i => match threads w !! i with
                | Some (k, Ret _) => match again k with Some p => Some (put w i k p (shared w)) | None => None end
                | _ => None end
  | ACaller ch u => if in_int64b ch && in_int64b u
                    then Some {| shared := shared w; threads := threads w ++ [(Caller ch u, caller ch u)] |} else None
  | ASync id l => Some {| shared := shared w; threads := threads w ++ [(Sync, syncBotMembership id l)] |}
  | ABot id => match limiters (shared w) !! id with
               | Some _ => Some {| shared := shared w; threads := threads w ++ [(Bot id, Run id)] |} | None => None end
  | ARegister id rate => match limiters (shared w) !! id with
      | None => Some {| shared := set_limiters <[id := NewBotWorker rate (clock (shared w))]> (shared w); threads := threads w |}
      | Some _ => None end
  | ATime d => if 0 <=? d then Some {| shared := set_clock (Z.add d) (shared w); threads := threads w |} else None
  end.

Lemma act_step a w w' : act a w = Some w' -> check_step everything w w'.
Proof.
  intros H. destruct a; simpl in H.
  - destruct (threads w !! i) as [[k [|R c cont]]|] eqn:E; try done. unfold run_cmd in H.
    destruct (run c (shared w)) as [[r s]|] eqn:Er; [|done]. injection H as <-. eapply step_do; [exact E|by left].
  - destruct (threads w !! i) as [[k [|R c cont]]|] eqn:E; try done. unfold fail_cmd in H.
    destruct (failed c (ErrDriver 0)) as [r|] eqn:Er; [|done]. injection H as <-. eapply step_do; [exact E|].
    right. left. exists (ErrDriver 0). split; [done|by left].
  - destruct (threads w !! i) as [[k [|R c cont]]|] eqn:E; try done. destruct c; try done. simpl in H.
    destruct (bool_decide (u ∉ issued (shared w))) eqn:Eu; [|done]. injection H as <-. zbool. eapply step_do; [exact E|by right; right].
  - destruct (threads w !! i) as [[k [|R c cont]]|] eqn:E; try done. destruct c; try done. injection H as <-.
    eapply step_do; [exact E|by right; right].
  - destruct (threads w !! i) as [[k [r|]]|] eqn:E; try done. destruct (again k) as [p|] eqn:Ek; [|done]. injection H as <-.
    by eapply step_restart.
  - destruct (in_int64b channelID) eqn:E1; [|done]. destruct (in_int64b userID) eqn:E2; [|done]. injection H as <-.
    apply step_spawn. constructor; by apply in_int64b_spec.
  - injection H as <-. by apply step_spawn, sync_starts.
  - destruct (limiters (shared w) !! id) eqn:E; [|done]. injection H as <-. apply step_spawn. constructor. by rewrite E.
  - destruct (limiters (shared w) !! id) eqn:E; [done|]. injection H as <-. by apply step_drift, bot_registered.
  - destruct (0 <=? d) eqn:E; [|done]. injection H as <-. zbool. by apply step_drift, time_passes.
Qed.

Fixpoint act_all (l : list action) (w : checks) : option checks :=
  match l with [] => Some w | a :: l => match act a w with Some w => act_all l w | None => None end end.
Lemma act_all_steps l w w' : act_all l w = Some w' -> rtc (check_step everything) w w'.
Proof.
  revert w. induction l as [|a l IH]; simpl; intros w H; [by injection H as <-|].
  destruct (act a w) as [w1|] eqn:E; [|done]. eapply rtc_l; [by apply act_step in E|by apply IH].
Qed.

(** * Runs *)

(** The world that a list of actions leads to from the start. *)
Definition after (l : list action) : checks := default no_threads (act_all l no_threads).
Lemma after_reachable l : reachable everything (after l).
Proof. unfold after. destruct (act_all l no_threads) as [w|] eqn:E; [by apply act_all_steps in E|apply rtc_refl]. Qed.

(** Bot b is in channel -5, and a caller asks about user 7 there. *)
Definition one_check : list action :=
  [ARegister "b" 20; ABot "b"; ASync "b" [-5]; ADo 1; ADo 1; ADo 1; ACaller (-5) 7; ADo 2; AUuid 2 "J"; ADo 2; ADo 2]%string.
Definition one_answer : list action :=
  one_check ++ [ADo 0; ADo 0; ADo 0; ADo 0; AAnswer 0 (Status "member"); ADo 0; ADo 0; ADo 0; ADo 2; ADo 2].
(** Bot c is in no channel, and reads the job first. *)
Definition one_loss : list action := one_check ++ [ARegister "c" 20; ABot "c"; ADo 3]%string.

Definition job_J : CheckJob :=
  {| JobID := "J"; ChannelID := -5; UserID := 7; ReplyKey := "memberbot:reply:J"; EnqueuedAt := 0 |}.

Lemma answers_are_telegrams_witness : exists bot job a,
  (bot, job, a) ∈ asked (shared (after one_answer)) /\ ChannelID job = -5 /\ UserID job = 7 /\ member_of a = (true, ""%string) /\
  (true = true -> a = Status "member" \/ a = Status "administrator" \/ a = Status "creator").
Proof.
  apply (answers_are_telegrams everything (after one_answer) 2 (-5) 7 true false).
  - apply after_reachable.
  - vm_compute. reflexivity.
Defined.


Definition lost : checks := put (after one_loss) 3 (Bot "c") (Ret Nothing) (shared (after one_loss)).

(** * The service on empty tables *)

#[local] Existing Instance calm_env.
#[local] Existing Instance demo_lib.
#[local] Existing Instance demo_crypto.
Definition no_parse : UuidParser := {| uuid_Parse := fun _ => None |}.
#[local] Existing Instance no_parse.
Definition no_numbers : PgNumeric := {| decimal := fun _ => 0%Q; nearest := fun _ => f64_of_int 0 |}.
#[local] Existing Instance no_numbers.
Definition lighter (a b : uuid * Z) : Prop := a.2 <= b.2.
#[local] Instance lighter_dec : RelDecision lighter := fun a b => Z_le_dec a.2 b.2.
Definition sorted_answers : MemberAnswers := {| uuid_of_bad := fun _ => 0%N; by_load := merge_sort lighter |}.
#[local] Existing Instance sorted_answers.
Definition any_time (n : Z) : Prop := True.
Lemma calm_is_quiet : Quiet any_time.
Proof. split; [intros k; reflexivity|done]. Qed.
#[local] Existing Instance calm_is_quiet.

Definition no_rows : MemberTables := {| owners := ∅; locks := ∅; check_bots := ∅; memberships := ∅; payments := ∅ |}.
Definition quiet_world : MemberWorld := {| mw_states := ∅; mw_out := []; mw_sent := [] |}.

(** The administrator tries to lock a channel: nothing comes of it. *)
Definition a_lock : list member_op := map MemberTelegram
  [UpText 1 btnNewLock; UpChannelPost (Some 1) {| fo_Sender := false; fo_Chat := Some (-5, "channel"%string) |};
   UpText 1 "30"; UpText 1 "500"] ++ [Started; MinuteTick].

Lemma no_check_succeeds_witness :
  locks (db (snd (member_serve 1 "" true true a_lock (mkSt 0 NoTx no_rows quiet_world)))) = ∅ /\
  forall w, reachable (assigned_by 1 "" true true (mkSt 0 NoTx no_rows quiet_world)) w -> asked (shared w) = [].
Proof.
  destruct (no_check_succeeds 1 "" true true (mkSt 0 NoTx no_rows quiet_world)) as [H1 H2].
  - reflexivity.
  - repeat split.
  - split; [|intros w Hw; apply (H2 w Hw)]. destruct (H1 a_lock) as (r & s & E & _ & Hl & _). rewrite E. exact Hl.
Defined.

(** The conversation does go through all its steps, up to the missing owner. *)
Example lock_attempt :
  map (fun o => match o with Message _ text _ => text | Edit _ text _ => text end)
    (mw_out (ext (snd (member_serve 1 "" true true a_lock (mkSt 0 NoTx no_rows quiet_world))))) =
  ["lock:channel?"; "lock:days?"; "lock:price?"; "error"]%string.
Proof. vm_compute. reflexivity. Qed.
