(* ===== verification/Fraud.v ===== *)
(** fraud-engine: the trust score of users and the quality score of
    communities, the documents they are computed from, and the handlers that
    keep them up to date from the events of the bus. *)
From S2P Require Import Prelude GoInt GoFloat GoString Effects PayModels PayChain Bus Community.

(** * internal/store/models.go *)

Record UserProfile := {
  up_TelegramID : Z; up_Username : string; up_FirstName : string; up_LastName : string;
  up_HasPhoto : bool; up_IsBot : bool; up_FirstSeen : option Z; up_LastSeen : Z; up_UpdatedAt : Z;
  up_TrustScore : Z; up_ScoreLabel : string;
  up_TotalJoins : Z; up_TotalLeaves : Z; up_TotalCampaigns : Z; up_AdCompletions : Z;
}.

Record UserProfileHistory := {
  ph_TelegramID : Z; ph_Field : string; ph_OldValue : string; ph_NewValue : string; ph_ChangedAt : Z;
}.

Record UserMembership := {
  um_TelegramID : Z; um_CommunityID : Z; um_JoinedAt : Z; um_LeftAt : option Z; um_DurationSec : Z;
  um_RejoinCount : Z; um_Source : string; um_CampaignID : string;
}.

(** [ua_Date]: the day, counted from the epoch, that the code formats. *)
Record UserActivity := {
  ua_TelegramID : Z; ua_CommunityID : Z; ua_Date : Z; ua_Messages : Z; ua_Replies : Z; ua_Reactions : Z;
  ua_UpdatedAt : Z;
}.

Record ScoreBreakdown := {
  MembershipDuration : float64; JoinLeaveRatio : float64; ActivityScore : float64; RetentionScore : float64;
  DiversityScore : float64; AdQualityScore : float64; Reasons : list string;
}.
Record UserScoreSnapshot := { us_User : Z; us_Value : Z; us_Breakdown : ScoreBreakdown; us_CalculatedAt : Z }.

Record CommunityBreakdown := {
  RetentionRate : float64; ActivityRate : float64; AvgMemberQuality : float64; JoinLeaveRate : float64;
  AdConversionRate : float64; CommunityReasons : list string;
}.
Record CommunityScoreSnapshot := {
  cs_CommunityID : Z; cs_Score : Z; cs_Breakdown : CommunityBreakdown; cs_CalculatedAt : Z; cs_RevenueStatus : string;
}.

Record CommunityStatistics := {
  st_MemberCount : Z; st_ActiveMembers : Z; st_TotalJoins : Z; st_TotalLeaves : Z; st_UpdatedAt : Z;
}.

Inductive FraudEventType :=
| FraudJoinLeaveLoop | FraudMassJoin | FraudSuspiciousProfile | FraudBotBehavior | FraudClickFarm | FraudLowRetention.
(** [fe_Evidence]: the number of recent joins and of days. *)
Record FraudEvent := {
  fe_EventType : FraudEventType; fe_TelegramID : option Z; fe_CommunityID : option Z; fe_Score : Z;
  fe_Description : string; fe_Evidence : Z * Z; fe_DetectedAt : Z; fe_Reviewed : bool;
}.

Definition UserScoreLabel (score : Z) : string :=
  if 80 <=? score then "trusted" else if 60 <=? score then "normal"
  else if 30 <=? score then "suspicious" else "high_risk".
Definition CommunityRevenueStatus (score : Z) : string :=
  if 80 <=? score then "normal" else if 50 <=? score then "monitored"
  else if 30 <=? score then "partial_hold" else "frozen".

(** The collections, those without a key in their natural order. *)
Record FraudDB := {
  user_profiles : gmap Z UserProfile; profile_history : list UserProfileHistory;
  user_memberships : list UserMembership; user_activity : list UserActivity; user_scores : list UserScoreSnapshot;
  community_scores : list CommunityScoreSnapshot; community_statistics : gmap Z CommunityStatistics;
  fraud_events : list FraudEvent;
}.

Definition set_profiles (f : gmap Z UserProfile -> gmap Z UserProfile) (d : FraudDB) : FraudDB :=
  {| user_profiles := f (user_profiles d); profile_history := profile_history d; user_memberships := user_memberships d;
     user_activity := user_activity d; user_scores := user_scores d; community_scores := community_scores d;
     community_statistics := community_statistics d; fraud_events := fraud_events d |}.
Definition set_history (f : list UserProfileHistory -> list UserProfileHistory) (d : FraudDB) : FraudDB :=
  {| user_profiles := user_profiles d; profile_history := f (profile_history d); user_memberships := user_memberships d;
     user_activity := user_activity d; user_scores := user_scores d; community_scores := community_scores d;
     community_statistics := community_statistics d; fraud_events := fraud_events d |}.
Definition set_memberships (f : list UserMembership -> list UserMembership) (d : FraudDB) : FraudDB :=
  {| user_profiles := user_profiles d; profile_history := profile_history d; user_memberships := f (user_memberships d);
     user_activity := user_activity d; user_scores := user_scores d; community_scores := community_scores d;
     community_statistics := community_statistics d; fraud_events := fraud_events d |}.
Definition set_activity (f : list UserActivity -> list UserActivity) (d : FraudDB) : FraudDB :=
  {| user_profiles := user_profiles d; profile_history := profile_history d; user_memberships := user_memberships d;
     user_activity := f (user_activity d); user_scores := user_scores d; community_scores := community_scores d;
     community_statistics := community_statistics d; fraud_events := fraud_events d |}.
Definition set_user_scores (f : list UserScoreSnapshot -> list UserScoreSnapshot) (d : FraudDB) : FraudDB :=
  {| user_profiles := user_profiles d; profile_history := profile_history d; user_memberships := user_memberships d;
     user_activity := user_activity d; user_scores := f (user_scores d); community_scores := community_scores d;
     community_statistics := community_statistics d; fraud_events := fraud_events d |}.
Definition set_community_scores (f : list CommunityScoreSnapshot -> list CommunityScoreSnapshot) (d : FraudDB) : FraudDB :=
  {| user_profiles := user_profiles d; profile_history := profile_history d; user_memberships := user_memberships d;
     user_activity := user_activity d; user_scores := user_scores d; community_scores := f (community_scores d);
     community_statistics := community_statistics d; fraud_events := fraud_events d |}.
Definition set_statistics (f : gmap Z CommunityStatistics -> gmap Z CommunityStatistics) (d : FraudDB) : FraudDB :=
  {| user_profiles := user_profiles d; profile_history := profile_history d; user_memberships := user_memberships d;
     user_activity := user_activity d; user_scores := user_scores d; community_scores := community_scores d;
     community_statistics := f (community_statistics d); fraud_events := fraud_events d |}.
Definition set_fraud_events (f : list FraudEvent -> list FraudEvent) (d : FraudDB) : FraudDB :=
  {| user_profiles := user_profiles d; profile_history := profile_history d; user_memberships := user_memberships d;
     user_activity := user_activity d; user_scores := user_scores d; community_scores := community_scores d;
     community_statistics := community_statistics d; fraud_events := f (fraud_events d) |}.

(** What the service has published. *)
Record FraudWorld := { fw_sent : list Event }.
#[export] Instance fraud_outbox : Outbox FraudWorld.
Proof. refine {| outbox := fw_sent; post := fun m w => {| fw_sent := fw_sent w ++ [m] |} |}. done. Defined.

(** * MongoDB *)

(** An update whose operators name one field twice is refused
    (ConflictingUpdateOperators): [ops] are the fields of each operator. *)
Definition conflicting (ops : list (list string)) : bool := negb (bool_decide (NoDup (concat ops))).

(** The bson names of UserProfile's fields. *)
Definition profile_fields : list string :=
  ["_id"; "username"; "first_name"; "last_name"; "has_photo"; "is_bot"; "first_seen"; "last_seen"; "updated_at";
   "trust_score"; "score_label"; "total_joins"; "total_leaves"; "total_campaigns"; "ad_completions"]%string.

(** Times are stored in milliseconds. *)
Definition bson_time (n : Z) : Z := n / 1000000 * 1000000.
Definition day : Z := 86400 * 1000000000.

(** * internal/store/store.go *)

Section store.
Context {ENV : Env}.
Abbreviation FM := (M FraudDB FraudWorld).

Definition update_one (ops : list (list string)) (f : FraudDB -> FraudDB) : FM unit :=
  exec (fun d => if conflicting ops then Err (ErrDriver 40) else Ok (f d)).
Definition insert_one (f : FraudDB -> FraudDB) : FM unit := exec (fun d => Ok (f d)).

Definition zero_profile : UserProfile := {|
  up_TelegramID := 0; up_Username := ""; up_FirstName := ""; up_LastName := ""; up_HasPhoto := false; up_IsBot := false;
  up_FirstSeen := None; up_LastSeen := 0; up_UpdatedAt := 0; up_TrustScore := 0; up_ScoreLabel := ""; up_TotalJoins := 0;
  up_TotalLeaves := 0; up_TotalCampaigns := 0; up_AdCompletions := 0 |}.

(** The profile's three times are set before the update. *)
Definition stamped (n1 n2 n3 : Z) (p : UserProfile) : UserProfile := {|
  up_TelegramID := up_TelegramID p; up_Username := up_Username p; up_FirstName := up_FirstName p;
  up_LastName := up_LastName p; up_HasPhoto := up_HasPhoto p; up_IsBot := up_IsBot p;
  up_FirstSeen := Some (match up_FirstSeen p with Some n => n | None => bson_time n2 end);
  up_LastSeen := bson_time n3; up_UpdatedAt := bson_time n1; up_TrustScore := up_TrustScore p;
  up_ScoreLabel := up_ScoreLabel p; up_TotalJoins := up_TotalJoins p; up_TotalLeaves := up_TotalLeaves p;
  up_TotalCampaigns := up_TotalCampaigns p; up_AdCompletions := up_AdCompletions p |}.

Definition UpsertProfile (p : UserProfile) : FM unit :=
  (n1 <- now ;;
   n2 <- (match up_FirstSeen p with None => now | Some n => ret n end) ;;
   n3 <- now ;;
   update_one [profile_fields; ["first_seen"%string]] (set_profiles <[up_TelegramID p := stamped n1 n2 n3 p]>))%eff.

Definition GetProfile (telegramID : Z) : FM (option UserProfile * option error) :=
  row_and_error zero_profile (first (fun d => user_profiles d !! telegramID)).

Definition scored (score n : Z) (p : UserProfile) : UserProfile := {|
  up_TelegramID := up_TelegramID p; up_Username := up_Username p; up_FirstName := up_FirstName p;
  up_LastName := up_LastName p; up_HasPhoto := up_HasPhoto p; up_IsBot := up_IsBot p; up_FirstSeen := up_FirstSeen p;
  up_LastSeen := up_LastSeen p; up_UpdatedAt := bson_time n; up_TrustScore := score; up_ScoreLabel := UserScoreLabel score;
  up_TotalJoins := up_TotalJoins p; up_TotalLeaves := up_TotalLeaves p; up_TotalCampaigns := up_TotalCampaigns p;
  up_AdCompletions := up_AdCompletions p |}.

Definition UpdateTrustScore (telegramID score : Z) (breakdown : ScoreBreakdown) : FM unit :=
  (n <- now ;;
   update_one [["trust_score"; "score_label"; "updated_at"]%string] (set_profiles (alter (scored score n) telegramID)) ;;
   n <- now ;;
   insert_one (set_user_scores (fun l => l ++
     [{| us_User := telegramID; us_Value := score; us_Breakdown := breakdown; us_CalculatedAt := bson_time n |}])))%eff.

Definition RecordProfileChange (telegramID : Z) (field old new : string) : FM unit :=
  (n <- now ;;
   insert_one (set_history (fun l => l ++
     [{| ph_TelegramID := telegramID; ph_Field := field; ph_OldValue := old; ph_NewValue := new;
         ph_ChangedAt := bson_time n |}])))%eff.

(** ** Membership *)

Definition of_pair (telegramID communityID : Z) (m : UserMembership) : bool :=
  (um_TelegramID m =? telegramID) && (um_CommunityID m =? communityID).
Definition is_open (m : UserMembership) : bool := match um_LeftAt m with None => true | Some _ => false end.

Definition counted_user (joins leaves : Z) (p : UserProfile) : UserProfile := {|
  up_TelegramID := up_TelegramID p; up_Username := up_Username p; up_FirstName := up_FirstName p;
  up_LastName := up_LastName p; up_HasPhoto := up_HasPhoto p; up_IsBot := up_IsBot p; up_FirstSeen := up_FirstSeen p;
  up_LastSeen := up_LastSeen p; up_UpdatedAt := up_UpdatedAt p; up_TrustScore := up_TrustScore p;
  up_ScoreLabel := up_ScoreLabel p; up_TotalJoins := up_TotalJoins p + joins; up_TotalLeaves := up_TotalLeaves p + leaves;
  up_TotalCampaigns := up_TotalCampaigns p; up_AdCompletions := up_AdCompletions p |}.

Definition counted_stats (joins leaves members n : Z) (c : CommunityStatistics) : CommunityStatistics := {|
  st_MemberCount := st_MemberCount c + members; st_ActiveMembers := st_ActiveMembers c;
  st_TotalJoins := st_TotalJoins c + joins; st_TotalLeaves := st_TotalLeaves c + leaves; st_UpdatedAt := bson_time n |}.
Definition no_stats : CommunityStatistics :=
  {| st_MemberCount := 0; st_ActiveMembers := 0; st_TotalJoins := 0; st_TotalLeaves := 0; st_UpdatedAt := 0 |}.
(** With upsert. *)
Definition upsert_stats (f : CommunityStatistics -> CommunityStatistics) :
  option CommunityStatistics -> option CommunityStatistics := fun c => Some (f (default no_stats c)).

Definition RecordJoin (telegramID communityID : Z) (source campaignID : string) : FM unit :=
  (joined <- now ;;
   count <- try (find (fun d => Z.of_nat (length (List.filter (of_pair telegramID communityID) (user_memberships d))))) ;;
   try (update_one [["total_joins"%string]] (set_profiles (alter (counted_user 1 0) telegramID))) ;;
   n <- now ;;
   try (update_one [["total_joins"; "member_count"]; ["updated_at"]]%string
          (set_statistics (partial_alter (upsert_stats (counted_stats 1 0 1 n)) communityID))) ;;
   insert_one (set_memberships (fun l => l ++
     [{| um_TelegramID := telegramID; um_CommunityID := communityID; um_JoinedAt := bson_time joined; um_LeftAt := None;
         um_DurationSec := -1; um_RejoinCount := match count with Ok c => c | Err _ => 0 end;
         um_Source := source; um_CampaignID := campaignID |}])))%eff.

Definition later_membership (a b : UserMembership) : Prop := um_JoinedAt b <= um_JoinedAt a.
#[local] Instance later_membership_dec : RelDecision later_membership :=
  fun a b => Z_le_dec (um_JoinedAt b) (um_JoinedAt a).

Definition left_at (n seconds : Z) (m : UserMembership) : UserMembership := {|
  um_TelegramID := um_TelegramID m; um_CommunityID := um_CommunityID m; um_JoinedAt := um_JoinedAt m;
  um_LeftAt := Some (bson_time n); um_DurationSec := seconds; um_RejoinCount := um_RejoinCount m;
  um_Source := um_Source m; um_CampaignID := um_CampaignID m |}.

(** UpdateOne changes the first document that matches. *)
Fixpoint update_first {A} (P : A -> bool) (f : A -> A) (l : list A) : list A :=
  match l with [] => [] | x :: l => if P x then f x :: l else x :: update_first P f l end.

Context {FP : F64Platform}.

Definition open_of (telegramID communityID : Z) (m : UserMembership) : bool := of_pair telegramID communityID m && is_open m.

Definition RecordLeave (telegramID communityID : Z) : FM unit :=
  (n <- now ;;
   m <- try (first (fun d => head (merge_sort later_membership
               (List.filter (open_of telegramID communityID) (user_memberships d))))) ;;
   (match m with
    | Ok m => (try (update_one [["left_at"; "duration_sec"]]%string
                (set_memberships (update_first (open_of telegramID communityID)
                   (left_at n (int64_of_f64 (Seconds (n - um_JoinedAt m))))))) ;; ret tt)
    | Err _ => ret tt
    end) ;;
   try (update_one [["total_leaves"%string]] (set_profiles (alter (counted_user 0 1) telegramID))) ;;
   try (update_one [["total_leaves"; "member_count"]; ["updated_at"]]%string
          (set_statistics (alter (counted_stats 0 1 (-1) n) communityID))) ;;
   ret tt)%eff.

(** AddDate counts days of the UTC the containers run in. *)
Definition GetRecentMemberships (telegramID days : Z) : FM (list UserMembership) :=
  (n <- now ;;
   find (fun d => List.filter (fun m => (um_TelegramID m =? telegramID) && (bson_time (n - days * day) <=? um_JoinedAt m))
                    (user_memberships d)))%eff.

Definition GetMembershipHistory (telegramID communityID : Z) : FM (list UserMembership) :=
  find (fun d => merge_sort later_membership (List.filter (of_pair telegramID communityID) (user_memberships d))).

(** ** Activity *)

Fixpoint bump_day (telegramID communityID date msgs replies reactions n : Z) (l : list UserActivity) : list UserActivity :=
  match l with
  | [] => [{| ua_TelegramID := telegramID; ua_CommunityID := communityID; ua_Date := date; ua_Messages := msgs;
              ua_Replies := replies; ua_Reactions := reactions; ua_UpdatedAt := bson_time n |}]
  | a :: l =>
      if (ua_TelegramID a =? telegramID) && (ua_CommunityID a =? communityID) && (ua_Date a =? date)
      then {| ua_TelegramID := telegramID; ua_CommunityID := communityID; ua_Date := date;
              ua_Messages := ua_Messages a + msgs; ua_Replies := ua_Replies a + replies;
              ua_Reactions := ua_Reactions a + reactions; ua_UpdatedAt := bson_time n |} :: l
      else a :: bump_day telegramID communityID date msgs replies reactions n l
  end.

Definition RecordActivity (telegramID communityID msgCount replies reactions : Z) : FM unit :=
  (today <- now ;;
   n <- now ;;
   update_one [["messages"; "replies"; "reactions"]; ["updated_at"]]%string
     (set_activity (bump_day telegramID communityID (today / day) msgCount replies reactions n)))%eff.

Definition GetActivityDays (telegramID days : Z) : FM Z :=
  (n <- now ;;
   find (fun d => Z.of_nat (length (List.filter
     (fun a => (ua_TelegramID a =? telegramID) && (bson_time (n - days * day) <=? ua_UpdatedAt a)) (user_activity d)))))%eff.

(** ** Communities *)

Definition UpdateCommunityScore (communityID score : Z) (breakdown : CommunityBreakdown) : FM unit :=
  (n <- now ;;
   insert_one (set_community_scores (fun l => l ++
     [{| cs_CommunityID := communityID; cs_Score := score; cs_Breakdown := breakdown; cs_CalculatedAt := bson_time n;
         cs_RevenueStatus := CommunityRevenueStatus score |}])))%eff.

Definition later_score (a b : CommunityScoreSnapshot) : Prop := cs_CalculatedAt b <= cs_CalculatedAt a.
#[local] Instance later_score_dec : RelDecision later_score := fun a b => Z_le_dec (cs_CalculatedAt b) (cs_CalculatedAt a).

Definition zero_snapshot : CommunityScoreSnapshot := {|
  cs_CommunityID := 0; cs_Score := 0;
  cs_Breakdown := {| RetentionRate := f64_0; ActivityRate := f64_0; AvgMemberQuality := f64_0; JoinLeaveRate := f64_0;
                     AdConversionRate := f64_0; CommunityReasons := [] |};
  cs_CalculatedAt := 0; cs_RevenueStatus := "" |}.

Definition GetLatestCommunityScore (communityID : Z) : FM (option CommunityScoreSnapshot * option error) :=
  row_and_error zero_snapshot (first (fun d => head (merge_sort later_score
    (List.filter (fun c => cs_CommunityID c =? communityID) (community_scores d))))).

Definition GetCommunityStats (communityID : Z) : FM (option CommunityStatistics * option error) :=
  row_and_error no_stats (first (fun d => community_statistics d !! communityID)).

(** The pipeline joins the open memberships with the profiles: a user without
    one drops out, and a user with two open memberships counts twice. *)
Definition member_scores (communityID : Z) (d : FraudDB) : list Z :=
  omap (fun m => up_TrustScore <$> user_profiles d !! um_TelegramID m)
    (List.filter (fun m => (um_CommunityID m =? communityID) && is_open m) (user_memberships d)).
Definition average (l : list Z) : float64 :=
  f64_div (f64_of_int (sumZ (fun z => z) l)) (f64_of_int (Z.of_nat (length l))).

Definition GetAvgTrustScoreForCommunity (communityID : Z) : FM (float64 * option error) :=
  (r <- try (find (member_scores communityID)) ;;
   ret (match r with
        | Err e => (f64_of_int 50, Some e)
        | Ok [] => (f64_of_int 50, None)
        | Ok l => (average l, None)
        end))%eff.

Definition RecordFraudEvent (kind : FraudEventType) (user community : option Z) (score : Z) (text : string)
    (evidence : Z * Z) : FM unit :=
  (n <- now ;;
   insert_one (set_fraud_events (fun l => l ++
     [{| fe_EventType := kind; fe_TelegramID := user; fe_CommunityID := community; fe_Score := score;
         fe_Description := text; fe_Evidence := evidence; fe_DetectedAt := bson_time n; fe_Reviewed := false |}])))%eff.

Definition later_event (a b : FraudEvent) : Prop := fe_DetectedAt b <= fe_DetectedAt a.
#[local] Instance later_event_dec : RelDecision later_event := fun a b => Z_le_dec (fe_DetectedAt b) (fe_DetectedAt a).
Definition GetFraudEvents (telegramID : Z) (limit : nat) : FM (list FraudEvent) :=
  find (fun d => take limit (merge_sort later_event
    (List.filter (fun e => bool_decide (fe_TelegramID e = Some telegramID)) (fraud_events d)))).

(** The ids after [afterID], ascending. *)
Definition ids_after (afterID : Z) (d : FraudDB) : list Z :=
  merge_sort Z.le (List.filter (fun id => afterID <? id) (map fst (map_to_list (user_profiles d)))).
Definition ListUsersForRecalc (afterID : Z) (limit : nat) : FM (list Z) := find (fun d => take limit (ids_after afterID d)).
End store.
