(* ===== verification/FraudEngine.v ===== *)
(** fraud-engine: internal/scorer, internal/processor, internal/api and the
    wiring of cmd/main.go, on the documents of Fraud.v. *)
From S2P Require Import Prelude GoInt GoFloat GoString Effects PayModels PayChain Bus Community Fraud.

(** * internal/scorer/user_scorer.go *)

Section scorer.
Context {ENV : Env} {FP : F64Platform}.
Abbreviation FM := (M FraudDB FraudWorld).

Definition DurationDays (m : UserMembership) : FM float64 :=
  if um_DurationSec m <? 0
  then (n <- now ;; ret (f64_div (Hours (n - um_JoinedAt m)) (f64_of_int 24)))%eff
  else ret (f64_div (f64_of_int (um_DurationSec m)) (f64_of_int 86400)).
Definition IsShortTerm (m : UserMembership) : FM bool := (d <- DurationDays m ;; ret (f64_lt d (f64_of_int 1)))%eff.

Fixpoint sum_days (total : float64) (l : list UserMembership) : FM float64 :=
  match l with [] => ret total | m :: l => (d <- DurationDays m ;; sum_days (f64_add total d) l)%eff end.
Definition avgMembershipDays (l : list UserMembership) : FM float64 :=
  match l with
  | [] => ret f64_0
  | _ => (total <- sum_days f64_0 l ;; ret (f64_div total (f64_of_int (Z.of_nat (length l)))))%eff
  end.

Definition calcRetentionScore (l : list UserMembership) : float64 :=
  match l with
  | [] => f64_of_int 10
  | _ => f64_mul (f64_div (f64_of_int (Z.of_nat (length (List.filter is_open l)))) (f64_of_int (Z.of_nat (length l))))
                 (f64_of_int 20)
  end.

Definition uniqueCommunities (l : list UserMembership) : gset Z := list_to_set (map um_CommunityID l).

Definition empty_breakdown : ScoreBreakdown := {|
  MembershipDuration := f64_0; JoinLeaveRatio := f64_0; ActivityScore := f64_0; RetentionScore := f64_0;
  DiversityScore := f64_0; AdQualityScore := f64_0; Reasons := [] |}.

(** Each factor with the reasons it adds. *)
Definition duration_factor (avgDuration : float64) : float64 * list string :=
  if f64_ge avgDuration (f64_of_int 30) then (f64_of_int 25, [])
  else if f64_ge avgDuration (f64_of_int 14) then (f64_of_int 20, [])
  else if f64_ge avgDuration (f64_of_int 7) then (f64_of_int 15, [])
  else if f64_ge avgDuration (f64_of_int 3) then (f64_of_int 10, [])
  else if f64_ge avgDuration (f64_of_int 1) then (f64_of_int 5, [])
  else (f64_0, ["مدت عضویت خیلی کوتاه"%string]).

Definition join_leave_factor (joins leaves : Z) : float64 * list string :=
  if joins =? 0 then (f64_of_int 10, [])
  else
  let ratio := f64_div (f64_of_int leaves) (f64_of_int joins) in
  if f64_gt ratio (f64_const 9 10) then (f64_0, ["رفتار join/leave غیرعادی"%string])
  else if f64_gt ratio (f64_const 7 10) then (f64_of_int 5, [])
  else if f64_gt ratio (f64_const 5 10) then (f64_of_int 10, [])
  else if f64_gt ratio (f64_const 3 10) then (f64_of_int 15, [])
  else (f64_of_int 20, []).

Definition activity_factor (activeDays : Z) : float64 * list string :=
  (math_Min (f64_mul (f64_of_int activeDays) (f64_const 67 100)) (f64_of_int 20),
   if activeDays =? 0 then ["هیچ فعالیتی ثبت نشده"%string] else []).

Definition retention_factor (l : list UserMembership) : float64 * list string :=
  let r := calcRetentionScore l in (r, if f64_lt r (f64_of_int 5) then ["نرخ ماندن پایین"%string] else []).

Definition diversity_factor (n : Z) : float64 * list string :=
  if n =? 0 then (f64_0, [])
  else if n <=? 2 then (f64_of_int 3, [])
  else if n <=? 5 then (f64_of_int 7, [])
  else if 20 <? n then (f64_of_int 3, ["تعداد community خیلی زیاد"%string])
  else (f64_of_int 10, []).

Definition ad_factor (campaigns completions : Z) : float64 :=
  if 0 <? campaigns
  then f64_mul (f64_div (f64_of_int completions) (f64_of_int campaigns)) (f64_of_int 5)
  else f64_0.

Definition add_all (l : list float64) : float64 :=
  match l with [] => f64_0 | x :: l => fold_left f64_add l x end.

(** The cuts for an empty profile and for bots. *)
Definition cut_score (profile : UserProfile) (score : Z) : Z * list string :=
  let '(score, why) :=
    if negb (up_HasPhoto profile) && (up_Username profile =? "")%string
    then (int64_of_f64 (f64_mul (f64_of_int score) (f64_const 85 100)), ["پروفایل ناقص"%string]) else (score, []) in
  if up_IsBot profile
  then (int64_of_f64 (f64_mul (f64_of_int score) (f64_const 5 10)), why ++ ["اکانت bot"%string]) else (score, why).

Definition UserScorer_Calculate (telegramID : Z) : FM (Z * ScoreBreakdown) :=
  (p <- GetProfile telegramID ;;
   match fst p with
   | None => ret (50, empty_breakdown)
   | Some profile =>
       (r <- try (GetRecentMemberships telegramID 90) ;;
        let memberships := match r with Ok l => l | Err _ => [] end in
        avgDuration <- avgMembershipDays memberships ;;
        a <- try (GetActivityDays telegramID 30) ;;
        let '(durationScore, why1) := duration_factor avgDuration in
        let '(joinLeaveScore, why2) := join_leave_factor (up_TotalJoins profile) (up_TotalLeaves profile) in
        let '(activityScore, why3) := activity_factor (match a with Ok n => n | Err _ => 0 end) in
        let '(retentionScore, why4) := retention_factor memberships in
        let '(diversityScore, why5) := diversity_factor (Z.of_nat (size (uniqueCommunities memberships))) in
        let adScore := ad_factor (up_TotalCampaigns profile) (up_AdCompletions profile) in
        let total := add_all [durationScore; joinLeaveScore; activityScore; retentionScore; diversityScore; adScore] in
        let '(score, why6) := cut_score profile (int64_of_f64 (math_Min total (f64_of_int 100))) in
        ret (Z.max score 0,
             {| MembershipDuration := durationScore; JoinLeaveRatio := joinLeaveScore; ActivityScore := activityScore;
                RetentionScore := retentionScore; DiversityScore := diversityScore; AdQualityScore := adScore;
                Reasons := why1 ++ why2 ++ why3 ++ why4 ++ why5 ++ why6 |}))
   end)%eff.

(** * internal/scorer/community_scorer.go *)

Definition calcCommunityRetention (stats : CommunityStatistics) : float64 :=
  if st_TotalJoins stats =? 0 then f64_const 5 10
  else math_Min (f64_div (f64_of_int (st_MemberCount stats)) (f64_of_int (st_TotalJoins stats))) (f64_of_int 1).

Definition balance_factor (joins leaves : Z) : float64 * float64 * list string :=
  if 0 <? joins then
    let leaveRatio := f64_div (f64_of_int leaves) (f64_of_int joins) in
    if f64_gt leaveRatio (f64_const 9 10) then (f64_0, leaveRatio, ["نرخ خروج خیلی بالاست — احتمال farm"%string])
    else if f64_gt leaveRatio (f64_const 7 10) then (f64_of_int 3, leaveRatio, [])
    else if f64_gt leaveRatio (f64_const 5 10) then (f64_of_int 6, leaveRatio, [])
    else (f64_of_int 10, leaveRatio, [])
  else (f64_of_int 5, f64_0, []).

Definition empty_community_breakdown : CommunityBreakdown := cs_Breakdown zero_snapshot.

Definition CommunityScorer_Calculate (communityID : Z) : FM (Z * CommunityBreakdown) :=
  (s <- GetCommunityStats communityID ;;
   match fst s with
   | None => ret (50, empty_community_breakdown)
   | Some stats =>
       if st_MemberCount stats =? 0 then ret (50, empty_community_breakdown)
       else
       (let retentionRate := calcCommunityRetention stats in
        let retentionScore := f64_mul retentionRate (f64_of_int 30) in
        let why1 := if f64_lt retentionRate (f64_const 3 10) then ["نرخ ماندن اعضا پایین است"%string] else [] in
        let activityRate := if 0 <? st_MemberCount stats
                            then f64_div (f64_of_int (st_ActiveMembers stats)) (f64_of_int (st_MemberCount stats))
                            else f64_0 in
        let activityScore := math_Min (f64_mul activityRate (f64_of_int 20)) (f64_of_int 20) in
        let why2 := if f64_lt activityRate (f64_const 1 10) then ["فعالیت اعضا خیلی پایین است"%string] else [] in
        avg <- GetAvgTrustScoreForCommunity communityID ;;
        let avgTrust := fst avg in
        let memberQualityScore := f64_mul avgTrust (f64_const 30 100) in
        let why3 := if f64_lt avgTrust (f64_of_int 40) then ["میانگین اعتماد اعضا پایین است"%string] else [] in
        let '(joinLeaveScore, leaveRatio, why4) := balance_factor (st_TotalJoins stats) (st_TotalLeaves stats) in
        let total := add_all [retentionScore; activityScore; memberQualityScore; joinLeaveScore; f64_of_int 5] in
        ret (Z.max (int64_of_f64 (math_Min total (f64_of_int 100))) 0,
             {| RetentionRate := retentionRate; ActivityRate := activityRate; AvgMemberQuality := avgTrust;
                JoinLeaveRate := leaveRatio; AdConversionRate := f64_const 5 10;
                CommunityReasons := why1 ++ why2 ++ why3 ++ why4 |}))
   end)%eff.

Definition WeightedMemberCount (memberScores : list Z) : float64 :=
  fold_left (fun total score => f64_add total (f64_div (f64_of_int score) (f64_of_int 100))) memberScores f64_0.

Definition RevenueMultiplier (communityScore : Z) : float64 :=
  if 80 <=? communityScore then f64_of_int 1
  else if 50 <=? communityScore then f64_const 8 10
  else if 30 <=? communityScore then f64_const 5 10
  else f64_0.
End scorer.

(** * internal/processor/processor.go *)

Section processor.
Context {ENV : Env} {FP : F64Platform}.
Abbreviation FM := (M FraudDB FraudWorld).

(** The struct under the key breakdown, its members one by one. *)
Definition breakdown_fields (b : ScoreBreakdown) : list (string * fmtarg) :=
  [("breakdown.MembershipDuration", AFloat (MembershipDuration b)); ("breakdown.JoinLeaveRatio", AFloat (JoinLeaveRatio b));
   ("breakdown.ActivityScore", AFloat (ActivityScore b)); ("breakdown.RetentionScore", AFloat (RetentionScore b));
   ("breakdown.DiversityScore", AFloat (DiversityScore b)); ("breakdown.AdQualityScore", AFloat (AdQualityScore b))]%string.

Definition user_score_event (telegramID score : Z) (b : ScoreBreakdown) (n : Z) : list (string * fmtarg) :=
  [("telegram_id", AInt telegramID); ("score", AInt score); ("label", AStr (UserScoreLabel score))]%string
    ++ breakdown_fields b ++ [("updated_at"%string, AInt (n / 1000000000))].

Definition recalcUserScore (telegramID : Z) : FM unit :=
  (r <- try (UserScorer_Calculate telegramID) ;;
   match r with
   | Err _ => ret tt
   | Ok (score, breakdown) =>
       (try (UpdateTrustScore telegramID score breakdown) ;;
        n <- now ;;
        publish_quiet "user.score.updated" (user_score_event telegramID score breakdown n))
   end)%eff.

Definition recalcCommunityScore (communityID : Z) : FM unit :=
  (r <- try (CommunityScorer_Calculate communityID) ;;
   match r with
   | Err _ => ret tt
   | Ok (score, breakdown) =>
       (try (UpdateCommunityScore communityID score breakdown) ;;
        n <- now ;;
        publish_quiet "community.score.updated"
          [("community_id", AInt communityID); ("score", AInt score);
           ("revenue_status", AStr (CommunityRevenueStatus score));
           ("revenue_multiplier", AFloat (RevenueMultiplier score)); ("updated_at", AInt (n / 1000000000))])
   end)%eff.

Definition fraud_notice (telegramID communityID : Z) : list (string * fmtarg) :=
  [("type", AStr "join_leave_loop"); ("telegram_id", AInt telegramID); ("community_id", AInt communityID);
   ("score", AInt 70)]%string.

Definition recent_joins (cutoff : Z) (history : list UserMembership) : Z :=
  Z.of_nat (length (List.filter (fun m => cutoff <? um_JoinedAt m) history)).

Definition detectJoinLoopFraud (telegramID communityID : Z) : FM unit :=
  (h <- try (GetMembershipHistory telegramID communityID) ;;
   let history := match h with Ok l => l | Err _ => [] end in
   if (length history <? 3)%nat then ret tt
   else
   (n <- now ;;
    let recentJoins := recent_joins (n - 7 * day) history in
    if 3 <=? recentJoins then
      (try (RecordFraudEvent FraudJoinLeaveLoop (Some telegramID) (Some communityID) 70
              "کاربر ۳+ بار در ۷ روز به این کانال join/leave کرده" (recentJoins, 7)) ;;
       publish_quiet "fraud.detected" (fraud_notice telegramID communityID))
    else ret tt))%eff.

Definition handleJoin (telegramID communityID : Z) (source campaignID : string) : FM unit :=
  (try (RecordJoin telegramID communityID source campaignID) ;;
   detectJoinLoopFraud telegramID communityID ;;
   recalcUserScore telegramID ;;
   recalcCommunityScore communityID)%eff.

Definition handleLeave (telegramID communityID : Z) : FM unit :=
  (try (RecordLeave telegramID communityID) ;; recalcUserScore telegramID ;; recalcCommunityScore communityID)%eff.

Definition handleActivity (telegramID communityID messages replies reactions : Z) : FM unit :=
  (try (RecordActivity telegramID communityID messages replies reactions) ;; recalcUserScore telegramID)%eff.

Definition handleProfileUpdate (telegramID : Z) (username firstName lastName : string) (hasPhoto : bool) : FM unit :=
  (e <- GetProfile telegramID ;;
   (match fst e with
    | None => ret tt
    | Some existing =>
        ((if (up_Username existing =? username)%string then ret tt
          else (try (RecordProfileChange telegramID "username" (up_Username existing) username) ;; ret tt)) ;;
         (if (up_FirstName existing =? firstName)%string then ret tt
          else (try (RecordProfileChange telegramID "first_name" (up_FirstName existing) firstName) ;; ret tt)))
    end) ;;
   try (UpsertProfile
     {| up_TelegramID := telegramID; up_Username := username; up_FirstName := firstName; up_LastName := lastName;
        up_HasPhoto := hasPhoto; up_IsBot := false; up_FirstSeen := None; up_LastSeen := 0; up_UpdatedAt := 0;
        up_TrustScore := 0; up_ScoreLabel := ""; up_TotalJoins := 0; up_TotalLeaves := 0; up_TotalCampaigns := 0;
        up_AdCompletions := 0 |}) ;;
   recalcUserScore telegramID)%eff.

Definition handleCampaignComplete (telegramID : Z) (stayed : bool) : FM unit :=
  (p <- GetProfile telegramID ;;
   match fst p with
   | None => ret tt
   | Some profile =>
       (try (UpsertProfile
          {| up_TelegramID := telegramID; up_Username := ""; up_FirstName := ""; up_LastName := ""; up_HasPhoto := false;
             up_IsBot := false; up_FirstSeen := None; up_LastSeen := 0; up_UpdatedAt := 0; up_TrustScore := 0;
             up_ScoreLabel := ""; up_TotalJoins := 0; up_TotalLeaves := 0;
             up_TotalCampaigns := i64_add (up_TotalCampaigns profile) 1;
             up_AdCompletions := if stayed then i64_add (up_AdCompletions profile) 1 else 0 |}) ;;
        recalcUserScore telegramID)
   end)%eff.

(** ** The listeners: RegisterListeners and RegisterScoreHandlers *)

Definition decode_join (m : Event) : option (Z * Z * string * string) :=
  match field_int64 "telegram_id" m, field_int64 "community_id" m, field_string "source" m, field_string "campaign_id" m with
  | Some u, Some c, Some src, Some camp => Some (u, c, src, camp)
  | _, _, _, _ => None
  end.
Definition decode_leave (m : Event) : option (Z * Z) :=
  match field_int64 "telegram_id" m, field_int64 "community_id" m with
  | Some u, Some c => Some (u, c)
  | _, _ => None
  end.
Definition decode_activity (m : Event) : option (Z * Z * (Z * Z * Z)) :=
  match field_int64 "telegram_id" m, field_int64 "community_id" m, field_int64 "messages" m, field_int64 "replies" m,
        field_int64 "reactions" m with
  | Some u, Some c, Some a, Some b, Some e => Some (u, c, (a, b, e))
  | _, _, _, _, _ => None
  end.

(** A message of the bus, by its subject. *)
Definition on_event (m : Event) : FM unit :=
  let subject := ev_Subject m in
  (if (subject =? "membership.joined") || (subject =? "fraud.event.join") then
     match decode_join m with None => ret tt | Some (u, c, src, camp) => handleJoin u c src camp end
   else if (subject =? "membership.left") || (subject =? "fraud.event.leave") then
     match decode_leave m with None => ret tt | Some (u, c) => handleLeave u c end
   else if (subject =? "community.activity.updated") || (subject =? "fraud.event.activity") then
     match decode_activity m with None => ret tt | Some (u, c, (a, b, e)) => handleActivity u c a b e end
   else ret tt)%string.

Record UserScoreReply := { sr_User : Z; sr_Score : Z; sr_Label : string; sr_Known : bool }.
Definition on_user_score_request (telegramID : Z) : FM UserScoreReply :=
  (p <- GetProfile telegramID ;;
   ret (match fst p with
        | Some profile => {| sr_User := telegramID; sr_Score := up_TrustScore profile; sr_Label := up_ScoreLabel profile;
                             sr_Known := true |}
        | None => {| sr_User := telegramID; sr_Score := 60; sr_Label := "normal"; sr_Known := false |}
        end))%eff.

Definition revenueMultiplierFromScore (score : Z) : float64 :=
  if 80 <=? score then f64_of_int 1
  else if 50 <=? score then f64_const 8 10
  else if 30 <=? score then f64_const 5 10
  else f64_0.

Record CommunityScoreReply := {
  cr_Community : Z; cr_Score : Z; cr_RevenueStatus : string; cr_RevenueMultiplier : float64; cr_Known : bool }.
Definition on_community_score_request (communityID : Z) : FM CommunityScoreReply :=
  (r <- GetLatestCommunityScore communityID ;;
   ret (match fst r with
        | Some snap => {| cr_Community := communityID; cr_Score := cs_Score snap; cr_RevenueStatus := cs_RevenueStatus snap;
                          cr_RevenueMultiplier := revenueMultiplierFromScore (cs_Score snap); cr_Known := true |}
        | None => {| cr_Community := communityID; cr_Score := 70; cr_RevenueStatus := "monitored";
                     cr_RevenueMultiplier := f64_const 8 10; cr_Known := false |}
        end))%eff.

(** ** The periodic recalculation *)

Fixpoint recalc_users (l : list Z) : FM unit :=
  match l with [] => ret tt | uid :: l => (recalcUserScore uid ;; recalc_users l)%eff end.

(** [fuel] bounds the number of batches. *)
Fixpoint batch_loop (fuel batchSize : nat) (lastID : Z) : FM unit :=
  match fuel with
  | O => ret tt
  | S fuel =>
      (r <- try (ListUsersForRecalc lastID batchSize) ;;
       match r with
       | Err _ | Ok [] => ret tt
       | Ok users =>
           (recalc_users users ;;
            if (length users <? batchSize)%nat then ret tt
            else batch_loop fuel batchSize (List.last users lastID))
       end)%eff
  end.
Definition batchRecalcUsers (fuel : nat) : FM unit := batch_loop fuel 100 0.

(** * internal/api/api.go: the administration endpoints that compute *)

Definition recalcUser (id : string) : FM (Z * ScoreBreakdown) :=
  let telegramID := ParseInt_value 10 id in
  (r <- UserScorer_Calculate telegramID ;;
   try (UpdateTrustScore telegramID (fst r) (snd r)) ;;
   ret r)%eff.

Definition recalcCommunity (id : string) : FM (Z * CommunityBreakdown) :=
  let communityID := ParseInt_value 10 id in
  (r <- CommunityScorer_Calculate communityID ;;
   try (UpdateCommunityScore communityID (fst r) (snd r)) ;;
   ret r)%eff.

(** None: the id is no number (400). *)
Definition getUserScore (id : string) : FM (option UserScoreReply) :=
  match ParseInt 10 id with
  | None => ret None
  | Some telegramID =>
      (p <- GetProfile telegramID ;;
       ret (Some (match fst p with
        | Some profile => {| sr_User := telegramID; sr_Score := up_TrustScore profile; sr_Label := up_ScoreLabel profile;
                             sr_Known := true |}
        | None => {| sr_User := telegramID; sr_Score := 50; sr_Label := "normal"; sr_Known := false |}
        end)))%eff
  end.

Definition getCommunityScore (id : string) : FM (option CommunityScoreReply) :=
  match ParseInt 10 id with
  | None => ret None
  | Some communityID =>
      (r <- GetLatestCommunityScore communityID ;;
       ret (Some (match fst r with
        | Some snap => {| cr_Community := communityID; cr_Score := cs_Score snap; cr_RevenueStatus := cs_RevenueStatus snap;
                          cr_RevenueMultiplier := RevenueMultiplier (cs_Score snap); cr_Known := true |}
        | None => {| cr_Community := communityID; cr_Score := 50; cr_RevenueStatus := "monitored";
                     cr_RevenueMultiplier := f64_const 8 10; cr_Known := false |}
        end)))%eff
  end.

Definition Fraud_authMiddleware {A} (adminKey got : string) (h : FM A) : FM (option A) :=
  if (adminKey =? "")%string || negb (got =? adminKey)%string then ret None
  else (a <- h ;; ret (Some a))%eff.

(** * Everything that reaches the service *)

Inductive fraud_op :=
| BusMessage (m : Event)
| ProfileUpdated (e : option (Z * (string * string * string) * bool))
| CampaignCompleted (e : option (Z * bool))
| UserScoreRequest (telegramID : Z)
| CommunityScoreRequest (communityID : Z)
| RecalcUser (got id : string)
| RecalcCommunity (got id : string)
| RecalcTick.

Definition fraud_perform (adminKey : string) (fuel : nat) (o : fraud_op) : FM unit :=
  match o with
  | BusMessage m => on_event m
  | ProfileUpdated (Some (u, (username, firstName, lastName), photo)) => handleProfileUpdate u username firstName lastName photo
  | CampaignCompleted (Some (u, stayed)) => handleCampaignComplete u stayed
  | UserScoreRequest u => (on_user_score_request u ;; ret tt)%eff
  | CommunityScoreRequest c => (on_community_score_request c ;; ret tt)%eff
  | RecalcUser got id => (Fraud_authMiddleware adminKey got (recalcUser id) ;; ret tt)%eff
  | RecalcCommunity got id => (Fraud_authMiddleware adminKey got (recalcCommunity id) ;; ret tt)%eff
  | RecalcTick => batchRecalcUsers fuel
  | ProfileUpdated None | CampaignCompleted None => ret tt
  end.

Fixpoint fraud_serve (adminKey : string) (fuel : nat) (l : list fraud_op) : FM unit :=
  match l with [] => ret tt | o :: l => (try (fraud_perform adminKey fuel o) ;; fraud_serve adminKey fuel l)%eff end.
End processor.
