(* ===== verification/FraudSpec.v ===== *)
(** Correctness of fraud-engine: the range of its scores, what the periodic
    recalculation covers, whom it knows, and whom it suspects. *)
From S2P Require Import Prelude GoInt GoFloat GoString Effects PayModels PayChain Bus Triples Community.
From S2P Require Import Fraud FraudEngine.

(** * The range of a score *)

Section range.
Context {ENV : Env} {FP : F64Platform}.
Abbreviation FM := (M FraudDB FraudWorld).

Ltac branches :=
  repeat match goal with |- context [if ?b then _ else _] => destruct b end;
  cbn [fst]; apply of_int_fbound; lia.

Lemma duration_bound avg : fbound 25 (fst (duration_factor avg)).
Proof. unfold duration_factor. branches. Qed.
Lemma join_leave_bound j l : fbound 20 (fst (join_leave_factor j l)).
Proof. unfold join_leave_factor. branches. Qed.
Lemma diversity_bound n : fbound 10 (fst (diversity_factor n)).
Proof. unfold diversity_factor. branches. Qed.

Lemma activity_bound days : 0 <= days -> fbound 20 (fst (activity_factor days)).
Proof.
  intros Hd. unfold activity_factor. cbn [fst].
  replace (f64_of_int 20) with (S754_finite false 5629499534213120 (-48)) by (vm_compute; reflexivity).
  replace (f64_const 67 100) with (S754_finite false 6034823500676465 (-53)) by (vm_compute; reflexivity).
  apply min_fbound; [by apply mul_nonneg, of_int_nonneg|lia|simpl; lia].
Qed.

Lemma retention_bound l : Z.of_nat (length l) < 2 ^ 53 -> fbound 20 (fst (retention_factor l)).
Proof.
  intros Hl. unfold retention_factor, calcRetentionScore. cbn [fst]. destruct l as [|m l]; [apply of_int_fbound; lia|].
  apply (mul_fbound 1 20); [|apply of_int_fbound; lia|lia..]. apply ratio_fbound.
  - pose proof (List.filter_length_le is_open (m :: l)). lia.
  - simpl length in *. lia.
Qed.

Lemma ad_bound campaigns completions :
  0 <= completions <= campaigns -> campaigns < 2 ^ 53 -> fbound 5 (ad_factor campaigns completions).
Proof.
  intros Hc Hb. unfold ad_factor. destruct (0 <? campaigns) eqn:E; zbool; [|apply of_int_fbound; lia].
  apply (mul_fbound 1 5); [|apply of_int_fbound; lia|lia..]. apply ratio_fbound; lia.
Qed.

Lemma cut_bound p score : 0 <= score <= 100 -> 0 <= fst (cut_score p score) <= 100.
Proof.
  assert (Hcut : forall z c, 0 <= z <= 100 -> fbound 1 c -> 0 <= int64_of_f64 (f64_mul (f64_of_int z) c) <= 100).
  { intros z c Hz Hc. apply fbound_int64; [|unfold int64_max; lia]. apply (mul_fbound 100 1); [apply of_int_fbound; lia|done|lia..]. }
  assert (H85 : fbound 1 (f64_const 85 100)) by (apply ratio_fbound; lia).
  assert (H50 : fbound 1 (f64_const 5 10)) by (apply ratio_fbound; lia).
  intros Hs. unfold cut_score. destruct (negb _ && _); cbv beta iota; destruct (up_IsBot p); cbn [fst]; auto.
Qed.

(** The six factors are at most 25, 20, 20, 20, 10 and 5. *)
Lemma total_bound a b c d e f :
  fbound 25 a -> fbound 20 b -> fbound 20 c -> fbound 20 d -> fbound 10 e -> fbound 5 f -> fbound 100 (add_all [a; b; c; d; e; f]).
Proof.
  intros Ha Hb Hc Hd He Hf. unfold add_all. cbn [fold_left].
  apply (add_fbound 95 5); [|done|lia..]. apply (add_fbound 85 10); [|done|lia..].
  apply (add_fbound 65 20); [|done|lia..]. apply (add_fbound 45 20); [|done|lia..]. by apply (add_fbound 25 20).
Qed.

(** What the model's users store: completed campaigns are campaigns. *)
Definition counters_ok (p : UserProfile) : Prop :=
  0 <= up_AdCompletions p <= up_TotalCampaigns p /\ up_TotalCampaigns p < 2 ^ 53.

Lemma sure_sum_days total l : sure (sum_days (ENV := ENV) total l).
Proof. revert total. induction l as [|m l IH]; intros total; simpl; [apply sure_ret|]. unfold DurationDays. sure_tac. Qed.

Lemma sure_UserScorer telegramID : sure (UserScorer_Calculate telegramID).
Proof.
  unfold UserScorer_Calculate, avgMembershipDays, GetProfile. apply sure_bind; [apply sure_row|]. intros p.
  destruct (fst p); [|apply sure_ret]. apply sure_bind; [apply sure_try|]. intros r.
  apply sure_bind; [destruct (match r with Ok l => l | Err _ => [] end); [apply sure_ret|]; apply sure_bind; [apply sure_sum_days|intros; apply sure_ret]|].
  intros avg. apply sure_bind; [apply sure_try|]. intros a. repeat case_match; apply sure_ret.
Qed.

Section calculate.
Context (d0 : FraudDB) (x0 : FraudWorld).
Definition at_start (d : FraudDB) (x : FraudWorld) : Prop := d = d0 /\ x = x0.

Lemma within_sum_days total l : within at_start anything (sum_days total l).
Proof.
  revert total. induction l as [|m l IH]; intros total; simpl; [by apply within_ret|].
  eapply (within_bind _ anything); [|intros d _; apply IH].
  unfold DurationDays. destruct (um_DurationSec m <? 0); [eapply within_bind; [apply within_now|]; intros|]; by apply within_ret.
Qed.

Lemma within_avg l : within at_start anything (avgMembershipDays l).
Proof.
  unfold avgMembershipDays. destruct l; [by apply within_ret|].
  eapply (within_bind _ anything); [apply within_sum_days|intros; by apply within_ret].
Qed.

Lemma within_memberships telegramID days :
  within at_start (fun l => (length l <= length (user_memberships d0))%nat) (GetRecentMemberships telegramID days).
Proof.
  eapply within_bind; [apply within_now|]. intros n _. eapply within_weaken; [apply within_find|].
  intros l (d & x & [-> _] & ->). apply List.filter_length_le.
Qed.

Lemma within_days telegramID days : within at_start (fun n => 0 <= n) (GetActivityDays telegramID days).
Proof.
  eapply within_bind; [apply within_now|]. intros n _. eapply within_weaken; [apply within_find|].
  intros k (d & x & _ & ->). lia.
Qed.

Lemma user_score_within telegramID :
  (forall p, user_profiles d0 !! telegramID = Some p -> counters_ok p) -> Z.of_nat (length (user_memberships d0)) < 2 ^ 53 ->
  within at_start (fun p => 0 <= fst p <= 100) (UserScorer_Calculate telegramID).
Proof.
  intros Hp Hm. unfold UserScorer_Calculate, GetProfile. eapply within_bind; [apply within_first_row|].
  intros [[p|] e] He; cbn [fst]; [|apply within_ret; simpl; lia].
  assert (Hc : counters_ok p).
  { destruct e; [subst p; split; simpl; lia|]. destruct He as (d & x & [-> _] & E). by apply Hp in E. }
  eapply within_bind; [apply within_try, within_memberships|]. intros r Hr.
  set (l := match r with Ok l => l | Err _ => [] end).
  assert (Hl : Z.of_nat (length l) < 2 ^ 53).
  { subst l. destruct r as [l|]; [simpl in Hr; lia|simpl; lia]. }
  eapply within_bind; [apply (within_avg l)|]. intros avg _.
  eapply within_bind; [apply within_try, within_days|]. intros a Ha.
  assert (Hd : 0 <= match a with Ok n => n | Err _ => 0 end).
  { by destruct a as [n|]. }
  pose proof (duration_bound avg). pose proof (join_leave_bound (up_TotalJoins p) (up_TotalLeaves p)).
  pose proof (activity_bound _ Hd). pose proof (retention_bound l Hl).
  pose proof (diversity_bound (Z.of_nat (size (uniqueCommunities l)))).
  destruct Hc as [Hc1 Hc2]. pose proof (ad_bound _ _ Hc1 Hc2).
  destruct (duration_factor _), (join_leave_factor _ _), (activity_factor _), (retention_factor _), (diversity_factor _).
  cbn [fst] in *. pose proof (total_bound _ _ _ _ _ _ H H0 H1 H2 H3 H4) as Ht.
  assert (0 <= int64_of_f64 (math_Min (add_all [s; s0; s1; s2; s3; ad_factor (up_TotalCampaigns p) (up_AdCompletions p)])
            (f64_of_int 100)) <= 100) as Hi.
  { apply fbound_int64; [|unfold int64_max; lia]. apply min_both_fbound; [done|apply of_int_fbound; lia]. }
  pose proof (cut_bound p _ Hi). destruct (cut_score _ _). apply within_ret. simpl in *. lia.
Qed.
End calculate.

(** Whatever joins, leaves, activity and memberships are on record, and
    whichever query fails, the trust score of a user is computed and lies
    between 0 and 100, and computing it changes nothing. *)
Theorem user_score_range telegramID s r s' :
  (forall p, user_profiles (db s) !! telegramID = Some p -> counters_ok p) ->
  Z.of_nat (length (user_memberships (db s))) < 2 ^ 53 -> UserScorer_Calculate telegramID s = (r, s') ->
  exists score breakdown, r = Ok (score, breakdown) /\ 0 <= score <= 100 /\ db s' = db s /\ ext s' = ext s.
Proof.
  intros Hp Hm Hr. destruct (sure_UserScorer telegramID s) as ([score b] & s1 & E). rewrite E in Hr. injection Hr as <- <-.
  destruct (user_score_within (db s) (ext s) telegramID Hp Hm s _ _ (conj eq_refl eq_refl) E) as [[Hd Hx] HQ]. eauto 8.
Qed.
End range.

(** * The periodic recalculation *)

Section recalculation.
Context {ENV : Env} {FP : F64Platform} {clock : Z -> Prop} {QUIET : Quiet clock}.
Abbreviation FM := (M FraudDB FraudWorld).

Lemma runs_sum_days total l d x : runs (sum_days total l) d x (fun _ d' x' => d' = d /\ x' = x).
Proof.
  revert total. induction l as [|m l IH]; intros total; simpl; [by apply runs_ret|]. apply runs_bind.
  unfold DurationDays. destruct (um_DurationSec m <? 0); repeat runs_step; apply IH.
Qed.

Lemma runs_UserScorer uid d x : runs (UserScorer_Calculate uid) d x (fun _ d' x' => d' = d /\ x' = x).
Proof.
  unfold UserScorer_Calculate, GetProfile. apply runs_bind, runs_row. cbn [fst].
  destruct (user_profiles d !! uid) as [p|]; [|by apply runs_ret].
  unfold GetRecentMemberships. apply runs_bind, runs_try, runs_bind, runs_now. intros n _. apply runs_find.
  set (l := List.filter _ _). apply runs_bind.
  apply (runs_weaken _ _ _ (fun _ d' x' => d' = d /\ x' = x)).
  { unfold avgMembershipDays. destruct l; [by apply runs_ret|]. apply runs_bind.
    eapply runs_weaken; [apply runs_sum_days|]. intros ? ? ? [-> ->]. by apply runs_ret. }
  intros avg ? ? [-> ->]. unfold GetActivityDays. apply runs_bind, runs_try, runs_bind, runs_now. intros n2 _. apply runs_find.
  repeat case_match; by apply runs_ret.
Qed.

(** One snapshot more, and the same profiles. *)
Definition recalculated (l : list Z) (d d' : FraudDB) : Prop :=
  map us_User (user_scores d') = map us_User (user_scores d) ++ l /\ dom (user_profiles d') = dom (user_profiles d).

Lemma recalculated_trans l1 l2 d1 d2 d3 : recalculated l1 d1 d2 -> recalculated l2 d2 d3 -> recalculated (l1 ++ l2) d1 d3.
Proof. intros [E1 D1] [E2 D2]. split; [by rewrite E2, E1, app_assoc|congruence]. Qed.

Lemma runs_recalcUserScore uid d x : runs (recalcUserScore uid) d x (fun _ d' _ => recalculated [uid] d d').
Proof.
  unfold recalcUserScore, UpdateTrustScore. apply runs_bind, runs_try.
  eapply runs_weaken; [apply runs_UserScorer|]. intros [score b] ? ? [-> ->]. cbv beta iota.
  apply runs_bind, runs_try, runs_bind, runs_now. intros n1 _. apply runs_bind. eapply runs_exec; [reflexivity|].
  apply runs_bind, runs_now. intros n2 _. eapply runs_exec; [reflexivity|].
  apply runs_bind, runs_now. intros n3 _.
  apply runs_publish_quiet; intros _; (split; simpl; [by rewrite map_app|apply dom_alter_L]).
Qed.

Lemma runs_recalc_users l d x : runs (recalc_users l) d x (fun _ d' _ => recalculated l d d').
Proof.
  revert d x. induction l as [|uid l IH]; intros d x; simpl; [apply runs_ret; split; [by rewrite app_nil_r|done]|].
  apply runs_bind. eapply runs_weaken; [apply runs_recalcUserScore|]. intros ? d1 x1 H1.
  eapply runs_weaken; [apply IH|]. intros ? d2 x2 H2. by apply (recalculated_trans [uid] l _ d1).
Qed.

(** ** The batches *)

Lemma sorted_same (l1 l2 : list Z) :
  NoDup l1 -> NoDup l2 -> StronglySorted Z.le l1 -> StronglySorted Z.le l2 -> (forall z, z ∈ l1 <-> z ∈ l2) -> l1 = l2.
Proof.
  intros N1 N2 S1 S2 Hm. apply (StronglySorted_unique Z.le); [done..|]. by apply NoDup_Permutation.
Qed.

Definition keys_after (a : Z) (d : FraudDB) : list Z := List.filter (fun id => a <? id) (map fst (map_to_list (user_profiles d))).

Lemma keys_after_NoDup a d : NoDup (keys_after a d).
Proof. apply NoDup_ListNoDup, List.NoDup_filter, NoDup_ListNoDup, NoDup_fst_map_to_list. Qed.

Lemma elem_of_keys_after a d z : z ∈ keys_after a d <-> a < z /\ z ∈ dom (user_profiles d).
Proof.
  unfold keys_after. rewrite list_elem_of_In, filter_In, <- list_elem_of_In, list_elem_of_fmap, elem_of_dom. split.
  - intros [([k p] & -> & Hk) Ha]. apply elem_of_map_to_list in Hk. simpl in *. zbool. eauto.
  - intros [Ha [p Hp]]. split; [exists (z, p); split; [done|by apply elem_of_map_to_list]|by apply Z.ltb_lt].
Qed.

Lemma ids_after_sorted a d : StronglySorted Z.le (ids_after a d) /\ NoDup (ids_after a d) /\
  forall z, z ∈ ids_after a d <-> a < z /\ z ∈ dom (user_profiles d).
Proof.
  unfold ids_after. fold (keys_after a d). split; [apply StronglySorted_merge_sort; apply _|].
  split; [rewrite (merge_sort_Permutation Z.le (keys_after a d)); apply keys_after_NoDup|].
  intros z. rewrite (merge_sort_Permutation Z.le (keys_after a d)). apply elem_of_keys_after.
Qed.

Lemma ids_after_same a d d' : dom (user_profiles d') = dom (user_profiles d) -> ids_after a d' = ids_after a d.
Proof.
  intros Hd. destruct (ids_after_sorted a d) as (S1 & N1 & E1), (ids_after_sorted a d') as (S2 & N2 & E2).
  apply sorted_same; try done. intros z. by rewrite E1, E2, Hd.
Qed.

(** The next page starts after the last id of this one. *)
Lemma ids_after_page a d n z : take n (ids_after a d) = [] \/
  ids_after (List.last (take n (ids_after a d)) z) d = drop n (ids_after a d).
Proof.
  destruct (ids_after_sorted a d) as (Hs & Hn & He). set (l := ids_after a d) in *.
  destruct (decide (take n l = [])) as [|Hne]; [by left|right].
  destruct (exists_last Hne) as (l' & b & Et). rewrite Et, List.last_last.
  assert (Hl : l = (l' ++ [b]) ++ drop n l) by (rewrite <- Et; symmetry; apply take_drop).
  rewrite Hl in Hs, Hn. apply StronglySorted_app in Hs as (Hbefore & Hs1 & Hs2).
  apply StronglySorted_app in Hs1 as (Hlast & _).
  apply NoDup_app in Hn as (_ & Hdis & Hn2).
  assert (Hb : a < b) by (apply He; rewrite Hl; set_solver).
  destruct (ids_after_sorted b d) as (Hs3 & Hn3 & He3). apply sorted_same; try done.
  intros y. rewrite He3. split.
  - intros [Hy Hd]. assert (y ∈ l) as Hyl by (apply He; split; [lia|done]). rewrite Hl in Hyl.
    apply elem_of_app in Hyl as [Hyl|Hyl]; [|done]. apply elem_of_app in Hyl as [Hyl|Hyl].
    + specialize (Hlast y b Hyl ltac:(set_solver)). lia.
    + apply list_elem_of_singleton in Hyl. lia.
  - intros Hy. assert (y ∈ l) as Hyl by (rewrite Hl; set_solver). apply He in Hyl as [_ Hd]. split; [|done].
    specialize (Hbefore b y ltac:(set_solver) Hy). assert (b <> y) by (intros ->; apply (Hdis y); set_solver). lia.
Qed.

Lemma runs_batch_loop fuel n a d x : (0 < n)%nat -> (length (ids_after a d) < fuel)%nat ->
  runs (batch_loop fuel n a) d x (fun _ d' _ => recalculated (ids_after a d) d d').
Proof.
  intros Hn. revert a d x. induction fuel as [|fuel IH]; intros a d x Hf; [lia|]. simpl.
  apply runs_bind, runs_try, runs_find. set (l := ids_after a d) in *.
  destruct (take n l) as [|u us] eqn:Et.
  - apply runs_ret. apply (f_equal length) in Et. rewrite length_take in Et. simpl in Et.
    rewrite (proj1 (length_zero_iff_nil l)) by lia. split; [by rewrite app_nil_r|done].
  - rewrite <- Et. apply runs_bind. eapply runs_weaken; [apply runs_recalc_users|]. intros ? d1 x1 H1.
    rewrite length_take. destruct (Nat.min n (length l) <? n)%nat eqn:E.
    + apply Nat.ltb_lt in E. apply runs_ret. rewrite take_ge in H1 by lia. done.
    + apply Nat.ltb_ge in E. destruct (ids_after_page a d n a) as [Hp|Hp]; fold l in Hp; [congruence|].
      destruct H1 as [E1 D1]. rewrite <- (ids_after_same _ d d1 D1) in Hp.
      eapply runs_weaken; [apply IH; rewrite Hp, length_drop; lia|]. intros ? d2 x2 H2. rewrite Hp in H2.
      rewrite <- (take_drop n l). by eapply recalculated_trans.
Qed.

End recalculation.

(** * Whom the service knows *)

Section strangers.
Context {ENV : Env} {FP : F64Platform}.

Definition nobody (d : FraudDB) (x : FraudWorld) : Prop := user_profiles d = ∅.

(** An upsert is refused for naming first_seen twice. *)
Lemma nobody_UpsertProfile p : within nobody anything (UpsertProfile p).
Proof.
  eapply within_bind; [apply within_now|intros n1 _]. eapply (within_bind _ anything); [|intros n2 _].
  { destruct (up_FirstSeen p); [by apply within_ret|apply within_now]. }
  eapply within_bind; [apply within_now|intros n3 _]. by apply within_exec.
Qed.

Lemma nobody_update ops f :
  (forall d, user_profiles d = ∅ -> user_profiles (f d) = ∅) -> within nobody anything (update_one ops f).
Proof. intros Hf. apply within_exec. intros d x d' Hd He. destruct (conflicting ops); [done|]. injection He as <-. by apply Hf. Qed.

Lemma nobody_insert f :
  (forall d, user_profiles d = ∅ -> user_profiles (f d) = ∅) -> within nobody anything (insert_one f).
Proof. intros Hf. apply within_exec. intros d x d' Hd [= <-]. by apply Hf. Qed.

Lemma alter_empty {A} (f : A -> A) (i : Z) : alter f i (∅ : gmap Z A) = ∅.
Proof. apply map_eq. intros j. by rewrite lookup_alter, lookup_empty; destruct (decide _). Qed.

Lemma nobody_publish subject payload : within nobody anything (publish_quiet subject payload).
Proof. by apply within_publish_quiet. Qed.

Lemma nobody_find {A} (q : FraudDB -> A) : within nobody anything (find q).
Proof. eapply within_anything, within_find. Qed.
Lemma nobody_first {A} (q : FraudDB -> option A) : within nobody anything (first q).
Proof. eapply within_anything, within_first. Qed.
Lemma nobody_row {A} zero (q : FraudDB -> option A) : within nobody anything (row_and_error zero (first q)).
Proof. eapply within_anything, within_first_row. Qed.

Ltac nobody_tac :=
  repeat first
    [ done | apply within_ret; done | apply nobody_UpsertProfile | apply nobody_publish | apply nobody_find | apply nobody_first
    | apply nobody_row | apply within_now | solve [eauto 2 with nobody]
    | apply nobody_insert; by intros | apply nobody_update; intros ? E; simpl; rewrite ?E; solve [apply alter_empty|done]
    | eapply within_anything, within_try | eapply (within_bind _ anything); [|intros ? _]
    | progress cbv beta iota zeta | progress case_match ].

Create HintDb nobody discriminated.

Lemma nobody_sum_days total l : within nobody anything (sum_days total l).
Proof. revert total. induction l as [|m l IH]; intros total; simpl; [by apply within_ret|]. unfold DurationDays. nobody_tac; apply IH. Qed.
Hint Resolve nobody_sum_days : nobody.

Lemma nobody_UserScorer u : within nobody anything (UserScorer_Calculate u).
Proof.
  unfold UserScorer_Calculate, GetProfile, GetRecentMemberships, avgMembershipDays, GetActivityDays.
  eapply within_bind; [apply nobody_row|intros p _]. destruct (fst p); [|by apply within_ret].
  do 3 (eapply (within_bind _ anything); [nobody_tac|intros ? _]). repeat case_match; by apply within_ret.
Qed.
Lemma nobody_CommunityScorer c : within nobody anything (CommunityScorer_Calculate c).
Proof. unfold CommunityScorer_Calculate, GetCommunityStats, GetAvgTrustScoreForCommunity. nobody_tac. Qed.
Lemma nobody_UpdateTrustScore u score b : within nobody anything (UpdateTrustScore u score b).
Proof. unfold UpdateTrustScore. nobody_tac. Qed.
Hint Resolve nobody_UserScorer nobody_CommunityScorer nobody_UpdateTrustScore : nobody.

Lemma nobody_recalcUserScore u : within nobody anything (recalcUserScore u).
Proof. unfold recalcUserScore. nobody_tac. Qed.
Lemma nobody_recalcCommunityScore c : within nobody anything (recalcCommunityScore c).
Proof. unfold recalcCommunityScore, UpdateCommunityScore. nobody_tac. Qed.
Lemma nobody_RecordJoin u c source campaign : within nobody anything (RecordJoin u c source campaign).
Proof. unfold RecordJoin. nobody_tac. Qed.
Lemma nobody_RecordLeave u c : within nobody anything (RecordLeave u c).
Proof. unfold RecordLeave. nobody_tac. Qed.
Lemma nobody_RecordActivity u c a b e : within nobody anything (RecordActivity u c a b e).
Proof. unfold RecordActivity. nobody_tac. Qed.
Lemma nobody_detect u c : within nobody anything (detectJoinLoopFraud u c).
Proof. unfold detectJoinLoopFraud, GetMembershipHistory, RecordFraudEvent. nobody_tac. Qed.
Hint Resolve nobody_recalcUserScore nobody_recalcCommunityScore nobody_RecordJoin nobody_RecordLeave nobody_RecordActivity
  nobody_detect : nobody.

Lemma nobody_on_event m : within nobody anything (on_event m).
Proof. unfold on_event, handleJoin, handleLeave, handleActivity. nobody_tac. Qed.

Lemma nobody_recalc_users l : within nobody anything (recalc_users l).
Proof. induction l; simpl; nobody_tac. Qed.
Hint Resolve nobody_recalc_users nobody_on_event : nobody.

Lemma nobody_batch_loop fuel n a : within nobody anything (batch_loop fuel n a).
Proof. revert a. induction fuel as [|fuel IH]; intros a; simpl; unfold ListUsersForRecalc; nobody_tac; apply IH. Qed.
Hint Resolve nobody_batch_loop : nobody.

Lemma nobody_perform key fuel o : within nobody anything (fraud_perform key fuel o).
Proof.
  destruct o; unfold fraud_perform, handleProfileUpdate, handleCampaignComplete, GetProfile, RecordProfileChange,
    on_user_score_request, on_community_score_request, GetLatestCommunityScore, Fraud_authMiddleware, recalcUser, recalcCommunity,
    UpdateCommunityScore, batchRecalcUsers, GetProfile; nobody_tac.
Qed.

Lemma nobody_serve key fuel l : within nobody anything (fraud_serve key fuel l).
Proof.
  induction l as [|o l IH]; simpl; [by apply within_ret|].
  eapply within_bind; [apply within_try, nobody_perform|intros _ _; exact IH].
Qed.

(** What a score request about [u] is answered with. *)
Definition unknown_user (u : Z) : UserScoreReply := {| sr_User := u; sr_Score := 60; sr_Label := "normal"; sr_Known := false |}.
Definition worthless_user (u : Z) : UserScoreReply := {| sr_User := u; sr_Score := 0; sr_Label := ""; sr_Known := true |}.

(** Started on an empty database the service never stores a profile,
    whatever joins, profile updates, campaigns, requests and ticks it serves:
    it knows no user, and answers a question about any user with the default
    score 60, or with a known score of 0 when the query failed. *)
Theorem fraud_knows_nobody key fuel l s r s' u :
  user_profiles (db s) = ∅ -> fraud_serve key fuel l s = (r, s') ->
  user_profiles (db s') = ∅ /\
  exists answer s2, on_user_score_request u s' = (Ok answer, s2) /\ user_profiles (db s2) = ∅ /\
    (answer = unknown_user u \/ answer = worthless_user u).
Proof.
  intros Hs Hr. destruct (nobody_serve key fuel l s r s' Hs Hr) as [Hs' _]. split; [done|].
  assert (Hq : within nobody (fun a => a = unknown_user u \/ a = worthless_user u) (on_user_score_request u)).
  { unfold on_user_score_request, GetProfile. eapply within_bind; [apply within_first_row|].
    intros [[p|] [e|]] Hp; cbn [fst]; apply within_ret; try done; [subst p; by right| |by left].
    destruct Hp as (d & x & Hd & Hp). unfold nobody in Hd. by rewrite Hd in Hp. }
  assert (Hsure : sure (on_user_score_request u)) by (unfold on_user_score_request, GetProfile; sure_tac).
  destruct (Hsure s') as (a & s2 & E). destruct (Hq s' _ s2 Hs' E) as [Hn Ha]. eauto 6.
Qed.
End strangers.
