(* ===== verification/FraudRejoin.v ===== *)
(** fraud-engine on member-bot's reports: what the two copies of each join lead
    to. *)
From S2P Require Import Prelude GoInt GoFloat GoString Effects PayModels PayChain Bus Triples Community.
From S2P Require Import MemberEvents Fraud FraudEngine FraudSpec.

Section rejoin.
Context {ENV : Env} {FP : F64Platform}.
Context (t0 : Z).
(** Everything happens within six days. *)
Definition that_week (n : Z) : Prop := t0 <= n < t0 + 6 * day.
Context {QUIET : Quiet that_week}.
Context (u c : Z).

(** When [u] joined [c], as recorded. *)
Definition joined_at (d : FraudDB) : list Z := map um_JoinedAt (List.filter (of_pair u c) (user_memberships d)).

Definition recorded (n : Z) : Prop := t0 - 1000000 < n.

Lemma recorded_now n : that_week n -> recorded (bson_time n).
Proof. unfold that_week, recorded, bson_time. intros. pose proof (Z.div_mod n 1000000). pose proof (Z.mod_pos_bound n 1000000). lia. Qed.

(** Nothing forgotten: the memberships stay, what was published stays. *)
Definition more (d : FraudDB) (x : FraudWorld) (d' : FraudDB) (x' : FraudWorld) : Prop :=
  joined_at d' = joined_at d /\ fw_sent x `prefix_of` fw_sent x'.

Lemma more_refl d x : more d x d x.
Proof. by split. Qed.

Lemma more_publish m d d' x : user_memberships d' = user_memberships d -> more d x d' (post m x).
Proof. intros E. split; [unfold joined_at; by rewrite E|by apply prefix_app_r]. Qed.

Lemma runs_publish_more subject payload d x d1 :
  user_memberships d1 = user_memberships d -> runs (publish_quiet subject payload) d1 x (fun _ d' x' => more d x d' x').
Proof.
  intros E. apply runs_publish_quiet; intros _; [|by apply more_publish]. split; [unfold joined_at; by rewrite E|done].
Qed.

Lemma runs_user_score d x : runs (recalcUserScore u) d x (fun _ d' x' => more d x d' x').
Proof.
  unfold recalcUserScore, UpdateTrustScore. apply runs_bind, runs_try.
  eapply runs_weaken; [apply runs_UserScorer|]. intros [score b] ? ? [-> ->]. cbv beta iota.
  apply runs_bind, runs_try, runs_bind, runs_now. intros n1 _. apply runs_bind. eapply runs_exec; [reflexivity|].
  apply runs_bind, runs_now. intros n2 _. eapply runs_exec; [reflexivity|].
  apply runs_bind, runs_now. intros n3 _. by apply runs_publish_more.
Qed.

Lemma runs_CommunityScorer d x : runs (CommunityScorer_Calculate c) d x (fun _ d' x' => d' = d /\ x' = x).
Proof.
  unfold CommunityScorer_Calculate, GetCommunityStats, GetAvgTrustScoreForCommunity. apply runs_bind, runs_row. cbn [fst].
  destruct (community_statistics d !! c) as [st|]; [|by apply runs_ret]. case_match; [by apply runs_ret|].
  apply runs_bind, runs_bind, runs_try, runs_find, runs_ret. repeat case_match; by apply runs_ret.
Qed.

Lemma runs_community_score d x : runs (recalcCommunityScore c) d x (fun _ d' x' => more d x d' x').
Proof.
  unfold recalcCommunityScore, UpdateCommunityScore. apply runs_bind, runs_try.
  eapply runs_weaken; [apply runs_CommunityScorer|]. intros [score b] ? ? [-> ->]. cbv beta iota.
  apply runs_bind, runs_try, runs_bind, runs_now. intros n1 _. eapply runs_exec; [reflexivity|].
  apply runs_bind, runs_now. intros n3 _. by apply runs_publish_more.
Qed.

Lemma more_trans d x d1 x1 d2 x2 : more d x d1 x1 -> more d1 x1 d2 x2 -> more d x d2 x2.
Proof. intros [E1 P1] [E2 P2]. split; [congruence|by etransitivity]. Qed.

Lemma runs_scores d x :
  runs (recalcUserScore u ;; recalcCommunityScore c)%eff d x (fun _ d' x' => more d x d' x').
Proof.
  apply runs_bind. eapply runs_weaken; [apply runs_user_score|]. intros ? d1 x1 H1.
  eapply runs_weaken; [apply runs_community_score|]. intros ? d2 x2 H2. exact (more_trans _ _ _ _ _ _ H1 H2).
Qed.

(** ** Joins and leaves *)

Lemma joined_at_app d m :
  of_pair u c m = true -> joined_at (set_memberships (fun l => l ++ [m]) d) = joined_at d ++ [um_JoinedAt m].
Proof. intros Hm. unfold joined_at. simpl. rewrite List.filter_app, map_app. simpl. by rewrite Hm. Qed.

Lemma runs_RecordJoin source campaign d x :
  runs (RecordJoin u c source campaign) d x
    (fun _ d' x' => x' = x /\ exists n, recorded n /\ joined_at d' = joined_at d ++ [n]).
Proof.
  unfold RecordJoin. apply runs_bind, runs_now. intros j Hj. apply runs_bind, runs_try, runs_find.
  apply runs_bind, runs_try. eapply runs_exec; [reflexivity|]. apply runs_bind, runs_now. intros n _.
  apply runs_bind, runs_try. eapply runs_exec; [reflexivity|]. eapply runs_exec; [reflexivity|].
  split; [done|]. exists (bson_time j). split; [by apply recorded_now|].
  rewrite joined_at_app by (unfold of_pair; cbn [um_TelegramID um_CommunityID]; by rewrite !Z.eqb_refl). done.
Qed.

Lemma joined_at_leave f d :
  (forall m, of_pair u c (f m) = of_pair u c m /\ um_JoinedAt (f m) = um_JoinedAt m) ->
  joined_at (set_memberships (update_first (open_of u c) f) d) = joined_at d.
Proof.
  intros Hf. unfold joined_at. simpl. induction (user_memberships d) as [|m l IH]; simpl; [done|].
  destruct (Hf m) as [E1 E2]. destruct (open_of u c m); simpl.
  - rewrite E1. destruct (of_pair u c m); simpl; by rewrite ?E2.
  - destruct (of_pair u c m); simpl; by rewrite IH.
Qed.

Lemma runs_RecordLeave d x : runs (RecordLeave u c) d x (fun _ d' x' => x' = x /\ joined_at d' = joined_at d).
Proof.
  unfold RecordLeave. apply runs_bind, runs_now. intros n _. apply runs_bind, runs_try_first. apply runs_bind.
  assert (Htail : forall d1 : FraudDB, joined_at d1 = joined_at d ->
    runs (try (update_one [["total_leaves"%string]] (set_profiles (alter (counted_user 0 1) u))) ;;
          try (update_one [["total_leaves"; "member_count"]; ["updated_at"]]%string
            (set_statistics (alter (counted_stats 0 1 (-1) n) c))) ;; ret tt)%eff d1 x
      (fun _ d' x' => x' = x /\ joined_at d' = joined_at d)).
  { intros d1 E. apply runs_bind, runs_try. eapply runs_exec; [reflexivity|].
    apply runs_bind, runs_try. eapply runs_exec; [reflexivity|]. by apply runs_ret. }
  case_match; [|by apply runs_ret, Htail].
  apply runs_bind, runs_try. eapply runs_exec; [reflexivity|]. apply runs_ret, Htail. by apply joined_at_leave.
Qed.

Definition suspicion : Event := {| ev_Subject := "fraud.detected"; ev_Fields := fraud_notice u c |}.

Lemma recent_all k l : k < t0 - 1000000 -> Forall recorded (map um_JoinedAt l) -> recent_joins k l = Z.of_nat (length l).
Proof.
  intros Hk Hl. unfold recent_joins. f_equal. induction l as [|m l IH]; simpl; [done|].
  apply Forall_cons in Hl as [Hm Hl]. unfold recorded in Hm. rewrite (proj2 (Z.ltb_lt _ _)) by lia. simpl. by rewrite IH.
Qed.

(** Three recorded joins within the week are a loop. *)
Lemma runs_detect d x : Forall recorded (joined_at d) ->
  runs (detectJoinLoopFraud u c) d x
    (fun _ d' x' => more d x d' x' /\ ((3 <= length (joined_at d))%nat -> suspicion ∈ fw_sent x')).
Proof.
  intros Hr. unfold detectJoinLoopFraud, GetMembershipHistory. apply runs_bind, runs_try, runs_find.
  set (h := merge_sort _ _). cbv beta iota zeta.
  assert (Hp : Permutation h (List.filter (of_pair u c) (user_memberships d))) by apply merge_sort_Permutation.
  assert (Hlen : length (joined_at d) = length h) by (unfold joined_at; rewrite length_map; by apply Permutation_length).
  rewrite Hlen. destruct (length h <? 3)%nat eqn:E.
  { apply Nat.ltb_lt in E. apply runs_ret. split; [apply more_refl|lia]. }
  apply Nat.ltb_ge in E. apply runs_bind, runs_now. intros n Hn.
  rewrite recent_all; [|unfold that_week, day in *; lia|by rewrite Hp].
  rewrite (proj2 (Z.leb_le _ _)) by lia. unfold RecordFraudEvent.
  apply runs_bind, runs_try, runs_bind, runs_now. intros n2 _. eapply runs_exec; [reflexivity|].
  apply runs_publish_quiet; [done|]. intros _. split; [by apply more_publish|].
  intros _. simpl. apply elem_of_app. right. by apply list_elem_of_singleton.
Qed.

Lemma runs_handleJoin source campaign d x : Forall recorded (joined_at d) ->
  runs (handleJoin u c source campaign) d x
    (fun _ d' x' => fw_sent x `prefix_of` fw_sent x' /\ Forall recorded (joined_at d') /\
       length (joined_at d') = S (length (joined_at d)) /\ ((2 <= length (joined_at d))%nat -> suspicion ∈ fw_sent x')).
Proof.
  intros Hr. unfold handleJoin. apply runs_bind, runs_try. eapply runs_weaken; [apply runs_RecordJoin|].
  intros ? d1 x1 [-> (n & Hn & E1)].
  assert (Hr1 : Forall recorded (joined_at d1)) by (rewrite E1; apply Forall_app; by rewrite Forall_singleton).
  apply runs_bind. eapply runs_weaken; [by apply runs_detect|]. intros ? d2 x2 [[E2 P2] Hs].
  eapply runs_weaken; [apply runs_scores|]. intros ? d3 x3 [E3 P3].
  split; [by etransitivity|]. rewrite E3, E2. split; [done|]. rewrite E1, length_app in *. simpl in *. split; [lia|].
  intros H2. destruct P3 as [l ->]. apply elem_of_app. left. apply Hs. lia.
Qed.

Lemma runs_handleLeave d x :
  runs (handleLeave u c) d x (fun _ d' x' => fw_sent x `prefix_of` fw_sent x' /\ joined_at d' = joined_at d).
Proof.
  unfold handleLeave. apply runs_bind, runs_try. eapply runs_weaken; [apply runs_RecordLeave|].
  intros ? d1 x1 [-> E1]. eapply runs_weaken; [apply runs_scores|]. intros ? d2 x2 [E2 P2]. split; [done|congruence].
Qed.

(** ** The reports of member-bot *)

Definition join_report (username source hash : string) (n : Z) : Event :=
  {| ev_Subject := "membership.joined";
     ev_Fields := [("telegram_id", AInt u); ("community_id", AInt c); ("source", AStr source); ("invite_hash", AStr hash);
                   ("joined_at", AInt n); ("username", AStr username)]%string |}.
Definition join_copy (source hash : string) : Event :=
  {| ev_Subject := "fraud.event.join";
     ev_Fields := [("telegram_id", AInt u); ("community_id", AInt c); ("source", AStr source);
                   ("campaign_id", AStr hash)]%string |}.
Definition leave_report (n : Z) : Event :=
  {| ev_Subject := "membership.left";
     ev_Fields := [("telegram_id", AInt u); ("community_id", AInt c); ("left_at", AInt n)]%string |}.
Definition leave_copy : Event :=
  {| ev_Subject := "fraud.event.leave"; ev_Fields := [("telegram_id", AInt u); ("community_id", AInt c)]%string |}.

Section member_bot.
Context {D X : Type} `{Outbox X}.

Lemma runs_publish_to subject payload (d : D) (x : X) (Q : unit -> D -> X -> Prop) :
  json_ok {| ev_Subject := subject; ev_Fields := payload |} = true ->
  Q tt d (post {| ev_Subject := subject; ev_Fields := payload |} x) -> runs (publish_quiet subject payload) d x Q.
Proof. intros Hj HQ. apply runs_publish_quiet; [congruence|done]. Qed.

Lemma runs_publishJoin username source hash (d : D) (x : X) :
  runs (publishJoin true u c username source hash) d x
    (fun _ d' x' => exists n, outbox x' = outbox x ++ [join_report username source hash n; join_copy source hash]).
Proof.
  apply runs_bind, runs_now. intros n _. apply runs_bind. apply runs_publish_to; [done|].
  apply runs_publish_to; [done|]. exists (n / 1000000000). by rewrite !outbox_post, <- app_assoc.
Qed.

Lemma runs_publishLeave (d : D) (x : X) :
  runs (publishLeave true u c) d x (fun _ d' x' => exists n, outbox x' = outbox x ++ [leave_report n; leave_copy]).
Proof.
  apply runs_bind, runs_now. intros n _. apply runs_bind. apply runs_publish_to; [done|].
  apply runs_publish_to; [done|]. exists (n / 1000000000). by rewrite !outbox_post, <- app_assoc.
Qed.
End member_bot.

(** ** What the engine makes of them *)

Context (Hu : in_int64b u = true) (Hc : in_int64b c = true).

Lemma runs_join_report username source hash n d x Q :
  runs (handleJoin u c source "") d x Q -> runs (on_event (join_report username source hash n)) d x Q.
Proof.
  unfold on_event, decode_join, field_int64, field_string, join_report. simpl. rewrite Hu, Hc. done.
Qed.
Lemma runs_join_copy source hash d x Q :
  runs (handleJoin u c source hash) d x Q -> runs (on_event (join_copy source hash)) d x Q.
Proof. unfold on_event, decode_join, field_int64, field_string, join_copy. simpl. rewrite Hu, Hc. done. Qed.
Lemma runs_leave_report n d x Q : runs (handleLeave u c) d x Q -> runs (on_event (leave_report n)) d x Q.
Proof. unfold on_event, decode_leave, field_int64, field_string, leave_report. simpl. rewrite Hu, Hc. done. Qed.
Lemma runs_leave_copy d x Q : runs (handleLeave u c) d x Q -> runs (on_event leave_copy) d x Q.
Proof. unfold on_event, decode_leave, field_int64, field_string, leave_copy. simpl. rewrite Hu, Hc. done. Qed.

Lemma runs_serve_cons key fuel m l d x Q :
  runs (on_event m) d x (fun _ d' x' => runs (fraud_serve key fuel l) d' x' Q) ->
  runs (fraud_serve key fuel (BusMessage m :: l)) d x Q.
Proof. intros Hm. by apply runs_bind, runs_try. Qed.

(** The suspicion stays published. *)
Lemma suspicion_stays x x' : fw_sent x `prefix_of` fw_sent x' -> suspicion ∈ fw_sent x -> suspicion ∈ fw_sent x'.
Proof. intros [l ->] Hs. apply elem_of_app. by left. Qed.

Definition recorded_joins (k : nat) (d : FraudDB) : Prop := Forall recorded (joined_at d) /\ length (joined_at d) = k.

Lemma runs_joined k source campaign d x (Q : unit -> FraudDB -> FraudWorld -> Prop) :
  recorded_joins k d ->
  (forall d' x', recorded_joins (S k) d' -> (suspicion ∈ fw_sent x \/ (2 <= k)%nat -> suspicion ∈ fw_sent x') -> Q tt d' x') ->
  runs (handleJoin u c source campaign) d x Q.
Proof.
  intros [Hr Hk] HQ. eapply runs_weaken; [by apply runs_handleJoin|]. intros [] d1 x1 (P & F & L & S).
  apply HQ; [split; [done|lia]|]. intros [Hs|H2]; [by apply (suspicion_stays x)|apply S; lia].
Qed.

Lemma runs_left k d x (Q : unit -> FraudDB -> FraudWorld -> Prop) :
  recorded_joins k d ->
  (forall d' x', recorded_joins k d' -> (suspicion ∈ fw_sent x -> suspicion ∈ fw_sent x') -> Q tt d' x') ->
  runs (handleLeave u c) d x Q.
Proof.
  intros Hk HQ. eapply runs_weaken; [apply runs_handleLeave|]. intros [] d1 x1 [P E].
  apply HQ; [unfold recorded_joins; by rewrite E|]. by apply suspicion_stays.
Qed.

(** The updates that Telegram sends when a member leaves and joins anew. *)
Definition update (username old new : string) (link : option string) : member_update :=
  ChatMember (Some {| cm_User := u; cm_Chat := c; cm_Username := username; cm_Old := old; cm_New := new; cm_InviteLink := link |}).
End rejoin.

Section theorem.
Context {ENV : Env} {FP : F64Platform} {D X : Type} `{Outbox X}.

(** C22: member-bot reports every join twice, and fraud-engine records both
    reports: a user who joins a channel, leaves it and joins it once more
    within six days is reported as a join-leave loop, although the loop is
    meant to be three joins. *)
Theorem rejoin_is_fraud t0 u c username key fuel (m : st D X) (s : st FraudDB FraudWorld) :
  Quiet (that_week t0) -> in_int64b u = true -> in_int64b c = true ->
  tx m = NoTx -> outbox (ext m) = [] -> tx s = NoTx -> joined_at u c (db s) = [] ->
  exists m' s',
    member_events true [update u c username "left" "member" None; update u c username "member" "left" None;
                        update u c username "left" "member" None] m = (Ok tt, m') /\
    fraud_serve key fuel (map BusMessage (outbox (ext m'))) s = (Ok tt, s') /\ suspicion u c ∈ fw_sent (ext s').
Proof.
  intros HQ Hu Hc Htm Hm Hts Hs. destruct m as [tm ? dm xm], s as [ts ? ds xs]. simpl in *. subst.
  assert (Hrun : runs (member_events true [update u c username "left" "member" None; update u c username "member" "left" None;
                        update u c username "left" "member" None]) dm xm (fun _ _ x' => exists n1 n2 n3,
    outbox x' = [join_report u c username "organic" "" n1; join_copy u c "organic" ""; leave_report u c n2; leave_copy u c;
                 join_report u c username "organic" "" n3; join_copy u c "organic" ""])).
  { apply runs_bind. eapply runs_weaken; [apply (runs_publishJoin t0)|]. intros ? d1 x1 [n1 E1]. apply runs_bind.
    eapply runs_weaken; [apply (runs_publishLeave t0)|]. intros ? d2 x2 [n2 E2]. apply runs_bind.
    eapply runs_weaken; [apply (runs_publishJoin t0)|]. intros ? d3 x3 [n3 E3]. apply runs_ret.
    exists n1, n2, n3. by rewrite E3, E2, E1, Hm. }
  destruct (Hrun tm) as ([] & t' & d' & x' & E & n1 & n2 & n3 & Ex).
  assert (Hserve : runs (fraud_serve key fuel (map BusMessage (outbox x'))) ds xs (fun _ _ x' => suspicion u c ∈ fw_sent x')).
  { rewrite Ex. cbn [map].
    apply runs_serve_cons, runs_join_report, (runs_joined t0 u c 0); [done..|by split; rewrite Hs|]. intros d1 x1 R1 _.
    apply runs_serve_cons, runs_join_copy, (runs_joined t0 u c 1); [done..|]. intros d2 x2 R2 _.
    apply runs_serve_cons, runs_leave_report, (runs_left t0 u c 2); [done..|]. intros d3 x3 R3 _.
    apply runs_serve_cons, runs_leave_copy, (runs_left t0 u c 2); [done..|]. intros d4 x4 R4 _.
    apply runs_serve_cons, runs_join_report, (runs_joined t0 u c 2); [done..|]. intros d5 x5 R5 S5.
    apply runs_serve_cons, runs_join_copy, (runs_joined t0 u c 3); [done..|]. intros d6 x6 R6 S6.
    apply runs_ret. apply S6. right. lia. }
  destruct (Hserve ts) as ([] & t2 & d2 & x2 & E2 & S2). by exists (mkSt t' NoTx d' x'), (mkSt t2 NoTx d2 x2).
Qed.
End theorem.
