(* ===== verification/FraudDemo.v ===== *)
(** fraud-engine on concrete documents: the theorems at work. *)
From S2P Require Import Prelude GoInt GoFloat GoString Effects PayModels PayChain Bus Triples Community.
From S2P Require Import MemberEvents Fraud FraudEngine FraudSpec FraudRejoin.

(** Nothing fails, and a thousand effects take a microsecond. *)
Definition week_env : Env := {|
  env_fault := fun _ => None;
  env_now := fun n => Z.min (Z.of_nat n) 1000;
  env_uuid := fun n => N.of_nat n;
  env_random := fun _ => "r";
  idx_tx_hash := false;
|}.
#[local] Existing Instance week_env.
#[local] Existing Instance amd64.

Lemma week_quiet : Quiet (that_week 0).
Proof. split; [done|]. intros k. unfold that_week, day. simpl. lia. Qed.
#[local] Existing Instance week_quiet.

Definition known_user : UserProfile := {|
  up_TelegramID := 7; up_Username := "u"; up_FirstName := "U"; up_LastName := ""; up_HasPhoto := true; up_IsBot := false;
  up_FirstSeen := Some 0; up_LastSeen := 0; up_UpdatedAt := 0; up_TrustScore := 0; up_ScoreLabel := ""; up_TotalJoins := 4;
  up_TotalLeaves := 3; up_TotalCampaigns := 9; up_AdCompletions := 8 |}.
Definition one_membership : UserMembership := {|
  um_TelegramID := 7; um_CommunityID := 5; um_JoinedAt := 0; um_LeftAt := None; um_DurationSec := -1; um_RejoinCount := 0;
  um_Source := "organic"; um_CampaignID := "" |}.
Definition no_documents : FraudDB := {|
  user_profiles := ∅; profile_history := []; user_memberships := []; user_activity := []; user_scores := [];
  community_scores := []; community_statistics := ∅; fraud_events := [] |}.
Definition some_documents : FraudDB :=
  set_memberships (fun _ => [one_membership]) (set_profiles (fun _ => <[-3 := known_user]> {[7 := known_user]}) no_documents).
Definition silence : FraudWorld := {| fw_sent := [] |}.
Definition fraud_state (d : FraudDB) : st FraudDB FraudWorld := mkSt 0 NoTx d silence.

Lemma user_score_range_witness : exists score b,
  fst (UserScorer_Calculate 7 (fraud_state some_documents)) = Ok (score, b) /\ 0 <= score <= 100.
Proof.
  destruct (UserScorer_Calculate 7 (fraud_state some_documents)) as [r s'] eqn:Er.
  destruct (user_score_range 7 (fraud_state some_documents) r s') as (score & b & E & H & _).
  - intros p Hp. vm_compute in Hp. injection Hp as <-. split; simpl; lia.
  - vm_compute. reflexivity.
  - exact Er.
  - exists score, b. by split.
Defined.


Lemma fraud_knows_nobody_witness :
  let ops := [ProfileUpdated (Some (7, ("u", "U", ""), true)); CampaignCompleted (Some (7, true)); RecalcTick]%string in
  user_profiles (db (snd (fraud_serve "" 5 ops (fraud_state no_documents)))) = ∅.
Proof.
  intros ops. destruct (fraud_knows_nobody "" 5 ops (fraud_state no_documents) _ _ 7 eq_refl (surjective_pairing _)) as [H _].
  exact H.
Defined.

Lemma rejoin_is_fraud_witness : exists m' s',
  member_events true [update 7 5 "u" "left" "member" None; update 7 5 "u" "member" "left" None;
                      update 7 5 "u" "left" "member" None]%string (mkSt 0 NoTx tt silence) = (Ok tt, m') /\
  fraud_serve "" 5 (map BusMessage (outbox (ext m'))) (fraud_state no_documents) = (Ok tt, s') /\
  suspicion 7 5 ∈ fw_sent (ext s').
Proof.
  apply (rejoin_is_fraud 0 7 5 "u" "" 5 (mkSt 0 NoTx tt silence) (fraud_state no_documents));
    [apply week_quiet|reflexivity..].
Defined.
