(* ===== verification/Platform.v ===== *)
(** shared-core: the tables of the platform (models/models.go) and the store
    that apimanager and botmanager work on (store/store.go). *)
From S2P Require Import Prelude GoInt GoFloat GoString GoText Effects PayModels PayChain Bus.

(** * models/models.go *)

Record User := {
  us_ID : uuid; us_TelegramID : Z; us_Username : string; us_FirstName : string; us_Role : string; us_IsBlocked : bool;
}.
Definition RoleOwner : string := "owner".
Definition RoleAdmin : string := "admin".
Definition RoleUser : string := "user".

Record Server := {
  sv_ID : uuid; sv_DeletedAt : option Z; sv_Name : string; sv_IP : string; sv_IsOnline : bool; sv_LastSeen : Z;
  sv_Channel : string; sv_OnlineSince : option Z; sv_CPUPercent : option float64; sv_MemoryUsedMB : option Z;
  sv_MemoryTotalMB : option Z; sv_LastContainers : string; sv_Tags : string; sv_MaxContainers : Z;
}.

Record BotTemplate := {
  bt_ID : uuid; bt_DeletedAt : option Z; bt_Name : string; bt_Type : string; bt_ImageName : string;
  bt_ImageTag : string; bt_IsActive : bool; bt_IsFree : bool; bt_ConfigSchema : string;
}.

Inductive InstanceStatus := StatusRunning | StatusStopped | StatusPending | StatusError | StatusDeleted.
#[export] Instance InstanceStatus_eq_dec : EqDecision InstanceStatus.
Proof. solve_decision. Defined.

Record BotInstance := {
  bi_ID : uuid; bi_DeletedAt : option Z; bi_OwnerID : uuid; bi_TemplateID : uuid; bi_ServerID : uuid;
  bi_ContainerName : string; bi_BotToken : string; bi_BotID : Z; bi_PlanID : option uuid; bi_LockMode : string;
  bi_Status : InstanceStatus; bi_ExpiresAt : option Z; bi_DBSchema : string; bi_EnvOverrides : string;
}.
Definition LockModeFree : string := "free".
Definition LockModeRented : string := "rented".
Definition LockModeNone : string := "none".

(** BotIDFromToken of shared-core/models *)
Definition Platform_BotIDFromToken (token : string) : option Z :=
  match Cut ":" token with Some (id, _) => Sscanf_int id | None => None end.

Record PlanBotLimit := { pl_BotType : string; pl_MaxBots : Z }.
Record Plan := {
  pn_ID : uuid; pn_DeletedAt : option Z; pn_Name : string; pn_DurationDay : Z; pn_Price : float64; pn_MaxBots : Z;
  pn_IsFree : bool; pn_IsActive : bool;
}.

(** [limits]: the preloaded rows of the plan. *)
Definition LimitFor (p : Plan) (limits : list PlanBotLimit) (botType : string) : Z :=
  match List.find (fun l => pl_BotType l =? botType)%string limits with
  | Some l => pl_MaxBots l
  | None => pn_MaxBots p
  end.

Record Subscription := {
  sb_ID : uuid; sb_UserID : uuid; sb_PlanID : uuid; sb_StartedAt : Z; sb_ExpiresAt : option Z; sb_IsActive : bool;
}.

Record PlanPayment := {
  pp_ID : uuid; pp_UserID : uuid; pp_PlanID : option uuid; pp_Amount : float64; pp_Currency : string;
  pp_Status : string; pp_TxHash : string; pp_InvoiceID : string; pp_ConfirmedAt : option Z;
}.

Record PromoCode := {
  pc_ID : uuid; pc_DeletedAt : option Z; pc_Code : string; pc_AmountTON : float64; pc_MaxUses : Z; pc_UsedCount : Z;
  pc_ExpiresAt : option Z; pc_IsActive : bool; pc_CreatedBy : Z;
}.
Definition PromoExpired (p : PromoCode) (now : Z) : bool :=
  match pc_ExpiresAt p with Some t => t <? now | None => false end.
Definition PromoExhausted (p : PromoCode) : bool := (0 <? pc_MaxUses p) && (pc_MaxUses p <=? pc_UsedCount p).
Definition IsRedeemable (p : PromoCode) (now : Z) : bool :=
  pc_IsActive p && negb (PromoExpired p now) && negb (PromoExhausted p).

Record AuditLog := {
  al_ActorID : uuid; al_ActorRole : string; al_Action : string; al_TargetID : string; al_TargetType : string;
}.

(** * The tables

    Limits are keyed by plan and bot type, redemptions by code and user: their
    unique indexes. *)
Record PlatTables := {
  users : gmap uuid User; servers : gmap uuid Server; templates : gmap uuid BotTemplate;
  instances : gmap uuid BotInstance; plans : gmap uuid Plan; limits : gmap (uuid * string) Z;
  subscriptions : gmap uuid Subscription; plan_payments : gmap uuid PlanPayment; promo_codes : gmap uuid PromoCode;
  redemptions : gset (uuid * uuid); audit_logs : list AuditLog;
}.
Definition set_users f d := {| users := f (users d); servers := servers d; templates := templates d;
  instances := instances d; plans := plans d; limits := limits d; subscriptions := subscriptions d;
  plan_payments := plan_payments d; promo_codes := promo_codes d; redemptions := redemptions d; audit_logs := audit_logs d |}.
Definition set_servers f d := {| users := users d; servers := f (servers d); templates := templates d;
  instances := instances d; plans := plans d; limits := limits d; subscriptions := subscriptions d;
  plan_payments := plan_payments d; promo_codes := promo_codes d; redemptions := redemptions d; audit_logs := audit_logs d |}.
Definition set_templates f d := {| users := users d; servers := servers d; templates := f (templates d);
  instances := instances d; plans := plans d; limits := limits d; subscriptions := subscriptions d;
  plan_payments := plan_payments d; promo_codes := promo_codes d; redemptions := redemptions d; audit_logs := audit_logs d |}.
Definition set_instances f d := {| users := users d; servers := servers d; templates := templates d;
  instances := f (instances d); plans := plans d; limits := limits d; subscriptions := subscriptions d;
  plan_payments := plan_payments d; promo_codes := promo_codes d; redemptions := redemptions d; audit_logs := audit_logs d |}.
Definition set_plans f d := {| users := users d; servers := servers d; templates := templates d;
  instances := instances d; plans := f (plans d); limits := limits d; subscriptions := subscriptions d;
  plan_payments := plan_payments d; promo_codes := promo_codes d; redemptions := redemptions d; audit_logs := audit_logs d |}.
Definition set_limits f d := {| users := users d; servers := servers d; templates := templates d;
  instances := instances d; plans := plans d; limits := f (limits d); subscriptions := subscriptions d;
  plan_payments := plan_payments d; promo_codes := promo_codes d; redemptions := redemptions d; audit_logs := audit_logs d |}.
Definition set_subscriptions f d := {| users := users d; servers := servers d; templates := templates d;
  instances := instances d; plans := plans d; limits := limits d; subscriptions := f (subscriptions d);
  plan_payments := plan_payments d; promo_codes := promo_codes d; redemptions := redemptions d; audit_logs := audit_logs d |}.
Definition set_plan_payments f d := {| users := users d; servers := servers d; templates := templates d;
  instances := instances d; plans := plans d; limits := limits d; subscriptions := subscriptions d;
  plan_payments := f (plan_payments d); promo_codes := promo_codes d; redemptions := redemptions d; audit_logs := audit_logs d |}.
Definition set_promo_codes f d := {| users := users d; servers := servers d; templates := templates d;
  instances := instances d; plans := plans d; limits := limits d; subscriptions := subscriptions d;
  plan_payments := plan_payments d; promo_codes := f (promo_codes d); redemptions := redemptions d; audit_logs := audit_logs d |}.
Definition set_redemptions f d := {| users := users d; servers := servers d; templates := templates d;
  instances := instances d; plans := plans d; limits := limits d; subscriptions := subscriptions d;
  plan_payments := plan_payments d; promo_codes := promo_codes d; redemptions := f (redemptions d); audit_logs := audit_logs d |}.
Definition add_audit l d := {| users := users d; servers := servers d; templates := templates d;
  instances := instances d; plans := plans d; limits := limits d; subscriptions := subscriptions d;
  plan_payments := plan_payments d; promo_codes := promo_codes d; redemptions := redemptions d;
  audit_logs := audit_logs d ++ [l] |}.

(** What the database decides: the value of a text compared with a uuid column
    ([None]: invalid input syntax), and the row that LIMIT 1 gives among rows
    the query does not order. *)
Class PgChoices := {
  pg_uuid : string -> option uuid;
  any_row : forall A, list A -> option A;
  any_row_in : forall A (l : list A), match any_row A l with Some x => x ∈ l | None => l = [] end;
}.
Arguments any_row {_ A}.

Section store.
Context {X : Type} {ENV : Env} {LIB : Lib} {PG : PgChoices}.
Abbreviation PM := (M PlatTables X).

(** Every query on a model with DeletedAt passes over deleted rows. *)
Definition live {A} (deleted : A -> option Z) (x : A) : bool := match deleted x with None => true | Some _ => false end.

(** WHERE id = id, with an id that is a text. *)
Definition invalid_uuid : error := Sentinel "postgres" "22P02".
Definition first_id {A} (id : string) (q : uuid -> PlatTables -> option A) : PM A :=
  stmt (fun d => match pg_uuid id with
                 | None => Err invalid_uuid
                 | Some u => match q u d with Some a => Ok (a, d) | None => Err ErrRecordNotFound end
                 end).
Definition exec_id (id : string) (f : uuid -> PlatTables -> PlatTables) : PM unit :=
  exec (fun d => match pg_uuid id with None => Err invalid_uuid | Some u => Ok (f u d) end).

Definition live_row {A} (deleted : A -> option Z) (m : gmap uuid A) (id : uuid) : option A :=
  match m !! id with Some x => if live deleted x then Some x else None | None => None end.
Definition alter_live {A} (deleted : A -> option Z) (f : A -> A) (id : uuid) (m : gmap uuid A) : gmap uuid A :=
  alter (fun x => if live deleted x then f x else x) id m.

(** ** Users *)

Definition zero_user : User := {| us_ID := 0; us_TelegramID := 0; us_Username := ""; us_FirstName := ""; us_Role := "";
  us_IsBlocked := false |}.

Definition user_of_telegram (id : Z) (d : PlatTables) : option User :=
  first_row us_ID (fun u => us_TelegramID u =? id) (rows (users d)).
Definition FindUserByTelegramID (id : Z) : PM (option User * option error) :=
  row_and_error zero_user (first (user_of_telegram id)).
Definition FindUserByID (id : uuid) : PM (option User * option error) :=
  row_and_error zero_user (first (fun d => users d !! id)).

Definition insert_user (u : User) (d : PlatTables) : result PlatTables :=
  if bool_decide (is_Some (users d !! us_ID u)) then Err (ErrDuplicatedKey "users_pkey")
  else if existsb (fun x => us_TelegramID x =? us_TelegramID u) (rows (users d))
  then Err (ErrDuplicatedKey "idx_users_telegram_id")
  else Ok (set_users <[us_ID u := u]> d).

(** Assign writes the fields that are not zero. *)
Definition assigned (u x : User) : User := {| us_ID := us_ID x; us_TelegramID := us_TelegramID x;
  us_Username := if (us_Username u =? "")%string then us_Username x else us_Username u;
  us_FirstName := if (us_FirstName u =? "")%string then us_FirstName x else us_FirstName u;
  us_Role := if (us_Role u =? "")%string then us_Role x else us_Role u;
  us_IsBlocked := us_IsBlocked u || us_IsBlocked x |}.

(** The row that [u] points to afterwards. *)
Definition UpsertUser (u : User) : PM User :=
  (r <- try (first (user_of_telegram (us_TelegramID u))) ;;
   match r with
   | Ok x => let x := assigned u x in (exec (fun d => Ok (set_users (alter (fun _ => x) (us_ID x)) d)) ;; ret x)
   | Err ErrRecordNotFound =>
       (id <- uuid_New ;;
        let x := {| us_ID := id; us_TelegramID := us_TelegramID u; us_Username := us_Username u;
                    us_FirstName := us_FirstName u; us_Role := us_Role u; us_IsBlocked := us_IsBlocked u |} in
        exec (insert_user x) ;; ret x)
   | Err e => throw e
   end)%eff.

Definition with_role (role : string) (blocked : bool) (u : User) : User := {| us_ID := us_ID u;
  us_TelegramID := us_TelegramID u; us_Username := us_Username u; us_FirstName := us_FirstName u; us_Role := role;
  us_IsBlocked := blocked |}.
Definition SetUserBlocked (id : uuid) (blocked : bool) : PM unit :=
  exec (fun d => Ok (set_users (alter (fun u => with_role (us_Role u) blocked u) id) d)).
Definition SetUserRole (id : uuid) (role : string) : PM unit :=
  exec (fun d => Ok (set_users (alter (fun u => with_role role (us_IsBlocked u) u) id) d)).

(** ** Servers *)

Definition zero_server : Server := {| sv_ID := 0; sv_DeletedAt := None; sv_Name := ""; sv_IP := ""; sv_IsOnline := false;
  sv_LastSeen := 0; sv_Channel := ""; sv_OnlineSince := None; sv_CPUPercent := None; sv_MemoryUsedMB := None;
  sv_MemoryTotalMB := None; sv_LastContainers := ""; sv_Tags := ""; sv_MaxContainers := 0 |}.

Definition ListServers : PM (list Server) := find (fun d => List.filter (live sv_DeletedAt) (rows (servers d))).

Definition insert_server (s : Server) (d : PlatTables) : result PlatTables :=
  if bool_decide (is_Some (servers d !! sv_ID s)) then Err (ErrDuplicatedKey "servers_pkey")
  else if existsb (fun x => sv_IP x =? sv_IP s)%string (rows (servers d)) then Err (ErrDuplicatedKey "idx_servers_ip")
  else Ok (set_servers <[sv_ID s := s]> d).
Definition CreateServer (s : Server) : PM unit := exec (insert_server s).

Definition deleted_server (t : Z) (s : Server) : Server := {| sv_ID := sv_ID s; sv_DeletedAt := Some t; sv_Name := sv_Name s;
  sv_IP := sv_IP s; sv_IsOnline := sv_IsOnline s; sv_LastSeen := sv_LastSeen s; sv_Channel := sv_Channel s;
  sv_OnlineSince := sv_OnlineSince s; sv_CPUPercent := sv_CPUPercent s; sv_MemoryUsedMB := sv_MemoryUsedMB s;
  sv_MemoryTotalMB := sv_MemoryTotalMB s; sv_LastContainers := sv_LastContainers s; sv_Tags := sv_Tags s;
  sv_MaxContainers := sv_MaxContainers s |}.
Definition DeleteServer (id : string) : PM unit :=
  (t <- now ;; exec_id id (fun u => set_servers (alter_live sv_DeletedAt (deleted_server t) u)))%eff.

(** What a heartbeat writes: is_online, last_seen, and online_since when the
    server was offline or never online; [report] are the other columns. *)
Definition seen (t : Z) (report : option (option float64 * option Z * option Z * string)) (s : Server) : Server :=
  {| sv_ID := sv_ID s; sv_DeletedAt := sv_DeletedAt s; sv_Name := sv_Name s; sv_IP := sv_IP s; sv_IsOnline := true;
     sv_LastSeen := t; sv_Channel := sv_Channel s;
     sv_OnlineSince := match sv_OnlineSince s with
                       | None => Some t
                       | Some o => if sv_IsOnline s then Some o else Some t
                       end;
     sv_CPUPercent := match report with Some (c, _, _, _) => c | None => sv_CPUPercent s end;
     sv_MemoryUsedMB := match report with Some (_, u, _, _) => u | None => sv_MemoryUsedMB s end;
     sv_MemoryTotalMB := match report with Some (_, _, m, _) => m | None => sv_MemoryTotalMB s end;
     sv_LastContainers := match report with Some (_, _, _, l) => l | None => sv_LastContainers s end;
     sv_Tags := sv_Tags s; sv_MaxContainers := sv_MaxContainers s |}.
Definition MarkServerOnline (id : uuid) : PM unit :=
  (t <- now ;; exec (fun d => Ok (set_servers (alter_live sv_DeletedAt (seen t None) id) d)))%eff.
Definition RecordHeartbeat (serverID : string) (cpuPercent : option float64) (memUsedMB memTotalMB : option Z)
    (containersJSON : string) : PM unit :=
  (t <- now ;;
   exec_id serverID (fun u =>
     set_servers (alter_live sv_DeletedAt (seen t (Some (cpuPercent, memUsedMB, memTotalMB, containersJSON))) u)))%eff.

Definition offline (s : Server) : Server := {| sv_ID := sv_ID s; sv_DeletedAt := sv_DeletedAt s; sv_Name := sv_Name s;
  sv_IP := sv_IP s; sv_IsOnline := false; sv_LastSeen := sv_LastSeen s; sv_Channel := sv_Channel s; sv_OnlineSince := None;
  sv_CPUPercent := sv_CPUPercent s; sv_MemoryUsedMB := sv_MemoryUsedMB s; sv_MemoryTotalMB := sv_MemoryTotalMB s;
  sv_LastContainers := sv_LastContainers s; sv_Tags := sv_Tags s; sv_MaxContainers := sv_MaxContainers s |}.
Definition MarkStaleServersOffline (thresholdSeconds : Z) : PM unit :=
  (t <- now ;;
   exec (fun d => Ok (set_servers (fmap (fun s =>
     if live sv_DeletedAt s && sv_IsOnline s && (sv_LastSeen s <? t - thresholdSeconds * 1000000000)
     then offline s else s)) d)))%eff.

Definition FindServerByID (id : string) : PM (option Server * option error) :=
  row_and_error zero_server (first_id id (fun u d => live_row sv_DeletedAt (servers d) u)).

(** gorm's Save: every column of the row; the unique index is checked. *)
Definition save_server (s : Server) (d : PlatTables) : result PlatTables :=
  if existsb (fun x => (sv_IP x =? sv_IP s)%string && negb (sv_ID x =? sv_ID s)%N) (rows (servers d))
  then Err (ErrDuplicatedKey "idx_servers_ip") else Ok (set_servers <[sv_ID s := s]> d).
Definition UpdateServer (s : Server) : PM unit := exec (save_server s).

(** (SELECT COUNT( * ) FROM bot_instances ...) of SelectLeastLoadedServer *)
Definition load (d : PlatTables) (s : Server) : Z :=
  Z.of_nat (length (List.filter (fun i => (bi_ServerID i =? sv_ID s)%N && negb (bool_decide (bi_Status i = StatusDeleted)) &&
    live bi_DeletedAt i) (rows (instances d)))).

(** ',' || tags || ',' LIKE '%,' || tag || ',%': the callers ask for no tag
    that holds a wildcard. *)
Fixpoint contains (word s : string) : bool :=
  HasPrefix s word || match s with EmptyString => false | String _ s => contains word s end.
Definition tagged (tag tags : string) : bool :=
  (tag =? "")%string || contains ("," +:+ tag +:+ ",") ("," +:+ tags +:+ ",").
Definition eligible (tag : string) (d : PlatTables) (s : Server) : bool :=
  sv_IsOnline s && live sv_DeletedAt s && ((sv_MaxContainers s =? 0) || (load d s <? sv_MaxContainers s)) && tagged tag (sv_Tags s).
Definition least_loaded (tag : string) (d : PlatTables) : option Server :=
  let l := List.filter (eligible tag d) (rows (servers d)) in
  any_row (List.filter (fun s => forallb (fun x => load d s <=? load d x) l) l).
Definition SelectLeastLoadedServer (requiredTag : string) : PM (option Server * option error) :=
  row_and_error zero_server (first (least_loaded requiredTag)).

(** ** Templates *)

Definition zero_template : BotTemplate := {| bt_ID := 0; bt_DeletedAt := None; bt_Name := ""; bt_Type := "";
  bt_ImageName := ""; bt_ImageTag := ""; bt_IsActive := false; bt_IsFree := false; bt_ConfigSchema := "" |}.

Definition FindTemplate (id : string) : PM (option BotTemplate * option error) :=
  row_and_error zero_template (first_id id (fun u d => live_row bt_DeletedAt (templates d) u)).
Definition UpdateTemplate (t : BotTemplate) : PM unit := exec (fun d => Ok (set_templates <[bt_ID t := t]> d)).
Definition deleted_template (t : Z) (b : BotTemplate) : BotTemplate := {| bt_ID := bt_ID b; bt_DeletedAt := Some t;
  bt_Name := bt_Name b; bt_Type := bt_Type b; bt_ImageName := bt_ImageName b; bt_ImageTag := bt_ImageTag b;
  bt_IsActive := bt_IsActive b; bt_IsFree := bt_IsFree b; bt_ConfigSchema := bt_ConfigSchema b |}.
Definition DeleteTemplate (id : string) : PM unit :=
  (t <- now ;; exec_id id (fun u => set_templates (alter_live bt_DeletedAt (deleted_template t) u)))%eff.
Definition CreateTemplate (t : BotTemplate) : PM unit :=
  exec (fun d => if bool_decide (is_Some (templates d !! bt_ID t)) then Err (ErrDuplicatedKey "bot_templates_pkey")
                 else Ok (set_templates <[bt_ID t := t]> d)).

(** ** Instances *)

Definition zero_instance : BotInstance := {| bi_ID := 0; bi_DeletedAt := None; bi_OwnerID := 0; bi_TemplateID := 0;
  bi_ServerID := 0; bi_ContainerName := ""; bi_BotToken := ""; bi_BotID := 0; bi_PlanID := None; bi_LockMode := "";
  bi_Status := StatusPending; bi_ExpiresAt := None; bi_DBSchema := ""; bi_EnvOverrides := "" |}.

Definition FindInstance (id : string) : PM (option BotInstance * option error) :=
  row_and_error zero_instance (first_id id (fun u d => live_row bi_DeletedAt (instances d) u)).
Definition select_instance (P : BotInstance -> bool) (d : PlatTables) : option BotInstance :=
  first_row bi_ID (fun i => live bi_DeletedAt i && P i) (rows (instances d)).
Definition FindInstanceByBotID (botID : Z) : PM (option BotInstance * option error) :=
  row_and_error zero_instance (first (select_instance (fun i => bi_BotID i =? botID))).
Definition FindInstanceByContainerName (name : string) : PM (option BotInstance * option error) :=
  row_and_error zero_instance (first (select_instance (fun i => bi_ContainerName i =? name)%string)).

(** The three partial unique indexes cover the rows that are not deleted. *)
Definition clashes (i x : BotInstance) : bool :=
  live bi_DeletedAt x && negb (bi_ID x =? bi_ID i)%N &&
  ((bi_ContainerName x =? bi_ContainerName i)%string || (bi_BotID x =? bi_BotID i) || (bi_DBSchema x =? bi_DBSchema i)%string).
Definition insert_instance (i : BotInstance) (d : PlatTables) : result PlatTables :=
  if bool_decide (is_Some (instances d !! bi_ID i)) then Err (ErrDuplicatedKey "bot_instances_pkey")
  else if existsb (clashes i) (rows (instances d)) then Err (ErrDuplicatedKey "idx_bot_instances")
  else Ok (set_instances <[bi_ID i := i]> d).
Definition CreateInstance (i : BotInstance) : PM unit := exec (insert_instance i).

Definition with_instance (deleted : option Z) (server : uuid) (status : InstanceStatus) (env : string) (i : BotInstance)
  : BotInstance := {| bi_ID := bi_ID i; bi_DeletedAt := deleted; bi_OwnerID := bi_OwnerID i;
  bi_TemplateID := bi_TemplateID i; bi_ServerID := server; bi_ContainerName := bi_ContainerName i;
  bi_BotToken := bi_BotToken i; bi_BotID := bi_BotID i; bi_PlanID := bi_PlanID i; bi_LockMode := bi_LockMode i;
  bi_Status := status; bi_ExpiresAt := bi_ExpiresAt i; bi_DBSchema := bi_DBSchema i; bi_EnvOverrides := env |}.
Definition update_instance (id : uuid) (f : BotInstance -> BotInstance) : PM unit :=
  exec (fun d => Ok (set_instances (alter_live bi_DeletedAt f id) d)).
Definition UpdateInstanceStatus (id : uuid) (status : InstanceStatus) : PM unit :=
  update_instance id (fun i => with_instance (bi_DeletedAt i) (bi_ServerID i) status (bi_EnvOverrides i) i).
Definition UpdateInstanceServer (id serverID : uuid) : PM unit :=
  update_instance id (fun i => with_instance (bi_DeletedAt i) serverID (bi_Status i) (bi_EnvOverrides i) i).
Definition UpdateInstanceEnvOverrides (id : uuid) (envJSON : string) : PM unit :=
  update_instance id (fun i => with_instance (bi_DeletedAt i) (bi_ServerID i) (bi_Status i) envJSON i).
Definition DeleteInstance (id : uuid) : PM unit :=
  (t <- now ;; update_instance id (fun i => with_instance (Some t) (bi_ServerID i) (bi_Status i) (bi_EnvOverrides i) i))%eff.
(** gorm's Save *)
Definition UpdateInstance (i : BotInstance) : PM unit :=
  exec (fun d => if existsb (clashes i) (rows (instances d)) then Err (ErrDuplicatedKey "idx_bot_instances")
                 else Ok (set_instances <[bi_ID i := i]> d)).
Definition ListInstancesByOwner (ownerID : uuid) : PM (list BotInstance) :=
  find (fun d => List.filter (fun i => live bi_DeletedAt i && (bi_OwnerID i =? ownerID)%N) (rows (instances d))).

(** ** Plans *)

Definition zero_plan : Plan := {| pn_ID := 0; pn_DeletedAt := None; pn_Name := ""; pn_DurationDay := 0; pn_Price := f64_of_int 0;
  pn_MaxBots := 0; pn_IsFree := false; pn_IsActive := false |}.

(** The tag default:1 replaces a zero max_bots when a row is created. *)
Definition default_max_bots (n : Z) : Z := if n =? 0 then 1 else n.
Definition CreatePlan (p : Plan) : PM Plan :=
  let p := {| pn_ID := pn_ID p; pn_DeletedAt := pn_DeletedAt p; pn_Name := pn_Name p; pn_DurationDay := pn_DurationDay p;
              pn_Price := pn_Price p; pn_MaxBots := default_max_bots (pn_MaxBots p); pn_IsFree := pn_IsFree p;
              pn_IsActive := true |} in
  (exec (fun d => if bool_decide (is_Some (plans d !! pn_ID p)) then Err (ErrDuplicatedKey "plans_pkey")
                  else Ok (set_plans <[pn_ID p := p]> d)) ;; ret p)%eff.
Definition UpdatePlan (p : Plan) : PM unit := exec (fun d => Ok (set_plans <[pn_ID p := p]> d)).
Definition deleted_plan (t : Z) (p : Plan) : Plan := {| pn_ID := pn_ID p; pn_DeletedAt := Some t; pn_Name := pn_Name p;
  pn_DurationDay := pn_DurationDay p; pn_Price := pn_Price p; pn_MaxBots := pn_MaxBots p; pn_IsFree := pn_IsFree p;
  pn_IsActive := pn_IsActive p |}.
Definition DeletePlan (id : string) : PM unit :=
  (t <- now ;; exec_id id (fun u => set_plans (alter_live pn_DeletedAt (deleted_plan t) u)))%eff.

Definition isBlankID (id : string) : bool := (id =? "")%string || (id =? uuid_String 0)%string.
Definition FindPlan (id : string) : PM (option Plan * option error) :=
  if isBlankID id then ret (None, None)
  else row_and_error zero_plan (first_id id (fun u d => live_row pn_DeletedAt (plans d) u)).

Definition limits_of (id : uuid) (d : PlatTables) : list PlanBotLimit :=
  omap (fun kv => if (kv.1.1 =? id)%N then Some {| pl_BotType := kv.1.2; pl_MaxBots := kv.2 |} else None)
    (map_to_list (limits d)).
(** Preload is a second query. *)
Definition FindPlanWithLimits (id : string) : PM (option (Plan * list PlanBotLimit) * option error) :=
  if isBlankID id then ret (None, None)
  else row_and_error (zero_plan, [])
    (p <- first_id id (fun u d => live_row pn_DeletedAt (plans d) u) ;; l <- find (limits_of (pn_ID p)) ;; ret (p, l))%eff.

Definition SetPlanLimit (planID : uuid) (botType : string) (maxBots : Z) : PM unit :=
  (r <- try (first (fun d => limits d !! (planID, botType))) ;;
   match r with
   | Err ErrRecordNotFound => exec (fun d =>
       if bool_decide (is_Some (limits d !! (planID, botType))) then Err (ErrDuplicatedKey "idx_plan_bottype")
       else Ok (set_limits <[(planID, botType) := default_max_bots maxBots]> d))
   | Err e => throw e
   | Ok _ => exec (fun d => Ok (set_limits (alter (fun _ => maxBots) (planID, botType)) d))
   end)%eff.

(** ** Payments and subscriptions *)

(** The unique indexes on tx_hash and invoice_id compare empty texts too. *)
Definition insert_payment (p : PlanPayment) (d : PlatTables) : result PlatTables :=
  if bool_decide (is_Some (plan_payments d !! pp_ID p)) then Err (ErrDuplicatedKey "payments_pkey")
  else if existsb (fun x => (pp_TxHash x =? pp_TxHash p)%string) (rows (plan_payments d))
  then Err (ErrDuplicatedKey "idx_payments_tx_hash")
  else if existsb (fun x => (pp_InvoiceID x =? pp_InvoiceID p)%string) (rows (plan_payments d))
  then Err (ErrDuplicatedKey "idx_payments_invoice_id")
  else Ok (set_plan_payments <[pp_ID p := p]> d).
Definition CreatePayment (p : PlanPayment) : PM unit := exec (insert_payment p).
Definition CreateSubscription (s : Subscription) : PM unit :=
  exec (fun d => if bool_decide (is_Some (subscriptions d !! sb_ID s)) then Err (ErrDuplicatedKey "subscriptions_pkey")
                 else Ok (set_subscriptions <[sb_ID s := s]> d)).

Definition active_subscriptions (userID : uuid) (d : PlatTables) : list Subscription :=
  List.filter (fun s => (sb_UserID s =? userID)%N && sb_IsActive s) (rows (subscriptions d)).
Definition GetActiveSubscription (userID : uuid) : PM (option Subscription) :=
  find (fun d => any_row (active_subscriptions userID d)).

(** ** Capacity *)

Definition template_ids (botType : string) (d : PlatTables) : list uuid :=
  map bt_ID (List.filter (fun t => live bt_DeletedAt t && bt_IsActive t && (bt_Type t =? botType)%string) (rows (templates d))).
Definition count_instances (ownerID : uuid) (ids : list uuid) (d : PlatTables) : Z :=
  Z.of_nat (length (List.filter (fun i => live bi_DeletedAt i && (bi_OwnerID i =? ownerID)%N &&
    bool_decide (bi_TemplateID i ∈ ids)) (rows (instances d)))).
Definition CountInstancesByOwnerAndType (ownerID : uuid) (botType : string) : PM Z :=
  (ids <- find (template_ids botType) ;;
   match ids with [] => ret 0 | _ => find (count_instances ownerID ids) end)%eff.

(** (allowed, current, limit) *)
Definition CanCreateInstance (userID : uuid) (botType : string) : PM (bool * Z * Z) :=
  (sub <- GetActiveSubscription userID ;;
   match sub with
   | None => ret (false, 0, 0)
   | Some sub =>
       (expired <- match sb_ExpiresAt sub with
                   | None => ret false
                   | Some t => (n <- now ;; ret (t <? n))
                   end ;;
        if (expired : bool) then ret (false, 0, 0)
        else
        (p <- FindPlanWithLimits (uuid_String (sb_PlanID sub)) ;;
         match p with
         | (_, Some e) => throw e
         | (None, None) => ret (false, 0, 0)
         | (Some (plan, l), None) =>
             let limit := LimitFor plan l botType in
             if limit <=? 0 then ret (false, 0, limit)
             else (current <- CountInstancesByOwnerAndType userID botType ;; ret (current <? limit, current, limit))
         end))
   end)%eff.

(** ** Promo codes *)

Definition insert_promo (p : PromoCode) (d : PlatTables) : result PlatTables :=
  if bool_decide (is_Some (promo_codes d !! pc_ID p)) then Err (ErrDuplicatedKey "promo_codes_pkey")
  else if existsb (fun x => (pc_Code x =? pc_Code p)%string) (rows (promo_codes d))
  then Err (ErrDuplicatedKey "idx_promo_codes_code")
  else Ok (set_promo_codes <[pc_ID p := p]> d).
Definition CreatePromoCode (p : PromoCode) : PM unit := exec (insert_promo p).

Definition with_promo (deleted : option Z) (used : Z) (active : bool) (p : PromoCode) : PromoCode := {| pc_ID := pc_ID p;
  pc_DeletedAt := deleted; pc_Code := pc_Code p; pc_AmountTON := pc_AmountTON p; pc_MaxUses := pc_MaxUses p;
  pc_UsedCount := used; pc_ExpiresAt := pc_ExpiresAt p; pc_IsActive := active; pc_CreatedBy := pc_CreatedBy p |}.
Definition DeletePromoCode (id : string) : PM unit :=
  (t <- now ;;
   exec_id id (fun u =>
     set_promo_codes (alter_live pc_DeletedAt (fun p => with_promo (Some t) (pc_UsedCount p) (pc_IsActive p) p) u)))%eff.
Definition SetPromoCodeActive (id : string) (active : bool) : PM unit :=
  exec_id id (fun u =>
    set_promo_codes (alter_live pc_DeletedAt (fun p => with_promo (pc_DeletedAt p) (pc_UsedCount p) active p) u)).

Definition ErrPromoNotRedeemable : error := Sentinel "store" "promo code not redeemable".
Definition ErrPromoAlreadyRedeemed : error := Sentinel "store" "promo code already redeemed by this user".

Definition insert_redemption (promoID userID : uuid) (d : PlatTables) : result PlatTables :=
  if bool_decide ((promoID, userID) ∈ redemptions d) then Err (ErrDuplicatedKey "idx_promo_user")
  else Ok (set_redemptions (union {[(promoID, userID)]}) d).

Definition RedeemPromoCode (promoID userID : uuid) : PM unit :=
  transaction
    (p <- first (fun d => live_row pc_DeletedAt (promo_codes d) promoID) ;;
     n <- now ;;
     if negb (IsRedeemable p n) then throw ErrPromoNotRedeemable
     else
     (count <- find (fun d => if bool_decide ((promoID, userID) ∈ redemptions d) then 1 else 0) ;;
      if 0 <? count then throw ErrPromoAlreadyRedeemed
      else
      (exec (fun d => Ok (set_promo_codes (alter_live pc_DeletedAt
         (fun p => with_promo (pc_DeletedAt p) (pc_UsedCount p + 1) (pc_IsActive p) p) promoID) d)) ;;
       exec (insert_redemption promoID userID))))%eff.

Definition CreateAuditLog (l : AuditLog) : PM unit := exec (fun d => Ok (add_audit l d)).
End store.
