(* ===== verification/Api.v ===== *)
(** apimanager: the HTTP interface of the platform — internal/middleware and
    internal/handler on the store of Platform.v, wired as cmd/main.go does. The
    endpoints that only list rows, and the proxies to uploader-bot and to the
    image registry, are left out. *)
From S2P Require Import Prelude GoInt GoFloat GoString GoText Effects PayModels PayChain Consensus Auth Bus PayResponder PayClient Platform.

(** * What the libraries decide *)

Record TemplateConfigField := { cf_Key : string; cf_Label : string; cf_Type : string; cf_Required : bool; cf_Options : list string }.

(** encoding/json on the two texts kept in the tables, and time.Parse with RFC 3339. *)
Class ApiFormats := {
  unmarshal_env : string -> gmap string string;
  marshal_env : gmap string string -> string;
  unmarshal_schema : string -> list TemplateConfigField;
  marshal_schema : list TemplateConfigField -> string;
  parse_RFC3339 : string -> option Z;
}.

(** * State and answers *)

Record ApiConfig := {
  ac_accessSecret : string; ac_refreshSecret : string; ac_encryptKey : string; ac_agentAPIKey : string;
  ac_telegramBotTok : string; ac_payClient : option ClientConfig;
}.

Inductive MsgType := MsgDeploy | MsgStop | MsgRemove.
Record DeployCommand := {
  dc_Type : MsgType; dc_ServerID : string; dc_ContainerName : string; dc_ImageName : string; dc_ImageTag : string;
  dc_EnvVars : gmap string string;
}.

(** The commands sent to the servers, and the counters of the rate limiter. *)
Record ApiWorld := { aw_commands : list DeployCommand; aw_counts : gmap string (list Z) }.

Inductive Body := NoBody | Msg_ (text : string) | Values (l : list fmtarg).
Record ApiReply := { ap_Status : Z; ap_Body : Body }.
Definition ok (l : list fmtarg) : ApiReply := {| ap_Status := 200; ap_Body := Values l |}.
Definition fail (code : Z) (msg : string) : ApiReply := {| ap_Status := code; ap_Body := Msg_ msg |}.

(** * internal/middleware *)

(** SimpleInMemoryLimiter: the times of the last minute under one key. *)
Definition recent (now : Z) (l : list Z) : list Z := List.filter (fun t => now - 60 * 1000000000 <? t) l.
Definition limiter_Allow (maxPerMin : nat) (key : string) (now : Z) (counts : gmap string (list Z)) :
  bool * gmap string (list Z) :=
  let l := recent now (default [] (counts !! key)) in
  if (maxPerMin <=? length l)%nat then (false, counts) else (true, <[key := l ++ [now]]> counts).

(** sort.Strings on the names of the fields. *)
Definition sorted_by_key : relation (string * string) := fun a b => String.leb a.1 b.1 = true.
#[export] Instance sorted_by_key_dec : RelDecision sorted_by_key := fun a b => decide (String.leb a.1 b.1 = true).

Section api.
Context {B : Type} {ENV : Env} {LIB : Lib} {PG : PgChoices} {UUID : UuidParser} {CRYPTO : Crypto}.
Context {JWT : Jwt} {PARSER : JwtParser} {FORMATS : ApiFormats} {PS : PayServer B} {MARSHAL : JsonMarshal} (cfg : ApiConfig).
Abbreviation AM := (M PlatTables (ApiWorld * Remote B)).

Definition put_counts (f : gmap string (list Z)) (x : ApiWorld * Remote B) : ApiWorld * Remote B :=
  ({| aw_commands := aw_commands (fst x); aw_counts := f |}, snd x).

(** The key is made of the address and the route. *)
Definition RateLimit (ip path : string) (h : AM ApiReply) : AM ApiReply :=
  (n <- now ;;
   x <- get_ext ;;
   let '(allowed, counts) := limiter_Allow 60 ("rl:" +:+ ip +:+ ":" +:+ path) n (aw_counts (fst x)) in
   mod_ext (put_counts counts) ;;
   if (allowed : bool) then h else ret (fail 429 "rate limit exceeded"))%eff.

Definition JWTAuth (header : string) (h : string -> string -> AM ApiReply) : AM ApiReply :=
  if negb (HasPrefix header "Bearer ") then ret (fail 401 "missing token")
  else
  (claims <- try (parseClaims (TrimPrefix header "Bearer ") (ac_accessSecret cfg)) ;;
   match claims with
   | Err _ => ret (fail 401 "invalid token")
   | Ok (user_id, role) => h user_id role
   end)%eff.

Definition is_admin (role : string) : bool := (role =? "admin")%string || (role =? "owner")%string.
Definition RequireRole (role : string) (h : AM ApiReply) : AM ApiReply :=
  if is_admin role then h else ret (fail 403 "forbidden").

Definition AgentKeyAuth (key : string) (h : AM ApiReply) : AM ApiReply :=
  if negb (key =? ac_agentAPIKey cfg)%string then ret (fail 401 "invalid agent key") else h.

(** * Logging in *)

Definition newline : string := String (ascii_of_nat 10) "".
Definition dataCheckString (fields : gmap string string) : string :=
  let pairs := merge_sort sorted_by_key (List.filter (fun kv => negb (kv.2 =? "")%string) (map_to_list fields)) in
  Join newline (map (fun kv => kv.1 +:+ "=" +:+ kv.2) pairs).
Definition verifyTelegramAuth (fields : gmap string string) (hash botToken : string) : bool :=
  if (hash =? "")%string then false
  else (HexEncode (hmac_sha256 (sha256 botToken) (dataCheckString fields)) =? hash)%string.

Record TelegramLogin := {
  tl_TelegramID : Z; tl_FirstName : string; tl_LastName : string; tl_Username : string; tl_PhotoURL : string;
  tl_AuthDate : Z; tl_Hash : string;
}.
Definition login_fields (r : TelegramLogin) : gmap string string := list_to_map
  [("telegram_id", FormatInt 10 (tl_TelegramID r)); ("first_name", tl_FirstName r); ("last_name", tl_LastName r);
   ("username", tl_Username r); ("photo_url", tl_PhotoURL r); ("auth_date", FormatInt 10 (tl_AuthDate r))]%string.

Definition accessTTL : Z := 15 * 60 * 1000000000.
Definition refreshTTL : Z := 30 * 24 * 3600 * 1000000000.
Definition maxAuthAge : Z := 24 * 3600 * 1000000000.
Definition GenerateAccessToken (userID role : string) : AM string := signToken userID role (ac_accessSecret cfg) accessTTL.
Definition GenerateRefreshToken (userID role : string) : AM string := signToken userID role (ac_refreshSecret cfg) refreshTTL.

Definition text_or_empty (r : result string) : string := match r with Ok t => t | Err _ => "" end.

(** The tokens for a user whose row is at hand. *)
Definition give_tokens (u : User) : AM ApiReply :=
  (a <- try (GenerateAccessToken (uuid_String (us_ID u)) (us_Role u)) ;;
   match a with
   | Err _ => ret (fail 500 "token error")
   | Ok access =>
       (r <- try (GenerateRefreshToken (uuid_String (us_ID u)) (us_Role u)) ;;
        ret (ok [AStr access; AStr (text_or_empty r); AStr (uuid_String (us_ID u)); AStr (us_Role u)]))
   end)%eff.

Definition TelegramAuth (req : option TelegramLogin) : AM ApiReply :=
  match req with
  | None => ret (fail 400 "bad request")
  | Some req =>
      if tl_TelegramID req =? 0 then ret (fail 400 "bad request")
      else if (ac_telegramBotTok cfg =? "")%string then ret (fail 503 "telegram auth not configured")
      else
      (expired <- (if tl_AuthDate req =? 0 then ret true
                   else (n <- now ;; ret (maxAuthAge <? n - tl_AuthDate req * 1000000000))) ;;
       if (expired : bool) then ret (fail 401 "auth data expired")
       else if negb (verifyTelegramAuth (login_fields req) (tl_Hash req) (ac_telegramBotTok cfg))
       then ret (fail 401 "invalid telegram signature")
       else
       (u <- FindUserByTelegramID (tl_TelegramID req) ;;
        match u with
        | (_, Some _) => ret (fail 500 "db error")
        | (Some u, None) => give_tokens u
        | (None, None) =>
            (r <- try (UpsertUser {| us_ID := 0; us_TelegramID := tl_TelegramID req; us_Username := tl_Username req;
                                    us_FirstName := tl_FirstName req; us_Role := RoleUser; us_IsBlocked := false |}) ;;
             match r with Err _ => ret (fail 500 "user create failed") | Ok u => give_tokens u end)
        end))%eff
  end.

Definition RefreshToken (req : option string) : AM ApiReply :=
  match req with
  | None => ret (fail 400 "bad request")
  | Some t =>
      if (t =? "")%string then ret (fail 400 "bad request")
      else
      (claims <- try (parseClaims t (ac_refreshSecret cfg)) ;;
       match claims with
       | Err _ => ret (fail 401 "invalid refresh token")
       | Ok (userID, role) => (a <- try (GenerateAccessToken userID role) ;; ret (ok [AStr (text_or_empty a)]))
       end)%eff
  end.

(** * Agents *)

Definition AgentAuth (req : option (string * string)) : AM ApiReply :=
  match req with
  | None => ret (fail 400 "bad request")
  | Some (serverID, apiKey) =>
      if (serverID =? "")%string || (apiKey =? "")%string then ret (fail 400 "bad request")
      else if negb (apiKey =? ac_agentAPIKey cfg)%string then ret (fail 401 "invalid api key")
      else
      (l <- try ListServers ;;
       match l with
       | Err _ => ret (fail 500 "db error")
       | Ok l =>
           match List.find (fun s => uuid_String (sv_ID s) =? serverID)%string l with
           | None => ret (fail 401 "server not registered")
           | Some s => (try (MarkServerOnline (sv_ID s)) ;; n <- now ;;
                        ret (ok [AStr serverID; AInt ((n + 24 * 3600 * 1000000000) / 1000000000)]))
           end
       end)%eff
  end.

Record HeartbeatMsg := {
  hb_ServerID : string; hb_Containers : string; hb_CPUPercent : option float64; hb_MemoryUsedMB : option Z;
  hb_MemoryTotalMB : option Z;
}.
(** [hb_Containers] is the list as encoding/json writes it. *)
Definition AgentHeartbeat (req : option HeartbeatMsg) : AM ApiReply :=
  match req with
  | None => ret (fail 400 "bad request")
  | Some hb =>
      (r <- try (RecordHeartbeat (hb_ServerID hb) (hb_CPUPercent hb) (hb_MemoryUsedMB hb) (hb_MemoryTotalMB hb)
                   (hb_Containers hb)) ;;
       ret (match r with Err _ => fail 500 "db error" | Ok _ => ok [] end))%eff
  end.

Record ResultMsg := { rs_ContainerName : string; rs_CommandType : string; rs_Success : bool }.
Definition AgentResult (req : option ResultMsg) : AM ApiReply :=
  match req with
  | None => ret (fail 400 "bad request")
  | Some r =>
      (i <- FindInstanceByContainerName (rs_ContainerName r) ;;
       match fst i with
       | None => ret (ok [])
       | Some i =>
           ((if rs_Success r && (rs_CommandType r =? "deploy")%string then (try (UpdateInstanceStatus (bi_ID i) StatusRunning) ;; ret tt)
             else if negb (rs_Success r) then (try (UpdateInstanceStatus (bi_ID i) StatusError) ;; ret tt)
             else ret tt) ;;
            ret (ok []))
       end)%eff
  end.

(** * Commands to the servers *)

Definition add_command (c : DeployCommand) (x : ApiWorld * Remote B) : ApiWorld * Remote B :=
  ({| aw_commands := aw_commands (fst x) ++ [c]; aw_counts := aw_counts (fst x) |}, snd x).
Definition Publish (c : DeployCommand) : AM unit := fun s =>
  match env_fault (tick s) with
  | Some e => (Err (ErrDriver e), bump s)
  | None => (Ok tt, mkSt (S (tick s)) (tx s) (db s) (add_command c (ext s)))
  end.

(** The values of EnvOverrides win over the two that are set here. *)
Definition env_vars (inst : BotInstance) (plainToken : string) : gmap string string :=
  let own : gmap string string := {["BOT_TOKEN" := plainToken; "INSTANCE_ID" := "bot_" +:+ FormatInt 10 (bi_BotID inst)]} in
  if (bi_EnvOverrides inst =? "")%string then own else unmarshal_env (bi_EnvOverrides inst) ∪ own.

Definition publishDeploy (inst : BotInstance) (tmpl : BotTemplate) (server : Server) (plainToken : string) : AM unit :=
  Publish {| dc_Type := MsgDeploy; dc_ServerID := uuid_String (sv_ID server); dc_ContainerName := bi_ContainerName inst;
             dc_ImageName := bt_ImageName tmpl; dc_ImageTag := bt_ImageTag tmpl; dc_EnvVars := env_vars inst plainToken |}.

Definition publishCommand (inst : BotInstance) (msgType : MsgType) : AM unit :=
  (s <- FindServerByID (uuid_String (bi_ServerID inst)) ;;
   match s with
   | (Some server, None) =>
       Publish {| dc_Type := msgType; dc_ServerID := uuid_String (sv_ID server); dc_ContainerName := bi_ContainerName inst;
                  dc_ImageName := ""; dc_ImageTag := ""; dc_EnvVars := ∅ |}
   | _ => throw (Errorf "server not found" [])
   end)%eff.

(** auditAdminAction drops its error; ids that do not parse are the nil id. *)
Definition parse_or_nil (id : string) : uuid := default 0%N (uuid_Parse id).
Definition auditAdminAction (user_id role action targetID targetType : string) : AM unit :=
  (try (CreateAuditLog {| al_ActorID := parse_or_nil user_id; al_ActorRole := role; al_Action := action;
                          al_TargetID := targetID; al_TargetType := targetType |}) ;; ret tt)%eff.

(** * Servers *)

(** tagsToString and tagsFromString: the column holds the tags with commas between. *)
Definition tagsToString (tags : list string) : string :=
  Join "," (List.filter (fun t => negb (t =? "")%string) (map (fun t => TrimSpace (ToLower t)) tags)).
Definition tagsFromString (s : string) : list string :=
  if (TrimSpace s =? "")%string then []
  else List.filter (fun t => negb (t =? "")%string) (map TrimSpace (Split "," s)).

Definition underscores (s : string) : string := Join "_" (Split " " s).

Record ServerReq := { rq_Name : string; rq_IP : string; rq_Tags : list string; rq_MaxContainers : Z }.
Definition Handler_CreateServer (req : option ServerReq) : AM ApiReply :=
  match req with
  | None => ret (fail 400 "bad request")
  | Some req =>
      if (rq_Name req =? "")%string || (rq_IP req =? "")%string then ret (fail 400 "bad request")
      else
      (id <- uuid_New ;;
       r <- try (CreateServer {| sv_ID := id; sv_DeletedAt := None; sv_Name := rq_Name req; sv_IP := rq_IP req;
              sv_IsOnline := false; sv_LastSeen := 0; sv_Channel := "server_" +:+ underscores (rq_Name req);
              sv_OnlineSince := None; sv_CPUPercent := None; sv_MemoryUsedMB := None; sv_MemoryTotalMB := None;
              sv_LastContainers := ""; sv_Tags := tagsToString (rq_Tags req);
              sv_MaxContainers := Z.max 0 (rq_MaxContainers req) |}) ;;
       ret (match r with Err _ => fail 500 "create server" | Ok _ => ok [AStr (uuid_String id)] end))%eff
  end.

Record ServerPatch := {
  up_Name : option string; up_IP : option string; up_Tags : option (list string); up_MaxContainers : option Z;
}.
Definition Handler_UpdateServer (id : string) (req : option ServerPatch) : AM ApiReply :=
  (s <- FindServerByID id ;;
   match s with
   | (_, Some _) => ret (fail 500 "db error")
   | (None, None) => ret (fail 404 "server not found")
   | (Some s, None) =>
       match req with
       | None => ret (fail 400 "bad request")
       | Some req =>
           (r <- try (UpdateServer {| sv_ID := sv_ID s; sv_DeletedAt := sv_DeletedAt s;
                  sv_Name := default (sv_Name s) (up_Name req); sv_IP := default (sv_IP s) (up_IP req);
                  sv_IsOnline := sv_IsOnline s; sv_LastSeen := sv_LastSeen s; sv_Channel := sv_Channel s;
                  sv_OnlineSince := sv_OnlineSince s; sv_CPUPercent := sv_CPUPercent s;
                  sv_MemoryUsedMB := sv_MemoryUsedMB s; sv_MemoryTotalMB := sv_MemoryTotalMB s;
                  sv_LastContainers := sv_LastContainers s;
                  sv_Tags := match up_Tags req with Some l => tagsToString l | None => sv_Tags s end;
                  sv_MaxContainers := match up_MaxContainers req with Some n => Z.max 0 n | None => sv_MaxContainers s end |}) ;;
            ret (match r with Err _ => fail 500 "update server" | Ok _ => ok [] end))
       end
   end)%eff.

Definition Handler_DeleteServer (id : string) : AM ApiReply :=
  (r <- try (DeleteServer id) ;; ret (match r with Err _ => fail 500 "delete server" | Ok _ => ok [] end))%eff.

(** * Instances of the administrator *)

Definition MigrateInstance (user_id role id : string) (req : option string) : AM ApiReply :=
  (i <- FindInstance id ;;
   match i with
   | (_, Some _) => ret (fail 500 "db error")
   | (None, None) => ret (fail 404 "instance not found")
   | (Some inst, None) =>
       match req with
       | None => ret (fail 400 "bad request")
       | Some serverID =>
           if (serverID =? "")%string then ret (fail 400 "bad request")
           else
           (s <- FindServerByID serverID ;;
            match s with
            | (_, Some _) => ret (fail 500 "db error")
            | (None, None) => ret (fail 404 "target server not found")
            | (Some newServer, None) =>
                if negb (sv_IsOnline newServer) then ret (fail 400 "target server is not online")
                else if (sv_ID newServer =? bi_ServerID inst)%N then ret (fail 400 "instance is already on this server")
                else
                (t <- FindTemplate (uuid_String (bi_TemplateID inst)) ;;
                 match t with
                 | (Some tmpl, None) =>
                     (p <- try (Decrypt (bi_BotToken inst) (ac_encryptKey cfg)) ;;
                      match p with
                      | Err _ => ret (fail 500 "decrypt failed")
                      | Ok plainToken =>
                          (try (publishCommand inst MsgStop) ;;
                           d <- try (publishDeploy inst tmpl newServer plainToken) ;;
                           match d with
                           | Err _ => ret (fail 500 "deploy on target server failed")
                           | Ok _ =>
                               (u <- try (UpdateInstanceServer (bi_ID inst) (sv_ID newServer)) ;;
                                match u with
                                | Err _ => ret (fail 500 "db error")
                                | Ok _ =>
                                    (try (UpdateInstanceStatus (bi_ID inst) StatusPending) ;;
                                     auditAdminAction user_id role "admin.action" (uuid_String (bi_ID inst)) "instance_migrate" ;;
                                     ret (ok []))
                                end)
                           end)
                      end)
                 | _ => ret (fail 500 "template not found")
                 end)
            end)
       end
   end)%eff.

(** An empty text clears the column. *)
Record InstancePatch := { ip_ExpiresAt : option string; ip_PlanID : option string; ip_LockMode : option string }.
Definition patched {A} (old : option A) (parse : string -> option A) (v : option string) : option (option A) :=
  match v with
  | None => Some old
  | Some t => if (t =? "")%string then Some None else match parse t with Some a => Some (Some a) | None => None end
  end.
Definition lock_mode_ok (m : string) : bool := (m =? LockModeFree)%string || (m =? LockModeRented)%string || (m =? LockModeNone)%string.
Definition UpdateInstanceAdmin (user_id role id : string) (req : option InstancePatch) : AM ApiReply :=
  (i <- FindInstance id ;;
   match i with
   | (_, Some _) => ret (fail 500 "db error")
   | (None, None) => ret (fail 404 "instance not found")
   | (Some inst, None) =>
       match req with
       | None => ret (fail 400 "bad request")
       | Some req =>
           match patched (bi_ExpiresAt inst) parse_RFC3339 (ip_ExpiresAt req) with
           | None => ret (fail 400 "invalid expires_at (must be RFC3339)")
           | Some expires =>
               match patched (bi_PlanID inst) uuid_Parse (ip_PlanID req) with
               | None => ret (fail 400 "invalid plan_id")
               | Some plan =>
                   let mode := default (bi_LockMode inst) (ip_LockMode req) in
                   if match ip_LockMode req with Some m => negb (lock_mode_ok m) | None => false end
                   then ret (fail 400 "invalid lock_mode")
                   else
                   (r <- try (UpdateInstance {| bi_ID := bi_ID inst; bi_DeletedAt := bi_DeletedAt inst;
                          bi_OwnerID := bi_OwnerID inst; bi_TemplateID := bi_TemplateID inst;
                          bi_ServerID := bi_ServerID inst; bi_ContainerName := bi_ContainerName inst;
                          bi_BotToken := bi_BotToken inst; bi_BotID := bi_BotID inst; bi_PlanID := plan; bi_LockMode := mode;
                          bi_Status := bi_Status inst; bi_ExpiresAt := expires; bi_DBSchema := bi_DBSchema inst;
                          bi_EnvOverrides := bi_EnvOverrides inst |}) ;;
                    match r with
                    | Err _ => ret (fail 500 "update instance")
                    | Ok _ => (auditAdminAction user_id role "admin.action" (uuid_String (bi_ID inst)) "instance_edit" ;; ret (ok []))
                    end)
               end
           end
       end
   end)%eff.

(** * Templates *)

Definition field_types : list string := ["string"; "number"; "boolean"; "select"]%string.
Fixpoint validate_fields (seen : list string) (fields : list TemplateConfigField) : bool :=
  match fields with
  | [] => true
  | f :: l =>
      negb (cf_Key f =? "")%string && negb (cf_Label f =? "")%string && negb (bool_decide (cf_Key f ∈ seen)) &&
      bool_decide (cf_Type f ∈ field_types) && negb ((cf_Type f =? "select")%string && bool_decide (cf_Options f = [])) &&
      validate_fields (cf_Key f :: seen) l
  end.
(** whether validateConfigSchema returns nil *)
Definition validateConfigSchema (fields : list TemplateConfigField) : bool := validate_fields [] fields.

Record TemplateReq := {
  tr_Name : string; tr_Type : string; tr_ImageName : string; tr_ImageTag : string; tr_ConfigSchema : list TemplateConfigField;
}.
Definition schema_text (l : list TemplateConfigField) : string := match l with [] => "" | _ => marshal_schema l end.
Definition Handler_CreateTemplate (req : option TemplateReq) : AM ApiReply :=
  match req with
  | None => ret (fail 400 "bad request")
  | Some req =>
      if (tr_Name req =? "")%string || (tr_Type req =? "")%string || (tr_ImageName req =? "")%string ||
         (tr_ImageTag req =? "")%string || negb (validateConfigSchema (tr_ConfigSchema req))
      then ret (fail 400 "bad request")
      else
      (id <- uuid_New ;;
       r <- try (CreateTemplate {| bt_ID := id; bt_DeletedAt := None; bt_Name := tr_Name req; bt_Type := tr_Type req;
              bt_ImageName := tr_ImageName req; bt_ImageTag := tr_ImageTag req; bt_IsActive := true; bt_IsFree := false;
              bt_ConfigSchema := schema_text (tr_ConfigSchema req) |}) ;;
       ret (match r with Err _ => fail 500 "create template" | Ok _ => ok [AStr (uuid_String id)] end))%eff
  end.

Record TemplatePatch := {
  tp_Name : option string; tp_ImageName : option string; tp_ImageTag : option string; tp_IsActive : option bool;
  tp_IsFree : option bool; tp_ConfigSchema : option (list TemplateConfigField);
}.
Definition Handler_UpdateTemplate (id : string) (req : option TemplatePatch) : AM ApiReply :=
  (t <- FindTemplate id ;;
   match t with
   | (_, Some _) => ret (fail 500 "db error")
   | (None, None) => ret (fail 404 "template not found")
   | (Some t, None) =>
       match req with
       | None => ret (fail 400 "bad request")
       | Some req =>
           if match tp_ConfigSchema req with Some l => negb (validateConfigSchema l) | None => false end
           then ret (fail 400 "bad schema")
           else
           (r <- try (UpdateTemplate {| bt_ID := bt_ID t; bt_DeletedAt := bt_DeletedAt t;
                  bt_Name := default (bt_Name t) (tp_Name req); bt_Type := bt_Type t;
                  bt_ImageName := default (bt_ImageName t) (tp_ImageName req);
                  bt_ImageTag := default (bt_ImageTag t) (tp_ImageTag req);
                  bt_IsActive := default (bt_IsActive t) (tp_IsActive req); bt_IsFree := default (bt_IsFree t) (tp_IsFree req);
                  bt_ConfigSchema := match tp_ConfigSchema req with Some l => schema_text l | None => bt_ConfigSchema t end |}) ;;
            ret (match r with Err _ => fail 500 "update template" | Ok _ => ok [] end))
       end
   end)%eff.

Definition Handler_DeleteTemplate (id : string) : AM ApiReply :=
  (r <- try (DeleteTemplate id) ;; ret (match r with Err _ => fail 500 "delete template" | Ok _ => ok [] end))%eff.

(** * The wallet and plans *)

(** currentUser: [None] also when the id is invalid or the query failed. *)
Definition currentUser (user_id : string) : AM (option User) :=
  match uuid_Parse user_id with
  | None => ret None
  | Some uid => (u <- FindUserByID uid ;; ret (match u with (Some u, None) => Some u | _ => None end))%eff
  end.

Definition with_pay (k : ClientConfig -> AM ApiReply) : AM ApiReply :=
  match ac_payClient cfg with None => ret (fail 503 "pay client not configured") | Some c => k c end.
Definition with_user (user_id : string) (k : User -> AM ApiReply) : AM ApiReply :=
  (u <- currentUser user_id ;; match u with None => ret (fail 401 "invalid user") | Some u => k u end)%eff.

Definition GetWalletBalance (user_id : string) : AM ApiReply :=
  with_pay (fun pc => with_user user_id (fun u =>
    (r <- try (Balance pc (us_TelegramID u)) ;;
     ret (match r with Err _ => fail 500 "balance fetch failed" | Ok b => ok [AFloat (bal_Total b)] end))%eff)).

Definition CreateWalletTopup (user_id : string) (req : option float64) : AM ApiReply :=
  with_pay (fun pc => with_user user_id (fun u =>
    match req with
    | None => ret (fail 400 "bad request")
    | Some amountTON =>
        if f64_eq amountTON (f64_of_int 0) then ret (fail 400 "bad request")
        else if f64_le amountTON (f64_of_int 0) then ret (fail 400 "amount_ton must be positive")
        else
        (r <- try (CreateInvoice pc (us_TelegramID u) amountTON "wallet_topup") ;;
         ret (match r with Err _ => fail 500 "invoice creation failed" | Ok i => ok [AStr (ci_Code i)] end))%eff
    end)).

Definition GetWalletTopupStatus (user_id code : string) : AM ApiReply :=
  with_pay (fun pc => with_user user_id (fun u =>
    (r <- try (InvoiceStatus pc (us_TelegramID u) code) ;;
     ret (match r with Err _ => fail 500 "status check failed" | Ok s => ok [AFloat (is_PaidTON s)] end))%eff)).

(** What a plan costs has to be paid before the subscription is created. *)
Definition is_priced (p : Plan) : bool := negb (pn_IsFree p) && f64_gt (pn_Price p) (f64_of_int 0).

(** The record of a payment; its failure is only logged. *)
Definition record_payment (u : User) (plan : Plan) : AM unit :=
  (n <- now ;;
   id <- uuid_New ;;
   try (CreatePayment {| pp_ID := id; pp_UserID := us_ID u; pp_PlanID := Some (pn_ID plan); pp_Amount := pn_Price plan;
          pp_Currency := "TON"; pp_Status := "done"; pp_TxHash := ""; pp_InvoiceID := ""; pp_ConfirmedAt := Some n |}) ;;
   ret tt)%eff.

Definition subscribe (u : User) (plan : Plan) : AM ApiReply :=
  (expiresAt <- (if 0 <? pn_DurationDay plan then (n <- now ;; ret (Some (n + pn_DurationDay plan * (86400 * 1000000000))))
                 else ret None) ;;
   started <- now ;;
   id <- uuid_New ;;
   r <- try (CreateSubscription {| sb_ID := id; sb_UserID := us_ID u; sb_PlanID := pn_ID plan; sb_StartedAt := started;
          sb_ExpiresAt := expiresAt; sb_IsActive := true |}) ;;
   ret (match r with Err _ => fail 500 "subscription creation failed" | Ok _ => ok [AStr (uuid_String id)] end))%eff.

Definition BuyPlan (user_id id : string) : AM ApiReply :=
  with_user user_id (fun u =>
    (p <- FindPlan id ;;
     match p with
     | (_, Some _) => ret (fail 500 "db error")
     | (None, None) => ret (fail 404 "plan not found")
     | (Some plan, None) =>
         if negb (pn_IsActive plan) then ret (fail 400 "plan is not active")
         else if is_priced plan then
           with_pay (fun pc =>
             (r <- try (DeductForService pc (us_TelegramID u) (pn_Price plan) (uuid_String (pn_ID plan))) ;;
              match r with
              | Err e => ret (if IsInsufficientBalance e then fail 402 "insufficient balance" else fail 500 "payment failed")
              | Ok _ => (record_payment u plan ;; subscribe u plan)
              end))
         else subscribe u plan
     end)%eff).

(** * Instances of a user *)

Record InstanceReq := { ir_BotToken : string; ir_TemplateID : string }.

(** A free template goes to a server tagged free when there is one. *)
Definition choose_server (tmpl : BotTemplate) : AM (option Server * option error) :=
  (if bt_IsFree tmpl then
     (s <- SelectLeastLoadedServer "free" ;;
      match s with (None, None) => SelectLeastLoadedServer "" | _ => ret s end)
   else SelectLeastLoadedServer "")%eff.

Definition new_instance (id owner : uuid) (tmpl : BotTemplate) (server : Server) (encToken : string) (botID : Z) : BotInstance :=
  {| bi_ID := id; bi_DeletedAt := None; bi_OwnerID := owner; bi_TemplateID := bt_ID tmpl; bi_ServerID := sv_ID server;
     bi_ContainerName := bt_Type tmpl +:+ "-" +:+ FormatInt 10 botID; bi_BotToken := encToken; bi_BotID := botID;
     bi_PlanID := None; bi_LockMode := LockModeNone; bi_Status := StatusPending; bi_ExpiresAt := None;
     bi_DBSchema := "inst_" +:+ FormatInt 10 botID; bi_EnvOverrides := "" |}.

Definition Handler_CreateInstance (user_id : string) (req : option InstanceReq) : AM ApiReply :=
  match req with
  | None => ret (fail 400 "bad request")
  | Some req =>
      if (ir_BotToken req =? "")%string || (ir_TemplateID req =? "")%string then ret (fail 400 "bad request")
      else
      let userID := parse_or_nil user_id in
      (t <- FindTemplate (ir_TemplateID req) ;;
       match t with
       | (Some tmpl, None) =>
           (c <- try (CanCreateInstance userID (bt_Type tmpl)) ;;
            match c with
            | Err _ => ret (fail 500 "capacity check failed")
            | Ok (canCreate, current, limit) =>
                if negb canCreate then ret (fail 402 "bot limit reached")
                else
                (s <- choose_server tmpl ;;
                 match s with
                 | (Some server, None) =>
                     match Platform_BotIDFromToken (ir_BotToken req) with
                     | None => ret (fail 400 "invalid bot token format")
                     | Some botID =>
                         (existing <- FindInstanceByBotID botID ;;
                          match fst existing with
                          | Some _ => ret (fail 409 "bot already deployed")
                          | None =>
                              (e <- try (Encrypt (ir_BotToken req) (ac_encryptKey cfg)) ;;
                               match e with
                               | Err _ => ret (fail 500 "encryption failed")
                               | Ok encToken =>
                                   (FindUserByID userID ;;
                                    id <- uuid_New ;;
                                    let inst := new_instance id userID tmpl server encToken botID in
                                    r <- try (CreateInstance inst) ;;
                                    match r with
                                    | Err _ => ret (fail 500 "create instance failed")
                                    | Ok _ =>
                                        (d <- try (publishDeploy inst tmpl server (ir_BotToken req)) ;;
                                         match d with
                                         | Err _ => (try (UpdateInstanceStatus id StatusError) ;; ret (fail 500 "deploy failed"))
                                         | Ok _ => ret (ok [AStr (uuid_String id); AStr (bi_ContainerName inst); AStr (sv_Name server)])
                                         end)
                                    end)
                               end)
                          end)
                     end
                 | _ => ret (fail 503 "no server available")
                 end)
            end)
       | _ => ret (fail 404 "template not found")
       end)%eff
  end.

(** The handlers of one instance: a failed lookup is reported as not found. *)
Definition with_instance_of (id : string) (k : BotInstance -> AM ApiReply) : AM ApiReply :=
  (i <- FindInstance id ;;
   match i with (Some inst, None) => k inst | _ => ret (fail 404 "instance not found") end)%eff.

(** The errors of both lookups are dropped. *)
Definition deploy_again (inst : BotInstance) (before : AM unit) (failure : string) : AM ApiReply :=
  (t <- FindTemplate (uuid_String (bi_TemplateID inst)) ;;
   s <- FindServerByID (uuid_String (bi_ServerID inst)) ;;
   match fst t, fst s with
   | Some tmpl, Some server =>
       (p <- try (Decrypt (bi_BotToken inst) (ac_encryptKey cfg)) ;;
        match p with
        | Err _ => ret (fail 500 "decrypt failed")
        | Ok plainToken =>
            (before ;;
             d <- try (publishDeploy inst tmpl server plainToken) ;;
             match d with
             | Err _ => ret (fail 500 failure)
             | Ok _ => (try (UpdateInstanceStatus (bi_ID inst) StatusPending) ;; ret (ok []))
             end)
        end)
   | _, _ => ret (fail 500 "missing template or server")
   end)%eff.

Definition StartInstance (id : string) : AM ApiReply :=
  with_instance_of id (fun inst =>
    if bool_decide (bi_Status inst = StatusRunning) then ret (fail 409 "already running")
    else deploy_again inst (ret tt) "start command failed").
Definition RestartInstance (id : string) : AM ApiReply :=
  with_instance_of id (fun inst => deploy_again inst (try (publishCommand inst MsgStop) ;; ret tt)%eff "restart failed").
Definition StopInstance (id : string) : AM ApiReply :=
  with_instance_of id (fun inst =>
    (r <- try (publishCommand inst MsgStop) ;;
     match r with
     | Err _ => ret (fail 500 "stop command failed")
     | Ok _ => (try (UpdateInstanceStatus (bi_ID inst) StatusStopped) ;; ret (ok []))
     end)%eff).
Definition Handler_DeleteInstance (id : string) : AM ApiReply :=
  with_instance_of id (fun inst =>
    (try (publishCommand inst MsgRemove) ;; try (DeleteInstance (bi_ID inst)) ;; ret (ok []))%eff).

(** The settings of the schema that are given and not empty; [None]: one that
    is required is missing. *)
Fixpoint cleaned (schema : list TemplateConfigField) (values : gmap string string) : option (gmap string string) :=
  match schema with
  | [] => Some ∅
  | f :: l =>
      match values !! cf_Key f with
      | Some v => if (v =? "")%string then (if cf_Required f then None else cleaned l values)
                  else option_map <[cf_Key f := v]> (cleaned l values)
      | None => if cf_Required f then None else cleaned l values
      end
  end.

Definition UpdateInstanceSettings (user_id role id : string) (req : option (gmap string string)) : AM ApiReply :=
  match uuid_Parse user_id with
  | None => ret (fail 401 "invalid user")
  | Some uid =>
      (i <- FindInstance id ;;
       match i with
       | (_, Some _) => ret (fail 500 "db error")
       | (None, None) => ret (fail 404 "instance not found")
       | (Some inst, None) =>
           if negb (bi_OwnerID inst =? uid)%N && negb (is_admin role) then ret (fail 403 "not your instance")
           else
           (t <- FindTemplate (uuid_String (bi_TemplateID inst)) ;;
            match t with
            | (Some tmpl, None) =>
                let schema := if (bt_ConfigSchema tmpl =? "")%string then [] else unmarshal_schema (bt_ConfigSchema tmpl) in
                match schema, req with
                | [], _ => ret (fail 400 "this bot type has no configurable settings")
                | _, None => ret (fail 400 "bad request")
                | _, Some values =>
                    if negb (forallb (fun kv => existsb (fun f => cf_Key f =? kv.1)%string schema) (map_to_list values))
                    then ret (fail 400 "unknown setting")
                    else
                    match cleaned schema values with
                    | None => ret (fail 400 "missing required field")
                    | Some v =>
                        (r <- try (UpdateInstanceEnvOverrides (bi_ID inst) (marshal_env v)) ;;
                         match r with
                         | Err _ => ret (fail 500 "db error")
                         | Ok _ =>
                             ((if is_admin role && negb (bi_OwnerID inst =? uid)%N
                               then auditAdminAction user_id role "admin.action" (uuid_String (bi_ID inst)) "instance_settings"
                               else ret tt) ;;
                              ret (ok []))
                         end)
                    end
                end
            | _ => ret (fail 500 "template not found")
            end)
       end)%eff
  end.

(** * Administration: users, plans, promo codes *)

Definition Handler_SetUserRole (user_id my_role id : string) (req : option string) : AM ApiReply :=
  match uuid_Parse id with
  | None => ret (fail 400 "invalid user id")
  | Some uid =>
      match req with
      | None => ret (fail 400 "bad request")
      | Some role =>
          if negb (bool_decide (role ∈ [RoleUser; RoleAdmin; RoleOwner])) then ret (fail 400 "invalid role")
          else
          (r <- try (SetUserRole uid role) ;;
           match r with
           | Err _ => ret (fail 500 "db error")
           | Ok _ => (auditAdminAction user_id my_role "admin.action" (uuid_String uid) "user" ;; ret (ok []))
           end)%eff
      end
  end.

Definition setUserBlocked (user_id role id : string) (blocked : bool) : AM ApiReply :=
  match uuid_Parse id with
  | None => ret (fail 400 "invalid user id")
  | Some uid =>
      (r <- try (SetUserBlocked uid blocked) ;;
       match r with
       | Err _ => ret (fail 500 "db error")
       | Ok _ => (auditAdminAction user_id role "user.block" (uuid_String uid) "user" ;; ret (ok []))
       end)%eff
  end.

(** %q of a user id, which is a UUID, only adds the quotes. *)
Definition credit_meta (user_id : string) : string :=
  "{" +:+ quote +:+ "admin_actor" +:+ quote +:+ ":" +:+ quote +:+ user_id +:+ quote +:+ "}".
Definition AddUserCredit (user_id role id : string) (req : option (float64 * string)) : AM ApiReply :=
  with_pay (fun pc =>
    match uuid_Parse id with
    | None => ret (fail 400 "invalid user id")
    | Some uid =>
        match req with
        | None => ret (fail 400 "bad request")
        | Some (amountTON, reason) =>
            if f64_eq amountTON (f64_of_int 0) || (reason =? "")%string then ret (fail 400 "bad request")
            else if f64_le amountTON (f64_of_int 0) then ret (fail 400 "amount_ton must be positive")
            else
            (u <- FindUserByID uid ;;
             match u with
             | (_, Some _) => ret (fail 500 "db error")
             | (None, None) => ret (fail 404 "user not found")
             | (Some u, None) =>
                 (r <- try (Credit pc (us_TelegramID u) amountTON ("admin_credit:" +:+ reason) (credit_meta user_id)) ;;
                  match r with
                  | Err _ => ret (fail 502 "credit failed")
                  | Ok _ => (auditAdminAction user_id role "admin.action" (uuid_String uid) "user" ;; ret (ok []))
                  end)
             end)%eff
        end
    end).

Record PlanReq := { pr_Name : string; pr_DurationDay : Z; pr_Price : float64; pr_MaxBots : Z; pr_IsFree : bool }.
Definition Handler_CreatePlan (req : option PlanReq) : AM ApiReply :=
  match req with
  | None => ret (fail 400 "bad request")
  | Some req =>
      if (pr_Name req =? "")%string then ret (fail 400 "bad request")
      else
      (id <- uuid_New ;;
       r <- try (CreatePlan {| pn_ID := id; pn_DeletedAt := None; pn_Name := pr_Name req; pn_DurationDay := pr_DurationDay req;
              pn_Price := pr_Price req; pn_MaxBots := pr_MaxBots req; pn_IsFree := pr_IsFree req; pn_IsActive := true |}) ;;
       ret (match r with Err _ => fail 500 "create plan" | Ok p => ok [AStr (uuid_String (pn_ID p)); AInt (pn_MaxBots p)] end))%eff
  end.

Record PlanPatch := {
  pa_Name : option string; pa_DurationDay : option Z; pa_Price : option float64; pa_MaxBots : option Z;
  pa_IsFree : option bool; pa_IsActive : option bool;
}.
Definition Handler_UpdatePlan (id : string) (req : option PlanPatch) : AM ApiReply :=
  (p <- FindPlan id ;;
   match p with
   | (_, Some _) => ret (fail 500 "db error")
   | (None, None) => ret (fail 404 "plan not found")
   | (Some p, None) =>
       match req with
       | None => ret (fail 400 "bad request")
       | Some req =>
           (r <- try (UpdatePlan {| pn_ID := pn_ID p; pn_DeletedAt := pn_DeletedAt p; pn_Name := default (pn_Name p) (pa_Name req);
                  pn_DurationDay := default (pn_DurationDay p) (pa_DurationDay req);
                  pn_Price := default (pn_Price p) (pa_Price req); pn_MaxBots := default (pn_MaxBots p) (pa_MaxBots req);
                  pn_IsFree := default (pn_IsFree p) (pa_IsFree req); pn_IsActive := default (pn_IsActive p) (pa_IsActive req) |}) ;;
            ret (match r with Err _ => fail 500 "update plan" | Ok _ => ok [] end))
       end
   end)%eff.

Definition UpdatePlanLimit (id : string) (req : option (string * Z)) : AM ApiReply :=
  match uuid_Parse id with
  | None => ret (fail 400 "invalid plan id")
  | Some planID =>
      match req with
      | None => ret (fail 400 "bad request")
      | Some (botType, maxBots) =>
          if (botType =? "")%string then ret (fail 400 "bad request")
          else
          (r <- try (SetPlanLimit planID botType (Z.max 0 maxBots)) ;;
           ret (match r with Err _ => fail 500 "set limit" | Ok _ => ok [AStr botType; AInt (Z.max 0 maxBots)] end))%eff
      end
  end.

Definition Handler_DeletePlan (id : string) : AM ApiReply :=
  (r <- try (DeletePlan id) ;; ret (match r with Err _ => fail 500 "delete plan" | Ok _ => ok [] end))%eff.

Record PromoReq := { po_Code : string; po_AmountTON : float64; po_MaxUses : Z; po_ExpiresAt : option string }.
(** An expiry that does not parse is dropped. *)
Definition promo_expiry (t : option string) : option Z :=
  match t with Some t => if (t =? "")%string then None else parse_RFC3339 t | None => None end.
Definition Handler_CreatePromoCode (user_id role : string) (req : option PromoReq) : AM ApiReply :=
  match req with
  | None => ret (fail 400 "bad request")
  | Some req =>
      if (po_Code req =? "")%string || f64_eq (po_AmountTON req) (f64_of_int 0) then ret (fail 400 "bad request")
      else
      (createdBy <- match uuid_Parse user_id with
                    | None => ret 0
                    | Some uid => (a <- FindUserByID uid ;; ret (match fst a with Some a => us_TelegramID a | None => 0 end))
                    end ;;
       id <- uuid_New ;;
       r <- try (CreatePromoCode {| pc_ID := id; pc_DeletedAt := None; pc_Code := TrimSpace (po_Code req);
              pc_AmountTON := po_AmountTON req; pc_MaxUses := po_MaxUses req; pc_UsedCount := 0;
              pc_ExpiresAt := promo_expiry (po_ExpiresAt req); pc_IsActive := true; pc_CreatedBy := createdBy |}) ;;
       match r with
       | Err _ => ret (fail 500 "db error")
       | Ok _ => (auditAdminAction user_id role "admin.action" (uuid_String id) "promo_code" ;; ret (ok [AStr (uuid_String id)]))
       end)%eff
  end.

Definition Handler_SetPromoCodeActive (user_id role id : string) (req : option bool) : AM ApiReply :=
  match req with
  | None => ret (fail 400 "bad request")
  | Some active =>
      (r <- try (SetPromoCodeActive id active) ;;
       match r with
       | Err _ => ret (fail 500 "db error")
       | Ok _ => (auditAdminAction user_id role "admin.action" id "promo_code" ;; ret (ok []))
       end)%eff
  end.

Definition Handler_DeletePromoCode (user_id role id : string) : AM ApiReply :=
  (r <- try (DeletePromoCode id) ;;
   match r with
   | Err _ => ret (fail 500 "db error")
   | Ok _ => (auditAdminAction user_id role "admin.action" id "promo_code" ;; ret (ok []))
   end)%eff.

(** * The routes of cmd/main.go *)

Inductive user_op :=
| PostInstances (req : option InstanceReq)
| PostStart (id : string)
| PostStop (id : string)
| PostRestart (id : string)
| DeleteInstances (id : string)
| PutSettings (id : string) (req : option (gmap string string))
| PostBuy (id : string)
| GetBalance
| PostTopup (req : option float64)
| GetTopup (code : string).

Inductive admin_op :=
| PostServers (req : option ServerReq)
| PatchServer (id : string) (req : option ServerPatch)
| DeleteServers (id : string)
| PostMigrate (id : string) (req : option string)
| PatchInstance (id : string) (req : option InstancePatch)
| PostTemplates (req : option TemplateReq)
| PatchTemplate (id : string) (req : option TemplatePatch)
| DeleteTemplates (id : string)
| PostRole (id : string) (req : option string)
| PostBlock (id : string)
| PostUnblock (id : string)
| PostCredit (id : string) (req : option (float64 * string))
| PostPlans (req : option PlanReq)
| PatchPlan (id : string) (req : option PlanPatch)
| PatchLimits (id : string) (req : option (string * Z))
| DeletePlans (id : string)
| PostPromo (req : option PromoReq)
| PatchPromo (id : string) (req : option bool)
| DeletePromo (id : string).

Definition user_path (o : user_op) : string :=
  match o with
  | PostInstances _ => "/api/v1/instances" | PostStart _ => "/api/v1/instances/:id/start"
  | PostStop _ => "/api/v1/instances/:id/stop" | PostRestart _ => "/api/v1/instances/:id/restart"
  | DeleteInstances _ => "/api/v1/instances/:id" | PutSettings _ _ => "/api/v1/instances/:id/settings"
  | PostBuy _ => "/api/v1/plans/:id/buy" | GetBalance => "/api/v1/wallet/balance"
  | PostTopup _ => "/api/v1/wallet/topup" | GetTopup _ => "/api/v1/wallet/topup/:code/status"
  end.
Definition admin_path (o : admin_op) : string :=
  match o with
  | PostServers _ => "/api/v1/admin/servers" | PatchServer _ _ | DeleteServers _ => "/api/v1/admin/servers/:id"
  | PostMigrate _ _ => "/api/v1/admin/instances/:id/migrate" | PatchInstance _ _ => "/api/v1/admin/instances/:id"
  | PostTemplates _ => "/api/v1/admin/templates" | PatchTemplate _ _ | DeleteTemplates _ => "/api/v1/admin/templates/:id"
  | PostRole _ _ => "/api/v1/admin/users/:id/role" | PostBlock _ => "/api/v1/admin/users/:id/block"
  | PostUnblock _ => "/api/v1/admin/users/:id/unblock" | PostCredit _ _ => "/api/v1/admin/users/:id/credit"
  | PostPlans _ => "/api/v1/admin/plans" | PatchPlan _ _ | DeletePlans _ => "/api/v1/admin/plans/:id"
  | PatchLimits _ _ => "/api/v1/admin/plans/:id/limits" | PostPromo _ => "/api/v1/admin/promo-codes"
  | PatchPromo _ _ | DeletePromo _ => "/api/v1/admin/promo-codes/:id"
  end.

Definition user_handle (user_id role : string) (o : user_op) : AM ApiReply :=
  match o with
  | PostInstances req => Handler_CreateInstance user_id req
  | PostStart id => StartInstance id
  | PostStop id => StopInstance id
  | PostRestart id => RestartInstance id
  | DeleteInstances id => Handler_DeleteInstance id
  | PutSettings id req => UpdateInstanceSettings user_id role id req
  | PostBuy id => BuyPlan user_id id
  | GetBalance => GetWalletBalance user_id
  | PostTopup req => CreateWalletTopup user_id req
  | GetTopup code => GetWalletTopupStatus user_id code
  end.
Definition admin_handle (user_id role : string) (o : admin_op) : AM ApiReply :=
  match o with
  | PostServers req => Handler_CreateServer req
  | PatchServer id req => Handler_UpdateServer id req
  | DeleteServers id => Handler_DeleteServer id
  | PostMigrate id req => MigrateInstance user_id role id req
  | PatchInstance id req => UpdateInstanceAdmin user_id role id req
  | PostTemplates req => Handler_CreateTemplate req
  | PatchTemplate id req => Handler_UpdateTemplate id req
  | DeleteTemplates id => Handler_DeleteTemplate id
  | PostRole id req => Handler_SetUserRole user_id role id req
  | PostBlock id => setUserBlocked user_id role id true
  | PostUnblock id => setUserBlocked user_id role id false
  | PostCredit id req => AddUserCredit user_id role id req
  | PostPlans req => Handler_CreatePlan req
  | PatchPlan id req => Handler_UpdatePlan id req
  | PatchLimits id req => UpdatePlanLimit id req
  | DeletePlans id => Handler_DeletePlan id
  | PostPromo req => Handler_CreatePromoCode user_id role req
  | PatchPromo id req => Handler_SetPromoCodeActive user_id role id req
  | DeletePromo id => Handler_DeletePromoCode user_id role id
  end.

(** A request with the address it comes from and its Authorization or X-Agent-Key header. *)
Inductive request :=
| Login (req : option TelegramLogin)
| Refresh (req : option string)
| Agent (req : option (string * string))
| Heartbeat (key : string) (req : option HeartbeatMsg)
| Result_ (key : string) (req : option ResultMsg)
| UserRequest (ip header : string) (o : user_op)
| AdminRequest (ip header : string) (o : admin_op).

Definition handle_request (r : request) : AM ApiReply :=
  match r with
  | Login req => TelegramAuth req
  | Refresh req => RefreshToken req
  | Agent req => AgentAuth req
  | Heartbeat key req => AgentKeyAuth key (AgentHeartbeat req)
  | Result_ key req => AgentKeyAuth key (AgentResult req)
  | UserRequest ip header o => RateLimit ip (user_path o) (JWTAuth header (fun user_id role => user_handle user_id role o))
  | AdminRequest ip header o =>
      RateLimit ip (admin_path o) (JWTAuth header (fun user_id role => RequireRole role (admin_handle user_id role o)))
  end.

(** Requests one after the other, with the sweep of main between them. *)
Inductive api_op := Serve (r : request) | Sweep | Redeem (promoID userID : uuid).
Definition api_perform (o : api_op) : AM unit :=
  match o with
  | Serve r => (handle_request r ;; ret tt)%eff
  | Sweep => (try (MarkStaleServersOffline 60) ;; ret tt)%eff
  | Redeem promoID userID => (try (RedeemPromoCode promoID userID) ;; ret tt)%eff
  end.
Fixpoint api_serve (l : list api_op) : AM unit :=
  match l with [] => ret tt | o :: l => (try (api_perform o) ;; api_serve l)%eff end.
End api.
