(* ===== verification/ApiFrame.v ===== *)
(** What a property of the platform's state has to withstand to hold through
    every request to apimanager: one condition per kind of statement, from which
    the handlers are proved once and for all. *)
From S2P Require Import Prelude GoInt GoFloat GoString GoText Effects PayModels PayChain Consensus Auth Bus Triples PayResponder PayClient Platform Api.

Create HintDb frame discriminated.

Section frame.
Context {B : Type} {ENV : Env} {LIB : Lib} {PG : PgChoices} {UUID : UuidParser} {CRYPTO : Crypto}.
Context {JWT : Jwt} {PARSER : JwtParser} {FORMATS : ApiFormats} {PS : PayServer B} {MARSHAL : JsonMarshal} (cfg : ApiConfig).
Abbreviation AM := (M PlatTables (ApiWorld * Remote B)).
Implicit Types (d : PlatTables) (x : ApiWorld * Remote B) (b : B).

(** What a customer makes botpay do: everything it answers but credits. *)
Inductive shopping : B -> B -> Prop :=
| shop_nothing b : shopping b b
| shop_balance p b b1 b2 : shopping b b1 -> snd (srv_balance p b1) = b2 -> shopping b b2
| shop_create p b b1 b2 : shopping b b1 -> snd (srv_create_invoice p b1) = b2 -> shopping b b2
| shop_status p b b1 b2 : shopping b b1 -> snd (srv_invoice_status p b1) = b2 -> shopping b b2
| shop_deduct p b b1 b2 : shopping b b1 -> snd (srv_deduct p b1) = b2 -> shopping b b2.

Implicit Types I : PlatTables -> ApiWorld * Remote B -> Prop.

(** The statements of the endpoints for users. [audits]: also those that an
    administrator's use of them adds. *)
Class UserStable I (audits : bool) := {
  st_instances : forall f d x, I d x -> I (set_instances f d) x;
  st_subscriptions : forall f d x, I d x -> I (set_subscriptions f d) x;
  st_payment : forall p d d' x, I d x -> pp_TxHash p = ""%string -> insert_payment p d = Ok d' -> I d' x;
  st_world : forall d x w, I d x -> I d (w, snd x);
  st_cache : forall d x c, I d x -> I d (fst x, mkRemote (rm_server (snd x)) c);
  st_shop : forall d x c b, I d x -> shopping (rm_server (snd x)) b -> I d (fst x, mkRemote b c);
  st_audit : audits = true -> forall l d x, I d x -> I (add_audit l d) x;
}.

(** Those of the administrators. *)
Class AdminStable I := {
  ad_user :: UserStable I true;
  st_roles : forall f d x, I d x -> I (set_users f d) x;
  st_servers : forall f d x, I d x -> I (set_servers f d) x;
  st_templates : forall f d x, I d x -> I (set_templates f d) x;
  st_plans : forall f d x, I d x -> I (set_plans f d) x;
  st_limits : forall f d x, I d x -> I (set_limits f d) x;
  st_new_promo : forall p d d' x, I d x -> pc_UsedCount p = 0 -> insert_promo p d = Ok d' -> I d' x;
  st_promo : forall u f d x, I d x -> (forall p, exists t a, f p = with_promo t (pc_UsedCount p) a p) ->
    I (set_promo_codes (alter_live pc_DeletedAt f u) d) x;
  st_credit : forall p d x c, I d x -> I d (fst x, mkRemote (snd (srv_credit p (rm_server (snd x)))) c);
}.

Section rules.
Context I.

Lemma within_row_any {A} (P : A -> Prop) (zero : A) (m : AM A) : within I P m -> within I anything (row_and_error zero m).
Proof.
  intros Hm s r s' Hi Hr. unfold row_and_error in Hr. destruct (m s) as [r1 s1] eqn:E.
  injection Hr as <- <-. by destruct (Hm _ _ _ Hi E).
Qed.

Lemma within_first_id {A} id (q : uuid -> PlatTables -> option A) : within I anything (first_id (X := ApiWorld * Remote B) id q).
Proof. apply within_stmt. intros d x a d' Hi H. destruct (pg_uuid id); [destruct (q _ _)|]; by simplify_eq. Qed.

Lemma within_exec_id id (f : uuid -> PlatTables -> PlatTables) :
  (forall u d x, I d x -> I (f u d) x) -> within I anything (exec_id (X := ApiWorld * Remote B) id f).
Proof. intros Hf. apply within_exec. intros d x d' Hi H. destruct (pg_uuid id); simplify_eq; auto. Qed.

Lemma within_any_first {A} (q : PlatTables -> option A) : within I anything (first (X := ApiWorld * Remote B) q).
Proof. eapply within_anything, within_first. Qed.

Lemma within_any_find {A} (q : PlatTables -> A) : within I anything (find (X := ApiWorld * Remote B) q).
Proof. eapply within_anything, within_find. Qed.

Lemma within_rand n : within I anything (rand_Read (D := PlatTables) (X := ApiWorld * Remote B) n).
Proof. intros s r s' Hi Hr. unfold rand_Read in Hr. destruct (env_fault _); by injection Hr as <- <-. Qed.

Lemma within_try_any {A} (m : AM A) : within I anything m -> within I anything (try m).
Proof. intros Hm. eapply within_anything, within_try, Hm. Qed.

Lemma within_bind_any {A C} (m : AM A) (k : A -> AM C) :
  within I anything m -> (forall a, within I anything (k a)) -> within I anything (bind m k).
Proof. intros Hm Hk. eapply within_bind; [apply Hm|]. auto. Qed.

Context (world : forall d x w, I d x -> I d (w, snd x)).

Lemma within_Publish c : within I anything (Publish c).
Proof.
  intros s r s' Hi Hr. unfold Publish in Hr. destruct (env_fault _); injection Hr as <- <-; simpl; (split; [|done]); auto.
  by apply world.
Qed.

Context (cache : forall d x c, I d x -> I d (fst x, mkRemote (rm_server (snd x)) c)).

Lemma within_Request {R} subject payload (serve : string -> B -> result R * B) on_error :
  (forall p d x c, I d x -> I d (fst x, mkRemote (snd (serve p (rm_server (snd x)))) c)) ->
  within I anything (Request (D := PlatTables) (X := ApiWorld) subject payload serve on_error).
Proof.
  intros Hs s r s' Hi Hr. unfold Request in Hr. destruct payload as [p|]; [|by injection Hr as <- <-].
  destruct (env_fault _); [by injection Hr as <- <-|]. specialize (Hs p _ _ (rm_cache (snd (ext s))) Hi).
  destruct (serve p _) as [q b]. simpl in Hs. destruct (env_fault _); injection Hr as <- <-; by split; [|destruct q].
Qed.

Lemma within_cache_update f : within I anything (cache_update (D := PlatTables) (X := ApiWorld) (B := B) f).
Proof.
  intros s r s' Hi Hr. unfold cache_update in Hr. destruct (rm_cache _), (env_fault (tick s)); injection Hr as <- <-; simpl; (split; [auto|done]).
Qed.

Lemma within_cache_Get k : within I anything (cache_Get (D := PlatTables) (X := ApiWorld) (B := B) k).
Proof. intros s r s' Hi Hr. unfold cache_Get in Hr. destruct (rm_cache _); injection Hr as <- <-; by split. Qed.
End rules.

(** Descends into a handler; statements that write stay as goals. *)
Ltac frame_step :=
  match goal with
  | |- within _ _ (bind _ _) => apply within_bind_any; [|intros ?]
  | |- within _ _ (try _) => apply within_try_any
  | |- within _ _ (wrap_err _ _) => eapply within_wrap_err
  | |- within _ _ (row_and_error _ _) => eapply within_row_any
  | |- within _ _ (first _) => apply within_any_first
  | |- within _ _ (find _) => apply within_any_find
  | |- within _ _ (first_id _ _) => apply within_first_id
  | |- within _ _ (rand_Read _) => apply within_rand
  | |- within _ _ get_ext => eapply within_anything, within_get_ext
  | |- within _ _ (ret _) => by apply within_ret
  | |- within _ _ (throw _) => apply within_throw
  | |- within _ _ now => apply within_now
  | |- within _ _ uuid_New => apply within_uuid
  | |- within _ _ (let x := _ in _) => cbv zeta
  | |- within _ _ (match ?x with _ => _ end) => destruct x eqn:?
  end.
Ltac frame_tac := repeat (intros; first [solve [eauto 2 with frame] | frame_step]).

(** * The endpoints for users *)

Section user.
Context {I : PlatTables -> ApiWorld * Remote B -> Prop} {audits : bool} {STABLE : UserStable I audits}.

Lemma frame_exec_instances f : within I anything (exec (X := ApiWorld * Remote B) (fun d => Ok (set_instances f d))).
Proof. apply within_exec. intros d x d' Hi [= <-]. by apply st_instances. Qed.

Lemma frame_Publish c : within I anything (Publish c).
Proof. apply within_Publish, (st_world (I := I)). Qed.

Lemma frame_Request {R} subject payload (serve : string -> B -> result R * B) on_error :
  (forall p b, shopping b (snd (serve p b))) ->
  within I anything (Request (D := PlatTables) (X := ApiWorld) subject payload serve on_error).
Proof. intros Hs. apply within_Request. intros p d x c Hi. by apply st_shop. Qed.

Lemma frame_cache_update f : within I anything (cache_update (D := PlatTables) (X := ApiWorld) (B := B) f).
Proof. apply within_cache_update, (st_cache (I := I)). Qed.

Lemma frame_cache_Get k : within I anything (cache_Get (D := PlatTables) (X := ApiWorld) (B := B) k).
Proof. apply within_cache_Get. Qed.

#[local] Hint Resolve frame_exec_instances frame_Publish frame_cache_update frame_cache_Get : frame.

Lemma frame_deduct c tg amt reason idem ref meta :
  within I anything (DeductWithMeta (D := PlatTables) (X := ApiWorld) c tg amt reason idem ref meta).
Proof.
  unfold DeductWithMeta. frame_step; [apply frame_Request; intros p b; by eapply shop_deduct; [constructor|]|]. frame_tac.
Qed.

Lemma frame_Balance c tg : within I anything (Balance (D := PlatTables) (X := ApiWorld) c tg).
Proof.
  unfold Balance. frame_step; [auto with frame|]. destruct a; [frame_tac|].
  frame_step; [apply frame_Request; intros p b; by eapply shop_balance; [constructor|]|]. frame_tac.
Qed.

Lemma frame_CreateInvoice c tg amt ref : within I anything (CreateInvoice (D := PlatTables) (X := ApiWorld) c tg amt ref).
Proof.
  unfold CreateInvoice. frame_step; [apply frame_Request; intros p b; by eapply shop_create; [constructor|]|]. frame_tac.
Qed.

Lemma frame_InvoiceStatus c tg code : within I anything (InvoiceStatus (D := PlatTables) (X := ApiWorld) c tg code).
Proof.
  unfold InvoiceStatus. frame_step; [apply frame_Request; intros p b; by eapply shop_status; [constructor|]|]. frame_tac.
Qed.

#[local] Hint Resolve frame_deduct frame_Balance frame_CreateInvoice frame_InvoiceStatus : frame.

Lemma frame_audit u role a t ty : audits = true -> within I anything (auditAdminAction u role a t ty).
Proof.
  intros Ha. unfold auditAdminAction, CreateAuditLog. frame_tac. apply within_exec. intros d x d' Hi [= <-]. by apply st_audit.
Qed.

Lemma frame_update_instance id f : within I anything (update_instance (X := ApiWorld * Remote B) id f).
Proof. apply frame_exec_instances. Qed.

Lemma frame_CreateInstance i : within I anything (CreateInstance (X := ApiWorld * Remote B) i).
Proof.
  apply within_exec. intros d x d' Hi H. unfold insert_instance in H. repeat case_match; simplify_eq. by apply st_instances.
Qed.

Lemma frame_record_payment u p : within I anything (record_payment u p).
Proof.
  unfold record_payment, CreatePayment. frame_tac. apply within_exec. intros d x d' Hi H. by eapply st_payment; [exact Hi| |exact H].
Qed.

Lemma frame_subscribe u p : within I anything (subscribe u p).
Proof.
  unfold subscribe, CreateSubscription. frame_tac. apply within_exec. intros d x d' Hi H. case_match; simplify_eq.
  by apply st_subscriptions.
Qed.

#[local] Hint Resolve frame_update_instance frame_CreateInstance frame_record_payment frame_subscribe : frame.

Lemma frame_publishCommand i t : within I anything (publishCommand i t).
Proof. unfold publishCommand, FindServerByID. frame_tac. Qed.

Lemma frame_with_user u k : (forall v, within I anything (k v)) -> within I anything (with_user u k).
Proof. intros Hk. unfold with_user, currentUser, FindUserByID. frame_tac. Qed.

Lemma frame_with_pay k : (forall v, within I anything (k v)) -> within I anything (with_pay cfg k).
Proof. intros Hk. unfold with_pay. frame_tac. Qed.

Lemma frame_Encrypt p k : within I anything (Encrypt (D := PlatTables) (X := ApiWorld * Remote B) p k).
Proof. unfold Encrypt, gcm_key. frame_tac. Qed.

Lemma frame_Decrypt p k : within I anything (Decrypt (D := PlatTables) (X := ApiWorld * Remote B) p k).
Proof. unfold Decrypt, gcm_key. frame_tac. Qed.

#[local] Hint Resolve frame_publishCommand frame_Encrypt frame_Decrypt : frame.

Lemma frame_SelectServer tag : within I anything (SelectLeastLoadedServer (X := ApiWorld * Remote B) tag).
Proof. unfold SelectLeastLoadedServer. frame_tac. Qed.

Lemma frame_CanCreate u t : within I anything (CanCreateInstance (X := ApiWorld * Remote B) u t).
Proof. unfold CanCreateInstance, GetActiveSubscription, FindPlanWithLimits, CountInstancesByOwnerAndType. frame_tac. Qed.

#[local] Hint Resolve frame_SelectServer frame_CanCreate : frame.

Lemma frame_create u req : within I anything (Handler_CreateInstance cfg u req).
Proof.
  unfold Handler_CreateInstance, choose_server, FindTemplate, FindInstanceByBotID, FindUserByID, publishDeploy,
    UpdateInstanceStatus. frame_tac.
Qed.

Lemma frame_with_instance id k : (forall i, within I anything (k i)) -> within I anything (with_instance_of id k).
Proof. intros Hk. unfold with_instance_of, FindInstance. frame_tac. Qed.

Lemma frame_deploy i before f : within I anything before -> within I anything (deploy_again cfg i before f).
Proof.
  intros Hb. unfold deploy_again, FindTemplate, FindServerByID, publishDeploy, UpdateInstanceStatus. frame_tac.
Qed.

Lemma frame_settings u role id req :
  (is_admin role = true -> audits = true) -> within I anything (UpdateInstanceSettings u role id req).
Proof.
  intros Ha. unfold UpdateInstanceSettings, FindInstance, FindTemplate, UpdateInstanceEnvOverrides. frame_tac.
  match goal with H : is_admin role && _ = true |- _ => apply andb_prop in H as [Hr _] end. by apply frame_audit, Ha.
Qed.

Lemma frame_BuyPlan u id : within I anything (BuyPlan cfg u id).
Proof.
  unfold BuyPlan. apply frame_with_user. intros v. unfold FindPlan, DeductForService. frame_tac.
  apply frame_with_pay. intros c. frame_tac.
Qed.

Lemma frame_user_handle u role o :
  (is_admin role = true -> audits = true) -> within I anything (user_handle cfg u role o).
Proof.
  intros Ha. destruct o; cbn [user_handle].
  - apply frame_create.
  - apply frame_with_instance. intros i. frame_tac. apply frame_deploy. frame_tac.
  - apply frame_with_instance. intros i. unfold UpdateInstanceStatus. frame_tac.
  - apply frame_with_instance. intros i. apply frame_deploy. frame_tac.
  - apply frame_with_instance. intros i. unfold DeleteInstance. frame_tac.
  - by apply frame_settings.
  - apply frame_BuyPlan.
  - apply frame_with_pay. intros c. apply frame_with_user. intros v. frame_tac.
  - apply frame_with_pay. intros c. apply frame_with_user. intros v. frame_tac.
  - apply frame_with_pay. intros c. apply frame_with_user. intros v. frame_tac.
Qed.
End user.

(** * The other endpoints *)

Section everyone.
Context {I : PlatTables -> ApiWorld * Remote B -> Prop} {ADMIN : AdminStable I}.

Ltac write H := apply within_exec; intros d x d' Hi H; repeat case_match; simplify_eq.

Lemma frame_servers f : within I anything (exec (X := ApiWorld * Remote B) (fun d => Ok (set_servers f d))).
Proof. write E. by apply st_servers. Qed.

Lemma frame_exec_users f : within I anything (exec (X := ApiWorld * Remote B) (fun d => Ok (set_users f d))).
Proof. write E. by apply st_roles. Qed.

Lemma frame_exec_templates f : within I anything (exec (X := ApiWorld * Remote B) (fun d => Ok (set_templates f d))).
Proof. write E. by apply st_templates. Qed.

Lemma frame_exec_plans f : within I anything (exec (X := ApiWorld * Remote B) (fun d => Ok (set_plans f d))).
Proof. write E. by apply st_plans. Qed.

Lemma frame_id_servers id f : within I anything (exec_id (X := ApiWorld * Remote B) id (fun u => set_servers (f u))).
Proof. apply within_exec_id. intros u d x Hi. by apply st_servers. Qed.

Lemma frame_id_templates id f : within I anything (exec_id (X := ApiWorld * Remote B) id (fun u => set_templates (f u))).
Proof. apply within_exec_id. intros u d x Hi. by apply st_templates. Qed.

Lemma frame_id_plans id f : within I anything (exec_id (X := ApiWorld * Remote B) id (fun u => set_plans (f u))).
Proof. apply within_exec_id. intros u d x Hi. by apply st_plans. Qed.

Lemma frame_CreateServer v : within I anything (CreateServer (X := ApiWorld * Remote B) v).
Proof. unfold CreateServer, insert_server. write E. by apply st_servers. Qed.

Lemma frame_UpdateServer v : within I anything (UpdateServer (X := ApiWorld * Remote B) v).
Proof. unfold UpdateServer, save_server. write E. by apply st_servers. Qed.

Lemma frame_UpdateInstance v : within I anything (UpdateInstance (X := ApiWorld * Remote B) v).
Proof. unfold UpdateInstance. write E. by apply st_instances. Qed.

Lemma frame_CreateTemplate v : within I anything (CreateTemplate (X := ApiWorld * Remote B) v).
Proof. unfold CreateTemplate. write E. by apply st_templates. Qed.

Lemma frame_CreatePlan v : within I anything (CreatePlan (X := ApiWorld * Remote B) v).
Proof. unfold CreatePlan. frame_tac. write E. by apply st_plans. Qed.

Lemma frame_SetPlanLimit p t n : within I anything (SetPlanLimit (X := ApiWorld * Remote B) p t n).
Proof. unfold SetPlanLimit. frame_tac; write E; by apply st_limits. Qed.

Lemma frame_CreatePromo v : pc_UsedCount v = 0 -> within I anything (CreatePromoCode (X := ApiWorld * Remote B) v).
Proof. intros Hv. apply within_exec. intros d x d' Hi E. by eapply st_new_promo. Qed.

Lemma frame_promo id f : (forall p, exists t a, f p = with_promo t (pc_UsedCount p) a p) ->
  within I anything (exec_id (X := ApiWorld * Remote B) id (fun u => set_promo_codes (alter_live pc_DeletedAt f u))).
Proof. intros Hf. apply within_exec_id. intros u d x Hi. by apply st_promo. Qed.

Lemma frame_UpsertUser u : within I anything (UpsertUser (X := ApiWorld * Remote B) u).
Proof.
  unfold UpsertUser, insert_user. frame_tac; [apply frame_exec_users|write E; by apply st_roles].
Qed.

Lemma frame_admin_audit u role a t ty : within I anything (auditAdminAction u role a t ty).
Proof. by apply (frame_audit (audits := true)). Qed.

Lemma frame_Credit c tg amt ref meta : within I anything (Credit (D := PlatTables) (X := ApiWorld) c tg amt ref meta).
Proof.
  unfold Credit. frame_step; [apply within_Request; intros; by apply st_credit|].
  frame_tac. apply frame_cache_update.
Qed.

#[local] Hint Resolve frame_servers frame_exec_users frame_exec_templates frame_exec_plans frame_id_servers
  frame_id_templates frame_id_plans frame_CreateServer frame_UpdateServer frame_UpdateInstance frame_CreateTemplate
  frame_CreatePlan frame_SetPlanLimit frame_UpsertUser frame_admin_audit frame_Credit frame_Decrypt : frame.
#[local] Hint Extern 1 (within _ _ _) =>
  first [apply (frame_publishCommand (audits := true)) | apply (frame_Publish (audits := true))
        | apply (frame_update_instance (audits := true))] : frame.

Lemma frame_admin_handle u role o : within I anything (admin_handle cfg u role o).
Proof.
  destruct o; cbn [admin_handle].
  - unfold Handler_CreateServer. frame_tac.
  - unfold Handler_UpdateServer, FindServerByID. frame_tac.
  - unfold Handler_DeleteServer, DeleteServer. frame_tac.
  - unfold MigrateInstance, FindInstance, FindServerByID, FindTemplate, publishDeploy, UpdateInstanceServer,
      UpdateInstanceStatus. frame_tac.
  - unfold UpdateInstanceAdmin, FindInstance. frame_tac.
  - unfold Handler_CreateTemplate. frame_tac.
  - unfold Handler_UpdateTemplate, FindTemplate, UpdateTemplate. frame_tac.
  - unfold Handler_DeleteTemplate, DeleteTemplate. frame_tac.
  - unfold Handler_SetUserRole, SetUserRole. frame_tac.
  - unfold setUserBlocked, SetUserBlocked. frame_tac.
  - unfold setUserBlocked, SetUserBlocked. frame_tac.
  - apply frame_with_pay. intros c. unfold FindUserByID. frame_tac.
  - unfold Handler_CreatePlan. frame_tac.
  - unfold Handler_UpdatePlan, FindPlan, UpdatePlan. frame_tac.
  - unfold UpdatePlanLimit. frame_tac.
  - unfold Handler_DeletePlan, DeletePlan. frame_tac.
  - unfold Handler_CreatePromoCode, FindUserByID. frame_tac. by apply frame_CreatePromo.
  - unfold Handler_SetPromoCodeActive, SetPromoCodeActive. frame_tac. apply frame_promo. eauto.
  - unfold Handler_DeletePromoCode, DeletePromoCode. frame_tac. apply frame_promo. eauto.
Qed.

Lemma frame_JWTAuth header k : (forall u role, within I anything (k u role)) -> within I anything (JWTAuth cfg header k).
Proof. intros Hk. unfold JWTAuth, parseClaims. frame_tac. Qed.

Lemma frame_RateLimit ip path m : within I anything m -> within I anything (RateLimit ip path m).
Proof.
  intros Hm. unfold RateLimit. frame_tac. destruct (limiter_Allow _ _ _ _) as [ok counts]. frame_tac.
  apply within_mod_ext. intros d x Hi. by apply (st_world (I := I)).
Qed.

Lemma frame_give_tokens u : within I anything (give_tokens cfg u).
Proof. unfold give_tokens, GenerateAccessToken, GenerateRefreshToken, signToken. frame_tac. Qed.

Lemma frame_request r : within I anything (handle_request cfg r).
Proof.
  destruct r; cbn [handle_request].
  - unfold TelegramAuth, FindUserByTelegramID. frame_tac; apply frame_give_tokens.
  - unfold RefreshToken, parseClaims, GenerateAccessToken, signToken. frame_tac.
  - unfold AgentAuth, ListServers, MarkServerOnline. frame_tac.
  - unfold AgentKeyAuth, AgentHeartbeat, RecordHeartbeat. frame_tac.
  - unfold AgentKeyAuth, AgentResult, FindInstanceByContainerName, UpdateInstanceStatus. frame_tac.
  - apply frame_RateLimit, frame_JWTAuth. intros u role. by apply (frame_user_handle (audits := true)).
  - apply frame_RateLimit, frame_JWTAuth. intros u role. unfold RequireRole. frame_tac. apply frame_admin_handle.
Qed.

(** A property that the redeeming of codes keeps too holds through everything. *)
Lemma frame_serve l : (forall p u, within I anything (RedeemPromoCode (X := ApiWorld * Remote B) p u)) ->
  within I anything (api_serve cfg l).
Proof.
  intros Hr. induction l as [|o l IH]; cbn [api_serve]; [frame_tac|]. frame_tac.
  destruct o; cbn [api_perform]; [|unfold MarkStaleServersOffline|]; frame_tac; apply frame_request.
Qed.
End everyone.
End frame.
