(* ===== verification/ApiSpec.v ===== *)
(** apimanager and the platform's store: what a token without an administrator's
    role can change, what the rate limiter admits, what promo codes, payments
    and subscriptions amount to after any requests. *)
From S2P Require Import Prelude GoInt GoFloat GoString GoText Effects PayModels PayChain Consensus Auth Bus Triples WalletService.
From S2P Require Import PayResponder PayClient PayClientSpec Platform Api ApiFrame.

(** * The rate limiter *)

Section limiter.
Context (maxPerMin : nat).
Abbreviation call := (string * Z)%type.

Definition minute : Z := 60 * 1000000000.
(** The calls that get through, in order. *)
Fixpoint limiter_serves (l : list call) (counts : gmap string (list Z)) : list call :=
  match l with
  | [] => []
  | (k, t) :: l =>
      let '(ok, counts) := limiter_Allow maxPerMin k t counts in
      if ok then (k, t) :: limiter_serves l counts else limiter_serves l counts
  end.

(** The admitted calls [a] under [k] in the minute before [t]. *)
Definition in_window (k : string) (t : Z) (a : list call) : nat :=
  length (List.filter (fun c => (c.1 =? k)%string && (t - minute <? c.2) && (c.2 <=? t)) a).

(** The rule: a call is admitted when fewer than the maximum were in the last minute. *)
Fixpoint window_serves (l a : list call) : list call :=
  match l with
  | [] => []
  | (k, t) :: l => if (in_window k t a <? maxPerMin)%nat then (k, t) :: window_serves l (a ++ [(k, t)]) else window_serves l a
  end.

(** No time is before an earlier one, nor before those of [a]. *)
Definition in_order (a l : list call) : Prop :=
  StronglySorted (fun c c' : call => c.2 <= c'.2) l /\ forall c c', c ∈ a -> c' ∈ l -> c.2 <= c'.2.

Lemma in_order_cons a c l : in_order a (c :: l) -> in_order (a ++ [c]) l /\ in_order a l /\ (forall x, x ∈ a -> x.2 <= c.2).
Proof.
  intros [Hs Ha]. inversion_clear Hs as [|? ? Hl Hc]. rewrite Forall_forall in Hc.
  split; [split; [done|]|split; [split; [done|]|]].
  - intros x y [Hx|Hx%list_elem_of_singleton]%elem_of_app Hy; [|subst; by apply Hc]. apply Ha; [done|by right].
  - intros x y Hx Hy. apply Ha; [done|by right].
  - intros x Hx. apply Ha; [done|by left].
Qed.

(** The counters: under each key the admitted calls since some moment. *)
Definition counts_ok (a : list call) (counts : gmap string (list Z)) (now : Z) : Prop :=
  forall k, exists c, c <= now - minute /\ default [] (counts !! k) = map snd (List.filter (fun x : call => (x.1 =? k)%string && (c <? x.2)) a).

Lemma counts_later a counts t t' : t <= t' -> counts_ok a counts t -> counts_ok a counts t'.
Proof. intros Ht H k. destruct (H k) as (c & Hc & E). exists c. split; [lia|done]. Qed.

Lemma recent_counts a counts k t : counts_ok a counts t -> (forall x, x ∈ a -> x.2 <= t) ->
  recent t (default [] (counts !! k)) = map snd (List.filter (fun x : call => (x.1 =? k)%string && (t - minute <? x.2)) a) /\
  length (recent t (default [] (counts !! k))) = in_window k t a.
Proof.
  intros H Ha. destruct (H k) as (c & Hc & ->). unfold recent, in_window.
  change (60 * 1000000000) with minute. generalize dependent minute. intros w Hw.
  assert (E : List.filter (fun s => t - w <? s) (map snd (List.filter (fun x : call => (x.1 =? k)%string && (c <? x.2)) a)) =
    map snd (List.filter (fun x : call => (x.1 =? k)%string && (t - w <? x.2)) a)).
  { clear H Ha. induction a as [|x a IH]; [done|]. simpl. destruct (x.1 =? k)%string; simpl; [|done].
    destruct (Z.ltb_spec c x.2); simpl; destruct (Z.ltb_spec (t - w) x.2); simpl; rewrite ?IH; done || lia. }
  rewrite E. split; [done|]. rewrite length_map. f_equal. apply List.filter_ext_in. intros x Hx%list_elem_of_In.
  apply Ha in Hx. apply Z.leb_le in Hx. by rewrite Hx, andb_true_r.
Qed.

Lemma counts_admitted a counts k t : counts_ok a counts t -> (forall x, x ∈ a -> x.2 <= t) ->
  counts_ok (a ++ [(k, t)]) (<[k := recent t (default [] (counts !! k)) ++ [t]]> counts) t.
Proof.
  intros H Ha k'. destruct (decide (k' = k)) as [->|Hk].
  - exists (t - minute). split; [lia|]. rewrite lookup_insert_eq. simpl. rewrite (proj1 (recent_counts a counts k t H Ha)).
    rewrite List.filter_app, map_app. simpl. rewrite String.eqb_refl.
    by destruct (Z.ltb_spec (t - minute) t); [|unfold minute in *; lia].
  - destruct (H k') as (c & Hc & E). exists c. split; [done|]. rewrite lookup_insert_ne by done. rewrite E, List.filter_app.
    simpl. replace (k =? k')%string with false by (symmetry; apply String.eqb_neq; congruence). simpl. by rewrite app_nil_r.
Qed.

Lemma serves_window l : forall a counts t, in_order a l -> (forall x, x ∈ a -> x.2 <= t) -> counts_ok a counts t ->
  (forall x, x ∈ l -> t <= x.2) -> limiter_serves l counts = window_serves l a.
Proof.
  induction l as [|[k t'] l IH]; [done|]. intros a counts t Ho Ha Hc Hl. simpl.
  apply in_order_cons in Ho as (Ho1 & Ho & Ha'). simpl in Ha'.
  assert (Hc' : counts_ok a counts t') by (eapply counts_later; [|exact Hc]; apply (Hl (k, t')); by left).
  assert (Hl' : forall x, x ∈ l -> t' <= x.2).
  { intros x Hx. destruct Ho1 as [_ H]. apply (H (k, t') x); [|done]. apply elem_of_app. right. by apply list_elem_of_singleton. }
  unfold limiter_Allow. rewrite (proj2 (recent_counts a counts k t' Hc' Ha')).
  destruct (Nat.leb_spec maxPerMin (in_window k t' a)); destruct (Nat.ltb_spec (in_window k t' a) maxPerMin); try lia.
  - by apply (IH a counts t').
  - f_equal. apply (IH _ _ t'); [done| |by apply counts_admitted|done].
    intros x [Hx|Hx%list_elem_of_singleton]%elem_of_app; [by apply Ha'|by subst].
Qed.

Lemma filter_mono_length {A} (P Q : A -> bool) (l : list A) :
  (forall x, x ∈ l -> P x = true -> Q x = true) -> (length (List.filter P l) <= length (List.filter Q l))%nat.
Proof.
  induction l as [|x l IH]; intros H; [done|]. simpl. specialize (IH (fun y Hy => H y (list_elem_of_further _ _ _ Hy))).
  destruct (P x) eqn:E; [rewrite (H x (list_elem_of_here _ _) E); simpl; lia|]. destruct (Q x); simpl; lia.
Qed.

Lemma in_window_snoc k t a k' t' :
  in_window k t (a ++ [(k', t')]) = (in_window k t a + if ((k' =? k)%string && (t - minute <? t') && (t' <=? t))%Z then 1 else 0)%nat.
Proof. unfold in_window. rewrite List.filter_app, length_app. simpl. by destruct (_ && _). Qed.

(** In every minute the rule admits at most the maximum. *)
Lemma window_bound l : forall a, in_order a l -> (forall k t, (in_window k t a <= maxPerMin)%nat) ->
  forall k t, (in_window k t (a ++ window_serves l a) <= maxPerMin)%nat.
Proof.
  induction l as [|[k' t'] l IH]; intros a Ho Hw k t; simpl; [by rewrite app_nil_r|].
  apply in_order_cons in Ho as (Ho1 & Ho & Ha). simpl in Ha. destruct (Nat.ltb_spec (in_window k' t' a) maxPerMin); [|by apply IH].
  rewrite cons_middle, app_assoc. apply IH; [done|]. clear k t. intros k t.
  specialize (Hw k t). rewrite in_window_snoc. destruct (String.eqb_spec k' k) as [->|]; simpl; [|lia].
  destruct (Z.ltb_spec (t - minute) t'), (Z.leb_spec t' t); simpl; try lia.
  enough (in_window k t a <= in_window k t' a)%nat by lia.
  apply filter_mono_length. intros c Hc [[->%String.eqb_eq Ht]%andb_prop _]%andb_prop. apply Ha in Hc. zbool.
  rewrite String.eqb_refl. apply andb_true_intro. split; [|lia]. simpl. lia.
Qed.

(** C1. The limiter of the API decides by the sliding window: of calls at times
    that do not go back, under any mixture of keys, exactly those get through
    that have fewer admitted calls of their own key than the maximum in the
    minute before them; so no key ever gets more than the maximum through in any
    minute, and a caller who stays below it is never refused. *)
Theorem limiter_window l : in_order [] l ->
  limiter_serves l ∅ = window_serves l [] /\
  forall k t, (in_window k t (limiter_serves l ∅) <= maxPerMin)%nat.
Proof.
  intros Ho. assert (E : limiter_serves l ∅ = window_serves l []).
  { destruct l as [|[k0 t0] l]; [done|]. apply (serves_window _ _ _ t0); [done|by intros ? ?%elem_of_nil| |].
    - intros k. exists (t0 - minute). split; [done|]. by rewrite lookup_empty.
    - intros x [->|Hx]%elem_of_cons; [done|]. destruct (in_order_cons _ _ _ Ho) as ([_ H] & _). by apply (H (k0, t0)); [left|]. }
  split; [done|]. intros k t. rewrite E. apply (window_bound l []); [done|]. intros; unfold in_window; simpl; lia.
Qed.
End limiter.

(** * Frames *)

Section frames.
Context {B : Type} {ENV : Env} {LIB : Lib} {PG : PgChoices} {UUID : UuidParser} {CRYPTO : Crypto}.
Context {JWT : Jwt} {PARSER : JwtParser} {FORMATS : ApiFormats} {PS : PayServer B} {MARSHAL : JsonMarshal} (cfg : ApiConfig).
Implicit Types (d : PlatTables) (x : ApiWorld * Remote B) (s : st PlatTables (ApiWorld * Remote B)).

(** What the routes under /admin are for. *)
Definition administered d := (users d, servers d, templates d, plans d, limits d, promo_codes d, redemptions d, audit_logs d).

Definition same_administered d0 (b0 : B) d x : Prop := administered d = administered d0 /\ shopping b0 (rm_server (snd x)).

Lemma shopping_trans (b1 b2 b3 : B) : shopping b1 b2 -> shopping b2 b3 -> shopping b1 b3.
Proof.
  intros H12 H. induction H; [done|eapply shop_balance|eapply shop_create|eapply shop_status|eapply shop_deduct];
    first [by apply IHshopping|eassumption].
Qed.

Lemma stable_administered d0 b0 : UserStable (same_administered d0 b0) false.
Proof.
  split; try done; unfold same_administered; simpl.
  - intros p d d' x [H1 H2] _ H. split; [|done]. unfold insert_payment in H.
    repeat case_match; try done. injection H as <-. exact H1.
  - intros d x c b [H1 H2] H. split; [done|]. by eapply shopping_trans.
Qed.

(** The requests that carry a token, and what is sent with it. *)
Definition bearer (r : request) : option string :=
  match r with UserRequest _ header _ | AdminRequest _ header _ => Some header | _ => None end.

Lemma RateLimit_run ip path m s res s' : RateLimit (B := B) ip path m s = (res, s') ->
  exists s1, db s1 = db s /\ snd (ext s1) = snd (ext s) /\ aw_commands (fst (ext s1)) = aw_commands (fst (ext s)) /\
    (m s1 = (res, s') \/ s' = s1 /\ res = Ok (fail 429 "rate limit exceeded")).
Proof.
  unfold RateLimit, bind, now, get_ext, mod_ext, bump. cbn. destruct (limiter_Allow _ _ _ _) as [[] counts]; cbn.
  - intros H. eexists. split_and!; [..|by left]; done.
  - intros [= <- <-]. eexists. split_and!; [..|by right]; done.
Qed.

Lemma JWTAuth_run header k s res s' : JWTAuth cfg header k s = (res, s') ->
  (exists u role, (exists n, ParseWithClaims (TrimPrefix header "Bearer ") (ac_accessSecret cfg) n = Some (u, role)) /\
     exists n, k u role (mkSt n (tx s) (db s) (ext s)) = (res, s')) \/
  db s' = db s /\ ext s' = ext s /\ exists msg, res = Ok (fail 401 msg).
Proof.
  unfold JWTAuth. destruct (negb _); [intros [= <- <-]; right; eauto|].
  unfold bind, try, parseClaims, bind, now, bump. cbn. destruct (ParseWithClaims _ _ _) as [[u role]|] eqn:E; cbn.
  - intros H. left. exists u, role. eauto.
  - intros [= <- <-]. right. eauto.
Qed.

(** C27: C2. A request whose token never parses to the role admin or owner changes no
    user, server, template, plan, limit, promo code, redemption or audit entry,
    and has botpay create invoices, answer questions and deduct, but never
    credit; on a route under /admin it changes nothing at all, in the tables, in
    botpay or at the servers, and is answered 401, 403 or 429. *)
Theorem admins_only r header s res s' :
  bearer r = Some header ->
  (forall n u role, ParseWithClaims (TrimPrefix header "Bearer ") (ac_accessSecret cfg) n = Some (u, role) -> is_admin role = false) ->
  handle_request cfg r s = (res, s') ->
  administered (db s') = administered (db s) /\ shopping (rm_server (snd (ext s))) (rm_server (snd (ext s'))) /\
  match r with
  | AdminRequest _ _ _ =>
      db s' = db s /\ snd (ext s') = snd (ext s) /\ aw_commands (fst (ext s')) = aw_commands (fst (ext s)) /\
      exists code msg, res = Ok (fail code msg) /\ code ∈ [401; 403; 429]
  | _ => True
  end.
Proof.
  intros Hb Hr H. destruct r as [| | | | |ip h o|ip h o]; try done; injection Hb as ->; cbn [handle_request] in H;
    apply RateLimit_run in H as (s1 & Ed & Ex & Ec & [H|[-> ->]]).
  - enough (same_administered (db s) (rm_server (snd (ext s))) (db s') (ext s')) by (unfold same_administered in *; tauto).
    assert (I1 : same_administered (db s) (rm_server (snd (ext s))) (db s1) (ext s1)).
    { split; [by rewrite Ed|]. rewrite Ex. constructor. }
    apply JWTAuth_run in H as [(u & role & (n & E) & m & H)|(-> & -> & _)]; [|done].
    refine (proj1 (frame_user_handle cfg (STABLE := stable_administered _ _) u role o _ (mkSt m _ _ _) _ _ I1 H)).
    apply Hr in E. by rewrite E.
  - split_and!; [by rewrite Ed|rewrite Ex; constructor|done].
  - apply JWTAuth_run in H as [(u & role & (n & E) & m & H)|(Ed' & Ex' & msg & ->)].
    + apply Hr in E. unfold RequireRole in H. rewrite E in H. injection H as <- <-. simpl. rewrite Ed, Ex, Ec.
      split_and!; [done|constructor|done..|]. exists 403, "forbidden"%string. split; [done|set_solver].
    + rewrite Ed', Ex', Ed, Ex, Ec. split_and!; [done|constructor|done..|]. exists 401, msg. split; [done|set_solver].
  - rewrite Ed, Ex, Ec. split_and!; [done|constructor|done..|]. exists 429, "rate limit exceeded"%string. split; [done|set_solver].
Qed.

(** ** Promo codes *)

Definition uses (R : gset (uuid * uuid)) (id : uuid) : nat := size (filter (fun r : uuid * uuid => r.1 = id) R).

(** The counter of a code is the number of its redemptions, within its limit. *)
Definition promo_inv d x : Prop :=
  (forall id p, promo_codes d !! id = Some p -> pc_ID p = id /\ pc_UsedCount p = Z.of_nat (uses (redemptions d) id) /\
     (0 < pc_MaxUses p -> pc_UsedCount p <= pc_MaxUses p)) /\
  (forall r, r ∈ redemptions d -> is_Some (promo_codes d !! r.1)).

Lemma promo_stable : AdminStable promo_inv.
Proof.
  split; [split|..]; try done.
  - intros p d d' x Hi _ H. unfold insert_payment in H. repeat case_match; try done. injection H as <-. exact Hi.
  - intros p d d' x [H1 H2] Hp H. unfold insert_promo in H. repeat case_match; try done. injection H as <-.
    case_bool_decide as Hn; [done|]. rewrite <- eq_None_not_Some in Hn. split; simpl.
    + intros id q [[<- <-]|[Hd Hq]]%lookup_insert_Some; [|by apply H1]. split; [done|]. rewrite Hp. split; [|lia].
      enough (filter (fun r : uuid * uuid => r.1 = pc_ID p) (redemptions d) = ∅) as E by (unfold uses; simpl; by rewrite E, size_empty).
      apply set_eq. intros r. split; [|by intros ?%not_elem_of_empty]. intros [Hr Hin]%elem_of_filter. apply H2 in Hin as [q Hq].
      rewrite Hr in Hq. congruence.
    + intros r Hr. apply H2 in Hr as [q Hq]. destruct (decide (r.1 = pc_ID p)) as [->|]; [by rewrite lookup_insert_eq|].
      rewrite lookup_insert_ne by done. eauto.
  - intros u f d x [H1 H2] Hf. split; simpl.
    + intros id q Hq. unfold alter_live in Hq. apply lookup_alter_Some in Hq as [(<- & q0 & Hq & ->)|[_ Hq]]; [|by apply H1].
      case_match; [|by apply H1]. apply H1 in Hq as (E1 & E2 & E3). destruct (Hf q0) as (t & a & ->). by split_and!.
    + intros r Hr. apply H2 in Hr. unfold alter_live. by apply lookup_alter_is_Some.
Qed.

Lemma uses_redeemed R (p u : uuid) : (p, u) ∉ R -> uses ({[(p, u)]} ∪ R) p = S (uses R p).
Proof.
  intros Hin. unfold uses. simpl.
  replace (filter (fun r : uuid * uuid => r.1 = p) ({[(p, u)]} ∪ R))
    with ({[(p, u)]} ∪ filter (fun r : uuid * uuid => r.1 = p) R) by set_solver.
  rewrite size_union, size_singleton; [done|set_solver].
Qed.

Lemma uses_other R (p u id : uuid) : p <> id -> uses ({[(p, u)]} ∪ R) id = uses R id.
Proof. intros Hp. unfold uses. simpl. f_equal. set_solver. Qed.

Lemma within_redeem p u : within promo_inv anything (RedeemPromoCode (X := ApiWorld * Remote B) p u).
Proof.
  intros s [v|e] s' [H1 H2] H; [|split; [|done]; apply transaction_atomic in H; unfold promo_inv; by rewrite H].
  split; [|done]. apply transaction_ok in H as (s1 & H & ->). simpl.
  apply bind_ok in H as (q & s2 & (Hq & -> & _)%first_ok & H). apply bind_ok in H as (n & s3 & [= <- <-] & H).
  destruct (negb _) eqn:En; [done|]. apply bind_ok in H as (c & s4 & (-> & -> & _)%find_ok & H).
  destruct (0 <? _) eqn:Ec; [done|]. apply bind_ok in H as ([] & s5 & (d & [= <-] & -> & _)%exec_ok & H).
  apply exec_ok in H as (d' & Hd' & -> & _). simpl in *. unfold insert_redemption in Hd'. simpl in Hd'.
  case_bool_decide as Hin; [done|]. injection Hd' as <-. unfold live_row in Hq.
  destruct (promo_codes (db s) !! p) as [q0|] eqn:E; [|done]. destruct (live _ q0) eqn:El; [|done]. injection Hq as ->.
  apply negb_false_iff in En. apply andb_prop in En as [_ Hx]. apply negb_true_iff in Hx.
  split; simpl; unfold alter_live.
  - intros id q' [(<- & q1 & Hq & ->)|[Hd Hq]]%lookup_alter_Some.
    + assert (q1 = q) as -> by congruence. rewrite El. destruct (H1 _ _ Hq) as (E1 & E2 & E3). simpl. rewrite uses_redeemed by done.
      split_and!; [done|lia|]. intros Hm. unfold PromoExhausted in Hx. apply andb_false_iff in Hx. zbool. lia.
    + rewrite uses_other by done. by apply H1.
  - intros r [->%elem_of_singleton|Hr]%elem_of_union; apply lookup_alter_is_Some; [simpl; by rewrite E|by apply H2].
Qed.

(** C30: C3. Promo codes are used within their limit. Through any requests of any
    users and administrators, agents' reports, sweeps and redemptions, whatever
    statements fail: the counter of every code is the number of users who
    redeemed it, and is at most its limit when it has one; no code is redeemed
    twice by one user. *)
Theorem promo_uses_bounded l s r s' :
  promo_inv (db s) (ext s) -> api_serve cfg l s = (r, s') ->
  forall id p, promo_codes (db s') !! id = Some p ->
    pc_UsedCount p = Z.of_nat (uses (redemptions (db s')) id) /\
    (0 < pc_MaxUses p -> Z.of_nat (uses (redemptions (db s')) id) <= pc_MaxUses p).
Proof.
  intros Hi H id p Hp. pose proof promo_stable.
  destruct (frame_serve cfg (I := promo_inv) l within_redeem _ _ _ Hi H) as [[H1 _] _].
  destruct (H1 _ _ Hp) as (_ & E & Hm). rewrite <- E. by split.
Qed.

(** ** Payments *)

(** The table of payments: no row, or one. *)
Definition payment_inv d x : Prop :=
  plan_payments d = ∅ \/ exists id p, plan_payments d = {[id := p]} /\ pp_TxHash p = ""%string.

Lemma payment_stable : AdminStable payment_inv.
Proof.
  split; [split|..]; try done.
  - intros p d d' x [Hd|(id & q & Hd & Hq)] Hp H; unfold insert_payment in H; rewrite Hd in H.
    + assert (d' = set_plan_payments <[pp_ID p := p]> d) as -> by (case_bool_decide; [done|by injection H]).
      right. exists (pp_ID p), p. cbn [plan_payments set_plan_payments]. by rewrite Hd, insert_empty.
    + case_bool_decide; [done|]. unfold rows in H. rewrite map_to_list_singleton in H. simpl in H. rewrite Hq, Hp in H. simpl in H. done.
  - intros p d d' x Hi _ H. unfold insert_promo in H. repeat case_match; try done. injection H as <-. exact Hi.
Qed.

Lemma redeem_payments p u : within payment_inv anything (RedeemPromoCode (X := ApiWorld * Remote B) p u).
Proof.
  apply within_transaction.
  - keeps_tac.
  - within_tac; intros d x d' Hi Hd; [by injection Hd as <-|]. unfold insert_redemption in Hd. case_bool_decide; [done|].
    by injection Hd as <-.
Qed.

(** C4. Only one sale of a plan is ever recorded. The handler that sells plans
    leaves the transaction hash and the invoice of the payment empty, and both
    columns are unique; so from an empty table at most one row is ever written,
    whoever buys whatever and however often: every later sale is charged and
    subscribed, and its record is refused with a warning. *)
Theorem one_payment_recorded l s r s' :
  plan_payments (db s) = ∅ -> api_serve cfg l s = (r, s') -> (size (plan_payments (db s')) <= 1)%nat.
Proof.
  intros Hi H. pose proof payment_stable.
  destruct (frame_serve cfg (I := payment_inv) l redeem_payments _ _ _ (or_introl Hi) H) as [[->|(id & p & -> & _)] _].
  - by rewrite map_size_empty; lia.
  - by rewrite map_size_singleton.
Qed.

(** ** Choosing a server *)

Lemma exists_min {A} (f : A -> Z) (l : list A) : l <> [] -> exists m, m ∈ l /\ forall y, y ∈ l -> f m <= f y.
Proof.
  induction l as [|a l IH]; [done|]. intros _. destruct (decide (l = [])) as [->|Hl].
  - exists a. split; [by left|]. by intros y ->%list_elem_of_singleton.
  - destruct (IH Hl) as (m & Hm & Hmin). destruct (decide (f a <= f m)).
    + exists a. split; [by left|]. intros y [->|Hy]%elem_of_cons; [done|]. specialize (Hmin y Hy). lia.
    + exists m. split; [by right|]. intros y [->|Hy]%elem_of_cons; [lia|by apply Hmin].
Qed.

Definition fits (tag : string) d (v : Server) : Prop :=
  v ∈ rows (servers d) /\ eligible tag d v = true /\
  forall v', v' ∈ rows (servers d) -> eligible tag d v' = true -> load d v <= load d v'.

Lemma elem_filter {A} (P : A -> bool) (l : list A) a : a ∈ List.filter P l <-> a ∈ l /\ P a = true.
Proof. by rewrite !list_elem_of_In, List.filter_In. Qed.

Lemma least_loaded_spec tag d :
  match least_loaded tag d with
  | Some v => fits tag d v
  | None => forall v, v ∈ rows (servers d) -> eligible tag d v = false
  end.
Proof.
  unfold least_loaded. set (l := List.filter (eligible tag d) (rows (servers d))).
  set (l' := List.filter _ l). pose proof (any_row_in Server l') as H. destruct (any_row l') as [v|].
  - apply elem_filter in H as [Hv Hmin]. apply elem_filter in Hv as [Hv He]. split_and!; [done..|].
    intros v' Hv' He'. rewrite forallb_forall in Hmin. assert (v' ∈ l) as Hin%list_elem_of_In by (by apply elem_filter).
    apply Hmin in Hin. by zbool.
  - intros v Hv. destruct (eligible tag d v) eqn:E; [|done]. exfalso.
    assert (v ∈ l) as Hin by (by apply elem_filter). destruct (exists_min (load d) l) as (m & Hm & Hmin).
    { intros El. rewrite El in Hin. by apply elem_of_nil in Hin. }
    assert (m ∈ l') as Hm'; [|rewrite H in Hm'; by apply elem_of_nil in Hm'].
    apply elem_filter. split; [done|]. apply forallb_forall. intros y Hy%list_elem_of_In. apply Hmin in Hy. by apply Z.leb_le.
Qed.

Lemma select_run tag s r s' : SelectLeastLoadedServer (X := ApiWorld * Remote B) tag s = (r, s') ->
  db s' = db s /\ ext s' = ext s /\
  match r with
  | Ok (Some v, None) => fits tag (db s) v
  | Ok (None, None) => forall v, v ∈ rows (servers (db s)) -> eligible tag (db s) v = false
  | Ok (_, Some _) => True
  | Err _ => False
  end.
Proof.
  unfold SelectLeastLoadedServer, row_and_error. intros H. pose proof (least_loaded_spec tag (db s)) as L.
  destruct (first _ s) as [[v|e] s1] eqn:E; injection H as <- <-.
  - apply first_ok in E as (Ev & -> & _). by rewrite Ev in L.
  - pose proof (stmt_err_db _ _ _ _ E) as [-> ->]. split_and!; [done..|]. destruct e; try done.
    unfold first, stmt in E. destruct (tx s); [|..]; try (destruct (env_fault (tick s)); [done|]); try done;
      destruct (least_loaded tag (db s)); done.
Qed.

(** C5. Choosing a server. The answer is a server of the table that is online,
    not deleted, below its capacity when it has one, tagged as asked, and with
    no eligible server less loaded; "none" is answered only when no server is
    eligible; the tables are only read. *)
Theorem least_loaded_fits tag s r s' :
  SelectLeastLoadedServer (X := ApiWorld * Remote B) tag s = (r, s') ->
  db s' = db s /\
  match r with
  | Ok (Some v, None) =>
      v ∈ rows (servers (db s)) /\ sv_IsOnline v = true /\ sv_DeletedAt v = None /\ tagged tag (sv_Tags v) = true /\
      (sv_MaxContainers v = 0 \/ load (db s) v < sv_MaxContainers v) /\
      forall v', v' ∈ rows (servers (db s)) -> eligible tag (db s) v' = true -> load (db s) v <= load (db s) v'
  | Ok (None, None) => forall v, v ∈ rows (servers (db s)) -> eligible tag (db s) v = false
  | Ok (_, Some _) => True
  | Err _ => False
  end.
Proof.
  intros H. apply select_run in H as (E & _ & H). split; [done|]. destruct r as [[[v|] [|]]|]; try done.
  destruct H as (Hv & He & Hmin). unfold eligible in He. apply andb_prop in He as [[[Ho Hd]%andb_prop Hc]%andb_prop Ht].
  split_and!; try done.
  - unfold live in Hd. by destruct (sv_DeletedAt v).
  - apply orb_true_iff in Hc. zbool. lia.
Qed.

(** ** Tokens *)

(** C6. The role is that of the token, not that of the user's row. Until a refresh
    token expires (30 days), whatever has become of its user since (demoted,
    blocked, absent from the table), it is exchanged for an access token of the
    role it was issued with, and every endpoint behind JWTAuth runs under that
    role until the access token expires, 15 minutes later. *)
Theorem demotion_survives `{LAWS : !JwtLaws} u role exp iat token access s :
  SignedString (ac_refreshSecret cfg) u role exp iat = Ok token -> token <> ""%string ->
  env_now (tick s) / 1000000000 < exp ->
  SignedString (ac_accessSecret cfg) u role ((env_now (S (tick s)) + accessTTL) / 1000000000)
    (env_now (S (S (tick s))) / 1000000000) = Ok access ->
  fst (RefreshToken cfg (Some token) s) = Ok (ok [AStr access]) /\
  db (snd (RefreshToken cfg (Some token) s)) = db s /\
  forall k (s1 : st PlatTables (ApiWorld * Remote B)),
    env_now (tick s1) / 1000000000 < (env_now (S (tick s)) + accessTTL) / 1000000000 ->
    JWTAuth cfg ("Bearer " +:+ access) k s1 = k u role (bump s1).
Proof.
  intros Hr Ht He Ha. apply String.eqb_neq in Ht.
  assert (E : RefreshToken cfg (Some token) s = (Ok (ok [AStr access]), bump (bump (bump s)))).
  { unfold RefreshToken. rewrite Ht. unfold bind, try, parseClaims, bind, now, GenerateAccessToken, signToken, bind, now, bump. simpl.
    rewrite (jwt_round _ _ _ _ _ _ _ Hr He). simpl. by rewrite Ha. }
  rewrite E. split_and!; [done..|]. intros k s1 H1. unfold JWTAuth. rewrite HasPrefix_app, TrimPrefix_app. cbn [negb].
  unfold bind, try, parseClaims, bind, now, bump. by rewrite (jwt_round _ _ _ _ _ _ _ Ha H1).
Qed.

(** ** Creating an instance *)

(** The programs that only read, and what they return. *)
Definition here d0 x0 d x : Prop := d = d0 /\ x = x0.

Lemma here_run {A} (Q : A -> Prop) (m : M PlatTables (ApiWorld * Remote B) A) s r s' :
  within (here (db s) (ext s)) Q m -> m s = (r, s') -> db s' = db s /\ ext s' = ext s /\ on_ok Q r.
Proof. intros Hm H. destruct (Hm s r s' (conj eq_refl eq_refl) H) as [[-> ->] HQ]. by split_and!. Qed.

Definition found {A} (P : A -> Prop) (r : option A * option error) : Prop :=
  match r with (Some a, None) => P a | _ => True end.

Lemma found_row {A} I (P : A -> Prop) zero (m : M PlatTables (ApiWorld * Remote B) A) :
  within I P m -> within I (found P) (row_and_error zero m).
Proof.
  intros Hm s r s' Hi H. unfold row_and_error in H. destruct (m s) as [r1 s1] eqn:E. destruct (Hm _ _ _ Hi E).
  injection H as <- <-. split; [done|]. destruct r1 as [a|[]]; done.
Qed.

Definition row_of {A} (id : string) (q : uuid -> PlatTables -> option A) d (a : A) : Prop :=
  exists u, pg_uuid id = Some u /\ q u d = Some a.

Lemma here_first_id {A} d x id (q : uuid -> PlatTables -> option A) : within (here d x) (row_of id q d) (first_id id q).
Proof.
  apply within_stmt. intros ? ? a d' [-> ->] H. destruct (pg_uuid id) as [u|] eqn:E; [|done].
  destruct (q u d) eqn:Eq; [|done]. injection H as <- <-. split; [done|]. by exists u.
Qed.

Lemma here_find {A} d x (q : PlatTables -> A) : within (here d x) (fun a => a = q d) (find q).
Proof. apply within_stmt. by intros ? ? a d' [-> ->] [= <- <-]. Qed.

(** A subscription that had not ended at some moment of the run. *)
Definition running (sub : Subscription) : Prop :=
  match sb_ExpiresAt sub with None => True | Some t => exists n, env_now n <= t end.

Lemma here_now d x : within (here d x) (fun t => exists n, t = env_now n) now.
Proof. intros s r s' Hi [= <- <-]. split; [done|]. by exists (tick s). Qed.

Definition entitled d (u : uuid) (ty : string) (limit : Z) : Prop :=
  exists sub plan, any_row (active_subscriptions u d) = Some sub /\ running sub /\
    row_of (uuid_String (sb_PlanID sub)) (fun id d => live_row pn_DeletedAt (plans d) id) d plan /\
    limit = LimitFor plan (limits_of (pn_ID plan) d) ty /\ count_instances u (template_ids ty d) d < limit.

Lemma count_none u d : count_instances u [] d = 0.
Proof.
  unfold count_instances. replace (List.filter _ _) with (@nil BotInstance); [done|]. symmetry.
  induction (rows (instances d)) as [|i l IH]; [done|]. cbn [List.filter]. rewrite bool_decide_eq_false_2, andb_false_r by apply not_elem_of_nil.
  exact IH.
Qed.

Lemma here_CountInstances d x u ty :
  within (here d x) (fun n => n = count_instances u (template_ids ty d) d) (CountInstancesByOwnerAndType u ty).
Proof.
  unfold CountInstancesByOwnerAndType. eapply within_bind; [apply here_find|]. intros ids ->.
  destruct (template_ids ty d) eqn:E; [|apply here_find]. apply within_ret. by rewrite count_none.
Qed.

Lemma here_FindPlanWithLimits d x id :
  within (here d x) (found (fun r => row_of id (fun u d => live_row pn_DeletedAt (plans d) u) d r.1 /\ r.2 = limits_of (pn_ID r.1) d))
    (FindPlanWithLimits id).
Proof.
  unfold FindPlanWithLimits. destruct (isBlankID id); [by apply within_ret|]. apply found_row.
  eapply within_bind; [apply here_first_id|]. intros p Hp. eapply within_bind; [apply here_find|]. intros l ->. by apply within_ret.
Qed.

Lemma here_CanCreate d x u ty :
  within (here d x) (fun r => r.1.1 = true -> entitled d u ty r.2) (CanCreateInstance u ty).
Proof.
  unfold CanCreateInstance, GetActiveSubscription. eapply within_bind; [apply here_find|]. intros sub ->.
  destruct (any_row _) as [sub|] eqn:Es; [|by apply within_ret].
  eapply (within_bind _ (fun b => b = false -> running sub)).
  { unfold running. destruct (sb_ExpiresAt sub) as [t|]; [|by apply within_ret].
    eapply within_bind; [apply here_now|]. intros n [k ->]. apply within_ret. intros H. exists k. zbool. lia. }
  intros [] Hrun; [by apply within_ret|]. specialize (Hrun eq_refl).
  eapply within_bind; [apply here_FindPlanWithLimits|].
  intros [[[plan l]|] [e|]] Hp; try (by apply within_ret); try apply within_throw.
  cbn [found fst snd] in Hp. destruct Hp as [Hp ->]. cbv zeta. destruct (_ <=? 0); [by apply within_ret|].
  eapply within_bind; [apply here_CountInstances|]. intros n ->. apply within_ret. simpl. intros H. zbool.
  exists sub, plan. by split_and!.
Qed.

Lemma here_choose d x t : within (here d x) (found (fun v => exists tag, tag ∈ [""; "free"]%string /\ fits tag d v)) (choose_server t).
Proof.
  assert (Hs : forall tag, tag ∈ [""; "free"]%string ->
    within (here d x) (found (fun v => exists tag, tag ∈ [""; "free"]%string /\ fits tag d v)) (SelectLeastLoadedServer tag)).
  { intros tag Ht s r s' [Ed Ex] H. apply select_run in H as (-> & -> & H). split; [done|]. rewrite Ed in H.
    destruct r as [[[v|] [|]]|]; try done. by exists tag. }
  unfold choose_server. destruct (bt_IsFree t); [|apply Hs; set_solver].
  eapply within_bind; [apply Hs; set_solver|]. intros [[v|] [e|]] Hv; try (by apply within_ret). apply Hs; set_solver.
Qed.

Lemma filter_perm {A} (P : A -> bool) (l l' : list A) : l ≡ₚ l' -> List.filter P l ≡ₚ List.filter P l'.
Proof. induction 1; simpl; repeat case_match; eauto using Permutation. Qed.

Lemma count_insert u l i d : instances d !! bi_ID i = None ->
  count_instances u l (set_instances <[bi_ID i := i]> d) <= count_instances u l d + 1.
Proof.
  intros Hn. unfold count_instances. cbn [set_instances instances].
  assert (Hp : rows (<[bi_ID i := i]> (instances d)) ≡ₚ i :: rows (instances d)) by (unfold rows; by rewrite map_to_list_insert).
  set (P := fun j : BotInstance => _). assert (Hf : List.filter P (rows (<[bi_ID i := i]> (instances d))) ≡ₚ
    List.filter P (i :: rows (instances d))) by (by apply filter_perm).
  rewrite (Permutation_length Hf). simpl. destruct (P i); simpl; lia.
Qed.

Lemma insert_instance_ok i d d' : insert_instance i d = Ok d' ->
  d' = set_instances <[bi_ID i := i]> d /\ instances d !! bi_ID i = None /\ existsb (clashes i) (rows (instances d)) = false.
Proof.
  unfold insert_instance. case_bool_decide as Hn; [done|]. rewrite <- eq_None_not_Some in Hn. destruct (existsb _ _) eqn:E; [done|].
  by intros [= <-].
Qed.

Lemma here_Encrypt d x p k : within (here d x) anything (Encrypt (D := PlatTables) (X := ApiWorld * Remote B) p k).
Proof. by apply frame_Encrypt. Qed.

(** The end of the handler: the row and the command. *)
Definition create_and_deploy (inst : BotInstance) (tmpl : BotTemplate) (v : Server) (token : string) : M PlatTables (ApiWorld * Remote B) ApiReply :=
  (r <- try (CreateInstance inst) ;;
   match r with
   | Err _ => ret (fail 500 "create instance failed")
   | Ok _ =>
       (d <- try (publishDeploy inst tmpl v token) ;;
        match d with
        | Err _ => (try (UpdateInstanceStatus (bi_ID inst) StatusError) ;; ret (fail 500 "deploy failed"))
        | Ok _ => ret (ok [AStr (uuid_String (bi_ID inst)); AStr (bi_ContainerName inst); AStr (sv_Name v)])
        end)
   end)%eff.

Lemma create_and_deploy_run inst tmpl v token s rep s' :
  create_and_deploy inst tmpl v token s = (Ok rep, s') -> ap_Status rep = 200 ->
  insert_instance inst (db s) = Ok (db s') /\ exists cmd,
    aw_commands (fst (ext s')) = aw_commands (fst (ext s)) ++ [cmd] /\
    dc_Type cmd = MsgDeploy /\ dc_ServerID cmd = uuid_String (sv_ID v) /\ dc_ContainerName cmd = bi_ContainerName inst.
Proof.
  intros H H200. apply bind_ok in H as (r & s1 & (r' & [= ->] & H1)%try_run & H).
  destruct r' as [[]|]; [|by injection H as <- <-]. apply exec_ok in H1 as (d & Hd & -> & _).
  apply bind_ok in H as (q & s2 & (q' & [= ->] & H1)%try_run & H). unfold publishDeploy, Publish in H1.
  destruct (env_fault _); injection H1 as <- <-.
  - apply bind_ok in H as (? & ? & _ & [= <- <-]). done.
  - injection H as <- <-. split; [done|]. eexists. by split_and!.
Qed.

(** C28: C7. An instance is created only within the plan. Answered 200, the request
    named a template of the table; the user holds an active subscription that
    had not ended, to a plan of the table whose limit for the template's type is
    above the number of his instances of that type; the chosen server fits. The
    one change of the tables is the new instance, pending and clashing with no
    other; the servers are sent its deployment; and afterwards his instances of
    the type are still within the limit. *)
Theorem create_instance_within_limit u req s rep s' :
  Handler_CreateInstance cfg u (Some req) s = (Ok rep, s') -> ap_Status rep = 200 ->
  exists tmpl v limit inst cmd,
    row_of (ir_TemplateID req) (fun id d => live_row bt_DeletedAt (templates d) id) (db s) tmpl /\
    entitled (db s) (parse_or_nil u) (bt_Type tmpl) limit /\
    (exists tag, tag ∈ [""; "free"]%string /\ fits tag (db s) v) /\
    bi_OwnerID inst = parse_or_nil u /\ bi_TemplateID inst = bt_ID tmpl /\ bi_ServerID inst = sv_ID v /\
    bi_Status inst = StatusPending /\ Platform_BotIDFromToken (ir_BotToken req) = Some (bi_BotID inst) /\
    existsb (clashes inst) (rows (instances (db s))) = false /\
    db s' = set_instances <[bi_ID inst := inst]> (db s) /\
    aw_commands (fst (ext s')) = aw_commands (fst (ext s)) ++ [cmd] /\
    dc_Type cmd = MsgDeploy /\ dc_ServerID cmd = uuid_String (sv_ID v) /\ dc_ContainerName cmd = bi_ContainerName inst /\
    count_instances (parse_or_nil u) (template_ids (bt_Type tmpl) (db s')) (db s') <= limit.
Proof.
  unfold Handler_CreateInstance. destruct (_ || _); [by intros [= <- <-]|]. cbv zeta. intros H H200.
  apply bind_ok in H as (t & s1 & H1 & H). apply (here_run _ _ _ _ _ (found_row _ _ _ _ (here_first_id _ _ _ _))) in H1 as (D1 & X1 & Ht).
  destruct t as [[tmpl|] [|]]; try (by injection H as <- <-). cbn [on_ok found] in Ht.
  apply bind_ok in H as (c & s2 & (c' & [= ->] & H1)%try_run & H). rewrite <- D1 in *. rewrite <- X1 in *.
  apply (here_run _ _ _ _ _ (here_CanCreate _ _ _ _)) in H1 as (D2 & X2 & Hc).
  destruct c' as [[[can cur] limit]|]; [|by injection H as <- <-]. destruct can; [|by injection H as <- <-]. specialize (Hc eq_refl). simpl in Hc.
  apply bind_ok in H as (v & s3 & H1 & H). rewrite <- D2 in *. rewrite <- X2 in *.
  apply (here_run _ _ _ _ _ (here_choose _ _ _)) in H1 as (D3 & X3 & Hv).
  destruct v as [[v|] [|]]; try (by injection H as <- <-). cbn [on_ok found] in Hv.
  destruct (Platform_BotIDFromToken _) as [botID|]; [|by injection H as <- <-].
  apply bind_ok in H as (ex & s4 & H1 & H). rewrite <- D3 in *. rewrite <- X3 in *.
  apply (here_run anything) in H1 as (D4 & X4 & _); [|by eapply within_anything, found_row, within_first].
  destruct (fst ex); [by injection H as <- <-|]. apply bind_ok in H as (e & s5 & (e' & [= ->] & H1)%try_run & H).
  rewrite <- D4 in *. rewrite <- X4 in *. apply (here_run anything) in H1 as (D5 & X5 & _); [|by apply here_Encrypt].
  destruct e' as [enc|]; [|by injection H as <- <-]. rewrite <- D5 in *. rewrite <- X5 in *.
  apply bind_ok in H as (w & s6 & H1 & H). apply (here_run anything) in H1 as (D6 & X6 & _); [|by eapply within_anything, found_row, within_first].
  rewrite <- D6 in *. rewrite <- X6 in *. apply bind_ok in H as (id & s7 & [= <- <-] & H).
  set (inst := new_instance (env_uuid (tick s6)) (parse_or_nil u) tmpl v enc botID) in *.
  apply (create_and_deploy_run inst tmpl v (ir_BotToken req)) in H as (Hi & cmd & Hx & Hm & Hs & Hn); [|done].
  apply insert_instance_ok in Hi as (Hd & Hfree & Hclash). cbn [db ext bump] in *.
  exists tmpl, v, limit, inst, cmd. split_and!; try done. rewrite Hd. destruct Hc as (sub & plan & _ & _ & _ & _ & Hc).
  change (template_ids (bt_Type tmpl) (set_instances _ _)) with (template_ids (bt_Type tmpl) (db s6)).
  pose proof (count_insert (parse_or_nil u) (template_ids (bt_Type tmpl) (db s6)) inst (db s6) Hfree). lia.
Qed.
End frames.

(** * Logging in *)

Section login.
Context {B : Type} {ENV : Env} {LIB : Lib} {CRYPTO : Crypto} {JWT : Jwt} (cfg : ApiConfig).

Lemma filter_perm_pairs (m : gmap string string) k v : m !! k = None -> v <> ""%string ->
  merge_sort sorted_by_key (List.filter (fun kv => negb (kv.2 =? "")%string) (map_to_list (<[k := v]> m))) ≡ₚ
  (k, v) :: List.filter (fun kv => negb (kv.2 =? "")%string) (map_to_list m).
Proof.
  intros Hk Hv. rewrite merge_sort_Permutation. etransitivity; [apply filter_perm, map_to_list_insert, Hk|]. simpl.
  apply String.eqb_neq in Hv. by rewrite Hv.
Qed.

Definition line (kv : string * string) : string := kv.1 +:+ "=" +:+ kv.2.
Definition line_length (kv : string * string) : nat := S (String.length (line kv)).

Lemma length_Join (l : list (string * string)) : l <> [] ->
  S (String.length (Join newline (map line l))) = sum_list_with line_length l.
Proof.
  induction l as [|w l IH]; [done|]. intros _. destruct l as [|w' l]; [unfold line_length; simpl; lia|].
  change (Join newline (map line (w :: w' :: l))) with (line w +:+ newline +:+ Join newline (map line (w' :: l))).
  specialize (IH ltac:(done)). rewrite !length_append. cbn [sum_list_with] in *. unfold line_length at 1. simpl (String.length newline). lia.
Qed.

(** The text that is signed, one character longer per character of the key [k]. *)
Lemma length_check (m : gmap string string) v : v <> ""%string ->
  exists n, forall k, m !! k = None -> String.length (dataCheckString (<[k := v]> m)) = (n + String.length k)%nat.
Proof.
  intros Hv. set (rest := List.filter (fun kv => negb (kv.2 =? "")%string) (map_to_list m)).
  exists (S (String.length v) + sum_list_with line_length rest)%nat. intros k Hk.
  pose proof (filter_perm_pairs m k v Hk Hv) as Hp. fold rest in Hp. unfold dataCheckString.
  change (fun kv : string * string => kv.1 +:+ "=" +:+ kv.2) with line. cbv zeta.
  set (l := merge_sort _ _) in *. assert (Hl : l <> []) by (intros E; rewrite E in Hp; by apply Permutation_nil_cons in Hp).
  apply length_Join in Hl. assert (Hs : sum_list_with line_length l = sum_list_with line_length ((k, v) :: rest)) by (by rewrite Hp).
  assert (Ev : line_length (k, v) = S (S (String.length k + String.length v))).
  { unfold line_length, line. simpl. rewrite !length_append. simpl. lia. }
  cbn [sum_list_with] in Hs. rewrite Ev in Hs. lia.
Qed.

Lemma format_digits_some fuel base n acc : acc <> ""%string -> format_digits fuel base n acc <> ""%string.
Proof.
  revert n acc. induction fuel as [|fuel IH]; intros n acc Ha; [done|]. cbn [format_digits]. cbv zeta.
  destruct (n / base =? 0); [done|by apply IH].
Qed.

Lemma FormatInt_some n : FormatInt 10 n <> ""%string.
Proof.
  assert (H : forall fuel base n acc, format_digits (S fuel) base n acc <> ""%string).
  { intros fuel base m acc. cbn [format_digits]. cbv zeta. destruct (_ =? 0); [done|by apply format_digits_some]. }
  unfold FormatInt, FormatUint. destruct (n <? 0); [done|apply (H 63%nat)].
Qed.

(** The fields of a login as the Login Widget names them: the user's is "id". *)
Definition other_fields (r : TelegramLogin) : gmap string string := delete "telegram_id"%string (login_fields r).
Definition widget_fields (r : TelegramLogin) : gmap string string := <["id"%string := FormatInt 10 (tl_TelegramID r)]> (other_fields r).
Definition widget_hash (r : TelegramLogin) (botToken : string) : string :=
  HexEncode (hmac_sha256 (sha256 botToken) (dataCheckString (widget_fields r))).

(** C31: C9. No login that Telegram's Login Widget signed is accepted. The widget signs
    the user's id under the name "id", the handler checks it under the name
    "telegram_id": a login whose hash is the widget's is refused and changes
    nothing, unless the HMAC of the bot's token takes two different texts to the
    same value. *)
Theorem widget_login_refused r s res s' :
  tl_Hash r = widget_hash r (ac_telegramBotTok cfg) ->
  TelegramAuth (B := B) cfg (Some r) s = (res, s') ->
  (db s' = db s /\ ext s' = ext s /\ exists code msg, res = Ok (fail code msg)) \/
  (exists m1 m2, m1 <> m2 /\ hmac_sha256 (sha256 (ac_telegramBotTok cfg)) m1 = hmac_sha256 (sha256 (ac_telegramBotTok cfg)) m2).
Proof.
  intros Hw H. unfold TelegramAuth in H. destruct (_ =? 0); [injection H as <- <-; left; eauto|].
  destruct (ac_telegramBotTok cfg =? "")%string; [injection H as <- <-; left; eauto|].
  apply bind_run in H as (e & s1 & H1 & H).
  assert (E1 : db s1 = db s /\ ext s1 = ext s /\ exists b, e = Ok b).
  { destruct (_ =? 0); [injection H1 as <- <-; eauto|]. apply bind_run in H1 as (n & s0 & [= <- <-] & [= <- <-]). eauto. }
  destruct E1 as (D1 & X1 & b & ->). destruct b; [injection H as <- <-; left; split_and!; eauto|].
  destruct (verifyTelegramAuth _ _ _) eqn:Ev; [|injection H as <- <-; left; split_and!; eauto]. right.
  unfold verifyTelegramAuth in Ev. destruct (tl_Hash r =? "")%string; [done|]. rewrite Hw in Ev.
  apply String.eqb_eq, HexEncode_inj in Ev. eexists _, _. split; [|exact Ev]. intros E.
  destruct (length_check (other_fields r) (FormatInt 10 (tl_TelegramID r))) as [n Hn]; [apply FormatInt_some|].
  assert (E' : login_fields r = <["telegram_id"%string := FormatInt 10 (tl_TelegramID r)]> (other_fields r)).
  { unfold other_fields. by rewrite insert_delete_id by (unfold login_fields; simpl; by rewrite lookup_insert_eq). }
  rewrite E' in E. unfold widget_fields in E. apply (f_equal String.length) in E. rewrite !Hn in E; [simpl in E; lia|..].
  - unfold other_fields, login_fields. rewrite lookup_delete_ne by done. simpl. by rewrite !lookup_insert_ne, lookup_empty by done.
  - apply lookup_delete_eq.
Qed.
End login.

(** * Buying a plan *)

Section buying.
Context {B : Type} {ENV : Env} {JSON : Json} {FP : F64Platform} {LIB : Lib} {PG : PgChoices} {UUID : UuidParser}.
Context {MARSHAL : JsonMarshal} {LAWS : JsonLaws} {PS : PayServer B} {PP : PayPromise B} (cfg : ApiConfig).
Implicit Types s : st PlatTables (ApiWorld * Remote B).

Definition subs s := subscriptions (db s).

(** What one purchase puts into the table. *)
Definition subscribed s s' (user plan : uuid) : Prop :=
  exists sub, sb_UserID sub = user /\ sb_PlanID sub = plan /\ sb_IsActive sub = true /\
    subs s !! sb_ID sub = None /\ subs s' = <[sb_ID sub := sub]> (subs s).

Lemma subscribe_run u p s rep s' : subscribe (B := B) u p s = (Ok rep, s') ->
  server s' = server s /\
  if ap_Status rep =? 200 then subscribed s s' (us_ID u) (pn_ID p) else subs s' = subs s.
Proof.
  unfold subscribe. intros H. apply bind_ok in H as (e & s1 & H1 & H).
  assert (E1 : db s1 = db s /\ ext s1 = ext s).
  { destruct (0 <? _); [apply bind_ok in H1 as (n & s0 & [= <- <-] & H1)|]; by injection H1 as <- <-. }
  apply bind_ok in H as (n & s2 & [= <- <-] & H). apply bind_ok in H as (id & s3 & [= <- <-] & H).
  apply bind_ok in H as (r & s4 & (r' & [= ->] & H1')%try_run & [= <- <-]). destruct E1 as [D1 X1].
  destruct r' as [[]|]; simpl.
  - apply exec_ok in H1' as (d & Hd & -> & _). case_bool_decide as Hn; [done|]. injection Hd as <-.
    rewrite <- eq_None_not_Some in Hn. simpl in *. unfold server, subs. simpl. rewrite X1. split; [done|].
    rewrite D1 in Hn |- *. exists {| sb_ID := env_uuid (S (tick s1)); sb_UserID := us_ID u; sb_PlanID := pn_ID p;
      sb_StartedAt := env_now (tick s1); sb_ExpiresAt := e; sb_IsActive := true |}. by split_and!.
  - apply stmt_err_db in H1' as [D X]. simpl in *. unfold server, subs. by rewrite D, X, D1, X1.
Qed.

Lemma record_payment_run u p s r s' : record_payment (B := B) u p s = (r, s') -> server s' = server s /\ subs s' = subs s.
Proof.
  unfold record_payment. intros H. apply bind_run in H as (n & s1 & [= <- <-] & H). apply bind_run in H as (i & s2 & [= <- <-] & H).
  apply bind_run in H as (q & s3 & (q' & -> & H1)%try_run & [= <- <-]). destruct q' as [[]|].
  - apply exec_ok in H1 as (d & Hd & -> & _). unfold insert_payment in Hd. repeat case_match; try done. by injection Hd as <-.
  - apply stmt_err_db in H1 as [D X]. unfold server, subs. by rewrite D, X.
Qed.

Lemma reads_DeductForService c tg amt plan : reads (DeductForService (D := PlatTables) (X := ApiWorld) c tg amt plan).
Proof. unfold DeductForService. apply reads_bind; [apply reads_DeductWithMeta|]. intros. apply reads_ret. Qed.

Lemma FindPlan_run id s r s' : FindPlan (X := ApiWorld * Remote B) id s = (Ok r, s') ->
  db s' = db s /\ ext s' = ext s /\ found (row_of id (fun u d => live_row pn_DeletedAt (plans d) u) (db s)) r.
Proof.
  apply (here_run (found (row_of id (fun u d => live_row pn_DeletedAt (plans d) u) (db s))) _ _ (Ok r)).
  unfold FindPlan. destruct (isBlankID id); [by apply within_ret|]. apply found_row, here_first_id.
Qed.

Lemma currentUser_run u s r s' : currentUser (B := B) u s = (Ok r, s') ->
  db s' = db s /\ ext s' = ext s /\
  match r with Some v => exists uid, uuid_Parse u = Some uid /\ users (db s) !! uid = Some v | None => True end.
Proof.
  unfold currentUser. destruct (uuid_Parse u) as [uid|]; [|by intros [= <- <-]]. intros H. apply bind_ok in H as (q & s1 & H & [= <- <-]).
  apply (here_run (found (fun v => users (db s) !! uid = Some v)) _ _ (Ok q)) in H as (-> & -> & Hq).
  - split_and!; [done..|]. destruct q as [[v|] [|]]; try done. by exists uid.
  - apply found_row. apply within_stmt. intros d x a d' [-> ->] H'. destruct (users (db s) !! uid); [|done]. by injection H' as <- <-.
Qed.

(** The price of one purchase of the plan by the user, at botpay. *)
Definition paid_for (b b' : B) (user : User) (plan : Plan) : Prop :=
  exists pc acc, ac_payClient cfg = Some pc /\ account b' (us_TelegramID user) = Some acc /\
    let key := uuid_String (pn_ID plan) in
    if existsb (under acc (cc_ServiceID pc) key) (paid b) then unchanged paid funds b b'
    else charged paid funds b b' acc (cc_ServiceID pc) key (TONToNano (pn_Price plan)).

Lemma with_pay_run k s r s' : with_pay (B := B) cfg k s = (r, s') ->
  (exists pc, ac_payClient cfg = Some pc /\ k pc s = (r, s')) \/ r = Ok (fail 503 "pay client not configured") /\ s' = s.
Proof. unfold with_pay. destruct (ac_payClient cfg); [eauto|]. intros [= <- <-]. by right. Qed.

Lemma paid_once_for pc (user : User) (plan : Plan) c s s' :
  ac_payClient cfg = Some pc -> srv_ok (server s) -> uuid_String (pn_ID plan) <> ""%string ->
  DeductForService pc (us_TelegramID user) (pn_Price plan) (uuid_String (pn_ID plan)) s = (Ok c, s') ->
  paid_for (server s) (server s') user plan.
Proof.
  intros Hpc O Hne H. apply DeductForService_run in H as (_ & _ & _ & acc & Ha & H); [|done..].
  exists pc, acc. split_and!; [done..|]. cbv zeta. destruct (existsb _ _) eqn:E.
  - destruct H as [[H _]|[[?|Hn] _]]; [done..|]. exfalso. apply existsb_exists in E as (p & Hin%list_elem_of_In & Hp).
    rewrite Forall_forall in Hn. by rewrite (Hn p Hin) in Hp.
  - destruct H as [[_ Hex]|H]; [|done]. exfalso. apply Exists_exists in Hex as (p & Hin%list_elem_of_In & Hp).
    assert (existsb (under acc (cc_ServiceID pc) (uuid_String (pn_ID plan))) (paid (server s)) = true); [|congruence].
    apply existsb_exists. by exists p.
Qed.

(** C29: C8. Selling a plan, together with botpay. Answered 200, the caller is a user
    of the table and the plan an active one, exactly one subscription is added,
    and botpay took the price when the plan has one: charged now, unless it
    already holds a payment of this user for this plan, when nothing is charged;
    so a purchase repeated after a lost answer is not charged again, and neither
    is the next purchase of the same plan, ever. A free plan costs nothing. Any
    other answer adds no subscription. *)
Theorem BuyPlan_outcomes u id s rep s' :
  BuyPlan cfg u id s = (Ok rep, s') -> srv_ok (server s) -> (forall i, uuid_String i <> ""%string) ->
  if ap_Status rep =? 200 then
    exists uid user plan, uuid_Parse u = Some uid /\ users (db s) !! uid = Some user /\
      row_of id (fun i d => live_row pn_DeletedAt (plans d) i) (db s) plan /\ pn_IsActive plan = true /\
      subscribed s s' (us_ID user) (pn_ID plan) /\
      if is_priced plan then paid_for (server s) (server s') user plan else server s' = server s
  else subs s' = subs s.
Proof.
  unfold BuyPlan, with_user. intros H O Hu. apply bind_ok in H as (v & s1 & H1 & H).
  apply currentUser_run in H1 as (D1 & X1 & Hv). destruct v as [v|]; [|injection H as <- <-; unfold subs; by rewrite D1].
  destruct Hv as (uid & Hp & Hv). apply bind_ok in H as (p & s2 & H2 & H). apply FindPlan_run in H2 as (D2 & X2 & Hf).
  rewrite D1 in Hf, D2. rewrite X1 in X2. assert (Hs : subs s2 = subs s) by (unfold subs; by rewrite D2).
  assert (Hr : server s2 = server s) by (unfold server; by rewrite X2).
  destruct p as [[plan|] [|]]; try (by injection H as <- <-). cbn [found] in Hf.
  destruct (pn_IsActive plan) eqn:Ea; [|by injection H as <- <-]. cbn [negb] in H.
  destruct (is_priced plan) eqn:Ep.
  - destruct (with_pay_run _ _ _ _ H) as [(pc & Epc & H')|[[= ->] ->]]; [clear H|done].
    apply bind_ok in H' as (c & s3 & (c' & [= ->] & Hc)%try_run & H). pose proof (reads_DeductForService _ _ _ _ _ _ _ Hc) as D3.
    assert (Hs3 : subs s3 = subs s) by (unfold subs; by rewrite D3).
    destruct c' as [c|e]; [|by injection H as <- <-; destruct (IsInsufficientBalance e)].
    apply bind_ok in H as (w & s4 & H4 & H). apply record_payment_run in H4 as [R4 S4].
    apply subscribe_run in H as [R H]. rewrite R4 in R. destruct (_ =? 200); [|congruence].
    exists uid, v, plan. split_and!; try done.
    + unfold subscribed in *. by rewrite S4, Hs3 in H.
    + rewrite Ep, R, <- Hr. rewrite <- Hr in O. eapply paid_once_for; [exact Epc|exact O|apply Hu|exact Hc].
  - apply subscribe_run in H as [R H]. destruct (_ =? 200); [|congruence].
    exists uid, v, plan. split_and!; try done; [|by rewrite Ep, R].
    unfold subscribed in *. by rewrite Hs in H.
Qed.
End buying.
