(* ===== verification/ApiDemo.v ===== *)
(** A concrete platform, with botpay behind the bus: instances of the parameters,
    and the theorems of ApiSpec.v at its requests. *)
From S2P Require Import Prelude GoInt GoFloat GoString GoText Effects PayModels PayChain PayStore PayInvariant PayStoreSpec Consensus.
From S2P Require Import ConsensusSpec Auth Localization WalletService WalletServiceSpec PayResponder PayResponderSpec PayClient.
From S2P Require Import PayServerSpec PayClientSpec Bus Triples Platform Api ApiFrame ApiSpec.

#[local] Existing Instance calm_env.
#[local] Existing Instance demo_lib.
#[local] Existing Instance demo_crypto.
#[local] Existing Instance demo_locales.
#[local] Existing Instance amd64.

(** * The instances *)

Definition some_ids : list uuid := map N.of_nat (seq 1 60 ++ seq 1000 60).
Definition parse_some (s : string) : option uuid := List.find (fun id => (uuid_String id =? s)%string) some_ids.
Definition plat_parser : UuidParser := {| uuid_Parse := parse_some |}.
#[local] Existing Instance plat_parser.
Lemma head_in (A : Type) (l : list A) : match head l with Some x => x ∈ l | None => l = [] end.
Proof. destruct l as [|a l]; simpl; [done|left]. Qed.
#[local] Instance plat_choices : PgChoices := {| pg_uuid := parse_some; any_row := fun A l => head l; any_row_in := head_in |}.
Definition plat_formats : ApiFormats := {|
  unmarshal_env := fun _ => ∅; marshal_env := fun _ => ""; unmarshal_schema := fun _ => []; marshal_schema := fun _ => "";
  parse_RFC3339 := fun _ => None;
|}.
#[local] Existing Instance plat_formats.

(** Tokens that spell their role in one letter. *)
Definition plat_jwt : Jwt := {| SignedString := fun secret uid role exp iat =>
  if (role =? "admin")%string then Ok (secret +:+ "/a" +:+ uid)
  else if (role =? "user")%string then Ok (secret +:+ "/u" +:+ uid) else Err (Sentinel "jwt" "role") |}.
#[local] Existing Instance plat_jwt.
Definition plat_jwt_parser : JwtParser := {| ParseWithClaims := fun token secret now =>
  if HasPrefix token (secret +:+ "/a") then Some (TrimPrefix token (secret +:+ "/a"), "admin"%string)
  else if HasPrefix token (secret +:+ "/u") then Some (TrimPrefix token (secret +:+ "/u"), "user"%string) else None |}.
#[local] Existing Instance plat_jwt_parser.

Lemma plat_jwt_laws : JwtLaws.
Proof.
  split. intros secret uid role exp iat token now H _. simpl in *.
  destruct (String.eqb_spec role "admin") as [->|_]; [|destruct (String.eqb_spec role "user") as [->|_]; [|done]]; injection H as <-.
  - by rewrite <- append_assoc, HasPrefix_app, TrimPrefix_app.
  - rewrite <- append_assoc. destruct (HasPrefix _ (secret +:+ "/a")) eqn:E.
    + apply HasPrefix_spec in E as [t E]. rewrite !append_assoc in E. apply append_inj_l in E. discriminate E.
    + by rewrite HasPrefix_app, TrimPrefix_app.
Qed.
#[local] Existing Instance plat_jwt_laws.

(** * The platform

    User 1234567 holds 4300 nanoTON at botpay; he and the administrator have
    their tokens. One server is online with room for two containers. *)

Definition member : User := {| us_ID := 1; us_TelegramID := 1234567; us_Username := "mina"; us_FirstName := "Mina"; us_Role := "user";
  us_IsBlocked := false |}.
Definition boss : User := {| us_ID := 2; us_TelegramID := 7654321; us_Username := "boss"; us_FirstName := "Boss"; us_Role := "admin";
  us_IsBlocked := false |}.
Definition helsinki : Server := {| sv_ID := 3; sv_DeletedAt := None; sv_Name := "hel"; sv_IP := "10.0.0.3"; sv_IsOnline := true;
  sv_LastSeen := 0; sv_Channel := "server_hel"; sv_OnlineSince := Some 0; sv_CPUPercent := None; sv_MemoryUsedMB := None;
  sv_MemoryTotalMB := None; sv_LastContainers := ""; sv_Tags := "free"; sv_MaxContainers := 2 |}.
Definition vpn : BotTemplate := {| bt_ID := 4; bt_DeletedAt := None; bt_Name := "VPN"; bt_Type := "vpn"; bt_ImageName := "vpn-bot";
  bt_ImageTag := "1"; bt_IsActive := true; bt_IsFree := false; bt_ConfigSchema := "" |}.
Definition gold : Plan := {| pn_ID := 5; pn_DeletedAt := None; pn_Name := "gold"; pn_DurationDay := 30; pn_Price := price;
  pn_MaxBots := 1; pn_IsFree := false; pn_IsActive := true |}.
Definition launch : PromoCode := {| pc_ID := 6; pc_DeletedAt := None; pc_Code := "LAUNCH"; pc_AmountTON := price; pc_MaxUses := 1;
  pc_UsedCount := 0; pc_ExpiresAt := None; pc_IsActive := true; pc_CreatedBy := 7654321 |}.
Definition plat_tables : PlatTables := {| users := {[1%N := member; 2%N := boss]}; servers := {[3%N := helsinki]};
  templates := {[4%N := vpn]}; instances := ∅; plans := {[5%N := gold]}; limits := ∅; subscriptions := ∅; plan_payments := ∅;
  promo_codes := {[6%N := launch]}; redemptions := ∅; audit_logs := [] |}.
Definition plat : ApiConfig := {| ac_accessSecret := "acc"; ac_refreshSecret := "ref"; ac_encryptKey := HexEncode (fit 32 "");
  ac_agentAPIKey := "agent"; ac_telegramBotTok := "99:bot"; ac_payClient := Some shop |}.

(** The deduction of the one plan, and nothing else, is encoded. *)
#[local] Instance spec_float_dec : EqDecision SpecFloat.spec_float.
Proof. solve_decision. Defined.
#[local] Instance pay_request_dec : EqDecision PayRequest.
Proof. solve_decision. Defined.
#[local] Instance deduct_request_dec : EqDecision DeductRequest.
Proof. solve_decision. Defined.
Definition gold_key : string := uuid_String (pn_ID gold).
Definition gold_request : DeductRequest :=
  deduct_request shop 1234567 price ("plan:" +:+ gold_key) ("plan:" +:+ gold_key) gold_key (plan_meta gold_key).
Definition plat_marshal : JsonMarshal := {|
  marshal_PayRequest := fun _ => None; marshal_InvoiceRequest := fun _ => None; marshal_InvoiceStatusRequest := fun _ => None;
  marshal_DeductRequest := fun r => if bool_decide (r = gold_request) then Some "gold"%string else None;
|}.
Definition plat_json : Json := {|
  unmarshal_PayRequest := fun _ => None; unmarshal_InvoiceRequest := fun _ => None; unmarshal_InvoiceStatusRequest := fun _ => None;
  unmarshal_DeductRequest := fun s => if (s =? "gold")%string then Some gold_request else None;
  unmarshal_TransferRequest := fun _ => None;
|}.
#[local] Existing Instance plat_marshal.
#[local] Existing Instance plat_json.
Lemma plat_laws : JsonLaws.
Proof. split. intros req data. simpl. case_bool_decide; intros [= <-]; by subst. Qed.
#[local] Existing Instance plat_laws.
Abbreviation Botpay := (st Tables (WS * Cache)).
#[local] Instance plat_server : PayServer Botpay := botpay_server "secret" (fun _ => demo_order).
#[local] Instance plat_promise : PayPromise Botpay := botpay_promise "secret" (fun _ => demo_order).

Abbreviation Platform_st := (st PlatTables (ApiWorld * Remote Botpay)).
Definition plat_0 : Platform_st :=
  init_st plat_tables ({| aw_commands := []; aw_counts := ∅ |}, mkRemote (demo_bus (db demo_3)) None).
Definition plat_1 : Platform_st := Eval vm_compute in snd (BuyPlan plat (uuid_String 1) gold_key plat_0).
Definition plat_2 : Platform_st := Eval vm_compute in
  snd (Handler_CreateInstance plat (uuid_String 1) (Some {| ir_BotToken := "77:abc"; ir_TemplateID := uuid_String 4 |}) plat_1).

(** * The theorems at work *)

Lemma limiter_window_witness :
  limiter_serves 1 [("a", 0); ("b", 5); ("a", 6); ("a", minute + 1)]%string ∅ = [("a", 0); ("b", 5); ("a", minute + 1)]%string.
Proof.
  assert (H : in_order [] [("a", 0); ("b", 5); ("a", 6); ("a", minute + 1)]%string).
  { split; [|by intros ? ? ?%elem_of_nil]. unfold minute. repeat constructor; simpl; lia. }
  destruct (limiter_window 1 _ H) as [-> _]. vm_compute. reflexivity.
Defined.

Definition member_header : string := "Bearer acc/u" +:+ uuid_String 1.
Definition seize : request := AdminRequest "1.2.3.4" member_header (PostRole (uuid_String 1) (Some "owner"%string)).

Lemma admins_only_witness : users (db (snd (handle_request plat seize plat_0))) = users plat_tables.
Proof.
  destruct (handle_request plat seize plat_0) as [res s'] eqn:E.
  destruct (admins_only plat seize member_header plat_0 res s' eq_refl) as (_ & _ & H & _).
  - intros n u role H. vm_compute in H. injection H as <- <-. reflexivity.
  - exact E.
  - simpl. by rewrite H.
Defined.

Definition two_redeem : list api_op := [Redeem 6 1; Redeem 6 2].

Lemma promo_uses_bounded_witness :
  exists p, promo_codes (db (snd (api_serve plat two_redeem plat_0))) !! 6%N = Some p /\
    pc_UsedCount p = 1 /\ pc_UsedCount p = Z.of_nat (uses (redemptions (db (snd (api_serve plat two_redeem plat_0)))) 6).
Proof.
  destruct (api_serve plat two_redeem plat_0) as [r s'] eqn:E.
  assert (H : promo_inv (db plat_0) (ext plat_0)).
  { split; [|intros q Hq; by apply not_elem_of_empty in Hq]. intros id p Hp.
    change (promo_codes (db plat_0)) with ({[6%N := launch]} : gmap uuid PromoCode) in Hp.
    apply lookup_singleton_Some in Hp as [<- <-]. vm_compute. split_and!; [done..|discriminate]. }
  assert (Hp : exists p, promo_codes (db (snd (api_serve plat two_redeem plat_0))) !! 6%N = Some p /\ pc_UsedCount p = 1)
    by (eexists; split; vm_compute; reflexivity).
  rewrite E in Hp. simpl in *. destruct Hp as (p & Hp & H1). exists p. split; [exact Hp|]. split; [exact H1|].
  exact (proj1 (promo_uses_bounded plat two_redeem plat_0 r s' H E 6%N p Hp)).
Defined.

Definition two_buy : list api_op :=
  [Serve (UserRequest "1.2.3.4" member_header (PostBuy gold_key)); Serve (UserRequest "1.2.3.4" member_header (PostBuy gold_key))].

Lemma one_payment_recorded_witness :
  size (subscriptions (db (snd (api_serve plat two_buy plat_0)))) = 2%nat /\
  (size (plan_payments (db (snd (api_serve plat two_buy plat_0)))) <= 1)%nat.
Proof.
  split; [vm_compute; reflexivity|]. destruct (api_serve plat two_buy plat_0) as [r s'] eqn:E.
  exact (one_payment_recorded plat two_buy plat_0 r s' eq_refl E).
Defined.

Lemma least_loaded_fits_witness : load plat_tables helsinki < 2 /\ tagged "free" (sv_Tags helsinki) = true.
Proof.
  assert (E : exists s', SelectLeastLoadedServer (X := ApiWorld * Remote Botpay) "free" plat_0 = (Ok (Some helsinki, None), s'))
    by (eexists; vm_compute; reflexivity).
  destruct E as [s' E]. destruct (least_loaded_fits "free" plat_0 _ s' E) as (_ & _ & _ & _ & Ht & [H|H] & _);
    [discriminate H|]. split; [exact H|exact Ht].
Defined.

(** The table no longer knows the administrator; his refresh token does. *)
Definition demoted : Platform_st := init_st {| users := {[1%N := member]}; servers := ∅; templates := ∅; instances := ∅;
  plans := ∅; limits := ∅; subscriptions := ∅; plan_payments := ∅; promo_codes := ∅; redemptions := ∅; audit_logs := [] |}
  (ext plat_0).

Lemma demotion_survives_witness :
  JWTAuth plat ("Bearer " +:+ ("acc/a" +:+ uuid_String 2)) (fun u role => ret (ok [AStr u; AStr role])) demoted =
  (Ok (ok [AStr (uuid_String 2); AStr "admin"]), bump demoted).
Proof.
  destruct (demotion_survives plat (uuid_String 2) "admin" 1000 0 ("ref/a" +:+ uuid_String 2) ("acc/a" +:+ uuid_String 2) demoted)
    as (_ & _ & H); [vm_compute; reflexivity|vm_compute; discriminate|vm_compute; reflexivity|vm_compute; reflexivity|].
  rewrite H; [reflexivity|vm_compute; reflexivity].
Defined.

Definition deploy_vpn : InstanceReq := {| ir_BotToken := "77:abc"; ir_TemplateID := uuid_String 4 |}.

Lemma create_instance_within_limit_witness :
  exists inst, instances (db plat_2) = <[bi_ID inst := inst]> ∅ /\ bi_OwnerID inst = 1%N.
Proof.
  assert (E : exists rep, Handler_CreateInstance plat (uuid_String 1) (Some deploy_vpn) plat_1 = (Ok rep, plat_2) /\ ap_Status rep = 200)
    by (eexists; split; vm_compute; reflexivity).
  destruct E as (rep & E & H200).
  destruct (create_instance_within_limit plat (uuid_String 1) deploy_vpn plat_1 rep plat_2 E H200)
    as (tmpl & v & limit & inst & cmd & _ & _ & _ & Ho & _ & _ & _ & _ & _ & Hd & _).
  exists inst. rewrite Hd. split; [reflexivity|]. rewrite Ho. vm_compute. reflexivity.
Defined.

Lemma plat_srv_ok : srv_ok (server plat_0).
Proof. exact shop_ok. Qed.

Lemma BuyPlan_outcomes_witness : subscribed plat_0 plat_1 1 5.
Proof.
  assert (E : exists rep, BuyPlan plat (uuid_String 1) gold_key plat_0 = (Ok rep, plat_1) /\ ap_Status rep = 200)
    by (eexists; split; vm_compute; reflexivity).
  destruct E as (rep & E & H200).
  pose proof (BuyPlan_outcomes plat (uuid_String 1) gold_key plat_0 rep plat_1 E plat_srv_ok) as H. rewrite H200 in H.
  destruct H as (uid & user & plan & Hp & Hu & (id & Hi & Hr) & _ & Hs & _).
  - intros [|p]; discriminate.
  - vm_compute in Hp. injection Hp as <-. vm_compute in Hu. injection Hu as <-. vm_compute in Hi. injection Hi as <-.
    vm_compute in Hr. injection Hr as <-. exact Hs.
Defined.

Definition mina_login : TelegramLogin := {| tl_TelegramID := 1234567; tl_FirstName := "Mina"; tl_LastName := "";
  tl_Username := "mina"; tl_PhotoURL := ""; tl_AuthDate := 1; tl_Hash := "" |}.
Definition signed_login : TelegramLogin := {| tl_TelegramID := 1234567; tl_FirstName := "Mina"; tl_LastName := "";
  tl_Username := "mina"; tl_PhotoURL := ""; tl_AuthDate := 1; tl_Hash := widget_hash mina_login "99:bot" |}.

Lemma widget_login_refused_witness :
  exists code msg, fst (TelegramAuth (B := Botpay) plat (Some signed_login) plat_0) = Ok (fail code msg).
Proof.
  destruct (TelegramAuth (B := Botpay) plat (Some signed_login) plat_0) as [res s'] eqn:E.
  destruct (widget_login_refused plat signed_login plat_0 res s' eq_refl E) as [(_ & _ & H)|(m1 & m2 & Hne & Heq)].
  - exact H.
  - contradiction (Hne Heq).
Defined.
