(* ===== verification/AdmModels.v ===== *)
(** admanager-bot: the package internal/models, its documents, the pure time
    arithmetic of schedule.go and the reading of typed schedules (parse.go). *)
From S2P Require Import Prelude GoInt GoFloat GoString GoText Effects.

(** * internal/models/models.go *)

Definition DefaultStartHour : Z := 8.
Definition DefaultEndHour : Z := 23.
Definition DefaultIntervalMinutes : Z := 60.
Definition DefaultReminderMinutesBefore : Z := 10.

Inductive ChannelStatus := ChannelActive | ChannelInactive | ChannelPending.
#[export] Instance ChannelStatus_eq_dec : EqDecision ChannelStatus.
Proof. solve_decision. Defined.

Record Channel := {
  ch_ID : string; ch_TelegramID : Z; ch_Username : string; ch_Title : string; ch_MemberCount : Z;
  ch_Status : ChannelStatus; ch_TagIDs : list string; ch_AvgViews : Z; ch_EngageRate : float64;
  ch_CreatedAt : Z; ch_DeletedAt : option Z;
}.

Record Tag := { tg_ID : string; tg_Name : string; tg_Slug : string; tg_IsActive : bool }.

Inductive CampaignStatus := CampaignDraft | CampaignRunning | CampaignPaused | CampaignCompleted | CampaignCancelled.
#[export] Instance CampaignStatus_eq_dec : EqDecision CampaignStatus.
Proof. solve_decision. Defined.

Record Campaign := {
  cm_ID : string; cm_Name : string; cm_Status : CampaignStatus;
  cm_StartHour : Z; cm_StartMinute : Z; cm_EndHour : Z; cm_EndMinute : Z;
  cm_IntervalMinutes : Z; cm_DeleteAfterMinutes : Z; cm_RotationMinutes : Z; cm_EndAt : option Z;
  cm_TargetTagIDs : list string; cm_TargetChannelIDs : list string; cm_MinMemberCount : Z;
  cm_TotalImpressions : Z; cm_CreatedAt : Z; cm_DeletedAt : option Z;
}.

Record AdReply := { rp_MessageID : Z; rp_DurationMinutes : Z }.
Record Advertisement := {
  ad_ID : string; ad_CampaignID : string; ad_Name : string; ad_SourceChatID : Z; ad_MainMessageID : Z;
  ad_Replies : list AdReply; ad_KeepAsLastMessage : bool; ad_PinMessage : bool; ad_DeletePreviousOnRepost : bool;
  ad_IsActive : bool;
}.

Inductive JobType :=
| JobTypeSendAd | JobTypeSendReply | JobTypeDeletePost | JobTypeUpdateStats | JobTypeEndCampaign | JobTypeReminder
| JobTypeOther (name : string).
Inductive JobStatus := JobPending | JobRunning | JobDone | JobFailed | JobCancelled.
#[export] Instance JobType_eq_dec : EqDecision JobType.
Proof. solve_decision. Defined.
#[export] Instance JobStatus_eq_dec : EqDecision JobStatus.
Proof. solve_decision. Defined.

Record ScheduledJob := {
  jb_ID : string; jb_Type : JobType; jb_Status : JobStatus; jb_CampaignID : string; jb_AdvertisementID : string;
  jb_ChannelID : string; jb_RunAt : Z; jb_Attempts : Z; jb_MaxAttempts : Z; jb_LastError : option error; jb_Payload : string;
}.

Inductive ReservationStatus :=
  ReservationPending | ReservationConfirmed | ReservationSent | ReservationCancelled | ReservationFailed | ReservationExpired.
#[export] Instance ReservationStatus_eq_dec : EqDecision ReservationStatus.
Proof. solve_decision. Defined.

Record Reservation := {
  rs_ID : string; rs_CampaignID : string; rs_AdvertisementID : string; rs_ChannelID : string; rs_Status : ReservationStatus;
  rs_ScheduledAt : Z; rs_LiveMessageIDs : list Z; rs_CurrentReplyIndex : Z; rs_PostedMessageIDs : list Z;
  rs_DeleteAt : option Z; rs_Error : option error;
}.

Record CampaignTemplate := {
  tp_ID : string; tp_Name : string; tp_StartHour : Z; tp_StartMinute : Z; tp_EndHour : Z; tp_EndMinute : Z;
  tp_IntervalMinutes : Z; tp_DeleteAfterMinutes : Z; tp_RotationMinutes : Z; tp_TargetTagIDs : list string;
  tp_MinMemberCount : Z;
}.

Record BotSettings := { bs_WelcomeMessage : string; bs_HelpMessage : string; bs_ReminderMinutesBefore : Z }.

Record AuditLog := {
  al_ID : string; al_Action : string; al_ActorID : Z; al_TargetID : string; al_TargetType : string; al_Description : string;
}.

(** * Time: an instant in Unix nanoseconds with a location, which is its offset
    from UTC in seconds *)

Record Time := { unix_nano : Z; zone : Z }.

Definition second : Z := 1000000000.
Definition minute : Z := 60 * second.
Definition hour : Z := 60 * minute.
Definition day : Z := 24 * hour.

(** Nanoseconds since midnight at the place of [t], and that midnight. *)
Definition clock_nano (t : Time) : Z := (unix_nano t + zone t * second) mod day.
Definition midnight (t : Time) : Z := unix_nano t - clock_nano t.
Definition Hour (t : Time) : Z := clock_nano t / hour.
Definition Minute (t : Time) : Z := clock_nano t / minute mod 60.

Definition time_Add (t : Time) (d : Z) : Time := {| unix_nano := unix_nano t + d; zone := zone t |}.
Definition Before (t u : Time) : bool := unix_nano t <? unix_nano u.
Definition After (t u : Time) : bool := unix_nano u <? unix_nano t.
(** A difference that is no int64 saturates. *)
Definition time_Sub (t u : Time) : Z := Z.max int64_min (Z.min int64_max (unix_nano t - unix_nano u)).
(** Duration.Minutes() *)
Definition Minutes (d : Z) : float64 :=
  f64_add (f64_of_int (Z.quot d minute)) (f64_div (f64_of_int (Z.rem d minute)) (f64_of_int minute)).
(** time.Duration(n) * time.Minute *)
Definition minutes (n : Z) : Z := i64_mul n minute.

(** * internal/models/schedule.go *)

(** time.Date carries hours and minutes over to the following days. *)
Definition StartTimeOnDay (t : Time) (h m : Z) : Time :=
  {| unix_nano := midnight t + h * hour + m * minute; zone := zone t |}.

Definition InDailyWindow (now : Time) (startH startM endH endM : Z) : bool :=
  let startMin := startH * 60 + startM in
  let endMin := endH * 60 + endM in
  let curMin := Hour now * 60 + Minute now in
  if startMin =? endMin then true
  else if startMin <? endMin then (startMin <=? curMin) && (curMin <? endMin)
  else (startMin <=? curMin) || (curMin <? endMin).

Definition CurrentWindowStart (now : Time) (startH startM endH endM : Z) : Time :=
  let todayStart := StartTimeOnDay now startH startM in
  let startMin := startH * 60 + startM in
  let endMin := endH * 60 + endM in
  let curMin := Hour now * 60 + Minute now in
  if (endMin <=? startMin) && (curMin <? endMin) then time_Add todayStart (- (24 * hour)) else todayStart.

Definition DailyWindowBounds (t : Time) (startH startM endH endM : Z) : Time * Time :=
  let start := StartTimeOnDay t startH startM in
  let end_ := StartTimeOnDay t endH endM in
  (start, if negb (After end_ start) then time_Add end_ (24 * hour) else end_).

Definition RotationIndex (elapsedMinutes rotationMinutes numAds : Z) : Z :=
  if numAds <=? 0 then 0
  else if rotationMinutes <=? 0 then 0
  else
  let idx := Z.rem (Z.quot elapsedMinutes rotationMinutes) numAds in
  if idx <? 0 then idx + numAds else idx.

(** * internal/models/parse.go *)

Definition digit_table : list (string * string) :=
  [("۰", "0"); ("۱", "1"); ("۲", "2"); ("۳", "3"); ("۴", "4"); ("۵", "5"); ("۶", "6"); ("۷", "7"); ("۸", "8"); ("۹", "9");
   ("٠", "0"); ("١", "1"); ("٢", "2"); ("٣", "3"); ("٤", "4"); ("٥", "5"); ("٦", "6"); ("٧", "7"); ("٨", "8"); ("٩", "9")]%string.
Fixpoint lookup_digit (l : list (string * string)) (r : string) : string :=
  match l with
  | [] => r
  | (k, v) :: l => if (k =? r)%string then v else lookup_digit l r
  end.
Definition NormalizeDigits (s : string) : string :=
  fold_right (fun r acc => lookup_digit digit_table r +:+ acc) ""%string (Runes s).

Definition ParseClock (s : string) : option (Z * Z) :=
  match Split ":" (TrimSpace s) with
  | [] => None
  | p0 :: ps =>
      match ParseInt 10 (TrimSpace p0) with
      | None => None
      | Some h =>
          if (h <? 0) || (23 <? h) then None
          else match ps with
               | [] => Some (h, 0)
               | p1 :: _ =>
                   match ParseInt 10 (TrimSpace p1) with
                   | None => None
                   | Some m => if (m <? 0) || (59 <? m) then None else Some (h, m)
                   end
               end
      end
  end.

Definition ParseClockRange (s : string) : option (Z * Z * Z * Z) :=
  let '(p0, p1) := match Cut "-" (TrimSpace s) with Some (a, b) => (a, Some b) | None => (TrimSpace s, None) end in
  match ParseClock p0 with
  | None => None
  | Some (sh, sm) =>
      match p1 with
      | None => Some (sh, sm, sh, sm)
      | Some p1 => match ParseClock p1 with Some (eh, em) => Some (sh, sm, eh, em) | None => None end
      end
  end.

(** strings.ReplaceAll(s, c, "") for one byte *)
Fixpoint remove_char (c : ascii) (s : string) : string :=
  match s with
  | EmptyString => EmptyString
  | String d s => if Ascii.eqb d c then remove_char c s else String d (remove_char c s)
  end.
Definition newline : ascii := ascii_of_nat 10.
Definition carriage_return : ascii := ascii_of_nat 13.

(** The lines that are not blank, trimmed. *)
Definition schedule_lines (text : string) : list string :=
  List.filter (fun t => negb (t =? "")%string)
    (map TrimSpace (Split newline (remove_char carriage_return (NormalizeDigits text)))).

(** startHour, startMinute, endHour, endMinute, interval, deleteAfter, rotation *)
Record Schedule := {
  sc_StartHour : Z; sc_StartMinute : Z; sc_EndHour : Z; sc_EndMinute : Z; sc_Interval : Z; sc_DeleteAfter : Z; sc_Rotation : Z;
}.
Definition ParseSchedule (text : string) : option Schedule :=
  match schedule_lines text with
  | [l0; l1; l2; l3] =>
      match ParseClockRange l0 with
      | None => None
      | Some (sh, sm, eh, em) =>
          match ParseInt 10 l1, ParseInt 10 l2, ParseInt 10 l3 with
          | Some interval, Some del, Some rot =>
              if (interval <? 1) || (del <? 0) || (rot <? 0) then None
              else Some {| sc_StartHour := sh; sc_StartMinute := sm; sc_EndHour := eh; sc_EndMinute := em;
                           sc_Interval := interval; sc_DeleteAfter := del; sc_Rotation := rot |}
          | _, _, _ => None
          end
      end
  | _ => None
  end.

Example parse_examples :
  ParseClock "23:08" = Some (23, 8) /\ ParseClock "24" = None /\ ParseClock " 7 : 5 " = Some (7, 5) /\
  ParseClockRange "۲۳" = None /\ ParseClockRange (NormalizeDigits "۲۲:۰۰-۲:۰۰") = Some (22, 0, 2, 0) /\
  ParseSchedule "23:08-03:00
10
60
120" = Some {| sc_StartHour := 23; sc_StartMinute := 8; sc_EndHour := 3; sc_EndMinute := 0; sc_Interval := 10;
               sc_DeleteAfter := 60; sc_Rotation := 120 |}.
Proof. vm_compute. done. Qed.
