(* ===== verification/AdmStore.v ===== *)
(** admanager-bot: the MongoDB collections of one instance, the statements of
    internal/store, and what the bot keeps beside them: the posts that stand in
    the channels, its conversations and the goroutines it has started. *)
From S2P Require Import Prelude GoInt GoFloat GoString GoText Effects PayModels PayChain AdmModels.

(** Documents in the order of their insertion, in which a query without a sort
    returns them. *)
Record AdmTables := {
  t_channels : list Channel; t_tags : list Tag; t_campaigns : list Campaign; t_ads : list Advertisement;
  t_jobs : list ScheduledJob; t_reservations : list Reservation; t_templates : list CampaignTemplate;
  t_settings : option BotSettings; t_audit : list AuditLog;
}.
Definition set_t_channels f d := {| t_channels := f (t_channels d); t_tags := t_tags d; t_campaigns := t_campaigns d; t_ads := t_ads d;
  t_jobs := t_jobs d; t_reservations := t_reservations d; t_templates := t_templates d; t_settings := t_settings d; t_audit := t_audit d |}.
Definition set_t_tags f d := {| t_channels := t_channels d; t_tags := f (t_tags d); t_campaigns := t_campaigns d; t_ads := t_ads d;
  t_jobs := t_jobs d; t_reservations := t_reservations d; t_templates := t_templates d; t_settings := t_settings d; t_audit := t_audit d |}.
Definition set_t_campaigns f d := {| t_channels := t_channels d; t_tags := t_tags d; t_campaigns := f (t_campaigns d); t_ads := t_ads d;
  t_jobs := t_jobs d; t_reservations := t_reservations d; t_templates := t_templates d; t_settings := t_settings d; t_audit := t_audit d |}.
Definition set_t_ads f d := {| t_channels := t_channels d; t_tags := t_tags d; t_campaigns := t_campaigns d; t_ads := f (t_ads d);
  t_jobs := t_jobs d; t_reservations := t_reservations d; t_templates := t_templates d; t_settings := t_settings d; t_audit := t_audit d |}.
Definition set_t_jobs f d := {| t_channels := t_channels d; t_tags := t_tags d; t_campaigns := t_campaigns d; t_ads := t_ads d;
  t_jobs := f (t_jobs d); t_reservations := t_reservations d; t_templates := t_templates d; t_settings := t_settings d; t_audit := t_audit d |}.
Definition set_t_reservations f d := {| t_channels := t_channels d; t_tags := t_tags d; t_campaigns := t_campaigns d; t_ads := t_ads d;
  t_jobs := t_jobs d; t_reservations := f (t_reservations d); t_templates := t_templates d; t_settings := t_settings d; t_audit := t_audit d |}.
Definition set_t_templates f d := {| t_channels := t_channels d; t_tags := t_tags d; t_campaigns := t_campaigns d; t_ads := t_ads d;
  t_jobs := t_jobs d; t_reservations := t_reservations d; t_templates := f (t_templates d); t_settings := t_settings d; t_audit := t_audit d |}.
Definition set_t_settings f d := {| t_channels := t_channels d; t_tags := t_tags d; t_campaigns := t_campaigns d; t_ads := t_ads d;
  t_jobs := t_jobs d; t_reservations := t_reservations d; t_templates := t_templates d; t_settings := f (t_settings d); t_audit := t_audit d |}.
Definition set_t_audit f d := {| t_channels := t_channels d; t_tags := t_tags d; t_campaigns := t_campaigns d; t_ads := t_ads d;
  t_jobs := t_jobs d; t_reservations := t_reservations d; t_templates := t_templates d; t_settings := t_settings d; t_audit := f (t_audit d) |}.

(** * The state beside the collections *)

(** A message the bot put in a chat: what it copies, what it answers, whether it is pinned. *)
Record Post := { po_Chat : Z; po_ID : Z; po_SourceChat : Z; po_SourceID : Z; po_ReplyTo : option Z; po_Pinned : bool }.

Inductive step_name :=
| stepIdle | stepChannelAdd | stepTagAdd | stepCampaignName | stepCampaignSchedule | stepCampaignEditName
| stepCampaignEditSchedule | stepAdName | stepAdMain | stepAdReplies | stepAdReplyMinutes | stepAdEditName | stepAdEditMain
| stepTemplateName | stepSettingsReminder.
#[export] Instance adm_step_eq_dec : EqDecision step_name.
Proof. solve_decision. Defined.
Record userState := { Step : step_name; Data : gmap string string }.

(** Messages and alerts to a user, as a tag of the text with its arguments. *)
Inductive outgoing := Send (uid : Z) (text : string) (args : list fmtarg) | Edit (uid : Z) (text : string) (args : list fmtarg)
  | Respond (uid : Z) (text : string).

Record AdmWorld := {
  w_posts : list Post;
  w_out : list outgoing;
  w_running : list ScheduledJob;                 (* goroutines of runJob that have not ended *)
  w_started : list string;                       (* the jobs they were started for, in order *)
  w_states : gmap Z (userState * Z);             (* with the time of expiry *)
  w_ctx : gmap (Z * string) (string * Z);
}.
Definition set_w_posts f w := {| w_posts := f (w_posts w); w_out := w_out w; w_running := w_running w; w_started := w_started w;
  w_states := w_states w; w_ctx := w_ctx w |}.
Definition set_w_out f w := {| w_posts := w_posts w; w_out := f (w_out w); w_running := w_running w; w_started := w_started w;
  w_states := w_states w; w_ctx := w_ctx w |}.
Definition set_w_running f w := {| w_posts := w_posts w; w_out := w_out w; w_running := f (w_running w); w_started := w_started w;
  w_states := w_states w; w_ctx := w_ctx w |}.
Definition set_w_started f w := {| w_posts := w_posts w; w_out := w_out w; w_running := w_running w; w_started := f (w_started w);
  w_states := w_states w; w_ctx := w_ctx w |}.
Definition set_w_states f w := {| w_posts := w_posts w; w_out := w_out w; w_running := w_running w; w_started := w_started w;
  w_states := f (w_states w); w_ctx := w_ctx w |}.
Definition set_w_ctx f w := {| w_posts := w_posts w; w_out := w_out w; w_running := w_running w; w_started := w_started w;
  w_states := w_states w; w_ctx := f (w_ctx w) |}.

(** * internal/store/store.go *)

Section store.
Context {ENV : Env} {LIB : Lib}.
Abbreviation MM := (M AdmTables AdmWorld).

(** BSON dates have milliseconds; the driver reads them back as UTC. *)
Definition bson_date (ns : Z) : Z := ns / 1000000 * 1000000.
Definition utc (ns : Z) : Time := {| unix_nano := ns; zone := 0 |}.

(** [_ = op] *)
Definition quietly {A} (m : MM A) : MM unit := (try m ;; ret tt)%eff.
Fixpoint for_each {A} (f : A -> MM unit) (l : list A) : MM unit :=
  match l with [] => ret tt | x :: l => (f x ;; for_each f l)%eff end.

Definition newID : MM string := (u <- uuid_New ;; ret (uuid_String u))%eff.

Section collection.
Context {A : Type} (id : A -> string) (get : AdmTables -> list A) (put : (list A -> list A) -> AdmTables -> AdmTables).
Definition has_id (k : string) (x : A) : bool := (id x =? k)%string.
(** The index on _id is unique. *)
Definition InsertOne (x : A) : MM unit :=
  exec (fun d => if existsb (has_id (id x)) (get d) then Err (ErrDriver 11000) else Ok (put (fun l => l ++ [x]) d)).
Definition FindOne (P : A -> bool) : MM A := first (fun d => List.find P (get d)).
Definition Find (P : A -> bool) : MM (list A) := find (fun d => List.filter P (get d)).
(** UpdateOne with a filter on _id: no error when nothing matches. *)
Definition UpdateOne (k : string) (f : A -> A) : MM unit :=
  exec (fun d => Ok (put (map (fun x => if has_id k x then f x else x)) d)).
Definition DeleteOne (k : string) : MM unit :=
  exec (fun d => Ok (put (List.filter (fun x => negb (has_id k x))) d)).
End collection.

Definition undeleted {A} (deleted : A -> option Z) (x : A) : bool := match deleted x with None => true | Some _ => false end.
(** Skip and limit of a page. *)
Definition page {A} (pg ps : Z) (l : list A) : list A := firstn (Z.to_nat ps) (skipn (Z.to_nat ((pg - 1) * ps)) l).

(** Sorting by a key, ties in the order of insertion. *)
Definition asc {A} (key : A -> Z) (a b : A) : Prop := key a <= key b.
#[local] Instance asc_dec {A} (key : A -> Z) : RelDecision (asc key) := fun a b => Z_le_dec (key a) (key b).
Definition sort_by {A} (key : A -> Z) (l : list A) : list A := merge_sort (asc key) l.

(** * internal/store/campaign.go *)

Definition with_status (s : CampaignStatus) (c : Campaign) : Campaign := {|
  cm_ID := cm_ID c; cm_Name := cm_Name c; cm_Status := s; cm_StartHour := cm_StartHour c; cm_StartMinute := cm_StartMinute c;
  cm_EndHour := cm_EndHour c; cm_EndMinute := cm_EndMinute c; cm_IntervalMinutes := cm_IntervalMinutes c;
  cm_DeleteAfterMinutes := cm_DeleteAfterMinutes c; cm_RotationMinutes := cm_RotationMinutes c; cm_EndAt := cm_EndAt c;
  cm_TargetTagIDs := cm_TargetTagIDs c; cm_TargetChannelIDs := cm_TargetChannelIDs c; cm_MinMemberCount := cm_MinMemberCount c;
  cm_TotalImpressions := cm_TotalImpressions c; cm_CreatedAt := cm_CreatedAt c; cm_DeletedAt := cm_DeletedAt c |}.
Definition with_impressions (n : Z) (c : Campaign) : Campaign := {|
  cm_ID := cm_ID c; cm_Name := cm_Name c; cm_Status := cm_Status c; cm_StartHour := cm_StartHour c; cm_StartMinute := cm_StartMinute c;
  cm_EndHour := cm_EndHour c; cm_EndMinute := cm_EndMinute c; cm_IntervalMinutes := cm_IntervalMinutes c;
  cm_DeleteAfterMinutes := cm_DeleteAfterMinutes c; cm_RotationMinutes := cm_RotationMinutes c; cm_EndAt := cm_EndAt c;
  cm_TargetTagIDs := cm_TargetTagIDs c; cm_TargetChannelIDs := cm_TargetChannelIDs c; cm_MinMemberCount := cm_MinMemberCount c;
  cm_TotalImpressions := n; cm_CreatedAt := cm_CreatedAt c; cm_DeletedAt := cm_DeletedAt c |}.
Definition with_deleted (t : option Z) (c : Campaign) : Campaign := {|
  cm_ID := cm_ID c; cm_Name := cm_Name c; cm_Status := cm_Status c; cm_StartHour := cm_StartHour c; cm_StartMinute := cm_StartMinute c;
  cm_EndHour := cm_EndHour c; cm_EndMinute := cm_EndMinute c; cm_IntervalMinutes := cm_IntervalMinutes c;
  cm_DeleteAfterMinutes := cm_DeleteAfterMinutes c; cm_RotationMinutes := cm_RotationMinutes c; cm_EndAt := cm_EndAt c;
  cm_TargetTagIDs := cm_TargetTagIDs c; cm_TargetChannelIDs := cm_TargetChannelIDs c; cm_MinMemberCount := cm_MinMemberCount c;
  cm_TotalImpressions := cm_TotalImpressions c; cm_CreatedAt := cm_CreatedAt c; cm_DeletedAt := t |}.

(** The caller's fields with a new id, now as creation time, as a draft. *)
Definition CreateCampaign (c : Campaign) : MM string :=
  (id <- newID ;; n <- now ;;
   InsertOne cm_ID t_campaigns set_t_campaigns {|
     cm_ID := id; cm_Name := cm_Name c; cm_Status := CampaignDraft; cm_StartHour := cm_StartHour c; cm_StartMinute := cm_StartMinute c;
     cm_EndHour := cm_EndHour c; cm_EndMinute := cm_EndMinute c; cm_IntervalMinutes := cm_IntervalMinutes c;
     cm_DeleteAfterMinutes := cm_DeleteAfterMinutes c; cm_RotationMinutes := cm_RotationMinutes c; cm_EndAt := cm_EndAt c;
     cm_TargetTagIDs := cm_TargetTagIDs c; cm_TargetChannelIDs := cm_TargetChannelIDs c; cm_MinMemberCount := cm_MinMemberCount c;
     cm_TotalImpressions := cm_TotalImpressions c; cm_CreatedAt := bson_date n; cm_DeletedAt := cm_DeletedAt c |} ;;
   ret id)%eff.

Definition FindCampaign (id : string) : MM Campaign :=
  FindOne t_campaigns (fun c => has_id cm_ID id c && undeleted cm_DeletedAt c).
Definition ListCampaigns (status : option CampaignStatus) (pg ps : Z) : MM (list Campaign) :=
  (l <- Find t_campaigns (fun c => undeleted cm_DeletedAt c
                                 && match status with None => true | Some s => bool_decide (cm_Status c = s) end) ;;
   ret (page pg ps (sort_by (fun c => - cm_CreatedAt c) l)))%eff.
Definition ListActiveCampaigns : MM (list Campaign) :=
  (n <- now ;;
   Find t_campaigns (fun c => bool_decide (cm_Status c = CampaignRunning) && undeleted cm_DeletedAt c
                              && match cm_EndAt c with None => true | Some e => bson_date n <? e end))%eff.
Definition UpdateCampaign (id : string) (f : Campaign -> Campaign) : MM unit := UpdateOne cm_ID set_t_campaigns id f.
Definition UpdateCampaignStatus (id : string) (s : CampaignStatus) : MM unit := UpdateOne cm_ID set_t_campaigns id (with_status s).
Definition IncrCampaignImpressions (id : string) : MM unit :=
  UpdateOne cm_ID set_t_campaigns id (fun c => with_impressions (i64_add (cm_TotalImpressions c) 1) c).
Definition DeleteCampaign (id : string) : MM unit :=
  (n <- now ;; UpdateOne cm_ID set_t_campaigns id (with_deleted (Some (bson_date n))))%eff.

Definition CreateAd (campaignID name : string) (sourceChat mainMessage : Z) : MM string :=
  (id <- newID ;;
   InsertOne ad_ID t_ads set_t_ads {| ad_ID := id; ad_CampaignID := campaignID; ad_Name := name; ad_SourceChatID := sourceChat;
     ad_MainMessageID := mainMessage; ad_Replies := []; ad_KeepAsLastMessage := false; ad_PinMessage := false;
     ad_DeletePreviousOnRepost := false; ad_IsActive := true |} ;;
   ret id)%eff.
Definition UpdateAd (id : string) (f : Advertisement -> Advertisement) : MM unit := UpdateOne ad_ID set_t_ads id f.
Definition with_main (m : Z) (a : Advertisement) : Advertisement := {|
  ad_ID := ad_ID a; ad_CampaignID := ad_CampaignID a; ad_Name := ad_Name a; ad_SourceChatID := ad_SourceChatID a;
  ad_MainMessageID := m; ad_Replies := ad_Replies a; ad_KeepAsLastMessage := ad_KeepAsLastMessage a; ad_PinMessage := ad_PinMessage a;
  ad_DeletePreviousOnRepost := ad_DeletePreviousOnRepost a; ad_IsActive := ad_IsActive a |}.
Definition with_replies (l : list AdReply) (a : Advertisement) : Advertisement := {|
  ad_ID := ad_ID a; ad_CampaignID := ad_CampaignID a; ad_Name := ad_Name a; ad_SourceChatID := ad_SourceChatID a;
  ad_MainMessageID := ad_MainMessageID a; ad_Replies := l; ad_KeepAsLastMessage := ad_KeepAsLastMessage a; ad_PinMessage := ad_PinMessage a;
  ad_DeletePreviousOnRepost := ad_DeletePreviousOnRepost a; ad_IsActive := ad_IsActive a |}.
Definition with_active (b : bool) (a : Advertisement) : Advertisement := {|
  ad_ID := ad_ID a; ad_CampaignID := ad_CampaignID a; ad_Name := ad_Name a; ad_SourceChatID := ad_SourceChatID a;
  ad_MainMessageID := ad_MainMessageID a; ad_Replies := ad_Replies a; ad_KeepAsLastMessage := ad_KeepAsLastMessage a; ad_PinMessage := ad_PinMessage a;
  ad_DeletePreviousOnRepost := ad_DeletePreviousOnRepost a; ad_IsActive := b |}.
Definition ReplaceAdMain (id : string) (m : Z) : MM unit := UpdateAd id (with_main m).
Definition ReplaceAdReplies (id : string) (l : list AdReply) : MM unit := UpdateAd id (with_replies l).
Definition FindAd (id : string) : MM Advertisement := FindOne t_ads (has_id ad_ID id).
Definition ListAdsByCampaign (campaignID : string) : MM (list Advertisement) :=
  Find t_ads (fun a => (ad_CampaignID a =? campaignID)%string && ad_IsActive a).
Definition AppendAdReply (id : string) (messageID durationMinutes : Z) : MM unit :=
  (a <- FindAd id ;;
   UpdateAd id (with_replies (ad_Replies a ++ [{| rp_MessageID := messageID; rp_DurationMinutes := durationMinutes |}])))%eff.
Definition DeleteAd (id : string) : MM unit := UpdateAd id (with_active false).

(** * internal/store/channel.go *)

Definition CreateChannel (telegramID : Z) (username title : string) (members : Z) : MM string :=
  (id <- newID ;; n <- now ;;
   InsertOne ch_ID t_channels set_t_channels {| ch_ID := id; ch_TelegramID := telegramID; ch_Username := username; ch_Title := title;
     ch_MemberCount := members; ch_Status := ChannelPending; ch_TagIDs := []; ch_AvgViews := 0; ch_EngageRate := S754_zero false;
     ch_CreatedAt := bson_date n; ch_DeletedAt := None |} ;;
   ret id)%eff.
Definition FindChannel (id : string) : MM Channel := FindOne t_channels (has_id ch_ID id).
Definition FindChannelByTelegramID (telegramID : Z) : MM Channel := FindOne t_channels (fun c => ch_TelegramID c =? telegramID).
Definition ListChannels (status : option ChannelStatus) (pg ps : Z) : MM (list Channel) :=
  (l <- Find t_channels (fun c => match status with None => true | Some s => bool_decide (ch_Status c = s) end) ;;
   ret (page pg ps (sort_by (fun c => - ch_CreatedAt c) l)))%eff.
Definition UpdateChannel (id : string) (f : Channel -> Channel) : MM unit := UpdateOne ch_ID set_t_channels id f.
Definition with_channel (status : ChannelStatus) (tags : list string) (deleted : option Z) (c : Channel) : Channel := {|
  ch_ID := ch_ID c; ch_TelegramID := ch_TelegramID c; ch_Username := ch_Username c; ch_Title := ch_Title c;
  ch_MemberCount := ch_MemberCount c; ch_Status := status; ch_TagIDs := tags; ch_AvgViews := ch_AvgViews c;
  ch_EngageRate := ch_EngageRate c; ch_CreatedAt := ch_CreatedAt c; ch_DeletedAt := deleted |}.
Definition with_stats (members views : Z) (rate : float64) (c : Channel) : Channel := {|
  ch_ID := ch_ID c; ch_TelegramID := ch_TelegramID c; ch_Username := ch_Username c; ch_Title := ch_Title c;
  ch_MemberCount := members; ch_Status := ch_Status c; ch_TagIDs := ch_TagIDs c; ch_AvgViews := views;
  ch_EngageRate := rate; ch_CreatedAt := ch_CreatedAt c; ch_DeletedAt := ch_DeletedAt c |}.
Definition UpdateChannelStatus (id : string) (s : ChannelStatus) : MM unit :=
  UpdateChannel id (fun c => with_channel s (ch_TagIDs c) (ch_DeletedAt c) c).
Definition UpdateChannelStats (id : string) (members views : Z) (rate : float64) : MM unit :=
  UpdateChannel id (with_stats members views rate).
Definition DeleteChannel (id : string) : MM unit :=
  (n <- now ;; UpdateChannel id (fun c => with_channel (ch_Status c) (ch_TagIDs c) (Some (bson_date n)) c))%eff.

Definition CreateTag (name slug : string) : MM string :=
  (id <- newID ;; InsertOne tg_ID t_tags set_t_tags {| tg_ID := id; tg_Name := name; tg_Slug := slug; tg_IsActive := true |} ;; ret id)%eff.
Definition by_name {A} (name : A -> string) (a b : A) : Prop := String.leb (name a) (name b) = true.
#[local] Instance by_name_dec {A} (name : A -> string) : RelDecision (by_name name) :=
  fun a b => decide (String.leb (name a) (name b) = true).
Definition ListTags : MM (list Tag) := (l <- Find t_tags tg_IsActive ;; ret (merge_sort (by_name tg_Name) l))%eff.
Definition FindTagBySlug (slug : string) : MM Tag := FindOne t_tags (fun t => (tg_Slug t =? slug)%string).
Definition SetTagInactive (id : string) : MM unit :=
  UpdateOne tg_ID set_t_tags id (fun t => {| tg_ID := tg_ID t; tg_Name := tg_Name t; tg_Slug := tg_Slug t; tg_IsActive := false |}).
Definition ListChannelsByTag (tagID : string) (minMembers : Z) : MM (list Channel) :=
  (l <- Find t_channels (fun c => bool_decide (tagID ∈ ch_TagIDs c) && bool_decide (ch_Status c = ChannelActive)
          && undeleted ch_DeletedAt c && (if 0 <? minMembers then minMembers <=? ch_MemberCount c else true)) ;;
   ret (sort_by (fun c => - ch_MemberCount c) l))%eff.

(** * internal/store/job.go *)

Definition with_job (status : JobStatus) (runAt attempts : Z) (e : option error) (j : ScheduledJob) : ScheduledJob := {|
  jb_ID := jb_ID j; jb_Type := jb_Type j; jb_Status := status; jb_CampaignID := jb_CampaignID j;
  jb_AdvertisementID := jb_AdvertisementID j; jb_ChannelID := jb_ChannelID j; jb_RunAt := runAt; jb_Attempts := attempts;
  jb_MaxAttempts := jb_MaxAttempts j; jb_LastError := e; jb_Payload := jb_Payload j |}.
Definition UpdateJob (id : string) (f : ScheduledJob -> ScheduledJob) : MM unit := UpdateOne jb_ID set_t_jobs id f.
Definition with_job_status (s : JobStatus) (j : ScheduledJob) : ScheduledJob :=
  with_job s (jb_RunAt j) (jb_Attempts j) (jb_LastError j) j.

Definition CreateJob (type : JobType) (campaignID adID channelID : string) (runAt : Z) (payload : string) : MM unit :=
  (id <- newID ;;
   InsertOne jb_ID t_jobs set_t_jobs {|
     jb_ID := id; jb_Type := type; jb_Status := JobPending; jb_CampaignID := campaignID; jb_AdvertisementID := adID;
     jb_ChannelID := channelID; jb_RunAt := bson_date runAt; jb_Attempts := 0; jb_MaxAttempts := 3; jb_LastError := None;
     jb_Payload := payload |})%eff.

Definition is_pending (j : ScheduledJob) : bool := bool_decide (jb_Status j = JobPending).
Definition FetchDueJobs : MM (list ScheduledJob) :=
  (n <- now ;;
   l <- Find t_jobs (fun j => is_pending j && (jb_RunAt j <=? bson_date n)) ;;
   ret (firstn 50 (sort_by jb_RunAt l)))%eff.
Definition MarkJobRunning (id : string) : MM unit :=
  UpdateJob id (fun j => with_job JobRunning (jb_RunAt j) (i64_add (jb_Attempts j) 1) (jb_LastError j) j).
Definition MarkJobDone (id : string) : MM unit := UpdateJob id (with_job_status JobDone).
Definition MarkJobFailed (id : string) (e : error) : MM unit :=
  UpdateJob id (fun j => with_job JobFailed (jb_RunAt j) (jb_Attempts j) (Some e) j).
Definition RetryJob (id : string) (nextRun : Z) : MM unit :=
  UpdateJob id (fun j => with_job JobPending (bson_date nextRun) (jb_Attempts j) (jb_LastError j) j).
Definition CancelJob (id : string) : MM unit := UpdateJob id (with_job_status JobCancelled).

Definition CancelCampaignJobs (campaignID : string) : MM unit :=
  (jobs <- Find t_jobs (fun j => (jb_CampaignID j =? campaignID)%string && is_pending j) ;;
   for_each (fun j => CancelJob (jb_ID j)) jobs)%eff.

Definition of_reservation (reservationID : string) (j : ScheduledJob) : bool :=
  (jb_Payload j =? reservationID)%string || HasPrefix (jb_Payload j) (reservationID +:+ "|").
Definition CancelReservationJobs (reservationID : string) : MM unit :=
  (jobs <- Find t_jobs is_pending ;;
   for_each (fun j => if of_reservation reservationID j then CancelJob (jb_ID j) else ret tt) jobs)%eff.

(** * internal/store/reservation.go *)

Definition with_reservation (status : ReservationStatus) (live : list Z) (idx : Z) (posted : list Z) (deleteAt : option Z)
    (e : option error) (r : Reservation) : Reservation := {|
  rs_ID := rs_ID r; rs_CampaignID := rs_CampaignID r; rs_AdvertisementID := rs_AdvertisementID r; rs_ChannelID := rs_ChannelID r;
  rs_Status := status; rs_ScheduledAt := rs_ScheduledAt r; rs_LiveMessageIDs := live; rs_CurrentReplyIndex := idx;
  rs_PostedMessageIDs := posted; rs_DeleteAt := deleteAt; rs_Error := e |}.
Definition with_reservation_status (s : ReservationStatus) (r : Reservation) : Reservation :=
  with_reservation s (rs_LiveMessageIDs r) (rs_CurrentReplyIndex r) (rs_PostedMessageIDs r) (rs_DeleteAt r) (rs_Error r) r.
Definition UpdateReservation (id : string) (f : Reservation -> Reservation) : MM unit :=
  UpdateOne rs_ID set_t_reservations id f.

Definition CreateReservation (campaignID adID channelID : string) (scheduledAt : Z) : MM string :=
  (id <- newID ;;
   InsertOne rs_ID t_reservations set_t_reservations {|
     rs_ID := id; rs_CampaignID := campaignID; rs_AdvertisementID := adID; rs_ChannelID := channelID;
     rs_Status := ReservationPending; rs_ScheduledAt := bson_date scheduledAt; rs_LiveMessageIDs := []; rs_CurrentReplyIndex := 0;
     rs_PostedMessageIDs := []; rs_DeleteAt := None; rs_Error := None |} ;;
   ret id)%eff.
Definition FindReservation (id : string) : MM Reservation := FindOne t_reservations (has_id rs_ID id).

Definition of_pair (campaignID channelID : string) (r : Reservation) : bool :=
  (rs_CampaignID r =? campaignID)%string && (rs_ChannelID r =? channelID)%string.
Definition is_open (r : Reservation) : bool :=
  bool_decide (rs_Status r = ReservationPending) || bool_decide (rs_Status r = ReservationConfirmed).

Definition ListReservationsByChannel (channelID : string) (from to : Z) : MM (list Reservation) :=
  (l <- Find t_reservations (fun r => (rs_ChannelID r =? channelID)%string && (bson_date from <=? rs_ScheduledAt r)
                                      && (rs_ScheduledAt r <? bson_date to) && is_open r) ;;
   ret (sort_by rs_ScheduledAt l))%eff.
Definition HasRecentReservation (campaignID channelID : string) (since : Z) : MM bool :=
  (l <- Find t_reservations (fun r => of_pair campaignID channelID r && (bson_date since <=? rs_ScheduledAt r)) ;;
   ret (negb (length (firstn 1 l) =? 0)%nat))%eff.
Definition CountReservations (campaignID channelID : string) (statuses : list ReservationStatus) : MM Z :=
  (l <- Find t_reservations (fun r => of_pair campaignID channelID r && bool_decide (rs_Status r ∈ statuses)) ;;
   ret (Z.of_nat (length l)))%eff.

Definition SetReservationMainPosted (id : string) (mainMessageID : Z) : MM unit :=
  UpdateReservation id (fun r => with_reservation ReservationSent [mainMessageID] (-1) [mainMessageID] (rs_DeleteAt r) (rs_Error r) r).
Definition SetReservationReplyPosted (id : string) (replyMessageID replyIndex : Z) : MM unit :=
  (res <- FindReservation id ;;
   let main := match rs_LiveMessageIDs res with m :: _ => m | [] => 0 end in
   let live := (if main =? 0 then [] else [main]) ++ [replyMessageID] in
   let history := rs_PostedMessageIDs res ++ [replyMessageID] in
   UpdateReservation id (fun r => with_reservation (rs_Status r) live replyIndex history (rs_DeleteAt r) (rs_Error r) r))%eff.
Definition SetReservationDeleteAt (id : string) (deleteAt : Z) : MM unit :=
  UpdateReservation id (fun r => with_reservation (rs_Status r) (rs_LiveMessageIDs r) (rs_CurrentReplyIndex r)
    (rs_PostedMessageIDs r) (Some (bson_date deleteAt)) (rs_Error r) r).
Definition MarkReservationExpired (id : string) : MM unit :=
  UpdateReservation id (fun r => with_reservation ReservationExpired [] (rs_CurrentReplyIndex r) (rs_PostedMessageIDs r)
    (rs_DeleteAt r) (rs_Error r) r).
Definition is_sent (r : Reservation) : bool := bool_decide (rs_Status r = ReservationSent).
Definition ListLiveReservationsByCampaign (campaignID : string) : MM (list Reservation) :=
  Find t_reservations (fun r => (rs_CampaignID r =? campaignID)%string && is_sent r).
Definition ListLiveReservationsByChannel (channelID : string) : MM (list Reservation) :=
  Find t_reservations (fun r => (rs_ChannelID r =? channelID)%string && is_sent r).
Definition SetReservationLiveMessage (id : string) (liveIDs : list Z) : MM unit :=
  (res <- FindReservation id ;;
   let history := rs_PostedMessageIDs res ++ liveIDs in
   UpdateReservation id (fun r => with_reservation (rs_Status r) liveIDs (rs_CurrentReplyIndex r) history (rs_DeleteAt r) (rs_Error r) r))%eff.
(** A failing query counts as no reservation. *)
Definition LastReservationAt (campaignID channelID : string) : MM (option Time) :=
  (l <- try (Find t_reservations (of_pair campaignID channelID)) ;;
   ret (match l with
        | Err _ => None
        | Ok l => match sort_by (fun r => - rs_ScheduledAt r) l with r :: _ => Some (utc (rs_ScheduledAt r)) | [] => None end
        end))%eff.
Definition MarkReservationFailed (id : string) (e : error) : MM unit :=
  UpdateReservation id (fun r => with_reservation ReservationFailed (rs_LiveMessageIDs r) (rs_CurrentReplyIndex r)
    (rs_PostedMessageIDs r) (rs_DeleteAt r) (Some e) r).
Definition CancelCampaignReservations (campaignID : string) : MM unit :=
  (l <- Find t_reservations (fun r => (rs_CampaignID r =? campaignID)%string && is_open r) ;;
   for_each (fun r => UpdateReservation (rs_ID r) (with_reservation_status ReservationCancelled)) l)%eff.

(** * internal/store/setting.go, template.go, audit.go *)

Definition default_settings : BotSettings := {|
  bs_WelcomeMessage := ""; bs_HelpMessage := ""; bs_ReminderMinutesBefore := DefaultReminderMinutesBefore |}.
(** Any failure gives the defaults, which are then inserted. *)
Definition GetSettings : MM BotSettings :=
  (r <- try (first t_settings) ;;
   match r with
   | Ok st => ret st
   | Err _ =>
       (quietly (exec (fun d => match t_settings d with
                                | Some _ => Err (ErrDriver 11000)
                                | None => Ok (set_t_settings (fun _ => Some default_settings) d) end)) ;;
        ret default_settings)
   end)%eff.
Definition UpdateSettings (f : BotSettings -> BotSettings) : MM unit :=
  exec (fun d => Ok (set_t_settings (option_map f) d)).

Definition CreateTemplate (t : string -> CampaignTemplate) : MM string :=
  (id <- newID ;; InsertOne tp_ID t_templates set_t_templates (t id) ;; ret id)%eff.
Definition FindTemplate (id : string) : MM CampaignTemplate := FindOne t_templates (has_id tp_ID id).
Definition ListTemplates : MM (list CampaignTemplate) := (l <- Find t_templates (fun _ => true) ;; ret (merge_sort (by_name tp_Name) l))%eff.
Definition DeleteTemplate (id : string) : MM unit := DeleteOne tp_ID set_t_templates id.

Definition LogAudit (action : string) (actor : Z) (targetID targetType desc : string) : MM unit :=
  (id <- newID ;;
   InsertOne al_ID t_audit set_t_audit {| al_ID := id; al_Action := action; al_ActorID := actor; al_TargetID := targetID;
     al_TargetType := targetType; al_Description := desc |})%eff.
End store.
