(* ===== verification/AdmScheduler.v ===== *)
(** admanager-bot: internal/scheduler/scheduler.go, which plans the slots of the
    running campaigns and carries out the jobs that are due. *)
From S2P Require Import Prelude GoInt GoFloat GoString GoText Effects PayModels PayChain AdmModels AdmStore.

(** What Telegram answers: the id of a message sent by this effect, whether a
    call that failed was carried out all the same, and how many members a
    channel has. A call fails when [env_fault] says so. *)
Class AdmTelegram := { tg_message_id : nat -> Z; tg_lost : nat -> bool; tg_members : nat -> Z }.

Section scheduler.
Context {ENV : Env} {LIB : Lib} {FP : F64Platform} {TG : AdmTelegram}.
Context (ownerID local_zone : Z).
Abbreviation MM := (M AdmTables AdmWorld).

(** time.Now() *)
Definition local (ns : Z) : Time := {| unix_nano := ns; zone := local_zone |}.

(** A call of the Bot API that changes what stands in the chats. *)
Definition bot_call (f : AdmWorld -> AdmWorld) : MM unit := fun s =>
  match env_fault (tick s) with
  | Some c => (Err (ErrDriver c), mkSt (S (tick s)) (tx s) (db s) (if tg_lost (tick s) then f (ext s) else ext s))
  | None => (Ok tt, mkSt (S (tick s)) (tx s) (db s) (f (ext s)))
  end.
Definition bot_Copy (chat sourceChat sourceID : Z) (replyTo : option Z) : MM Z := fun s =>
  let id := tg_message_id (tick s) in
  let post := {| po_Chat := chat; po_ID := id; po_SourceChat := sourceChat; po_SourceID := sourceID; po_ReplyTo := replyTo;
                 po_Pinned := false |} in
  (bot_call (set_w_posts (fun l => l ++ [post])) ;; ret id)%eff s.
Definition is_post (chat mid : Z) (p : Post) : bool := (po_Chat p =? chat) && (po_ID p =? mid).
Definition bot_Delete (chat mid : Z) : MM unit :=
  bot_call (set_w_posts (List.filter (fun p => negb (is_post chat mid p)))).
Definition pinned (p : Post) : Post := {| po_Chat := po_Chat p; po_ID := po_ID p; po_SourceChat := po_SourceChat p;
  po_SourceID := po_SourceID p; po_ReplyTo := po_ReplyTo p; po_Pinned := true |}.
Definition bot_Pin (chat mid : Z) : MM unit :=
  bot_call (set_w_posts (map (fun p => if is_post chat mid p then pinned p else p))).
Definition bot_Len (chat : Z) : MM Z := fun s => (bot_call (fun w => w) ;; ret (tg_members (tick s)))%eff s.
Definition bot_Send (uid : Z) (text : string) (args : list fmtarg) : MM unit :=
  bot_call (set_w_out (fun l => l ++ [Send uid text args])).

(** * Reservations for the running campaigns *)

Definition cutOffCampaign (cm : Campaign) : MM unit :=
  (r <- try (ListLiveReservationsByCampaign (cm_ID cm)) ;;
   for_each (fun res =>
       (ch <- try (FindChannel (rs_ChannelID res)) ;;
        match ch with
        | Ok ch => for_each (fun mid => quietly (bot_Delete (ch_TelegramID ch) mid)) (rs_LiveMessageIDs res)
        | Err _ => ret tt
        end ;;
        quietly (MarkReservationExpired (rs_ID res)))%eff)
     (match r with Ok live => live | Err _ => [] end) ;;
   quietly (CancelCampaignReservations (cm_ID cm)) ;;
   quietly (CancelCampaignJobs (cm_ID cm)))%eff.

(** The channels of [l] that [out] does not hold yet are appended. *)
Fixpoint add_channels (out l : list Channel) : list Channel :=
  match l with
  | [] => out
  | ch :: l => add_channels (if existsb (has_id ch_ID (ch_ID ch)) out then out else out ++ [ch]) l
  end.
Fixpoint channels_by_tag (cm : Campaign) (tagIDs : list string) (out : list Channel) : MM (list Channel) :=
  match tagIDs with
  | [] => ret out
  | tagID :: tagIDs =>
      (r <- try (ListChannelsByTag tagID (cm_MinMemberCount cm)) ;;
       channels_by_tag cm tagIDs (add_channels out (match r with Ok chs => chs | Err _ => [] end)))%eff
  end.
Fixpoint channels_by_id (ids : list string) (out : list Channel) : MM (list Channel) :=
  match ids with
  | [] => ret out
  | chID :: ids =>
      (r <- try (FindChannel chID) ;;
       channels_by_id ids (match r with
                           | Ok ch => if bool_decide (ch_Status ch = ChannelActive) then add_channels out [ch] else out
                           | Err _ => out end))%eff
  end.
Definition resolveChannels (cm : Campaign) : MM (list Channel) :=
  (out <- channels_by_tag cm (cm_TargetTagIDs cm) [] ;; channels_by_id (cm_TargetChannelIDs cm) out)%eff.

Definition in_window (cm : Campaign) (t : Time) : bool :=
  InDailyWindow t (cm_StartHour cm) (cm_StartMinute cm) (cm_EndHour cm) (cm_EndMinute cm).
Definition window_start (cm : Campaign) (now : Time) : Time :=
  CurrentWindowStart now (cm_StartHour cm) (cm_StartMinute cm) (cm_EndHour cm) (cm_EndMinute cm).
Definition cycleGap (cm : Campaign) (ad : Advertisement) : Z :=
  minutes (i64_mul (cm_IntervalMinutes cm) (i64_add (Z.of_nat (length (ad_Replies ad))) 1)).

(** The next slot of one channel, when it is due. *)
Definition plan_channel (cm : Campaign) (ad : Advertisement) (now windowStart : Time) (reminderLead : Z) (ch : Channel) : MM unit :=
  let leadDur := minutes reminderLead in
  (o <- try (CountReservations (cm_ID cm) (ch_ID ch) [ReservationPending; ReservationConfirmed]) ;;
   if 0 <? match o with Ok n => n | Err _ => 0 end then ret tt
   else
   last <- LastReservationAt (cm_ID cm) (ch_ID ch) ;;
   let nextDue := match last with Some last => time_Add last (cycleGap cm ad) | None => windowStart end in
   if negb (in_window cm nextDue) then ret tt
   else if (if 0 <? reminderLead then Before now (time_Add nextDue (i64_neg leadDur)) else Before now nextDue) then ret tt
   else
   r <- try (CreateReservation (cm_ID cm) (ad_ID ad) (ch_ID ch) (unix_nano nextDue)) ;;
   match r with
   | Err _ => ret tt
   | Ok resID =>
       (j <- try (CreateJob JobTypeSendAd (cm_ID cm) (ad_ID ad) (ch_ID ch) (unix_nano nextDue) resID) ;;
        match j with
        | Err _ => ret tt
        | Ok _ =>
            if 0 <? reminderLead then
              let reminderAt := time_Add nextDue (i64_neg leadDur) in
              let reminderAt := if Before reminderAt now then now else reminderAt in
              quietly (CreateJob JobTypeReminder (cm_ID cm) (ad_ID ad) (ch_ID ch) (unix_nano reminderAt) resID)
            else ret tt
        end)
   end)%eff.

(** [ads[idx]] panics when the index is out of range. *)
Definition panic {A} : MM A := throw (Errorf "runtime error: index out of range" []).
Definition nth_ad (ads : list Advertisement) (idx : Z) : option Advertisement :=
  if idx <? 0 then None else nth_error ads (Z.to_nat idx).
Definition rotation (cm : Campaign) (now windowStart : Time) (ads : list Advertisement) : Z :=
  let elapsed := int64_of_f64 (Minutes (time_Sub now windowStart)) in
  RotationIndex elapsed (cm_RotationMinutes cm) (Z.of_nat (length ads)).

Definition plan_campaign (now : Time) (reminderLead : Z) (cm : Campaign) : MM unit :=
  if match cm_EndAt cm with Some e => After now (utc e) | None => false end
  then quietly (UpdateCampaignStatus (cm_ID cm) CampaignCompleted)
  else if cm_IntervalMinutes cm <? 1 then ret tt
  else if negb (in_window cm now) then cutOffCampaign cm
  else
  (r <- try (ListAdsByCampaign (cm_ID cm)) ;;
   match r with
   | Err _ | Ok [] => ret tt
   | Ok ads =>
       (channels <- resolveChannels cm ;;
        match channels with
        | [] => ret tt
        | _ =>
            let windowStart := window_start cm now in
            match nth_ad ads (rotation cm now windowStart ads) with
            | None => panic
            | Some ad => for_each (plan_channel cm ad now windowStart reminderLead) channels
            end
        end)
   end)%eff.

Definition planCampaigns : MM unit :=
  (r <- try ListActiveCampaigns ;;
   match r with
   | Err _ => ret tt
   | Ok campaigns =>
       (n <- now ;;
        st <- GetSettings ;;
        for_each (plan_campaign (local n) (bs_ReminderMinutesBefore st)) campaigns)
   end)%eff.

(** * The jobs *)

Definition reply_index (ad : Advertisement) (idx : Z) : option AdReply :=
  if (0 <=? idx) && (idx <? Z.of_nat (length (ad_Replies ad))) then nth_error (ad_Replies ad) (Z.to_nat idx) else None.

(** Sends a fixed advertisement again that is no longer the last message. *)
Definition repost (ch : Channel) (justPostedMsgID : Z) (res : Reservation) : MM unit :=
  match List.last (map Some (rs_LiveMessageIDs res)) None with
  | None => ret tt
  | Some currentTop =>
      if currentTop =? justPostedMsgID then ret tt
      else
      (r <- try (FindAd (rs_AdvertisementID res)) ;;
       match r with
       | Err _ => ret tt
       | Ok ad =>
           if negb (ad_KeepAsLastMessage ad) then ret tt
           else
           let srcMsgID := match reply_index ad (rs_CurrentReplyIndex res) with
                           | Some rep => rp_MessageID rep | None => ad_MainMessageID ad end in
           (m <- try (bot_Copy (ch_TelegramID ch) (ad_SourceChatID ad) srcMsgID None) ;;
            match m with
            | Err _ => ret tt
            | Ok newMsg =>
                ((if ad_DeletePreviousOnRepost ad
                  then for_each (fun mid => quietly (bot_Delete (ch_TelegramID ch) mid)) (rs_LiveMessageIDs res) else ret tt) ;;
                 (if ad_PinMessage ad then quietly (bot_Pin (ch_TelegramID ch) newMsg) else ret tt) ;;
                 quietly (SetReservationLiveMessage (rs_ID res) [newMsg]))
            end)
       end)%eff
  end.
Definition afterPost (ch : Channel) (justPostedMsgID : Z) : MM unit :=
  (r <- try (ListLiveReservationsByChannel (ch_ID ch)) ;;
   match r with Err _ => ret tt | Ok live => for_each (repost ch justPostedMsgID) live end)%eff.

Definition sendAd (job : ScheduledJob) : MM unit :=
  (ad <- FindAd (jb_AdvertisementID job) ;;
   ch <- FindChannel (jb_ChannelID job) ;;
   c <- try (FindCampaign (jb_CampaignID job)) ;;
   match c with
   | Err _ => ret tt
   | Ok cm =>
       (main <- bot_Copy (ch_TelegramID ch) (ad_SourceChatID ad) (ad_MainMessageID ad) None ;;
        (if negb (jb_Payload job =? "")%string then quietly (SetReservationMainPosted (jb_Payload job) main) else ret tt) ;;
        quietly (IncrCampaignImpressions (jb_CampaignID job)) ;;
        afterPost ch main ;;
        n <- now ;;
        (if (0 <? cm_DeleteAfterMinutes cm) && negb (jb_Payload job =? "")%string then
           let deleteAt := n + minutes (cm_DeleteAfterMinutes cm) in
           (quietly (CreateJob JobTypeDeletePost (jb_CampaignID job) "" (jb_ChannelID job) deleteAt (jb_Payload job)) ;;
            quietly (SetReservationDeleteAt (jb_Payload job) deleteAt))
         else ret tt) ;;
        (if (0 <? length (ad_Replies ad))%nat then
           quietly (CreateJob JobTypeSendReply (jb_CampaignID job) (ad_ID ad) (jb_ChannelID job)
                      (n + minutes (cm_IntervalMinutes cm)) (jb_Payload job +:+ "|0"))
         else ret tt))
   end)%eff.

(** strings.LastIndex(s, c) *)
Fixpoint last_index (c : ascii) (s : string) : option nat :=
  match s with
  | EmptyString => None
  | String d s => match last_index c s with
                  | Some i => Some (S i)
                  | None => if Ascii.eqb d c then Some O else None
                  end
  end.
Definition splitReplyPayload (p : string) : option (string * Z) :=
  match last_index "|" p with
  | None => None
  | Some i => match ParseInt 10 (drop_chars (S i) p) with
              | Some idx => Some (substring 0 i p, idx)
              | None => None
              end
  end.

Definition sendReply (job : ScheduledJob) : MM unit :=
  match splitReplyPayload (jb_Payload job) with
  | None => ret tt
  | Some (resID, idx) =>
      (r <- try (FindReservation resID) ;;
       match r with
       | Err _ => ret tt
       | Ok res =>
           match rs_LiveMessageIDs res with
           | [] => ret tt
           | mainID :: rest =>
               (a <- try (FindAd (jb_AdvertisementID job)) ;;
                match a with
                | Err _ => ret tt
                | Ok ad =>
                    if Z.of_nat (length (ad_Replies ad)) <=? idx then ret tt
                    else
                    (ch <- FindChannel (jb_ChannelID job) ;;
                     (match rest with
                      | previous :: _ => quietly (bot_Delete (ch_TelegramID ch) previous)
                      | [] => ret tt end) ;;
                     match reply_index ad idx with
                     | None => panic
                     | Some reply =>
                         (m <- bot_Copy (ch_TelegramID ch) (ad_SourceChatID ad) (rp_MessageID reply) (Some mainID) ;;
                          quietly (SetReservationReplyPosted resID m idx) ;;
                          afterPost ch m ;;
                          n <- now ;;
                          let dur := minutes (rp_DurationMinutes reply) in
                          if i64_add idx 1 <? Z.of_nat (length (ad_Replies ad)) then
                            quietly (CreateJob JobTypeSendReply (jb_CampaignID job) (ad_ID ad) (jb_ChannelID job) (n + dur)
                                       (resID +:+ "|" +:+ FormatInt 10 (i64_add idx 1)))
                          else
                            let deleteAt := n + dur in
                            (quietly (CreateJob JobTypeDeletePost (jb_CampaignID job) "" (jb_ChannelID job) deleteAt resID) ;;
                             quietly (SetReservationDeleteAt resID deleteAt)))
                     end)
                end)
           end
       end)%eff
  end.

Definition endCycle (resID channelID : string) : MM unit :=
  (r <- try (FindReservation resID) ;;
   match r with
   | Err _ => ret tt
   | Ok res =>
       (ch <- try (FindChannel channelID) ;;
        match ch with
        | Ok ch => for_each (fun mid => quietly (bot_Delete (ch_TelegramID ch) mid)) (rs_LiveMessageIDs res)
        | Err _ => ret tt
        end ;;
        quietly (MarkReservationExpired resID) ;;
        quietly (CancelReservationJobs resID))
   end)%eff.
Definition deletePost (job : ScheduledJob) : MM unit :=
  if (jb_Payload job =? "")%string then ret tt else endCycle (jb_Payload job) (jb_ChannelID job).

Definition updateStats (job : ScheduledJob) : MM unit :=
  (channels <- ListChannels (Some ChannelActive) 1 200 ;;
   for_each (fun ch =>
     (n <- try (bot_Len (ch_TelegramID ch)) ;;
      match n with
      | Err _ => ret tt
      | Ok n => quietly (UpdateChannelStats (ch_ID ch) n (ch_AvgViews ch) (ch_EngageRate ch))
      end)%eff) channels)%eff.

Definition endCampaign (job : ScheduledJob) : MM unit :=
  if (jb_CampaignID job =? "")%string then ret tt else UpdateCampaignStatus (jb_CampaignID job) CampaignCompleted.

(** time.Time.Format("15:04") *)
Definition two_digits (n : Z) : string := (if n <? 10 then "0" else "") +:+ FormatInt 10 n.
Definition Format_15_04 (t : Time) : string := two_digits (Hour t) +:+ ":" +:+ two_digits (Minute t).

Definition sendReminder (job : ScheduledJob) : MM unit :=
  if ownerID =? 0 then ret tt
  else
  (a <- try (FindAd (jb_AdvertisementID job)) ;;
   match a with
   | Err _ => ret tt
   | Ok ad =>
       (c <- try (FindChannel (jb_ChannelID job)) ;;
        match c with
        | Err _ => ret tt
        | Ok ch =>
            (r <- try (FindReservation (jb_Payload job)) ;;
             match r with
             | Err _ => ret tt
             | Ok res => bot_Send ownerID "reminder"
                 [AStr (Format_15_04 (utc (rs_ScheduledAt res))); AStr (ad_Name ad); AStr (ch_Title ch)]
             end)
        end)
   end)%eff.

Definition runJob (job : ScheduledJob) : MM unit :=
  (let outcome := fun m =>
     (r <- try m ;;
      match r with
      | Ok _ => quietly (MarkJobDone (jb_ID job))
      | Err e =>
          if jb_Attempts job <? jb_MaxAttempts job then
            (n <- now ;; quietly (RetryJob (jb_ID job) (n + i64_mul (i64_add (jb_Attempts job) 1) (5 * minute))))
          else
            (quietly (MarkJobFailed (jb_ID job) e) ;;
             if negb (jb_Payload job =? "")%string then quietly (MarkReservationFailed (jb_Payload job) e) else ret tt)
      end)%eff in
   match jb_Type job with
   | JobTypeSendAd => outcome (sendAd job)
   | JobTypeSendReply => outcome (sendReply job)
   | JobTypeDeletePost => outcome (deletePost job)
   | JobTypeUpdateStats => outcome (updateStats job)
   | JobTypeEndCampaign => outcome (endCampaign job)
   | JobTypeReminder => outcome (sendReminder job)
   | JobTypeOther _ => quietly (MarkJobDone (jb_ID job))
   end)%eff.

(** * The loop *)

(** [go s.runJob(job)] *)
Definition go_runJob (job : ScheduledJob) : MM unit :=
  mod_ext (fun w => set_w_running (fun l => l ++ [job]) (set_w_started (fun l => l ++ [jb_ID job]) w)).

Definition scheduler_tick : MM unit :=
  (r <- try FetchDueJobs ;;
   match r with
   | Err _ => ret tt
   | Ok jobs => for_each (fun job =>
       (m <- try (MarkJobRunning (jb_ID job)) ;;
        match m with Err _ => ret tt | Ok _ => go_runJob job end)%eff) jobs
   end ;;
   planCampaigns)%eff.

(** The [i]-th of the goroutines that are under way runs to its end. *)
Definition run_nth (i : nat) : MM unit :=
  (w <- get_ext ;;
   match w_running w !! i with
   | None => ret tt
   | Some job => (mod_ext (set_w_running (fun l => firstn i l ++ skipn (S i) l)) ;; runJob job)
   end)%eff.
End scheduler.
