(* ===== verification/AdmBot.v ===== *)
(** admanager-bot: internal/tgbot, the owner's conversations and buttons. Texts
    are tags with the arguments of the Go text; keyboards are left out. *)
From S2P Require Import Prelude GoInt GoFloat GoString GoText Effects PayModels PayChain AdmModels AdmStore AdmScheduler.

(** A chat as Telegram describes it. *)
Record ChatInfo := { ci_ID : Z; ci_IsChannel : bool; ci_Username : string; ci_Title : string }.

(** What Telegram says of a user name and of the bot's own role in a chat. *)
Class AdmDirectory := { tg_chat_by_username : nat -> string -> option ChatInfo; tg_bot_is_admin : nat -> Z -> bool }.

(** A message: where it was sent, its id, and the channel it was forwarded from. *)
Record TgMessage := { ms_Chat : Z; ms_Private : bool; ms_ID : Z; ms_Text : string; ms_Original : option ChatInfo }.

Inductive AdmUpdate :=
| UpCommand (uid : Z) (command : string)
| UpText (uid : Z) (msg : TgMessage)
| UpMedia (uid : Z) (msg : TgMessage)
| UpCallback (uid : Z) (callback_data : string).

(** * internal/tgbot/keyboards.go and consts.go *)

Definition btnCancel : string := "❌ لغو".
Definition btnBack : string := "🔙 بازگشت".
Definition btnChannels : string := "📡 کانال‌ها".
Definition btnCampaigns : string := "📋 کمپین‌ها".
Definition btnNewCampaign : string := "➕ کمپین جدید".
Definition btnSchedule : string := "🗓 زمان‌بندی".
Definition btnStats : string := "📈 آمار".
Definition btnTemplates : string := "🧩 قالب‌ها".
Definition btnSettings : string := "⚙️ تنظیمات".
Definition btnHelp : string := "❓ راهنما".
Definition isMainMenuButton (text : string) : bool :=
  existsb (String.eqb text)
    [btnChannels; btnCampaigns; btnNewCampaign; btnSchedule; btnStats; btnTemplates; btnSettings; btnHelp].
Definition listPageSize : Z := 50.
Definition statsScanLimit : Z := 1000.

(** * internal/tgbot/handler_schedule.go: the projected slots of a day *)

Record scheduleSlot := { sl_At : Time; sl_Ad : Advertisement; sl_CampaignName : string }.

Section slots.
Context {FP : F64Platform}.
(** The loop stops itself after 301 slots; [None] is a panic of [ads[idx]]. *)
Fixpoint slots_from (fuel : nat) (cm : Campaign) (ads : list Advertisement) (cycle : Z) (winStart winEnd t : Time)
    (slots : list scheduleSlot) : option (list scheduleSlot) :=
  match fuel with
  | O => Some slots
  | S fuel =>
      if negb (Before t winEnd) then Some slots
      else
      match nth_ad ads (rotation cm t winStart ads) with
      | None => None
      | Some ad =>
          let slots := slots ++ [{| sl_At := t; sl_Ad := ad; sl_CampaignName := cm_Name cm |}] in
          if (300 <? length slots)%nat then Some slots
          else slots_from fuel cm ads cycle winStart winEnd (time_Add t cycle) slots
      end
  end.
Definition maxReplies (ads : list Advertisement) : Z :=
  fold_left (fun n ad => Z.max n (Z.of_nat (length (ad_Replies ad)))) ads 0.
Definition view_gap (cm : Campaign) (ads : list Advertisement) : Z :=
  minutes (i64_mul (cm_IntervalMinutes cm) (i64_add (maxReplies ads) 1)).
Definition projectCampaignSlots (cm : Campaign) (ads : list Advertisement) (t : Time) : option (list scheduleSlot) :=
  if (cm_IntervalMinutes cm <? 1) || (length ads =? 0)%nat then Some []
  else
  let '(winStart, winEnd) := DailyWindowBounds t (cm_StartHour cm) (cm_StartMinute cm) (cm_EndHour cm) (cm_EndMinute cm) in
  if view_gap cm ads <=? 0 then Some []
  else slots_from 301 cm ads (view_gap cm ads) winStart winEnd winStart [].
End slots.

Section bot.
Context {ENV : Env} {LIB : Lib} {FP : F64Platform} {TG : AdmTelegram} {DIR : AdmDirectory}.
Context (ownerID local_zone : Z) (has_cache : bool).
Abbreviation MM := (M AdmTables AdmWorld).

Definition out (o : outgoing) : MM unit := mod_ext (set_w_out (fun l => l ++ [o])).
Definition send (uid : Z) (text : string) (args : list fmtarg) : MM unit := out (Send uid text args).
Definition edit (uid : Z) (text : string) (args : list fmtarg) : MM unit := out (Edit uid text args).
Definition respond (uid : Z) (text : string) : MM unit := out (Respond uid text).

(** * internal/tgbot/state.go *)

Definition stateTTL : Z := 15 * minute.
Definition no_state : userState := {| Step := stepIdle; Data := ∅ |}.

(** One Redis command; its error is dropped. *)
Definition redis_get {A} (get : AdmWorld -> option (A * Z)) (default : A) : MM A := fun s =>
  if negb has_cache then (Ok default, s)
  else (Ok match env_fault (tick s), get (ext s) with
           | None, Some (v, expires) => if env_now (tick s) <? expires then v else default
           | _, _ => default
           end, bump s).
Definition redis_set (put : Z -> AdmWorld -> AdmWorld) : MM unit := fun s =>
  if negb has_cache then (Ok tt, s)
  else (Ok tt, mkSt (S (tick s)) (tx s) (db s)
                 (match env_fault (tick s) with None => put (env_now (tick s) + stateTTL) (ext s) | Some _ => ext s end)).

Definition getState (uid : Z) : MM userState := redis_get (fun w => w_states w !! uid) no_state.
Definition setState (uid : Z) (st : userState) : MM unit := redis_set (fun t => set_w_states <[uid := (st, t)]>).
Definition setStep (uid : Z) (s : step_name) : MM unit := setState uid {| Step := s; Data := ∅ |}.
Definition setStepData (uid : Z) (s : step_name) (key val : string) : MM unit :=
  (st <- getState uid ;; setState uid {| Step := s; Data := <[key := val]> (Data st) |})%eff.
Definition clearState (uid : Z) : MM unit := redis_set (fun _ => set_w_states (delete uid)).
Definition setCtx (uid : Z) (kind val : string) : MM unit := redis_set (fun t => set_w_ctx <[(uid, kind) := (val, t)]>).
Definition getCtx (uid : Z) (kind : string) : MM string := redis_get (fun w => w_ctx w !! (uid, kind)) ""%string.
Definition data (st : userState) (k : string) : string := default ""%string (Data st !! k).

Definition isAdmin (uid : Z) : bool := uid =? ownerID.
Definition audit (uid : Z) (action targetType targetID desc : string) : MM unit :=
  quietly (LogAudit action uid targetID targetType desc).

(** * internal/tgbot/handler_campaign.go *)

Definition status_arg (s : CampaignStatus) : fmtarg :=
  AStr (match s with CampaignDraft => "draft" | CampaignRunning => "running" | CampaignPaused => "paused"
        | CampaignCompleted => "completed" | CampaignCancelled => "cancelled" end).
(** The filter button's argument; another text matches no campaign. *)
Definition filter_of (arg : string) : option (option CampaignStatus) :=
  if (arg =? "")%string then Some None
  else if (arg =? "running")%string then Some (Some CampaignRunning)
  else if (arg =? "draft")%string then Some (Some CampaignDraft)
  else if (arg =? "paused")%string then Some (Some CampaignPaused)
  else if (arg =? "completed")%string then Some (Some CampaignCompleted)
  else if (arg =? "cancelled")%string then Some (Some CampaignCancelled)
  else None.

Definition renderCampaigns (arg : string) : MM (list fmtarg) :=
  (l <- try (match filter_of arg with Some f => ListCampaigns f 1 listPageSize | None => find (fun _ => []) end) ;;
   ret (flat_map (fun c => [status_arg (cm_Status c); AStr (cm_Name c)]) (match l with Ok l => l | Err _ => [] end)))%eff.
Definition campaignsHome (uid : Z) : MM unit := (l <- renderCampaigns "" ;; send uid "campaigns" l)%eff.
Definition campaignsList (uid : Z) (arg : string) : MM unit := (l <- renderCampaigns arg ;; edit uid "campaigns" l)%eff.

Definition names_of (tags : list Tag) (ids : list string) : list string :=
  map tg_Name (List.filter (fun t => existsb (String.eqb (tg_ID t)) ids) tags).
Definition renderCampaignView (id : string) : MM (option (list fmtarg)) :=
  (r <- try (FindCampaign id) ;;
   match r with
   | Err _ => ret None
   | Ok cm =>
       (tags <- try ListTags ;;
        ads <- try (ListAdsByCampaign id) ;;
        ret (Some [AStr (cm_Name cm); status_arg (cm_Status cm); AInt (cm_StartHour cm); AInt (cm_StartMinute cm);
          AInt (cm_EndHour cm); AInt (cm_EndMinute cm); AInt (cm_IntervalMinutes cm); AInt (cm_DeleteAfterMinutes cm);
          AInt (cm_RotationMinutes cm);
          AStr (Join "، " (names_of (match tags with Ok l => l | Err _ => [] end) (cm_TargetTagIDs cm)));
          AInt (Z.of_nat (length (cm_TargetChannelIDs cm)));
          AInt (Z.of_nat (length (match ads with Ok l => l | Err _ => [] end))); AInt (cm_TotalImpressions cm); AStr (cm_ID cm)]))
   end)%eff.
Definition campaignView (uid : Z) (id : string) : MM unit :=
  (v <- renderCampaignView id ;;
   match v with Some args => edit uid "campaign" args | None => edit uid "campaign not found" [] end)%eff.
Definition sendCampaignView (uid : Z) (id : string) : MM unit :=
  (v <- renderCampaignView id ;;
   match v with Some args => send uid "campaign" args | None => send uid "campaign not found" [] end)%eff.

Inductive status_action := ActStart | ActPause | ActResume | ActCancel.
Definition campaignSetStatus (uid : Z) (id : string) (action : status_action) : MM unit :=
  (r <- try (FindCampaign id) ;;
   match r with
   | Err _ => respond uid "campaign not found"
   | Ok cm =>
       match action with
       | ActStart =>
           (ads <- try (ListAdsByCampaign id) ;;
            match ads with
            | Err _ | Ok [] => respond uid "add an ad first"
            | Ok _ =>
                match cm_TargetTagIDs cm, cm_TargetChannelIDs cm with
                | [], [] => respond uid "choose a target first"
                | _, _ => (quietly (UpdateCampaignStatus id CampaignRunning) ;;
                           audit uid "campaign.create" "campaign" id "start" ;; campaignView uid id)
                end
            end)
       | ActPause => (quietly (UpdateCampaignStatus id CampaignPaused) ;;
                      audit uid "campaign.pause" "campaign" id "pause" ;; campaignView uid id)
       | ActResume => (quietly (UpdateCampaignStatus id CampaignRunning) ;;
                       audit uid "campaign.resume" "campaign" id "resume" ;; campaignView uid id)
       | ActCancel => (quietly (UpdateCampaignStatus id CampaignCancelled) ;;
                       quietly (CancelCampaignJobs id) ;;
                       quietly (CancelCampaignReservations id) ;;
                       audit uid "campaign.end" "campaign" id "cancel" ;; campaignView uid id)
       end
   end)%eff.
Definition campaignDelete (uid : Z) (id : string) : MM unit :=
  (quietly (CancelCampaignJobs id) ;;
   quietly (CancelCampaignReservations id) ;;
   quietly (DeleteCampaign id) ;;
   campaignsList uid "")%eff.

Definition with_campaign (name : string) (tags chans : list string) (c : Campaign) : Campaign := {|
  cm_ID := cm_ID c; cm_Name := name; cm_Status := cm_Status c; cm_StartHour := cm_StartHour c; cm_StartMinute := cm_StartMinute c;
  cm_EndHour := cm_EndHour c; cm_EndMinute := cm_EndMinute c; cm_IntervalMinutes := cm_IntervalMinutes c;
  cm_DeleteAfterMinutes := cm_DeleteAfterMinutes c; cm_RotationMinutes := cm_RotationMinutes c; cm_EndAt := cm_EndAt c;
  cm_TargetTagIDs := tags; cm_TargetChannelIDs := chans; cm_MinMemberCount := cm_MinMemberCount c;
  cm_TotalImpressions := cm_TotalImpressions c; cm_CreatedAt := cm_CreatedAt c; cm_DeletedAt := cm_DeletedAt c |}.
Definition with_schedule (sc : Schedule) (c : Campaign) : Campaign := {|
  cm_ID := cm_ID c; cm_Name := cm_Name c; cm_Status := cm_Status c; cm_StartHour := sc_StartHour sc; cm_StartMinute := sc_StartMinute sc;
  cm_EndHour := sc_EndHour sc; cm_EndMinute := sc_EndMinute sc; cm_IntervalMinutes := sc_Interval sc;
  cm_DeleteAfterMinutes := sc_DeleteAfter sc; cm_RotationMinutes := sc_Rotation sc; cm_EndAt := cm_EndAt c;
  cm_TargetTagIDs := cm_TargetTagIDs c; cm_TargetChannelIDs := cm_TargetChannelIDs c; cm_MinMemberCount := cm_MinMemberCount c;
  cm_TotalImpressions := cm_TotalImpressions c; cm_CreatedAt := cm_CreatedAt c; cm_DeletedAt := cm_DeletedAt c |}.

(** An element is taken out, every time it occurs, or appended. *)
Definition toggle (x : string) (l : list string) : list string :=
  if existsb (String.eqb x) l then List.filter (fun y => negb (String.eqb x y)) l else l ++ [x].

Definition campaignTagsView (uid : Z) (id : string) : MM unit :=
  (r <- try (FindCampaign id) ;;
   match r with
   | Err _ => edit uid "campaign not found" []
   | Ok cm => (setCtx uid "cmp" id ;; tags <- try ListTags ;;
               edit uid "target tags" (map AStr (names_of (match tags with Ok l => l | Err _ => [] end) (cm_TargetTagIDs cm))))
   end)%eff.
Definition campaignTagToggle (uid : Z) (tid : string) : MM unit :=
  (cid <- getCtx uid "cmp" ;;
   r <- try (FindCampaign cid) ;;
   match r with
   | Err _ => respond uid "campaign not found"
   | Ok cm => (quietly (UpdateCampaign cid (fun c => with_campaign (cm_Name c) (toggle tid (cm_TargetTagIDs cm)) (cm_TargetChannelIDs c) c)) ;;
               campaignTagsView uid cid)
   end)%eff.
Definition campaignChannelsView (uid : Z) (id : string) : MM unit :=
  (r <- try (FindCampaign id) ;;
   match r with
   | Err _ => edit uid "campaign not found" []
   | Ok cm => (setCtx uid "cmp" id ;; chs <- try (ListChannels (Some ChannelActive) 1 listPageSize) ;;
               edit uid "target channels" (map (fun c => AStr (ch_Title c)) (match chs with Ok l => l | Err _ => [] end)))
   end)%eff.
Definition campaignChannelToggle (uid : Z) (chID : string) : MM unit :=
  (cid <- getCtx uid "cmp" ;;
   r <- try (FindCampaign cid) ;;
   match r with
   | Err _ => respond uid "campaign not found"
   | Ok cm => (quietly (UpdateCampaign cid (fun c => with_campaign (cm_Name c) (cm_TargetTagIDs c) (toggle chID (cm_TargetChannelIDs cm)) c)) ;;
               campaignChannelsView uid cid)
   end)%eff.

Definition campaignEditNameStart (uid : Z) (id : string) : MM unit :=
  (setState uid {| Step := stepCampaignEditName; Data := {["cid" := id]} |} ;; edit uid "name?" [])%eff.
Definition handleCampaignEditName (uid : Z) (st : userState) (text : string) : MM unit :=
  let name := TrimSpace text in
  if (name =? "")%string then send uid "name empty" []
  else
  let id := data st "cid" in
  (clearState uid ;;
   r <- try (UpdateCampaign id (fun c => with_campaign name (cm_TargetTagIDs c) (cm_TargetChannelIDs c) c)) ;;
   match r with
   | Err _ => send uid "error" []
   | Ok _ => (send uid "name updated" [] ;; sendCampaignView uid id)
   end)%eff.
Definition campaignEditSchedStart (uid : Z) (id : string) : MM unit :=
  (setState uid {| Step := stepCampaignEditSchedule; Data := {["cid" := id]} |} ;; edit uid "schedule?" [])%eff.
Definition handleCampaignEditSchedule (uid : Z) (st : userState) (text : string) : MM unit :=
  match ParseSchedule text with
  | None => send uid "schedule malformed" []
  | Some sc =>
      let id := data st "cid" in
      (clearState uid ;;
       r <- try (UpdateCampaign id (with_schedule sc)) ;;
       match r with
       | Err _ => send uid "error" []
       | Ok _ => (send uid "schedule updated" [] ;; sendCampaignView uid id)
       end)%eff
  end.

Definition handleCampaignName (uid : Z) (text : string) : MM unit :=
  let name := TrimSpace text in
  if (name =? "")%string then send uid "name empty" []
  else (setStepData uid stepCampaignSchedule "name" name ;; send uid "schedule?" [])%eff.

Definition empty_campaign : Campaign := {|
  cm_ID := ""; cm_Name := ""; cm_Status := CampaignDraft; cm_StartHour := 0; cm_StartMinute := 0; cm_EndHour := 0; cm_EndMinute := 0;
  cm_IntervalMinutes := 0; cm_DeleteAfterMinutes := 0; cm_RotationMinutes := 0; cm_EndAt := None; cm_TargetTagIDs := [];
  cm_TargetChannelIDs := []; cm_MinMemberCount := 0; cm_TotalImpressions := 0; cm_CreatedAt := 0; cm_DeletedAt := None |}.
Definition handleCampaignSchedule (uid : Z) (st : userState) (text : string) : MM unit :=
  match ParseSchedule text with
  | None => send uid "schedule malformed" []
  | Some sc =>
      let name := data st "name" in
      (r <- try (CreateCampaign (with_schedule sc (with_campaign name [] [] empty_campaign))) ;;
       match r with
       | Err _ => (clearState uid ;; send uid "campaign failed" [])
       | Ok id => (clearState uid ;; audit uid "campaign.create" "campaign" id ("create " +:+ name) ;;
                   send uid "campaign created" [AStr name])
       end)%eff
  end.

(** * internal/tgbot/handler_ad.go *)

Definition adList (uid : Z) (campaignID : string) : MM unit :=
  (r <- try (ListAdsByCampaign campaignID) ;;
   edit uid "ads" (flat_map (fun a => [AStr (ad_Name a); AInt (Z.of_nat (length (ad_Replies a)))])
                     (match r with Ok l => l | Err _ => [] end)))%eff.
Definition adNewMenu (uid : Z) (campaignID : string) : MM unit := edit uid "ad new" [AStr campaignID].
Definition ad_args (ad : Advertisement) : list fmtarg :=
  [AStr (ad_Name ad); AInt (Z.of_nat (length (ad_Replies ad))); AInt (if ad_KeepAsLastMessage ad then 1 else 0);
   AInt (if ad_PinMessage ad then 1 else 0); AStr (ad_ID ad)].
Definition adView (uid : Z) (id : string) : MM unit :=
  (r <- try (FindAd id) ;;
   match r with Err _ => edit uid "ad not found" [] | Ok ad => edit uid "ad" (ad_args ad) end)%eff.
Definition sendAdView (uid : Z) (id : string) : MM unit :=
  (r <- try (FindAd id) ;;
   match r with Err _ => send uid "ad not found" [] | Ok ad => send uid "ad" (ad_args ad) end)%eff.

Definition adNew (uid : Z) (mode campaignID : string) : MM unit :=
  (setState uid {| Step := stepAdName; Data := <["campaign_id" := campaignID]> {["mode" := mode]} |} ;; edit uid "ad name?" [])%eff.
Definition handleAdName (uid : Z) (st : userState) (text : string) : MM unit :=
  let name := TrimSpace text in
  if (name =? "")%string then send uid "name empty" []
  else (setState uid {| Step := stepAdMain; Data := <["name" := name]> (Data st) |} ;; send uid "ad main?" [])%eff.

Definition handleAdMain (uid : Z) (msg : TgMessage) (st : userState) : MM unit :=
  (r <- try (CreateAd (data st "campaign_id") (data st "name") (ms_Chat msg) (ms_ID msg)) ;;
   match r with
   | Err _ => (clearState uid ;; send uid "ad failed" [])
   | Ok id =>
       if (data st "mode" =? "simple")%string then (clearState uid ;; send uid "simple ad saved" [AStr (data st "name")])
       else (setState uid {| Step := stepAdReplies; Data := <["ad_id" := id]> (Data st) |} ;; send uid "replies?" [])
   end)%eff.

Definition adAttachPickList (uid : Z) (campaignID : string) : MM unit :=
  (r <- try (ListAdsByCampaign campaignID) ;;
   edit uid "attach to?" (map (fun a => AStr (ad_Name a)) (match r with Ok l => l | Err _ => [] end)))%eff.
(** adAttachPick and adReplyAddStart, which differ in the text. *)
Definition adReplyStart (uid : Z) (prompt adID : string) : MM unit :=
  (r <- try (FindAd adID) ;;
   match r with
   | Err _ => respond uid "ad not found"
   | Ok ad => (setState uid {| Step := stepAdReplies; Data := <["ad_id" := adID]> {["campaign_id" := ad_CampaignID ad]} |} ;;
               edit uid prompt [AStr (ad_Name ad)])
   end)%eff.

Definition adFinish (uid : Z) (st : userState) : MM unit :=
  (clearState uid ;;
   r <- try (FindAd (data st "ad_id")) ;;
   send uid "ad saved" [AStr (match r with Ok ad => ad_Name ad | Err _ => ""%string end)])%eff.
Definition handleAdReplies (uid : Z) (msg : TgMessage) (st : userState) : MM unit :=
  let t := TrimSpace (ms_Text msg) in
  if existsb (String.eqb t) ["/done"; "تمام"; "پایان"]%string then adFinish uid st
  else (setState uid {| Step := stepAdReplyMinutes; Data := <["pending_reply_msg_id" := FormatInt 10 (ms_ID msg)]> (Data st) |} ;;
        send uid "minutes?" [])%eff.
Definition handleAdReplyMinutes (uid : Z) (st : userState) (text : string) : MM unit :=
  let bad := send uid "minutes malformed" [] in
  match ParseInt 10 (TrimSpace (NormalizeDigits text)) with
  | None => bad
  | Some dur =>
      if dur <? 1 then bad
      else
      let msgID := ParseInt_value 10 (data st "pending_reply_msg_id") in
      let adID := data st "ad_id" in
      (r <- try (AppendAdReply adID msgID dur) ;;
       match r with
       | Err _ => send uid "reply failed" []
       | Ok _ =>
           (setState uid {| Step := stepAdReplies; Data := delete "pending_reply_msg_id" (Data st) |} ;;
            a <- try (FindAd adID) ;;
            send uid "reply added" [AInt (match a with Ok ad => Z.of_nat (length (ad_Replies ad)) | Err _ => 0 end); AInt dur])
       end)%eff
  end.
Definition adDone (uid : Z) : MM unit :=
  (st <- getState uid ;;
   if bool_decide (Step st = stepAdReplies) then (respond uid "saved" ;; adFinish uid st) else respond uid "")%eff.

Definition adEditStart (uid : Z) (s : step_name) (id : string) : MM unit :=
  (setState uid {| Step := s; Data := {["ad_id" := id]} |} ;; edit uid "ad edit?" [])%eff.
Definition with_name (name : string) (a : Advertisement) : Advertisement := {|
  ad_ID := ad_ID a; ad_CampaignID := ad_CampaignID a; ad_Name := name; ad_SourceChatID := ad_SourceChatID a;
  ad_MainMessageID := ad_MainMessageID a; ad_Replies := ad_Replies a; ad_KeepAsLastMessage := ad_KeepAsLastMessage a;
  ad_PinMessage := ad_PinMessage a; ad_DeletePreviousOnRepost := ad_DeletePreviousOnRepost a; ad_IsActive := ad_IsActive a |}.
Definition ad_edited (uid : Z) (id : string) (m : MM unit) : MM unit :=
  (clearState uid ;;
   r <- try m ;;
   match r with Err _ => send uid "error" [] | Ok _ => (send uid "ad updated" [] ;; sendAdView uid id) end)%eff.
Definition handleAdEditName (uid : Z) (st : userState) (text : string) : MM unit :=
  let name := TrimSpace text in
  if (name =? "")%string then send uid "name empty" []
  else ad_edited uid (data st "ad_id") (UpdateAd (data st "ad_id") (with_name name)).
Definition handleAdEditMain (uid : Z) (msg : TgMessage) (st : userState) : MM unit :=
  ad_edited uid (data st "ad_id") (ReplaceAdMain (data st "ad_id") (ms_ID msg)).

Definition adRepliesView (uid : Z) (id : string) : MM unit :=
  (r <- try (FindAd id) ;;
   match r with
   | Err _ => edit uid "ad not found" []
   | Ok ad => (setCtx uid "ad" id ;; edit uid "replies" (map (fun r => AInt (rp_DurationMinutes r)) (ad_Replies ad)))
   end)%eff.
Definition adReplyDelete (uid : Z) (idxStr : string) : MM unit :=
  (id <- getCtx uid "ad" ;;
   r <- try (FindAd id) ;;
   match r with
   | Err _ => respond uid "ad not found"
   | Ok ad =>
       match ParseInt 10 idxStr with
       | None => respond uid ""
       | Some idx =>
           if (idx <? 0) || (Z.of_nat (length (ad_Replies ad)) <=? idx) then respond uid ""
           else (quietly (ReplaceAdReplies id (firstn (Z.to_nat idx) (ad_Replies ad) ++ skipn (S (Z.to_nat idx)) (ad_Replies ad))) ;;
                 adRepliesView uid id)
       end
   end)%eff.
(** next[i], next[j] = next[j], next[i] *)
Definition swap_at {A} (i j : nat) (l : list A) : list A :=
  match l !! i, l !! j with
  | Some x, Some y => <[j := x]> (<[i := y]> l)
  | _, _ => l
  end.
Definition adReplyMove (uid : Z) (idxStr : string) (dir : Z) : MM unit :=
  (id <- getCtx uid "ad" ;;
   r <- try (FindAd id) ;;
   match r with
   | Err _ => respond uid "ad not found"
   | Ok ad =>
       match ParseInt 10 idxStr with
       | None => respond uid ""
       | Some idx =>
           let target := i64_add idx dir in
           let n := Z.of_nat (length (ad_Replies ad)) in
           if (idx <? 0) || (n <=? idx) || (target <? 0) || (n <=? target) then respond uid ""
           else (quietly (ReplaceAdReplies id (swap_at (Z.to_nat idx) (Z.to_nat target) (ad_Replies ad))) ;; adRepliesView uid id)
       end
   end)%eff.

Inductive toggle_field := FieldKeep | FieldPin | FieldDelPrev.
Definition toggled (field : toggle_field) (seen a : Advertisement) : Advertisement := {|
  ad_ID := ad_ID a; ad_CampaignID := ad_CampaignID a; ad_Name := ad_Name a; ad_SourceChatID := ad_SourceChatID a;
  ad_MainMessageID := ad_MainMessageID a; ad_Replies := ad_Replies a;
  ad_KeepAsLastMessage := (match field with FieldKeep => negb (ad_KeepAsLastMessage seen) | _ => ad_KeepAsLastMessage a end);
  ad_PinMessage := (match field with FieldPin => negb (ad_PinMessage seen) | _ => ad_PinMessage a end);
  ad_DeletePreviousOnRepost := (match field with FieldDelPrev => negb (ad_DeletePreviousOnRepost seen) | _ => ad_DeletePreviousOnRepost a end);
  ad_IsActive := ad_IsActive a |}.
Definition adSettingsView (uid : Z) (id : string) : MM unit :=
  (r <- try (FindAd id) ;;
   match r with
   | Err _ => edit uid "ad not found" []
   | Ok ad => (setCtx uid "ad" id ;;
       edit uid "ad settings" (map (fun b : bool => AInt (if b then 1 else 0))
         [ad_KeepAsLastMessage ad; ad_PinMessage ad; ad_DeletePreviousOnRepost ad]))
   end)%eff.
Definition adToggleField (uid : Z) (field : toggle_field) : MM unit :=
  (id <- getCtx uid "ad" ;;
   r <- try (FindAd id) ;;
   match r with
   | Err _ => respond uid "ad not found"
   | Ok ad => (quietly (UpdateAd id (toggled field ad)) ;; adSettingsView uid id)
   end)%eff.
Definition adDelete (uid : Z) (id : string) : MM unit :=
  (r <- try (FindAd id) ;;
   quietly (DeleteAd id) ;;
   adList uid (match r with Ok ad => ad_CampaignID ad | Err _ => ""%string end))%eff.

Fixpoint copy_replies (to source main : Z) (l : list AdReply) (posted : list Z) : MM (list Z) :=
  match l with
  | [] => ret posted
  | r :: l =>
      (m <- try (bot_Copy to source (rp_MessageID r) (Some main)) ;;
       copy_replies to source main l (match m with Ok id => posted ++ [id] | Err _ => posted end))%eff
  end.
Definition copyAd (to : Z) (ad : Advertisement) : MM (list Z) :=
  (main <- bot_Copy to (ad_SourceChatID ad) (ad_MainMessageID ad) None ;;
   copy_replies to (ad_SourceChatID ad) main (ad_Replies ad) [main])%eff.
Definition adPreview (uid : Z) (id : string) : MM unit :=
  (r <- try (FindAd id) ;;
   match r with
   | Err _ => respond uid "ad not found"
   | Ok ad =>
       if (ad_SourceChatID ad =? 0) || (ad_MainMessageID ad =? 0) then respond uid "ad incomplete"
       else (p <- try (copyAd uid ad) ;;
             match p with Err _ => respond uid "preview failed" | Ok _ => respond uid "preview sent" end)
   end)%eff.

(** * internal/tgbot/handler_channel.go *)

Definition channel_args (c : Channel) : list fmtarg :=
  [AInt (match ch_Status c with ChannelActive => 0 | ChannelInactive => 1 | ChannelPending => 2 end); AStr (ch_Title c); AInt (ch_MemberCount c)].
Definition renderChannels : MM (list fmtarg) :=
  (r <- try (ListChannels None 1 listPageSize) ;; ret (flat_map channel_args (match r with Ok l => l | Err _ => [] end)))%eff.
Definition channelsHome (uid : Z) : MM unit := (l <- renderChannels ;; send uid "channels" l)%eff.
Definition adminChannelsList (uid : Z) : MM unit := (l <- renderChannels ;; edit uid "channels" l)%eff.
Definition adminChannelView (uid : Z) (id : string) : MM unit :=
  (r <- try (FindChannel id) ;;
   match r with
   | Err _ => edit uid "channel not found" []
   | Ok ch => (tags <- try ListTags ;;
       edit uid "channel" (channel_args ch ++ [AStr (ch_Username ch);
         AStr (Join "، " (names_of (match tags with Ok l => l | Err _ => [] end) (ch_TagIDs ch))); AStr (ch_ID ch)]))
   end)%eff.
Definition adminChannelTagsView (uid : Z) (id : string) : MM unit :=
  (r <- try (FindChannel id) ;;
   match r with
   | Err _ => edit uid "channel not found" []
   | Ok ch => (setCtx uid "ch" id ;; tags <- try ListTags ;;
       edit uid "channel tags" (map AStr (names_of (match tags with Ok l => l | Err _ => [] end) (ch_TagIDs ch))))
   end)%eff.
Definition adminChannelTagToggle (uid : Z) (tID : string) : MM unit :=
  (chID <- getCtx uid "ch" ;;
   r <- try (FindChannel chID) ;;
   match r with
   | Err _ => respond uid "channel not found"
   | Ok ch => (quietly (UpdateChannel chID (fun c => with_channel (ch_Status c) (toggle tID (ch_TagIDs ch)) (ch_DeletedAt c) c)) ;;
               adminChannelTagsView uid chID)
   end)%eff.
Definition adminChannelRefresh (uid : Z) (id : string) : MM unit :=
  (r <- try (FindChannel id) ;;
   match r with
   | Err _ => respond uid "channel not found"
   | Ok ch => (n <- try (bot_Len (ch_TelegramID ch)) ;;
       (match n with Ok n => quietly (UpdateChannelStats id n (ch_AvgViews ch) (ch_EngageRate ch)) | Err _ => ret tt end) ;;
       adminChannelView uid id)
   end)%eff.
Definition adminChannelToggle (uid : Z) (id : string) : MM unit :=
  (r <- try (FindChannel id) ;;
   match r with
   | Err _ => respond uid "channel not found"
   | Ok ch => (quietly (UpdateChannelStatus id (if bool_decide (ch_Status ch = ChannelActive) then ChannelInactive else ChannelActive)) ;;
               adminChannelView uid id)
   end)%eff.
Definition adminChannelDelete (uid : Z) (id : string) : MM unit :=
  (quietly (DeleteChannel id) ;; audit uid "channel.remove" "channel" id "delete" ;; adminChannelsList uid)%eff.

Definition bot_ask {A} (answer : nat -> A) : MM A := fun s =>
  match env_fault (tick s) with Some c => (Err (ErrDriver c), bump s) | None => (Ok (answer (tick s)), bump s) end.
Definition resolveChannelInput (msg : TgMessage) (text : string) : MM (ChatInfo + string) :=
  let checked c := if ci_IsChannel c then inl c else inr "not a channel"%string in
  match ms_Original msg with
  | Some c => ret (checked c)
  | None =>
      let uname := TrimSpace text in
      if (uname =? "")%string then ret (inr "channel not found"%string)
      else
      let uname := if HasPrefix uname "@" then uname else ("@" +:+ uname)%string in
      (r <- try (bot_ask (fun t => tg_chat_by_username t uname)) ;;
       ret (match r with Ok (Some c) => checked c | _ => inr "channel not found"%string end))%eff
  end.
Definition handleChannelAdd (uid : Z) (msg : TgMessage) (text : string) : MM unit :=
  (clearState uid ;;
   r <- resolveChannelInput msg text ;;
   match r with
   | inr e => send uid e []
   | inl chat =>
       (m <- try (bot_ask (fun t => tg_bot_is_admin t (ci_ID chat))) ;;
        match m with
        | Ok true =>
            (existing <- try (FindChannelByTelegramID (ci_ID chat)) ;;
             match existing with
             | Ok _ => send uid "channel exists" []
             | Err _ =>
                 (n <- try (bot_Len (ci_ID chat)) ;;
                  let memberCount := match n with Ok n => n | Err _ => 0 end in
                  c <- try (CreateChannel (ci_ID chat) (TrimPrefix (ci_Username chat) "@") (ci_Title chat) memberCount) ;;
                  match c with
                  | Err _ => send uid "channel failed" []
                  | Ok id => (quietly (UpdateChannelStatus id ChannelActive) ;;
                              audit uid "channel.add" "channel" id ("add " +:+ ci_Title chat) ;;
                              send uid "channel added" [AStr (ci_Title chat); AInt memberCount])
                  end)
             end)
        | _ => send uid "bot is no admin" []
        end)
   end)%eff.

Definition adminTagsList (uid : Z) : MM unit :=
  (r <- try ListTags ;; edit uid "tags" (map (fun t => AStr (tg_Name t)) (match r with Ok l => l | Err _ => [] end)))%eff.
(** slugify; ToLower of ASCII letters. *)
Definition slugify (s : string) : string := Join "-" (Split " " (ToLower (TrimSpace s))).
Definition handleTagAdd (uid : Z) (text : string) : MM unit :=
  (clearState uid ;;
   let name := TrimSpace text in
   if (name =? "")%string then send uid "tag empty" []
   else (r <- try (CreateTag name (slugify name)) ;;
         match r with Err _ => send uid "tag failed" [] | Ok _ => send uid "tag added" [AStr name] end))%eff.
Definition adminTagDelete (uid : Z) (id : string) : MM unit := (quietly (SetTagInactive id) ;; adminTagsList uid)%eff.

(** * internal/tgbot/handler_settings.go *)

Definition settingsHome (uid : Z) : MM unit := (st <- GetSettings ;; send uid "settings" [AInt (bs_ReminderMinutesBefore st)])%eff.
Definition with_reminder (n : Z) (s : BotSettings) : BotSettings := {|
  bs_WelcomeMessage := bs_WelcomeMessage s; bs_HelpMessage := bs_HelpMessage s; bs_ReminderMinutesBefore := n |}.
Definition handleSettingsReminder (uid : Z) (text : string) : MM unit :=
  let bad := send uid "number malformed" [] in
  match ParseInt 10 (TrimSpace (NormalizeDigits text)) with
  | None => bad
  | Some n =>
      if n <? 0 then bad
      else
      (clearState uid ;;
       r <- try (UpdateSettings (with_reminder n)) ;;
       match r with
       | Err _ => send uid "error" []
       | Ok _ => (send uid "saved" [] ;; settingsHome uid)
       end)%eff
  end.

(** * internal/tgbot/handler_template.go *)

Definition renderTemplates : MM (list fmtarg) :=
  (r <- try ListTemplates ;; ret (map (fun t => AStr (tp_Name t)) (match r with Ok l => l | Err _ => [] end)))%eff.
Definition templatesHome (uid : Z) : MM unit := (l <- renderTemplates ;; send uid "templates" l)%eff.
Definition templatesList (uid : Z) : MM unit := (l <- renderTemplates ;; edit uid "templates" l)%eff.
Definition templateView (uid : Z) (id : string) : MM unit :=
  (r <- try (FindTemplate id) ;;
   match r with
   | Err _ => edit uid "template not found" []
   | Ok t => edit uid "template" [AStr (tp_Name t); AInt (tp_StartHour t); AInt (tp_StartMinute t); AInt (tp_EndHour t);
       AInt (tp_EndMinute t); AInt (tp_IntervalMinutes t); AInt (tp_DeleteAfterMinutes t); AInt (tp_RotationMinutes t);
       AInt (tp_MinMemberCount t); AStr (tp_ID t)]
   end)%eff.
Definition templateDelete (uid : Z) (id : string) : MM unit := (quietly (DeleteTemplate id) ;; templatesList uid)%eff.
Definition campaign_of (t : CampaignTemplate) : Campaign := {|
  cm_ID := ""; cm_Name := tp_Name t +:+ " (کپی)"; cm_Status := CampaignDraft; cm_StartHour := tp_StartHour t;
  cm_StartMinute := tp_StartMinute t; cm_EndHour := tp_EndHour t; cm_EndMinute := tp_EndMinute t;
  cm_IntervalMinutes := tp_IntervalMinutes t; cm_DeleteAfterMinutes := tp_DeleteAfterMinutes t;
  cm_RotationMinutes := tp_RotationMinutes t; cm_EndAt := None; cm_TargetTagIDs := tp_TargetTagIDs t; cm_TargetChannelIDs := [];
  cm_MinMemberCount := tp_MinMemberCount t; cm_TotalImpressions := 0; cm_CreatedAt := 0; cm_DeletedAt := None |}.
Definition templateUse (uid : Z) (id : string) : MM unit :=
  (r <- try (FindTemplate id) ;;
   match r with
   | Err _ => respond uid "template not found"
   | Ok t =>
       (c <- try (CreateCampaign (campaign_of t)) ;;
        match c with
        | Err _ => respond uid "error"
        | Ok cid => (audit uid "campaign.create" "campaign" cid "from template" ;; campaignView uid cid)
        end)
   end)%eff.
Definition handleTemplateName (uid : Z) (text : string) : MM unit :=
  (clearState uid ;;
   let name := TrimSpace text in
   if (name =? "")%string then send uid "name empty" []
   else
   (r <- try (CreateTemplate (fun id => {| tp_ID := id; tp_Name := name; tp_StartHour := DefaultStartHour; tp_StartMinute := 0;
        tp_EndHour := DefaultEndHour; tp_EndMinute := 0; tp_IntervalMinutes := DefaultIntervalMinutes; tp_DeleteAfterMinutes := 0;
        tp_RotationMinutes := 0; tp_TargetTagIDs := []; tp_MinMemberCount := 0 |})) ;;
    match r with Err _ => send uid "template failed" [] | Ok _ => send uid "template created" [AStr name] end))%eff.

(** * internal/tgbot/handler_stats.go and the schedule's view *)

Definition renderStats : MM (list fmtarg) :=
  (c <- try (ListChannels None 1 statsScanLimit) ;;
   m <- try (ListCampaigns None 1 statsScanLimit) ;;
   let channels := match c with Ok l => l | Err _ => [] end in
   let campaigns := match m with Ok l => l | Err _ => [] end in
   ret [AInt (Z.of_nat (length channels));
        AInt (Z.of_nat (length (List.filter (fun c => bool_decide (ch_Status c = ChannelActive)) channels)));
        AInt (Z.of_nat (length campaigns));
        AInt (Z.of_nat (length (List.filter (fun c => bool_decide (cm_Status c = CampaignRunning)) campaigns)));
        AInt (fold_left (fun n c => i64_add n (cm_TotalImpressions c)) campaigns 0)])%eff.
Definition statsHome (uid : Z) : MM unit := (l <- renderStats ;; send uid "stats" l)%eff.
Definition adminStats (uid : Z) : MM unit := (l <- renderStats ;; edit uid "stats" l)%eff.

Fixpoint all_slots (t : Time) (campaigns : list Campaign) (slots : list scheduleSlot) : MM (list scheduleSlot) :=
  match campaigns with
  | [] => ret slots
  | cm :: campaigns =>
      (r <- try (ListAdsByCampaign (cm_ID cm)) ;;
       match projectCampaignSlots cm (match r with Ok ads => ads | Err _ => [] end) t with
       | None => panic
       | Some more => all_slots t campaigns (slots ++ more)
       end)%eff
  end.
Definition slot_args (s : scheduleSlot) : list fmtarg :=
  [AStr (Format_15_04 (sl_At s)); AStr (ad_Name (sl_Ad s)); AStr (sl_CampaignName s)].
Definition renderSchedule (uid : Z) (editing : bool) (dayOffset : Z) : MM unit :=
  (n <- now ;;
   let t := time_Add (local local_zone n) (dayOffset * day) in
   r <- try (ListCampaigns (Some CampaignRunning) 1 listPageSize) ;;
   slots <- all_slots t (match r with Ok l => l | Err _ => [] end) [] ;;
   let args := AInt dayOffset :: flat_map slot_args (sort_by (fun s => unix_nano (sl_At s)) slots) in
   if editing then edit uid "schedule" args else send uid "schedule" args)%eff.
Definition scheduleDay (uid : Z) (arg : string) : MM unit := renderSchedule uid true (ParseInt_value 10 arg).

(** * internal/tgbot/bot.go and router.go *)

Definition onStart (uid : Z) : MM unit :=
  if negb (isAdmin uid) then send uid "denied" []
  else (clearState uid ;; st <- GetSettings ;; send uid "welcome" [AStr (bs_WelcomeMessage st)])%eff.
Definition onHelp (uid : Z) : MM unit :=
  if negb (isAdmin uid) then send uid "denied" []
  else (st <- GetSettings ;; send uid "help" [AStr (bs_HelpMessage st)])%eff.

Definition handleStep (uid : Z) (msg : TgMessage) (st : userState) (text : string) : MM unit :=
  match Step st with
  | stepChannelAdd => handleChannelAdd uid msg text
  | stepTagAdd => handleTagAdd uid text
  | stepCampaignName => handleCampaignName uid text
  | stepCampaignSchedule => handleCampaignSchedule uid st text
  | stepCampaignEditName => handleCampaignEditName uid st text
  | stepCampaignEditSchedule => handleCampaignEditSchedule uid st text
  | stepAdName => handleAdName uid st text
  | stepAdMain => handleAdMain uid msg st
  | stepAdReplies => handleAdReplies uid msg st
  | stepAdReplyMinutes => handleAdReplyMinutes uid st text
  | stepAdEditName => handleAdEditName uid st text
  | stepAdEditMain => handleAdEditMain uid msg st
  | stepTemplateName => handleTemplateName uid text
  | stepSettingsReminder => handleSettingsReminder uid text
  | stepIdle => (clearState uid ;; send uid "menu" [])%eff
  end.

Definition onMedia (uid : Z) (msg : TgMessage) : MM unit :=
  if negb (isAdmin uid) then ret tt
  else
  (st <- getState uid ;;
   match Step st with
   | stepAdMain => handleAdMain uid msg st
   | stepAdReplies => handleAdReplies uid msg st
   | stepAdEditMain => handleAdEditMain uid msg st
   | stepChannelAdd => handleChannelAdd uid msg ""
   | _ => ret tt
   end)%eff.

Definition adminOnText (uid : Z) (text : string) : MM unit :=
  if (text =? btnNewCampaign)%string then (setStep uid stepCampaignName ;; send uid "campaign name?" [])%eff
  else if (text =? btnChannels)%string then channelsHome uid
  else if (text =? btnCampaigns)%string then campaignsHome uid
  else if (text =? btnSchedule)%string then renderSchedule uid false 0
  else if (text =? btnStats)%string then statsHome uid
  else if (text =? btnTemplates)%string then templatesHome uid
  else if (text =? btnSettings)%string then settingsHome uid
  else if (text =? btnHelp)%string then onHelp uid
  else send uid "choose" [].

Definition onText (uid : Z) (msg : TgMessage) : MM unit :=
  let text := TrimSpace (ms_Text msg) in
  if negb (isAdmin uid) then (if ms_Private msg then send uid "denied" [] else ret tt)
  else if (text =? btnCancel)%string || (text =? btnBack)%string then (clearState uid ;; send uid "cancelled" [])%eff
  else if isMainMenuButton text then (clearState uid ;; adminOnText uid text)%eff
  else
  (st <- getState uid ;;
   if negb (bool_decide (Step st = stepIdle)) then handleStep uid msg st text else adminOnText uid text)%eff.

(** The buttons: action and what it does with its argument. *)
Definition callbacks (uid : Z) : list (string * (string -> MM unit)) := [
  ("home", fun _ => send uid "menu" []);   (* after deleting the menu it was pressed on *)
  ("ch_list", fun _ => adminChannelsList uid);
  ("ch_add", fun _ => (setStep uid stepChannelAdd ;; edit uid "channel?" [])%eff);
  ("ch_view", adminChannelView uid); ("ch_toggle", adminChannelToggle uid); ("ch_del", adminChannelDelete uid);
  ("ch_tags", adminChannelTagsView uid); ("ch_tagtoggle", adminChannelTagToggle uid); ("ch_refresh", adminChannelRefresh uid);
  ("tag_list", fun _ => adminTagsList uid);
  ("tag_add", fun _ => (setStep uid stepTagAdd ;; edit uid "tag?" [])%eff);
  ("tag_del", adminTagDelete uid); ("tag_noop", fun _ => respond uid "");
  ("cmp_list", campaignsList uid); ("cmp_view", campaignView uid);
  ("cmp_start", fun id => campaignSetStatus uid id ActStart); ("cmp_pause", fun id => campaignSetStatus uid id ActPause);
  ("cmp_resume", fun id => campaignSetStatus uid id ActResume); ("cmp_cancel", fun id => campaignSetStatus uid id ActCancel);
  ("cmp_del", campaignDelete uid); ("cmp_ename", campaignEditNameStart uid); ("cmp_esched", campaignEditSchedStart uid);
  ("cmp_tags", campaignTagsView uid); ("cmp_tagtoggle", campaignTagToggle uid);
  ("cmp_chans", campaignChannelsView uid); ("cmp_chantoggle", campaignChannelToggle uid);
  ("ad_list", adList uid); ("ad_new", adNewMenu uid); ("ad_new_std", adNew uid "standalone"); ("ad_new_sim", adNew uid "simple");
  ("ad_new_atc", adAttachPickList uid); ("ad_atc_pick", adReplyStart uid "attach"); ("ad_done", fun _ => adDone uid);
  ("ad_view", adView uid); ("ad_del", adDelete uid); ("ad_preview", adPreview uid);
  ("ad_ename", adEditStart uid stepAdEditName); ("ad_emain", adEditStart uid stepAdEditMain);
  ("ad_replies", adRepliesView uid); ("ad_reply_add", adReplyStart uid "reply add"); ("ad_reply_del", adReplyDelete uid);
  ("ad_reply_up", fun i => adReplyMove uid i (-1)); ("ad_reply_down", fun i => adReplyMove uid i 1);
  ("ad_reply_noop", fun _ => respond uid "");
  ("ad_settings", adSettingsView uid); ("ad_tg_keep", fun _ => adToggleField uid FieldKeep);
  ("ad_tg_pin", fun _ => adToggleField uid FieldPin); ("ad_tg_delprev", fun _ => adToggleField uid FieldDelPrev);
  ("tpl_list", fun _ => templatesList uid);
  ("tpl_new", fun _ => (setStep uid stepTemplateName ;; edit uid "template name?" [])%eff);
  ("tpl_view", templateView uid); ("tpl_del", templateDelete uid); ("tpl_use", templateUse uid);
  ("stats", fun _ => adminStats uid); ("sch_day", scheduleDay uid);
  ("set_reminder", fun _ => (setStep uid stepSettingsReminder ;; edit uid "reminder?" [])%eff)]%string.
Fixpoint dispatch (action : string) (l : list (string * (string -> MM unit))) : option (string -> MM unit) :=
  match l with
  | [] => None
  | (a, h) :: l => if (a =? action)%string then Some h else dispatch action l
  end.
Definition form_feed : ascii := ascii_of_nat 12.
Definition onCallback (uid : Z) (callback_data : string) : MM unit :=
  if negb (isAdmin uid) then respond uid "denied"
  else
  let callback_data := match callback_data with
                       | String c rest => if Ascii.eqb c form_feed then rest else callback_data
                       | EmptyString => callback_data end in
  let '(action, arg) := match Cut ":" callback_data with Some (a, b) => (a, b) | None => (callback_data, ""%string) end in
  ((match dispatch action (callbacks uid) with Some h => h arg | None => respond uid "unknown" end) ;; respond uid "")%eff.

(** register: what telebot hands an update to. *)
Definition handle_update (u : AdmUpdate) : MM unit :=
  match u with
  | UpCommand uid c => if (c =? "/start")%string then onStart uid else if (c =? "/help")%string then onHelp uid else ret tt
  | UpText uid msg => onText uid msg
  | UpMedia uid msg => onMedia uid msg
  | UpCallback uid d => onCallback uid d
  end.
End bot.

(** * cmd/bot/main.go: the scheduler's ticker, its goroutines and the updates *)

Inductive adm_event := EvTick | EvJob (i : nat) | EvUpdate (u : AdmUpdate).
Section program.
Context {ENV : Env} {LIB : Lib} {FP : F64Platform} {TG : AdmTelegram} {DIR : AdmDirectory}.
Context (ownerID local_zone : Z) (has_cache : bool).
Definition adm_step (e : adm_event) : M AdmTables AdmWorld unit :=
  match e with
  | EvTick => scheduler_tick local_zone
  | EvJob i => run_nth ownerID i
  | EvUpdate u => handle_update ownerID local_zone has_cache u
  end.
Fixpoint adm_run (l : list adm_event) : M AdmTables AdmWorld unit :=
  match l with [] => ret tt | e :: l => (try (adm_step e) ;; adm_run l)%eff end.
End program.
