(* ===== verification/AdmWindow.v ===== *)
(** admanager-bot: the arithmetic of daily windows, of rotation and of the
    projected slots, and what a typed schedule can be. *)
From S2P Require Import Prelude GoInt GoFloat GoString GoText Effects AdmModels AdmStore AdmScheduler AdmBot.

(** A clock time as ParseClock reads it. *)
Definition clock_ok (h m : Z) : Prop := 0 <= h <= 23 /\ 0 <= m <= 59.

Ltac clock_unfold := unfold clock_ok, day, hour, minute, second in *.

Lemma clock_nano_range t : 0 <= clock_nano t < day.
Proof. unfold clock_nano. apply Z.mod_pos_bound. clock_unfold. lia. Qed.

Lemma clock_nano_add t k : clock_nano (time_Add t (k * day)) = clock_nano t.
Proof.
  unfold clock_nano, time_Add. simpl.
  replace (unix_nano t + k * day + zone t * second) with (unix_nano t + zone t * second + k * day) by lia.
  apply Z_mod_plus_full.
Qed.

Lemma midnight_add t k : midnight (time_Add t (k * day)) = midnight t + k * day.
Proof. unfold midnight. rewrite clock_nano_add. simpl. lia. Qed.

Lemma clock_split t : unix_nano t = midnight t + clock_nano t.
Proof. unfold midnight. lia. Qed.

(** Minutes since midnight. *)
Lemma minutes_of_day t : Hour t * 60 + Minute t = clock_nano t / minute.
Proof.
  unfold Hour, Minute, hour. rewrite (Z.mul_comm 60 minute). rewrite <- Z.div_div by (clock_unfold; lia).
  pose proof (Z.div_mod (clock_nano t / minute) 60 ltac:(lia)). lia.
Qed.

Section window.
Context (sh sm eh em : Z) (Hs : clock_ok sh sm) (He : clock_ok eh em).

(** [t] lies in the window of the day that is [k] days after its own. *)
Definition in_bounds (k : Z) (t : Time) : Prop :=
  let '(s, e) := DailyWindowBounds (time_Add t (k * day)) sh sm eh em in unix_nano s <= unix_nano t < unix_nano e.

Lemma in_bounds_spec k t :
  in_bounds k t <->
  let s := sh * hour + sm * minute in let e := eh * hour + em * minute in
  k * day + s <= clock_nano t < k * day + (if s <? e then e else e + day).
Proof using.
  unfold in_bounds, DailyWindowBounds, StartTimeOnDay, After. rewrite midnight_add. simpl.
  rewrite (clock_split t).
  destruct (midnight t + k * day + sh * hour + sm * minute <? midnight t + k * day + eh * hour + em * minute) eqn:E1, (sh * hour + sm * minute <? eh * hour + em * minute) eqn:E2;
    zbool; simpl; clock_unfold; lia.
Qed.

Lemma InDailyWindow_spec t :
  InDailyWindow t sh sm eh em =
  (let c := clock_nano t / minute in let s := sh * 60 + sm in let e := eh * 60 + em in
   if s =? e then true else if s <? e then (s <=? c) && (c <? e) else (s <=? c) || (c <? e)).
Proof using. unfold InDailyWindow. by rewrite minutes_of_day. Qed.

Lemma minute_floor c s : s <= c / minute <-> s * minute <= c.
Proof using. clock_unfold. split; intros; [pose proof (Z.mul_div_le c (60 * 1000000000) ltac:(lia)); lia|apply Z.div_le_lower_bound; lia]. Qed.

(** The days of the windows a time can be in. *)
Lemma in_bounds_days k t : in_bounds k t -> k = 0 \/ k = -1.
Proof using Hs He.
  rewrite in_bounds_spec. cbv zeta. pose proof (clock_nano_range t). intros H1.
  destruct (sh * hour + sm * minute <? eh * hour + em * minute) eqn:E; zbool; clock_unfold; lia.
Qed.

Lemma window_iff t : InDailyWindow t sh sm eh em = true <-> in_bounds 0 t \/ in_bounds (-1) t.
Proof using Hs He.
  rewrite InDailyWindow_spec, !in_bounds_spec. cbv zeta. pose proof (clock_nano_range t) as Hc.
  pose proof (minute_floor (clock_nano t) (sh * 60 + sm)). pose proof (minute_floor (clock_nano t) (eh * 60 + em)).
  set (c := clock_nano t) in *. set (q := c / minute) in *.
  destruct (sh * 60 + sm =? eh * 60 + em) eqn:E0; [|destruct (sh * 60 + sm <? eh * 60 + em) eqn:E1];
    destruct (sh * hour + sm * minute <? eh * hour + em * minute) eqn:E2;
    rewrite ?andb_true_iff, ?orb_true_iff, ?Z.leb_le, ?Z.ltb_lt; zbool; clock_unfold; lia.
Qed.

(** A time is in the daily window exactly when it lies between the bounds of the
    window of its own day or of the day before, and CurrentWindowStart is where
    that window begins: at most a day ago. *)
Lemma current_window t : InDailyWindow t sh sm eh em = true ->
  exists k, in_bounds k t /\ CurrentWindowStart t sh sm eh em = fst (DailyWindowBounds (time_Add t (k * day)) sh sm eh em) /\
    0 <= unix_nano t - unix_nano (CurrentWindowStart t sh sm eh em) < day.
Proof using Hs He.
  intros Hin. set (k := if (eh * 60 + em <=? sh * 60 + sm) && (Hour t * 60 + Minute t <? eh * 60 + em) then -1 else 0).
  assert (Hstart : CurrentWindowStart t sh sm eh em = fst (DailyWindowBounds (time_Add t (k * day)) sh sm eh em)).
  { unfold CurrentWindowStart, DailyWindowBounds, StartTimeOnDay, k. cbn [fst]. rewrite midnight_add.
    destruct (_ && _); unfold time_Add; cbn [unix_nano zone]; f_equal; clock_unfold; lia. }
  exists k. split; [|split; [done|rewrite Hstart]].
  - apply in_bounds_spec. cbv zeta. rewrite window_iff, !in_bounds_spec in Hin. cbv zeta in Hin. subst k.
    rewrite minutes_of_day. pose proof (clock_nano_range t) as Hc.
    pose proof (minute_floor (clock_nano t) (eh * 60 + em)). clear Hstart.
    set (c := clock_nano t) in *. set (q := c / minute) in *.
    destruct (eh * 60 + em <=? sh * 60 + sm) eqn:E1, (q <? eh * 60 + em) eqn:E2; simpl;
      destruct (sh * hour + sm * minute <? eh * hour + em * minute) eqn:E3; zbool; clock_unfold; lia.
  - unfold DailyWindowBounds, StartTimeOnDay. cbn [fst unix_nano]. rewrite midnight_add, (clock_split t).
    rewrite window_iff, !in_bounds_spec in Hin. cbv zeta in Hin. subst k.
    rewrite minutes_of_day. pose proof (clock_nano_range t) as Hc.
    pose proof (minute_floor (clock_nano t) (eh * 60 + em)). clear Hstart.
    set (c := clock_nano t) in *. set (q := c / minute) in *.
    destruct (eh * 60 + em <=? sh * 60 + sm) eqn:E1, (q <? eh * 60 + em) eqn:E2; simpl;
      destruct (sh * hour + sm * minute <? eh * hour + em * minute) eqn:E3; zbool; clock_unfold; lia.
Qed.
End window.

(** * Rotation and the projected slots *)

Lemma RotationIndex_range e r n : 0 < n -> 0 <= RotationIndex e r n < n.
Proof.
  intros Hn. unfold RotationIndex. destruct (n <=? 0) eqn:E1; [zbool; lia|]. destruct (r <=? 0) eqn:E2; [lia|].
  pose proof (Z.rem_bound_abs (Z.quot e r) n ltac:(lia)). destruct (_ <? 0) eqn:E3; zbool; lia.
Qed.

(** [ads[idx]] of the scheduler and of the view never panics. *)
Lemma rotation_in_range {FP : F64Platform} cm t start ads : ads <> [] ->
  exists ad, nth_ad ads (rotation cm t start ads) = Some ad /\ ad ∈ ads.
Proof.
  intros Hads. unfold rotation, nth_ad. set (i := RotationIndex _ _ _).
  assert (Hi : 0 <= i < Z.of_nat (length ads)) by (apply RotationIndex_range; destruct ads; simpl; [done|lia]).
  destruct (i <? 0) eqn:E; [zbool; lia|]. destruct (nth_error ads (Z.to_nat i)) as [ad|] eqn:En.
  - exists ad. split; [done|]. apply list_elem_of_In. by eapply nth_error_In.
  - apply nth_error_None in En. lia.
Qed.

Section slots.
Context {FP : F64Platform} (cm : Campaign) (ads : list Advertisement) (gap : Z) (winStart winEnd : Time).
Context (Hads : ads <> []) (Hgap : 0 < gap).

(** The slot that begins [i] gaps after the window. *)
Definition slot_time (i : nat) : Time := time_Add winStart (Z.of_nat i * gap).
Definition is_slot (i : nat) (s : scheduleSlot) : Prop :=
  sl_At s = slot_time i /\ sl_CampaignName s = cm_Name cm /\
  nth_ad ads (rotation cm (slot_time i) winStart ads) = Some (sl_Ad s).

Lemma slot_time_next i : time_Add (slot_time i) gap = slot_time (S i).
Proof using. unfold slot_time, time_Add. simpl. f_equal. lia. Qed.

(** With [fuel] rounds left the loop has [301 - fuel] slots. *)
Lemma slots_from_spec fuel slots :
  (fuel + length slots = 301)%nat ->
  (forall i s, slots !! i = Some s -> is_slot i s) ->
  exists all, slots_from fuel cm ads gap winStart winEnd (slot_time (length slots)) slots = Some all /\
    (length all <= 301)%nat /\ (length slots <= length all)%nat /\
    (forall i s, all !! i = Some s -> is_slot i s) /\
    (forall i, (length slots <= i < length all)%nat -> Before (slot_time i) winEnd = true) /\
    ((length all < 301)%nat -> Before (slot_time (length all)) winEnd = false).
Proof using Hads.
  revert slots. induction fuel as [|fuel IH]; simpl; intros slots Hlen Hs.
  - exists slots. split; [done|]. split; [lia|]. split; [done|]. split; [done|]. split; intros; lia.
  - destruct (Before (slot_time (length slots)) winEnd) eqn:Eb; simpl.
    + destruct (rotation_in_range cm (slot_time (length slots)) winStart ads Hads) as (ad & Ead & _). rewrite Ead.
      set (s := {| sl_At := slot_time (length slots); sl_Ad := ad; sl_CampaignName := cm_Name cm |}).
      assert (Hs' : forall i s', (slots ++ [s]) !! i = Some s' -> is_slot i s').
      { intros i s' Hi. apply lookup_app_Some in Hi as [Hi|[Hle Hi]]; [auto|].
        apply list_lookup_singleton_Some in Hi as [Hi <-]. by replace i with (length slots) by lia. }
      rewrite length_app. simpl. destruct (300 <? _)%nat eqn:E3; [apply Nat.ltb_lt in E3|apply Nat.ltb_ge in E3].
      * exists (slots ++ [s]). rewrite length_app. simpl. split; [done|]. split; [lia|]. split; [lia|]. split; [done|].
        split; intros; [|lia]. by replace i with (length slots) by lia.
      * specialize (IH (slots ++ [s])). rewrite length_app in IH. simpl in IH.
        rewrite slot_time_next. replace (S (length slots)) with (length slots + 1)%nat by lia.
        destruct (IH ltac:(lia) Hs') as (all & E & H1 & H2 & H3 & H4 & H5).
        exists all. split; [done|]. split; [done|]. split; [lia|]. split; [done|]. split; [|done].
        intros i Hi. destruct (decide (i = length slots)) as [->|]; [done|]. apply H4. lia.
    + exists slots. split; [done|]. split; [lia|]. split; [done|]. split; [done|]. split; [intros; lia|done].
Qed.
End slots.

(** * What the owner can type *)

Lemma ParseClock_ok s h m : ParseClock s = Some (h, m) -> clock_ok h m.
Proof.
  unfold ParseClock, clock_ok. destruct (Split ":" (TrimSpace s)) as [|p0 ps]; [done|].
  destruct (ParseInt 10 _) as [h'|]; [|done]. destruct (_ || _) eqn:E; [done|].
  destruct ps as [|p1 ps]; [intros [= <- <-]; destruct_hyps; zbool; lia|].
  destruct (ParseInt 10 _) as [m'|]; [|done]. destruct ((m' <? 0) || _) eqn:E2; [done|].
  intros [= <- <-]. destruct_hyps; zbool; lia.
Qed.

Lemma ParseInt_in_int64 base s z : ParseInt base s = Some z -> in_int64 z.
Proof.
  unfold ParseInt. destruct (match s with EmptyString => _ | _ => _ end) as [r|]; [|done].
  destruct (in_int64b r) eqn:E; [|done]. intros [= <-]. by apply in_int64b_spec.
Qed.

Lemma ParseSchedule_ok text sc : ParseSchedule text = Some sc ->
  clock_ok (sc_StartHour sc) (sc_StartMinute sc) /\ clock_ok (sc_EndHour sc) (sc_EndMinute sc) /\
  1 <= sc_Interval sc <= int64_max /\ 0 <= sc_DeleteAfter sc <= int64_max /\ 0 <= sc_Rotation sc <= int64_max.
Proof.
  unfold ParseSchedule. destruct (schedule_lines text) as [|l0 [|l1 [|l2 [|l3 [|]]]]]; try done.
  unfold ParseClockRange. destruct (match Cut "-" _ with Some _ => _ | None => _ end) as [p0 p1].
  destruct (ParseClock p0) as [[sh sm]|] eqn:E0; [|done]. apply ParseClock_ok in E0.
  intros H. assert (Hr : exists eh em, clock_ok eh em /\
      match ParseInt 10 l1, ParseInt 10 l2, ParseInt 10 l3 with
      | Some i, Some del, Some rot => if (i <? 1) || (del <? 0) || (rot <? 0) then None
          else Some {| sc_StartHour := sh; sc_StartMinute := sm; sc_EndHour := eh; sc_EndMinute := em; sc_Interval := i;
                       sc_DeleteAfter := del; sc_Rotation := rot |}
      | _, _, _ => None end = Some sc).
  { destruct p1 as [p1|]; [|by exists sh, sm]. destruct (ParseClock p1) as [[eh em]|] eqn:E1; [|done].
    apply ParseClock_ok in E1. by exists eh, em. }
  clear H. destruct Hr as (eh & em & He & H).
  destruct (ParseInt 10 l1) as [i|] eqn:E1, (ParseInt 10 l2) as [del|] eqn:E2, (ParseInt 10 l3) as [rot|] eqn:E3; try done.
  apply ParseInt_in_int64 in E1, E2, E3. destruct (_ || _) eqn:Eb; [done|]. injection H as <-.
  destruct_hyps. zbool. unfold in_int64 in *. simpl. split; [done|]. split; [done|]. lia.
Qed.

(** ** One line is never a schedule *)

Lemma has_char_substring c n s : has_char c s = false -> has_char c (substring 0 n s) = false.
Proof. revert s. induction n as [|n IH]; intros [|d s]; simpl; try done. intros H. apply orb_false_elim in H as [-> ?]. simpl. auto. Qed.

Lemma has_char_drop c n s : has_char c s = false -> has_char c (drop_chars n s) = false.
Proof. revert s. induction n as [|n IH]; intros [|d s]; simpl; try done. intros H. apply orb_false_elim in H as [_ ?]. auto. Qed.

Lemma runes_no_newline fuel s r : has_char newline s = false -> r ∈ runes fuel s -> has_char newline r = false.
Proof.
  revert s. induction fuel as [|fuel IH]; intros [|c s] H Hr; try (by apply not_elem_of_nil in Hr).
  assert (Hs : has_char newline s = false) by (simpl in H; apply orb_false_elim in H; tauto).
  cbn [runes] in Hr. set (n := rune_bytes (String c s)) in *. clearbody n.
  destruct n as [|n]; apply elem_of_cons in Hr as [->|Hr]; [done|by eapply IH| |].
  - by apply has_char_substring.
  - apply (IH (drop_chars (S n) (String c s))); [by apply has_char_drop|done].
Qed.

Lemma lookup_digit_no_newline r : has_char newline r = false -> has_char newline (lookup_digit digit_table r) = false.
Proof.
  intros H. assert (Ht : Forall (fun p => has_char newline (snd p) = false) digit_table) by (repeat constructor).
  induction Ht as [|[k v] l Hv _ IH]; simpl; [done|]. by destruct (k =? r)%string.
Qed.

Lemma NormalizeDigits_no_newline s : has_char newline s = false -> has_char newline (NormalizeDigits s) = false.
Proof.
  intros H. unfold NormalizeDigits, Runes. pose proof (fun r => runes_no_newline (String.length s) s r H) as Hr.
  induction (runes _ s) as [|r l IH]; [done|]. cbn [fold_right]. rewrite has_char_append.
  rewrite lookup_digit_no_newline by (apply Hr; set_solver). apply IH. intros. apply Hr. set_solver.
Qed.

Lemma remove_char_no_char c d s : has_char c s = false -> has_char c (remove_char d s) = false.
Proof. induction s as [|e s IH]; simpl; [done|]. intros H. apply orb_false_elim in H as [? ?]. destruct (Ascii.eqb e d); simpl; [auto|]. rewrite IH by done. by rewrite orb_false_r. Qed.

Lemma Split_no_char c s : has_char c s = false -> Split c s = [s].
Proof.
  induction s as [|d s IH]; simpl; [done|]. intros H. apply orb_false_elim in H as [Hd Hs].
  rewrite Ascii.eqb_sym in Hd. rewrite Hd. by rewrite IH.
Qed.

(** A schedule needs four lines in one message. *)
Lemma one_line_is_no_schedule text : has_char newline text = false -> ParseSchedule text = None.
Proof.
  intros H. unfold ParseSchedule, schedule_lines.
  rewrite Split_no_char by (by apply remove_char_no_char, NormalizeDigits_no_newline).
  simpl. by destruct (negb _).
Qed.
