(* ===== verification/AdmFrame.v ===== *)
(** admanager-bot: what a program of the bot can do to its documents. Every
    program is a sequence of primitive updates ([prim]); the invariants of
    AdmSpec.v are proved over those. *)
From stdpp Require Import relations.
From S2P Require Import Prelude GoInt GoFloat GoString GoText Effects PayModels PayChain AdmModels AdmStore AdmScheduler AdmBot.

(** A campaign whose plan is left alone and that is not started. *)
Definition same_plan (c c' : Campaign) : Prop :=
  cm_StartHour c' = cm_StartHour c /\ cm_StartMinute c' = cm_StartMinute c /\ cm_EndHour c' = cm_EndHour c /\
  cm_EndMinute c' = cm_EndMinute c /\ cm_IntervalMinutes c' = cm_IntervalMinutes c /\
  (cm_Status c' = CampaignRunning -> cm_Status c = CampaignRunning).

(** An update of a reservation: never opened again, at most two live messages. *)
Definition same_slot (r r' : Reservation) : Prop :=
  rs_ID r' = rs_ID r /\ rs_CampaignID r' = rs_CampaignID r /\ rs_ChannelID r' = rs_ChannelID r /\
  rs_ScheduledAt r' = rs_ScheduledAt r /\ (is_open r' = true -> is_open r = true) /\
  ((length (rs_LiveMessageIDs r) <= 2)%nat -> (length (rs_LiveMessageIDs r') <= 2)%nat).

Definition update_at {A} (id : A -> string) (k : string) (f : A -> A) (l : list A) : list A :=
  map (fun x => if has_id id k x then f x else x) l.

Section prim.
(** [admin]: the owner may change campaigns and advertisements; [KJ] holds of
    the campaigns that may get jobs; [KR] of the campaigns and channels that may get
    a reservation; [KT] of the jobs that may be tried again. *)
Context (admin : bool) (KJ : string -> Prop) (KR : string -> string -> Prop) (KT : string -> Prop).

Inductive prim : AdmTables * AdmWorld -> AdmTables * AdmWorld -> Prop :=
| p_docs d d' w :
    t_campaigns d' = t_campaigns d -> t_ads d' = t_ads d -> t_jobs d' = t_jobs d -> t_reservations d' = t_reservations d ->
    prim (d, w) (d', w)
| p_world d w w' : w_running w' = w_running w -> w_started w' = w_started w -> prim (d, w) (d, w')
| p_campaign d w k f :
    (forall c, cm_ID (f c) = cm_ID c /\ (admin = true \/ same_plan c (f c))) ->
    prim (d, w) (set_t_campaigns (update_at cm_ID k f) d, w)
| p_campaign_new d w c : admin = true -> prim (d, w) (set_t_campaigns (fun l => l ++ [c]) d, w)
| p_ads d w f : admin = true -> prim (d, w) (set_t_ads f d, w)
| p_job_new d w j :
    KJ (jb_CampaignID j) -> jb_Status j = JobPending -> jb_Attempts j = 0 -> jb_MaxAttempts j = 3 ->
    existsb (has_id jb_ID (jb_ID j)) (t_jobs d) = false -> prim (d, w) (set_t_jobs (fun l => l ++ [j]) d, w)
| p_job d w k f :
    (forall j, exists s e, s <> JobPending /\ f j = with_job s (jb_RunAt j) (jb_Attempts j) e j) ->
    prim (d, w) (set_t_jobs (update_at jb_ID k f) d, w)
| p_retry d w k t : KT k ->
    prim (d, w) (set_t_jobs (update_at jb_ID k (fun j => with_job JobPending t (jb_Attempts j) (jb_LastError j) j)) d, w)
| p_reservation_new d w r :
    KR (rs_CampaignID r) (rs_ChannelID r) -> rs_LiveMessageIDs r = [] ->
    existsb (has_id rs_ID (rs_ID r)) (t_reservations d) = false -> prim (d, w) (set_t_reservations (fun l => l ++ [r]) d, w)
| p_reservation d w k f : (forall r, same_slot r (f r)) -> prim (d, w) (set_t_reservations (update_at rs_ID k f) d, w).

Context {ENV : Env} {LIB : Lib} {FP : F64Platform} {TG : AdmTelegram} {DIR : AdmDirectory}.
Abbreviation MM := (M AdmTables AdmWorld).

(** The primitive updates [m] makes, however it ends; nothing opens a transaction. *)
Definition steps {A} (m : MM A) : Prop :=
  forall s r s', m s = (r, s') -> tx s = NoTx -> rtc prim (db s, ext s) (db s', ext s') /\ tx s' = NoTx.

Lemma steps_bind {A B} (m : MM A) (k : A -> MM B) : steps m -> (forall a, steps (k a)) -> steps (bind m k).
Proof using.
  intros Hm Hk s r s' H Ht. apply bind_run in H as (r1 & s1 & H1 & H). destruct (Hm _ _ _ H1 Ht) as [Hs1 Ht1].
  destruct r1 as [a|e]; [|destruct H as [_ ->]; by split]. destruct (Hk _ _ _ _ H Ht1). split; [by etransitivity|done].
Qed.

Lemma steps_try {A} (m : MM A) : steps m -> steps (try m).
Proof using. intros Hm s r s' H. apply try_run in H as (r1 & _ & H). by apply Hm in H. Qed.

(** A computation that only looks. *)
Lemma steps_look {A} (m : MM A) :
  (forall s r s', m s = (r, s') -> tx s = NoTx -> db s' = db s /\ ext s' = ext s /\ tx s' = NoTx) -> steps m.
Proof using. intros Hm s r s' H Ht. destruct (Hm _ _ _ H Ht) as (-> & -> & ?). by split. Qed.

Lemma steps_ret {A} (a : A) : steps (ret a).
Proof using. apply steps_look. by intros s r s' [= _ <-]. Qed.
Lemma steps_throw {A} e : steps (@throw AdmTables AdmWorld A e).
Proof using. apply steps_look. by intros s r s' [= _ <-]. Qed.
Lemma steps_now : steps now.
Proof using. apply steps_look. by intros s r s' [= _ <-]. Qed.
Lemma steps_uuid : steps uuid_New.
Proof using. apply steps_look. by intros s r s' [= _ <-]. Qed.
Lemma steps_get_ext : steps get_ext.
Proof using. apply steps_look. by intros s r s' [= _ <-]. Qed.

Lemma steps_quietly {A} (m : MM A) : steps m -> steps (quietly m).
Proof using. intros Hm. apply steps_bind; [by apply steps_try|]. intros. apply steps_ret. Qed.

Lemma steps_for_each {A} (f : A -> MM unit) l : (forall x, x ∈ l -> steps (f x)) -> steps (for_each f l).
Proof using.
  induction l as [|x l IH]; simpl; intros Hf; [apply steps_ret|].
  apply steps_bind; [apply Hf; set_solver|]. intros _. apply IH. intros y Hy. apply Hf. set_solver.
Qed.

(** One statement outside a transaction. *)
Lemma steps_stmt {A} (f : AdmTables -> result (A * AdmTables)) :
  (forall d a d' w, f d = Ok (a, d') -> rtc prim (d, w) (d', w)) -> steps (stmt f).
Proof using.
  intros Hf s r s' H Ht. unfold stmt in H. rewrite Ht in H. destruct (env_fault _); [by injection H as _ <-|].
  destruct (f (db s)) as [[a d]|e] eqn:E; injection H as _ <-; simpl; split; try done; [by eapply Hf|by destruct e].
Qed.
Lemma steps_find {A} (q : AdmTables -> A) : steps (find q).
Proof using. apply steps_stmt. by intros d a d' w [= _ <-]. Qed.
Lemma steps_first {A} (q : AdmTables -> option A) : steps (first q).
Proof using. apply steps_stmt. intros d a d' w. destruct (q d); [|done]. by intros [= _ <-]. Qed.
Lemma steps_exec (f : AdmTables -> result AdmTables) :
  (forall d d' w, f d = Ok d' -> rtc prim (d, w) (d', w)) -> steps (exec f).
Proof using. intros Hf. apply steps_stmt. intros d a d' w H. destruct (f d) eqn:E; [|done]. injection H as _ <-. by apply Hf. Qed.

Lemma steps_mod_ext f : (forall w, w_running (f w) = w_running w /\ w_started (f w) = w_started w) -> steps (mod_ext f).
Proof using. intros Hf s r s' [= _ <-] Ht. simpl. split; [|done]. apply rtc_once. by constructor; apply Hf. Qed.

Lemma steps_bot_call f : (forall w, w_running (f w) = w_running w /\ w_started (f w) = w_started w) -> steps (bot_call f).
Proof using.
  intros Hf s r s' H Ht. unfold bot_call in H. destruct (env_fault _); injection H as _ <-; simpl; (split; [|done]);
    [destruct (tg_lost _); [|reflexivity]|]; apply rtc_once; by constructor; apply Hf.
Qed.

Lemma steps_Copy chat sc sm rt : steps (bot_Copy chat sc sm rt).
Proof using.
  intros s r s' H. unfold bot_Copy in H. revert H. apply steps_bind; [by apply steps_bot_call|]. intros. apply steps_ret.
Qed.
Lemma steps_Len chat : steps (bot_Len chat).
Proof using. intros s r s' H. revert H. apply steps_bind; [by apply steps_bot_call|]. intros. apply steps_ret. Qed.

Lemma steps_redis_set has_cache put :
  (forall t w, w_running (put t w) = w_running w /\ w_started (put t w) = w_started w) -> steps (redis_set has_cache put).
Proof using.
  intros Hf s r s' H Ht. unfold redis_set in H. destruct (negb _); injection H as _ <-; [by split|]. simpl. split; [|done].
  destruct (env_fault _); [reflexivity|]. apply rtc_once. by constructor; apply Hf.
Qed.
Lemma steps_redis_get {A} has_cache get (v : A) : steps (redis_get has_cache get v).
Proof using. apply steps_look. intros s r s'. unfold redis_get. destruct (negb _); by intros [= _ <-]. Qed.
Lemma steps_ask {A} (f : nat -> A) : steps (bot_ask f).
Proof using. apply steps_look. intros s r s'. unfold bot_ask. destruct (env_fault _); by intros [= _ <-]. Qed.

(** The store's statements. *)
Lemma steps_docs f :
  (forall d, t_campaigns (f d) = t_campaigns d /\ t_ads (f d) = t_ads d /\ t_jobs (f d) = t_jobs d /\
             t_reservations (f d) = t_reservations d) -> steps (exec (fun d => Ok (f d))).
Proof using.
  intros Hf. apply steps_exec. intros d d' w [= <-]. apply rtc_once. by constructor; apply Hf.
Qed.
Lemma steps_insert {A} (id : A -> string) get put x :
  (forall f d, t_campaigns (put f d) = t_campaigns d /\ t_ads (put f d) = t_ads d /\ t_jobs (put f d) = t_jobs d /\
               t_reservations (put f d) = t_reservations d) -> steps (InsertOne id get put x).
Proof using.
  intros Hf. apply steps_exec. intros d d' w. destruct (existsb _ _); [done|]. intros [= <-]. apply rtc_once. by constructor; apply Hf.
Qed.
Lemma steps_update_campaign k f :
  (forall c, cm_ID (f c) = cm_ID c /\ (admin = true \/ same_plan c (f c))) -> steps (UpdateOne cm_ID set_t_campaigns k f).
Proof using. intros Hf. apply steps_exec. intros d d' w [= <-]. apply rtc_once. by apply p_campaign. Qed.
Lemma steps_insert_campaign c : admin = true -> steps (InsertOne cm_ID t_campaigns set_t_campaigns c).
Proof using.
  intros Ha. apply steps_exec. intros d d' w. destruct (existsb _ _); [done|]. intros [= <-]. apply rtc_once. by constructor.
Qed.
Lemma steps_update_ads k f : admin = true -> steps (UpdateOne ad_ID set_t_ads k f).
Proof using. intros Ha. apply steps_exec. intros d d' w [= <-]. apply rtc_once. by constructor. Qed.
Lemma steps_insert_ad x : admin = true -> steps (InsertOne ad_ID t_ads set_t_ads x).
Proof using.
  intros Ha. apply steps_exec. intros d d' w. destruct (existsb _ _); [done|]. intros [= <-]. apply rtc_once. by constructor.
Qed.
Lemma steps_CreateJob type c a ch t p : KJ c -> steps (CreateJob type c a ch t p).
Proof using.
  intros Hc. apply steps_bind; [apply steps_bind; [apply steps_uuid|intros; apply steps_ret]|]. intros id.
  apply steps_exec. intros d d' w. destruct (existsb _ _) eqn:E; [done|]. intros [= <-]. apply rtc_once. by apply p_job_new.
Qed.
Lemma steps_UpdateJob k f :
  (forall j, exists s e, s <> JobPending /\ f j = with_job s (jb_RunAt j) (jb_Attempts j) e j) -> steps (UpdateJob k f).
Proof using. intros Hf. apply steps_exec. intros d d' w [= <-]. apply rtc_once. by apply p_job. Qed.
Lemma steps_RetryJob k t : KT k -> steps (RetryJob k t).
Proof using. intros Hk. apply steps_exec. intros d d' w [= <-]. apply rtc_once. by apply p_retry. Qed.
Lemma steps_CreateReservation c a ch t : KR c ch -> steps (CreateReservation c a ch t).
Proof using.
  intros Hc. apply steps_bind; [apply steps_bind; [apply steps_uuid|intros; apply steps_ret]|]. intros id.
  apply steps_bind; [|intros; apply steps_ret].
  apply steps_exec. intros d d' w. destruct (existsb _ _) eqn:E; [done|]. intros [= <-]. apply rtc_once. by apply p_reservation_new.
Qed.
Lemma steps_UpdateReservation k f : (forall r, same_slot r (f r)) -> steps (UpdateReservation k f).
Proof using. intros Hf. apply steps_exec. intros d d' w [= <-]. apply rtc_once. by apply p_reservation. Qed.
End prim.

Create HintDb steps discriminated.
#[export] Hint Resolve steps_ret steps_throw steps_now steps_uuid steps_get_ext steps_find steps_first steps_Copy steps_Len
  steps_redis_get steps_ask : steps.

Ltac head_of t := match t with ?f _ => head_of f | _ => t end.

(** Descends into a program down to its statements. *)
Ltac steps_step :=
  match goal with
  | |- steps _ _ _ _ (bind _ _) => apply steps_bind
  | |- steps _ _ _ _ (try _) => apply steps_try
  | |- steps _ _ _ _ (quietly _) => apply steps_quietly
  | |- steps _ _ _ _ (for_each _ _) => apply steps_for_each
  | |- steps _ _ _ _ (mod_ext _) => apply steps_mod_ext; done
  | |- steps _ _ _ _ (bot_call _) => apply steps_bot_call; done
  | |- steps _ _ _ _ (redis_set _ _) => apply steps_redis_set; done
  | |- steps _ _ _ _ (UpdateOne cm_ID set_t_campaigns _ _) => apply steps_update_campaign; intros ?; split; [done|auto]
  | |- steps _ _ _ _ (InsertOne cm_ID t_campaigns set_t_campaigns _) => apply steps_insert_campaign; done
  | |- steps _ _ _ _ (UpdateOne ad_ID set_t_ads _ _) => apply steps_update_ads; done
  | |- steps _ _ _ _ (InsertOne ad_ID t_ads set_t_ads _) => apply steps_insert_ad; done
  | |- steps _ _ _ _ (InsertOne _ _ _ _) => apply steps_insert; done
  | |- steps _ _ _ _ (UpdateOne _ _ _ _) => apply steps_docs; done
  | |- steps _ _ _ _ (DeleteOne _ _ _) => apply steps_docs; done
  | |- steps _ _ _ _ (exec (fun d => Ok _)) => apply steps_docs; done
  | |- steps _ _ _ _ (match ?x with _ => _ end) => destruct x
  | |- steps _ _ _ _ (let '_ := ?x in _) => destruct x
  | |- steps _ _ _ _ ?m => let h := head_of m in unfold h
  end.
Ltac steps_tac := repeat (intros; first [solve [auto with steps] | steps_step]; cbv beta zeta).

Section programs.
Context (admin : bool) (KJ : string -> Prop) (KR : string -> string -> Prop) (KT : string -> Prop).
Context {ENV : Env} {LIB : Lib} {FP : F64Platform} {TG : AdmTelegram} {DIR : AdmDirectory}.
Abbreviation Steps m := (steps admin KJ KR KT m).

(** Another status, another error: the attempts and the time stay. *)
Lemma job_update s j e : s <> JobPending -> exists s' e', s' <> JobPending /\ with_job s (jb_RunAt j) (jb_Attempts j) e j =
  with_job s' (jb_RunAt j) (jb_Attempts j) e' j.
Proof using. intros. by exists s, e. Qed.

Lemma steps_CancelJob k : Steps (CancelJob k).
Proof using. apply steps_UpdateJob. intros. by apply job_update. Qed.
Lemma steps_MarkJobDone k : Steps (MarkJobDone k).
Proof using. apply steps_UpdateJob. intros. by apply job_update. Qed.
Lemma steps_MarkJobFailed k e : Steps (MarkJobFailed k e).
Proof using. apply steps_UpdateJob. intros. by apply job_update. Qed.

Lemma steps_SetMainPosted k m : Steps (SetReservationMainPosted k m).
Proof using. apply steps_UpdateReservation. intros r. repeat split; simpl; [done|lia]. Qed.
Lemma steps_SetReplyPosted k m i : Steps (SetReservationReplyPosted k m i).
Proof using.
  unfold SetReservationReplyPosted. apply steps_bind; [apply steps_first|]. intros res. cbv zeta. apply steps_UpdateReservation.
  intros r. repeat split; simpl; [done|]. destruct (_ =? 0); simpl; lia.
Qed.
Lemma steps_SetDeleteAt k t : Steps (SetReservationDeleteAt k t).
Proof using. apply steps_UpdateReservation. intros r. repeat split; simpl; [done|lia]. Qed.
Lemma steps_MarkExpired k : Steps (MarkReservationExpired k).
Proof using. apply steps_UpdateReservation. intros r. repeat split; simpl; [done|lia]. Qed.
Lemma steps_SetLive k m : Steps (SetReservationLiveMessage k [m]).
Proof using.
  unfold SetReservationLiveMessage. apply steps_bind; [apply steps_first|]. intros res. cbv zeta. apply steps_UpdateReservation.
  intros r. repeat split; simpl; [done|lia].
Qed.
Lemma steps_MarkFailed k e : Steps (MarkReservationFailed k e).
Proof using. apply steps_UpdateReservation. intros r. repeat split; simpl; [done|lia]. Qed.
Lemma steps_CancelReservation k : Steps (UpdateReservation k (with_reservation_status ReservationCancelled)).
Proof using. apply steps_UpdateReservation. intros r. repeat split; simpl; [done|lia]. Qed.

Lemma steps_UpdateCampaignStatus k s : admin = true \/ s <> CampaignRunning -> Steps (UpdateCampaignStatus k s).
Proof using. intros Hs. apply steps_update_campaign. intros c. split; [done|]. destruct Hs; [by left|right]. by repeat split. Qed.
Lemma steps_Incr k : Steps (IncrCampaignImpressions k).
Proof using. apply steps_update_campaign. intros c. split; [done|]. right. by repeat split. Qed.
Lemma steps_DeleteCampaign k : Steps (DeleteCampaign k).
Proof using. unfold DeleteCampaign. apply steps_bind; [apply steps_now|]. intros n. apply steps_update_campaign. intros c. split; [done|]. right. by repeat split. Qed.

Lemma steps_GetSettings : Steps GetSettings.
Proof using.
  unfold GetSettings. apply steps_bind; [apply steps_try, steps_first|]. intros [st|e]; [apply steps_ret|].
  apply steps_bind; [|intros; apply steps_ret]. apply steps_quietly, steps_exec. intros d d' w.
  destruct (t_settings d); [done|]. intros [= <-]. apply rtc_once. by constructor.
Qed.
End programs.
#[export] Hint Resolve steps_CreateJob steps_RetryJob steps_CreateReservation steps_CancelJob steps_MarkJobDone steps_MarkJobFailed steps_SetMainPosted
  steps_SetReplyPosted steps_SetDeleteAt steps_MarkExpired steps_SetLive steps_MarkFailed steps_CancelReservation steps_Incr
  steps_DeleteCampaign steps_GetSettings : steps.

Section scheduler_programs.
Context (admin : bool) (KJ : string -> Prop) (KR : string -> string -> Prop) (KT : string -> Prop).
Context {ENV : Env} {LIB : Lib} {FP : F64Platform} {TG : AdmTelegram} {DIR : AdmDirectory}.
Context (ownerID local_zone : Z).
Abbreviation Steps m := (steps admin KJ KR KT m).

Lemma steps_CancelCampaignJobs c : Steps (CancelCampaignJobs c).
Proof using. steps_tac. Qed.
Lemma steps_CancelReservationJobs c : Steps (CancelReservationJobs c).
Proof using. steps_tac. Qed.
Lemma steps_CancelCampaignReservations c : Steps (CancelCampaignReservations c).
Proof using. steps_tac. Qed.
#[local] Hint Resolve steps_CancelCampaignJobs steps_CancelReservationJobs steps_CancelCampaignReservations : steps.

Lemma steps_cutOffCampaign cm : Steps (cutOffCampaign cm).
Proof using. steps_tac. Qed.

Lemma steps_channels_by_tag cm l out : Steps (channels_by_tag cm l out).
Proof using. revert out. induction l; intros; simpl; steps_tac. Qed.
Lemma steps_channels_by_id l out : Steps (channels_by_id l out).
Proof using. revert out. induction l; intros; simpl; steps_tac. Qed.
Lemma steps_resolveChannels cm : Steps (resolveChannels cm).
Proof using. apply steps_bind; [apply steps_channels_by_tag|intros; apply steps_channels_by_id]. Qed.

Lemma steps_afterPost ch m : Steps (afterPost ch m).
Proof using. steps_tac. Qed.
#[local] Hint Resolve steps_cutOffCampaign steps_resolveChannels steps_afterPost : steps.

Lemma steps_sendAd job : KJ (jb_CampaignID job) -> Steps (sendAd job).
Proof using. intros. steps_tac. Qed.
Lemma steps_sendReply job : KJ (jb_CampaignID job) -> Steps (sendReply job).
Proof using. intros. steps_tac. Qed.
Lemma steps_deletePost job : Steps (deletePost job).
Proof using. steps_tac. Qed.
Lemma steps_updateStats job : Steps (updateStats job).
Proof using. steps_tac. Qed.
Lemma steps_endCampaign job : Steps (endCampaign job).
Proof using. unfold endCampaign. destruct (_ =? _)%string; [apply steps_ret|]. apply steps_UpdateCampaignStatus. by right. Qed.
Lemma steps_sendReminder job : Steps (sendReminder ownerID job).
Proof using. steps_tac. Qed.
#[local] Hint Resolve steps_sendAd steps_sendReply steps_deletePost steps_updateStats steps_endCampaign steps_sendReminder : steps.

(** A job works for its campaign and is retried only while it has attempts left. *)
Lemma steps_runJob job : KJ (jb_CampaignID job) -> (jb_Attempts job < jb_MaxAttempts job -> KT (jb_ID job)) ->
  Steps (runJob ownerID job).
Proof using.
  intros HJ HT. unfold runJob. cbv zeta. destruct (jb_Type job); try (apply steps_quietly, steps_MarkJobDone);
    (apply steps_bind; [apply steps_try; auto with steps|]); (intros [u|e]; [steps_tac|]);
    (destruct (_ <? _) eqn:E; [zbool|]; [pose proof (HT E)|]; steps_tac).
Qed.

Lemma steps_plan_channel cm ad n t lead ch : KJ (cm_ID cm) -> KR (cm_ID cm) (ch_ID ch) -> Steps (plan_channel cm ad n t lead ch).
Proof using. intros. unfold LastReservationAt. steps_tac. Qed.
End scheduler_programs.
#[export] Hint Resolve steps_cutOffCampaign steps_resolveChannels steps_CancelCampaignJobs steps_CancelReservationJobs
  steps_CancelCampaignReservations steps_afterPost : steps.

(** * The owner's updates: no job, no reservation is made by them *)

Section handlers.
Context {ENV : Env} {LIB : Lib} {FP : F64Platform} {TG : AdmTelegram} {DIR : AdmDirectory}.
Context (ownerID local_zone : Z) (has_cache : bool).
Abbreviation Steps m := (steps true (fun _ => False) (fun _ _ => False) (fun _ => False) m).

Lemma steps_admin_status k s : Steps (UpdateCampaignStatus k s).
Proof using. apply steps_UpdateCampaignStatus. by left. Qed.
Lemma steps_copy_replies to source main l posted : Steps (copy_replies to source main l posted).
Proof using. revert posted. induction l; intros; simpl; steps_tac. Qed.
Lemma steps_all_slots t l slots : Steps (all_slots t l slots).
Proof using. revert slots. induction l; intros; simpl; steps_tac. Qed.
#[local] Hint Resolve steps_admin_status steps_copy_replies steps_all_slots : steps.

Lemma steps_campaignSetStatus uid id a : Steps (campaignSetStatus uid id a).
Proof using. steps_tac. Qed.
Lemma steps_campaignDelete uid id : Steps (campaignDelete uid id).
Proof using. steps_tac. Qed.
#[local] Hint Resolve steps_campaignSetStatus steps_campaignDelete : steps.

Lemma steps_renderSchedule uid b n : Steps (renderSchedule local_zone uid b n).
Proof using. steps_tac. Qed.
Lemma steps_handleChannelAdd uid msg text : Steps (handleChannelAdd has_cache uid msg text).
Proof using. steps_tac. Qed.
#[local] Hint Resolve steps_renderSchedule steps_handleChannelAdd : steps.
Lemma steps_handleStep uid msg st text : Steps (handleStep has_cache uid msg st text).
Proof using. unfold handleStep. destruct (Step st); steps_tac. Qed.
#[local] Hint Resolve steps_handleStep : steps.

Lemma dispatch_Forall (P : (string -> M AdmTables AdmWorld unit) -> Prop) a l h :
  dispatch a l = Some h -> Forall (fun p => P (snd p)) l -> P h.
Proof using. intros Hd Hl. induction Hl as [|[k h'] l Hp _ IH]; [done|]. simpl in Hd. destruct (k =? a)%string; [by injection Hd as <-|auto]. Qed.

Lemma steps_callbacks uid arg : Forall (fun p => Steps (snd p arg)) (callbacks local_zone has_cache uid).
Proof using. repeat (apply List.Forall_cons; [cbn [snd]; steps_tac|]). apply List.Forall_nil. Qed.

Lemma steps_adminOnText uid text : Steps (adminOnText ownerID local_zone has_cache uid text).
Proof using. unfold adminOnText. steps_tac. Qed.
#[local] Hint Resolve steps_adminOnText : steps.

(** Whatever the owner, or anybody, sends: no job and no reservation appears. *)
Lemma steps_handle_update u : Steps (handle_update ownerID local_zone has_cache u).
Proof using.
  destruct u as [uid c|uid msg|uid msg|uid d]; unfold handle_update.
  - steps_tac.
  - unfold onText. steps_tac.
  - unfold onMedia. steps_tac.
  - unfold onCallback. destruct (negb _); [steps_tac|]. set (dd := match d with EmptyString => _ | String _ _ => _ end).
    clearbody dd. destruct (match Cut ":" dd with Some _ => _ | None => _ end) as [action arg].
    apply steps_bind; [|steps_tac]. destruct (dispatch action _) as [h|] eqn:E; [|steps_tac].
    apply (dispatch_Forall (fun h => Steps (h arg)) _ _ _ E), steps_callbacks.
Qed.
End handlers.
