(* ===== verification/AdmSpec.v ===== *)
(** admanager-bot: what the scheduler guarantees, over all runs of ticks,
    goroutines and updates. *)
From stdpp Require Import relations.
From S2P Require Import Prelude GoInt GoFloat GoString GoText Effects PayModels PayChain AdmModels AdmStore AdmScheduler AdmBot AdmWindow AdmFrame.

(** * Assertions kept outside transactions *)

Section under.
Context {ENV : Env} {LIB : Lib} {FP : F64Platform} {TG : AdmTelegram} {DIR : AdmDirectory}.
Abbreviation MM := (M AdmTables AdmWorld).
Implicit Types I : AdmTables -> AdmWorld -> Prop.

Definition under I {A} (Q : A -> Prop) (m : MM A) : Prop := forall s r s',
  tx s = NoTx -> I (db s) (ext s) -> m s = (r, s') ->
  tx s' = NoTx /\ I (db s') (ext s') /\ match r with Ok a => Q a | Err _ => True end.

Context (I : AdmTables -> AdmWorld -> Prop).

Lemma under_ret {A} (Q : A -> Prop) a : Q a -> under I Q (ret a).
Proof using. by intros HQ s r s' Ht Hi [= <- <-]. Qed.

Lemma under_throw {A} (Q : A -> Prop) e : under I Q (throw e).
Proof using. by intros s r s' Ht Hi [= <- <-]. Qed.

Lemma under_bind {A B} (P : A -> Prop) (Q : B -> Prop) (m : MM A) (k : A -> MM B) :
  under I P m -> (forall a, P a -> under I Q (k a)) -> under I Q (bind m k).
Proof using.
  intros Hm Hk s r s' Ht Hi Hr. apply bind_run in Hr as (r1 & s1 & H1 & Hr).
  destruct (Hm _ _ _ Ht Hi H1) as (Ht1 & Hi1 & HP). destruct r1 as [a|e].
  - by apply (Hk a HP _ _ _ Ht1 Hi1 Hr).
  - by destruct Hr as [-> ->].
Qed.

Lemma under_try {A} (Q : A -> Prop) (m : MM A) :
  under I Q m -> under I (fun r => match r with Ok a => Q a | Err _ => True end) (try m).
Proof using. intros Hm s r s' Ht Hi Hr. apply try_run in Hr as (r1 & -> & Hr). by apply (Hm _ _ _ Ht Hi Hr). Qed.

Lemma under_any {A} (Q : A -> Prop) (m : MM A) : under I Q m -> under I (fun _ => True) m.
Proof using. intros Hm s r s' Ht Hi Hr. destruct (Hm _ _ _ Ht Hi Hr) as (? & ? & _). by destruct r. Qed.

Lemma under_find {A} (q : AdmTables -> A) : under I (fun a => exists d w, I d w /\ a = q d) (find q).
Proof using.
  intros s r s' Ht Hi Hr. unfold find, stmt in Hr. rewrite Ht in Hr. destruct (env_fault _); injection Hr as <- <-; simpl; [done|].
  split; [done|]. split; [done|]. by exists (db s), (ext s).
Qed.

Lemma under_for_each {A} (f : A -> MM unit) l :
  (forall x, x ∈ l -> under I (fun _ => True) (f x)) -> under I (fun _ => True) (for_each f l).
Proof using.
  induction l as [|x l IH]; simpl; intros Hf; [by apply under_ret|].
  eapply under_bind; [apply Hf; set_solver|]. intros _ _. apply IH. intros y Hy. apply Hf. set_solver.
Qed.

(** A program whose primitive updates keep the assertion. *)
Lemma under_steps admin KJ KR KT {A} (m : MM A) :
  steps admin KJ KR KT m -> (forall d w d' w', prim admin KJ KR KT (d, w) (d', w') -> I d w -> I d' w') -> under I (fun _ => True) m.
Proof using.
  intros Hm Hp s r s' Ht Hi Hr. destruct (Hm _ _ _ Hr Ht) as [Hs Ht']. split; [done|]. split; [|by destruct r].
  remember (db s, ext s) as x eqn:Ex. remember (db s', ext s') as y eqn:Ey. clear Hr Hm Ht Ht'.
  revert s Ex Hi. induction Hs as [z|x [d w] y Hxy _ IH]; intros s Ex Hi; subst.
  - by injection Ex as -> ->.
  - apply (IH eq_refl (mkSt 0 NoTx d w) eq_refl). by apply (Hp _ _ _ _ Hxy).
Qed.
End under.

(** * Lists of documents *)

Section update_at.
Context {A : Type} (id : A -> string) (k : string) (f : A -> A).

Lemma has_id_true k' x : has_id id k' x = true <-> id x = k'.
Proof using. apply String.eqb_eq. Qed.

Lemma elem_of_update_at x l : x ∈ update_at id k f l <-> exists y, y ∈ l /\ x = if has_id id k y then f y else y.
Proof using.
  unfold update_at. rewrite list_elem_of_In, in_map_iff. split.
  - intros (y & <- & Hy). exists y. split; [by apply list_elem_of_In|done].
  - intros (y & Hy & ->). exists y. split; [done|by apply list_elem_of_In in Hy].
Qed.

Lemma map_update_at {B} (g : A -> B) l : (forall x, g (f x) = g x) -> map g (update_at id k f l) = map g l.
Proof using.
  intros Hg. unfold update_at. rewrite map_map. apply map_ext. intros x. by destruct (has_id _ _ _).
Qed.

Lemma filter_update_at (P : A -> bool) {B} (g : A -> B) l :
  (forall x, P (f x) = P x) -> (forall x, g (f x) = g x) ->
  map g (List.filter P (update_at id k f l)) = map g (List.filter P l).
Proof using.
  intros HP Hg. induction l as [|x l IH]; simpl; [done|]. destruct (has_id id k x); rewrite ?HP; destruct (P x); simpl; rewrite ?Hg, IH; done.
Qed.
End update_at.

Lemma fresh_id {A} (id : A -> string) k l : existsb (has_id id k) l = false -> forall x, x ∈ l -> id x <> k.
Proof.
  intros H x Hx Hk. apply not_true_iff_false in H. apply H, existsb_exists. exists x.
  split; [by apply list_elem_of_In|by apply has_id_true].
Qed.

Lemma elem_of_map {A B} (f : A -> B) l x : x ∈ l -> f x ∈ map f l.
Proof. rewrite !list_elem_of_In. apply in_map. Qed.

(** Rows with the same id are the same row. *)
Lemma same_row {A} (id : A -> string) l x y : NoDup (map id l) -> x ∈ l -> y ∈ l -> id x = id y -> x = y.
Proof.
  induction l as [|z l IH]; simpl; intros Hn Hx Hy E; [by apply not_elem_of_nil in Hx|].
  apply NoDup_cons in Hn as [Hz Hn].
  apply elem_of_cons in Hx as [->|Hx], Hy as [->|Hy]; [done| | |auto];
    exfalso; apply Hz; [rewrite E|rewrite <- E]; by apply elem_of_map.
Qed.

(** * Starting the jobs that are due *)

Definition started_row (r : ScheduledJob) (d : AdmTables) : AdmTables :=
  set_t_jobs (update_at jb_ID (jb_ID r) (fun j => with_job JobRunning (jb_RunAt j) (i64_add (jb_Attempts j) 1) (jb_LastError j) j)) d.
Definition started_flight (r : ScheduledJob) (w : AdmWorld) : AdmWorld :=
  set_w_running (fun l => l ++ [r]) (set_w_started (fun l => l ++ [jb_ID r]) w).

Section tick.
Context {ENV : Env} {LIB : Lib} {FP : F64Platform} {TG : AdmTelegram} {DIR : AdmDirectory}.
Context (ownerID local_zone : Z) (has_cache : bool).
Context (I : AdmTables -> AdmWorld -> Prop).
(** What a component's assertion has to stand: ids are distinct, a pending job is
    started, the campaigns are planned, a goroutine ends. *)
Context (Hids : forall d w, I d w -> NoDup (map jb_ID (t_jobs d))).
Context (Hstart : forall d w r, I d w -> r ∈ t_jobs d -> jb_Status r = JobPending -> I (started_row r d) (started_flight r w)).
Context (Hplan : under I (fun _ => True) (planCampaigns local_zone)).

Definition start_job (job : ScheduledJob) : M AdmTables AdmWorld unit :=
  (m <- try (MarkJobRunning (jb_ID job)) ;; match m with Err _ => ret tt | Ok _ => go_runJob job end)%eff.

Lemma start_job_run job s r s' : tx s = NoTx -> start_job job s = (r, s') -> tx s' = NoTx /\
  (db s' = db s /\ ext s' = ext s \/ db s' = started_row job (db s) /\ ext s' = started_flight job (ext s)).
Proof using.
  intros Ht H. unfold start_job, MarkJobRunning, UpdateJob, UpdateOne, exec, stmt, try, bind in H. rewrite Ht in H.
  destruct (env_fault _); injection H as _ <-; simpl; auto.
Qed.

Lemma started_row_other r d x : x ∈ t_jobs d -> jb_ID x <> jb_ID r -> x ∈ t_jobs (started_row r d).
Proof using.
  intros Hx Hne. unfold started_row. simpl. apply elem_of_update_at. exists x. split; [done|].
  destruct (has_id _ _ _) eqn:E; [|done]. by apply has_id_true in E.
Qed.

Lemma under_starts l s r s' : tx s = NoTx -> I (db s) (ext s) ->
  (forall x, x ∈ l -> x ∈ t_jobs (db s) /\ jb_Status x = JobPending) -> NoDup (map jb_ID l) ->
  for_each start_job l s = (r, s') -> tx s' = NoTx /\ I (db s') (ext s').
Proof using FP Hids Hplan Hstart LIB TG local_zone.
  revert s. induction l as [|x l IH]; simpl; intros s Ht Hi Hl Hn H; [by injection H as _ <-|].
  apply NoDup_cons in Hn as [Hx Hn]. apply bind_run in H as (r1 & s1 & H1 & H).
  destruct (start_job_run _ _ _ _ Ht H1) as [Ht1 Hs1]. destruct (Hl x ltac:(set_solver)) as [Hrow Hpend].
  assert (Hi1 : I (db s1) (ext s1)) by (destruct Hs1 as [[-> ->]|[-> ->]]; auto).
  destruct r1 as [[]|e]; [|by destruct H as [_ ->]].
  apply (IH s1 Ht1 Hi1); [|done|done]. intros y Hy. destruct (Hl y ltac:(set_solver)) as [Hyr Hyp]. split; [|done].
  destruct Hs1 as [[-> _]|[-> _]]; [done|]. apply started_row_other; [done|]. intros E. apply Hx. rewrite <- E. by apply elem_of_map.
Qed.

(** The jobs that FetchDueJobs hands on. *)
Lemma due_jobs d n : let l := firstn 50 (sort_by jb_RunAt (List.filter (fun j => is_pending j && (jb_RunAt j <=? n)) (t_jobs d))) in
  (forall x, x ∈ l -> x ∈ t_jobs d /\ jb_Status x = JobPending) /\ (NoDup (map jb_ID (t_jobs d)) -> NoDup (map jb_ID l)).
Proof using.
  intros l. set (l0 := List.filter _ _) in l.
  assert (Hp : Permutation (sort_by jb_RunAt l0) l0) by apply merge_sort_Permutation. split.
  - intros x Hx. assert (x ∈ l0) as Hx0.
    { rewrite <- Hp. unfold l in Hx. rewrite <- (firstn_skipn 50 (sort_by jb_RunAt l0)). apply elem_of_app. by left. }
    apply list_elem_of_In, filter_In in Hx0 as [Hx0 Hb]. split; [by apply list_elem_of_In|].
    apply andb_prop in Hb as [Hb _]. by apply bool_decide_eq_true in Hb.
  - intros Hn. assert (Hn0 : NoDup (map jb_ID l0)).
    { unfold l0. clear -Hn. induction (t_jobs d) as [|j js IH]; simpl; [done|]. simpl in Hn. apply NoDup_cons in Hn as [Hj Hn].
      destruct (_ && _); simpl; [|auto]. apply NoDup_cons. split; [|auto]. intros Hin. apply Hj.
      apply list_elem_of_In, in_map_iff in Hin as (y & Ey & Hy). apply filter_In in Hy as [Hy _].
      rewrite <- Ey. by apply elem_of_map, list_elem_of_In. }
    rewrite <- Hp in Hn0. rewrite <- (firstn_skipn 50 (sort_by jb_RunAt l0)), map_app in Hn0. by apply NoDup_app in Hn0 as [? _].
Qed.

Lemma tick_split s : scheduler_tick local_zone s =
  bind (bind (try FetchDueJobs) (fun r => match r with Err _ => ret tt | Ok jobs => for_each start_job jobs end))
    (fun _ => planCampaigns local_zone) s.
Proof using. unfold scheduler_tick, bind. by destruct (try FetchDueJobs s) as [[r|e] s1]. Qed.

Lemma under_tick : under I (fun _ => True) (scheduler_tick local_zone).
Proof using FP Hids Hplan Hstart LIB TG local_zone.
  intros s0 r0 s0' Ht0 Hi0 H0. rewrite tick_split in H0. revert s0 r0 s0' Ht0 Hi0 H0. fold (under I (fun _ : unit => True)).
  apply (under_bind _ (fun _ => True)); [|intros ? _; apply Hplan].
  intros s r s' Ht Hi H. assert (Hgoal : tx s' = NoTx /\ I (db s') (ext s')); [|by destruct Hgoal; destruct r].
  revert H. unfold FetchDueJobs, Find, find, stmt, try, now, ret, bind, bump. cbn [tx db ext tick]. rewrite Ht.
  destruct (env_fault _); cbn [tx db ext tick]; [by intros [= _ <-]|].
  intros H. destruct (due_jobs (db s) (bson_date (env_now (tick s)))) as [Hl Hn].
  by eapply under_starts; [| | | |exact H]; simpl; eauto.
Qed.

Context (Hend : forall d w i job, I d w -> w_running w !! i = Some job ->
  exists I' : AdmTables -> AdmWorld -> Prop,
    I' d (set_w_running (fun l => firstn i l ++ skipn (S i) l) w) /\ (forall d w, I' d w -> I d w) /\
    under I' (fun _ => True) (runJob ownerID job)).

Lemma under_run_nth i : under I (fun _ => True) (run_nth ownerID i).
Proof using Hend.
  intros s r s' Ht Hi H. unfold run_nth, get_ext, mod_ext, bind in H. cbn in H.
  destruct (w_running (ext s) !! i) as [job|] eqn:E; [|injection H as <- <-; by destruct i].
  destruct (Hend _ _ _ _ Hi E) as (I' & HI' & Himp & Hrun).
  destruct (Hrun (mkSt (tick s) (tx s) (db s) (set_w_running (fun l => firstn i l ++ skipn (S i) l) (ext s))) r s' Ht HI' H)
    as (? & ? & ?). auto.
Qed.
End tick.

(** An assertion that every kind of event keeps holds after every run. *)
Lemma under_run {ENV : Env} {LIB : Lib} {FP : F64Platform} {TG : AdmTelegram} {DIR : AdmDirectory} ownerID local_zone has_cache
    (I : AdmTables -> AdmWorld -> Prop) (l : list adm_event) :
  (forall e, e ∈ l -> under I (fun _ => True) (adm_step ownerID local_zone has_cache e)) ->
  under I (fun _ => True) (adm_run ownerID local_zone has_cache l).
Proof.
  induction l as [|e l IH]; intros He; [by apply under_ret|]. cbn [adm_run].
  eapply under_bind; [apply under_try, He; set_solver|]. intros ? _. apply IH. intros e' He'. apply He. set_solver.
Qed.

(** * How often a job runs *)

(** How many goroutines have been started for the job. *)
Definition starts (k : string) (w : AdmWorld) : nat := length (List.filter (String.eqb k) (w_started w)).

(** A row counts its starts and is pending with at most three of them; a
    goroutine under way has a row of its own that is not pending. *)
Record jobs_ok (d : AdmTables) (w : AdmWorld) : Prop := {
  jo_ids : NoDup (map jb_ID (t_jobs d));
  jo_rows : forall j, j ∈ t_jobs d -> jb_MaxAttempts j = 3 /\ jb_Attempts j = Z.of_nat (starts (jb_ID j) w) /\
              jb_Attempts j <= 4 /\ (jb_Status j = JobPending -> jb_Attempts j <= 3);
  jo_known : forall k, k ∈ w_started w -> exists j, j ∈ t_jobs d /\ jb_ID j = k;
  jo_flights : NoDup (map jb_ID (w_running w));
  jo_flight : forall r, r ∈ w_running w -> jb_MaxAttempts r = 3 /\
                exists j, j ∈ t_jobs d /\ jb_ID j = jb_ID r /\ jb_Attempts j = jb_Attempts r + 1 /\ jb_Status j <> JobPending;
}.

(** The jobs of [T] may be tried again. *)
Definition may_retry (T : string -> Prop) (d : AdmTables) (w : AdmWorld) : Prop :=
  forall k, T k -> (forall j, j ∈ t_jobs d -> jb_ID j = k -> jb_Attempts j <= 3) /\ (forall r, r ∈ w_running w -> jb_ID r <> k).

Lemma starts_none k w : (forall k', k' ∈ w_started w -> k' <> k) -> starts k w = O.
Proof.
  unfold starts. intros H. induction (w_started w) as [|x l IH]; simpl; [done|].
  destruct (String.eqb_spec k x) as [->|]; [by destruct (H x ltac:(set_solver))|]. apply IH. set_solver.
Qed.

Lemma started_starts k r w : starts k (started_flight r w) = (starts k w + if (k =? jb_ID r)%string then 1 else 0)%nat.
Proof. unfold starts. simpl. rewrite List.filter_app, length_app. simpl. by destruct (k =? jb_ID r)%string. Qed.

(** Rows change in place without a start: [f] keeps their counts. *)
Lemma jobs_ok_update k f d w :
  (forall j, jb_ID (f j) = jb_ID j /\ jb_Attempts (f j) = jb_Attempts j /\ jb_MaxAttempts (f j) = jb_MaxAttempts j) ->
  (forall j, j ∈ t_jobs d -> jb_ID j = k -> jb_Status (f j) = JobPending ->
     jb_Attempts j <= 3 /\ forall r, r ∈ w_running w -> jb_ID r <> k) ->
  jobs_ok d w -> jobs_ok (set_t_jobs (update_at jb_ID k f) d) w.
Proof.
  intros Hf Hp [H1 H2 H3 H4 H5]. split; simpl; [|intros j Hj| |done|].
  - rewrite map_update_at; [done|]. intros. apply Hf.
  - apply elem_of_update_at in Hj as (y & Hy & ->). destruct (H2 y Hy) as (Hm & Ha & Hle & Hpd).
    destruct (has_id jb_ID k y) eqn:E; [|done]. apply has_id_true in E. destruct (Hf y) as (-> & -> & ->).
    repeat split; [done..|]. intros Hs. by apply (Hp y Hy E).
  - intros x Hx. destruct (H3 x Hx) as (j & Hj & <-). exists (if has_id jb_ID k j then f j else j). split.
    + apply elem_of_update_at. by exists j.
    + destruct (has_id _ _ _); [apply Hf|done].
  - intros r Hr. destruct (H5 r Hr) as (Hm & j & Hj & Eid & Hatt & Hs). split; [done|].
    exists (if has_id jb_ID k j then f j else j). split; [apply elem_of_update_at; by exists j|].
    destruct (has_id jb_ID k j) eqn:E; [|done]. apply has_id_true in E. destruct (Hf j) as (-> & -> & _).
    split; [done|]. split; [done|]. intros Hpend. destruct (Hp j Hj E Hpend) as [_ Hno]. apply (Hno r Hr). congruence.
Qed.

Definition jobs_free (T : string -> Prop) (d : AdmTables) (w : AdmWorld) : Prop := jobs_ok d w /\ may_retry T d w.

Lemma jobs_free_ext T d w d' w' : t_jobs d' = t_jobs d -> w_running w' = w_running w -> w_started w' = w_started w ->
  jobs_free T d w -> jobs_free T d' w'.
Proof.
  intros Hj Hr Hs [[H1 H2 H3 H4 H5] Hm]. unfold jobs_free, may_retry. split; [split|]; unfold starts; rewrite ?Hj, ?Hr, ?Hs; done.
Qed.

Lemma may_retry_update T k f d w : (forall j, jb_ID (f j) = jb_ID j /\ jb_Attempts (f j) = jb_Attempts j) ->
  may_retry T d w -> may_retry T (set_t_jobs (update_at jb_ID k f) d) w.
Proof.
  intros Hf Hm k' Hk'. destruct (Hm k' Hk') as [Ha Hr]. split; [|done]. simpl. intros j Hj Hid.
  apply elem_of_update_at in Hj as (y & Hy & ->). destruct (Hf y) as [E1 E2].
  destruct (has_id jb_ID k y); rewrite ?E1, ?E2 in *; by apply Ha.
Qed.

Lemma jobs_free_new T d w j : jb_Status j = JobPending -> jb_Attempts j = 0 -> jb_MaxAttempts j = 3 ->
  existsb (has_id jb_ID (jb_ID j)) (t_jobs d) = false -> jobs_free T d w -> jobs_free T (set_t_jobs (fun l => l ++ [j]) d) w.
Proof.
  intros Hst Hatt Hmax Hfresh [[H1 H2 H3 H4 H5] Hm]. pose proof (fresh_id _ _ _ Hfresh) as Hf.
  split; [split; simpl|]; [|intros x Hx| |done| |].
  - rewrite map_app. apply NoDup_app. split; [done|]. split; [|apply NoDup_singleton]. simpl. intros x Hx Hx'.
    apply list_elem_of_singleton in Hx' as ->. apply list_elem_of_In, in_map_iff in Hx as (y & Ey & Hy).
    apply (Hf y); [by apply list_elem_of_In|done].
  - apply elem_of_app in Hx as [Hx|Hx]; [by apply H2|]. apply list_elem_of_singleton in Hx as ->.
    rewrite Hmax, Hatt, starts_none; [repeat split; lia|]. intros k Hk ->. destruct (H3 _ Hk) as (y & Hy & E). by apply (Hf y).
  - intros k Hk. destruct (H3 k Hk) as (y & ? & ?). exists y. split; [set_solver|done].
  - intros r Hr. destruct (H5 r Hr) as (? & y & ? & ? & ? & ?). split; [done|]. exists y. split; [set_solver|done].
  - intros k Hk. destruct (Hm k Hk) as [Ha Hr]. split; [|done]. simpl. intros x Hx E.
    apply elem_of_app in Hx as [Hx|Hx]; [by apply Ha|]. apply list_elem_of_singleton in Hx as ->. lia.
Qed.

Lemma jobs_free_prim admin KJ KR T d w d' w' :
  prim admin KJ KR T (d, w) (d', w') -> jobs_free T d w -> jobs_free T d' w'.
Proof.
  intros Hp HJ. inversion Hp as [| | | | | |d0 w0 k f Hf|d0 w0 k t Hk| |]; subst; clear Hp;
    try (by eapply jobs_free_ext; [| | |exact HJ]); [by apply jobs_free_new| |]; destruct HJ as [Hok Hm]; split.
  - apply jobs_ok_update; [..|done]; intros j; destruct (Hf j) as (s & e & Hs & ->); [done|]. done.
  - apply may_retry_update; [|done]. intros j. by destruct (Hf j) as (s & e & Hs & ->).
  - apply jobs_ok_update; [done| |done]. intros j Hj E _. destruct (Hm k Hk) as [Ha Hr]. split; [by apply Ha|done].
  - by apply may_retry_update.
Qed.

(** A pending job is started. *)
Lemma jobs_ok_start d w r : jobs_ok d w -> r ∈ t_jobs d -> jb_Status r = JobPending ->
  jobs_ok (started_row r d) (started_flight r w).
Proof.
  intros [H1 H2 H3 H4 H5] Hr Hpend. destruct (H2 r Hr) as (Hmax & Hatt & _ & H3'). specialize (H3' Hpend).
  assert (Hrow : forall y, y ∈ t_jobs d -> jb_ID y = jb_ID r -> y = r) by (intros; by apply (same_row jb_ID (t_jobs d))).
  assert (Hadd : i64_add (jb_Attempts r) 1 = jb_Attempts r + 1).
  { unfold i64_add. apply wrap64_id. unfold in_int64, int64_min, int64_max. lia. }
  split; simpl.
  - by rewrite map_update_at.
  - intros j Hj. apply elem_of_update_at in Hj as (y & Hy & ->). rewrite started_starts.
    destruct (has_id jb_ID (jb_ID r) y) eqn:E.
    + apply has_id_true in E. rewrite (Hrow y Hy E). simpl. rewrite String.eqb_refl, Hadd. repeat split; [done|lia|lia|done].
    + destruct (String.eqb_spec (jb_ID y) (jb_ID r)) as [E'|_]; [apply (has_id_true jb_ID) in E'; congruence|].
      rewrite Nat.add_0_r. by apply H2.
  - intros k Hk. assert (Hk' : exists j, j ∈ t_jobs d /\ jb_ID j = k).
    { apply elem_of_app in Hk as [Hk|Hk]; [by apply H3|]. apply list_elem_of_singleton in Hk as ->. by exists r. }
    destruct Hk' as (j & Hj & <-). eexists. split; [apply elem_of_update_at; exists j; split; [done|reflexivity]|].
    by destruct (has_id _ _ _).
  - rewrite map_app. apply NoDup_app. split; [done|]. split; [|apply NoDup_singleton]. simpl. intros x Hx Hx'.
    apply list_elem_of_singleton in Hx' as ->. apply list_elem_of_In, in_map_iff in Hx as (y & Ey & Hy).
    apply list_elem_of_In in Hy. destruct (H5 y Hy) as (_ & j & Hj & Eid & _ & Hns). apply Hns. rewrite (Hrow j Hj); [done|congruence].
  - intros x Hx. apply elem_of_app in Hx as [Hx|Hx].
    + destruct (H5 x Hx) as (? & j & Hj & Eid & Ha & Hns). split; [done|]. exists j. split; [|done].
      apply (started_row_other r d j Hj). intros E. apply Hns. by rewrite (Hrow j Hj E).
    + apply list_elem_of_singleton in Hx as ->. split; [done|]. eexists. split; [apply elem_of_update_at; exists r; split; [done|reflexivity]|].
      assert (has_id jb_ID (jb_ID r) r = true) as -> by (by apply has_id_true). simpl. by rewrite Hadd.
Qed.

(** * Planning *)

Abbreviation none1 := (fun _ : string => False).
Abbreviation none2 := (fun _ _ : string => False).

Section plan.
Context {ENV : Env} {LIB : Lib} {FP : F64Platform} {TG : AdmTelegram} {DIR : AdmDirectory} (local_zone : Z).
Context (I : AdmTables -> AdmWorld -> Prop) (Pcm : Campaign -> Prop) (Pad : Campaign -> Advertisement -> Prop).
Context (Hprim : forall d w d' w', prim false none1 none2 none1 (d, w) (d', w') -> I d w -> I d' w').
Context (Hcm : forall d w cm, I d w -> cm ∈ t_campaigns d -> cm_Status cm = CampaignRunning -> Pcm cm).
Context (Had : forall d w cm ad, I d w -> Pcm cm -> ad ∈ t_ads d -> ad_CampaignID ad = cm_ID cm -> ad_IsActive ad = true -> Pad cm ad).
Context (Hch : forall cm ad n t lead ch, Pcm cm -> Pad cm ad -> under I (fun _ => True) (plan_channel cm ad n t lead ch)).

Lemma under_still {A} (m : M AdmTables AdmWorld A) : steps false none1 none2 none1 m -> under I (fun _ => True) m.
Proof using Hprim. intros Hm. by apply (under_steps I false none1 none2 none1). Qed.

Lemma under_plan_campaign n lead cm : Pcm cm -> under I (fun _ => True) (plan_campaign n lead cm).
Proof using Hprim Had Hch.
  intros HP. unfold plan_campaign.
  destruct (match cm_EndAt cm with Some _ => _ | None => _ end).
  { apply under_still, steps_quietly, steps_UpdateCampaignStatus. by right. }
  destruct (_ <? 1); [by apply under_ret|]. destruct (negb _); [apply under_still, steps_cutOffCampaign|].
  eapply under_bind; [apply under_try, under_find|]. intros [ads|e] Hads; [|by apply under_ret].
  destruct Hads as (d & w & Hi & ->). set (ads := List.filter _ _). destruct ads as [|a ads'] eqn:E; [by apply under_ret|].
  rewrite <- E. eapply under_bind; [apply under_still, steps_resolveChannels|]. intros channels _.
  destruct channels as [|c cs] eqn:Ec; [by apply under_ret|]. rewrite <- Ec.
  destruct (rotation_in_range cm n (window_start cm n) ads) as (ad & -> & Hin); [by rewrite E|].
  apply under_for_each. intros ch _. apply Hch; [done|]. unfold ads in Hin. apply list_elem_of_In, filter_In in Hin as [Hin Hb].
  apply andb_prop in Hb as [Hb1 Hb2]. apply String.eqb_eq in Hb1. eapply Had; eauto. by apply list_elem_of_In.
Qed.

Lemma under_active : under I (fun l => forall cm, cm ∈ l -> Pcm cm) ListActiveCampaigns.
Proof using All.
  unfold ListActiveCampaigns. eapply under_bind; [apply under_still, steps_now|]. intros n _ s r s' Ht Hi Hr.
  destruct (under_find I _ s r s' Ht Hi Hr) as (? & ? & HQ). split; [done|]. split; [done|]. destruct r as [l|]; [|done].
  destruct HQ as (d & w & Hd & ->). intros cm Hin. apply list_elem_of_In, filter_In in Hin as [Hin Hb].
  apply andb_prop in Hb as [Hb _]. apply andb_prop in Hb as [Hb _]. apply bool_decide_eq_true in Hb.
  eapply Hcm; eauto. by apply list_elem_of_In.
Qed.

Lemma under_planCampaigns : under I (fun _ => True) (planCampaigns local_zone).
Proof using All.
  unfold planCampaigns. eapply under_bind; [apply under_try, under_active|]. intros [l|e] Hl; [|by apply under_ret].
  eapply under_bind; [apply under_still, steps_now|]. intros n _.
  eapply under_bind; [apply under_still, steps_GetSettings|]. intros st _.
  apply under_for_each. intros cm Hin. by apply under_plan_campaign, Hl.
Qed.
End plan.

Section runs_bounded.
Context {ENV : Env} {LIB : Lib} {FP : F64Platform} {TG : AdmTelegram} {DIR : AdmDirectory}.
Context (ownerID local_zone : Z) (has_cache : bool).

Lemma jobs_ok_free d w : jobs_ok d w -> jobs_free none1 d w.
Proof using. by split. Qed.

Lemma jobs_free_flight d w i job : jobs_free none1 d w -> w_running w !! i = Some job ->
  jobs_free (fun k => k = jb_ID job /\ jb_Attempts job < 3) d (set_w_running (fun l => firstn i l ++ skipn (S i) l) w) /\
  jb_MaxAttempts job = 3.
Proof using.
  intros [[H1 H2 H3 H4 H5] _] Hi. pose proof (list_elem_of_lookup_2 _ _ _ Hi) as Hin.
  destruct (H5 job Hin) as (Hmax & j & Hj & Eid & Ha & Hns).
  assert (Hsplit : w_running w = firstn i (w_running w) ++ job :: skipn (S i) (w_running w)) by (symmetry; by apply take_drop_middle).
  set (l' := firstn i (w_running w) ++ skipn (S i) (w_running w)).
  assert (Hperm : Permutation (w_running w) (job :: l')).
  { unfold l'. rewrite Hsplit at 1. symmetry. apply Permutation_middle. }
  assert (Hnd : NoDup (jb_ID job :: map jb_ID l')) by (change (NoDup (map jb_ID (job :: l'))); by rewrite <- Hperm).
  apply NoDup_cons in Hnd as [Hnot Hnd].
  split; [|done]. split; [split; simpl; try done|].
  - intros r Hr. apply H5. rewrite Hperm. set_solver.
  - intros k [-> Hlt]. split.
    + intros y Hy E. replace y with j; [lia|]. apply (same_row jb_ID (t_jobs d)); congruence.
    + simpl. intros r Hr E. apply Hnot. rewrite <- E. by apply elem_of_map.
Qed.

Lemma under_event e : under (jobs_free none1) (fun _ => True) (adm_step ownerID local_zone has_cache e).
Proof using.
  destruct e as [|i|u]; simpl.
  - apply under_tick.
    + by intros d w [[? _ _ _ _] _].
    + intros d w r [Hok _] Hr Hp. apply jobs_ok_free. by apply jobs_ok_start.
    + apply (under_planCampaigns _ _ (fun _ => True) (fun _ _ => True)); [|done..|].
      * intros d w d' w'. apply jobs_free_prim.
      * intros. eapply (under_steps _ false (fun _ => True) (fun _ _ => True) none1); [by apply steps_plan_channel|].
        intros d w d' w'. apply jobs_free_prim.
  - apply under_run_nth. intros d w j job HJ Hj. destruct (jobs_free_flight _ _ _ _ HJ Hj) as [HJ' Hmax].
    eexists. split; [exact HJ'|]. split; [by intros ? ? [? _]|].
    eapply (under_steps _ false (fun _ => True) none2 (fun k => k = jb_ID job /\ jb_Attempts job < 3)).
    + apply steps_runJob; [done|]. rewrite Hmax. done.
    + intros d1 w1 d2 w2. apply jobs_free_prim.
  - eapply (under_steps _ true none1 none2 none1); [apply steps_handle_update|]. intros d w d' w'. apply jobs_free_prim.
Qed.

(** C32: whatever fails and in whatever order ticks, goroutines and the owner's
    updates come, a job is started at most four times, one more than
    MaxAttempts, and never while a goroutine of it is under way. *)
Theorem job_runs_bounded events s r s' :
  tx s = NoTx -> t_jobs (db s) = [] -> w_running (ext s) = [] -> w_started (ext s) = [] ->
  adm_run ownerID local_zone has_cache events s = (r, s') ->
  (forall k, (starts k (ext s') <= 4)%nat) /\ NoDup (map jb_ID (w_running (ext s'))) /\
  (forall j, j ∈ t_jobs (db s') -> jb_MaxAttempts j = 3 /\ Z.of_nat (starts (jb_ID j) (ext s')) = jb_Attempts j).
Proof using.
  intros Ht Hj Hr Hs Hrun.
  assert (H0 : jobs_free none1 (db s) (ext s)).
  { split; [|done]. split; rewrite ?Hj, ?Hr, ?Hs; simpl; try apply NoDup_nil_2; intros x Hx; by apply not_elem_of_nil in Hx. }
  destruct (under_run ownerID local_zone has_cache _ events (fun e _ => under_event e) _ _ _ Ht H0 Hrun) as (_ & [[H1 H2 H3 H4 H5] _] & _).
  split; [|split; [done|]].
  - intros k. destruct (starts k (ext s')) as [|n] eqn:E; [lia|].
    assert (Hk : k ∈ w_started (ext s')).
    { unfold starts in E. destruct (List.filter (String.eqb k) (w_started (ext s'))) as [|y l] eqn:Ef; [done|].
      assert (Hy : In y (List.filter (String.eqb k) (w_started (ext s')))) by (rewrite Ef; by left).
      apply filter_In in Hy as [Hy Eq]. apply String.eqb_eq in Eq as ->. by apply list_elem_of_In. }
    destruct (H3 k Hk) as (j & Hjj & <-). destruct (H2 j Hjj) as (_ & Ha & Hle & _). lia.
  - intros j Hjj. by destruct (H2 j Hjj) as (? & ? & _).
Qed.
End runs_bounded.

(** * Runs in which nothing fails *)

Section quiet.
Context {ENV : Env} {LIB : Lib} {FP : F64Platform} {TG : AdmTelegram} {DIR : AdmDirectory}.
Context (quiet : forall k, env_fault k = None).
Abbreviation MM := (M AdmTables AdmWorld).

Lemma find_now {A} (q : AdmTables -> A) (s : st AdmTables AdmWorld) : tx s = NoTx -> find q s = (Ok (q (db s)), bump s).
Proof using quiet. intros Ht. apply find_quiet; [done|by rewrite Ht]. Qed.
Lemma first_now {A} (q : AdmTables -> option A) (s : st AdmTables AdmWorld) : tx s = NoTx ->
  first q s = (match q (db s) with Some a => Ok a | None => Err ErrRecordNotFound end, bump s).
Proof using quiet. intros Ht. apply first_quiet; [done|by rewrite Ht]. Qed.
Lemma exec_now f (s : st AdmTables AdmWorld) d : tx s = NoTx -> f (db s) = Ok d -> exec f s = (Ok tt, mkSt (S (tick s)) NoTx d (ext s)).
Proof using quiet. intros Ht Hf. rewrite (exec_quiet f s d); [by rewrite Ht|done|by rewrite Ht|done]. Qed.

(** Running a program that only updates documents in place. *)
Lemma quietly_ok (m : MM unit) s r s' : m s = (r, s') -> quietly m s = (Ok tt, s').
Proof using. intros H. unfold quietly, bind, try. by rewrite H. Qed.

(** A loop whose rounds deal with one document each leaves none of the documents
    it was started for. *)
Lemma sweep {A B} (get : AdmTables -> list A) (bad : A -> Prop) (key : A -> string) (kb : B -> string) (body : B -> MM unit) l :
  (forall b s, b ∈ l -> tx s = NoTx -> exists s', body b s = (Ok tt, s') /\ tx s' = NoTx /\
     forall x, x ∈ get (db s') -> bad x -> x ∈ get (db s) /\ key x <> kb b) ->
  forall s, tx s = NoTx -> (forall x, x ∈ get (db s) -> bad x -> key x ∈ map kb l) ->
  exists s', for_each body l s = (Ok tt, s') /\ tx s' = NoTx /\ forall x, x ∈ get (db s') -> ~ bad x.
Proof using quiet.
  intros Hbody. induction l as [|b l IH]; intros s Ht Hs.
  - exists s. split; [done|]. split; [done|]. intros x Hx Hb. specialize (Hs x Hx Hb). by apply not_elem_of_nil in Hs.
  - destruct (Hbody b s ltac:(set_solver) Ht) as (s1 & H1 & Ht1 & Hx1).
    destruct (IH (fun b' s0 Hb' => Hbody b' s0 ltac:(set_solver)) s1 Ht1) as (s2 & H2 & Ht2 & Hx2).
    + intros x Hx Hb. destruct (Hx1 x Hx Hb) as [Hx' Hne]. specialize (Hs x Hx' Hb). simpl in Hs.
      apply elem_of_cons in Hs as [?|?]; [done|done].
    + exists s2. split; [|done]. cbn [for_each]. by eapply bind_intro.
Qed.

Lemma CancelCampaignJobs_clears c s : tx s = NoTx ->
  exists s', CancelCampaignJobs c s = (Ok tt, s') /\ tx s' = NoTx /\
    forall j, j ∈ t_jobs (db s') -> ~ (jb_CampaignID j = c /\ jb_Status j = JobPending).
Proof using quiet.
  intros Ht. unfold CancelCampaignJobs, Find. unfold bind at 1. rewrite find_now by done.
  apply (sweep t_jobs _ jb_ID jb_ID); [|done|].
  - intros b s0 _ Ht0. unfold CancelJob, UpdateJob, UpdateOne. eexists. split; [by apply exec_now|]. split; [done|]. simpl.
    intros x Hx [Hc Hp]. apply elem_of_update_at in Hx as (y & Hy & ->). destruct (has_id jb_ID (jb_ID b) y) eqn:E; [done|].
    split; [done|]. intros E'. apply (has_id_true jb_ID) in E'. congruence.
  - simpl. intros x Hx [Hc Hp]. apply elem_of_map, list_elem_of_In, filter_In. split; [by apply list_elem_of_In|].
    unfold is_pending. rewrite Hc, Hp, String.eqb_refl. done.
Qed.

Lemma CancelCampaignReservations_clears c s : tx s = NoTx ->
  exists s', CancelCampaignReservations c s = (Ok tt, s') /\ tx s' = NoTx /\
    forall x, x ∈ t_reservations (db s') -> ~ (rs_CampaignID x = c /\ is_open x = true).
Proof using quiet.
  intros Ht. unfold CancelCampaignReservations, Find. unfold bind at 1. rewrite find_now by done.
  apply (sweep t_reservations _ rs_ID rs_ID); [|done|].
  - intros b s0 _ Ht0. unfold UpdateReservation, UpdateOne. eexists. split; [by apply exec_now|]. split; [done|]. simpl.
    intros x Hx [Hc Hp]. apply elem_of_update_at in Hx as (y & Hy & ->). destruct (has_id rs_ID (rs_ID b) y) eqn:E; [done|].
    split; [done|]. intros E'. apply (has_id_true rs_ID) in E'. congruence.
  - simpl. intros x Hx [Hc Hp]. apply elem_of_map, list_elem_of_In, filter_In. split; [by apply list_elem_of_In|].
    by rewrite Hc, Hp, String.eqb_refl.
Qed.
End quiet.

(** * A cancelled campaign *)

(** Nothing of campaign [c] is running or under way, none of the jobs of
    [T] is its, and since [l0] none of its jobs was started; with [strict] none of them waits. *)
Record silent (strict : bool) (c : string) (l0 : list string) (T : string -> Prop) (d : AdmTables) (w : AdmWorld) : Prop := {
  si_ids : NoDup (map jb_ID (t_jobs d));
  si_campaign : forall m, m ∈ t_campaigns d -> cm_ID m = c -> cm_Status m <> CampaignRunning;
  si_jobs : strict = true -> forall j, j ∈ t_jobs d -> jb_CampaignID j = c -> jb_Status j <> JobPending;
  si_flight : forall r, r ∈ w_running w -> jb_CampaignID r <> c /\ forall j, j ∈ t_jobs d -> jb_ID j = jb_ID r -> jb_CampaignID j <> c;
  si_retry : forall k, T k -> forall j, j ∈ t_jobs d -> jb_ID j = k -> jb_CampaignID j <> c;
  si_started : exists l, w_started w = l0 ++ l /\ forall k, k ∈ l -> forall j, j ∈ t_jobs d -> jb_ID j = k -> jb_CampaignID j <> c;
}.

(** A predicate of rows by id and campaign survives updates and new rows of others. *)
Lemma rows_update c k f k' d : (forall j, jb_ID (f j) = jb_ID j /\ jb_CampaignID (f j) = jb_CampaignID j) ->
  (forall j, j ∈ t_jobs d -> jb_ID j = k' -> jb_CampaignID j <> c) ->
  forall j, j ∈ update_at jb_ID k f (t_jobs d) -> jb_ID j = k' -> jb_CampaignID j <> c.
Proof.
  intros Hf H j Hj E. apply elem_of_update_at in Hj as (y & Hy & ->). destruct (Hf y) as [E1 E2].
  destruct (has_id jb_ID k y); rewrite ?E1, ?E2 in *; by apply (H y Hy).
Qed.

Lemma silent_update b c l0 T k f d w :
  (forall j, jb_ID (f j) = jb_ID j /\ jb_CampaignID (f j) = jb_CampaignID j) ->
  (forall j, j ∈ t_jobs d -> jb_ID j = k -> jb_Status (f j) = JobPending -> jb_CampaignID j <> c) ->
  silent b c l0 T d w -> silent b c l0 T (set_t_jobs (update_at jb_ID k f) d) w.
Proof.
  intros Hf Hp [H1 H2 H3 H4 H5 (l & H6 & H7)]. split; simpl; [by rewrite map_update_at; [|intros; apply Hf]|done| | | |].
  - intros Hst j Hj Hc. apply elem_of_update_at in Hj as (y & Hy & ->). destruct (Hf y) as [E1 E2].
    destruct (has_id jb_ID k y) eqn:E; [|by apply H3]. apply has_id_true in E. rewrite E2 in Hc. intros Hs. by apply (Hp y).
  - intros r Hr. destruct (H4 r Hr). split; [done|]. by apply rows_update.
  - intros k' Hk. apply rows_update; [done|]. by apply H5.
  - exists l. split; [done|]. intros k' Hk. apply rows_update; [done|]. by apply H7.
Qed.

Lemma silent_ext b c l0 T d w d' w' : t_jobs d' = t_jobs d -> w_running w' = w_running w -> w_started w' = w_started w ->
  (forall m, m ∈ t_campaigns d' -> cm_ID m = c -> cm_Status m = CampaignRunning -> exists m0, m0 ∈ t_campaigns d /\ cm_ID m0 = c /\ cm_Status m0 = CampaignRunning) ->
  silent b c l0 T d w -> silent b c l0 T d' w'.
Proof.
  intros Hj Hr Hs Hm [H1 H2 H3 H4 H5 H6]. split; rewrite ?Hj, ?Hr, ?Hs; try done.
  intros m Hin E Hrun. destruct (Hm m Hin E Hrun) as (m0 & ? & ? & ?). by apply (H2 m0).
Qed.

Lemma silent_prim b c l0 T d w d' w' :
  prim false (fun x => x <> c) (fun _ _ => True) T (d, w) (d', w') -> silent b c l0 T d w -> silent b c l0 T d' w'.
Proof.
  intros Hp HJ.
  inversion Hp as [d0 d1 w0 Hc|d0 w0 w1|d0 w0 k f Hf|? ? ? Ha|? ? ? Ha|d0 w0 j Hj Hst _ _ Hfresh|d0 w0 k f Hf|d0 w0 k t Hk|d0 w0 x|d0 w0 k f Hf];
    subst; clear Hp; try done; try (refine (silent_ext _ _ _ _ _ _ _ _ _ _ _ _ HJ); by eauto).
  - refine (silent_ext _ _ _ _ _ _ _ _ _ _ _ _ HJ); try done. rewrite Hc. eauto.
  - refine (silent_ext _ _ _ _ _ _ _ _ _ _ _ _ HJ); try done. simpl. intros m Hm E Hr. apply elem_of_update_at in Hm as (y & Hy & ->).
    exists y. destruct (has_id cm_ID k y); [|done]. destruct (Hf y) as [Ei [?|(_ & _ & _ & _ & _ & Hrun)]]; [done|].
    rewrite Ei in E. auto.
  - pose proof (fresh_id _ _ _ Hfresh) as Hfr. destruct HJ as [H1 H2 H3 H4 H5 (l & H6 & H7)].
    assert (Hnew : forall k, (forall y, y ∈ t_jobs d -> jb_ID y = k -> jb_CampaignID y <> c) ->
      forall y, y ∈ t_jobs d ++ [j] -> jb_ID y = k -> jb_CampaignID y <> c).
    { intros k Hy y Hin. apply elem_of_app in Hin as [Hin|Hin]; [by apply Hy|]. by apply list_elem_of_singleton in Hin as ->. }
    split; simpl; [|done| | | |].
    + rewrite map_app. apply NoDup_app. split; [done|]. split; [|apply NoDup_singleton]. simpl. intros x Hx Hx'.
      apply list_elem_of_singleton in Hx' as ->. apply list_elem_of_In, in_map_iff in Hx as (y & Ey & Hy).
      apply (Hfr y); [by apply list_elem_of_In|done].
    + intros Hst' y Hin Hc'. apply elem_of_app in Hin as [Hin|Hin]; [by apply H3|]. by apply list_elem_of_singleton in Hin as ->.
    + intros r Hr. destruct (H4 r Hr). split; [done|]. by apply Hnew.
    + intros k Hk. apply Hnew. by apply H5.
    + exists l. split; [done|]. intros k Hk. apply Hnew. by apply H7.
  - apply silent_update; [..|done]; intros j; destruct (Hf j) as (s & e & Hs & ->); [done|]. by intros _ _.
  - apply silent_update; [done| |done]. intros j Hj E _. by apply (si_retry _ _ _ _ _ _ HJ k Hk j).
Qed.

Section silent.
Context {ENV : Env} {LIB : Lib} {FP : F64Platform} {TG : AdmTelegram} {DIR : AdmDirectory}.
Context (ownerID local_zone : Z) (has_cache : bool).

Lemma silent_start c l0 d w r : silent true c l0 none1 d w -> r ∈ t_jobs d -> jb_Status r = JobPending ->
  silent true c l0 none1 (started_row r d) (started_flight r w).
Proof using.
  intros HS Hr Hpend.
  assert (Hc : jb_CampaignID r <> c) by (intros E; by apply (si_jobs _ _ _ _ _ _ HS eq_refl r)).
  assert (Hrow : forall j, j ∈ t_jobs d -> jb_ID j = jb_ID r -> jb_CampaignID j <> c).
  { intros j Hj E. by rewrite (same_row jb_ID (t_jobs d) j r (si_ids _ _ _ _ _ _ HS) Hj Hr E). }
  assert (HS' : silent true c l0 none1 (started_row r d) w).
  { apply silent_update; [done| |done]. intros j Hj E _. by apply Hrow. }
  assert (Hrow' : forall j, j ∈ t_jobs (started_row r d) -> jb_ID j = jb_ID r -> jb_CampaignID j <> c).
  { by apply rows_update. }
  destruct HS' as [H1 H2 H3 H4 H5 (l & H6 & H7)]. split; try done.
  - intros x Hx. simpl in Hx. apply elem_of_app in Hx as [Hx|Hx]; [by apply H4|]. apply list_elem_of_singleton in Hx as ->. done.
  - exists (l ++ [jb_ID r]). split; [simpl; by rewrite H6, app_assoc|]. intros k Hk. apply elem_of_app in Hk as [Hk|Hk]; [by apply H7|].
    by apply list_elem_of_singleton in Hk as ->.
Qed.

Lemma silent_flight c l0 d w i job : silent true c l0 none1 d w -> w_running w !! i = Some job ->
  silent true c l0 (fun k => k = jb_ID job) d (set_w_running (fun l => firstn i l ++ skipn (S i) l) w) /\ jb_CampaignID job <> c.
Proof using.
  intros [H1 H2 H3 H4 _ H6] Hi. pose proof (list_elem_of_lookup_2 _ _ _ Hi) as Hin. destruct (H4 job Hin) as [Hc Hrow].
  split; [|done]. split; try done; [|by intros k ->]. simpl. intros r Hr. apply H4.
  rewrite <- (take_drop_middle _ _ _ Hi). apply elem_of_app in Hr as [Hr|Hr]; set_solver.
Qed.

Lemma under_silent c l0 e : (forall u, e <> EvUpdate u) ->
  under (silent true c l0 none1) (fun _ => True) (adm_step ownerID local_zone has_cache e).
Proof using.
  intros He. destruct e as [|i|u]; [| |by destruct (He u)]; simpl.
  - apply under_tick; [by intros d w []|apply silent_start|].
    apply (under_planCampaigns _ _ (fun m => cm_ID m <> c) (fun _ _ => True)); [| |done|].
    + intros d w d' w' Hp. apply (silent_prim true c l0 none1). inversion Hp; subst; try done; by econstructor.
    + intros d w m HS Hm Hrun E. by apply (si_campaign _ _ _ _ _ _ HS m).
    + intros m ad n t lead ch Hm _. eapply (under_steps _ false (fun x => x <> c) (fun _ _ => True) none1); [by apply steps_plan_channel|].
      intros d w d' w'. apply silent_prim.
  - apply under_run_nth. intros d w j job HS Hj. destruct (silent_flight _ _ _ _ _ _ HS Hj) as [HS' Hc].
    eexists. split; [exact HS'|]. split; [intros ? ? []; by split|].
    eapply (under_steps _ false (fun x => x <> c) none2 (fun k => k = jb_ID job)); [by apply steps_runJob|].
    intros d1 w1 d2 w2 Hp. apply silent_prim. inversion Hp; subst; try done; by econstructor.
Qed.
End silent.

(** * Programs that leave a part of the documents and of the world alone *)

Section under_exec.
Context {ENV : Env} {LIB : Lib} {FP : F64Platform} {TG : AdmTelegram} {DIR : AdmDirectory}.
Context (I : AdmTables -> AdmWorld -> Prop).

Lemma under_exec f : (forall d d' w, I d w -> f d = Ok d' -> I d' w) -> under I (fun _ => True) (exec f).
Proof using.
  intros Hf s r s' Ht Hi H. unfold exec, stmt in H. rewrite Ht in H. destruct (env_fault _); [by injection H as <- <-|].
  destruct (f (db s)) eqn:E; injection H as <- <-; simpl; split; try done; [eauto|by destruct e].
Qed.
Lemma under_update {A} (id : A -> string) put k f : (forall g d w, I d w -> I (put g d) w) -> under I (fun _ => True) (UpdateOne id put k f).
Proof using. intros Hp. apply under_exec. intros d d' w Hi [= <-]. by apply Hp. Qed.
Lemma under_insert {A} (id : A -> string) get put x : (forall g d w, I d w -> I (put g d) w) -> under I (fun _ => True) (InsertOne id get put x).
Proof using. intros Hp. apply under_exec. intros d d' w Hi. destruct (existsb _ _); [done|]. intros [= <-]. by apply Hp. Qed.
Lemma under_look {A} (m : M AdmTables AdmWorld A) : reads m -> keeps (fun w => w) m ->
  (forall s r s', m s = (r, s') -> tx s = NoTx -> tx s' = NoTx) -> under I (fun _ => True) m.
Proof using. intros Hr Hk Ht s r s' Htx Hi H. rewrite (Hr _ _ _ H), (Hk _ _ _ H). split; [by eapply Ht|]. split; [done|by destruct r]. Qed.
Lemma under_first {A} (q : AdmTables -> option A) : under I (fun _ => True) (first q).
Proof using.
  apply under_look; [apply reads_first|apply keeps_first|]. intros s r s' H Ht. unfold first, stmt in H. rewrite Ht in H.
  destruct (env_fault _); [by injection H as _ <-|]. by destruct (q (db s)); injection H as _ <-.
Qed.
Lemma under_out o : (forall d w f, I d w -> I d (set_w_out f w)) -> under I (fun _ => True) (out o).
Proof using. intros Ho s r s' Ht Hi [= <- <-]. simpl. auto. Qed.
Lemma under_find_any {A} (q : AdmTables -> A) : under I (fun _ => True) (find q).
Proof using. eapply under_any, under_find. Qed.
Lemma under_uuid : under I (fun _ => True) uuid_New.
Proof using. by intros s r s' Ht Hi [= <- <-]. Qed.
Lemma under_quietly (m : M AdmTables AdmWorld unit) : under I (fun _ => True) m -> under I (fun _ => True) (quietly m).
Proof using. intros Hm. eapply under_bind; [by apply under_try|]. intros. by apply under_ret. Qed.
End under_exec.

Section cancel.
Context {ENV : Env} {LIB : Lib} {FP : F64Platform} {TG : AdmTelegram} {DIR : AdmDirectory}.
Context (ownerID local_zone : Z) (has_cache : bool) (quiet : forall k, env_fault k = None).

Lemma callback_cancel c : handle_update ownerID local_zone has_cache (UpCallback ownerID ("cmp_cancel:" +:+ c)) =
  (campaignSetStatus ownerID c ActCancel ;; respond ownerID "")%eff.
Proof using. unfold handle_update, onCallback, isAdmin. rewrite Z.eqb_refl. reflexivity. Qed.

(** What stays: the posts and the reservations that were sent. *)
Definition stands (posts : list Post) (l : list Reservation) (d : AdmTables) (w : AdmWorld) : Prop :=
  w_posts w = posts /\ NoDup (map rs_ID (t_reservations d)) /\ forall x, x ∈ l -> x ∈ t_reservations d /\ is_sent x = true.

Lemma stands_cancel posts l c : under (stands posts l) (fun _ => True) (CancelCampaignReservations c).
Proof using quiet.
  intros s r s' Ht (Hp & Hn & Hl) H. unfold CancelCampaignReservations, Find, bind in H. rewrite find_now in H by done.
  set (lc := List.filter _ _) in H.
  assert (Hc : forall b x, b ∈ lc -> x ∈ l -> rs_ID b <> rs_ID x).
  { intros b x Hb Hx E. apply list_elem_of_In, filter_In in Hb as [Hb Ho]. apply list_elem_of_In in Hb. destruct (Hl x Hx) as [Hx' Hs].
    rewrite (same_row rs_ID (t_reservations (db s)) b x Hn Hb Hx' E) in Ho. apply andb_prop in Ho as [_ Ho].
    unfold is_open, is_sent in *. apply bool_decide_eq_true in Hs. by rewrite Hs in Ho. }
  assert (Hs0 : stands posts l (db (bump s)) (ext (bump s))) by done.
  refine (under_for_each (stands posts l) _ lc _ (bump s) r s' Ht Hs0 H).
  intros b Hb. apply under_exec. intros d d' w (? & ? & Hxd) [= <-].
  split; [done|]. change (NoDup (map rs_ID (update_at rs_ID (rs_ID b) (with_reservation_status ReservationCancelled) (t_reservations d))) /\
    forall x, x ∈ l -> x ∈ update_at rs_ID (rs_ID b) (with_reservation_status ReservationCancelled) (t_reservations d) /\ is_sent x = true).
  split; [by rewrite map_update_at|]. intros x Hx. destruct (Hxd x Hx). split; [|done].
  apply elem_of_update_at. exists x. split; [done|]. destruct (has_id rs_ID (rs_ID b) x) eqn:E; [|done].
  apply has_id_true in E. by destruct (Hc b x Hb Hx).
Qed.

Lemma stands_other posts l {A} (id : A -> string) put k f :
  (forall g d, t_reservations (put g d) = t_reservations d) -> under (stands posts l) (fun _ => True) (UpdateOne id put k f).
Proof using. intros Hp. apply under_update. intros g d w H. unfold stands. by rewrite Hp. Qed.

Lemma stands_cancel_campaign posts l c : under (stands posts l) (fun _ => True) (campaignSetStatus ownerID c ActCancel).
Proof using quiet.
  unfold campaignSetStatus. eapply under_bind; [apply under_try, under_first|]. intros [cm|e] _; [|by apply under_out].
  eapply under_bind; [apply under_quietly; by apply stands_other|]. intros _ _.
  eapply under_bind; [apply under_quietly|].
  { unfold CancelCampaignJobs. eapply under_bind; [apply under_find|]. intros jobs _. apply under_for_each. intros j _. by apply stands_other. }
  intros _ _. eapply under_bind; [apply under_quietly, stands_cancel|]. intros _ _.
  eapply under_bind; [apply under_quietly|].
  { unfold LogAudit. eapply under_bind; [apply (under_bind _ (fun _ => True) (fun _ => True)); [apply under_uuid|intros; by apply under_ret]|].
    intros id _. by apply under_insert. }
  intros _ _. unfold campaignView, renderCampaignView.
  eapply (under_bind _ (fun _ => True)); [|intros [args|] _; by apply under_out].
  eapply under_bind; [apply under_try, under_first|]. intros [m|e] _; [|by apply under_ret].
  eapply under_bind; [apply under_try, (under_bind _ (fun _ => True) (fun _ => True)); [apply under_find_any|intros; by apply under_ret]|].
  intros tags _.
  eapply under_bind; [apply under_try, under_find|]. intros ads _. by apply under_ret.
Qed.

(** The campaign is there, and no goroutine works for it. *)
Definition idle_campaign (c : string) (d : AdmTables) (w : AdmWorld) : Prop :=
  (exists cm, cm ∈ t_campaigns d /\ cm_ID cm = c /\ cm_DeletedAt cm = None) /\
  NoDup (map jb_ID (t_jobs d)) /\ NoDup (map rs_ID (t_reservations d)) /\
  (forall r, r ∈ w_running w -> jb_CampaignID r <> c /\ forall j, j ∈ t_jobs d -> jb_ID j = jb_ID r -> jb_CampaignID j <> c).

Lemma idle_found c d w : idle_campaign c d w ->
  exists cm, List.find (fun c0 => has_id cm_ID c c0 && undeleted cm_DeletedAt c0) (t_campaigns d) = Some cm.
Proof using.
  intros ((cm & Hin & Hid & Hdel) & _). destruct (List.find _ _) as [x|] eqn:E; [by exists x|].
  apply list_elem_of_In in Hin. apply (List.find_none _ _ E) in Hin. unfold has_id, undeleted in Hin.
  by rewrite Hid, Hdel, String.eqb_refl in Hin.
Qed.

Lemma silent_updated c d w : idle_campaign c d w ->
  silent false c (w_started w) none1 (set_t_campaigns (update_at cm_ID c (with_status CampaignCancelled)) d) w.
Proof using.
  intros (_ & Hn & _ & Hf). split; try done.
  - intros m Hm E Hr. simpl in Hm. apply elem_of_update_at in Hm as (y & Hy & ->).
    destruct (has_id cm_ID c y) eqn:Ey; [done|]. apply (has_id_true cm_ID) in E. congruence.
  - exists []. split; [by rewrite app_nil_r|]. intros k Hk. by apply not_elem_of_nil in Hk.
Qed.

Lemma silent_steps b c l0 {A} (m : M AdmTables AdmWorld A) s r s' : steps false none1 none2 none1 m -> m s = (r, s') -> tx s = NoTx ->
  silent b c l0 none1 (db s) (ext s) -> tx s' = NoTx /\ silent b c l0 none1 (db s') (ext s').
Proof using.
  intros Hm H Ht Hs. destruct (under_steps (silent b c l0 none1) false none1 none2 none1 m Hm) with (s := s) (r := r) (s' := s')
    as (? & ? & _); try done. intros d w d' w' Hp. apply silent_prim. inversion Hp; subst; try done; by econstructor.
Qed.

Lemma cancel_silent c s r s' : tx s = NoTx -> idle_campaign c (db s) (ext s) ->
  campaignSetStatus ownerID c ActCancel s = (r, s') -> tx s' = NoTx /\ silent true c (w_started (ext s)) none1 (db s') (ext s').
Proof using quiet.
  intros Ht Hidle H. destruct (idle_found _ _ _ Hidle) as [cm Hcm]. unfold campaignSetStatus, FindCampaign, FindOne in H.
  unfold bind at 1, try at 1 in H. rewrite first_now, Hcm in H by done.
  apply bind_run in H as (r2 & s2 & H2 & H). unfold UpdateCampaignStatus, UpdateOne in H2.
  erewrite quietly_ok in H2 by (by apply exec_now). injection H2 as <- <-.
  apply bind_run in H as (r3 & s3 & H3 & H). unfold CancelCampaignJobs in *.
  match type of H3 with quietly _ ?st = _ => set (s2 := st) in H3;
    destruct (CancelCampaignJobs_clears quiet c s2 eq_refl) as (s3' & E3 & Ht3 & Hclear);
    destruct (silent_steps false c (w_started (ext s)) (CancelCampaignJobs c) s2 (Ok tt) s3' (steps_CancelCampaignJobs _ _ _ _ c) E3 eq_refl
      (silent_updated c (db s) (ext s) Hidle)) as [_ HS] end.
  unfold CancelCampaignJobs in E3. erewrite quietly_ok in H3 by exact E3. injection H3 as <- <-.
  assert (HS3 : silent true c (w_started (ext s)) none1 (db s3') (ext s3')).
  { destruct HS as [? ? ? ? ? ?]. split; try done. intros _ j Hj Hc Hp. by apply (Hclear j Hj). }
  revert H Ht3 HS3. apply silent_steps. steps_tac.
Qed.

End cancel.
