(* ===== verification/AdmSlots.v ===== *)
(** admanager-bot: the reservations. Which slot the planning adds to a channel,
    that at most one is open, that a plan whose next slot misses the window has
    ended, and what the end of the window clears. *)
From stdpp Require Import relations.
From S2P Require Import Prelude GoInt GoFloat GoString GoText Effects PayModels PayChain AdmModels AdmStore AdmScheduler AdmBot AdmWindow AdmFrame AdmSpec.

(** The reservations of one campaign in one channel, and the latest of their times. *)
Definition pair_rows (c ch : string) (d : AdmTables) : list Reservation := List.filter (of_pair c ch) (t_reservations d).
Definition last_slot (l : list Reservation) : option Time :=
  match sort_by (fun r => - rs_ScheduledAt r) l with r :: _ => Some (utc (rs_ScheduledAt r)) | [] => None end.
Definition next_due (cm : Campaign) (ad : Advertisement) (windowStart : Time) (l : list Reservation) : Time :=
  match last_slot l with Some last => time_Add last (cycleGap cm ad) | None => windowStart end.

Lemma of_pair_true c ch r : of_pair c ch r = true <-> rs_CampaignID r = c /\ rs_ChannelID r = ch.
Proof. unfold of_pair. rewrite andb_true_iff. by rewrite !String.eqb_eq. Qed.

Lemma elem_of_pair_rows c ch d r : r ∈ pair_rows c ch d <-> r ∈ t_reservations d /\ rs_CampaignID r = c /\ rs_ChannelID r = ch.
Proof. unfold pair_rows. rewrite list_elem_of_In, filter_In, <- list_elem_of_In. by rewrite of_pair_true. Qed.

#[local] Instance asc_trans {A} (key : A -> Z) : Transitive (asc key).
Proof. intros ? ? ?. unfold asc. lia. Qed.
#[local] Instance asc_total {A} (key : A -> Z) : Total (asc key).
Proof. intros ? ?. unfold asc. lia. Qed.

(** The latest time is that of a reservation and no reservation is later. *)
Lemma last_slot_max l : match last_slot l with
  | Some t => (exists r, r ∈ l /\ t = utc (rs_ScheduledAt r)) /\ forall r, r ∈ l -> rs_ScheduledAt r <= unix_nano t
  | None => l = [] end.
Proof.
  unfold last_slot. set (key := fun r => - rs_ScheduledAt r).
  assert (Hp : Permutation (sort_by key l) l) by apply merge_sort_Permutation.
  assert (Hs : StronglySorted (asc key) (sort_by key l)) by (apply StronglySorted_merge_sort; apply _).
  destruct (sort_by key l) as [|r l']; [by apply Permutation_nil in Hp|].
  split; [exists r; split; [|done]; rewrite <- Hp; set_solver|]. intros x Hx. rewrite <- Hp in Hx.
  apply elem_of_cons in Hx as [->|Hx]; simpl; [lia|].
  inversion Hs as [|? ? _ Hall]; subst. rewrite List.Forall_forall in Hall. specialize (Hall x ltac:(by apply list_elem_of_In)).
  unfold asc, key in Hall. lia.
Qed.

Lemma prims_keep (I : AdmTables -> AdmWorld -> Prop) admin KJ KR KT :
  (forall d w d' w', prim admin KJ KR KT (d, w) (d', w') -> I d w -> I d' w') ->
  forall x y, rtc (prim admin KJ KR KT) x y -> I x.1 x.2 -> I y.1 y.2.
Proof. intros Hp x y. induction 1 as [|[d w] [d1 w1] y Hxy _ IH]; [done|]. intros Hi. by apply IH, (Hp d w). Qed.

Section plan_channel.
Context {ENV : Env} {LIB : Lib} {FP : F64Platform} {TG : AdmTelegram} {DIR : AdmDirectory}.
Context (quiet : forall k, env_fault k = None).

(** The reservation that is added: a new id, the first slot due, and only while
    none of the pair is open. *)
Definition adds (cm : Campaign) (ad : Advertisement) (windowStart : Time) (ch : Channel) (d d' : AdmTables) : Prop :=
  exists res, (forall r, r ∈ pair_rows (cm_ID cm) (ch_ID ch) d -> is_open r = false) /\
    in_window cm (next_due cm ad windowStart (pair_rows (cm_ID cm) (ch_ID ch) d)) = true /\
    rs_CampaignID res = cm_ID cm /\ rs_ChannelID res = ch_ID ch /\ rs_LiveMessageIDs res = [] /\ rs_Status res = ReservationPending /\
    rs_ScheduledAt res = bson_date (unix_nano (next_due cm ad windowStart (pair_rows (cm_ID cm) (ch_ID ch) d))) /\
    (forall r, r ∈ t_reservations d -> rs_ID r <> rs_ID res) /\
    d' = set_t_reservations (fun l => l ++ [res]) d.

Lemma CreateReservation_run c a ch t s r s' : tx s = NoTx -> try (CreateReservation c a ch t) s = (r, s') ->
  tx s' = NoTx /\ ext s' = ext s /\
  ((exists e, r = Ok (Err e)) /\ db s' = db s \/
   exists res, r = Ok (Ok (rs_ID res)) /\ rs_CampaignID res = c /\ rs_ChannelID res = ch /\ rs_LiveMessageIDs res = [] /\
     rs_Status res = ReservationPending /\ rs_ScheduledAt res = bson_date t /\
     (forall x, x ∈ t_reservations (db s) -> rs_ID x <> rs_ID res) /\ db s' = set_t_reservations (fun l => l ++ [res]) (db s)).
Proof using quiet.
  intros Ht H. unfold CreateReservation, newID, uuid_New, InsertOne, exec, stmt, bump, try, bind, ret in H. cbn [tx tick db ext] in H.
  rewrite quiet, Ht in H. cbn [tx tick db ext rs_ID] in H.
  match type of H with context [existsb ?p ?l] => destruct (existsb p l) eqn:E end; injection H as <- <-; (split; [done|split; [done|]]).
  - left. by split; [eexists|].
  - right. pose proof (fresh_id rs_ID _ _ E) as Hf. cbn [db].
    match goal with |- context [set_t_reservations (fun l => l ++ [?x]) _] => exists x end. by auto 10.
Qed.

Lemma plan_channel_run cm ad n t lead ch s r s' : tx s = NoTx -> plan_channel cm ad n t lead ch s = (r, s') ->
  tx s' = NoTx /\ (db s' = db s /\ ext s' = ext s \/
    exists d1 KJ, adds cm ad t ch (db s) d1 /\ KJ (cm_ID cm) /\
      rtc (prim false KJ none2 none1) (d1, ext s) (db s', ext s')).
Proof using quiet.
  intros Ht H. unfold plan_channel in H. cbv zeta in H.
  unfold CountReservations, Find in H. unfold try at 1, bind at 1 2, ret at 1 in H. rewrite find_now in H by done.
  set (rows := List.filter _ _) in H. destruct (0 <? Z.of_nat (length rows)) eqn:E; [injection H as _ <-; by auto|].
  assert (Hopen : forall x, x ∈ pair_rows (cm_ID cm) (ch_ID ch) (db s) -> is_open x = false).
  { intros x Hx. apply elem_of_pair_rows in Hx as (Hx & Hc & Hch). destruct (is_open x) eqn:Eo; [|done].
    assert (Hin : In x rows); [|zbool; destruct rows; simpl in *; [done|lia]].
    apply filter_In. split; [by apply list_elem_of_In|]. apply andb_true_intro. split; [by apply of_pair_true|].
    apply bool_decide_eq_true. unfold is_open in Eo. apply orb_prop in Eo as [Eo|Eo]; apply bool_decide_eq_true in Eo; rewrite Eo; set_solver. }
  unfold LastReservationAt, Find in H. unfold try at 1, bind at 1 2, ret at 1 in H. rewrite find_now in H by done. cbn [db bump] in H.
  set (nd := next_due cm ad t (pair_rows (cm_ID cm) (ch_ID ch) (db s))).
  match type of H with context [in_window cm ?x] => change x with nd in H end.
  destruct (in_window cm nd) eqn:Ew; [|injection H as _ <-; by auto]. cbn [negb] in H.
  destruct (if 0 <? lead then _ else _); [injection H as _ <-; by auto|].
  apply bind_run in H as (r1 & s1 & H1 & H). apply CreateReservation_run in H1 as (Ht1 & Hx1 & Hr1); [|done].
  destruct Hr1 as [[[e ->] Hd1]|(res & -> & Hc & Hch & Hl & Hst & Hat & Hf & Hd1)]; cbn [db ext bump] in *.
  { injection H as _ <-. by auto. }
  set (KJ := fun c => c = cm_ID cm). assert (HJ : KJ (cm_ID cm)) by done.
  match type of H with ?m _ = _ => assert (Hm : steps false KJ none2 none1 m) by steps_tac end.
  destruct (Hm _ _ _ H Ht1) as [Hr Ht']. split; [done|]. right. exists (db s1), KJ. split; [|by rewrite <- Hx1].
  exists res. by repeat split.
Qed.

Lemma under_plan_channel (I : AdmTables -> AdmWorld -> Prop) cm ad n t lead ch :
  (forall KJ d w d' w', prim false KJ none2 none1 (d, w) (d', w') -> I d w -> I d' w') ->
  (forall d d' w, adds cm ad t ch d d' -> I d w -> I d' w) ->
  under I (fun _ => True) (plan_channel cm ad n t lead ch).
Proof using quiet.
  intros Hprim Hadds s r s' Ht Hi H. destruct (plan_channel_run _ _ _ _ _ _ _ _ _ Ht H) as [Ht' [[-> ->]|(d1 & KJ & Ha & _ & Hr)]];
    [by destruct r|]. split; [done|]. split; [|by destruct r].
  apply (Hadds _ _ _ Ha) in Hi. by apply (prims_keep I _ _ _ _ (Hprim KJ) _ _ Hr).
Qed.
End plan_channel.

(** * Assertions about the documents that ticks and goroutines keep *)

Section events.
Context {ENV : Env} {LIB : Lib} {FP : F64Platform} {TG : AdmTelegram} {DIR : AdmDirectory}.
Context (ownerID local_zone : Z) (has_cache : bool) (quiet : forall k, env_fault k = None).
Context (I : AdmTables -> Prop) (Pcm : Campaign -> Prop) (Pad : Campaign -> Advertisement -> Prop).
Context (Hprim : forall KJ KT d w d' w', prim false KJ none2 KT (d, w) (d', w') -> I d -> I d').
Context (Hjobs : forall d r, I d -> I (started_row r d)).
Context (Hcm : forall d cm, I d -> cm ∈ t_campaigns d -> cm_Status cm = CampaignRunning -> Pcm cm).
Context (Had : forall d cm ad, I d -> Pcm cm -> ad ∈ t_ads d -> ad_CampaignID ad = cm_ID cm -> ad_IsActive ad = true -> Pad cm ad).
Context (Hadds : forall cm ad t ch d d', Pcm cm -> Pad cm ad -> adds cm ad t ch d d' -> I d -> I d').

(** The assertion, and distinct ids of the jobs. *)
Definition rows_kept (d : AdmTables) (w : AdmWorld) : Prop := NoDup (map jb_ID (t_jobs d)) /\ I d.

Lemma NoDup_ids_new {A} (id : A -> string) l x : existsb (has_id id (id x)) l = false -> NoDup (map id l) -> NoDup (map id (l ++ [x])).
Proof using.
  intros Hf Hn. pose proof (fresh_id _ _ _ Hf) as Hne. rewrite map_app. apply NoDup_app. split; [done|]. split; [|apply NoDup_singleton].
  intros y Hy Hx. apply list_elem_of_singleton in Hx as ->. apply list_elem_of_In, in_map_iff in Hy as (z & E & Hz).
  apply (Hne z); [by apply list_elem_of_In|done].
Qed.

Lemma jobs_nodup_prim admin KJ KR KT d w d' w' : prim admin KJ KR KT (d, w) (d', w') ->
  NoDup (map jb_ID (t_jobs d)) -> NoDup (map jb_ID (t_jobs d')).
Proof using.
  intros Hp Hn. inversion Hp as [? ? ? ? ? E|? ? ?| | | |? ? ? ? ? ? ? E|? ? ? ? E| | |]; subst; simpl; try done; [by rewrite E|by apply NoDup_ids_new| |];
    by rewrite map_update_at; [|intros j; try destruct (E j) as (? & ? & _ & ->)].
Qed.

Lemma rows_kept_prim KJ KT d w d' w' : prim false KJ none2 KT (d, w) (d', w') -> rows_kept d w -> rows_kept d' w'.
Proof using Hprim. intros Hp [Hn HI]. split; [by eapply jobs_nodup_prim|by eapply Hprim]. Qed.

Lemma under_events e : (forall u, e <> EvUpdate u) -> under rows_kept (fun _ => True) (adm_step ownerID local_zone has_cache e).
Proof using All.
  intros He. destruct e as [|i|u]; [| |by destruct (He u)]; simpl.
  - apply under_tick; [by intros d w []| |].
    + intros d w r [Hn HI] _ _. split; [|by apply Hjobs]. simpl. by rewrite map_update_at.
    + apply (under_planCampaigns _ _ Pcm Pad); [|by intros ? ? ? [] ? ?; eauto|by intros ? ? ? ? [] ? ? ?; eauto|].
      * intros d w d' w' Hp. eapply rows_kept_prim. inversion Hp; subst; try done; by econstructor.
      * intros cm ad n t lead ch HP HA. apply (under_plan_channel quiet).
        -- intros KJ d w d' w'. apply rows_kept_prim.
        -- intros d d' w Ha [Hn HI]. split; [|by eapply Hadds]. by destruct Ha as (? & _ & _ & _ & _ & _ & _ & _ & _ & ->).
  - apply under_run_nth. intros d w j job Hk Hj. exists rows_kept. split; [done|]. split; [done|].
    eapply (under_steps _ false (fun _ => True) none2 (fun _ => True)); [by apply steps_runJob|]. intros d1 w1 d2 w2. apply rows_kept_prim.
Qed.
End events.


(** * One open slot *)

Record slots_ok (d : AdmTables) : Prop := {
  so_ids : NoDup (map rs_ID (t_reservations d));
  so_open : forall x y, x ∈ t_reservations d -> y ∈ t_reservations d -> is_open x = true -> is_open y = true ->
              rs_CampaignID x = rs_CampaignID y -> rs_ChannelID x = rs_ChannelID y -> rs_ID x = rs_ID y;
  so_live : forall x, x ∈ t_reservations d -> (length (rs_LiveMessageIDs x) <= 2)%nat;
}.

Lemma slots_ok_update k f d : (forall r, same_slot r (f r)) -> slots_ok d -> slots_ok (set_t_reservations (update_at rs_ID k f) d).
Proof.
  intros Hf [H1 H2 H3].
  assert (Hrow : forall x, x ∈ update_at rs_ID k f (t_reservations d) -> exists y, y ∈ t_reservations d /\ same_slot y x).
  { intros x Hx. apply elem_of_update_at in Hx as (y & Hy & ->). exists y. split; [done|]. destruct (has_id _ _ _); [apply Hf|].
    by repeat split. }
  split; simpl.
  - rewrite map_update_at; [done|]. intros x. apply Hf.
  - intros x y Hx Hy Ox Oy. destruct (Hrow x Hx) as (x0 & Hx0 & -> & -> & -> & _ & Eo & _).
    destruct (Hrow y Hy) as (y0 & Hy0 & -> & -> & -> & _ & Eo' & _). apply H2; auto.
  - intros x Hx. destruct (Hrow x Hx) as (x0 & Hx0 & _ & _ & _ & _ & _ & Hl). apply Hl. by apply H3.
Qed.

Lemma slots_ok_prim admin KJ KT d w d' w' : prim admin KJ none2 KT (d, w) (d', w') -> slots_ok d -> slots_ok d'.
Proof.
  intros Hp Hs. inversion Hp as [? ? ? ? ? ? E| | | | | | | |? ? ? []|]; subst; try (by destruct Hs); [|by apply slots_ok_update].
  destruct Hs. by split; rewrite E.
Qed.

Lemma slots_ok_adds cm ad t ch d d' : adds cm ad t ch d d' -> slots_ok d -> slots_ok d'.
Proof.
  intros (res & Hopen & _ & Hc & Hch & Hl & _ & _ & Hf & ->) [H1 H2 H3].
  assert (Hno : forall x, x ∈ t_reservations d -> is_open x = true -> rs_CampaignID x = rs_CampaignID res -> rs_ChannelID x <> rs_ChannelID res).
  { intros x Hx Ho E1 E2. rewrite (Hopen x) in Ho; [done|]. apply elem_of_pair_rows. split; [done|]. split; congruence. }
  split; simpl.
  - apply NoDup_ids_new; [|done]. destruct (existsb _ _) eqn:E; [|done]. apply existsb_exists in E as (x & Hx & E).
    apply has_id_true in E. apply list_elem_of_In in Hx. by destruct (Hf x Hx).
  - intros x y Hx Hy Ox Oy E1 E2. apply elem_of_app in Hx as [Hx|Hx], Hy as [Hy|Hy];
      try apply list_elem_of_singleton in Hx as ->; try apply list_elem_of_singleton in Hy as ->; [by apply H2| | |done].
    + by destruct (Hno x Hx Ox E1).
    + by destruct (Hno y Hy Oy).
  - intros x Hx. apply elem_of_app in Hx as [Hx|Hx]; [by apply H3|]. apply list_elem_of_singleton in Hx as ->. rewrite Hl. simpl. lia.
Qed.

(** * A plan whose next slot misses the window *)

(** The campaigns [c] have the times of [cm], the latest slot in [ch] is [L], and
    with every advertisement the next one would be outside the window. *)
Record plan_over (cm : Campaign) (ch : string) (L : Z) (l : list Z) (d : AdmTables) : Prop := {
  po_slots : map rs_ScheduledAt (pair_rows (cm_ID cm) ch d) = l;
  po_last : L ∈ l /\ forall x, x ∈ l -> x <= L;
  po_plan : forall m, m ∈ t_campaigns d -> cm_ID m = cm_ID cm -> cm_StartHour m = cm_StartHour cm /\ cm_StartMinute m = cm_StartMinute cm /\
    cm_EndHour m = cm_EndHour cm /\ cm_EndMinute m = cm_EndMinute cm /\ cm_IntervalMinutes m = cm_IntervalMinutes cm;
  po_misses : forall ad, ad ∈ t_ads d -> ad_CampaignID ad = cm_ID cm -> ad_IsActive ad = true ->
    in_window cm (time_Add (utc L) (cycleGap cm ad)) = false;
}.

Lemma pair_rows_update c ch k f d : (forall r, same_slot r (f r)) ->
  map rs_ScheduledAt (pair_rows c ch (set_t_reservations (update_at rs_ID k f) d)) = map rs_ScheduledAt (pair_rows c ch d).
Proof.
  intros Hf. unfold pair_rows. simpl. induction (t_reservations d) as [|x l IH]; [done|]. simpl.
  assert (E : of_pair c ch (if has_id rs_ID k x then f x else x) = of_pair c ch x).
  { destruct (has_id _ _ _); [|done]. unfold of_pair. by destruct (Hf x) as (_ & -> & -> & _). }
  rewrite E. destruct (of_pair c ch x); [|done]. simpl. rewrite IH. f_equal. destruct (has_id _ _ _); [|done]. apply Hf.
Qed.

Lemma plan_over_prim cm ch L l KJ KT d w d' w' : prim false KJ none2 KT (d, w) (d', w') -> plan_over cm ch L l d -> plan_over cm ch L l d'.
Proof.
  intros Hp [H1 H2 H3 H4]. inversion Hp as [? ? ? E1 E2 E3 E4| |? ? k f Hf| | | | | |? ? ? []|? ? k f Hf]; subst; try done; split; simpl; try done.
  - unfold pair_rows. by rewrite E4.
  - by rewrite E1.
  - by rewrite E2.
  - intros m Hm Em. apply elem_of_update_at in Hm as (y & Hy & ->). destruct (has_id cm_ID k y); [|by apply H3].
    destruct (Hf y) as [Ei [?|(-> & -> & -> & -> & -> & _)]]; [done|]. rewrite Ei in Em. by apply H3.
  - by apply pair_rows_update.
Qed.

Lemma last_slot_is L l : L ∈ map rs_ScheduledAt l -> (forall x, x ∈ map rs_ScheduledAt l -> x <= L) -> last_slot l = Some (utc L).
Proof.
  intros HL Hmax. pose proof (last_slot_max l) as H. destruct (last_slot l) as [t|].
  - destruct H as ((r & Hr & ->) & Hle). do 2 f_equal. specialize (Hmax _ (elem_of_map rs_ScheduledAt _ _ Hr)).
    apply list_elem_of_In, in_map_iff in HL as (x & <- & Hx). specialize (Hle x ltac:(by apply list_elem_of_In)). simpl in Hle. lia.
  - subst l. by apply not_elem_of_nil in HL.
Qed.

Lemma plan_over_adds cm ch L l m ad t chan d d' :
  (cm_ID m = cm_ID cm -> (cm_StartHour m = cm_StartHour cm /\ cm_StartMinute m = cm_StartMinute cm /\
     cm_EndHour m = cm_EndHour cm /\ cm_EndMinute m = cm_EndMinute cm /\ cm_IntervalMinutes m = cm_IntervalMinutes cm) /\
     in_window cm (time_Add (utc L) (cycleGap cm ad)) = false) ->
  adds m ad t chan d d' -> plan_over cm ch L l d -> plan_over cm ch L l d'.
Proof.
  intros Hm (res & _ & Hwin & Hc & Hch & _ & _ & _ & _ & ->) [H1 [H2 H2'] H3 H4]. split; try done. rewrite <- H1.
  unfold pair_rows. simpl. rewrite List.filter_app, map_app. simpl.
  destruct (of_pair (cm_ID cm) ch res) eqn:E; [|by rewrite app_nil_r]. exfalso. apply of_pair_true in E as [E1 E2].
  destruct Hm as [(Ea & Eb & Ec & Ed & Ee) Hout]; [congruence|]. rewrite <- Hc, E1 in Hwin. rewrite <- Hch, E2 in Hwin. revert Hwin.
  unfold next_due. rewrite (last_slot_is L) by (by rewrite H1). unfold in_window, cycleGap in *. rewrite Ea, Eb, Ec, Ed, Ee, Hout. done.
Qed.

(** * What the end of the window clears *)

Section cut.
Context {ENV : Env} {LIB : Lib} {FP : F64Platform} {TG : AdmTelegram} {DIR : AdmDirectory}.
Context (quiet : forall k, env_fault k = None).
Abbreviation MM := (M AdmTables AdmWorld).

Definition stands_in (chat mid : Z) (w : AdmWorld) : Prop := exists p, p ∈ w_posts w /\ po_Chat p = chat /\ po_ID p = mid.

Lemma delete_all chat l s : tx s = NoTx ->
  exists s', for_each (fun mid => quietly (bot_Delete chat mid)) l s = (Ok tt, s') /\ tx s' = NoTx /\ db s' = db s /\
    (forall c m, stands_in c m (ext s') -> stands_in c m (ext s) /\ ~ (c = chat /\ m ∈ l)).
Proof using quiet.
  revert s. induction l as [|mid l IH]; intros s Ht.
  - exists s. repeat split; [done..|]. intros [_ Hm]. by apply not_elem_of_nil in Hm.
  - set (f := set_w_posts (List.filter (fun p => negb (is_post chat mid p)))).
    destruct (IH (mkSt (S (tick s)) (tx s) (db s) (f (ext s))) Ht) as (s' & Hr & Ht' & Hd & Hp). exists s'. split.
    + cbn [for_each]. eapply bind_intro; [|exact Hr]. apply quietly_ok with (r := Ok tt). unfold bot_Delete, bot_call. by rewrite quiet.
    + split; [done|]. split; [done|]. intros c m Hs. destruct (Hp c m Hs) as [(p & Hin & Ec & Em) Hnot]. simpl in Hin.
      apply list_elem_of_In, filter_In in Hin as [Hin Hneg]. split.
      * exists p. split; [by apply list_elem_of_In|done].
      * intros [-> Hm]. apply elem_of_cons in Hm as [-> |Hm]; [|by apply Hnot]. unfold is_post in Hneg.
        by rewrite Ec, Em, !Z.eqb_refl in Hneg.
Qed.

Lemma under_same (P : AdmTables -> AdmWorld -> Prop) {A} (m : MM A) s r s' : under P (fun _ => True) m -> tx s = NoTx ->
  P (db s) (ext s) -> m s = (r, s') -> P (db s') (ext s').
Proof using. intros Hm Ht HP H. by destruct (Hm _ _ _ Ht HP H) as (_ & ? & _). Qed.

Definition cut_round (res : Reservation) : MM unit :=
  (ch <- try (FindChannel (rs_ChannelID res)) ;;
   match ch with
   | Ok ch => for_each (fun mid => quietly (bot_Delete (ch_TelegramID ch) mid)) (rs_LiveMessageIDs res)
   | Err _ => ret tt
   end ;;
   quietly (MarkReservationExpired (rs_ID res)))%eff.

(** The message is one of [res], whose channel is known. *)
Definition message_of (d : AdmTables) (res : Reservation) (chat mid : Z) : Prop :=
  exists ch, List.find (has_id ch_ID (rs_ChannelID res)) (t_channels d) = Some ch /\ chat = ch_TelegramID ch /\ mid ∈ rs_LiveMessageIDs res.

Lemma cut_round_run res s : tx s = NoTx ->
  exists s', cut_round res s = (Ok tt, s') /\ tx s' = NoTx /\ t_channels (db s') = t_channels (db s) /\
    (forall x, x ∈ t_reservations (db s') -> is_sent x = true -> x ∈ t_reservations (db s) /\ rs_ID x <> rs_ID res) /\
    (forall c m, stands_in c m (ext s') -> stands_in c m (ext s) /\ ~ message_of (db s) res c m).
Proof using quiet.
  intros Ht. unfold cut_round, FindChannel, FindOne. unfold bind at 1, try at 1. rewrite first_now by done.
  assert (Hmark : forall s0 : st AdmTables AdmWorld, tx s0 = NoTx -> exists s1, quietly (MarkReservationExpired (rs_ID res)) s0 = (Ok tt, s1) /\ tx s1 = NoTx /\
    t_channels (db s1) = t_channels (db s0) /\ ext s1 = ext s0 /\
    forall x, x ∈ t_reservations (db s1) -> is_sent x = true -> x ∈ t_reservations (db s0) /\ rs_ID x <> rs_ID res).
  { intros s0 Ht0. eexists. split; [eapply quietly_ok, (exec_now quiet); [done|reflexivity]|]. split; [done|]. split; [done|]. split; [done|].
    simpl. intros x Hx Hs. apply elem_of_update_at in Hx as (y & Hy & ->). destruct (has_id rs_ID (rs_ID res) y) eqn:E; [done|].
    split; [done|]. intros E'. apply (has_id_true rs_ID) in E'. congruence. }
  destruct (List.find _ _) as [ch|] eqn:Ech.
  - destruct (delete_all (ch_TelegramID ch) (rs_LiveMessageIDs res) (bump s) Ht) as (s1 & H1 & Ht1 & Hd1 & Hp1).
    destruct (Hmark s1 Ht1) as (s2 & H2 & Ht2 & Hc2 & Hx2 & Hr2). exists s2. split; [by eapply bind_intro|]. split; [done|].
    rewrite Hc2, Hx2. rewrite Hd1 in *. split; [done|]. split; [done|]. intros c m Hs. destruct (Hp1 c m Hs) as [? Hno]. split; [done|].
    intros (ch' & Ech' & -> & Hm). rewrite Ech in Ech'. injection Ech' as <-. by apply Hno.
  - destruct (Hmark (bump s) Ht) as (s2 & H2 & Ht2 & Hc2 & Hx2 & Hr2). exists s2. split; [done|]. split; [done|]. rewrite Hc2, Hx2.
    split; [done|]. split; [done|]. intros c m Hs. split; [done|]. intros (ch' & Ech' & _). congruence.
Qed.

Lemma cut_rounds l s : tx s = NoTx ->
  exists s', for_each cut_round l s = (Ok tt, s') /\ tx s' = NoTx /\ t_channels (db s') = t_channels (db s) /\
    (forall x, x ∈ t_reservations (db s') -> is_sent x = true -> x ∈ t_reservations (db s) /\ forall b, b ∈ l -> rs_ID x <> rs_ID b) /\
    (forall c m, stands_in c m (ext s') -> stands_in c m (ext s) /\ forall b, b ∈ l -> ~ message_of (db s) b c m).
Proof using quiet.
  revert s. induction l as [|b l IH]; intros s Ht.
  - exists s. split; [done|]. split; [done|]. split; [done|]. by split; intros; (split; [done|]); intros ? []%not_elem_of_nil.
  - destruct (cut_round_run b s Ht) as (s1 & H1 & Ht1 & Hc1 & Hr1 & Hp1). destruct (IH s1 Ht1) as (s2 & H2 & Ht2 & Hc2 & Hr2 & Hp2).
    exists s2. split; [cbn [for_each]; by eapply bind_intro|]. split; [done|]. split; [congruence|]. split.
    + intros x Hx Hs. destruct (Hr2 x Hx Hs) as [Hx1 Hne]. destruct (Hr1 x Hx1 Hs) as [? ?]. split; [done|].
      intros y [-> |Hy]%elem_of_cons; auto.
    + intros c m Hs. destruct (Hp2 c m Hs) as [Hs1 Hno]. destruct (Hp1 c m Hs1) as [? ?]. split; [done|].
      intros y [-> |Hy]%elem_of_cons; [done|]. unfold message_of in *. rewrite Hc1 in Hno. by apply Hno.
Qed.

(** What the clearing of a campaign [c] has reached stays: no sent reservation, these posts. *)
Definition cut_ok (c : string) (posts : list Post) (opened : bool) (d : AdmTables) (w : AdmWorld) : Prop :=
  w_posts w = posts /\
  forall x, x ∈ t_reservations d -> rs_CampaignID x = c -> is_sent x = false /\ (opened = false -> is_open x = false).

Lemma cut_ok_cancel c posts : under (cut_ok c posts true) (fun _ => True) (CancelCampaignReservations c).
Proof using.
  unfold CancelCampaignReservations. eapply under_bind; [apply under_find|]. intros l _. apply under_for_each. intros b _.
  apply under_exec. intros d d' w [Hp Hx] [= <-]. split; [done|]. simpl. intros x Hin Hc.
  apply elem_of_update_at in Hin as (y & Hy & ->). destruct (has_id _ _ _); [done|]. by apply Hx.
Qed.

Lemma cut_ok_jobs c posts b : under (cut_ok c posts b) (fun _ => True) (CancelCampaignJobs c).
Proof using.
  unfold CancelCampaignJobs. eapply under_bind; [apply under_find|]. intros l _. apply under_for_each. intros j _. by apply under_update.
Qed.
End cut.

(** * Payloads of replies *)

Lemma last_index_none c s : has_char c s = false -> last_index c s = None.
Proof. induction s as [|d s IH]; simpl; [done|]. intros [Hd Hs]%orb_false_elim. rewrite IH by done. by rewrite Ascii.eqb_sym, Hd || rewrite Hd. Qed.

Lemma last_index_app c a b : has_char c b = false -> last_index c (a +:+ String c b) = Some (String.length a).
Proof. intros Hb. induction a as [|d a IH]; simpl; [by rewrite last_index_none, Ascii.eqb_refl|by rewrite IH]. Qed.

Lemma cut_app c a b : substring 0 (String.length a) (a +:+ String c b) = a /\ drop_chars (S (String.length a)) (a +:+ String c b) = b.
Proof. induction a as [|d a [IH1 IH2]]; simpl; [by destruct b|]. rewrite IH1. done. Qed.

Section slots.
Context {ENV : Env} {LIB : Lib} {FP : F64Platform} {TG : AdmTelegram} {DIR : AdmDirectory}.
Context (ownerID local_zone : Z) (has_cache : bool) (quiet : forall k, env_fault k = None).

(** C36: a time is in a campaign's daily window exactly when it lies between the
    bounds of the window of its own day or of a neighbouring one, also when the
    window runs over midnight, and then CurrentWindowStart is the start of that
    very window, less than a day ago. *)
Theorem daily_window_agrees t sh sm eh em : clock_ok sh sm -> clock_ok eh em ->
  (InDailyWindow t sh sm eh em = true <-> exists k, in_bounds sh sm eh em k t) /\
  (InDailyWindow t sh sm eh em = true -> exists k, in_bounds sh sm eh em k t /\
     CurrentWindowStart t sh sm eh em = fst (DailyWindowBounds (time_Add t (k * day)) sh sm eh em) /\
     0 <= unix_nano t - unix_nano (CurrentWindowStart t sh sm eh em) < day).
Proof using.
  intros Hs He. split; [|by apply current_window]. rewrite window_iff by done. split; [intros [?|?]; by eexists|].
  intros [k Hk]. destruct (in_bounds_days _ _ _ _ Hs He k t Hk) as [-> | ->]; auto.
Qed.

(** C35: as long as nothing fails, whatever ticks, goroutines and updates come:
    at most one reservation of a campaign is open in a channel, and a reservation has at most
    two live messages, the post and its reply of the moment. *)
Theorem one_open_slot events s r s' :
  tx s = NoTx -> t_jobs (db s) = [] -> t_reservations (db s) = [] ->
  adm_run ownerID local_zone has_cache events s = (r, s') ->
  (forall x y, x ∈ t_reservations (db s') -> y ∈ t_reservations (db s') -> is_open x = true -> is_open y = true ->
     rs_CampaignID x = rs_CampaignID y -> rs_ChannelID x = rs_ChannelID y -> x = y) /\
  (forall x, x ∈ t_reservations (db s') -> (length (rs_LiveMessageIDs x) <= 2)%nat).
Proof using quiet.
  intros Ht Hj Hr Hrun.
  assert (H0 : rows_kept slots_ok (db s) (ext s)).
  { split; [rewrite Hj; by apply NoDup_nil_2|]. split; rewrite Hr; [by apply NoDup_nil_2|intros x y Hx|intros x Hx]; by apply not_elem_of_nil in Hx. }
  destruct (under_run ownerID local_zone has_cache (rows_kept slots_ok) events) with (s := s) (r := r) (s' := s')
    as (_ & [_ [H1 H2 H3]] & _); [|done..|].
  - intros e _. destruct (match e with EvUpdate _ => true | _ => false end) eqn:Ee.
    + destruct e as [| |u]; try done. eapply (under_steps _ true none1 none2 none1); [apply steps_handle_update|].
      intros d w d' w' Hp [Hn Ho]. split; [by eapply jobs_nodup_prim|by eapply slots_ok_prim].
    + apply (under_events ownerID local_zone has_cache quiet slots_ok (fun _ => True) (fun _ _ => True)); try done; [|by intros d x []|by intros; eapply slots_ok_adds|by intros u ->].
      intros KJ KT d w d' w'. apply slots_ok_prim.
  - split; [|done]. intros x y Hx Hy Ox Oy E1 E2. apply (same_row rs_ID (t_reservations (db s'))); auto.
Qed.


(** A tick outside a campaign's daily window ends the cycle that was under
    way: every message of it that stands in a known channel is taken down, no reservation
    of the campaign is sent or open any more and none of its jobs is pending. *)
Theorem window_end_clears cm n lead s r s' :
  tx s = NoTx -> match cm_EndAt cm with Some e => After n (utc e) | None => false end = false -> 1 <= cm_IntervalMinutes cm ->
  in_window cm n = false -> plan_campaign n lead cm s = (r, s') ->
  r = Ok tt /\
  (forall x chat mid, x ∈ t_reservations (db s) -> rs_CampaignID x = cm_ID cm -> is_sent x = true ->
     message_of (db s) x chat mid -> ~ stands_in chat mid (ext s')) /\
  (forall x, x ∈ t_reservations (db s') -> rs_CampaignID x = cm_ID cm -> is_sent x = false /\ is_open x = false) /\
  (forall j, j ∈ t_jobs (db s') -> jb_CampaignID j = cm_ID cm -> jb_Status j <> JobPending).
Proof using quiet.
  intros Ht He Hi Hw H. unfold plan_campaign in H. rewrite He, Hw in H. destruct (_ <? 1) eqn:E1; [zbool; lia|]. cbn [negb] in H.
  unfold cutOffCampaign, ListLiveReservationsByCampaign, Find in H. unfold bind at 1, try at 1 in H. rewrite find_now in H by done.
  set (l := List.filter _ _) in H. match type of H with context [for_each ?f l] => change f with cut_round in H end.
  destruct (cut_rounds quiet l (bump s) Ht) as (s1 & H1 & Ht1 & _ & Hr1 & Hp1).
  unfold bind at 1 in H. rewrite H1 in H.
  assert (Hin : forall x, x ∈ t_reservations (db s) -> rs_CampaignID x = cm_ID cm -> is_sent x = true -> x ∈ l).
  { intros x Hx Hc Hs. apply list_elem_of_In, filter_In. split; [by apply list_elem_of_In|]. by rewrite Hc, String.eqb_refl, Hs. }
  assert (H0 : cut_ok (cm_ID cm) (w_posts (ext s1)) true (db s1) (ext s1)).
  { split; [done|]. intros x Hx Hc. split; [|done]. destruct (is_sent x) eqn:Es; [|done]. destruct (Hr1 x Hx Es) as [Hx0 Hne].
    by destruct (Hne x (Hin x Hx0 Hc Es)). }
  destruct (CancelCampaignReservations_clears quiet (cm_ID cm) s1 Ht1) as (s2 & E2 & Ht2 & Hopen).
  pose proof (under_same _ _ _ _ _ (cut_ok_cancel _ _) Ht1 H0 E2) as [Hp2 Hx2].
  unfold bind at 1 in H. erewrite quietly_ok in H by exact E2.
  destruct (CancelCampaignJobs_clears quiet (cm_ID cm) s2 Ht2) as (s3 & E3 & Ht3 & Hjobs).
  erewrite quietly_ok in H by exact E3. injection H as <- <-.
  assert (H2 : cut_ok (cm_ID cm) (w_posts (ext s1)) false (db s2) (ext s2)).
  { split; [done|]. intros x Hx Hc. split; [by apply Hx2|]. intros _. destruct (is_open x) eqn:Eo; [|done]. by destruct (Hopen x Hx). }
  pose proof (under_same _ _ _ _ _ (cut_ok_jobs _ _ _) Ht2 H2 E3) as [Hp3 Hx3].
  split; [done|]. split; [|split].
  - intros x chat mid Hx Hc Hs Hm Hst. unfold stands_in in Hst. rewrite Hp3 in Hst. destruct (Hp1 chat mid Hst) as [_ Hno].
    by apply (Hno x (Hin x Hx Hc Hs)).
  - intros x Hx Hc. destruct (Hx3 x Hx Hc) as [? Ho]. split; [done|by apply Ho].
  - intros j Hj Hc Hs. by apply (Hjobs j Hj).
Qed.

(** The payload a reply job is given names its reservation and the reply's
    index, whatever bytes the id holds: sendReply reads back exactly what was written. *)
Theorem reply_payload_roundtrip res i : in_int64 i -> splitReplyPayload (res +:+ "|" +:+ FormatInt 10 i) = Some (res, i).
Proof using.
  intros Hi. unfold splitReplyPayload. change ("|" +:+ FormatInt 10 i) with (String "|" (FormatInt 10 i)).
  rewrite last_index_app by apply int_no_char, eq_refl. destruct (cut_app "|" res (FormatInt 10 i)) as [-> ->].
  by rewrite ParseInt_FormatInt.
Qed.

(** The slots shown for a day never panic and never run on: they are the
    times at equal distance from the window's start, each before its end, until the window
    ends or 301 are listed, each with the advertisement whose turn it is. *)
Theorem schedule_view cm ads t : 1 <= cm_IntervalMinutes cm -> ads <> [] -> 0 < view_gap cm ads ->
  let '(winStart, winEnd) := DailyWindowBounds t (cm_StartHour cm) (cm_StartMinute cm) (cm_EndHour cm) (cm_EndMinute cm) in
  exists l, projectCampaignSlots cm ads t = Some l /\ (length l <= 301)%nat /\
    (forall i s, l !! i = Some s -> sl_At s = time_Add winStart (Z.of_nat i * view_gap cm ads) /\ Before (sl_At s) winEnd = true /\
       nth_ad ads (rotation cm (sl_At s) winStart ads) = Some (sl_Ad s)) /\
    ((length l < 301)%nat -> Before (time_Add winStart (Z.of_nat (length l) * view_gap cm ads)) winEnd = false).
Proof using.
  intros Hi Ha Hg. destruct (DailyWindowBounds _ _ _ _ _) as [ws we] eqn:Eb. unfold projectCampaignSlots. rewrite Eb.
  replace (cm_IntervalMinutes cm <? 1) with false by (symmetry; apply Z.ltb_ge; lia).
  replace (length ads =? 0)%nat with false by (by destruct ads). replace (view_gap cm ads <=? 0) with false by (symmetry; apply Z.leb_gt; lia).
  cbn [orb]. destruct (slots_from_spec cm ads (view_gap cm ads) ws we Ha 301 []) as (l & El & H1 & _ & H3 & H4 & H5); [done|done|].
  exists l. split.
  { rewrite <- El. f_equal. unfold slot_time, time_Add. destruct ws. simpl. f_equal. lia. }
  split; [done|]. split; [|done]. intros i s Hs. destruct (H3 i s Hs) as (E & _ & Hn). rewrite E. split; [done|]. split; [|done].
  apply H4. apply lookup_lt_Some in Hs. simpl. lia.
Qed.
End slots.
