(* ===== verification/AdmDemo.v ===== *)
(** A concrete bot with one campaign, and the theorems of AdmSpec.v and
    AdmSlots.v at its runs. *)
From S2P Require Import Prelude GoInt GoFloat GoString GoText Effects PayModels PayChain AdmModels AdmStore AdmScheduler AdmBot AdmWindow AdmFrame AdmSpec AdmSlots.

#[local] Existing Instance demo_lib.
#[local] Existing Instance amd64.

(** * The instances *)

(** A clock that makes [step] minutes per effect from [start] hours on, and faults. *)
Definition adm_env (start step : Z) (faults : list nat) : Env := {|
  env_fault := fun n => if existsb (Nat.eqb n) faults then Some 7 else None;
  env_now := fun n => start * hour + Z.of_nat n * step * minute;
  env_uuid := fun n => N.of_nat (1000 + n);
  env_random := fun n => "r"%string;
  idx_tx_hash := true;
|}.
Definition adm_tg : AdmTelegram := {| tg_message_id := fun n => 500 + Z.of_nat n; tg_lost := fun _ => false; tg_members := fun _ => 10 |}.
Definition adm_dir : AdmDirectory := {| tg_chat_by_username := fun _ _ => None; tg_bot_is_admin := fun _ _ => true |}.
#[local] Existing Instance adm_tg.
#[local] Existing Instance adm_dir.

(** A campaign from 8:00 to 23:00, every hour, in one channel. *)
Definition news : Channel := {| ch_ID := "ch"; ch_TelegramID := -100; ch_Username := "news"; ch_Title := "News"; ch_MemberCount := 10;
  ch_Status := ChannelActive; ch_TagIDs := []; ch_AvgViews := 0; ch_EngageRate := f64_of_int 0; ch_CreatedAt := 0; ch_DeletedAt := None |}.
Definition hourly : Campaign := {| cm_ID := "cm"; cm_Name := "sale"; cm_Status := CampaignRunning; cm_StartHour := DefaultStartHour;
  cm_StartMinute := 0; cm_EndHour := DefaultEndHour; cm_EndMinute := 0; cm_IntervalMinutes := DefaultIntervalMinutes;
  cm_DeleteAfterMinutes := 30; cm_RotationMinutes := 0; cm_EndAt := None; cm_TargetTagIDs := []; cm_TargetChannelIDs := ["ch"%string];
  cm_MinMemberCount := 0; cm_TotalImpressions := 0; cm_CreatedAt := 0; cm_DeletedAt := None |}.
Definition banner : Advertisement := {| ad_ID := "ad"; ad_CampaignID := "cm"; ad_Name := "banner"; ad_SourceChatID := 9; ad_MainMessageID := 77;
  ad_Replies := []; ad_KeepAsLastMessage := false; ad_PinMessage := false; ad_DeletePreviousOnRepost := false; ad_IsActive := true |}.
Definition adm_tables (jobs : list ScheduledJob) (rows : list Reservation) : AdmTables := {|
  t_channels := [news]; t_tags := []; t_campaigns := [hourly]; t_ads := [banner]; t_jobs := jobs; t_reservations := rows;
  t_templates := []; t_settings := None; t_audit := [] |}.
Definition adm_world (posts : list Post) : AdmWorld := {| w_posts := posts; w_out := []; w_running := []; w_started := []; w_states := ∅; w_ctx := ∅ |}.
Definition adm_init jobs rows posts : st AdmTables AdmWorld := init_st (adm_tables jobs rows) (adm_world posts).

(** The slot of 22:00, posted as message 500, and the job that is to take it down. *)
Definition sent_slot : Reservation := {| rs_ID := "r1"; rs_CampaignID := "cm"; rs_AdvertisementID := "ad"; rs_ChannelID := "ch";
  rs_Status := ReservationSent; rs_ScheduledAt := 22 * hour; rs_LiveMessageIDs := [500]; rs_CurrentReplyIndex := -1;
  rs_PostedMessageIDs := [500]; rs_DeleteAt := Some (22 * hour + 30 * minute); rs_Error := None |}.
Definition take_down : ScheduledJob := {| jb_ID := "j1"; jb_Type := JobTypeDeletePost; jb_Status := JobPending; jb_CampaignID := "cm";
  jb_AdvertisementID := ""; jb_ChannelID := "ch"; jb_RunAt := 22 * hour + 30 * minute; jb_Attempts := 0; jb_MaxAttempts := 3;
  jb_LastError := None; jb_Payload := "r1" |}.
Definition posted : Post := {| po_Chat := -100; po_ID := 500; po_SourceChat := 9; po_SourceID := 77; po_ReplyTo := None; po_Pinned := false |}.
Definition evening : st AdmTables AdmWorld := adm_init [take_down] [sent_slot] [posted].

Definition result_of {A} (x : result A * st AdmTables AdmWorld) : result A := fst x.
Definition state_of {A} (x : result A * st AdmTables AdmWorld) : st AdmTables AdmWorld := snd x.

Lemma run_pair {A} (x : result A * st AdmTables AdmWorld) : x = (result_of x, state_of x).
Proof. by destruct x. Qed.

Lemma no_updates l : forallb (fun e => match e with EvUpdate _ => false | _ => true end) l = true -> forall u, EvUpdate u ∉ l.
Proof. intros H u Hu. apply list_elem_of_In in Hu. rewrite forallb_forall in H. by specialize (H _ Hu). Qed.

Lemma calm_faults start step k : @env_fault (adm_env start step []) k = None.
Proof. done. Qed.

(** * The runs *)

(** Telegram fails four times: the job is started four times, then given up. *)
Definition failing_events : list adm_event := [EvTick; EvTick; EvJob 0; EvTick; EvJob 1; EvTick; EvJob 1; EvTick; EvJob 1; EvTick].
Definition failing_run := @adm_run (adm_env 8 10 [31; 47; 63; 79]%nat) _ _ _ _ 42 0 true failing_events (adm_init [] [] []).

Lemma job_runs_bounded_witness :
  ((forall k, (starts k (ext (state_of failing_run)) <= 4)%nat) /\ NoDup (map jb_ID (w_running (ext (state_of failing_run)))) /\
   forall j, j ∈ t_jobs (db (state_of failing_run)) -> jb_MaxAttempts j = 3 /\ Z.of_nat (starts (jb_ID j) (ext (state_of failing_run))) = jb_Attempts j) /\
  map (fun j => (jb_Status j, jb_Attempts j)) (t_jobs (db (state_of failing_run))) = [(JobFailed, 4); (JobRunning, 1); (JobPending, 0); (JobPending, 0)].
Proof.
  split; [|vm_compute; reflexivity].
  apply (@job_runs_bounded (adm_env 8 10 [31; 47; 63; 79]%nat) demo_lib amd64 adm_tg adm_dir 42 0 true failing_events (adm_init [] [] []) (result_of failing_run) (state_of failing_run));
    [reflexivity..|unfold failing_run; apply run_pair].
Defined.

(** The owner cancels while the post of 22:00 stands: it stands for ever. *)
Definition cancel_run := @handle_update (adm_env 22 10 []) _ _ _ _ 42 0 true (UpCallback 42 "cmp_cancel:cm") evening.
Definition later_events : list adm_event := [EvTick; EvTick; EvJob 0; EvTick; EvJob 0; EvTick].
Definition later_run := @adm_run (adm_env 22 10 []) _ _ _ _ 42 0 true later_events (state_of cancel_run).

Lemma evening_idle : idle_campaign "cm" (db evening) (ext evening).
Proof.
  split; [exists hourly; repeat split; by left|]. split; [apply (bool_decide_unpack _); vm_compute; exact I|].
  split; [apply (bool_decide_unpack _); vm_compute; exact I|]. intros r Hr. by apply not_elem_of_nil in Hr.
Qed.


(** Half past one at night, in a window from ten in the evening till two. *)
Definition night : Time := {| unix_nano := 1 * hour + 30 * minute; zone := 0 |}.
Lemma daily_window_agrees_witness :
  (InDailyWindow night 22 0 2 0 = true <-> exists k, in_bounds 22 0 2 0 k night) /\
  (InDailyWindow night 22 0 2 0 = true -> exists k, in_bounds 22 0 2 0 k night /\
     CurrentWindowStart night 22 0 2 0 = fst (DailyWindowBounds (time_Add night (k * day)) 22 0 2 0) /\
     0 <= unix_nano night - unix_nano (CurrentWindowStart night 22 0 2 0) < day).
Proof. apply (daily_window_agrees night 22 0 2 0); unfold clock_ok; lia. Defined.

(** A morning on which nothing fails. *)
Definition morning_events : list adm_event := [EvTick; EvTick; EvJob 0; EvTick; EvJob 0; EvTick; EvJob 0].
Definition morning_run := @adm_run (adm_env 8 1 []) _ _ _ _ 42 0 true morning_events (adm_init [] [] []).
Lemma one_open_slot_witness :
  ((forall x y, x ∈ t_reservations (db (state_of morning_run)) -> y ∈ t_reservations (db (state_of morning_run)) ->
      is_open x = true -> is_open y = true -> rs_CampaignID x = rs_CampaignID y -> rs_ChannelID x = rs_ChannelID y -> x = y) /\
   forall x, x ∈ t_reservations (db (state_of morning_run)) -> (length (rs_LiveMessageIDs x) <= 2)%nat) /\
  map rs_Status (t_reservations (db (state_of morning_run))) = [ReservationSent; ReservationPending].
Proof.
  split; [|vm_compute; reflexivity].
  apply (@one_open_slot (adm_env 8 1 []) demo_lib amd64 adm_tg adm_dir 42 0 true (calm_faults 8 1) morning_events (adm_init [] [] []) (result_of morning_run) (state_of morning_run));
    [reflexivity..|unfold morning_run; apply run_pair].
Defined.

(** After the slot of 22:00: no slot the next morning, nor on the days after. *)
Definition days_events : list adm_event := [EvTick; EvTick; EvTick; EvTick; EvJob 0; EvTick; EvTick].
Definition days_run := @adm_run (adm_env 22 60 []) _ _ _ _ 42 0 true days_events evening.

(** The tick of half past eleven takes the post down. *)
Definition late : Time := utc (23 * hour + 30 * minute).
Definition late_run := @plan_campaign (adm_env 23 1 []) _ _ _ late 10 hourly evening.
Lemma window_end_clears_witness :
  (result_of late_run = Ok tt /\
   (forall x chat mid, x ∈ t_reservations (db evening) -> rs_CampaignID x = cm_ID hourly -> is_sent x = true ->
      message_of (db evening) x chat mid -> ~ stands_in chat mid (ext (state_of late_run))) /\
   (forall x, x ∈ t_reservations (db (state_of late_run)) -> rs_CampaignID x = cm_ID hourly -> is_sent x = false /\ is_open x = false) /\
   (forall j, j ∈ t_jobs (db (state_of late_run)) -> jb_CampaignID j = cm_ID hourly -> jb_Status j <> JobPending)) /\
  w_posts (ext (state_of late_run)) = [].
Proof.
  split; [|vm_compute; reflexivity].
  apply (@window_end_clears (adm_env 23 1 []) demo_lib amd64 adm_tg (calm_faults 23 1) hourly late 10 evening (result_of late_run) (state_of late_run));
    [reflexivity|reflexivity|vm_compute; discriminate|vm_compute; reflexivity|unfold late_run; apply run_pair].
Defined.

(** Fifteen slots from eight to ten in the evening. *)
Lemma schedule_view_witness :
  (let '(winStart, winEnd) := DailyWindowBounds late 8 0 23 0 in
   exists l, projectCampaignSlots hourly [banner] late = Some l /\ (length l <= 301)%nat /\
     (forall i s, l !! i = Some s -> sl_At s = time_Add winStart (Z.of_nat i * view_gap hourly [banner]) /\ Before (sl_At s) winEnd = true /\
        nth_ad [banner] (rotation hourly (sl_At s) winStart [banner]) = Some (sl_Ad s)) /\
     ((length l < 301)%nat -> Before (time_Add winStart (Z.of_nat (length l) * view_gap hourly [banner])) winEnd = false)) /\
  option_map (@length _) (projectCampaignSlots hourly [banner] late) = Some 15%nat.
Proof.
  split; [|vm_compute; reflexivity].
  apply (schedule_view hourly [banner] late); [vm_compute; discriminate|done|vm_compute; reflexivity].
Defined.
