(* ===== verification/VpnStore.v ===== *)
(** vpn-bot: the tables (internal/models, and the index that cmd/bot/main.go
    adds), the statements of internal/store, and the numbers that its texts hold. *)
From S2P Require Import Prelude GoInt GoFloat GoString GoText Effects PayModels PayChain AdsModels.

(** * internal/models/models.go *)

Record User := {
  vu_ID : uuid; vu_TelegramID : Z; vu_Username : string; vu_FirstName : string; vu_Balance : numeric; vu_IsBlocked : bool;
}.
Record Panel := {
  vl_ID : uuid; vl_Deleted : bool; vl_Name : string; vl_Type : string; vl_BaseURL : string; vl_Username : string;
  vl_Password : string; vl_Capacity : Z; vl_ActiveCount : Z; vl_IsActive : bool;
}.
Record Plan := { vp_ID : uuid; vp_Name : string; vp_DurationDay : Z; vp_DataGB : numeric; vp_Price : numeric; vp_IsActive : bool }.

Inductive SubscriptionStatus := SubActive | SubExpired | SubDisabled.
#[export] Instance SubscriptionStatus_eq_dec : EqDecision SubscriptionStatus.
Proof. solve_decision. Defined.
Record Subscription := {
  vs_ID : uuid; vs_UserID : uuid; vs_PanelID : uuid; vs_PlanID : uuid; vs_Username : string; vs_Status : SubscriptionStatus;
  vs_ExpiresAt : Z; vs_DataLimit : numeric; vs_UsedData : numeric;
}.
Record DiscountCode := { vd_ID : uuid; vd_Code : string; vd_Percent : numeric; vd_MaxUse : Z; vd_UsedCount : Z; vd_IsActive : bool }.
Record Payment := {
  vy_ID : uuid; vy_UserID : uuid; vy_Amount : numeric; vy_Gateway : string; vy_Status : string; vy_RefCode : string;
  vy_Receipt : string; vy_PlanID : option uuid;
}.

(** Rows in the order of their creation. *)
Record VpnTables := {
  vt_users : list User; vt_panels : list Panel; vt_plans : list Plan; vt_subs : list Subscription;
  vt_codes : list DiscountCode; vt_payments : list Payment;
}.
Definition set_users f d := {| vt_users := f (vt_users d); vt_panels := vt_panels d; vt_plans := vt_plans d; vt_subs := vt_subs d;
  vt_codes := vt_codes d; vt_payments := vt_payments d |}.
Definition set_panels f d := {| vt_users := vt_users d; vt_panels := f (vt_panels d); vt_plans := vt_plans d; vt_subs := vt_subs d;
  vt_codes := vt_codes d; vt_payments := vt_payments d |}.
Definition set_subs f d := {| vt_users := vt_users d; vt_panels := vt_panels d; vt_plans := vt_plans d; vt_subs := f (vt_subs d);
  vt_codes := vt_codes d; vt_payments := vt_payments d |}.
Definition set_codes f d := {| vt_users := vt_users d; vt_panels := vt_panels d; vt_plans := vt_plans d; vt_subs := vt_subs d;
  vt_codes := f (vt_codes d); vt_payments := vt_payments d |}.
Definition set_payments f d := {| vt_users := vt_users d; vt_panels := vt_panels d; vt_plans := vt_plans d; vt_subs := vt_subs d;
  vt_codes := vt_codes d; vt_payments := f (vt_payments d) |}.

(** UPDATE ... WHERE id = k *)
Definition update_id {A} (id : A -> uuid) (k : uuid) (f : A -> A) (l : list A) : list A :=
  map (fun x => if (id x =? k)%N then f x else x) l.
Definition has_uuid {A} (id : A -> uuid) (k : uuid) (x : A) : bool := (id x =? k)%N.

(** The rows that come with an error of First. *)
Definition zero_user : User := {| vu_ID := 0; vu_TelegramID := 0; vu_Username := ""; vu_FirstName := ""; vu_Balance := Num 0; vu_IsBlocked := false |}.
Definition zero_plan : Plan := {| vp_ID := 0; vp_Name := ""; vp_DurationDay := 0; vp_DataGB := Num 0; vp_Price := Num 0; vp_IsActive := false |}.
Definition zero_sub : Subscription := {| vs_ID := 0; vs_UserID := 0; vs_PanelID := 0; vs_PlanID := 0; vs_Username := ""; vs_Status := SubDisabled;
  vs_ExpiresAt := 0; vs_DataLimit := Num 0; vs_UsedData := Num 0 |}.
Definition zero_payment : Payment := {| vy_ID := 0; vy_UserID := 0; vy_Amount := Num 0; vy_Gateway := ""; vy_Status := ""; vy_RefCode := "";
  vy_Receipt := ""; vy_PlanID := None |}.
Definition zero_panel : Panel := {| vl_ID := 0; vl_Deleted := false; vl_Name := ""; vl_Type := ""; vl_BaseURL := ""; vl_Username := "";
  vl_Password := ""; vl_Capacity := 0; vl_ActiveCount := 0; vl_IsActive := false |}.

(** * Numbers in texts *)

(** Sprintf("%.0f", x): the nearest integer, halves to even. *)
Definition f0_round (m : Z) (e : Z) : Z :=
  if 0 <=? e then m * 2 ^ e
  else let d := 2 ^ (- e) in
       let q := m / d in let r := m mod d in
       if (2 * r <? d) || ((2 * r =? d) && Z.even q) then q else q + 1.
Definition fmt_f0 (x : float64) : string :=
  match x with
  | S754_zero s => if s then "-0" else "0"
  | S754_nan => "NaN"
  | S754_infinity s => if s then "-Inf" else "+Inf"
  | S754_finite s m e => (if s then "-" else "") +:+ FormatInt 10 (f0_round (Zpos m) e)
  end%string.

(** One of the characters [l] at the front of the rest, moved to the token. *)
Definition one_of (l : string) (c : ascii) : bool := has_char c l.
Definition accept (l : string) (p : string * string) : string * string :=
  match snd p with
  | String c rest => if one_of l c then (fst p +:+ String c "", rest) else p
  | EmptyString => p
  end.
Fixpoint accept_run (l tok s : string) : string * string :=
  match s with
  | String c rest => if one_of l c then accept_run l (tok +:+ String c "") rest else (tok, s)
  | EmptyString => (tok, s)
  end.
Definition word (l1 l2 l3 : string) (s : string) : option string :=
  match s with
  | String a (String b (String c _)) => if one_of l1 a && one_of l2 b && one_of l3 c then Some (substring 0 3 s) else None
  | _ => None
  end.
(** floatToken of fmt/scan.go; a word that breaks off leaves its letters in the token. *)
Definition floatToken (s : string) : string :=
  match word "nN" "aA" "nN" s with
  | Some w => w
  | None =>
      let '(tok, s) := accept "nN" ("", s) in
      let '(tok, s) := if (tok =? "")%string then (tok, s) else accept "aA" (tok, s) in
      let '(tok, s) := accept "+-" (tok, s) in
      match word "iI" "nN" "fF" s with
      | Some w => tok +:+ w
      | None =>
          let '(tok1, s1) := accept "iI" (tok, s) in
          let '(tok, s) := if (tok1 =? tok)%string then (tok, s) else accept "nN" (tok1, s1) in
          let '(tok0, s0) := accept "0" (tok, s) in
          let '(tokx, sx) := if (tok0 =? tok)%string then (tok, s) else accept "xX" (tok0, s0) in
          let hex := negb (tokx =? tok0)%string in
          let digits := (if hex then "0123456789aAbBcCdDeEfF_" else "0123456789_")%string in
          let '(tok, s) := accept_run digits tokx sx in
          let '(tokp, sp) := accept "." (tok, s) in
          let '(tok, s) := if (tokp =? tok)%string then (tok, s) else accept_run digits tokp sp in
          let '(toke, se) := accept (if hex then "pP" else "eEpP") (tok, s) in
          if (toke =? tok)%string then tok
          else let '(tok, s) := accept "+-" (toke, se) in fst (accept_run "0123456789_" tok s)
      end
  end.
(** convertFloat: a decimal mantissa may carry a binary exponent. *)
Definition convertFloat (tok : string) : option float64 :=
  match Cut "p" tok with
  | Some (f, m) =>
      if has_char "x" tok || has_char "X" tok then ParseFloat tok
      else match ParseFloat f, ParseInt 10 m with
           | Some f, Some m => Some (SFldexp 53 1024 f m)
           | _, _ => None
           end
  | None => ParseFloat tok
  end.
(** fmt.Sscanf(s, "%f", &f), which leaves the zero on an error. *)
Definition parseFloat (s : string) : float64 :=
  match skip_scan_space (String.length s) s with
  | None => f64_of_int 0
  | Some s => default (f64_of_int 0) (convertFloat (floatToken s))
  end.

Example price_texts :
  map fmt_f0 [f64_of_int 90000; f64_const 5 2; f64_const 7 2; f64_const (-1) 2; f64_of_int (10 ^ 23)] =
    ["90000"; "2"; "4"; "-0"; "99999999999999991611392"]%string /\
  map parseFloat ["90000"; "99999999999999991611392"; ""; "+Inf"; "NaN"; "12x"]%string =
    [f64_of_int 90000; f64_of_int (10 ^ 23); f64_of_int 0; S754_infinity false; S754_nan; f64_of_int 12].
Proof. vm_compute. split; reflexivity. Qed.

(** * internal/store/store.go *)

Section store.
Context {ENV : Env} {PG : PgNumeric} {X : Type}.
Abbreviation MM := (M VpnTables X).

(** BeforeCreate gives the row its id. *)
Definition FindUserByTelegramID (id : Z) : MM (option User * option error) :=
  row_and_error zero_user (first (fun d => List.find (fun u => vu_TelegramID u =? id) (vt_users d))).
Definition with_user (name first : string) (bal : numeric) (u : User) : User := {|
  vu_ID := vu_ID u; vu_TelegramID := vu_TelegramID u; vu_Username := name; vu_FirstName := first; vu_Balance := bal;
  vu_IsBlocked := vu_IsBlocked u |}.
(** Assign leaves a column alone whose new value is empty. *)
Definition assigned (name first : string) (u : User) : User :=
  with_user (if (name =? "")%string then vu_Username u else name) (if (first =? "")%string then vu_FirstName u else first) (vu_Balance u) u.
Definition insert_user (u : User) (d : VpnTables) : result VpnTables :=
  if existsb (fun v => (vu_TelegramID v =? vu_TelegramID u) || has_uuid vu_ID (vu_ID u) v) (vt_users d)
  then Err (ErrDuplicatedKey "users") else Ok (set_users (fun l => l ++ [u]) d).
(** FirstOrCreate: the row as it was read or made, and the error. *)
Definition UpsertUser (telegramID : Z) (name first_name : string) : MM (User * option error) :=
  let new := fun id => {| vu_ID := id; vu_TelegramID := telegramID; vu_Username := name; vu_FirstName := first_name;
                          vu_Balance := Num 0; vu_IsBlocked := false |} in
  (r <- try (first (fun d => List.find (fun u => vu_TelegramID u =? telegramID) (vt_users d))) ;;
   match r with
   | Ok u => (e <- try (exec (fun d => Ok (set_users (update_id vu_ID (vu_ID u) (assigned name first_name)) d))) ;;
              ret (assigned name first_name u, match e with Ok _ => None | Err e => Some e end))
   | Err ErrRecordNotFound =>
       (id <- uuid_New ;;
        e <- try (exec (insert_user (new id))) ;;
        ret (new id, match e with Ok _ => None | Err e => Some e end))
   | Err e => ret (new 0%N, Some e)
   end)%eff.
Definition UpdateBalance (userID : uuid) (delta : float64) : MM unit :=
  exec (fun d => Ok (set_users (update_id vu_ID userID (fun u =>
    with_user (vu_Username u) (vu_FirstName u) (num_add (vu_Balance u) (to_numeric delta)) u)) d)).
(** One UPDATE with the balance in its condition: whether a row matched. *)
Definition DeductBalanceIfEnough (userID : uuid) (amount : float64) : MM bool :=
  let hit := fun u => has_uuid vu_ID userID u && num_le (to_numeric amount) (vu_Balance u) in
  stmt (fun d => Ok (existsb hit (vt_users d), set_users (map (fun u =>
    if hit u then with_user (vu_Username u) (vu_FirstName u) (num_sub (vu_Balance u) (to_numeric amount)) u else u)) d)).

Definition ListPlans : MM (list Plan) := find (fun d => List.filter vp_IsActive (vt_plans d)).
Definition FindPlan (id : uuid) : MM (option Plan * option error) := row_and_error zero_plan (first (fun d => List.find (has_uuid vp_ID id) (vt_plans d))).
(** The user of a subscription is a foreign key. *)
Definition CreateSubscription (sub : uuid -> Subscription) : MM Subscription :=
  (id <- uuid_New ;;
   exec (fun d => if negb (existsb (has_uuid vu_ID (vs_UserID (sub id))) (vt_users d)) then Err (ErrDriver 23503)
                  else if existsb (has_uuid vs_ID id) (vt_subs d) then Err (ErrDuplicatedKey "subscriptions")
                  else Ok (set_subs (fun l => l ++ [sub id]) d)) ;;
   ret (sub id))%eff.
Definition is_active (sub : Subscription) : bool := bool_decide (vs_Status sub = SubActive).
Definition FindActiveSubscriptions : MM (list Subscription) := find (fun d => List.filter is_active (vt_subs d)).
Definition FindExpiredSubscriptions : MM (list Subscription) :=
  (n <- now ;; find (fun d => List.filter (fun s => is_active s && (vs_ExpiresAt s <? n)) (vt_subs d)))%eff.
(** The outer User of SubscriptionWithUser, which hides the preloaded one, is
    never set; preloading is a second query. *)
Record SubscriptionWithUser := { sw_Subscription : Subscription; sw_User_TelegramID : Z }.
Definition FindSubscriptionsExpiringIn (d : Z) : MM (list SubscriptionWithUser) :=
  (n1 <- now ;;
   n2 <- now ;;
   subs <- find (fun t => List.filter (fun s => is_active s && (n2 <? vs_ExpiresAt s) && (vs_ExpiresAt s <? n1 + d)) (vt_subs t)) ;;
   users <- (match subs with [] => ret [] | _ => find vt_users end) ;;
   ret (map (fun s => {| sw_Subscription := s; sw_User_TelegramID := 0 |}) subs))%eff.
Definition with_sub (st : SubscriptionStatus) (used : numeric) (s : Subscription) : Subscription := {|
  vs_ID := vs_ID s; vs_UserID := vs_UserID s; vs_PanelID := vs_PanelID s; vs_PlanID := vs_PlanID s; vs_Username := vs_Username s;
  vs_Status := st; vs_ExpiresAt := vs_ExpiresAt s; vs_DataLimit := vs_DataLimit s; vs_UsedData := used |}.
Definition UpdateSubscriptionStatus (id : uuid) (st : SubscriptionStatus) : MM unit :=
  exec (fun d => Ok (set_subs (update_id vs_ID id (fun s => with_sub st (vs_UsedData s) s)) d)).
Definition UpdateSubscriptionUsage (id : uuid) (usedBytes : Z) : MM unit :=
  let kilo := f64_of_int 1024 in
  exec (fun d => Ok (set_subs (update_id vs_ID id (fun s =>
    with_sub (vs_Status s) (to_numeric (f64_div (f64_div (f64_div (f64_of_int usedBytes) kilo) kilo) kilo)) s)) d)).
(** The newest first. *)
Definition FindSubscriptionsByUserID (userID : uuid) : MM (list Subscription) :=
  find (fun d => rev (List.filter (has_uuid vs_UserID userID) (vt_subs d))).
Definition FindSubscriptionByID (id : uuid) : MM (option Subscription * option error) :=
  row_and_error zero_sub (first (fun d => List.find (has_uuid vs_ID id) (vt_subs d))).
(** uq_payment_online_ref *)
Definition online_ref (p : Payment) : bool :=
  ((vy_Gateway p =? "zarinpal")%string || (vy_Gateway p =? "nowpayments")%string) && negb (vy_RefCode p =? "")%string.
Definition same_ref (p q : Payment) : bool :=
  online_ref p && online_ref q && (vy_Gateway p =? vy_Gateway q)%string && (vy_RefCode p =? vy_RefCode q)%string.
Definition conflicts (p : Payment) (d : VpnTables) : bool :=
  existsb (fun q => same_ref p q || has_uuid vy_ID (vy_ID p) q) (vt_payments d).
(** The id is set also when the row is refused. *)
Definition CreatePayment (p : uuid -> Payment) : MM (uuid * option error) :=
  (id <- uuid_New ;;
   e <- try (exec (fun d => if conflicts (p id) d then Err (ErrDuplicatedKey "payments") else Ok (set_payments (fun l => l ++ [p id]) d))) ;;
   ret (id, match e with Ok _ => None | Err e => Some e end))%eff.
(** ON CONFLICT DO NOTHING: whether the row was inserted. *)
Definition ClaimOnlinePayment (p : uuid -> Payment) : MM bool :=
  (id <- uuid_New ;;
   stmt (fun d => if conflicts (p id) d then Ok (false, d) else Ok (true, set_payments (fun l => l ++ [p id]) d)))%eff.
Definition FindPaymentByID (id : uuid) : MM (option Payment * option error) :=
  row_and_error zero_payment (first (fun d => List.find (has_uuid vy_ID id) (vt_payments d))).
Definition FindPendingPayments : MM (list Payment) :=
  find (fun d => List.filter (fun p => (vy_Status p =? "pending")%string) (vt_payments d)).
Definition with_pay_status (st : string) (p : Payment) : Payment := {|
  vy_ID := vy_ID p; vy_UserID := vy_UserID p; vy_Amount := vy_Amount p; vy_Gateway := vy_Gateway p; vy_Status := st;
  vy_RefCode := vy_RefCode p; vy_Receipt := vy_Receipt p; vy_PlanID := vy_PlanID p |}.
Definition UpdatePaymentStatus (id : uuid) (st : string) : MM unit :=
  exec (fun d => Ok (set_payments (update_id vy_ID id (with_pay_status st)) d)).

Definition ListUsers : MM (list User) := find (fun d => rev (vt_users d)).
Definition FindUserByID (id : uuid) : MM (option User * option error) := row_and_error zero_user (first (fun d => List.find (has_uuid vu_ID id) (vt_users d))).
(** A deleted panel is hidden. *)
Definition live_panels (d : VpnTables) : list Panel := List.filter (fun p => negb (vl_Deleted p)) (vt_panels d).
(** The least used first, ties in the order of creation. *)
Definition less_used (p q : Panel) : Prop := vl_ActiveCount p <= vl_ActiveCount q.
#[local] Instance less_used_dec : RelDecision less_used := fun p q => Z_le_dec (vl_ActiveCount p) (vl_ActiveCount q).
Definition ListPanels : MM (list Panel) := find (fun d => merge_sort less_used (live_panels d)).
Definition CreatePanel (p : uuid -> Panel) : MM Panel :=
  (id <- uuid_New ;;
   exec (fun d => if existsb (has_uuid vl_ID id) (vt_panels d) then Err (ErrDuplicatedKey "panels") else Ok (set_panels (fun l => l ++ [p id]) d)) ;;
   ret (p id))%eff.
Definition FindPanelByID (id : uuid) : MM (option Panel * option error) := row_and_error zero_panel (first (fun d => List.find (has_uuid vl_ID id) (live_panels d))).
Definition panel_before (p q : Panel) : bool :=
  (vl_ActiveCount p <? vl_ActiveCount q) || ((vl_ActiveCount p =? vl_ActiveCount q) && (vl_ID p <? vl_ID q)%N).
Definition FindBestPanel : MM (option Panel * option error) :=
  row_and_error zero_panel (first (fun d => fold_left (fun best p => match best with Some b => if panel_before p b then Some p else best | None => Some p end)
    (List.filter (fun p => vl_IsActive p && ((vl_Capacity p =? 0) || (vl_ActiveCount p <? vl_Capacity p))) (live_panels d)) None)).
Definition UpdatePanel (p : Panel) : MM unit := exec (fun d => Ok (set_panels (update_id vl_ID (vl_ID p) (fun _ => p)) d)).
Definition with_panel (deleted : bool) (count : Z) (active : bool) (p : Panel) : Panel := {|
  vl_ID := vl_ID p; vl_Deleted := deleted; vl_Name := vl_Name p; vl_Type := vl_Type p; vl_BaseURL := vl_BaseURL p;
  vl_Username := vl_Username p; vl_Password := vl_Password p; vl_Capacity := vl_Capacity p; vl_ActiveCount := count; vl_IsActive := active |}.
Definition DeletePanel (id : uuid) : MM unit :=
  exec (fun d => Ok (set_panels (update_id vl_ID id (fun p => with_panel true (vl_ActiveCount p) (vl_IsActive p) p)) d)).
Definition IncrementPanelCount (id : uuid) (delta : Z) : MM unit :=
  exec (fun d => Ok (set_panels (update_id vl_ID id (fun p =>
    if vl_Deleted p then p else with_panel false (vl_ActiveCount p + delta) (vl_IsActive p) p)) d)).

Definition CreateDiscountCode (c : uuid -> DiscountCode) : MM unit :=
  (id <- uuid_New ;;
   exec (fun d => if existsb (fun x => (vd_Code x =? vd_Code (c id))%string || has_uuid vd_ID id x) (vt_codes d)
                  then Err (ErrDuplicatedKey "discount_codes") else Ok (set_codes (fun l => l ++ [c id]) d)))%eff.
Definition FindDiscountCode (code : string) : MM DiscountCode :=
  first (fun d => List.find (fun c => (vd_Code c =? code)%string && vd_IsActive c) (vt_codes d)).
Definition UseDiscountCode (id : uuid) : MM unit :=
  exec (fun d => Ok (set_codes (update_id vd_ID id (fun c => {|
    vd_ID := vd_ID c; vd_Code := vd_Code c; vd_Percent := vd_Percent c; vd_MaxUse := vd_MaxUse c;
    vd_UsedCount := vd_UsedCount c + 1; vd_IsActive := vd_IsActive c |})) d)).
End store.
