(* ===== verification/VpnAdapters.v ===== *)
(** vpn-bot: what the bot keeps beside its tables, and its adapters: the Marzban
    panel (shared/pkg/adapters/marzban), the payment gateways zarinpal and
    nowpayments (shared/pkg/adapters) and card (internal/payment/card.go). *)
From S2P Require Import Prelude GoInt GoFloat GoString GoText Effects PayModels PayChain AdsModels VpnStore.

(** * The bot's world *)

(** state.go; the steps that nothing sets (renew:payment, admin:plan:add,
    admin:panel:add, admin:discount) are left out. *)
Inductive step_name :=
| stepIdle | stepBuyPlan | stepBuyPayment | stepBuyReceipt | stepRenewSub | stepAddPanelType | stepAddPanelURL
| stepAddPanelUser | stepAddPanelPass | stepAddPanelCap | stepAdminBroadcast.
#[export] Instance vpn_step_eq_dec : EqDecision step_name.
Proof. solve_decision. Defined.
Record wizardState := { Step : step_name; Data : gmap string string }.

(** Messages as a tag of the text with its arguments. *)
Inductive outgoing := Send (uid : Z) (text : string) (args : list fmtarg) | Edit (uid : Z) (text : string) (args : list fmtarg).

(** A request to the panel; a reply's user is missing when its body is not JSON. *)
Inductive panel_call := PCreate (username : string) (limit expire : Z) | PGet (username : string) | PDisable (username : string).
Record marzbanUser := { mz_Username : string; mz_Status : string; mz_DataLimit : Z; mz_UsedTraffic : Z; mz_Links : list string }.
Record http_reply := { hr_status : Z; hr_user : option marzbanUser }.

Record VpnWorld := {
  vw_states : gmap Z (wizardState * Z);      (* with the time of expiry *)
  vw_out : list outgoing;
  vw_calls : list panel_call;                (* the requests that reached the panel *)
  vw_invoices : list (string * fmtarg);      (* references of payments with the amount asked *)
}.
Definition set_states f w := {| vw_states := f (vw_states w); vw_out := vw_out w; vw_calls := vw_calls w; vw_invoices := vw_invoices w |}.
Definition add_out o w := {| vw_states := vw_states w; vw_out := vw_out w ++ [o]; vw_calls := vw_calls w; vw_invoices := vw_invoices w |}.
Definition add_call c w := {| vw_states := vw_states w; vw_out := vw_out w; vw_calls := vw_calls w ++ [c]; vw_invoices := vw_invoices w |}.
Definition add_invoice i w := {| vw_states := vw_states w; vw_out := vw_out w; vw_calls := vw_calls w; vw_invoices := vw_invoices w ++ [i] |}.

(** What the services answer at an effect: the panel; whether a login's body is
    JSON; zarinpal's code, authority and message; nowpayments' id and status; Telegram;
    whether a request that failed had arrived; uuid.Parse of a bad text. *)
Class VpnAnswers := {
  panel_reply : nat -> panel_call -> http_reply;
  login_reply : nat -> string -> bool;
  panel_active : nat -> option Z;
  zp_request : nat -> option (Z * string * string);
  zp_verify : nat -> string -> option Z;
  np_request : nat -> option string;
  np_verify : nat -> string -> option string;
  is_member : nat -> Z -> bool;
  http_lost : nat -> bool;
  uuid_of_bad : string -> uuid;
}.

Section adapters.
Context {ENV : Env} {LIB : Lib} {FP : F64Platform} {ANS : VpnAnswers}.
Abbreviation MM := (M VpnTables VpnWorld).

Definition http {A} (answer : nat -> A) (f : VpnWorld -> VpnWorld) : MM A := fun s =>
  match env_fault (tick s) with
  | Some c => (Err (ErrDriver c), mkSt (S (tick s)) (tx s) (db s) (if http_lost (tick s) then f (ext s) else ext s))
  | None => (Ok (answer (tick s)), mkSt (S (tick s)) (tx s) (db s) (f (ext s)))
  end.

(** Replies to the user who wrote reach him; other messages may fail. *)
Definition send (uid : Z) (text : string) (args : list fmtarg) : MM unit := mod_ext (add_out (Send uid text args)).
Definition edit (uid : Z) (text : string) (args : list fmtarg) : MM unit := mod_ext (add_out (Edit uid text args)).
Definition bot_Send (uid : Z) (text : string) (args : list fmtarg) : MM unit := http (fun _ => tt) (add_out (Send uid text args)).
Definition quietly {A} (m : MM A) : MM unit := (try m ;; ret tt)%eff.
Fixpoint for_each {A} (f : A -> MM unit) (l : list A) : MM unit :=
  match l with [] => ret tt | x :: l => (f x ;; for_each f l)%eff end.

(** * marzban *)

Record VPNUser := { vn_Username : string; vn_Status : string; vn_DataLimit : Z; vn_UsedData : Z; vn_Links : list string }.
Definition toVPNUser (m : marzbanUser) : VPNUser := {|
  vn_Username := mz_Username m; vn_Status := mz_Status m; vn_DataLimit := mz_DataLimit m; vn_UsedData := mz_UsedTraffic m;
  vn_Links := mz_Links m |}.
(** The status of a login is not looked at. *)
Definition panel_Login (kind : string) : MM unit :=
  (ok <- http (fun n => login_reply n kind) (fun w => w) ;;
   if ok then ret tt else throw (Sentinel "json" "SyntaxError"))%eff.
Definition doUserRequest (c : panel_call) : MM VPNUser :=
  (r <- http (fun n => panel_reply n c) (add_call c) ;;
   r <- (if hr_status r =? 401 then
           (l <- try (panel_Login "marzban") ;;
            match l with
            | Err e => throw (Wrapf "marzban: re-login failed: %w" [] e)
            | Ok _ => http (fun n => panel_reply n c) (add_call c)
            end)
         else ret r) ;;
   match hr_user r with
   | None => throw (Sentinel "json" "SyntaxError")
   | Some u => ret (toVPNUser u)
   end)%eff.
Definition CreateUser (username : string) (dataLimit expiresAt : Z) : MM VPNUser :=
  doUserRequest (PCreate username dataLimit (expiresAt / 1000000000)).
Definition GetUser (username : string) : MM VPNUser := doUserRequest (PGet username).
Definition DisableUser (username : string) : MM unit := (doUserRequest (PDisable username) ;; ret tt)%eff.
Definition ActiveCount : MM Z :=
  (r <- http panel_active (fun w => w) ;;
   match r with Some n => ret n | None => throw (Sentinel "json" "SyntaxError") end)%eff.

(** internal/vpn/factory.go, for the empty config the bot passes. *)
Definition NewPanel (kind : string) : result unit :=
  if existsb (String.eqb kind) ["marzban"; "marzneshin"; "xui"]%string then Ok tt
  else if (kind =? "hiddify")%string then Err (Errorf "hiddify config format: '<adminPath>|<apiKey>'" [])
  else Err (Errorf "unknown panel type: %s (valid: marzban, marzneshin, hiddify, xui)" [AStr kind]).

(** * The payment gateways: the link and the reference of a payment; whether a
    reference is paid *)

Definition card_CreatePayment (userID : Z) (amount : float64) : MM (string * string) :=
  (bot_Send userID "card" [AFloat amount] ;; ret (""%string, ""%string))%eff.
Definition zarinpal_CreatePayment (amount : float64) : MM (string * string) :=
  (r <- http zp_request (fun w => w) ;;
   match r with
   | None => throw (Sentinel "json" "SyntaxError")
   | Some (code, authority, message) =>
       if negb (code =? 100) then throw (Errorf "zarinpal: %s (code %d)" [AStr message; AInt code])
       else (mod_ext (add_invoice (authority, AInt (int64_of_f64 amount))) ;;
             ret ("https://www.zarinpal.com/pg/StartPay/" +:+ authority, authority)%string)
   end)%eff.
Definition nowpayments_CreatePayment (amount : float64) : MM (string * string) :=
  (r <- http np_request (fun w => w) ;;
   match r with
   | None => throw (Sentinel "json" "SyntaxError")
   | Some id =>
       if (id =? "")%string then throw (Errorf "nowpayments: empty payment_id" [])
       else (mod_ext (add_invoice (id, AFloat amount)) ;; ret (""%string, id))
   end)%eff.
Definition card_VerifyPayment (refID : string) : MM bool := ret true.
Definition zarinpal_VerifyPayment (refID : string) : MM bool :=
  (r <- http (fun n => zp_verify n refID) (fun w => w) ;;
   match r with
   | None => throw (Sentinel "json" "SyntaxError")
   | Some code => ret ((code =? 100) || (code =? 101))
   end)%eff.
Definition nowpayments_VerifyPayment (refID : string) : MM bool :=
  (r <- http (fun n => np_verify n refID) (fun w => w) ;;
   match r with
   | None => throw (Sentinel "json" "SyntaxError")
   | Some status => ret ((status =? "finished")%string || (status =? "confirmed")%string)
   end)%eff.

(** The gateway that main chooses; the handler passes no order id. *)
Inductive gateway := GwCard | GwZarinpal | GwNowpayments.
Definition Gateway_CreatePayment (gw : gateway) (userID : Z) (amount : float64) : MM (string * string) :=
  match gw with
  | GwCard => card_CreatePayment userID amount
  | GwZarinpal => zarinpal_CreatePayment amount
  | GwNowpayments => nowpayments_CreatePayment amount
  end.
Definition VerifyPayment (gw : gateway) (refID : string) : MM bool :=
  match gw with
  | GwCard => card_VerifyPayment refID
  | GwZarinpal => zarinpal_VerifyPayment refID
  | GwNowpayments => nowpayments_VerifyPayment refID
  end.

(** * state.go *)

Definition stateTTL : Z := 20 * 60 * 1000000000.
Definition no_state : wizardState := {| Step := stepIdle; Data := ∅ |}.
(** A failing Redis, a missing and an expired entry all give the idle state. *)
Definition getState (uid : Z) : MM wizardState := fun s =>
  (Ok match env_fault (tick s), vw_states (ext s) !! uid with
      | None, Some (st, expires) => if env_now (tick s) <? expires then st else no_state
      | _, _ => no_state
      end, bump s).
Definition setState (uid : Z) (st : wizardState) : MM unit := fun s =>
  match env_fault (tick s) with
  | Some _ => (Ok tt, bump s)
  | None => (Ok tt, mkSt (S (tick s)) (tx s) (db s) (set_states <[uid := (st, env_now (tick s) + stateTTL)]> (ext s)))
  end.
Definition setStep (uid : Z) (st : step_name) (kv : list (string * string)) : MM unit :=
  (s <- getState uid ;;
   setState uid {| Step := st; Data := foldl (fun m p => <[fst p := snd p]> m) (Data s) kv |})%eff.
Definition clearState (uid : Z) : MM unit := fun s =>
  match env_fault (tick s) with
  | Some _ => (Ok tt, bump s)
  | None => (Ok tt, mkSt (S (tick s)) (tx s) (db s) (set_states (delete uid) (ext s)))
  end.
Definition data (st : wizardState) (k : string) : string := default ""%string (Data st !! k).
End adapters.
