(* ===== verification/VpnBot.v ===== *)
(** vpn-bot: internal/tgbot (buying, subscriptions, the wallet, the owner's
    panel), internal/scheduler, and how cmd/bot/main.go puts them together. *)
From S2P Require Import Prelude GoInt GoFloat GoString GoText Effects PayModels PayChain Consensus Auth Bus AdsModels VpnStore VpnAdapters.

(** * keyboards.go *)

Definition btnBuy : string := "🛒 خرید اشتراک".
Definition btnMyVPN : string := "🔑 اشتراک من".
Definition btnWallet : string := "💳 کیف پول".
Definition btnSupport : string := "🆘 پشتیبانی".
Definition btnHelp : string := "❓ راهنما".
Definition btnCancel : string := "❌ انصراف".
Definition btnBack : string := "🔙 بازگشت".

Record sender := { sd_ID : Z; sd_Username : string; sd_FirstName : string }.
(** A photo message without a photo is possible: telebot's event says so, the code asks again. *)
Inductive VpnUpdate :=
| UpCommand (u : sender) (command : string)
| UpText (u : sender) (text : string)
| UpPhoto (u : sender) (file : option string)
| UpCallback (u : sender) (callback_data : string).

Definition day : Z := 24 * 3600 * 1000000000.

Section bot.
Context {ENV : Env} {LIB : Lib} {PG : PgNumeric} {FP : F64Platform} {CRYPTO : Crypto} {UUID : UuidParser} {ANS : VpnAnswers}.
Context (ownerID channelID : Z) (gw : gateway) (encryptKey : string).
Abbreviation MM := (M VpnTables VpnWorld).

(** * helpers.go *)

Definition panic {A} : MM A := throw (Errorf "runtime error" []).
Definition isAdmin (u : sender) : bool := sd_ID u =? ownerID.
Definition parse_quietly (s : string) : uuid := default (uuid_of_bad s) (uuid_Parse s).
Definition getOrCreate (u : sender) : MM (option User * option error) :=
  (r <- FindUserByTelegramID (sd_ID u) ;;
   match r with
   | (_, Some e) => ret (None, Some e)
   | (Some row, None) => ret (Some row, None)
   | (None, None) => (x <- UpsertUser (sd_ID u) (sd_Username u) (sd_FirstName u) ;; ret (Some (fst x), snd x))
   end)%eff.
(** A stranger to the channel is told so; no error comes back. *)
Definition checkMembership (u : sender) : MM unit :=
  if channelID =? 0 then ret tt
  else
  (r <- try (http (fun n => is_member n (sd_ID u)) (fun w => w)) ;;
   match r with
   | Ok true => ret tt
   | _ => send (sd_ID u) "join the channel" [AInt channelID]
   end)%eff.
Definition sub_args (s : Subscription) : list fmtarg :=
  [AStr (vs_Username s); AInt (vs_ExpiresAt s); AFloat (of_numeric (vs_UsedData s)); AFloat (of_numeric (vs_DataLimit s)); AStr (uuid_String (vs_ID s))].
Definition plan_args (p : Plan) : list fmtarg :=
  [AStr (vp_Name p); AInt (vp_DurationDay p); AFloat (of_numeric (vp_DataGB p)); AFloat (of_numeric (vp_Price p)); AStr (uuid_String (vp_ID p))].
Definition genVPNUsername (telegramID : Z) : MM string :=
  (b <- rand_bytes ;; ret ("u" +:+ FormatInt 10 telegramID +:+ "_" +:+ HexEncode (fit 2 b))%string)%eff.
(** time.Now().AddDate(0, 0, days) and int64(gb * 1e9) *)
Definition expiry (n days : Z) : Z := n + days * day.
Definition data_limit (p : Plan) : Z := int64_of_f64 (f64_mul (of_numeric (vp_DataGB p)) (f64_of_int 1000000000)).
Definition notifyAdmin (text : string) (args : list fmtarg) : MM unit :=
  if ownerID =? 0 then ret tt else quietly (bot_Send ownerID text args).

(** * user.go *)

Definition activateSubscription (u : sender) (userID : uuid) (plan : Plan) : MM unit :=
  (username <- genVPNUsername (sd_ID u) ;;
   n <- now ;;
   let expiresAt := expiry n (vp_DurationDay plan) in
   let limit := data_limit plan in
   vpnUser <- CreateUser username limit expiresAt ;;
   sub <- CreateSubscription (fun id => {|
     vs_ID := id; vs_UserID := userID; vs_PanelID := 0; vs_PlanID := vp_ID plan; vs_Username := vn_Username vpnUser;
     vs_Status := SubActive; vs_ExpiresAt := expiresAt; vs_DataLimit := to_numeric (f64_of_int limit); vs_UsedData := Num 0 |}) ;;
   send (sd_ID u) "active" (sub_args sub ++ map AStr (vn_Links vpnUser)))%eff.

Definition onBuy (u : sender) : MM unit :=
  (r <- try ListPlans ;;
   match r with
   | Err _ | Ok [] => send (sd_ID u) "no plans" []
   | Ok plans => send (sd_ID u) "plans" (flat_map plan_args plans)
   end)%eff.

Definition onPlanSelected (u : sender) (planIDStr : string) : MM unit :=
  match uuid_Parse planIDStr with
  | None => edit (sd_ID u) "bad plan" []
  | Some planID =>
      (r <- FindPlan planID ;;
       match r with
       | (Some plan, None) =>
           (x <- getOrCreate u ;;
            setStep (sd_ID u) stepBuyPlan [("plan_id", planIDStr); ("plan_price", fmt_f0 (of_numeric (vp_Price plan)))]%string ;;
            match fst x with
            | None => panic
            | Some row =>
                if f64_ge (of_numeric (vu_Balance row)) (of_numeric (vp_Price plan))
                then edit (sd_ID u) "confirm" (plan_args plan ++ [AFloat (of_numeric (vu_Balance row))])
                else edit (sd_ID u) "choose gateway" (plan_args plan ++ [AFloat (of_numeric (vu_Balance row));
                       AFloat (f64_sub (of_numeric (vp_Price plan)) (of_numeric (vu_Balance row)))])
            end)
       | _ => edit (sd_ID u) "no plan" []
       end)%eff
  end.

Definition onGatewaySelected (u : sender) (name : string) : MM unit :=
  let uid := sd_ID u in
  (st <- getState uid ;;
   setStep uid stepBuyPayment [("gw", name); ("plan_id", data st "plan_id"); ("plan_price", data st "plan_price")]%string ;;
   if (name =? "card")%string then
     (setStep uid stepBuyReceipt [("plan_id", data st "plan_id")]%string ;;
      edit uid "send the receipt" [AFloat (parseFloat (data st "plan_price"))])
   else if (name =? "zarinpal")%string || (name =? "nowpayments")%string then
     (r <- try (Gateway_CreatePayment gw uid (parseFloat (data st "plan_price"))) ;;
      match r with
      | Err _ => edit uid "no link" []
      | Ok (payURL, refID) =>
          (setStep uid stepBuyPayment [("gw", name); ("plan_id", data st "plan_id"); ("ref_id", refID)]%string ;;
           edit uid "pay" [AStr payURL; AStr ("verify_payment:" +:+ refID)%string])
      end)
   else ret tt)%eff.

(** getUserID; the row of a user that could not be saved has an id all the same. *)
Definition getUserID (u : sender) : MM uuid :=
  (x <- getOrCreate u ;; ret (match fst x with Some row => vu_ID row | None => 0%N end))%eff.

Definition handlePaymentInput (u : sender) (st : wizardState) (text : string) : MM unit :=
  let uid := sd_ID u in
  (clearState uid ;;
   let planID := parse_quietly (data st "plan_id") in
   r <- FindPlan planID ;;
   match r with
   | (Some plan, None) =>
       (userID <- getUserID u ;;
        p <- CreatePayment (fun id => {|
          vy_ID := id; vy_UserID := userID; vy_Amount := to_numeric (of_numeric (vp_Price plan)); vy_Gateway := data st "gw";
          vy_Status := "pending"; vy_RefCode := text; vy_Receipt := ""; vy_PlanID := Some planID |}) ;;
        match snd p with
        | Some _ => send uid "payment failed" []
        | None =>
            (notifyAdmin "new payment" [AInt uid; AStr (vp_Name plan); AFloat (of_numeric (vp_Price plan)); AStr text; AStr (uuid_String (fst p))] ;;
             send uid "payment noted" [])
        end)
   | _ => send uid "no plan" []
   end)%eff.

Definition handleReceiptPhoto (u : sender) (st : wizardState) (fileID : string) : MM unit :=
  let uid := sd_ID u in
  (clearState uid ;;
   let planID := parse_quietly (data st "plan_id") in
   r <- FindPlan planID ;;
   let '(name, price) := match fst r with Some plan => (vp_Name plan, of_numeric (vp_Price plan)) | None => (""%string, f64_of_int 0) end in
   userID <- getUserID u ;;
   p <- CreatePayment (fun id => {|
     vy_ID := id; vy_UserID := userID; vy_Amount := to_numeric price; vy_Gateway := "card"; vy_Status := "pending";
     vy_RefCode := ""; vy_Receipt := fileID; vy_PlanID := Some planID |}) ;;
   notifyAdmin "receipt" [AInt uid; AStr name; AFloat price; AStr (uuid_String (fst p))] ;;
   notifyAdmin "photo" [AStr fileID] ;;
   send uid "receipt noted" [])%eff.

Definition onMyVPN (u : sender) : MM unit :=
  (x <- getOrCreate u ;;
   match fst x with
   | None => panic
   | Some row =>
       (r <- try (FindSubscriptionsByUserID (vu_ID row)) ;;
        match r with
        | Err _ => send (sd_ID u) "error" []
        | Ok [] => send (sd_ID u) "no subscription" []
        | Ok subs => for_each (fun s => send (sd_ID u) "subscription" (sub_args s)) subs
        end)
   end)%eff.

(** The panel's record of a subscription of the sender's own. *)
Definition own_vpn_user (u : sender) (subIDStr : string) : MM (option VPNUser) :=
  (r <- FindSubscriptionByID (parse_quietly subIDStr) ;;
   match r with
   | (Some sub, None) =>
       (x <- getOrCreate u ;;
        match x with
        | (Some row, None) =>
            if negb (vs_UserID sub =? vu_ID row)%N then (edit (sd_ID u) "no such subscription" [] ;; ret None)
            else
            (v <- try (GetUser (vs_Username sub)) ;;
             match v with
             | Err _ => (edit (sd_ID u) "panel error" [] ;; ret None)
             | Ok v => ret (Some v)
             end)
        | _ => (edit (sd_ID u) "no such subscription" [] ;; ret None)
        end)
   | _ => (edit (sd_ID u) "no such subscription" [] ;; ret None)
   end)%eff.
Definition sendSubscriptionLink (u : sender) (subIDStr : string) : MM unit :=
  (v <- own_vpn_user u subIDStr ;;
   match v with
   | None => ret tt
   | Some v => match vn_Links v with
               | [] => edit (sd_ID u) "no link" []
               | links => edit (sd_ID u) "links" (map AStr links) end
   end)%eff.
(** strings.ReplaceAll(link, "//", "%2F%2F") *)
Fixpoint escape_slashes (s : string) : string :=
  match s with
  | String a ((String b rest) as s') => if Ascii.eqb a "/" && Ascii.eqb b "/" then "%2F%2F" +:+ escape_slashes rest else String a (escape_slashes s')
  | _ => s
  end.
Definition qrURL (link : string) : string :=
  "https://api.qrserver.com/v1/create-qr-code/?size=300x300&data=" +:+ escape_slashes link.
Definition sendSubscriptionQR (u : sender) (subIDStr : string) : MM unit :=
  (v <- own_vpn_user u subIDStr ;;
   match v with
   | None => ret tt
   | Some v => match vn_Links v with
               | [] => edit (sd_ID u) "panel error" []
               | link :: _ => edit (sd_ID u) "qr" [AStr (qrURL link)] end
   end)%eff.

(** The subscription is noted in the state, where nothing reads it. *)
Definition onRenewSelected (u : sender) (subIDStr : string) : MM unit :=
  (r <- try ListPlans ;;
   match r with
   | Err _ | Ok [] => edit (sd_ID u) "no plans" []
   | Ok plans => (setStep (sd_ID u) stepRenewSub [("sub_id", subIDStr)]%string ;; edit (sd_ID u) "plans" (flat_map plan_args plans))
   end)%eff.

Definition onWallet (u : sender) : MM unit :=
  (x <- getOrCreate u ;;
   match fst x with
   | None => panic
   | Some row => send (sd_ID u) "wallet" [AFloat (of_numeric (vu_Balance row))]
   end)%eff.

Definition confirmBuyWithBalance (u : sender) (planIDStr : string) : MM unit :=
  match uuid_Parse planIDStr with
  | None => edit (sd_ID u) "bad plan" []
  | Some planID =>
      (r <- FindPlan planID ;;
       match r with
       | (Some plan, None) =>
           (x <- getOrCreate u ;;
            match fst x with
            | None => edit (sd_ID u) "error" []
            | Some row =>
                (d <- try (DeductBalanceIfEnough (vu_ID row) (of_numeric (vp_Price plan))) ;;
                 match d with
                 | Err _ => edit (sd_ID u) "deduction failed" []
                 | Ok false => edit (sd_ID u) "balance too low" []
                 | Ok true => (clearState (sd_ID u) ;; activateSubscription u (vu_ID row) plan)
                 end)
            end)
       | _ => edit (sd_ID u) "no plan" []
       end)%eff
  end.

Definition verifyOnlinePayment (u : sender) (refID : string) : MM unit :=
  let uid := sd_ID u in
  (st <- getState uid ;;
   match uuid_Parse (data st "plan_id") with
   | None => edit uid "no payment data" []
   | Some planID =>
       (r <- FindPlan planID ;;
        match fst r with
        | None => edit uid "no plan" []
        | Some plan =>
            (v <- try (VerifyPayment gw refID) ;;
             match v with
             | Ok true =>
                 (clearState uid ;;
                  x <- getOrCreate u ;;
                  match fst x with
                  | None => edit uid "error" []
                  | Some row =>
                      let g := if (data st "gw" =? "")%string then "zarinpal"%string else data st "gw" in
                      (c <- try (ClaimOnlinePayment (fun id => {|
                         vy_ID := id; vy_UserID := vu_ID row; vy_Amount := to_numeric (of_numeric (vp_Price plan)); vy_Gateway := g;
                         vy_Status := "verified"; vy_RefCode := refID; vy_Receipt := ""; vy_PlanID := Some planID |})) ;;
                       match c with
                       | Err _ => edit uid "payment not stored" []
                       | Ok false => edit uid "already verified" []
                       | Ok true => activateSubscription u (vu_ID row) plan
                       end)
                  end)
             | _ => edit uid "not verified" []
             end)
        end)
   end)%eff.

(** * admin.go *)

Definition onAdmin (u : sender) : MM unit := if negb (isAdmin u) then ret tt else send (sd_ID u) "admin" [].
Definition count_of {A} (r : result (list A)) : Z := match r with Ok l => Z.of_nat (length l) | Err _ => 0 end.
Definition adminStats (u : sender) : MM unit :=
  (active <- try FindActiveSubscriptions ;;
   expired <- try FindExpiredSubscriptions ;;
   n <- try ActiveCount ;;
   send (sd_ID u) "stats" [AInt (count_of active); AInt (count_of expired); AInt (match n with Ok n => n | Err _ => 0 end)])%eff.
Definition adminUsers (u : sender) : MM unit :=
  (r <- try ListUsers ;;
   match r with
   | Err _ => send (sd_ID u) "error" []
   | Ok [] => send (sd_ID u) "no users" []
   | Ok users => send (sd_ID u) "users" (flat_map (fun v => [AInt (vu_TelegramID v); AStr (vu_FirstName v);
                   AInt (if vu_IsBlocked v then 1 else 0); AFloat (of_numeric (vu_Balance v))]) users)
   end)%eff.
Definition adminPlans (u : sender) : MM unit :=
  (r <- try ListPlans ;; send (sd_ID u) "plans" (flat_map plan_args (match r with Ok l => l | Err _ => [] end)))%eff.
Definition adminPayments (u : sender) : MM unit :=
  (r <- try FindPendingPayments ;;
   match r with
   | Err _ => send (sd_ID u) "error" []
   | Ok [] => send (sd_ID u) "no payments" []
   | Ok l => for_each (fun p => send (sd_ID u) "payment" [AStr (uuid_String (vy_UserID p)); AFloat (of_numeric (vy_Amount p));
               AStr (vy_Gateway p); AStr (uuid_String (vy_ID p))]) l
   end)%eff.

(** The subscription of an approved payment, when the panel takes it. *)
Definition activate_approved (user : User) (plan : Plan) : MM unit :=
  (username <- genVPNUsername (vu_TelegramID user) ;;
   n <- now ;;
   let expiresAt := expiry n (vp_DurationDay plan) in
   let limit := data_limit plan in
   v <- try (CreateUser username limit expiresAt) ;;
   match v with
   | Err _ => ret tt
   | Ok vpnUser =>
       (best <- FindBestPanel ;;
        let panelID := match fst best with Some p => vl_ID p | None => 0%N end in
        quietly (CreateSubscription (fun id => {|
          vs_ID := id; vs_UserID := vu_ID user; vs_PanelID := panelID; vs_PlanID := vp_ID plan; vs_Username := vn_Username vpnUser;
          vs_Status := SubActive; vs_ExpiresAt := expiresAt; vs_DataLimit := to_numeric (f64_of_int limit); vs_UsedData := Num 0 |})) ;;
        quietly (bot_Send (vu_TelegramID user) "active" (map AStr (vn_Links vpnUser))))
   end)%eff.
Definition approvePayment (u : sender) (payIDStr : string) : MM unit :=
  match uuid_Parse payIDStr with
  | None => edit (sd_ID u) "bad id" []
  | Some payID =>
      (r <- FindPaymentByID payID ;;
       match r with
       | (Some payment, None) =>
           if negb (vy_Status payment =? "pending")%string then edit (sd_ID u) "already processed" []
           else
           (b <- try (UpdateBalance (vy_UserID payment) (of_numeric (vy_Amount payment))) ;;
            match b with
            | Err _ => edit (sd_ID u) "balance failed" []
            | Ok _ =>
                (quietly (UpdatePaymentStatus payID "confirmed") ;;
                 match vy_PlanID payment with
                 | None => ret tt
                 | Some planID =>
                     (p <- FindPlan planID ;;
                      match fst p with
                      | None => ret tt
                      | Some plan =>
                          (x <- FindUserByID (vy_UserID payment) ;;
                           match fst x with None => ret tt | Some user => activate_approved user plan end)
                      end)
                 end ;;
                 edit (sd_ID u) "approved" [AStr payIDStr])
            end)
       | _ => edit (sd_ID u) "no payment" []
       end)%eff
  end.
Definition rejectPayment (u : sender) (payIDStr : string) : MM unit :=
  let payID := parse_quietly payIDStr in
  (quietly (UpdatePaymentStatus payID "rejected") ;;
   r <- FindPaymentByID payID ;;
   match fst r with
   | None => ret tt
   | Some payment =>
       (x <- FindUserByID (vy_UserID payment) ;;
        match fst x with None => ret tt | Some user => quietly (bot_Send (vu_TelegramID user) "rejected" []) end)
   end ;;
   edit (sd_ID u) "payment rejected" [])%eff.

Fixpoint broadcast (text : string) (users : list User) (sent failed : Z) : MM (Z * Z) :=
  match users with
  | [] => ret (sent, failed)
  | v :: users =>
      if vu_IsBlocked v then broadcast text users sent failed
      else (r <- try (bot_Send (vu_TelegramID v) text []) ;;
            match r with Ok _ => broadcast text users (sent + 1) failed | Err _ => broadcast text users sent (failed + 1) end)%eff
  end.
Definition doBroadcast (u : sender) (text : string) : MM unit :=
  (clearState (sd_ID u) ;;
   r <- try ListUsers ;;
   n <- broadcast text (match r with Ok l => l | Err _ => [] end) 0 0 ;;
   send (sd_ID u) "broadcast" [AInt (fst n); AInt (snd n)])%eff.

(** * admin_panel.go *)

Definition adminPanels (u : sender) : MM unit :=
  (r <- try ListPanels ;;
   match r with
   | Err _ => send (sd_ID u) "error" []
   | Ok l => send (sd_ID u) "panels" (flat_map (fun p => [AStr (vl_Name p); AStr (vl_Type p); AStr (vl_BaseURL p);
               AInt (vl_ActiveCount p); AInt (vl_Capacity p); AStr (uuid_String (vl_ID p))]) l)
   end)%eff.
Definition startAddPanel (u : sender) : MM unit := (setStep (sd_ID u) stepAddPanelType [] ;; edit (sd_ID u) "panel type?" [])%eff.
Definition handlePanelType (u : sender) (ptype : string) : MM unit :=
  (setStep (sd_ID u) stepAddPanelURL [("ptype", ptype)]%string ;; edit (sd_ID u) "panel url?" [AStr ptype])%eff.
(** strings.TrimRight(s, "/") *)
Fixpoint drop_slashes (s : string) : string :=
  match s with String c rest => if Ascii.eqb c "/" then drop_slashes rest else s | EmptyString => s end.
Definition TrimRight_slash (s : string) : string := rev_string (drop_slashes (rev_string s)).
Definition handlePanelURL (u : sender) (st : wizardState) (url : string) : MM unit :=
  let url := TrimRight_slash (TrimSpace url) in
  if negb (HasPrefix url "http") then send (sd_ID u) "bad url" []
  else (setStep (sd_ID u) stepAddPanelUser [("ptype", data st "ptype"); ("url", url)]%string ;; send (sd_ID u) "panel user?" [])%eff.
Definition handlePanelUser (u : sender) (st : wizardState) (username : string) : MM unit :=
  (setStep (sd_ID u) stepAddPanelPass [("ptype", data st "ptype"); ("url", data st "url"); ("user", username)]%string ;;
   send (sd_ID u) "panel password?" [])%eff.
Definition handlePanelPass (u : sender) (st : wizardState) (pass : string) : MM unit :=
  (setStep (sd_ID u) stepAddPanelCap [("ptype", data st "ptype"); ("url", data st "url"); ("user", data st "user"); ("pass", pass)]%string ;;
   send (sd_ID u) "panel capacity?" [])%eff.
(** [url[7:14]] panics when the address is shorter. *)
Definition panel_name (ptype url : string) : MM string :=
  if strlen url <? 14 then panic else ret (ptype +:+ "-" +:+ substring 7 7 url)%string.
Definition handlePanelCap (u : sender) (st : wizardState) (capStr : string) : MM unit :=
  (clearState (sd_ID u) ;;
   let cap := Sscanf_d (TrimSpace capStr) in
   e <- try (Encrypt (data st "pass") encryptKey) ;;
   match e with
   | Err _ => send (sd_ID u) "encryption failed" []
   | Ok encPass =>
       (name <- panel_name (data st "ptype") (data st "url") ;;
        match NewPanel (data st "ptype") with
        | Err _ => send (sd_ID u) "unsupported panel" []
        | Ok _ =>
            (l <- try (panel_Login (data st "ptype")) ;;
             match l with
             | Err _ => send (sd_ID u) "panel unreachable" []
             | Ok _ =>
                 (p <- try (CreatePanel (fun id => {|
                    vl_ID := id; vl_Deleted := false; vl_Name := name; vl_Type := data st "ptype"; vl_BaseURL := data st "url";
                    vl_Username := data st "user"; vl_Password := encPass; vl_Capacity := cap; vl_ActiveCount := 0; vl_IsActive := true |})) ;;
                  match p with
                  | Err _ => send (sd_ID u) "panel not stored" []
                  | Ok p => send (sd_ID u) "panel added" [AStr (vl_BaseURL p); AStr (vl_Type p); AInt cap; AStr (uuid_String (vl_ID p))]
                  end)
             end)
        end)
   end)%eff.
Fixpoint test_panels (l : list Panel) (acc : list fmtarg) : MM (list fmtarg) :=
  match l with
  | [] => ret acc
  | p :: l =>
      (pass <- try (Decrypt (vl_Password p) encryptKey) ;;
       r <- (match NewPanel (vl_Type p) with Err e => ret (Err e) | Ok _ => try (panel_Login (vl_Type p)) end) ;;
       test_panels l (acc ++ [AStr (vl_Name p); AInt (match r with Ok _ => 1 | Err _ => 0 end)]))%eff
  end.
Definition testAllPanels (u : sender) : MM unit :=
  (r <- try ListPanels ;;
   match r with
   | Err _ | Ok [] => edit (sd_ID u) "no panels" []
   | Ok l => (a <- test_panels l [] ;; edit (sd_ID u) "panel tests" a)
   end)%eff.
Definition togglePanel (u : sender) (panelIDStr : string) : MM unit :=
  (r <- FindPanelByID (parse_quietly panelIDStr) ;;
   match r with
   | (Some p, None) =>
       (quietly (UpdatePanel (with_panel (vl_Deleted p) (vl_ActiveCount p) (negb (vl_IsActive p)) p)) ;;
        edit (sd_ID u) "panel toggled" [AStr (vl_Name p); AInt (if vl_IsActive p then 0 else 1)])
   | _ => edit (sd_ID u) "no panel" []
   end)%eff.
Definition deletePanel (u : sender) (panelIDStr : string) : MM unit :=
  (quietly (DeletePanel (parse_quietly panelIDStr)) ;; edit (sd_ID u) "panel deleted" [])%eff.

(** * handler.go *)

Definition onStart (u : sender) : MM unit :=
  (x <- getOrCreate u ;;
   match x with
   | (Some row, None) =>
       if vu_IsBlocked row then send (sd_ID u) "blocked" []
       else (checkMembership u ;;
             if isAdmin u then send (sd_ID u) "admin welcome" [AStr (sd_FirstName u)]
             else send (sd_ID u) "welcome" [AStr (sd_FirstName u); AFloat (of_numeric (vu_Balance row))])
   | _ => send (sd_ID u) "error" []
   end)%eff.
Definition onHelp (u : sender) : MM unit := send (sd_ID u) "help" [].
Definition onCancel (u : sender) : MM unit := (clearState (sd_ID u) ;; send (sd_ID u) "cancelled" [])%eff.

Definition handleAdminText (u : sender) (text : string) : MM unit :=
  if (text =? "📊 آمار")%string then adminStats u
  else if (text =? "👥 کاربران")%string then adminUsers u
  else if (text =? "💰 پلن‌ها")%string then adminPlans u
  else if (text =? "🖥 پنل‌ها")%string then adminPanels u
  else if (text =? "💸 پرداخت‌ها")%string then adminPayments u
  else if (text =? "📣 broadcast")%string then (setStep (sd_ID u) stepAdminBroadcast [] ;; send (sd_ID u) "broadcast?" [])%eff
  else ret tt.
Definition handleStep (u : sender) (st : wizardState) (text : string) : MM unit :=
  if (text =? btnCancel)%string || (text =? btnBack)%string then onCancel u
  else
  match Step st with
  | stepAddPanelURL => handlePanelURL u st text
  | stepAddPanelUser => handlePanelUser u st text
  | stepAddPanelPass => handlePanelPass u st text
  | stepAddPanelCap => handlePanelCap u st text
  | stepBuyPayment => handlePaymentInput u st text
  | stepAdminBroadcast => doBroadcast u text
  | stepIdle | stepBuyPlan | stepBuyReceipt | stepRenewSub | stepAddPanelType => ret tt
  end.
Definition onText (u : sender) (text : string) : MM unit :=
  let text := TrimSpace text in
  (st <- getState (sd_ID u) ;;
   if negb (bool_decide (Step st = stepIdle)) then handleStep u st text
   else if (text =? btnBuy)%string then onBuy u
   else if (text =? btnMyVPN)%string then onMyVPN u
   else if (text =? btnWallet)%string then onWallet u
   else if (text =? btnSupport)%string then send (sd_ID u) "support" []
   else if (text =? btnHelp)%string then onHelp u
   else if (text =? btnCancel)%string || (text =? btnBack)%string then onCancel u
   else if isAdmin u then handleAdminText u text else ret tt)%eff.
Definition onPhoto (u : sender) (file : option string) : MM unit :=
  (st <- getState (sd_ID u) ;;
   if negb (bool_decide (Step st = stepBuyReceipt)) then ret tt
   else match file with
        | None => send (sd_ID u) "send a photo" []
        | Some id => handleReceiptPhoto u st id
        end)%eff.

(** The actions with an argument, those of the owner only, and the others. *)
Definition onCallback (u : sender) (callback_data : string) : MM unit :=
  let d := match callback_data with
           | String c rest => if Ascii.eqb c (ascii_of_nat 12) then rest else callback_data
           | EmptyString => callback_data end in
  let '(action, arg) := match Cut ":" d with Some (a, b) => (a, Some b) | None => (d, None) end in
  let with_arg := fun h : string -> MM unit => match arg with Some a => h a | None => ret tt end in
  let admin := fun m : MM unit => if negb (isAdmin u) then ret tt else m in
  if (action =? "plan")%string then with_arg (onPlanSelected u)
  else if (action =? "gw")%string then with_arg (onGatewaySelected u)
  else if (action =? "link")%string then with_arg (sendSubscriptionLink u)
  else if (action =? "qr")%string then with_arg (sendSubscriptionQR u)
  else if (action =? "renew")%string then with_arg (onRenewSelected u)
  else if (action =? "panel_add")%string then admin (startAddPanel u)
  else if (action =? "panel_test_all")%string then admin (testAllPanels u)
  else if (action =? "ptype")%string then admin (with_arg (handlePanelType u))
  else if (action =? "panel_toggle")%string then admin (with_arg (togglePanel u))
  else if (action =? "panel_del")%string then admin (with_arg (deletePanel u))
  else if (action =? "buy")%string then onBuy u
  else if (action =? "confirm_buy")%string then with_arg (confirmBuyWithBalance u)
  else if (action =? "verify_payment")%string then with_arg (verifyOnlinePayment u)
  else if (action =? "approve_pay")%string then admin (with_arg (approvePayment u))
  else if (action =? "reject_pay")%string then admin (with_arg (rejectPayment u))
  else if (action =? "cancel")%string then (clearState (sd_ID u) ;; edit (sd_ID u) "cancelled" [])%eff
  else ret tt.

(** Register: what telebot hands an update to. *)
Definition handle_update (x : VpnUpdate) : MM unit :=
  match x with
  | UpCommand u c =>
      if (c =? "/start")%string then onStart u
      else if (c =? "/help")%string then onHelp u
      else if (c =? "/buy")%string then onBuy u
      else if (c =? "/myvpn")%string then onMyVPN u
      else if (c =? "/wallet")%string then onWallet u
      else if (c =? "/admin")%string then onAdmin u
      else if (c =? "/cancel")%string then onCancel u
      else onText u c
  | UpText u t => onText u t
  | UpPhoto u f => onPhoto u f
  | UpCallback u d => onCallback u d
  end.

(** * internal/scheduler *)

Definition notifyExpiring : MM unit :=
  (r <- try (FindSubscriptionsExpiringIn (3 * day)) ;;
   match r with
   | Err _ => ret tt
   | Ok subs => for_each (fun s =>
       (n <- now ;; quietly (bot_Send (sw_User_TelegramID s) "expiring" [AInt (vs_ExpiresAt (sw_Subscription s) - n)]))%eff) subs
   end)%eff.
Definition disableExpired : MM unit :=
  (r <- try FindExpiredSubscriptions ;;
   match r with
   | Err _ => ret tt
   | Ok subs => for_each (fun s =>
       (d <- try (DisableUser (vs_Username s)) ;;
        match d with Err _ => ret tt | Ok _ => quietly (UpdateSubscriptionStatus (vs_ID s) SubDisabled) end)%eff) subs
   end)%eff.
Definition syncUsage : MM unit :=
  (r <- try FindActiveSubscriptions ;;
   match r with
   | Err _ => ret tt
   | Ok subs => for_each (fun s =>
       (v <- try (GetUser (vs_Username s)) ;;
        match v with Err _ => ret tt | Ok v => quietly (UpdateSubscriptionUsage (vs_ID s) (vn_UsedData v)) end)%eff) subs
   end)%eff.

(** * cmd/bot/main.go: the updates and the three timers *)

Inductive vpn_event := EvUpdate (x : VpnUpdate) | EvNotify | EvDisable | EvSync.
Definition vpn_step (e : vpn_event) : MM unit :=
  match e with
  | EvUpdate x => handle_update x
  | EvNotify => notifyExpiring
  | EvDisable => disableExpired
  | EvSync => syncUsage
  end.
Fixpoint vpn_run (l : list vpn_event) : MM unit :=
  match l with [] => ret tt | e :: l => (try (vpn_step e) ;; vpn_run l)%eff end.
End bot.
