(* ===== verification/VpnFrame.v ===== *)
(** vpn-bot: what a program of the bot can do to its tables and wizards. Every
    program is a sequence of primitive updates ([prim]); an assertion that those
    keep is kept by every handler and every timer ([hold_run]). *)
From stdpp Require Import relations.
From S2P Require Import Prelude GoInt GoFloat GoString GoText Effects PayModels PayChain Consensus Auth Bus AdsModels VpnStore VpnAdapters VpnBot.

(** The steps that only the owner's buttons lead to. *)
Definition owner_step (st : step_name) : bool :=
  match st with
  | stepAddPanelType | stepAddPanelURL | stepAddPanelUser | stepAddPanelPass | stepAddPanelCap | stepAdminBroadcast => true
  | stepIdle | stepBuyPlan | stepBuyPayment | stepBuyReceipt | stepRenewSub => false
  end.

Definition deducted (k : uuid) (a : numeric) (l : list User) : list User :=
  map (fun u => if has_uuid vu_ID k u && num_le a (vu_Balance u)
                then with_user (vu_Username u) (vu_FirstName u) (num_sub (vu_Balance u) a) u else u) l.
Definition credited (k : uuid) (a : numeric) (l : list User) : list User :=
  update_id vu_ID k (fun u => with_user (vu_Username u) (vu_FirstName u) (num_add (vu_Balance u) a) u) l.

Create HintDb hold discriminated.

Section frame.
Context {ENV : Env} {LIB : Lib} {PG : PgNumeric} {FP : F64Platform} {CRYPTO : Crypto} {UUID : UuidParser} {ANS : VpnAnswers}.
(** [admin]: the owner's updates are among the programs; [GA] holds of the amounts charged. *)
Context (ownerID : Z) (admin : bool) (GA : float64 -> Prop).
Abbreviation MM := (M VpnTables VpnWorld).

Definition may_sit (uid : Z) (st : step_name) : Prop := admin = true \/ (uid <> ownerID /\ owner_step st = false).

Inductive prim : VpnTables * VpnWorld -> VpnTables * VpnWorld -> Prop :=
| p_world d w w' : vw_states w' = vw_states w -> prim (d, w) (d, w')
| p_state d w uid st t : may_sit uid (Step st) -> prim (d, w) (d, set_states <[uid := (st, t)]> w)
| p_unstate d w uid : prim (d, w) (d, set_states (delete uid) w)
| p_profile d w k f :
    (forall u, vu_ID (f u) = vu_ID u /\ vu_TelegramID (f u) = vu_TelegramID u /\ vu_Balance (f u) = vu_Balance u) ->
    prim (d, w) (set_users (update_id vu_ID k f) d, w)
| p_user d w u : vu_Balance u = Num 0 -> existsb (has_uuid vu_ID (vu_ID u)) (vt_users d) = false ->
    prim (d, w) (set_users (fun l => l ++ [u]) d, w)
| p_deduct d w k a : GA a -> prim (d, w) (set_users (deducted k (to_numeric a)) d, w)
| p_credit d w k a : admin = true -> GA a -> prim (d, w) (set_users (credited k (to_numeric a)) d, w)
| p_payment d w p a : vy_Amount p = to_numeric a -> GA a -> conflicts p d = false -> prim (d, w) (set_payments (fun l => l ++ [p]) d, w)
| p_status d w k st : admin = true -> prim (d, w) (set_payments (update_id vy_ID k (with_pay_status st)) d, w)
| p_subs d w f : prim (d, w) (set_subs f d, w)
| p_panels d w f : admin = true -> prim (d, w) (set_panels f d, w).

(** * Assertions kept outside transactions *)

Context (I : VpnTables -> VpnWorld -> Prop).

Definition hold {A} (Q : A -> Prop) (m : MM A) : Prop := forall s r s',
  tx s = NoTx -> I (db s) (ext s) -> m s = (r, s') ->
  tx s' = NoTx /\ I (db s') (ext s') /\ match r with Ok a => Q a | Err _ => True end.
Abbreviation Hold m := (hold (fun _ => True) m).

Lemma hold_ret {A} (Q : A -> Prop) a : Q a -> hold Q (ret a).
Proof using. by intros HQ s r s' Ht Hi [= <- <-]. Qed.
Lemma hold_throw {A} (Q : A -> Prop) e : hold Q (throw e).
Proof using. by intros s r s' Ht Hi [= <- <-]. Qed.
Lemma hold_bind {A B} (P : A -> Prop) (Q : B -> Prop) (m : MM A) (k : A -> MM B) :
  hold P m -> (forall a, P a -> hold Q (k a)) -> hold Q (bind m k).
Proof using.
  intros Hm Hk s r s' Ht Hi Hr. apply bind_run in Hr as (r1 & s1 & H1 & Hr).
  destruct (Hm _ _ _ Ht Hi H1) as (Ht1 & Hi1 & HP). destruct r1 as [a|e].
  - by apply (Hk a HP _ _ _ Ht1 Hi1 Hr).
  - by destruct Hr as [-> ->].
Qed.
Lemma hold_try {A} (m : MM A) : Hold m -> Hold (try m).
Proof using. intros Hm s r s' Ht Hi Hr. apply try_run in Hr as (r1 & -> & Hr). by destruct (Hm _ _ _ Ht Hi Hr) as (? & ? & _). Qed.
Lemma hold_quietly {A} (m : MM A) : Hold m -> Hold (quietly m).
Proof using. intros Hm. eapply hold_bind; [by apply hold_try|]. intros ? _. by apply hold_ret. Qed.
Lemma hold_for_each {A} (f : A -> MM unit) l : (forall x, Hold (f x)) -> Hold (for_each f l).
Proof using.
  intros Hf. induction l as [|x l IH]; [by apply hold_ret|]. eapply hold_bind; [apply Hf|]. by intros _ _.
Qed.
(** A computation that only looks. *)
Lemma hold_look {A} (m : MM A) :
  (forall s r s', m s = (r, s') -> tx s = NoTx -> db s' = db s /\ ext s' = ext s /\ tx s' = NoTx) -> Hold m.
Proof using. intros Hm s r s' Ht Hi H. destruct (Hm _ _ _ H Ht) as (-> & -> & ?). repeat split; [done..|by destruct r]. Qed.
Lemma hold_now : Hold now.
Proof using. apply hold_look. by intros s r s' [= _ <-]. Qed.
Lemma hold_uuid : Hold uuid_New.
Proof using. apply hold_look. by intros s r s' [= _ <-]. Qed.
Lemma hold_random : Hold rand_bytes.
Proof using. apply hold_look. by intros s r s' [= _ <-]. Qed.

Lemma hold_rand_Read n : Hold (rand_Read n).
Proof using. apply hold_look. intros s r s'. unfold rand_Read. destruct (env_fault _); by intros [= _ <-]. Qed.

Lemma hold_stmt {A} (Q : A -> Prop) (f : VpnTables -> result (A * VpnTables)) :
  (forall d w a d', I d w -> f d = Ok (a, d') -> I d' w /\ Q a) -> hold Q (stmt f).
Proof using.
  intros Hf s r s' Ht Hi Hr. unfold stmt in Hr. rewrite Ht in Hr. destruct (env_fault _); [by injection Hr as <- <-|].
  destruct (f (db s)) as [[a d]|e] eqn:E; injection Hr as <- <-; simpl; [|by destruct e].
  destruct (Hf _ _ _ _ Hi E). done.
Qed.
Lemma hold_exec (f : VpnTables -> result VpnTables) : (forall d w d', I d w -> f d = Ok d' -> I d' w) -> Hold (exec f).
Proof using. intros Hf. apply hold_stmt. intros d w a d' Hi H. destruct (f d) eqn:E; [|done]. injection H as _ <-. eauto. Qed.
Lemma hold_find {A} (q : VpnTables -> A) : Hold (find q).
Proof using. apply hold_stmt. by intros d w a d' Hi [= _ <-]. Qed.
Lemma hold_first {A} (Q : A -> Prop) (q : VpnTables -> option A) :
  (forall d w a, I d w -> q d = Some a -> Q a) -> hold Q (first q).
Proof using. intros Hq. apply hold_stmt. intros d w a d' Hi H. destruct (q d) eqn:E; [|done]. injection H as <- <-. eauto. Qed.

(** The row that comes back has [Q], the zero row too. *)
Definition row_has {A} (Q : A -> Prop) (r : option A * option error) : Prop := match fst r with Some a => Q a | None => True end.
Lemma hold_row {A} (Q : A -> Prop) zero (m : MM A) : Q zero -> hold Q m -> hold (row_has Q) (row_and_error zero m).
Proof using.
  intros Hz Hm s r s' Ht Hi Hr. unfold row_and_error in Hr. destruct (m s) as [r1 s1] eqn:E. injection Hr as <- <-.
  destruct (Hm _ _ _ Ht Hi E) as (? & ? & HQ). split; [done|]. split; [done|]. destruct r1 as [a|[]]; done.
Qed.

(** * The primitive programs, for an assertion that the updates keep *)

Context (Hprim : forall d w d' w', prim (d, w) (d', w') -> I d w -> I d' w').
Context (Hplans : forall d w p, I d w -> p ∈ vt_plans d -> GA (of_numeric (vp_Price p))).
Context (Hpays : forall d w p, I d w -> p ∈ vt_payments d -> GA (of_numeric (vy_Amount p))).
Context (Hzero : GA (of_numeric (Num 0)) /\ GA (f64_of_int 0)).
Context (Hsit : forall d w uid st t, I d w -> vw_states w !! uid = Some (st, t) -> uid <> ownerID \/ admin = true -> may_sit uid (Step st)).

Lemma hold_http {A} (answer : nat -> A) f : (forall w, vw_states (f w) = vw_states w) -> Hold (http answer f).
Proof using Hprim.
  intros Hf s r s' Ht Hi Hr. unfold http in Hr.
  assert (Hi' : I (db s) (f (ext s))) by (eapply Hprim; [apply p_world, Hf|done]).
  destruct (env_fault _); injection Hr as <- <-; simpl; [|done]. by destruct (http_lost _).
Qed.
Lemma hold_mod_ext f : (forall w, vw_states (f w) = vw_states w) -> Hold (mod_ext f).
Proof using Hprim. intros Hf s r s' Ht Hi [= <- <-]. simpl. repeat split; [done|]. eapply Hprim; [apply p_world, Hf|done]. Qed.

Definition from_stranger (uid : Z) : Prop := uid <> ownerID \/ admin = true.
Lemma hold_getState uid : from_stranger uid -> hold (fun st => may_sit uid (Step st)) (getState uid).
Proof using Hsit.
  intros Hu s r s' Ht Hi [= <- <-]. simpl. repeat split; [done..|].
  assert (Hidle : may_sit uid (Step no_state)) by (destruct Hu; [right|left]; done).
  destruct (env_fault _); [done|]. destruct (vw_states (ext s) !! uid) as [[st t]|] eqn:E; [|done].
  destruct (_ <? t); [|done]. by eapply Hsit.
Qed.
Lemma hold_setState uid st : may_sit uid (Step st) -> Hold (setState uid st).
Proof using Hprim.
  intros Hs s r s' Ht Hi Hr. unfold setState in Hr. destruct (env_fault _); injection Hr as <- <-; [done|].
  simpl. repeat split; [done|]. eapply Hprim; [by apply p_state|done].
Qed.
Lemma hold_setStep uid st kv : from_stranger uid -> may_sit uid st -> Hold (setStep uid st kv).
Proof using Hprim Hsit. intros Hu Hs. eapply hold_bind; [by apply hold_getState|]. intros st' _. by apply hold_setState. Qed.
Lemma hold_clearState uid : Hold (clearState uid).
Proof using Hprim.
  intros s r s' Ht Hi Hr. unfold clearState in Hr. destruct (env_fault _); injection Hr as <- <-; [done|].
  simpl. repeat split; [done|]. eapply Hprim; [by apply p_unstate|done].
Qed.

Lemma find_in {A} (f : A -> bool) l x : List.find f l = Some x -> x ∈ l.
Proof using. intros H. apply find_some in H as [H _]. by apply list_elem_of_In. Qed.

Lemma hold_FindPlan k : hold (row_has (fun p => GA (of_numeric (vp_Price p)))) (FindPlan k).
Proof using Hplans Hzero.
  apply hold_row; [by apply Hzero|]. apply hold_first. intros d w p Hi H. eapply Hplans; [done|]. by eapply find_in.
Qed.
Lemma hold_FindPaymentByID k : hold (row_has (fun p => GA (of_numeric (vy_Amount p)))) (FindPaymentByID k).
Proof using Hpays Hzero.
  apply hold_row; [by apply Hzero|]. apply hold_first. intros d w p Hi H. eapply Hpays; [done|]. by eapply find_in.
Qed.
Lemma hold_row_any {A} (zero : A) q : Hold (row_and_error zero (first q)).
Proof using.
  intros s r s' Ht Hi Hr. destruct (hold_row (fun _ => True) zero (first q) Logic.I (hold_first (fun _ => True) q (fun _ _ _ _ _ => Logic.I)) _ _ _ Ht Hi Hr) as (? & ? & _).
  repeat split; [done..|by destruct r].
Qed.

Lemma hold_users f : (forall d w, prim (d, w) (set_users (f d) d, w)) -> Hold (exec (fun d => Ok (set_users (f d) d))).
Proof using Hprim. intros Hf. apply hold_exec. intros d w d' Hi [= <-]. by eapply Hprim. Qed.
Lemma hold_UpsertUser tid n f : Hold (UpsertUser tid n f).
Proof using Hprim.
  unfold UpsertUser. eapply hold_bind; [apply hold_try; by apply hold_first|]. intros [u|e] _.
  - eapply hold_bind; [|intros ? _; by apply hold_ret]. apply hold_try, (hold_users (fun _ => _)). intros. by apply p_profile.
  - destruct e; try by apply hold_ret. eapply hold_bind; [apply hold_uuid|]. intros id _.
    eapply hold_bind; [|intros ? _; by apply hold_ret]. apply hold_try, hold_exec. intros d w d' Hi.
    unfold insert_user. destruct (existsb _ _) eqn:E; [done|]. intros [= <-]. eapply Hprim; [|done]. apply p_user; [done|].
    apply not_true_iff_false. intros E'. apply not_true_iff_false in E. apply E.
    apply existsb_exists in E' as (x & Hx & Ex). apply existsb_exists. exists x. split; [done|]. by rewrite Ex, orb_true_r.
Qed.
Lemma hold_UpdateBalance k a : admin = true -> GA a -> Hold (UpdateBalance k a).
Proof using Hprim. intros Ha Hg. apply (hold_users (fun _ => _)). intros. by apply p_credit. Qed.
Lemma hold_Deduct k a : GA a -> Hold (DeductBalanceIfEnough k a).
Proof using Hprim. intros Hg. apply hold_stmt. intros d w b d' Hi [= _ <-]. split; [|done]. eapply Hprim; [by apply (p_deduct _ _ k a)|done]. Qed.
Lemma hold_CreatePayment p a : (forall id, vy_Amount (p id) = to_numeric a) -> GA a -> Hold (CreatePayment p).
Proof using Hprim.
  intros Hp Hg. eapply hold_bind; [apply hold_uuid|]. intros id _. eapply hold_bind; [|intros ? _; by apply hold_ret].
  apply hold_try, hold_exec. intros d w d' Hi. destruct (conflicts _ _) eqn:E; [done|]. intros [= <-]. by eapply Hprim; [eapply p_payment|].
Qed.
Lemma hold_Claim p a : (forall id, vy_Amount (p id) = to_numeric a) -> GA a -> Hold (ClaimOnlinePayment p).
Proof using Hprim.
  intros Hp Hg. eapply hold_bind; [apply hold_uuid|]. intros id _. apply hold_stmt. intros d w b d' Hi.
  destruct (conflicts _ _) eqn:E; intros [= _ <-]; [done|]. split; [|done]. by eapply Hprim; [eapply p_payment|].
Qed.
Lemma hold_PaymentStatus k st : admin = true -> Hold (UpdatePaymentStatus k st).
Proof using Hprim. intros Ha. apply hold_exec. intros d w d' Hi [= <-]. by eapply Hprim; [apply p_status|]. Qed.
Lemma hold_CreateSubscription sub : Hold (CreateSubscription sub).
Proof using Hprim.
  eapply hold_bind; [apply hold_uuid|]. intros id _. eapply hold_bind; [|intros ? _; by apply hold_ret]. apply hold_exec.
  intros d w d' Hi. destruct (negb _); [done|]. destruct (existsb _ _); [done|]. intros [= <-]. by eapply Hprim; [apply p_subs|].
Qed.
Lemma hold_SubStatus k st : Hold (UpdateSubscriptionStatus k st).
Proof using Hprim. apply hold_exec. intros d w d' Hi [= <-]. by eapply Hprim; [apply p_subs|]. Qed.
Lemma hold_SubUsage k n : Hold (UpdateSubscriptionUsage k n).
Proof using Hprim. apply hold_exec. intros d w d' Hi [= <-]. by eapply Hprim; [apply p_subs|]. Qed.
Lemma hold_CreatePanel p : admin = true -> Hold (CreatePanel p).
Proof using Hprim.
  intros Ha. eapply hold_bind; [apply hold_uuid|]. intros id _. eapply hold_bind; [|intros ? _; by apply hold_ret]. apply hold_exec.
  intros d w d' Hi. destruct (existsb _ _); [done|]. intros [= <-]. by eapply Hprim; [apply p_panels|].
Qed.
Lemma hold_UpdatePanel p : admin = true -> Hold (UpdatePanel p).
Proof using Hprim. intros Ha. apply hold_exec. intros d w d' Hi [= <-]. by eapply Hprim; [apply p_panels|]. Qed.
Lemma hold_DeletePanel k : admin = true -> Hold (DeletePanel k).
Proof using Hprim. intros Ha. apply hold_exec. intros d w d' Hi [= <-]. by eapply Hprim; [apply p_panels|]. Qed.

(** * The handlers *)

Lemma stranger_sits uid st : from_stranger uid -> owner_step st = false -> may_sit uid st.
Proof using. intros [Hu|Ha] Hs; [by right|by left]. Qed.

#[local] Hint Resolve hold_throw hold_now hold_uuid hold_random hold_rand_Read hold_find hold_row_any hold_clearState hold_UpsertUser
  hold_CreateSubscription hold_SubStatus hold_SubUsage : hold.
#[local] Hint Extern 1 (Hold (ret _)) => apply hold_ret; exact Logic.I : hold.
#[local] Hint Extern 1 (Hold (http _ _)) => apply hold_http; done : hold.
#[local] Hint Extern 1 (Hold (mod_ext _)) => apply hold_mod_ext; done : hold.
#[local] Hint Extern 1 (Hold (setStep _ _ _)) =>
  apply hold_setStep; [assumption|first [assumption|left; assumption|apply stranger_sits; [assumption|reflexivity]]] : hold.
#[local] Hint Extern 1 (Hold (CreatePayment _)) => eapply hold_CreatePayment; [reflexivity|assumption] : hold.
#[local] Hint Extern 1 (Hold (ClaimOnlinePayment _)) => eapply hold_Claim; [reflexivity|assumption] : hold.
#[local] Hint Extern 1 (Hold (DeductBalanceIfEnough _ _)) => apply hold_Deduct; assumption : hold.
#[local] Hint Extern 1 (Hold (UpdateBalance _ _)) => apply hold_UpdateBalance; assumption : hold.
#[local] Hint Extern 1 (Hold (UpdatePaymentStatus _ _)) => apply hold_PaymentStatus; assumption : hold.
#[local] Hint Extern 1 (Hold (CreatePanel _)) => apply hold_CreatePanel; assumption : hold.
#[local] Hint Extern 1 (Hold (UpdatePanel _)) => apply hold_UpdatePanel; assumption : hold.
#[local] Hint Extern 1 (Hold (DeletePanel _)) => apply hold_DeletePanel; assumption : hold.

Ltac vpn_head t := match t with ?f _ => vpn_head f | _ => t end.
Ltac hold_step :=
  match goal with
  | |- hold _ (bind (FindPlan _) _) => eapply hold_bind; [apply hold_FindPlan|]; intros [[?|] [?|]] ?Hplan; unfold row_has in Hplan; cbn [fst] in Hplan |- *
  | |- hold _ (bind (FindPaymentByID _) _) => eapply hold_bind; [apply hold_FindPaymentByID|]; intros [[?|] [?|]] ?Hpay; unfold row_has in Hpay; cbn [fst] in Hpay |- *
  | |- hold _ (bind _ _) => apply (hold_bind (fun _ => True)); [|intros ? _]
  | |- hold _ (try _) => apply hold_try
  | |- hold _ (quietly _) => apply hold_quietly
  | |- hold _ (for_each _ _) => apply hold_for_each; intros ?
  | |- hold _ (match ?x with _ => _ end) => destruct x
  | |- hold _ (let '_ := ?x in _) => destruct x
  | |- hold _ ?m => let h := vpn_head m in unfold h
  end.
Ltac hold_tac := repeat (first [solve [auto with hold] | hold_step]; cbv beta zeta).

Context (channelID : Z) (gw : gateway) (encryptKey : string).

Lemma hold_CreateUser n l e : Hold (CreateUser n l e).
Proof using Hprim. hold_tac. Qed.
Lemma hold_GetUser n : Hold (GetUser n).
Proof using Hprim. hold_tac. Qed.
Lemma hold_DisableUser n : Hold (DisableUser n).
Proof using Hprim. hold_tac. Qed.
#[local] Hint Resolve hold_CreateUser hold_GetUser hold_DisableUser : hold.
Lemma hold_Gateway_CreatePayment uid a : Hold (Gateway_CreatePayment gw uid a).
Proof using Hprim. hold_tac. Qed.
Lemma hold_VerifyPayment ref : Hold (VerifyPayment gw ref).
Proof using Hprim. hold_tac. Qed.
Lemma hold_getOrCreate u : Hold (getOrCreate u).
Proof using Hprim. hold_tac. Qed.
Lemma hold_getUserID u : Hold (getUserID u).
Proof using Hprim. eapply hold_bind; [apply hold_getOrCreate|]. intros ? _. by apply hold_ret. Qed.
#[local] Hint Resolve hold_Gateway_CreatePayment hold_VerifyPayment hold_getOrCreate hold_getUserID : hold.
Lemma hold_activate u k plan : Hold (activateSubscription u k plan).
Proof using Hprim. hold_tac. Qed.
#[local] Hint Resolve hold_activate : hold.

Section buyer.
Context (u : sender) (Hu : from_stranger (sd_ID u)).

Lemma hold_onPlanSelected a : Hold (onPlanSelected u a).
Proof using Hplans Hprim Hsit Hu Hzero. hold_tac. Qed.
Lemma hold_read_state {A} (k : wizardState -> MM A) :
  (forall st, may_sit (sd_ID u) (Step st) -> Hold (k st)) -> Hold (bind (getState (sd_ID u)) k).
Proof using Hsit Hu. intros Hk. eapply hold_bind; [by apply hold_getState|]. done. Qed.
Lemma hold_onGatewaySelected a : Hold (onGatewaySelected gw u a).
Proof using Hprim Hsit Hu. apply hold_read_state. intros st _. hold_tac. Qed.
Lemma hold_handlePaymentInput st a : Hold (handlePaymentInput ownerID u st a).
Proof using Hplans Hprim Hzero. hold_tac. Qed.
Lemma hold_handleReceiptPhoto st a : Hold (handleReceiptPhoto ownerID u st a).
Proof using Hplans Hprim Hzero. destruct Hzero. hold_tac. Qed.
Lemma hold_onMyVPN : Hold (onMyVPN u).
Proof using Hprim. hold_tac. Qed.
Lemma hold_link a : Hold (sendSubscriptionLink u a).
Proof using Hprim. hold_tac. Qed.
Lemma hold_qr a : Hold (sendSubscriptionQR u a).
Proof using Hprim. hold_tac. Qed.
Lemma hold_renew a : Hold (onRenewSelected u a).
Proof using Hprim Hsit Hu. hold_tac. Qed.
Lemma hold_onWallet : Hold (onWallet u).
Proof using Hprim. hold_tac. Qed.
Lemma hold_confirmBuy a : Hold (confirmBuyWithBalance u a).
Proof using Hplans Hprim Hzero. hold_tac. Qed.
Lemma hold_verify a : Hold (verifyOnlinePayment gw u a).
Proof using Hplans Hprim Hsit Hu Hzero. apply hold_read_state. intros st _. hold_tac. Qed.
Lemma hold_onBuy : Hold (onBuy u).
Proof using Hprim. hold_tac. Qed.
Lemma hold_onStart : Hold (onStart ownerID channelID u).
Proof using Hprim. hold_tac. Qed.
Lemma hold_onCancel : Hold (onCancel u).
Proof using Hprim. hold_tac. Qed.
End buyer.

Section owner.
Context (u : sender) (Ha : admin = true).

Lemma owner_reads : from_stranger (sd_ID u).
Proof using Ha. by right. Qed.
#[local] Hint Resolve owner_reads : core.

Lemma hold_adminStats : Hold (adminStats u).
Proof using Hprim. hold_tac. Qed.
Lemma hold_activate_approved v p : Hold (activate_approved v p).
Proof using Hprim. hold_tac. Qed.
#[local] Hint Resolve hold_activate_approved : hold.
Lemma hold_approvePayment a : Hold (approvePayment u a).
Proof using Ha Hpays Hplans Hprim Hzero. hold_tac. Qed.
Lemma hold_rejectPayment a : Hold (rejectPayment u a).
Proof using Ha Hpays Hprim Hzero. hold_tac. Qed.
Lemma hold_broadcast text l a b : Hold (broadcast text l a b).
Proof using Hprim. revert a b. induction l; intros; simpl; hold_tac. Qed.
Lemma hold_doBroadcast text : Hold (doBroadcast u text).
Proof using Hprim. pose proof hold_broadcast. hold_tac. Qed.
Lemma hold_test_panels l acc : Hold (test_panels encryptKey l acc).
Proof using Hprim. revert acc. induction l; intros; simpl; hold_tac. Qed.
Lemma hold_testAllPanels : Hold (testAllPanels encryptKey u).
Proof using Hprim. pose proof hold_test_panels. hold_tac. Qed.
Lemma hold_handlePanelCap st a : Hold (handlePanelCap encryptKey u st a).
Proof using Ha Hprim. hold_tac. Qed.
End owner.

(** * What telebot and the timers run *)

Section events.
Context (u : sender) (Hu : from_stranger (sd_ID u)).
#[local] Hint Resolve hold_onPlanSelected hold_onGatewaySelected hold_handlePaymentInput hold_handleReceiptPhoto hold_onMyVPN
  hold_link hold_qr hold_renew hold_onWallet hold_confirmBuy hold_verify hold_onBuy hold_onStart hold_onCancel
  hold_adminStats hold_approvePayment hold_rejectPayment hold_doBroadcast hold_testAllPanels hold_handlePanelCap : hold.

(** Only the owner passes the check, and only where his updates are counted in. *)
Lemma owner_counted : isAdmin ownerID u = true -> admin = true.
Proof using Hu. intros H. apply Z.eqb_eq in H. by destruct Hu. Qed.
Lemma hold_guarded (m : MM unit) : (admin = true -> Hold m) -> Hold (if negb (isAdmin ownerID u) then ret tt else m).
Proof using Hu. intros Hm. destruct (isAdmin _ _) eqn:E; simpl; [by apply Hm, owner_counted|by apply hold_ret]. Qed.

Lemma hold_handleStep st text : may_sit (sd_ID u) (Step st) -> Hold (handleStep ownerID encryptKey u st text).
Proof using Hplans Hprim Hsit Hu Hzero.
  intros Hs. unfold handleStep. destruct (_ || _); [by apply hold_onCancel|].
  unfold may_sit in Hs; destruct (Step st) eqn:E; try (destruct Hs as [Ha|[_ Hs]]; [|by rewrite ?E in Hs]; clear E); hold_tac.
Qed.
Lemma hold_handleAdminText text : admin = true -> Hold (handleAdminText u text).
Proof using Hprim Hsit Hu. intros Ha. unfold handleAdminText. hold_tac. Qed.
Lemma hold_onText text : Hold (onText ownerID encryptKey u text).
Proof using Hplans Hprim Hsit Hu Hzero.
  apply hold_read_state; [done|]. intros st Hs. destruct (negb _); [by apply hold_handleStep|].
  repeat (destruct (_ =? _)%string; [solve [hold_tac]|]). destruct (_ || _); [by apply hold_onCancel|].
  destruct (isAdmin _ _) eqn:E; [|by apply hold_ret]. by apply hold_handleAdminText, owner_counted.
Qed.
Lemma hold_onPhoto file : Hold (onPhoto ownerID u file).
Proof using Hplans Hprim Hsit Hu Hzero. apply hold_read_state; [done|]. intros st Hs. hold_tac. Qed.
Lemma hold_onCallback d : Hold (onCallback ownerID gw encryptKey u d).
Proof using Hpays Hplans Hprim Hsit Hu Hzero.
  unfold onCallback. set (dd := match d with EmptyString => _ | String _ _ => _ end). clearbody dd.
  destruct (match Cut ":" dd with Some _ => _ | None => _ end) as [action arg]. cbv zeta.
  repeat (destruct (_ =? _)%string; [first [apply hold_guarded; intros ?; solve [hold_tac]|solve [hold_tac]]|]). by apply hold_ret.
Qed.
Lemma hold_handle_update x :
  (match x with UpCommand v _ | UpText v _ | UpPhoto v _ | UpCallback v _ => v end) = u ->
  Hold (handle_update ownerID channelID gw encryptKey x).
Proof using Hpays Hplans Hprim Hsit Hu Hzero.
  intros Ex. destruct x as [v c|v t|v f|v d]; subst v; cbn [handle_update];
    [|apply hold_onText|apply hold_onPhoto|apply hold_onCallback].
  repeat (destruct (_ =? _)%string; [solve [hold_tac]|]). apply hold_onText.
Qed.
End events.

Lemma hold_timers : Hold notifyExpiring /\ Hold disableExpired /\ Hold syncUsage.
Proof using Hprim. split; [|split]; hold_tac. Qed.

Definition author (x : VpnUpdate) : sender := match x with UpCommand v _ | UpText v _ | UpPhoto v _ | UpCallback v _ => v end.
Definition counted (e : vpn_event) : Prop := match e with EvUpdate x => from_stranger (sd_ID (author x)) | _ => True end.

Lemma hold_run l : (forall e, e ∈ l -> counted e) -> Hold (vpn_run ownerID channelID gw encryptKey l).
Proof using Hpays Hplans Hprim Hsit Hzero.
  destruct hold_timers as (Hn & Hd & Hy). induction l as [|e l IH]; intros Hl; [by apply hold_ret|]. cbn [vpn_run].
  apply (hold_bind (fun _ => True)); [|intros ? _; apply IH; intros e' He'; apply Hl; set_solver].
  apply hold_try. pose proof (Hl e ltac:(set_solver)) as He. destruct e; [|done..]. by eapply hold_handle_update.
Qed.
End frame.
