(* ===== verification/VpnSpec.v ===== *)
(** vpn-bot: what its wallets, payments and the owner's rights guarantee. *)
From Stdlib Require Import Lqa.
From stdpp Require Import relations.
From S2P Require Import Prelude GoInt GoFloat GoString GoText Effects PayModels PayChain Consensus Auth Bus AdsModels VpnStore VpnAdapters VpnBot VpnFrame.

(** * Amounts *)

Lemma num_le_trans x y z : num_le x y = true -> num_le y z = true -> num_le x z = true.
Proof.
  destruct x as [p| |[]], y as [q| |[]], z as [r| |[]]; simpl; try done. rewrite !Qle_bool_iff. apply Qle_trans.
Qed.
Lemma num_le_refl x : num_le x x = true.
Proof. destruct x as [p| |[]]; simpl; try done. apply Qle_bool_iff, Qle_refl. Qed.
(** What is taken from a balance that covers it leaves no debt. *)
Lemma num_sub_covered a b : num_le a b = true -> num_le (Num 0) b = true -> num_le (Num 0) (num_sub b a) = true.
Proof.
  destruct a as [p| |[]], b as [q| |[]]; simpl; try done. rewrite !Qle_bool_iff. intros. lra.
Qed.
Lemma num_sub_le q b : (0 <= q)%Q -> num_le (num_sub b (Num q)) b = true.
Proof.
  intros Hq. destruct b as [p| |[]]; simpl; try done. apply Qle_bool_iff. lra.
Qed.
Lemma num_add_nonneg q b : (0 <= q)%Q -> num_le (Num 0) b = true -> num_le (Num 0) (num_add b (Num q)) = true.
Proof.
  intros Hq. destruct b as [p| |[]]; simpl; try done. rewrite !Qle_bool_iff. intros Hp. lra.
Qed.

Lemma elem_of_app_single {A} (x y : A) l : x ∈ l ++ [y] -> x ∈ l \/ x = y.
Proof. rewrite elem_of_app, list_elem_of_singleton. done. Qed.
Lemma elem_of_mapped {A} (f : A -> A) x l : x ∈ map f l -> exists y, y ∈ l /\ x = f y.
Proof. intros (y & <- & Hy)%list_elem_of_In%in_map_iff. exists y. split; [by apply list_elem_of_In|done]. Qed.
Lemma mapped_elem {A} (f : A -> A) y l : y ∈ l -> f y ∈ map f l.
Proof. rewrite !list_elem_of_In. apply in_map. Qed.

Section spec.
Context {ENV : Env} {LIB : Lib} {PG : PgNumeric} {LAWS : PgNumericLaws} {FP : F64Platform} {CRYPTO : Crypto} {UUID : UuidParser} {ANS : VpnAnswers}.
Context (ownerID channelID : Z) (gw : gateway) (encryptKey : string).

(** A price or an amount in a column: a number that is not negative, as a float64 wrote it. *)
Definition fair (v : numeric) : Prop := stored v /\ exists q, v = Num q /\ (0 <= q)%Q.
Definition fair_float (x : float64) : Prop := exists q, to_numeric x = Num q /\ (0 <= q)%Q.
(** Zero is written as zero. *)
Definition zero_is_zero : Prop := stored (Num 0) /\ to_numeric (f64_of_int 0) = Num 0.

Lemma fair_reads v : fair v -> fair_float (of_numeric v).
Proof using. intros [E (q & -> & Hq)]. exists q. by rewrite E. Qed.
Lemma fair_writes x : fair_float x -> fair (to_numeric x).
Proof using LAWS. intros (q & E & Hq). split; [apply stored_to_numeric|eauto]. Qed.
Lemma zero_fair : zero_is_zero -> fair_float (of_numeric (Num 0)) /\ fair_float (f64_of_int 0).
Proof using. intros [E1 E2]. split; exists 0%Q; split; try done. Qed.

(** The prices of the plans and the amounts of the payments are fair. *)
Definition fair_tables (d : VpnTables) : Prop :=
  (forall p, p ∈ vt_plans d -> fair (vp_Price p)) /\ (forall p, p ∈ vt_payments d -> fair (vy_Amount p)).

Lemma prim_fair admin d w d' w' : prim ownerID admin fair_float (d, w) (d', w') -> fair_tables d ->
  fair_tables d' /\ vt_plans d' = vt_plans d /\ vt_codes d' = vt_codes d.
Proof using LAWS.
  intros Hp [H1 H2]. inversion Hp; subst; split; try done; split; try done; intros q Hq.
  - apply elem_of_app_single in Hq as [Hq| ->]; [auto|]. match goal with E : vy_Amount _ = _ |- _ => rewrite E end. by apply fair_writes.
  - apply elem_of_mapped in Hq as (y & Hy & ->). destruct (_ =? k)%N; exact (H2 y Hy).
Qed.

(** What a change of a profile keeps; the amount of an update. *)
Ltac of_profile x := match goal with H : forall u, vu_ID (?f u) = vu_ID u /\ _ |- _ => destruct (H x) as (? & _ & ->) end.
Ltac of_amount := match goal with H : fair_float _ |- _ => destruct H as (? & -> & ?) end.

(** * Wallets *)

Definition in_the_black (d : VpnTables) : Prop := forall u, u ∈ vt_users d -> num_le (Num 0) (vu_Balance u) = true.

Lemma prim_black admin d w d' w' : prim ownerID admin fair_float (d, w) (d', w') -> in_the_black d -> in_the_black d'.
Proof using.
  intros Hp Hb. inversion Hp; subst; try done; intros x Hu.
  - apply elem_of_mapped in Hu as (y & Hy & ->). destruct (_ =? k)%N; [|by apply Hb]. of_profile y. by apply Hb.
  - apply elem_of_app_single in Hu as [Hu| ->]; [by apply Hb|]. match goal with E : vu_Balance _ = _ |- _ => by rewrite E end.
  - apply elem_of_mapped in Hu as (y & Hy & ->). destruct (_ && _) eqn:E; [|by apply Hb]. apply andb_prop in E as [_ E].
    simpl. by apply num_sub_covered, Hb.
  - apply elem_of_mapped in Hu as (y & Hy & ->). destruct (_ =? k)%N; [|by apply Hb]. simpl.
    of_amount. by apply num_add_nonneg, Hb.
Qed.

(** C37: Whatever users and owner send, whatever the timers do and whatever fails,
    no wallet falls below zero. *)
Theorem balances_never_negative l s r s' :
  zero_is_zero -> tx s = NoTx -> fair_tables (db s) -> in_the_black (db s) ->
  vpn_run ownerID channelID gw encryptKey l s = (r, s') -> in_the_black (db s') /\ fair_tables (db s').
Proof using LAWS.
  intros Hz Ht Hf Hb Hr.
  destruct (hold_run ownerID true fair_float (fun d _ => in_the_black d /\ fair_tables d)
    ltac:(intros d w d' w' Hp [H1 H2]; split; [by eapply prim_black|by eapply prim_fair])
    ltac:(intros d w p [_ [H _]] Hp; by apply fair_reads, H) ltac:(intros d w p [_ [_ H]] Hp; by apply fair_reads, H)
    (zero_fair Hz) ltac:(by left) channelID gw encryptKey l) with (s := s) (r := r) (s' := s') as (_ & Hi & _); try done.
  intros [] _; simpl; [by right|done..].
Qed.

(** * Strangers *)

(** No wizard of a stranger stands at a step of the owner's. *)
Definition strangers_outside (w : VpnWorld) : Prop :=
  forall uid st t, vw_states w !! uid = Some (st, t) -> uid <> ownerID -> owner_step (Step st) = false.
Definition from_others (e : vpn_event) : Prop := match e with EvUpdate x => sd_ID (author x) <> ownerID | _ => True end.

(** What a stranger cannot do to the tables of [d0]. *)
Definition untouched (d0 d : VpnTables) : Prop :=
  vt_panels d = vt_panels d0 /\ vt_plans d = vt_plans d0 /\ vt_codes d = vt_codes d0 /\
  (exists l, vt_payments d = vt_payments d0 ++ l) /\
  (forall u, u ∈ vt_users d0 -> exists u', u' ∈ vt_users d /\ vu_ID u' = vu_ID u /\ num_le (vu_Balance u') (vu_Balance u) = true).

Lemma untouched_refl d : untouched d d.
Proof using. repeat split; [by exists []; rewrite app_nil_r|]. intros u Hu. exists u. repeat split; [done|]. apply num_le_refl. Qed.

(** The rows change in place, no balance rises. *)
Lemma untouched_rows d0 d f : untouched d0 d ->
  (forall u, vu_ID (f u) = vu_ID u /\ num_le (vu_Balance (f u)) (vu_Balance u) = true) -> untouched d0 (set_users (map f) d).
Proof using.
  intros (H1 & H2 & H3 & H4 & H5) Hf. do 4 (split; [done|]). intros u Hu. destruct (H5 u Hu) as (u' & Hu' & E & Hle).
  exists (f u'). destruct (Hf u') as [E' Hle']. split; [by apply mapped_elem|]. split; [congruence|]. by eapply num_le_trans.
Qed.

Lemma prim_untouched d0 d w d' w' : prim ownerID false fair_float (d, w) (d', w') -> untouched d0 d -> untouched d0 d'.
Proof using.
  intros Hp Hu. inversion Hp; subst; try done.
  - apply (untouched_rows d0 d (fun x => if has_uuid vu_ID k x then f x else x)); [done|]. intros x.
    destruct (has_uuid _ _ _); [|split; [done|apply num_le_refl]]. of_profile x. split; [done|apply num_le_refl].
  - destruct Hu as (Hu1 & Hu2 & Hu3 & Hu4 & Hu5). do 4 (split; [done|]). intros x Hx. destruct (Hu5 x Hx) as (x' & ? & ?).
    exists x'. split; [|done]. simpl. apply elem_of_app. by left.
  - apply untouched_rows; [done|]. intros x. destruct (_ && _); [|split; [done|apply num_le_refl]]. split; [done|].
    of_amount. by apply num_sub_le.
  - destruct Hu as (Hu1 & Hu2 & Hu3 & (l & El) & Hu5). do 3 (split; [done|]). split; [|done]. exists (l ++ [p]). simpl. by rewrite El, app_assoc.
Qed.

Lemma prim_outside d w d' w' : prim ownerID false fair_float (d, w) (d', w') -> strangers_outside w -> strangers_outside w'.
Proof using.
  intros Hp Ho. inversion Hp; subst; try done.
  - intros uid st t. match goal with E : vw_states _ = _ |- _ => rewrite E end. apply Ho.
  - intros uid' st' t'. simpl. destruct (decide (uid' = uid)) as [->|]; [|rewrite lookup_insert_ne by done; apply Ho].
    rewrite lookup_insert_eq. intros [= <- _] _. by match goal with H : may_sit _ _ _ _ |- _ => destruct H as [|[_ ?]] end.
  - intros uid' st' t'. simpl. intros H. apply lookup_delete_Some in H as [_ H]. by apply (Ho uid' st' t').
Qed.

(** C40: Without the owner no update and no timer changes a panel, a plan or a
    discount code, decides a payment that is there or raises a balance, and
    no stranger's conversation reaches a step of the owner's. *)
Theorem strangers_stay_out l s r s' :
  zero_is_zero -> tx s = NoTx -> fair_tables (db s) -> strangers_outside (ext s) -> (forall e, e ∈ l -> from_others e) ->
  vpn_run ownerID channelID gw encryptKey l s = (r, s') -> untouched (db s) (db s') /\ strangers_outside (ext s').
Proof using LAWS.
  intros Hz Ht Hf Ho Hl Hr.
  destruct (hold_run ownerID false fair_float (fun d w => (untouched (db s) d /\ fair_tables d) /\ strangers_outside w)
    ltac:(intros d w d' w' Hp [[H1 H2] H3]; split; [split; [by eapply prim_untouched|by eapply prim_fair]|by eapply prim_outside])
    ltac:(intros d w p [[_ [H _]] _] Hp; by apply fair_reads, H) ltac:(intros d w p [[_ [_ H]] _] Hp; by apply fair_reads, H)
    (zero_fair Hz) ltac:(intros d w uid st t [_ H] E [Hu|]; [right; split; [done|by eapply H]|done]) channelID gw encryptKey l)
    with (s := s) (r := r) (s' := s') as (_ & [[Hi _] Hi'] & _); try done.
  - intros e He. specialize (Hl e He). destruct e; simpl in *; [by left|done..].
  - split; [|done]. split; [apply untouched_refl|done].
Qed.

(** * Programs that leave some tables alone *)

Abbreviation MM := (M VpnTables VpnWorld).
Abbreviation keeps J m := (hold J (fun _ => True) m).

Lemma keeps_http (J : VpnTables -> VpnWorld -> Prop) {A} (answer : nat -> A) f :
  (forall d w, J d w -> J d (f w)) -> keeps J (http answer f).
Proof using.
  intros Hf s r s' Ht Hi Hr. unfold http in Hr. destruct (env_fault _); injection Hr as <- <-; simpl; auto.
  split; [done|]. destruct (http_lost _); auto.
Qed.

(** The panel is asked, no message goes out and no row changes. *)
Definition only_panel (d0 : VpnTables) (o0 : list outgoing) (d : VpnTables) (w : VpnWorld) : Prop := d = d0 /\ vw_out w = o0.
Lemma panel_only d o n l e : keeps (only_panel d o) (CreateUser n l e).
Proof using.
  unfold CreateUser, doUserRequest, panel_Login.
  repeat first [apply hold_ret; exact Logic.I | apply hold_throw | apply keeps_http; by intros ? ? [-> <-] | apply hold_try
    | apply (hold_bind _ (fun _ => True)); [|intros ? _] | match goal with |- hold _ _ (match ?x with _ => _ end) => destruct x end].
Qed.
Lemma CreateUser_run n l e s r s' : tx s = NoTx -> CreateUser n l e s = (r, s') ->
  tx s' = NoTx /\ db s' = db s /\ vw_out (ext s') = vw_out (ext s).
Proof using. intros Ht H. by destruct (panel_only (db s) (vw_out (ext s)) n l e s r s') as (? & [] & _). Qed.

Lemma row_found {A} (zero : A) q s a : tx s = NoTx -> q (db s) = Some a ->
  exists x, row_and_error zero (first q) s = (Ok x, bump s : st VpnTables VpnWorld) /\
    (x = (Some a, None) \/ env_fault (tick s) <> None /\ exists e, x = (Some zero, Some e)).
Proof using.
  intros Ht Hq. unfold row_and_error, first, stmt. rewrite Ht. destruct (env_fault (tick s)) as [c|] eqn:E.
  - eexists. split; [unfold bump; rewrite Ht; reflexivity|]. right. split; [done|eauto].
  - rewrite Hq. eexists. split; [unfold bump; rewrite Ht; reflexivity|by left].
Qed.

Lemma clearState_run uid s : exists s', clearState uid s = (Ok tt, s') /\ tx s' = tx s /\ db s' = db s /\ vw_out (ext s') = vw_out (ext s).
Proof using. unfold clearState, bump. destruct (env_fault _); eexists; split; try done. Qed.

(** * Delivering a subscription *)

(** What [activateSubscription] leaves: a subscription of the user's to the plan
    and a message, or an error that nobody is told about. *)
Lemma activate_run u k plan s r s' : tx s = NoTx -> activateSubscription u k plan s = (r, s') -> tx s' = NoTx /\
  ((exists sub n, r = Ok tt /\ db s' = set_subs (fun l => l ++ [sub]) (db s) /\ vs_UserID sub = k /\ vs_PlanID sub = vp_ID plan /\
      vs_Status sub = SubActive /\ vs_ExpiresAt sub = expiry (env_now n) (vp_DurationDay plan)) \/
   (exists e, r = Err e /\ db s' = db s /\ vw_out (ext s') = vw_out (ext s))).
Proof using.
  intros Ht H. unfold activateSubscription in H. unfold genVPNUsername, rand_bytes, now in H.
  cbn [bind ret fst snd] in H. unfold bind at 1 in H. cbn in H. unfold bind at 1 in H. cbn in H.
  apply bind_run in H as (r1 & s1 & H1 & H). apply CreateUser_run in H1 as (Ht1 & Hd1 & Ho1); [|done]. cbn in Hd1, Ho1.
  destruct r1 as [v|e]; [|destruct H as [-> ->]; split; [done|right; eauto]].
  apply bind_run in H as (r2 & s2 & H2 & H). unfold CreateSubscription, uuid_New, exec in H2. unfold bind at 1 in H2. cbn in H2.
  apply bind_run in H2 as (r3 & s3 & H3 & H2). unfold stmt in H3. cbn in H3. rewrite Ht1 in H3.
  destruct (env_fault _); [injection H3 as <- <-; destruct H2 as [-> ->], H as [-> ->]; split; [done|right; eauto]|].
  rewrite Hd1 in H3.
  destruct (negb _) in H3; [injection H3 as <- <-; destruct H2 as [-> ->], H as [-> ->]; split; [done|right; eauto]|].
  destruct (existsb _ _) in H3; [injection H3 as <- <-; destruct H2 as [-> ->], H as [-> ->]; split; [done|right; eauto]|].
  injection H3 as <- <-. injection H2 as <- <-. injection H as <- <-. cbn. split; [done|]. left.
  eexists _, _. repeat split; reflexivity.
Qed.

(** * Buying from the wallet *)

Definition registered (u : sender) (d : VpnTables) : option User := List.find (fun v => vu_TelegramID v =? sd_ID u) (vt_users d).
Definition listed (k : uuid) (d : VpnTables) : option Plan := List.find (has_uuid vp_ID k) (vt_plans d).

Lemma same_user l v w : NoDup (map vu_ID l) -> v ∈ l -> w ∈ l -> vu_ID v = vu_ID w -> v = w.
Proof using.
  induction l as [|z l IH]; simpl; intros Hn Hv Hw E; [by apply not_elem_of_nil in Hv|].
  apply NoDup_cons in Hn as [Hz Hn].
  apply elem_of_cons in Hv as [->|Hv], Hw as [->|Hw]; [done| | |auto];
    exfalso; apply Hz; [rewrite E|rewrite <- E]; apply list_elem_of_In, in_map; by apply list_elem_of_In.
Qed.

Lemma listed_plan_run k plan s : tx s = NoTx -> listed k (db s) = Some plan -> exists x, FindPlan k s = (Ok x, bump s : st VpnTables VpnWorld) /\
  (x = (Some plan, None) \/ env_fault (tick s) <> None /\ exists e, x = (Some zero_plan, Some e)).
Proof using. by apply row_found. Qed.
(** A registered user is found or the lookup fails. *)
Lemma getOrCreate_run u row s : tx s = NoTx -> registered u (db s) = Some row ->
  exists x, getOrCreate u s = (Ok x, bump s : st VpnTables VpnWorld) /\
    (x = (Some row, None) \/ env_fault (tick s) <> None /\ exists e, x = (None, Some e)).
Proof using.
  intros Ht Hg. destruct (row_found zero_user _ s row Ht Hg) as (x & Ex & Hx). unfold getOrCreate, bind.
  change (FindUserByTelegramID (sd_ID u) s) with (row_and_error zero_user (first (registered u)) s). rewrite Ex.
  destruct Hx as [->|(Hf & e & ->)]; eexists; split; [reflexivity|by left|reflexivity|right; eauto].
Qed.

(** The one row with the id decides, and it alone changes. *)
Lemma deducted_row l row a : NoDup (map vu_ID l) -> row ∈ l ->
  existsb (fun v => has_uuid vu_ID (vu_ID row) v && num_le a (vu_Balance v)) l = num_le a (vu_Balance row) /\
  (num_le a (vu_Balance row) = false -> deducted (vu_ID row) a l = l).
Proof using.
  intros Hn Hr. split.
  - destruct (num_le a (vu_Balance row)) eqn:E.
    + apply existsb_exists. exists row. split; [by apply list_elem_of_In|]. unfold has_uuid. by rewrite N.eqb_refl, E.
    + apply not_true_iff_false. intros (v & Hv & H)%existsb_exists. apply andb_prop in H as [H1 H2]. apply N.eqb_eq in H1.
      rewrite (same_user l v row) in H2; [congruence|done|by apply list_elem_of_In|done|done].
  - intros E. unfold deducted. rewrite <- (map_id l) at 2. apply map_ext_in. intros v Hv.
    destruct (_ && _) eqn:H; [|done]. apply andb_prop in H as [H1 H2]. apply N.eqb_eq in H1.
    rewrite (same_user l v row) in H2; [congruence|done|by apply list_elem_of_In|done|done].
Qed.

Lemma set_users_same d : set_users (fun _ => vt_users d) d = d.
Proof using. by destruct d. Qed.

Lemma deduct_run row a (s : st VpnTables VpnWorld) r s' : tx s = NoTx -> NoDup (map vu_ID (vt_users (db s))) -> row ∈ vt_users (db s) ->
  DeductBalanceIfEnough (vu_ID row) a s = (r, s') -> tx s' = NoTx /\ ext s' = ext s /\
  match r with
  | Ok true => num_le (to_numeric a) (vu_Balance row) = true /\ db s' = set_users (deducted (vu_ID row) (to_numeric a)) (db s)
  | Ok false => num_le (to_numeric a) (vu_Balance row) = false /\ db s' = db s
  | Err _ => env_fault (tick s) <> None /\ db s' = db s
  end.
Proof using.
  intros Ht Hn Hr H. unfold DeductBalanceIfEnough, stmt in H. rewrite Ht in H.
  destruct (env_fault (tick s)); [by injection H as <- <-|].
  destruct (deducted_row _ row (to_numeric a) Hn Hr) as [E1 E2]. rewrite E1 in H. fold (deducted (vu_ID row) (to_numeric a)) in H.
  injection H as <- <-. cbn. split; [done|]. split; [done|].
  destruct (num_le _ _); [done|]. split; [done|]. rewrite <- (set_users_same (db s)) at 2. unfold set_users. f_equal. by apply E2.
Qed.

(** C38: A purchase from the wallet leaves the tables alone, or takes exactly the
    price and adds one subscription to the plan, or takes the price, adds none and
    sends no message; the price is taken only when the balance covers it, and
    when nothing fails the tables are left alone only when it does not. *)
Theorem confirmBuyWithBalance_outcomes u planIDStr planID plan row s r s' :
  tx s = NoTx -> NoDup (map vu_ID (vt_users (db s))) ->
  uuid_Parse planIDStr = Some planID -> listed planID (db s) = Some plan -> registered u (db s) = Some row ->
  confirmBuyWithBalance u planIDStr s = (r, s') ->
  let price := to_numeric (of_numeric (vp_Price plan)) in
  let paid := set_users (deducted (vu_ID row) price) (db s) in
  (r = Ok tt /\ db s' = db s /\ ((forall k, env_fault k = None) -> num_le price (vu_Balance row) = false)) \/
  (num_le price (vu_Balance row) = true /\
   ((exists sub n, r = Ok tt /\ db s' = set_subs (fun l => l ++ [sub]) paid /\ vs_UserID sub = vu_ID row /\ vs_PlanID sub = vp_ID plan /\
       vs_Status sub = SubActive /\ vs_ExpiresAt sub = expiry (env_now n) (vp_DurationDay plan)) \/
    (exists e, r = Err e /\ db s' = paid /\ vw_out (ext s') = vw_out (ext s)))).
Proof using.
  intros Ht Hn Hp Hl Hg H price paid. unfold confirmBuyWithBalance in H. rewrite Hp in H.
  destruct (listed_plan_run planID plan s Ht Hl) as (x & Ex & Hx).
  apply bind_run in H as (r1 & s1 & H1 & H). rewrite Ex in H1. injection H1 as <- <-.
  destruct Hx as [->|(Hf & e & ->)]; [|injection H as <- <-; left; repeat split; intros Hq; by rewrite Hq in Hf].
  destruct (getOrCreate_run u row (bump s) Ht Hg) as (y & Ey & Hy).
  apply bind_run in H as (r2 & s2 & H2 & H). rewrite Ey in H2. injection H2 as <- <-.
  destruct Hy as [->|(Hf & e & ->)]; cbn [fst] in H;
    [|injection H as <- <-; left; repeat split; intros Hq; by rewrite Hq in Hf].
  apply bind_run in H as (r4 & s4 & H4 & H). apply try_run in H4 as (r5 & -> & H4).
  apply deduct_run in H4 as (Ht4 & He4 & Hr4); [|done|done|by eapply find_in].
  destruct r5 as [[|]|e]; destruct Hr4 as [Hc Hd4].
  - right. split; [done|]. apply bind_run in H as (r6 & s6 & H6 & H). destruct (clearState_run (sd_ID u) s4) as (s6' & E6 & Ht6 & Hd6 & Ho6).
    rewrite E6 in H6. injection H6 as <- <-. rewrite Ht4 in Ht6. apply activate_run in H as [_ [(sub & n & H)|(e & Er & Hd & Ho)]]; [| |done].
    + left. exists sub, n. unfold paid, price. by rewrite Hd6, Hd4 in H.
    + right. exists e. unfold paid, price. rewrite Hd, Hd6, Hd4, Ho, Ho6, He4. done.
  - injection H as <- <-. left. split; [done|]. split; [done|]. done.
  - injection H as <- <-. left. split; [done|]. split; [done|]. intros Hq. by rewrite Hq in Hc.
Qed.

(** * References of online payments *)

(** The wizard as [getState] reads it, and the gateway a verified payment is stored under. *)
Definition asked (uid : Z) (s : st VpnTables VpnWorld) : wizardState :=
  match fst (getState uid s) with Ok st => st | Err _ => no_state end.
Definition gateway_of (st : wizardState) : string := if (data st "gw" =? "")%string then "zarinpal" else data st "gw".
Definition online_gateway (g : string) : bool := (g =? "zarinpal")%string || (g =? "nowpayments")%string.

Lemma getState_run uid s : getState uid s = (Ok (asked uid s), bump s).
Proof using. reflexivity. Qed.

(** Neither subscriptions nor payments change. *)
Definition same_records (d0 d : VpnTables) (w : VpnWorld) : Prop := vt_subs d = vt_subs d0 /\ vt_payments d = vt_payments d0.
Lemma keeps_tried J {A} (m : MM A) : keeps J m -> keeps J (try m).
Proof using. apply hold_try. Qed.
Lemma keeps_exec_users d0 f : keeps (same_records d0) (exec (fun d => Ok (set_users (f d) d))).
Proof using. apply hold_exec. by intros d w d' [H1 H2] [= <-]. Qed.
Lemma records_UpsertUser d0 t n f : keeps (same_records d0) (UpsertUser t n f).
Proof using.
  unfold UpsertUser. eapply hold_bind; [apply hold_try; by apply hold_first|]. intros [u|e] _.
  - eapply hold_bind; [|intros ? _; by apply hold_ret]. apply hold_try, (keeps_exec_users d0 (fun _ => _)).
  - destruct e; try by apply hold_ret. eapply hold_bind; [apply hold_uuid|]. intros id _.
    eapply hold_bind; [|intros ? _; by apply hold_ret]. apply hold_try, hold_exec. intros d w d' Hi.
    unfold insert_user. destruct (existsb _ _); [done|]. by intros [= <-].
Qed.
Lemma records_getOrCreate d0 u : keeps (same_records d0) (getOrCreate u).
Proof using.
  eapply hold_bind; [apply hold_row_any|]. intros [[row|] [e|]] _; try by apply hold_ret.
  eapply hold_bind; [apply records_UpsertUser|]. intros ? _. by apply hold_ret.
Qed.
Lemma records_VerifyPayment d0 ref : keeps (same_records d0) (VerifyPayment gw ref).
Proof using.
  unfold VerifyPayment; destruct gw; [by apply hold_ret|..]; (eapply hold_bind; [by apply keeps_http|]; intros [?|] _; [by apply hold_ret|apply hold_throw]).
Qed.
Lemma records_CreateUser d0 n l e : keeps (same_records d0) (CreateUser n l e).
Proof using.
  intros s r s' Ht Hi Hr. destruct (CreateUser_run _ _ _ _ _ _ Ht Hr) as (? & E & _). split; [done|]. split; [by rewrite E|by destruct r].
Qed.

(** One payment that nothing conflicts with, at most one subscription, or nothing. *)
Definition honoured (g ref : string) (d0 d : VpnTables) : Prop :=
  (vt_subs d = vt_subs d0 /\ vt_payments d = vt_payments d0) \/
  exists p l, vy_Gateway p = g /\ vy_RefCode p = ref /\ existsb (same_ref p) (vt_payments d0) = false /\
    vt_payments d = vt_payments d0 ++ [p] /\ vt_subs d = vt_subs d0 ++ l /\ (length l <= 1)%nat.
Definition honours (g ref : string) (d0 : VpnTables) {A} (m : MM A) : Prop := forall s r s',
  tx s = NoTx -> same_records d0 (db s) (ext s) -> m s = (r, s') -> tx s' = NoTx /\ honoured g ref d0 (db s').

Lemma honours_bind g ref d0 {A B} (m : MM A) (k : A -> MM B) :
  keeps (same_records d0) m -> (forall a, honours g ref d0 (k a)) -> honours g ref d0 (bind m k).
Proof using.
  intros Hm Hk s r s' Ht Hi H. apply bind_run in H as (r1 & s1 & H1 & H). destruct (Hm _ _ _ Ht Hi H1) as (Ht1 & Hi1 & _).
  destruct r1 as [a|e]; [by eapply Hk|]. destruct H as [-> ->]. split; [done|by left].
Qed.
Lemma honours_edit g ref d0 uid text args : honours g ref d0 (edit uid text args).
Proof using. intros s r s' Ht Hi [= _ <-]. split; [done|by left]. Qed.

Lemma claim_run p s r s' : tx s = NoTx -> ClaimOnlinePayment p s = (r, s' : st VpnTables VpnWorld) -> tx s' = NoTx /\
  match r with
  | Ok true => exists id, conflicts (p id) (db s) = false /\ db s' = set_payments (fun l => l ++ [p id]) (db s)
  | _ => db s' = db s
  end.
Proof using.
  intros Ht H. unfold ClaimOnlinePayment, uuid_New in H. unfold bind at 1 in H. cbn in H. unfold stmt in H. cbn in H. rewrite Ht in H.
  destruct (env_fault _); [by injection H as <- <-|]. destruct (conflicts _ _) eqn:E; injection H as <- <-; [done|].
  split; [done|]. by eexists.
Qed.

Lemma honours_claim g ref d0 u k plan p :
  (forall id, vy_Gateway (p id) = g /\ vy_RefCode (p id) = ref) ->
  honours g ref d0 (c <- try (ClaimOnlinePayment p) ;;
    match c with
    | Err _ => edit (sd_ID u) "payment not stored" []
    | Ok false => edit (sd_ID u) "already verified" []
    | Ok true => activateSubscription u k plan
    end)%eff.
Proof using.
  intros Hp s r s' Ht [Hs Hy] H. apply bind_run in H as (r1 & s1 & H1 & H). apply try_run in H1 as (r2 & -> & H1).
  apply claim_run in H1 as [Ht1 Hd]; [|done].
  destruct r2 as [[|]|e]; [|injection H as _ <-; rewrite Hd; split; [done|by left]..].
  destruct Hd as (id & Hc & Hd). apply activate_run in H as [Ht' H]; [|done]. split; [done|]. right. exists (p id).
  assert (Hn : existsb (same_ref (p id)) (vt_payments d0) = false).
  { rewrite <- Hy. apply not_true_iff_false. intros (q & Hq & E)%existsb_exists. apply not_true_iff_false in Hc. apply Hc.
    apply existsb_exists. exists q. by rewrite E. }
  destruct (Hp id) as [E1 E2].
  destruct H as [(sub & n & _ & -> & _)|(e & _ & -> & _)]; [exists [sub]|exists []]; rewrite Hd; cbn; rewrite Hs, Hy, ?app_nil_r;
    repeat split; try done; lia.
Qed.

Lemma verify_run u ref s r s' : tx s = NoTx -> verifyOnlinePayment gw u ref s = (r, s') ->
  tx s' = NoTx /\ honoured (gateway_of (asked (sd_ID u) s)) ref (db s) (db s').
Proof using.
  intros Ht H. unfold verifyOnlinePayment in H. unfold bind at 1 in H. rewrite getState_run in H. set (st := asked (sd_ID u) s) in *.
  revert H. apply (fun (H : honours (gateway_of st) ref (db s) _) => H (bump s) r s' Ht (conj eq_refl eq_refl)). clearbody st.
  destruct (uuid_Parse _) as [planID|]; [|apply honours_edit]. apply honours_bind; [apply hold_row_any|]. intros x.
  destruct (fst x) as [plan|]; [|apply honours_edit]. apply honours_bind; [apply hold_try, records_VerifyPayment|]. intros [[|]|e]; try apply honours_edit.
  apply honours_bind; [|intros _; apply honours_bind; [apply records_getOrCreate|]].
  - intros s1 r1 s1' Ht1 Hi1 H1. destruct (clearState_run (sd_ID u) s1) as (s2 & E & Ht2 & Hd2 & _). rewrite E in H1. injection H1 as <- <-.
    split; [congruence|]. split; [|done]. unfold same_records. by rewrite Hd2.
  - intros y. destruct (fst y) as [row|]; [|apply honours_edit]. by apply honours_claim.
Qed.

Definition recorded (g ref : string) (d : VpnTables) : Prop := exists q, q ∈ vt_payments d /\ vy_Gateway q = g /\ vy_RefCode q = ref.

Lemma prim_recorded g ref d w d' w' : prim ownerID true (fun _ => True) (d, w) (d', w') -> recorded g ref d -> recorded g ref d'.
Proof using.
  intros Hp (q & Hq & E). inversion Hp; subst; try by exists q.
  - exists q. split; [|done]. simpl. apply elem_of_app. by left.
  - exists (if has_uuid vy_ID k q then with_pay_status st q else q). split; [by apply (mapped_elem (fun x => if has_uuid vy_ID k x then with_pay_status st x else x))|].
    by destruct (has_uuid _ _ _).
Qed.
Lemma recorded_stays g ref l s r s' : tx s = NoTx -> recorded g ref (db s) ->
  vpn_run ownerID channelID gw encryptKey l s = (r, s') -> tx s' = NoTx /\ recorded g ref (db s').
Proof using.
  intros Ht Hq Hr.
  destruct (hold_run ownerID true (fun _ => True) (fun d _ => recorded g ref d) (fun d w d' w' => prim_recorded g ref d w d' w')
    ltac:(done) ltac:(done) ltac:(done) ltac:(by left) channelID gw encryptKey l) with (s := s) (r := r) (s' := s') as (? & ? & _); try done.
  intros [] _; simpl; [by right|done..].
Qed.

(** C39: A reference of zarinpal or nowpayments that has brought a subscription
    brought one, and brings none again under that gateway, whoever presents it
    after whatever updates and timers. *)
Theorem reference_honoured_once g u v ref l s1 r1 s2 r2 s3 r3 s4 :
  tx s1 = NoTx -> online_gateway g = true -> ref <> ""%string ->
  gateway_of (asked (sd_ID u) s1) = g -> verifyOnlinePayment gw u ref s1 = (r1, s2) -> vt_subs (db s2) <> vt_subs (db s1) ->
  vpn_run ownerID channelID gw encryptKey l s2 = (r2, s3) ->
  gateway_of (asked (sd_ID v) s3) = g -> verifyOnlinePayment gw v ref s3 = (r3, s4) ->
  (exists sub, vt_subs (db s2) = vt_subs (db s1) ++ [sub]) /\
  vt_subs (db s4) = vt_subs (db s3) /\ vt_payments (db s4) = vt_payments (db s3).
Proof using.
  intros Ht Hg Href Eu H1 Hgrew Hl Ev H2. apply verify_run in H1 as [Ht2 H1]; [|done]. rewrite Eu in H1.
  destruct H1 as [[]|(p & subs & E1 & E2 & _ & Ep & Es & Hlen)]; [done|]. rewrite Es in Hgrew.
  split; [destruct subs as [|sub [|]]; [by rewrite app_nil_r in Hgrew|by exists sub|simpl in Hlen; lia]|].
  apply (recorded_stays g ref) in Hl as [Ht3 (q & Hq & Eg & Er)]; [|done|exists p; rewrite Ep; split; [apply elem_of_app; right; by apply list_elem_of_singleton|done]].
  apply verify_run in H2 as [_ H2]; [|done]. rewrite Ev in H2. destruct H2 as [[]|(p' & ? & E1' & E2' & Hno & _)]; [done|].
  exfalso. apply not_true_iff_false in Hno. apply Hno, existsb_exists. exists q. split; [by apply list_elem_of_In|].
  unfold same_ref, online_ref. fold (online_gateway (vy_Gateway p')) (online_gateway (vy_Gateway q)).
  rewrite E1', E2', Eg, Er, Hg, !String.eqb_refl. by destruct (String.eqb_spec ref "").
Qed.

(** * References that the index does not cover *)

(** Every request is answered, in JSON. *)
Definition all_well : Prop :=
  (forall k, env_fault k = None) /\ (forall n c, exists user st, panel_reply n c = {| hr_status := st; hr_user := Some user |} /\ st <> 401).
Definition says_paid (ref : string) : Prop :=
  match gw with
  | GwCard => True
  | GwZarinpal => forall n, zp_verify n ref = Some 100
  | GwNowpayments => forall n, np_verify n ref = Some "finished"%string
  end.
Definition fresh_ids (d : VpnTables) : Prop :=
  forall n, existsb (has_uuid vs_ID (env_uuid n)) (vt_subs d) = false /\ existsb (has_uuid vy_ID (env_uuid n)) (vt_payments d) = false.

Lemma verified ref s : all_well -> says_paid ref -> exists n, VerifyPayment gw ref s = (Ok true, mkSt n (tx s) (db s) (ext s)).
Proof using.
  intros [Hq _] Hp. unfold says_paid in Hp. unfold VerifyPayment, zarinpal_VerifyPayment, nowpayments_VerifyPayment, http, bind. destruct gw; [by exists (tick s); destruct s|..];
    rewrite Hq, Hp; by eexists.
Qed.
Lemma CreateUser_well n l e s : all_well -> exists v t w, CreateUser n l e s = (Ok v, mkSt t (tx s) (db s) w).
Proof using.
  intros [Hq Hr]. unfold CreateUser, doUserRequest. set (c := PCreate _ _ _). unfold bind, http. rewrite Hq.
  destruct (Hr (tick s) c) as (user & st & -> & Hst). cbn. destruct (st =? 401) eqn:E; [zbool; done|]. by eexists _, _, _.
Qed.
Lemma activate_well u k plan s r s' : all_well -> tx s = NoTx -> existsb (has_uuid vu_ID k) (vt_users (db s)) = true ->
  (forall n, existsb (has_uuid vs_ID (env_uuid n)) (vt_subs (db s)) = false) -> activateSubscription u k plan s = (r, s') -> r = Ok tt.
Proof using.
  intros Hw Ht Hk Hf H. unfold activateSubscription in H. unfold genVPNUsername, rand_bytes, now in H.
  cbn [bind ret fst snd] in H. unfold bind at 1 in H. cbn in H. unfold bind at 1 in H. cbn in H.
  apply bind_run in H as (r1 & s1 & H1 & H).
  match type of H1 with CreateUser ?n ?l ?e ?s0 = _ => destruct (CreateUser_well n l e s0 Hw) as (v & t & w & E) end.
  rewrite E in H1. injection H1 as <- <-. unfold CreateSubscription, uuid_New, exec, stmt, bind in H. cbn in H.
  destruct Hw as [Hq _]. rewrite Ht, Hq, Hk, Hf in H. by injection H as <- _.
Qed.

Lemma uncovered p l : online_gateway (vy_Gateway p) = false \/ vy_RefCode p = ""%string -> existsb (same_ref p) l = false.
Proof using.
  intros H. apply not_true_iff_false. intros (q & _ & E)%existsb_exists. unfold same_ref, online_ref in E.
  fold (online_gateway (vy_Gateway p)) in E. destruct H as [H|H]; rewrite H in E; [done|].
  by rewrite andb_false_r in E.
Qed.
Lemma existsb_orb {A} (f g : A -> bool) l : existsb (fun x => f x || g x) l = existsb f l || existsb g l.
Proof using. induction l as [|x l IH]; simpl; [done|]. rewrite IH. by destruct (f x), (g x), (existsb f l), (existsb g l). Qed.

Lemma claim_well p (s : st VpnTables VpnWorld) : all_well -> tx s = NoTx -> fresh_ids (db s) ->
  (forall id, vy_ID (p id) = id /\ (online_gateway (vy_Gateway (p id)) = false \/ vy_RefCode (p id) = ""%string)) ->
  exists id n, ClaimOnlinePayment p s = (Ok true, mkSt n NoTx (set_payments (fun l => l ++ [p id]) (db s)) (ext s)).
Proof using.
  intros [Hq _] Ht Hf Hp. unfold ClaimOnlinePayment, uuid_New, stmt, bind. cbn. rewrite Ht, Hq. unfold conflicts.
  destruct (Hp (env_uuid (tick s))) as [-> Hun]. rewrite existsb_orb, uncovered by done. destruct (Hf (tick s)) as [_ ->].
  by eexists _, _.
Qed.

(** When the gateway's name in the wizard is card, or the reference is empty (a
    confirmed payment of the card gateway has none), the index does not tell payments
    apart: every confirmed press delivers, however often, and charges no wallet. *)
Theorem uncovered_reference_sells_again u ref planID plan row s r s' :
  all_well -> says_paid ref -> tx s = NoTx -> fresh_ids (db s) ->
  uuid_Parse (data (asked (sd_ID u) s) "plan_id") = Some planID -> listed planID (db s) = Some plan -> registered u (db s) = Some row ->
  online_gateway (gateway_of (asked (sd_ID u) s)) = false \/ ref = ""%string ->
  verifyOnlinePayment gw u ref s = (r, s') ->
  r = Ok tt /\ exists sub p, db s' = set_subs (fun l => l ++ [sub]) (set_payments (fun l => l ++ [p]) (db s)) /\
    vs_UserID sub = vu_ID row /\ vs_PlanID sub = vp_ID plan /\ vy_RefCode p = ref.
Proof using.
  intros Hw Hp Ht Hf Hid Hl Hg Hun H. pose proof Hw as [Hq _]. unfold verifyOnlinePayment in H. unfold bind at 1 in H. rewrite getState_run in H.
  set (st := asked (sd_ID u) s) in *. rewrite Hid in H. clearbody st.
  destruct (listed_plan_run planID plan (bump s) Ht Hl) as (x & Ex & [->|[Hfault _]]); [|by rewrite Hq in Hfault].
  apply bind_run in H as (r1 & s1 & H1 & H). rewrite Ex in H1. injection H1 as <- <-. cbn [fst] in H.
  destruct (verified ref (bump (bump s)) Hw Hp) as (n & Ev). apply bind_run in H as (r2 & s2 & H2 & H). apply try_run in H2 as (r3 & -> & H2).
  rewrite Ev in H2. injection H2 as <- <-. apply bind_run in H as (r4 & s4 & H4 & H).
  match type of H4 with clearState _ ?s0 = _ => destruct (clearState_run (sd_ID u) s0) as (s5 & E5 & Ht5 & Hd5 & _) end.
  rewrite E5 in H4. injection H4 as <- <-. cbn in Ht5, Hd5. rewrite Ht in Ht5.
  destruct (getOrCreate_run u row s5 Ht5 ltac:(by rewrite Hd5)) as (y & Ey & [->|[Hfault _]]); [|by rewrite Hq in Hfault].
  apply bind_run in H as (r6 & s6 & H6 & H). rewrite Ey in H6. injection H6 as <- <-. cbn [fst] in H.
  apply bind_run in H as (r7 & s7 & H7 & H). apply try_run in H7 as (r8 & -> & H7).
  match type of H7 with ClaimOnlinePayment ?p ?s0 = _ => destruct (claim_well p s0 Hw) as (id & m & Ec); [done|by rewrite <- Hd5 in Hf|by intros id|] end.
  rewrite Ec in H7. injection H7 as <- <-. pose proof H as Ha.
  apply activate_well in Ha as ->; [|done|done|..|intros k; cbn; rewrite Hd5; by apply Hf].
  - split; [done|]. apply activate_run in H as [_ [(sub & k & _ & Hd & E1 & E2 & _)|(e & ? & _)]]; [|done|done].
    eexists sub, _. rewrite Hd. cbn. rewrite Hd5. split; [reflexivity|done].
  - cbn. rewrite Hd5. apply existsb_exists. exists row. unfold has_uuid. rewrite N.eqb_refl. split; [|done].
    apply list_elem_of_In. by eapply find_in.
Qed.

(** * Manual payments *)

(** A program that succeeds and changes no row. *)
Definition reads {A} (m : MM A) (s : st VpnTables VpnWorld) (a : A) : Prop := exists n w, m s = (Ok a, mkSt n (tx s) (db s) w).
Lemma row_bind {A B} (k : option A * option error -> MM B) zero q a s r s' : all_well -> tx s = NoTx -> q (db s) = Some a ->
  bind (row_and_error zero (first q)) k s = (r, s') -> exists n w, k (Some a, None) (mkSt n NoTx (db s) w) = (r, s').
Proof using.
  intros [Hq _] Ht E H. destruct (row_found zero q s a Ht E) as (x & Ex & [->|[Hf _]]); [|by rewrite Hq in Hf].
  unfold bind in H. rewrite Ex in H. unfold bump in H. rewrite Ht in H. eauto.
Qed.
Lemma reads_any_row {A} (zero : A) q s : all_well -> tx s = NoTx -> exists x, reads (row_and_error zero (first q)) s x.
Proof using.
  intros [Hq _] Ht. unfold reads, row_and_error, first, stmt. rewrite Ht, Hq. destruct (q (db s)); eexists _, (S (tick s)), (ext s); by rewrite ?Ht.
Qed.
Lemma quietly_exec_run {B} (k : unit -> MM B) f s d r s' : all_well -> tx s = NoTx -> f (db s) = Ok d ->
  bind (quietly (exec f)) k s = (r, s') -> exists n w, k tt (mkSt n NoTx d w) = (r, s').
Proof using.
  intros [Hq _] Ht E H. unfold quietly, try, exec, stmt, bind in H. rewrite Ht, Hq, E in H. cbn in H. eauto.
Qed.
Lemma find_updated {A} (id : A -> uuid) k f l x : (forall y, id (f y) = id y) ->
  List.find (has_uuid id k) l = Some x -> List.find (has_uuid id k) (update_id id k f l) = Some (f x).
Proof using.
  intros Hf. unfold has_uuid. induction l as [|y l IH]; simpl; [done|]. destruct (id y =? k)%N eqn:E; [|rewrite E; apply IH].
  intros [= <-]. by rewrite Hf, E.
Qed.

Lemma activate_approved_well v plan s r s' : all_well -> tx s = NoTx -> existsb (has_uuid vu_ID (vu_ID v)) (vt_users (db s)) = true ->
  (forall n, existsb (has_uuid vs_ID (env_uuid n)) (vt_subs (db s)) = false) -> activate_approved v plan s = (r, s') ->
  r = Ok tt /\ tx s' = NoTx /\ exists sub, db s' = set_subs (fun l => l ++ [sub]) (db s) /\ vs_UserID sub = vu_ID v /\ vs_PlanID sub = vp_ID plan.
Proof using.
  intros Hw Ht Hv Hf H. pose proof Hw as [Hq _]. unfold activate_approved, genVPNUsername, rand_bytes, now in H.
  cbn [bind ret fst snd] in H. unfold bind at 1 in H. cbn in H. unfold bind at 1 in H. cbn in H.
  apply bind_run in H as (r1 & s1 & H1 & H). apply try_run in H1 as (r2 & -> & H1).
  match type of H1 with CreateUser ?n ?l ?e ?s0 = _ => destruct (CreateUser_well n l e s0 Hw) as (vu & t & w & E) end.
  rewrite E in H1. injection H1 as <- <-. cbv beta iota zeta in H. rewrite Ht in H.
  match type of H with context [FindBestPanel ?s0] => assert (exists x, reads FindBestPanel s0 x) as (x & n2 & w2 & Ex) by by apply reads_any_row end.
  rewrite Ex in H. cbn [tx db] in H. clear Ex.
  unfold bind at 1, quietly at 1, try at 1, CreateSubscription, uuid_New, exec, stmt, bind in H. cbn in H. rewrite Hq, Hv, Hf in H. cbn in H.
  unfold quietly, try, bind, bot_Send, http in H. cbn in H. rewrite Hq in H. injection H as <- <-. cbn.
  split; [done|]. split; [done|]. eexists. split; [reflexivity|done].
Qed.

(** Approving a pending payment for a plan adds its amount to the wallet and
    delivers the plan as well: the buyer gets what he paid for and the money back. *)
Theorem approval_credits_and_delivers u payIDStr payID payment planID plan row s r s' :
  all_well -> tx s = NoTx -> fresh_ids (db s) -> uuid_Parse payIDStr = Some payID ->
  List.find (has_uuid vy_ID payID) (vt_payments (db s)) = Some payment -> vy_Status payment = "pending"%string ->
  vy_PlanID payment = Some planID -> listed planID (db s) = Some plan ->
  List.find (has_uuid vu_ID (vy_UserID payment)) (vt_users (db s)) = Some row ->
  approvePayment u payIDStr s = (r, s') ->
  r = Ok tt /\ exists sub,
    db s' = set_subs (fun l => l ++ [sub]) (set_payments (update_id vy_ID payID (with_pay_status "confirmed"))
      (set_users (credited (vu_ID row) (to_numeric (of_numeric (vy_Amount payment)))) (db s))) /\
    vs_UserID sub = vu_ID row /\ vs_PlanID sub = vp_ID plan.
Proof using.
  intros Hw Ht Hf Hid Hpay Hst Hpl Hl Hu H. assert (Ek : vu_ID row = vy_UserID payment) by (apply find_some in Hu as [_ Hu]; by apply N.eqb_eq).
  unfold approvePayment in H. rewrite Hid in H.
  apply (row_bind _ zero_payment _ payment) in H as (n1 & w1 & H); [|done..].
  rewrite Hst in H. change (negb ("pending" =? "pending")%string) with false in H. cbv iota in H.
  unfold UpdateBalance in H. unfold bind at 1, try at 1, exec, stmt in H. cbn [tx tick db] in H. destruct Hw as [Hq Hr]. rewrite Hq in H.
  pose proof (conj Hq Hr : all_well) as Hw.
  match type of H with context [update_id vu_ID (vy_UserID payment) ?f] => set (g := f) in H end. cbv iota beta in H. rewrite Hpl in H.
  apply quietly_exec_run with (d := set_payments (update_id vy_ID payID (with_pay_status "confirmed")) (set_users (update_id vu_ID (vy_UserID payment) g) (db s))) in H
    as (n2 & w2 & H); [|done..]. apply bind_run in H as (r2 & s2 & H2 & H).
  apply (row_bind _ zero_plan (listed planID) plan) in H2 as (n3 & w3 & H2); [|done..]. cbn [fst tx db] in H2.
  assert (Hu' : List.find (has_uuid vu_ID (vy_UserID payment)) (update_id vu_ID (vy_UserID payment) g (vt_users (db s))) = Some (g row)) by by apply find_updated.
  apply (row_bind _ zero_user (fun d => List.find (has_uuid vu_ID (vy_UserID payment)) (vt_users d)) (g row)) in H2 as (n4 & w4 & H2); [|done..].
  cbn [fst tx db] in H2.
  apply activate_approved_well in H2 as (-> & Ht2 & sub & Hd2 & E1 & E2); [|done|done| |intros n; apply Hf].
  - injection H as <- <-. split; [done|]. exists sub. unfold edit, mod_ext. cbn [db]. rewrite Hd2, Ek. split; [done|]. split; [|done]. by rewrite E1, <- Ek.
  - cbn. apply existsb_exists. exists (g row). apply find_some in Hu' as [H1 H3]. split; [done|]. by rewrite <- Ek in H3.
Qed.

(** * Notices *)

(** The notices of the timer go to the chat 0, which is nobody's. *)
Theorem notices_reach_nobody s r s' : tx s = NoTx -> notifyExpiring s = (r, s') ->
  exists l, vw_out (ext s') = vw_out (ext s) ++ l /\ forall o, o ∈ l -> exists args, o = Send 0 "expiring" args.
Proof using.
  intros Ht H. set (J := fun (_ : VpnTables) (w : VpnWorld) => exists l, vw_out w = vw_out (ext s) ++ l /\ forall o, o ∈ l -> exists args, o = Send 0 "expiring" args).
  assert (HJ : J (db s) (ext s)) by (exists []; rewrite app_nil_r; split; [done|]; intros o Ho; by apply not_elem_of_nil in Ho).
  assert (Hm : keeps J notifyExpiring); [|by destruct (Hm s r s' Ht HJ H) as (_ & ? & _)].
  unfold notifyExpiring. apply (hold_bind _ (fun r => forall l, r = Ok l -> forall x, x ∈ l -> sw_User_TelegramID x = 0)).
  - intros s1 r1 s1' Ht1 Hi1 H1. apply try_run in H1 as (r2 & -> & H1).
    assert (Hlook : keeps J (FindSubscriptionsExpiringIn (3 * day))).
    { unfold FindSubscriptionsExpiringIn. repeat first [apply hold_now | apply hold_find | apply hold_ret; exact Logic.I
        | apply (hold_bind _ (fun _ => True)); [|intros ? _] | match goal with |- hold _ _ (match ?x with _ => _ end) => destruct x end]. }
    destruct (Hlook _ _ _ Ht1 Hi1 H1) as (? & ? & _). split; [done|]. split; [done|]. intros l ->.
    unfold FindSubscriptionsExpiringIn, now in H1. apply bind_ok in H1 as (? & ? & _ & H1). apply bind_ok in H1 as (? & ? & _ & H1).
    apply bind_ok in H1 as (subs & ? & _ & H1). apply bind_ok in H1 as (? & ? & _ & H1). injection H1 as <- _.
    intros y Hy. apply list_elem_of_In, in_map_iff in Hy as (? & <- & _). done.
  - intros [subs|e] Hsubs; [|by apply hold_ret]. specialize (Hsubs subs eq_refl). clear HJ. induction subs as [|x subs IH]; [by apply hold_ret|].
    apply (hold_bind _ (fun _ => True)); [|intros _ _; apply IH; intros y Hy; apply Hsubs, elem_of_cons; by right].
    apply (hold_bind _ (fun _ => True)); [apply hold_now|intros n _]. apply hold_quietly, keeps_http.
    intros d w (l & El & Hl). exists (l ++ [Send (sw_User_TelegramID x) "expiring" [AInt (vs_ExpiresAt (sw_Subscription x) - n)]]).
    cbn. rewrite El, app_assoc. split; [done|]. intros o [Ho| ->]%elem_of_app_single; [by apply Hl|]. rewrite (Hsubs x) by (apply elem_of_cons; by left). by eexists.
Qed.
End spec.
