(* ===== verification/VpnDemo.v ===== *)
(** A concrete bot with one plan and one user, and the theorems of VpnSpec.v at
    its runs. *)
From S2P Require Import Prelude GoInt GoFloat GoString GoText Effects PayModels PayChain PayStore Consensus ConsensusSpec Auth Bus AdsModels AdsDemo.
From S2P Require Import VpnStore VpnAdapters VpnBot VpnFrame VpnSpec.

(** * The instances *)

Definition vpn_env (faults : list nat) : Env := {|
  env_fault := fun n => if existsb (Nat.eqb n) faults then Some 7 else None;
  env_now := fun n => Z.of_nat n;
  env_uuid := fun n => N.of_nat (1000 + n);
  env_random := fun n => "ab"%string;
  idx_tx_hash := true;
|}.
(** Ids are written as numbers. *)
Definition vpn_uuids : UuidParser := {| uuid_Parse := fun s => option_map Z.to_N (ParseInt 10 s) |}.
#[local] Existing Instance vpn_uuids.
(** The panel takes every user; the gateways confirm everything. *)
Definition vpn_answers : VpnAnswers := {|
  panel_reply := fun _ c => {| hr_status := 200; hr_user := Some {|
    mz_Username := match c with PCreate n _ _ | PGet n | PDisable n => n end; mz_Status := "active"; mz_DataLimit := 0; mz_UsedTraffic := 0;
    mz_Links := ["vless://x"%string] |} |};
  login_reply := fun _ _ => true; panel_active := fun _ => Some 0; zp_request := fun n => Some (100, "A" +:+ FormatInt 10 (Z.of_nat n), "")%string;
  zp_verify := fun _ _ => Some 100; np_request := fun _ => Some "N"%string; np_verify := fun _ _ => Some "finished"%string;
  is_member := fun _ _ => true; http_lost := fun _ => false; uuid_of_bad := fun _ => 0%N;
|}.
#[local] Existing Instance vpn_answers.

Definition ali : sender := {| sd_ID := 42; sd_Username := "ali"; sd_FirstName := "Ali" |}.
Definition sara : sender := {| sd_ID := 43; sd_Username := "sara"; sd_FirstName := "Sara" |}.
Definition boss : sender := {| sd_ID := 1; sd_Username := "boss"; sd_FirstName := "Boss" |}.
Definition ali_row : User := {| vu_ID := 5; vu_TelegramID := 42; vu_Username := "ali"; vu_FirstName := "Ali"; vu_Balance := Num (12 # 1); vu_IsBlocked := false |}.
Definition price : numeric := to_numeric (f64_of_int 5).
Definition monthly : Plan := {| vp_ID := 7; vp_Name := "monthly"; vp_DurationDay := 30; vp_DataGB := price; vp_Price := price; vp_IsActive := true |}.
Definition receipt : Payment := {| vy_ID := 9; vy_UserID := 5; vy_Amount := price; vy_Gateway := "card"; vy_Status := "pending"; vy_RefCode := "";
  vy_Receipt := "photo"; vy_PlanID := Some 7%N |}.
Definition vpn_tables : VpnTables := {| vt_users := [ali_row]; vt_panels := []; vt_plans := [monthly]; vt_subs := []; vt_codes := []; vt_payments := [receipt] |}.
Definition vpn_init : st VpnTables VpnWorld := mkSt 0 NoTx vpn_tables {| vw_states := ∅; vw_out := []; vw_calls := []; vw_invoices := [] |}.

Definition result_of {A} (x : result A * st VpnTables VpnWorld) : result A := fst x.
Definition state_of {A} (x : result A * st VpnTables VpnWorld) : st VpnTables VpnWorld := snd x.
Lemma vpn_run_pair {A} (x : result A * st VpnTables VpnWorld) : x = (result_of x, state_of x).
Proof. by destruct x. Qed.

(** The balances as the bot reads them. *)
Definition balances (s : st VpnTables VpnWorld) : list float64 := map (fun v => of_numeric (vu_Balance v)) (vt_users (db s)).

Lemma zero_written : zero_is_zero.
Proof. split; vm_compute; reflexivity. Qed.
Lemma price_fair : fair price.
Proof. split; [vm_compute; reflexivity|]. eexists. split; [vm_compute; reflexivity|]. by vm_compute. Qed.
Lemma tables_fair : fair_tables vpn_tables.
Proof. split; intros p Hp; apply list_elem_of_singleton in Hp as ->; apply price_fair. Qed.
Lemma ali_solvent : in_the_black vpn_tables.
Proof. intros u Hu. apply list_elem_of_singleton in Hu as ->. reflexivity. Qed.
Lemma no_wizards : strangers_outside 1 (ext vpn_init).
Proof. intros uid st t. cbn [vw_states ext vpn_init]. by rewrite lookup_empty. Qed.

(** * The runs *)

(** Three purchases for five out of twelve, with a failure in the second: two are charged. *)
Definition press (d : string) : vpn_event := EvUpdate (UpCallback ali d).
Definition buy_events : list vpn_event := [press "plan:7"; press "confirm_buy:7"; press "confirm_buy:7"; press "confirm_buy:7"; EvSync].
Definition buy_run := @vpn_run (vpn_env [19%nat]) _ _ _ _ _ _ 1 0 GwZarinpal "key" buy_events vpn_init.

Lemma balances_never_negative_witness :
  (in_the_black (db (state_of buy_run)) /\ fair_tables (db (state_of buy_run))) /\
  balances (state_of buy_run) = [f64_of_int 2] /\ length (vt_subs (db (state_of buy_run))) = 1%nat.
Proof.
  split; [|vm_compute; split; reflexivity].
  apply (@balances_never_negative (vpn_env [19%nat]) demo_lib demo_pg demo_pg_laws amd64 demo_crypto vpn_uuids vpn_answers 1 0 GwZarinpal "key" buy_events
    vpn_init (result_of buy_run) (state_of buy_run));
    [apply zero_written|reflexivity|apply tables_fair|apply ali_solvent|unfold buy_run; apply vpn_run_pair].
Defined.

(** Sara, a stranger, tries the owner's buttons, buys and sends a receipt; the timers run. *)
Definition sara_events : list vpn_event := [
  EvUpdate (UpCommand sara "/start"); EvUpdate (UpCallback sara "panel_add"); EvUpdate (UpText sara "https://panel.example"); EvUpdate (UpText sara "📣 broadcast");
  EvUpdate (UpCallback sara "approve_pay:9"); EvUpdate (UpCallback sara "panel_del:3"); EvUpdate (UpCallback sara "plan:7"); EvUpdate (UpCallback sara "gw:card");
  EvUpdate (UpPhoto sara (Some "photo2"%string)); press "confirm_buy:7"; EvNotify; EvDisable; EvSync].
Definition sara_run := @vpn_run (vpn_env []) _ _ _ _ _ _ 1 0 GwZarinpal "key" sara_events vpn_init.
Lemma strangers_stay_out_witness :
  (untouched (db vpn_init) (db (state_of sara_run)) /\ strangers_outside 1 (ext (state_of sara_run))) /\
  map vy_Status (vt_payments (db (state_of sara_run))) = ["pending"; "pending"]%string /\ balances (state_of sara_run) = [f64_of_int 7; f64_of_int 0].
Proof.
  split; [|vm_compute; split; reflexivity].
  apply (@strangers_stay_out (vpn_env []) demo_lib demo_pg demo_pg_laws amd64 demo_crypto vpn_uuids vpn_answers 1 0 GwZarinpal "key" sara_events
    vpn_init (result_of sara_run) (state_of sara_run));
    [apply zero_written|reflexivity|apply tables_fair|apply no_wizards| |unfold sara_run; apply vpn_run_pair].
  intros e He. repeat (apply elem_of_cons in He as [->|He]; [first [exact Logic.I|cbn; lia]|]). by apply not_elem_of_nil in He.
Defined.

(** The panel fails after the deduction (effect 6): five are gone, nothing is delivered or said. *)
Definition lost_buy := @confirmBuyWithBalance (vpn_env [6%nat]) _ _ _ _ _ ali "7" vpn_init.
Lemma confirmBuyWithBalance_outcomes_witness :
  let paid := set_users (deducted 5 (to_numeric (of_numeric price))) vpn_tables in
  ((result_of lost_buy = Ok tt /\ db (state_of lost_buy) = vpn_tables /\
      ((forall k, @env_fault (vpn_env [6%nat]) k = None) -> num_le (to_numeric (of_numeric price)) (vu_Balance ali_row) = false)) \/
   (num_le (to_numeric (of_numeric price)) (vu_Balance ali_row) = true /\
    ((exists sub n, result_of lost_buy = Ok tt /\ db (state_of lost_buy) = set_subs (fun l => l ++ [sub]) paid /\ vs_UserID sub = 5%N /\ vs_PlanID sub = 7%N /\
        vs_Status sub = SubActive /\ vs_ExpiresAt sub = expiry (@env_now (vpn_env [6%nat]) n) 30) \/
     (exists e, result_of lost_buy = Err e /\ db (state_of lost_buy) = paid /\ vw_out (ext (state_of lost_buy)) = [])))) /\
  balances (state_of lost_buy) = [f64_of_int 7] /\ length (vt_subs (db (state_of lost_buy))) = 0%nat.
Proof.
  intros paid. split; [|vm_compute; split; reflexivity].
  apply (@confirmBuyWithBalance_outcomes (vpn_env [6%nat]) demo_lib demo_pg amd64 vpn_uuids vpn_answers ali "7" 7 monthly ali_row
    vpn_init (result_of lost_buy) (state_of lost_buy));
    [reflexivity| |reflexivity..|unfold lost_buy; apply vpn_run_pair].
  apply (bool_decide_unpack _). vm_compute. exact Logic.I.
Defined.

(** One payment of zarinpal, presented again after another choice of the plan. *)
Definition ordered := @vpn_run (vpn_env []) _ _ _ _ _ _ 1 0 GwZarinpal "key" [press "plan:7"; press "gw:zarinpal"] vpn_init.
Definition honoured_run := @verifyOnlinePayment (vpn_env []) _ _ _ _ _ GwZarinpal ali "A7" (state_of ordered).
Definition again_events : list vpn_event := [press "plan:7"; press "gw:zarinpal"].
Definition again := @vpn_run (vpn_env []) _ _ _ _ _ _ 1 0 GwZarinpal "key" again_events (state_of honoured_run).
Definition refused_run := @verifyOnlinePayment (vpn_env []) _ _ _ _ _ GwZarinpal ali "A7" (state_of again).
Lemma reference_honoured_once_witness :
  ((exists sub, vt_subs (db (state_of honoured_run)) = vt_subs (db (state_of ordered)) ++ [sub]) /\
   vt_subs (db (state_of refused_run)) = vt_subs (db (state_of again)) /\ vt_payments (db (state_of refused_run)) = vt_payments (db (state_of again))) /\
  map fst (vw_invoices (ext (state_of ordered))) = ["A7"%string].
Proof.
  split; [|vm_compute; reflexivity].
  apply (@reference_honoured_once (vpn_env []) demo_lib demo_pg amd64 demo_crypto vpn_uuids vpn_answers 1 0 GwZarinpal "key" "zarinpal" ali ali "A7" again_events
    (state_of ordered) (result_of honoured_run) (state_of honoured_run) (result_of again) (state_of again) (result_of refused_run) (state_of refused_run));
    [reflexivity|reflexivity|discriminate|vm_compute; reflexivity|unfold honoured_run; apply vpn_run_pair|vm_compute; discriminate
    |unfold again; apply vpn_run_pair|vm_compute; reflexivity|unfold refused_run; apply vpn_run_pair].
Defined.

(** The same reference under the name card brings a subscription at each press; an
    approval brings the plan and the five that were paid for it; a panel that answers
    a refusal in JSON leaves a subscription without a user. *)
Definition card_events : list vpn_event := [press "plan:7"; press "gw:card"; press "verify_payment:A7"; press "plan:7"; press "gw:card"; press "verify_payment:A7"].
Example card_presses : let s := state_of (@vpn_run (vpn_env []) _ _ _ _ _ _ 1 0 GwZarinpal "key" card_events vpn_init) in
  map vy_RefCode (vt_payments (db s)) = [""; "A7"; "A7"]%string /\ length (vt_subs (db s)) = 2%nat /\ balances s = [f64_of_int 12].
Proof. vm_compute. split; [|split]; reflexivity. Qed.
Example approval : let s := state_of (@vpn_run (vpn_env []) _ _ _ _ _ _ 1 0 GwZarinpal "key" [EvUpdate (UpCallback boss "approve_pay:9")] vpn_init) in
  map vy_Status (vt_payments (db s)) = ["confirmed"%string] /\ map vs_UserID (vt_subs (db s)) = [5%N] /\ balances s = [f64_of_int 17].
Proof. vm_compute. split; [|split]; reflexivity. Qed.
Definition refusing : VpnAnswers := {| panel_reply := fun _ _ => {| hr_status := 409; hr_user := Some {|
    mz_Username := ""; mz_Status := ""; mz_DataLimit := 0; mz_UsedTraffic := 0; mz_Links := [] |} |};
  login_reply := fun _ _ => true; panel_active := fun _ => Some 0; zp_request := fun _ => None; zp_verify := fun _ _ => None;
  np_request := fun _ => None; np_verify := fun _ _ => None; is_member := fun _ _ => true; http_lost := fun _ => false; uuid_of_bad := fun _ => 0%N |}.
Example refused_by_the_panel : let s := state_of (@confirmBuyWithBalance (vpn_env []) _ _ _ _ refusing ali "7" vpn_init) in
  map (fun x => (vs_Username x, vs_Status x)) (vt_subs (db s)) = [(""%string, SubActive)] /\ balances s = [f64_of_int 7].
Proof. vm_compute. split; reflexivity. Qed.
